(* ===== verification/_CoqProject ===== *)
-Q . S2P
Prelude.v
Merkle.v
Text.v
Json.v
Errors.v
Timestamps.v
Canonical.v
JsonEq.v
Base64.v
Contracts.v
Runtime.v
Samples.v
ProofService.v
Policy.v
SecurityPosture.v
Replay.v
ReplayLedger.v
ReplayStore.v
Escrow.v
Dialects.v
Receipts.v
Artifacts.v
EvidenceQuery.v
Attestation.v
AnchorLog.v
Transparency.v
Countersignature.v
TrustArtifacts.v
WellKnown.v
LocalSigner.v
KeyLifecycle.v
ManagedSigners.v
Outcomes.v
ModeAware.v
IntentRecord.v
InvoiceLedger.v
DomainApi.v
DomainPolicy.v
Idempotency.v
Credentials.v
Effects.v
Executor.v
ExecutorFrames.v
ExecutorProofs.v
Writers.v
Middleware.v
Kernel.v
RemoteClients.v
Endpoint.v
Boundary.v
Preflight.v
PolicyPacks.v
Bundle.v
Gate.v
Adapters.v
McpServer.v
DomainFlow.v
Scanner.v
RuntimeServer.v
