(* ===== verification/Prelude.v ===== *)
(** * The Actenon kernel, verified

    Actenon is a proof-gated execution kernel, written in Python under
    [src/actenon].  A caller submits an action intent; the policy decides; an
    allowed intent gets a signed proof (a PCCB) and an escrow; a protected
    boundary later verifies the proof, claims its replay key, consumes the escrow,
    and only then calls the handler that has the side effect.  Every attempt ends
    in a receipt or a refusal.  This library models those parts and proves what
    makes them correct.

    ** How the parts interact

    [core/kernel.py: submit_intent] parses the payload ([api/intake.py]), asks the
    policy engine ([policy/engine.py]), mints the proof ([proof/service.py]), lets
    an optional seal service replace it, issues the escrow ([escrow/]) and writes
    the decision receipt ([receipts/factory.py]).  An execution goes through the
    escrow middleware ([verifier/middleware.py]) or through the protected executor
    ([execution/protected_executor.py]), which adds effect ownership
    ([execution/effects.py]), brokered credentials ([credentials/broker.py]),
    idempotency ([idempotency.py]) and a fail-closed replay store
    ([replay/dbapi.py], [replay/service.py]).  Three facades put these together:
    the gate ([gate.py]), with a preflight policy pack ([preflight/]) before the
    executor; the resource boundary ([boundary/]), which verifies a token and
    leaves the action to its caller; and the endpoints and the SDK of
    [verifier/].  Adapters ([adapters/]) carry a framework's request to the gate.
    Signatures come from the signers of [proof/signers] and are trusted through
    the issuer's published keys; outcomes are attested, anchored and written to a
    transparency log, whose proofs third parties check.  All of them exchange the
    records of [models/contracts.py] and [models/runtime.py], hash and sign the
    canonical bytes of [proof/canonical.py], and read JSON with [core/json.py].

    ** Files, in dependency order

    Foundations:
    - [Prelude]: results ([res]), stateful fallible computations ([M]), lenses,
      the tactics [res_inv] and [M_inv], and shared lemmas.
    - [Merkle]: RFC 6962 trees and the two proof-checking loops of
      [verifier/transparency.py], with their soundness.
    - [Text]: bytes, UTF-8, splitting and joining.
    - [Json]: Python's JSON values and [core/json.py]; [JsonEq]: equality of such
      values and canonical bytes.
    - [Errors]: [core/errors.py]; what a call can raise.
    - [Timestamps]: [format_timestamp] and [parse_timestamp] of
      [models/contracts.py], and [isoformat].
    - [Canonical]: [proof/canonical.py], with a decoder for its output.
    - [Base64]: the base64url codec of [proof/signers/base.py].
    - [Contracts]: the contract classes of [models/contracts.py] with their
      [from_dict] and [to_dict].
    - [Runtime]: [models/runtime.py] and the state machine of
      [models/execution.py].
    - [Samples]: concrete values for the witnesses.

    Proofs, policy and state:
    - [ProofService]: [PCCBMinter.mint], [PCCBVerifier.verify] and the refusal
      messages.
    - [Policy]: [policy/engine.py]; [DomainApi] and [DomainPolicy]: the refund and
      invoice intent builders ([api/]) and their policies ([policy/]);
      [DomainFlow]: builder, intake and engine together.
    - [SecurityPosture]: [security_posture.py] and the default replay store.
    - [Replay]: the database replay store, one definition per method and one per
      transaction; [ReplayLedger]: the abstract ledger it implements, with the
      refinement; [ReplayStore]: the interface the boundary relies on (a class
      with its laws), its instances and [ReplayProtector].
    - [Escrow]: modules [Memory] and [Sqlite] for the two implementations, the
      classes [CapabilityEscrow] and [LiveEscrow] they both meet, and their
      agreement.
    - [Dialects]: how the stores' connections are opened ([replay/sqlite.py],
      [replay/postgres.py], [escrow/service.py]).
    - [Idempotency], [Credentials], [Effects]: the three further components of
      the executor.

    Signers and trust:
    - [LocalSigner] ([proof/signers/local.py]), [ManagedSigners] (the KMS, HSM and
      external-managed signers and the AWS backend), [KeyLifecycle]
      ([proof/signers/key_lifecycle.py]) and [WellKnown]
      ([proof/signers/well_known.py]: key documents, the caching resolver, the
      signature verifier).
    - [Countersignature] and [TrustArtifacts]: the two offline verifiers of
      [verifier/] for counter-signed receipts, issuer status and approvals.

    Outcomes:
    - [Receipts]: the receipt and refusal factories, the refund and invoice
      summaries, redaction; [Artifacts]: the artifact stores; [Writers]: the
      outcome writers and the execution graph.
    - [Attestation] ([receipts/attestation.py]), [AnchorLog] (the local anchor
      log of [anchors/local_log.py]), [Transparency] (checkpoints, inclusion and
      consistency proofs of [verifier/transparency.py]).
    - [EvidenceQuery]: the queries of [evidence/query.py] over the stores.
    - [Outcomes] ([outcomes.py]), [ModeAware] ([execution/mode_aware.py]),
      [IntentRecord] and [InvoiceLedger] (the models of those names and the static
      reconciliation mapper).

    Boundaries:
    - [Executor]: [ProtectedExecutor], its construction and [execute] as the
      sequence of its phases; [ExecutorFrames]: which phase touches what;
      [ExecutorProofs]: its theorems.
    - [Middleware]: [ProtectedEndpointMiddleware.execute]; [Kernel]: intake,
      [submit_intent], [execute], and the theorems from submission to effect;
      [Endpoint]: the verifier SDK and the two protected endpoints.
    - [Boundary]: [BoundaryVerifier]; [Preflight]: the preflight models, evidence
      and engine; [PolicyPacks]: its rules and packs; [Gate]: [ActenonGate];
      [Adapters]: the protected edge and the framework adapters.

    Services and tools around them:
    - [RemoteClients]: the proof-seal client ([proof/signers/proof_seal.py]), the
      execution-graph client ([execution_graph.py]) with its worker threads, and
      the mint audit record ([proof/audit.py]).
    - [McpServer]: [mcp_server.py], its four tools and its decision log.
    - [RuntimeServer]: [local_runtime_server.py], the kernel behind an HTTP
      interface with its artifacts on disk.
    - [Bundle]: the export manifest of [local_runtime.py] and the verification of
      a bundle.
    - [Scanner]: the checking half of [scanner.py]: reports and grades, the probes of
      a verifier, and the built-in harness over the kernel.

    ** State, errors and effects

    A Python call that can raise is a [res]; one that also changes state is an
    [M], a function from the state to a result and the next state, and the state
    survives an exception.  Components keep their own state (a database with its
    mutation counter, a map of escrows, an association list of idempotency
    records); the executor, the middleware and the kernel work on a [world] that
    holds them all, and reach a component through a lens.  The handler is a
    parameter with its own environment; every call of it is recorded in
    [w_calls], which is what the safety theorems speak about.  Local variables the
    [except] clauses read are a record beside the world.

    Strings are sequences of code points written as generalised UTF-8 bytes, so
    byte order is code point order.  A dict is an association list in insertion
    order.  A field the code does not validate stays a [json] value with [JNull]
    for [None].  A datetime is a number of microseconds since year one; where the
    code compares formatted timestamps inside SQL the model compares the texts.
    Identifiers drawn from [uuid4] and readings of the clock are arguments.

    ** What the theorems show

    - Mediation: the executor calls the handler at most once per execution and
      only behind a verified proof, an allowing decision, the owned effect, the
      consumed escrow and the replay key this execution consumed; along any
      sequence of executions, with other workers changing the store between the
      calls, at most once per key.  The middleware gives the same per escrow.
      From the kernel's side every call was admitted by an earlier submission the
      policy allowed, and what was admitted does run once its proof is accepted
      and its key free.  The gate, the endpoints,
      the edge and the boundary inherit this: each runs (or reports valid) only
      the presented action, in a context of its own declarations.
    - Proofs: [verify] accepts exactly what a declarative specification accepts;
      a minted proof verifies; one proof authorises one action; the signature
      covers every field; refusals of unauthentic proofs carry no information,
      and apart from refusals only the errors of its environment leave [verify].
    - Keys: a signature is accepted only under the issuer's key of that name,
      meant for the use and in force; a managed signer signs only with an active
      key of its purpose; the life cycle never undoes a revocation.
    - Trust artifacts: an accepted approval, status, counter-signature,
      attestation or transparency proof says what it claims about exactly the
      presented artifact, unless the hash collides.
    - Canonical bytes: they determine the value up to key order, and key order
      does not matter; contracts survive printing and reading.
    - Strict JSON: the loader returns the value of a document exactly when no
      object of it repeats a key and it is within the limits.
    - Replay store: each method answers and moves the table as the operation of an
      abstract ledger does, also transaction by transaction under any interleaving
      of workers; a key is consumed at most once; a store
      rolled back behind an observed mutation refuses everything.  A SQLite
      connection is used only once its durability settings are in place.
    - Escrow: at most one consumption per escrow; SQLite and memory agree under a
      clock that does not go back.
    - Policy: the most restrictive verdict wins and nothing is allowed by
      default; the domain engines and the preflight packs allow exactly what
      their declarative specifications describe; approval artifacts count only
      when verified for the action under a trusted key set of their approver.
      (The access-governance pack is characterised too, but what it does is not
      what its guide says.)
    - Outcomes: for an intent the factories can describe, an execution without
      effect protection and with a writer that records what it is given returns a
      result and its receipt is the last artifact written, whatever the verifier,
      the stores, the broker and the handler raise; a recorded operation is not
      run again.
    - Evidence: asked for a receipt, the query service reports a verified execution
      exactly when the receipt, its intent and the proof it names load, belong
      together and rest on a verified chain of cited receipts.
    - Services: the MCP gate tool answers ALLOW only for the action it ran, and
      its log is a hash chain with one entry for each answered decision; the
      runtime service returns a proof only for an intent its policy authorises,
      writes a request's files to one directory of its own and publishes no
      symmetric key; a bundle is reported verified exactly when its manifest
      describes it, and an exported one exactly when the artifacts of its chains
      and records belong together.
    - Scanner: on a pair a verifier accepts, the scan reports exactly what the
      disclosure mode lets it observe; grades do not improve when checks get worse;
      the harness, run on this model, finds every protection in place.
    - Remote parties: what the seal service answers can stop an admission or
      replace its proof, never widen what a boundary accepts; a graph endpoint
      that fails never changes an outcome.

    ** Bounds and fuel

    [Json.depth_loop] runs with one unit of fuel per node of the value and
    [Canonical]'s decoder with one per byte of the text; both are shown to be
    enough, so the functions that call them are total.  [Replay.inspect_loop] has
    two units: [inspect] repeats its transaction only after marking the row
    expired, and the second pass then finds it so.  The shifting loops of the
    Merkle verifiers run with the binary logarithm of the index plus one, and
    [Merkle.shift_loops_terminate] shows that to be enough.  All other recursion
    is structural.

    ** Parameters

    The package [actenon_protocol] is not part of the repository: its constants
    and functions are the classes [Canonical.Protocol],
    [ProofService.ProtocolAuthority], [Effects.ProtocolEffects],
    [Outcomes.Catalogue] and [ModeAware.ExecutionResults].  The standard library
    and third parties are the classes [Merkle.Sha256], [Transparency.Ed25519],
    [WellKnown.Rsa], [LocalSigner.Hmac], [Base64.Base64Padding],
    [WellKnown.UrlLibrary], [WellKnown.Network], [Receipts.PyText] (Python's [str]
    and [int] on arbitrary values, letter case), [Artifacts.Platform] (the
    interpreter's differences) and the JSON printers of the modules that write
    JSON lines.  Revocation checkers, the seal service, the effect ledger, signing
    backends and outcome writers are arguments.  [demo_protocol] and the other
    samples instantiate them, so that every theorem with hypotheses has a run in
    which they hold.

    ** Not modelled

    Cryptographic primitives, sockets, threads other than the graph's workers,
    file locks, logging and warnings.  The tools that only present or drive the
    modelled operations: the command line, the trace viewer, the demos, the
    conformance suite, and of [local_runtime.py] the bootstrap, the doctor, the
    simulations and the archive format.  The static half of [scanner.py] searches
    source text with regular expressions and its verdict is a heuristic with no
    specification to meet; the coverage matrix tabulates simulation runs.  Inputs
    outside the model (a dict with keys that are not strings, an escrow identifier that
    is not a string) end in [OutOfModel]. *)

From Stdlib Require Export ZArith Lia.
From stdpp Require Export base list strings gmap sorting.

#[global] Set Default Goal Selector "!".

Declare Scope kernel_scope.
Delimit Scope kernel_scope with kernel.

(** ** Fallible computations: the value a Python call returns or the exception
    it raises. *)
Inductive res (E A : Type) : Type :=
| Ok (a : A)
| Err (e : E).
Arguments Ok {E A} a.
Arguments Err {E A} e.

#[global] Instance res_ret E : MRet (res E) := fun A a => Ok a.
#[global] Instance res_bind E : MBind (res E) := fun A B f m =>
  match m with Ok a => f a | Err e => Err e end.
#[global] Instance res_fmap E : FMap (res E) := fun A B f m =>
  match m with Ok a => Ok (f a) | Err e => Err e end.
#[global] Instance res_eq_dec {E A} `{EqDecision E, EqDecision A} : EqDecision (res E A).
Proof. solve_decision. Defined.

Definition is_ok {E A} (r : res E A) : bool :=
  match r with Ok _ => true | Err _ => false end.

Lemma bind_Ok {E A B} (m : res E A) (f : A -> res E B) b :
  m ≫= f = Ok b <-> exists a, m = Ok a /\ f a = Ok b.
Proof. destruct m; naive_solver. Qed.

Lemma bind_Err {E A B} (m : res E A) (f : A -> res E B) e :
  m ≫= f = Err e <-> m = Err e \/ exists a, m = Ok a /\ f a = Err e.
Proof. destruct m; naive_solver. Qed.

(** Left-to-right evaluation of a fallible function over a list, as a Python
    generator inside [tuple(...)] evaluates it. *)
Section MapM.
Context {E A B : Type} (f : A -> res E B).
Fixpoint res_mapM (l : list A) : res E (list B) :=
  match l with
  | [] => Ok []
  | a :: l => b ← f a; bs ← res_mapM l; Ok (b :: bs)
  end.
End MapM.

Lemma res_mapM_Ok {E A B} (f : A -> res E B) l bs :
  res_mapM f l = Ok bs <-> Forall2 (fun a b => f a = Ok b) l bs.
Proof.
  revert bs; induction l as [|a l IH]; intros bs; simpl.
  - split; [intros [= <-]; constructor | by inversion 1].
  - rewrite bind_Ok. setoid_rewrite bind_Ok. split.
    + intros (b & Hb & bs' & Hbs & [= <-]). constructor; [done|]. by apply IH.
    + inversion 1; subst. eexists; split; [done|]. eexists; split; [by apply IH|done].
Qed.

(** A relation between lists may use that its left elements are in the list. *)
Lemma Forall2_elem_of_l {A B} (P : A -> B -> Prop) l k :
  Forall2 P l k -> Forall2 (fun a b => a ∈ l /\ P a b) l k.
Proof.
  induction 1 as [|a b l k Hab Hlk IH]; constructor.
  - split; [left|done].
  - eapply Forall2_impl; [exact IH|]. intros ?? [??]. split; [by right|done].
Qed.

Lemma res_mapM_ext {E A B} (f g : A -> res E B) l :
  Forall (fun a => f a = g a) l -> res_mapM f l = res_mapM g l.
Proof. induction 1 as [|a l Ha Hl IH]; simpl; [done|]. by rewrite Ha, IH. Qed.

(** ** Stateful, fallible computations.  The state survives an exception, as the
    heap of a Python process does. *)
Definition M (E W A : Type) : Type := W -> res E A * W.

#[global] Instance M_ret E W : MRet (M E W) := fun A a w => (Ok a, w).
#[global] Instance M_bind E W : MBind (M E W) := fun A B f m w =>
  match m w with
  | (Ok a, w') => f a w'
  | (Err e, w') => (Err e, w')
  end.

Definition raise {E W A} (e : E) : M E W A := fun w => (Err e, w).
Definition gets {E W A} (f : W -> A) : M E W A := fun w => (Ok (f w), w).
Definition modify {E W} (f : W -> W) : M E W unit := fun w => (Ok tt, f w).
Definition lift {E W A} (r : res E A) : M E W A := fun w => (r, w).
Definition try_catch {E W A} (m : M E W A) (h : E -> M E W A) : M E W A := fun w =>
  match m w with
  | (Ok a, w') => (Ok a, w')
  | (Err e, w') => h e w'
  end.

Lemma M_bind_Ok {E W A B} (m : M E W A) (f : A -> M E W B) w b w' :
  (m ≫= f) w = (Ok b, w') <-> exists a w1, m w = (Ok a, w1) /\ f a w1 = (Ok b, w').
Proof. unfold mbind, M_bind. destruct (m w) as [[a|e] w1]; naive_solver. Qed.

Lemma M_bind_Err {E W A B} (m : M E W A) (f : A -> M E W B) w e w' :
  (m ≫= f) w = (Err e, w') <-> m w = (Err e, w') \/ exists a w1, m w = (Ok a, w1) /\ f a w1 = (Err e, w').
Proof. unfold mbind, M_bind. destruct (m w) as [[a|e'] w1]; naive_solver. Qed.

Lemma M_bind_run {E W A B} (m : M E W A) (f : A -> M E W B) w :
  (m ≫= f) w = match m w with (Ok a, w') => f a w' | (Err e, w') => (Err e, w') end.
Proof. done. Qed.

Lemma try_catch_Ok {E W A} (m : M E W A) (h : E -> M E W A) w a w' :
  try_catch m h w = (Ok a, w') <-> m w = (Ok a, w') \/ exists e w1, m w = (Err e, w1) /\ h e w1 = (Ok a, w').
Proof. unfold try_catch. destruct (m w) as [[b|e] w1]; naive_solver. Qed.

(** A computation on one part of a larger state: a component's own state inside
    the state of the process. *)
Record lens (S T : Type) := mkLens { lget : S -> T; lset : T -> S -> S }.
Arguments lget {S T} _ _.
Arguments lset {S T} _ _ _.

Definition zoom {E S T A} (l : lens S T) (m : M E T A) : M E S A := fun s =>
  let '(r, t) := m (lget l s) in (r, lset l t s).

Lemma zoom_Ok {E S T A} (l : lens S T) (m : M E T A) s a s' :
  zoom l m s = (Ok a, s') <-> exists t, m (lget l s) = (Ok a, t) /\ s' = lset l t s.
Proof. unfold zoom. destruct (m (lget l s)) as [r t]. naive_solver. Qed.

(** Break a successful stateful computation into its steps. *)
Ltac M_inv :=
  repeat match goal with
  | H : (_ ≫= _) _ = (Ok _, _) |- _ => apply M_bind_Ok in H as (? & ? & ? & H)
  | H : zoom _ _ _ = (Ok _, _) |- _ => apply zoom_Ok in H as (? & ? & ?)
  | H : mret _ _ = (Ok _, _) |- _ => injection H as ? ?
  | H : raise _ _ = (Ok _, _) |- _ => discriminate H
  | H : lift _ _ = (Ok _, _) |- _ => injection H as ? ?
  | H : gets _ _ = (Ok _, _) |- _ => injection H as ? ?
  | H : modify _ _ = (Ok _, _) |- _ => injection H as ?
  end; simplify_eq.

Create HintDb kernel.

(** Break a successful [res] computation into its steps. *)
Ltac res_inv :=
  repeat match goal with
  | H : _ ≫= _ = Ok _ |- _ => apply bind_Ok in H as (? & ? & H)
  | H : Ok _ = Ok _ |- _ => injection H as H
  | H : Err _ = Ok _ |- _ => discriminate H
  | H : Ok _ = Err _ |- _ => discriminate H
  end; simplify_eq.

(** Case analysis on the scrutinee of the first [match] or [if] of a
    hypothesis, keeping its equation. *)
Ltac case_hyp H :=
  match type of H with
  | context [match ?x with _ => _ end] => destruct x eqn:?
  end.

(** ** Strings *)
Definition str_eqb (a b : string) : bool := String.eqb a b.

Lemma string_app_assoc (a b c : string) : (a +:+ b) +:+ c = a +:+ (b +:+ c).
Proof. induction a as [|x a IH]; [done|]. change (String x ((a +:+ b) +:+ c) = String x (a +:+ (b +:+ c))). by rewrite IH. Qed.

Lemma string_app_nil_l (a : string) : "" +:+ a = a.
Proof. done. Qed.

Lemma string_app_nil_r (a : string) : a +:+ "" = a.
Proof. induction a as [|x a IH]; [done|]. change (String x (a +:+ "") = String x a). by rewrite IH. Qed.

Lemma string_app_cons x (a b : string) : String x a +:+ b = String x (a +:+ b).
Proof. done. Qed.

Lemma string_app_inj_l (a b c : string) : a +:+ b = a +:+ c -> b = c.
Proof. induction a as [|x a IH]; [done|]. rewrite !string_app_cons. intros [= H]. auto. Qed.

Lemma string_length_app (a b : string) : String.length (a +:+ b) = String.length a + String.length b.
Proof. induction a as [|x a IH]; [done|]. rewrite string_app_cons. simpl. by rewrite IH. Qed.

(** [sep.join(l)] *)
Fixpoint join (sep : string) (l : list string) : string :=
  match l with
  | [] => ""
  | [x] => x
  | x :: l => x +:+ sep +:+ join sep l
  end.

(** ** Association lists with string keys: Python dicts in insertion order. *)
Section Assoc.
Context {A : Type}.
Implicit Types (d : list (string * A)).

Fixpoint assoc (k : string) d : option A :=
  match d with
  | [] => None
  | (k', v) :: d => if String.eqb k k' then Some v else assoc k d
  end.

(** [d[k] = v]: an existing key keeps its position, a new one goes last. *)
Fixpoint assoc_set (k : string) (v : A) d : list (string * A) :=
  match d with
  | [] => [(k, v)]
  | (k', v') :: d => if String.eqb k k' then (k', v) :: d else (k', v') :: assoc_set k v d
  end.

(** [{**d1, **d2}] *)
Definition assoc_merge d1 d2 : list (string * A) :=
  fold_left (fun d kv => assoc_set kv.1 kv.2 d) d2 d1.

(** [key in d] *)
Definition has_key (k : string) d : bool :=
  match assoc k d with Some _ => true | None => false end.

Lemma assoc_set_eq k v d : assoc k (assoc_set k v d) = Some v.
Proof.
  induction d as [|[k' v'] d IH]; simpl; [by rewrite String.eqb_refl|].
  destruct (String.eqb_spec k k') as [->|Hne]; simpl.
  - by rewrite String.eqb_refl.
  - rewrite (proj2 (String.eqb_neq k k')) by done. done.
Qed.

Lemma assoc_set_ne k k' v d : k <> k' -> assoc k' (assoc_set k v d) = assoc k' d.
Proof.
  intros Hne. induction d as [|[k0 v0] d IH]; simpl.
  - destruct (String.eqb_spec k' k); congruence.
  - destruct (String.eqb_spec k k0) as [->|]; simpl.
    + destruct (String.eqb_spec k' k0); congruence.
    + by rewrite IH.
Qed.

Lemma assoc_Some_elem k v d : assoc k d = Some v -> (k, v) ∈ d.
Proof.
  induction d as [|[k' v'] d IH]; simpl; [done|].
  destruct (String.eqb_spec k k') as [->|]; intros H.
  - injection H as ->. constructor.
  - right. auto.
Qed.

Lemma assoc_None_keys k d : assoc k d = None <-> k ∉ d.*1.
Proof.
  induction d as [|[k' v'] d IH]; csimpl; [by split; [intros _; apply not_elem_of_nil|]|].
  rewrite not_elem_of_cons. destruct (String.eqb_spec k k') as [->|Hne].
  - naive_solver.
  - rewrite IH. naive_solver.
Qed.

Lemma elem_assoc k v d : NoDup d.*1 -> (k, v) ∈ d -> assoc k d = Some v.
Proof.
  induction d as [|[k' v'] d IH]; csimpl; [by intros _ ?%elem_of_nil|].
  rewrite NoDup_cons. intros [Hni Hnd] [[= -> ->]|Hin]%elem_of_cons.
  - by rewrite String.eqb_refl.
  - destruct (String.eqb_spec k k') as [->|]; [|by apply IH].
    destruct Hni. apply list_elem_of_fmap. by exists (k', v).
Qed.
End Assoc.
