(* ===== verification/Merkle.v ===== *)
(** * Merkle trees and the two proof loops of [verifier/transparency.py]

    The reference is RFC 6962: the tree over a list of leaves, split at the
    largest power of two below its length ([rfc_tree]), its root hash and its
    audit paths ([rfc_path]).  The code walks bit patterns instead: the loops of
    [verify_inclusion] and [verify_consistency] over [fn] and [sn].

    The theorems: the shifting loops reach their exit condition; an audit path of
    the tree is accepted; a path that is accepted for a root proves membership at
    the index it claims, and an accepted consistency path proves that the old
    leaves are a prefix of the new ones, both unless the hash collides on the
    inputs that occur. *)

From Stdlib Require Import Ascii.
From S2P Require Import Prelude.

(** ** Hashing *)
Class Sha256 := {
  (** [hashlib.sha256(data).digest()] *)
  sha256_digest : string -> string;
  sha256_digest_length : forall data, String.length (sha256_digest data) = 32
}.

Definition byte_00 : ascii := ascii_of_N 0.
Definition byte_01 : ascii := ascii_of_N 1.

Section Hashing.
Context `{Sha256}.

(** The argument is the decoded digest value. *)
Definition _leaf_hash (digest : string) : string := sha256_digest (String byte_00 digest).
Definition _node_hash (left right : string) : string := sha256_digest (String byte_01 (left +:+ right)).

(** ** The loops *)

(** [while fn and not (fn & 1): fn >>= 1; sn >>= 1] *)
Fixpoint while_even (fuel : nat) (fn sn : Z) : Z * Z :=
  match fuel with
  | O => (fn, sn)
  | S fuel => if negb (fn =? 0)%Z && (Z.land fn 1 =? 0)%Z
              then while_even fuel (Z.shiftr fn 1) (Z.shiftr sn 1) else (fn, sn)
  end.

(** [while fn & 1: fn >>= 1; sn >>= 1] *)
Fixpoint while_odd (fuel : nat) (fn sn : Z) : Z * Z :=
  match fuel with
  | O => (fn, sn)
  | S fuel => if negb (Z.land fn 1 =? 0)%Z then while_odd fuel (Z.shiftr fn 1) (Z.shiftr sn 1) else (fn, sn)
  end.

(** One unit of fuel per bit of [fn] and one more. *)
Definition loop_fuel (fn : Z) : nat := S (Z.to_nat (Z.log2 fn)).

(** [fn & 1 or fn == sn] *)
Definition goes_left (fn sn : Z) : bool := negb (Z.land fn 1 =? 0)%Z || (fn =? sn)%Z.

(** The [for sibling in audit_path] loop of [verify_inclusion]: the final [sn] and
    [node]. *)
Fixpoint inclusion_loop (audit_path : list string) (fn sn : Z) (node : string) : Z * string :=
  match audit_path with
  | [] => (sn, node)
  | sibling :: rest =>
      if goes_left fn sn then
        let '(fn', sn') := while_even (loop_fuel fn) fn sn in
        inclusion_loop rest (Z.shiftr fn' 1) (Z.shiftr sn' 1) (_node_hash sibling node)
      else inclusion_loop rest (Z.shiftr fn 1) (Z.shiftr sn 1) (_node_hash node sibling)
  end.

(** The [while proof_index < len(path)] loop of [verify_consistency]; [None] when
    the path has extra hashes. *)
Fixpoint consistency_loop (path : list string) (fn sn : Z) (first second : string) : option (Z * string * string) :=
  match path with
  | [] => Some (sn, first, second)
  | sibling :: rest =>
      if (sn =? 0)%Z then None
      else if goes_left fn sn then
        let '(fn', sn') := while_even (loop_fuel fn) fn sn in
        consistency_loop rest (Z.shiftr fn' 1) (Z.shiftr sn' 1) (_node_hash sibling first) (_node_hash sibling second)
      else consistency_loop rest (Z.shiftr fn 1) (Z.shiftr sn 1) first (_node_hash second sibling)
  end.

(** ** RFC 6962 *)
Inductive mtree := MLeaf (digest : string) | MNode (l r : mtree).

(** What is hashed at the root of a tree, and its hash. *)
Fixpoint mroot (t : mtree) : string :=
  match t with MLeaf d => _leaf_hash d | MNode l r => _node_hash (mroot l) (mroot r) end.
Definition minput (t : mtree) : string :=
  match t with MLeaf d => String byte_00 d | MNode l r => String byte_01 (mroot l +:+ mroot r) end.
End Hashing.

(** The largest power of two below [n]. *)
Definition split_point (n : nat) : nat := 2 ^ Nat.log2 (n - 1).

Definition no_tree : mtree := MLeaf "".

(** The tree over a list of subtrees; fuel is their number. *)
Fixpoint rfc_tree_n (fuel : nat) (l : list mtree) : mtree :=
  match l with
  | [] => no_tree
  | [t] => t
  | _ =>
      match fuel with
      | O => no_tree
      | S fuel => let k := split_point (length l) in MNode (rfc_tree_n fuel (take k l)) (rfc_tree_n fuel (drop k l))
      end
  end.
Definition rfc_tree (l : list mtree) : mtree := rfc_tree_n (length l) l.

Definition tree_of (leaves : list string) : mtree := rfc_tree (map MLeaf leaves).

Section Root.
Context `{Sha256}.
(** [MTH] of the leaves. *)
Definition merkle_root (leaves : list string) : string :=
  match leaves with [] => sha256_digest "" | _ => mroot (tree_of leaves) end.

(** [PATH(m, D)], the audit path of index [m]. *)
Fixpoint rfc_path_n (fuel m : nat) (l : list mtree) : list string :=
  match l with
  | [] | [_] => []
  | _ =>
      match fuel with
      | O => []
      | S fuel =>
          let k := split_point (length l) in
          if m <? k then rfc_path_n fuel m (take k l) ++ [mroot (rfc_tree (drop k l))]
          else rfc_path_n fuel (m - k) (drop k l) ++ [mroot (rfc_tree (take k l))]
      end
  end.
Definition rfc_path (m : nat) (l : list mtree) : list string := rfc_path_n (length l) m l.
End Root.

(** ** Facts on the tree *)
Lemma split_point_bounds n : 2 <= n -> 1 <= split_point n < n /\ n <= 2 * split_point n.
Proof.
  intros Hn. unfold split_point. destruct (Nat.log2_spec (n - 1)) as [Hlo Hhi]; [lia|]. simpl in Hhi. lia.
Qed.

Lemma split_point_double n : 3 <= n -> split_point n = 2 * split_point (Nat.div2 (n + 1)).
Proof.
  intros Hn. unfold split_point.
  assert (exists q, 1 <= q /\ (n - 1 = 2 * q \/ n - 1 = 2 * q + 1)) as (q & Hq & Hcase).
  { exists (Nat.div2 (n - 1)). pose proof (Nat.div2_odd (n - 1)) as Hd. destruct (Nat.odd (n - 1)); simpl in Hd; lia. }
  replace (Nat.div2 (n + 1) - 1) with q.
  - replace (Nat.log2 (n - 1)) with (S (Nat.log2 q)); [simpl; lia|].
    destruct Hcase as [->| ->]; [by rewrite Nat.log2_double by lia|].
    by rewrite Nat.log2_succ_double by lia.
  - destruct Hcase as [Hc|Hc].
    + replace (n + 1) with (2 * (q + 1)) by lia. rewrite Nat.div2_double. lia.
    + replace (n + 1) with (S (2 * (q + 1))) by lia. rewrite Nat.div2_succ_double. lia.
Qed.

Lemma rfc_tree_fuel fuel l : length l <= fuel -> rfc_tree_n fuel l = rfc_tree l.
Proof.
  unfold rfc_tree. remember (length l) as n eqn:Hn. revert fuel l Hn. induction n as [n IH] using lt_wf_ind.
  intros fuel [|a [|b r]] Hn Hf; [by destruct fuel, n|by destruct fuel, n|]. simpl in Hn.
  destruct fuel as [|fuel]; [lia|]. destruct n as [|n]; [lia|]. simpl.
  pose proof (split_point_bounds (S (S (length r)))) as Hk. simpl in Hk.
  set (k := split_point _) in *.
  f_equal.
  - pose proof (length_take_le (a :: b :: r) k) as Ht. simpl in Ht. transitivity (rfc_tree_n k (take k (a :: b :: r))).
    + apply (IH k); simpl; lia.
    + symmetry. apply (IH k); simpl; lia.
  - pose proof (length_drop (a :: b :: r) k) as Ht. simpl length in Ht.
    transitivity (rfc_tree_n (S (S (length r)) - k) (drop k (a :: b :: r))).
    + apply (IH (S (S (length r)) - k)); lia.
    + symmetry. apply (IH (S (S (length r)) - k)); lia.
Qed.

Lemma rfc_tree_split l : 2 <= length l ->
  rfc_tree l = MNode (rfc_tree (take (split_point (length l)) l)) (rfc_tree (drop (split_point (length l)) l)).
Proof.
  intros Hl. pose proof (split_point_bounds (length l) Hl) as Hk. destruct l as [|a [|b r]]; simpl in Hl; [lia..|].
  change (rfc_tree (a :: b :: r)) with (let k := split_point (length (a :: b :: r)) in
    MNode (rfc_tree_n (S (length r)) (take k (a :: b :: r))) (rfc_tree_n (S (length r)) (drop k (a :: b :: r)))).
  cbv zeta. rewrite !rfc_tree_fuel; [done|..].
  - rewrite length_drop. simpl length in *. lia.
  - rewrite length_take. simpl length in *. lia.
Qed.

(** ** Levels

    The tree built level by level: neighbours are joined and an odd last subtree
    moves up as it is. *)
Fixpoint pair_up (l : list mtree) : list mtree :=
  match l with a :: b :: r => MNode a b :: pair_up r | _ => l end.

Lemma pair_up_ind (P : list mtree -> Prop) :
  P [] -> (forall t, P [t]) -> (forall a b r, P r -> P (a :: b :: r)) -> forall l, P l.
Proof.
  intros H0 H1 H2. fix IH 1. intros [|a [|b r]]; [done|done|]. apply H2, IH.
Qed.

Lemma pair_up_length l : length (pair_up l) = Nat.div2 (length l + 1).
Proof. induction l as [| |a b r IH] using pair_up_ind; [done|done|]. simpl. by rewrite IH. Qed.

Lemma pair_up_app l r : Nat.even (length l) = true -> pair_up (l ++ r) = pair_up l ++ pair_up r.
Proof. induction l as [| |a b l IH] using pair_up_ind; [done|done|]. simpl. intros Hl. by rewrite IH. Qed.

Lemma even_double k : Nat.even (2 * k) = true.
Proof. apply Nat.even_spec. by exists k. Qed.

Lemma div2_plus_one k : Nat.div2 (2 * k + 1) = k.
Proof. rewrite Nat.add_1_r. apply Nat.div2_succ_double. Qed.

(** Both halves of a split level are split levels one up. *)
Lemma pair_up_split l k : 2 * k <= length l ->
  take k (pair_up l) = pair_up (take (2 * k) l) /\ drop k (pair_up l) = pair_up (drop (2 * k) l).
Proof.
  intros Hk. rewrite <- (take_drop (2 * k) l) at 1 3.
  assert (length (take (2 * k) l) = 2 * k) as Hlen by (rewrite length_take; lia).
  rewrite pair_up_app by (rewrite Hlen; apply even_double).
  assert (length (pair_up (take (2 * k) l)) = k) as Hlen' by (rewrite pair_up_length, Hlen; apply div2_plus_one).
  split; [by rewrite take_app_length'|by rewrite drop_app_length'].
Qed.

Lemma rfc_tree_pair_up l : rfc_tree (pair_up l) = rfc_tree l.
Proof.
  remember (length l) as n eqn:Hn. revert l Hn. induction n as [n IH] using lt_wf_ind. intros l ->.
  destruct (decide (length l < 3)) as [Hs|Hs].
  { destruct l as [|a [|b [|c r]]]; simpl in Hs; [done|done|done|lia]. }
  pose proof (split_point_bounds (length l)) as Hb. pose proof (split_point_double (length l)) as Hd.
  assert (2 <= length (pair_up l)) as Hl2.
  { rewrite pair_up_length. pose proof (Nat.div2_odd (length l + 1)) as Ho. destruct (Nat.odd (length l + 1)); simpl in Ho; lia. }
  rewrite (rfc_tree_split (pair_up l)), (rfc_tree_split l) by lia. rewrite pair_up_length, Hd by lia.
  set (k := split_point (Nat.div2 (length l + 1))) in *. destruct (pair_up_split l k) as [-> ->]; [lia|].
  f_equal.
  - apply (IH (2 * k)); [lia|rewrite length_take; lia].
  - apply (IH (length l - 2 * k)); [lia|by rewrite length_drop].
Qed.

(** One step up a level, index by index. *)
Lemma pair_up_lookup l q : pair_up l !! q =
  match l !! (2 * q), l !! (2 * q + 1) with
  | Some a, Some b => Some (MNode a b)
  | Some a, None => Some a
  | None, _ => None
  end.
Proof.
  revert q. induction l as [|t|a b r IH] using pair_up_ind; intros q; [done|by destruct q|].
  destruct q as [|q]; [done|]. simpl pair_up. rewrite lookup_cons_ne_0 by done. simpl pred.
  replace (2 * S q) with (S (S (2 * q))) by lia. rewrite IH. done.
Qed.

Fixpoint mheight (t : mtree) : nat := match t with MLeaf _ => 0 | MNode l r => S (Nat.max (mheight l) (mheight r)) end.

Lemma pair_up_height l j : Forall (fun t => mheight t <= j) l -> Forall (fun t => mheight t <= S j) (pair_up l).
Proof.
  induction l as [|t|a b r IH] using pair_up_ind; intros Hl; simpl; [done|..].
  - inversion_clear Hl. repeat constructor. lia.
  - apply Forall_cons in Hl as [Ha [Hb Hr]%Forall_cons]. constructor; [simpl; lia|auto].
Qed.

(** [subtree u t]: [u] occurs in [t]; [rspine t u]: [u] lies below [t] on its right
    edge. *)
Inductive subtree (u : mtree) : mtree -> Prop :=
| subtree_refl : subtree u u
| subtree_left l r : subtree u l -> subtree u (MNode l r)
| subtree_right l r : subtree u r -> subtree u (MNode l r).

Inductive rspine : mtree -> mtree -> Prop :=
| rspine_here l r : rspine (MNode l r) r
| rspine_below l r u : rspine r u -> rspine (MNode l r) u.

Lemma subtree_trans u t v : subtree u t -> subtree t v -> subtree u v.
Proof. intros Hu Hv. induction Hv; [done|by apply subtree_left|by apply subtree_right]. Qed.

Lemma rspine_height t u : rspine t u -> mheight u < mheight t.
Proof. induction 1; simpl; lia. Qed.

Lemma rspine_down t l r : rspine t (MNode l r) -> rspine t r.
Proof.
  remember (MNode l r) as u eqn:Hu. induction 1 as [l' r'|l' r' u Hr IH]; subst; constructor; [constructor|auto].
Qed.

Lemma rspine_parent a b l r : rspine (MNode a b) (MNode l r) -> rspine b r.
Proof. inversion 1 as [|? ? ? Hr]; subst; [constructor|by apply rspine_down in Hr]. Qed.

Lemma rfc_tree_subtree l t : t ∈ l -> subtree t (rfc_tree l).
Proof.
  remember (length l) as n eqn:Hn. revert l Hn. induction n as [n IH] using lt_wf_ind. intros l -> Ht.
  destruct (decide (length l < 2)) as [Hs|Hs].
  { destruct l as [|a [|b r]]; simpl in Hs; [by apply elem_of_nil in Ht| |lia].
    apply list_elem_of_singleton in Ht as ->. constructor. }
  pose proof (split_point_bounds (length l)) as Hb. rewrite rfc_tree_split by lia.
  rewrite <- (take_drop (split_point (length l)) l) in Ht at 1. apply elem_of_app in Ht as [Ht|Ht].
  - apply subtree_left. eapply IH; [|done|done]. rewrite length_take. lia.
  - apply subtree_right. eapply IH; [|done|done]. rewrite length_drop. lia.
Qed.

(** ** The shifting loops *)
Lemma land_1_even n : (Z.land (Z.of_nat n) 1 =? 0)%Z = Nat.even n.
Proof.
  change 1%Z with (Z.ones 1). rewrite Z.land_ones by lia. change (2 ^ 1)%Z with 2%Z.
  pose proof (Nat.div2_odd n) as Hd. rewrite <- Nat.negb_odd. destruct (Nat.odd n); simpl in Hd; simpl.
  - apply Z.eqb_neq. replace (Z.of_nat n) with (1 + Z.of_nat (Nat.div2 n) * 2)%Z by lia. by rewrite Z.mod_add.
  - apply Z.eqb_eq. replace (Z.of_nat n) with (Z.of_nat (Nat.div2 n) * 2)%Z by lia. by apply Z.mod_mul.
Qed.

Lemma shiftr_1_nat n : Z.shiftr (Z.of_nat n) 1 = Z.of_nat (Nat.div2 n).
Proof.
  rewrite Z.shiftr_div_pow2 by lia. change (2 ^ 1)%Z with 2%Z.
  pose proof (Nat.div2_odd n) as Hd. symmetry. destruct (Nat.odd n); simpl in Hd;
    [apply Z.div_unique with 1%Z|apply Z.div_unique with 0%Z]; lia.
Qed.

Lemma even_double_div2 n : Nat.even n = true -> n = 2 * Nat.div2 n.
Proof. intros Hn. pose proof (Nat.div2_odd n) as Hd. rewrite <- Nat.negb_even, Hn in Hd. simpl in Hd. lia. Qed.
Lemma odd_double_div2 n : Nat.even n = false -> n = 2 * Nat.div2 n + 1.
Proof. intros Hn. pose proof (Nat.div2_odd n) as Hd. rewrite <- Nat.negb_even, Hn in Hd. simpl in Hd. lia. Qed.

Lemma loop_fuel_bound f : 0 < f -> f < 2 ^ loop_fuel (Z.of_nat f).
Proof.
  intros Hf. unfold loop_fuel. destruct (Z.log2_spec (Z.of_nat f)) as [_ Hhi]; [lia|].
  pose proof (Z.log2_nonneg (Z.of_nat f)) as Hnn. rewrite <- Z.add_1_r, Z.pow_add_r in Hhi by lia.
  apply Nat2Z.inj_lt. rewrite Nat2Z.inj_pow, (Nat2Z.inj_succ (Z.to_nat _)), Z2Nat.id by done.
  rewrite <- Z.add_1_r, Z.pow_add_r by lia. exact Hhi.
Qed.

(** A property the loop body keeps holds at the exit, and the exit condition is
    reached. *)
Lemma while_even_spec (I : nat -> nat -> Prop) f s :
  (forall f s, f <> 0 -> Nat.even f = true -> I f s -> I (Nat.div2 f) (Nat.div2 s)) -> I f s ->
  exists f' s', while_even (loop_fuel (Z.of_nat f)) (Z.of_nat f) (Z.of_nat s) = (Z.of_nat f', Z.of_nat s') /\ I f' s' /\
    (f' = 0 \/ Nat.even f' = false).
Proof.
  intros Hstep. assert (f = 0 \/ f < 2 ^ loop_fuel (Z.of_nat f)) as Hb by (destruct (decide (f = 0)); [by left|right; apply loop_fuel_bound; lia]).
  revert Hb. generalize (loop_fuel (Z.of_nat f)) as n. intros n. revert f s. induction n as [|n IH]; intros f s Hb HI.
  { exists f, s. split_and!; [done|done|]. left. simpl in Hb. lia. }
  cbn [while_even]. rewrite land_1_even. destruct (Z.eqb_spec (Z.of_nat f) 0) as [Hz|Hz]; simpl; [exists f, s; split_and!; [done..|lia]|].
  destruct (Nat.even f) eqn:He; [|exists f, s; auto]. rewrite !shiftr_1_nat.
  apply even_double_div2 in He as He2. apply IH; [|apply Hstep; [lia|done|done]]. right. simpl in Hb. lia.
Qed.

Lemma while_odd_spec (I : nat -> nat -> Prop) f s :
  (forall f s, Nat.even f = false -> I f s -> I (Nat.div2 f) (Nat.div2 s)) -> I f s ->
  exists f' s', while_odd (loop_fuel (Z.of_nat f)) (Z.of_nat f) (Z.of_nat s) = (Z.of_nat f', Z.of_nat s') /\ I f' s' /\ Nat.even f' = true.
Proof.
  intros Hstep. assert (f < 2 ^ loop_fuel (Z.of_nat f)) as Hb by (destruct (decide (f = 0)) as [->|]; [by vm_compute; lia|apply loop_fuel_bound; lia]).
  revert Hb. generalize (loop_fuel (Z.of_nat f)) as n. intros n. revert f s. induction n as [|n IH]; intros f s Hb HI.
  { exists f, s. simpl in Hb. by replace f with 0 in * by lia. }
  cbn [while_odd]. rewrite land_1_even. destruct (Nat.even f) eqn:He; simpl; [exists f, s; auto|]. rewrite !shiftr_1_nat.
  apply odd_double_div2 in He as He2. apply IH; [|by apply Hstep]. simpl in Hb. lia.
Qed.

(** ** Soundness of the inclusion loop *)
Lemma append_inj a b a' b' : String.length a = String.length a' -> a +:+ b = a' +:+ b' -> a = a' /\ b = b'.
Proof.
  revert a'. induction a as [|c a IH]; intros [|c' a'] Hl He; try done.
  injection Hl as Hl. injection He as -> He. destruct (IH a' Hl He) as [-> ->]. done.
Qed.

(** The hash does not collide on a set of inputs. *)
Definition collision_free `{Sha256} (inputs : list string) : Prop :=
  forall x y, x ∈ inputs -> y ∈ inputs -> sha256_digest x = sha256_digest y -> x = y.

Fixpoint tree_inputs `{Sha256} (t : mtree) : list string :=
  minput t :: match t with MLeaf _ => [] | MNode l r => tree_inputs l ++ tree_inputs r end.

Section Soundness.
Context `{Sha256}.

Lemma mroot_input t : mroot t = sha256_digest (minput t).
Proof. by destruct t. Qed.

Lemma mroot_length t : String.length (mroot t) = 32.
Proof. rewrite mroot_input. apply sha256_digest_length. Qed.

Lemma subtree_input u t : subtree u t -> minput u ∈ tree_inputs t.
Proof. induction 1 as [|l r Hs IH|l r Hs IH]; [destruct u; left|simpl; set_solver..]. Qed.

(** The inputs the loop hashes. *)
Fixpoint inclusion_inputs (audit_path : list string) (fn sn : Z) (node : string) : list string :=
  match audit_path with
  | [] => []
  | sibling :: rest =>
      if goes_left fn sn then
        let '(fn', sn') := while_even (loop_fuel fn) fn sn in
        String byte_01 (sibling +:+ node) :: inclusion_inputs rest (Z.shiftr fn' 1) (Z.shiftr sn' 1) (_node_hash sibling node)
      else String byte_01 (node +:+ sibling) :: inclusion_inputs rest (Z.shiftr fn 1) (Z.shiftr sn 1) (_node_hash node sibling)
  end.

Variable (T : mtree) (inputs : list string).
Hypothesis inputs_cf : collision_free inputs.
Hypothesis inputs_tree : tree_inputs T ⊆ inputs.

(** A node hash that is the root of a part of the tree is the root of an inner
    node with those children. *)
Lemma node_hash_inv l r u : subtree u T -> String byte_01 (l +:+ r) ∈ inputs -> String.length l = 32 ->
  _node_hash l r = mroot u -> exists ul ur, u = MNode ul ur /\ l = mroot ul /\ r = mroot ur.
Proof.
  intros Hu Hin Hl He. rewrite mroot_input in He. apply inputs_cf in He; [|done|by apply inputs_tree, subtree_input].
  destruct u as [d|ul ur]; simpl in He; [discriminate He|]. injection He as He.
  apply append_inj in He as [-> ->]; [|by rewrite mroot_length]. eauto.
Qed.

(** What the rest of the path says of [node], at index [f] of a level: it is the
    root of the subtree there, or of one that is too low to end at a leaf. *)
Definition claim (L : list mtree) (j f s : nat) (node : string) : Prop :=
  exists t u, L !! f = Some t /\ subtree u T /\ node = mroot u /\
    (u = t \/ (f < s -> mheight u < j) /\ (f = s -> rspine t u)).

(** A level of [T]. *)
Record level (L : list mtree) (j s : nat) : Prop := {
  level_length : length L = S s;
  level_tree : rfc_tree L = T;
  level_height : Forall (fun t => mheight t <= j) L
}.

Lemma level_up L j s : level L j s -> level (pair_up L) (S j) (Nat.div2 s).
Proof.
  intros [Hl Ht Hh]. split.
  - rewrite pair_up_length, Hl, Nat.add_1_r. done.
  - by rewrite rfc_tree_pair_up.
  - by apply pair_up_height.
Qed.

Lemma level_subtree L j s f t : level L j s -> L !! f = Some t -> subtree t T.
Proof. intros [_ Hl _] Ht. rewrite <- Hl. apply rfc_tree_subtree. by eapply list_elem_of_lookup_2. Qed.

Lemma level_at L j s f : level L j s -> f <= s -> exists t, L !! f = Some t.
Proof. intros [Hl _ _] Hf. apply lookup_lt_is_Some_2. lia. Qed.

Lemma level_top L j : level L j 0 -> L = [T].
Proof. intros [Hl Ht _]. destruct L as [|t [|]]; simpl in Hl; [done| |done]. by rewrite <- Ht. Qed.

(** An odd index: the node is the right child. *)
Lemma claim_odd L j f s sibling node : level L j s -> f <= s -> Nat.even f = false ->
  String byte_01 (sibling +:+ node) ∈ inputs -> String.length sibling = 32 ->
  claim (pair_up L) (S j) (Nat.div2 f) (Nat.div2 s) (_node_hash sibling node) -> claim L j f s node.
Proof.
  intros Hl Hf Ho Hin Hs (t' & u' & Ht' & Hu' & Hn & Hc). apply odd_double_div2 in Ho.
  apply node_hash_inv in Hn as (ul & ur & -> & _ & ->); [|done..].
  destruct (level_at L j s f) as [b Hb]; [done..|]. destruct (level_at L j s (2 * Nat.div2 f)) as [a Ha]; [done|lia|].
  rewrite pair_up_lookup, Ha, <- Ho, Hb in Ht'. injection Ht' as <-.
  exists b, ur. split_and!; [done|eapply subtree_trans; [|exact Hu']; by apply subtree_right, subtree_refl|done|].
  destruct Hc as [[= -> ->]|[Hh Hr]]; [by left|right]. split.
  - intros Hlt. assert (Nat.div2 f < Nat.div2 s) as Hd; [|specialize (Hh Hd); simpl in Hh; lia].
    pose proof (Nat.div2_odd s) as Hs2. destruct (Nat.odd s); simpl in Hs2; lia.
  - intros ->. eapply rspine_parent. by apply Hr.
Qed.

(** An even index with a right neighbour: the node is the left child. *)
Lemma claim_even L j f s sibling node : level L j s -> f < s -> Nat.even f = true ->
  String byte_01 (node +:+ sibling) ∈ inputs -> String.length node = 32 ->
  claim (pair_up L) (S j) (Nat.div2 f) (Nat.div2 s) (_node_hash node sibling) -> claim L j f s node.
Proof.
  intros Hl Hf Ho Hin Hs (t' & u' & Ht' & Hu' & Hn & Hc). apply even_double_div2 in Ho.
  apply node_hash_inv in Hn as (ul & ur & -> & -> & _); [|done..].
  destruct (level_at L j s f) as [a Ha]; [done|lia|]. destruct (level_at L j s (2 * Nat.div2 f + 1)) as [b Hb]; [done|lia|].
  pose proof Ht' as Hlook. rewrite pair_up_lookup, <- Ho, Ha in Ht'. rewrite <- Ho in Hb. rewrite Hb in Ht'. injection Ht' as <-.
  exists a, ul. split_and!; [done|eapply subtree_trans; [|exact Hu']; by apply subtree_left, subtree_refl|done|].
  destruct Hc as [[= -> ->]|[Hh Hr]]; [by left|right]. split; [intros _|lia].
  assert (Nat.div2 f <= Nat.div2 s) as Hd.
  { pose proof (Nat.div2_odd s) as Hs2. destruct (Nat.odd s); simpl in Hs2; lia. }
  assert (mheight (MNode ul ur) < S j); [|simpl in *; lia].
  destruct (decide (Nat.div2 f = Nat.div2 s)) as [He|He]; [|apply Hh; lia].
  apply Hr, rspine_height in He. apply level_up in Hl as [_ _ Hh']. rewrite Forall_lookup in Hh'. specialize (Hh' _ _ Hlook). lia.
Qed.

(** Level 0 and 0: what is left of the path descends the right edge. *)
Lemma claim_top L j sibling node : level L j 0 ->
  String byte_01 (sibling +:+ node) ∈ inputs -> String.length sibling = 32 ->
  claim L j 0 0 (_node_hash sibling node) -> claim L j 0 0 node.
Proof.
  intros Hl Hin Hs (t & u' & Ht & Hu' & Hn & Hc). apply node_hash_inv in Hn as (ul & ur & -> & _ & ->); [|done..].
  exists t, ur. split_and!; [done|eapply subtree_trans; [|exact Hu']; by apply subtree_right, subtree_refl|done|].
  right. split; [lia|intros _]. destruct Hc as [<-|[_ Hr]]; [constructor|]. eapply rspine_down, (Hr eq_refl).
Qed.

(** The last subtree moves up as it is while its index is even. *)
Lemma claim_promote L j f : level L j f -> f <> 0 -> Nat.even f = true ->
  level (pair_up L) (S j) (Nat.div2 f) /\ pair_up L !! Nat.div2 f = L !! f.
Proof.
  intros Hl Hf He. split; [by apply level_up|]. apply even_double_div2 in He. rewrite pair_up_lookup, <- He.
  destruct (level_at L j f f) as [t Ht]; [done..|]. rewrite Ht, (lookup_ge_None_2 L); [done|]. rewrite (level_length _ _ _ Hl). lia.
Qed.

Lemma inclusion_loop_claim path f s L j node :
  level L j s -> f <= s -> Forall (fun h => String.length h = 32) path -> String.length node = 32 ->
  inclusion_inputs path (Z.of_nat f) (Z.of_nat s) node ⊆ inputs ->
  inclusion_loop path (Z.of_nat f) (Z.of_nat s) node = (0%Z, mroot T) -> claim L j f s node.
Proof.
  revert f s L j node. induction path as [|sibling path IH]; intros f s L j node Hl Hf Hp Hn Hin Hloop.
  { simpl in Hloop. injection Hloop as Hs ->. replace s with 0 in * by lia. replace f with 0 by lia.
    exists T, T. apply level_top in Hl as ->. split_and!; [done|constructor|done|by left]. }
  apply Forall_cons in Hp as [Hsib Hp]. cbn [inclusion_loop inclusion_inputs] in Hloop, Hin. unfold goes_left in *. rewrite land_1_even in *.
  assert (forall g r L j, level L j r -> g <= r -> (Nat.even g = false \/ g = 0 /\ r = 0) ->
    String byte_01 (sibling +:+ node) ∈ inputs ->
    inclusion_inputs path (Z.of_nat (Nat.div2 g)) (Z.of_nat (Nat.div2 r)) (_node_hash sibling node) ⊆ inputs ->
    inclusion_loop path (Z.of_nat (Nat.div2 g)) (Z.of_nat (Nat.div2 r)) (_node_hash sibling node) = (0%Z, mroot T) ->
    claim L j g r node) as Hleft.
  { clear Hl Hf Hin Hloop. clear f s L j. intros g r L j Hl Hg [Ho|[-> ->]] Hh Hin Hloop.
    - apply (claim_odd L j g r sibling); try done. apply IH; try done.
      + by apply level_up.
      + by apply Nat.div2_le_mono.
      + apply sha256_digest_length.
    - apply (claim_top L j sibling); try done. apply IH; try done. apply sha256_digest_length. }
  destruct (negb (Nat.even f) || (Z.of_nat f =? Z.of_nat s)%Z) eqn:Hg.
  - destruct (while_even_spec (fun g r => (Nat.even f = false /\ g = f /\ r = s) \/ (f = s /\ exists L' j', g = r /\ level L' j' r /\ L' !! r = L !! s)) f s)
      as (g & r & Hw & HI & Hx).
    { intros g r Hg0 Hge [(Ho & -> & ->)|(Hfs & L' & j' & -> & Hl' & He)]; [congruence|right]. split; [done|].
      destruct (claim_promote L' j' r) as [Hl2 He2]; [done..|]. exists (pair_up L'), (S j'). rewrite He2. done. }
    { apply orb_true_iff in Hg as [Hg%negb_true_iff|Hg%Z.eqb_eq]; [by left|right]. split; [lia|].
      exists L, j. replace f with s by lia. done. }
    rewrite Hw in Hloop, Hin. rewrite !shiftr_1_nat in Hloop, Hin.
    assert (String byte_01 (sibling +:+ node) ∈ inputs) as Hh by set_solver.
    destruct HI as [(Ho & -> & ->)|(Hfs & L' & j' & -> & Hl' & He)].
    + apply Hleft; try done; [by left|set_solver].
    + destruct (Hleft r r L' j') as (t & u & Ht & Hu & Hnode & Hc); try done; [destruct Hx as [->|]; [by right|by left]|set_solver|].
      exists t, u. rewrite Hfs, <- He. split_and!; try done. destruct Hc as [->|[_ Hr]]; [by left|right]. split; [lia|auto].
  - apply orb_false_iff in Hg as [Hg%negb_false_iff Hfs%Z.eqb_neq]. rewrite !shiftr_1_nat in Hloop, Hin.
    apply (claim_even L j f s sibling); [done|lia|done|set_solver|done|]. apply IH; try done.
    + by apply level_up.
    + by apply Nat.div2_le_mono.
    + apply sha256_digest_length.
    + set_solver.
Qed.

(** An accepted path proves membership. *)
Lemma inclusion_loop_sound (leaves : list string) (digest : string) (path : list string) (m : nat) :
  T = tree_of leaves -> m < length leaves -> Forall (fun h => String.length h = 32) path ->
  String byte_00 digest ∈ inputs ->
  inclusion_inputs path (Z.of_nat m) (Z.of_nat (length leaves) - 1) (_leaf_hash digest) ⊆ inputs ->
  inclusion_loop path (Z.of_nat m) (Z.of_nat (length leaves) - 1) (_leaf_hash digest) = (0%Z, mroot T) ->
  leaves !! m = Some digest.
Proof.
  intros HT Hm Hp Hd Hin Hloop. replace (Z.of_nat (length leaves) - 1)%Z with (Z.of_nat (length leaves - 1)) in * by lia.
  assert (level (map MLeaf leaves) 0 (length leaves - 1)) as Hl.
  { split; [rewrite length_map; lia|done|]. apply Forall_forall. intros t (d & -> & _)%list_elem_of_fmap. simpl. lia. }
  destruct (inclusion_loop_claim path m (length leaves - 1) (map MLeaf leaves) 0 (_leaf_hash digest))
    as (t & u & Ht & Hu & Hn & Hc); [done|lia|done|apply sha256_digest_length|done|done|].
  change (map MLeaf leaves) with (MLeaf <$> leaves) in Ht. rewrite list_lookup_fmap in Ht.
  destruct (leaves !! m) as [d|] eqn:Hlm; [|done]. injection Ht as <-.
  assert (u = MLeaf d) as ->.
  { destruct Hc as [|[Hh Hr]]; [done|]. destruct (decide (m < length leaves - 1)) as [Hlt|Hge]; [specialize (Hh Hlt); lia|].
    assert (rspine (MLeaf d) u) as Hsp by (apply Hr; lia). inversion Hsp. }
  f_equal. simpl in Hn. unfold _leaf_hash in Hn. apply inputs_cf in Hn; [congruence|done|].
  apply inputs_tree. by apply (subtree_input (MLeaf d)).
Qed.
End Soundness.

(** ** Completeness: the audit paths of the tree are accepted *)
Section Completeness.
Context `{Sha256}.

Lemma rfc_path_fuel fuel m l : length l <= fuel -> rfc_path_n fuel m l = rfc_path m l.
Proof.
  unfold rfc_path. remember (length l) as n eqn:Hn. revert fuel m l Hn. induction n as [n IH] using lt_wf_ind.
  intros fuel m [|a [|b r]] Hn Hf; [by destruct fuel, n|by destruct fuel, n|]. simpl in Hn.
  destruct fuel as [|fuel]; [lia|]. destruct n as [|n]; [lia|]. cbn [rfc_path_n]. cbv zeta.
  pose proof (split_point_bounds (length (a :: b :: r))) as Hk. set (k := split_point _) in *.
  remember (a :: b :: r) as l eqn:El. assert (length l = S (S (length r))) as Hlen by (by subst). rewrite Hlen in Hk.
  destruct (m <? k); f_equal.
  - transitivity (rfc_path_n k m (take k l)); [|symmetry]; apply (IH k); try lia; rewrite length_take; lia.
  - transitivity (rfc_path_n (length l - k) (m - k) (drop k l)); [|symmetry]; apply (IH (length l - k)); try lia; rewrite length_drop; lia.
Qed.

Lemma rfc_path_split m l : 2 <= length l ->
  rfc_path m l = if m <? split_point (length l)
    then rfc_path m (take (split_point (length l)) l) ++ [mroot (rfc_tree (drop (split_point (length l)) l))]
    else rfc_path (m - split_point (length l)) (drop (split_point (length l)) l) ++ [mroot (rfc_tree (take (split_point (length l)) l))].
Proof.
  intros Hl. pose proof (split_point_bounds (length l) Hl) as Hk. destruct l as [|a [|b r]]; simpl in Hl; [lia..|].
  change (rfc_path m (a :: b :: r)) with (let k := split_point (length (a :: b :: r)) in
    if m <? k then rfc_path_n (S (length r)) m (take k (a :: b :: r)) ++ [mroot (rfc_tree (drop k (a :: b :: r)))]
    else rfc_path_n (S (length r)) (m - k) (drop k (a :: b :: r)) ++ [mroot (rfc_tree (take k (a :: b :: r)))]).
  cbv zeta. rewrite !rfc_path_fuel; [done|..].
  - rewrite length_drop. simpl length in *. lia.
  - rewrite length_take. simpl length in *. lia.
Qed.

Lemma rfc_path_nonempty m l : 2 <= length l -> rfc_path m l <> [].
Proof. intros Hl. rewrite rfc_path_split by done. case_match; intros []%app_eq_nil; done. Qed.

Definition root_at (l : list mtree) (i : nat) : list string := match l !! i with Some t => [mroot t] | None => [] end.
(** The sibling of index [m] in its level, if it has one. *)
Definition sibling_root (m : nat) (l : list mtree) : list string := if Nat.even m then root_at l (m + 1) else root_at l (m - 1).

Lemma sibling_root_take m k l : m < 2 * k -> 2 * k <= length l -> sibling_root m (take (2 * k) l) = sibling_root m l.
Proof.
  intros Hm Hk. unfold sibling_root, root_at. destruct (Nat.even m) eqn:He.
  - apply even_double_div2 in He. by rewrite lookup_take_lt by lia.
  - by rewrite lookup_take_lt by lia.
Qed.
Lemma sibling_root_drop m k l : 2 * k <= m -> sibling_root (m - 2 * k) (drop (2 * k) l) = sibling_root m l.
Proof.
  intros Hm. unfold sibling_root, root_at. replace (Nat.even (m - 2 * k)) with (Nat.even m).
  - destruct (Nat.even m) eqn:He; rewrite lookup_drop.
    + by replace (2 * k + (m - 2 * k + 1)) with (m + 1) by lia.
    + apply odd_double_div2 in He. by replace (2 * k + (m - 2 * k - 1)) with (m - 1) by lia.
  - rewrite Nat.even_sub, even_double by lia. by destruct (Nat.even m).
Qed.

Lemma div2_sub_double m k : 2 * k <= m -> Nat.div2 (m - 2 * k) = Nat.div2 m - k.
Proof.
  intros Hk. pose proof (Nat.div2_odd m) as H1. pose proof (Nat.div2_odd (m - 2 * k)) as H2.
  rewrite Nat.odd_sub in H2 by lia. rewrite <- (Nat.negb_even (2 * k)), even_double in H2. destruct (Nat.odd m); simpl in *; lia.
Qed.

(** The audit path, level by level. *)
Lemma rfc_path_up m l : m < length l -> rfc_path m l = sibling_root m l ++ rfc_path (Nat.div2 m) (pair_up l).
Proof.
  remember (length l) as n eqn:Hn. revert m l Hn. induction n as [n IH] using lt_wf_ind. intros m l -> Hm.
  destruct (decide (length l < 3)) as [Hs|Hs].
  { destruct l as [|a [|b [|c r]]]; simpl in Hs, Hm; [lia|by replace m with 0 by lia| |lia]. destruct m as [|[|]]; [done|done|lia]. }
  pose proof (split_point_bounds (length l)) as Hb. pose proof (split_point_double (length l)) as Hd.
  assert (2 <= length (pair_up l)) as Hl2.
  { rewrite pair_up_length. pose proof (Nat.div2_odd (length l + 1)) as Ho. destruct (Nat.odd (length l + 1)); simpl in Ho; lia. }
  rewrite (rfc_path_split m l), (rfc_path_split (Nat.div2 m)) by lia. rewrite pair_up_length, Hd by lia.
  set (k := split_point (Nat.div2 (length l + 1))) in *. destruct (pair_up_split l k) as [-> ->]; [lia|]. rewrite !rfc_tree_pair_up.
  pose proof (Nat.div2_odd m) as Hmd. destruct (Nat.ltb_spec m (2 * k)) as [Hlt|Hge].
  - rewrite (proj2 (Nat.ltb_lt (Nat.div2 m) k)) by (destruct (Nat.odd m); simpl in Hmd; lia).
    rewrite app_assoc, (IH (2 * k)); [by rewrite sibling_root_take by lia|lia|rewrite length_take; lia|lia].
  - rewrite (proj2 (Nat.ltb_ge (Nat.div2 m) k)) by (destruct (Nat.odd m); simpl in Hmd; lia).
    rewrite app_assoc, (IH (length l - 2 * k)); [by rewrite sibling_root_drop, div2_sub_double by lia|lia|by rewrite length_drop|lia].
Qed.

Lemma while_even_done f s : Nat.even f = false -> while_even (loop_fuel (Z.of_nat f)) (Z.of_nat f) (Z.of_nat s) = (Z.of_nat f, Z.of_nat s).
Proof.
  intros Ho. destruct (while_even_spec (fun g r => g = f /\ r = s) f s) as (g & r & -> & [-> ->] & _); [|done|done].
  intros g r _ He [-> ->]. congruence.
Qed.

Lemma while_even_next f s : f <> 0 -> Nat.even f = true -> while_even (loop_fuel (Z.of_nat f)) (Z.of_nat f) (Z.of_nat s) =
  while_even (loop_fuel (Z.of_nat (Nat.div2 f))) (Z.of_nat (Nat.div2 f)) (Z.of_nat (Nat.div2 s)).
Proof.
  intros Hf He. apply even_double_div2 in He as He2.
  replace (loop_fuel (Z.of_nat f)) with (S (loop_fuel (Z.of_nat (Nat.div2 f)))).
  - cbn [while_even]. rewrite land_1_even, He, !shiftr_1_nat. rewrite (proj2 (Z.eqb_neq (Z.of_nat f) 0)) by lia. done.
  - unfold loop_fuel. f_equal. rewrite He2 at 2. rewrite Nat2Z.inj_mul. change (Z.of_nat 2) with 2%Z.
    rewrite Z.log2_double by lia. rewrite Z2Nat.inj_succ by apply Z.log2_nonneg. done.
Qed.

Lemma inclusion_loop_complete l m t : l !! m = Some t ->
  inclusion_loop (rfc_path m l) (Z.of_nat m) (Z.of_nat (length l - 1)) (mroot t) = (0%Z, mroot (rfc_tree l)).
Proof.
  remember (length l) as n eqn:Hn. revert m t l Hn. induction n as [n IH] using lt_wf_ind. intros m t l -> Ht.
  pose proof (lookup_lt_Some _ _ _ Ht) as Hm. destruct (decide (length l < 2)) as [Hs|Hs].
  { destruct l as [|a [|b r]]; simpl in Hs, Hm; [lia| |lia]. replace m with 0 in * by lia. by injection Ht as ->. }
  assert (length (pair_up l) < length l) as Hlt.
  { rewrite pair_up_length. pose proof (Nat.div2_odd (length l + 1)) as Ho. destruct (Nat.odd (length l + 1)); simpl in Ho; lia. }
  assert (length (pair_up l) - 1 = Nat.div2 (length l - 1)) as Hup.
  { rewrite pair_up_length. replace (length l + 1) with (S (S (length l - 1))) by lia. cbn [Nat.div2]. by rewrite Nat.sub_succ, Nat.sub_0_r. }
  assert (forall t', pair_up l !! Nat.div2 m = Some t' ->
    inclusion_loop (rfc_path (Nat.div2 m) (pair_up l)) (Z.of_nat (Nat.div2 m)) (Z.of_nat (Nat.div2 (length l - 1))) (mroot t') = (0%Z, mroot (rfc_tree l))) as Hnext.
  { intros t' Ht'. rewrite <- Hup, <- (rfc_tree_pair_up l). by apply (IH (length (pair_up l))). }
  rewrite pair_up_lookup in Hnext. rewrite rfc_path_up by done. unfold sibling_root, root_at. destruct (Nat.even m) eqn:He.
  - apply even_double_div2 in He as He2. rewrite <- He2, Ht in Hnext. destruct (l !! (m + 1)) as [b|] eqn:Hb.
    + apply lookup_lt_Some in Hb as Hb'. cbn [inclusion_loop app]. unfold goes_left. rewrite land_1_even, He.
      rewrite (proj2 (Z.eqb_neq (Z.of_nat m) _)) by lia. simpl. rewrite !shiftr_1_nat. by apply (Hnext (MNode t b)).
    + apply lookup_ge_None in Hb. specialize (Hnext t eq_refl). assert (length l - 1 = m) as Hlast by lia. rewrite Hlast in *. simpl.
      assert (2 <= length (pair_up l)) as Hl2 by lia.
      destruct (rfc_path (Nat.div2 m) (pair_up l)) as [|sib path] eqn:Hp; [by apply rfc_path_nonempty in Hp|].
      cbn [inclusion_loop] in *. unfold goes_left in *. rewrite !Z.eqb_refl, !orb_true_r in *. rewrite while_even_next by (done || lia). exact Hnext.
  - apply odd_double_div2 in He as He2. destruct (lookup_lt_is_Some_2 l (m - 1)) as [a Ha]; [lia|].
    replace (2 * Nat.div2 m) with (m - 1) in Hnext by lia. replace (m - 1 + 1) with m in Hnext by lia. rewrite Ha, Ht in Hnext. rewrite Ha.
    cbn [inclusion_loop app]. unfold goes_left. rewrite land_1_even, He. cbn [negb orb]. rewrite while_even_done by done. rewrite !shiftr_1_nat.
    by apply (Hnext (MNode a t)).
Qed.
End Completeness.

(** ** Soundness of the consistency loop *)

(** The leaves of a tree, in order. *)
Fixpoint leaves_of (t : mtree) : list string := match t with MLeaf d => [d] | MNode l r => leaves_of l ++ leaves_of r end.

Lemma leaves_of_rfc l : l <> [] -> leaves_of (rfc_tree l) = concat (map leaves_of l).
Proof.
  remember (length l) as n eqn:Hn. revert l Hn. induction n as [n IH] using lt_wf_ind. intros l -> Hne.
  destruct (decide (length l < 2)) as [Hs|Hs].
  { destruct l as [|a [|b r]]; simpl in Hs; [done| |lia]. simpl. by rewrite app_nil_r. }
  pose proof (split_point_bounds (length l)) as Hb. rewrite rfc_tree_split by lia. simpl.
  rewrite (IH (split_point (length l))), (IH (length l - split_point (length l))); [|rewrite ?length_take, ?length_drop; try lia..].
  - by rewrite <- concat_app, <- map_app, take_drop.
  - intros Hd%(f_equal length). rewrite length_drop in Hd. simpl in Hd. lia.
  - intros Ht%(f_equal length). rewrite length_take in Ht. simpl in Ht. lia.
Qed.

Lemma leaves_of_tree_of leaves : leaves <> [] -> leaves_of (tree_of leaves) = leaves.
Proof.
  intros Hl. unfold tree_of. rewrite leaves_of_rfc by (by destruct leaves). clear. induction leaves as [|d l IH]; simpl; [done|]. by rewrite IH.
Qed.

(** One level of a prefix of the leaves. *)
Lemma pair_up_prefix_even L q p : 2 * q <= length L -> pair_up (take (2 * q) L ++ [p]) = take q (pair_up L) ++ [p].
Proof.
  intros Hq. destruct (pair_up_split L q Hq) as [-> _]. rewrite pair_up_app; [done|]. rewrite length_take_le by done. apply even_double.
Qed.
Lemma pair_up_prefix_odd L q a p : L !! (2 * q) = Some a ->
  pair_up (take (2 * q + 1) L ++ [p]) = take q (pair_up L) ++ [MNode a p].
Proof.
  intros Ha. pose proof (lookup_lt_Some _ _ _ Ha) as Hq. rewrite Nat.add_1_r, (take_S_r _ _ a) by done. rewrite <- app_assoc.
  destruct (pair_up_split L q) as [-> _]; [lia|]. rewrite pair_up_app; [done|]. rewrite length_take_le by lia. apply even_double.
Qed.

Section Consistency.
Context `{Sha256}.

(** The inputs hashed on the way to the new root. *)
Fixpoint consistency_inputs (path : list string) (fn sn : Z) (second : string) : list string :=
  match path with
  | [] => []
  | sibling :: rest =>
      if goes_left fn sn then
        let '(fn', sn') := while_even (loop_fuel fn) fn sn in
        String byte_01 (sibling +:+ second) :: consistency_inputs rest (Z.shiftr fn' 1) (Z.shiftr sn' 1) (_node_hash sibling second)
      else String byte_01 (second +:+ sibling) :: consistency_inputs rest (Z.shiftr fn 1) (Z.shiftr sn 1) (_node_hash second sibling)
  end.

Lemma mroot_inj inputs t t' : collision_free inputs -> tree_inputs t ⊆ inputs -> tree_inputs t' ⊆ inputs -> mroot t = mroot t' -> t = t'.
Proof.
  intros Hcf. revert t'. induction t as [d|l IHl r IHr]; intros t' Ht Ht' He; rewrite (mroot_input t') in He; simpl in He.
  - unfold _leaf_hash in He. apply Hcf in He; [|apply Ht; left|apply Ht', subtree_input, subtree_refl]. destruct t'; simpl in He; [by injection He as ->|discriminate He].
  - unfold _node_hash in He. apply Hcf in He; [|apply Ht; left|apply Ht', subtree_input, subtree_refl].
    destruct t' as [d|l' r']; simpl in He; [discriminate He|]. injection He as [Hl Hr]%append_inj; [|by rewrite !mroot_length].
    simpl in Ht, Ht'. f_equal; [apply IHl|apply IHr]; set_solver.
Qed.

Variable (T : mtree) (inputs : list string).
Hypothesis inputs_cf : collision_free inputs.
Hypothesis inputs_tree : tree_inputs T ⊆ inputs.

Lemma consistency_loop_claim path f s L j p first second old_root To :
  level T L j s -> f <= s -> rfc_tree (take f L ++ [p]) = To ->
  Forall (fun h => String.length h = 32) path -> String.length second = 32 ->
  consistency_inputs path (Z.of_nat f) (Z.of_nat s) second ⊆ inputs ->
  consistency_loop path (Z.of_nat f) (Z.of_nat s) first second = Some (0%Z, old_root, mroot T) ->
  (exists t, L !! f = Some t /\ second = mroot t) /\ (first = mroot p -> old_root = mroot To).
Proof.
  revert f s L j p first second. induction path as [|sibling path IH]; intros f s L j p first second Hl Hf Hto Hp Hn Hin Hloop.
  { simpl in Hloop. injection Hloop as Hs -> ->. replace s with 0 in * by lia. replace f with 0 in * by lia.
    apply level_top in Hl as ->. split; [by exists T|]. by rewrite <- Hto. }
  apply Forall_cons in Hp as [Hsib Hp]. cbn [consistency_loop consistency_inputs] in Hloop, Hin. unfold goes_left in *. rewrite land_1_even in *.
  destruct (Z.eqb_spec (Z.of_nat s) 0) as [|Hs0]; [done|].
  destruct (negb (Nat.even f) || (Z.of_nat f =? Z.of_nat s)%Z) eqn:Hg.
  - destruct (while_even_spec (fun g r => exists L' j', level T L' j' r /\ g <= r /\ L' !! g = L !! f /\ rfc_tree (take g L' ++ [p]) = To /\
        (Nat.even f = false /\ g = f \/ g = r /\ g <> 0)) f s) as (g & r & Hw & (L' & j' & Hl' & Hgr & Hlook & Hto' & Hcase) & Hx).
    { intros g r Hg0 Hge (L' & j' & Hl' & Hgr & Hlook & Hto' & [(Ho & ->)|[-> _]]); [congruence|].
      destruct (claim_promote T L' j' r) as [Hl2 He2]; [done..|]. exists (pair_up L'), (S j'). rewrite He2.
      apply even_double_div2 in Hge. split_and!; [done|done|done| |right; split; [done|lia]].
      rewrite <- Hto', <- (rfc_tree_pair_up (take r L' ++ [p])).
      rewrite Hge at 2. by rewrite pair_up_prefix_even by (rewrite (level_length _ _ _ _ Hl'); lia). }
    { exists L, j. split_and!; try done. apply orb_true_iff in Hg as [Hg%negb_true_iff|Hg%Z.eqb_eq]; [by left|right]. lia. }
    rewrite Hw in Hloop, Hin. rewrite !shiftr_1_nat in Hloop, Hin. clear Hw Hg.
    assert (Nat.even g = false) as Ho by (destruct Hx as [->|]; [destruct Hcase as [[? <-]|[_ ?]]|]; done).
    apply odd_double_div2 in Ho as Hog.
    destruct (level_at T L' j' r (2 * Nat.div2 g)) as [a Ha]; [done|lia|]. destruct (level_at T L' j' r g) as [b Hb]; [done..|].
    destruct (IH (Nat.div2 g) (Nat.div2 r) (pair_up L') (S j') (MNode a p) (_node_hash sibling first) (_node_hash sibling second))
      as [(t & Ht & Hsec) Hold]; try done.
    + by apply level_up.
    + by apply Nat.div2_le_mono.
    + rewrite <- Hto', <- (rfc_tree_pair_up (take g L' ++ [p])). rewrite Hog at 2. by rewrite (pair_up_prefix_odd _ _ a).
    + apply sha256_digest_length.
    + set_solver.
    + pose proof Ht as Ht2. rewrite pair_up_lookup, Ha, <- Hog, Hb in Ht2. injection Ht2 as <-.
      assert (subtree (MNode a b) T) as Hst by (eapply level_subtree; [by apply level_up|exact Ht]).
      apply (node_hash_inv T inputs inputs_cf inputs_tree) in Hsec as (ul & ur & [= <- <-] & -> & ->); [|done|set_solver|done].
      split; [exists b; by rewrite <- Hlook|]. intros ->. by apply Hold.
  - apply orb_false_iff in Hg as [Hg%negb_false_iff Hfs%Z.eqb_neq]. rewrite !shiftr_1_nat in Hloop, Hin. apply even_double_div2 in Hg as Hge.
    destruct (level_at T L j s f) as [a Ha]; [done|lia|]. destruct (level_at T L j s (2 * Nat.div2 f + 1)) as [b Hb]; [done|lia|].
    destruct (IH (Nat.div2 f) (Nat.div2 s) (pair_up L) (S j) p first (_node_hash second sibling)) as [(t & Ht & Hsec) Hold]; try done.
    + by apply level_up.
    + by apply Nat.div2_le_mono.
    + rewrite <- Hto, <- (rfc_tree_pair_up (take f L ++ [p])). rewrite Hge at 2.
      by rewrite pair_up_prefix_even by (rewrite (level_length _ _ _ _ Hl); lia).
    + apply sha256_digest_length.
    + set_solver.
    + pose proof Ht as Ht2. rewrite pair_up_lookup, <- Hge, Ha in Ht2. rewrite <- Hge in Hb. rewrite Hb in Ht2. injection Ht2 as <-.
      assert (subtree (MNode a b) T) as Hst by (eapply level_subtree; [by apply level_up|exact Ht]).
      apply (node_hash_inv T inputs inputs_cf inputs_tree) in Hsec as (ul & ur & [= <- <-] & -> & ->); [|done|set_solver|done].
      split; [by exists a|done].
Qed.
End Consistency.

(** Where the consistency loop starts: the old root itself when the old tree is a
    perfect left subtree of the new one, and the first hash of the path
    otherwise. *)
Definition consistency_start (old_root : string) (path : list string) (fn : Z) : option (string * list string) :=
  if (fn =? 0)%Z then Some (old_root, path)
  else match path with [] => None | h :: rest => Some (h, rest) end.

Section ConsistencySound.
Context `{Sha256}.
Variables (D D' : list string) (path : list string).
Hypothesis sizes : 0 < length D < length D'.

Definition consistency_accepts : Prop :=
  exists fn sn start rest,
    while_odd (loop_fuel (Z.of_nat (length D) - 1)) (Z.of_nat (length D) - 1) (Z.of_nat (length D') - 1) = (fn, sn) /\
    consistency_start (merkle_root D) path fn = Some (start, rest) /\
    consistency_loop rest fn sn start start = Some (0%Z, merkle_root D, merkle_root D').

(** Every input hashed for the two trees, for the prefix of the new one, and along
    the path. *)
Definition consistency_all_inputs : list string :=
  tree_inputs (tree_of D) ++ tree_inputs (tree_of D') ++ tree_inputs (tree_of (take (length D) D')) ++
  let '(fn, sn) := while_odd (loop_fuel (Z.of_nat (length D) - 1)) (Z.of_nat (length D) - 1) (Z.of_nat (length D') - 1) in
  match consistency_start (merkle_root D) path fn with
  | Some (start, rest) => consistency_inputs rest fn sn start
  | None => []
  end.

Lemma start_level : exists f s L j,
  while_odd (loop_fuel (Z.of_nat (length D) - 1)) (Z.of_nat (length D) - 1) (Z.of_nat (length D') - 1) = (Z.of_nat f, Z.of_nat s) /\
  level (tree_of D') L j s /\ f <= s /\ rfc_tree (take (S f) L) = tree_of (take (length D) D').
Proof.
  replace (Z.of_nat (length D) - 1)%Z with (Z.of_nat (length D - 1)) by lia.
  replace (Z.of_nat (length D') - 1)%Z with (Z.of_nat (length D' - 1)) by lia.
  destruct (while_odd_spec (fun f s => exists L j, level (tree_of D') L j s /\ f <= s /\ rfc_tree (take (S f) L) = tree_of (take (length D) D'))
    (length D - 1) (length D' - 1)) as (f & s & Hw & (L & j & Hl & Hf & Ht) & _).
  - intros f s Ho (L & j & Hl & Hf & Ht). apply odd_double_div2 in Ho. exists (pair_up L), (S j).
    split_and!; [by apply level_up|by apply Nat.div2_le_mono|]. rewrite <- Ht, <- (rfc_tree_pair_up (take (S f) L)).
    destruct (pair_up_split L (S (Nat.div2 f))) as [-> _]; [rewrite (level_length _ _ _ _ Hl); lia|]. do 3 f_equal. lia.
  - exists (map MLeaf D'), 0. split_and!; [split|lia|].
    + rewrite length_map. lia.
    + done.
    + apply Forall_forall. intros t (d & -> & _)%list_elem_of_fmap. simpl. lia.
    + unfold tree_of. f_equal. change (map MLeaf) with (fmap (M := list) MLeaf). rewrite fmap_take. f_equal. lia.
  - exists f, s, L, j. done.
Qed.

(** An accepted consistency path proves that the old leaves are a prefix of the
    new ones. *)
Lemma consistency_sound : Forall (fun h => String.length h = 32) path -> collision_free consistency_all_inputs ->
  consistency_accepts -> D = take (length D) D'.
Proof.
  intros Hp Hcf (fn & sn & start & rest & Hw & Hstart & Hloop). unfold consistency_all_inputs in Hcf. rewrite Hw, Hstart in Hcf.
  destruct start_level as (f & s & L & j & Hw' & Hl & Hf & Hto). rewrite Hw in Hw'. injection Hw' as -> ->.
  destruct (level_at _ _ _ _ f Hl) as [p Hpf]; [done|]. rewrite (take_S_r _ _ p Hpf) in Hto.
  assert (merkle_root D = mroot (tree_of D)) as HrD by (destruct D; [simpl in sizes; lia|done]).
  assert (merkle_root D' = mroot (tree_of D')) as HrD' by (destruct D'; [simpl in sizes; lia|done]).
  set (inputs := _ ++ _) in Hcf.
  assert (String.length start = 32 /\ Forall (fun h => String.length h = 32) rest) as [Hsl Hrl].
  { unfold consistency_start in Hstart. case_match; [injection Hstart as <- <-; split; [rewrite HrD; apply mroot_length|done]|].
    destruct path; [done|]. injection Hstart as -> ->. by apply Forall_cons in Hp. }
  rewrite HrD' in Hloop.
  destruct (consistency_loop_claim (tree_of D') inputs) with (path := rest) (f := f) (s := s) (L := L) (j := j) (p := p) (first := start)
    (second := start) (old_root := merkle_root D) (To := tree_of (take (length D) D')) as [(t & Ht & Hs) Hold]; try done; [subst inputs; set_solver..|].
  rewrite Hpf in Ht. injection Ht as <-. specialize (Hold Hs). rewrite HrD in Hold.
  apply (mroot_inj inputs) in Hold; [|done|subst inputs; set_solver..].
  rewrite <- (leaves_of_tree_of D), Hold at 1 by (by destruct D; [simpl in sizes; lia|]).
  apply leaves_of_tree_of. intros Hn%(f_equal length). rewrite length_take in Hn. simpl in Hn. lia.
Qed.
End ConsistencySound.

(** ** A concrete digest for the witnesses: a polynomial checksum, padded *)
Fixpoint checksum (acc : N) (s : string) : N :=
  match s with "" => acc | String c r => checksum ((acc * 263 + N_of_ascii c + 1) mod 1000000007) r end.

Definition be_bytes4 (n : N) : string :=
  String (ascii_of_N (n / 16777216)) (String (ascii_of_N ((n / 65536) mod 256))
    (String (ascii_of_N ((n / 256) mod 256)) (String (ascii_of_N (n mod 256)) ""))).

Definition demo_sha256 : Sha256 := {|
  sha256_digest s := be_bytes4 (checksum 7 s) +:+ "0123456789abcdef0123456789ab";
  sha256_digest_length _ := eq_refl
|}.

Definition collision_freeb `{Sha256} (l : list string) : bool :=
  let hashed := map (fun x => (sha256_digest x, x)) l in
  forallb (fun a => forallb (fun b => implb (String.eqb a.1 b.1) (String.eqb a.2 b.2)) hashed) hashed.

Lemma collision_freeb_spec `{Sha256} l : collision_freeb l = true -> collision_free l.
Proof.
  unfold collision_freeb. rewrite forallb_forall. intros Hl x y Hx Hy He.
  assert (forall z, z ∈ l -> In (sha256_digest z, z) (map (fun x => (sha256_digest x, x)) l)) as Hin.
  { intros z Hz. apply in_map_iff. exists z. by rewrite <- list_elem_of_In. }
  specialize (Hl _ (Hin x Hx)). rewrite forallb_forall in Hl. specialize (Hl _ (Hin y Hy)).
  simpl in Hl. rewrite He, String.eqb_refl in Hl. by apply String.eqb_eq.
Qed.

(** The state after [j] rounds of shifting. *)
Definition shifted (j : nat) (fn : nat) : Z := Z.shiftr (Z.of_nat fn) (Z.of_nat j).

Lemma shifted_next j f g : Z.of_nat g = shifted j f -> Z.of_nat (Nat.div2 g) = shifted (S j) f.
Proof.
  unfold shifted. intros Hg. rewrite <- shiftr_1_nat, Hg, Z.shiftr_shiftr by lia. f_equal. lia.
Qed.

(** C31: the two shifting loops terminate: with one unit of fuel per bit each runs
    as many rounds as its condition holds, and ends where the condition fails. *)
Theorem shift_loops_terminate (fn sn : nat) :
  (exists j, while_even (loop_fuel (Z.of_nat fn)) (Z.of_nat fn) (Z.of_nat sn) = (shifted j fn, shifted j sn) /\
     (shifted j fn = 0%Z \/ Z.land (shifted j fn) 1 <> 0%Z) /\
     forall i, i < j -> shifted i fn <> 0%Z /\ Z.land (shifted i fn) 1 = 0%Z) /\
  (exists j, while_odd (loop_fuel (Z.of_nat fn)) (Z.of_nat fn) (Z.of_nat sn) = (shifted j fn, shifted j sn) /\
     Z.land (shifted j fn) 1 = 0%Z /\
     forall i, i < j -> Z.land (shifted i fn) 1 <> 0%Z).
Proof.
  split.
  - destruct (while_even_spec (fun g r => exists j, Z.of_nat g = shifted j fn /\ Z.of_nat r = shifted j sn /\
      forall i, i < j -> shifted i fn <> 0%Z /\ Z.land (shifted i fn) 1 = 0%Z) fn sn) as (g & r & -> & (j & Hg & Hr & Hi) & Hx).
    + intros g r Hg0 He (j & Hg & Hr & Hi). exists (S j). split_and!; [by apply shifted_next..|]. intros i Hlt.
      destruct (decide (i = j)) as [->|]; [|apply Hi; lia]. rewrite <- Hg. split; [lia|]. apply Z.eqb_eq. by rewrite land_1_even.
    + exists 0. unfold shifted. rewrite !Z.shiftr_0_r. split_and!; [done..|lia].
    + exists j. rewrite <- Hg, <- Hr. split_and!; [done| |done]. destruct Hx as [->|Ho]; [by left|right]. apply Z.eqb_neq. by rewrite land_1_even.
  - destruct (while_odd_spec (fun g r => exists j, Z.of_nat g = shifted j fn /\ Z.of_nat r = shifted j sn /\
      forall i, i < j -> Z.land (shifted i fn) 1 <> 0%Z) fn sn) as (g & r & -> & (j & Hg & Hr & Hi) & Hx).
    + intros g r He (j & Hg & Hr & Hi). exists (S j). split_and!; [by apply shifted_next..|]. intros i Hlt.
      destruct (decide (i = j)) as [->|]; [|apply Hi; lia]. rewrite <- Hg. apply Z.eqb_neq. by rewrite land_1_even.
    + exists 0. unfold shifted. rewrite !Z.shiftr_0_r. split_and!; [done..|lia].
    + exists j. rewrite <- Hg, <- Hr. split_and!; [done| |done]. apply Z.eqb_eq. by rewrite land_1_even.
Qed.
