(* ===== verification/Text.v ===== *)
(** * Text: the string operations of Python the kernel uses

    A [str] is its code points in generalised UTF-8, so a character is a lead
    byte and the continuation bytes after it. *)

From Stdlib Require Import Ascii.
From S2P Require Import Prelude.

(** ** Characters *)
Definition is_continuation (c : ascii) : bool :=
  let n := N_of_ascii c in (128 <=? n)%N && (n <=? 191)%N.

(** The characters of a string, each a string of its own ([for c in s]). *)
Fixpoint py_chars (s : string) : list string :=
  match s with
  | EmptyString => []
  | String c s' =>
      match py_chars s' with
      | (String c' x) :: rest => if is_continuation c' then String c (String c' x) :: rest
                                 else String c "" :: String c' x :: rest
      | l => String c "" :: l
      end
  end.

Definition concat_chars (l : list string) : string := fold_right String.append "" l.

(** [len(s)] *)
Definition py_len (s : string) : Z := Z.of_nat (length (py_chars s)).

Definition of_bytes (l : list N) : string :=
  fold_right (fun n s => String (ascii_of_N n) s) "" l.

(** The characters [str.isspace] holds for. *)
Definition space_chars : list string :=
  map of_bytes
    [[9]; [10]; [11]; [12]; [13]; [28]; [29]; [30]; [31]; [32];
     [194; 133]; [194; 160]; [225; 154; 128];
     [226; 128; 128]; [226; 128; 129]; [226; 128; 130]; [226; 128; 131]; [226; 128; 132]; [226; 128; 133];
     [226; 128; 134]; [226; 128; 135]; [226; 128; 136]; [226; 128; 137]; [226; 128; 138];
     [226; 128; 168]; [226; 128; 169]; [226; 128; 175]; [226; 129; 159]; [227; 128; 128]]%N.

Definition is_space (c : string) : bool := existsb (String.eqb c) space_chars.

Fixpoint drop_spaces (l : list string) : list string :=
  match l with
  | c :: l' => if is_space c then drop_spaces l' else l
  | [] => []
  end.

(** [s.strip()] *)
Definition py_strip (s : string) : string :=
  concat_chars (reverse (drop_spaces (reverse (drop_spaces (py_chars s))))).

(** [s.lower()] on the ASCII letters; other characters are kept, which decides
    membership in a set of lower-case ASCII words without "k" correctly (U+212A is
    the one other character Python lowers to an ASCII letter). *)
Definition ascii_lower1 (c : ascii) : ascii :=
  let n := N_of_ascii c in if (65 <=? n)%N && (n <=? 90)%N then ascii_of_N (n + 32) else c.

Fixpoint ascii_lower (s : string) : string :=
  match s with
  | EmptyString => ""
  | String c s => String (ascii_lower1 c) (ascii_lower s)
  end.

(** The same for [s.upper()] on a string of ASCII characters. *)
Definition ascii_upper1 (c : ascii) : ascii :=
  let n := N_of_ascii c in if (97 <=? n)%N && (n <=? 122)%N then ascii_of_N (n - 32) else c.

Fixpoint ascii_upper (s : string) : string :=
  match s with
  | EmptyString => ""
  | String c s => String (ascii_upper1 c) (ascii_upper s)
  end.

(** [s.partition(c)]: nothing when the separator is not in the text. *)
Fixpoint py_partition (c : ascii) (s : string) : option (string * string) :=
  match s with
  | EmptyString => None
  | String a s => if Ascii.eqb a c then Some ("", s) else '(x, y) ← py_partition c s; Some (String a x, y)
  end.

(** [s[:n]] *)
Definition py_prefix (n : nat) (s : string) : string := concat_chars (take n (py_chars s)).

(** [x in (a, b, ...)] for strings *)
Definition str_mem (s : string) (l : list string) : bool := existsb (String.eqb s) l.

Lemma str_mem_spec s l : str_mem s l = true <-> s ∈ l.
Proof.
  unfold str_mem. induction l as [|a l IH]; simpl; [by rewrite elem_of_nil|].
  rewrite orb_true_iff, String.eqb_eq, IH, elem_of_cons. done.
Qed.

Lemma str_mem_false s l : str_mem s l = false <-> s ∉ l.
Proof. rewrite <- str_mem_spec. by destruct (str_mem s l). Qed.

(** ** Characters and their concatenation *)
Lemma py_chars_head c s : exists x rest, py_chars (String c s) = String c x :: rest.
Proof. simpl. destruct (py_chars s) as [|[|c' x] rest]; [eauto..|]. destruct (is_continuation c'); eauto. Qed.

Lemma concat_py_chars s : concat_chars (py_chars s) = s.
Proof.
  induction s as [|c s IH]; [done|]. simpl. rewrite <- IH at 2.
  destruct (py_chars s) as [|[|c' x] rest]; [done..|]. destruct (is_continuation c'); done.
Qed.

Lemma py_chars_cons_length c s :
  length (py_chars (String c s)) =
    match s with String c' _ => if is_continuation c' then length (py_chars s) else S (length (py_chars s)) | EmptyString => 1 end.
Proof.
  destruct s as [|c' s]; [done|]. destruct (py_chars_head c' s) as (x & rest & Hp).
  change (py_chars (String c (String c' s))) with
    (match py_chars (String c' s) with
     | (String c' x) :: rest => if is_continuation c' then String c (String c' x) :: rest else String c "" :: String c' x :: rest
     | l => String c "" :: l
     end).
  rewrite Hp. by destruct (is_continuation c').
Qed.

(** Joining texts joins their characters, or merges the two at the seam. *)
Lemma py_chars_app_length a b : length (py_chars (a +:+ b)) <= length (py_chars a) + length (py_chars b).
Proof.
  induction a as [|c a IH]; [done|]. change (String c a +:+ b) with (String c (a +:+ b)). rewrite !py_chars_cons_length.
  destruct a as [|c' a]; [change ("" +:+ b) with b; destruct b as [|c' b]; [simpl; lia|destruct (is_continuation c'); lia]|].
  change (String c' a +:+ b) with (String c' (a +:+ b)) in IH |- *.
  cbv iota. destruct (is_continuation c'); lia.
Qed.

Lemma py_chars_single s : Forall (fun c => length (py_chars c) = 1) (py_chars s).
Proof.
  induction s as [|c s IH]; [constructor|]. simpl. destruct (py_chars s) as [|[|c' x] rest] eqn:Hs; [by repeat constructor|by constructor|].
  inversion IH as [|? ? Hc Hrest]; subst. destruct (is_continuation c') eqn:Hk; [|by constructor]. constructor; [|done].
  by rewrite py_chars_cons_length, Hk.
Qed.

Lemma concat_chars_length l : Forall (fun c => length (py_chars c) = 1) l -> length (py_chars (concat_chars l)) <= length l.
Proof.
  induction 1 as [|c l Hc Hl IH]; [done|]. simpl. etrans; [apply py_chars_app_length|]. lia.
Qed.

(** A prefix has at most its length in characters. *)
Lemma py_prefix_length n s : length (py_chars (py_prefix n s)) <= n.
Proof.
  unfold py_prefix. etrans; [apply concat_chars_length, Forall_take, py_chars_single|]. rewrite length_take. lia.
Qed.
