(* ===== verification/Json.v ===== *)
(** * JSON values and [actenon/core/json.py]

    Python's JSON data model: what [json.loads] produces and what the contract
    classes carry.  A Python [str] is its sequence of code points written in
    generalised UTF-8 (a lone surrogate is the three bytes ED A0..BF xx), so code
    point order is byte order and [len(s.encode("utf-8"))] is [String.length].
    A [dict] is an association list in insertion order; its keys are strings and
    pairwise distinct ([json_wf]).  A [float] is its IEEE value ([spec_float]).

    Modelled from [core/json.py]: [validate_json_depth] (the explicit-stack
    loop), [reject_duplicate_object_pairs] and [loads_no_duplicate_keys] over a
    parser of texts.  The theorems show that the loop terminates within a fuel of
    one unit per node and computes the nesting depth, and that the loader returns
    the value of a document exactly when it is within the limits and no object of
    it repeats a key. *)

From Stdlib Require Import SpecFloat Ascii.
From S2P Require Import Prelude.

#[local] Set Warnings "-register-all".

Inductive json : Type :=
| JNull
| JBool (b : bool)
| JInt (z : Z)
| JFloat (f : spec_float)
| JStr (s : string)
| JList (l : list json)
| JDict (d : list (string * json)).

Abbreviation dict := (list (string * json)).

(** Induction that reaches the elements of lists and the values of dicts. *)
Section JsonInd.
Variable P : json -> Prop.
Hypothesis HNull : P JNull.
Hypothesis HBool : forall b, P (JBool b).
Hypothesis HInt : forall z, P (JInt z).
Hypothesis HFloat : forall f, P (JFloat f).
Hypothesis HStr : forall s, P (JStr s).
Hypothesis HList : forall l, Forall P l -> P (JList l).
Hypothesis HDict : forall d, Forall (fun kv => P kv.2) d -> P (JDict d).

Fixpoint json_ind' (j : json) : P j :=
  match j with
  | JNull => HNull
  | JBool b => HBool b
  | JInt z => HInt z
  | JFloat f => HFloat f
  | JStr s => HStr s
  | JList l => HList l
      ((fix go l : Forall P l :=
          match l with
          | [] => Forall_nil_2 P
          | x :: l => Forall_cons_2 P x l (json_ind' x) (go l)
          end) l)
  | JDict d => HDict d
      ((fix go d : Forall (fun kv => P kv.2) d :=
          match d with
          | [] => Forall_nil_2 _
          | kv :: d => Forall_cons_2 (fun kv => P kv.2) kv d
              (match kv return P kv.2 with (_, v) => json_ind' v end) (go d)
          end) d)
  end.
End JsonInd.

#[global] Instance spec_float_eq_dec : EqDecision spec_float.
Proof. solve_decision. Defined.

#[global] Instance json_eq_dec : EqDecision json.
Proof.
  refine (fix go (a b : json) : {a = b} + {a <> b} :=
    let go' : EqDecision json := go in
    match a, b with
    | JNull, JNull => left eq_refl
    | JBool x, JBool y => cast_if (decide (x = y))
    | JInt x, JInt y => cast_if (decide (x = y))
    | JFloat x, JFloat y => cast_if (decide (x = y))
    | JStr x, JStr y => cast_if (decide (x = y))
    | JList x, JList y => cast_if (decide (x = y))
    | JDict x, JDict y => cast_if (decide (x = y))
    | _, _ => right _
    end); clear go go'; abstract congruence.
Defined.

(** Every dict inside the value has distinct keys: the invariant of Python's
    dict type. *)
Fixpoint json_wf (j : json) : Prop :=
  match j with
  | JList l => Forall id (map json_wf l)
  | JDict d => NoDup d.*1 /\ Forall id (map (fun kv => match kv with (_, v) => json_wf v end) d)
  | _ => True
  end.

(** ** Python operations on these values *)

(** [bool(x)] *)
Definition py_truthy (j : json) : bool :=
  match j with
  | JNull => false
  | JBool b => b
  | JInt z => negb (Z.eqb z 0)
  | JFloat f => match f with S754_zero _ => false | _ => true end
  | JStr s => negb (String.eqb s "")
  | JList l => match l with [] => false | _ => true end
  | JDict d => match d with [] => false | _ => true end
  end.

(** [a or b] *)
Definition py_or (a b : json) : json := if py_truthy a then a else b.

(** [bool(x)] of a string and of a dict *)
Definition str_truthy (s : string) : bool := negb (String.eqb s "").
Definition dict_truthy (d : dict) : bool := match d with [] => false | _ => true end.

(** [d.get(k)] and [d.get(k, default)] *)
Definition dget (d : dict) (k : string) : json :=
  match assoc k d with Some v => v | None => JNull end.
Definition dget_default (d : dict) (k : string) (def : json) : json :=
  match assoc k d with Some v => v | None => def end.

(** The exact value of a finite float as an integer, when it is one. *)
Definition float_to_int (f : spec_float) : option Z :=
  match f with
  | S754_zero _ => Some 0%Z
  | S754_finite s m e =>
      let v := Z.shiftl (Zpos m) e in
      if (0 <=? e)%Z || Z.eqb (Z.shiftl v (- e)) (Zpos m)
      then Some (if s then (- v)%Z else v) else None
  | _ => None
  end.

Definition float_int_eqb (f : spec_float) (z : Z) : bool :=
  match float_to_int f with Some z' => Z.eqb z z' | None => false end.

(** The integer a bool or an int stands for in a numeric comparison. *)
Definition py_int_of (j : json) : option Z :=
  match j with
  | JInt z => Some z
  | JBool b => Some (if b then 1 else 0)%Z
  | _ => None
  end.

(** Python's [==]: numeric across bool, int and float, dicts up to order. *)
Fixpoint py_eqb (a b : json) {struct a} : bool :=
  match a, b with
  | JNull, JNull => true
  | JStr x, JStr y => String.eqb x y
  | JFloat x, JFloat y => SFeqb x y
  | JFloat x, y => match py_int_of y with Some z => float_int_eqb x z | None => false end
  | x, JFloat y => match py_int_of x with Some z => float_int_eqb y z | None => false end
  | JList x, JList y =>
      (fix go x y : bool :=
         match x, y with
         | [], [] => true
         | a :: x, b :: y => py_eqb a b && go x y
         | _, _ => false
         end) x y
  | JDict x, JDict y =>
      Nat.eqb (length x) (length y) &&
      (fix go x : bool :=
         match x with
         | [] => true
         | (k, v) :: x => match assoc k y with Some v' => py_eqb v v' | None => false end && go x
         end) x
  | x, y =>
      match py_int_of x, py_int_of y with
      | Some i, Some j => Z.eqb i j
      | _, _ => false
      end
  end.

(** [x == "literal"] *)
Definition is_str (j : json) (s : string) : bool :=
  match j with JStr s' => String.eqb s' s | _ => false end.

Lemma is_str_true j s : is_str j s = true <-> j = JStr s.
Proof. destruct j; simpl; try (split; congruence). rewrite String.eqb_eq. naive_solver. Qed.

Lemma py_eqb_str_r j s : py_eqb j (JStr s) = true <-> j = JStr s.
Proof. destruct j; simpl; rewrite ?String.eqb_eq; try (split; congruence); by destruct f. Qed.

Lemma py_eqb_str_l s j : py_eqb (JStr s) j = true <-> j = JStr s.
Proof. destruct j; simpl; rewrite ?String.eqb_eq; split; congruence. Qed.

(** ** Nesting depth *)

(** Depth of a value, the root counting 1: the reference the loop is compared to. *)
Fixpoint json_depth (j : json) : Z :=
  match j with
  | JList l => 1 + fold_right (fun x m => Z.max (json_depth x) m) 0 l
  | JDict d => 1 + fold_right (fun kv m => match kv with (_, v) => Z.max (json_depth v) m end) 0 d
  | _ => 1
  end%Z.

Fixpoint json_size (j : json) : nat :=
  match j with
  | JList l => S (fold_right (fun x m => json_size x + m) 0 l)
  | JDict d => S (fold_right (fun kv m => match kv with (_, v) => json_size v + m end) 0 d)
  | _ => 1
  end.

(** The children pushed for one popped item. *)
Definition json_children (j : json) : list json :=
  match j with
  | JList l => l
  | JDict d => d.*2
  | _ => []
  end.

(** One verdict of the loop: finished, or a value deeper than the limit. *)
Inductive depth_verdict := DepthOk | DepthExceeded.
#[global] Instance depth_verdict_eq_dec : EqDecision depth_verdict.
Proof. solve_decision. Defined.

(** [while stack: item, depth = stack.pop(); ...].  The head of the list is the
    end of the Python list, so [extend] pushes the children reversed. *)
Fixpoint depth_loop (fuel : nat) (max_depth : Z) (stack : list (json * Z)) : option depth_verdict :=
  match stack with
  | [] => Some DepthOk
  | (item, depth) :: stack =>
      match fuel with
      | 0 => None
      | S fuel =>
          if (max_depth <? depth)%Z then Some DepthExceeded
          else depth_loop fuel max_depth
                 (reverse (map (fun child => (child, (depth + 1)%Z)) (json_children item)) ++ stack)
      end
  end.

Definition stack_size (stack : list (json * Z)) : nat :=
  sum_list_with (fun p => json_size p.1) stack.

(** The loop accepts when every pending item fits below the limit. *)
Definition fits (max_depth : Z) (p : json * Z) : Prop := (p.2 + json_depth p.1 - 1 <= max_depth)%Z.

Lemma json_depth_pos j : (1 <= json_depth j)%Z.
Proof.
  destruct j as [| | | | |l|d]; simpl; try lia.
  - enough (0 <= fold_right (fun x m => Z.max (json_depth x) m) 0 l)%Z by lia.
    induction l; simpl; lia.
  - enough (0 <= fold_right (fun kv m => match kv with (_, v) => Z.max (json_depth v) m end) 0 d)%Z by lia.
    induction d as [|[??]]; simpl; lia.
Qed.

Lemma json_size_children j :
  json_size j = S (sum_list_with json_size (json_children j)).
Proof.
  destruct j as [| | | | |l|d]; simpl; try done.
  induction d as [|[??] ? IH]; csimpl; [done|]. lia.
Qed.

Lemma json_depth_children j m :
  (json_depth j <= m + 1)%Z <-> (0 <= m)%Z /\ Forall (fun c => (json_depth c <= m)%Z) (json_children j).
Proof.
  destruct j as [| | | | |l|d]; simpl; try (rewrite Forall_nil; lia).
  - induction l as [|x l IH]; simpl; [rewrite Forall_nil; lia|].
    rewrite Forall_cons. pose proof (json_depth_pos x). destruct IH as [IH1 IH2]. split.
    + intros Hm. destruct IH1; [lia|]. split; [lia|]. split; [lia|done].
    + intros (Hm & ? & Hall). specialize (IH2 (conj Hm Hall)). lia.
  - induction d as [|[k v] d IH]; csimpl; [rewrite Forall_nil; lia|].
    rewrite Forall_cons. pose proof (json_depth_pos v). destruct IH as [IH1 IH2]. split.
    + intros Hm. destruct IH1; [lia|]. split; [lia|]. split; [lia|done].
    + intros (Hm & ? & Hall). specialize (IH2 (conj Hm Hall)). lia.
Qed.

Lemma stack_size_push item depth depth' stack :
  stack_size ((item, depth) :: stack) =
  S (stack_size (reverse (map (fun child => (child, depth')) (json_children item)) ++ stack)).
Proof.
  unfold stack_size. rewrite sum_list_with_app. simpl. rewrite json_size_children.
  rewrite sum_list_with_reverse.
  enough (sum_list_with (fun p : json * Z => json_size p.1) (map (fun child => (child, depth')) (json_children item))
    = sum_list_with json_size (json_children item)) by lia.
  induction (json_children item); simpl; congruence.
Qed.

Lemma fits_push max_depth item depth stack :
  (depth <= max_depth)%Z ->
  Forall (fits max_depth) (reverse (map (fun child => (child, (depth + 1)%Z)) (json_children item)) ++ stack)
  <-> Forall (fits max_depth) ((item, depth) :: stack).
Proof.
  intros Hd. rewrite Forall_app, Forall_cons, Forall_reverse, Forall_fmap.
  enough (Forall (fits max_depth ∘ (fun child => (child, (depth + 1)%Z))) (json_children item)
    <-> fits max_depth (item, depth)) as -> by done.
  transitivity (json_depth item <= (max_depth - depth) + 1)%Z; [|unfold fits; simpl; lia].
  rewrite json_depth_children. transitivity (Forall (fun c => (json_depth c <= max_depth - depth)%Z) (json_children item)).
  - apply Forall_iff. intros c; unfold fits; simpl. lia.
  - split; [by split; [lia|]|by intros []].
Qed.

(** One unit of fuel per pending node runs the loop to its verdict. *)
Lemma depth_loop_spec fuel max_depth stack :
  stack_size stack <= fuel ->
  exists v, depth_loop fuel max_depth stack = Some v /\
    (v = DepthOk <-> Forall (fits max_depth) stack).
Proof.
  revert stack. induction fuel as [|fuel IH]; intros [|[item depth] stack] Hf; simpl.
  - exists DepthOk. by rewrite Forall_nil.
  - unfold stack_size in Hf. simpl in Hf. rewrite json_size_children in Hf. lia.
  - exists DepthOk. by rewrite Forall_nil.
  - destruct (Z.ltb_spec max_depth depth) as [Hlt|Hge].
    + eexists; split; [done|]. split; [done|]. rewrite Forall_cons. intros [Hfit _].
      unfold fits in Hfit. simpl in Hfit. pose proof (json_depth_pos item). lia.
    + rewrite (stack_size_push item depth (depth + 1)) in Hf.
      destruct (IH (reverse (map (fun child => (child, (depth + 1)%Z)) (json_children item)) ++ stack))
        as (v & Hv & Hiff); [lia|].
      exists v. split; [done|]. by rewrite Hiff, fits_push.
Qed.

(** ** The operations of [core/json.py] *)

Inductive json_error :=
| JSONValueError (msg : string)
| DuplicateJSONKeyError (key : string)
| JSONInputTooLargeError
| JSONNestingDepthError
| UnicodeEncodeError
| UnicodeDecodeError
| JSONDecodeError.
#[global] Instance json_error_eq_dec : EqDecision json_error.
Proof. solve_decision. Defined.

Definition DEFAULT_MAX_JSON_BYTES : Z := 1048576.
Definition DEFAULT_MAX_JSON_DEPTH : Z := 128.

(** The fuel is one unit per node of the value, which [depth_loop_spec] shows to
    be enough; the fallback of an exhausted loop is never taken. *)
Definition validate_json_depth (value : json) (max_depth : Z) : res json_error unit :=
  if (max_depth <=? 0)%Z then Err (JSONValueError "max_depth must be positive")
  else match depth_loop (json_size value) max_depth [(value, 1%Z)] with
       | Some DepthOk => Ok tt
       | _ => Err JSONNestingDepthError
       end.

Fixpoint reject_duplicate_loop (payload : dict) (pairs : list (string * json)) : res json_error dict :=
  match pairs with
  | [] => Ok payload
  | (key, value) :: pairs =>
      if has_key key payload then Err (DuplicateJSONKeyError key)
      else reject_duplicate_loop (assoc_set key value payload) pairs
  end.

Definition reject_duplicate_object_pairs (pairs : list (string * json)) : res json_error dict :=
  reject_duplicate_loop [] pairs.

Lemma assoc_set_fresh {A} k (v : A) d : k ∉ d.*1 -> assoc_set k v d = d ++ [(k, v)].
Proof.
  induction d as [|[k' v'] d IH]; csimpl; [done|]. rewrite not_elem_of_cons. intros [Hne Hni].
  rewrite (proj2 (String.eqb_neq k k')) by done. by rewrite IH.
Qed.

Lemma reject_duplicate_loop_spec pairs payload :
  NoDup payload.*1 ->
  (NoDup (payload ++ pairs).*1 -> reject_duplicate_loop payload pairs = Ok (payload ++ pairs)) /\
  (~ NoDup (payload ++ pairs).*1 -> exists k, k ∈ pairs.*1 /\ reject_duplicate_loop payload pairs = Err (DuplicateJSONKeyError k)).
Proof.
  revert payload. induction pairs as [|[k v] pairs IH]; intros payload Hnd; simpl.
  - rewrite app_nil_r. by split.
  - unfold has_key. destruct (assoc k payload) eqn:Hk.
    + assert (k ∈ payload.*1) as Hin.
      { apply assoc_Some_elem in Hk. apply list_elem_of_fmap. by eexists (k, _). }
      split.
      * rewrite fmap_app. csimpl. rewrite NoDup_app, NoDup_cons. intros (_ & Hd & _). set_solver.
      * intros _. exists k. split; [left|done].
    + apply assoc_None_keys in Hk. rewrite assoc_set_fresh by done.
      destruct (IH (payload ++ [(k, v)])) as [IH1 IH2].
      { rewrite fmap_app. apply NoDup_app. split; [done|]. csimpl. split; [set_solver|apply NoDup_singleton]. }
      rewrite <- app_assoc in IH1, IH2. simpl in IH1, IH2. split; [done|].
      intros Hn. destruct (IH2 Hn) as (k' & ? & ?). exists k'. split; [by right|done].
Qed.

(** ** [loads_no_duplicate_keys]

    The text parser of Python's [json] module is a parameter: it maps a text to
    the tree it denotes, objects still being lists of pairs.  What the kernel
    adds (the byte limit, the UTF-8 decoding, the object hook run on every
    object innermost first, the depth check) is modelled. *)
Inductive jtree : Type :=
| TScalar (v : json)
| TArray (l : list jtree)
| TObject (pairs : list (string * jtree)).

Inductive parsed := ParsedTree (t : jtree) | ParseFailed | ParseRecursionError.

Inductive raw_input := RawStr (s : string) | RawBytes (b : string).

(** The value the parser builds when it calls the hook for every object. *)
Fixpoint build_tree (t : jtree) : res json_error json :=
  match t with
  | TScalar v => Ok v
  | TArray l => vs ← res_mapM build_tree l; Ok (JList vs)
  | TObject pairs =>
      kvs ← res_mapM (fun kt => match kt with (k, t) => v ← build_tree t; Ok (k, v) end) pairs;
      d ← reject_duplicate_object_pairs kvs;
      Ok (JDict d)
  end.

(** Scalars of a tree are scalars of JSON. *)
Definition is_scalar (j : json) : bool :=
  match j with JList _ | JDict _ => false | _ => true end.

Fixpoint jtree_scalars (t : jtree) : bool :=
  match t with
  | TScalar v => is_scalar v
  | TArray l => forallb id (map jtree_scalars l)
  | TObject pairs => forallb id (map (fun kt => match kt with (_, t) => jtree_scalars t end) pairs)
  end.

(** A lone surrogate (bytes ED A0..BF), which [str.encode("utf-8")] refuses. *)
Fixpoint has_surrogate (s : string) : bool :=
  match s with
  | String a ((String b _) as s') =>
      (N.eqb (N_of_ascii a) 237 && (160 <=? N_of_ascii b)%N && (N_of_ascii b <=? 191)%N) || has_surrogate s'
  | _ => false
  end.

(** [s.encode("utf-8")] *)
Definition utf8_encode (s : string) : res json_error string :=
  if has_surrogate s then Err UnicodeEncodeError else Ok s.

Section Loads.
Variable parse_text : string -> parsed.
Variable utf8_valid : string -> bool.

Definition _input_size (raw : raw_input) : res json_error Z :=
  match raw with
  | RawStr s => b ← utf8_encode s; Ok (Z.of_nat (String.length b))
  | RawBytes b => Ok (Z.of_nat (String.length b))
  end.

Definition loads_no_duplicate_keys (raw : raw_input) (max_bytes max_depth : Z) : res json_error json :=
  if (max_bytes <=? 0)%Z then Err (JSONValueError "max_bytes must be positive")
  else
    size ← _input_size raw;
    if (max_bytes <? size)%Z then Err JSONInputTooLargeError else
    text ← match raw with
           | RawStr s => Ok s
           | RawBytes b => if utf8_valid b then Ok b else Err UnicodeDecodeError
           end;
    payload ← match parse_text text with
              | ParsedTree t => build_tree t
              | ParseFailed => Err JSONDecodeError
              | ParseRecursionError => Err JSONNestingDepthError
              end;
    _ ← validate_json_depth payload max_depth;
    Ok payload.
End Loads.

Lemma reject_duplicate_Ok pairs d :
  reject_duplicate_object_pairs pairs = Ok d <-> NoDup pairs.*1 /\ d = pairs.
Proof.
  unfold reject_duplicate_object_pairs.
  destruct (reject_duplicate_loop_spec pairs []) as [H1 H2]; [constructor|]. simpl in H1, H2.
  destruct (decide (NoDup pairs.*1)) as [Hn|Hn].
  - rewrite H1 by done. naive_solver.
  - destruct (H2 Hn) as (k & _ & ->). naive_solver.
Qed.

Lemma validate_json_depth_eq value max_depth :
  validate_json_depth value max_depth =
  if (max_depth <=? 0)%Z then Err (JSONValueError "max_depth must be positive")
  else if (json_depth value <=? max_depth)%Z then Ok tt else Err JSONNestingDepthError.
Proof.
  unfold validate_json_depth. destruct (Z.leb_spec max_depth 0); [done|].
  destruct (depth_loop_spec (json_size value) max_depth [(value, 1%Z)]) as (v & -> & Hv).
  { unfold stack_size; simpl; lia. }
  rewrite Forall_singleton in Hv. unfold fits in Hv. simpl in Hv.
  destruct (Z.leb_spec (json_depth value) max_depth), v; try done.
  - destruct Hv as [_ Hv]. discriminate Hv. lia.
  - destruct Hv as [Hv _]. specialize (Hv eq_refl). lia.
Qed.

Fixpoint jtree_size (t : jtree) : nat :=
  match t with
  | TScalar _ => 1
  | TArray l => S (sum_list_with jtree_size l)
  | TObject pairs => S (sum_list_with (fun kt => match kt with (_, t) => jtree_size t end) pairs)
  end.

Lemma build_tree_wf_fuel n t :
  jtree_size t <= n -> jtree_scalars t = true -> forall v, build_tree t = Ok v -> json_wf v.
Proof.
  revert t. induction n as [|n IH]; intros [s|l|pairs] Hn Hs v Hv; simpl in Hn, Hs, Hv; try lia.
  - injection Hv as <-. by destruct s.
  - apply bind_Ok in Hv as (vs & Hm & [= <-]). simpl.
    revert vs Hm. induction l as [|t l IHl]; intros vs Hm; simpl in *; res_inv; simpl; [constructor|].
    apply andb_true_iff in Hs as [Ht Hl]. constructor; [|apply IHl; [lia|done|done]].
    eapply (IH t); [lia|done|done].
  - apply bind_Ok in Hv as (kvs & Hm & Hv). apply bind_Ok in Hv as (d & Hd & [= <-]).
    apply reject_duplicate_Ok in Hd as [Hnd ->]. simpl. split; [done|]. clear Hnd.
    revert kvs Hm. induction pairs as [|[k t] l IHl]; intros kvs Hm; simpl in *; res_inv; simpl; [constructor|].
    apply andb_true_iff in Hs as [Ht Hl]. constructor; [|apply IHl; [lia|done|done]].
    eapply (IH t); [lia|done|done].
Qed.

Lemma build_tree_wf t v : jtree_scalars t = true -> build_tree t = Ok v -> json_wf v.
Proof. intros. by eapply build_tree_wf_fuel. Qed.

(** The explicit-stack loop of [validate_json_depth] refuses a non-positive
    limit and otherwise accepts a value exactly when its nesting depth, the root
    counting 1, is at most the limit. *)
Theorem validate_json_depth_exact (value : json) (max_depth : Z) :
  validate_json_depth value max_depth =
  if (max_depth <=? 0)%Z then Err (JSONValueError "max_depth must be positive")
  else if (json_depth value <=? max_depth)%Z then Ok tt else Err JSONNestingDepthError.
Proof. apply validate_json_depth_eq. Qed.

Lemma loads_Ok (parse_text : string -> parsed) (utf8_valid : string -> bool) raw max_bytes max_depth v :
  (forall s t, parse_text s = ParsedTree t -> jtree_scalars t = true) ->
  loads_no_duplicate_keys parse_text utf8_valid raw max_bytes max_depth = Ok v ->
  json_wf v /\ (json_depth v <= max_depth)%Z /\ exists size, _input_size raw = Ok size /\ (size <= max_bytes)%Z.
Proof.
  intros Hscal. unfold loads_no_duplicate_keys.
  destruct (Z.leb_spec max_bytes 0); [done|].
  intros Hl. apply bind_Ok in Hl as (size & Hsize & Hl).
  destruct (Z.ltb_spec max_bytes size); [done|].
  apply bind_Ok in Hl as (text & _ & Hl). apply bind_Ok in Hl as (payload & Ht & Hl).
  apply bind_Ok in Hl as ([] & Hd & [= <-]).
  destruct (parse_text text) as [t| |] eqn:Hp; try discriminate Ht.
  split; [by eapply build_tree_wf, Ht; eapply Hscal|]. split; [|by exists size].
  rewrite validate_json_depth_eq in Hd.
  destruct (max_depth <=? 0)%Z; [done|].
  destruct (Z.leb_spec (json_depth payload) max_depth); [done|discriminate].
Qed.

(** *** What a text means, and the trees the hook accepts *)

(** The value a tree denotes with every pair of every object kept, in order. *)
Fixpoint jtree_value (t : jtree) : json :=
  match t with
  | TScalar v => v
  | TArray l => JList (map jtree_value l)
  | TObject pairs => JDict (map (fun kt => match kt with (k, t) => (k, jtree_value t) end) pairs)
  end.

(** No object of the tree, at any level, repeats a key. *)
Fixpoint jtree_distinct (t : jtree) : Prop :=
  match t with
  | TScalar _ => True
  | TArray l => Forall id (map jtree_distinct l)
  | TObject pairs => NoDup pairs.*1 /\ Forall id (map (fun kt => match kt with (_, t) => jtree_distinct t end) pairs)
  end.

(** Some object of the tree has the key a second time. *)
Inductive repeats (k : string) : jtree -> Prop :=
| repeats_here l1 t l2 : k ∈ l1.*1 -> repeats k (TObject (l1 ++ (k, t) :: l2))
| repeats_array l t : t ∈ l -> repeats k t -> repeats k (TArray l)
| repeats_object pairs k' t : (k', t) ∈ pairs -> repeats k t -> repeats k (TObject pairs).

Lemma reject_duplicate_loop_Err pairs payload k :
  reject_duplicate_loop payload pairs = Err (DuplicateJSONKeyError k) ->
  exists l1 v l2, pairs = l1 ++ (k, v) :: l2 /\ k ∈ payload.*1 ++ l1.*1.
Proof.
  revert payload. induction pairs as [|[k0 v0] pairs IH]; intros payload; simpl; [done|].
  unfold has_key. destruct (assoc k0 payload) eqn:Hk.
  - intros [= ->]. exists [], v0, pairs. split; [done|]. csimpl. rewrite app_nil_r.
    apply assoc_Some_elem in Hk. apply list_elem_of_fmap. by eexists (k, _).
  - apply assoc_None_keys in Hk. rewrite assoc_set_fresh by done. intros Hl.
    apply IH in Hl as (l1 & v & l2 & -> & Hin). exists ((k0, v0) :: l1), v, l2. split; [done|].
    rewrite fmap_app in Hin. csimpl. csimpl in Hin. set_solver.
Qed.

Lemma reject_duplicate_object_result pairs :
  (NoDup pairs.*1 /\ reject_duplicate_object_pairs pairs = Ok pairs) \/
  (exists k l1 v l2, pairs = l1 ++ (k, v) :: l2 /\ k ∈ l1.*1 /\
     reject_duplicate_object_pairs pairs = Err (DuplicateJSONKeyError k)).
Proof.
  unfold reject_duplicate_object_pairs.
  destruct (reject_duplicate_loop_spec pairs []) as [H1 H2]; [constructor|]. simpl in H1, H2.
  destruct (decide (NoDup pairs.*1)) as [Hn|Hn]; [left; split; [done|by apply H1]|right].
  destruct (H2 Hn) as (k & _ & He). destruct (reject_duplicate_loop_Err _ _ _ He) as (l1 & v & l2 & -> & Hin).
  by exists k, l1, v, l2.
Qed.

(** How [res_mapM] ends: every element's value, or the error of one element. *)
Lemma res_mapM_ends {E A B} (f : A -> res E B) (l : list A) :
  (exists vs, res_mapM f l = Ok vs /\ Forall2 (fun a b => f a = Ok b) l vs) \/
  (exists a e, a ∈ l /\ f a = Err e /\ res_mapM f l = Err e).
Proof.
  induction l as [|a l IH]; simpl; [left; by exists []|].
  destruct (f a) as [b|e] eqn:Hf; simpl; [|right; exists a, e; split_and!; [left|done|done]].
  destruct IH as [(vs & -> & Hvs)|(a' & e & Hin & Ha & ->)]; simpl.
  - left. exists (b :: vs). split; [done|]. by constructor.
  - right. exists a', e. split_and!; [by right|done|done].
Qed.

(** The hook builds the value of a tree without repeated keys and stops at a
    repeated key of any other. *)
Definition built (t : jtree) : Prop :=
  (jtree_distinct t /\ build_tree t = Ok (jtree_value t)) \/
  (~ jtree_distinct t /\ exists k, repeats k t /\ build_tree t = Err (DuplicateJSONKeyError k)).

Lemma built_Ok t v : built t -> build_tree t = Ok v -> jtree_distinct t /\ v = jtree_value t.
Proof. intros [[Hd ->]|(_ & k & _ & ->)]; naive_solver. Qed.

Lemma built_Err t e : built t -> build_tree t = Err e -> ~ jtree_distinct t /\ exists k, repeats k t /\ e = DuplicateJSONKeyError k.
Proof. intros [[Hd ->]|(Hn & k & Hk & ->)]; naive_solver. Qed.

Lemma jtree_size_elem (l : list jtree) t : t ∈ l -> jtree_size t <= sum_list_with jtree_size l.
Proof. induction 1; simpl; lia. Qed.

Lemma jtree_size_pair (l : list (string * jtree)) k t :
  (k, t) ∈ l -> jtree_size t <= sum_list_with (fun kt => match kt with (_, t) => jtree_size t end) l.
Proof. induction l as [|[k' t'] l IH]; simpl; [by rewrite elem_of_nil|]. intros [[= -> ->]|Hin%IH]%elem_of_cons; lia. Qed.

Lemma built_array l : Forall built l -> built (TArray l).
Proof.
  intros Hall. unfold built. simpl. destruct (res_mapM_ends build_tree l) as [(vs & -> & Hvs)|(t & e & Hin & Ht & ->)]; simpl.
  - left. induction Hvs as [|t v l vs Ht Hvs IH]; simpl; [done|]. apply Forall_cons in Hall as [Hb Hall].
    apply built_Ok in Ht as [Hd ->]; [|done]. destruct (IH Hall) as [Hds [= ->]]. by repeat constructor.
  - right. rewrite Forall_forall in Hall. apply built_Err in Ht as (Hn & k & Hk & ->); [|by apply Hall]. split.
    + intros Hd. apply Hn. rewrite Forall_map, Forall_forall in Hd. by apply Hd.
    + exists k. split; [by eapply repeats_array|done].
Qed.

Lemma built_pairs (pairs : list (string * jtree)) (kvs : dict) : Forall (fun kt => built kt.2) pairs ->
  Forall2 (fun kt kv => (match kt with (k, t) => v ← build_tree t; Ok (k, v) end) = Ok kv) pairs kvs ->
  Forall id (map (fun kt => match kt with (_, t) => jtree_distinct t end) pairs) /\
  kvs = map (fun kt => match kt with (k, t) => (k, jtree_value t) end) pairs.
Proof.
  intros Hall Hvs. induction Hvs as [|[k t] kv pairs kvs Ht Hvs IH]; simpl; [done|].
  apply Forall_cons in Hall as [Hb Hall]. apply bind_Ok in Ht as (v & Ht & [= <-]).
  apply built_Ok in Ht as [Hd ->]; [|done]. destruct (IH Hall) as [Hds ->]. by repeat constructor.
Qed.

Lemma value_pairs_keys (pairs : list (string * jtree)) :
  (map (fun kt => match kt with (k, t) => (k, jtree_value t) end) pairs).*1 = pairs.*1.
Proof. induction pairs as [|[k t] pairs IH]; csimpl; congruence. Qed.

Lemma built_object pairs : Forall (fun kt => built kt.2) pairs -> built (TObject pairs).
Proof.
  intros Hall. unfold built. simpl.
  destruct (res_mapM_ends (fun kt => match kt with (k, t) => v ← build_tree t; Ok (k, v) end) pairs)
    as [(kvs & -> & Hvs)|([k t] & e & Hin & Ht & ->)]; simpl.
  - apply built_pairs in Hvs as [Hd ->]; [|done].
    destruct (reject_duplicate_object_result (map (fun kt => match kt with (k, t) => (k, jtree_value t) end) pairs))
      as [[Hnd ->]|(k & l1 & v & l2 & Heq & Hin & ->)]; simpl.
    + left. by rewrite value_pairs_keys in Hnd.
    + right. apply map_eq_app in Heq as (p1 & p2 & -> & <- & Heq). apply map_eq_cons in Heq as ([k' t] & p3 & -> & [= <- <-] & <-).
      rewrite value_pairs_keys in Hin. split; [|exists k'; split; [by constructor|done]].
      intros [Hnd _]. rewrite fmap_app in Hnd. csimpl in Hnd. apply NoDup_app in Hnd as (_ & Hnd & _). by apply (Hnd k'); [|left].
  - right. rewrite Forall_forall in Hall. destruct (build_tree t) as [v|e'] eqn:Hb; simpl in Ht; [done|]. injection Ht as ->.
    apply built_Err in Hb as (Hn & k' & Hk & ->); [|apply (Hall _ Hin)]. split.
    + intros [_ Hd]. apply Hn. rewrite Forall_map, Forall_forall in Hd. apply (Hd _ Hin).
    + exists k'. split; [by eapply repeats_object|done].
Qed.

Lemma build_tree_built t : built t.
Proof.
  remember (jtree_size t) as n eqn:Hn. assert (jtree_size t <= n) as Hle by lia. clear Hn.
  revert t Hle. induction n as [|n IH]; intros [v|l|pairs] Hle; simpl in Hle; try lia.
  - by left.
  - apply built_array, Forall_forall. intros t Hin. apply IH. pose proof (jtree_size_elem _ _ Hin). lia.
  - apply built_object, Forall_forall. intros [k t] Hin. apply IH. pose proof (jtree_size_pair _ _ _ Hin). simpl. lia.
Qed.

(** The text the parser is given: a [str] as it is, bytes only when they are UTF-8. *)
Definition raw_text (utf8_valid : string -> bool) (raw : raw_input) : option string :=
  match raw with RawStr s => Some s | RawBytes b => if utf8_valid b then Some b else None end.

(** The input is within the byte limit, and the limits are positive. *)
Definition within_limits (raw : raw_input) (max_bytes max_depth : Z) : Prop :=
  (0 < max_bytes)%Z /\ (0 < max_depth)%Z /\ exists size, _input_size raw = Ok size /\ (size <= max_bytes)%Z.

Lemma loads_parsed (parse_text : string -> parsed) utf8_valid raw max_bytes max_depth text t :
  (0 < max_bytes)%Z -> (exists size, _input_size raw = Ok size /\ (size <= max_bytes)%Z) ->
  raw_text utf8_valid raw = Some text -> parse_text text = ParsedTree t ->
  loads_no_duplicate_keys parse_text utf8_valid raw max_bytes max_depth =
  (payload ← build_tree t; _ ← validate_json_depth payload max_depth; Ok payload).
Proof.
  intros Hmb (size & Hs & Hle) Ht Hp. unfold loads_no_duplicate_keys.
  rewrite (proj2 (Z.leb_gt _ _)), Hs by done. simpl. rewrite (proj2 (Z.ltb_ge _ _)) by done.
  destruct raw as [s|b]; simpl in Ht |- *; [injection Ht as ->|destruct (utf8_valid b); [injection Ht as ->|done]]; simpl; by rewrite Hp.
Qed.

Lemma loads_returns (parse_text : string -> parsed) utf8_valid raw max_bytes max_depth v :
  loads_no_duplicate_keys parse_text utf8_valid raw max_bytes max_depth = Ok v ->
  (0 < max_bytes)%Z /\ (exists size, _input_size raw = Ok size /\ (size <= max_bytes)%Z) /\
  exists text t, raw_text utf8_valid raw = Some text /\ parse_text text = ParsedTree t.
Proof.
  unfold loads_no_duplicate_keys. destruct (Z.leb_spec max_bytes 0); [done|]. intros Hl.
  apply bind_Ok in Hl as (size & Hsize & Hl). destruct (Z.ltb_spec max_bytes size); [done|].
  apply bind_Ok in Hl as (text & Htext & Hl). apply bind_Ok in Hl as (payload & Ht & _).
  split; [lia|]. split; [by exists size|]. exists text.
  destruct (parse_text text) as [t| |]; try discriminate Ht. exists t. split; [|done].
  destruct raw as [s|b]; simpl in Htext |- *; [by injection Htext as ->|]. destruct (utf8_valid b); [by injection Htext as ->|done].
Qed.

(** C37: [loads_no_duplicate_keys] returns a value exactly when the input is within
    the byte limit, decodes, and parses to a document none of whose objects, at any
    level, repeats a key and whose nesting is within the depth limit; the value is
    the document's, with every pair of every object kept.  A document within the
    byte limit that repeats a key anywhere is refused with DuplicateJSONKeyError
    naming a key that some object of it has twice: no value silently wins. *)
Theorem loads_no_duplicate_keys_safe (parse_text : string -> parsed) (utf8_valid : string -> bool)
    (raw : raw_input) (max_bytes max_depth : Z) :
  (forall v, loads_no_duplicate_keys parse_text utf8_valid raw max_bytes max_depth = Ok v <->
     within_limits raw max_bytes max_depth /\
     exists text t, raw_text utf8_valid raw = Some text /\ parse_text text = ParsedTree t /\
       jtree_distinct t /\ v = jtree_value t /\ (json_depth v <= max_depth)%Z) /\
  (forall text t, within_limits raw max_bytes max_depth ->
     raw_text utf8_valid raw = Some text -> parse_text text = ParsedTree t -> ~ jtree_distinct t ->
     exists k, repeats k t /\
       loads_no_duplicate_keys parse_text utf8_valid raw max_bytes max_depth = Err (DuplicateJSONKeyError k)).
Proof.
  split.
  - intros v. split.
    + intros Hl. destruct (loads_returns _ _ _ _ _ _ Hl) as (Hmb & Hsize & text & t & Ht & Hp).
      rewrite (loads_parsed _ _ _ _ _ _ _ Hmb Hsize Ht Hp) in Hl. apply bind_Ok in Hl as (v' & Hb & Hl).
      apply bind_Ok in Hl as ([] & Hd & [= ->]). rewrite validate_json_depth_eq in Hd.
      destruct (Z.leb_spec max_depth 0); [done|]. destruct (Z.leb_spec (json_depth v) max_depth); [|done].
      apply built_Ok in Hb as [Hdist Hv]; [|apply build_tree_built]. split; [done|]. by exists text, t.
    + intros ((Hmb & Hmd & Hsize) & text & t & Ht & Hp & Hdist & -> & Hdepth).
      rewrite (loads_parsed _ _ _ _ _ _ _ Hmb Hsize Ht Hp). destruct (build_tree_built t) as [[_ ->]|[Hn _]]; [|done]. simpl.
      rewrite validate_json_depth_eq, (proj2 (Z.leb_gt _ _)), (proj2 (Z.leb_le _ _)) by done. done.
  - intros text t (Hmb & _ & Hsize) Ht Hp Hn. rewrite (loads_parsed _ _ _ _ _ _ _ Hmb Hsize Ht Hp).
    destruct (build_tree_built t) as [[Hd _]|(_ & k & Hk & ->)]; [done|]. by exists k.
Qed.

Definition demo_parse_text (s : string) : parsed :=
  if String.eqb s "doc" then ParsedTree (TObject [("a", TArray [TScalar (JInt 1)]); ("b", TScalar JNull)])
  else if String.eqb s "twice" then ParsedTree (TObject [("a", TArray [TObject [("x", TScalar (JInt 1)); ("x", TScalar (JInt 2))]])])
  else ParseFailed.
Definition demo_document : json := JDict [("a", JList [JInt 1]); ("b", JNull)].

Lemma demo_limits s : (String.length s <= 1024)%nat -> has_surrogate s = false -> within_limits (RawStr s) 1024 8.
Proof.
  intros Hl Hs. split; [lia|]. split; [lia|]. exists (Z.of_nat (String.length s)). simpl. unfold utf8_encode. rewrite Hs. split; [done|lia].
Qed.

Lemma loads_no_duplicate_keys_safe_witness :
  loads_no_duplicate_keys demo_parse_text (fun _ => true) (RawStr "doc") 1024 8 = Ok demo_document /\
  exists k, loads_no_duplicate_keys demo_parse_text (fun _ => true) (RawStr "twice") 1024 8 = Err (DuplicateJSONKeyError k).
Proof.
  split.
  - apply (proj1 (loads_no_duplicate_keys_safe demo_parse_text (fun _ => true) (RawStr "doc") 1024 8)).
    split; [apply demo_limits; [simpl; lia|reflexivity]|].
    exists "doc", (TObject [("a", TArray [TScalar (JInt 1)]); ("b", TScalar JNull)]).
    split; [reflexivity|]. split; [reflexivity|]. split; [|by split].
    simpl. split; [apply (bool_decide_unpack _); vm_compute; exact I|]. repeat constructor.
  - destruct (proj2 (loads_no_duplicate_keys_safe demo_parse_text (fun _ => true) (RawStr "twice") 1024 8)
      "twice" (TObject [("a", TArray [TObject [("x", TScalar (JInt 1)); ("x", TScalar (JInt 2))]])])) as (k & _ & Hk);
      [apply demo_limits; [simpl; lia|reflexivity]|reflexivity|reflexivity| |by exists k].
    intros [_ Hd]. apply Forall_cons in Hd as [Hd _]. apply Forall_cons in Hd as [[Hd _] _].
    csimpl in Hd. apply NoDup_cons in Hd as [Hd _]. apply Hd. left.
Defined.
