(* ===== verification/Errors.v ===== *)
(** * Exceptions: [actenon/core/errors.py]

    [exn] is what a kernel call can raise: Python's own exception classes (the
    kernel's handlers distinguish [ValueError], [TypeError] and the rest) and the
    kernel's [RefusalException] family, whose fields become the Refusal artifact.
    [OutOfModel] marks the inputs the model does not follow (a Python dict with a
    key that is not a string); no theorem about a successful call covers them. *)

From S2P Require Import Prelude Json.

(** [models/contracts.py: Violation] *)
Record Violation := mkViolation {
  viol_code : string;
  viol_message : string;
  viol_field_path : json;
  viol_expected : json;
  viol_observed : json
}.
#[global] Instance Violation_eq_dec : EqDecision Violation.
Proof. solve_decision. Defined.

Inductive exc_class :=
| RefusalExceptionC | ContractValidationErrorC | PolicyDecisionErrorC | ProofVerificationErrorC
| EscrowValidationErrorC | EscrowConfigurationErrorC | ReplayValidationErrorC
| IdempotencyConflictC | ProofSealErrorC.
#[global] Instance exc_class_eq_dec : EqDecision exc_class.
Proof. solve_decision. Defined.

Record RefusalException := mkRefusalException {
  exc_cls : exc_class;
  exc_category : string;
  exc_refusal_code : string;
  exc_message : string;
  exc_retryable : bool;
  exc_rule_refs : list string;
  exc_violations : list Violation;
  exc_details : dict
}.
#[global] Instance RefusalException_eq_dec : EqDecision RefusalException.
Proof. solve_decision. Defined.

Inductive exn :=
| ValueError (msg : string)
| TypeError (msg : string)
| AttributeError (msg : string)
| KeyError (key : string)
| OverflowError
| CanonicalisationError (msg : string)
| Refused (r : RefusalException)
| OtherError (cls : string)
| OutOfModel.
#[global] Instance exn_eq_dec : EqDecision exn.
Proof. solve_decision. Defined.

Abbreviation py := (res exn).

(** [RefusalException(category=..., refusal_code=..., message=...)] *)
Definition RefusalExn (category refusal_code message : string) (retryable : bool) (details : dict) : RefusalException :=
  mkRefusalException RefusalExceptionC category refusal_code message retryable [] [] details.

Definition ContractValidationError (message : string) (violations : list Violation) (details : dict) : RefusalException :=
  mkRefusalException ContractValidationErrorC "schema" "SCHEMA_INVALID" message false [] violations details.

Definition PolicyDecisionError (refusal_code message : string) (rule_refs : list string) (details : dict) : RefusalException :=
  mkRefusalException PolicyDecisionErrorC "policy" refusal_code message false rule_refs [] details.

Definition ProofVerificationError (refusal_code message : string) (details : dict) : RefusalException :=
  mkRefusalException ProofVerificationErrorC "proof" refusal_code message false [] [] details.

Definition EscrowValidationError (refusal_code message : string) (details : dict) : RefusalException :=
  mkRefusalException EscrowValidationErrorC "escrow" refusal_code message false [] [] details.

Definition EscrowConfigurationError (message missing_field minting_step : string) : RefusalException :=
  mkRefusalException EscrowConfigurationErrorC "escrow" "ESCROW_CONFIGURATION_INVALID" message false [] []
    [("missing_field", JStr missing_field); ("minting_step", JStr minting_step)].

Definition ReplayValidationError (refusal_code message : string) (details : dict) : RefusalException :=
  mkRefusalException ReplayValidationErrorC "replay" refusal_code message false [] [] details.
