(* ===== verification/Timestamps.v ===== *)
(** * Timestamps: [format_timestamp] and [parse_timestamp] of [models/contracts.py]

    A timezone-aware [datetime] normalised to UTC is the number of microseconds
    since 0001-01-01T00:00:00Z ([Z]); [datetime.min] is 0 and [datetime.max] is
    [DATETIME_END - 1].  The calendar is the proleptic Gregorian one of Python's
    [datetime] module ([ymd2ord], [ord2ymd]).  Order and subtraction of datetimes
    are those of [Z]; an addition that leaves the range raises [OverflowError].

    [parse_timestamp] follows the regular expression [_DATE_TIME] character by
    character.  The theorems: formatting then parsing is the identity on every
    datetime; two formatted datetimes compare as text as they compare in time
    when both or neither carry a fraction, and may not otherwise. *)

From Stdlib Require Import Ascii.
From S2P Require Import Prelude Json Errors.
#[local] Open Scope Z_scope.

Abbreviation datetime := Z.

(** ** Calendar (Python's [datetime] module) *)
Definition is_leap (y : Z) : bool :=
  (y mod 4 =? 0) && (negb (y mod 100 =? 0) || (y mod 400 =? 0)).

Definition days_before_year (y : Z) : Z :=
  let y := y - 1 in y * 365 + y / 4 - y / 100 + y / 400.

Definition days_in_month (leap : bool) (m : Z) : Z :=
  if m =? 2 then (if leap then 29 else 28)
  else if (m =? 4) || (m =? 6) || (m =? 9) || (m =? 11) then 30 else 31.

Definition days_before_month (leap : bool) (m : Z) : Z :=
  match m with
  | 1 => 0 | 2 => 31 | 3 => 59 | 4 => 90 | 5 => 120 | 6 => 151
  | 7 => 181 | 8 => 212 | 9 => 243 | 10 => 273 | 11 => 304 | _ => 334
  end + (if (2 <? m) && leap then 1 else 0).

(** The ordinal of a date, 0001-01-01 being 1. *)
Definition ymd2ord (y m d : Z) : Z := days_before_year y + days_before_month (is_leap y) m + d.

(** The month and day of the [n]-th day (from 0) of a year. *)
Definition month_day (leap : bool) (n : Z) : Z * Z :=
  let month := (n + 50) / 32 in
  if n <? days_before_month leap month
  then (month - 1, n - days_before_month leap (month - 1) + 1)
  else (month, n - days_before_month leap month + 1).

Definition ord2ymd (n : Z) : Z * Z * Z :=
  let n := n - 1 in
  let n400 := n / 146097 in let n := n mod 146097 in
  let n100 := n / 36524 in let n := n mod 36524 in
  let n4 := n / 1461 in let n := n mod 1461 in
  let n1 := n / 365 in let n := n mod 365 in
  let year := n400 * 400 + 1 + n100 * 100 + n4 * 4 + n1 in
  if (n1 =? 4) || (n100 =? 4) then (year - 1, 12, 31)
  else
    let leap := (n1 =? 3) && (negb (n4 =? 24) || (n100 =? 3)) in
    let '(m, d) := month_day leap n in (year, m, d).

Definition US_PER_SECOND : Z := 1000000.
Definition US_PER_DAY : Z := 86400 * US_PER_SECOND.
Definition MAXORDINAL : Z := 3652059.
Definition DATETIME_END : Z := MAXORDINAL * US_PER_DAY.

Definition datetime_ok (t : datetime) : Prop := 0 <= t < DATETIME_END.

(** [datetime + timedelta] *)
Definition datetime_add (t delta : Z) : py datetime :=
  if (0 <=? t + delta) && (t + delta <? DATETIME_END) then Ok (t + delta) else Err OverflowError.

(** ** Calendar round trip *)
#[local] Ltac Zify.zify_post_hook ::= Z.div_mod_to_equations.

Fixpoint all_below (n : nat) (p : Z -> bool) : bool :=
  match n with O => true | S n => p (Z.of_nat n) && all_below n p end.

Lemma all_below_spec (n : nat) (p : Z -> bool) : all_below n p = true -> forall z, 0 <= z < Z.of_nat n -> p z = true.
Proof.
  induction n as [|n IH]; simpl; [lia|]. intros [Hp Hn]%andb_true_iff z Hz.
  destruct (decide (z = Z.of_nat n)) as [->|]; [done|]. apply IH; [done|lia].
Qed.

Definition month_day_good (leap : bool) (n : Z) : bool :=
  let '(m, d) := month_day leap n in
  (1 <=? m) && (m <=? 12) && (1 <=? d) && (d <=? days_in_month leap m) &&
  (days_before_month leap m + d =? n + 1).

Lemma month_day_spec (leap : bool) (n : Z) :
  0 <= n < (if leap then 366 else 365) -> month_day_good leap n = true.
Proof.
  destruct leap; intros Hn.
  - apply (all_below_spec 366 (month_day_good true)); [vm_compute; reflexivity|lia].
  - apply (all_below_spec 365 (month_day_good false)); [vm_compute; reflexivity|lia].
Qed.

(** The year arithmetic of [ord2ymd]: 400-, 100-, 4- and 1-year cycles. *)
Lemma ord2ymd_cycles (n400 n100 n4 n1 r : Z) :
  0 <= n400 <= 24 -> 0 <= n100 <= 3 -> 0 <= n4 <= 24 -> 0 <= n1 <= 3 ->
  let y := n400 * 400 + 1 + n100 * 100 + n4 * 4 + n1 in
  days_before_year y = n400 * 146097 + n100 * 36524 + n4 * 1461 + n1 * 365 /\
  is_leap y = (n1 =? 3) && (negb (n4 =? 24) || (n100 =? 3)).
Proof.
  intros H400 H100 H4 H1 y. unfold days_before_year, is_leap. subst y. split.
  - replace (n400 * 400 + 1 + n100 * 100 + n4 * 4 + n1 - 1) with (n400 * 400 + n100 * 100 + n4 * 4 + n1) by lia.
    replace ((n400 * 400 + n100 * 100 + n4 * 4 + n1) / 4) with (n400 * 100 + n100 * 25 + n4) by lia.
    replace ((n400 * 400 + n100 * 100 + n4 * 4 + n1) / 100) with (n400 * 4 + n100) by lia.
    replace ((n400 * 400 + n100 * 100 + n4 * 4 + n1) / 400) with n400 by lia. lia.
  - apply Bool.eq_iff_eq_true.
    rewrite !andb_true_iff, !orb_true_iff, !negb_true_iff, !Z.eqb_eq, !Z.eqb_neq. lia.
Qed.

(** A valid calendar date, as the [date] constructor checks it. *)
Definition ymd_ok (y m d : Z) : bool :=
  (1 <=? y) && (y <=? 9999) && (1 <=? m) && (m <=? 12) &&
  (1 <=? d) && (d <=? days_in_month (is_leap y) m).

Definition year_len (y : Z) : Z := if is_leap y then 366 else 365.

Lemma days_before_year_succ y : days_before_year (y + 1) = days_before_year y + year_len y.
Proof.
  unfold days_before_year, year_len, is_leap.
  replace (y + 1 - 1) with y by lia.
  assert (y / 4 - (y - 1) / 4 = if y mod 4 =? 0 then 1 else 0) by (destruct (Z.eqb_spec (y mod 4) 0); lia).
  assert (y / 100 - (y - 1) / 100 = if y mod 100 =? 0 then 1 else 0) by (destruct (Z.eqb_spec (y mod 100) 0); lia).
  assert (y / 400 - (y - 1) / 400 = if y mod 400 =? 0 then 1 else 0) by (destruct (Z.eqb_spec (y mod 400) 0); lia).
  destruct (Z.eqb_spec (y mod 4) 0), (Z.eqb_spec (y mod 100) 0), (Z.eqb_spec (y mod 400) 0); simpl; lia.
Qed.

Lemma days_before_year_mono y y' : y < y' -> days_before_year y + year_len y <= days_before_year y'.
Proof.
  intros Hlt. rewrite <- days_before_year_succ. unfold days_before_year. lia.
Qed.

(** Calendar facts of the twelve months, checked by computation. *)
Lemma month_case (leap : bool) (m : Z) : 1 <= m <= 12 ->
  days_before_month leap (m + 1) = (if m =? 12 then days_before_month leap 13 else days_before_month leap m + days_in_month leap m)
  /\ 0 <= days_before_month leap m /\ days_before_month leap m + days_in_month leap m <= (if leap then 366 else 365).
Proof.
  intros Hm.
  assert (m = 1 \/ m = 2 \/ m = 3 \/ m = 4 \/ m = 5 \/ m = 6 \/ m = 7 \/ m = 8 \/ m = 9 \/ m = 10 \/ m = 11 \/ m = 12) as Hc by lia.
  repeat destruct Hc as [->|Hc]; [..|subst m]; destruct leap; vm_compute; repeat split; congruence.
Qed.

Definition month_lt_good (leap : bool) (m m' : Z) : bool :=
  negb ((1 <=? m) && (m <? m') && (m' <=? 12)) ||
  (days_before_month leap m + days_in_month leap m <=? days_before_month leap m').

Lemma days_before_month_mono (leap : bool) (m m' : Z) : 1 <= m -> m < m' -> m' <= 12 ->
  days_before_month leap m + days_in_month leap m <= days_before_month leap m'.
Proof.
  intros H1 Hlt H12.
  assert (month_lt_good leap m m' = true) as Hg.
  { apply (all_below_spec 13 (fun m' => month_lt_good leap m m')); [|lia].
    apply (all_below_spec 13 (fun m => all_below 13 (fun m' => month_lt_good leap m m'))); [|lia].
    destruct leap; vm_compute; reflexivity. }
  unfold month_lt_good in Hg. lia.
Qed.

Lemma ymd_ok_bounds y m d : ymd_ok y m d = true ->
  1 <= y <= 9999 /\ 1 <= m <= 12 /\ 1 <= d <= days_in_month (is_leap y) m.
Proof. unfold ymd_ok. lia. Qed.

Lemma ymd2ord_bounds y m d : ymd_ok y m d = true ->
  days_before_year y < ymd2ord y m d <= days_before_year y + year_len y.
Proof.
  intros (Hy & Hm & Hd)%ymd_ok_bounds. unfold ymd2ord, year_len.
  destruct (month_case (is_leap y) m Hm) as (_ & H0 & Hle). lia.
Qed.

(** The date of an ordinal is valid and has that ordinal. *)
Lemma ord2ymd_spec n : 1 <= n <= MAXORDINAL ->
  let '(y, m, d) := ord2ymd n in ymd_ok y m d = true /\ ymd2ord y m d = n.
Proof.
  intros Hn. unfold MAXORDINAL in Hn. unfold ord2ymd.
  set (n0 := n - 1). set (n400 := n0 / 146097). set (r400 := n0 mod 146097).
  set (n100 := r400 / 36524). set (r100 := r400 mod 36524).
  set (n4 := r100 / 1461). set (r4 := r100 mod 1461).
  set (n1 := r4 / 365). set (r := r4 mod 365).
  assert (0 <= n400 <= 24 /\ 0 <= r400 < 146097 /\ n0 = n400 * 146097 + r400) as (B400 & R400 & E400) by lia.
  assert (0 <= n100 <= 4 /\ 0 <= r100 < 36524 /\ r400 = n100 * 36524 + r100 /\ (n100 = 4 -> r100 = 0))
    as (B100 & R100 & E100 & X100) by lia.
  assert (0 <= n4 <= 24 /\ 0 <= r4 < 1461 /\ r100 = n4 * 1461 + r4 /\ (n4 = 24 -> r4 < 1460))
    as (B4 & R4 & E4 & X4) by lia.
  assert (0 <= n1 <= 4 /\ 0 <= r < 365 /\ r4 = n1 * 365 + r /\ (n1 = 4 -> r = 0))
    as (B1 & R1 & E1 & X1) by lia.
  subst n0. clearbody n400 r400 n100 r100 n4 r4 n1 r.
  destruct ((n1 =? 4) || (n100 =? 4)) eqn:Hlast.
  - (* 31 December of a leap year *)
    destruct (decide (n100 = 4)) as [H100|H100].
    + assert (n4 = 0 /\ n1 = 0) as [-> ->] by lia.
      destruct (ord2ymd_cycles n400 3 24 3 0) as [Hd Hl]; try lia. simpl in Hl.
      replace (n400 * 400 + 1 + n100 * 100 + 0 * 4 + 0 - 1) with (n400 * 400 + 1 + 3 * 100 + 24 * 4 + 3) by lia.
      unfold ymd_ok, ymd2ord. rewrite Hl, Hd. change (days_in_month true 12) with 31. change (days_before_month true 12) with 335. lia.
    + assert (n1 = 4) as -> by lia. assert (n4 <> 24) by lia.
      destruct (ord2ymd_cycles n400 n100 n4 3 0) as [Hd Hl]; try lia.
      replace (n400 * 400 + 1 + n100 * 100 + n4 * 4 + 4 - 1) with (n400 * 400 + 1 + n100 * 100 + n4 * 4 + 3) by lia.
      assert (negb (n4 =? 24) = true) as Hn4 by lia. rewrite Hn4 in Hl. simpl in Hl.
      unfold ymd_ok, ymd2ord. rewrite Hl, Hd. change (days_in_month true 12) with 31. change (days_before_month true 12) with 335. lia.
  - destruct (ord2ymd_cycles n400 n100 n4 n1 0) as [Hd Hl]; try lia.
    set (leap := (n1 =? 3) && (negb (n4 =? 24) || (n100 =? 3))) in *.
    assert (month_day_good leap r = true) as Hg by (apply month_day_spec; destruct leap; lia).
    unfold month_day_good in Hg. destruct (month_day leap r) as [m d].
    unfold ymd_ok, ymd2ord. rewrite Hl, Hd. lia.
Qed.

(** ** Fixed-width decimal fields *)
Definition digit_char (z : Z) : ascii := ascii_of_N (Z.to_N (48 + z)).
Definition char_digit (c : ascii) : option Z :=
  let v := Z.of_N (N_of_ascii c) - 48 in
  if (0 <=? v) && (v <=? 9) then Some v else None.

Definition digit_good (z : Z) : bool :=
  bool_decide (char_digit (digit_char z) = Some z) && (Z.of_N (N_of_ascii (digit_char z)) =? 48 + z).

Lemma digit_char_spec z : 0 <= z <= 9 ->
  char_digit (digit_char z) = Some z /\ Z.of_N (N_of_ascii (digit_char z)) = 48 + z.
Proof.
  intros Hz. assert (digit_good z = true) as [H1%bool_decide_eq_true H2%Z.eqb_eq]%andb_true_iff; [|done].
  apply (all_below_spec 10 digit_good); [vm_compute; reflexivity|lia].
Qed.

(** ["%0nd" % z], the [n] low decimal digits of [z], highest first. *)
Fixpoint padn (n : nat) (z : Z) : string :=
  match n with
  | O => ""
  | S n => String (digit_char (z / 10 ^ Z.of_nat n mod 10)) (padn n z)
  end.

(** [[0-9]{n}] at the front of a text, with the number read. *)
Fixpoint take_digits (n : nat) (acc : Z) (s : string) : option (Z * string) :=
  match n, s with
  | O, _ => Some (acc, s)
  | S n, String c s =>
      match char_digit c with
      | Some v => take_digits n (acc * 10 + v) s
      | None => None
      end
  | S _, EmptyString => None
  end.

Lemma padn_length n z : String.length (padn n z) = n.
Proof. induction n; simpl; congruence. Qed.

Lemma take_digits_padn n z acc s : 0 <= z ->
  take_digits n acc (padn n z +:+ s) = Some (acc * 10 ^ Z.of_nat n + z mod 10 ^ Z.of_nat n, s).
Proof.
  intros Hz. revert acc. induction n as [|n IH]; intros acc.
  - simpl. rewrite Z.mod_1_r. f_equal. f_equal. lia.
  - change (padn (S n) z +:+ s) with (String (digit_char (z / 10 ^ Z.of_nat n mod 10)) (padn n z +:+ s)).
    cbn [take_digits].
    destruct (digit_char_spec (z / 10 ^ Z.of_nat n mod 10)) as [-> _]; [lia|].
    rewrite IH. f_equal. f_equal.
    rewrite Nat2Z.inj_succ, Z.pow_succ_r by lia. set (p := 10 ^ Z.of_nat n).
    assert (0 < p) by (apply Z.pow_pos_nonneg; lia).
    rewrite (Z.mul_comm 10 p), Z.rem_mul_r by lia. lia.
Qed.

Lemma take_digits_padn_small n z s : 0 <= z < 10 ^ Z.of_nat n ->
  take_digits n 0 (padn n z +:+ s) = Some (z, s).
Proof. intros Hz. rewrite take_digits_padn by lia. rewrite Z.mod_small by lia. done. Qed.

(** ** [format_timestamp] *)
Record clock := mkClock {
  ck_year : Z; ck_month : Z; ck_day : Z;
  ck_hour : Z; ck_minute : Z; ck_second : Z; ck_microsecond : Z
}.
#[global] Instance clock_eq_dec : EqDecision clock.
Proof. solve_decision. Defined.

(** The fields of a UTC datetime and the datetime of valid fields. *)
Definition clock_of (t : datetime) : clock :=
  let '(y, m, d) := ord2ymd (t / US_PER_DAY + 1) in
  let us := t mod US_PER_DAY in
  mkClock y m d (us / 3600000000) (us / 60000000 mod 60) (us / 1000000 mod 60) (us mod 1000000).

Definition of_clock (c : clock) : datetime :=
  (ymd2ord (ck_year c) (ck_month c) (ck_day c) - 1) * US_PER_DAY
  + ck_hour c * 3600000000 + ck_minute c * 60000000 + ck_second c * 1000000 + ck_microsecond c.

Definition clock_ok (c : clock) : bool :=
  ymd_ok (ck_year c) (ck_month c) (ck_day c) &&
  (0 <=? ck_hour c) && (ck_hour c <=? 23) && (0 <=? ck_minute c) && (ck_minute c <=? 59) &&
  (0 <=? ck_second c) && (ck_second c <=? 59) &&
  (0 <=? ck_microsecond c) && (ck_microsecond c <=? 999999).

Lemma clock_of_spec t : datetime_ok t -> clock_ok (clock_of t) = true /\ of_clock (clock_of t) = t.
Proof.
  unfold datetime_ok, DATETIME_END, US_PER_DAY, US_PER_SECOND. intros Ht.
  pose proof (ord2ymd_spec (t / US_PER_DAY + 1)) as Hs.
  unfold clock_of, US_PER_DAY, US_PER_SECOND in *.
  destruct (ord2ymd _) as [[y m] d] eqn:He. destruct Hs as [Hok Hord]; [unfold MAXORDINAL in *; lia|].
  unfold clock_ok, of_clock. cbn [ck_year ck_month ck_day ck_hour ck_minute ck_second ck_microsecond].
  rewrite Hok, Hord. unfold US_PER_DAY, US_PER_SECOND. clear He Hok Hord. split; lia.
Qed.

Definition date_text (c : clock) : string :=
  padn 4 (ck_year c) +:+ "-" +:+ padn 2 (ck_month c) +:+ "-" +:+ padn 2 (ck_day c).
Definition time_text (c : clock) : string :=
  padn 2 (ck_hour c) +:+ ":" +:+ padn 2 (ck_minute c) +:+ ":" +:+ padn 2 (ck_second c).

(** [isoformat()] of a UTC datetime with these fields, ["+00:00"] written ["Z"]:
    the fraction is written, with six digits, only when it is not zero. *)
Definition clock_text (c : clock) : string :=
  date_text c +:+ "T" +:+ time_text c +:+
  (if ck_microsecond c =? 0 then "" else "." +:+ padn 6 (ck_microsecond c)) +:+ "Z".

Definition format_timestamp (t : datetime) : string := clock_text (clock_of t).

(** [isoformat()] of a UTC datetime *)
Definition isoformat (t : datetime) : string :=
  let c := clock_of t in
  date_text c +:+ "T" +:+ time_text c +:+ (if ck_microsecond c =? 0 then "" else "." +:+ padn 6 (ck_microsecond c)) +:+ "+00:00".

(** ** [parse_timestamp] *)

(** One character of the pattern. *)
Definition take_char (c : ascii) (s : string) : option string :=
  match s with
  | String c' s => if Ascii.eqb c c' then Some s else None
  | EmptyString => None
  end.

(** [[Tt ]] *)
Definition take_sep (s : string) : option string :=
  match s with
  | String c s => if Ascii.eqb c "T" || Ascii.eqb c "t" || Ascii.eqb c " " then Some s else None
  | EmptyString => None
  end.

(** [_FULL_DATE] *)
Definition take_full_date (s : string) : option (Z * Z * Z * string) :=
  '(y, s) ← take_digits 4 0 s; s ← take_char "-" s;
  '(m, s) ← take_digits 2 0 s; s ← take_char "-" s;
  '(d, s) ← take_digits 2 0 s; Some (y, m, d, s).

Definition take_time (s : string) : option (Z * Z * Z * string) :=
  '(h, s) ← take_digits 2 0 s; s ← take_char ":" s;
  '(mi, s) ← take_digits 2 0 s; s ← take_char ":" s;
  '(se, s) ← take_digits 2 0 s; Some (h, mi, se, s).

(** The longest run of digits at the front of a text. *)
Fixpoint span_digits (s : string) : list Z * string :=
  match s with
  | String c s' =>
      match char_digit c with
      | Some v => let '(l, r) := span_digits s' in (v :: l, r)
      | None => ([], s)
      end
  | EmptyString => ([], s)
  end.

(** [(frac or "")[:6].ljust(6, "0")] as a number of microseconds. *)
Fixpoint frac_us (n : nat) (l : list Z) : Z :=
  match n, l with
  | S n, v :: l => v * 10 ^ Z.of_nat n + frac_us n l
  | _, _ => 0
  end.

(** [(?:\.(?P<frac>[0-9]+))?] *)
Definition take_frac (s : string) : option (list Z * string) :=
  match s with
  | String "." s' =>
      match span_digits s' with
      | ([], _) => None
      | (l, r) => Some (l, r)
      end
  | _ => Some ([], s)
  end.

(** [(?P<offset>Z|[+-]hh:mm)?] and the end of the text. *)
Inductive offset_match := NoOffset | OffsetZ | OffsetHM (negative : bool) (oh om : Z).

Definition take_offset (s : string) : option offset_match :=
  match s with
  | EmptyString => Some NoOffset
  | String "Z" EmptyString => Some OffsetZ
  | String c s' =>
      if Ascii.eqb c "+" || Ascii.eqb c "-" then
        '(oh, s) ← take_digits 2 0 s'; s ← take_char ":" s; '(om, s) ← take_digits 2 0 s;
        match s with EmptyString => Some (OffsetHM (Ascii.eqb c "-") oh om) | _ => None end
      else None
  end.

Record ts_match := mkMatch { tm_clock : clock; tm_offset : offset_match }.

(** [_DATE_TIME.fullmatch(raw)] *)
Definition DATE_TIME_fullmatch (s : string) : option ts_match :=
  '(y, m, d, s) ← take_full_date s; s ← take_sep s;
  '(h, mi, se, s) ← take_time s;
  '(fr, s) ← take_frac s;
  off ← take_offset s;
  Some (mkMatch (mkClock y m d h mi se (frac_us 6 fr)) off).

Definition not_rfc3339 (field_name : string) : exn :=
  ValueError (field_name +:+ " must be an RFC3339 timestamp string").

(** The offset in microseconds; [Z] is zero. *)
Definition offset_us (o : offset_match) : Z :=
  match o with
  | OffsetHM neg oh om => (if neg then -1 else 1) * (oh * 3600000000 + om * 60000000)
  | _ => 0
  end.

Definition parse_timestamp (raw : json) (field_name : string) : py datetime :=
  match raw with
  | JStr s =>
      match DATE_TIME_fullmatch s with
      | None => Err (not_rfc3339 field_name)
      | Some m =>
          match tm_offset m with
          | NoOffset => Err (ValueError (field_name +:+ " must include timezone information"))
          | off =>
              if match off with OffsetHM _ oh om => (23 <? oh) || (59 <? om) | _ => false end
              then Err (not_rfc3339 field_name)
              else if clock_ok (tm_clock m)
              (* astimezone: the UTC instant must itself be representable *)
              then datetime_add (of_clock (tm_clock m)) (- offset_us off)
              else Err (not_rfc3339 field_name)
          end
      end
  | _ => Err (not_rfc3339 field_name)
  end.

(** [parse_timestamp(x, f) if x else None] *)
Definition opt_timestamp (raw : json) (field_name : string) : py (option datetime) :=
  if py_truthy raw then t ← parse_timestamp raw field_name; Ok (Some t) else Ok None.

Definition parse_calendar_date (raw : json) (field_name : string) : py (Z * Z * Z) :=
  let bad := Err (ValueError (field_name +:+ " must be a YYYY-MM-DD date")) in
  match raw with
  | JStr s =>
      match take_full_date s with
      | Some (y, m, d, EmptyString) => if ymd_ok y m d then Ok (y, m, d) else bad
      | _ => bad
      end
  | _ => bad
  end.

(** ** Formatting then parsing *)
Lemma clock_ok_bounds c : clock_ok c = true ->
  ymd_ok (ck_year c) (ck_month c) (ck_day c) = true /\
  0 <= ck_hour c <= 23 /\ 0 <= ck_minute c <= 59 /\ 0 <= ck_second c <= 59 /\ 0 <= ck_microsecond c <= 999999.
Proof. unfold clock_ok. rewrite !andb_true_iff. intros H. destruct_and!. repeat split; try done; lia. Qed.

Lemma days_in_month_le leap m : days_in_month leap m <= 31.
Proof. unfold days_in_month. repeat case_match; lia. Qed.

#[local] Arguments padn : simpl never.
#[local] Arguments take_digits : simpl never.

Lemma take_full_date_text c s : clock_ok c = true ->
  take_full_date (date_text c +:+ s) = Some (ck_year c, ck_month c, ck_day c, s).
Proof.
  intros (Hd%ymd_ok_bounds & _)%clock_ok_bounds.
  pose proof (days_in_month_le (is_leap (ck_year c)) (ck_month c)).
  unfold take_full_date, date_text. rewrite !string_app_assoc.
  rewrite (take_digits_padn_small 4) by (simpl; lia). simpl. rewrite string_app_nil_l.
  rewrite (take_digits_padn_small 2) by (simpl; lia). simpl. rewrite string_app_nil_l.
  rewrite (take_digits_padn_small 2) by (simpl; lia). done.
Qed.

Lemma take_time_text c s : clock_ok c = true ->
  take_time (time_text c +:+ s) = Some (ck_hour c, ck_minute c, ck_second c, s).
Proof.
  intros (_ & Hh & Hm & Hs & _)%clock_ok_bounds.
  unfold take_time, time_text. rewrite !string_app_assoc.
  rewrite (take_digits_padn_small 2) by (simpl; lia). simpl. rewrite string_app_nil_l.
  rewrite (take_digits_padn_small 2) by (simpl; lia). simpl. rewrite string_app_nil_l.
  rewrite (take_digits_padn_small 2) by (simpl; lia). done.
Qed.

(** The digits [padn] writes, read back by the fraction rule. *)
Lemma span_digits_padn n z s : 0 <= z -> span_digits s = ([], s) ->
  exists l, span_digits (padn n z +:+ s) = (l, s) /\ length l = n /\ frac_us n l = z mod 10 ^ Z.of_nat n.
Proof.
  intros Hz Hs. induction n as [|n IH].
  - exists []. rewrite Z.mod_1_r. done.
  - destruct IH as (l & Hl & Hlen & Hv).
    exists (z / 10 ^ Z.of_nat n mod 10 :: l).
    change (padn (S n) z +:+ s) with (String (digit_char (z / 10 ^ Z.of_nat n mod 10)) (padn n z +:+ s)).
    cbn [span_digits]. destruct (digit_char_spec (z / 10 ^ Z.of_nat n mod 10)) as [-> _]; [lia|].
    rewrite Hl. split; [done|]. split; [simpl; lia|].
    cbn [frac_us]. rewrite Hv, Nat2Z.inj_succ, Z.pow_succ_r by lia.
    assert (0 < 10 ^ Z.of_nat n) by (apply Z.pow_pos_nonneg; lia).
    rewrite (Z.mul_comm 10 _), Z.rem_mul_r by lia. lia.
Qed.

(** A suffix the fraction rule leaves alone. *)
Definition ends_fraction (s : string) : Prop := span_digits s = ([], s) /\ take_frac s = Some ([], s).

Lemma take_frac_text us s : 0 <= us <= 999999 -> ends_fraction s ->
  exists l, take_frac ((if us =? 0 then "" else "." +:+ padn 6 us) +:+ s) = Some (l, s) /\ frac_us 6 l = us.
Proof.
  intros Hus [Hs Hf]. destruct (Z.eqb_spec us 0) as [->|Hne].
  - exists []. by rewrite string_app_nil_l.
  - destruct (span_digits_padn 6 us s) as (l & Hl & Hlen & Hv); [lia|done|].
    exists l. rewrite Hv, Z.mod_small by (simpl; lia). split; [|done].
    rewrite string_app_assoc. rewrite string_app_cons, string_app_nil_l. unfold take_frac. rewrite Hl. by destruct l.
Qed.

#[local] Arguments frac_us : simpl never.

Lemma datetime_add_0 t : datetime_ok t -> datetime_add t 0 = Ok t.
Proof.
  unfold datetime_ok, datetime_add. intros Ht. replace (t + 0) with t by lia.
  destruct (Z.leb_spec 0 t), (Z.ltb_spec t DATETIME_END); simpl; try done; lia.
Qed.

Lemma fullmatch_clock c s off : clock_ok c = true -> ends_fraction s -> take_offset s = Some off ->
  DATE_TIME_fullmatch (date_text c +:+ "T" +:+ time_text c +:+ (if ck_microsecond c =? 0 then "" else "." +:+ padn 6 (ck_microsecond c)) +:+ s) =
  Some (mkMatch c off).
Proof.
  intros Hok Hs Hoff. unfold DATE_TIME_fullmatch.
  rewrite take_full_date_text by done. simpl. rewrite string_app_nil_l.
  rewrite take_time_text by done. simpl.
  destruct (clock_ok_bounds _ Hok) as (_ & _ & _ & _ & Hus).
  destruct (take_frac_text _ s Hus Hs) as (l & -> & Hl). cbn [mbind option_bind]. rewrite Hoff. cbn [mbind option_bind]. rewrite Hl. by destruct c.
Qed.

Lemma parse_format t field_name : datetime_ok t ->
  parse_timestamp (JStr (format_timestamp t)) field_name = Ok t.
Proof.
  intros Ht. destruct (clock_of_spec t Ht) as [Hok Hof].
  unfold parse_timestamp, format_timestamp, clock_text. rewrite (fullmatch_clock _ "Z" OffsetZ) by done.
  cbn [tm_offset tm_clock]. rewrite Hok, Hof. by apply datetime_add_0.
Qed.

Lemma parse_isoformat t field_name : datetime_ok t -> parse_timestamp (JStr (isoformat t)) field_name = Ok t.
Proof.
  intros Ht. destruct (clock_of_spec t Ht) as [Hok Hof].
  unfold parse_timestamp, isoformat. cbv zeta. rewrite (fullmatch_clock _ "+00:00" (OffsetHM false 0 0)) by done.
  cbn [tm_offset tm_clock]. rewrite Hok, Hof. by apply datetime_add_0.
Qed.

Lemma parse_timestamp_ok raw field_name t : parse_timestamp raw field_name = Ok t -> datetime_ok t.
Proof.
  unfold parse_timestamp, datetime_ok. intros H.
  assert (forall a b, datetime_add a b = Ok t -> 0 <= t < DATETIME_END) as Hadd.
  { intros a b. unfold datetime_add. destruct (_ && _) eqn:?; intros [= <-]. lia. }
  repeat (case_match; try discriminate H); by eapply Hadd.
Qed.

Lemma format_timestamp_inj t t' : datetime_ok t -> datetime_ok t' ->
  format_timestamp t = format_timestamp t' -> t = t'.
Proof.
  intros Ht Ht' He. pose proof (parse_format t "" Ht) as H1. rewrite He, (parse_format t' "" Ht') in H1.
  congruence.
Qed.
#[export] Hint Resolve parse_timestamp_ok : kernel.

(** ** Formatted timestamps as text

    The stores keep timestamps as text and compare them as text. *)
Definition cmp_then (c d : comparison) : comparison := match c with Eq => d | _ => c end.

Lemma char_compare_digits a b : 0 <= a <= 9 -> 0 <= b <= 9 ->
  Ascii.compare (digit_char a) (digit_char b) = Z.compare a b.
Proof.
  intros Ha Hb. unfold Ascii.compare.
  destruct (digit_char_spec a Ha) as [_ Ea], (digit_char_spec b Hb) as [_ Eb].
  destruct (N.compare_spec (N_of_ascii (digit_char a)) (N_of_ascii (digit_char b)));
    destruct (Z.compare_spec a b); try done; lia.
Qed.

Lemma string_compare_cons a b s t :
  String.compare (String a s) (String b t) = cmp_then (Ascii.compare a b) (String.compare s t).
Proof. simpl. by destruct (Ascii.compare a b). Qed.

Lemma string_compare_app p s t : String.compare (p +:+ s) (p +:+ t) = String.compare s t.
Proof.
  induction p as [|a p IH]; [done|]. rewrite !string_app_cons, string_compare_cons, IH.
  unfold Ascii.compare. by rewrite N.compare_refl.
Qed.

Lemma padn_compare_mod n x y s t : 0 <= x -> 0 <= y ->
  String.compare (padn n x +:+ s) (padn n y +:+ t) =
  cmp_then (Z.compare (x mod 10 ^ Z.of_nat n) (y mod 10 ^ Z.of_nat n)) (String.compare s t).
Proof.
  intros Hx Hy. induction n as [|n IH]; [by rewrite !Z.mod_1_r|].
  change (padn (S n) x) with (String (digit_char (x / 10 ^ Z.of_nat n mod 10)) (padn n x)).
  change (padn (S n) y) with (String (digit_char (y / 10 ^ Z.of_nat n mod 10)) (padn n y)).
  rewrite !string_app_cons, string_compare_cons, IH, char_compare_digits by lia.
  rewrite Nat2Z.inj_succ, Z.pow_succ_r by lia.
  assert (0 < 10 ^ Z.of_nat n) by (apply Z.pow_pos_nonneg; lia).
  rewrite (Z.mul_comm 10 _), !Z.rem_mul_r by lia.
  pose proof (Z.mod_pos_bound x (10 ^ Z.of_nat n)). pose proof (Z.mod_pos_bound y (10 ^ Z.of_nat n)).
  set (p := 10 ^ Z.of_nat n) in *. set (rx := x mod p) in *. set (ry := y mod p) in *.
  set (dx := x / p mod 10). set (dy := y / p mod 10). clearbody p rx ry dx dy.
  destruct (Z.compare_spec dx dy) as [->|Hlt|Hgt]; simpl.
  - destruct (Z.compare_spec rx ry), (Z.compare_spec (rx + p * dy) (ry + p * dy)); simpl; try done; lia.
  - destruct (Z.compare_spec (rx + p * dx) (ry + p * dy)); simpl; try done; nia.
  - destruct (Z.compare_spec (rx + p * dx) (ry + p * dy)); simpl; try done; nia.
Qed.

Lemma padn_compare n x y s t : 0 <= x < 10 ^ Z.of_nat n -> 0 <= y < 10 ^ Z.of_nat n ->
  String.compare (padn n x +:+ s) (padn n y +:+ t) = cmp_then (Z.compare x y) (String.compare s t).
Proof. intros Hx Hy. rewrite padn_compare_mod by lia. rewrite !Z.mod_small by lia. done. Qed.

(** Field-by-field comparison. *)
Definition clock_compare (c c' : clock) : comparison :=
  cmp_then (Z.compare (ck_year c) (ck_year c')) $
  cmp_then (Z.compare (ck_month c) (ck_month c')) $
  cmp_then (Z.compare (ck_day c) (ck_day c')) $
  cmp_then (Z.compare (ck_hour c) (ck_hour c')) $
  cmp_then (Z.compare (ck_minute c) (ck_minute c')) $
  cmp_then (Z.compare (ck_second c) (ck_second c')) $
  Z.compare (ck_microsecond c) (ck_microsecond c').

Lemma ymd2ord_compare y m d y' m' d' : ymd_ok y m d = true -> ymd_ok y' m' d' = true ->
  Z.compare (ymd2ord y m d) (ymd2ord y' m' d') =
  cmp_then (Z.compare y y') (cmp_then (Z.compare m m') (Z.compare d d')).
Proof.
  intros H H'. pose proof (ymd2ord_bounds _ _ _ H). pose proof (ymd2ord_bounds _ _ _ H').
  apply ymd_ok_bounds in H as (Hy & Hm & Hd), H' as (Hy' & Hm' & Hd').
  destruct (Z.compare_spec y y') as [->|Hlt|Hgt]; simpl.
  - unfold ymd2ord. destruct (Z.compare_spec m m') as [->|Hlt|Hgt]; simpl.
    + destruct (Z.compare_spec d d') as [->|?|?]; [apply Z.compare_refl|apply Z.compare_lt_iff; lia|apply Z.compare_gt_iff; lia].
    + apply Z.compare_lt_iff. pose proof (days_before_month_mono (is_leap y') m m'). lia.
    + apply Z.compare_gt_iff. pose proof (days_before_month_mono (is_leap y') m' m). lia.
  - apply Z.compare_lt_iff. pose proof (days_before_year_mono _ _ Hlt). lia.
  - apply Z.compare_gt_iff. pose proof (days_before_year_mono _ _ Hgt). lia.
Qed.

Lemma cmp_then_assoc a b c : cmp_then (cmp_then a b) c = cmp_then a (cmp_then b c).
Proof. by destruct a. Qed.

(** Comparing [a * k + b] with [a' * k + b'] when [b, b'] lie below [k]. *)
Lemma compare_mixed_radix k a b a' b' : 0 <= b < k -> 0 <= b' < k ->
  Z.compare (a * k + b) (a' * k + b') = cmp_then (Z.compare a a') (Z.compare b b').
Proof.
  intros Hb Hb'. destruct (Z.compare_spec a a') as [->|?|?]; simpl.
  - destruct (Z.compare_spec b b'); [apply Z.compare_eq_iff|apply Z.compare_lt_iff|apply Z.compare_gt_iff]; lia.
  - apply Z.compare_lt_iff. nia.
  - apply Z.compare_gt_iff. nia.
Qed.

Lemma of_clock_compare c c' : clock_ok c = true -> clock_ok c' = true ->
  Z.compare (of_clock c) (of_clock c') = clock_compare c c'.
Proof.
  intros (Hd & Hh & Hmi & Hs & Hu)%clock_ok_bounds (Hd' & Hh' & Hmi' & Hs' & Hu')%clock_ok_bounds.
  unfold clock_compare. rewrite <- (cmp_then_assoc (Z.compare (ck_month c) _)).
  rewrite <- (cmp_then_assoc (Z.compare (ck_year c) _)), <- ymd2ord_compare by done.
  rewrite <- (compare_mixed_radix 1000000) by lia. rewrite <- (compare_mixed_radix 60000000) by lia.
  rewrite <- (compare_mixed_radix 3600000000) by lia. rewrite <- (compare_mixed_radix 86400000000) by lia.
  unfold of_clock, US_PER_DAY, US_PER_SECOND. set (o := ymd2ord _ _ _). set (o' := ymd2ord _ _ _).
  clearbody o o'. 
  match goal with |- Z.compare ?a ?b = Z.compare ?x ?y => destruct (Z.compare_spec a b), (Z.compare_spec x y) end;
    try done; lia.
Qed.

(** The two texts carry a fraction or neither does. *)
Definition same_precision (t t' : datetime) : bool :=
  Bool.eqb (ck_microsecond (clock_of t) =? 0) (ck_microsecond (clock_of t') =? 0).

Lemma clock_text_compare c c' : clock_ok c = true -> clock_ok c' = true ->
  Bool.eqb (ck_microsecond c =? 0) (ck_microsecond c' =? 0) = true ->
  String.compare (clock_text c) (clock_text c') = clock_compare c c'.
Proof.
  intros (Hd%ymd_ok_bounds & Hh & Hmi & Hs & Hu)%clock_ok_bounds
         (Hd'%ymd_ok_bounds & Hh' & Hmi' & Hs' & Hu')%clock_ok_bounds Hp.
  pose proof (days_in_month_le (is_leap (ck_year c)) (ck_month c)).
  pose proof (days_in_month_le (is_leap (ck_year c')) (ck_month c')).
  unfold clock_text, date_text, time_text, clock_compare. rewrite !string_app_assoc.
  repeat (rewrite padn_compare by (simpl; lia); f_equal; rewrite ?string_compare_app).
  destruct (Z.eqb_spec (ck_microsecond c) 0) as [->|], (Z.eqb_spec (ck_microsecond c') 0) as [->|]; try discriminate Hp.
  - done.
  - rewrite !string_app_assoc, string_compare_app, padn_compare by (simpl; lia).
    by destruct (Z.compare _ _).
Qed.

Lemma format_timestamp_compare t t' : datetime_ok t -> datetime_ok t' -> same_precision t t' = true ->
  String.compare (format_timestamp t) (format_timestamp t') = Z.compare t t'.
Proof.
  intros Ht Ht' Hp. destruct (clock_of_spec t Ht) as [Hok Hof], (clock_of_spec t' Ht') as [Hok' Hof'].
  unfold format_timestamp. rewrite clock_text_compare by done.
  rewrite <- of_clock_compare by done. by rewrite Hof, Hof'.
Qed.

(** ** Properties *)

(** Every datetime [format_timestamp] writes is read back unchanged by
    [parse_timestamp], and whatever [parse_timestamp] returns is a representable
    datetime. *)
Theorem timestamp_roundtrip (t : datetime) (field_name : string) :
  datetime_ok t ->
  parse_timestamp (JStr (format_timestamp t)) field_name = Ok t /\
  (forall raw t', parse_timestamp raw field_name = Ok t' -> datetime_ok t').
Proof. intros Ht. split; [by apply parse_format|]. intros raw t'. apply parse_timestamp_ok. Qed.

Lemma timestamp_roundtrip_witness :
  parse_timestamp (JStr (format_timestamp 63839188800123456)) "issued_at" = Ok 63839188800123456.
Proof. apply (timestamp_roundtrip 63839188800123456 "issued_at"). vm_compute. split; congruence. Defined.

(** Two formatted timestamps compare as text (the comparison the durable
    stores run in SQL) as they compare in time, when both carry a fraction of a
    second or neither does. *)
Theorem timestamp_text_order (t t' : datetime) :
  datetime_ok t -> datetime_ok t' -> same_precision t t' = true ->
  String.compare (format_timestamp t) (format_timestamp t') = Z.compare t t'.
Proof. apply format_timestamp_compare. Qed.

Lemma timestamp_text_order_witness :
  String.compare (format_timestamp 63839188800000000) (format_timestamp 63839188801000000) = Lt.
Proof.
  rewrite (timestamp_text_order 63839188800000000 63839188801000000);
    [reflexivity|vm_compute; split; congruence|vm_compute; split; congruence|vm_compute; reflexivity].
Defined.

(** Without that condition text order and time order disagree: the text of
    half past a second sorts before the text of the whole second it follows. *)
Theorem timestamp_text_order_mixed :
  exists t t' : datetime, datetime_ok t /\ datetime_ok t' /\ t < t' /\
    String.compare (format_timestamp t) (format_timestamp t') = Gt.
Proof.
  exists 63839188800000000, 63839188800500000. unfold datetime_ok. repeat split; vm_compute; congruence.
Qed.

(** A syntactically valid timestamp whose UTC instant lies outside year 1 to
    9999 makes [parse_timestamp] raise [OverflowError], which is not the
    [ValueError] its callers expect. *)
Theorem parse_timestamp_overflow (field_name : string) :
  parse_timestamp (JStr "0001-01-01T00:00:00+23:59") field_name = Err OverflowError /\
  parse_timestamp (JStr "9999-12-31T23:59:59-00:01") field_name = Err OverflowError.
Proof. split; vm_compute; reflexivity. Qed.
