(* ===== verification/Canonical.v ===== *)
(** * Canonical JSON: [actenon/proof/canonical.py]

    [canonicalize_json], [canonicalize_bytes] and [sha256_hex].  What comes from
    the [actenon_protocol] package (the depth limit, the profile names) and the
    hash function are fields of the class [Protocol], a parameter of every
    definition that uses them.

    The theorems: canonicalisation is injective up to the order of object keys
    (equal bytes decode to the same normalised value, by a decoder that inverts
    the printer), insensitive to that order, total on values without floats,
    lone surrogates or excessive depth, and every failure is one of the errors
    the source names. *)

From Stdlib Require Import Ascii DecimalString DecimalZ DecimalPos.
From Stdlib Require Decimal.
From S2P Require Import Prelude Json Errors.

(** What the kernel takes from [actenon_protocol] and [hashlib]. *)
Class Protocol := {
  MAX_JSON_DEPTH : Z;
  CANONICALIZATION_PROFILE : string;
  LEGACY_CANONICALIZATION_PROFILE : string;
  ACCEPTED_CANONICALIZATION_PROFILES : list string;
  (** Whether the package's [CanonicalisationError] is a subclass of [ValueError]. *)
  canonicalisation_error_is_value_error : bool;
  (** [sha256(data).hexdigest()] *)
  sha256_hexdigest : string -> string
}.

(** ** Keys in code point order *)
Definition key_leb (a b : string) : bool :=
  match String.compare a b with Gt => false | _ => true end.

Section Ksort.
Context {A : Type}.

Fixpoint kinsert (x : string * A) (l : list (string * A)) : list (string * A) :=
  match l with
  | [] => [x]
  | y :: l' => if key_leb x.1 y.1 then x :: l else y :: kinsert x l'
  end.

(** [sorted(d.keys())], with the values alongside. *)
Fixpoint ksort (l : list (string * A)) : list (string * A) :=
  match l with
  | [] => []
  | x :: l => kinsert x (ksort l)
  end.
End Ksort.

(** ** Printing *)
Definition hex_digit (n : N) : ascii :=
  if (n <? 10)%N then ascii_of_N (48 + n) else ascii_of_N (87 + n).

Definition quote_char : ascii := ascii_of_N 34.
Definition backslash : ascii := ascii_of_N 92.

(** The escape of one byte: [json.dumps(..., ensure_ascii=False)]. *)
Definition esc1 (c : ascii) : string :=
  let n := N_of_ascii c in
  if N.eqb n 34 then String backslash (String quote_char "")
  else if N.eqb n 92 then String backslash (String backslash "")
  else if N.eqb n 10 then String backslash "n"
  else if N.eqb n 13 then String backslash "r"
  else if N.eqb n 9 then String backslash "t"
  else if N.eqb n 12 then String backslash "f"
  else if N.eqb n 8 then String backslash "b"
  else if (n <? 32)%N then String backslash (String "u" (String "0" (String "0"
         (String (hex_digit (n / 16)) (String (hex_digit (n mod 16)) "")))))
  else String c "".

Fixpoint escape (s : string) : string :=
  match s with
  | EmptyString => ""
  | String c s => esc1 c +:+ escape s
  end.

Definition json_quote (s : string) : string :=
  String quote_char (escape s) +:+ String quote_char "".

Definition _canonicalize_string (value : string) : py string :=
  if has_surrogate value
  then Err (CanonicalisationError "strings must contain only Unicode scalar values (lone surrogate found)")
  else Ok (json_quote value).

(** [int.__repr__] *)
Definition int_repr (z : Z) : string := NilZero.string_of_int (Z.to_int z).

(** The value of each key is canonicalised when its key is reached in sorted
    order, so the first failure in that order is the one raised. *)
Fixpoint _canonicalize_json (value : json) : py string :=
  match value with
  | JNull => Ok "null"
  | JBool true => Ok "true"
  | JBool false => Ok "false"
  | JInt z => Ok (int_repr z)
  | JFloat _ => Err (TypeError "floating-point values are not supported in canonical action hashing")
  | JStr s => _canonicalize_string s
  | JList l => items ← res_mapM _canonicalize_json l; Ok ("[" +:+ join "," items +:+ "]")
  | JDict d =>
      pieces ← res_mapM (fun kr => k ← _canonicalize_string kr.1; v ← kr.2; Ok (k +:+ ":" +:+ v))
                 (ksort (map (fun kv => match kv with (k, v) => (k, _canonicalize_json v) end) d));
      Ok ("{" +:+ join "," pieces +:+ "}")
  end.

(** The errors of [core/json.py] are all subclasses of [ValueError]. *)
Definition json_exn (e : json_error) : exn :=
  match e with
  | JSONValueError msg => ValueError msg
  | DuplicateJSONKeyError key => ValueError ("duplicate JSON object key " +:+ key)
  | JSONInputTooLargeError => ValueError "JSONInputTooLargeError"
  | JSONNestingDepthError => ValueError "JSONNestingDepthError"
  | UnicodeEncodeError => ValueError "UnicodeEncodeError"
  | UnicodeDecodeError => ValueError "UnicodeDecodeError"
  | JSONDecodeError => ValueError "JSONDecodeError"
  end.

Definition from_json_error {A} (r : res json_error A) : py A :=
  match r with Ok a => Ok a | Err e => Err (json_exn e) end.

Definition canonicalize_json (value : json) (max_depth : Z) : py string :=
  _ ← from_json_error (validate_json_depth value (max_depth + 1));
  _canonicalize_json value.

(** [except (TypeError, ValueError)] *)
Definition is_value_error `{Protocol} (e : exn) : bool :=
  match e with
  | ValueError _ => true
  | CanonicalisationError _ => canonicalisation_error_is_value_error
  | _ => false
  end.
Definition is_type_or_value_error `{Protocol} (e : exn) : bool :=
  match e with TypeError _ => true | _ => is_value_error e end.

Definition DEFAULT_MAX_CANONICAL_OUTPUT_BYTES : Z := 1048576.

Section CanonicalBytes.
Context `{Protocol}.

Definition canonicalize_bytes (value : json) (max_output_bytes : Z) : py string :=
  if (max_output_bytes <=? 0)%Z then Err (ValueError "max_output_bytes must be positive")
  else
    encoded ← canonicalize_json value MAX_JSON_DEPTH;
    if (max_output_bytes <? Z.of_nat (String.length encoded))%Z
    then Err (json_exn JSONInputTooLargeError) else Ok encoded.

Definition sha256_hex (value : json) : py string :=
  encoded ← canonicalize_bytes value DEFAULT_MAX_CANONICAL_OUTPUT_BYTES;
  Ok (sha256_hexdigest encoded).
End CanonicalBytes.

(** ** Key sorting *)
Section KsortFacts.
Context {A B : Type}.

Lemma kinsert_perm (x : string * A) l : kinsert x l ≡ₚ x :: l.
Proof.
  induction l as [|y l IH]; simpl; [done|]. destruct (key_leb _ _); [done|]. rewrite IH. constructor.
Qed.

Lemma ksort_perm (l : list (string * A)) : ksort l ≡ₚ l.
Proof. induction l as [|x l IH]; simpl; [done|]. by rewrite kinsert_perm, IH. Qed.

Lemma kinsert_fmap (f : A -> B) x l :
  kinsert (x.1, f x.2) (map (fun kv => (kv.1, f kv.2)) l) = map (fun kv => (kv.1, f kv.2)) (kinsert x l).
Proof. induction l as [|y l IH]; simpl; [done|]. destruct (key_leb _ _); simpl; congruence. Qed.

Lemma ksort_fmap (f : A -> B) l :
  ksort (map (fun kv => (kv.1, f kv.2)) l) = map (fun kv => (kv.1, f kv.2)) (ksort l).
Proof. induction l as [|x l IH]; simpl; [done|]. by rewrite IH, kinsert_fmap. Qed.
End KsortFacts.

Lemma ksort_length {A} (l : list (string * A)) : length (ksort l) = length l.
Proof. by rewrite ksort_perm. Qed.

Lemma key_leb_total a b : key_leb a b = false -> key_leb b a = true.
Proof.
  unfold key_leb. rewrite (String.compare_antisym b a). by destruct (String.compare a b).
Qed.

Lemma string_compare_trans a b c :
  String.compare a b <> Gt -> String.compare b c <> Gt -> String.compare a c <> Gt.
Proof.
  revert b c; induction a as [|x a IH]; intros [|y b] [|z c]; simpl; try done.
  unfold Ascii.compare.
  destruct (N.compare_spec (N_of_ascii x) (N_of_ascii y)),
    (N.compare_spec (N_of_ascii y) (N_of_ascii z)),
    (N.compare_spec (N_of_ascii x) (N_of_ascii z)); try done; try lia; eauto.
Qed.

Lemma key_leb_trans a b c : key_leb a b = true -> key_leb b c = true -> key_leb a c = true.
Proof.
  unfold key_leb. pose proof (string_compare_trans a b c).
  destruct (String.compare a b), (String.compare b c), (String.compare a c); naive_solver.
Qed.

Lemma key_leb_antisym a b : key_leb a b = true -> key_leb b a = true -> a = b.
Proof.
  unfold key_leb. rewrite (String.compare_antisym b a).
  destruct (String.compare a b) eqn:He; try done. by apply String.compare_eq_iff in He.
Qed.

Definition key_le {A} (x y : string * A) : Prop := key_leb x.1 y.1 = true.

Lemma ksort_sorted {A} (l : list (string * A)) : StronglySorted key_le (ksort l).
Proof.
  assert (forall x s, StronglySorted key_le s -> StronglySorted key_le (@kinsert A x s)) as Hins.
  { intros x s. induction 1 as [|y s Hs IH Hy]; simpl; [by repeat constructor|].
    destruct (key_leb x.1 y.1) eqn:Hxy.
    - constructor; [by constructor|]. constructor; [done|].
      eapply Forall_impl; [exact Hy|]. intros z. unfold key_le. by apply key_leb_trans.
    - constructor; [done|]. rewrite kinsert_perm. constructor; [|done]. by apply key_leb_total. }
  induction l; simpl; [constructor|auto].
Qed.

(** Dicts with the same items sort to the same list: keys are distinct. *)
Lemma ksort_unique {A} (l l' : list (string * A)) : NoDup l.*1 -> l ≡ₚ l' -> ksort l = ksort l'.
Proof.
  intros Hnd Hp. pose proof (ksort_sorted l) as H1. pose proof (ksort_sorted l') as H2.
  assert (ksort l ≡ₚ ksort l') as Hpp by (by rewrite !ksort_perm).
  assert (NoDup (ksort l).*1) as Hnd' by (by rewrite ksort_perm).
  generalize dependent (ksort l'). generalize dependent (ksort l). clear.
  intros s Hs Hnd s' Hs' Hp. revert s' Hs' Hp. induction Hs as [|x s Hs IH Hx]; intros s' Hs' Hp.
  - by apply Permutation_nil in Hp.
  - destruct Hs' as [|y s' Hs' Hy]; [by apply Permutation_sym, Permutation_nil in Hp|].
    assert (x = y) as ->.
    { assert (x ∈ y :: s') as Hin by (rewrite <- Hp; left).
      assert (y ∈ x :: s) as Hin' by (rewrite Hp; left).
      apply elem_of_cons in Hin as [|Hin], Hin' as [|Hin']; try done.
      rewrite Forall_forall in Hx, Hy. specialize (Hx _ Hin'). specialize (Hy _ Hin).
      pose proof (key_leb_antisym _ _ Hx Hy) as Hk. csimpl in Hnd. apply NoDup_cons in Hnd as [Hni _].
      destruct Hni. rewrite Hk. apply list_elem_of_fmap. by exists y. }
    f_equal. csimpl in Hnd. apply NoDup_cons in Hnd as [_ Hnd]. apply IH; [done|done|]. by apply Permutation_cons_inv in Hp.
Qed.

(** ** The normal form canonicalisation identifies values up to *)
Fixpoint json_norm (j : json) : json :=
  match j with
  | JList l => JList (map json_norm l)
  | JDict d => JDict (ksort (map (fun kv => match kv with (k, v) => (k, json_norm v) end) d))
  | _ => j
  end.

Lemma map_pair_ext {A B} (f : A -> B) (d : list (string * A)) :
  map (fun kv => match kv with (k, v) => (k, f v) end) d = map (fun kv => (kv.1, f kv.2)) d.
Proof. by apply map_ext; intros []. Qed.

Lemma json_norm_dict d : json_norm (JDict d) = JDict (map (fun kv => (kv.1, json_norm kv.2)) (ksort d)).
Proof. simpl. by rewrite map_pair_ext, ksort_fmap. Qed.

(** The piece of one item of an object. *)
Definition canon_item (kv : string * json) : py string :=
  k ← _canonicalize_string kv.1; v ← _canonicalize_json kv.2; Ok (k +:+ ":" +:+ v).

Lemma res_mapM_map {E A B C} (f : A -> B) (g : B -> res E C) l :
  res_mapM g (map f l) = res_mapM (g ∘ f) l.
Proof. induction l as [|a l IH]; simpl; [done|]. by rewrite IH. Qed.

Lemma canon_dict d : _canonicalize_json (JDict d) =
  (pieces ← res_mapM canon_item (ksort d); Ok ("{" +:+ join "," pieces +:+ "}")).
Proof. simpl. by rewrite map_pair_ext, ksort_fmap, res_mapM_map. Qed.

(** ** A decoder of canonical texts *)
Definition unhex (c : ascii) : option N :=
  let n := N_of_ascii c in
  if (48 <=? n)%N && (n <=? 57)%N then Some (n - 48)%N
  else if (97 <=? n)%N && (n <=? 102)%N then Some (n - 87)%N else None.

Definition cons_char (c : ascii) (r : option (string * string)) : option (string * string) :=
  match r with Some (s, rest) => Some (String c s, rest) | None => None end.

(** The text after an opening quote: the string it spells and what follows. *)
Fixpoint unquote (s : string) : option (string * string) :=
  match s with
  | EmptyString => None
  | String c s1 =>
      if N.eqb (N_of_ascii c) 34 then Some ("", s1)
      else if N.eqb (N_of_ascii c) 92 then
        match s1 with
        | String "n" s2 => cons_char (ascii_of_N 10) (unquote s2)
        | String "r" s2 => cons_char (ascii_of_N 13) (unquote s2)
        | String "t" s2 => cons_char (ascii_of_N 9) (unquote s2)
        | String "f" s2 => cons_char (ascii_of_N 12) (unquote s2)
        | String "b" s2 => cons_char (ascii_of_N 8) (unquote s2)
        | String "u" (String _ (String _ (String h (String l s2)))) =>
            match unhex h, unhex l with
            | Some a, Some b => cons_char (ascii_of_N (a * 16 + b)) (unquote s2)
            | _, _ => None
            end
        | String e s2 => cons_char e (unquote s2)
        | EmptyString => None
        end
      else cons_char c (unquote s1)
  end.

Lemma unquote_esc1 c rest : unquote (esc1 c +:+ rest) = cons_char c (unquote rest).
Proof. by destruct c as [[] [] [] [] [] [] [] []]. Qed.

Lemma unquote_escape s rest : unquote (escape s +:+ String quote_char rest) = Some (s, rest).
Proof.
  induction s as [|c s IH]; [done|]. cbn [escape]. rewrite string_app_assoc, unquote_esc1, IH. done.
Qed.

Definition is_digit (c : ascii) : bool := (48 <=? N_of_ascii c)%N && (N_of_ascii c <=? 57)%N.

Fixpoint span_num (s : string) : string * string :=
  match s with
  | String c s' => if is_digit c then let '(a, b) := span_num s' in (String c a, b) else ("", s)
  | EmptyString => ("", s)
  end.

(** An optional minus sign and the digits after it. *)
Definition span_int (s : string) : string * string :=
  match s with
  | String "-" s' => let '(a, b) := span_num s' in (String "-" a, b)
  | _ => span_num s
  end.

Definition parse_int (s : string) : option (json * string) :=
  let '(tok, rest) := span_int s in
  match NilZero.int_of_string tok with
  | Some d => Some (JInt (Z.of_int d), rest)
  | None => None
  end.

Fixpoint strip_prefix (p s : string) : option string :=
  match p, s with
  | EmptyString, _ => Some s
  | String a p, String b s => if Ascii.eqb a b then strip_prefix p s else None
  | _, _ => None
  end.

(** Elements separated by commas up to the closing character. *)
Section Elems.
Context {A : Type} (elem : string -> option (A * string)) (close : ascii).
Fixpoint parse_more (n : nat) (s : string) : option (list A * string) :=
  match n with
  | O => None
  | S n =>
      '(a, s) ← elem s;
      match s with
      | String c s' =>
          if Ascii.eqb c close then Some ([a], s')
          else if Ascii.eqb c "," then '(l, s) ← parse_more n s'; Some (a :: l, s)
          else None
      | EmptyString => None
      end
  end.
Definition parse_elems (n : nat) (s : string) : option (list A * string) :=
  match s with
  | String c s' => if Ascii.eqb c close then Some ([], s') else parse_more n s
  | EmptyString => None
  end.
End Elems.

Definition parse_item (parse : string -> option (json * string)) (s : string) : option (string * json * string) :=
  s ← strip_prefix (String quote_char "") s;
  '(k, s) ← unquote s; s ← strip_prefix ":" s; '(v, s) ← parse s; Some (k, v, s).

Fixpoint jparse (n : nat) (s : string) : option (json * string) :=
  match n with
  | O => None
  | S n =>
      match s with
      | String "n" _ => s ← strip_prefix "null" s; Some (JNull, s)
      | String "t" _ => s ← strip_prefix "true" s; Some (JBool true, s)
      | String "f" _ => s ← strip_prefix "false" s; Some (JBool false, s)
      | String "[" s => '(l, s) ← parse_elems (jparse n) "]" n s; Some (JList l, s)
      | String "{" s => '(d, s) ← parse_elems (parse_item (jparse n)) "}" n s; Some (JDict d, s)
      | String c s' =>
          if N.eqb (N_of_ascii c) 34 then '(t, s) ← unquote s'; Some (JStr t, s) else parse_int s
      | EmptyString => None
      end
  end.

(** Decode a whole canonical text. *)
Definition decode_canonical (s : string) : option json :=
  match jparse (S (String.length s)) s with
  | Some (j, EmptyString) => Some j
  | _ => None
  end.

(** ** The decoder inverts the printer *)
Definition no_digit (r : string) : bool :=
  match r with String c _ => negb (is_digit c) | EmptyString => true end.

Lemma span_num_uint (d : Decimal.uint) r :
  no_digit r = true -> span_num (NilEmpty.string_of_uint d +:+ r) = (NilEmpty.string_of_uint d, r).
Proof.
  intros Hr. induction d as [|d IH|d IH|d IH|d IH|d IH|d IH|d IH|d IH|d IH|d IH]; cbn [NilEmpty.string_of_uint].
  1: { rewrite string_app_nil_l. destruct r as [|c r]; [done|]. simpl in *. by destruct (is_digit c). }
  all: rewrite string_app_cons; cbn [span_num]; unfold is_digit; simpl; by rewrite IH.
Qed.

Lemma uint_head (d : Decimal.uint) : d <> Decimal.Nil ->
  exists c s, NilEmpty.string_of_uint d = String c s /\ is_digit c = true.
Proof. destruct d; [done|..]; intros _; eexists _, _; split; reflexivity. Qed.

Lemma to_int_shape z : exists (neg : bool) d, d <> Decimal.Nil /\
  Z.to_int z = (if neg then Decimal.Neg d else Decimal.Pos d) /\
  int_repr z = (if neg then String "-" (NilEmpty.string_of_uint d) else NilEmpty.string_of_uint d).
Proof.
  unfold int_repr. destruct z as [|p|p]; simpl.
  - by exists false, (Decimal.D0 Decimal.Nil).
  - pose proof (Unsigned.to_uint_nonnil p). exists false, (Pos.to_uint p). by destruct (Pos.to_uint p).
  - pose proof (Unsigned.to_uint_nonnil p). exists true, (Pos.to_uint p). by destruct (Pos.to_uint p).
Qed.

Lemma int_repr_head z : exists c s, int_repr z = String c s /\ (is_digit c || Ascii.eqb c "-") = true.
Proof.
  destruct (to_int_shape z) as ([] & d & Hd & _ & ->); [by eexists _, _|].
  destruct (uint_head d Hd) as (c & s & -> & Hc). exists c, s. by rewrite Hc.
Qed.

Lemma span_num_span_int s : no_digit s = false -> span_int s = span_num s.
Proof.
  destruct s as [|c s]; [done|]. intros Hc%negb_false_iff. unfold span_int.
  destruct c as [[] [] [] [] [] [] [] []]; done.
Qed.

Lemma parse_int_repr z r : no_digit r = true -> parse_int (int_repr z +:+ r) = Some (JInt z, r).
Proof.
  intros Hr. unfold parse_int.
  assert (span_int (int_repr z +:+ r) = (int_repr z, r)) as ->.
  { destruct (to_int_shape z) as ([] & d & Hd & _ & ->).
    - rewrite string_app_cons. simpl. by rewrite span_num_uint.
    - rewrite span_num_span_int, span_num_uint; [done|done|].
      destruct (uint_head d Hd) as (c & s & -> & Hc). simpl. by rewrite Hc. }
  unfold int_repr. rewrite NilZero.isi; [by rewrite DecimalZ.of_to|..];
    destruct (to_int_shape z) as ([] & d & Hd & -> & _); congruence.
Qed.

Lemma jparse_int n z r : no_digit r = true -> jparse (S n) (int_repr z +:+ r) = Some (JInt z, r).
Proof.
  intros Hr. rewrite <- (parse_int_repr z r Hr).
  destruct (int_repr_head z) as (c & s & -> & Hc). rewrite string_app_cons.
  destruct c as [[] [] [] [] [] [] [] []]; try discriminate Hc; done.
Qed.

(** A printed list is decoded when each of its elements is. *)
Section ElemsSpec.
Context {A B : Type} (elem : string -> option (B * string)) (close : ascii) (g : A -> B).
Context (Hclose : is_digit close = false /\ Ascii.eqb "," close = false).

Definition decodes (x : A) (s : string) : Prop :=
  (forall r, no_digit r = true -> elem (s +:+ r) = Some (g x, r)) /\
  (exists c s', s = String c s' /\ Ascii.eqb c close = false).

Lemma join_cons s s' ss : join "," (s :: s' :: ss) = s +:+ "," +:+ join "," (s' :: ss).
Proof. done. Qed.

Lemma parse_more_spec n l ss r :
  Forall2 decodes l ss -> l <> [] -> length l <= n ->
  parse_more elem close n (join "," ss +:+ String close r) = Some (map g l, r).
Proof.
  intros Hall. revert n. induction Hall as [|x s l ss [Hx Hs] Hall IH]; intros n Hne Hn; [done|].
  destruct n as [|n]; [simpl in Hn; lia|]. cbn [parse_more].
  destruct Hall as [|y s' l ss Hy Hall].
  - cbn [join]. rewrite Hx by (simpl; by rewrite (proj1 Hclose)). simpl.
    by rewrite (Ascii.eqb_refl close).
  - rewrite join_cons, !string_app_assoc. rewrite Hx by done. cbn [mbind option_bind]. rewrite string_app_cons.
    rewrite (proj2 Hclose). cbn [Ascii.eqb]. change (Ascii.eqb "," ",") with true. cbn iota.
    rewrite string_app_nil_l, IH; [done|done|]. simpl in *; lia.
Qed.

Lemma parse_elems_spec n l ss r :
  Forall2 decodes l ss -> length l <= n ->
  parse_elems elem close n (join "," ss +:+ String close r) = Some (map g l, r).
Proof.
  intros Hall Hn. destruct Hall as [|x s l ss Hx Hall].
  - simpl. rewrite string_app_nil_l. unfold parse_elems. by rewrite Ascii.eqb_refl.
  - destruct (proj2 Hx) as (c & s' & -> & Hc).
    assert (exists t, join "," (String c s' :: ss) +:+ String close r = String c t) as [t Ht].
    { destruct ss as [|s2 ss].
      - cbn [join]. rewrite string_app_cons. eauto.
      - rewrite join_cons, !string_app_cons. eauto. }
    unfold parse_elems. rewrite Ht at 1. cbn iota. rewrite Hc. apply parse_more_spec; [by constructor|done|done].
Qed.
End ElemsSpec.

Lemma canonicalize_string_Ok s t : _canonicalize_string s = Ok t <-> has_surrogate s = false /\ t = json_quote s.
Proof. unfold _canonicalize_string. destruct (has_surrogate s); naive_solver. Qed.

Lemma canon_head a s : _canonicalize_json a = Ok s ->
  exists c s', s = String c s' /\ Ascii.eqb c "]" = false /\ Ascii.eqb c "}" = false.
Proof.
  destruct a as [|[]|z|f|t|l|d]; [..|rewrite canon_dict]; simpl; intros H; res_inv; try (by eexists _, _).
  - destruct (int_repr_head z) as (c & s & -> & Hc). exists c, s. split; [done|].
    destruct c as [[] [] [] [] [] [] [] []]; try discriminate Hc; done.
  - apply canonicalize_string_Ok in H as [_ ->]. by eexists _, _.
Qed.

Definition jparse_ok (a : json) : Prop :=
  forall n s r, json_size a <= n -> _canonicalize_json a = Ok s -> no_digit r = true ->
  jparse n (s +:+ r) = Some (json_norm a, r).

Lemma json_size_elem l a : a ∈ l -> json_size a <= fold_right (fun x m => json_size x + m) 0 l.
Proof. induction 1; simpl; lia. Qed.

Lemma json_size_list l : length l <= fold_right (fun x m => json_size x + m) 0 l.
Proof. induction l as [|a l IH]; simpl; [lia|]. rewrite (json_size_children a). lia. Qed.

Lemma json_size_dict_values (d : dict) :
  fold_right (fun kv m => match kv with (_, v) => json_size v + m end) 0 d =
  fold_right (fun x m => json_size x + m) 0 d.*2.
Proof. induction d as [|[k v] d IH]; csimpl; [done|]. by rewrite IH. Qed.

Lemma jparse_list l : Forall jparse_ok l -> jparse_ok (JList l).
Proof.
  intros Hall [|n] s r Hn Hs Hr; [simpl in Hn; lia|]. simpl in Hn, Hs.
  apply bind_Ok in Hs as (ss & Hss & [= <-]). apply res_mapM_Ok in Hss.
  rewrite !string_app_assoc, !string_app_cons, !string_app_nil_l. cbn [jparse].
  rewrite (parse_elems_spec (jparse n) "]" json_norm (conj eq_refl eq_refl) n l ss r); [done| |].
  - eapply Forall2_impl; [apply Forall2_elem_of_l, Hss|].
    intros a s [Hin Ha]. rewrite Forall_forall in Hall. split.
    + intros r' Hr'. apply Hall; [done| |done|done]. pose proof (json_size_elem l a Hin). lia.
    + destruct (canon_head a s Ha) as (c & s' & -> & Hc & _). eauto.
  - pose proof (json_size_list l). lia.
Qed.

Lemma jparse_dict (d : dict) : Forall (fun kv : string * json => jparse_ok kv.2) d -> jparse_ok (JDict d).
Proof.
  intros Hall [|n] s r Hn Hs Hr; [simpl in Hn; lia|]. rewrite canon_dict in Hs. simpl in Hn.
  apply bind_Ok in Hs as (ss & Hss & [= <-]). apply res_mapM_Ok in Hss.
  rewrite json_norm_dict, !string_app_assoc, !string_app_cons, !string_app_nil_l. cbn [jparse].
  rewrite json_size_dict_values in Hn.
  rewrite (parse_elems_spec (parse_item (jparse n)) "}" (fun kv : string * json => (kv.1, json_norm kv.2))
    (conj eq_refl eq_refl) n (ksort d) ss r); [done| |].
  - eapply Forall2_impl; [apply Forall2_elem_of_l, Hss|].
    intros [k v] s [Hin Ha]. rewrite ksort_perm in Hin. unfold canon_item in Ha. cbn [fst snd] in Ha.
      apply bind_Ok in Ha as (kt & Hk & Ha). apply bind_Ok in Ha as (vt & Hv & [= <-]).
      apply canonicalize_string_Ok in Hk as [_ ->].
      rewrite Forall_forall in Hall. specialize (Hall _ Hin). split; [|by eexists _, _].
      intros r' Hr'. unfold parse_item, json_quote. rewrite !string_app_assoc, !string_app_cons. simpl.
      rewrite string_app_nil_l, unquote_escape. simpl. rewrite string_app_nil_l.
      rewrite (Hall n vt r'); [done| |done|done].
      assert (v ∈ d.*2) as Hv2 by (apply list_elem_of_fmap; by exists (k, v)).
      pose proof (json_size_elem _ _ Hv2). simpl. lia.
  - rewrite ksort_length. pose proof (json_size_list d.*2) as Hl. rewrite length_fmap in Hl. lia.
Qed.

Lemma jparse_canon a : jparse_ok a.
Proof.
  induction a using json_ind'; [..|by apply jparse_list|by apply jparse_dict];
    intros [|n] t r Hn Hs Hr; simpl in Hn, Hs; res_inv; try lia; try done.
  - by destruct b; res_inv.
  - by apply jparse_int.
  - apply canonicalize_string_Ok in Hs as [_ ->]. unfold json_quote.
    rewrite !string_app_assoc, !string_app_cons. simpl. rewrite string_app_nil_l, unquote_escape. done.
Qed.

(** Every node prints at least one character, so the text's length is enough fuel. *)
Lemma join_length ss : sum_list_with String.length ss <= String.length (join "," ss).
Proof.
  induction ss as [|s [|s' ss] IH]; simpl; [lia|lia|].
  rewrite string_length_app. simpl in IH. rewrite string_app_cons, string_app_nil_l. simpl. lia.
Qed.

Lemma canon_size_list (l : list json) ss :
  Forall2 (fun a s => json_size a <= String.length s) l ss ->
  fold_right (fun x m => json_size x + m) 0 l <= sum_list_with String.length ss.
Proof. induction 1; simpl in *; lia. Qed.

Lemma canon_size a s : _canonicalize_json a = Ok s -> json_size a <= String.length s.
Proof.
  revert s. induction a as [|b|z|f|t|l IH|d IH] using json_ind'; intros s Hs.
  7: { rewrite canon_dict in Hs. apply bind_Ok in Hs as (ss & Hss & [= <-]). apply res_mapM_Ok in Hss.
       rewrite string_app_cons, string_app_nil_l. cbn [String.length json_size]. rewrite string_length_app.
       rewrite json_size_dict_values.
       transitivity (S (fold_right (fun x m => json_size x + m) 0 (ksort d).*2)).
       { apply le_n_S. clear. pose proof (ksort_perm d) as Hp.
         induction Hp as [|? ? ? ? IHp|? ? ?|? ? ? ? IH1 ? IH2]; csimpl; lia. }
       apply le_n_S. etransitivity; [|apply Nat.le_add_r]. etransitivity; [|apply join_length].
       apply canon_size_list. apply Forall2_fmap_l. eapply Forall2_impl; [apply Forall2_elem_of_l, Hss|].
       intros [k v] s [Hin Hi]. rewrite ksort_perm in Hin. rewrite Forall_forall in IH.
       unfold canon_item in Hi. res_inv. simpl. specialize (IH _ Hin). simpl in *.
       rewrite string_length_app, string_app_cons, string_app_nil_l. simpl.
       assert (json_size v <= String.length x0) by auto. lia. }
  all: simpl in *.
  - injection Hs as <-. simpl. lia.
  - destruct b; injection Hs as <-; simpl; lia.
  - injection Hs as <-. destruct (int_repr_head z) as (c & s & -> & _). simpl. lia.
  - done.
  - apply canonicalize_string_Ok in Hs as [_ ->]. unfold json_quote. rewrite string_app_cons. simpl. lia.
  - apply bind_Ok in Hs as (ss & Hss & [= <-]). apply res_mapM_Ok in Hss.
    rewrite string_app_cons, string_app_nil_l. cbn [String.length]. rewrite string_length_app.
    apply le_n_S. etransitivity; [|apply Nat.le_add_r]. etransitivity; [|apply join_length].
    apply canon_size_list. eapply Forall2_impl; [apply Forall2_elem_of_l, Hss|].
    intros a s [Hin Ha]. rewrite Forall_forall in IH. simpl in *. eauto.
Qed.

Lemma decode_canon a s : _canonicalize_json a = Ok s -> decode_canonical s = Some (json_norm a).
Proof.
  intros Hs. unfold decode_canonical. pose proof (canon_size a s Hs).
  pose proof (jparse_canon a (S (String.length s)) s "") as Hp.
  rewrite string_app_nil_r in Hp. rewrite Hp; [done|lia|done|done].
Qed.

(** ** Canonical text depends only on the normal form *)
Lemma json_wf_dict d : json_wf (JDict d) <-> NoDup d.*1 /\ Forall (fun kv => json_wf kv.2) d.
Proof.
  simpl. apply and_iff_compat_l. rewrite Forall_fmap. apply Forall_iff. by intros [k v].
Qed.

Lemma json_wf_list l : json_wf (JList l) <-> Forall json_wf l.
Proof. simpl. by rewrite Forall_fmap. Qed.

Lemma ksort_idemp {A} (l : list (string * A)) : NoDup l.*1 -> ksort (ksort l) = ksort l.
Proof. intros Hnd. symmetry. apply ksort_unique; [done|]. by rewrite ksort_perm. Qed.

Lemma canon_norm a : json_wf a -> _canonicalize_json (json_norm a) = _canonicalize_json a.
Proof.
  induction a as [|b|z|f|t|l IH|d IH] using json_ind'; intros Hwf; try done.
  - apply json_wf_list in Hwf. simpl. rewrite res_mapM_map.
    f_equal. apply res_mapM_ext. rewrite Forall_forall in *. naive_solver.
  - apply json_wf_dict in Hwf as [Hnd Hwf].
    rewrite json_norm_dict, !canon_dict, ksort_fmap, ksort_idemp, res_mapM_map by done.
    f_equal. apply res_mapM_ext. rewrite ksort_perm. rewrite Forall_forall in *.
    intros [k v] Hin. unfold canon_item, compose. cbn [fst snd].
    specialize (IH _ Hin). specialize (Hwf _ Hin). cbn [snd] in *. by rewrite IH.
Qed.

Lemma json_depth_elems (l : list json) :
  json_depth (JList l) = (1 + fold_right Z.max 0 (map json_depth l))%Z.
Proof. simpl. f_equal. induction l; simpl; congruence. Qed.

Lemma fold_max_perm l l' : l ≡ₚ l' -> fold_right Z.max 0%Z l = fold_right Z.max 0%Z l'.
Proof. induction 1; simpl; lia. Qed.

Lemma json_depth_dict (d : dict) :
  json_depth (JDict d) = (1 + fold_right Z.max 0 (map (fun kv : string * json => json_depth kv.2) d))%Z.
Proof. simpl. f_equal. induction d as [|[k v] d IH]; simpl; congruence. Qed.

Lemma json_depth_norm a : json_depth (json_norm a) = json_depth a.
Proof.
  induction a as [|b|z|f|t|l IH|d IH] using json_ind'; try done.
  - change (json_norm (JList l)) with (JList (map json_norm l)). rewrite !json_depth_elems, map_map.
    do 2 f_equal. apply list_fmap_ext. intros i x Hx. rewrite Forall_forall in IH.
    apply IH. by eapply list_elem_of_lookup_2.
  - rewrite json_norm_dict, !json_depth_dict, map_map. cbn [snd]. f_equal.
    transitivity (fold_right Z.max 0%Z (map (fun kv : string * json => json_depth kv.2) (ksort d))).
    + f_equal. apply list_fmap_ext. intros i x Hx. rewrite Forall_forall in IH. apply IH.
      rewrite <- (ksort_perm d). by eapply list_elem_of_lookup_2.
    + apply fold_max_perm, Permutation_map, ksort_perm.
Qed.

Lemma canonicalize_json_norm a b n : json_wf a -> json_wf b -> json_norm a = json_norm b ->
  canonicalize_json a n = canonicalize_json b n.
Proof.
  intros Ha Hb He. unfold canonicalize_json. rewrite !validate_json_depth_eq.
  rewrite <- (json_depth_norm a), <- (json_depth_norm b), He.
  by rewrite <- (canon_norm a), <- (canon_norm b), He by done.
Qed.

Lemma canonicalize_json_Ok a n s : canonicalize_json a n = Ok s ->
  _canonicalize_json a = Ok s /\ (json_depth a <= n + 1)%Z.
Proof.
  unfold canonicalize_json. rewrite validate_json_depth_eq. intros H.
  destruct (_ <=? 0)%Z; [done|]. destruct (Z.leb_spec (json_depth a) (n + 1)); done.
Qed.

(** ** Which values have a canonical text *)
Fixpoint canonicalizable (j : json) : bool :=
  match j with
  | JFloat _ => false
  | JStr s => negb (has_surrogate s)
  | JList l => forallb id (map canonicalizable l)
  | JDict d => forallb id (map (fun kv => match kv with (k, v) => negb (has_surrogate k) && canonicalizable v end) d)
  | _ => true
  end.

(** The errors [_canonicalize_json] can raise. *)
Definition canon_error (e : exn) : bool :=
  match e with TypeError _ | CanonicalisationError _ => true | _ => false end.

Lemma res_mapM_total {E A B} (f : A -> res E B) (p : A -> bool) (q : E -> bool) l :
  (forall a, a ∈ l -> match f a with Ok _ => p a = true | Err e => p a = false /\ q e = true end) ->
  match res_mapM f l with Ok _ => forallb p l = true | Err e => forallb p l = false /\ q e = true end.
Proof.
  induction l as [|a l IH]; intros Hf; simpl; [done|].
  specialize (IH (fun a Ha => Hf a (proj2 (elem_of_cons _ _ _) (or_intror Ha)))).
  specialize (Hf a (proj2 (elem_of_cons _ _ _) (or_introl eq_refl))).
  destruct (f a); simpl; [rewrite Hf|by destruct Hf as [-> ?]].
  by destruct (res_mapM f l).
Qed.

Lemma forallb_perm {A} (p : A -> bool) l l' : l ≡ₚ l' -> forallb p l = forallb p l'.
Proof. induction 1; simpl; [done|congruence|by rewrite !andb_assoc, (andb_comm (p y))|congruence]. Qed.

Lemma forallb_id_map {A} (p : A -> bool) l : forallb id (map p l) = forallb p l.
Proof. induction l as [|a l IH]; simpl; [done|]. by rewrite IH. Qed.

Lemma forallb_eq {A} (p q : A -> bool) l : (forall a, p a = q a) -> forallb p l = forallb q l.
Proof. intros He. induction l as [|a l IH]; simpl; [done|]. by rewrite He, IH. Qed.

Lemma canon_total a :
  match _canonicalize_json a with
  | Ok _ => canonicalizable a = true
  | Err e => canonicalizable a = false /\ canon_error e = true
  end.
Proof.
  induction a as [|[]|z|f|t|l IH|d IH] using json_ind'; try done.
  - simpl. unfold _canonicalize_string. by destruct (has_surrogate t).
  - simpl. rewrite Forall_forall in IH.
    pose proof (res_mapM_total _canonicalize_json canonicalizable canon_error l IH) as Hm.
    rewrite forallb_id_map. by destruct (res_mapM _ l).
  - rewrite canon_dict. rewrite Forall_forall in IH.
    set (p := fun kv : string * json => negb (has_surrogate kv.1) && canonicalizable kv.2).
    assert (match res_mapM canon_item (ksort d) with
            | Ok _ => forallb p (ksort d) = true
            | Err e => forallb p (ksort d) = false /\ canon_error e = true end) as Hm.
    { apply res_mapM_total. intros [k v] Hin. rewrite ksort_perm in Hin. specialize (IH _ Hin). unfold p, canon_item, _canonicalize_string.
      cbn [fst snd] in *. destruct (has_surrogate k); simpl; [done|]. by destruct (_canonicalize_json v). }
    assert (canonicalizable (JDict d) = forallb p (ksort d)) as ->.
    { rewrite (forallb_perm _ _ _ (ksort_perm d)). simpl. rewrite forallb_id_map. apply forallb_eq. by intros [k v]. }
    by destruct (res_mapM canon_item (ksort d)).
Qed.

Section CanonicalFacts.
Context `{Protocol}.

Lemma canonicalize_bytes_Ok a n s : canonicalize_bytes a n = Ok s ->
  _canonicalize_json a = Ok s /\ (json_depth a <= MAX_JSON_DEPTH + 1)%Z /\ (Z.of_nat (String.length s) <= n)%Z.
Proof.
  unfold canonicalize_bytes. destruct (n <=? 0)%Z; [done|]. intros (e & He & Hs)%bind_Ok.
  destruct (Z.ltb_spec n (Z.of_nat (String.length e))); [done|]. injection Hs as ->.
  apply canonicalize_json_Ok in He as [? ?]. done.
Qed.

Lemma canonicalize_bytes_error_kind a n : canonicalisation_error_is_value_error = true ->
  forall e, canonicalize_bytes a n = Err e -> is_type_or_value_error e = true.
Proof.
  intros Hve e. unfold canonicalize_bytes, canonicalize_json. rewrite validate_json_depth_eq.
  pose proof (canon_total a) as Ht. destruct (n <=? 0)%Z; [by intros [= <-]|].
  destruct (_ <=? 0)%Z; [by intros [= <-]|]. destruct (_ <=? _)%Z; [|by intros [= <-]]. simpl.
  destruct (_canonicalize_json a) as [s|e']; simpl.
  - destruct (_ <? _)%Z; [by intros [= <-]|done].
  - intros [= ->]. destruct Ht as [_ Ht]. by destruct e.
Qed.

Lemma sha256_hex_Ok a h : sha256_hex a = Ok h <->
  exists s, canonicalize_bytes a DEFAULT_MAX_CANONICAL_OUTPUT_BYTES = Ok s /\ h = sha256_hexdigest s.
Proof. unfold sha256_hex. rewrite bind_Ok. naive_solver. Qed.

Lemma sha256_hex_norm a b : json_wf a -> json_wf b -> json_norm a = json_norm b -> sha256_hex a = sha256_hex b.
Proof.
  intros Ha Hb He. unfold sha256_hex, canonicalize_bytes. by rewrite (canonicalize_json_norm a b) by done.
Qed.
End CanonicalFacts.

(** ** Parts of a canonicalised value *)
Lemma assoc_perm {A} k (l l' : list (string * A)) : NoDup l.*1 -> l ≡ₚ l' -> assoc k l = assoc k l'.
Proof.
  intros Hnd Hp. assert (NoDup l'.*1) as Hnd' by (by rewrite <- Hp).
  destruct (assoc k l) as [v|] eqn:Hk.
  - symmetry. apply elem_assoc; [done|]. rewrite <- Hp. by apply assoc_Some_elem.
  - symmetry. apply assoc_None_keys. rewrite <- Hp. by apply assoc_None_keys.
Qed.

Lemma assoc_map {A B} (f : A -> B) k (l : list (string * A)) :
  assoc k (map (fun kv => (kv.1, f kv.2)) l) = f <$> assoc k l.
Proof. induction l as [|[k' v] l IH]; simpl; [done|]. by destruct (String.eqb k k'). Qed.

(** Values with the same normal form have, under every key, parts with the same
    normal form. *)
Lemma json_norm_assoc (a b : dict) k : NoDup a.*1 -> NoDup b.*1 ->
  json_norm (JDict a) = json_norm (JDict b) -> json_norm <$> assoc k a = json_norm <$> assoc k b.
Proof.
  intros Ha Hb. rewrite !json_norm_dict. intros [= He].
  rewrite <- !assoc_map. rewrite (assoc_perm k _ (map (fun kv => (kv.1, json_norm kv.2)) (ksort a))).
  - rewrite He. symmetry. apply assoc_perm; [by rewrite map_map|]. apply Permutation_map. symmetry. apply ksort_perm.
  - by rewrite map_map.
  - apply Permutation_map. symmetry. apply ksort_perm.
Qed.

Section CanonicalParts.
Context `{Protocol}.

Lemma canon_part (d : dict) k v s : (k, v) ∈ d -> _canonicalize_json (JDict d) = Ok s ->
  exists s', _canonicalize_json v = Ok s' /\ String.length s' <= String.length s.
Proof.
  intros Hin. rewrite canon_dict. intros (ss & Hss & [= <-])%bind_Ok.
  apply res_mapM_Ok in Hss. rewrite <- (ksort_perm d) in Hin.
  apply list_elem_of_lookup in Hin as [i Hi].
  destruct (Forall2_lookup_l _ _ _ _ _ Hss Hi) as (t & Ht & Hc).
  unfold canon_item in Hc. cbn [fst snd] in Hc. apply bind_Ok in Hc as (kt & _ & Hc).
  apply bind_Ok in Hc as (vt & Hv & [= <-]). exists vt. split; [done|].
  rewrite string_app_cons, string_app_nil_l. simpl. rewrite string_length_app.
  pose proof (join_length ss) as Hj. apply list_elem_of_lookup_2 in Ht.
  apply (sum_list_with_in _ String.length) in Ht. rewrite string_length_app, string_app_cons, string_app_nil_l in Ht. simpl in Ht. lia.
Qed.

Lemma json_depth_part (d : dict) k v : (k, v) ∈ d -> (json_depth v <= json_depth (JDict d))%Z.
Proof.
  intros Hin. pose proof (json_depth_children (JDict d) (json_depth (JDict d) - 1)) as [Hc _].
  destruct Hc as [_ Hc]; [lia|]. rewrite Forall_forall in Hc. specialize (Hc v).
  assert (v ∈ json_children (JDict d)) as Hv by (apply list_elem_of_fmap; by exists (k, v)). specialize (Hc Hv). lia.
Qed.

(** A value inside a canonicalised object canonicalises. *)
Lemma canonicalize_bytes_part (d : dict) k v n s : (k, v) ∈ d -> canonicalize_bytes (JDict d) n = Ok s ->
  exists s', canonicalize_bytes v n = Ok s'.
Proof.
  intros Hin Hc. assert (0 < n)%Z as Hn by (unfold canonicalize_bytes in Hc; destruct (Z.leb_spec n 0); [done|lia]).
  apply canonicalize_bytes_Ok in Hc as (Hc & Hd & Hl).
  destruct (canon_part d k v s Hin Hc) as (s' & Hs' & Hlen). exists s'.
  pose proof (json_depth_part d k v Hin). pose proof (json_depth_pos v).
  unfold canonicalize_bytes, canonicalize_json. rewrite validate_json_depth_eq.
  destruct (Z.leb_spec n 0); [lia|]. destruct (Z.leb_spec (MAX_JSON_DEPTH + 1) 0); [lia|].
  destruct (Z.leb_spec (json_depth v) (MAX_JSON_DEPTH + 1)); [|lia]. simpl. rewrite Hs'. simpl.
  destruct (Z.ltb_spec n (Z.of_nat (String.length s'))); [lia|done].
Qed.
End CanonicalParts.

(** ** Properties *)

(** C36: canonicalisation loses nothing but the order of object keys: the bytes of
    a value decode back to its normal form, so two values with the same bytes are
    equal up to that order. *)
Theorem canonical_injective `{Protocol} (a b : json) (n m : Z) (s : string) :
  canonicalize_bytes a n = Ok s -> canonicalize_bytes b m = Ok s ->
  decode_canonical s = Some (json_norm a) /\ json_norm a = json_norm b.
Proof.
  intros [Ha _]%canonicalize_bytes_Ok [Hb _]%canonicalize_bytes_Ok.
  pose proof (decode_canon _ _ Ha) as H1. pose proof (decode_canon _ _ Hb) as H2. split; [done|congruence].
Qed.

(** Two values that differ only in the order of object keys, at any level,
    have the same canonical bytes and the same hash, or fail with the same error. *)
Theorem canonical_key_order `{Protocol} (a b : json) (n : Z) :
  json_wf a -> json_wf b -> json_norm a = json_norm b ->
  canonicalize_bytes a n = canonicalize_bytes b n /\ sha256_hex a = sha256_hex b.
Proof.
  intros Ha Hb He. split; [|by apply sha256_hex_norm].
  unfold canonicalize_bytes. by rewrite (canonicalize_json_norm a b) by done.
Qed.

(** Canonicalisation succeeds exactly on the values with no float, no lone
    surrogate and no nesting beyond the protocol's limit whose text fits the
    output limit; it raises [TypeError], [CanonicalisationError] or [ValueError]
    and nothing else. *)
Theorem canonicalize_bytes_total `{Protocol} (a : json) (n : Z) :
  match canonicalize_bytes a n with
  | Ok s => canonicalizable a = true /\ (json_depth a <= MAX_JSON_DEPTH + 1)%Z /\
            (Z.of_nat (String.length s) <= n)%Z
  | Err (TypeError _) | Err (CanonicalisationError _) =>
      canonicalizable a = false /\ (json_depth a <= MAX_JSON_DEPTH + 1)%Z
  | Err (ValueError _) =>
      (n <= 0)%Z \/ (MAX_JSON_DEPTH + 1 < json_depth a)%Z \/
      exists s, _canonicalize_json a = Ok s /\ (n < Z.of_nat (String.length s))%Z
  | Err _ => False
  end.
Proof.
  unfold canonicalize_bytes, canonicalize_json. rewrite validate_json_depth_eq.
  pose proof (json_depth_pos a). pose proof (canon_total a) as Ht.
  destruct (Z.leb_spec n 0); [by left|].
  destruct (Z.leb_spec (MAX_JSON_DEPTH + 1) 0); [right; left; lia|].
  destruct (Z.leb_spec (json_depth a) (MAX_JSON_DEPTH + 1)); [|right; left; lia].
  simpl. destruct (_canonicalize_json a) as [s|e]; simpl.
  - destruct (Z.ltb_spec n (Z.of_nat (String.length s))); [|done]. right; right. by exists s.
  - destruct Ht as [Hc He]. by destruct e.
Qed.

(** A protocol instance for examples: any function serves as the hash. *)
Definition demo_protocol : Protocol := {|
  MAX_JSON_DEPTH := 64;
  CANONICALIZATION_PROFILE := "ACTENON-JCS-STRICT-1";
  LEGACY_CANONICALIZATION_PROFILE := "RFC8785-JCS";
  ACCEPTED_CANONICALIZATION_PROFILES := ["ACTENON-JCS-STRICT-1"; "RFC8785-JCS"];
  canonicalisation_error_is_value_error := true;
  sha256_hexdigest := fun s => s
|}.

Definition demo_value : json := JDict [("b", JList [JInt (-12); JNull]); ("a", JStr "x")].
Definition demo_value' : json := JDict [("a", JStr "x"); ("b", JList [JInt (-12); JNull])].

Lemma canonical_injective_witness :
  decode_canonical (default "" (match @canonicalize_bytes demo_protocol demo_value 100 with Ok s => Some s | Err _ => None end))
    = Some (json_norm demo_value) /\ json_norm demo_value = json_norm demo_value'.
Proof. apply (@canonical_injective demo_protocol demo_value demo_value' 100 200); vm_compute; reflexivity. Defined.

Lemma canonical_key_order_witness :
  @canonicalize_bytes demo_protocol demo_value 100 = @canonicalize_bytes demo_protocol demo_value' 100 /\
  @sha256_hex demo_protocol demo_value = @sha256_hex demo_protocol demo_value'.
Proof.
  apply (@canonical_key_order demo_protocol demo_value demo_value' 100).
  - split; [apply (bool_decide_unpack _); vm_compute; exact I|repeat constructor].
  - split; [apply (bool_decide_unpack _); vm_compute; exact I|repeat constructor].
  - vm_compute; reflexivity.
Defined.
