(* ===== verification/JsonEq.v ===== *)
(** * Python equality and key order

    How [==] on JSON values ([py_eqb]) relates to the order of object keys: it
    does not see it, and a value that can be canonicalised equals itself (a NaN
    does not, and no float can be canonicalised). *)

From S2P Require Import Prelude Text Json Errors Timestamps Canonical.

Definition pair_in (y : dict) (kv : string * json) : bool :=
  match assoc kv.1 y with Some v => py_eqb kv.2 v | None => false end.

Lemma py_eqb_dict x y : py_eqb (JDict x) (JDict y) = Nat.eqb (length x) (length y) && forallb (pair_in y) x.
Proof.
  cbn [py_eqb]. f_equal. induction x as [|[k v] x IH]; [done|]. simpl. by rewrite IH.
Qed.

Lemma py_eqb_list x y : py_eqb (JList x) (JList y) = forallb (fun p => py_eqb p.1 p.2) (zip x y) && Nat.eqb (length x) (length y).
Proof.
  cbn [py_eqb]. revert y. induction x as [|a x IH]; intros [|b y]; simpl; try done. by rewrite IH, andb_assoc.
Qed.

Lemma forallb_ext_in {A} (p q : A -> bool) l : (forall a, a ∈ l -> p a = q a) -> forallb p l = forallb q l.
Proof. induction l as [|a l IH]; intros He; simpl; [done|]. rewrite He by (by left). f_equal. apply IH. intros b Hb. apply He. by right. Qed.

Lemma forallb_map_comp {A B} (f : A -> B) (p : B -> bool) l : forallb p (map f l) = forallb (fun a => p (f a)) l.
Proof. induction l; simpl; congruence. Qed.

(** The left argument may be normalised. *)
Lemma py_eqb_norm_l a : json_wf a -> forall b, py_eqb (json_norm a) b = py_eqb a b.
Proof.
  induction a as [|b|z|f|t|l IH|d IH] using json_ind'; intros Hwf b'; try done.
  - apply json_wf_list in Hwf. simpl json_norm. destruct b' as [| | |g| |l'|]; try done. rewrite !py_eqb_list, length_map. f_equal.
    revert l'. induction l as [|x l IHl]; intros [|y l']; try done. apply Forall_cons in IH as [Hx IH]. apply Forall_cons in Hwf as [Hw Hwf].
    simpl. rewrite Hx by done. f_equal. by apply IHl.
  - apply json_wf_dict in Hwf as [Hnd Hwf]. rewrite json_norm_dict. destruct b' as [| | |g| | |d']; try done.
    rewrite !py_eqb_dict, length_map, ksort_length. f_equal. rewrite forallb_map_comp, <- (forallb_perm (pair_in d') (ksort d) d (ksort_perm d)).
    apply forallb_ext_in. intros [k v] Hin. rewrite ksort_perm in Hin. unfold pair_in. simpl.
    destruct (assoc k d'); [|done]. rewrite Forall_forall in IH, Hwf. apply (IH _ Hin), (Hwf _ Hin).
Qed.

Lemma canon_list_elem l s x : _canonicalize_json (JList l) = Ok s -> x ∈ l -> exists t, _canonicalize_json x = Ok t.
Proof.
  intros Hc Hin. simpl in Hc. apply bind_Ok in Hc as (ss & Hm & _).
  apply list_elem_of_lookup in Hin as (i & Hi). apply res_mapM_Ok in Hm. eapply Forall2_lookup_l in Hm as (t & _ & Ht); [|exact Hi]. eauto.
Qed.

(** What can be canonicalised equals itself. *)
Lemma py_eqb_refl_canon a s : json_wf a -> _canonicalize_json a = Ok s -> py_eqb a a = true.
Proof.
  revert s. induction a as [|b|z|f|t|l IH|d IH] using json_ind'; intros s Hwf Hc; try done.
  - simpl. by rewrite Z.eqb_refl.
  - simpl. apply Z.eqb_refl.
  - simpl. apply String.eqb_refl.
  - apply json_wf_list in Hwf. rewrite py_eqb_list, Nat.eqb_refl, andb_true_r. apply forallb_forall. intros [x y] Hin.
    apply list_elem_of_In, elem_of_lookup_zip_with in Hin as (i & x' & y' & [= -> ->] & Hx & Hy). rewrite Hx in Hy. injection Hy as <-.
    apply list_elem_of_lookup_2 in Hx. destruct (canon_list_elem _ _ _ Hc Hx) as (t & Ht).
    rewrite Forall_forall in IH, Hwf. by eapply IH; [..|apply Hwf|exact Ht].
  - apply json_wf_dict in Hwf as [Hnd Hwf]. rewrite py_eqb_dict, Nat.eqb_refl. apply forallb_forall. intros [k v] Hin%list_elem_of_In.
    unfold pair_in. simpl. rewrite (elem_assoc k v d) by done. destruct (canon_part d k v s Hin Hc) as (t & Ht).
    rewrite Forall_forall in IH, Hwf. by eapply (IH _ Hin), Ht; apply (Hwf _ Hin).
Qed.

(** Normalising keeps values well formed and is idempotent. *)
Lemma json_wf_norm a : json_wf a -> json_wf (json_norm a).
Proof.
  induction a as [|b|z|f|t|l IH|d IH] using json_ind'; intros Hwf; try done.
  - apply json_wf_list in Hwf. simpl json_norm. apply json_wf_list. apply Forall_fmap. rewrite Forall_forall in *. naive_solver.
  - apply json_wf_dict in Hwf as [Hnd Hwf]. rewrite json_norm_dict. apply json_wf_dict. split.
    + rewrite <- list_fmap_compose. change (NoDup ((fst : string * json -> string) <$> ksort d)). by rewrite ksort_perm.
    + apply Forall_fmap. rewrite ksort_perm. rewrite Forall_forall in *. intros kv Hin. apply (IH _ Hin), (Hwf _ Hin).
Qed.

Lemma json_norm_idemp a : json_wf a -> json_norm (json_norm a) = json_norm a.
Proof.
  induction a as [|b|z|f|t|l IH|d IH] using json_ind'; intros Hwf; try done.
  - apply json_wf_list in Hwf. simpl. f_equal. rewrite map_map. apply map_ext_in. intros x Hin%list_elem_of_In. rewrite Forall_forall in *. auto.
  - apply json_wf_dict in Hwf as [Hnd Hwf]. rewrite !json_norm_dict. f_equal. rewrite ksort_fmap, ksort_idemp, map_map by done.
    apply map_ext_in. intros [k v] Hin%list_elem_of_In. rewrite ksort_perm in Hin. simpl. f_equal. rewrite Forall_forall in *.
    apply (IH _ Hin), (Hwf _ Hin).
Qed.
