(* ===== verification/Base64.v ===== *)
(** * Base64url: the codec of [proof/signers/base.py]

    Texts and bytes are strings of bytes.  [base64.b64decode(..., altchars=b"-_",
    validate=True)] translates [-] and [_] and so accepts the standard alphabet
    too; it ignores the spare bits of a last group.  Interpreters differ on
    padding after a complete group, which is the parameter [quad_padding_ok]. *)

From Stdlib Require Import Ascii ZifyN.
From S2P Require Import Prelude Text Json Errors.

Definition base64url_value (c : ascii) : option N :=
  let n := N_of_ascii c in
  if (65 <=? n)%N && (n <=? 90)%N then Some (n - 65)%N
  else if (97 <=? n)%N && (n <=? 122)%N then Some (n - 71)%N
  else if (48 <=? n)%N && (n <=? 57)%N then Some (n + 4)%N
  else if (n =? 45)%N then Some 62%N
  else if (n =? 95)%N then Some 63%N else None.

(** Both alphabets. *)
Definition base64_value (c : ascii) : option N :=
  let n := N_of_ascii c in
  if (n =? 43)%N then Some 62%N else if (n =? 47)%N then Some 63%N else base64url_value c.

Definition base64url_char (n : N) : ascii :=
  ascii_of_N (if (n <? 26)%N then n + 65
              else if (n <? 52)%N then n + 71
              else if (n <? 62)%N then n - 4
              else if (n =? 62)%N then 45 else 95)%N.

Definition byte_of (n : N) : ascii := ascii_of_N (n mod 256).

(** Groups of four characters give three bytes; a last group of two or three gives
    one or two, its spare bits ignored; a last group of one is an error. *)
Fixpoint base64_groups (value : ascii -> option N) (s : string) : option string :=
  match s with
  | "" => Some ""
  | String a (String b "") =>
      match value a, value b with
      | Some x, Some y => Some (String (byte_of (4 * x + y / 16)) "")
      | _, _ => None
      end
  | String a (String b (String c "")) =>
      match value a, value b, value c with
      | Some x, Some y, Some z => Some (String (byte_of (4 * x + y / 16)) (String (byte_of (16 * y + z / 4)) ""))
      | _, _, _ => None
      end
  | String a (String b (String c (String d r))) =>
      match value a, value b, value c, value d, base64_groups value r with
      | Some x, Some y, Some z, Some w, Some r =>
          Some (String (byte_of (4 * x + y / 16)) (String (byte_of (16 * y + z / 4)) (String (byte_of (64 * z + w)) r)))
      | _, _, _, _, _ => None
      end
  | _ => None
  end.

(** [base64.urlsafe_b64encode(raw).decode("ascii").rstrip("=")] *)
Fixpoint b64url_encode (raw : string) : string :=
  match raw with
  | "" => ""
  | String a "" =>
      let x := N_of_ascii a in String (base64url_char (x / 4)) (String (base64url_char (16 * (x mod 4))) "")
  | String a (String b "") =>
      let x := N_of_ascii a in
      let y := N_of_ascii b in
      String (base64url_char (x / 4)) (String (base64url_char (16 * (x mod 4) + y / 16)) (String (base64url_char (4 * (y mod 16))) ""))
  | String a (String b (String c r)) =>
      let x := N_of_ascii a in
      let y := N_of_ascii b in
      let z := N_of_ascii c in
      String (base64url_char (x / 4)) (String (base64url_char (16 * (x mod 4) + y / 16))
        (String (base64url_char (4 * (y mod 16) + z / 64)) (String (base64url_char (z mod 64)) (b64url_encode r))))
  end.

(** Whether the interpreter ignores padding after a complete group of four. *)
Class Base64Padding := quad_padding_ok : bool.

(** The characters before the first [=] and the rest. *)
Fixpoint split_padding (s : string) : string * string :=
  match s with
  | "" => ("", "")
  | String c r => if Ascii.eqb c "=" then ("", s) else let '(data, pad) := split_padding r in (String c data, pad)
  end.

Fixpoint all_padding (s : string) : bool :=
  match s with "" => true | String c r => Ascii.eqb c "=" && all_padding r end.

(** What padding may follow [n] characters of data when the text is completed with
    [-len % 4] further ones. *)
Definition padding_ok `{Base64Padding} (n k : nat) : bool :=
  match (n mod 4)%nat with
  | 0 => Nat.eqb k 0 || (quad_padding_ok && negb (Nat.eqb n 0))
  | 2 => (k <=? 2)%nat
  | 3 => (k <=? 1)%nat
  | _ => false
  end.

Definition b64url_decode `{Base64Padding} (raw : string) : py string :=
  let '(data, pad) := split_padding raw in
  if all_padding pad && padding_ok (String.length data) (String.length pad)
  then match base64_groups base64_value data with
       | Some b => Ok b
       | None => Err (ValueError "invalid base64url input")
       end
  else Err (ValueError "invalid base64url input").

(** ** Facts *)
Ltac div_lia := zify; Z.div_mod_to_equations; lia.

Lemma N_lt_64_ind (P : N -> Prop) : (forall k : nat, (k < 64)%nat -> P (N.of_nat k)) -> forall n, (n < 64)%N -> P n.
Proof. intros Hp n Hn. rewrite <- (N2Nat.id n). apply Hp. lia. Qed.

Lemma base64_char_value n : (n < 64)%N -> base64_value (base64url_char n) = Some n.
Proof. revert n. apply N_lt_64_ind. intros k Hk. do 64 (destruct k as [|k]; [reflexivity|]). lia. Qed.

Lemma base64_char_data n : (n < 64)%N -> Ascii.eqb (base64url_char n) "=" = false.
Proof. revert n. apply N_lt_64_ind. intros k Hk. do 64 (destruct k as [|k]; [reflexivity|]). lia. Qed.

Lemma byte_of_id a n : (n mod 256)%N = N_of_ascii a -> byte_of n = a.
Proof. unfold byte_of. intros ->. apply ascii_N_embedding. Qed.

(** Induction in steps of three bytes. *)
Lemma string_ind3 (P : string -> Prop) : P "" -> (forall a, P (String a "")) -> (forall a b, P (String a (String b ""))) ->
  (forall a b c r, P r -> P (String a (String b (String c r)))) -> forall s, P s.
Proof. intros H0 H1 H2 H3. fix IH 1. intros [|a [|b [|c r]]]; [done|apply H1|apply H2|apply H3, IH]. Qed.

Lemma split_padding_encode raw : split_padding (b64url_encode raw) = (b64url_encode raw, "").
Proof.
  induction raw as [|a|a b|a b c r IH] using string_ind3; [done|..]; cbn [b64url_encode]; cbv zeta;
    pose proof (N_ascii_bounded a) as Ha; try pose proof (N_ascii_bounded b) as Hb; try pose proof (N_ascii_bounded c) as Hc;
    cbn [split_padding]; rewrite ?base64_char_data by (div_lia); [done|done|].
  by rewrite IH.
Qed.

Lemma encode_groups raw : base64_groups base64_value (b64url_encode raw) = Some raw.
Proof.
  induction raw as [|a|a b|a b c r IH] using string_ind3; [done|..]; cbn [b64url_encode]; cbv zeta;
    pose proof (N_ascii_bounded a) as Ha; try pose proof (N_ascii_bounded b) as Hb; try pose proof (N_ascii_bounded c) as Hc;
    cbn [base64_groups]; rewrite ?base64_char_value by (div_lia).
  all: rewrite ?IH; repeat f_equal; apply byte_of_id; div_lia.
Qed.

Lemma encode_length raw : (String.length (b64url_encode raw) mod 4 <> 1)%nat.
Proof.
  induction raw as [|a|a b|a b c r IH] using string_ind3; [done..|]. cbn [b64url_encode]. cbv zeta. cbn [String.length].
  replace (S (S (S (S (String.length (b64url_encode r))))))%nat with (String.length (b64url_encode r) + 1 * 4)%nat by lia.
  by rewrite Nat.Div0.mod_add.
Qed.

(** Decoding gives back what was encoded. *)
Lemma b64url_decode_encode `{Base64Padding} raw : b64url_decode (b64url_encode raw) = Ok raw.
Proof.
  unfold b64url_decode. rewrite split_padding_encode. cbn [all_padding String.length]. rewrite encode_groups.
  assert (padding_ok (String.length (b64url_encode raw)) 0 = true) as ->; [|done]. unfold padding_ok.
  pose proof (encode_length raw) as Hl. pose proof (Nat.mod_upper_bound (String.length (b64url_encode raw)) 4 ltac:(lia)) as Hu.
  destruct (String.length (b64url_encode raw) mod 4)%nat as [|[|[|[|n]]]]; [done|done|done|done|lia].
Qed.

Lemma b64url_encode_nonempty raw : raw <> "" -> b64url_encode raw <> "".
Proof. destruct raw as [|a [|b [|c r]]]; done. Qed.

(** Decoding raises nothing but [ValueError]. *)
Lemma b64url_decode_error `{Base64Padding} raw e : b64url_decode raw = Err e -> e = ValueError "invalid base64url input".
Proof. unfold b64url_decode. destruct (split_padding raw). destruct (_ && _); [destruct (base64_groups _ _)|]; congruence. Qed.
