(* ===== verification/Contracts.v ===== *)
(** * Contracts: [actenon/models/contracts.py]

    The artifact classes as records and their [from_dict] and [to_dict].  A field
    the source validates has its type ([string], [bool], [datetime]); a field it
    takes over unchecked ([data.get(...)], annotated [str | None]) is a [json]
    with [JNull] for [None], since any JSON value can end up there.  [from_dict]
    evaluates the arguments of the constructor in the order they are written, so
    the first faulty field decides the exception.

    The theorem of each class is the round trip: [from_dict(x.to_dict())] is [x],
    for every [x] whose fields have the values the constructor arguments are
    checked for. *)

From S2P Require Import Prelude Text Json Errors Timestamps.

(** ** Python coercions *)

(** [iter(x)] *)
Definition py_iter (j : json) : py (list json) :=
  match j with
  | JList l => Ok l
  | JDict d => Ok (map (fun kv => JStr kv.1) d)
  | JStr s => Ok (map JStr (py_chars s))
  | _ => Err (TypeError "object is not iterable")
  end.

(** One element of the sequence [dict(...)] consumes: a key and a value. *)
Definition py_dict_element (d : dict) (e : json) : py dict :=
  match py_iter e with
  | Err _ => Err (TypeError "cannot convert dictionary update sequence element to a sequence")
  | Ok [JStr k; v] => Ok (assoc_set k v d)
  | Ok [JList _; _] | Ok [JDict _; _] => Err (TypeError "unhashable type")
  | Ok [_; _] => Err OutOfModel
  | Ok _ => Err (ValueError "dictionary update sequence element has wrong length; 2 is required")
  end.

Fixpoint py_dict_elements (d : dict) (l : list json) : py dict :=
  match l with
  | [] => Ok d
  | e :: l => d ← py_dict_element d e; py_dict_elements d l
  end.

(** [dict(x)]: a copy of a mapping, or the pairs of a sequence. *)
Definition py_dict (j : json) : py dict :=
  match j with
  | JDict d => Ok d
  | _ => l ← py_iter j; py_dict_elements [] l
  end.

(** [x is not None] *)
Definition not_none (j : json) : bool := match j with JNull => false | _ => true end.

(** [if c: payload[k] = v], for a key not yet in the payload. *)
Definition opt_item (c : bool) (k : string) (v : json) : dict := if c then [(k, v)] else [].

(** [if x is not None: payload[k] = x] and [if d: payload[k] = d] *)
Abbreviation json_item k v := (opt_item (not_none v) k v).
Abbreviation dict_item k d := (opt_item (dict_truthy d) k (JDict d)).

(** ** Checks *)
Definition expect_mapping (raw : json) (field_name : string) : py dict :=
  match raw with
  | JDict d => Ok d
  | _ => Err (ValueError (field_name +:+ " must be an object"))
  end.

Definition expect_string (raw : json) (field_name : string) : py string :=
  match raw with
  | JStr s => if str_truthy s then Ok s else Err (ValueError (field_name +:+ " must be a non-empty string"))
  | _ => Err (ValueError (field_name +:+ " must be a non-empty string"))
  end.

Definition expect_bool (raw : json) (field_name : string) : py bool :=
  match raw with
  | JBool b => Ok b
  | _ => Err (ValueError (field_name +:+ " must be a boolean"))
  end.

Definition expect_json_scalar (raw : json) (field_name : string) : py json :=
  match raw with
  | JList _ | JDict _ => Err (ValueError (field_name +:+ " must be a JSON scalar"))
  | _ => Ok raw
  end.

(** The contract header every artifact opens with. *)
Definition contract_header (name : string) : json :=
  JDict [("name", JStr name); ("version", JStr "v1")].

Definition expect_contract (data : dict) (name : string) : py unit :=
  contract ← expect_mapping (dget data "contract") "contract";
  if negb (is_str (dget contract "name") name) || negb (is_str (dget contract "version") "v1")
  then Err (ValueError ("contract must declare " +:+ name +:+ " v1")) else Ok tt.

(** ** Round-trip interface

    What one class promises the classes that embed it. *)
Class RoundTrip (A : Type) (to_dict : A -> dict) (from_dict : json -> py A) (wf : A -> bool) : Prop :=
  roundtrip : forall a, wf a = true -> from_dict (JDict (to_dict a)) = Ok a.

(** ** References *)
Record TenantRef := mkTenantRef { tenant_id : string; tenant_attributes : dict }.
#[global] Instance TenantRef_eq_dec : EqDecision TenantRef.
Proof. solve_decision. Defined.

Definition TenantRef_from_dict (raw : json) : py TenantRef :=
  data ← expect_mapping raw "tenant";
  tenant_id ← expect_string (dget data "tenant_id") "tenant.tenant_id";
  attributes ← py_dict (dget_default data "attributes" (JDict []));
  Ok (mkTenantRef tenant_id attributes).

Definition TenantRef_to_dict (t : TenantRef) : dict :=
  [("tenant_id", JStr (tenant_id t))] ++ dict_item "attributes" (tenant_attributes t).

Record PartyRef := mkPartyRef {
  party_type : string; party_id : string; party_display_name : json; party_attributes : dict
}.
#[global] Instance PartyRef_eq_dec : EqDecision PartyRef.
Proof. solve_decision. Defined.

Definition PartyRef_from_dict (field_name : string) (raw : json) : py PartyRef :=
  data ← expect_mapping raw field_name;
  type ← expect_string (dget data "type") (field_name +:+ ".type");
  id ← expect_string (dget data "id") (field_name +:+ ".id");
  attributes ← py_dict (dget_default data "attributes" (JDict []));
  Ok (mkPartyRef type id (dget data "display_name") attributes).

Definition PartyRef_to_dict (p : PartyRef) : dict :=
  [("type", JStr (party_type p)); ("id", JStr (party_id p))] ++
  json_item "display_name" (party_display_name p) ++
  dict_item "attributes" (party_attributes p).

Record AudienceRef := mkAudienceRef { aud_type : string; aud_id : string; aud_uri : json }.
#[global] Instance AudienceRef_eq_dec : EqDecision AudienceRef.
Proof. solve_decision. Defined.

Definition AudienceRef_from_dict (field_name : string) (raw : json) : py AudienceRef :=
  data ← expect_mapping raw field_name;
  type ← expect_string (dget data "type") (field_name +:+ ".type");
  id ← expect_string (dget data "id") (field_name +:+ ".id");
  Ok (mkAudienceRef type id (dget data "uri")).

Definition AudienceRef_to_dict (a : AudienceRef) : dict :=
  [("type", JStr (aud_type a)); ("id", JStr (aud_id a))] ++ json_item "uri" (aud_uri a).

Record ActionSpec := mkActionSpec {
  act_name : string; act_capability : string; act_parameters : dict; act_constraints : dict; act_scope : dict
}.
#[global] Instance ActionSpec_eq_dec : EqDecision ActionSpec.
Proof. solve_decision. Defined.

Definition ActionSpec_from_dict (raw : json) : py ActionSpec :=
  data ← expect_mapping raw "action";
  name ← expect_string (dget data "name") "action.name";
  capability ← expect_string (dget data "capability") "action.capability";
  parameters ← expect_mapping (dget data "parameters") "action.parameters";
  constraints ← py_dict (dget_default data "constraints" (JDict []));
  scope ← py_dict (dget_default data "scope" (JDict []));
  Ok (mkActionSpec name capability parameters constraints scope).

Definition ActionSpec_to_dict (a : ActionSpec) : dict :=
  [("name", JStr (act_name a)); ("capability", JStr (act_capability a)); ("parameters", JDict (act_parameters a))] ++
  dict_item "constraints" (act_constraints a) ++ dict_item "scope" (act_scope a).

Record TargetRef := mkTargetRef {
  tgt_resource_type : string; tgt_resource_id : string; tgt_uri : json; tgt_selectors : dict
}.
#[global] Instance TargetRef_eq_dec : EqDecision TargetRef.
Proof. solve_decision. Defined.

Definition TargetRef_from_dict (raw : json) : py TargetRef :=
  data ← expect_mapping raw "target";
  resource_type ← expect_string (dget data "resource_type") "target.resource_type";
  resource_id ← expect_string (dget data "resource_id") "target.resource_id";
  selectors ← py_dict (dget_default data "selectors" (JDict []));
  Ok (mkTargetRef resource_type resource_id (dget data "uri") selectors).

Definition TargetRef_to_dict (t : TargetRef) : dict :=
  [("resource_type", JStr (tgt_resource_type t)); ("resource_id", JStr (tgt_resource_id t))] ++
  json_item "uri" (tgt_uri t) ++ dict_item "selectors" (tgt_selectors t).

Record EvidenceRef := mkEvidenceRef { ev_type : string; ev_value : string; ev_digest : dict }.
#[global] Instance EvidenceRef_eq_dec : EqDecision EvidenceRef.
Proof. solve_decision. Defined.

Definition EvidenceRef_from_dict (raw : json) : py EvidenceRef :=
  data ← expect_mapping raw "evidence_ref";
  type ← expect_string (dget data "type") "evidence_ref.type";
  value ← expect_string (dget data "value") "evidence_ref.value";
  digest ← py_dict (dget_default data "digest" (JDict []));
  Ok (mkEvidenceRef type value digest).

Definition EvidenceRef_to_dict (e : EvidenceRef) : dict :=
  [("type", JStr (ev_type e)); ("value", JStr (ev_value e))] ++ dict_item "digest" (ev_digest e).

Record ScopeSpec := mkScopeSpec {
  sc_mode : string; sc_capabilities : list string; sc_single_use : bool;
  sc_resource_selectors : list dict; sc_parameter_constraints : dict
}.
#[global] Instance ScopeSpec_eq_dec : EqDecision ScopeSpec.
Proof. solve_decision. Defined.

Definition ScopeSpec_from_dict (raw : json) : py ScopeSpec :=
  data ← expect_mapping raw "scope";
  raw_capabilities ← match dget data "capabilities" with
                     | JList (x :: l) => Ok (x :: l)
                     | _ => Err (ValueError "scope.capabilities must be a non-empty array")
                     end;
  capabilities ← res_mapM (fun item => expect_string item "scope.capabilities[]") raw_capabilities;
  items ← py_iter (dget_default data "resource_selectors" (JList []));
  selectors ← res_mapM (fun item => expect_mapping item "scope.resource_selectors[]") items;
  mode ← expect_string (dget data "mode") "scope.mode";
  single_use ← expect_bool (dget data "single_use") "scope.single_use";
  parameter_constraints ← py_dict (dget_default data "parameter_constraints" (JDict []));
  Ok (mkScopeSpec mode capabilities single_use selectors parameter_constraints).

(** [if t: payload[k] = list(t)] *)
Abbreviation list_item k l := (opt_item (py_truthy (JList l)) k (JList l)).

Definition ScopeSpec_to_dict (s : ScopeSpec) : dict :=
  [("mode", JStr (sc_mode s)); ("capabilities", JList (map JStr (sc_capabilities s)));
   ("single_use", JBool (sc_single_use s))] ++
  list_item "resource_selectors" (map JDict (sc_resource_selectors s)) ++
  dict_item "parameter_constraints" (sc_parameter_constraints s).

Record ActionHashSpec := mkActionHashSpec { ah_algorithm : string; ah_canonicalization : string; ah_value : string }.
#[global] Instance ActionHashSpec_eq_dec : EqDecision ActionHashSpec.
Proof. solve_decision. Defined.

Definition ActionHashSpec_from_dict (field_name : string) (raw : json) : py ActionHashSpec :=
  data ← expect_mapping raw field_name;
  algorithm ← expect_string (dget data "algorithm") (field_name +:+ ".algorithm");
  canonicalization ← expect_string (dget data "canonicalization") (field_name +:+ ".canonicalization");
  value ← expect_string (dget data "value") (field_name +:+ ".value");
  Ok (mkActionHashSpec algorithm canonicalization value).

Definition ActionHashSpec_to_dict (h : ActionHashSpec) : dict :=
  [("algorithm", JStr (ah_algorithm h)); ("canonicalization", JStr (ah_canonicalization h)); ("value", JStr (ah_value h))].

Record DigestSpec := mkDigestSpec { dg_algorithm : string; dg_canonicalization : string; dg_value : string }.
#[global] Instance DigestSpec_eq_dec : EqDecision DigestSpec.
Proof. solve_decision. Defined.

Definition DigestSpec_from_dict (field_name : string) (raw : json) : py DigestSpec :=
  data ← expect_mapping raw field_name;
  algorithm ← expect_string (dget data "algorithm") (field_name +:+ ".algorithm");
  canonicalization ← expect_string (dget data "canonicalization") (field_name +:+ ".canonicalization");
  value ← expect_string (dget data "value") (field_name +:+ ".value");
  Ok (mkDigestSpec algorithm canonicalization value).

Definition DigestSpec_to_dict (h : DigestSpec) : dict :=
  [("algorithm", JStr (dg_algorithm h)); ("canonicalization", JStr (dg_canonicalization h)); ("value", JStr (dg_value h))].

Record SignatureSpec := mkSignatureSpec {
  sig_algorithm : string; sig_key_id : string; sig_encoding : string; sig_value : string
}.
#[global] Instance SignatureSpec_eq_dec : EqDecision SignatureSpec.
Proof. solve_decision. Defined.

Definition SignatureSpec_from_dict (raw : json) : py SignatureSpec :=
  data ← expect_mapping raw "signature";
  algorithm ← expect_string (dget data "algorithm") "signature.algorithm";
  key_id ← expect_string (dget data "key_id") "signature.key_id";
  encoding ← expect_string (dget data "encoding") "signature.encoding";
  value ← expect_string (dget data "value") "signature.value";
  Ok (mkSignatureSpec algorithm key_id encoding value).

Definition SignatureSpec_to_dict (s : SignatureSpec) : dict :=
  [("algorithm", JStr (sig_algorithm s)); ("key_id", JStr (sig_key_id s));
   ("encoding", JStr (sig_encoding s)); ("value", JStr (sig_value s))].

(** [F(raw) if raw else None] *)
Definition opt_from {A} (from : json -> py A) (raw : json) : py (option A) :=
  if py_truthy raw then a ← from raw; Ok (Some a) else Ok None.

(** [if x is not None: payload[k] = x.to_dict()] *)
Definition opt_to {A} (to : A -> dict) (k : string) (x : option A) : dict :=
  match x with Some a => [(k, JDict (to a))] | None => [] end.

Record CorrelationRef := mkCorrelationRef {
  cor_pccb_id : json; cor_escrow_id : json; cor_refusal_id : json; cor_receipt_id : json;
  cor_request_id : json; cor_action_hash : option ActionHashSpec;
  cor_execution_attempt_id : json; cor_protocol_version : json; cor_execution_mode : json;
  cor_verifier_identity : json; cor_target_digest : option ActionHashSpec
}.
#[global] Instance CorrelationRef_eq_dec : EqDecision CorrelationRef.
Proof. solve_decision. Defined.

Definition CorrelationRef_from_dict (raw : json) : py CorrelationRef :=
  data ← expect_mapping raw "correlation";
  action_hash ← opt_from (ActionHashSpec_from_dict "correlation.action_hash") (dget data "action_hash");
  target_digest ← opt_from (ActionHashSpec_from_dict "correlation.target_digest") (dget data "target_digest");
  Ok (mkCorrelationRef (dget data "pccb_id") (dget data "escrow_id") (dget data "refusal_id")
        (dget data "receipt_id") (dget data "request_id") action_hash (dget data "execution_attempt_id")
        (dget data "protocol_version") (dget data "execution_mode") (dget data "verifier_identity") target_digest).

Definition CorrelationRef_to_dict (c : CorrelationRef) : dict :=
  json_item "pccb_id" (cor_pccb_id c) ++
  json_item "escrow_id" (cor_escrow_id c) ++
  json_item "refusal_id" (cor_refusal_id c) ++
  json_item "receipt_id" (cor_receipt_id c) ++
  json_item "request_id" (cor_request_id c) ++
  opt_to ActionHashSpec_to_dict "action_hash" (cor_action_hash c) ++
  json_item "execution_attempt_id" (cor_execution_attempt_id c) ++
  json_item "protocol_version" (cor_protocol_version c) ++
  json_item "execution_mode" (cor_execution_mode c) ++
  json_item "verifier_identity" (cor_verifier_identity c) ++
  opt_to ActionHashSpec_to_dict "target_digest" (cor_target_digest c).

Definition Violation_from_dict (raw : json) : py Violation :=
  data ← expect_mapping raw "violation";
  code ← expect_string (dget data "code") "violation.code";
  message ← expect_string (dget data "message") "violation.message";
  Ok (mkViolation code message (dget data "field_path") (dget data "expected") (dget data "observed")).

Definition Violation_to_dict (v : Violation) : dict :=
  [("code", JStr (viol_code v)); ("message", JStr (viol_message v))] ++
  json_item "field_path" (viol_field_path v) ++
  json_item "expected" (viol_expected v) ++
  json_item "observed" (viol_observed v).

(** ** Artifacts *)
Record ActionIntent := mkActionIntent {
  in_intent_id : string; in_issued_at : datetime; in_expires_at : datetime;
  in_tenant : TenantRef; in_requester : PartyRef; in_action : ActionSpec; in_target : TargetRef;
  in_idempotency_key : json; in_justification : json; in_context : dict;
  in_evidence_refs : list EvidenceRef; in_metadata : dict; in_extensions : dict
}.
#[global] Instance ActionIntent_eq_dec : EqDecision ActionIntent.
Proof. solve_decision. Defined.

Definition ActionIntent_from_dict (raw : json) : py ActionIntent :=
  data ← expect_mapping raw "action_intent";
  _ ← expect_contract data "action_intent";
  items ← py_iter (dget_default data "evidence_refs" (JList []));
  evidence_refs ← res_mapM EvidenceRef_from_dict items;
  intent_id ← expect_string (dget data "intent_id") "intent_id";
  issued_at ← parse_timestamp (dget data "issued_at") "issued_at";
  expires_at ← parse_timestamp (dget data "expires_at") "expires_at";
  tenant ← TenantRef_from_dict (dget data "tenant");
  requester ← PartyRef_from_dict "requester" (dget data "requester");
  action ← ActionSpec_from_dict (dget data "action");
  target ← TargetRef_from_dict (dget data "target");
  context ← py_dict (dget_default data "context" (JDict []));
  metadata ← py_dict (dget_default data "metadata" (JDict []));
  extensions ← py_dict (dget_default data "extensions" (JDict []));
  Ok (mkActionIntent intent_id issued_at expires_at tenant requester action target
        (dget data "idempotency_key") (dget data "justification") context evidence_refs metadata extensions).

Definition ActionIntent_to_dict (i : ActionIntent) : dict :=
  [("contract", contract_header "action_intent");
   ("intent_id", JStr (in_intent_id i));
   ("issued_at", JStr (format_timestamp (in_issued_at i)));
   ("expires_at", JStr (format_timestamp (in_expires_at i)));
   ("tenant", JDict (TenantRef_to_dict (in_tenant i)));
   ("requester", JDict (PartyRef_to_dict (in_requester i)));
   ("action", JDict (ActionSpec_to_dict (in_action i)));
   ("target", JDict (TargetRef_to_dict (in_target i)))] ++
  json_item "idempotency_key" (in_idempotency_key i) ++
  json_item "justification" (in_justification i) ++
  dict_item "context" (in_context i) ++
  list_item "evidence_refs" (map (fun e => JDict (EvidenceRef_to_dict e)) (in_evidence_refs i)) ++
  dict_item "metadata" (in_metadata i) ++
  dict_item "extensions" (in_extensions i).

Record PCCB := mkPCCB {
  pc_pccb_id : string; pc_issued_at : datetime; pc_not_before : datetime; pc_expires_at : datetime;
  pc_issuer : PartyRef; pc_subject : PartyRef; pc_tenant : TenantRef; pc_audience : AudienceRef;
  pc_action : ActionSpec; pc_target : TargetRef; pc_scope : ScopeSpec; pc_nonce : string;
  pc_action_hash : ActionHashSpec; pc_signature : SignatureSpec;
  pc_intent_id : json; pc_escrow_id : json; pc_extensions : dict
}.
#[global] Instance PCCB_eq_dec : EqDecision PCCB.
Proof. solve_decision. Defined.

Definition PCCB_from_dict (raw : json) : py PCCB :=
  data ← expect_mapping raw "pccb";
  _ ← expect_contract data "pccb";
  let escrow_reference := if py_truthy (dget data "escrow_reference") then dget data "escrow_reference" else JDict [] in
  pccb_id ← expect_string (dget data "pccb_id") "pccb_id";
  issued_at ← parse_timestamp (dget data "issued_at") "issued_at";
  not_before ← parse_timestamp (dget data "not_before") "not_before";
  expires_at ← parse_timestamp (dget data "expires_at") "expires_at";
  issuer ← PartyRef_from_dict "issuer" (dget data "issuer");
  subject ← PartyRef_from_dict "subject" (dget data "subject");
  tenant ← TenantRef_from_dict (dget data "tenant");
  audience ← AudienceRef_from_dict "audience" (dget data "audience");
  action ← ActionSpec_from_dict (dget data "action");
  target ← TargetRef_from_dict (dget data "target");
  scope ← ScopeSpec_from_dict (dget data "scope");
  nonce ← expect_string (dget data "nonce") "nonce";
  action_hash ← ActionHashSpec_from_dict "action_hash" (dget data "action_hash");
  signature ← SignatureSpec_from_dict (dget data "signature");
  escrow_id ← match escrow_reference with
              | JDict e => Ok (dget e "escrow_id")
              | _ => Err (AttributeError "get")
              end;
  extensions ← py_dict (dget_default data "extensions" (JDict []));
  Ok (mkPCCB pccb_id issued_at not_before expires_at issuer subject tenant audience action target scope
        nonce action_hash signature (dget data "intent_id") escrow_id extensions).

Definition unsigned_payload (p : PCCB) : dict :=
  [("contract", contract_header "pccb");
   ("pccb_id", JStr (pc_pccb_id p));
   ("issued_at", JStr (format_timestamp (pc_issued_at p)));
   ("not_before", JStr (format_timestamp (pc_not_before p)));
   ("expires_at", JStr (format_timestamp (pc_expires_at p)));
   ("issuer", JDict (PartyRef_to_dict (pc_issuer p)));
   ("subject", JDict (PartyRef_to_dict (pc_subject p)));
   ("tenant", JDict (TenantRef_to_dict (pc_tenant p)));
   ("audience", JDict (AudienceRef_to_dict (pc_audience p)));
   ("action", JDict (ActionSpec_to_dict (pc_action p)));
   ("target", JDict (TargetRef_to_dict (pc_target p)));
   ("scope", JDict (ScopeSpec_to_dict (pc_scope p)));
   ("nonce", JStr (pc_nonce p));
   ("action_hash", JDict (ActionHashSpec_to_dict (pc_action_hash p)))] ++
  json_item "intent_id" (pc_intent_id p) ++
  opt_item (not_none (pc_escrow_id p)) "escrow_reference"
    (JDict [("escrow_id", pc_escrow_id p); ("single_use", JBool (sc_single_use (pc_scope p)))]) ++
  dict_item "extensions" (pc_extensions p).

Definition PCCB_to_dict (p : PCCB) : dict :=
  unsigned_payload p ++ [("signature", JDict (SignatureSpec_to_dict (pc_signature p)))].

Record Receipt := mkReceipt {
  rc_receipt_id : string; rc_intent_id : string; rc_occurred_at : datetime; rc_outcome : string;
  rc_tenant : TenantRef; rc_subject : PartyRef; rc_action : ActionSpec; rc_target : TargetRef;
  rc_summary : string; rc_phase : json; rc_correlation : option CorrelationRef;
  rc_reason_codes : list string; rc_follow_up : dict; rc_side_effects : dict;
  rc_details : dict; rc_metadata : dict; rc_extensions : dict
}.
#[global] Instance Receipt_eq_dec : EqDecision Receipt.
Proof. solve_decision. Defined.

(** [data.get(k, [])], refused when it is not a list. *)
Definition expect_list (data : dict) (k : string) : py (list json) :=
  match dget_default data k (JList []) with
  | JList l => Ok l
  | _ => Err (ValueError (k +:+ " must be an array when provided"))
  end.

Definition Receipt_from_dict (raw : json) : py Receipt :=
  data ← expect_mapping raw "receipt";
  _ ← expect_contract data "receipt";
  reason_codes_raw ← expect_list data "reason_codes";
  receipt_id ← expect_string (dget data "receipt_id") "receipt_id";
  intent_id ← expect_string (dget data "intent_id") "intent_id";
  occurred_at ← parse_timestamp (dget data "occurred_at") "occurred_at";
  outcome ← expect_string (dget data "outcome") "outcome";
  tenant ← TenantRef_from_dict (dget data "tenant");
  subject ← PartyRef_from_dict "subject" (dget data "subject");
  action ← ActionSpec_from_dict (dget data "action");
  target ← TargetRef_from_dict (dget data "target");
  correlation ← opt_from CorrelationRef_from_dict (dget data "correlation");
  summary ← expect_string (dget data "summary") "summary";
  reason_codes ← res_mapM (fun item => expect_string item "reason_codes[]") reason_codes_raw;
  follow_up ← py_dict (dget_default data "follow_up" (JDict []));
  side_effects ← py_dict (dget_default data "side_effects" (JDict []));
  details ← py_dict (dget_default data "details" (JDict []));
  metadata ← py_dict (dget_default data "metadata" (JDict []));
  extensions ← py_dict (dget_default data "extensions" (JDict []));
  Ok (mkReceipt receipt_id intent_id occurred_at outcome tenant subject action target summary
        (dget data "phase") correlation reason_codes follow_up side_effects details metadata extensions).

(** [if c is not None and c.to_dict(): payload["correlation"] = c.to_dict()] *)
Definition correlation_item (c : option CorrelationRef) : dict :=
  match c with Some c => dict_item "correlation" (CorrelationRef_to_dict c) | None => [] end.

Definition Receipt_to_dict (r : Receipt) : dict :=
  [("contract", contract_header "receipt");
   ("receipt_id", JStr (rc_receipt_id r));
   ("intent_id", JStr (rc_intent_id r));
   ("occurred_at", JStr (format_timestamp (rc_occurred_at r)));
   ("outcome", JStr (rc_outcome r));
   ("tenant", JDict (TenantRef_to_dict (rc_tenant r)));
   ("subject", JDict (PartyRef_to_dict (rc_subject r)));
   ("action", JDict (ActionSpec_to_dict (rc_action r)));
   ("target", JDict (TargetRef_to_dict (rc_target r)));
   ("summary", JStr (rc_summary r))] ++
  json_item "phase" (rc_phase r) ++
  correlation_item (rc_correlation r) ++
  list_item "reason_codes" (map JStr (rc_reason_codes r)) ++
  dict_item "follow_up" (rc_follow_up r) ++
  dict_item "side_effects" (rc_side_effects r) ++
  dict_item "details" (rc_details r) ++
  dict_item "metadata" (rc_metadata r) ++
  dict_item "extensions" (rc_extensions r).

Record Refusal := mkRefusal {
  rf_refusal_id : string; rf_category : string; rf_reason_code : string; rf_message : string;
  rf_retryable : bool; rf_refused_at : datetime; rf_intent_id : json;
  rf_tenant : option TenantRef; rf_subject : option PartyRef; rf_audience : option AudienceRef;
  rf_action : option ActionSpec; rf_target : option TargetRef; rf_correlation : option CorrelationRef;
  rf_rule_refs : list string; rf_violations : list Violation; rf_details : dict; rf_extensions : dict
}.
#[global] Instance Refusal_eq_dec : EqDecision Refusal.
Proof. solve_decision. Defined.

(** [Refusal.__init__]: [reason_code] or its deprecated alias [refusal_code]. *)
Definition Refusal_init (refusal_id category : string) (reason_code message : option string)
    (retryable : option bool) (refused_at : option datetime) (intent_id : json)
    (tenant : option TenantRef) (subject : option PartyRef) (audience : option AudienceRef)
    (action : option ActionSpec) (target : option TargetRef) (correlation : option CorrelationRef)
    (rule_refs : list string) (violations : list Violation) (details extensions : option dict)
    (refusal_code : option string) : py Refusal :=
  if match reason_code, refusal_code with Some a, Some b => negb (String.eqb a b) | _, _ => false end
  then Err (ValueError "reason_code and refusal_code must match when both are provided")
  else
    match (match reason_code with Some a => Some a | None => refusal_code end) with
    | None => Err (TypeError "Refusal requires reason_code")
    | Some code =>
        match message, retryable, refused_at with
        | None, _, _ => Err (TypeError "Refusal requires message")
        | Some _, None, _ => Err (TypeError "Refusal requires retryable")
        | Some _, Some _, None => Err (TypeError "Refusal requires refused_at")
        | Some message, Some retryable, Some refused_at =>
            Ok (mkRefusal refusal_id category code message retryable refused_at intent_id tenant subject
                  audience action target correlation rule_refs violations (default [] details) (default [] extensions))
        end
    end.

Definition Refusal_from_dict (raw : json) : py Refusal :=
  data ← expect_mapping raw "refusal";
  _ ← expect_contract data "refusal";
  rule_refs_raw ← expect_list data "rule_refs";
  violations_raw ← expect_list data "violations";
  let reason_code_raw := dget data "reason_code" in
  let legacy_refusal_code_raw := dget data "refusal_code" in
  if not_none reason_code_raw && not_none legacy_refusal_code_raw && negb (py_eqb reason_code_raw legacy_refusal_code_raw)
  then Err (ValueError "reason_code and refusal_code must match when both are provided")
  else
  let reason_code := if not_none reason_code_raw then reason_code_raw else legacy_refusal_code_raw in
  refusal_id ← expect_string (dget data "refusal_id") "refusal_id";
  category ← expect_string (dget data "category") "category";
  reason_code ← expect_string reason_code "reason_code";
  message ← expect_string (dget data "message") "message";
  retryable ← expect_bool (dget data "retryable") "retryable";
  refused_at ← parse_timestamp (dget data "refused_at") "refused_at";
  tenant ← opt_from TenantRef_from_dict (dget data "tenant");
  subject ← opt_from (PartyRef_from_dict "subject") (dget data "subject");
  audience ← opt_from (AudienceRef_from_dict "audience") (dget data "audience");
  action ← opt_from ActionSpec_from_dict (dget data "action");
  target ← opt_from TargetRef_from_dict (dget data "target");
  correlation ← opt_from CorrelationRef_from_dict (dget data "correlation");
  rule_refs ← res_mapM (fun item => expect_string item "rule_refs[]") rule_refs_raw;
  violations ← res_mapM Violation_from_dict violations_raw;
  details ← py_dict (dget_default data "details" (JDict []));
  extensions ← py_dict (dget_default data "extensions" (JDict []));
  Refusal_init refusal_id category (Some reason_code) (Some message) (Some retryable) (Some refused_at)
    (dget data "intent_id") tenant subject audience action target correlation rule_refs violations
    (Some details) (Some extensions) None.

Definition Refusal_to_dict (r : Refusal) : dict :=
  [("contract", contract_header "refusal");
   ("refusal_id", JStr (rf_refusal_id r));
   ("category", JStr (rf_category r));
   ("reason_code", JStr (rf_reason_code r));
   ("message", JStr (rf_message r));
   ("retryable", JBool (rf_retryable r));
   ("refused_at", JStr (format_timestamp (rf_refused_at r)))] ++
  json_item "intent_id" (rf_intent_id r) ++
  opt_to TenantRef_to_dict "tenant" (rf_tenant r) ++
  opt_to PartyRef_to_dict "subject" (rf_subject r) ++
  opt_to AudienceRef_to_dict "audience" (rf_audience r) ++
  opt_to ActionSpec_to_dict "action" (rf_action r) ++
  opt_to TargetRef_to_dict "target" (rf_target r) ++
  correlation_item (rf_correlation r) ++
  list_item "rule_refs" (map JStr (rf_rule_refs r)) ++
  list_item "violations" (map (fun v => JDict (Violation_to_dict v)) (rf_violations r)) ++
  dict_item "details" (rf_details r) ++
  dict_item "extensions" (rf_extensions r).

Record ExecutionAnchor := mkExecutionAnchor {
  ea_published_at : datetime; ea_outcome : string; ea_action_hash : ActionHashSpec;
  ea_pccb_digest : DigestSpec; ea_receipt_digest : option DigestSpec; ea_refusal_digest : option DigestSpec;
  ea_metadata : dict
}.
#[global] Instance ExecutionAnchor_eq_dec : EqDecision ExecutionAnchor.
Proof. solve_decision. Defined.

(** One item of the metadata, checked by the constructor and by [from_dict]. *)
Definition check_metadata_item (kv : string * json) : py (string * json) :=
  if str_truthy kv.1 then v ← expect_json_scalar kv.2 ("metadata." +:+ kv.1); Ok (kv.1, v)
  else Err (ValueError "metadata keys must be non-empty strings").

(** [ExecutionAnchor.__post_init__] *)
Definition ExecutionAnchor_post_init (a : ExecutionAnchor) : py ExecutionAnchor :=
  let executed := String.eqb (ea_outcome a) "executed" in
  let refused := String.eqb (ea_outcome a) "refused" in
  let has {A} (x : option A) := match x with Some _ => true | None => false end in
  if negb (executed || refused) then Err (ValueError "outcome must be 'executed' or 'refused'")
  else if executed && negb (has (ea_receipt_digest a))
  then Err (ValueError "receipt_digest is required when outcome is 'executed'")
  else if executed && has (ea_refusal_digest a)
  then Err (ValueError "refusal_digest must not be set when outcome is 'executed'")
  else if refused && negb (has (ea_refusal_digest a))
  then Err (ValueError "refusal_digest is required when outcome is 'refused'")
  else if refused && has (ea_receipt_digest a)
  then Err (ValueError "receipt_digest must not be set when outcome is 'refused'")
  else _ ← res_mapM check_metadata_item (ea_metadata a); Ok a.

Definition ExecutionAnchor_from_dict (raw : json) : py ExecutionAnchor :=
  data ← expect_mapping raw "execution_anchor";
  _ ← expect_contract data "execution_anchor";
  let metadata_raw := dget_default data "metadata" (JDict []) in
  metadata_mapping ← (if py_truthy metadata_raw then expect_mapping metadata_raw "metadata" else Ok []);
  metadata ← res_mapM (fun kv => match kv with (key, value) =>
                 k ← expect_string (JStr key) "metadata key";
                 v ← expect_json_scalar value ("metadata." +:+ key); Ok (k, v) end) metadata_mapping;
  published_at ← parse_timestamp (dget data "published_at") "published_at";
  outcome ← expect_string (dget data "outcome") "outcome";
  action_hash ← ActionHashSpec_from_dict "action_hash" (dget data "action_hash");
  pccb_digest ← DigestSpec_from_dict "pccb_digest" (dget data "pccb_digest");
  receipt_digest ← opt_from (DigestSpec_from_dict "receipt_digest") (dget data "receipt_digest");
  refusal_digest ← opt_from (DigestSpec_from_dict "refusal_digest") (dget data "refusal_digest");
  ExecutionAnchor_post_init
    (mkExecutionAnchor published_at outcome action_hash pccb_digest receipt_digest refusal_digest metadata).

Definition ExecutionAnchor_to_dict (a : ExecutionAnchor) : dict :=
  [("contract", contract_header "execution_anchor");
   ("published_at", JStr (format_timestamp (ea_published_at a)));
   ("outcome", JStr (ea_outcome a));
   ("action_hash", JDict (ActionHashSpec_to_dict (ea_action_hash a)));
   ("pccb_digest", JDict (DigestSpec_to_dict (ea_pccb_digest a)))] ++
  opt_to DigestSpec_to_dict "receipt_digest" (ea_receipt_digest a) ++
  opt_to DigestSpec_to_dict "refusal_digest" (ea_refusal_digest a) ++
  dict_item "metadata" (ea_metadata a).

(** ** Looking up what [to_dict] wrote *)
Lemma assoc_app {A} k (a b : list (string * A)) :
  assoc k (a ++ b) = match assoc k a with Some v => Some v | None => assoc k b end.
Proof. induction a as [|[k' v] a IH]; simpl; [done|]. by destruct (String.eqb k k'). Qed.

Lemma assoc_opt_item k c k' v : assoc k (opt_item c k' v) = if String.eqb k k' && c then Some v else None.
Proof. destruct c; simpl; by destruct (String.eqb k k'). Qed.

Lemma assoc_opt_to {A} k (to : A -> dict) k' x :
  assoc k (opt_to to k' x) = if String.eqb k k' then (fun a => JDict (to a)) <$> x else None.
Proof. destruct x; simpl; by destruct (String.eqb k k'). Qed.

Lemma assoc_correlation_item k c :
  assoc k (correlation_item c) =
  if String.eqb k "correlation"
  then match c with Some c => if dict_truthy (CorrelationRef_to_dict c) then Some (JDict (CorrelationRef_to_dict c)) else None
       | None => None end
  else None.
Proof. destruct c as [c|]; unfold correlation_item; [rewrite assoc_opt_item|]; by destruct (String.eqb k "correlation"). Qed.

Lemma option_eta {A} (o : option A) : match o with Some v => Some v | None => None end = o.
Proof. by destruct o. Qed.

(** An optional field is read back as it was written or omitted. *)
Lemma get_json_item v : match (if not_none v then Some v else None) with Some v => v | None => JNull end = v.
Proof. by destruct v. Qed.

Lemma get_dict_item d :
  py_dict match (if dict_truthy d then Some (JDict d) else None) with Some v => v | None => JDict [] end = Ok d.
Proof. by destruct d. Qed.

Lemma get_list_item l :
  match (if py_truthy (JList l) then Some (JList l) else None) with Some v => v | None => JList [] end = JList l.
Proof. by destruct l. Qed.

Lemma expect_string_Ok s f : str_truthy s = true -> expect_string (JStr s) f = Ok s.
Proof. simpl. by intros ->. Qed.

Lemma expect_string_inv j f s : expect_string j f = Ok s <-> j = JStr s /\ str_truthy s = true.
Proof.
  destruct j as [| | | |s'| |]; simpl; try (split; [done|intros [? _]; done]).
  destruct (str_truthy s') eqn:?; split; [by intros [= ->]|by intros [[= ->] _]|done|intros [[= ->] ?]; congruence].
Qed.

Lemma res_mapM_roundtrip {A B} (from : A -> py B) (to : B -> A) (wf : B -> bool) l :
  (forall b, wf b = true -> from (to b) = Ok b) -> forallb wf l = true -> res_mapM from (map to l) = Ok l.
Proof.
  intros Hrt. induction l as [|b l IH]; simpl; [done|]. intros [Hb Hl]%andb_true_iff.
  by rewrite Hrt, IH.
Qed.

Lemma opt_from_to {A} (to : A -> dict) (from : json -> py A) (wf : A -> bool) (x : option A)
  {H : RoundTrip A to from wf} :
  match x with Some a => wf a && dict_truthy (to a) | None => true end = true ->
  opt_from from match (fun a => JDict (to a)) <$> x with Some v => v | None => JNull end = Ok x.
Proof.
  destruct x as [a|]; [|done]. intros [Hw Ht]%andb_true_iff. simpl. unfold opt_from.
  assert (py_truthy (JDict (to a)) = true) as -> by (by destruct (to a)). by rewrite roundtrip.
Qed.

Lemma expect_contract_header d name :
  assoc "contract" d = Some (contract_header name) -> expect_contract d name = Ok tt.
Proof.
  intros Hc. unfold expect_contract, dget. rewrite Hc. simpl. by rewrite String.eqb_refl.
Qed.

(** The well-formedness bool of a record is a conjunction over its fields. *)
Ltac split_andb := repeat match goal with H : _ && _ = true |- _ => apply andb_true_iff in H as [? ?] end.

(** Evaluate the lookups of a [from_dict] applied to what [to_dict] wrote, one key
    at a time. *)
Ltac eval_assoc D :=
  try match D with ?to ?a => unfold to end; try unfold unsigned_payload;
  rewrite ?assoc_app; simpl;
  rewrite ?assoc_opt_item, ?assoc_opt_to, ?assoc_correlation_item; simpl; rewrite ?option_eta; reflexivity.
Ltac eval_lookup :=
  match goal with
  | |- context [expect_contract ?D ?name] =>
      rewrite (expect_contract_header D name) by (eval_assoc D)
  | |- context [assoc ?k ?D] =>
      let H := fresh "Hlookup" in
      eassert (assoc k D = _) as H; [ eval_assoc D | rewrite H; clear H ]
  end.
Ltac eval_lookups :=
  cbn [expect_mapping mbind res_bind]; unfold dget, dget_default;
  repeat eval_lookup; cbn [expect_mapping mbind res_bind].
Ltac read_back :=
  repeat first
    [ rewrite get_json_item | rewrite get_dict_item | rewrite get_list_item
    | rewrite parse_format by assumption
    | rewrite expect_string_Ok by assumption
    | rewrite roundtrip by assumption
    | progress cbn [mbind res_bind py_iter] ].

#[global] Arguments parse_timestamp : simpl never.
#[global] Arguments format_timestamp : simpl never.
#[global] Arguments expect_string : simpl never.
#[global] Arguments py_dict : simpl never.
#[global] Arguments not_none : simpl never.
#[global] Arguments dict_truthy : simpl never.
#[global] Arguments py_truthy : simpl never.

Definition TenantRef_wf (t : TenantRef) : bool := str_truthy (tenant_id t).
Definition PartyRef_wf (p : PartyRef) : bool := str_truthy (party_type p) && str_truthy (party_id p).
Definition AudienceRef_wf (a : AudienceRef) : bool := str_truthy (aud_type a) && str_truthy (aud_id a).
Definition ActionSpec_wf (a : ActionSpec) : bool := str_truthy (act_name a) && str_truthy (act_capability a).
Definition TargetRef_wf (t : TargetRef) : bool := str_truthy (tgt_resource_type t) && str_truthy (tgt_resource_id t).
Definition EvidenceRef_wf (e : EvidenceRef) : bool := str_truthy (ev_type e) && str_truthy (ev_value e).
Definition ActionHashSpec_wf (h : ActionHashSpec) : bool :=
  str_truthy (ah_algorithm h) && str_truthy (ah_canonicalization h) && str_truthy (ah_value h).
Definition DigestSpec_wf (h : DigestSpec) : bool :=
  str_truthy (dg_algorithm h) && str_truthy (dg_canonicalization h) && str_truthy (dg_value h).
Definition SignatureSpec_wf (s : SignatureSpec) : bool :=
  str_truthy (sig_algorithm s) && str_truthy (sig_key_id s) && str_truthy (sig_encoding s) && str_truthy (sig_value s).
Definition Violation_wf (v : Violation) : bool := str_truthy (viol_code v) && str_truthy (viol_message v).

(** The round trip of a record: open its fields, evaluate the lookups, read each
    field back. *)
Ltac roundtrip_tac wf from to :=
  intros a Hw; destruct a; unfold wf in Hw; simpl in Hw; split_andb;
  unfold from; eval_lookups; read_back; try done.

#[global] Instance TenantRef_roundtrip : RoundTrip _ TenantRef_to_dict TenantRef_from_dict TenantRef_wf.
Proof. roundtrip_tac TenantRef_wf TenantRef_from_dict TenantRef_to_dict. Qed.

#[global] Instance PartyRef_roundtrip f : RoundTrip _ PartyRef_to_dict (PartyRef_from_dict f) PartyRef_wf.
Proof. roundtrip_tac PartyRef_wf PartyRef_from_dict PartyRef_to_dict. Qed.

#[global] Instance AudienceRef_roundtrip f : RoundTrip _ AudienceRef_to_dict (AudienceRef_from_dict f) AudienceRef_wf.
Proof. roundtrip_tac AudienceRef_wf AudienceRef_from_dict AudienceRef_to_dict. Qed.

#[global] Instance ActionSpec_roundtrip : RoundTrip _ ActionSpec_to_dict ActionSpec_from_dict ActionSpec_wf.
Proof. roundtrip_tac ActionSpec_wf ActionSpec_from_dict ActionSpec_to_dict. Qed.

#[global] Instance TargetRef_roundtrip : RoundTrip _ TargetRef_to_dict TargetRef_from_dict TargetRef_wf.
Proof. roundtrip_tac TargetRef_wf TargetRef_from_dict TargetRef_to_dict. Qed.

#[global] Instance EvidenceRef_roundtrip : RoundTrip _ EvidenceRef_to_dict EvidenceRef_from_dict EvidenceRef_wf.
Proof. roundtrip_tac EvidenceRef_wf EvidenceRef_from_dict EvidenceRef_to_dict. Qed.

#[global] Instance ActionHashSpec_roundtrip f :
  RoundTrip _ ActionHashSpec_to_dict (ActionHashSpec_from_dict f) ActionHashSpec_wf.
Proof. roundtrip_tac ActionHashSpec_wf ActionHashSpec_from_dict ActionHashSpec_to_dict. Qed.

#[global] Instance DigestSpec_roundtrip f : RoundTrip _ DigestSpec_to_dict (DigestSpec_from_dict f) DigestSpec_wf.
Proof. roundtrip_tac DigestSpec_wf DigestSpec_from_dict DigestSpec_to_dict. Qed.

#[global] Instance SignatureSpec_roundtrip : RoundTrip _ SignatureSpec_to_dict SignatureSpec_from_dict SignatureSpec_wf.
Proof. roundtrip_tac SignatureSpec_wf SignatureSpec_from_dict SignatureSpec_to_dict. Qed.

#[global] Instance Violation_roundtrip : RoundTrip _ Violation_to_dict Violation_from_dict Violation_wf.
Proof. roundtrip_tac Violation_wf Violation_from_dict Violation_to_dict. Qed.

Definition ScopeSpec_wf (s : ScopeSpec) : bool :=
  str_truthy (sc_mode s) && negb (bool_decide (sc_capabilities s = [])) && forallb str_truthy (sc_capabilities s).

Lemma expect_strings_Ok l f : forallb str_truthy l = true ->
  res_mapM (fun item => expect_string item f) (map JStr l) = Ok l.
Proof. apply res_mapM_roundtrip. intros b. apply expect_string_Ok. Qed.

Lemma expect_mappings_Ok l f : res_mapM (fun item => expect_mapping item f) (map JDict l) = Ok l.
Proof. apply (res_mapM_roundtrip _ _ (fun _ => true)); [done|]. by induction l. Qed.

#[global] Instance ScopeSpec_roundtrip : RoundTrip _ ScopeSpec_to_dict ScopeSpec_from_dict ScopeSpec_wf.
Proof.
  intros [mode caps su sels pcs] Hw. unfold ScopeSpec_wf in Hw. simpl in Hw. split_andb.
  unfold ScopeSpec_from_dict. eval_lookups.
  destruct caps as [|c caps]; [by rewrite bool_decide_true in H1|].
  change (map JStr (c :: caps)) with (JStr c :: map JStr caps). cbn [mbind res_bind].
  change (JStr c :: map JStr caps) with (map JStr (c :: caps)). rewrite expect_strings_Ok by done.
  read_back. rewrite expect_mappings_Ok. read_back. done.
Qed.

(** An optional part that is present prints a non-empty object. *)
Definition opt_wf {A} (wf : A -> bool) (x : option A) : bool := match x with Some a => wf a | None => true end.

Definition CorrelationRef_wf (c : CorrelationRef) : bool :=
  opt_wf ActionHashSpec_wf (cor_action_hash c) && opt_wf ActionHashSpec_wf (cor_target_digest c).

(** The optional-part lemma at each embedded class. *)
Class NonEmptyDict (A : Type) (to_dict : A -> dict) : Prop := nonempty_dict : forall a, dict_truthy (to_dict a) = true.
#[global] Instance TenantRef_nonempty : NonEmptyDict _ TenantRef_to_dict. Proof. by intros []. Qed.
#[global] Instance PartyRef_nonempty : NonEmptyDict _ PartyRef_to_dict. Proof. by intros []. Qed.
#[global] Instance AudienceRef_nonempty : NonEmptyDict _ AudienceRef_to_dict. Proof. by intros []. Qed.
#[global] Instance ActionSpec_nonempty : NonEmptyDict _ ActionSpec_to_dict. Proof. by intros []. Qed.
#[global] Instance TargetRef_nonempty : NonEmptyDict _ TargetRef_to_dict. Proof. by intros []. Qed.
#[global] Instance ActionHashSpec_nonempty : NonEmptyDict _ ActionHashSpec_to_dict. Proof. by intros []. Qed.
#[global] Instance DigestSpec_nonempty : NonEmptyDict _ DigestSpec_to_dict. Proof. by intros []. Qed.

Lemma opt_roundtrip {A} (to : A -> dict) (from : json -> py A) (wf : A -> bool) (x : option A)
  {H : RoundTrip A to from wf} {H' : NonEmptyDict A to} :
  opt_wf wf x = true ->
  opt_from from match (fun a => JDict (to a)) <$> x with Some v => v | None => JNull end = Ok x.
Proof.
  intros Hw. apply (opt_from_to to from wf x). destruct x as [a|]; [|done]. simpl in Hw. rewrite Hw. apply H'.
Qed.

Ltac read_back_opt :=
  repeat first [ erewrite opt_roundtrip by (eassumption || apply _) | progress read_back ].

#[global] Instance CorrelationRef_roundtrip : RoundTrip _ CorrelationRef_to_dict CorrelationRef_from_dict CorrelationRef_wf.
Proof.
  roundtrip_tac CorrelationRef_wf CorrelationRef_from_dict CorrelationRef_to_dict.
  read_back_opt. done.
Qed.

Definition ActionIntent_wf (i : ActionIntent) : Prop :=
  datetime_ok (in_issued_at i) /\ datetime_ok (in_expires_at i) /\
  str_truthy (in_intent_id i) && TenantRef_wf (in_tenant i) && PartyRef_wf (in_requester i) &&
  ActionSpec_wf (in_action i) && TargetRef_wf (in_target i) && forallb EvidenceRef_wf (in_evidence_refs i) = true.

Lemma evidence_refs_roundtrip l : forallb EvidenceRef_wf l = true ->
  res_mapM EvidenceRef_from_dict (map (fun e => JDict (EvidenceRef_to_dict e)) l) = Ok l.
Proof. apply (res_mapM_roundtrip _ (fun e => JDict (EvidenceRef_to_dict e))). intros b. apply EvidenceRef_roundtrip. Qed.

Lemma violations_roundtrip l : forallb Violation_wf l = true ->
  res_mapM Violation_from_dict (map (fun v => JDict (Violation_to_dict v)) l) = Ok l.
Proof. apply (res_mapM_roundtrip _ (fun e => JDict (Violation_to_dict e))). intros b. apply Violation_roundtrip. Qed.

Lemma ActionIntent_from_to i : ActionIntent_wf i -> ActionIntent_from_dict (JDict (ActionIntent_to_dict i)) = Ok i.
Proof.
  destruct i; unfold ActionIntent_wf; simpl; intros (Hi & He & Hw); split_andb.
  unfold ActionIntent_from_dict. eval_lookups. read_back.
  rewrite evidence_refs_roundtrip by done. read_back. done.
Qed.

Definition PCCB_wf (p : PCCB) : Prop :=
  datetime_ok (pc_issued_at p) /\ datetime_ok (pc_not_before p) /\ datetime_ok (pc_expires_at p) /\
  str_truthy (pc_pccb_id p) && PartyRef_wf (pc_issuer p) && PartyRef_wf (pc_subject p) &&
  TenantRef_wf (pc_tenant p) && AudienceRef_wf (pc_audience p) && ActionSpec_wf (pc_action p) &&
  TargetRef_wf (pc_target p) && ScopeSpec_wf (pc_scope p) && str_truthy (pc_nonce p) &&
  ActionHashSpec_wf (pc_action_hash p) && SignatureSpec_wf (pc_signature p) = true.

Lemma PCCB_from_to p : PCCB_wf p -> PCCB_from_dict (JDict (PCCB_to_dict p)) = Ok p.
Proof.
  destruct p; unfold PCCB_wf; simpl; intros (Hi & Hn & He & Hw); split_andb.
  unfold PCCB_from_dict. eval_lookups. read_back.
  destruct pc_escrow_id0; read_back; done.
Qed.

Definition Receipt_wf (r : Receipt) : Prop :=
  datetime_ok (rc_occurred_at r) /\
  str_truthy (rc_receipt_id r) && str_truthy (rc_intent_id r) && str_truthy (rc_outcome r) &&
  TenantRef_wf (rc_tenant r) && PartyRef_wf (rc_subject r) && ActionSpec_wf (rc_action r) &&
  TargetRef_wf (rc_target r) && str_truthy (rc_summary r) && forallb str_truthy (rc_reason_codes r) &&
  opt_wf (fun c => CorrelationRef_wf c && dict_truthy (CorrelationRef_to_dict c)) (rc_correlation r) = true.

Lemma correlation_roundtrip c :
  opt_wf (fun c => CorrelationRef_wf c && dict_truthy (CorrelationRef_to_dict c)) c = true ->
  opt_from CorrelationRef_from_dict
    match match c with
          | Some c => if dict_truthy (CorrelationRef_to_dict c) then Some (JDict (CorrelationRef_to_dict c)) else None
          | None => None end with Some v => v | None => JNull end = Ok c.
Proof.
  destruct c as [c|]; [|done]. simpl. intros [Hw Ht]%andb_true_iff. rewrite Ht.
  unfold opt_from. assert (py_truthy (JDict (CorrelationRef_to_dict c)) = true) as -> by done.
  by rewrite roundtrip.
Qed.

Lemma Receipt_from_to r : Receipt_wf r -> Receipt_from_dict (JDict (Receipt_to_dict r)) = Ok r.
Proof.
  destruct r; unfold Receipt_wf; simpl; intros (Ho & Hw); split_andb.
  unfold Receipt_from_dict, expect_list. eval_lookups. read_back.
  rewrite correlation_roundtrip by done. read_back. rewrite expect_strings_Ok by done. read_back. done.
Qed.

Definition Refusal_wf (r : Refusal) : Prop :=
  datetime_ok (rf_refused_at r) /\
  str_truthy (rf_refusal_id r) && str_truthy (rf_category r) && str_truthy (rf_reason_code r) &&
  str_truthy (rf_message r) && opt_wf TenantRef_wf (rf_tenant r) && opt_wf PartyRef_wf (rf_subject r) &&
  opt_wf AudienceRef_wf (rf_audience r) && opt_wf ActionSpec_wf (rf_action r) && opt_wf TargetRef_wf (rf_target r) &&
  opt_wf (fun c => CorrelationRef_wf c && dict_truthy (CorrelationRef_to_dict c)) (rf_correlation r) &&
  forallb str_truthy (rf_rule_refs r) && forallb Violation_wf (rf_violations r) = true.

Lemma Refusal_from_to r : Refusal_wf r -> Refusal_from_dict (JDict (Refusal_to_dict r)) = Ok r.
Proof.
  destruct r; unfold Refusal_wf; simpl; intros (Ho & Hw); split_andb.
  unfold Refusal_from_dict, expect_list. eval_lookups. read_back.
  change (not_none JNull) with false. rewrite andb_false_r. simpl. read_back_opt.
  rewrite correlation_roundtrip by done. read_back. rewrite expect_strings_Ok by done. read_back.
  rewrite violations_roundtrip by done. read_back. done.
Qed.

Definition ExecutionAnchor_wf (a : ExecutionAnchor) : Prop :=
  datetime_ok (ea_published_at a) /\
  str_truthy (ea_outcome a) && ActionHashSpec_wf (ea_action_hash a) && DigestSpec_wf (ea_pccb_digest a) &&
  opt_wf DigestSpec_wf (ea_receipt_digest a) && opt_wf DigestSpec_wf (ea_refusal_digest a) = true /\
  ExecutionAnchor_post_init a = Ok a.

Lemma ExecutionAnchor_metadata a : ExecutionAnchor_post_init a = Ok a ->
  res_mapM (fun kv => match kv with (key, value) =>
     k ← expect_string (JStr key) "metadata key";
     v ← expect_json_scalar value ("metadata." +:+ key); Ok (k, v) end) (ea_metadata a) = Ok (ea_metadata a).
Proof.
  unfold ExecutionAnchor_post_init. intros H. repeat (case_match; [discriminate H|]).
  apply bind_Ok in H as (m & Hm & _).
  generalize dependent m. generalize (ea_metadata a) as l. clear.
  induction l as [|[k v] l IH]; intros m Hm; simpl in *; [done|].
  apply bind_Ok in Hm as (kv & Hkv & Hm). apply bind_Ok in Hm as (m' & Hm & _).
  unfold check_metadata_item in Hkv. cbn [fst snd] in Hkv. destruct (str_truthy k) eqn:Hk; [|done].
  apply bind_Ok in Hkv as (v' & Hv & _).
  rewrite expect_string_Ok by done. cbn [mbind res_bind]. rewrite Hv. cbn [mbind res_bind]. rewrite (IH m') by done.
  simpl. by destruct v; simpl in Hv; simplify_eq.
Qed.

Lemma get_metadata_item (d : dict) :
  (if py_truthy match (if dict_truthy d then Some (JDict d) else None) with Some v => v | None => JDict [] end
   then expect_mapping match (if dict_truthy d then Some (JDict d) else None) with Some v => v | None => JDict [] end "metadata"
   else Ok []) = Ok d.
Proof. by destruct d. Qed.

Lemma ExecutionAnchor_from_to a : ExecutionAnchor_wf a ->
  ExecutionAnchor_from_dict (JDict (ExecutionAnchor_to_dict a)) = Ok a.
Proof.
  intros (Ht & Hw & Hp). pose proof (ExecutionAnchor_metadata a Hp) as Hm.
  destruct a; simpl in *; split_andb.
  unfold ExecutionAnchor_from_dict. eval_lookups. rewrite get_metadata_item. cbn [mbind res_bind].
  rewrite Hm. read_back_opt. done.
Qed.

(** ** What [from_dict] accepts is well formed *)
Ltac from_dict_inv H :=
  repeat match type of H with
  | _ ≫= _ = Ok _ =>
      let x := fresh "x" in let Hx := fresh "Hx" in apply bind_Ok in H as (x & Hx & H)
  end;
  try (injection H as <-);
  repeat match goal with
  | Hx : expect_string _ _ = Ok _ |- _ => apply expect_string_inv in Hx as [_ Hx]
  | Hx : parse_timestamp _ _ = Ok _ |- _ => apply parse_timestamp_ok in Hx
  end.

Lemma TenantRef_from_wf raw t : TenantRef_from_dict raw = Ok t -> TenantRef_wf t = true.
Proof. unfold TenantRef_from_dict. intros H. from_dict_inv H. done. Qed.
Lemma PartyRef_from_wf f raw p : PartyRef_from_dict f raw = Ok p -> PartyRef_wf p = true.
Proof. unfold PartyRef_from_dict, PartyRef_wf. intros H. from_dict_inv H. simpl. by apply andb_true_iff. Qed.
Lemma AudienceRef_from_wf f raw p : AudienceRef_from_dict f raw = Ok p -> AudienceRef_wf p = true.
Proof. unfold AudienceRef_from_dict, AudienceRef_wf. intros H. from_dict_inv H. simpl. by apply andb_true_iff. Qed.
Lemma ActionSpec_from_wf raw p : ActionSpec_from_dict raw = Ok p -> ActionSpec_wf p = true.
Proof. unfold ActionSpec_from_dict, ActionSpec_wf. intros H. from_dict_inv H. simpl. by apply andb_true_iff. Qed.
Lemma TargetRef_from_wf raw p : TargetRef_from_dict raw = Ok p -> TargetRef_wf p = true.
Proof. unfold TargetRef_from_dict, TargetRef_wf. intros H. from_dict_inv H. simpl. by apply andb_true_iff. Qed.
Lemma EvidenceRef_from_wf raw p : EvidenceRef_from_dict raw = Ok p -> EvidenceRef_wf p = true.
Proof. unfold EvidenceRef_from_dict, EvidenceRef_wf. intros H. from_dict_inv H. simpl. by apply andb_true_iff. Qed.
Lemma ActionHashSpec_from_wf f raw p : ActionHashSpec_from_dict f raw = Ok p -> ActionHashSpec_wf p = true.
Proof. unfold ActionHashSpec_from_dict, ActionHashSpec_wf. intros H. from_dict_inv H. simpl. by rewrite !andb_true_iff. Qed.
Lemma SignatureSpec_from_wf raw p : SignatureSpec_from_dict raw = Ok p -> SignatureSpec_wf p = true.
Proof. unfold SignatureSpec_from_dict, SignatureSpec_wf. intros H. from_dict_inv H. simpl. by rewrite !andb_true_iff. Qed.

Lemma res_mapM_forallb {E A B} (f : A -> res E B) (p : B -> bool) l bs :
  (forall a b, f a = Ok b -> p b = true) -> res_mapM f l = Ok bs -> forallb p bs = true.
Proof.
  intros Hf. revert bs. induction l as [|a l IH]; intros bs Hb; simpl in Hb; res_inv; simpl; [done|].
  apply andb_true_iff; split; [by eapply Hf|by apply IH].
Qed.

Lemma ScopeSpec_from_wf raw p : ScopeSpec_from_dict raw = Ok p -> ScopeSpec_wf p = true.
Proof.
  unfold ScopeSpec_from_dict, ScopeSpec_wf. intros H.
  apply bind_Ok in H as (data & _ & H). apply bind_Ok in H as (caps & Hc & H).
  apply bind_Ok in H as (cs & Hcs & H). from_dict_inv H. simpl.
  rewrite !andb_true_iff. split_and!; [done| |].
  - apply res_mapM_Ok in Hcs. case_match; try discriminate Hc. case_match; try discriminate Hc. simplify_eq.
    inversion Hcs; subst. by rewrite bool_decide_false.
  - eapply res_mapM_forallb; [|exact Hcs]. intros a b. by rewrite expect_string_inv; intros [].
Qed.

#[export] Hint Resolve TenantRef_from_wf PartyRef_from_wf AudienceRef_from_wf ActionSpec_from_wf TargetRef_from_wf
  EvidenceRef_from_wf ActionHashSpec_from_wf SignatureSpec_from_wf ScopeSpec_from_wf : kernel.

Lemma ActionIntent_from_wf raw i : ActionIntent_from_dict raw = Ok i -> ActionIntent_wf i.
Proof.
  unfold ActionIntent_from_dict, ActionIntent_wf. intros H. from_dict_inv H. simpl.
  rewrite !andb_true_iff. split_and!; eauto with kernel.
  eapply res_mapM_forallb; [|eassumption]. eauto with kernel.
Qed.

Lemma PCCB_from_wf raw p : PCCB_from_dict raw = Ok p -> PCCB_wf p.
Proof.
  unfold PCCB_from_dict, PCCB_wf. cbv zeta. intros H. from_dict_inv H. simpl.
  rewrite !andb_true_iff. split_and!; eauto with kernel.
Qed.

(** ** Properties *)

(** Whatever [ActionIntent.from_dict] and [PCCB.from_dict] accept prints, with
    [to_dict], to a document they read back to the same object. *)
Theorem request_artifacts_roundtrip (raw : json) :
  (forall i, ActionIntent_from_dict raw = Ok i -> ActionIntent_from_dict (JDict (ActionIntent_to_dict i)) = Ok i) /\
  (forall p, PCCB_from_dict raw = Ok p -> PCCB_from_dict (JDict (PCCB_to_dict p)) = Ok p).
Proof.
  split; intros x Hx.
  - eapply ActionIntent_from_to, ActionIntent_from_wf, Hx.
  - eapply PCCB_from_to, PCCB_from_wf, Hx.
Qed.

(** A well-formed Receipt, Refusal or ExecutionAnchor survives [to_dict]
    followed by [from_dict] unchanged. *)
Theorem outcome_artifacts_roundtrip (r : Receipt) (f : Refusal) (a : ExecutionAnchor) :
  (Receipt_wf r -> Receipt_from_dict (JDict (Receipt_to_dict r)) = Ok r) /\
  (Refusal_wf f -> Refusal_from_dict (JDict (Refusal_to_dict f)) = Ok f) /\
  (ExecutionAnchor_wf a -> ExecutionAnchor_from_dict (JDict (ExecutionAnchor_to_dict a)) = Ok a).
Proof. split_and!; [apply Receipt_from_to|apply Refusal_from_to|apply ExecutionAnchor_from_to]. Qed.
