(* ===== verification/Runtime.v ===== *)
(** * Runtime records and the execution state model

    [models/runtime.py]: the records the components exchange.
    [models/execution.py]: the published execution-state model, its transition
    table, [validate_execution_state_path], and the theorems that relate the
    validator to reachability in the transition relation. *)

From S2P Require Import Prelude Json Errors Timestamps Contracts.

(** ** [models/runtime.py] *)
Inductive PolicyOutcome := Allow | Deny | ApprovalRequired | NeedsEvidence.
#[global] Instance PolicyOutcome_eq_dec : EqDecision PolicyOutcome.
Proof. solve_decision. Defined.

Record DynamicContextInput := mkContext {
  cx_request_id : string;
  cx_audience : AudienceRef;
  cx_scope_capabilities : list string;
  cx_now : datetime;
  cx_facts : dict;
  cx_parameter_constraints : dict;
  cx_resource_selectors : list dict;
  cx_required_evidence_types : list string;
  cx_approver_types : list string;
  cx_max_ttl_seconds : option Z
}.

Record RuleEvaluation := mkRuleEvaluation {
  re_rule_id : string;
  re_outcome : PolicyOutcome;
  re_reason_code : string;
  re_summary : string;
  re_details : dict;
  re_required_evidence : list string;
  re_approver_types : list string
}.
#[global] Instance RuleEvaluation_eq_dec : EqDecision RuleEvaluation.
Proof. solve_decision. Defined.

Record PolicyDecision := mkPolicyDecision {
  pd_outcome : PolicyOutcome;
  pd_summary : string;
  pd_rule_evaluations : list RuleEvaluation;
  pd_reason_codes : list string;
  pd_required_evidence : list string;
  pd_approver_types : list string
}.
#[global] Instance PolicyDecision_eq_dec : EqDecision PolicyDecision.
Proof. solve_decision. Defined.

(** [PolicyDecision.allowed] *)
Definition allowed (d : PolicyDecision) : bool :=
  match pd_outcome d with Allow => true | _ => false end.

Record AdmissionResult := mkAdmissionResult {
  ar_intent : option ActionIntent;
  ar_decision : option PolicyDecision;
  ar_receipt : option Receipt;
  ar_refusal : option Refusal;
  ar_pccb : option PCCB;
  ar_escrow_id : option string
}.

Record ProtectedExecutionRequest := mkRequest {
  rq_intent : ActionIntent;
  rq_pccb : PCCB;
  rq_context : DynamicContextInput
}.

Record ExecutionResult := mkExecutionResult {
  er_receipt : option Receipt;
  er_refusal : option Refusal;
  er_payload : option dict
}.

(** ** [models/execution.py] *)
Inductive ExecutionState :=
| received | policy_allowed | proof_minted | escrow_issued | execution_attempted | provider_pending
| confirmed | refused | failed | ambiguous | replay_refused | expired | revoked.
#[global] Instance ExecutionState_eq_dec : EqDecision ExecutionState.
Proof. solve_decision. Defined.

Definition TERMINAL_EXECUTION_STATES : list ExecutionState :=
  [confirmed; refused; failed; replay_refused; expired; revoked].

Definition ALLOWED_EXECUTION_STATE_TRANSITIONS (s : ExecutionState) : list ExecutionState :=
  match s with
  | received => [policy_allowed; refused; expired; revoked]
  | policy_allowed => [proof_minted; refused; expired; revoked]
  | proof_minted => [escrow_issued; refused; expired; revoked]
  | escrow_issued => [execution_attempted; replay_refused; refused; expired; revoked]
  | execution_attempted => [provider_pending; confirmed; failed; ambiguous]
  | provider_pending => [confirmed; failed; ambiguous; expired; revoked]
  | ambiguous => [confirmed; failed]
  | confirmed | refused | failed | replay_refused | expired | revoked => []
  end.

Definition is_terminal_execution_state (s : ExecutionState) : bool :=
  bool_decide (s ∈ TERMINAL_EXECUTION_STATES).

Definition can_transition_execution_state (current nxt : ExecutionState) : bool :=
  bool_decide (nxt ∈ ALLOWED_EXECUTION_STATE_TRANSITIONS current).

Inductive path_error :=
| EmptyPath | WrongStart | TerminalTransition (current nxt : ExecutionState) | InvalidTransition (current nxt : ExecutionState).

(** The loop over consecutive pairs. *)
Fixpoint validate_steps (current : ExecutionState) (rest : list ExecutionState) : res path_error unit :=
  match rest with
  | [] => Ok tt
  | nxt :: rest =>
      if is_terminal_execution_state current then Err (TerminalTransition current nxt)
      else if negb (can_transition_execution_state current nxt) then Err (InvalidTransition current nxt)
      else validate_steps nxt rest
  end.

Definition validate_execution_state_path (states : list ExecutionState) : res path_error unit :=
  match states with
  | [] => Err EmptyPath
  | s :: rest => if bool_decide (s = received) then validate_steps s rest else Err WrongStart
  end.

(** The transition relation the table defines. *)
Definition state_step (s s' : ExecutionState) : Prop := s' ∈ ALLOWED_EXECUTION_STATE_TRANSITIONS s.

Lemma terminal_no_step s s' : is_terminal_execution_state s = true -> ~ state_step s s'.
Proof. destruct s; try discriminate; intros _; apply not_elem_of_nil. Qed.

Lemma terminal_iff s : is_terminal_execution_state s = true <-> ALLOWED_EXECUTION_STATE_TRANSITIONS s = [].
Proof. destruct s; vm_compute; split; congruence. Qed.

Lemma can_transition_iff s s' : can_transition_execution_state s s' = true <-> state_step s s'.
Proof. unfold can_transition_execution_state. apply bool_decide_eq_true. Qed.

(** Every step makes progress in this order, so no path has more than seven states. *)
Definition state_rank (s : ExecutionState) : nat :=
  match s with
  | received => 0 | policy_allowed => 1 | proof_minted => 2 | escrow_issued => 3
  | execution_attempted => 4 | provider_pending => 5 | ambiguous => 6 | _ => 7
  end.

Lemma state_step_rank s s' : state_step s s' -> state_rank s < state_rank s'.
Proof. unfold state_step. destruct s; simpl; rewrite ?elem_of_cons, ?elem_of_nil; intros H; destruct_or!; subst; simpl; try lia; done. Qed.

Lemma validate_steps_spec s rest s' :
  validate_steps s rest = Ok tt -> last (s :: rest) = Some s' ->
  rtc state_step s s' /\ length rest <= state_rank s' - state_rank s /\
  Forall (fun x => is_terminal_execution_state x = false) (removelast (s :: rest)).
Proof.
  revert s. induction rest as [|n rest IH]; intros s Hv Hl.
  - simpl in Hl. injection Hl as ->. split_and!; [done|simpl; lia|constructor].
  - simpl in Hv. destruct (is_terminal_execution_state s) eqn:Ht; [done|].
    destruct (can_transition_execution_state s n) eqn:Hc; [|done].
    apply can_transition_iff in Hc. destruct (IH n Hv Hl) as (Hr & Hlen & Hall).
    pose proof (state_step_rank _ _ Hc).
    assert (state_rank n <= state_rank s').
    { clear -Hr. induction Hr as [|x y z Hxy _ IH]; [lia|]. apply state_step_rank in Hxy. lia. }
    split_and!; [by eapply rtc_l|simpl; lia|]. by constructor.
Qed.

Lemma validate_steps_complete s s' : rtc state_step s s' ->
  exists rest, validate_steps s rest = Ok tt /\ last (s :: rest) = Some s'.
Proof.
  induction 1 as [s|s n s' Hs _ (rest & Hv & Hl)]; [by exists []|].
  exists (n :: rest). split; [|done]. simpl.
  destruct (is_terminal_execution_state s) eqn:Ht; [by destruct (terminal_no_step s n Ht)|].
  by rewrite (proj2 (can_transition_iff s n)).
Qed.

(** [validate_execution_state_path] accepts a path exactly to the states the
    transition relation reaches from [received]; an accepted path has at most
    eight states, and none of them but the last is terminal. *)
Theorem execution_paths (s' : ExecutionState) :
  (rtc state_step received s' <->
   exists states, validate_execution_state_path states = Ok tt /\ last states = Some s') /\
  (forall states, validate_execution_state_path states = Ok tt ->
     length states <= 8 /\ Forall (fun x => is_terminal_execution_state x = false) (removelast states)).
Proof.
  assert (forall states, validate_execution_state_path states = Ok tt ->
    exists rest last_state, states = received :: rest /\ last states = Some last_state /\ validate_steps received rest = Ok tt) as Hinv.
  { intros [|s rest]; [done|]. simpl. case_bool_decide as He; [subst|done]. intros Hv.
    destruct (last (received :: rest)) as [l|] eqn:Hl; [|by apply last_None in Hl]. by exists rest, l. }
  split; [split|].
  - intros Hr. destruct (validate_steps_complete _ _ Hr) as (rest & Hv & Hl). by exists (received :: rest).
  - intros (states & Hv & Hl). destruct (Hinv _ Hv) as (rest & l & -> & _ & Hs).
    by destruct (validate_steps_spec _ _ _ Hs Hl).
  - intros states Hv. destruct (Hinv _ Hv) as (rest & l & -> & Hl & Hs).
    destruct (validate_steps_spec _ _ _ Hs Hl) as (_ & Hlen & Hall). split; [|done].
    simpl in *. destruct l; simpl in Hlen; lia.
Qed.
