(* ===== verification/Samples.v ===== *)
(** * Sample artifacts

    Concrete values at which the witnesses of the development's theorems are
    evaluated: one tenant, one agent, one refund. *)

From S2P Require Import Prelude Json Errors Timestamps Canonical Contracts Runtime.

Definition sample_now : datetime := 63839188800000000.  (* 2023-12-26T12:00:00Z *)
Definition sample_tenant : TenantRef := mkTenantRef "acme" [].
Definition sample_agent : PartyRef := mkPartyRef "agent" "agent-7" JNull [("team", JStr "billing")].
Definition sample_issuer : PartyRef := mkPartyRef "service" "actenon" JNull [].
Definition sample_audience : AudienceRef := mkAudienceRef "service" "refunds-api" JNull.
Definition sample_action : ActionSpec :=
  mkActionSpec "refund" "payments.refund" [("amount", JInt 1250); ("currency", JStr "EUR")] [] [].
Definition sample_target : TargetRef := mkTargetRef "payment" "pay_42" JNull [("region", JStr "eu")].

Definition sample_intent : ActionIntent :=
  mkActionIntent "intent_1" sample_now (sample_now + 600000000)%Z sample_tenant sample_agent sample_action
    sample_target (JStr "idem-1") JNull [] [mkEvidenceRef "ticket" "T-9" []] [] [].

Definition sample_context : DynamicContextInput :=
  mkContext "req_1" sample_audience ["payments.refund"] sample_now [] [("max_amount", JInt 5000)]
    [[("resource_type", JStr "payment"); ("region", JStr "eu")]] [] [] (Some 900%Z).
