(* ===== verification/ProofService.v ===== *)
(** * Proofs: [actenon/proof/service.py]

    [PCCBMinter.mint] and the fifteen-step [PCCBVerifier.verify], with the
    disclosure modes and the refusal messages of [proof/refusal_messages.py].
    The signer, the revocation checker and the capability functions of
    [actenon_protocol] are parameters; a signature verifier with the
    [verify_with_metadata] hook is distinguished from one without.

    The theorems: [verify] accepts exactly the proofs that satisfy the
    specification [proof_accepted], one clause per step; every failure before
    authentication is the same constant exception unless the verifier is in
    local-debug mode, and in public mode every refusal is; what is raised besides
    refusals is an error of the signer, the clock or the authority parser; a minted
    proof verifies; an accepted proof pins the intent. *)

From S2P Require Import Prelude Text Json Errors Timestamps Canonical Contracts Runtime Samples.

(** What the service takes from [actenon_protocol]. *)
Class ProtocolAuthority := {
  capability_in_scope : string -> list string -> bool;
  scope_capabilities_for_mint : list string -> py (list string);
  (** The parsed authority reference, or [None] for a [CapabilityError]. *)
  parse_authority_extension : dict -> option dict
}.

(** ** [proof/refusal_messages.py] *)
Definition PUBLIC_PROOF_REFUSAL_MESSAGES : list (string * string) := [
  ("PROOF_INVALID", "The proof could not be verified.");
  ("PROOF_NOT_YET_VALID", "The proof is not yet valid.");
  ("PROOF_EXPIRED", "The proof has expired.");
  ("AUDIENCE_MISMATCH", "The proof audience does not match this endpoint.");
  ("SCOPE_MODE_INVALID", "The proof scope mode is not supported.");
  ("SCOPE_CAPABILITY_MISMATCH", "The proof scope does not allow this capability.");
  ("INTENT_MISMATCH", "The proof does not match the supplied action intent.");
  ("TENANT_MISMATCH", "The proof tenant does not match the action intent.");
  ("SUBJECT_MISMATCH", "The proof subject does not match the action intent.");
  ("ACTION_MISMATCH", "The proof action does not exactly match the action intent.");
  ("TARGET_MISMATCH", "The proof target does not exactly match the action intent.");
  ("ACTION_HASH_INVALID", "The action hash could not be recomputed safely.");
  ("ACTION_HASH_ALGORITHM_INVALID", "The proof action hash metadata is invalid.");
  ("ACTION_HASH_MISMATCH", "The proof action hash does not match the action intent.");
  ("PROOF_PAYLOAD_INVALID", "The proof payload could not be canonicalized safely.");
  ("SIGNATURE_INVALID", "The proof signature could not be verified.");
  ("UNSUPPORTED_PROTOCOL_VERSION", "The proof declares an unsupported protocol version.");
  ("AUTHORITY_REVOKED", "The proof authority has been revoked.");
  ("PARAMETER_MISMATCH", "The proof parameter constraints do not cover this endpoint's constraints.")].

Definition EDGE_BINDING_REFUSAL_MESSAGES : list (string * string) := [
  ("SCOPE_CAPABILITY_MISMATCH", "The action capability is not one this endpoint performs.");
  ("PARAMETER_MISMATCH", "The proof parameter constraints do not cover this endpoint's constraints.");
  ("TARGET_MISMATCH", "The proof target does not satisfy this endpoint's resource selectors.")].

Definition public_proof_refusal_message (reason_code : string) : py string :=
  match assoc reason_code PUBLIC_PROOF_REFUSAL_MESSAGES with
  | Some m => Ok m
  | None => Err (ValueError ("unknown public proof refusal reason code: " +:+ reason_code))
  end.

Definition AUTHORITY_STATUS_UNKNOWN_MESSAGE : string :=
  "The proof authority's revocation status could not be established.".

(** ** Disclosure modes *)
Inductive VerifierDisclosureMode := PUBLIC_GENERIC | TRUSTED_DETAILED | LOCAL_DEBUG.
#[global] Instance VerifierDisclosureMode_eq_dec : EqDecision VerifierDisclosureMode.
Proof. solve_decision. Defined.

Definition _LOCAL_DEBUG_ALLOWED_ENVS : list string := ["development"; "local"; "dev"; "test"; "demo"; ""].

(** [env] is the value of ACTENON_ENV, [None] when it is not set. *)
Definition _is_production_like_env (env : option string) : bool :=
  negb (str_mem (ascii_lower (py_strip (default "" env))) _LOCAL_DEBUG_ALLOWED_ENVS).

Definition default_disclosure_mode (env : option string) : VerifierDisclosureMode :=
  if _is_production_like_env env then TRUSTED_DETAILED else LOCAL_DEBUG.

(** [x is True] *)
Definition is_true (j : json) : bool := match j with JBool true => true | _ => false end.

(** ** Bindings *)
Definition build_action_hash_input (intent : ActionIntent) : dict :=
  [("intent_id", JStr (in_intent_id intent));
   ("tenant", JDict (TenantRef_to_dict (in_tenant intent)));
   ("requester", JDict (PartyRef_to_dict (in_requester intent)));
   ("action", JDict (ActionSpec_to_dict (in_action intent)));
   ("target", JDict (TargetRef_to_dict (in_target intent)));
   ("issued_at", JStr (format_timestamp (in_issued_at intent)));
   ("expires_at", JStr (format_timestamp (in_expires_at intent)))].

Section Service.
Context `{Protocol} `{ProtocolAuthority}.

Definition canonical_bytes_of (v : json) : py string :=
  canonicalize_bytes v DEFAULT_MAX_CANONICAL_OUTPUT_BYTES.

(** A [TypeError] or [ValueError] of either canonicalisation makes them unequal. *)
Definition _canonical_equal (a b : json) : py bool :=
  match (x ← canonical_bytes_of a; y ← canonical_bytes_of b; Ok (String.eqb x y)) with
  | Ok r => Ok r
  | Err e => if is_type_or_value_error e then Ok false else Err e
  end.

(** The loop over one selector's items. *)
Fixpoint target_satisfies_items (target : TargetRef) (items : dict) : py bool :=
  match items with
  | [] => Ok true
  | (key, value) :: items =>
      let actual := if String.eqb key "resource_id" then Some (JStr (tgt_resource_id target))
                    else if String.eqb key "resource_type" then Some (JStr (tgt_resource_type target))
                    else assoc key (tgt_selectors target) in
      match actual with
      | None => Ok false
      | Some actual =>
          eq ← _canonical_equal actual value;
          if eq : bool then target_satisfies_items target items else Ok false
      end
  end.

Definition _target_satisfies (target : TargetRef) (selector : dict) : py bool :=
  if negb (dict_truthy selector) then Ok false else target_satisfies_items target selector.

(** [any(_target_satisfies(target, s) for s in selectors)] *)
Fixpoint any_target_satisfies (target : TargetRef) (selectors : list dict) : py bool :=
  match selectors with
  | [] => Ok false
  | s :: selectors =>
      ok ← _target_satisfies target s;
      if ok : bool then Ok true else any_target_satisfies target selectors
  end.

(** ** Verifier *)

(** The signature verifier the service is given. *)
Record SignatureVerifier := mkSignatureVerifier {
  sv_verify : string -> SignatureSpec -> py bool;
  sv_verify_with_metadata : option (string -> SignatureSpec -> PartyRef -> datetime -> py bool)
}.

Record PCCBVerifier := mkPCCBVerifier {
  vf_signer : SignatureVerifier;
  vf_clock_skew_tolerance : Z;
  vf_disclosure_mode : VerifierDisclosureMode;
  (** [checker(pccb, context) is True], or the exception it raises *)
  vf_revocation_checker : option (PCCB -> DynamicContextInput -> py bool);
  vf_boundary_id : option string;
  vf_verifier_identity : option string
}.

(** [PCCBVerifier.__post_init__] *)
Definition PCCBVerifier_init (env : option string) (v : PCCBVerifier) : py PCCBVerifier :=
  if (vf_clock_skew_tolerance v <? 0)%Z then Err (ValueError "clock_skew_tolerance must be non-negative")
  else if bool_decide (vf_disclosure_mode v = LOCAL_DEBUG) && _is_production_like_env env
  then Err (ValueError "VerifierDisclosureMode.LOCAL_DEBUG cannot be enabled in a production-like environment")
  else Ok v.

Definition _validate_signature_structure (pccb : PCCB) : option string :=
  if negb (str_truthy (sig_value (pc_signature pccb))) then Some "SIGNATURE_INVALID"
  else if negb (String.eqb (sig_encoding (pc_signature pccb)) "base64url") then Some "SIGNATURE_INVALID"
  else None.

Section Verify.
Variable v : PCCBVerifier.

Definition _raise_pre_auth_failure {A} (internal_code : string) : py A :=
  if bool_decide (vf_disclosure_mode v = LOCAL_DEBUG)
  then m ← public_proof_refusal_message internal_code; Err (Refused (ProofVerificationError internal_code m []))
  else m ← public_proof_refusal_message "PROOF_INVALID"; Err (Refused (ProofVerificationError "PROOF_INVALID" m [])).

Definition _raise_post_auth_failure {A} (detailed_code : string) (edge_binding : bool) (message : option string) : py A :=
  if bool_decide (vf_disclosure_mode v = PUBLIC_GENERIC)
  then m ← public_proof_refusal_message "PROOF_INVALID"; Err (Refused (ProofVerificationError "PROOF_INVALID" m []))
  else
    m ← (if str_truthy (default "" message) then Ok (default "" message)
         else if edge_binding
         then match assoc detailed_code EDGE_BINDING_REFUSAL_MESSAGES with
              | Some m => Ok m | None => Err (KeyError detailed_code) end
         else public_proof_refusal_message detailed_code);
    Err (Refused (ProofVerificationError detailed_code m [])).

(** [if cond: self._raise_post_auth_failure(code, ...)] *)
Definition fail_if (cond : bool) (code : string) (edge : bool) : py unit :=
  if cond then _raise_post_auth_failure code edge None else Ok tt.

(** [if not _canonical_equal(a, b): ...] *)
Definition require_equal (a b : dict) (code : string) : py unit :=
  eq ← _canonical_equal (JDict a) (JDict b); fail_if (negb eq) code false.

(** Phase A: steps 1 to 5. *)
Definition pre_auth (pccb : PCCB) : py unit :=
  let contract := dget_default (unsigned_payload pccb) "contract" (JDict []) in
  let field k := match contract with JDict c => dget c k | _ => JNull end in
  _ ← (if negb (is_str (field "name") "pccb") || negb (is_str (field "version") "v1")
       then _raise_pre_auth_failure "UNSUPPORTED_PROTOCOL_VERSION" else Ok tt);
  _ ← match _validate_signature_structure pccb with
      | Some sig_error => _raise_pre_auth_failure sig_error
      | None => Ok tt
      end;
  payload ← match canonical_bytes_of (JDict (unsigned_payload pccb)) with
            | Ok b => Ok b
            | Err e => if is_type_or_value_error e then _raise_pre_auth_failure "PROOF_PAYLOAD_INVALID" else Err e
            end;
  is_valid ← match sv_verify_with_metadata (vf_signer v) with
             | Some verify => verify payload (pc_signature pccb) (pc_issuer pccb) (pc_issued_at pccb)
             | None => sv_verify (vf_signer v) payload (pc_signature pccb)
             end;
  if negb is_valid then _raise_pre_auth_failure "SIGNATURE_INVALID" else Ok tt.

(** Step 6 *)
Definition check_time (pccb : PCCB) (context : DynamicContextInput) : py unit :=
  later ← datetime_add (cx_now context) (vf_clock_skew_tolerance v);
  _ ← fail_if (later <? pc_not_before pccb)%Z "PROOF_NOT_YET_VALID" false;
  earlier ← datetime_add (cx_now context) (- vf_clock_skew_tolerance v);
  fail_if (pc_expires_at pccb <? earlier)%Z "PROOF_EXPIRED" false.

(** Steps 7 to 10 *)
Definition check_bindings (intent : ActionIntent) (pccb : PCCB) (context : DynamicContextInput) : py unit :=
  _ ← require_equal (AudienceRef_to_dict (pc_audience pccb)) (AudienceRef_to_dict (cx_audience context)) "AUDIENCE_MISMATCH";
  _ ← fail_if match vf_boundary_id v with
              | Some b => negb (String.eqb (aud_id (pc_audience pccb)) b)
              | None => false
              end "AUDIENCE_MISMATCH" false;
  _ ← require_equal (TargetRef_to_dict (pc_target pccb)) (TargetRef_to_dict (in_target intent)) "TARGET_MISMATCH";
  _ ← fail_if (negb (String.eqb (sc_mode (pc_scope pccb)) "exact") || negb (sc_single_use (pc_scope pccb)))
        "SCOPE_MODE_INVALID" false;
  _ ← fail_if (negb (capability_in_scope (act_capability (in_action intent)) (sc_capabilities (pc_scope pccb))))
        "SCOPE_CAPABILITY_MISMATCH" false;
  _ ← fail_if (negb (capability_in_scope (act_capability (in_action intent)) (cx_scope_capabilities context)))
        "SCOPE_CAPABILITY_MISMATCH" true;
  _ ← fail_if (py_truthy (pc_intent_id pccb) && negb (py_eqb (pc_intent_id pccb) (JStr (in_intent_id intent))))
        "INTENT_MISMATCH" false;
  _ ← require_equal (TenantRef_to_dict (pc_tenant pccb)) (TenantRef_to_dict (in_tenant intent)) "TENANT_MISMATCH";
  _ ← require_equal (PartyRef_to_dict (pc_subject pccb)) (PartyRef_to_dict (in_requester intent)) "SUBJECT_MISMATCH";
  require_equal (ActionSpec_to_dict (pc_action pccb)) (ActionSpec_to_dict (in_action intent)) "ACTION_MISMATCH".

(** Step 11 *)
Definition check_action_hash (intent : ActionIntent) (pccb : PCCB) : py unit :=
  expected_hash ← match sha256_hex (JDict (build_action_hash_input intent)) with
                  | Ok h => Ok h
                  | Err e => if is_type_or_value_error e then _raise_post_auth_failure "ACTION_HASH_INVALID" false None else Err e
                  end;
  _ ← fail_if (negb (String.eqb (ah_algorithm (pc_action_hash pccb)) "sha-256")
               || negb (str_mem (ah_canonicalization (pc_action_hash pccb)) ACCEPTED_CANONICALIZATION_PROFILES))
        "ACTION_HASH_ALGORITHM_INVALID" false;
  fail_if (negb (String.eqb (ah_value (pc_action_hash pccb)) expected_hash)) "ACTION_HASH_MISMATCH" false.

(** Step 11b, E2: the loop over the edge's constraints. *)
Fixpoint check_constraints (signed : dict) (constraints : dict) : py unit :=
  match constraints with
  | [] => Ok tt
  | (key, value) :: constraints =>
      covered ← match assoc key signed with
                | Some s => _canonical_equal s value
                | None => Ok false
                end;
      _ ← fail_if (negb covered) "PARAMETER_MISMATCH" true;
      check_constraints signed constraints
  end.

(** Step 11b, E3 *)
Definition check_selectors (pccb : PCCB) (context : DynamicContextInput) : py unit :=
  match cx_resource_selectors context with
  | [] => Ok tt
  | selectors =>
      ok ← any_target_satisfies (pc_target pccb) selectors;
      fail_if (negb ok) "TARGET_MISMATCH" true
  end.

(** Step 13, the signed authority reference. *)
Definition check_authority (pccb : PCCB) : py bool :=
  if has_key "authority" (pc_extensions pccb) then
    match parse_authority_extension (pc_extensions pccb) with
    | None => _raise_post_auth_failure "AUTHORITY_REVOKED" false (Some AUTHORITY_STATUS_UNKNOWN_MESSAGE)
    | Some authority =>
        match assoc "revocable" authority with
        | Some r => Ok (is_true r)
        | None => Err (KeyError "revocable")
        end
    end
  else Ok false.

Definition check_revocation (pccb : PCCB) (context : DynamicContextInput) : py unit :=
  authority_revocable ← check_authority pccb;
  match vf_revocation_checker v with
  | None =>
      if authority_revocable : bool
      then _raise_post_auth_failure "AUTHORITY_REVOKED" false (Some AUTHORITY_STATUS_UNKNOWN_MESSAGE) else Ok tt
  | Some checker =>
      match checker pccb context with
      | Ok true => Ok tt
      | Ok false => _raise_post_auth_failure "AUTHORITY_REVOKED" false None
      | Err _ => _raise_post_auth_failure "AUTHORITY_REVOKED" false (Some AUTHORITY_STATUS_UNKNOWN_MESSAGE)
      end
  end.

(** Phase B: steps 6 to 13. *)
Definition post_auth (intent : ActionIntent) (pccb : PCCB) (context : DynamicContextInput) : py unit :=
  _ ← check_time pccb context;
  _ ← check_bindings intent pccb context;
  _ ← check_action_hash intent pccb;
  _ ← check_constraints (sc_parameter_constraints (pc_scope pccb)) (cx_parameter_constraints context);
  _ ← check_selectors pccb context;
  check_revocation pccb context.

Definition verify (intent : ActionIntent) (pccb : PCCB) (context : DynamicContextInput) : py unit :=
  _ ← pre_auth pccb; post_auth intent pccb context.
End Verify.

(** ** Minter *)
Record Signer := mkSigner {
  sg_algorithm : string;
  sg_key_id : string;
  sg_sign : string -> py SignatureSpec
}.

Record PCCBMinter := mkPCCBMinter {
  mt_signer : Signer;
  mt_issuer : PartyRef;
  mt_audit_sink : option (PCCB -> py unit)
}.

(** [sorted(set(l))] *)
Fixpoint insert_unique (x : string) (l : list string) : list string :=
  match l with
  | [] => [x]
  | y :: l' =>
      match String.compare x y with
      | Eq => l
      | Lt => x :: l
      | Gt => y :: insert_unique x l'
      end
  end.
Definition sorted_set (l : list string) : list string := fold_right insert_unique [] l.

Definition with_signature (p : PCCB) (s : SignatureSpec) : PCCB :=
  mkPCCB (pc_pccb_id p) (pc_issued_at p) (pc_not_before p) (pc_expires_at p) (pc_issuer p) (pc_subject p)
    (pc_tenant p) (pc_audience p) (pc_action p) (pc_target p) (pc_scope p) (pc_nonce p) (pc_action_hash p) s
    (pc_intent_id p) (pc_escrow_id p) (pc_extensions p).

(** [pccb_id] and [nonce] are what the two factories return. *)
Definition mint (m : PCCBMinter) (pccb_id nonce : string) (intent : ActionIntent) (decision : PolicyDecision)
    (context : DynamicContextInput) (escrow_id : json) (extensions : dict) : py PCCB :=
  if negb (allowed decision) then Err (ValueError "PCCB minting requires an allow decision")
  else
    capabilities ← scope_capabilities_for_mint (cx_scope_capabilities context);
    let scope := mkScopeSpec "exact" (sorted_set capabilities) true
                   (cx_resource_selectors context) (cx_parameter_constraints context) in
    hash_value ← sha256_hex (JDict (build_action_hash_input intent));
    let action_hash := mkActionHashSpec "sha-256" CANONICALIZATION_PROFILE hash_value in
    let unsigned :=
      mkPCCB pccb_id (cx_now context) (cx_now context) (in_expires_at intent) (mt_issuer m) (in_requester intent)
        (in_tenant intent) (cx_audience context) (in_action intent) (in_target intent) scope nonce action_hash
        (mkSignatureSpec (sg_algorithm (mt_signer m)) (sg_key_id (mt_signer m)) "base64url" "pending")
        (JStr (in_intent_id intent)) escrow_id extensions in
    payload ← canonical_bytes_of (JDict (unsigned_payload unsigned));
    signature ← sg_sign (mt_signer m) payload;
    let pccb := with_signature unsigned signature in
    _ ← match mt_audit_sink m with Some sink => sink pccb | None => Ok tt end;
    Ok pccb.

(** ** The specification of an accepted proof *)

(** Two values have the same canonical bytes. *)
Definition same_canonical (a b : json) : Prop :=
  exists s, canonical_bytes_of a = Ok s /\ canonical_bytes_of b = Ok s.

(** The signature verifier's answer on the canonical unsigned payload. *)
Definition signature_valid (v : PCCBVerifier) (pccb : PCCB) : Prop :=
  exists payload, canonical_bytes_of (JDict (unsigned_payload pccb)) = Ok payload /\
    match sv_verify_with_metadata (vf_signer v) with
    | Some verify => verify payload (pc_signature pccb) (pc_issuer pccb) (pc_issued_at pccb)
    | None => sv_verify (vf_signer v) payload (pc_signature pccb)
    end = Ok true.

(** One selector is satisfied: it names something, and each of its items equals
    the field or selector of the target it names. *)
Definition selector_value (target : TargetRef) (key : string) : option json :=
  if String.eqb key "resource_id" then Some (JStr (tgt_resource_id target))
  else if String.eqb key "resource_type" then Some (JStr (tgt_resource_type target))
  else assoc key (tgt_selectors target).
Definition selector_satisfied (target : TargetRef) (selector : dict) : Prop :=
  selector <> [] /\
  Forall (fun kv => exists actual, selector_value target kv.1 = Some actual /\ same_canonical actual kv.2) selector.

(** The signed authority reference, when there is one, parses and tells whether
    it is revocable. *)
Definition authority_status (pccb : PCCB) (revocable : bool) : Prop :=
  if has_key "authority" (pc_extensions pccb)
  then exists a r, parse_authority_extension (pc_extensions pccb) = Some a /\ assoc "revocable" a = Some r /\
         revocable = is_true r
  else revocable = false.

Record proof_accepted (v : PCCBVerifier) (intent : ActionIntent) (pccb : PCCB) (context : DynamicContextInput) : Prop := {
  acc_signature_present : sig_value (pc_signature pccb) <> "" /\ sig_encoding (pc_signature pccb) = "base64url";
  acc_signature : signature_valid v pccb;
  acc_not_before : (pc_not_before pccb <= cx_now context + vf_clock_skew_tolerance v)%Z;
  acc_expires : (cx_now context - vf_clock_skew_tolerance v <= pc_expires_at pccb)%Z;
  acc_clock : datetime_ok (cx_now context + vf_clock_skew_tolerance v) /\ datetime_ok (cx_now context - vf_clock_skew_tolerance v);
  acc_audience : same_canonical (JDict (AudienceRef_to_dict (pc_audience pccb))) (JDict (AudienceRef_to_dict (cx_audience context)));
  acc_boundary : match vf_boundary_id v with Some b => aud_id (pc_audience pccb) = b | None => True end;
  acc_target : same_canonical (JDict (TargetRef_to_dict (pc_target pccb))) (JDict (TargetRef_to_dict (in_target intent)));
  acc_scope : sc_mode (pc_scope pccb) = "exact" /\ sc_single_use (pc_scope pccb) = true;
  acc_capability : capability_in_scope (act_capability (in_action intent)) (sc_capabilities (pc_scope pccb)) = true;
  acc_edge_capability : capability_in_scope (act_capability (in_action intent)) (cx_scope_capabilities context) = true;
  acc_intent : py_truthy (pc_intent_id pccb) = true -> pc_intent_id pccb = JStr (in_intent_id intent);
  acc_tenant : same_canonical (JDict (TenantRef_to_dict (pc_tenant pccb))) (JDict (TenantRef_to_dict (in_tenant intent)));
  acc_subject : same_canonical (JDict (PartyRef_to_dict (pc_subject pccb))) (JDict (PartyRef_to_dict (in_requester intent)));
  acc_action : same_canonical (JDict (ActionSpec_to_dict (pc_action pccb))) (JDict (ActionSpec_to_dict (in_action intent)));
  acc_hash_profile : ah_algorithm (pc_action_hash pccb) = "sha-256" /\
                     ah_canonicalization (pc_action_hash pccb) ∈ ACCEPTED_CANONICALIZATION_PROFILES;
  acc_hash : sha256_hex (JDict (build_action_hash_input intent)) = Ok (ah_value (pc_action_hash pccb));
  acc_constraints : Forall (fun kv => exists s, assoc kv.1 (sc_parameter_constraints (pc_scope pccb)) = Some s /\ same_canonical s kv.2)
                      (cx_parameter_constraints context);
  acc_selectors : cx_resource_selectors context <> [] ->
                  Exists (selector_satisfied (pc_target pccb)) (cx_resource_selectors context);
  acc_revocation : exists revocable, authority_status pccb revocable /\
                   match vf_revocation_checker v with
                   | Some checker => checker pccb context = Ok true
                   | None => revocable = false
                   end
}.
End Service.

(** ** [verify] meets its specification *)
Lemma seq_Ok {E} (m n : res E unit) : (_ ← m; n) = Ok tt <-> m = Ok tt /\ n = Ok tt.
Proof. destruct m as [[]|]; simpl; naive_solver. Qed.

Section VerifySpec.
Context `{Protocol} `{ProtocolAuthority}.
Implicit Types (v : PCCBVerifier) (intent : ActionIntent) (pccb : PCCB) (context : DynamicContextInput).

Lemma raise_post_not_ok {A} v code edge msg (a : A) : _raise_post_auth_failure v code edge msg <> Ok a.
Proof. unfold _raise_post_auth_failure. case_bool_decide; [done|]. by intros (? & _ & ?)%bind_Ok. Qed.

Lemma raise_pre_not_ok {A} v code (a : A) : _raise_pre_auth_failure v code <> Ok a.
Proof. unfold _raise_pre_auth_failure. case_bool_decide; [|done]. by intros (? & _ & ?)%bind_Ok. Qed.

Lemma fail_if_Ok v c code edge : fail_if v c code edge = Ok tt <-> c = false.
Proof.
  unfold fail_if. destruct c; [|done]. split; [|done]. intros H1. by apply raise_post_not_ok in H1.
Qed.

Lemma canonical_equal_true a b : _canonical_equal a b = Ok true <-> same_canonical a b.
Proof.
  unfold _canonical_equal, same_canonical. destruct (canonical_bytes_of a) as [x|e]; simpl.
  - destruct (canonical_bytes_of b) as [y|e]; simpl.
    + destruct (String.eqb_spec x y); naive_solver.
    + destruct (is_type_or_value_error e); naive_solver.
  - destruct (is_type_or_value_error e); naive_solver.
Qed.

Lemma require_equal_Ok v a b code : require_equal v a b code = Ok tt <-> same_canonical (JDict a) (JDict b).
Proof.
  unfold require_equal. rewrite bind_Ok, <- canonical_equal_true. setoid_rewrite fail_if_Ok.
  split; [intros ([] & ? & ?); naive_solver|eauto].
Qed.

Lemma datetime_add_Ok t d r : datetime_add t d = Ok r <-> r = (t + d)%Z /\ datetime_ok (t + d).
Proof.
  unfold datetime_add, datetime_ok.
  destruct (Z.leb_spec 0 (t + d)), (Z.ltb_spec (t + d) DATETIME_END); simpl; split; try done; naive_solver lia.
Qed.

Lemma check_time_Ok v pccb context : check_time v pccb context = Ok tt <->
  (pc_not_before pccb <= cx_now context + vf_clock_skew_tolerance v)%Z /\
  (cx_now context - vf_clock_skew_tolerance v <= pc_expires_at pccb)%Z /\
  datetime_ok (cx_now context + vf_clock_skew_tolerance v) /\ datetime_ok (cx_now context - vf_clock_skew_tolerance v).
Proof.
  unfold check_time. rewrite bind_Ok. setoid_rewrite datetime_add_Ok. setoid_rewrite seq_Ok. setoid_rewrite bind_Ok.
  setoid_rewrite datetime_add_Ok. setoid_rewrite fail_if_Ok. setoid_rewrite Z.ltb_ge.
  replace (cx_now context - vf_clock_skew_tolerance v)%Z with (cx_now context + - vf_clock_skew_tolerance v)%Z by lia.
  naive_solver.
Qed.

Lemma py_eqb_JStr j s : py_eqb j (JStr s) = true <-> j = JStr s.
Proof.
  destruct j as [|[]|z|f|s'|l|d]; simpl; try (split; congruence). rewrite String.eqb_eq. naive_solver.
Qed.

Lemma check_bindings_Ok v intent pccb context : check_bindings v intent pccb context = Ok tt <->
  same_canonical (JDict (AudienceRef_to_dict (pc_audience pccb))) (JDict (AudienceRef_to_dict (cx_audience context))) /\
  match vf_boundary_id v with Some b => aud_id (pc_audience pccb) = b | None => True end /\
  same_canonical (JDict (TargetRef_to_dict (pc_target pccb))) (JDict (TargetRef_to_dict (in_target intent))) /\
  (sc_mode (pc_scope pccb) = "exact" /\ sc_single_use (pc_scope pccb) = true) /\
  capability_in_scope (act_capability (in_action intent)) (sc_capabilities (pc_scope pccb)) = true /\
  capability_in_scope (act_capability (in_action intent)) (cx_scope_capabilities context) = true /\
  (py_truthy (pc_intent_id pccb) = true -> pc_intent_id pccb = JStr (in_intent_id intent)) /\
  same_canonical (JDict (TenantRef_to_dict (pc_tenant pccb))) (JDict (TenantRef_to_dict (in_tenant intent))) /\
  same_canonical (JDict (PartyRef_to_dict (pc_subject pccb))) (JDict (PartyRef_to_dict (in_requester intent))) /\
  same_canonical (JDict (ActionSpec_to_dict (pc_action pccb))) (JDict (ActionSpec_to_dict (in_action intent))).
Proof.
  unfold check_bindings. rewrite !seq_Ok, !fail_if_Ok, !require_equal_Ok.
  rewrite orb_false_iff, !negb_false_iff, String.eqb_eq, andb_false_iff, negb_false_iff, py_eqb_JStr.
  assert (match vf_boundary_id v with Some b => negb (String.eqb (aud_id (pc_audience pccb)) b) | None => false end = false
    <-> match vf_boundary_id v with Some b => aud_id (pc_audience pccb) = b | None => True end) as ->.
  { destruct (vf_boundary_id v) as [b|]; [|done]. by rewrite negb_false_iff, String.eqb_eq. }
  destruct (py_truthy (pc_intent_id pccb)); naive_solver.
Qed.

Lemma check_action_hash_Ok v intent pccb : check_action_hash v intent pccb = Ok tt <->
  (ah_algorithm (pc_action_hash pccb) = "sha-256" /\
   ah_canonicalization (pc_action_hash pccb) ∈ ACCEPTED_CANONICALIZATION_PROFILES) /\
  sha256_hex (JDict (build_action_hash_input intent)) = Ok (ah_value (pc_action_hash pccb)).
Proof.
  unfold check_action_hash. rewrite bind_Ok. setoid_rewrite seq_Ok. setoid_rewrite fail_if_Ok.
  setoid_rewrite orb_false_iff. setoid_rewrite negb_false_iff. setoid_rewrite String.eqb_eq.
  setoid_rewrite str_mem_spec.
  destruct (sha256_hex _) as [h|e]; [naive_solver|]. split; [|naive_solver].
  intros (h & Hh & _). destruct (is_type_or_value_error e); [|done]. by apply raise_post_not_ok in Hh.
Qed.

Lemma check_constraints_Ok v signed constraints : check_constraints v signed constraints = Ok tt <->
  Forall (fun kv => exists s, assoc kv.1 signed = Some s /\ same_canonical s kv.2) constraints.
Proof.
  induction constraints as [|[k x] l IH]; simpl; [by rewrite Forall_nil|].
  rewrite Forall_cons, bind_Ok. setoid_rewrite seq_Ok. setoid_rewrite fail_if_Ok. setoid_rewrite negb_false_iff.
  setoid_rewrite IH. cbn [fst snd].
  destruct (assoc k signed) as [s|]; [|naive_solver].
  pose proof (canonical_equal_true s x). split; naive_solver.
Qed.

Section Total.
Hypothesis Hve : canonicalisation_error_is_value_error = true.

Lemma canonical_equal_total a b : exists r, _canonical_equal a b = Ok r.
Proof.
  unfold _canonical_equal, canonical_bytes_of.
  pose proof (canonicalize_bytes_error_kind a DEFAULT_MAX_CANONICAL_OUTPUT_BYTES Hve) as Ha.
  pose proof (canonicalize_bytes_error_kind b DEFAULT_MAX_CANONICAL_OUTPUT_BYTES Hve) as Hb.
  destruct (canonicalize_bytes a _) as [x|e]; simpl; [|rewrite (Ha e eq_refl); eauto].
  destruct (canonicalize_bytes b _) as [y|e]; simpl; [eauto|rewrite (Hb e eq_refl); eauto].
Qed.

Lemma target_satisfies_items_spec target items :
  exists r, target_satisfies_items target items = Ok r /\
  (r = true <-> Forall (fun kv => exists actual, selector_value target kv.1 = Some actual /\ same_canonical actual kv.2) items).
Proof.
  induction items as [|[k x] items (r & Hr & Hiff)]; simpl; [exists true; by rewrite Forall_nil|].
  setoid_rewrite Forall_cons. cbn [fst snd]. fold (selector_value target k).
  destruct (selector_value target k) as [actual|]; [|exists false; naive_solver].
  destruct (canonical_equal_total actual x) as [e He]. rewrite He. simpl.
  assert (e = true <-> same_canonical actual x) as Heq by (rewrite <- canonical_equal_true, He; naive_solver).
  destruct e.
  - exists r. split; [done|]. rewrite Hiff. naive_solver.
  - exists false. split; [done|]. naive_solver.
Qed.

Lemma target_satisfies_spec target selector :
  exists r, _target_satisfies target selector = Ok r /\ (r = true <-> selector_satisfied target selector).
Proof.
  unfold _target_satisfies, selector_satisfied.
  destruct (target_satisfies_items_spec target selector) as (r & Hr & Hiff).
  destruct selector; simpl; [exists false; naive_solver|]. exists r. split; [done|]. rewrite Hiff. naive_solver.
Qed.

Lemma any_target_satisfies_spec target selectors :
  exists r, any_target_satisfies target selectors = Ok r /\ (r = true <-> Exists (selector_satisfied target) selectors).
Proof.
  induction selectors as [|s l (r & Hr & Hiff)]; simpl; [exists false; by rewrite Exists_nil|].
  setoid_rewrite Exists_cons. destruct (target_satisfies_spec target s) as (r' & -> & Hiff'). simpl.
  destruct r'; [exists true|exists r]; naive_solver.
Qed.

Lemma check_selectors_Ok v pccb context : check_selectors v pccb context = Ok tt <->
  (cx_resource_selectors context <> [] -> Exists (selector_satisfied (pc_target pccb)) (cx_resource_selectors context)).
Proof.
  unfold check_selectors. destruct (any_target_satisfies_spec (pc_target pccb) (cx_resource_selectors context)) as (r & Hr & Hiff).
  destruct (cx_resource_selectors context) as [|s l] eqn:Hs; [naive_solver|]. rewrite Hr. simpl.
  rewrite fail_if_Ok, negb_false_iff, Hiff. naive_solver.
Qed.

Lemma check_authority_Ok v pccb r : check_authority v pccb = Ok r <-> authority_status pccb r.
Proof.
  unfold check_authority, authority_status. destruct (has_key _ _); [|naive_solver].
  destruct (parse_authority_extension _) as [a|].
  - destruct (assoc "revocable" a) as [x|] eqn:Hx.
    + split; [intros He; exists a, x; split_and!; congruence|]. intros (a' & x' & Ha & ? & ->). congruence.
    + split; [done|]. intros (a' & x' & Ha & ? & _). congruence.
  - split; [|naive_solver]. intros He. by apply raise_post_not_ok in He.
Qed.

Lemma check_revocation_Ok v pccb context : check_revocation v pccb context = Ok tt <->
  exists revocable, authority_status pccb revocable /\
    match vf_revocation_checker v with Some checker => checker pccb context = Ok true | None => revocable = false end.
Proof.
  unfold check_revocation. rewrite bind_Ok. setoid_rewrite check_authority_Ok.
  assert (forall (P : bool -> Prop) (f : bool -> Prop), (forall b, P b <-> f b) ->
    (exists b, authority_status pccb b /\ P b) <-> (exists b, authority_status pccb b /\ f b)) as Hex by naive_solver.
  apply Hex. intros b. destruct (vf_revocation_checker v) as [checker|].
  - destruct (checker pccb context) as [[]|e]; [done|..]; split; try done; intros He; by apply raise_post_not_ok in He.
  - destruct b; [|done]. split; [|done]. intros He; by apply raise_post_not_ok in He.
Qed.

Lemma contract_of_payload pccb : dget_default (unsigned_payload pccb) "contract" (JDict []) = contract_header "pccb".
Proof. done. Qed.

Lemma pre_auth_Ok v pccb : pre_auth v pccb = Ok tt <->
  (sig_value (pc_signature pccb) <> "" /\ sig_encoding (pc_signature pccb) = "base64url") /\ signature_valid v pccb.
Proof.
  unfold pre_auth, signature_valid. cbv zeta. rewrite contract_of_payload. cbn -[canonical_bytes_of unsigned_payload].
  unfold _validate_signature_structure, str_truthy. rewrite negb_involutive.
  destruct (String.eqb_spec (sig_value (pc_signature pccb)) "") as [Hv|Hv].
  { cbn. split; [|naive_solver]. intros Hr. rewrite bind_Ok in Hr. destruct Hr as ([] & Hr & _). by apply raise_pre_not_ok in Hr. }
  destruct (String.eqb_spec (sig_encoding (pc_signature pccb)) "base64url") as [Hen|Hen].
  2: { cbn. split; [|naive_solver]. intros Hr. rewrite bind_Ok in Hr. destruct Hr as ([] & Hr & _). by apply raise_pre_not_ok in Hr. }
  cbn -[canonical_bytes_of unsigned_payload].
  destruct (canonical_bytes_of _) as [payload|e] eqn:Hp; cbn -[canonical_bytes_of unsigned_payload].
  2: { split; [|naive_solver]. intros Hr. destruct (is_type_or_value_error e); [|done].
       rewrite bind_Ok in Hr. destruct Hr as (x & Hr & _). by apply raise_pre_not_ok in Hr. }
  rewrite bind_Ok. split.
  - intros ([] & Hs & Hr); [|by apply raise_pre_not_ok in Hr]. split; [done|]. exists payload. done.
  - intros [_ (p & [= <-] & Hs)]. exists true. done.
Qed.

Lemma verify_Ok v intent pccb context : verify v intent pccb context = Ok tt <-> proof_accepted v intent pccb context.
Proof.
  unfold verify, post_auth. rewrite !seq_Ok, pre_auth_Ok, check_time_Ok, check_bindings_Ok, check_action_hash_Ok,
    check_constraints_Ok, check_selectors_Ok, check_revocation_Ok.
  split.
  - intros H1. destruct_and!. by constructor.
  - intros []. destruct_and!. by split_and!.
Qed.
End Total.
End VerifySpec.

(** ** Which exceptions [verify] raises *)
Definition PROOF_INVALID_exn : exn :=
  Refused (ProofVerificationError "PROOF_INVALID" "The proof could not be verified." []).

Section Refusals.
Context `{Protocol} `{ProtocolAuthority}.
Variable v : PCCBVerifier.
Hypothesis Hve : canonicalisation_error_is_value_error = true.

(** A refusal of the verifier: a proof error with a published code, the generic
    one in public mode. *)
Definition proof_refusal (e : exn) : Prop :=
  (exists code msg, e = Refused (ProofVerificationError code msg []) /\ code ∈ PUBLIC_PROOF_REFUSAL_MESSAGES.*1) /\
  (vf_disclosure_mode v = PUBLIC_GENERIC -> e = PROOF_INVALID_exn).

Definition refusing {A} (m : py A) : Prop := forall e, m = Err e -> proof_refusal e.

Lemma refusing_ok {A} (a : A) : refusing (Ok a).
Proof. done. Qed.

Lemma refusing_bind {A B} (m : py A) (f : A -> py B) :
  refusing m -> (forall a, m = Ok a -> refusing (f a)) -> refusing (m ≫= f).
Proof. intros Hm Hf e [He|(a & Ha & He)]%bind_Err; [by apply Hm|by eapply Hf]. Qed.

Lemma refusing_total {A B} (m : py A) (f : A -> py B) :
  (exists a, m = Ok a) -> (forall a, m = Ok a -> refusing (f a)) -> refusing (m ≫= f).
Proof. intros [a Ha] Hf. rewrite Ha. simpl. by apply Hf. Qed.

Lemma refusing_post {A} code edge msg : code ∈ PUBLIC_PROOF_REFUSAL_MESSAGES.*1 ->
  (edge = true -> code ∈ EDGE_BINDING_REFUSAL_MESSAGES.*1) ->
  refusing (@_raise_post_auth_failure v A code edge msg).
Proof.
  intros Hc Hedge e. unfold _raise_post_auth_failure. case_bool_decide as Hm.
  { intros [= <-]. split; [|done]. eexists _, _. split; [done|]. apply (bool_decide_unpack _). vm_compute. exact I. }
  intros He. split; [|done]. apply bind_Err in He as [He|(m & _ & [= <-])]; [|eauto].
  destruct (str_truthy _); [done|]. destruct edge.
  - destruct (assoc code EDGE_BINDING_REFUSAL_MESSAGES) eqn:Ha; [done|]. apply assoc_None_keys in Ha.
    exfalso. apply Ha. by apply Hedge.
  - unfold public_proof_refusal_message in He. destruct (assoc code PUBLIC_PROOF_REFUSAL_MESSAGES) eqn:Ha; [done|].
    apply assoc_None_keys in Ha. done.
Qed.

Ltac known_code := apply (bool_decide_unpack _); vm_compute; exact I.

Lemma refusing_fail_if c code edge : code ∈ PUBLIC_PROOF_REFUSAL_MESSAGES.*1 ->
  (edge = true -> code ∈ EDGE_BINDING_REFUSAL_MESSAGES.*1) -> refusing (fail_if v c code edge).
Proof. intros Hc He. unfold fail_if. destruct c; [by apply refusing_post|apply refusing_ok]. Qed.

Lemma refusing_require a b code : code ∈ PUBLIC_PROOF_REFUSAL_MESSAGES.*1 -> refusing (require_equal v a b code).
Proof.
  intros Hc. unfold require_equal. apply refusing_total; [by apply canonical_equal_total|].
  intros r _. by apply refusing_fail_if.
Qed.

Ltac refusing_step :=
  first [ apply refusing_ok
        | apply refusing_fail_if; [known_code|try done; intros _; known_code]
        | apply refusing_require; known_code
        | apply refusing_post; [known_code|try done; intros _; known_code]
        | apply refusing_bind; [|intros ? _] ].

Lemma refusing_bindings intent pccb context : refusing (check_bindings v intent pccb context).
Proof. unfold check_bindings. repeat refusing_step. Qed.

Lemma refusing_hash intent pccb : refusing (check_action_hash v intent pccb).
Proof.
  unfold check_action_hash. apply refusing_bind; [|intros h _; repeat refusing_step].
  destruct (sha256_hex _) as [h|e] eqn:Hh; [apply refusing_ok|].
  assert (is_type_or_value_error e = true) as ->; [|repeat refusing_step].
  unfold sha256_hex in Hh. apply bind_Err in Hh as [Hh|(? & _ & ?)]; [|done].
  by eapply canonicalize_bytes_error_kind.
Qed.

Lemma refusing_constraints signed l : refusing (check_constraints v signed l).
Proof.
  induction l as [|[k x] l IH]; simpl; [apply refusing_ok|].
  apply refusing_total; [|intros c _; apply refusing_bind; [repeat refusing_step|done]].
  destruct (assoc k signed); [by apply canonical_equal_total|eauto].
Qed.

Lemma refusing_selectors pccb context : refusing (check_selectors v pccb context).
Proof.
  unfold check_selectors.
  destruct (any_target_satisfies_spec Hve (pc_target pccb) (cx_resource_selectors context)) as (r & Hr & _).
  destruct (cx_resource_selectors context); [apply refusing_ok|]. rewrite Hr. simpl. repeat refusing_step.
Qed.

(** The environment's part: the signature verifier answers, the clock is in range
    and the authority parser returns what its documentation says. *)
Definition signer_result (pccb : PCCB) (payload : string) : py bool :=
  match sv_verify_with_metadata (vf_signer v) with
  | Some verify => verify payload (pc_signature pccb) (pc_issuer pccb) (pc_issued_at pccb)
  | None => sv_verify (vf_signer v) payload (pc_signature pccb)
  end.
Definition signer_answers (pccb : PCCB) : Prop := forall payload, exists b, signer_result pccb payload = Ok b.
Definition clock_in_range (context : DynamicContextInput) : Prop :=
  datetime_ok (cx_now context + vf_clock_skew_tolerance v) /\ datetime_ok (cx_now context - vf_clock_skew_tolerance v).
Definition authority_has_revocable (pccb : PCCB) : Prop :=
  forall a, parse_authority_extension (pc_extensions pccb) = Some a -> has_key "revocable" a = true.

(** The exceptions that are not [verify]'s own: what the signature verifier raises
    on the canonical payload, a clock out of the range of dates, and a parsed
    authority without its field. *)
Definition signer_raises (pccb : PCCB) (e : exn) : Prop :=
  exists payload, canonical_bytes_of (JDict (unsigned_payload pccb)) = Ok payload /\ signer_result pccb payload = Err e.

Inductive environment_error (pccb : PCCB) (context : DynamicContextInput) (e : exn) : Prop :=
| signer_raised : signer_raises pccb e -> environment_error pccb context e
| clock_overflowed : e = OverflowError -> ~ clock_in_range context -> environment_error pccb context e
| authority_lacks_revocable a :
    e = KeyError "revocable" -> has_key "authority" (pc_extensions pccb) = true ->
    parse_authority_extension (pc_extensions pccb) = Some a -> has_key "revocable" a = false -> environment_error pccb context e.

Lemma datetime_add_Err t d e : datetime_add t d = Err e -> e = OverflowError /\ ~ datetime_ok (t + d).
Proof.
  intros He. split; [unfold datetime_add in He; case_match; congruence|].
  intros Hok. assert (datetime_add t d = Ok (t + d)%Z) as Hadd by (by apply datetime_add_Ok). congruence.
Qed.

Lemma time_ends pccb context e : check_time v pccb context = Err e ->
  proof_refusal e \/ (e = OverflowError /\ ~ clock_in_range context).
Proof.
  unfold check_time. intros [He|(t & _ & He)]%bind_Err.
  { apply datetime_add_Err in He as [-> Hn]. right. split; [done|]. by intros [? _]. }
  apply bind_Err in He as [He|([] & _ & He)].
  { left. revert e He. change (refusing (fail_if v (t <? pc_not_before pccb)%Z "PROOF_NOT_YET_VALID" false)). repeat refusing_step. }
  apply bind_Err in He as [He|(u & _ & He)].
  { apply datetime_add_Err in He as [-> Hn]. right. split; [done|]. intros [_ Hc]. apply Hn.
    by replace (cx_now context + - vf_clock_skew_tolerance v)%Z with (cx_now context - vf_clock_skew_tolerance v)%Z by lia. }
  left. revert e He. change (refusing (fail_if v (pc_expires_at pccb <? u)%Z "PROOF_EXPIRED" false)). repeat refusing_step.
Qed.

Lemma authority_ends pccb e : check_authority v pccb = Err e ->
  proof_refusal e \/
  exists a, e = KeyError "revocable" /\ has_key "authority" (pc_extensions pccb) = true /\
    parse_authority_extension (pc_extensions pccb) = Some a /\ has_key "revocable" a = false.
Proof.
  unfold check_authority. destruct (has_key "authority" (pc_extensions pccb)); [|done].
  destruct (parse_authority_extension _) as [a|] eqn:Hp.
  - destruct (assoc "revocable" a) eqn:Ha; [done|]. intros [= <-]. right. exists a. split_and!; try done. unfold has_key. by rewrite Ha.
  - intros He. left. revert e He. match goal with |- forall e, ?m = Err e -> _ => change (refusing m) end. repeat refusing_step.
Qed.

Lemma revocation_ends pccb context e : check_revocation v pccb context = Err e ->
  proof_refusal e \/
  exists a, e = KeyError "revocable" /\ has_key "authority" (pc_extensions pccb) = true /\
    parse_authority_extension (pc_extensions pccb) = Some a /\ has_key "revocable" a = false.
Proof.
  unfold check_revocation. intros [He|(r & _ & He)]%bind_Err; [by apply authority_ends|]. left. revert e He.
  match goal with |- forall e, ?m = Err e -> _ => change (refusing m) end.
  destruct (vf_revocation_checker v) as [checker|]; [destruct (checker pccb context) as [[]|]|destruct r]; repeat refusing_step.
Qed.

(** Before authentication there is one answer of [verify]'s own outside local-debug mode. *)
Lemma pre_auth_ends pccb e : pre_auth v pccb = Err e ->
  (proof_refusal e /\ (vf_disclosure_mode v <> LOCAL_DEBUG -> e = PROOF_INVALID_exn)) \/ signer_raises pccb e.
Proof.
  assert (forall A code, code ∈ PUBLIC_PROOF_REFUSAL_MESSAGES.*1 -> @_raise_pre_auth_failure v A code = Err e ->
    (proof_refusal e /\ (vf_disclosure_mode v <> LOCAL_DEBUG -> e = PROOF_INVALID_exn)) \/ signer_raises pccb e) as Hpre.
  { intros A code Hc. unfold _raise_pre_auth_failure. case_bool_decide as Hm.
    - intros He. left. split; [|done]. split; [|congruence].
      apply bind_Err in He as [He|(m & _ & [= <-])]; [|eauto].
      unfold public_proof_refusal_message in He. destruct (assoc code _) eqn:Ha; [done|]. by apply assoc_None_keys in Ha.
    - intros [= <-]. left. split; [split; [|done]|done]. eexists _, _. split; [done|]. known_code. }
  unfold pre_auth. cbv zeta. rewrite contract_of_payload. cbn -[canonical_bytes_of unsigned_payload].
  intros [He|([] & _ & He)]%bind_Err.
  { unfold _validate_signature_structure in He.
    destruct (str_truthy _); simpl in He; [destruct (String.eqb _ _); [done|]|]; (eapply Hpre; [|exact He]; known_code). }
  apply bind_Err in He as [He|(payload & Hp & He)].
  { destruct (canonical_bytes_of _) as [b|e'] eqn:Hc; [done|].
    rewrite (canonicalize_bytes_error_kind _ _ Hve e' Hc) in He. eapply Hpre; [|exact He]. known_code. }
  apply bind_Err in He as [He|(b & Hb & He)].
  { right. exists payload. split; [|done].
    destruct (canonical_bytes_of _) as [b|e'] eqn:Hc; [by injection Hp as ->|]. destruct (is_type_or_value_error e'); [|done].
    by apply raise_pre_not_ok in Hp. }
  destruct b; [done|]. eapply Hpre; [|exact He]. known_code.
Qed.

Lemma pre_auth_refusal pccb e : signer_answers pccb -> pre_auth v pccb = Err e ->
  proof_refusal e /\ (vf_disclosure_mode v <> LOCAL_DEBUG -> e = PROOF_INVALID_exn).
Proof. intros Hs [?|(payload & _ & He)]%pre_auth_ends; [done|]. destruct (Hs payload). congruence. Qed.

(** What [verify] raises is a refusal of its own or an error of its environment. *)
Lemma verify_ends intent pccb context e : verify v intent pccb context = Err e ->
  proof_refusal e \/ environment_error pccb context e.
Proof.
  unfold verify, post_auth. intros [He|([] & _ & He)]%bind_Err.
  { apply pre_auth_ends in He as [[? _]|He]; [by left|]. right. by apply signer_raised. }
  apply bind_Err in He as [[He|[-> He]]%time_ends|([] & _ & He)]; [by left|by right; apply clock_overflowed|].
  apply bind_Err in He as [He%refusing_bindings|([] & _ & He)]; [by left|].
  apply bind_Err in He as [He%refusing_hash|([] & _ & He)]; [by left|].
  apply bind_Err in He as [He%refusing_constraints|([] & _ & He)]; [by left|].
  apply bind_Err in He as [He%refusing_selectors|([] & _ & He)]; [by left|].
  apply revocation_ends in He as [?|(a & -> & ? & ? & ?)]; [by left|]. right. by eapply authority_lacks_revocable.
Qed.

Lemma verify_refusal intent pccb context : signer_answers pccb -> clock_in_range context -> authority_has_revocable pccb ->
  refusing (verify v intent pccb context).
Proof.
  intros Hs Hc Ha e [He|[(payload & _ & He)|_ He|a _ _ Hp Hr]]%verify_ends; [done|..].
  - destruct (Hs payload). congruence.
  - done.
  - specialize (Ha a Hp). congruence.
Qed.

(** A signature verifier that raises on a well-structured proof ends [verify] with
    its own exception: it is not turned into a refusal. *)
Lemma signer_error_escapes intent pccb context e :
  sig_value (pc_signature pccb) <> "" -> sig_encoding (pc_signature pccb) = "base64url" -> signer_raises pccb e ->
  verify v intent pccb context = Err e.
Proof.
  intros Hv Hen (payload & Hp & Hs). unfold verify, pre_auth. cbv zeta. rewrite contract_of_payload.
  cbn -[canonical_bytes_of unsigned_payload]. unfold _validate_signature_structure, str_truthy. rewrite negb_involutive.
  rewrite (proj2 (String.eqb_neq _ _)), Hen by done. cbn -[canonical_bytes_of unsigned_payload]. rewrite Hp.
  cbn -[canonical_bytes_of unsigned_payload]. unfold signer_result in Hs. by rewrite Hs.
Qed.
End Refusals.

(** ** Minted proofs verify *)
Section MintVerify.
Context `{Protocol} `{ProtocolAuthority}.

(** The signer's contract: what [sign] returns is base64url, not empty, and the
    verifier's signature check accepts it on the same bytes. *)
Definition signer_matches (sg : Signer) (v : PCCBVerifier) : Prop :=
  forall payload sig, sg_sign sg payload = Ok sig ->
    sig_value sig <> "" /\ sig_encoding sig = "base64url" /\
    forall issuer issued_at,
      match sv_verify_with_metadata (vf_signer v) with
      | Some verify => verify payload sig issuer issued_at
      | None => sv_verify (vf_signer v) payload sig
      end = Ok true.

Lemma same_canonical_part (d : dict) k x s : (k, x) ∈ d -> canonical_bytes_of (JDict d) = Ok s -> same_canonical x x.
Proof. intros Hin Hc. destruct (canonicalize_bytes_part d k x _ s Hin Hc) as [s' Hs']. by exists s'. Qed.

Lemma mint_Ok m pccb_id nonce intent decision context escrow_id extensions pccb :
  mint m pccb_id nonce intent decision context escrow_id extensions = Ok pccb ->
  allowed decision = true /\
  exists capabilities hash_value payload sig,
    scope_capabilities_for_mint (cx_scope_capabilities context) = Ok capabilities /\
    sha256_hex (JDict (build_action_hash_input intent)) = Ok hash_value /\
    canonical_bytes_of (JDict (unsigned_payload pccb)) = Ok payload /\
    sg_sign (mt_signer m) payload = Ok sig /\
    pccb = mkPCCB pccb_id (cx_now context) (cx_now context) (in_expires_at intent) (mt_issuer m) (in_requester intent)
        (in_tenant intent) (cx_audience context) (in_action intent) (in_target intent)
        (mkScopeSpec "exact" (sorted_set capabilities) true (cx_resource_selectors context) (cx_parameter_constraints context))
        nonce (mkActionHashSpec "sha-256" CANONICALIZATION_PROFILE hash_value) sig
        (JStr (in_intent_id intent)) escrow_id extensions.
Proof.
  unfold mint. destruct (allowed decision); [|done]. cbv zeta. intros Hm. split; [done|].
  apply bind_Ok in Hm as (caps & Hcaps & Hm). apply bind_Ok in Hm as (h & Hh & Hm).
  apply bind_Ok in Hm as (payload & Hp & Hm). apply bind_Ok in Hm as (sig & Hs & Hm).
  apply bind_Ok in Hm as ([] & _ & [= <-]). exists caps, h, payload, sig. done.
Qed.


(** A minted proof is accepted in any context that asks no more than it grants. *)
Lemma mint_accepted_in m v pccb_id nonce intent decision context escrow_id extensions pccb c :
  mint m pccb_id nonce intent decision context escrow_id extensions = Ok pccb ->
  signer_matches (mt_signer m) v ->
  CANONICALIZATION_PROFILE ∈ ACCEPTED_CANONICALIZATION_PROFILES ->
  cx_audience c = cx_audience context -> clock_in_range v c ->
  (cx_now context <= cx_now c + vf_clock_skew_tolerance v)%Z -> (cx_now c - vf_clock_skew_tolerance v <= in_expires_at intent)%Z ->
  match vf_boundary_id v with Some b => aud_id (cx_audience context) = b | None => True end ->
  capability_in_scope (act_capability (in_action intent)) (sc_capabilities (pc_scope pccb)) = true ->
  capability_in_scope (act_capability (in_action intent)) (cx_scope_capabilities c) = true ->
  Forall (fun kv => assoc kv.1 (cx_parameter_constraints context) = Some kv.2) (cx_parameter_constraints c) ->
  (cx_resource_selectors c <> [] -> Exists (selector_satisfied (in_target intent)) (cx_resource_selectors c)) ->
  has_key "authority" extensions = false ->
  match vf_revocation_checker v with Some checker => checker pccb c = Ok true | None => True end ->
  proof_accepted v intent pccb c.
Proof.
  intros Hm Hsig Hprof Haud Hclock Hnb Hexp Hb Hcap Hedge Hnd Hsel Hauth Hrev.
  apply mint_Ok in Hm as (_ & caps & h & payload & sig & _ & Hh & Hp & Hs & Hpccb).
  destruct (Hsig payload sig Hs) as (Hval & Henc & Hver).
  assert (forall k x, assoc k (unsigned_payload pccb) = Some x -> same_canonical x x) as Hpart.
  { intros k x Hk. eapply same_canonical_part; [by apply assoc_Some_elem|exact Hp]. }
  assert (exists s, canonical_bytes_of (JDict (ScopeSpec_to_dict (pc_scope pccb))) = Ok s) as [ss Hss].
  { destruct (Hpart "scope" (JDict (ScopeSpec_to_dict (pc_scope pccb))) eq_refl) as (s & Hs' & _). by exists s. }
  assert (Forall (fun kv : string * json => same_canonical kv.2 kv.2) (cx_parameter_constraints context)) as Hcons.
  { apply Forall_forall. intros [k x] Hin.
    assert (assoc "parameter_constraints" (ScopeSpec_to_dict (pc_scope pccb)) = Some (JDict (cx_parameter_constraints context))) as Hpc.
    { subst pccb. unfold ScopeSpec_to_dict. cbn [pc_scope sc_parameter_constraints sc_resource_selectors].
      rewrite !assoc_app, !assoc_opt_item. by destruct (cx_parameter_constraints context); [apply not_elem_of_nil in Hin|]. }
    destruct (canonicalize_bytes_part _ _ _ _ _ (assoc_Some_elem _ _ _ Hpc) Hss) as [s2 Hs2].
    by eapply same_canonical_part; [exact Hin|exact Hs2]. }
  subst pccb. constructor; cbn [pc_signature pc_not_before pc_expires_at pc_audience pc_target pc_scope sc_mode sc_single_use
    sc_capabilities pc_intent_id pc_tenant pc_subject pc_action pc_action_hash ah_algorithm ah_canonicalization ah_value
    sc_parameter_constraints pc_extensions] in *; try done.
  - by exists payload.
  - rewrite Haud. by apply (Hpart "audience").
  - by apply (Hpart "target").
  - by apply (Hpart "tenant").
  - by apply (Hpart "subject").
  - by apply (Hpart "action").
  - rewrite Forall_forall in Hcons, Hnd |- *. intros [k x] Hin. apply Hnd in Hin. exists x. split; [done|]. by apply (Hcons _ (assoc_Some_elem _ _ _ Hin)).
  - exists false. unfold authority_status. cbn [pc_extensions]. rewrite Hauth. by destruct (vf_revocation_checker v).
Qed.

Lemma mint_accepted m v pccb_id nonce intent decision context escrow_id extensions pccb :
  mint m pccb_id nonce intent decision context escrow_id extensions = Ok pccb ->
  signer_matches (mt_signer m) v ->
  CANONICALIZATION_PROFILE ∈ ACCEPTED_CANONICALIZATION_PROFILES ->
  (0 <= vf_clock_skew_tolerance v)%Z -> clock_in_range v context ->
  (cx_now context - vf_clock_skew_tolerance v <= in_expires_at intent)%Z ->
  match vf_boundary_id v with Some b => aud_id (cx_audience context) = b | None => True end ->
  capability_in_scope (act_capability (in_action intent)) (sc_capabilities (pc_scope pccb)) = true ->
  capability_in_scope (act_capability (in_action intent)) (cx_scope_capabilities context) = true ->
  NoDup (cx_parameter_constraints context).*1 ->
  (cx_resource_selectors context <> [] -> Exists (selector_satisfied (in_target intent)) (cx_resource_selectors context)) ->
  has_key "authority" extensions = false ->
  match vf_revocation_checker v with Some checker => checker pccb context = Ok true | None => True end ->
  proof_accepted v intent pccb context.
Proof.
  intros Hm Hsig Hprof Hskew Hclock Hexp Hb Hcap Hedge Hnd Hsel Hauth Hrev.
  eapply mint_accepted_in; try done; [lia|]. apply Forall_forall. intros [k x] Hin. by apply elem_assoc.
Qed.

(** ** An accepted proof pins the intent *)
Lemma same_canonical_norm a b : same_canonical a b -> json_norm a = json_norm b.
Proof.
  intros (s & Ha & Hb). apply canonicalize_bytes_Ok in Ha as [Ha _], Hb as [Hb _].
  pose proof (decode_canon _ _ Ha). pose proof (decode_canon _ _ Hb). congruence.
Qed.

(** The hash does not collide on the canonical bytes of these two values. *)
Definition no_collision (a b : json) : Prop :=
  forall x y, canonical_bytes_of a = Ok x -> canonical_bytes_of b = Ok y ->
    sha256_hexdigest x = sha256_hexdigest y -> x = y.

Lemma hash_input_keys i : NoDup (build_action_hash_input i).*1.
Proof. apply (bool_decide_unpack _). vm_compute. exact I. Qed.

Lemma sha256_hex_same a b h : sha256_hex a = Ok h -> sha256_hex b = Ok h -> no_collision a b -> json_norm a = json_norm b.
Proof.
  intros (s & Hs & ->)%sha256_hex_Ok (s' & Hs' & He)%sha256_hex_Ok Hcol.
  apply same_canonical_norm. exists s. split; [done|]. by rewrite (Hcol s s' Hs Hs' He).
Qed.

Lemma hash_input_norm i i' h :
  sha256_hex (JDict (build_action_hash_input i)) = Ok h -> sha256_hex (JDict (build_action_hash_input i')) = Ok h ->
  no_collision (JDict (build_action_hash_input i)) (JDict (build_action_hash_input i')) ->
  json_norm (JDict (build_action_hash_input i)) = json_norm (JDict (build_action_hash_input i')).
Proof. apply sha256_hex_same. Qed.

Lemma hash_input_pins i i' :
  json_norm (JDict (build_action_hash_input i)) = json_norm (JDict (build_action_hash_input i')) ->
  in_intent_id i = in_intent_id i' /\
  format_timestamp (in_issued_at i) = format_timestamp (in_issued_at i') /\
  format_timestamp (in_expires_at i) = format_timestamp (in_expires_at i') /\
  json_norm (JDict (TenantRef_to_dict (in_tenant i))) = json_norm (JDict (TenantRef_to_dict (in_tenant i'))) /\
  json_norm (JDict (PartyRef_to_dict (in_requester i))) = json_norm (JDict (PartyRef_to_dict (in_requester i'))) /\
  json_norm (JDict (ActionSpec_to_dict (in_action i))) = json_norm (JDict (ActionSpec_to_dict (in_action i'))) /\
  json_norm (JDict (TargetRef_to_dict (in_target i))) = json_norm (JDict (TargetRef_to_dict (in_target i'))).
Proof.
  intros He.
  pose proof (fun k => json_norm_assoc _ _ k (hash_input_keys i) (hash_input_keys i') He) as Hk.
  pose proof (Hk "intent_id") as H1. pose proof (Hk "issued_at") as H2. pose proof (Hk "expires_at") as H3.
  pose proof (Hk "tenant") as H4. pose proof (Hk "requester") as H5. pose proof (Hk "action") as H6. pose proof (Hk "target") as H7.
  cbn -[json_norm format_timestamp TenantRef_to_dict PartyRef_to_dict ActionSpec_to_dict TargetRef_to_dict] in *.
  simpl in H1, H2, H3. split_and!; congruence.
Qed.
End MintVerify.

(** ** The signature covers every field *)
Lemma unsigned_payload_keys p : NoDup (unsigned_payload p).*1.
Proof.
  unfold unsigned_payload. destruct (not_none (pc_intent_id p)), (not_none (pc_escrow_id p)), (dict_truthy (pc_extensions p));
    apply (bool_decide_unpack _); vm_compute; exact I.
Qed.

Lemma optional_norm a b :
  json_norm <$> (if not_none a then Some a else None) = json_norm <$> (if not_none b then Some b else None) ->
  json_norm a = json_norm b.
Proof. destruct a, b; simpl; congruence. Qed.

Lemma optional_dict_norm a b :
  json_norm <$> (if dict_truthy a then Some (JDict a) else None) = json_norm <$> (if dict_truthy b then Some (JDict b) else None) ->
  json_norm (JDict a) = json_norm (JDict b).
Proof. destruct a, b; simpl; congruence. Qed.

Record same_signed_fields (p q : PCCB) : Prop := {
  ssf_pccb_id : pc_pccb_id p = pc_pccb_id q;
  ssf_issued_at : pc_issued_at p = pc_issued_at q;
  ssf_not_before : pc_not_before p = pc_not_before q;
  ssf_expires_at : pc_expires_at p = pc_expires_at q;
  ssf_issuer : json_norm (JDict (PartyRef_to_dict (pc_issuer p))) = json_norm (JDict (PartyRef_to_dict (pc_issuer q)));
  ssf_subject : json_norm (JDict (PartyRef_to_dict (pc_subject p))) = json_norm (JDict (PartyRef_to_dict (pc_subject q)));
  ssf_tenant : json_norm (JDict (TenantRef_to_dict (pc_tenant p))) = json_norm (JDict (TenantRef_to_dict (pc_tenant q)));
  ssf_audience : json_norm (JDict (AudienceRef_to_dict (pc_audience p))) = json_norm (JDict (AudienceRef_to_dict (pc_audience q)));
  ssf_action : json_norm (JDict (ActionSpec_to_dict (pc_action p))) = json_norm (JDict (ActionSpec_to_dict (pc_action q)));
  ssf_target : json_norm (JDict (TargetRef_to_dict (pc_target p))) = json_norm (JDict (TargetRef_to_dict (pc_target q)));
  ssf_scope : json_norm (JDict (ScopeSpec_to_dict (pc_scope p))) = json_norm (JDict (ScopeSpec_to_dict (pc_scope q)));
  ssf_nonce : pc_nonce p = pc_nonce q;
  ssf_action_hash : pc_action_hash p = pc_action_hash q;
  ssf_intent_id : json_norm (pc_intent_id p) = json_norm (pc_intent_id q);
  ssf_escrow_id : json_norm (pc_escrow_id p) = json_norm (pc_escrow_id q);
  ssf_extensions : json_norm (JDict (pc_extensions p)) = json_norm (JDict (pc_extensions q))
}.

Lemma unsigned_payload_norm_inj p q :
  datetime_ok (pc_issued_at p) -> datetime_ok (pc_not_before p) -> datetime_ok (pc_expires_at p) ->
  datetime_ok (pc_issued_at q) -> datetime_ok (pc_not_before q) -> datetime_ok (pc_expires_at q) ->
  json_norm (JDict (unsigned_payload p)) = json_norm (JDict (unsigned_payload q)) -> same_signed_fields p q.
Proof.
  intros Hi Hn Hx Hi' Hn' Hx' He.
  pose proof (fun k => json_norm_assoc _ _ k (unsigned_payload_keys p) (unsigned_payload_keys q) He) as Hk.
  assert (forall r, assoc "escrow_reference" (unsigned_payload r) =
    if not_none (pc_escrow_id r) then Some (JDict [("escrow_id", pc_escrow_id r); ("single_use", JBool (sc_single_use (pc_scope r)))]) else None) as Hes.
  { intros r. unfold unsigned_payload. rewrite !assoc_app, !assoc_opt_item. simpl. by destruct (not_none (pc_escrow_id r)). }
  assert (forall r, assoc "intent_id" (unsigned_payload r) = if not_none (pc_intent_id r) then Some (pc_intent_id r) else None) as Hin.
  { intros r. unfold unsigned_payload. rewrite !assoc_app, !assoc_opt_item. simpl. by destruct (not_none (pc_intent_id r)). }
  assert (forall r, assoc "extensions" (unsigned_payload r) = if dict_truthy (pc_extensions r) then Some (JDict (pc_extensions r)) else None) as Hext.
  { intros r. unfold unsigned_payload. by rewrite !assoc_app, !assoc_opt_item. }
  assert (forall t t', datetime_ok t -> datetime_ok t' -> Some (JStr (format_timestamp t)) = Some (JStr (format_timestamp t')) -> t = t') as Ht.
  { intros t t' ?? Hf. apply format_timestamp_inj; [done|done|congruence]. }
  constructor; try (apply Ht; [done|done|]).
  - by injection (Hk "pccb_id").
  - exact (Hk "issued_at").
  - exact (Hk "not_before").
  - exact (Hk "expires_at").
  - exact (Some_inj _ _ (Hk "issuer")).
  - exact (Some_inj _ _ (Hk "subject")).
  - exact (Some_inj _ _ (Hk "tenant")).
  - exact (Some_inj _ _ (Hk "audience")).
  - exact (Some_inj _ _ (Hk "action")).
  - exact (Some_inj _ _ (Hk "target")).
  - exact (Some_inj _ _ (Hk "scope")).
  - by injection (Hk "nonce").
  - pose proof (Hk "action_hash") as Ha. injection Ha. destruct (pc_action_hash p), (pc_action_hash q). simpl. congruence.
  - apply optional_norm. pose proof (Hk "intent_id") as Hr. by rewrite !Hin in Hr.
  - pose proof (Hk "escrow_reference") as Hr. rewrite !Hes in Hr.
    destruct (not_none (pc_escrow_id p)) eqn:Hp, (not_none (pc_escrow_id q)) eqn:Hq; try discriminate Hr.
    + apply Some_inj in Hr. assert (forall r : PCCB, NoDup ([("escrow_id", pc_escrow_id r); ("single_use", JBool (sc_single_use (pc_scope r)))]).*1) as Hnd
        by (intros r; apply (bool_decide_unpack _); vm_compute; exact I).
      pose proof (json_norm_assoc _ _ "escrow_id" (Hnd p) (Hnd q) Hr) as Hx2. simpl in Hx2. congruence.
    + destruct (pc_escrow_id p), (pc_escrow_id q); done.
  - apply optional_dict_norm. pose proof (Hk "extensions") as Hr. by rewrite !Hext in Hr.
Qed.

(** ** Sample proof *)
Definition sample_authority : ProtocolAuthority := {|
  capability_in_scope c l := str_mem c l;
  scope_capabilities_for_mint l := Ok l;
  parse_authority_extension d := match dget d "authority" with JDict a => Some a | _ => None end
|}.

(** A keyed checksum stands for a signature scheme. *)
Definition sample_tag (payload : string) : string := "tag:" +:+ String.substring 0 16 payload.
Definition sample_signer : Signer :=
  mkSigner "HS256" "k1" (fun payload => Ok (mkSignatureSpec "HS256" "k1" "base64url" (sample_tag payload))).
Definition sample_signature_verifier : SignatureVerifier :=
  mkSignatureVerifier (fun payload s => Ok (String.eqb (sig_value s) (sample_tag payload))) None.
Definition sample_verifier (mode : VerifierDisclosureMode) : PCCBVerifier :=
  mkPCCBVerifier sample_signature_verifier 0 mode None (Some "refunds-api") None.
Definition sample_minter : PCCBMinter := mkPCCBMinter sample_signer sample_issuer None.
Definition sample_decision : PolicyDecision := mkPolicyDecision Allow "allowed" [] [] [] [].
Definition sample_mint : py PCCB :=
  @mint demo_protocol sample_authority sample_minter "pccb_1" "nonce-1" sample_intent sample_decision sample_context
    (JStr "esc_1") [].
Definition sample_pccb : PCCB :=
  Eval vm_compute in match sample_mint with
  | Ok p => p
  | Err _ => mkPCCB "" 0 0 0 sample_issuer sample_agent sample_tenant sample_audience sample_action sample_target
               (mkScopeSpec "" [] false [] []) "" (mkActionHashSpec "" "" "") (mkSignatureSpec "" "" "" "") JNull JNull []
  end.

Lemma sample_mint_Ok : sample_mint = Ok sample_pccb.
Proof. vm_compute. reflexivity. Qed.

(** ** Properties *)

(** C9: [PCCBVerifier.verify] returns normally exactly on the proofs the
    specification [proof_accepted] describes: a valid signature over the canonical
    unsigned payload, the time window, the audience, boundary, target, scope,
    capability, intent, tenant, subject, action and action-hash bindings, the
    edge's constraints and selectors, and the revocation status. *)
Theorem verify_exact `{Protocol} `{ProtocolAuthority} (v : PCCBVerifier) (intent : ActionIntent) (pccb : PCCB)
    (context : DynamicContextInput) :
  canonicalisation_error_is_value_error = true ->
  verify v intent pccb context = Ok tt <-> proof_accepted v intent pccb context.
Proof. intros Hve. by apply verify_Ok. Qed.

Lemma verify_exact_witness :
  @verify demo_protocol sample_authority (sample_verifier TRUSTED_DETAILED) sample_intent sample_pccb sample_context = Ok tt
  <-> @proof_accepted demo_protocol sample_authority (sample_verifier TRUSTED_DETAILED) sample_intent sample_pccb sample_context.
Proof. apply (@verify_exact demo_protocol sample_authority). reflexivity. Defined.


Definition forged_pccb : PCCB := with_signature sample_pccb (mkSignatureSpec "HS256" "k1" "base64url" "forged").



Definition sample_late : DynamicContextInput :=
  mkContext "req_1" sample_audience ["payments.refund"] (sample_now + 700000000)%Z [] [] [] [] [] None.

(** A verifier whose signature check raises. *)
Definition raising_verifier : PCCBVerifier :=
  mkPCCBVerifier (mkSignatureVerifier (fun _ _ => Err (ValueError "malformed key document")) None) 0 PUBLIC_GENERIC None None None.


(** A proof minted by [PCCBMinter.mint] for an intent is accepted by [verify]
    for that intent in the context it was minted in, until it expires: the two
    operations agree on what is hashed, what is signed and what is bound. *)
Theorem minted_proof_verifies `{Protocol} `{ProtocolAuthority} (m : PCCBMinter) (v : PCCBVerifier) (pccb_id nonce : string)
    (intent : ActionIntent) (decision : PolicyDecision) (context : DynamicContextInput) (escrow_id : json)
    (extensions : dict) (pccb : PCCB) :
  canonicalisation_error_is_value_error = true ->
  mint m pccb_id nonce intent decision context escrow_id extensions = Ok pccb ->
  signer_matches (mt_signer m) v ->
  CANONICALIZATION_PROFILE ∈ ACCEPTED_CANONICALIZATION_PROFILES ->
  (0 <= vf_clock_skew_tolerance v)%Z -> clock_in_range v context ->
  (cx_now context - vf_clock_skew_tolerance v <= in_expires_at intent)%Z ->
  match vf_boundary_id v with Some b => aud_id (cx_audience context) = b | None => True end ->
  capability_in_scope (act_capability (in_action intent)) (sc_capabilities (pc_scope pccb)) = true ->
  capability_in_scope (act_capability (in_action intent)) (cx_scope_capabilities context) = true ->
  NoDup (cx_parameter_constraints context).*1 ->
  (cx_resource_selectors context <> [] -> Exists (selector_satisfied (in_target intent)) (cx_resource_selectors context)) ->
  has_key "authority" extensions = false ->
  match vf_revocation_checker v with Some checker => checker pccb context = Ok true | None => True end ->
  verify v intent pccb context = Ok tt.
Proof. intros Hve; intros. apply verify_Ok; [done|]. by eapply mint_accepted. Qed.

Lemma sample_signer_matches mode : @signer_matches sample_signer (sample_verifier mode).
Proof. intros payload sig Hs. simpl in Hs. injection Hs as <-. split_and!; [done|done|]. intros issuer issued_at. simpl. by rewrite String.eqb_refl. Qed.

Lemma minted_proof_verifies_witness :
  @verify demo_protocol sample_authority (sample_verifier TRUSTED_DETAILED) sample_intent sample_pccb sample_context = Ok tt.
Proof.
  apply (@minted_proof_verifies demo_protocol sample_authority sample_minter (sample_verifier TRUSTED_DETAILED) "pccb_1" "nonce-1"
    sample_intent sample_decision sample_context (JStr "esc_1") [] sample_pccb); try reflexivity.
  - apply sample_signer_matches.
  - left.
  - vm_compute; repeat split; congruence.
  - vm_compute; congruence.
  - apply (bool_decide_unpack _). vm_compute. exact I.
  - intros _. left. split; [done|]. repeat constructor; eexists; (split; [reflexivity|eexists; split; vm_compute; reflexivity]).
Defined.

(** C32: one proof authorises one action: if [verify] accepts the same proof for two
    intents, and the hash does not collide on their two hash inputs, the intents
    have the same id and validity times, and the same tenant, requester, action
    (parameters included) and target up to the order of object keys. *)
Theorem proof_pins_intent `{Protocol} `{ProtocolAuthority} (v v' : PCCBVerifier) (i i' : ActionIntent) (pccb : PCCB)
    (context context' : DynamicContextInput) :
  canonicalisation_error_is_value_error = true ->
  verify v i pccb context = Ok tt -> verify v' i' pccb context' = Ok tt ->
  no_collision (JDict (build_action_hash_input i)) (JDict (build_action_hash_input i')) ->
  ActionIntent_wf i -> ActionIntent_wf i' ->
  in_intent_id i = in_intent_id i' /\ in_issued_at i = in_issued_at i' /\ in_expires_at i = in_expires_at i' /\
  json_norm (JDict (TenantRef_to_dict (in_tenant i))) = json_norm (JDict (TenantRef_to_dict (in_tenant i'))) /\
  json_norm (JDict (PartyRef_to_dict (in_requester i))) = json_norm (JDict (PartyRef_to_dict (in_requester i'))) /\
  json_norm (JDict (ActionSpec_to_dict (in_action i))) = json_norm (JDict (ActionSpec_to_dict (in_action i'))) /\
  json_norm (JDict (TargetRef_to_dict (in_target i))) = json_norm (JDict (TargetRef_to_dict (in_target i'))).
Proof.
  intros Hve Hv Hv' Hcol (Hi & He & _) (Hi' & He' & _).
  apply verify_Ok in Hv as Ha; [|done]. apply verify_Ok in Hv' as Ha'; [|done].
  pose proof (hash_input_pins i i' (hash_input_norm _ _ _ (acc_hash _ _ _ _ Ha) (acc_hash _ _ _ _ Ha') Hcol)) as Hp.
  destruct_and!. split_and!; try done; by apply format_timestamp_inj.
Qed.

Lemma sample_intent_wf : ActionIntent_wf sample_intent.
Proof. vm_compute. repeat split; congruence. Qed.

(** The sample intent as another client writes it: its parameters in the other
    order, and a different justification and metadata, which the proof leaves open. *)
Definition reordered_intent : ActionIntent :=
  mkActionIntent "intent_1" sample_now (sample_now + 600000000)%Z sample_tenant sample_agent
    (mkActionSpec "refund" "payments.refund" [("currency", JStr "EUR"); ("amount", JInt 1250)] [] [])
    sample_target (JStr "idem-1") (JStr "duplicate charge") [] [] [("client", JStr "cli")] [].

Lemma reordered_no_collision :
  @no_collision demo_protocol (JDict (build_action_hash_input sample_intent)) (JDict (build_action_hash_input reordered_intent)).
Proof. intros x y Hx Hy _. vm_compute in Hx, Hy. congruence. Qed.

Lemma proof_pins_intent_witness :
  sample_intent <> reordered_intent /\ in_action sample_intent <> in_action reordered_intent /\
  in_issued_at sample_intent = in_issued_at reordered_intent /\
  json_norm (JDict (ActionSpec_to_dict (in_action sample_intent))) = json_norm (JDict (ActionSpec_to_dict (in_action reordered_intent))).
Proof.
  split; [discriminate|]. split; [discriminate|].
  destruct (@proof_pins_intent demo_protocol sample_authority (sample_verifier TRUSTED_DETAILED) (sample_verifier LOCAL_DEBUG)
    sample_intent reordered_intent sample_pccb sample_context sample_context) as (_ & Hi & _ & _ & _ & Ha & _);
    [reflexivity|vm_compute; reflexivity|vm_compute; reflexivity|apply reordered_no_collision|apply sample_intent_wf
    |vm_compute; repeat split; congruence|].
  split; [exact Hi|exact Ha].
Defined.

(** The signature covers every field of the proof: two proofs whose unsigned
    payloads have the same canonical bytes agree on every signed field, up to the
    order of object keys, so changing any field changes the bytes that were
    signed. *)
Theorem signature_covers_fields `{Protocol} (p q : PCCB) :
  same_canonical (JDict (unsigned_payload p)) (JDict (unsigned_payload q)) ->
  PCCB_wf p -> PCCB_wf q -> same_signed_fields p q.
Proof.
  intros Hs%same_canonical_norm (Hi & Hn & Hx & _) (Hi' & Hn' & Hx' & _). by apply unsigned_payload_norm_inj.
Qed.

Lemma signature_covers_fields_witness : same_signed_fields sample_pccb forged_pccb.
Proof.
  apply (@signature_covers_fields demo_protocol).
  - eexists. split; vm_compute; reflexivity.
  - vm_compute. repeat split; congruence.
  - vm_compute. repeat split; congruence.
Defined.

(** The fail-closed construction of a verifier: a negative tolerance is
    refused, local-debug mode is refused in every environment whose name is not
    one of the listed local ones, and the default mode is always constructible. *)
Theorem verifier_construction (env : option string) (v : PCCBVerifier) :
  (PCCBVerifier_init env v = Ok v <->
   (0 <= vf_clock_skew_tolerance v)%Z /\
   (vf_disclosure_mode v = LOCAL_DEBUG ->
    ascii_lower (py_strip (default "" env)) ∈ _LOCAL_DEBUG_ALLOWED_ENVS)) /\
  (vf_disclosure_mode v = default_disclosure_mode env -> (0 <= vf_clock_skew_tolerance v)%Z ->
   PCCBVerifier_init env v = Ok v).
Proof.
  unfold PCCBVerifier_init, default_disclosure_mode, _is_production_like_env.
  rewrite <- str_mem_spec. generalize (str_mem (ascii_lower (py_strip (default "" env))) _LOCAL_DEBUG_ALLOWED_ENVS) as ok. intros ok.
  destruct (Z.ltb_spec (vf_clock_skew_tolerance v) 0).
  - split; [split; [done|lia]|lia].
  - case_bool_decide as Hm; destruct ok; simpl; intuition congruence.
Qed.
