(* ===== verification/Policy.v ===== *)
(** * The policy engine: [actenon/policy/engine.py]

    Hard rules, the tenant workflow layer and how [PolicyEngine.evaluate] combines
    their evaluations.  A rule is a record of its identifier and its [evaluate]
    method, which may raise; the built-in rules are instances.

    The theorems: the decision is the most restrictive verdict (a denial first,
    then missing evidence, then approvals, and an allowance only when nothing else
    fired), nothing is allowed by default, the decision does not depend on the
    order of the rules, and what an allowance means under the built-in hard
    rules. *)

From S2P Require Import Prelude Text Json Errors Timestamps Canonical Contracts Runtime Samples ProofService.

Record PolicyRule := mkRule {
  rule_id : string;
  evaluate : ActionIntent -> DynamicContextInput -> py (option RuleEvaluation)
}.

(** [RuleEvaluation(rule_id, outcome, reason_code, summary)] *)
Definition evaluation (id : string) (o : PolicyOutcome) (code summary : string) : RuleEvaluation :=
  mkRuleEvaluation id o code summary [] [] [].

(** ** The built-in rules *)
Definition IntentChronologyHardRule : PolicyRule :=
  let id := "hard.intent.chronology" in
  mkRule id (fun intent context =>
    Ok (if (cx_now context <? in_issued_at intent)%Z
        then Some (evaluation id Deny "INTENT_ISSUED_IN_FUTURE" "The action intent was issued in the future.")
        else if (in_expires_at intent <=? cx_now context)%Z
        then Some (evaluation id Deny "INTENT_EXPIRED" "The action intent has expired.")
        else None)).

(** The largest number of whole seconds a [timedelta] holds. *)
Definition TIMEDELTA_MAX_SECONDS : Z := 86399999999999.

Definition IntentTtlHardRule (default_max_ttl_seconds : Z) : PolicyRule :=
  let id := "hard.intent.ttl" in
  mkRule id (fun intent context =>
    let max_ttl_seconds := default default_max_ttl_seconds (cx_max_ttl_seconds context) in
    if (max_ttl_seconds <=? 0)%Z
    then Ok (Some (evaluation id Deny "INVALID_MAX_TTL" "The runtime max TTL configuration is invalid."))
    else if (TIMEDELTA_MAX_SECONDS <? max_ttl_seconds)%Z then Err OverflowError
    else if (max_ttl_seconds * US_PER_SECOND <? in_expires_at intent - in_issued_at intent)%Z
    then Ok (Some (mkRuleEvaluation id Deny "INTENT_TTL_EXCEEDED" "The action intent exceeds the configured maximum lifetime."
                     [("max_ttl_seconds", JInt max_ttl_seconds)] [] []))
    else Ok None).

Definition CapabilityScopeHardRule : PolicyRule :=
  let id := "hard.scope.capability" in
  mkRule id (fun intent context =>
    Ok (match cx_scope_capabilities context with
        | [] => None
        | scope =>
            if str_mem (act_capability (in_action intent)) scope then None
            else Some (mkRuleEvaluation id Deny "CAPABILITY_OUTSIDE_SCOPE"
                         "The requested capability is outside the protected endpoint scope."
                         [("allowed_capabilities", JList (map JStr scope))] [] [])
        end)).

(** [TenantWorkflowRule], its fields *)
Record workflow_rule := mkWorkflowRule {
  wf_rule_id : string; wf_outcome : string; wf_summary : string; wf_reason_code : string;
  wf_tenant_ids : list string; wf_capabilities : list string; wf_required_fact_values : dict;
  wf_required_evidence_types : list string; wf_approver_types : list string
}.

(** [if l and x not in l] *)
Definition excluded (x : string) (l : list string) : bool := match l with [] => false | _ => negb (str_mem x l) end.

Definition TenantWorkflowRule (r : workflow_rule) : PolicyRule :=
  mkRule (wf_rule_id r) (fun intent context =>
    Ok (if excluded (tenant_id (in_tenant intent)) (wf_tenant_ids r) then None
        else if excluded (act_capability (in_action intent)) (wf_capabilities r) then None
        else if existsb (fun kv => negb (py_eqb (dget (cx_facts context) kv.1) kv.2)) (wf_required_fact_values r) then None
        else
          let evidence_types := map ev_type (in_evidence_refs intent) in
          let missing := filter (fun t => str_mem t evidence_types = false) (sorted_set (wf_required_evidence_types r)) in
          let result o := evaluation (wf_rule_id r) o (wf_reason_code r) (wf_summary r) in
          if String.eqb (wf_outcome r) "needs-evidence" && match missing with [] => false | _ => true end
          then Some (mkRuleEvaluation (wf_rule_id r) NeedsEvidence (wf_reason_code r) (wf_summary r) [] missing [])
          else if String.eqb (wf_outcome r) "approval-required"
          then Some (mkRuleEvaluation (wf_rule_id r) ApprovalRequired (wf_reason_code r) (wf_summary r) [] []
                       match wf_approver_types r with [] => cx_approver_types context | l => l end)
          else if String.eqb (wf_outcome r) "deny" then Some (result Deny)
          else if String.eqb (wf_outcome r) "allow" then Some (result Allow)
          else None)).

(** ** The layers *)

(** The evaluations of the rules that fire, in order ([HardRuleEngine.evaluate]). *)
Fixpoint evaluate_rules (rules : list PolicyRule) (intent : ActionIntent) (context : DynamicContextInput) : py (list RuleEvaluation) :=
  match rules with
  | [] => Ok []
  | rule :: rules =>
      e ← evaluate rule intent context;
      rest ← evaluate_rules rules intent context;
      Ok (match e with Some e => e :: rest | None => rest end)
  end.

Record TenantWorkflowRuleLayer := mkLayer {
  ly_tenant_rules : list (string * list PolicyRule);
  ly_default_rules : list PolicyRule
}.

Definition workflow_rules (layer : TenantWorkflowRuleLayer) (intent : ActionIntent) : list PolicyRule :=
  ly_default_rules layer ++ default [] (assoc (tenant_id (in_tenant intent)) (ly_tenant_rules layer)).

Definition evaluate_workflow (layer : TenantWorkflowRuleLayer) (intent : ActionIntent) (context : DynamicContextInput)
    : py (list RuleEvaluation) := evaluate_rules (workflow_rules layer intent) intent context.

(** ** [PolicyEngine] *)
Record PolicyEngine := mkPolicyEngine {
  pe_hard_rules : list PolicyRule;
  pe_tenant_workflow_rules : TenantWorkflowRuleLayer
}.

Definition with_outcome (o : PolicyOutcome) (l : list RuleEvaluation) : list RuleEvaluation := filter (fun e => re_outcome e = o) l.

Definition first_summary (l : list RuleEvaluation) : string := match l with e :: _ => re_summary e | [] => "" end.

Definition default_deny : RuleEvaluation :=
  evaluation "workflow.default_deny" Deny "NO_WORKFLOW_RULE_MATCH" "No tenant workflow rule matched the action intent.".
Definition fallback_deny : RuleEvaluation :=
  evaluation "workflow.no_allow" Deny "WORKFLOW_DENIED" "The workflow layer did not produce an allow decision.".

(** A decision for one group of evaluations. *)
Definition decision_for (o : PolicyOutcome) (group evaluations : list RuleEvaluation) (evidence approvers : list string) : PolicyDecision :=
  mkPolicyDecision o (first_summary group) evaluations (map re_reason_code group) evidence approvers.

(** The decision from the two layers' evaluations. *)
Definition combine_evaluations (hard workflow : list RuleEvaluation) : PolicyDecision :=
  let evaluations := hard ++ workflow in
  match with_outcome Deny hard with
  | (_ :: _) as hard_denials => decision_for Deny hard_denials hard [] []
  | [] =>
      match workflow with
      | [] => decision_for Deny [default_deny] (evaluations ++ [default_deny]) [] []
      | _ =>
          match with_outcome Deny workflow, with_outcome NeedsEvidence workflow, with_outcome ApprovalRequired workflow,
                with_outcome Allow workflow with
          | (_ :: _) as denials, _, _, _ => decision_for Deny denials evaluations [] []
          | [], (_ :: _) as requirements, _, _ =>
              decision_for NeedsEvidence requirements evaluations (sorted_set (concat (map re_required_evidence requirements))) []
          | [], [], (_ :: _) as approvals, _ =>
              decision_for ApprovalRequired approvals evaluations [] (sorted_set (concat (map re_approver_types approvals)))
          | [], [], [], (_ :: _) as allows => decision_for Allow allows evaluations [] []
          | [], [], [], [] => decision_for Deny [fallback_deny] (evaluations ++ [fallback_deny]) [] []
          end
      end
  end.

(** The workflow layer is not asked after a hard denial. *)
Definition PolicyEngine_evaluate (engine : PolicyEngine) (intent : ActionIntent) (context : DynamicContextInput) : py PolicyDecision :=
  hard ← evaluate_rules (pe_hard_rules engine) intent context;
  match with_outcome Deny hard with
  | _ :: _ => Ok (combine_evaluations hard [])
  | [] =>
      workflow ← evaluate_workflow (pe_tenant_workflow_rules engine) intent context;
      Ok (combine_evaluations hard workflow)
  end.

(** ** Facts *)

(** [sorted(set(l))] depends only on the elements. *)
Definition str_lt (a b : string) : Prop := String.compare a b = Lt.

Lemma str_compare_gt a b : String.compare a b = Gt -> str_lt b a.
Proof. unfold str_lt. rewrite String.compare_antisym. by destruct (String.compare b a). Qed.

Lemma str_lt_asym a b : str_lt a b -> ~ str_lt b a.
Proof. unfold str_lt. rewrite String.compare_antisym. by destruct (String.compare b a). Qed.

Lemma str_lt_trans a b c : str_lt a b -> str_lt b c -> str_lt a c.
Proof.
  unfold str_lt. intros Hab Hbc. assert (String.compare a c <> Gt) as Hac by (apply (string_compare_trans a b c); congruence).
  destruct (String.compare a c) eqn:Hc; [|done|done]. apply String.compare_eq_iff in Hc as ->.
  rewrite String.compare_antisym, Hbc in Hab. done.
Qed.

Lemma elem_of_insert_unique x y l : y ∈ insert_unique x l <-> y = x \/ y ∈ l.
Proof.
  induction l as [|z l IH]; simpl; [set_solver|]. destruct (String.compare x z) eqn:Hc; [|set_solver|set_solver].
  apply String.compare_eq_iff in Hc as ->. set_solver.
Qed.

Lemma elem_of_sorted_set y l : y ∈ sorted_set l <-> y ∈ l.
Proof. induction l as [|x l IH]; simpl; [done|]. rewrite elem_of_insert_unique, IH. set_solver. Qed.

Lemma insert_unique_sorted x l : StronglySorted str_lt l -> StronglySorted str_lt (insert_unique x l).
Proof.
  induction l as [|y l IH]; intros Hs; simpl; [by repeat constructor|].
  apply StronglySorted_inv in Hs as [Hs Hall]. destruct (String.compare x y) eqn:Hc.
  - by constructor.
  - constructor; [by constructor|]. constructor; [done|]. eapply Forall_impl; [exact Hall|]. intros z Hz. by eapply str_lt_trans.
  - constructor; [by apply IH|]. apply Forall_forall. intros z [->|Hz]%elem_of_insert_unique; [by apply str_compare_gt|].
    by eapply Forall_forall in Hall.
Qed.

Lemma sorted_set_sorted l : StronglySorted str_lt (sorted_set l).
Proof. induction l as [|x l IH]; simpl; [constructor|]. by apply insert_unique_sorted. Qed.

Lemma sorted_lt_NoDup l : StronglySorted str_lt l -> NoDup l.
Proof.
  induction 1 as [|x l _ IH Hall]; [constructor|]. constructor; [|done]. intros Hin.
  eapply Forall_forall in Hall; [|exact Hin]. by destruct (str_lt_asym x x Hall).
Qed.

Lemma sorted_set_ext l l' : (forall x, x ∈ l <-> x ∈ l') -> sorted_set l = sorted_set l'.
Proof.
  intros He. apply (StronglySorted_unique_strong str_lt); [|apply sorted_set_sorted..|].
  - intros x y _ _ Hxy Hyx. by destruct (str_lt_asym x y Hxy).
  - apply NoDup_Permutation; [apply sorted_lt_NoDup, sorted_set_sorted..|]. intros x. by rewrite !elem_of_sorted_set.
Qed.

(** The outcome in closed form. *)
Definition fired (o : PolicyOutcome) (l : list RuleEvaluation) : bool := existsb (fun e => bool_decide (re_outcome e = o)) l.

Definition verdict (hard workflow : list RuleEvaluation) : PolicyOutcome :=
  if fired Deny hard || fired Deny workflow then Deny
  else if fired NeedsEvidence workflow then NeedsEvidence
  else if fired ApprovalRequired workflow then ApprovalRequired
  else if fired Allow workflow then Allow
  else Deny.

Lemma with_outcome_fired o l : match with_outcome o l with [] => fired o l = false | _ :: _ => fired o l = true end.
Proof.
  unfold with_outcome, fired. induction l as [|e l IH]; [done|]. rewrite filter_cons. simpl.
  destruct (decide (re_outcome e = o)) as [He|He]; [by rewrite bool_decide_true|by rewrite bool_decide_false].
Qed.

Lemma combine_verdict hard workflow : pd_outcome (combine_evaluations hard workflow) = verdict hard workflow.
Proof.
  unfold combine_evaluations, verdict. cbv zeta. pose proof (with_outcome_fired Deny hard) as Hd.
  destruct (with_outcome Deny hard); rewrite Hd; [|done]. destruct workflow as [|e l]; [done|]. set (ws := e :: l).
  pose proof (with_outcome_fired Deny ws) as H1. pose proof (with_outcome_fired NeedsEvidence ws) as H2.
  pose proof (with_outcome_fired ApprovalRequired ws) as H3. pose proof (with_outcome_fired Allow ws) as H4.
  destruct (with_outcome Deny ws); rewrite H1; [|done]. destruct (with_outcome NeedsEvidence ws); rewrite H2; [|done].
  destruct (with_outcome ApprovalRequired ws); rewrite H3; [|done]. by destruct (with_outcome Allow ws); rewrite H4.
Qed.

Lemma fired_spec o l : fired o l = true <-> exists e, e ∈ l /\ re_outcome e = o.
Proof.
  unfold fired. rewrite existsb_exists. split; intros (e & Hin & Ho); exists e.
  - split; [by apply list_elem_of_In|by apply bool_decide_eq_true in Ho].
  - split; [by apply list_elem_of_In|by apply bool_decide_eq_true].
Qed.

(** A rule of the list fires with the outcome. *)
Definition fires (rules : list PolicyRule) (intent : ActionIntent) (context : DynamicContextInput) (o : PolicyOutcome) : Prop :=
  exists r e, r ∈ rules /\ evaluate r intent context = Ok (Some e) /\ re_outcome e = o.

Lemma evaluate_rules_elem rules intent context es e : evaluate_rules rules intent context = Ok es ->
  e ∈ es <-> exists r, r ∈ rules /\ evaluate r intent context = Ok (Some e).
Proof.
  revert es. induction rules as [|r rules IH]; intros es He; simpl in He; [simplify_eq; rewrite elem_of_nil; setoid_rewrite elem_of_nil; naive_solver|].
  apply bind_Ok in He as (o & Ho & He). apply bind_Ok in He as (rest & Hrest & He). injection He as <-.
  specialize (IH rest Hrest). split.
  - intros Hin. assert (o = Some e \/ e ∈ rest) as [->|Hr].
    { destruct o; [apply elem_of_cons in Hin as [->|Hin]|]; auto. }
    + exists r. split; [left|done].
    + apply IH in Hr as (r' & Hr' & He). exists r'. split; [by right|done].
  - intros (r' & [->|Hr']%elem_of_cons & He).
    + rewrite Ho in He. injection He as ->. left.
    + assert (e ∈ rest) by (apply IH; eauto). destruct o; [by right|done].
Qed.

Lemma evaluate_rules_fires rules intent context es o : evaluate_rules rules intent context = Ok es ->
  fired o es = true <-> fires rules intent context o.
Proof.
  intros He. rewrite fired_spec. unfold fires. setoid_rewrite (evaluate_rules_elem _ _ _ _ _ He). naive_solver.
Qed.

Lemma evaluate_rules_perm rules rules' intent context es : rules ≡ₚ rules' -> evaluate_rules rules intent context = Ok es ->
  exists es', evaluate_rules rules' intent context = Ok es' /\ es ≡ₚ es'.
Proof.
  intros Hp. revert es. induction Hp as [|r l l' _ IH|r r' l|l1 l2 l3 _ IH1 _ IH2]; intros es He.
  - by exists es.
  - simpl in *. apply bind_Ok in He as (o & Ho & He). apply bind_Ok in He as (rest & Hrest & He). injection He as <-.
    destruct (IH _ Hrest) as (rest' & Hr' & Hpr). rewrite Ho, Hr'. simpl. eexists. split; [done|]. destruct o; by rewrite Hpr.
  - simpl in *. apply bind_Ok in He as (o & Ho & He). apply bind_Ok in He as (rest & Hrest & He). injection He as <-.
    apply bind_Ok in Hrest as (o' & Ho' & Hrest). apply bind_Ok in Hrest as (rest' & Hrest' & Hrest). injection Hrest as <-.
    rewrite Ho', Ho, Hrest'. simpl. eexists. split; [done|]. destruct o, o'; try done. constructor.
  - destruct (IH1 _ He) as (es2 & He2 & Hp2). destruct (IH2 _ He2) as (es3 & He3 & Hp3). exists es3. split; [done|]. by rewrite Hp2.
Qed.

Lemma engine_decision engine intent context d : PolicyEngine_evaluate engine intent context = Ok d ->
  exists hard, evaluate_rules (pe_hard_rules engine) intent context = Ok hard /\
    ((fired Deny hard = true /\ d = combine_evaluations hard []) \/
     (fired Deny hard = false /\ exists ws, evaluate_workflow (pe_tenant_workflow_rules engine) intent context = Ok ws /\
        d = combine_evaluations hard ws)).
Proof.
  unfold PolicyEngine_evaluate. intros (hard & Hh & Hd)%bind_Ok. exists hard. split; [done|].
  pose proof (with_outcome_fired Deny hard) as Hf. destruct (with_outcome Deny hard).
  - right. split; [done|]. apply bind_Ok in Hd as (ws & Hw & Hd). injection Hd as <-. by exists ws.
  - left. split; [done|]. by injection Hd as <-.
Qed.

(** The requirements a decision lists. *)
Lemma combine_requirements hard workflow :
  pd_required_evidence (combine_evaluations hard workflow) =
    (if decide (verdict hard workflow = NeedsEvidence)
     then sorted_set (concat (map re_required_evidence (with_outcome NeedsEvidence workflow))) else []) /\
  pd_approver_types (combine_evaluations hard workflow) =
    (if decide (verdict hard workflow = ApprovalRequired)
     then sorted_set (concat (map re_approver_types (with_outcome ApprovalRequired workflow))) else []).
Proof.
  unfold combine_evaluations, verdict. cbv zeta. pose proof (with_outcome_fired Deny hard) as Hd.
  destruct (with_outcome Deny hard); rewrite Hd; [|done]. destruct workflow as [|e l]; [done|]. set (ws := e :: l).
  pose proof (with_outcome_fired Deny ws) as H1. pose proof (with_outcome_fired NeedsEvidence ws) as H2.
  pose proof (with_outcome_fired ApprovalRequired ws) as H3. pose proof (with_outcome_fired Allow ws) as H4.
  destruct (with_outcome Deny ws); rewrite H1; [|done]. destruct (with_outcome NeedsEvidence ws); rewrite H2; [|done].
  destruct (with_outcome ApprovalRequired ws); rewrite H3; [|done]. by destruct (with_outcome Allow ws); rewrite H4.
Qed.

Lemma fired_perm o l l' : l ≡ₚ l' -> fired o l = fired o l'.
Proof. intros Hp. apply eq_true_iff_eq. rewrite !fired_spec. by setoid_rewrite Hp. Qed.

Lemma verdict_perm hs hs' ws ws' : hs ≡ₚ hs' -> ws ≡ₚ ws' -> verdict hs ws = verdict hs' ws'.
Proof. intros Hh Hw. unfold verdict. by rewrite (fired_perm _ _ _ Hh), !(fired_perm _ _ _ Hw). Qed.

Lemma requirements_perm (f : RuleEvaluation -> list string) o ws ws' : ws ≡ₚ ws' ->
  sorted_set (concat (map f (with_outcome o ws))) = sorted_set (concat (map f (with_outcome o ws'))).
Proof.
  intros Hp. apply sorted_set_ext. intros x. rewrite !list_elem_of_In, !in_concat.
  assert (with_outcome o ws ≡ₚ with_outcome o ws') as Hpo by (unfold with_outcome; by rewrite Hp).
  by setoid_rewrite (Permutation_map f Hpo).
Qed.

Lemma engine_perm hard hard' default_rules default_rules' tenant_rules intent context d :
  hard ≡ₚ hard' -> default_rules ≡ₚ default_rules' ->
  PolicyEngine_evaluate (mkPolicyEngine hard (mkLayer tenant_rules default_rules)) intent context = Ok d ->
  exists d', PolicyEngine_evaluate (mkPolicyEngine hard' (mkLayer tenant_rules default_rules')) intent context = Ok d' /\
    pd_outcome d' = pd_outcome d /\ pd_required_evidence d' = pd_required_evidence d /\ pd_approver_types d' = pd_approver_types d.
Proof.
  intros Hh Hw (hs & Hev & Hcase)%engine_decision. simpl in Hev.
  destruct (evaluate_rules_perm _ _ _ _ _ Hh Hev) as (hs' & Hev' & Hph).
  unfold PolicyEngine_evaluate. simpl. rewrite Hev'. simpl.
  pose proof (with_outcome_fired Deny hs') as Hf. rewrite <- (fired_perm Deny _ _ Hph) in Hf.
  assert (forall ws ws', ws ≡ₚ ws' -> let d := combine_evaluations hs ws in let d' := combine_evaluations hs' ws' in
    pd_outcome d' = pd_outcome d /\ pd_required_evidence d' = pd_required_evidence d /\ pd_approver_types d' = pd_approver_types d) as Hsame.
  { intros ws ws' Hpw. cbv zeta. rewrite !combine_verdict, !(proj1 (combine_requirements _ _)), !(proj2 (combine_requirements _ _)).
    rewrite (verdict_perm _ _ _ _ Hph Hpw), !(requirements_perm _ _ _ _ Hpw). done. }
  destruct Hcase as [[Hd ->]|(Hd & ws & Hws & ->)]; destruct (with_outcome Deny hs'); try congruence.
  - eexists. split; [reflexivity|]. by apply Hsame.
  - unfold evaluate_workflow, workflow_rules in *. simpl in *.
    destruct (evaluate_rules_perm _ (default_rules' ++ default [] (assoc (tenant_id (in_tenant intent)) tenant_rules)) _ _ _
      (Permutation_app_tail _ Hw) Hws) as (ws' & Hws' & Hpw). rewrite Hws'. simpl. eexists. split; [reflexivity|]. by apply Hsame.
Qed.

(** ** Properties *)

(** C14: the decision is the most restrictive verdict and allows nothing by
    default: it denies exactly when a hard or workflow rule denies or no workflow
    rule fires, asks for evidence when no rule denies and one lacks evidence, asks
    for approval when only approvals and allowances fire and some approval does,
    and allows exactly when no hard rule denies and workflow rules fire, all of
    them with an allowance. *)
Theorem policy_most_restrictive (engine : PolicyEngine) (intent : ActionIntent) (context : DynamicContextInput) (d : PolicyDecision) :
  PolicyEngine_evaluate engine intent context = Ok d ->
  let hard := fires (pe_hard_rules engine) intent context in
  let workflow := fires (workflow_rules (pe_tenant_workflow_rules engine) intent) intent context in
  (pd_outcome d = Deny <-> hard Deny \/ workflow Deny \/ forall o, ~ workflow o) /\
  (pd_outcome d = NeedsEvidence <-> ~ hard Deny /\ ~ workflow Deny /\ workflow NeedsEvidence) /\
  (pd_outcome d = ApprovalRequired <-> ~ hard Deny /\ ~ workflow Deny /\ ~ workflow NeedsEvidence /\ workflow ApprovalRequired) /\
  (pd_outcome d = Allow <-> ~ hard Deny /\ workflow Allow /\ forall o, workflow o -> o = Allow).
Proof.
  intros (hs & Hh & Hcase)%engine_decision. cbv zeta.
  assert (forall o, fired o hs = true <-> fires (pe_hard_rules engine) intent context o) as Fh by (intros; by apply evaluate_rules_fires).
  destruct Hcase as [[Hd ->]|(Hd & ws & Hw & ->)]; rewrite combine_verdict; unfold verdict.
  - rewrite Hd. simpl. apply Fh in Hd. naive_solver.
  - assert (forall o, fired o ws = true <-> fires (workflow_rules (pe_tenant_workflow_rules engine) intent) intent context o) as Fw
      by (intros; by apply evaluate_rules_fires).
    assert (~ fires (pe_hard_rules engine) intent context Deny) as Hn by (rewrite <- Fh; congruence).
    setoid_rewrite <- Fw. rewrite Hd. simpl.
    assert (forall P : PolicyOutcome -> Prop, (forall o, P o) <-> P Allow /\ P Deny /\ P ApprovalRequired /\ P NeedsEvidence) as Hall.
    { intros P. split; [auto|]. intros (? & ? & ? & ?) []; done. }
    rewrite !Hall. destruct (fired Deny ws), (fired NeedsEvidence ws), (fired ApprovalRequired ws), (fired Allow ws); naive_solver.
Qed.

(** The decision does not depend on the order in which the rules are listed:
    permuting the hard rules and the workflow rules leaves the outcome, the missing
    evidence and the approvers unchanged. *)
Theorem policy_order_independent (hard hard' default_rules default_rules' : list PolicyRule)
    (tenant_rules : list (string * list PolicyRule)) (intent : ActionIntent) (context : DynamicContextInput) (d : PolicyDecision) :
  hard ≡ₚ hard' -> default_rules ≡ₚ default_rules' ->
  PolicyEngine_evaluate (mkPolicyEngine hard (mkLayer tenant_rules default_rules)) intent context = Ok d ->
  exists d', PolicyEngine_evaluate (mkPolicyEngine hard' (mkLayer tenant_rules default_rules')) intent context = Ok d' /\
    pd_outcome d' = pd_outcome d /\ pd_required_evidence d' = pd_required_evidence d /\ pd_approver_types d' = pd_approver_types d.
Proof. apply engine_perm. Qed.

(** Under the built-in hard rules an allowance means that the intent is in its
    window, lives no longer than the configured maximum, and asks for a capability
    the endpoint declares (when it declares any). *)
Theorem policy_allow_sound (engine : PolicyEngine) (default_ttl : Z) (intent : ActionIntent) (context : DynamicContextInput) (d : PolicyDecision) :
  pe_hard_rules engine = [IntentChronologyHardRule; IntentTtlHardRule default_ttl; CapabilityScopeHardRule] ->
  PolicyEngine_evaluate engine intent context = Ok d -> pd_outcome d = Allow ->
  (in_issued_at intent <= cx_now context < in_expires_at intent)%Z /\
  (in_expires_at intent - in_issued_at intent <= default default_ttl (cx_max_ttl_seconds context) * US_PER_SECOND)%Z /\
  (cx_scope_capabilities context = [] \/ act_capability (in_action intent) ∈ cx_scope_capabilities context).
Proof.
  intros Hr (hs & Hh & Hcase)%engine_decision Ha.
  destruct Hcase as [[Hd ->]|(Hd & ws & Hw & ->)]; [rewrite combine_verdict in Ha; unfold verdict in Ha; by rewrite Hd in Ha|].
  clear Ha Hw. rewrite Hr in Hh. simpl in Hh.
  destruct (Z.ltb_spec (cx_now context) (in_issued_at intent)); [|destruct (Z.leb_spec (in_expires_at intent) (cx_now context))];
    simpl in Hh; [apply bind_Ok in Hh as (? & _ & Hh); injection Hh as <-; done..|].
  destruct (Z.leb_spec (default default_ttl (cx_max_ttl_seconds context)) 0);
    simpl in Hh; [destruct (match cx_scope_capabilities context with [] => None | _ => _ end); injection Hh as <-; done|].
  destruct (Z.ltb_spec TIMEDELTA_MAX_SECONDS (default default_ttl (cx_max_ttl_seconds context))); [done|].
  destruct (Z.ltb_spec (default default_ttl (cx_max_ttl_seconds context) * US_PER_SECOND) (in_expires_at intent - in_issued_at intent));
    simpl in Hh; [destruct (match cx_scope_capabilities context with [] => None | _ => _ end); injection Hh as <-; done|].
  split_and!; [lia..|]. destruct (cx_scope_capabilities context) as [|c cs] eqn:Hs; [by left|right].
  destruct (str_mem (act_capability (in_action intent)) (c :: cs)) eqn:Hm; [by apply str_mem_spec|].
  change (str_mem (act_capability (in_action intent)) (c :: cs))
    with (String.eqb (act_capability (in_action intent)) c || str_mem (act_capability (in_action intent)) cs) in Hm.
  rewrite Hm in Hh. by injection Hh as <-.
Qed.

(** A refund workflow: evidence first, then an allowance. *)
Definition sample_engine : PolicyEngine :=
  mkPolicyEngine [IntentChronologyHardRule; IntentTtlHardRule 900; CapabilityScopeHardRule]
    (mkLayer [("acme", [TenantWorkflowRule (mkWorkflowRule "wf.allow" "allow" "Refunds are allowed." "REFUND_ALLOWED" [] ["payments.refund"] [] [] [])])]
       [TenantWorkflowRule (mkWorkflowRule "wf.ticket" "needs-evidence" "A ticket is required." "TICKET_REQUIRED" [] [] [] ["ticket"] [])]).

Definition sample_allow : PolicyDecision :=
  mkPolicyDecision Allow "Refunds are allowed." [evaluation "wf.allow" Allow "REFUND_ALLOWED" "Refunds are allowed."] ["REFUND_ALLOWED"] [] [].

Lemma sample_engine_allows : PolicyEngine_evaluate sample_engine sample_intent sample_context = Ok sample_allow.
Proof. vm_compute. reflexivity. Qed.

Lemma policy_most_restrictive_witness :
  ~ fires (pe_hard_rules sample_engine) sample_intent sample_context Deny /\
  fires (workflow_rules (pe_tenant_workflow_rules sample_engine) sample_intent) sample_intent sample_context Allow.
Proof.
  destruct (policy_most_restrictive sample_engine sample_intent sample_context sample_allow sample_engine_allows) as (_ & _ & _ & [Ha _]).
  destruct (Ha eq_refl) as (Hn & Hw & _). split; [exact Hn|exact Hw].
Defined.

Lemma policy_order_independent_witness :
  exists d', PolicyEngine_evaluate (mkPolicyEngine [CapabilityScopeHardRule; IntentTtlHardRule 900; IntentChronologyHardRule]
    (pe_tenant_workflow_rules sample_engine)) sample_intent sample_context = Ok d' /\ pd_outcome d' = Allow.
Proof.
  destruct (policy_order_independent (pe_hard_rules sample_engine) [CapabilityScopeHardRule; IntentTtlHardRule 900; IntentChronologyHardRule]
    _ _ _ sample_intent sample_context sample_allow (Permutation_rev _) (Permutation_refl _) sample_engine_allows)
    as (d' & Hd & Ho & _). exists d'. split; [exact Hd|exact Ho].
Defined.

Lemma policy_allow_sound_witness : (in_issued_at sample_intent <= cx_now sample_context < in_expires_at sample_intent)%Z.
Proof.
  refine (proj1 (policy_allow_sound sample_engine 900 sample_intent sample_context sample_allow eq_refl sample_engine_allows eq_refl)).
Defined.
