(* ===== verification/SecurityPosture.v ===== *)
(** * Development intent: [actenon/security_posture.py]

    The one gate for insecure development behaviour.  A process environment is the
    table [os.environ] and the declaration the context variable holds; every
    function reads both, [declare_process_development_intent] alone writes.
    [replay/service.py]'s default-store guard is here too.

    The theorem: a weaker guarantee is permitted exactly under development intent
    or its own named override, development intent exactly under the allowlisted
    values, and a production flag or an unlisted value refuses the rest. *)

From S2P Require Import Prelude Text Json Errors.

Record environment := mkEnvironment {
  env_vars : list (string * string);
  env_declared : option string
}.

Definition getenv (e : environment) (name : string) : option string := assoc name (env_vars e).

Definition ACTENON_ENV_ENV : string := "ACTENON_ENV".
Definition DEVELOPMENT_ENV_VALUES : list string := ["development"; "dev"; "local"; "test"].
Definition PRODUCTION_FLAG_ENVS : list string := ["ACTENON_PRODUCTION"; "ACTENON_CI_RELEASE"; "ACTENON_RELEASE_BUILD"].

Definition UNSAFE_ALLOW_PROCESS_LOCAL_REPLAY_ENV : string := "ACTENON_UNSAFE_ALLOW_PROCESS_LOCAL_REPLAY".
Definition UNSAFE_ALLOW_REPLAY_DISABLED_ENV : string := "ACTENON_UNSAFE_ALLOW_REPLAY_DISABLED".
Definition UNSAFE_ALLOW_REPLAY_FAIL_OPEN_ENV : string := "ACTENON_UNSAFE_ALLOW_REPLAY_FAIL_OPEN".
Definition UNSAFE_ALLOW_UNDECLARED_CAPABILITIES_ENV : string := "ACTENON_UNSAFE_ALLOW_UNDECLARED_CAPABILITIES".

Definition DOWNGRADE_PUBLIC_DEVELOPMENT_SECRET : string := "public_development_secret".
Definition DOWNGRADE_UNDECLARED_CAPABILITIES : string := "undeclared_capabilities".
Definition DOWNGRADE_PROCESS_LOCAL_REPLAY : string := "process_local_replay".
Definition DOWNGRADE_REPLAY_PROTECTION_DISABLED : string := "replay_protection_disabled".
Definition DOWNGRADE_REPLAY_STORE_FAIL_OPEN : string := "replay_store_fail_open".

Definition InsecureDefaultRefusedError : exn := OtherError "InsecureDefaultRefusedError".
Definition DevelopmentIntentConflictError : exn := OtherError "DevelopmentIntentConflictError".

(** The word [s.strip().lower()] of a variable. *)
Definition normalized (s : string) : string := ascii_lower (py_strip s).

Definition _truthy (raw : option string) : bool :=
  match raw with Some s => str_mem (normalized s) ["1"; "true"; "yes"; "on"] | None => false end.

Definition normalized_environment (e : environment) : string := normalized (default "" (getenv e ACTENON_ENV_ENV)).

Definition production_flag_set (e : environment) : bool := existsb (fun name => _truthy (getenv e name)) PRODUCTION_FLAG_ENVS.

Definition development_environment (e : environment) : bool :=
  negb (production_flag_set e) && str_mem (normalized_environment e) DEVELOPMENT_ENV_VALUES.

Definition development_intent (e : environment) : bool :=
  if production_flag_set e then false
  else
    let env := normalized_environment e in
    if str_mem env DEVELOPMENT_ENV_VALUES then true
    else String.eqb env "" && match env_declared e with Some _ => true | None => false end.

(** The body of the [with] block runs under the declaration; the environment it
    leaves has the declaration of before. *)
Definition explicit_development_intent {A} (source : string) (body : M exn environment A) : M exn environment A := fun e =>
  let env := normalized_environment e in
  if production_flag_set e || (str_truthy env && negb (str_mem env DEVELOPMENT_ENV_VALUES))
  then (Err DevelopmentIntentConflictError, e)
  else
    let '(r, e') := body (mkEnvironment (env_vars e) (Some source)) in
    (r, mkEnvironment (env_vars e') (env_declared e)).

Definition declare_process_development_intent (source : string) : M exn environment unit :=
  _ ← explicit_development_intent source (mret tt);
  e ← gets id;
  if str_truthy (py_strip (default "" (getenv e ACTENON_ENV_ENV))) then mret tt
  else modify (fun e => mkEnvironment (assoc_set ACTENON_ENV_ENV "development" (env_vars e)) (env_declared e)).

Definition require_development_intent (e : environment) : py unit :=
  if development_intent e then Ok tt else Err InsecureDefaultRefusedError.

Definition permit_downgrade (e : environment) (downgrade override_env : string) : py string :=
  if development_intent e then Ok downgrade
  else if _truthy (getenv e override_env) then Ok downgrade
  else Err InsecureDefaultRefusedError.

(** ** [replay/service.py]: the default replay store *)
Definition replay_db_configured (e : environment) : bool :=
  match getenv e "ACTENON_REPLAY_DB" with Some s => str_truthy s | None => false end.

Definition permit_process_local_replay (e : environment) : py string :=
  permit_downgrade e DOWNGRADE_PROCESS_LOCAL_REPLAY UNSAFE_ALLOW_PROCESS_LOCAL_REPLAY_ENV.

Definition default_replay_store_downgrades (e : environment) (base_dir : option string) : py (list string) :=
  if replay_db_configured e || match base_dir with Some _ => true | None => false end then Ok []
  else d ← permit_process_local_replay e; Ok [d].

(** ** Facts *)

(** Development intent, as the module's documentation states it. *)
Definition has_development_intent (e : environment) : Prop :=
  (forall flag, flag ∈ PRODUCTION_FLAG_ENVS -> _truthy (getenv e flag) = false) /\
  (normalized_environment e ∈ DEVELOPMENT_ENV_VALUES \/
   normalized_environment e = "" /\ exists source, env_declared e = Some source).

Lemma production_flag_false e :
  production_flag_set e = false <-> forall flag, flag ∈ PRODUCTION_FLAG_ENVS -> _truthy (getenv e flag) = false.
Proof.
  unfold production_flag_set. split.
  - intros Hf flag Hin. destruct (_truthy (getenv e flag)) eqn:Ht; [|done].
    assert (existsb (fun name => _truthy (getenv e name)) PRODUCTION_FLAG_ENVS = true); [|congruence].
    apply existsb_exists. exists flag. split; [by apply list_elem_of_In|done].
  - intros Hall. apply not_true_is_false. intros (flag & Hin & Ht)%existsb_exists.
    apply list_elem_of_In, Hall in Hin. congruence.
Qed.

Lemma development_intent_spec e : development_intent e = true <-> has_development_intent e.
Proof.
  unfold development_intent, has_development_intent. rewrite <- production_flag_false.
  destruct (production_flag_set e); [naive_solver|]. cbv zeta. rewrite <- str_mem_spec.
  destruct (str_mem (normalized_environment e) DEVELOPMENT_ENV_VALUES); [naive_solver|].
  rewrite andb_true_iff, String.eqb_eq. destruct (env_declared e); naive_solver.
Qed.

Lemma development_intent_declared e source :
  development_intent (mkEnvironment (env_vars e) (Some source)) =
  negb (production_flag_set e) &&
  (str_mem (normalized_environment e) DEVELOPMENT_ENV_VALUES || String.eqb (normalized_environment e) "").
Proof.
  unfold development_intent.
  change (production_flag_set (mkEnvironment _ _)) with (production_flag_set e).
  change (normalized_environment (mkEnvironment _ _)) with (normalized_environment e). cbv zeta.
  destruct (production_flag_set e), (str_mem (normalized_environment e) DEVELOPMENT_ENV_VALUES); [done..|].
  simpl. by rewrite andb_true_r.
Qed.

(** An insecure behaviour is permitted exactly under development intent or
    under its own override variable, and refused otherwise; and a development
    entry point leaves the declared intent as it found it, running its body only
    where no production flag is set and the environment is undeclared or a
    development one. *)
Theorem insecure_defaults_refused (e : environment) (downgrade override_env : string) :
  (permit_downgrade e downgrade override_env = Ok downgrade <->
     has_development_intent e \/ _truthy (getenv e override_env) = true) /\
  (permit_downgrade e downgrade override_env = Err InsecureDefaultRefusedError <->
     ~ has_development_intent e /\ _truthy (getenv e override_env) = false) /\
  (forall A source (body : M exn environment A),
     env_declared (explicit_development_intent source body e).2 = env_declared e /\
     ((explicit_development_intent source body e).1 = Err DevelopmentIntentConflictError \/
      has_development_intent (mkEnvironment (env_vars e) (Some source)))).
Proof.
  unfold permit_downgrade. rewrite <- development_intent_spec. split_and!.
  - destruct (development_intent e), (_truthy (getenv e override_env)); naive_solver.
  - destruct (development_intent e), (_truthy (getenv e override_env)); naive_solver.
  - intros A source body. unfold explicit_development_intent. rewrite <- development_intent_spec.
    rewrite development_intent_declared. unfold str_truthy. cbv zeta.
    destruct (production_flag_set e), (str_mem (normalized_environment e) DEVELOPMENT_ENV_VALUES),
      (String.eqb (normalized_environment e) ""), (body _); simpl; auto.
Qed.
