(* ===== verification/Replay.v ===== *)
(** * Replay protection: [actenon/replay/]

    [replay/base.py]: claims and states.  [replay/dbapi.py] (with the transactions
    of [replay/sqlite.py]): the store, as operations on a table keyed by
    [replay_key], the mutation counter of its metadata row, and the counter the
    store object last observed.  Timestamps are text columns and are compared as
    text, as the SQL does.  A transaction that raises, or that the code rolls
    back, leaves the table as it was; the observed counter is a field of the
    Python object and survives.  [replay/service.py]: the replay key and the
    protector.

    The theorems: a consumed key stays consumed under every operation of every
    worker, so [mark_consumed] succeeds at most once per key; which claims succeed;
    the steps a key can take (the refinement is in ReplayLedger); that a database
    restored to an older state is detected; that one accepted proof has one replay
    key. *)

From S2P Require Import Prelude Text Json Errors Timestamps Canonical Contracts Runtime Samples ProofService.

(** ** [replay/base.py] *)
Inductive ActionConsumptionStatus := Claimed | Consumed | Released | Expired.
#[global] Instance ActionConsumptionStatus_eq_dec : EqDecision ActionConsumptionStatus.
Proof. solve_decision. Defined.

Definition status_text (s : ActionConsumptionStatus) : string :=
  match s with Claimed => "claimed" | Consumed => "consumed" | Released => "released" | Expired => "expired" end.

Record ActionConsumptionClaim := mkClaim {
  cl_replay_key : string; cl_intent_id : string; cl_pccb_id : string; cl_nonce : string;
  cl_action_hash : string; cl_audience : string; cl_capability : string;
  cl_tenant_id : string; cl_subject_id : string; cl_expires_at : datetime; cl_metadata : dict
}.

Record ActionConsumptionState := mkConsumption {
  cs_replay_key : string; cs_intent_id : string; cs_pccb_id : string; cs_nonce : string;
  cs_action_hash : string; cs_audience : string; cs_capability : string;
  cs_tenant_id : string; cs_subject_id : string; cs_status : ActionConsumptionStatus;
  cs_created_at : datetime; cs_updated_at : datetime; cs_expires_at : datetime;
  cs_consumed_at : option datetime; cs_metadata : dict
}.

(** [ActionConsumptionState.terminal] *)
Definition terminal (s : ActionConsumptionState) : bool :=
  match cs_status s with Claimed => false | _ => true end.

(** ** [replay/dbapi.py] *)

(** A row of [action_consumption], its key apart; the timestamps are text. *)
Record row := mkRow {
  row_intent_id : string; row_pccb_id : string; row_nonce : string; row_action_hash : string;
  row_audience : string; row_capability : string; row_tenant_id : string; row_subject_id : string;
  row_status : ActionConsumptionStatus;
  row_created_at : string; row_updated_at : string; row_expires_at : string; row_consumed_at : option string;
  row_metadata : dict
}.

Record store := mkStore {
  st_rows : gmap string row;
  (** the [mutation_counter] of the metadata row, [None] when the row is missing *)
  st_counter : option Z;
  (** [self._last_observed_counter] *)
  st_last : Z
}.

Definition set_rows (f : gmap string row -> gmap string row) (s : store) : store :=
  mkStore (f (st_rows s)) (st_counter s) (st_last s).
Definition set_counter (c : option Z) (s : store) : store := mkStore (st_rows s) c (st_last s).
Definition set_last (n : Z) (s : store) : store := mkStore (st_rows s) (st_counter s) n.

Abbreviation db := (M exn store).

(** How a transaction body ends. *)
Inductive tx_end (A : Type) := Commit (a : A) | Rollback (a : A).
Arguments Commit {A} a.
Arguments Rollback {A} a.

(** [with self._connect() as connection: ...]: an exception rolls back. *)
Definition transaction {A} (body : db (tx_end A)) : db A := fun s =>
  match body s with
  | (Ok (Commit a), s') => (Ok a, s')
  | (Ok (Rollback a), s') => (Ok a, mkStore (st_rows s) (st_counter s) (st_last s'))
  | (Err e, s') => (Err e, mkStore (st_rows s) (st_counter s) (st_last s'))
  end.

Definition replay_error (code msg : string) (details : dict) : exn := Refused (ReplayValidationError code msg details).

Definition _read_mutation_counter : db Z :=
  c ← gets st_counter;
  match c with
  | Some n => mret n
  | None => raise (replay_error "REPLAY_STORE_ROLLBACK_DETECTED" "Replay store monotonic metadata is missing." [])
  end.

Definition _assert_store_monotonic : db unit :=
  counter ← _read_mutation_counter;
  last ← gets st_last;
  if (counter <? last)%Z
  then raise (replay_error "REPLAY_STORE_ROLLBACK_DETECTED"
                "Replay store state regressed behind a previously observed mutation."
                [("observed_counter", JInt counter); ("last_observed_counter", JInt last)])
  else modify (set_last counter).

Definition _advance_mutation_counter : db Z :=
  c ← gets st_counter;
  match c with
  | None => raise (replay_error "REPLAY_STORE_ROLLBACK_DETECTED" "Replay store monotonic metadata could not advance." [])
  | Some n =>
      _ ← modify (set_counter (Some (n + 1)%Z));
      counter ← _read_mutation_counter;
      last ← gets st_last;
      if (counter <=? last)%Z
      then raise (replay_error "REPLAY_STORE_ROLLBACK_DETECTED"
                    "Replay store mutation order regressed behind a previously observed mutation."
                    [("observed_counter", JInt counter); ("last_observed_counter", JInt last)])
      else mret counter
  end.

(** [counter = advance(); connection.commit(); self._last_observed_counter = counter] *)
Definition commit_mutation {A} (a : A) : db (tx_end A) :=
  counter ← _advance_mutation_counter;
  _ ← modify (set_last counter);
  mret (Commit a).

(** [a <= b] on text columns *)
Definition text_leb (a b : string) : bool := key_leb a b.

Definition _row_to_state (replay_key : string) (r : row) : py ActionConsumptionState :=
  consumed_at ← match row_consumed_at r with
                | Some t => if str_truthy t then d ← parse_timestamp (JStr t) "consumed_at"; Ok (Some d) else Ok None
                | None => Ok None
                end;
  created_at ← parse_timestamp (JStr (row_created_at r)) "created_at";
  updated_at ← parse_timestamp (JStr (row_updated_at r)) "updated_at";
  expires_at ← parse_timestamp (JStr (row_expires_at r)) "expires_at";
  Ok (mkConsumption replay_key (row_intent_id r) (row_pccb_id r) (row_nonce r) (row_action_hash r)
        (row_audience r) (row_capability r) (row_tenant_id r) (row_subject_id r) (row_status r)
        created_at updated_at expires_at consumed_at (row_metadata r)).

Definition _select_row (replay_key : string) : db (option row) := gets (fun s => st_rows s !! replay_key).

(** [SET status = ?, updated_at = ?] *)
Definition with_status (st : ActionConsumptionStatus) (updated_at : string) (r : row) : row :=
  mkRow (row_intent_id r) (row_pccb_id r) (row_nonce r) (row_action_hash r) (row_audience r) (row_capability r)
    (row_tenant_id r) (row_subject_id r) st (row_created_at r) updated_at (row_expires_at r) (row_consumed_at r)
    (row_metadata r).
Definition with_consumed_at (t : string) (r : row) : row :=
  mkRow (row_intent_id r) (row_pccb_id r) (row_nonce r) (row_action_hash r) (row_audience r) (row_capability r)
    (row_tenant_id r) (row_subject_id r) (row_status r) (row_created_at r) (row_updated_at r) (row_expires_at r) (Some t)
    (row_metadata r).
Definition with_metadata (m : dict) (r : row) : row :=
  mkRow (row_intent_id r) (row_pccb_id r) (row_nonce r) (row_action_hash r) (row_audience r) (row_capability r)
    (row_tenant_id r) (row_subject_id r) (row_status r) (row_created_at r) (row_updated_at r) (row_expires_at r)
    (row_consumed_at r) m.

(** [json.loads(json.dumps(m, sort_keys=True))] *)
Definition stored_metadata (m : dict) : dict := match json_norm (JDict m) with JDict d => d | _ => m end.

(** [UPDATE ... WHERE replay_key = ? AND p]: the change and the row count. *)
Definition update_row (replay_key : string) (p : row -> bool) (f : row -> row) : db Z :=
  r ← _select_row replay_key;
  match r with
  | Some r => if p r then _ ← modify (set_rows (<[replay_key := f r]>)); mret 1%Z else mret 0%Z
  | None => mret 0%Z
  end.

Definition has_status (st : ActionConsumptionStatus) (r : row) : bool := bool_decide (row_status r = st).

(** [inspect]; the inner call after an expiry is the second unit of fuel. *)
Inductive inspect_result := Found (s : option ActionConsumptionState) | Again.

Definition inspect_tx (replay_key : string) (now : datetime) : db inspect_result :=
  transaction (
    _ ← _assert_store_monotonic;
    r ← _select_row replay_key;
    match r with
    | None => mret (Commit (Found None))
    | Some r =>
        state ← lift (_row_to_state replay_key r);
        if bool_decide (cs_status state = Claimed) && (cs_expires_at state <=? now)%Z
        then
          let now_raw := format_timestamp now in
          _ ← update_row replay_key (has_status Claimed) (with_status Expired now_raw);
          commit_mutation Again
        else mret (Commit (Found (Some state)))
    end).

Fixpoint inspect_loop (fuel : nat) (replay_key : string) (now : datetime) : db (option ActionConsumptionState) :=
  match fuel with
  | O => raise (OtherError "RecursionError")
  | S fuel =>
      r ← inspect_tx replay_key now;
      match r with
      | Found s => mret s
      | Again => inspect_loop fuel replay_key now
      end
  end.
Definition inspect (replay_key : string) (now : datetime) : db (option ActionConsumptionState) :=
  inspect_loop 2 replay_key now.

Definition claim_row (claim : ActionConsumptionClaim) (now_raw : string) : row :=
  mkRow (cl_intent_id claim) (cl_pccb_id claim) (cl_nonce claim) (cl_action_hash claim) (cl_audience claim)
    (cl_capability claim) (cl_tenant_id claim) (cl_subject_id claim) Claimed now_raw now_raw
    (format_timestamp (cl_expires_at claim)) None (stored_metadata (cl_metadata claim)).

(** The transaction of [claim_once]: [true] when the row was inserted. *)
Definition claim_tx (claim : ActionConsumptionClaim) (now : datetime) : db bool :=
  let now_raw := format_timestamp now in
  let key := cl_replay_key claim in
  transaction (
    _ ← _assert_store_monotonic;
    _ ← update_row key (fun r => has_status Claimed r && text_leb (row_expires_at r) now_raw) (with_status Expired now_raw);
    r ← _select_row key;
    _ ← (if match r with Some r => has_status Released r || has_status Expired r | None => false end
         then modify (set_rows (delete key)) else mret tt);
    r ← _select_row key;
    match r with
    | Some _ => mret (Rollback false)
    | None =>
        _ ← modify (set_rows (<[key := claim_row claim now_raw]>));
        commit_mutation true
    end).

Definition claim_once (claim : ActionConsumptionClaim) (now : datetime) : db (option ActionConsumptionState) :=
  inserted ← claim_tx claim now;
  if inserted : bool then inspect (cl_replay_key claim) now
  else
    existing ← inspect (cl_replay_key claim) now;
    let status := match existing with Some e => status_text (cs_status e) | None => "unknown" end in
    raise (replay_error "DUPLICATE_REPLAY" "The protected action has already been claimed for execution."
             [("replay_key", JStr (cl_replay_key claim)); ("existing_status", JStr status);
              ("pccb_id", JStr (cl_pccb_id claim))]).

Definition mark_tx (replay_key : string) (now : datetime) : db bool :=
  let now_raw := format_timestamp now in
  transaction (
    _ ← _assert_store_monotonic;
    n ← update_row replay_key (has_status Claimed) (fun r => with_consumed_at now_raw (with_status Consumed now_raw r));
    if (n =? 1)%Z then commit_mutation true else mret (Rollback false)).

Definition mark_consumed (replay_key : string) (now : datetime) : db (option ActionConsumptionState) :=
  marked ← mark_tx replay_key now;
  if marked : bool then inspect replay_key now
  else
    existing ← inspect replay_key now;
    raise (replay_error "REPLAY_STATE_INVALID" "The replay record could not transition to consumed."
             (("replay_key", JStr replay_key) ::
              match existing with Some e => [("existing_status", JStr (status_text (cs_status e)))] | None => [] end)).

(** The transaction of [release_claim]: a state to return at once, or released. *)
Definition release_tx (replay_key : string) (now : datetime) (reason : string) : db (option ActionConsumptionState) :=
  let now_raw := format_timestamp now in
  transaction (
    _ ← _assert_store_monotonic;
    r ← _select_row replay_key;
    match r with
    | None => raise (replay_error "REPLAY_CLAIM_MISSING" "The replay claim does not exist." [("replay_key", JStr replay_key)])
    | Some r =>
        current ← lift (_row_to_state replay_key r);
        if bool_decide (cs_status current = Consumed) then mret (Rollback (Some current))
        else
          let metadata := assoc_merge (cs_metadata current) [("release_reason", JStr reason)] in
          n ← update_row replay_key (has_status Claimed)
                (fun r => with_metadata (stored_metadata metadata) (with_status Released now_raw r));
          if (n =? 1)%Z then commit_mutation None
          else raise (replay_error "REPLAY_RELEASE_INVALID" "The replay claim could not be released."
                        [("replay_key", JStr replay_key); ("existing_status", JStr (status_text (cs_status current)))])
    end).

Definition release_claim (replay_key : string) (now : datetime) (reason : string) : db (option ActionConsumptionState) :=
  r ← release_tx replay_key now reason;
  match r with
  | Some current => mret (Some current)
  | None => inspect replay_key now
  end.

(** The rows [purge_expired] updates. *)
Definition purgeable (now_raw : string) (r : row) : bool := has_status Claimed r && text_leb (row_expires_at r) now_raw.

Definition purge_expired (now : datetime) : db Z :=
  let now_raw := format_timestamp now in
  transaction (
    _ ← _assert_store_monotonic;
    rows ← gets st_rows;
    let count := Z.of_nat (size (filter (fun kv => purgeable now_raw kv.2 = true) rows)) in
    _ ← modify (set_rows (fmap (fun r => if purgeable now_raw r then with_status Expired now_raw r else r)));
    if (count =? 0)%Z then mret (Commit count) else commit_mutation count).

(** A new store object: [ensure_schema] creates the metadata row when it is
    missing, and the counter it holds is the one observed. *)
Definition open_store (rows : gmap string row) (counter : option Z) : store :=
  let c := default 0%Z counter in mkStore rows (Some c) c.

(** ** The abstract ledger: the life of one replay key *)
Inductive ledger_step : option ActionConsumptionStatus -> option ActionConsumptionStatus -> Prop :=
| ledger_claim : ledger_step None (Some Claimed)
| ledger_consume : ledger_step (Some Claimed) (Some Consumed)
| ledger_release : ledger_step (Some Claimed) (Some Released)
| ledger_expire : ledger_step (Some Claimed) (Some Expired)
| ledger_forget st : st = Released \/ st = Expired -> ledger_step (Some st) None.

Lemma ledger_consumed_final o : rtc ledger_step (Some Consumed) o -> o = Some Consumed.
Proof.
  intros Hr. inversion Hr as [|? ? ? Hs _]; subst; [done|]. inversion Hs; subst. naive_solver.
Qed.

Definition status_at (k : string) (s : store) : option ActionConsumptionStatus := row_status <$> st_rows s !! k.

(** Every key moved along the ledger. *)
Definition ledger_moves (s s' : store) : Prop := forall k, rtc ledger_step (status_at k s) (status_at k s').

#[global] Instance ledger_moves_preorder : PreOrder ledger_moves.
Proof. split; [by intros s k|]. intros s1 s2 s3 H12 H23 k. etransitivity; [apply H12|apply H23]. Qed.

Definition moves {A} (m : db A) : Prop := forall s, ledger_moves s (m s).2.

Lemma same_rows_moves s s' : st_rows s = st_rows s' -> ledger_moves s s'.
Proof. intros He k. unfold status_at. by rewrite He. Qed.

Lemma moves_bind {A B} (m : db A) (f : A -> db B) : moves m -> (forall a, moves (f a)) -> moves (m ≫= f).
Proof.
  intros Hm Hf s. unfold mbind, M_bind. specialize (Hm s). destruct (m s) as [[a|e] s']; simpl in *; [|done].
  etransitivity; [exact Hm|apply Hf].
Qed.

Lemma moves_ret {A} (a : A) : moves (mret a).
Proof. by intros s k. Qed.
Lemma moves_raise {A} e : moves (@raise exn store A e).
Proof. by intros s k. Qed.
Lemma moves_gets {A} (f : store -> A) : moves (gets f).
Proof. by intros s k. Qed.
Lemma moves_lift {A} (r : py A) : moves (lift r).
Proof. by intros s k. Qed.
Lemma moves_modify f : (forall s, ledger_moves s (f s)) -> moves (modify f).
Proof. intros Hf s. apply Hf. Qed.

Lemma moves_transaction {A} (body : db (tx_end A)) : moves body -> moves (transaction body).
Proof.
  intros Hb s. unfold transaction. specialize (Hb s). destruct (body s) as [[[a|a]|e] s']; simpl in *; [done|..];
    by apply same_rows_moves.
Qed.

Lemma status_at_insert k k' r s :
  status_at k (set_rows (<[k' := r]>) s) = if decide (k' = k) then Some (row_status r) else status_at k s.
Proof.
  unfold status_at, set_rows. simpl. case_decide; [subst; by rewrite lookup_insert_eq|by rewrite lookup_insert_ne].
Qed.

Lemma moves_update_row key p f :
  (forall r, p r = true -> ledger_step (Some (row_status r)) (Some (row_status (f r)))) -> moves (update_row key p f).
Proof.
  intros Hf s k. unfold update_row, _select_row, gets, mbind, M_bind. simpl.
  destruct (st_rows s !! key) as [r|] eqn:Hr; simpl; [|done]. destruct (p r) eqn:Hp; simpl; [|done].
  rewrite status_at_insert. case_decide; [subst|done].
  apply rtc_once. unfold status_at. rewrite Hr. simpl. by apply Hf.
Qed.

Create HintDb ledger.
#[export] Hint Resolve moves_ret moves_raise moves_gets moves_lift ledger_claim ledger_consume ledger_release ledger_expire : ledger.

Lemma moves_monotonic : moves _assert_store_monotonic.
Proof.
  unfold _assert_store_monotonic, _read_mutation_counter.
  repeat (apply moves_bind; [|intros ?]); try case_match; auto with ledger.
  apply moves_modify. intros s. by apply same_rows_moves.
Qed.

Lemma moves_commit {A} (a : A) : moves (commit_mutation a).
Proof.
  unfold commit_mutation, _advance_mutation_counter, _read_mutation_counter.
  repeat (first [apply moves_bind; [|intros ?] | case_match | apply moves_modify; intros s; by apply same_rows_moves]);
    auto with ledger.
Qed.
#[export] Hint Resolve moves_monotonic moves_commit : ledger.

Lemma claimed_step st r : has_status Claimed r = true -> ledger_step (Some Claimed) (Some st) ->
  ledger_step (Some (row_status r)) (Some st).
Proof. intros ->%bool_decide_eq_true. done. Qed.

Lemma moves_inspect_tx key now : moves (inspect_tx key now).
Proof.
  unfold inspect_tx. apply moves_transaction.
  apply moves_bind; [auto with ledger|intros _]. apply moves_bind; [apply moves_gets|intros [r|]]; [|auto with ledger].
  apply moves_bind; [auto with ledger|intros st]. case_match; [|auto with ledger]. cbv zeta.
  apply moves_bind; [|auto with ledger]. apply moves_update_row. intros r' Hr. by apply claimed_step; [|apply ledger_expire].
Qed.

Lemma moves_inspect_loop n key now : moves (inspect_loop n key now).
Proof.
  induction n as [|n IH]; simpl; [auto with ledger|].
  apply moves_bind; [apply moves_inspect_tx|]. intros [s|]; [auto with ledger|done].
Qed.

Lemma moves_claim_tx claim now : moves (claim_tx claim now).
Proof.
  unfold claim_tx. cbv zeta. apply moves_transaction.
  apply moves_bind; [auto with ledger|intros _]. apply moves_bind.
  { apply moves_update_row. intros r [Hr _]%andb_true_iff. by apply claimed_step; [|apply ledger_expire]. }
  intros _ s k. unfold mbind, M_bind, _select_row, gets. simpl.
  set (key := cl_replay_key claim).
  destruct (st_rows s !! key) as [r|] eqn:Hr; simpl.
  - destruct (has_status Released r || has_status Expired r) eqn:Hd; simpl.
    + rewrite lookup_delete_eq. simpl. unfold mret, M_ret.
      etransitivity; [|apply (moves_commit true)]. rewrite status_at_insert. case_decide as Hk.
      * subst k. eapply rtc_l; [|apply rtc_once, ledger_claim]. unfold status_at. rewrite Hr. simpl.
        apply ledger_forget. apply orb_true_iff in Hd as [Hd|Hd]; apply bool_decide_eq_true in Hd; auto.
      * unfold status_at, set_rows. simpl. by rewrite lookup_delete_ne.
    + by rewrite Hr.
  - rewrite Hr. simpl. etransitivity; [|apply (moves_commit true)]. rewrite status_at_insert. case_decide as Hk; [|done].
    subst k. unfold status_at. rewrite Hr. apply rtc_once, ledger_claim.
Qed.

Lemma moves_claim_once claim now : moves (claim_once claim now).
Proof.
  unfold claim_once. apply moves_bind; [apply moves_claim_tx|]. intros [].
  - apply moves_inspect_loop.
  - apply moves_bind; [apply moves_inspect_loop|]. auto with ledger.
Qed.

Lemma moves_mark_tx key now : moves (mark_tx key now).
Proof.
  unfold mark_tx. cbv zeta. apply moves_transaction. apply moves_bind; [auto with ledger|intros _].
  apply moves_bind; [|intros n; case_match; auto with ledger].
  apply moves_update_row. intros r Hr. simpl. by apply claimed_step; [|apply ledger_consume].
Qed.

Lemma moves_mark_consumed key now : moves (mark_consumed key now).
Proof.
  unfold mark_consumed. apply moves_bind; [apply moves_mark_tx|]. intros [].
  - apply moves_inspect_loop.
  - apply moves_bind; [apply moves_inspect_loop|]. auto with ledger.
Qed.

Lemma moves_release_claim key now reason : moves (release_claim key now reason).
Proof.
  unfold release_claim, release_tx. cbv zeta. apply moves_bind.
  2: { intros [c|]; [auto with ledger|apply moves_inspect_loop]. }
  apply moves_transaction. apply moves_bind; [auto with ledger|intros _].
  apply moves_bind; [apply moves_gets|intros [r|]]; [|auto with ledger].
  apply moves_bind; [auto with ledger|intros st]. case_match; [auto with ledger|].
  apply moves_bind; [|intros n; case_match; auto with ledger].
  apply moves_update_row. intros r' Hr. simpl. by apply claimed_step; [|apply ledger_release].
Qed.

Lemma moves_purge now : moves (purge_expired now).
Proof.
  unfold purge_expired. cbv zeta. apply moves_transaction. apply moves_bind; [auto with ledger|intros _].
  apply moves_bind; [auto with ledger|intros rows].
  apply moves_bind; [|intros _; case_match; auto with ledger].
  apply moves_modify. intros s k. unfold status_at, set_rows. simpl. rewrite lookup_fmap.
  destruct (st_rows s !! k) as [r|]; simpl; [|done]. destruct (purgeable _ r) eqn:Hp; [|done].
  apply rtc_once. unfold purgeable in Hp. apply andb_true_iff in Hp as [Hp _]. by apply claimed_step; [|apply ledger_expire].
Qed.

(** ** What a successful transaction did *)
Lemma assert_monotonic_inv s r s' : _assert_store_monotonic s = (r, s') ->
  st_rows s' = st_rows s /\ st_counter s' = st_counter s /\
  match r with
  | Ok _ => exists n, st_counter s = Some n /\ (st_last s <= n)%Z /\ st_last s' = n
  | Err e => s' = s /\ match st_counter s with Some n => (n < st_last s)%Z | None => True end
  end.
Proof.
  unfold _assert_store_monotonic, _read_mutation_counter, mbind, M_bind, gets. simpl.
  destruct (st_counter s) as [n|] eqn:Hc; simpl.
  - destruct (Z.ltb_spec n (st_last s)); intros [= <- <-]; simpl; split_and!; try done. by exists n.
  - intros [= <- <-]. done.
Qed.

Lemma commit_mutation_inv {A} (a : A) s r s' : commit_mutation a s = (r, s') ->
  st_rows s' = st_rows s /\
  match r with
  | Ok x => x = Commit a /\ exists n, st_counter s = Some n /\ st_counter s' = Some (n + 1)%Z /\ st_last s' = (n + 1)%Z
  | Err e => match st_counter s with Some n => (n + 1 <= st_last s)%Z | None => True end
  end.
Proof.
  unfold commit_mutation, _advance_mutation_counter, _read_mutation_counter, mbind, M_bind, gets, modify. simpl.
  destruct (st_counter s) as [n|] eqn:Hc; simpl.
  - destruct (Z.leb_spec (n + 1) (st_last s)); intros [= <- <-]; simpl; [done|]. split_and!; try done. by exists n.
  - intros [= <- <-]. done.
Qed.

Lemma mark_tx_true k now s s' : mark_tx k now s = (Ok true, s') ->
  status_at k s = Some Claimed /\ status_at k s' = Some Consumed.
Proof.
  unfold mark_tx, transaction. cbv zeta. unfold mbind at 1, M_bind at 1.
  destruct (_assert_store_monotonic s) as [[[]|e] s1] eqn:Hm; [|done].
  apply assert_monotonic_inv in Hm as (Hrows & _ & _).
  unfold update_row, _select_row, gets. unfold mbind, M_bind. simpl. rewrite Hrows.
  destruct (st_rows s !! k) as [r|] eqn:Hr; simpl; [|done].
  destruct (has_status Claimed r) eqn:Hst; simpl; [|done].
  match goal with |- context [commit_mutation ?a ?x] => destruct (commit_mutation a x) as [[[b|b]|e] s3] eqn:Hc end;
    apply commit_mutation_inv in Hc as [Hrows' Hc]; intros [= -> <-]; [|destruct Hc; done].
  apply bool_decide_eq_true in Hst. unfold status_at. rewrite Hr, Hrows'. simpl. rewrite Hrows, lookup_insert_eq. by rewrite Hst.
Qed.

(** ** Several workers on one database

    A schedule interleaves the transactions of any number of store objects (one
    per worker), each with its own observed counter, over the shared table; a
    worker can restart at any point.  A method is a sequence of these
    transactions, so every concurrent execution of methods is a schedule. *)
Inductive tx_op :=
| TxOpen
| TxClaim (claim : ActionConsumptionClaim) (now : datetime)
| TxMark (replay_key : string) (now : datetime)
| TxRelease (replay_key : string) (now : datetime) (reason : string)
| TxInspect (replay_key : string) (now : datetime)
| TxPurge (now : datetime).

Inductive tx_result := RDone | RInserted (b : bool) | RMarked (b : bool) | RCount (n : Z).

Definition run_op (op : tx_op) : db tx_result :=
  match op with
  | TxOpen => _ ← modify (fun s => open_store (st_rows s) (st_counter s)); mret RDone
  | TxClaim c now => b ← claim_tx c now; mret (RInserted b)
  | TxMark k now => b ← mark_tx k now; mret (RMarked b)
  | TxRelease k now reason => _ ← release_tx k now reason; mret RDone
  | TxInspect k now => _ ← inspect_tx k now; mret RDone
  | TxPurge now => n ← purge_expired now; mret (RCount n)
  end.

Record world := mkWorld { w_rows : gmap string row; w_counter : option Z; w_last : nat -> Z }.

Definition world_view (w : world) (worker : nat) : store := mkStore (w_rows w) (w_counter w) (w_last w worker).

Definition world_step (w : world) (worker : nat) (op : tx_op) : py tx_result * world :=
  let '(r, s) := run_op op (world_view w worker) in
  (r, mkWorld (st_rows s) (st_counter s) (fun i => if Nat.eqb i worker then st_last s else w_last w i)).

(** The marks of one key that succeeded along a schedule. *)
Fixpoint successful_marks (k : string) (w : world) (schedule : list (nat * tx_op)) : nat :=
  match schedule with
  | [] => 0
  | (worker, op) :: rest =>
      let '(r, w') := world_step w worker op in
      (match op, r with
       | TxMark k' _, Ok (RMarked true) => if String.eqb k' k then 1 else 0
       | _, _ => 0
       end) + successful_marks k w' rest
  end.

Lemma moves_release_tx key now reason : moves (release_tx key now reason).
Proof.
  unfold release_tx. cbv zeta.
  apply moves_transaction. apply moves_bind; [auto with ledger|intros _].
  apply moves_bind; [apply moves_gets|intros [r|]]; [|auto with ledger].
  apply moves_bind; [auto with ledger|intros st]. case_match; [auto with ledger|].
  apply moves_bind; [|intros n; case_match; auto with ledger].
  apply moves_update_row. intros r' Hr. simpl. by apply claimed_step; [|apply ledger_release].
Qed.

Lemma moves_run_op op : moves (run_op op).
Proof.
  destruct op; simpl; (apply moves_bind; [|auto with ledger]).
  - apply moves_modify. intros s. by apply same_rows_moves.
  - apply moves_claim_tx.
  - apply moves_mark_tx.
  - apply moves_release_tx.
  - apply moves_inspect_tx.
  - apply moves_purge.
Qed.

(** The status of a key in a world. *)
Definition world_status (k : string) (w : world) : option ActionConsumptionStatus := row_status <$> w_rows w !! k.

Lemma world_step_ledger w worker op k :
  rtc ledger_step (world_status k w) (world_status k (world_step w worker op).2).
Proof.
  unfold world_step. pose proof (moves_run_op op (world_view w worker) k) as Hm.
  destruct (run_op op (world_view w worker)) as [r s]. exact Hm.
Qed.

Lemma world_step_marked w worker k now w' :
  world_step w worker (TxMark k now) = (Ok (RMarked true), w') ->
  world_status k w = Some Claimed /\ world_status k w' = Some Consumed.
Proof.
  unfold world_step, run_op, mbind, M_bind. destruct (mark_tx k now (world_view w worker)) as [[b|e] s] eqn:Hm; simpl; [|done].
  intros [= -> <-]. by apply mark_tx_true in Hm.
Qed.

Lemma marks_after_consumed k w schedule : world_status k w = Some Consumed -> successful_marks k w schedule = 0.
Proof.
  revert w. induction schedule as [|[worker op] rest IH]; intros w Hw; simpl; [done|].
  pose proof (world_step_ledger w worker op k) as Hl. rewrite Hw in Hl. apply ledger_consumed_final in Hl.
  destruct (world_step w worker op) as [r w'] eqn:Hs. simpl in Hl. rewrite (IH w' Hl).
  destruct op as [| |k' now| | |]; try done. destruct r as [[| |[]|]|]; try done.
  destruct (String.eqb_spec k' k) as [->|]; [|done]. apply world_step_marked in Hs as [Hs _]. congruence.
Qed.

Lemma successful_marks_at_most_one k w schedule : successful_marks k w schedule <= 1.
Proof.
  revert w. induction schedule as [|[worker op] rest IH]; intros w; simpl; [lia|].
  destruct (world_step w worker op) as [r w'] eqn:Hs. specialize (IH w').
  destruct op as [| |k' now| | |]; try lia. destruct r as [[| |[]|]|]; try lia.
  destruct (String.eqb_spec k' k) as [->|]; [|lia]. apply world_step_marked in Hs as [_ Hs].
  rewrite (marks_after_consumed k w' rest Hs). lia.
Qed.

(** ** Well-formed stores and what each method does on them *)
Definition ts_ok (t : string) : Prop := exists d, datetime_ok d /\ t = format_timestamp d.

Definition row_wf (r : row) : Prop :=
  ts_ok (row_created_at r) /\ ts_ok (row_updated_at r) /\ ts_ok (row_expires_at r) /\
  match row_consumed_at r with Some t => ts_ok t | None => True end.

(** The metadata row exists and is not behind what this object observed. *)
Definition counter_wf (s : store) : Prop := exists n, st_counter s = Some n /\ (st_last s <= n)%Z.
Definition store_wf (s : store) : Prop := counter_wf s /\ map_Forall (fun _ => row_wf) (st_rows s).

Lemma ts_ok_format d : datetime_ok d -> ts_ok (format_timestamp d).
Proof. by exists d. Qed.

(** The expiry of a row as a time. *)
Definition row_expiry (r : row) : py datetime := parse_timestamp (JStr (row_expires_at r)) "expires_at".

Lemma row_to_state_ok k r : row_wf r ->
  exists st, _row_to_state k r = Ok st /\ cs_status st = row_status r /\ cs_replay_key st = k /\
    row_expiry r = Ok (cs_expires_at st) /\ row_expires_at r = format_timestamp (cs_expires_at st).
Proof.
  intros ((c & Hc & Ec) & (u & Hu & Eu) & (x & Hx & Ex) & Hcons). unfold _row_to_state, row_expiry.
  rewrite Ec, Eu, Ex, !parse_format by done.
  destruct (row_consumed_at r) as [t|].
  - destruct Hcons as (d & Hd & ->). rewrite parse_format by done.
    destruct (str_truthy (format_timestamp d)); simpl; eexists; done.
  - simpl. eexists; done.
Qed.

(** What [inspect] at [now] turns a row into. *)
Definition row_expired (now : datetime) (r : row) : bool :=
  match row_expiry r with Ok x => has_status Claimed r && (x <=? now)%Z | Err _ => false end.
Definition expire_row (now : datetime) (r : row) : row :=
  if row_expired now r then with_status Expired (format_timestamp now) r else r.

Lemma with_status_wf st now r : datetime_ok now -> row_wf r -> row_wf (with_status st (format_timestamp now) r).
Proof. intros Hn (? & ? & ? & ?). repeat split; try done. by apply ts_ok_format. Qed.

Lemma expire_row_wf now r : datetime_ok now -> row_wf r -> row_wf (expire_row now r).
Proof. intros. unfold expire_row. case_match; [by apply with_status_wf|done]. Qed.

Lemma expire_row_settled now r : row_expired now (expire_row now r) = false.
Proof.
  unfold expire_row. destruct (row_expired now r) eqn:He; [|done]. unfold row_expired, row_expiry. simpl. by destruct (parse_timestamp _ _).
Qed.

(** The state [inspect] reads. *)
Definition inspect_view (k : string) (s : store) : option ActionConsumptionState :=
  match st_rows s !! k with
  | Some r => match _row_to_state k r with Ok st => Some st | Err _ => None end
  | None => None
  end.

Lemma alter_present (rows : gmap string row) k f r : rows !! k = Some r -> alter f k rows = <[k := f r]> rows.
Proof.
  intros Hr. apply map_eq. intros i. destruct (decide (k = i)) as [->|].
  - by rewrite lookup_alter_eq, lookup_insert_eq, Hr.
  - by rewrite lookup_alter_ne, lookup_insert_ne.
Qed.

Lemma map_Forall_insert_wf (rows : gmap string row) k r : row_wf r -> map_Forall (fun _ => row_wf) rows -> map_Forall (fun _ => row_wf) (<[k := r]> rows).
Proof. intros Hr Hall. by apply map_Forall_insert_2. Qed.

(** A transaction whose guard passes. *)
Lemma transaction_monotonic {A} (body : db (tx_end A)) s : counter_wf s ->
  exists n, st_counter s = Some n /\
  transaction (_ ← _assert_store_monotonic; body) s =
    match body (set_last n s) with
    | (Ok (Commit a), s') => (Ok a, s')
    | (Ok (Rollback a), s') => (Ok a, mkStore (st_rows s) (st_counter s) (st_last s'))
    | (Err e, s') => (Err e, mkStore (st_rows s) (st_counter s) (st_last s'))
    end.
Proof.
  intros (n & Hc & Hle). exists n. split; [done|]. unfold transaction, mbind, M_bind.
  unfold _assert_store_monotonic, _read_mutation_counter, mbind, M_bind, gets, mret, M_ret. rewrite Hc. simpl.
  destruct (Z.ltb_spec n (st_last s)); [lia|]. done.
Qed.

(** A mutation that commits right after the guard. *)
Lemma commit_mutation_guarded {A} (a : A) rows n :
  commit_mutation a (mkStore rows (Some n) n) = (Ok (Commit a), mkStore rows (Some (n + 1)%Z) (n + 1)%Z).
Proof.
  unfold commit_mutation, _advance_mutation_counter, _read_mutation_counter, mbind, M_bind, gets, modify, mret, M_ret. simpl.
  destruct (Z.leb_spec (n + 1) n); [lia|done].
Qed.

(** Evaluate the monadic plumbing of a transaction body. *)
Ltac db_eval :=
  cbv beta iota zeta delta [mbind M_bind mret M_ret gets modify lift raise set_rows set_last set_counter
    update_row _select_row st_rows st_counter st_last].
Ltac db_transaction s Hcw n Hc :=
  match goal with
  | |- context [transaction (_ ≫= fun _ => ?b)] =>
      let Ht := fresh in destruct (transaction_monotonic b s Hcw) as (n & Hc & Ht); rewrite Ht; clear Ht
  end; destruct s as [rows counter last]; cbn [st_rows st_counter st_last] in *; subst counter.

Lemma store_wf_intro rows n : map_Forall (fun _ => row_wf) rows -> store_wf (mkStore rows (Some n) n).
Proof. intros Hall. split; [|done]. exists n. split; [done|simpl; lia]. Qed.

Lemma inspect_tx_spec k now s : store_wf s -> datetime_ok now ->
  exists s', store_wf s' /\ st_rows s' = alter (expire_row now) k (st_rows s) /\
  inspect_tx k now s =
    (Ok (if match st_rows s !! k with Some r => row_expired now r | None => false end then Again else Found (inspect_view k s)), s').
Proof.
  intros [Hcw Hall] Hn. unfold inspect_tx, inspect_view. db_transaction s Hcw n Hc. db_eval.
  destruct (rows !! k) as [r|] eqn:Hr.
  - destruct (row_to_state_ok k r (Hall k r Hr)) as (st & Hst & Hs & _ & Hx & _). rewrite Hst, Hs.
    change (bool_decide (row_status r = Claimed)) with (has_status Claimed r).
    rewrite (alter_present _ _ _ r) by done. unfold expire_row, row_expired. rewrite Hx.
    destruct (has_status Claimed r && (cs_expires_at st <=? now)%Z) eqn:He.
    + apply andb_true_iff in He as [He _]. db_eval. rewrite Hr, He. db_eval. rewrite commit_mutation_guarded. eexists. split; [|split; [|reflexivity]].
      * apply store_wf_intro, map_Forall_insert_wf; [by apply with_status_wf; [|eapply Hall]|done].
      * done.
    + eexists. split; [|split; [|reflexivity]]; [by apply store_wf_intro|]. simpl. by rewrite insert_id.
  - eexists. split; [|split; [|reflexivity]]; [by apply store_wf_intro|]. simpl. by rewrite alter_id'.
Qed.

(** [inspect] returns the row after marking it expired when its time has come;
    two units of fuel are enough. *)
Lemma inspect_spec k now s : store_wf s -> datetime_ok now ->
  exists s', store_wf s' /\ st_rows s' = alter (expire_row now) k (st_rows s) /\
    inspect k now s = (Ok (inspect_view k s'), s').
Proof.
  intros Hw Hn. unfold inspect. cbn [inspect_loop]. unfold mbind, M_bind.
  destruct (inspect_tx_spec k now s Hw Hn) as (s1 & Hw1 & Hr1 & ->).
  destruct (st_rows s !! k) as [r|] eqn:Hr; cbn iota.
  - destruct (row_expired now r) eqn:He; cbn iota.
    + destruct (inspect_tx_spec k now s1 Hw1 Hn) as (s2 & Hw2 & Hr2 & ->).
      assert (st_rows s1 !! k = Some (expire_row now r)) as Hs1 by (by rewrite Hr1, lookup_alter_eq, Hr).
      rewrite Hs1, expire_row_settled. cbn iota. exists s2.
      assert (st_rows s2 = st_rows s1) as Heq.
      { rewrite Hr2. apply map_eq. intros i. destruct (decide (k = i)) as [->|]; [|by rewrite lookup_alter_ne].
        rewrite lookup_alter_eq, Hs1. simpl. f_equal. unfold expire_row at 1. by rewrite expire_row_settled. }
      split_and!; [done|congruence|]. unfold inspect_view. by rewrite Heq.
    + exists s1. split_and!; [done|done|]. unfold mret, M_ret. do 2 f_equal. unfold inspect_view.
      rewrite Hr1, lookup_alter_eq, Hr. simpl. unfold expire_row. by rewrite He.
  - exists s1. split_and!; [done|done|]. unfold mret, M_ret. do 2 f_equal. unfold inspect_view.
    by rewrite Hr1, lookup_alter_eq, Hr.
Qed.

(** A claim is refused while the key is consumed or held by a claim whose text
    expiry is still ahead. *)
Definition claim_blocked (now : datetime) (r : option row) : bool :=
  match r with
  | Some r => match row_status r with
              | Consumed => true
              | Claimed => negb (text_leb (row_expires_at r) (format_timestamp now))
              | Released | Expired => false
              end
  | None => false
  end.

Lemma claim_row_wf claim now : datetime_ok now -> datetime_ok (cl_expires_at claim) -> row_wf (claim_row claim (format_timestamp now)).
Proof. intros. repeat split; by apply ts_ok_format. Qed.

Lemma claim_tx_spec claim now s : store_wf s -> datetime_ok now -> datetime_ok (cl_expires_at claim) ->
  let k := cl_replay_key claim in
  exists s', store_wf s' /\
    claim_tx claim now s = (Ok (negb (claim_blocked now (st_rows s !! k))), s') /\
    st_rows s' = (if claim_blocked now (st_rows s !! k) then st_rows s
                  else <[k := claim_row claim (format_timestamp now)]> (st_rows s)).
Proof.
  intros [Hcw Hall] Hn Hx k. subst k. unfold claim_tx. cbv zeta. set (k := cl_replay_key claim).
  assert (forall rows' n, map_Forall (fun _ => row_wf) rows' ->
    store_wf (mkStore (<[k := claim_row claim (format_timestamp now)]> rows') (Some n) n)) as Hins.
  { intros rows' n Hall'. by apply store_wf_intro, map_Forall_insert_wf; [apply claim_row_wf|]. }
  db_transaction s Hcw n Hc. db_eval. unfold claim_blocked.
  destruct (rows !! k) as [r|] eqn:Hr.
  - unfold has_status at 1. destruct (row_status r) eqn:Hst.
    + rewrite bool_decide_true by done. simpl. destruct (text_leb (row_expires_at r) (format_timestamp now)).
      * db_eval. rewrite lookup_insert_eq. db_eval. unfold has_status. simpl.
        rewrite lookup_delete_eq. db_eval. rewrite commit_mutation_guarded. eexists. split; [|split; [reflexivity|]].
        -- rewrite insert_delete_eq, insert_insert_eq. by apply Hins.
        -- simpl. by rewrite insert_delete_eq, insert_insert_eq.
      * db_eval. rewrite Hr. unfold has_status. rewrite Hst. simpl. rewrite Hr. db_eval.
        eexists. split; [|split; [reflexivity|]]; [by apply store_wf_intro|done].
    + rewrite bool_decide_false by (rewrite ?Hst; done). simpl. db_eval. rewrite Hr. unfold has_status. rewrite Hst. simpl. rewrite Hr. db_eval.
      eexists. split; [|split; [reflexivity|]]; [by apply store_wf_intro|done].
    + rewrite bool_decide_false by (rewrite ?Hst; done). simpl. db_eval. rewrite Hr. unfold has_status. rewrite Hst. simpl.
      rewrite lookup_delete_eq. db_eval. rewrite commit_mutation_guarded. eexists. split; [|split; [reflexivity|]].
      * rewrite insert_delete_eq. by apply Hins.
      * simpl. by rewrite insert_delete_eq.
    + rewrite bool_decide_false by (rewrite ?Hst; done). simpl. db_eval. rewrite Hr. unfold has_status. rewrite Hst. simpl.
      rewrite lookup_delete_eq. db_eval. rewrite commit_mutation_guarded. eexists. split; [|split; [reflexivity|]].
      * rewrite insert_delete_eq. by apply Hins.
      * simpl. by rewrite insert_delete_eq.
  - db_eval. rewrite Hr. db_eval. rewrite Hr. db_eval. rewrite commit_mutation_guarded. eexists. split; [|split; [reflexivity|]]; [by apply Hins|done].
Qed.


(** [claim_once] on a well-formed store. *)
Lemma claim_once_spec claim now s : store_wf s -> datetime_ok now -> datetime_ok (cl_expires_at claim) ->
  let k := cl_replay_key claim in
  exists s', store_wf s' /\
  if claim_blocked now (st_rows s !! k)
  then (exists details, claim_once claim now s =
          (Err (replay_error "DUPLICATE_REPLAY" "The protected action has already been claimed for execution." details), s')) /\
       st_rows s' = alter (expire_row now) k (st_rows s)
  else claim_once claim now s = (Ok (inspect_view k s'), s') /\
       st_rows s' = <[k := expire_row now (claim_row claim (format_timestamp now))]> (st_rows s).
Proof.
  intros Hw Hn Hx k. destruct (claim_tx_spec claim now s Hw Hn Hx) as (s1 & Hw1 & Hc & Hr1). fold k in Hc, Hr1.
  unfold claim_once, mbind, M_bind. rewrite Hc.
  destruct (inspect_spec k now s1 Hw1 Hn) as (s2 & Hw2 & Hr2 & Hi). exists s2. split; [done|].
  destruct (claim_blocked now (st_rows s !! k)); cbn [negb]; fold k; rewrite Hi.
  - split; [by eexists|]. by rewrite Hr2, Hr1.
  - split; [done|]. rewrite Hr2, Hr1. rewrite (alter_present _ _ _ (claim_row claim (format_timestamp now))) by apply lookup_insert_eq.
    by rewrite insert_insert_eq.
Qed.

(** The consumed form of a claimed row. *)
Definition consume_row (now : datetime) (r : row) : row :=
  with_consumed_at (format_timestamp now) (with_status Consumed (format_timestamp now) r).

Lemma consume_row_wf now r : datetime_ok now -> row_wf r -> row_wf (consume_row now r).
Proof. intros Hn (? & ? & ? & ?). repeat split; try done; by apply ts_ok_format. Qed.

Lemma mark_tx_spec k now s : store_wf s -> datetime_ok now ->
  exists s', store_wf s' /\
    match st_rows s !! k with
    | Some r => if has_status Claimed r
                then mark_tx k now s = (Ok true, s') /\ st_rows s' = <[k := consume_row now r]> (st_rows s)
                else mark_tx k now s = (Ok false, s') /\ st_rows s' = st_rows s
    | None => mark_tx k now s = (Ok false, s') /\ st_rows s' = st_rows s
    end.
Proof.
  intros [Hcw Hall] Hn. unfold mark_tx. cbv zeta. db_transaction s Hcw n Hc. db_eval.
  destruct (rows !! k) as [r|] eqn:Hr.
  - destruct (has_status Claimed r) eqn:Hst; db_eval; simpl.
    + rewrite commit_mutation_guarded. eexists. split; [|split; [reflexivity|done]].
      apply store_wf_intro, map_Forall_insert_wf; [by apply consume_row_wf; [|eapply Hall]|done].
    + eexists. split; [|split; [reflexivity|done]]. by apply store_wf_intro.
  - eexists. split; [|split; [reflexivity|done]]. by apply store_wf_intro.
Qed.

Lemma consumed_not_expired now now' r : expire_row now (consume_row now' r) = consume_row now' r.
Proof. unfold expire_row, row_expired. by destruct (row_expiry _). Qed.

(** [mark_consumed] on a well-formed store: exactly a claimed key is consumed. *)
Lemma mark_consumed_spec k now s : store_wf s -> datetime_ok now ->
  exists s', store_wf s' /\
    if bool_decide (status_at k s = Some Claimed)
    then (exists st, mark_consumed k now s = (Ok (Some st), s') /\ cs_status st = Consumed /\ cs_replay_key st = k) /\
         status_at k s' = Some Consumed
    else (exists details, mark_consumed k now s =
            (Err (replay_error "REPLAY_STATE_INVALID" "The replay record could not transition to consumed." details), s')) /\
         st_rows s' = st_rows s.
Proof.
  intros Hw Hn. destruct (mark_tx_spec k now s Hw Hn) as (s1 & Hw1 & Hm).
  destruct (inspect_spec k now s1 Hw1 Hn) as (s2 & Hw2 & Hr2 & Hi). exists s2. split; [done|].
  unfold mark_consumed, mbind, M_bind, status_at. destruct (st_rows s !! k) as [r|] eqn:Hr.
  - unfold has_status in Hm. simpl. destruct (decide (row_status r = Claimed)) as [Hc|Hc].
    + rewrite bool_decide_true in Hm by done. rewrite bool_decide_true by congruence. destruct Hm as [-> Hm].
      rewrite Hi. assert (st_rows s2 !! k = Some (consume_row now r)) as Hs2.
      { rewrite Hr2, Hm, lookup_alter_eq, lookup_insert_eq. simpl. by rewrite consumed_not_expired. }
      rewrite Hs2. unfold inspect_view. rewrite Hs2.
      destruct (row_to_state_ok k (consume_row now r)) as (st & -> & Hst & Hk & _); [by apply consume_row_wf; [|eapply Hw]|].
      split; [|done]. exists st. done.
    + rewrite bool_decide_false in Hm by done. rewrite bool_decide_false by congruence. destruct Hm as [-> Hm].
      rewrite Hi. split; [by eexists|]. rewrite Hr2, Hm. apply map_eq. intros i.
      destruct (decide (k = i)) as [<-|]; [|by rewrite lookup_alter_ne]. rewrite lookup_alter_eq, Hr. simpl. f_equal.
      unfold expire_row, row_expired, has_status. rewrite bool_decide_false by done. by destruct (row_expiry r).
  - rewrite bool_decide_false by done. destruct Hm as [-> Hm]. rewrite Hi. split; [by eexists|].
    rewrite Hr2, Hm. by apply alter_id'.
Qed.

(** The released form of a claimed row, with the metadata it is given. *)
Definition release_row (now : datetime) (m : dict) (r : row) : row :=
  with_metadata m (with_status Released (format_timestamp now) r).

Lemma release_row_wf now m r : datetime_ok now -> row_wf r -> row_wf (release_row now m r).
Proof. intros Hn (? & ? & ? & ?). repeat split; try done; by apply ts_ok_format. Qed.

Lemma release_tx_spec k now reason s : store_wf s -> datetime_ok now ->
  exists res s', release_tx k now reason s = (res, s') /\ store_wf s' /\
    match status_at k s with
    | Some Claimed => res = Ok None /\ exists r m, let r' := release_row now m r in
        st_rows s !! k = Some r /\ row_wf r' /\ st_rows s' = <[k := r']> (st_rows s)
    | Some Consumed => (exists st, res = Ok (Some st) /\ cs_status st = Consumed) /\ st_rows s' = st_rows s
    | Some _ => (exists details, res = Err (replay_error "REPLAY_RELEASE_INVALID" "The replay claim could not be released." details)) /\
                st_rows s' = st_rows s
    | None => res = Err (replay_error "REPLAY_CLAIM_MISSING" "The replay claim does not exist." [("replay_key", JStr k)]) /\
              st_rows s' = st_rows s
    end.
Proof.
  intros [Hcw Hall] Hn. unfold release_tx, status_at. cbv zeta. db_transaction s Hcw n Hc. db_eval.
  destruct (rows !! k) as [r|] eqn:Hr; cbn [fmap option_fmap option_map].
  2: { eexists _, _. split; [reflexivity|]. split; [by apply store_wf_intro|done]. }
  destruct (row_to_state_ok k r (Hall k r Hr)) as (st & -> & Hs & _ & _ & _). rewrite Hs.
  destruct (row_status r) eqn:Hst; cbn [bool_decide decide_rel].
  - rewrite bool_decide_false by done. db_eval. rewrite Hr. unfold has_status at 1. rewrite bool_decide_true by done. db_eval.
    cbn [Z.eqb Pos.eqb]. rewrite commit_mutation_guarded.
    match goal with |- context [with_metadata ?m _] => set (md := m) end.
    assert (row_wf (release_row now md r)) as Hr' by (by apply release_row_wf; [|eapply Hall]).
    eexists _, _. split; [reflexivity|]. split; [by apply store_wf_intro, map_Forall_insert_wf|]. split; [done|]. by exists r, md.
  - rewrite bool_decide_true by done. db_eval. eexists _, _. split; [reflexivity|].
    split; [by apply store_wf_intro|]. split; [|done]. by exists st.
  - rewrite bool_decide_false by done. db_eval. rewrite Hr. unfold has_status. rewrite bool_decide_false by (by rewrite Hst). db_eval.
    eexists _, _. split; [reflexivity|]. split; [by apply store_wf_intro|]. split; [by eexists|done].
  - rewrite bool_decide_false by done. db_eval. rewrite Hr. unfold has_status. rewrite bool_decide_false by (by rewrite Hst). db_eval.
    eexists _, _. split; [reflexivity|]. split; [by apply store_wf_intro|]. split; [by eexists|done].
Qed.

(** [release_claim] on a well-formed store: a claim is released (and the key can be
    claimed again), a consumed key is reported and kept, anything else is an error. *)
Lemma release_claim_spec k now reason s : store_wf s -> datetime_ok now ->
  exists res s', release_claim k now reason s = (res, s') /\ store_wf s' /\
    match status_at k s with
    | Some Claimed => (exists st, res = Ok (Some st) /\ cs_status st = Released) /\ status_at k s' = Some Released
    | Some Consumed => (exists st, res = Ok (Some st) /\ cs_status st = Consumed) /\ st_rows s' = st_rows s
    | Some _ => (exists details, res = Err (replay_error "REPLAY_RELEASE_INVALID" "The replay claim could not be released." details)) /\
                st_rows s' = st_rows s
    | None => res = Err (replay_error "REPLAY_CLAIM_MISSING" "The replay claim does not exist." [("replay_key", JStr k)]) /\
              st_rows s' = st_rows s
    end.
Proof.
  intros Hw Hn. destruct (release_tx_spec k now reason s Hw Hn) as (res & s1 & Hrel & Hw1 & Hm).
  unfold release_claim, mbind, M_bind. rewrite Hrel. destruct (status_at k s) as [[]|].
  - destruct Hm as (-> & r & md & _ & Hr' & Hrows). set (r' := release_row now md r) in *. assert (row_status r' = Released) as Hst' by done.
    destruct (inspect_spec k now s1 Hw1 Hn) as (s2 & Hw2 & Hr2 & ->). eexists _, s2. split; [reflexivity|]. split; [done|].
    assert (st_rows s2 !! k = Some r') as Hs2.
    { rewrite Hr2, Hrows, lookup_alter_eq, lookup_insert_eq. simpl. f_equal. unfold expire_row, row_expired, has_status.
      rewrite bool_decide_false by congruence. by destruct (row_expiry r'). }
    unfold inspect_view, status_at. rewrite Hs2. simpl. split; [|done].
    destruct (row_to_state_ok k r' Hr') as (st' & -> & Hs' & _). exists st'. split; [done|]. congruence.
  - destruct Hm as ((st & -> & Hst) & Hrows). eexists _, s1. split; [reflexivity|]. split; [done|]. split; [|done]. by exists st.
  - destruct Hm as ((d & ->) & Hrows). eexists _, s1. split; [reflexivity|]. split; [done|]. split; [|done]. by eexists.
  - destruct Hm as ((d & ->) & Hrows). eexists _, s1. split; [reflexivity|]. split; [done|]. split; [|done]. by eexists.
  - destruct Hm as (-> & Hrows). by eexists _, s1.
Qed.

(** ** A database that went back in time *)
Definition rolled_back (s : store) : Prop := match st_counter s with Some n => (n < st_last s)%Z | None => True end.

Definition rollback_error (e : exn) : Prop :=
  exists msg details, e = replay_error "REPLAY_STORE_ROLLBACK_DETECTED" msg details.

Lemma transaction_rolled_back {A} (body : db (tx_end A)) s : rolled_back s ->
  exists e, rollback_error e /\ transaction (_ ← _assert_store_monotonic; body) s = (Err e, s).
Proof.
  intros Hb. unfold transaction, mbind, M_bind.
  assert (exists e, rollback_error e /\ _assert_store_monotonic s = (Err e, s)) as (e & He & ->).
  { unfold rolled_back in Hb. unfold _assert_store_monotonic, _read_mutation_counter, mbind, M_bind, gets, mret, M_ret, raise.
    destruct (st_counter s) as [n|]; simpl.
    - destruct (Z.ltb_spec n (st_last s)); [|lia]. eexists. split; [by eexists _, _|done].
    - eexists. split; [by eexists _, _|done]. }
  exists e. split; [done|]. by destruct s.
Qed.

(** Every method raises and leaves the store alone. *)
Definition detects {A} (m : db A) (s : store) : Prop := exists e, rollback_error e /\ m s = (Err e, s).

Lemma detects_bind {A B} (m : db A) (f : A -> db B) s : detects m s -> detects (m ≫= f) s.
Proof. intros (e & He & Hm). exists e. split; [done|]. unfold mbind, M_bind. by rewrite Hm. Qed.

Lemma rollback_detected_by_all s claim k now reason : rolled_back s ->
  detects (claim_once claim now) s /\ detects (mark_consumed k now) s /\ detects (release_claim k now reason) s /\
  detects (inspect k now) s /\ detects (purge_expired now) s.
Proof.
  intros Hb. split_and!.
  - apply detects_bind. by apply transaction_rolled_back.
  - apply detects_bind. by apply transaction_rolled_back.
  - apply detects_bind. by apply transaction_rolled_back.
  - unfold inspect. cbn [inspect_loop]. apply detects_bind. by apply transaction_rolled_back.
  - by apply transaction_rolled_back.
Qed.

(** ** [replay/service.py] *)
Definition replay_key_input (intent : ActionIntent) (pccb : PCCB) : dict :=
  [("pccb_id", JStr (pc_pccb_id pccb));
   ("intent_id", JStr (in_intent_id intent));
   ("nonce", JStr (pc_nonce pccb));
   ("action_hash", JDict (ActionHashSpec_to_dict (pc_action_hash pccb)));
   ("audience", JDict (AudienceRef_to_dict (pc_audience pccb)));
   ("capability", JStr (act_capability (in_action intent)));
   ("target", JDict (TargetRef_to_dict (in_target intent)))].

Section ReplayService.
Context `{Protocol}.

Definition build_replay_key (intent : ActionIntent) (pccb : PCCB) (context : DynamicContextInput) : py string :=
  h ← sha256_hex (JDict (replay_key_input intent pccb)); Ok ("rpk_" +:+ h).

Definition build_action_consumption_claim (intent : ActionIntent) (pccb : PCCB) (context : DynamicContextInput)
    : py ActionConsumptionClaim :=
  replay_key ← build_replay_key intent pccb context;
  Ok (mkClaim replay_key (in_intent_id intent) (pc_pccb_id pccb) (pc_nonce pccb) (ah_value (pc_action_hash pccb))
        (aud_type (pc_audience pccb) +:+ ":" +:+ aud_id (pc_audience pccb)) (act_capability (in_action intent))
        (tenant_id (in_tenant intent)) (party_id (in_requester intent)) (pc_expires_at pccb)
        [("request_id", JStr (cx_request_id context)); ("audience_id", JStr (aud_id (pc_audience pccb)));
         ("scope_capabilities", JList (map JStr (sc_capabilities (pc_scope pccb))))]).

(** [ReplayProtector.claim_request] over the database store *)
Definition claim_request (request : ProtectedExecutionRequest) : db (option ActionConsumptionState) :=
  claim ← lift (build_action_consumption_claim (rq_intent request) (rq_pccb request) (rq_context request));
  claim_once claim (cx_now (rq_context request)).

(** *** One accepted proof, one replay key *)
Lemma action_norm_capability a a' :
  json_norm (JDict (ActionSpec_to_dict a)) = json_norm (JDict (ActionSpec_to_dict a')) -> act_capability a = act_capability a'.
Proof.
  intros He.
  assert (forall x, NoDup (ActionSpec_to_dict x).*1) as Hnd.
  { intros x. unfold ActionSpec_to_dict. destruct (dict_truthy (act_constraints x)), (dict_truthy (act_scope x));
      apply (bool_decide_unpack _); vm_compute; exact I. }
  pose proof (json_norm_assoc _ _ "capability" (Hnd a) (Hnd a') He) as Hc. simpl in Hc. congruence.
Qed.

Lemma json_norm_dict_congr (d d' : dict) :
  Forall2 (fun kv kv' => kv.1 = kv'.1 /\ json_norm kv.2 = json_norm kv'.2) d d' -> json_norm (JDict d) = json_norm (JDict d').
Proof.
  intros Hall. simpl. f_equal. f_equal. induction Hall as [|[k v] [k' v'] l l' [Hk Hv] _ IH]; simpl in *; [done|]. by subst; rewrite Hv, IH.
Qed.

Lemma replay_key_input_norm i i' pccb :
  in_intent_id i = in_intent_id i' ->
  json_norm (JDict (ActionSpec_to_dict (in_action i))) = json_norm (JDict (ActionSpec_to_dict (in_action i'))) ->
  json_norm (JDict (TargetRef_to_dict (in_target i))) = json_norm (JDict (TargetRef_to_dict (in_target i'))) ->
  json_norm (JDict (replay_key_input i pccb)) = json_norm (JDict (replay_key_input i' pccb)).
Proof.
  intros Hi Ha%action_norm_capability Ht. apply json_norm_dict_congr. unfold replay_key_input. rewrite Hi, Ha.
  repeat constructor; done.
Qed.
End ReplayService.

(** ** Properties *)

(** C15: single use: along any interleaving of the transactions of any number of
    workers on one database, restarts and clock values included, [mark_consumed]
    succeeds at most once for a replay key. *)
Theorem consumed_at_most_once (k : string) (w : world) (schedule : list (nat * tx_op)) :
  successful_marks k w schedule <= 1.
Proof. apply successful_marks_at_most_one. Qed.

(** [claim_once] on a well-formed store refuses with DUPLICATE_REPLAY exactly
    when the key is consumed or held by a claim whose expiry text is after the
    text of now, and otherwise records the new claim and returns its state. *)
Theorem claim_once_exclusive (claim : ActionConsumptionClaim) (now : datetime) (s : store) :
  store_wf s -> datetime_ok now -> datetime_ok (cl_expires_at claim) ->
  let k := cl_replay_key claim in
  exists s', store_wf s' /\
  if claim_blocked now (st_rows s !! k)
  then (exists details, claim_once claim now s =
          (Err (replay_error "DUPLICATE_REPLAY" "The protected action has already been claimed for execution." details), s')) /\
       st_rows s' = alter (expire_row now) k (st_rows s)
  else claim_once claim now s = (Ok (inspect_view k s'), s') /\
       st_rows s' = <[k := expire_row now (claim_row claim (format_timestamp now))]> (st_rows s).
Proof. apply claim_once_spec. Qed.

Definition sample_claim : ActionConsumptionClaim :=
  mkClaim "rpk_1" "intent_1" "pccb_1" "nonce-1" "h" "service:refunds-api" "payments.refund" "acme" "agent-7"
    (sample_now + 600000000)%Z [].
Definition sample_store : store := open_store ∅ None.

Lemma sample_store_wf : store_wf sample_store.
Proof. apply store_wf_intro. apply map_Forall_empty. Qed.
Lemma sample_now_ok : datetime_ok sample_now.
Proof. vm_compute. split; congruence. Qed.

Lemma claim_once_exclusive_witness : exists s',
  claim_once sample_claim sample_now sample_store = (Ok (inspect_view "rpk_1" s'), s') /\
  st_rows s' = <["rpk_1" := expire_row sample_now (claim_row sample_claim (format_timestamp sample_now))]> ∅.
Proof.
  destruct (claim_once_exclusive sample_claim sample_now sample_store) as (s' & _ & Hs);
    [exact sample_store_wf|exact sample_now_ok|vm_compute; split; congruence|].
  exists s'. exact Hs.
Defined.

(** [mark_consumed] succeeds exactly on a claimed key and leaves it consumed;
    [release_claim] frees a claimed key, reports a consumed one unchanged, and
    raises on a missing, released or expired one. *)
Theorem consume_and_release (k reason : string) (now : datetime) (s : store) :
  store_wf s -> datetime_ok now ->
  (exists s', store_wf s' /\
     if bool_decide (status_at k s = Some Claimed)
     then (exists st, mark_consumed k now s = (Ok (Some st), s') /\ cs_status st = Consumed /\ cs_replay_key st = k) /\
          status_at k s' = Some Consumed
     else (exists details, mark_consumed k now s =
             (Err (replay_error "REPLAY_STATE_INVALID" "The replay record could not transition to consumed." details), s')) /\
          st_rows s' = st_rows s) /\
  (exists res s', release_claim k now reason s = (res, s') /\ store_wf s' /\
    match status_at k s with
    | Some Claimed => (exists st, res = Ok (Some st) /\ cs_status st = Released) /\ status_at k s' = Some Released
    | Some Consumed => (exists st, res = Ok (Some st) /\ cs_status st = Consumed) /\ st_rows s' = st_rows s
    | Some _ => (exists details, res = Err (replay_error "REPLAY_RELEASE_INVALID" "The replay claim could not be released." details)) /\
                st_rows s' = st_rows s
    | None => res = Err (replay_error "REPLAY_CLAIM_MISSING" "The replay claim does not exist." [("replay_key", JStr k)]) /\
              st_rows s' = st_rows s
    end).
Proof. intros Hw Hn. split; [by apply mark_consumed_spec|by apply release_claim_spec]. Qed.

Lemma consume_and_release_witness :
  exists s', mark_consumed "rpk_1" sample_now (claim_once sample_claim sample_now sample_store).2 = s' /\ is_ok s'.1 = true.
Proof.
  destruct (consume_and_release "rpk_1" "r" sample_now (claim_once sample_claim sample_now sample_store).2)
    as ((s' & _ & Hm) & _).
  - destruct (claim_once_spec sample_claim sample_now sample_store) as (s1 & Hw1 & Hc);
      [exact sample_store_wf|exact sample_now_ok|vm_compute; split; congruence|]. destruct Hc as [-> _]. exact Hw1.
  - exact sample_now_ok.
  - rewrite bool_decide_true in Hm by (vm_compute; reflexivity). destruct Hm as ((st & -> & _) & _). by eexists.
Defined.

(** A database restored to a state older than one this worker has observed is
    detected: every method raises REPLAY_STORE_ROLLBACK_DETECTED and changes
    nothing. *)
Theorem rollback_detected (s : store) (claim : ActionConsumptionClaim) (k : string) (now : datetime) (reason : string) :
  rolled_back s ->
  detects (claim_once claim now) s /\ detects (mark_consumed k now) s /\ detects (release_claim k now reason) s /\
  detects (inspect k now) s /\ detects (purge_expired now) s.
Proof. apply rollback_detected_by_all. Qed.

Lemma rollback_detected_witness : detects (claim_once sample_claim sample_now) (mkStore ∅ (Some 3%Z) 5%Z).
Proof. by apply (rollback_detected (mkStore ∅ (Some 3%Z) 5%Z) sample_claim "rpk_1" sample_now "r"). Defined.

(** One proof, one replay key: when [verify] accepts the same proof for two
    intents and the hash does not collide on their hash inputs, both requests get
    the same replay key, so together with single use a proof is consumed at most
    once however the intent was re-encoded. *)
Theorem one_proof_one_replay_key `{Protocol} `{ProtocolAuthority} (v v' : PCCBVerifier) (i i' : ActionIntent) (pccb : PCCB)
    (context context' : DynamicContextInput) :
  canonicalisation_error_is_value_error = true ->
  verify v i pccb context = Ok tt -> verify v' i' pccb context' = Ok tt ->
  no_collision (JDict (build_action_hash_input i)) (JDict (build_action_hash_input i')) ->
  json_wf (JDict (replay_key_input i pccb)) -> json_wf (JDict (replay_key_input i' pccb)) ->
  build_replay_key i pccb context = build_replay_key i' pccb context'.
Proof.
  intros Hve Hv Hv' Hcol Hwf Hwf'.
  apply verify_Ok in Hv as Ha; [|done]. apply verify_Ok in Hv' as Ha'; [|done].
  pose proof (hash_input_pins i i' (hash_input_norm _ _ _ (acc_hash _ _ _ _ Ha) (acc_hash _ _ _ _ Ha') Hcol)) as Hp.
  destruct_and!. unfold build_replay_key. by rewrite (sha256_hex_norm (JDict (replay_key_input i pccb)) (JDict (replay_key_input i' pccb)))
    by (try done; by apply replay_key_input_norm).
Qed.

Lemma one_proof_one_replay_key_witness :
  sample_intent <> reordered_intent /\
  @build_replay_key demo_protocol sample_intent sample_pccb sample_context =
  @build_replay_key demo_protocol reordered_intent sample_pccb sample_context.
Proof.
  split; [discriminate|].
  apply (@one_proof_one_replay_key demo_protocol sample_authority (sample_verifier TRUSTED_DETAILED) (sample_verifier LOCAL_DEBUG));
    [reflexivity|vm_compute; reflexivity|vm_compute; reflexivity|apply reordered_no_collision|..];
    (repeat (split || constructor); try (apply (bool_decide_unpack _); vm_compute; exact I); vm_compute; repeat constructor; set_solver).
Defined.

(** The text comparison of expiry times lets a claim be taken over before it
    expires: a claim that expires half a second past a whole second is treated as
    expired at that whole second, and a second claim of the key succeeds. *)
Theorem subsecond_claim_taken_over :
  exists (first second : ActionConsumptionClaim) (t1 t2 : datetime) (s1 : store),
    cl_replay_key first = cl_replay_key second /\
    claim_once first t1 sample_store = (Ok (inspect_view (cl_replay_key first) s1), s1) /\
    (t1 < t2 < cl_expires_at first)%Z /\
    is_ok (claim_once second t2 s1).1 = true.
Proof.
  set (first := mkClaim "k" "i" "p" "n" "h" "a" "c" "t" "s" (sample_now + 60500000)%Z []).
  set (second := mkClaim "k" "i" "p" "n" "h" "a" "c" "t" "s" (sample_now + 120000000)%Z []).
  exists first, second, sample_now, (sample_now + 60000000)%Z, (claim_once first sample_now sample_store).2.
  split_and!; [reflexivity|vm_compute; reflexivity|vm_compute; reflexivity|vm_compute; reflexivity|vm_compute; reflexivity].
Qed.

(** With expiry and clock at the same precision the takeover rule is exact: a
    claimed key blocks a new claim exactly until its expiry time. *)
Theorem claim_blocked_until_expiry (r : row) (now expires : datetime) :
  datetime_ok now -> datetime_ok expires -> row_expires_at r = format_timestamp expires ->
  row_status r = Claimed -> same_precision expires now = true ->
  claim_blocked now (Some r) = (now <? expires)%Z.
Proof.
  intros Hn Hx Hr Hs Hp. unfold claim_blocked, text_leb, key_leb. rewrite Hs, Hr, format_timestamp_compare by done.
  destruct (Z.compare_spec expires now), (Z.ltb_spec now expires); done || lia.
Qed.

Lemma claim_blocked_until_expiry_witness :
  claim_blocked sample_now (Some (claim_row sample_claim (format_timestamp sample_now))) = true.
Proof.
  rewrite (claim_blocked_until_expiry _ sample_now (sample_now + 600000000)%Z);
    [reflexivity|exact sample_now_ok|vm_compute; split; congruence|reflexivity|reflexivity|vm_compute; reflexivity].
Defined.
