(* ===== verification/ReplayLedger.v ===== *)
(** * The replay store as a ledger

    An abstract specification of [replay/dbapi.py]: a finite map from replay keys
    to what was claimed and how far the claim got, with one deterministic
    operation per method, its guard and its answer written out and nothing about
    rows, text columns, transactions or mutation counters.  The refinement: on a
    well-formed store every method of the store answers what the ledger answers
    and leaves a table whose abstraction is the ledger's new map (so the keys it
    is not about keep their entries), a call that raises outside the ledger's
    refusals does not occur, and the same holds transaction by transaction along
    every interleaving of any number of workers on one database. *)

From S2P Require Import Prelude Text Json Errors Timestamps Canonical Contracts Runtime Samples ProofService Replay.

(** ** The abstract ledger *)

(** What a key stands for: the proof and the action it was claimed for, the status
    of the claim and the time it lapses. *)
Record entry := mkEntry {
  en_intent_id : string; en_pccb_id : string; en_action_hash : string;
  en_expires_at : datetime; en_status : ActionConsumptionStatus
}.
Abbreviation ledger := (gmap string entry).

Definition set_status (st : ActionConsumptionStatus) (e : entry) : entry :=
  mkEntry (en_intent_id e) (en_pccb_id e) (en_action_hash e) (en_expires_at e) st.

Definition claimed (e : entry) : bool := bool_decide (en_status e = Claimed).

(** The two readings of "its time has come": on times ([inspect]) and on the text
    columns of the database ([claim_once], [purge_expired]). *)
Definition lapsed (now : datetime) (e : entry) : bool := claimed e && (en_expires_at e <=? now)%Z.
Definition lapsed_in_sql (now : datetime) (e : entry) : bool :=
  claimed e && text_leb (format_timestamp (en_expires_at e)) (format_timestamp now).

Definition new_entry (c : ActionConsumptionClaim) : entry :=
  mkEntry (cl_intent_id c) (cl_pccb_id c) (cl_action_hash c) (cl_expires_at c) Claimed.

(** A key is free when it is absent, released, expired, or claimed with its time up. *)
Definition free (now : datetime) (o : option entry) : bool :=
  match o with
  | None => true
  | Some e => match en_status e with
              | Released | Expired => true
              | Claimed => lapsed_in_sql now e
              | Consumed => false
              end
  end.

Definition ledger_claim_key (c : ActionConsumptionClaim) (now : datetime) (l : ledger) : bool * ledger :=
  if free now (l !! cl_replay_key c) then (true, <[cl_replay_key c := new_entry c]> l) else (false, l).

Definition ledger_consume_key (k : string) (l : ledger) : bool * ledger :=
  match l !! k with
  | Some e => if claimed e then (true, <[k := set_status Consumed e]> l) else (false, l)
  | None => (false, l)
  end.

(** [Ok true]: released; [Ok false]: consumed, and kept so; an error code otherwise. *)
Definition ledger_release_key (k : string) (l : ledger) : res string bool * ledger :=
  match l !! k with
  | Some e => match en_status e with
              | Claimed => (Ok true, <[k := set_status Released e]> l)
              | Consumed => (Ok false, l)
              | Released | Expired => (Err "REPLAY_RELEASE_INVALID", l)
              end
  | None => (Err "REPLAY_CLAIM_MISSING", l)
  end.

Definition expire_entry (now : datetime) (e : entry) : entry := if lapsed now e then set_status Expired e else e.
Definition ledger_expire_key (k : string) (now : datetime) (l : ledger) : ledger := alter (expire_entry now) k l.

Definition ledger_expire_all (now : datetime) (l : ledger) : Z * ledger :=
  (Z.of_nat (size (filter (fun kv => lapsed_in_sql now kv.2 = true) l)),
   (fun e => if lapsed_in_sql now e then set_status Expired e else e) <$> l).

(** ** The calls of the store and the answers of the ledger *)
Inductive store_call :=
| CallClaim (claim : ActionConsumptionClaim) (now : datetime)
| CallConsume (replay_key : string) (now : datetime)
| CallRelease (replay_key : string) (now : datetime) (reason : string)
| CallInspect (replay_key : string) (now : datetime)
| CallPurge (now : datetime).

Inductive answer := AState (st : option ActionConsumptionStatus) | ACount (n : Z) | ARefused (code : string) | AOther (e : exn).

Definition error_answer (e : exn) : answer :=
  match e with
  | Refused r => match exc_cls r with ReplayValidationErrorC => ARefused (exc_refusal_code r) | _ => AOther e end
  | e => AOther e
  end.
Definition state_answer (r : py (option ActionConsumptionState)) : answer :=
  match r with Ok o => AState (cs_status <$> o) | Err e => error_answer e end.
Definition count_answer (r : py Z) : answer := match r with Ok n => ACount n | Err e => error_answer e end.

Definition call_answer (call : store_call) (s : store) : answer * store :=
  match call with
  | CallClaim c now => let '(r, s') := claim_once c now s in (state_answer r, s')
  | CallConsume k now => let '(r, s') := mark_consumed k now s in (state_answer r, s')
  | CallRelease k now reason => let '(r, s') := release_claim k now reason s in (state_answer r, s')
  | CallInspect k now => let '(r, s') := inspect k now s in (state_answer r, s')
  | CallPurge now => let '(r, s') := purge_expired now s in (count_answer r, s')
  end.

Definition key_state (k : string) (l : ledger) : answer := AState (en_status <$> l !! k).

Definition ledger_answer (call : store_call) (l : ledger) : answer * ledger :=
  match call with
  | CallClaim c now =>
      let k := cl_replay_key c in
      let '(claimed, l) := ledger_claim_key c now l in
      let l := ledger_expire_key k now l in
      (if claimed then key_state k l else ARefused "DUPLICATE_REPLAY", l)
  | CallConsume k now =>
      let '(consumed, l) := ledger_consume_key k l in
      (if consumed then AState (Some Consumed) else ARefused "REPLAY_STATE_INVALID", l)
  | CallRelease k now reason =>
      match ledger_release_key k l with
      | (Ok true, l) => (AState (Some Released), l)
      | (Ok false, l) => (AState (Some Consumed), l)
      | (Err code, l) => (ARefused code, l)
      end
  | CallInspect k now => let l := ledger_expire_key k now l in (key_state k l, l)
  | CallPurge now => let '(n, l) := ledger_expire_all now l in (ACount n, l)
  end.

Definition call_ok (call : store_call) : Prop :=
  match call with
  | CallClaim c now => datetime_ok now /\ datetime_ok (cl_expires_at c)
  | CallConsume _ now | CallRelease _ now _ | CallInspect _ now | CallPurge now => datetime_ok now
  end.

(** ** The abstraction of a table *)
Definition row_expires (r : row) : datetime := match row_expiry r with Ok x => x | Err _ => 0%Z end.
Definition entry_of (r : row) : entry :=
  mkEntry (row_intent_id r) (row_pccb_id r) (row_action_hash r) (row_expires r) (row_status r).
Definition ledger_of (rows : gmap string row) : ledger := entry_of <$> rows.

Lemma row_expires_ok r : row_wf r -> row_expiry r = Ok (row_expires r) /\ row_expires_at r = format_timestamp (row_expires r).
Proof.
  intros Hw. destruct (row_to_state_ok "" r Hw) as (st & _ & _ & _ & Hx & Ht). unfold row_expires. by rewrite Hx.
Qed.

Lemma entry_of_claim_row c now : datetime_ok (cl_expires_at c) -> entry_of (claim_row c now) = new_entry c.
Proof. intros Hx. unfold entry_of, new_entry, row_expires, row_expiry. simpl. by rewrite parse_format. Qed.

Lemma entry_of_expire now r : row_wf r -> entry_of (expire_row now r) = expire_entry now (entry_of r).
Proof.
  intros Hw. destruct (row_expires_ok r Hw) as [Hx _]. unfold expire_row, expire_entry, row_expired. rewrite Hx.
  change (lapsed now (entry_of r)) with (has_status Claimed r && (row_expires r <=? now)%Z). by case_match.
Qed.

Lemma purgeable_lapsed now r : row_wf r -> purgeable (format_timestamp now) r = lapsed_in_sql now (entry_of r).
Proof. intros Hw. destruct (row_expires_ok r Hw) as [_ Hx]. unfold purgeable. by rewrite Hx. Qed.

Lemma ledger_of_lookup rows k : ledger_of rows !! k = entry_of <$> rows !! k.
Proof. apply lookup_fmap. Qed.

Lemma ledger_of_insert rows k r : ledger_of (<[k := r]> rows) = <[k := entry_of r]> (ledger_of rows).
Proof. apply fmap_insert. Qed.

Lemma free_blocked now o : match o with Some r => row_wf r | None => True end ->
  free now (entry_of <$> o) = negb (claim_blocked now o).
Proof.
  destruct o as [r|]; [|done]. intros Hw. simpl. destruct (row_expires_ok r Hw) as [_ Hx].
  destruct (row_status r) eqn:Hs; try done. unfold lapsed_in_sql, claimed. simpl. rewrite Hs, Hx, negb_involutive. done.
Qed.

Lemma ledger_of_expire rows k now : map_Forall (fun _ => row_wf) rows ->
  ledger_of (alter (expire_row now) k rows) = ledger_expire_key k now (ledger_of rows).
Proof.
  intros Hall. unfold ledger_expire_key. apply map_eq. intros i. rewrite ledger_of_lookup.
  destruct (decide (k = i)) as [<-|]; [|by rewrite !lookup_alter_ne, ledger_of_lookup by done].
  rewrite !lookup_alter_eq, ledger_of_lookup. destruct (rows !! k) as [r|] eqn:Hr; simpl; [|done].
  f_equal. apply entry_of_expire. by eapply Hall.
Qed.

Lemma expire_unclaimed k now (l : ledger) e : l !! k = Some e -> claimed e = false -> ledger_expire_key k now l = l.
Proof.
  intros He Hc. apply map_eq. intros i. unfold ledger_expire_key. destruct (decide (k = i)) as [<-|].
  - rewrite lookup_alter_eq, He. simpl. unfold expire_entry, lapsed. by rewrite Hc.
  - by rewrite lookup_alter_ne.
Qed.

(** ** The transactions *)
Section Transactions.
Context (s : store) (now : datetime) (Hw : store_wf s) (Hn : datetime_ok now).

Lemma claim_tx_ledger c : datetime_ok (cl_expires_at c) ->
  exists s', store_wf s' /\ claim_tx c now s = (Ok (ledger_claim_key c now (ledger_of (st_rows s))).1, s') /\
    ledger_of (st_rows s') = (ledger_claim_key c now (ledger_of (st_rows s))).2.
Proof.
  intros Hx. destruct (claim_tx_spec c now s Hw Hn Hx) as (s' & Hw' & Ht & Hr). exists s'. split; [done|].
  unfold ledger_claim_key. rewrite ledger_of_lookup, free_blocked by (destruct (st_rows s !! _) eqn:He; [by eapply Hw|done]).
  rewrite Ht, Hr. destruct (claim_blocked _ _); [done|]. simpl. by rewrite ledger_of_insert, entry_of_claim_row.
Qed.

Lemma mark_tx_ledger k :
  exists s', store_wf s' /\ mark_tx k now s = (Ok (ledger_consume_key k (ledger_of (st_rows s))).1, s') /\
    ledger_of (st_rows s') = (ledger_consume_key k (ledger_of (st_rows s))).2.
Proof.
  destruct (mark_tx_spec k now s Hw Hn) as (s' & Hw' & Hm). exists s'. split; [done|].
  unfold ledger_consume_key. rewrite ledger_of_lookup. destruct (st_rows s !! k) as [r|] eqn:Hr; simpl.
  - change (claimed (entry_of r)) with (has_status Claimed r).
    destruct (has_status Claimed r); destruct Hm as [-> ->]; [|done]. by rewrite ledger_of_insert.
  - by destruct Hm as [-> ->].
Qed.

Lemma inspect_tx_ledger k :
  exists r s', store_wf s' /\ inspect_tx k now s = (Ok r, s') /\
    ledger_of (st_rows s') = ledger_expire_key k now (ledger_of (st_rows s)).
Proof.
  destruct (inspect_tx_spec k now s Hw Hn) as (s' & Hw' & Hr & Hi). eexists _, s'. split_and!; [done|exact Hi|].
  rewrite Hr. by apply ledger_of_expire, Hw.
Qed.

Lemma inspect_ledger k :
  exists o s', store_wf s' /\ inspect k now s = (Ok o, s') /\
    ledger_of (st_rows s') = ledger_expire_key k now (ledger_of (st_rows s)) /\
    (cs_status <$> o) = (en_status <$> ledger_of (st_rows s') !! k).
Proof.
  destruct (inspect_spec k now s Hw Hn) as (s' & Hw' & Hr & Hi). eexists _, s'. split_and!; [done|exact Hi| |].
  - rewrite Hr. by apply ledger_of_expire, Hw.
  - unfold inspect_view. rewrite ledger_of_lookup. destruct (st_rows s' !! k) as [r|] eqn:He; [|done].
    destruct (row_to_state_ok k r) as (st & -> & Hst & _); [by eapply Hw'|]. simpl. by rewrite Hst.
Qed.

(** The answer of [release_tx], its state and its error as the ledger names them. *)
Definition release_answer (r : py (option ActionConsumptionState)) : res string bool :=
  match r with
  | Ok None => Ok true
  | Ok (Some _) => Ok false
  | Err e => Err (match error_answer e with ARefused code => code | _ => "" end)
  end.

Lemma release_tx_ledger k reason :
  exists r s', store_wf s' /\ release_tx k now reason s = (r, s') /\
    (release_answer r, ledger_of (st_rows s')) = ledger_release_key k (ledger_of (st_rows s)) /\
    match r with
    | Ok (Some st) => cs_status st = Consumed
    | Err e => exists code, error_answer e = ARefused code
    | Ok None => True
    end.
Proof.
  destruct (release_tx_spec k now reason s Hw Hn) as (r & s' & Ht & Hw' & Hm). exists r, s'. split; [done|]. split; [done|].
  unfold ledger_release_key. rewrite ledger_of_lookup. unfold status_at in Hm.
  destruct (st_rows s !! k) as [x|] eqn:Hx; simpl in Hm |- *; [destruct (row_status x) eqn:Hst|].
  - destruct Hm as (-> & x' & m & [= <-] & _ & ->). by rewrite ledger_of_insert.
  - destruct Hm as ((st & -> & Hs) & ->). done.
  - destruct Hm as ((d & ->) & ->). split; [done|]. by eexists.
  - destruct Hm as ((d & ->) & ->). split; [done|]. by eexists.
  - destruct Hm as (-> & ->). split; [done|]. by eexists.
Qed.

Lemma expire_all_rows rows : map_Forall (fun _ => row_wf) rows ->
  let f r := if purgeable (format_timestamp now) r then with_status Expired (format_timestamp now) r else r in
  map_Forall (fun _ => row_wf) (f <$> rows) /\
  (Z.of_nat (size (filter (fun kv => purgeable (format_timestamp now) kv.2 = true) rows)), ledger_of (f <$> rows)) =
  ledger_expire_all now (ledger_of rows).
Proof.
  intros Hall f. split.
  - intros k r. rewrite lookup_fmap. intros (r0 & Hr & ->)%fmap_Some. unfold f. case_match; [|by eapply Hall].
    apply with_status_wf; [done|by eapply Hall].
  - unfold ledger_expire_all. f_equal.
    + unfold ledger_of. rewrite map_filter_fmap, map_size_fmap. do 2 f_equal. apply map_filter_ext. simpl.
      intros k r Hr. by rewrite purgeable_lapsed by (by eapply Hall).
    + unfold ledger_of. rewrite <- !map_fmap_compose. apply map_fmap_ext. intros k r Hr. unfold f. simpl.
      rewrite purgeable_lapsed by (by eapply Hall). by case_match.
Qed.
End Transactions.

Lemma purge_ledger s now : store_wf s -> datetime_ok now ->
  exists s', store_wf s' /\ purge_expired now s = (Ok (ledger_expire_all now (ledger_of (st_rows s))).1, s') /\
    ledger_of (st_rows s') = (ledger_expire_all now (ledger_of (st_rows s))).2.
Proof.
  intros [Hcw Hall] Hn. destruct (expire_all_rows now Hn (st_rows s) Hall) as [Hall' <-]. unfold purge_expired. cbv zeta.
  db_transaction s Hcw n Hc. db_eval. destruct (_ =? 0)%Z.
  - eexists. split; [|split; [reflexivity|reflexivity]]. by apply store_wf_intro.
  - rewrite commit_mutation_guarded. eexists. split; [|split; [reflexivity|reflexivity]]. by apply store_wf_intro.
Qed.

(** ** The methods *)
Lemma claim_once_ledger s c now : store_wf s -> datetime_ok now -> datetime_ok (cl_expires_at c) ->
  exists s', store_wf s' /\ call_answer (CallClaim c now) s = ((ledger_answer (CallClaim c now) (ledger_of (st_rows s))).1, s') /\
    ledger_of (st_rows s') = (ledger_answer (CallClaim c now) (ledger_of (st_rows s))).2.
Proof.
  intros Hw Hn Hx. destruct (claim_tx_ledger s now Hw Hn c Hx) as (s1 & Hw1 & Ht & Hl1).
  destruct (inspect_ledger s1 now Hw1 Hn (cl_replay_key c)) as (o & s2 & Hw2 & Hi & Hl2 & Ho). exists s2. split; [done|].
  unfold call_answer, ledger_answer, claim_once, mbind, M_bind. rewrite Ht. rewrite Hl1 in Hl2.
  destruct (ledger_claim_key c now (ledger_of (st_rows s))) as [[] l]; simpl in Hl2 |- *; rewrite Hi; simpl.
  - split; [|done]. unfold key_state. by rewrite Ho, Hl2.
  - done.
Qed.

Lemma mark_consumed_ledger s k now : store_wf s -> datetime_ok now ->
  exists s', store_wf s' /\ call_answer (CallConsume k now) s = ((ledger_answer (CallConsume k now) (ledger_of (st_rows s))).1, s') /\
    ledger_of (st_rows s') = (ledger_answer (CallConsume k now) (ledger_of (st_rows s))).2.
Proof.
  intros Hw Hn. destruct (mark_tx_ledger s now Hw Hn k) as (s1 & Hw1 & Ht & Hl1).
  destruct (inspect_ledger s1 now Hw1 Hn k) as (o & s2 & Hw2 & Hi & Hl2 & Ho). exists s2. split; [done|].
  unfold call_answer, ledger_answer, mark_consumed, mbind, M_bind. rewrite Ht. unfold ledger_consume_key in *.
  destruct (ledger_of (st_rows s) !! k) as [e|] eqn:He; [destruct (claimed e) eqn:Hc|]; simpl in Hl1 |- *; rewrite Hi; simpl.
  - assert (ledger_of (st_rows s2) = ledger_of (st_rows s1)) as Heq.
    { rewrite Hl2, Hl1. eapply expire_unclaimed; [apply lookup_insert_eq|done]. }
    rewrite Heq, Hl1, lookup_insert_eq in Ho. simpl in Ho. by rewrite Ho, Heq, Hl1.
  - split; [done|]. rewrite Hl2, Hl1. by eapply expire_unclaimed.
  - split; [done|]. rewrite Hl2, Hl1. unfold ledger_expire_key. apply map_eq. intros i.
    destruct (decide (k = i)) as [<-|]; [by rewrite lookup_alter_eq, He|by rewrite lookup_alter_ne].
Qed.

Lemma release_claim_ledger s k now reason : store_wf s -> datetime_ok now ->
  exists s', store_wf s' /\
    call_answer (CallRelease k now reason) s = ((ledger_answer (CallRelease k now reason) (ledger_of (st_rows s))).1, s') /\
    ledger_of (st_rows s') = (ledger_answer (CallRelease k now reason) (ledger_of (st_rows s))).2.
Proof.
  intros Hw Hn. destruct (release_tx_ledger s now Hw Hn k reason) as (r & s1 & Hw1 & Ht & Hl1 & Hr).
  unfold call_answer, ledger_answer, release_claim, mbind, M_bind. rewrite Ht, <- Hl1.
  destruct r as [[st|]|e]; simpl.
  - exists s1. split; [done|]. by rewrite Hr.
  - destruct (inspect_ledger s1 now Hw1 Hn k) as (o & s2 & Hw2 & Hi & Hl2 & Ho). exists s2. split; [done|]. rewrite Hi. simpl.
    unfold ledger_release_key in Hl1. destruct (ledger_of (st_rows s) !! k) as [e|] eqn:He; [|done].
    destruct (en_status e); try done. apply (f_equal snd) in Hl1. simpl in Hl1.
    assert (ledger_of (st_rows s2) = ledger_of (st_rows s1)) as Heq.
    { rewrite Hl2, Hl1. eapply expire_unclaimed; [apply lookup_insert_eq|done]. }
    rewrite Heq, Hl1, lookup_insert_eq in Ho. simpl in Ho. by rewrite Ho, Heq.
  - exists s1. split; [done|]. destruct Hr as (code & Hcode). by rewrite Hcode.
Qed.

Lemma call_refines call s : store_wf s -> call_ok call ->
  exists s', store_wf s' /\ call_answer call s = ((ledger_answer call (ledger_of (st_rows s))).1, s') /\
    ledger_of (st_rows s') = (ledger_answer call (ledger_of (st_rows s))).2.
Proof.
  intros Hw Hok. destruct call as [c now|k now|k now reason|k now|now].
  - destruct Hok. by apply claim_once_ledger.
  - by apply mark_consumed_ledger.
  - by apply release_claim_ledger.
  - destruct (inspect_ledger s now Hw Hok k) as (o & s' & Hw' & Hi & Hl & Ho). exists s'. split; [done|]. simpl.
    rewrite Hi. simpl. split; [|done]. unfold key_state. by rewrite Ho, Hl.
  - destruct (purge_ledger s now Hw Hok) as (s' & Hw' & Hp & Hl). exists s'. split; [done|]. simpl. by rewrite Hp.
Qed.

(** ** Any number of workers: the transactions, interleaved *)
Definition ledger_tx (op : tx_op) (l : ledger) : res string tx_result * ledger :=
  match op with
  | TxOpen => (Ok RDone, l)
  | TxClaim c now => let '(b, l) := ledger_claim_key c now l in (Ok (RInserted b), l)
  | TxMark k now => let '(b, l) := ledger_consume_key k l in (Ok (RMarked b), l)
  | TxRelease k now reason => let '(r, l) := ledger_release_key k l in ((fun _ => RDone) <$> r, l)
  | TxInspect k now => (Ok RDone, ledger_expire_key k now l)
  | TxPurge now => let '(n, l) := ledger_expire_all now l in (Ok (RCount n), l)
  end.

Definition tx_answer (r : py tx_result) : res string tx_result :=
  match r with Ok x => Ok x | Err e => Err (match error_answer e with ARefused code => code | _ => "" end) end.

Definition tx_ok (op : tx_op) : Prop :=
  match op with
  | TxOpen => True
  | TxClaim c now => datetime_ok now /\ datetime_ok (cl_expires_at c)
  | TxMark _ now | TxRelease _ now _ | TxInspect _ now | TxPurge now => datetime_ok now
  end.

(** The rows are well formed and no worker has observed a counter ahead of the table's. *)
Definition world_wf (w : world) : Prop :=
  map_Forall (fun _ => row_wf) (w_rows w) /\ exists n, w_counter w = Some n /\ forall i, (w_last w i <= n)%Z.

Fixpoint run_world (w : world) (schedule : list (nat * tx_op)) : list (py tx_result) * world :=
  match schedule with
  | [] => ([], w)
  | (worker, op) :: rest =>
      let '(r, w1) := world_step w worker op in
      let '(rs, w2) := run_world w1 rest in (r :: rs, w2)
  end.

Fixpoint run_ledger (l : ledger) (ops : list tx_op) : list (res string tx_result) * ledger :=
  match ops with
  | [] => ([], l)
  | op :: rest =>
      let '(r, l1) := ledger_tx op l in
      let '(rs, l2) := run_ledger l1 rest in (r :: rs, l2)
  end.

(** The mutation counter of the table never goes back. *)
Definition counts_up {A} (m : db A) : Prop :=
  forall s n, st_counter s = Some n -> exists n', st_counter (m s).2 = Some n' /\ (n <= n')%Z.

Lemma counts_up_bind {A B} (m : db A) (f : A -> db B) : counts_up m -> (forall a, counts_up (f a)) -> counts_up (m ≫= f).
Proof.
  intros Hm Hf s n Hn. unfold mbind, M_bind. destruct (Hm s n Hn) as (n1 & Hn1 & Hle).
  destruct (m s) as [[a|e] s1]; simpl in *; [|by exists n1]. destruct (Hf a s1 n1 Hn1) as (n2 & Hn2 & Hle2). exists n2. split; [done|lia].
Qed.
Lemma counts_up_same {A} (m : db A) : (forall s, st_counter (m s).2 = st_counter s) -> counts_up m.
Proof. intros Hm s n Hn. exists n. rewrite Hm. split; [done|lia]. Qed.
Lemma counts_up_transaction {A} (body : db (tx_end A)) : counts_up body -> counts_up (transaction body).
Proof.
  intros Hb s n Hn. unfold transaction. specialize (Hb s n Hn).
  destruct (body s) as [[[a|a]|e] s']; simpl in *; [done|..]; exists n; (split; [done|lia]).
Qed.
Lemma counts_up_commit {A} (a : A) : counts_up (commit_mutation a).
Proof.
  intros [rows c last] n Hn. simpl in Hn. subst c. unfold commit_mutation, _advance_mutation_counter, _read_mutation_counter.
  db_eval. destruct (n + 1 <=? last)%Z; simpl; (eexists; split; [reflexivity|lia]).
Qed.
Lemma counts_up_monotonic : counts_up _assert_store_monotonic.
Proof.
  apply counts_up_same. intros s. destruct (_assert_store_monotonic s) as [r s'] eqn:Hs.
  by apply assert_monotonic_inv in Hs as (_ & Hc & _).
Qed.
Lemma counts_up_update_row k p f : counts_up (update_row k p f).
Proof. apply counts_up_same. intros [rows c last]. unfold update_row. db_eval. destruct (rows !! k) as [r|]; [|done]. by destruct (p r). Qed.

#[export] Hint Resolve counts_up_transaction counts_up_commit counts_up_monotonic counts_up_update_row : ledger.

Ltac counts_up_solve :=
  repeat (first [ solve [auto with ledger] | apply counts_up_bind; [|intros ?] | case_match
                | apply counts_up_transaction | apply counts_up_same; by intros [] ]).

Lemma counts_up_run_op op : counts_up (run_op op).
Proof.
  destruct op; simpl; unfold claim_tx, mark_tx, release_tx, inspect_tx, purge_expired; cbv zeta.
  - intros s n Hn. exists n. simpl. rewrite Hn. split; [done|simpl; lia].
  - counts_up_solve.
  - counts_up_solve.
  - counts_up_solve.
  - counts_up_solve.
  - counts_up_solve.
Qed.

Lemma run_op_refines op s : store_wf s -> tx_ok op ->
  exists r s', store_wf s' /\ run_op op s = (r, s') /\ (tx_answer r, ledger_of (st_rows s')) = ledger_tx op (ledger_of (st_rows s)).
Proof.
  intros Hw Hok. destruct op as [|c now|k now|k now reason|k now|now]; simpl; unfold mbind, M_bind.
  - destruct Hw as [(n & Hc & Hl) Hall]. eexists _, _. split; [|split; [reflexivity|done]].
    unfold open_store. simpl. rewrite Hc. by apply store_wf_intro.
  - destruct Hok as [Hn Hx]. destruct (claim_tx_ledger s now Hw Hn c Hx) as (s' & Hw' & -> & Hl). eexists _, s'.
    split; [done|]. split; [reflexivity|]. rewrite Hl. by destruct (ledger_claim_key _ _ _).
  - destruct (mark_tx_ledger s now Hw Hok k) as (s' & Hw' & -> & Hl). eexists _, s'.
    split; [done|]. split; [reflexivity|]. rewrite Hl. by destruct (ledger_consume_key _ _).
  - destruct (release_tx_ledger s now Hw Hok k reason) as (r & s' & Hw' & -> & <- & Hr). destruct r as [[st|]|e]; by eexists _, s'.
  - destruct (inspect_tx_ledger s now Hw Hok k) as (r & s' & Hw' & -> & Hl). eexists _, s'.
    split; [done|]. split; [reflexivity|]. by rewrite Hl.
  - destruct (purge_ledger s now Hw Hok) as (s' & Hw' & -> & Hl). eexists _, s'.
    split; [done|]. split; [reflexivity|]. by rewrite Hl.
Qed.

Lemma world_step_refines w worker op : world_wf w -> tx_ok op ->
  exists r w', world_step w worker op = (r, w') /\ world_wf w' /\ (tx_answer r, ledger_of (w_rows w')) = ledger_tx op (ledger_of (w_rows w)).
Proof.
  intros (Hall & n & Hn & Hlast) Hok. unfold world_step.
  assert (store_wf (world_view w worker)) as Hw by (split; [exists n; split; [done|apply Hlast]|done]).
  destruct (run_op_refines op _ Hw Hok) as (r & s' & [(n' & Hn' & Hl') Hall'] & Hr & Hl).
  destruct (counts_up_run_op op (world_view w worker) n Hn) as (n2 & Hn2 & Hle). rewrite Hr in Hn2 |- *. simpl in Hn2.
  eexists _, _. split; [reflexivity|]. split; [|done]. split; [done|]. exists n'. split; [done|]. simpl. intros i.
  specialize (Hlast i). rewrite Hn' in Hn2. injection Hn2 as ->. destruct (Nat.eqb i worker); lia.
Qed.

Lemma run_world_refines schedule : forall w, world_wf w -> Forall (fun step => tx_ok step.2) schedule ->
  let '(rs, w') := run_world w schedule in
  world_wf w' /\ (map tx_answer rs, ledger_of (w_rows w')) = run_ledger (ledger_of (w_rows w)) (map snd schedule).
Proof.
  induction schedule as [|[worker op] rest IH]; intros w Hw Hok; [done|]. cbn [run_world run_ledger map snd].
  apply Forall_cons in Hok as [Ho Hok]. destruct (world_step_refines w worker op Hw Ho) as (r & w1 & -> & Hw1 & <-).
  specialize (IH w1 Hw1 Hok). destruct (run_world w1 rest) as [rs w2]. destruct IH as [Hw2 <-]. done.
Qed.

(** ** The refinement *)


(** Two workers race for the key of the sample claim: the first claims it, the
    second is turned away, only the holder's mark succeeds, and neither a late
    release nor a purge after the expiry moves the consumed key. *)
Definition race : list (nat * tx_op) :=
  [(0, TxClaim sample_claim sample_now); (1, TxOpen); (1, TxClaim sample_claim sample_now); (0, TxMark "rpk_1" sample_now);
   (1, TxMark "rpk_1" sample_now); (1, TxRelease "rpk_2" sample_now "retry"); (0, TxPurge (sample_now + 700000000)%Z)].

