(* ===== verification/ReplayStore.v ===== *)
(** * The replay store as the protected boundary sees it

    [replay/base.py: ReplayStore] as an interface: the three methods the boundary
    calls, and what it relies on.  The laws speak of one key's status before and
    after a call, so they also hold of a store other workers change during the
    call.  The database store of [Replay] is an instance.
    [replay/service.py: ReplayProtector] is defined against the interface. *)

From S2P Require Import Prelude Text Json Errors Timestamps Canonical Contracts Runtime ProofService Replay.

Class ReplayStore (R : Type) := {
  rs_claim_once : ActionConsumptionClaim -> datetime -> M exn R (option ActionConsumptionState);
  rs_mark_consumed : string -> datetime -> M exn R (option ActionConsumptionState);
  rs_release_claim : string -> datetime -> string -> M exn R (option ActionConsumptionState);
  rs_status : R -> string -> option ActionConsumptionStatus;
  (** every call takes every key along the ledger *)
  rs_claim_moves : forall c now s k, rtc ledger_step (rs_status s k) (rs_status (rs_claim_once c now s).2 k);
  rs_mark_moves : forall key now s k, rtc ledger_step (rs_status s k) (rs_status (rs_mark_consumed key now s).2 k);
  rs_release_moves : forall key now why s k, rtc ledger_step (rs_status s k) (rs_status (rs_release_claim key now why s).2 k);
  (** a claim that succeeds returns the claim's state *)
  rs_claim_ok : forall c now s r s', rs_claim_once c now s = (Ok r, s') ->
    exists st, r = Some st /\ cs_replay_key st = cl_replay_key c;
  (** a consumption that succeeds is the one that consumed the key *)
  rs_mark_ok : forall key now s r s', rs_mark_consumed key now s = (Ok r, s') ->
    rs_status s key <> Some Consumed /\ rs_status s' key = Some Consumed;
  (** a release that succeeds leaves no claim behind *)
  rs_release_ok : forall key now why s r s', rs_release_claim key now why s = (Ok r, s') ->
    rs_status s' key <> Some Claimed
}.

(** ** The database store *)
(** A transaction that returns ran its body on the rows it started from, and
    committed the body's rows or kept its own. *)
Lemma guarded_Ok {A} (body : db (tx_end A)) s a s' :
  transaction (_ ← _assert_store_monotonic; body) s = (Ok a, s') ->
  exists s0 e, st_rows s0 = st_rows s /\
    match body s0 with
    | (Ok (Commit x), s1) => x = a /\ s' = s1 /\ e = true
    | (Ok (Rollback x), s1) => x = a /\ st_rows s' = st_rows s /\ e = false
    | (Err _, _) => False
    end.
Proof.
  unfold transaction, mbind at 1, M_bind at 1.
  destruct (_assert_store_monotonic s) as [[u|e] s0] eqn:Hm; [|done]. apply assert_monotonic_inv in Hm as (Hrows & _).
  intros Ht. exists s0. destruct (body s0) as [[[x|x]|e] s1]; simplify_eq; eauto.
Qed.

Lemma commit_Ok {A} (a : A) s x s' : commit_mutation a s = (Ok x, s') -> x = Commit a /\ st_rows s' = st_rows s.
Proof. intros (Hr & -> & _)%commit_mutation_inv. done. Qed.

Lemma row_to_state_key k r st : _row_to_state k r = Ok st -> cs_replay_key st = k.
Proof. unfold _row_to_state. intros Hr. repeat (apply bind_Ok in Hr as (? & _ & Hr)). by injection Hr as <-. Qed.

Lemma row_to_state_status k r st : _row_to_state k r = Ok st -> cs_status st = row_status r.
Proof. unfold _row_to_state. intros Hr. repeat (apply bind_Ok in Hr as (? & _ & Hr)). by injection Hr as <-. Qed.

Lemma update_row_Ok key p f s n s' : update_row key p f s = (Ok n, s') ->
  match st_rows s !! key with
  | Some r => if p r then n = 1%Z /\ st_rows s' = <[key := f r]> (st_rows s) else n = 0%Z /\ s' = s
  | None => n = 0%Z /\ s' = s
  end.
Proof.
  unfold update_row, _select_row, gets, mbind, M_bind, modify, mret, M_ret. simpl.
  destruct (st_rows s !! key) as [r|]; [|by intros [= <- <-]]. destruct (p r); by intros [= <- <-].
Qed.

(** The row [inspect] finds: the key's, marked expired when the time has come. *)
Lemma inspect_tx_present k now s o s' r : inspect_tx k now s = (Ok o, s') -> st_rows s !! k = Some r ->
  match o with
  | Found o => (exists st, o = Some st /\ cs_replay_key st = k) /\ st_rows s' = st_rows s
  | Again => exists r', st_rows s' !! k = Some r' /\ row_status r' = Expired
  end.
Proof.
  unfold inspect_tx. intros (s0 & e & Hs0 & Hb)%guarded_Ok Hr.
  unfold _select_row, gets, lift, mbind at 1, M_bind at 1 in Hb. rewrite Hs0, Hr in Hb. unfold mbind at 1, M_bind at 1 in Hb.
  destruct (_row_to_state k r) as [st|] eqn:Hst; [|done].
  destruct (bool_decide (cs_status st = Claimed) && _)%Z eqn:He; cbv zeta in Hb.
  - unfold mbind, M_bind in Hb. destruct (update_row _ _ _ s0) as [[n|] s1] eqn:Hu; [|done].
    destruct (commit_mutation Again s1) as [[x|] s2] eqn:Hc; [|done]. apply commit_Ok in Hc as [-> Hrows].
    destruct Hb as (<- & -> & _). apply update_row_Ok in Hu. rewrite Hs0, Hr in Hu.
    exists (with_status Expired (format_timestamp now) r).
    apply andb_true_iff in He as [He _]. apply bool_decide_eq_true in He. rewrite (row_to_state_status _ _ _ Hst) in He.
    unfold has_status in Hu. rewrite bool_decide_true in Hu by done. destruct Hu as [_ Hu].
    by rewrite Hrows, Hu, lookup_insert_eq.
  - destruct Hb as (<- & -> & _). split; [|done]. eexists. split; [done|]. by eapply row_to_state_key.
Qed.

Lemma inspect_present n k now s o s' r : inspect_loop n k now s = (Ok o, s') -> st_rows s !! k = Some r ->
  exists st, o = Some st /\ cs_replay_key st = k.
Proof.
  revert s r. induction n as [|n IH]; intros s r Hi Hr; simpl in Hi; [done|].
  apply M_bind_Ok in Hi as (x & s1 & Hx & Hi). apply (inspect_tx_present _ _ _ _ _ r) in Hx; [|done].
  destruct x as [o'|].
  - injection Hi as <- <-. by destruct Hx.
  - destruct Hx as (r' & Hr' & _). by eapply IH.
Qed.

Lemma claim_tx_true claim now s s' : claim_tx claim now s = (Ok true, s') ->
  exists r, st_rows s' !! cl_replay_key claim = Some r.
Proof.
  unfold claim_tx. cbv zeta. intros (s0 & e & Hs0 & Hb)%guarded_Ok.
  unfold mbind at 1, M_bind at 1 in Hb. destruct (update_row _ _ _ s0) as [[n|] s1]; [|done].
  unfold mbind at 1, M_bind at 1, _select_row at 1, gets at 1 in Hb. unfold mbind at 1, M_bind at 1 in Hb.
  match type of Hb with context [(if ?c then ?m else ?m') s1] =>
    destruct ((if c then m else m') s1) as [[u|] s2]; [|done] end.
  unfold mbind at 1, M_bind at 1, _select_row, gets in Hb. destruct (st_rows s2 !! _); [by destruct Hb|].
  unfold mbind, M_bind, modify in Hb. destruct (commit_mutation true _) as [[x|] s3] eqn:Hc; [|done].
  apply commit_Ok in Hc as [-> Hrows]. destruct Hb as (_ & -> & _). rewrite Hrows. simpl. rewrite lookup_insert_eq. eauto.
Qed.

Lemma claim_once_Ok claim now s r s' : claim_once claim now s = (Ok r, s') ->
  exists st, r = Some st /\ cs_replay_key st = cl_replay_key claim.
Proof.
  unfold claim_once. intros ([] & s1 & Ht & Hi)%M_bind_Ok.
  - apply claim_tx_true in Ht as [row Hrow]. by eapply inspect_present.
  - by apply M_bind_Ok in Hi as (? & ? & _ & Hi).
Qed.

Lemma mark_consumed_Ok key now s r s' : mark_consumed key now s = (Ok r, s') ->
  status_at key s <> Some Consumed /\ status_at key s' = Some Consumed.
Proof.
  unfold mark_consumed. intros ([] & s1 & Ht & Hi)%M_bind_Ok.
  - apply mark_tx_true in Ht as [Hs Hs1]. split; [congruence|]. apply ledger_consumed_final.
    rewrite <- Hs1. pose proof (moves_inspect_loop 2 key now s1 key) as Hm.
    unfold inspect in Hi. by rewrite Hi in Hm.
  - by apply M_bind_Ok in Hi as (? & ? & _ & Hi).
Qed.

(** No ledger step out of a released key claims it again without the key being
    forgotten; [inspect] and [release_claim] never insert a row. *)
Lemma inspect_tx_not_claimed k now s o s' : inspect_tx k now s = (Ok o, s') -> status_at k s <> Some Claimed ->
  status_at k s' <> Some Claimed.
Proof.
  unfold inspect_tx. intros (s0 & e & Hs0 & Hb)%guarded_Ok Hc. unfold status_at in *.
  unfold _select_row, gets, lift, mbind at 1, M_bind at 1 in Hb. rewrite Hs0 in Hb.
  destruct (st_rows s !! k) as [r|] eqn:Hr; [|destruct Hb as (_ & -> & _); by rewrite Hs0, Hr].
  unfold mbind at 1, M_bind at 1 in Hb. destruct (_row_to_state k r) as [st|] eqn:Hst; [|done].
  destruct (bool_decide (cs_status st = Claimed) && _)%Z eqn:He; cbv zeta in Hb.
  - apply andb_true_iff in He as [He _]. apply bool_decide_eq_true in He. rewrite (row_to_state_status _ _ _ Hst) in He.
    simpl in Hc. congruence.
  - destruct Hb as (_ & -> & _). by rewrite Hs0, Hr.
Qed.

Lemma inspect_not_claimed n k now s o s' : inspect_loop n k now s = (Ok o, s') -> status_at k s <> Some Claimed ->
  status_at k s' <> Some Claimed.
Proof.
  revert s. induction n as [|n IH]; intros s Hi Hc; simpl in Hi; [done|].
  apply M_bind_Ok in Hi as (x & s1 & Hx & Hi). apply inspect_tx_not_claimed in Hx; [|done].
  destruct x; [by injection Hi as _ <-|by eapply IH].
Qed.

Lemma release_tx_Ok key now why s o s' : release_tx key now why s = (Ok o, s') -> status_at key s' <> Some Claimed.
Proof.
  unfold release_tx. cbv zeta. intros (s0 & e & Hs0 & Hb)%guarded_Ok. unfold status_at.
  unfold _select_row, gets, lift, mbind at 1, M_bind at 1 in Hb. rewrite Hs0 in Hb.
  destruct (st_rows s !! key) as [r|] eqn:Hr; [|done].
  unfold mbind at 1, M_bind at 1 in Hb. destruct (_row_to_state key r) as [st|] eqn:Hst; [|done].
  destruct (bool_decide (cs_status st = Consumed)) eqn:Hcons.
  - destruct Hb as (_ & -> & _). rewrite Hr. simpl. apply bool_decide_eq_true in Hcons.
    rewrite (row_to_state_status _ _ _ Hst) in Hcons. congruence.
  - unfold mbind, M_bind in Hb. destruct (update_row _ _ _ s0) as [[n|] s1] eqn:Hu; [|done].
    apply update_row_Ok in Hu. rewrite Hs0, Hr in Hu. destruct (has_status Claimed r); [|by destruct Hu as [-> _]].
    destruct Hu as [-> Hu]. simpl in Hb. destruct (commit_mutation None s1) as [[x|] s2] eqn:Hc; [|done].
    apply commit_Ok in Hc as [-> Hrows]. destruct Hb as (_ & -> & _). rewrite Hrows, Hu, lookup_insert_eq. simpl. congruence.
Qed.

Lemma release_claim_Ok key now why s r s' : release_claim key now why s = (Ok r, s') -> status_at key s' <> Some Claimed.
Proof.
  unfold release_claim. intros (o & s1 & Ht%release_tx_Ok & Hi)%M_bind_Ok.
  destruct o; [by injection Hi as _ <-|by eapply inspect_not_claimed].
Qed.

#[global] Instance database_store : ReplayStore store := {|
  rs_claim_once := claim_once;
  rs_mark_consumed := mark_consumed;
  rs_release_claim := release_claim;
  rs_status s k := status_at k s;
  rs_claim_moves c now s k := moves_claim_once c now s k;
  rs_mark_moves key now s k := moves_mark_consumed key now s k;
  rs_release_moves key now why s k := moves_release_claim key now why s k;
  rs_claim_ok := claim_once_Ok;
  rs_mark_ok := mark_consumed_Ok;
  rs_release_ok := release_claim_Ok
|}.

(** ** Any store, with other workers at work

    Before each of this worker's calls the others may have moved the store in any
    way the ledger allows: the pending moves are part of the state.  The interface
    holds of this store too, so what is proved of a client against the interface
    holds under every interleaving of store calls. *)
Definition other_workers (R : Type) `{ReplayStore R} : Type :=
  { g : R -> R | forall s k, rtc ledger_step (rs_status s k) (rs_status (g s) k) }.

Section Interleaved.
Context (R : Type) `{ReplayStore R}.

Definition interleaved : Type := R * list (other_workers R).

Definition after_others {A} (m : M exn R A) : M exn interleaved A := fun s =>
  match s.2 with
  | [] => let '(r, t) := m s.1 in (r, (t, []))
  | g :: gs => let '(r, t) := m (proj1_sig g s.1) in (r, (t, gs))
  end.

Lemma after_others_moves {A} (m : M exn R A) s k :
  (forall t, rtc ledger_step (rs_status t k) (rs_status (m t).2 k)) ->
  rtc ledger_step (rs_status s.1 k) (rs_status (after_others m s).2.1 k).
Proof.
  intros Hm. unfold after_others. destruct s as [t [|[g Hg] gs]]; simpl.
  - specialize (Hm t). by destruct (m t).
  - specialize (Hm (g t)). destruct (m (g t)). simpl in *. etransitivity; [apply Hg|done].
Qed.

Lemma after_others_Ok {A} (m : M exn R A) s r s' : after_others m s = (Ok r, s') ->
  exists t, m t = (Ok r, s'.1) /\ forall k, rtc ledger_step (rs_status s.1 k) (rs_status t k).
Proof.
  unfold after_others. destruct s as [t [|[g Hg] gs]]; simpl.
  - destruct (m t) as [o t'] eqn:Hm. intros [= -> <-]. by exists t.
  - destruct (m (g t)) as [o t'] eqn:Hm. intros [= -> <-]. by exists (g t).
Qed.

Lemma not_consumed_before k (s t : R) :
  rtc ledger_step (rs_status s k) (rs_status t k) -> rs_status t k <> Some Consumed -> rs_status s k <> Some Consumed.
Proof. intros Hr Hn Hs. apply Hn, ledger_consumed_final. by rewrite <- Hs. Qed.

#[global, refine] Instance interleaved_store : ReplayStore interleaved := {|
  rs_claim_once c now := after_others (rs_claim_once c now);
  rs_mark_consumed key now := after_others (rs_mark_consumed key now);
  rs_release_claim key now why := after_others (rs_release_claim key now why);
  rs_status s k := rs_status s.1 k
|}.
Proof.
  - intros. apply after_others_moves. intros. apply rs_claim_moves.
  - intros. apply after_others_moves. intros. apply rs_mark_moves.
  - intros. apply after_others_moves. intros. apply rs_release_moves.
  - intros c now s r s' (t & Hc & _)%after_others_Ok. by eapply rs_claim_ok.
  - intros key now s r s' (t & [Hb Ha]%rs_mark_ok & Hk)%after_others_Ok. split; [|done]. by apply (not_consumed_before key s.1 t).
  - intros key now why s r s' (t & Hc%rs_release_ok & _)%after_others_Ok. done.
Defined.
End Interleaved.

(** ** [replay/service.py: ReplayProtector] *)
Section ReplayProtector.
Context `{Protocol} {R : Type} `{ReplayStore R}.

Definition protector_claim_request (request : ProtectedExecutionRequest) : M exn R (option ActionConsumptionState) :=
  claim ← lift (build_action_consumption_claim (rq_intent request) (rq_pccb request) (rq_context request));
  rs_claim_once claim (cx_now (rq_context request)).

Definition protector_mark_consumed (replay_key : string) (now : datetime) : M exn R (option ActionConsumptionState) :=
  rs_mark_consumed replay_key now.

Definition protector_release_claim (replay_key : string) (now : datetime) (reason : string) : M exn R (option ActionConsumptionState) :=
  rs_release_claim replay_key now reason.

(** The key of a request. *)
Definition request_key (request : ProtectedExecutionRequest) : py string :=
  build_replay_key (rq_intent request) (rq_pccb request) (rq_context request).

Lemma protector_claim_ok request s r s' : protector_claim_request request s = (Ok r, s') ->
  exists st, r = Some st /\ request_key request = Ok (cs_replay_key st).
Proof.
  unfold protector_claim_request, request_key. intros (claim & s1 & Hc & Hr)%M_bind_Ok. injection Hc as Hc <-.
  apply rs_claim_ok in Hr as (st & -> & Hk). exists st. split; [done|].
  unfold build_action_consumption_claim in Hc. apply bind_Ok in Hc as (k & Hb & Hc). injection Hc as <-. by rewrite Hk.
Qed.

Lemma protector_claim_moves request s k : rtc ledger_step (rs_status s k) (rs_status (protector_claim_request request s).2 k).
Proof.
  unfold protector_claim_request, lift, mbind, M_bind. destruct (build_action_consumption_claim _ _ _); [|done].
  apply rs_claim_moves.
Qed.
End ReplayProtector.
