(* ===== verification/Escrow.v ===== *)
(** * Capability escrow: [actenon/escrow/]

    [escrow/base.py]: the record.  [escrow/memory.py]: the in-memory escrow, a map
    of records.  [escrow/sqlite.py]: the durable escrow, a table with text
    timestamps, each method one transaction followed by a reload.  The wall-clock
    columns [created_at] and [updated_at], which nothing reads, are left out.

    The theorems: an escrow is consumed at most once in any sequence of
    operations, for both implementations; what was just issued can be consumed by
    its own proof until it expires ([LiveEscrow]); under a clock that does not go back the
    two implementations give the same outcomes. *)

From S2P Require Import Prelude Json Errors Timestamps Canonical Contracts Replay Samples.

(** ** [escrow/base.py] *)
Inductive escrow_state := Issued | EConsumed | EExpired | ERevoked.
#[global] Instance escrow_state_eq_dec : EqDecision escrow_state.
Proof. solve_decision. Defined.

Record EscrowRecord := mkEscrowRecord {
  es_escrow_id : string; es_pccb_id : string; es_capability : string; es_expires_at : datetime;
  es_state : escrow_state; es_consumed_at : option datetime; es_metadata : dict
}.

Definition escrow_error (code msg : string) : exn := Refused (EscrowValidationError code msg []).

Definition ESCROW_NOT_FOUND := escrow_error "ESCROW_NOT_FOUND" "The escrow record does not exist.".
Definition ESCROW_ALREADY_EXISTS := escrow_error "ESCROW_ALREADY_EXISTS" "The escrow record already exists.".
Definition ESCROW_REVOKED := escrow_error "ESCROW_REVOKED" "The escrow record has been revoked.".
Definition ESCROW_ALREADY_CONSUMED := escrow_error "ESCROW_ALREADY_CONSUMED" "The escrow record has already been consumed.".
Definition ESCROW_EXPIRED := escrow_error "ESCROW_EXPIRED" "The escrow record has expired.".
Definition ESCROW_PCCB_MISMATCH := escrow_error "ESCROW_PCCB_MISMATCH" "The escrow record does not match the proof.".
Definition ESCROW_CAPABILITY_MISMATCH :=
  escrow_error "ESCROW_CAPABILITY_MISMATCH" "The escrow record does not match the requested capability.".
Definition ESCROW_STATE_INVALID := escrow_error "ESCROW_STATE_INVALID" "The escrow record could not transition to consumed.".

(** ** [escrow/memory.py] *)
Module Memory.
Abbreviation records := (gmap string EscrowRecord).

Definition set_state (st : escrow_state) (consumed_at : option datetime) (metadata : dict) (r : EscrowRecord) : EscrowRecord :=
  mkEscrowRecord (es_escrow_id r) (es_pccb_id r) (es_capability r) (es_expires_at r) st consumed_at metadata.

Definition issue (escrow_id pccb_id capability : string) (expires_at : datetime) (metadata : dict) : M exn records EscrowRecord :=
  rs ← gets id;
  match rs !! escrow_id with
  | Some _ => raise ESCROW_ALREADY_EXISTS
  | None =>
      let record := mkEscrowRecord escrow_id pccb_id capability expires_at Issued None metadata in
      _ ← modify (<[escrow_id := record]>); mret record
  end.

Definition inspect (escrow_id : string) : M exn records (option EscrowRecord) := gets (lookup escrow_id).

Definition consume (escrow_id pccb_id capability : string) (now : datetime) : M exn records EscrowRecord :=
  r ← gets (lookup escrow_id);
  match r with
  | None => raise ESCROW_NOT_FOUND
  | Some record =>
      if bool_decide (es_state record = ERevoked) then raise ESCROW_REVOKED
      else if bool_decide (es_state record = EConsumed) then raise ESCROW_ALREADY_CONSUMED
      else if (es_expires_at record <? now)%Z then
        _ ← modify (<[escrow_id := set_state EExpired (es_consumed_at record) (es_metadata record) record]>); raise ESCROW_EXPIRED
      else if negb (String.eqb (es_pccb_id record) pccb_id) then raise ESCROW_PCCB_MISMATCH
      else if negb (String.eqb (es_capability record) capability) then raise ESCROW_CAPABILITY_MISMATCH
      else
        let consumed := set_state EConsumed (Some now) (es_metadata record) record in
        _ ← modify (<[escrow_id := consumed]>); mret consumed
  end.

Definition revoke (escrow_id reason : string) : M exn records EscrowRecord :=
  r ← gets (lookup escrow_id);
  match r with
  | None => raise ESCROW_NOT_FOUND
  | Some record =>
      let revoked := set_state ERevoked (es_consumed_at record)
                       (assoc_merge (es_metadata record) [("revocation_reason", JStr reason)]) record in
      _ ← modify (<[escrow_id := revoked]>); mret revoked
  end.
End Memory.

(** ** [escrow/sqlite.py] *)
Module Sqlite.
Record erow := mkErow {
  er_pccb_id : string; er_capability : string; er_expires_at : string; er_state : escrow_state;
  er_consumed_at : option string; er_metadata : dict
}.
Abbreviation table := (gmap string erow).

(** [BEGIN IMMEDIATE] ... [commit] or [rollback] *)
Definition transaction {A} (body : M exn table (tx_end A)) : M exn table A := fun s =>
  match body s with
  | (Ok (Commit a), s') => (Ok a, s')
  | (Ok (Rollback a), _) => (Ok a, s)
  | (Err e, _) => (Err e, s)
  end.

Definition _row_to_record (escrow_id : string) (r : erow) : py EscrowRecord :=
  expires_at ← parse_timestamp (JStr (er_expires_at r)) "expires_at";
  consumed_at ← match er_consumed_at r with
                | Some t => if str_truthy t then d ← parse_timestamp (JStr t) "consumed_at"; Ok (Some d) else Ok None
                | None => Ok None
                end;
  Ok (mkEscrowRecord escrow_id (er_pccb_id r) (er_capability r) expires_at (er_state r) consumed_at (er_metadata r)).

Definition _select_row (escrow_id : string) : M exn table (option erow) := gets (lookup escrow_id).

Definition inspect (escrow_id : string) : M exn table (option EscrowRecord) :=
  r ← _select_row escrow_id;
  match r with
  | None => mret None
  | Some r => record ← lift (_row_to_record escrow_id r); mret (Some record)
  end.

(** The reload every method ends with. *)
Definition reload (escrow_id : string) : M exn table EscrowRecord :=
  r ← inspect escrow_id;
  match r with Some record => mret record | None => raise (OtherError "RuntimeError") end.

Definition issue (escrow_id pccb_id capability : string) (expires_at : datetime) (metadata : dict) : M exn table EscrowRecord :=
  _ ← transaction (
    r ← _select_row escrow_id;
    match r with
    | Some _ => raise ESCROW_ALREADY_EXISTS     (* IntegrityError of the primary key *)
    | None =>
        _ ← modify (<[escrow_id := mkErow pccb_id capability (format_timestamp expires_at) Issued None (stored_metadata metadata)]>);
        mret (Commit tt)
    end);
  reload escrow_id.

Definition set_state (st : escrow_state) (consumed_at : option string) (metadata : dict) (r : erow) : erow :=
  mkErow (er_pccb_id r) (er_capability r) (er_expires_at r) st consumed_at metadata.

(** [UPDATE ... WHERE escrow_id = ? AND state = 'issued'] with its row count *)
Definition update_issued (escrow_id : string) (f : erow -> erow) : M exn table Z :=
  r ← _select_row escrow_id;
  match r with
  | Some r => if bool_decide (er_state r = Issued) then _ ← modify (<[escrow_id := f r]>); mret 1%Z else mret 0%Z
  | None => mret 0%Z
  end.

(** How the transaction of [consume] ends: consumed, found expired (committed,
    then raised), or no row updated. *)
Inductive consume_end := CDone | CExpired | CNoRow.

Definition consume_tx (escrow_id pccb_id capability : string) (now : datetime) : M exn table consume_end :=
  let now_raw := format_timestamp now in
  transaction (
    r ← _select_row escrow_id;
    match r with
    | None => raise ESCROW_NOT_FOUND
    | Some r =>
        record ← lift (_row_to_record escrow_id r);
        if bool_decide (es_state record = ERevoked) then raise ESCROW_REVOKED
        else if bool_decide (es_state record = EConsumed) then raise ESCROW_ALREADY_CONSUMED
        else if bool_decide (es_state record = EExpired) then raise ESCROW_EXPIRED
        else if (es_expires_at record <? now)%Z then
          _ ← update_issued escrow_id (fun r => set_state EExpired (er_consumed_at r) (er_metadata r) r);
          mret (Commit CExpired)
        else if negb (String.eqb (es_pccb_id record) pccb_id) then raise ESCROW_PCCB_MISMATCH
        else if negb (String.eqb (es_capability record) capability) then raise ESCROW_CAPABILITY_MISMATCH
        else
          n ← update_issued escrow_id (fun r => set_state EConsumed (Some now_raw) (er_metadata r) r);
          if (n =? 1)%Z then mret (Commit CDone) else mret (Rollback CNoRow)
    end).

Definition consume (escrow_id pccb_id capability : string) (now : datetime) : M exn table EscrowRecord :=
  e ← consume_tx escrow_id pccb_id capability now;
  match e with
  | CExpired => raise ESCROW_EXPIRED
  | CDone => reload escrow_id
  | CNoRow =>
      current ← inspect escrow_id;
      match current with
      | Some c => if bool_decide (es_state c = EConsumed) then raise ESCROW_ALREADY_CONSUMED else raise ESCROW_STATE_INVALID
      | None => raise ESCROW_STATE_INVALID
      end
  end.

Definition revoke (escrow_id reason : string) : M exn table EscrowRecord :=
  _ ← transaction (
    r ← _select_row escrow_id;
    match r with
    | None => raise ESCROW_NOT_FOUND
    | Some r =>
        record ← lift (_row_to_record escrow_id r);
        _ ← modify (<[escrow_id := set_state ERevoked (er_consumed_at r)
              (stored_metadata (assoc_merge (es_metadata record) [("revocation_reason", JStr reason)])) r]>);
        mret (Commit tt)
    end);
  reload escrow_id.
End Sqlite.

(** ** The interface the executors rely on *)
Inductive escrow_op :=
| OpIssue (escrow_id pccb_id capability : string) (expires_at : datetime) (metadata : dict)
| OpInspect (escrow_id : string)
| OpConsume (escrow_id pccb_id capability : string) (now : datetime)
| OpRevoke (escrow_id reason : string).

(** What an operation returned: a record, or for [inspect] possibly none. *)
Definition escrow_result := option EscrowRecord.

(** An escrow that was consumed or revoked is spent for good. *)
Definition spent (st : option escrow_state) : bool :=
  match st with Some EConsumed | Some ERevoked => true | _ => false end.

Class CapabilityEscrow (S : Type) := {
  escrow_run : escrow_op -> M exn S escrow_result;
  escrow_state_of : S -> string -> option escrow_state;
  escrow_spent_stays : forall op s k, spent (escrow_state_of s k) = true -> spent (escrow_state_of (escrow_run op s).2 k) = true;
  escrow_consume_ok : forall k p c now s r s', escrow_run (OpConsume k p c now) s = (Ok r, s') ->
    spent (escrow_state_of s k) = false /\ escrow_state_of s' k = Some EConsumed;
  (** the proof and the capability an escrow was issued for: only [issue] sets
      them, once, and only they consume it *)
  escrow_binding : S -> string -> option (string * string);
  escrow_binding_moves : forall op s k, escrow_binding (escrow_run op s).2 k = escrow_binding s k \/
    exists p c x m, op = OpIssue k p c x m /\ escrow_binding s k = None /\ escrow_binding (escrow_run op s).2 k = Some (p, c);
  escrow_consume_bound : forall k p c now s r s', escrow_run (OpConsume k p c now) s = (Ok r, s') ->
    escrow_binding s k = Some (p, c)
}.

(** The successful consumptions of one escrow along a sequence of operations. *)
Fixpoint successful_consumes {S} `{CapabilityEscrow S} (k : string) (s : S) (ops : list escrow_op) : nat :=
  match ops with
  | [] => 0
  | op :: ops =>
      let '(r, s') := escrow_run op s in
      (match op, r with OpConsume k' _ _ _, Ok _ => if String.eqb k' k then 1 else 0 | _, _ => 0 end)
      + successful_consumes k s' ops
  end.

Section ConsumeOnce.
Context {S : Type} `{CapabilityEscrow S}.

Lemma no_consume_when_spent k s ops : spent (escrow_state_of s k) = true -> successful_consumes k s ops = 0.
Proof.
  revert s. induction ops as [|op ops IH]; intros s Hs; simpl; [done|].
  pose proof (escrow_spent_stays op s k Hs) as Hs'. destruct (escrow_run op s) as [r s'] eqn:Hr. simpl in Hs'.
  rewrite (IH s' Hs'). destruct op as [| |k' p c now|]; try done. destruct r; [|done].
  destruct (String.eqb_spec k' k) as [->|]; [|done]. apply escrow_consume_ok in Hr as [Hr _]. congruence.
Qed.

Lemma consume_at_most_once k s ops : successful_consumes k s ops <= 1.
Proof.
  revert s. induction ops as [|op ops IH]; intros s; simpl; [lia|].
  destruct (escrow_run op s) as [r s'] eqn:Hr. specialize (IH s').
  destruct op as [| |k' p c now|]; try lia. destruct r; [|lia].
  destruct (String.eqb_spec k' k) as [->|]; [|lia]. apply escrow_consume_ok in Hr as [_ Hr].
  rewrite no_consume_when_spent; [lia|by rewrite Hr].
Qed.
End ConsumeOnce.

(** ** Both implementations meet it *)
Definition memory_run (op : escrow_op) : M exn Memory.records escrow_result :=
  match op with
  | OpIssue k p c x m => r ← Memory.issue k p c x m; mret (Some r)
  | OpInspect k => Memory.inspect k
  | OpConsume k p c now => r ← Memory.consume k p c now; mret (Some r)
  | OpRevoke k reason => r ← Memory.revoke k reason; mret (Some r)
  end.

Definition sqlite_run (op : escrow_op) : M exn Sqlite.table escrow_result :=
  match op with
  | OpIssue k p c x m => r ← Sqlite.issue k p c x m; mret (Some r)
  | OpInspect k => Sqlite.inspect k
  | OpConsume k p c now => r ← Sqlite.consume k p c now; mret (Some r)
  | OpRevoke k reason => r ← Sqlite.revoke k reason; mret (Some r)
  end.

Ltac escrow_eval :=
  cbv beta iota zeta delta [mbind M_bind mret M_ret gets modify lift raise id Sqlite._select_row Sqlite.transaction].

Definition memory_state (s : Memory.records) (k : string) : option escrow_state := es_state <$> s !! k.

Lemma memory_state_insert (s : Memory.records) k k' r :
  memory_state (<[k' := r]> s) k = if decide (k' = k) then Some (es_state r) else memory_state s k.
Proof. unfold memory_state. case_decide; [subst; by rewrite lookup_insert_eq|by rewrite lookup_insert_ne]. Qed.

Lemma memory_consume_spec k p c now (s : Memory.records) :
  match Memory.consume k p c now s with
  | (Ok _, s') => spent (memory_state s k) = false /\ memory_state s' k = Some EConsumed /\ (forall k', k' <> k -> s' !! k' = s !! k')
  | (Err _, s') => s' = s \/ (spent (memory_state s k) = false /\ forall k', k' <> k -> s' !! k' = s !! k')
  end.
Proof.
  unfold Memory.consume, memory_state. escrow_eval. destruct (s !! k) as [r|] eqn:Hr; [|by left].
  case_bool_decide as Hv; [by left|]. case_bool_decide as Hc; [by left|].
  assert (spent (es_state <$> Some r) = false) as Hsp by (simpl; destruct (es_state r); done).
  destruct (es_expires_at r <? now)%Z; [right; split; [done|]; intros; by rewrite lookup_insert_ne|].
  destruct (negb (String.eqb (es_pccb_id r) p)); [by left|].
  destruct (negb (String.eqb (es_capability r) c)); [by left|].
  split_and!; [done|by rewrite lookup_insert_eq|]. intros. by rewrite lookup_insert_ne.
Qed.

Lemma memory_spent_stays op s k : spent (memory_state s k) = true -> spent (memory_state (memory_run op s).2 k) = true.
Proof.
  intros Hs. destruct op as [k' p c x m|k'|k' p c now|k' reason]; simpl; [|done|..].
  - unfold Memory.issue. escrow_eval. destruct (s !! k') as [r|] eqn:Hr; simpl; [done|].
    rewrite memory_state_insert. case_decide; [|done]. subst. unfold memory_state in Hs. by rewrite Hr in Hs.
  - pose proof (memory_consume_spec k' p c now s) as Hc. unfold mbind, M_bind, mret, M_ret.
    destruct (Memory.consume k' p c now s) as [[r|e] s']; simpl.
    + destruct Hc as (Hf & _ & Ho). destruct (decide (k = k')) as [->|]; [congruence|]. unfold memory_state in *. by rewrite Ho.
    + destruct Hc as [->|[Hf Ho]]; [done|]. destruct (decide (k = k')) as [->|]; [congruence|]. unfold memory_state in *. by rewrite Ho.
  - unfold Memory.revoke. escrow_eval. destruct (s !! k') as [r|] eqn:Hr; simpl; [|done].
    rewrite memory_state_insert. by case_decide.
Qed.

Lemma memory_consume_ok k p c now s r s' : memory_run (OpConsume k p c now) s = (Ok r, s') ->
  spent (memory_state s k) = false /\ memory_state s' k = Some EConsumed.
Proof.
  simpl. pose proof (memory_consume_spec k p c now s) as Hc. unfold mbind, M_bind, mret, M_ret.
  destruct (Memory.consume k p c now s) as [[x|e] s1]; intros [= <- <-]. by destruct Hc as (? & ? & _).
Qed.

Definition memory_binding (s : Memory.records) (k : string) : option (string * string) :=
  (fun r => (es_pccb_id r, es_capability r)) <$> s !! k.

Lemma memory_binding_insert (s : Memory.records) k k' r :
  memory_binding (<[k' := r]> s) k = if decide (k' = k) then Some (es_pccb_id r, es_capability r) else memory_binding s k.
Proof. unfold memory_binding. case_decide; [subst; by rewrite lookup_insert_eq|by rewrite lookup_insert_ne]. Qed.

(** Replacing a record by one with its proof and capability moves no binding. *)
Lemma memory_binding_update (s : Memory.records) k k' r r' : s !! k' = Some r ->
  es_pccb_id r' = es_pccb_id r -> es_capability r' = es_capability r -> memory_binding (<[k' := r']> s) k = memory_binding s k.
Proof.
  intros Hr Hp Hc. rewrite memory_binding_insert. case_decide; [|done]. subst. unfold memory_binding. rewrite Hr. simpl. congruence.
Qed.

Lemma memory_binding_moves op s k : memory_binding (memory_run op s).2 k = memory_binding s k \/
  exists p c x m, op = OpIssue k p c x m /\ memory_binding s k = None /\ memory_binding (memory_run op s).2 k = Some (p, c).
Proof.
  destruct op as [k' p c x m|k'|k' p c now|k' reason]; simpl; [|by left|left..].
  - unfold Memory.issue. escrow_eval. destruct (s !! k') as [r|] eqn:Hr; simpl; [by left|].
    rewrite memory_binding_insert. case_decide; [right|by left]. subst. unfold memory_binding. rewrite Hr. eauto 10.
  - unfold Memory.consume. escrow_eval. destruct (s !! k') as [r|] eqn:Hr; [|done].
    repeat case_match; simpl; simplify_eq; try done; by eapply memory_binding_update.
  - unfold Memory.revoke. escrow_eval. destruct (s !! k') as [r|] eqn:Hr; [|done]. by eapply memory_binding_update.
Qed.

Lemma memory_consume_bound k p c now s r s' : memory_run (OpConsume k p c now) s = (Ok r, s') -> memory_binding s k = Some (p, c).
Proof.
  simpl. unfold Memory.consume, memory_binding. escrow_eval. destruct (s !! k) as [rec|]; [|done].
  case_bool_decide; [done|]. case_bool_decide; [done|]. destruct (es_expires_at rec <? now)%Z; [done|].
  destruct (String.eqb_spec (es_pccb_id rec) p) as [Hp|]; [|done].
  destruct (String.eqb_spec (es_capability rec) c) as [Hc|]; [|done]. intros _. simpl. congruence.
Qed.

#[global] Instance memory_escrow : CapabilityEscrow Memory.records := {|
  escrow_run := memory_run;
  escrow_state_of := memory_state;
  escrow_spent_stays := memory_spent_stays;
  escrow_consume_ok := memory_consume_ok;
  escrow_binding := memory_binding;
  escrow_binding_moves := memory_binding_moves;
  escrow_consume_bound := memory_consume_bound
|}.

Definition sqlite_state (s : Sqlite.table) (k : string) : option escrow_state := Sqlite.er_state <$> s !! k.

Lemma sqlite_state_insert (s : Sqlite.table) k k' r :
  sqlite_state (<[k' := r]> s) k = if decide (k' = k) then Some (Sqlite.er_state r) else sqlite_state s k.
Proof. unfold sqlite_state. case_decide; [subst; by rewrite lookup_insert_eq|by rewrite lookup_insert_ne]. Qed.

(** Reading does not write. *)
Lemma sqlite_inspect_state k s : (Sqlite.inspect k s).2 = s.
Proof. unfold Sqlite.inspect. escrow_eval. destruct (s !! k); simpl; [|done]. by destruct (Sqlite._row_to_record k e). Qed.
Lemma sqlite_reload_state k s : (Sqlite.reload k s).2 = s.
Proof.
  unfold Sqlite.reload. escrow_eval. pose proof (sqlite_inspect_state k s) as Hi.
  destruct (Sqlite.inspect k s) as [[[r|]|e] s']; done.
Qed.

(** The three ways [consume_tx] ends, and its failures, which change nothing. *)
Lemma sqlite_row_state k r rec : Sqlite._row_to_record k r = Ok rec -> es_state rec = Sqlite.er_state r.
Proof. unfold Sqlite._row_to_record. intros H. res_inv. done. Qed.

Lemma sqlite_consume_tx_spec k p c now s :
  match Sqlite.consume_tx k p c now s with
  | (Ok Sqlite.CDone, s') => sqlite_state s k = Some Issued /\ sqlite_state s' k = Some EConsumed /\ (forall k', k' <> k -> s' !! k' = s !! k')
  | (Ok Sqlite.CExpired, s') => sqlite_state s k = Some Issued /\ sqlite_state s' k = Some EExpired /\ (forall k', k' <> k -> s' !! k' = s !! k')
  | (_, s') => s' = s
  end.
Proof.
  unfold Sqlite.consume_tx, Sqlite.update_issued, sqlite_state. escrow_eval.
  destruct (s !! k) as [r|] eqn:Hr; [|done].
  destruct (Sqlite._row_to_record k r) as [rec|e] eqn:Hrec; [|done]. pose proof (sqlite_row_state _ _ _ Hrec) as Hst. rewrite Hst.
  destruct (Sqlite.er_state r) eqn:Hs; repeat (rewrite bool_decide_false by done); try (rewrite bool_decide_true by done); try done.
  destruct (es_expires_at rec <? now)%Z; simpl.
  { rewrite Hr, Hs. simpl. rewrite lookup_insert_eq. simpl. split_and!; [done|done|]. intros. by rewrite lookup_insert_ne. }
  destruct (String.eqb (es_pccb_id rec) p); simpl; [|done].
  destruct (String.eqb (es_capability rec) c); simpl; [|done].
  rewrite Hr, Hs. simpl. rewrite lookup_insert_eq. simpl. split_and!; [done|done|]. intros. by rewrite lookup_insert_ne.
Qed.

Lemma sqlite_consume_state k p c now s :
  (Sqlite.consume k p c now s).2 = (Sqlite.consume_tx k p c now s).2.
Proof.
  unfold Sqlite.consume. escrow_eval. destruct (Sqlite.consume_tx k p c now s) as [[[]|e] s']; simpl; try done.
  - apply sqlite_reload_state.
  - pose proof (sqlite_inspect_state k s') as Hi. destruct (Sqlite.inspect k s') as [[[r|]|e] s2]; simpl in *; [|done..].
    by case_match.
Qed.

Lemma sqlite_spent_stays op s k : spent (sqlite_state s k) = true -> spent (sqlite_state (sqlite_run op s).2 k) = true.
Proof.
  intros Hs. destruct op as [k' p c x m|k'|k' p c now|k' reason]; simpl.
  - unfold Sqlite.issue. escrow_eval. destruct (s !! k') as [r|] eqn:Hr; simpl; [done|].
    match goal with |- context [Sqlite.reload ?a ?b] => pose proof (sqlite_reload_state a b) as Hl; destruct (Sqlite.reload a b) as [[?|?] ?] end;
      simpl in *; subst; rewrite sqlite_state_insert; case_decide; try done; subst; unfold sqlite_state in Hs; by rewrite Hr in Hs.
  - pose proof (sqlite_inspect_state k' s) as Hi. destruct (Sqlite.inspect k' s). simpl in *. by subst.
  - pose proof (sqlite_consume_state k' p c now s) as Hc. pose proof (sqlite_consume_tx_spec k' p c now s) as Ht.
    assert (spent (sqlite_state (Sqlite.consume_tx k' p c now s).2 k) = true) as Hgoal.
    { clear Hc. assert (forall s', (sqlite_state s k' = Some Issued /\ forall k, k <> k' -> s' !! k = s !! k) -> spent (sqlite_state s' k) = true) as Hmoved.
      { intros s' [H1 H3]. destruct (decide (k = k')) as [->|Hne]; [by rewrite H1 in Hs|]. unfold sqlite_state in *. by rewrite H3. }
      destruct (Sqlite.consume_tx k' p c now s) as [[[| |]|e] s']; simpl.
      - destruct Ht as (H1 & _ & H3). by apply Hmoved.
      - destruct Ht as (H1 & _ & H3). by apply Hmoved.
      - by rewrite Ht.
      - by rewrite Ht. }
    rewrite <- Hc in Hgoal. unfold mbind, M_bind, mret, M_ret. by destruct (Sqlite.consume k' p c now s) as [[x|x] s1].
  - unfold Sqlite.revoke. escrow_eval. destruct (s !! k') as [r|] eqn:Hr; simpl; [|done].
    destruct (Sqlite._row_to_record k' r); simpl; [|done].
    match goal with |- context [Sqlite.reload ?a ?b] => pose proof (sqlite_reload_state a b) as Hl; destruct (Sqlite.reload a b) as [[?|?] ?] end;
      simpl in *; subst; rewrite sqlite_state_insert; by case_decide.
Qed.

Lemma sqlite_consume_ok k p c now s r s' : sqlite_run (OpConsume k p c now) s = (Ok r, s') ->
  spent (sqlite_state s k) = false /\ sqlite_state s' k = Some EConsumed.
Proof.
  simpl. pose proof (sqlite_consume_state k p c now s) as Hc. pose proof (sqlite_consume_tx_spec k p c now s) as Ht.
  unfold Sqlite.consume in *. unfold mbind, M_bind, mret, M_ret, raise in *.
  destruct (Sqlite.consume_tx k p c now s) as [[[]|e] s1]; simpl in *; try done.
  - destruct (Sqlite.reload k s1) as [[x|x] s2]; simpl in *; [|done]. intros [= <- <-]. subst. destruct Ht as (Ha & Hb & _). rewrite Ha. done.
  - destruct (Sqlite.inspect k s1) as [[[x|]|x] s2]; try done. by case_match.
Qed.

Definition sqlite_binding (s : Sqlite.table) (k : string) : option (string * string) :=
  (fun r => (Sqlite.er_pccb_id r, Sqlite.er_capability r)) <$> s !! k.

Lemma sqlite_binding_insert (s : Sqlite.table) k k' r :
  sqlite_binding (<[k' := r]> s) k = if decide (k' = k) then Some (Sqlite.er_pccb_id r, Sqlite.er_capability r) else sqlite_binding s k.
Proof. unfold sqlite_binding. case_decide; [subst; by rewrite lookup_insert_eq|by rewrite lookup_insert_ne]. Qed.

Lemma sqlite_binding_update (s : Sqlite.table) k k' r r' : s !! k' = Some r ->
  Sqlite.er_pccb_id r' = Sqlite.er_pccb_id r -> Sqlite.er_capability r' = Sqlite.er_capability r ->
  sqlite_binding (<[k' := r']> s) k = sqlite_binding s k.
Proof.
  intros Hr Hp Hc. rewrite sqlite_binding_insert. case_decide; [|done]. subst. unfold sqlite_binding. rewrite Hr. simpl. congruence.
Qed.

Lemma sqlite_consume_tx_binding k p c now (s : Sqlite.table) k' :
  sqlite_binding (Sqlite.consume_tx k p c now s).2 k' = sqlite_binding s k' /\
  (forall s', Sqlite.consume_tx k p c now s = (Ok Sqlite.CDone, s') -> sqlite_binding s k = Some (p, c)).
Proof.
  unfold Sqlite.consume_tx, Sqlite.update_issued. escrow_eval.
  destruct (s !! k) as [r|] eqn:Hr; [|done].
  assert (sqlite_binding s k = Some (Sqlite.er_pccb_id r, Sqlite.er_capability r)) as Hbk by (unfold sqlite_binding; by rewrite Hr).
  destruct (Sqlite._row_to_record k r) as [rec|e] eqn:Hrec; [|done]. cbv beta iota.
  assert (es_pccb_id rec = Sqlite.er_pccb_id r /\ es_capability rec = Sqlite.er_capability r) as [-> ->].
  { unfold Sqlite._row_to_record in Hrec. res_inv. done. }
  do 3 (case_bool_decide; [done|]).
  destruct (es_expires_at rec <? now)%Z; [rewrite Hr; case_bool_decide; simpl; split; (by eapply sqlite_binding_update) || done|].
  destruct (String.eqb_spec (Sqlite.er_pccb_id r) p) as [Hp|]; [|done].
  destruct (String.eqb_spec (Sqlite.er_capability r) c) as [Hc|]; simpl; [|done].
  rewrite Hr. case_bool_decide; simpl; (split; [by eapply sqlite_binding_update || done|congruence]).
Qed.

Lemma sqlite_binding_moves op s k : sqlite_binding (sqlite_run op s).2 k = sqlite_binding s k \/
  exists p c x m, op = OpIssue k p c x m /\ sqlite_binding s k = None /\ sqlite_binding (sqlite_run op s).2 k = Some (p, c).
Proof.
  destruct op as [k' p c x m|k'|k' p c now|k' reason]; simpl.
  - unfold Sqlite.issue. escrow_eval. destruct (s !! k') as [r|] eqn:Hr; simpl; [by left|].
    match goal with |- context [Sqlite.reload ?a ?b] => pose proof (sqlite_reload_state a b) as Hl; destruct (Sqlite.reload a b) as [[?|?] ?] end;
      simpl in *; subst; rewrite sqlite_binding_insert; (case_decide; [right|by left]); subst; unfold sqlite_binding; rewrite Hr; eauto 10.
  - left. pose proof (sqlite_inspect_state k' s) as Hi. destruct (Sqlite.inspect k' s). simpl in *. by subst.
  - left. pose proof (sqlite_consume_state k' p c now s) as Hc. destruct (sqlite_consume_tx_binding k' p c now s k) as [Hb _].
    rewrite <- Hc in Hb. unfold mbind, M_bind, mret, M_ret. by destruct (Sqlite.consume k' p c now s) as [[x|x] s1].
  - left. unfold Sqlite.revoke. escrow_eval. destruct (s !! k') as [r|] eqn:Hr; simpl; [|done].
    destruct (Sqlite._row_to_record k' r); simpl; [|done].
    match goal with |- context [Sqlite.reload ?a ?b] => pose proof (sqlite_reload_state a b) as Hl; destruct (Sqlite.reload a b) as [[?|?] ?] end;
      simpl in *; subst; by eapply sqlite_binding_update.
Qed.

Lemma sqlite_consume_bound k p c now s r s' : sqlite_run (OpConsume k p c now) s = (Ok r, s') -> sqlite_binding s k = Some (p, c).
Proof.
  simpl. destruct (sqlite_consume_tx_binding k p c now s k) as [_ Hb].
  unfold Sqlite.consume. unfold mbind, M_bind, mret, M_ret, raise.
  destruct (Sqlite.consume_tx k p c now s) as [[[]|e] s1]; try done; [intros _; by eapply Hb|].
  destruct (Sqlite.inspect k s1) as [[[x|]|x] s2]; try done. simpl. by case_bool_decide.
Qed.

#[global] Instance sqlite_escrow : CapabilityEscrow Sqlite.table := {|
  escrow_run := sqlite_run;
  escrow_state_of := sqlite_state;
  escrow_spent_stays := sqlite_spent_stays;
  escrow_consume_ok := sqlite_consume_ok;
  escrow_binding := sqlite_binding;
  escrow_binding_moves := sqlite_binding_moves;
  escrow_consume_bound := sqlite_consume_bound
|}.

(** ** What was issued can be consumed

    The promise the kernel's liveness needs: an escrow that [issue] just returned is
    consumed by its own proof and capability until it expires. *)
Class LiveEscrow (S : Type) `{CapabilityEscrow S} :=
  escrow_issue_consume : forall id p c expires meta now s x s',
    escrow_run (OpIssue id p c expires meta) s = (Ok x, s') -> datetime_ok expires -> datetime_ok now -> (now <= expires)%Z ->
    exists y, (escrow_run (OpConsume id p c now) s').1 = Ok y.

#[global] Instance memory_live : LiveEscrow Memory.records.
Proof.
  intros id p c expires meta now e x e'. simpl. unfold Memory.issue, Memory.consume. escrow_eval. destruct (e !! id); [done|]. intros [= <- <-] _ _ Hn.
  rewrite lookup_insert_eq. simpl. rewrite (proj2 (Z.ltb_ge _ _)) by done. rewrite !String.eqb_refl. simpl. eauto.
Qed.

(** ** The two implementations agree under a clock that does not go back *)
Definition same_core (r r' : EscrowRecord) : Prop :=
  es_escrow_id r = es_escrow_id r' /\ es_pccb_id r = es_pccb_id r' /\ es_capability r = es_capability r' /\
  es_expires_at r = es_expires_at r' /\ es_state r = es_state r' /\ es_consumed_at r = es_consumed_at r'.

Lemma same_core_refl r : same_core r r.
Proof. done. Qed.

(** The row a record is stored as, its metadata apart. *)
Definition stored_as (k : string) (r : EscrowRecord) (e : Sqlite.erow) : Prop :=
  es_escrow_id r = k /\ Sqlite.er_pccb_id e = es_pccb_id r /\ Sqlite.er_capability e = es_capability r /\
  Sqlite.er_expires_at e = format_timestamp (es_expires_at r) /\ datetime_ok (es_expires_at r) /\
  Sqlite.er_state e = es_state r /\ Sqlite.er_consumed_at e = format_timestamp <$> es_consumed_at r /\
  match es_consumed_at r with Some t => datetime_ok t | None => True end.

(** Both stores hold the same escrows, and an expired one expired before [clock]. *)
Definition escrow_sim (clock : datetime) (m : Memory.records) (q : Sqlite.table) : Prop :=
  forall k, match m !! k, q !! k with
            | None, None => True
            | Some r, Some e => stored_as k r e /\ (es_state r = EExpired -> (es_expires_at r < clock)%Z)
            | _, _ => False
            end.

Definition same_outcome (a b : py escrow_result) : Prop :=
  match a, b with
  | Ok (Some r), Ok (Some r') => same_core r r'
  | Ok None, Ok None => True
  | Err e, Err e' => e = e'
  | _, _ => False
  end.

Definition op_valid (clock : datetime) (op : escrow_op) : Prop :=
  match op with
  | OpIssue _ _ _ expires_at _ => datetime_ok expires_at
  | OpConsume _ _ _ now => datetime_ok now /\ (clock <= now)%Z
  | _ => True
  end.
Definition op_clock (clock : datetime) (op : escrow_op) : datetime :=
  match op with OpConsume _ _ _ now => now | _ => clock end.

Lemma format_timestamp_truthy t : str_truthy (format_timestamp t) = true.
Proof. reflexivity. Qed.

Lemma stored_as_record k r e : stored_as k r e ->
  exists rec, Sqlite._row_to_record k e = Ok rec /\ same_core r rec.
Proof.
  intros (H1 & H2 & H3 & H4 & H5 & H6 & H7 & H8). unfold Sqlite._row_to_record. rewrite H4, parse_format by done.
  rewrite H7. destruct (es_consumed_at r) as [t|] eqn:Ht; cbn [fmap option_fmap option_map mbind res_bind].
  - rewrite format_timestamp_truthy, parse_format by done. eexists. split; [done|]. repeat split; simpl; congruence.
  - eexists. split; [done|]. repeat split; simpl; congruence.
Qed.

Lemma escrow_sim_insert clock m q k r e : escrow_sim clock m q -> stored_as k r e ->
  (es_state r = EExpired -> (es_expires_at r < clock)%Z) -> escrow_sim clock (<[k := r]> m) (<[k := e]> q).
Proof.
  intros Hs Hr Hx k'. destruct (decide (k = k')) as [->|].
  - by rewrite !lookup_insert_eq.
  - rewrite !lookup_insert_ne by done. apply Hs.
Qed.

Lemma escrow_sim_clock clock clock' m q : escrow_sim clock m q -> (clock <= clock')%Z -> escrow_sim clock' m q.
Proof. intros Hs Hle k. specialize (Hs k). destruct (m !! k), (q !! k); try done. destruct Hs as [? Hx]. split; [done|]. intros He. specialize (Hx He). lia. Qed.

Lemma sqlite_reload_row k (q : Sqlite.table) r e : q !! k = Some e -> stored_as k r e ->
  exists rec, Sqlite.reload k q = (Ok rec, q) /\ same_core r rec.
Proof.
  intros Hq Hst. destruct (stored_as_record k r e Hst) as (rec & Hrec & Hc). exists rec. split; [|done].
  unfold Sqlite.reload, Sqlite.inspect. escrow_eval. by rewrite Hq, Hrec.
Qed.

Lemma sqlite_issue_row id p c expires meta (e e' : Sqlite.table) x :
  sqlite_run (OpIssue id p c expires meta) e = (Ok x, e') ->
  e' !! id = Some (Sqlite.mkErow p c (format_timestamp expires) Issued None (stored_metadata meta)).
Proof.
  unfold sqlite_run, Sqlite.issue, Sqlite.transaction. escrow_eval. destruct (e !! id); [done|]. escrow_eval.
  match goal with |- context [Sqlite.reload id ?q] => pose proof (sqlite_reload_state id q) as Hq; destruct (Sqlite.reload id q) as [[rec|err] q'] end;
    [|done]. cbn [snd] in Hq. subst q'. intros [= _ <-]. by rewrite lookup_insert_eq.
Qed.

#[global] Instance sqlite_live : LiveEscrow Sqlite.table.
Proof.
  intros id p c expires meta now e x e' Hi Hx Hnow Hle. apply sqlite_issue_row in Hi.
  set (row := Sqlite.mkErow p c (format_timestamp expires) Issued None (stored_metadata meta)) in Hi.
  destruct (stored_as_record id (mkEscrowRecord id p c expires Issued None []) row) as (rec & Hrec & _ & Hp & Hc & Hex & Hst & _); [done|].
  cbn in Hp, Hc, Hex, Hst.
  assert (stored_as id (mkEscrowRecord id p c expires EConsumed (Some now) []) (Sqlite.set_state EConsumed (Some (format_timestamp now)) (Sqlite.er_metadata row) row)) as Hs
    by done.
  destruct (sqlite_reload_row id (<[id := Sqlite.set_state EConsumed (Some (format_timestamp now)) (Sqlite.er_metadata row) row]> e') _ _
    (lookup_insert_eq _ _ _) Hs) as (rec' & Hreload & _).
  exists (Some rec'). unfold escrow_run, sqlite_escrow, sqlite_run, Sqlite.consume, Sqlite.consume_tx, Sqlite.transaction, Sqlite.update_issued. escrow_eval.
  rewrite Hi. escrow_eval. rewrite Hrec. escrow_eval. rewrite <- Hst, <- Hex, <- Hp, <- Hc, !String.eqb_refl, (proj2 (Z.ltb_ge _ _)) by done.
  simpl. rewrite Hi. simpl. match goal with |- context [Sqlite.reload id (<[id := ?e2]> e')] => change e2 with (Sqlite.set_state EConsumed (Some (format_timestamp now)) (Sqlite.er_metadata row) row) end. by rewrite Hreload.
Qed.

Lemma escrow_issue_sim clock m q k p c x meta : escrow_sim clock m q -> datetime_ok x ->
  same_outcome (memory_run (OpIssue k p c x meta) m).1 (sqlite_run (OpIssue k p c x meta) q).1 /\
  escrow_sim clock (memory_run (OpIssue k p c x meta) m).2 (sqlite_run (OpIssue k p c x meta) q).2.
Proof.
  intros Hs Hx. pose proof (Hs k) as Hk. simpl. unfold Memory.issue, Sqlite.issue. escrow_eval.
  destruct (m !! k) as [r|] eqn:Hm, (q !! k) as [e|] eqn:Hq; try done.
  set (r := mkEscrowRecord _ _ _ _ _ _ _). set (e := Sqlite.mkErow _ _ _ _ _ _).
  assert (stored_as k r e) as Hst by (by split_and!).
  destruct (sqlite_reload_row k (<[k := e]> q) r e) as (rec & Hrec & Hc); [apply lookup_insert_eq|done|].
  rewrite Hrec. split; [done|]. by apply escrow_sim_insert.
Qed.

Lemma escrow_inspect_sim clock m q k : escrow_sim clock m q ->
  same_outcome (memory_run (OpInspect k) m).1 (sqlite_run (OpInspect k) q).1 /\
  escrow_sim clock (memory_run (OpInspect k) m).2 (sqlite_run (OpInspect k) q).2.
Proof.
  intros Hs. pose proof (Hs k) as Hk. simpl. unfold Memory.inspect, Sqlite.inspect. escrow_eval.
  destruct (m !! k) as [r|] eqn:Hm, (q !! k) as [e|] eqn:Hq; try done.
  destruct Hk as [Hst _]. destruct (stored_as_record k r e Hst) as (rec & -> & Hc). done.
Qed.

Lemma escrow_revoke_sim clock m q k reason : escrow_sim clock m q ->
  same_outcome (memory_run (OpRevoke k reason) m).1 (sqlite_run (OpRevoke k reason) q).1 /\
  escrow_sim clock (memory_run (OpRevoke k reason) m).2 (sqlite_run (OpRevoke k reason) q).2.
Proof.
  intros Hs. pose proof (Hs k) as Hk. simpl. unfold Memory.revoke, Sqlite.revoke. escrow_eval.
  destruct (m !! k) as [r|] eqn:Hm, (q !! k) as [e|] eqn:Hq; try done.
  destruct Hk as [Hst _]. destruct (stored_as_record k r e Hst) as (rec & -> & Hc).
  match goal with |- context [Sqlite.reload k (<[k := ?e']> q)] => set (e2 := e') end.
  set (r2 := Memory.set_state _ _ _ r).
  assert (stored_as k r2 e2) as Hst2 by (destruct Hst as (? & ? & ? & ? & ? & ? & ? & ?); by split_and!).
  destruct (sqlite_reload_row k (<[k := e2]> q) r2 e2) as (rec2 & Hrec2 & Hc2); [apply lookup_insert_eq|done|].
  rewrite Hrec2. split; [done|]. by apply escrow_sim_insert.
Qed.

Lemma escrow_consume_sim clock m q k p c now : escrow_sim clock m q -> datetime_ok now -> (clock <= now)%Z ->
  same_outcome (memory_run (OpConsume k p c now) m).1 (sqlite_run (OpConsume k p c now) q).1 /\
  escrow_sim now (memory_run (OpConsume k p c now) m).2 (sqlite_run (OpConsume k p c now) q).2.
Proof.
  intros Hs Hn Hle. apply (escrow_sim_clock clock now) in Hs as Hs'; [|done]. pose proof (Hs' k) as Hk.
  simpl. unfold Memory.consume, Sqlite.consume, Sqlite.consume_tx, Sqlite.update_issued. escrow_eval.
  destruct (m !! k) as [r|] eqn:Hm, (q !! k) as [e|] eqn:Hq; try done.
  destruct Hk as [Hst Hx]. destruct (stored_as_record k r e Hst) as (rec & -> & Hc).
  destruct Hst as (Hid & Hp & Hcap & Hexp & Hok & Hstate & Hcons & Hcok).
  destruct Hc as (_ & <- & <- & <- & <- & _).
  destruct (es_state r) eqn:Hst; simpl.
  - (* issued *)
    destruct (Z.ltb_spec (es_expires_at r) now); simpl.
    { rewrite Hq, Hstate. simpl. split; [done|]. apply escrow_sim_insert; [done|by split_and!|done]. }
    destruct (String.eqb (es_pccb_id r) p); simpl; [|done].
    destruct (String.eqb (es_capability r) c); simpl; [|done].
    rewrite Hq, Hstate. simpl.
    match goal with |- context [Sqlite.reload k (<[k := ?e']> q)] => set (e2 := e') end.
    set (r2 := Memory.set_state _ _ _ r).
    assert (stored_as k r2 e2) as Hst2 by (by split_and!).
    destruct (sqlite_reload_row k (<[k := e2]> q) r2 e2) as (rec2 & Hrec2 & Hc2); [apply lookup_insert_eq|done|].
    rewrite Hrec2. split; [done|]. by apply escrow_sim_insert.
  - done.
  - (* expired: the clock is past the expiry *)
    destruct (Z.ltb_spec (es_expires_at r) now) as [Hlt|Hge]; [|specialize (Hx eq_refl); lia].
    simpl. split; [done|]. rewrite <- (insert_id q k e) by done. apply escrow_sim_insert; [done|by split_and!|done].
  - done.
Qed.

Lemma escrow_step_sim clock m q op : escrow_sim clock m q -> op_valid clock op ->
  same_outcome (memory_run op m).1 (sqlite_run op q).1 /\
  escrow_sim (op_clock clock op) (memory_run op m).2 (sqlite_run op q).2.
Proof.
  intros Hs Hv. destruct op as [k p c x meta|k|k p c now|k reason]; cbn [op_clock].
  - by apply escrow_issue_sim.
  - by apply escrow_inspect_sim.
  - destruct Hv. by apply (escrow_consume_sim clock).
  - by apply escrow_revoke_sim.
Qed.

(** Run a sequence of operations and collect the outcomes. *)
Fixpoint run_all {S} (run : escrow_op -> M exn S escrow_result) (s : S) (ops : list escrow_op) : list (py escrow_result) :=
  match ops with
  | [] => []
  | op :: ops => let '(r, s') := run op s in r :: run_all run s' ops
  end.
Fixpoint ops_valid (clock : datetime) (ops : list escrow_op) : Prop :=
  match ops with
  | [] => True
  | op :: ops => op_valid clock op /\ ops_valid (op_clock clock op) ops
  end.

Lemma escrow_runs_agree clock m q ops : escrow_sim clock m q -> ops_valid clock ops ->
  Forall2 same_outcome (run_all memory_run m ops) (run_all sqlite_run q ops).
Proof.
  revert clock m q. induction ops as [|op ops IH]; intros clock m q Hs Hv; cbn [run_all]; [constructor|].
  destruct Hv as [Hv Hrest]. destruct (escrow_step_sim clock m q op Hs Hv) as [Ho Hs'].
  destruct (memory_run op m) as [r m'], (sqlite_run op q) as [r' q']. simpl in *. constructor; [done|]. by eapply IH.
Qed.

(** ** Properties *)

(** C40: a capability escrow is consumed at most once: along any sequence of
    operations, with any clock values, at most one [consume] of an escrow
    succeeds, in the in-memory and in the SQLite implementation. *)
Theorem escrow_consumed_at_most_once (k : string) (m : Memory.records) (q : Sqlite.table) (ops : list escrow_op) :
  successful_consumes k m ops <= 1 /\ successful_consumes k q ops <= 1.
Proof. split; apply consume_at_most_once. Qed.

(** Under a clock that does not go back, the in-memory and the SQLite escrow
    give the same outcome (record, absence or error) to every operation of any
    sequence starting from empty stores. *)
Theorem escrow_implementations_agree (clock : datetime) (ops : list escrow_op) :
  ops_valid clock ops ->
  Forall2 same_outcome (run_all memory_run (∅ : Memory.records) ops) (run_all sqlite_run (∅ : Sqlite.table) ops).
Proof. apply escrow_runs_agree. intros k. by rewrite !lookup_empty. Qed.

Definition sample_escrow_ops : list escrow_op :=
  [OpIssue "esc_1" "pccb_1" "payments.refund" (sample_now + 600000000)%Z [];
   OpConsume "esc_1" "pccb_1" "other" sample_now;
   OpConsume "esc_1" "pccb_1" "payments.refund" sample_now;
   OpConsume "esc_1" "pccb_1" "payments.refund" (sample_now + 1)%Z;
   OpRevoke "esc_1" "done"; OpInspect "esc_1"].

Lemma escrow_implementations_agree_witness :
  Forall2 same_outcome (run_all memory_run (∅ : Memory.records) sample_escrow_ops) (run_all sqlite_run (∅ : Sqlite.table) sample_escrow_ops).
Proof.
  apply (escrow_implementations_agree sample_now). vm_compute. repeat split; congruence.
Defined.
