(* ===== verification/Dialects.v ===== *)
(** * Opening the stores: [replay/sqlite.py], [replay/postgres.py], [escrow/service.py]

    The replay store's logic is in [Replay]; these modules say how its connections
    are made.  The SQLite store configures a connection with four statements and tries
    again, with a doubled pause, while another process holds the database; the
    PostgreSQL store chooses a driver.  The database itself is an interface: opening,
    executing, closing and sleeping are operations on a state, and which exceptions
    mean that the database is locked is a parameter. *)

From S2P Require Import Prelude Text Json Errors Canonical.

(** ** [SqliteReplayStore._create_connection] *)
Definition max_retries : nat := 5.

(** [base_delay * (2 ** attempt)], in milliseconds *)
Definition retry_delay (attempt : nat) : Z := 50 * 2 ^ Z.of_nat attempt.

(** The statements; [timeout_ms] is [int(timeout_seconds * 1000)]. *)
Definition pragmas (timeout_ms : Z) : list string :=
  ["PRAGMA journal_mode=WAL"; "PRAGMA synchronous=FULL"; "PRAGMA foreign_keys=ON"; "PRAGMA busy_timeout=" +:+ int_repr timeout_ms].

Definition prepare_transaction : string := "BEGIN IMMEDIATE".

Section Sqlite.
Context {T C : Type} (open : M exn T C) (execute : C -> string -> M exn T unit) (close : C -> M exn T unit) (sleep : Z -> M exn T unit)
  (is_locked : exn -> bool) (timeout_ms : Z).

Fixpoint execute_all (c : C) (statements : list string) : M exn T unit :=
  match statements with
  | [] => mret tt
  | s :: statements => _ ← execute c s; execute_all c statements
  end.

(** The attempts from [attempt] on; [remaining] more may follow. *)
Fixpoint connect_from (attempt remaining : nat) : M exn T C :=
  c ← open;
  try_catch (_ ← execute_all c (pragmas timeout_ms); mret c) (fun e =>
    match remaining with
    | 0 => raise e
    | S remaining =>
        if is_locked e
        then _ ← close c; _ ← sleep (retry_delay attempt); connect_from (S attempt) remaining
        else raise e
    end).

Definition _create_connection : M exn T C := connect_from 0 (max_retries - 1).
End Sqlite.

(** ** [PostgresReplayStore.__init__] *)
Section Postgres.
Context {F : Type}.

(** A driver is its [connect], or [None] when it cannot be imported. *)
Definition _connection_factory_from_dsn (psycopg psycopg2 : option (string -> F)) (dsn : string) : py F :=
  match psycopg, psycopg2 with
  | Some connect, _ => Ok (connect dsn)
  | None, Some connect => Ok (connect dsn)
  | None, None => Err (OtherError "ImportError")
  end.

Definition PostgresReplayStore_factory (psycopg psycopg2 : option (string -> F)) (dsn : option string) (connection_factory : option F) : py F :=
  match connection_factory, dsn with
  | Some f, _ => Ok f
  | None, None => Err (ValueError "PostgresReplayStore requires either dsn or connection_factory")
  | None, Some dsn => _connection_factory_from_dsn psycopg psycopg2 dsn
  end.
End Postgres.

(** ** [escrow/service.py]: which file the default escrow lives in *)
Definition default_escrow_db_path (cwd : string) (base_dir : option string) : string :=
  default (cwd +:+ "/.actenon") base_dir +:+ "/escrow.sqlite3".
Definition build_sqlite_capability_escrow_path (cwd : string) (database_path base_dir : option string) : string :=
  default (default_escrow_db_path cwd base_dir) database_path.

(** ** Specification *)
Section Spec.
Context {T C : Type} (open : M exn T C) (execute : C -> string -> M exn T unit) (close : C -> M exn T unit) (sleep : Z -> M exn T unit)
  (is_locked : exn -> bool) (timeout_ms : Z).

#[local] Abbreviation configure c := (execute_all execute c (pragmas timeout_ms)).

(** [n] attempts from [attempt] on found the database locked; each closed its
    connection and slept. *)
Inductive locked_attempts : nat -> nat -> T -> T -> Prop :=
| locked_none attempt s : locked_attempts attempt 0 s s
| locked_more attempt n c e s s1 s2 s3 s4 s5 :
    open s = (Ok c, s1) -> configure c s1 = (Err e, s2) -> is_locked e = true -> close c s2 = (Ok tt, s3) ->
    sleep (retry_delay attempt) s3 = (Ok tt, s4) -> locked_attempts (S attempt) n s4 s5 ->
    locked_attempts attempt (S n) s s5.

Lemma connect_from_Ok remaining : forall attempt s c s',
  connect_from open execute close sleep is_locked timeout_ms attempt remaining s = (Ok c, s') <->
  exists n s1 s2, n <= remaining /\ locked_attempts attempt n s s1 /\ open s1 = (Ok c, s2) /\ configure c s2 = (Ok tt, s').
Proof.
  induction remaining as [|remaining IH]; intros attempt s c s'; cbn [connect_from]; rewrite M_bind_Ok; split.
  - intros (c0 & s1 & Ho & [Hc|(e & s2 & _ & [=])]%try_catch_Ok). apply M_bind_Ok in Hc as ([] & s2 & Hc & [= <- <-]).
    exists 0, s, s1. split_and!; [lia|constructor|done|done].
  - intros (n & s1 & s2 & Hn & Hl & Ho & Hc). assert (n = 0) as -> by lia. inversion Hl; subst. exists c, s2. split; [done|].
    apply try_catch_Ok. left. apply M_bind_Ok. by exists tt, s'.
  - intros (c0 & s1 & Ho & [Hc|(e & s2 & He & Hr)]%try_catch_Ok).
    + apply M_bind_Ok in Hc as ([] & s2 & Hc & [= <- <-]). exists 0, s, s1. split_and!; [lia|constructor|done|done].
    + apply M_bind_Err in He as [He|(? & ? & _ & [=])]. destruct (is_locked e) eqn:Hle; [|done].
      apply M_bind_Ok in Hr as ([] & s3 & Hcl & Hr). apply M_bind_Ok in Hr as ([] & s4 & Hsl & Hr).
      apply IH in Hr as (n & t1 & t2 & Hn & Hl & Ho' & Hc). exists (S n), t1, t2. split_and!; [lia| |done|done]. by econstructor.
  - intros (n & s1 & s2 & Hn & Hl & Ho & Hc). inversion Hl; subst.
    + exists c, s2. split; [done|]. apply try_catch_Ok. left. apply M_bind_Ok. by exists tt, s'.
    + eexists _, _. split; [done|]. apply try_catch_Ok. right. eexists _, _. split; [apply M_bind_Err; left; eassumption|].
      match goal with Hl : is_locked _ = true |- _ => rewrite Hl end. apply M_bind_Ok. eexists _, _. split; [eassumption|]. apply M_bind_Ok. eexists _, _. split; [eassumption|].
      apply IH. eexists _, _, _. split_and!; [|eassumption..]. lia.
Qed.

End Spec.

(** The pauses of [n] locked attempts, in milliseconds. *)
Definition total_delay (n : nat) : Z := foldr Z.add 0%Z (map retry_delay (seq 0 n)).

Lemma total_delay_bound n : n < max_retries -> (0 <= total_delay n <= 750)%Z.
Proof. unfold max_retries. intros Hn. do 5 (destruct n as [|n]; [vm_compute; split; discriminate|]). lia. Qed.

(** Opening the replay database: a connection is returned exactly when one of the first
    five attempts configures it, all attempts before it having found the database locked,
    closed their connection and slept; so a returned connection has executed all four
    statements, write-ahead journal and full synchronisation included, and the pauses add
    up to at most 750 milliseconds. *)
Theorem sqlite_connection_exact {T C : Type} (open : M exn T C) (execute : C -> string -> M exn T unit) (close : C -> M exn T unit)
    (sleep : Z -> M exn T unit) (is_locked : exn -> bool) (timeout_ms : Z) (s s' : T) (c : C) :
  _create_connection open execute close sleep is_locked timeout_ms s = (Ok c, s') <->
  exists n s1 s2, n < max_retries /\ (0 <= total_delay n <= 750)%Z /\
    locked_attempts open execute close sleep is_locked timeout_ms 0 n s s1 /\ open s1 = (Ok c, s2) /\
    execute_all execute c (pragmas timeout_ms) s2 = (Ok tt, s').
Proof.
  unfold _create_connection. rewrite connect_from_Ok. unfold max_retries at 1 2. split.
  - intros (n & s1 & s2 & Hn & H). exists n, s1, s2. split; [lia|]. split; [|done]. apply total_delay_bound. unfold max_retries. lia.
  - intros (n & s1 & s2 & Hn & _ & H). exists n, s1, s2. split; [lia|done].
Qed.

(** A database that is locked for two attempts, with the trace of what was done. *)
Definition scripted : Type := list bool * list string.
Definition note (event : string) : M exn scripted unit := fun s => (Ok tt, (s.1, s.2 ++ [event])).
Definition scripted_execute (_ : unit) (statement : string) : M exn scripted unit := fun s =>
  match s.1 with
  | true :: script => (Err (OtherError "OperationalError"), (script, s.2 ++ ["locked"]))
  | _ => (Ok tt, (s.1, s.2 ++ [statement]))
  end.
Example locked_twice :
  (_create_connection (note "open") scripted_execute (fun _ => note "close") (fun ms => note ("sleep " +:+ int_repr ms)) (fun _ => true) 30000
     ([true; true], [])) =
  (Ok tt, ([], ["open"; "locked"; "close"; "sleep 50"; "open"; "locked"; "close"; "sleep 100"; "open"; "PRAGMA journal_mode=WAL";
                "PRAGMA synchronous=FULL"; "PRAGMA foreign_keys=ON"; "PRAGMA busy_timeout=30000"])).
Proof. vm_compute. reflexivity. Qed.
