(* ===== verification/Receipts.v ===== *)
(** * Receipts and refusals: [actenon/receipts/]

    [receipts/factory.py]: the Receipt and Refusal artifacts the kernel and the
    executor emit.  [receipts/refund.py], [receipts/invoice_payment.py]: the
    operator summaries and detail fields of the two actions the kernel describes.
    [core/redaction.py]: what an artifact says about an unexpected exception.

    The identifiers the factories draw ([uuid4]) are arguments.  Python's [repr]
    of strings and floats and its [int] of text are parameters ([PyText]): they
    only reach the operator summaries.

    The theorems: when an artifact can be made at all (the parameters a summary
    prints must be there), and that every artifact a factory makes is well formed
    and reads back from its JSON form as itself. *)

From Stdlib Require Import SpecFloat.
From S2P Require Import Prelude Text Json Errors Timestamps Canonical Contracts Runtime Samples ProofService.

(** ** Text conversions of the standard library *)
Class PyText := {
  str_repr : string -> string;
  float_repr : spec_float -> string;
  int_of_text : string -> option Z;
  (** [s.upper()] *)
  str_upper : string -> string;
  (** [s.lower()] *)
  str_lower : string -> string
}.

Section PyText.
Context `{PyText}.

(** [repr(x)] *)
Fixpoint py_repr (j : json) : string :=
  match j with
  | JNull => "None"
  | JBool b => if b then "True" else "False"
  | JInt z => int_repr z
  | JFloat f => float_repr f
  | JStr s => str_repr s
  | JList l => "[" +:+ join ", " (map py_repr l) +:+ "]"
  | JDict d => "{" +:+ join ", " (map (fun kv => match kv with (k, v) => str_repr k +:+ ": " +:+ py_repr v end) d) +:+ "}"
  end.

(** [str(x)], also what an f-string inserts for [{x}] *)
Definition py_str (j : json) : string :=
  match j with JStr s => s | _ => py_repr j end.

(** [int(x)] *)
Definition py_int (j : json) : py Z :=
  match j with
  | JBool b => Ok (if b then 1 else 0)%Z
  | JInt z => Ok z
  | JFloat (S754_finite s m e) =>
      let n := (if (0 <=? e)%Z then Z.pos m * 2 ^ e else Z.pos m / 2 ^ (- e))%Z in
      Ok (if s then - n else n)%Z
  | JFloat (S754_zero _) => Ok 0%Z
  | JFloat (S754_infinity _) => Err OverflowError
  | JFloat S754_nan => Err (ValueError "cannot convert float NaN to integer")
  | JStr s => match int_of_text s with Some z => Ok z | None => Err (ValueError "invalid literal for int() with base 10") end
  | JNull | JList _ | JDict _ => Err (TypeError "int() argument must be a string or a number")
  end.

(** [d[k]] *)
Definition getitem (d : dict) (k : string) : py json :=
  match assoc k d with Some v => Ok v | None => Err (KeyError k) end.

(** [len(x)] *)
Definition py_length (j : json) : py Z :=
  match j with
  | JStr s => Ok (py_len s)
  | JList l => Ok (Z.of_nat (length l))
  | JDict d => Ok (Z.of_nat (length d))
  | _ => Err (TypeError "object has no len()")
  end.

Definition strings (l : list string) : json := JList (map JStr l).

Definition outcome_text (o : PolicyOutcome) : string :=
  match o with
  | Allow => "allow" | Deny => "deny" | ApprovalRequired => "approval-required" | NeedsEvidence => "needs-evidence"
  end.

(** ** [receipts/refund.py] *)
Definition parameters (intent : ActionIntent) : dict := act_parameters (in_action intent).

Definition is_refund_intent (intent : ActionIntent) : bool :=
  String.eqb (act_name (in_action intent)) "refund.create" && String.eqb (act_capability (in_action intent)) "refund.execute".

Definition refund_amount_minor (intent : ActionIntent) : py Z :=
  v ← getitem (parameters intent) "amount_minor"; py_int v.

Definition refund_currency (intent : ActionIntent) : py string :=
  v ← getitem (parameters intent) "currency"; Ok (py_str v).

Definition refund_target_id (intent : ActionIntent) : string := tgt_resource_id (in_target intent).

Definition refund_prefix (amount_minor : Z) (currency target_id : string) : string :=
  "Refund of " +:+ int_repr amount_minor +:+ " " +:+ currency +:+ " against payment " +:+ target_id.

Definition refund_operator_summary_for_decision (intent : ActionIntent) (decision : PolicyDecision) : py string :=
  amount_minor ← refund_amount_minor intent;
  currency ← refund_currency intent;
  let pre := refund_prefix amount_minor currency (refund_target_id intent) in
  Ok match pd_outcome decision with
     | Allow => pre +:+ " is authorized for protected execution."
     | Deny => pre +:+ " was denied by policy."
     | ApprovalRequired => pre +:+ " requires operator approval before execution."
     | NeedsEvidence => pre +:+ " requires more evidence before execution."
     end.

(** [payload.get(k) if payload else None] *)
Definition payload_get (payload : option dict) (k : string) : json :=
  match payload with Some d => dget d k | None => JNull end.

(** [payload or {}] *)
Definition payload_or_empty (payload : option dict) : dict := default [] payload.

Definition refund_operator_summary_for_execution (intent : ActionIntent) (payload : option dict) : py string :=
  amount_minor ← refund_amount_minor intent;
  currency ← refund_currency intent;
  let pre := refund_prefix amount_minor currency (refund_target_id intent) in
  let external_reference := payload_get payload "external_reference" in
  Ok (if py_truthy external_reference
      then pre +:+ " executed successfully with local reference " +:+ py_str external_reference +:+ "."
      else pre +:+ " executed successfully.").

Definition refund_detail_fields (intent : ActionIntent) : py dict :=
  amount_minor ← refund_amount_minor intent;
  currency ← refund_currency intent;
  Ok [("wedge", JStr "refund"); ("amount_minor", JInt amount_minor); ("currency", JStr currency);
      ("target_resource_type", JStr (tgt_resource_type (in_target intent)));
      ("target_resource_id", JStr (refund_target_id intent))].

(** ** [receipts/invoice_payment.py] *)
Definition is_invoice_payment_intent (intent : ActionIntent) : bool :=
  String.eqb (act_name (in_action intent)) "invoice_payment.execute" &&
  String.eqb (act_capability (in_action intent)) "invoice_payment.execute".

Definition invoice_payment_detail_fields (intent : ActionIntent) : py dict :=
  let params := parameters intent in
  payer_entity_id ← getitem params "payer_entity_id";
  supplier_id ← getitem params "supplier_id";
  bank_account_reference ← getitem params "bank_account_reference";
  invoice_ids_raw ← getitem params "invoice_ids";
  invoice_ids ← py_iter invoice_ids_raw;
  amount_minor ← getitem params "amount_minor";
  currency ← getitem params "currency";
  payment_date ← getitem params "payment_date";
  payment_batch_id ← getitem params "payment_batch_id";
  batch_hash ← getitem params "batch_hash";
  proposer_id ← getitem params "proposer_id";
  Ok [("wedge", JStr "invoice_payment"); ("payer_entity_id", payer_entity_id); ("supplier_id", supplier_id);
      ("bank_account_reference", bank_account_reference); ("invoice_ids", JList invoice_ids);
      ("amount_minor", amount_minor); ("currency", currency); ("payment_date", payment_date);
      ("payment_batch_id", payment_batch_id); ("batch_hash", batch_hash); ("proposer_id", proposer_id);
      ("target_resource_type", JStr (tgt_resource_type (in_target intent)));
      ("target_resource_id", JStr (tgt_resource_id (in_target intent)))].

Definition invoice_payment_decision_details (intent : ActionIntent) (decision : PolicyDecision) (context : DynamicContextInput) : py dict :=
  fields ← invoice_payment_detail_fields intent;
  let details := assoc_set "rule_evaluations" (strings (map re_rule_id (pd_rule_evaluations decision))) fields in
  match pd_outcome decision with
  | ApprovalRequired =>
      required ← py_iter (dget_default (cx_facts context) "required_approval_chain" (JList []));
      provided ← py_iter (dget_default (cx_facts context) "provided_approval_chain" (JList []));
      Ok (assoc_set "provided_approval_chain" (JList provided) (assoc_set "required_approval_chain" (JList required) details))
  | NeedsEvidence =>
      Ok (assoc_set "provided_evidence_types" (strings (map ev_type (in_evidence_refs intent)))
            (assoc_set "required_evidence_types" (strings (pd_required_evidence decision)) details))
  | _ => Ok details
  end.

Definition invoice_prefix (amount_minor currency supplier_id : json) : string :=
  py_str amount_minor +:+ " " +:+ py_str currency +:+ " to supplier " +:+ py_str supplier_id.

Definition invoice_payment_operator_summary_for_decision (intent : ActionIntent) (decision : PolicyDecision) : py string :=
  let params := parameters intent in
  amount_minor ← getitem params "amount_minor";
  currency ← getitem params "currency";
  supplier_id ← getitem params "supplier_id";
  invoice_ids ← getitem params "invoice_ids";
  invoice_count ← py_length invoice_ids;
  batch_id ← getitem params "payment_batch_id";
  let pre := "Invoice payment of " +:+ invoice_prefix amount_minor currency supplier_id +:+ " for " in
  let batch := "batch " +:+ py_str batch_id in
  Ok match pd_outcome decision with
     | Allow => pre +:+ int_repr invoice_count +:+ " invoices in " +:+ batch +:+ " is authorized for protected execution."
     | Deny => pre +:+ batch +:+ " was denied by finance controls."
     | ApprovalRequired => pre +:+ batch +:+ " requires the full approval chain before execution."
     | NeedsEvidence => pre +:+ batch +:+ " requires additional evidence before execution."
     end.

Definition invoice_payment_operator_summary_for_execution (intent : ActionIntent) (payload : option dict) : py string :=
  let params := parameters intent in
  amount_minor ← getitem params "amount_minor";
  currency ← getitem params "currency";
  supplier_id ← getitem params "supplier_id";
  batch_id ← getitem params "payment_batch_id";
  let execution_id := payload_get payload "payment_execution_id" in
  let reconciliation_id := payload_get payload "reconciliation_id" in
  let body := "executed for " +:+ invoice_prefix amount_minor currency supplier_id +:+ " in batch " +:+ py_str batch_id +:+ "." in
  Ok (if py_truthy execution_id && py_truthy reconciliation_id
      then "Invoice payment " +:+ py_str execution_id +:+ " " +:+ body +:+ " Reconciliation record " +:+
           py_str reconciliation_id +:+ " was written."
      else "Invoice payment " +:+ body).

Definition invoice_payment_operator_summary_for_refusal (intent : ActionIntent) (refusal_code : string) : py string :=
  let params := parameters intent in
  amount_minor ← getitem params "amount_minor";
  currency ← getitem params "currency";
  supplier_id ← getitem params "supplier_id";
  batch_id ← getitem params "payment_batch_id";
  Ok ("Invoice payment of " +:+ invoice_prefix amount_minor currency supplier_id +:+ " in batch " +:+
      py_str batch_id +:+ " was refused (" +:+ refusal_code +:+ ").").

(** ** [receipts/factory.py] *)
Definition correlation_of (pccb_id escrow_id refusal_id request_id : json) (action_hash : option ActionHashSpec) : CorrelationRef :=
  mkCorrelationRef pccb_id escrow_id refusal_id JNull request_id action_hash JNull JNull JNull JNull None.

Definition opt_json (x : option string) : json := match x with Some s => JStr s | None => JNull end.

Definition create_decision_receipt (receipt_id : string) (intent : ActionIntent) (decision : PolicyDecision)
    (context : DynamicContextInput) (pccb_id escrow_id : json) (action_hash : option ActionHashSpec) : py Receipt :=
  let follow_up :=
    match pd_outcome decision with
    | ApprovalRequired => [("approver_types", strings (pd_approver_types decision));
                           ("instructions", JStr "Additional approval is required before execution.")]
    | NeedsEvidence => [("required_evidence", strings (pd_required_evidence decision));
                        ("instructions", JStr "Additional evidence is required before execution.")]
    | _ => []
    end in
  let base := [("rule_evaluations", strings (map re_rule_id (pd_rule_evaluations decision)))] in
  '(summary, details) ←
    (if is_refund_intent intent then
       summary ← refund_operator_summary_for_decision intent decision;
       fields ← refund_detail_fields intent;
       Ok (summary, assoc_merge base fields)
     else if is_invoice_payment_intent intent then
       summary ← invoice_payment_operator_summary_for_decision intent decision;
       details ← invoice_payment_decision_details intent decision context;
       Ok (summary, details)
     else Ok (pd_summary decision, base));
  Ok (mkReceipt receipt_id (in_intent_id intent) (cx_now context) (outcome_text (pd_outcome decision))
        (in_tenant intent) (in_requester intent) (in_action intent) (in_target intent) summary (JStr "decision")
        (Some (correlation_of pccb_id escrow_id JNull (JStr (cx_request_id context)) action_hash))
        (pd_reason_codes decision) follow_up [("state", JStr "none")] details [] []).

(** [if x: side_effects[k] = x] *)
Definition set_if_truthy (k : string) (x : json) (d : dict) : dict := if py_truthy x then assoc_set k x d else d.

Definition create_execution_receipt (receipt_id : string) (intent : ActionIntent) (context : DynamicContextInput)
    (pccb_id : string) (escrow_id : json) (payload : option dict) (action_hash : option ActionHashSpec) : py Receipt :=
  let side_effects :=
    set_if_truthy "resource_version" (payload_get payload "resource_version")
      (set_if_truthy "reconciliation_status" (payload_get payload "reconciliation_status")
        (set_if_truthy "provider_reference" (payload_get payload "provider_reference")
          (set_if_truthy "external_reference" (payload_get payload "external_reference") [("state", JStr "completed")]))) in
  '(summary, details) ←
    (if is_refund_intent intent then
       summary ← refund_operator_summary_for_execution intent payload;
       fields ← refund_detail_fields intent;
       Ok (summary, assoc_merge fields (payload_or_empty payload))
     else if is_invoice_payment_intent intent then
       summary ← invoice_payment_operator_summary_for_execution intent payload;
       fields ← invoice_payment_detail_fields intent;
       Ok (summary, assoc_merge fields (payload_or_empty payload))
     else Ok ("The protected action executed successfully.", payload_or_empty payload));
  Ok (mkReceipt receipt_id (in_intent_id intent) (cx_now context) "executed"
        (in_tenant intent) (in_requester intent) (in_action intent) (in_target intent) summary (JStr "execution")
        (Some (correlation_of (JStr pccb_id) escrow_id JNull (JStr (cx_request_id context)) action_hash))
        [] [] side_effects details [] []).

Definition create_refused_receipt (receipt_id : string) (intent : ActionIntent) (context : DynamicContextInput)
    (refusal : Refusal) : py Receipt :=
  '(summary, details) ←
    (if is_refund_intent intent then
       amount_minor ← getitem (parameters intent) "amount_minor";
       currency ← getitem (parameters intent) "currency";
       fields ← refund_detail_fields intent;
       Ok ("Refund of " +:+ py_str amount_minor +:+ " " +:+ py_str currency +:+ " against payment " +:+
             tgt_resource_id (in_target intent) +:+ " was refused.", fields)
     else if is_invoice_payment_intent intent then
       summary ← invoice_payment_operator_summary_for_refusal intent (rf_reason_code refusal);
       fields ← invoice_payment_detail_fields intent;
       Ok (summary, fields)
     else Ok (rf_message refusal, []));
  let correlation :=
    match rf_correlation refusal with
    | Some c => correlation_of (cor_pccb_id c) (cor_escrow_id c) (JStr (rf_refusal_id refusal))
                  (JStr (cx_request_id context)) (cor_action_hash c)
    | None => correlation_of JNull JNull (JStr (rf_refusal_id refusal)) (JStr (cx_request_id context)) None
    end in
  Ok (mkReceipt receipt_id (in_intent_id intent) (cx_now context) "refused"
        (in_tenant intent) (in_requester intent) (in_action intent) (in_target intent) summary (JStr "execution")
        (Some correlation) [rf_reason_code refusal] [] [("state", JStr "none")] details [] []).

(** [RefusalFactory.create_from_exception] *)
Definition create_from_exception (refusal_id : string) (exc : RefusalException) (occurred_at : datetime)
    (intent : option ActionIntent) (context : option DynamicContextInput) (pccb_id escrow_id : json)
    (action_hash : option ActionHashSpec) : py Refusal :=
  Refusal_init refusal_id (exc_category exc) (Some (exc_refusal_code exc)) (Some (exc_message exc))
    (Some (exc_retryable exc)) (Some occurred_at)
    (match intent with Some i => JStr (in_intent_id i) | None => JNull end)
    (in_tenant <$> intent) (in_requester <$> intent) (cx_audience <$> context)
    (in_action <$> intent) (in_target <$> intent)
    (Some (correlation_of pccb_id escrow_id JNull
             (match context with Some c => JStr (cx_request_id c) | None => JNull end) action_hash))
    (exc_rule_refs exc) (exc_violations exc) (Some (exc_details exc)) None None.

End PyText.

(** ** [core/redaction.py] *)
Definition SAFE_HANDLER_EXCEPTION_CODE : string := "EXECUTION_FAILED".
Definition SAFE_HANDLER_EXCEPTION_MESSAGE : string :=
  "Execution failed after verification; sensitive exception details were redacted from the artifact.".

(** [type(exc).__name__] *)
Definition exception_type (e : exn) : string :=
  match e with
  | ValueError _ => "ValueError" | TypeError _ => "TypeError" | AttributeError _ => "AttributeError"
  | KeyError _ => "KeyError" | OverflowError => "OverflowError" | CanonicalisationError _ => "CanonicalisationError"
  | OtherError cls => cls | OutOfModel => ""
  | Refused r =>
      match exc_cls r with
      | RefusalExceptionC => "RefusalException" | ContractValidationErrorC => "ContractValidationError"
      | PolicyDecisionErrorC => "PolicyDecisionError" | ProofVerificationErrorC => "ProofVerificationError"
      | EscrowValidationErrorC => "EscrowValidationError" | EscrowConfigurationErrorC => "EscrowConfigurationError"
      | ReplayValidationErrorC => "ReplayValidationError" | IdempotencyConflictC => "IdempotencyConflict"
      | ProofSealErrorC => "ProofSealError"
      end
  end.

Definition redacted_handler_exception_details (exc : exn) (request_id : option string) : dict :=
  [("exception_type", JStr (exception_type exc)); ("phase", JStr "execution");
   ("safe_error_code", JStr SAFE_HANDLER_EXCEPTION_CODE); ("sensitive_details_redacted", JBool true)] ++
  match request_id with Some r => [("request_id", JStr r)] | None => [] end.

(** ** Which intents an artifact can describe *)
Section ReceiptFacts.
Context `{PyText}.

Definition INVOICE_PARAMETERS : list string :=
  ["payer_entity_id"; "supplier_id"; "bank_account_reference"; "invoice_ids"; "amount_minor"; "currency";
   "payment_date"; "payment_batch_id"; "batch_hash"; "proposer_id"].

(** The parameters the summary and detail fields of the intent's action read are
    there and convert. *)
Definition describable (intent : ActionIntent) : bool :=
  if is_refund_intent intent then
    has_key "currency" (parameters intent) &&
    match assoc "amount_minor" (parameters intent) with Some v => is_ok (py_int v) | None => false end
  else if is_invoice_payment_intent intent then
    forallb (fun k => has_key k (parameters intent)) INVOICE_PARAMETERS &&
    is_ok (py_iter (dget (parameters intent) "invoice_ids"))
  else true.

Lemma is_ok_bind {E A B} (m : res E A) (f : A -> res E B) :
  is_ok (m ≫= f) = match m with Ok a => is_ok (f a) | Err _ => false end.
Proof. by destruct m. Qed.

Lemma getitem_key d k : is_ok (getitem d k) = has_key k d.
Proof. unfold getitem, has_key. by destruct (assoc k d). Qed.

(** Case analysis on every parameter a factory reads. *)
Ltac read_parameters :=
  unfold refund_amount_minor, refund_currency, getitem, has_key, dget in *; cbn -[py_int py_iter assoc];
  repeat match goal with
  | |- context [assoc ?k (parameters ?i)] => destruct (assoc k (parameters i)) eqn:?; cbn -[py_int py_iter assoc]
  | |- context [py_int ?v] => destruct (py_int v) eqn:?; cbn -[py_int py_iter assoc]
  | |- context [py_iter ?v] => destruct (py_iter v) eqn:?; cbn -[py_int py_iter assoc]
  end; try done.

Lemma execution_receipt_describable rid intent context pccb_id escrow_id payload ah :
  is_ok (create_execution_receipt rid intent context pccb_id escrow_id payload ah) = describable intent.
Proof.
  unfold create_execution_receipt, describable, refund_operator_summary_for_execution, refund_detail_fields,
    invoice_payment_operator_summary_for_execution, invoice_payment_detail_fields, INVOICE_PARAMETERS.
  destruct (is_refund_intent intent); [|destruct (is_invoice_payment_intent intent); [|done]]; read_parameters.
Qed.

Lemma refused_receipt_describable rid intent context refusal :
  is_ok (create_refused_receipt rid intent context refusal) = describable intent.
Proof.
  unfold create_refused_receipt, describable, refund_detail_fields,
    invoice_payment_operator_summary_for_refusal, invoice_payment_detail_fields, INVOICE_PARAMETERS.
  destruct (is_refund_intent intent); [|destruct (is_invoice_payment_intent intent); [|done]]; read_parameters.
Qed.

(** ** What the factories make is well formed *)
Lemma request_correlation_wf p e f r ah :
  opt_wf ActionHashSpec_wf ah = true ->
  (fun c => CorrelationRef_wf c && dict_truthy (CorrelationRef_to_dict c)) (correlation_of p e f (JStr r) ah) = true.
Proof.
  intros Hah. unfold CorrelationRef_wf, CorrelationRef_to_dict. simpl. rewrite Hah. simpl.
  by destruct p, e, f.
Qed.

Lemma request_correlation_facts p e f r ah :
  opt_wf ActionHashSpec_wf ah = true ->
  let c := correlation_of p e f (JStr r) ah in
  CorrelationRef_wf c = true /\ dict_truthy (CorrelationRef_to_dict c) = true.
Proof. intros Hah. apply andb_true_iff. by apply request_correlation_wf. Qed.

Lemma execution_receipt_inv rid intent context pccb_id escrow_id payload ah r :
  create_execution_receipt rid intent context pccb_id escrow_id payload ah = Ok r ->
  exists summary side_effects details,
    r = mkReceipt rid (in_intent_id intent) (cx_now context) "executed" (in_tenant intent) (in_requester intent)
          (in_action intent) (in_target intent) summary (JStr "execution")
          (Some (correlation_of (JStr pccb_id) escrow_id JNull (JStr (cx_request_id context)) ah))
          [] [] side_effects details [] [] /\ str_truthy summary = true.
Proof.
  unfold create_execution_receipt. intros Hr. apply bind_Ok in Hr as ([summary details] & Hs & Hr).
  injection Hr as <-. do 3 eexists. split; [reflexivity|].
  destruct (is_refund_intent intent); [|destruct (is_invoice_payment_intent intent)].
  - unfold refund_operator_summary_for_execution, refund_prefix in Hs. res_inv. by case_match.
  - unfold invoice_payment_operator_summary_for_execution in Hs. cbv zeta in Hs. res_inv. by case_match.
  - by simplify_eq.
Qed.

Lemma refused_receipt_inv rid intent context refusal r :
  create_refused_receipt rid intent context refusal = Ok r -> str_truthy (rf_message refusal) = true ->
  exists summary correlation details,
    r = mkReceipt rid (in_intent_id intent) (cx_now context) "refused" (in_tenant intent) (in_requester intent)
          (in_action intent) (in_target intent) summary (JStr "execution") (Some correlation)
          [rf_reason_code refusal] [] [("state", JStr "none")] details [] [] /\
    cor_refusal_id correlation = JStr (rf_refusal_id refusal) /\ str_truthy summary = true /\
    (opt_wf CorrelationRef_wf (rf_correlation refusal) = true ->
     CorrelationRef_wf correlation = true /\ dict_truthy (CorrelationRef_to_dict correlation) = true).
Proof.
  unfold create_refused_receipt. intros Hr Hm. apply bind_Ok in Hr as ([summary details] & Hs & Hr).
  cbv zeta in Hr. injection Hr as <-. do 3 eexists. split; [reflexivity|]. split; [by destruct (rf_correlation refusal)|]. split.
  - destruct (is_refund_intent intent); [|destruct (is_invoice_payment_intent intent)].
    + unfold refund_detail_fields in Hs. res_inv. done.
    + unfold invoice_payment_operator_summary_for_refusal in Hs. cbv zeta in Hs. res_inv. done.
    + by simplify_eq.
  - intros Hc. destruct (rf_correlation refusal); apply request_correlation_facts; [|done]. simpl in Hc.
    unfold CorrelationRef_wf in Hc. by apply andb_true_iff in Hc as [? _].
Qed.

Lemma create_from_exception_Ok fid exc now intent context pccb_id escrow_id ah :
  exists f, create_from_exception fid exc now intent context pccb_id escrow_id ah = Ok f /\
    rf_refusal_id f = fid /\ rf_category f = exc_category exc /\ rf_reason_code f = exc_refusal_code exc /\
    rf_message f = exc_message exc /\ rf_retryable f = exc_retryable exc.
Proof. unfold create_from_exception, Refusal_init. simpl. rewrite ?String.eqb_refl. by eexists. Qed.

(** What an exception must carry for its refusal to be readable. *)
Definition exception_wf (exc : RefusalException) : bool :=
  str_truthy (exc_category exc) && str_truthy (exc_refusal_code exc) && str_truthy (exc_message exc) &&
  forallb str_truthy (exc_rule_refs exc) && forallb Violation_wf (exc_violations exc).

Lemma execution_receipt_wf rid intent context pccb_id escrow_id payload ah r :
  create_execution_receipt rid intent context pccb_id escrow_id payload ah = Ok r ->
  str_truthy rid = true -> ActionIntent_wf intent -> datetime_ok (cx_now context) -> opt_wf ActionHashSpec_wf ah = true ->
  Receipt_wf r.
Proof.
  intros (summary & se & details & -> & Hs)%execution_receipt_inv Hr (_ & _ & Hi) Hn Hah. split; [done|]. split_andb. simpl.
  rewrite !andb_true_iff. split_and!; try done; by apply request_correlation_facts.
Qed.

Lemma refusal_wf fid exc now intent context pccb_id escrow_id ah f :
  create_from_exception fid exc now (Some intent) (Some context) pccb_id escrow_id ah = Ok f ->
  str_truthy fid = true -> exception_wf exc = true -> ActionIntent_wf intent -> AudienceRef_wf (cx_audience context) = true ->
  datetime_ok now -> opt_wf ActionHashSpec_wf ah = true -> Refusal_wf f.
Proof.
  unfold create_from_exception, Refusal_init, exception_wf. simpl. rewrite ?String.eqb_refl. intros [= <-] Hf He (_ & _ & Hi) Ha Hn Hah.
  split; [done|]. split_andb. simpl. rewrite !andb_true_iff. split_and!; try done; by apply request_correlation_facts.
Qed.

Lemma refused_receipt_wf rid intent context refusal r :
  create_refused_receipt rid intent context refusal = Ok r ->
  str_truthy rid = true -> ActionIntent_wf intent -> datetime_ok (cx_now context) -> Refusal_wf refusal -> Receipt_wf r.
Proof.
  intros Hr Hrid (_ & _ & Hi) Hn (_ & Hf). split_andb.
  destruct (refused_receipt_inv _ _ _ _ _ Hr) as (summary & c & details & -> & _ & Hs & Hc); [done|].
  split; [done|]. simpl. rewrite !andb_true_iff. split_and!; try done; apply Hc; destruct (rf_correlation refusal); simpl in *; by split_andb.
Qed.
End ReceiptFacts.

(** ** Properties *)

(** The factories emit readable artifacts: for a well-formed intent, the
    execution receipt, the refusal and the refused receipt they build survive
    [to_dict] followed by [from_dict] unchanged, and the refused receipt names the
    refusal and its reason code. *)
Theorem factory_artifacts_roundtrip `{PyText} (rid fid : string) (exc : RefusalException) (intent : ActionIntent)
    (context : DynamicContextInput) (pccb : PCCB) (payload : option dict) :
  str_truthy rid = true -> str_truthy fid = true -> exception_wf exc = true ->
  ActionIntent_wf intent -> AudienceRef_wf (cx_audience context) = true -> datetime_ok (cx_now context) -> PCCB_wf pccb ->
  let ah := Some (pc_action_hash pccb) in
  let pid := pc_pccb_id pccb in
  (forall r, create_execution_receipt rid intent context pid (pc_escrow_id pccb) payload ah = Ok r ->
     Receipt_from_dict (JDict (Receipt_to_dict r)) = Ok r) /\
  (exists f, create_from_exception fid exc (cx_now context) (Some intent) (Some context) (JStr pid) (pc_escrow_id pccb) ah = Ok f /\
     Refusal_from_dict (JDict (Refusal_to_dict f)) = Ok f /\
     (forall r, create_refused_receipt rid intent context f = Ok r ->
        Receipt_from_dict (JDict (Receipt_to_dict r)) = Ok r /\ rc_reason_codes r = [exc_refusal_code exc] /\
        (cor_refusal_id <$> rc_correlation r) = Some (JStr fid))).
Proof.
  intros Hrid Hfid Hexc Hi Ha Hn (_ & _ & _ & Hp). split_andb.
  assert (opt_wf ActionHashSpec_wf (Some (pc_action_hash pccb)) = true) as Hah by done. split.
  - intros r Hr. by eapply Receipt_from_to, execution_receipt_wf.
  - destruct (create_from_exception_Ok fid exc (cx_now context) (Some intent) (Some context) (JStr (pc_pccb_id pccb))
      (pc_escrow_id pccb) (Some (pc_action_hash pccb))) as (f & Hf & Hfr & _ & Hc & Hm & _). exists f.
    assert (Refusal_wf f) as Hwf by (by eapply refusal_wf). split_and!; [done|by apply Refusal_from_to|].
    intros r Hr. split; [by eapply Receipt_from_to, refused_receipt_wf|].
    destruct (refused_receipt_inv _ _ _ _ _ Hr) as (? & ? & ? & -> & Hid & _).
    { rewrite Hm. unfold exception_wf in Hexc. by split_andb. }
    simpl. by rewrite Hc, Hid, Hfr.
Qed.

(** An execution or refused receipt can be made exactly for the describable
    intents, whatever the outcome; the others (a refund without an amount, say)
    raise. *)
Theorem receipts_exactly_describable `{PyText} (rid : string) (intent : ActionIntent) (context : DynamicContextInput)
    (pccb_id : string) (escrow_id : json) (payload : option dict) (ah : option ActionHashSpec) (refusal : Refusal) :
  is_ok (create_execution_receipt rid intent context pccb_id escrow_id payload ah) = describable intent /\
  is_ok (create_refused_receipt rid intent context refusal) = describable intent.
Proof. split; [apply execution_receipt_describable|apply refused_receipt_describable]. Qed.

(** A [repr] good enough for the samples. *)
Definition demo_text : PyText := {|
  str_repr s := "'" +:+ s +:+ "'";
  float_repr _ := "0.0";
  int_of_text _ := None;
  str_upper := ascii_upper;
  str_lower := ascii_lower
|}.

Lemma factory_artifacts_roundtrip_witness :
  (let ah := Some (pc_action_hash sample_pccb) in
  (forall r, @create_execution_receipt demo_text "rcpt_1" sample_intent sample_context "pccb_1" (JStr "esc_1") None ah = Ok r ->
     Receipt_from_dict (JDict (Receipt_to_dict r)) = Ok r)) /\
  is_ok (@create_execution_receipt demo_text "rcpt_1" sample_intent sample_context "pccb_1" (JStr "esc_1") None None) = true.
Proof.
  split; [|reflexivity].
  apply (@factory_artifacts_roundtrip demo_text "rcpt_1" "rfsl_1" (RefusalExn "policy" "POLICY_REFUSED" "no" false [])
    sample_intent sample_context sample_pccb None); try reflexivity; split_and!; try reflexivity; by apply (bool_decide_unpack _).
Defined.
