(* ===== verification/Artifacts.v ===== *)
(** * Artifact digests, evidence references and artifact stores

    [models/serialization.py]: the digest of an artifact.  [models/evidence.py]: a
    receipt as evidence.  [receipts/store.py] and [evidence/stores.py]: the stores
    receipts, refusals, intents and proofs are kept in, in memory and as files.

    An in-memory store is the Python dict it wraps.  A file store reads a
    directory: the parameters are the directory's contents ([artifact_dir]), and
    the text parser of the strict loader.

    The facts: a store returns the last artifact put under an identifier and
    nothing else; a file store only opens files that are single path segments of
    its own directory and returns only artifacts with the identifier asked for. *)

From Stdlib Require Import Ascii.
From S2P Require Import Prelude Text Json Errors Timestamps Canonical Contracts Runtime Samples ProofService Receipts.

(** ** [models/serialization.py] and [models/evidence.py] *)
Definition ARTIFACT_HASH_ALGORITHM : string := "sha-256".
Definition EVIDENCE_TYPE_RECEIPT : string := "actenon.receipt".

Section Digest.
Context `{Protocol}.

(** The artifact as its [to_dict()]. *)
Definition sha256_artifact_hex (payload : dict) : py string := sha256_hex (JDict payload).

Definition build_artifact_digest (payload : dict) : py DigestSpec :=
  value ← sha256_artifact_hex payload;
  Ok (mkDigestSpec ARTIFACT_HASH_ALGORITHM CANONICALIZATION_PROFILE value).

Definition receipt_evidence_ref (receipt : Receipt) : py EvidenceRef :=
  digest ← build_artifact_digest (Receipt_to_dict receipt);
  Ok (mkEvidenceRef EVIDENCE_TYPE_RECEIPT (rc_receipt_id receipt) (DigestSpec_to_dict digest)).
End Digest.

(** ** In-memory stores: the dict of the artifacts by identifier *)
Section MemoryStore.
Context {A : Type} (artifact_id : A -> string).
Definition artifact_store : Type := list (string * A).

Definition put_artifact (a : A) (s : artifact_store) : artifact_store := assoc_set (artifact_id a) a s.
Definition from_artifacts (l : list A) : artifact_store := fold_left (fun s a => put_artifact a s) l [].
Definition get_artifact (id : string) (s : artifact_store) : option A := assoc id s.
Definition list_artifacts (s : artifact_store) : list A := s.*2.
End MemoryStore.

Definition put_receipt : Receipt -> artifact_store -> artifact_store := put_artifact rc_receipt_id.
Definition from_receipts : list Receipt -> artifact_store := from_artifacts rc_receipt_id.
Definition put_refusal : Refusal -> artifact_store -> artifact_store := put_artifact rf_refusal_id.
Definition from_refusals : list Refusal -> artifact_store := from_artifacts rf_refusal_id.
Definition put_intent : ActionIntent -> artifact_store -> artifact_store := put_artifact in_intent_id.
Definition from_intents : list ActionIntent -> artifact_store := from_artifacts in_intent_id.
Definition put_pccb : PCCB -> artifact_store -> artifact_store := put_artifact pc_pccb_id.
Definition from_pccbs : list PCCB -> artifact_store := from_artifacts pc_pccb_id.

(** ** Files *)

(** A directory entry: whether its resolved path lies in the directory itself, and
    the bytes of a regular file. *)
Record file_entry := mkFile { fe_inside : bool; fe_bytes : option string }.
Definition directory : Type := list (string * file_entry).

(** What the file stores use of the platform: the file-name encoding, UTF-8
    decoding and the text parser of the standard library's [json]. *)
Class Platform := {
  path_encodable : string -> bool;
  platform_utf8_valid : string -> bool;
  platform_parse_text : string -> parsed
}.

(** [char in s] *)
Fixpoint has_char (c : ascii) (s : string) : bool :=
  match s with EmptyString => false | String c' s => Ascii.eqb c c' || has_char c s end.

Definition PATH_CHARS : list ascii := [ascii_of_N 47; ascii_of_N 92; ascii_of_N 0].

Section Files.
Context `{Platform}.

(** [_artifact_file(directory, artifact_id)]: the name of the file, or nothing. *)
Definition _artifact_file (dir : directory) (artifact_id : string) : py (option string) :=
  if negb (str_truthy artifact_id) || str_mem artifact_id ["."; ".."] || existsb (fun c => has_char c artifact_id) PATH_CHARS
  then Ok None
  else
    let name := artifact_id +:+ ".json" in
    if negb (path_encodable name) then Err (ValueError "surrogates not allowed")
    else match assoc name dir with
         | Some e => Ok (if fe_inside e then Some name else None)
         | None => Ok (Some name)
         end.

(** [loads_no_duplicate_keys(target.read_text(encoding="utf-8"))]: every error of
    the loader is a [ValueError]. *)
Definition read_json (bytes : string) : py json :=
  if negb (platform_utf8_valid bytes) then Err (ValueError "invalid utf-8")
  else from_json_error (loads_no_duplicate_keys platform_parse_text platform_utf8_valid (RawStr bytes)
                          DEFAULT_MAX_JSON_BYTES DEFAULT_MAX_JSON_DEPTH).

Section ArtifactFiles.
Context {A : Type} (from_dict : json -> py A) (artifact_id : A -> string).

(** [get_receipt] and [get_refusal] of the file stores *)
Definition get_artifact_file (dir : directory) (id : string) : py (option A) :=
  target ← _artifact_file dir id;
  match target with
  | None => Ok None
  | Some name =>
      match assoc name dir with
      | Some (mkFile _ (Some bytes)) =>
          payload ← read_json bytes;
          a ← from_dict payload;
          Ok (if String.eqb (artifact_id a) id then Some a else None)
      | _ => Ok None
      end
  end.

(** One file of a listing; a directory named like one cannot be read. *)
Definition read_artifact (e : file_entry) : py A :=
  match fe_bytes e with
  | Some bytes => payload ← read_json bytes; from_dict payload
  | None => Err (OtherError "IsADirectoryError")
  end.

Definition is_json_name (name : string) : bool := String.eqb (String.substring (String.length name - 5) 5 name) ".json".

(** [sorted(root.glob("*.json"))], read in order *)
Definition list_artifact_files (dir : option directory) : py (list A) :=
  match dir with
  | None => Ok []
  | Some dir => res_mapM (fun kv => read_artifact kv.2) (ksort (List.filter (fun kv => is_json_name kv.1) dir))
  end.

(** The stores of intents and proofs: every file of the given name below the root,
    in path order; two files with one identifier are refused. *)
Fixpoint index_artifacts (index : artifact_store) (files : list (string * file_entry)) : py artifact_store :=
  match files with
  | [] => Ok index
  | (_, e) :: files =>
      a ← read_artifact e;
      match assoc (artifact_id a) index with
      | Some _ => Err (ValueError "duplicate artifact id")
      | None => index_artifacts (assoc_set (artifact_id a) a index) files
      end
  end.

Definition get_indexed (files : list (string * file_entry)) (id : string) : py (option A) :=
  index ← index_artifacts [] files; Ok (assoc id index).

Definition list_indexed (files : list (string * file_entry)) : py (list A) :=
  index ← index_artifacts [] files; Ok index.*2.
End ArtifactFiles.

Definition JsonArtifactReceiptStore_get : directory -> string -> py (option Receipt) := get_artifact_file Receipt_from_dict rc_receipt_id.
Definition JsonArtifactRefusalStore_get : directory -> string -> py (option Refusal) := get_artifact_file Refusal_from_dict rf_refusal_id.
Definition JsonArtifactPCCBStore_get : list (string * file_entry) -> string -> py (option PCCB) := get_indexed PCCB_from_dict pc_pccb_id.
End Files.

(** ** Facts *)

(** The last artifact put under an identifier. *)
Lemma get_put_artifact {A} (key : A -> string) a id s :
  get_artifact id (put_artifact key a s) = if String.eqb (key a) id then Some a else get_artifact id s.
Proof.
  unfold get_artifact, put_artifact. destruct (String.eqb_spec (key a) id) as [<-|Hne]; [apply assoc_set_eq|by apply assoc_set_ne].
Qed.

Lemma get_from_artifacts {A} (key : A -> string) l id :
  get_artifact id (from_artifacts key l) = last (List.filter (fun a => String.eqb (key a) id) l).
Proof.
  unfold from_artifacts.
  enough (forall s, get_artifact id (fold_left (fun s a => put_artifact key a s) l s) =
    match last (List.filter (fun a => String.eqb (key a) id) l) with Some a => Some a | None => get_artifact id s end) as Hall.
  { rewrite Hall. by destruct (last _). }
  induction l as [|a l IH]; intros s; [done|]. simpl fold_left. rewrite IH, get_put_artifact. simpl.
  destruct (String.eqb (key a) id); [|done]. rewrite last_cons. by destruct (last _).
Qed.

(** A file store returns only artifacts with the identifier asked for, read from
    the one file that identifier names inside the directory. *)
Definition single_segment (id : string) : Prop :=
  id <> "" /\ id <> "." /\ id <> ".." /\ forall c, c ∈ PATH_CHARS -> has_char c id = false.

Lemma artifact_file_confined `{Platform} dir id name : _artifact_file dir id = Ok (Some name) ->
  single_segment id /\ name = id +:+ ".json" /\ forall e, assoc name dir = Some e -> fe_inside e = true.
Proof.
  unfold _artifact_file. cbv zeta.
  destruct (_ || _) eqn:Hc; [done|]. apply orb_false_iff in Hc as [[Ht Hd]%orb_false_iff He].
  destruct (path_encodable _); [|done]. simpl. intros Hn.
  assert (name = id +:+ ".json" /\ forall e, assoc (id +:+ ".json") dir = Some e -> fe_inside e = true) as [-> Hi].
  { destruct (assoc _ dir) as [e|] eqn:Hl; [|by injection Hn as <-]. destruct (fe_inside e) eqn:Hf; [|done].
    injection Hn as <-. split; [done|]. by intros e' [= <-]. }
  split; [|split; [done|exact Hi]]. apply negb_false_iff in Ht.
  split_and!; [by intros ->|by intros ->|by intros ->|].
  intros c Hin. destruct (has_char c id) eqn:Hch; [|done]. rewrite <- He. symmetry. apply existsb_exists. exists c. split; [|done].
  by apply list_elem_of_In.
Qed.

Lemma get_artifact_file_sound `{Platform} {A} (from_dict : json -> py A) key dir id a :
  get_artifact_file from_dict key dir id = Ok (Some a) ->
  key a = id /\ single_segment id /\
  exists bytes payload, assoc (id +:+ ".json") dir = Some (mkFile true (Some bytes)) /\ read_json bytes = Ok payload /\
    from_dict payload = Ok a.
Proof.
  unfold get_artifact_file. intros ([name|] & Hf & Hg)%bind_Ok; [|done].
  apply artifact_file_confined in Hf as (Hs & -> & Hin).
  destruct (assoc _ dir) as [[inside [bytes|]]|] eqn:Hl; [|done..].
  apply bind_Ok in Hg as (payload & Hr & Hg). apply bind_Ok in Hg as (a' & Ha & Hg).
  destruct (String.eqb_spec (key a') id) as [Hk|]; [|done]. injection Hg as ->. split; [done|]. split; [done|].
  specialize (Hin _ eq_refl). simpl in Hin. subst inside. by exists bytes, payload.
Qed.

(** An index has one artifact per file and finds each by its identifier. *)
Lemma index_artifacts_spec `{Platform} {A} (from_dict : json -> py A) key files index0 index :
  index_artifacts from_dict key index0 files = Ok index ->
  exists l, Forall2 (fun f a => read_artifact from_dict f.2 = Ok a) files l /\ index = index0 ++ map (fun a => (key a, a)) l /\
    (NoDup index0.*1 -> NoDup index.*1).
Proof.
  revert index0. induction files as [|[path e] files IH]; intros index0; simpl.
  - intros [= ->]. exists []. split_and!; [constructor|by rewrite app_nil_r|done].
  - intros (a & Ha & Hi)%bind_Ok. destruct (assoc (key a) index0) as [|] eqn:Hn; [done|].
    apply IH in Hi as (l & Hl & -> & Hnd).
    assert (assoc_set (key a) a index0 = index0 ++ [(key a, a)]) as Hset.
    { clear -Hn. induction index0 as [|[k v] d IH]; [done|]. simpl in *. destruct (String.eqb (key a) k); [done|]. by rewrite IH. }
    rewrite Hset in *. exists (a :: l). split_and!.
    + by constructor.
    + by rewrite <- app_assoc.
    + intros H0. apply Hnd. rewrite fmap_app. apply NoDup_app. split; [done|]. split; [|by apply NoDup_singleton].
      apply assoc_None_keys in Hn. csimpl. intros x Hx Hx'%list_elem_of_singleton. by subst.
Qed.
