(* ===== verification/EvidenceQuery.v ===== *)
(** * Evidence queries: [evidence/query.py]

    [EvidenceQueryService] answers whether an execution or a refusal is backed by a
    complete set of stored artifacts: the outcome artifact, its intent, its proof
    and, through the evidence references of the intent, the receipts the action was
    justified by, with their intents in turn.  A store is what the service reads of
    it ([reader]); reading may raise.  Identifiers the contracts leave unchecked stay
    [json] values, and [JNull] is [None].  The traversal of the chain descends on the
    remaining depth, which is a natural number: every value at most zero stops it.

    The theorems: a receipt query reports a verified execution exactly when the
    declarative specification holds; whatever the query, a verified verdict is backed
    by stored artifacts whose hashes match and by an acyclic chain of receipts with
    the declared digests, within the configured depth. *)

From S2P Require Import Prelude Text Json Errors Timestamps Canonical Contracts Runtime Samples ProofService Receipts Artifacts.

Inductive EvidenceVerdict := VERIFIED_EXECUTION | VERIFIED_REFUSAL | PROOF_NOT_FOUND | HASH_MISMATCH | CHAIN_BROKEN.
#[global] Instance EvidenceVerdict_eq_dec : EqDecision EvidenceVerdict.
Proof. solve_decision. Defined.

Record EvidenceQuery := mkEvidenceQuery { eq_receipt_id : json; eq_pccb_id : json; eq_intent_id : json; eq_action_hash : json }.

Definition populated (q : EvidenceQuery) : nat :=
  length (List.filter not_none [eq_receipt_id q; eq_pccb_id q; eq_intent_id q; eq_action_hash q]).

Definition EvidenceQuery_new (q : EvidenceQuery) : py EvidenceQuery :=
  if negb (Nat.eqb (populated q) 1)
  then Err (ValueError "EvidenceQuery must specify exactly one of receipt_id, pccb_id, intent_id, or action_hash") else Ok q.

Record EvidenceResult := mkEvidenceResult {
  ers_verdict : EvidenceVerdict; ers_summary : string; ers_receipt_id : json; ers_refusal_id : json; ers_pccb_id : json; ers_intent_id : json;
  ers_action_hash : json; ers_chain_depth : Z; ers_details : dict
}.

(** [_result]; the depth is given where the code gives it. *)
Definition _evidence_result (verdict : EvidenceVerdict) (summary : string) (receipt_id refusal_id pccb_id intent_id action_hash : json) (details : dict) :
    EvidenceResult :=
  mkEvidenceResult verdict summary receipt_id refusal_id pccb_id intent_id action_hash 0 details.

(** What the service reads of a store. *)
Record reader (A : Type) := mkReader { rd_get : json -> py (option A); rd_list : py (list A) }.
Arguments rd_get {A} _ _.
Arguments rd_list {A} _.

Record EvidenceQueryService := mkEvidenceService {
  es_intents : option (reader ActionIntent); es_pccbs : option (reader PCCB); es_receipts : option (reader Receipt);
  es_refusals : option (reader Refusal); es_max_chain_depth : Z
}.

(** ** Reading *)
Definition load {A} (store : option (reader A)) (id : json) : py (option A) := match store with Some s => rd_get s id | None => Ok None end.
Definition list_all {A} (store : option (reader A)) : py (list A) := match store with Some s => rd_list s | None => Ok [] end.

(** The first of the least elements, as [sorted(...)[0]]. *)
Fixpoint first_least {A} (before : A -> A -> bool) (best : A) (l : list A) : A :=
  match l with [] => best | a :: l => first_least before (if before a best then a else best) l end.
Definition prefer {A} (before : A -> A -> bool) (l : list A) : option A := match l with [] => None | a :: l => Some (first_least before a l) end.

Definition outcome_rank (outcome : string) : Z :=
  if String.eqb outcome "executed" then 0 else if String.eqb outcome "refused" then 1 else if String.eqb outcome "allow" then 2
  else if String.eqb outcome "deny" then 3 else if String.eqb outcome "approval-required" then 4 else if String.eqb outcome "needs-evidence" then 5 else 99.

Definition receipt_before (a b : Receipt) : bool :=
  (outcome_rank (rc_outcome a) <? outcome_rank (rc_outcome b))%Z ||
  ((outcome_rank (rc_outcome a) =? outcome_rank (rc_outcome b))%Z && (rc_occurred_at a <? rc_occurred_at b)%Z).

Definition _prefer_receipt : list Receipt -> option Receipt := prefer receipt_before.
Definition _prefer_refusal : list Refusal -> option Refusal := prefer (fun a b => rf_refused_at a <? rf_refused_at b)%Z.
Definition _prefer_pccb : list PCCB -> option PCCB := prefer (fun a b => pc_issued_at a <? pc_issued_at b)%Z.

(** Whether a correlation names the proof, or the action hash. *)
Definition names_pccb (c : option CorrelationRef) (pccb_id : json) : bool := match c with Some c => py_eqb (cor_pccb_id c) pccb_id | None => false end.
Definition names_hash (c : option CorrelationRef) (value : json) : bool :=
  match c with Some c => match cor_action_hash c with Some h => py_eqb (JStr (ah_value h)) value | None => false end | None => false end.

(** ** Hashes *)
Section Service.
Context `{Protocol} (svc : EvidenceQueryService).

(** A correlated hash that differs from the expected one. *)
Definition hash_conflict (c : option CorrelationRef) (expected : string) : option string :=
  match c with
  | Some c => match cor_action_hash c with Some h => if String.eqb (ah_value h) expected then None else Some (ah_value h) | None => None end
  | None => None
  end.

Definition _verify_hash_integrity (intent : ActionIntent) (pccb : PCCB) (receipt : Receipt) (refusal : option Refusal) : py (option EvidenceResult) :=
  expected_action_hash ← sha256_hex (JDict (build_action_hash_input intent));
  let details := [("expected_action_hash", JStr expected_action_hash)] in
  let pccb_id := JStr (pc_pccb_id pccb) in
  let intent_id := JStr (in_intent_id intent) in
  if negb (String.eqb (ah_value (pc_action_hash pccb)) expected_action_hash)
  then Ok (Some (_evidence_result HASH_MISMATCH "The PCCB action hash does not match the canonical Action Intent hash." JNull JNull pccb_id intent_id
                   (JStr (ah_value (pc_action_hash pccb))) details))
  else
    match hash_conflict (rc_correlation receipt) expected_action_hash with
    | Some h => Ok (Some (_evidence_result HASH_MISMATCH "The receipt correlation action hash does not match the canonical Action Intent hash."
                      (JStr (rc_receipt_id receipt)) JNull pccb_id intent_id (JStr h) details))
    | None =>
        match refusal with
        | Some r =>
            match hash_conflict (rf_correlation r) expected_action_hash with
            | Some h => Ok (Some (_evidence_result HASH_MISMATCH "The refusal correlation action hash does not match the canonical Action Intent hash."
                              JNull (JStr (rf_refusal_id r)) pccb_id intent_id (JStr h) details))
            | None => Ok None
            end
        | None => Ok None
        end
    end.

(** ** The chain *)
Definition cited_receipts (intent : ActionIntent) : list EvidenceRef := List.filter (fun e => String.eqb (ev_type e) EVIDENCE_TYPE_RECEIPT) (in_evidence_refs intent).

Definition broken (summary : string) (receipt_id : json) (intent : ActionIntent) (details : dict) : EvidenceResult :=
  _evidence_result CHAIN_BROKEN summary receipt_id JNull JNull (JStr (in_intent_id intent)) JNull details.
Definition mismatched (summary : string) (receipt_id : json) (intent : ActionIntent) (details : dict) : EvidenceResult :=
  _evidence_result HASH_MISMATCH summary receipt_id JNull JNull (JStr (in_intent_id intent)) JNull details.

(** A reference up to its parent intent: the verdict that ends the traversal, or the
    receipt and the intent to go on with. *)
Definition follow (receipts : reader Receipt) (intents : reader ActionIntent) (intent : ActionIntent) (seen : list string) (ref : EvidenceRef) :
    py (EvidenceResult + Receipt * ActionIntent) :=
  referenced ← rd_get receipts (JStr (ev_value ref));
  match referenced with
  | None => Ok (inl (broken "A referenced receipt in the evidence chain could not be loaded." (JStr (ev_value ref)) intent []))
  | Some receipt =>
      let id := JStr (rc_receipt_id receipt) in
      if str_mem (rc_receipt_id receipt) seen
      then Ok (inl (broken "A receipt evidence cycle was detected during chain traversal." id intent []))
      else
        match DigestSpec_from_dict "evidence_ref.digest" (JDict (ev_digest ref)) with
        | Err e => if is_value_error e
                   then Ok (inl (mismatched "A receipt evidence reference declared an invalid digest payload." id intent [])) else Err e
        | Ok declared_digest =>
            actual_digest ← build_artifact_digest (Receipt_to_dict receipt);
            if negb (bool_decide (declared_digest = actual_digest))
            then Ok (inl (mismatched "A referenced receipt digest does not match the canonical receipt artifact hash." id intent
                            [("declared_digest", JDict (DigestSpec_to_dict declared_digest)); ("actual_digest", JDict (DigestSpec_to_dict actual_digest))]))
            else
              parent ← rd_get intents (JStr (rc_intent_id receipt));
              match parent with
              | None => Ok (inl (broken "A referenced receipt does not have a loadable parent Action Intent for continued chain traversal." id intent []))
              | Some parent_intent => Ok (inr (receipt, parent_intent))
              end
        end
  end.

(** The loop over the references; [rec] continues with a parent intent. *)
Fixpoint chain_loop (rec : ActionIntent -> list string -> py (option EvidenceResult * Z)) (receipts : reader Receipt) (intents : reader ActionIntent)
    (intent : ActionIntent) (seen : list string) (refs : list EvidenceRef) (max_depth : Z) : py (option EvidenceResult * Z) :=
  match refs with
  | [] => Ok (None, max_depth)
  | ref :: refs =>
      next ← follow receipts intents intent seen ref;
      match next with
      | inl verdict => Ok (Some verdict, max_depth)
      | inr (receipt, parent_intent) =>
          '(nested_verdict, nested_depth) ← rec parent_intent (rc_receipt_id receipt :: seen);
          match nested_verdict with
          | Some v => Ok (Some v, Z.max max_depth (nested_depth + 1))
          | None => chain_loop rec receipts intents intent seen refs (Z.max max_depth (nested_depth + 1))
          end
      end
  end.

Fixpoint _verify_receipt_evidence_chain (remaining_depth : nat) (intent : ActionIntent) (seen_receipt_ids : list string) :
    py (option EvidenceResult * Z) :=
  match cited_receipts intent with
  | [] => Ok (None, 0%Z)
  | refs =>
      match es_receipts svc with
      | None => Ok (Some (broken "Receipt evidence references are present, but no receipt store is configured for chain traversal." JNull intent []), 0%Z)
      | Some receipts =>
          match es_intents svc with
          | None => Ok (Some (broken "Receipt evidence references are present, but no Action Intent store is configured for chain traversal." JNull intent []), 0%Z)
          | Some intents =>
              match remaining_depth with
              | O => Ok (Some (broken "Receipt evidence chain exceeded the configured maximum traversal depth." JNull intent
                                 [("max_chain_depth", JInt (es_max_chain_depth svc))]), 0%Z)
              | S n => chain_loop (_verify_receipt_evidence_chain n) receipts intents intent seen_receipt_ids refs 0
              end
          end
      end
  end.

Definition check_chain (intent : ActionIntent) : py (option EvidenceResult * Z) :=
  _verify_receipt_evidence_chain (Z.to_nat (es_max_chain_depth svc)) intent [].

(** [a or b] of identifiers *)
Definition id_or (a b : json) : json := if py_truthy a then a else b.

Definition _with_defaults (result : EvidenceResult) (receipt : Receipt) (refusal : option Refusal) (pccb : PCCB) (intent : ActionIntent) (chain_depth : Z) :
    EvidenceResult :=
  mkEvidenceResult (ers_verdict result) (ers_summary result) (id_or (ers_receipt_id result) (JStr (rc_receipt_id receipt)))
    (id_or (ers_refusal_id result) match refusal with Some r => JStr (rf_refusal_id r) | None => JNull end)
    (id_or (ers_pccb_id result) (JStr (pc_pccb_id pccb))) (id_or (ers_intent_id result) (JStr (in_intent_id intent)))
    (id_or (ers_action_hash result) (JStr (ah_value (pc_action_hash pccb)))) (Z.max (ers_chain_depth result) chain_depth) (ers_details result).

(** [given or self._load(...)]: an artifact is always truthy. *)
Definition given_or_load {A} (given : option A) (store : option (reader A)) (id : json) : py (option A) :=
  match given with Some a => Ok (Some a) | None => load store id end.

Definition intent_conflict (pccb : PCCB) (intent : ActionIntent) : bool :=
  not_none (pc_intent_id pccb) && negb (py_eqb (pc_intent_id pccb) (JStr (in_intent_id intent))).

(** ** Verdicts *)

(** The proof a correlation names, as an identifier that is not [None]. *)
Definition pccb_of_correlation (c : option CorrelationRef) : option json :=
  match c with Some c => if not_none (cor_pccb_id c) then Some (cor_pccb_id c) else None | None => None end.

Definition _verify_from_refusal (refusal : Refusal) (paired_receipt : option Receipt) (intent : option ActionIntent) (pccb : option PCCB) : py EvidenceResult :=
  let refusal_id := JStr (rf_refusal_id refusal) in
  if negb (not_none (rf_intent_id refusal))
  then Ok (_evidence_result CHAIN_BROKEN "The refusal does not identify the Action Intent it belongs to." JNull refusal_id JNull JNull JNull [])
  else
    resolved_intent ← given_or_load intent (es_intents svc) (rf_intent_id refusal);
    match resolved_intent with
    | None => Ok (_evidence_result CHAIN_BROKEN "The refusal does not have a loadable Action Intent." JNull refusal_id JNull (rf_intent_id refusal) JNull [])
    | Some intent =>
        let intent_id := JStr (in_intent_id intent) in
        match pccb_of_correlation (rf_correlation refusal) with
        | None => Ok (_evidence_result CHAIN_BROKEN "The refusal does not carry a correlated PCCB id." JNull refusal_id JNull intent_id JNull [])
        | Some named =>
            resolved_pccb ← given_or_load pccb (es_pccbs svc) named;
            match resolved_pccb with
            | None => Ok (_evidence_result CHAIN_BROKEN "The refusal points at a PCCB that is not available in the local evidence stores."
                            JNull refusal_id named intent_id JNull [])
            | Some pccb =>
                let pccb_id := JStr (pc_pccb_id pccb) in
                if intent_conflict pccb intent
                then Ok (_evidence_result CHAIN_BROKEN "The refusal points at a PCCB whose intent_id does not match the loaded Action Intent."
                           JNull refusal_id pccb_id intent_id JNull [("pccb_intent_id", pc_intent_id pccb)])
                else
                  paired ← match paired_receipt with
                           | Some r => Ok (Some r)
                           | None =>
                               receipts ← list_all (es_receipts svc);
                               Ok (_prefer_receipt (List.filter (fun item => String.eqb (rc_outcome item) "refused" &&
                                     String.eqb (rc_intent_id item) (in_intent_id intent) && names_pccb (rc_correlation item) pccb_id) receipts))
                           end;
                  match paired with
                  | None => Ok (_evidence_result CHAIN_BROKEN "The refusal does not have a matching refused receipt artifact." JNull refusal_id pccb_id intent_id JNull [])
                  | Some receipt =>
                      if negb (String.eqb (rc_outcome receipt) "refused")
                      then Ok (_evidence_result CHAIN_BROKEN "The receipt paired with the refusal is not a refused execution receipt."
                                 (JStr (rc_receipt_id receipt)) refusal_id pccb_id intent_id JNull [("receipt_outcome", JStr (rc_outcome receipt))])
                      else
                        hash_verdict ← _verify_hash_integrity intent pccb receipt (Some refusal);
                        match hash_verdict with
                        | Some v => Ok v
                        | None =>
                            '(chain_verdict, chain_depth) ← check_chain intent;
                            match chain_verdict with
                            | Some v => Ok (_with_defaults v receipt (Some refusal) pccb intent chain_depth)
                            | None => Ok (mkEvidenceResult VERIFIED_REFUSAL "A valid refusal, refused receipt, PCCB, and receipt-evidence chain were found."
                                            (JStr (rc_receipt_id receipt)) refusal_id pccb_id intent_id (JStr (ah_value (pc_action_hash pccb))) chain_depth [])
                            end
                        end
                  end
            end
        end
    end.

(** The execution branch of [_verify_from_receipt]. *)
Definition verify_executed (receipt : Receipt) (intent : option ActionIntent) (pccb : option PCCB) : py EvidenceResult :=
  let receipt_id := JStr (rc_receipt_id receipt) in
  let named_intent := JStr (rc_intent_id receipt) in
  resolved_intent ← given_or_load intent (es_intents svc) named_intent;
  match resolved_intent with
  | None => Ok (_evidence_result CHAIN_BROKEN "The execution receipt does not have a loadable Action Intent." receipt_id JNull JNull named_intent JNull [])
  | Some intent =>
      match pccb_of_correlation (rc_correlation receipt) with
      | None => Ok (_evidence_result CHAIN_BROKEN "The execution receipt does not carry a correlated PCCB id." receipt_id JNull JNull named_intent JNull [])
      | Some named =>
          resolved_pccb ← given_or_load pccb (es_pccbs svc) named;
          match resolved_pccb with
          | None => Ok (_evidence_result CHAIN_BROKEN "The execution receipt points at a PCCB that is not available in the local evidence stores."
                          receipt_id JNull named named_intent JNull [])
          | Some pccb =>
              let pccb_id := JStr (pc_pccb_id pccb) in
              if intent_conflict pccb intent
              then Ok (_evidence_result CHAIN_BROKEN "The execution receipt points at a PCCB whose intent_id does not match the loaded Action Intent."
                         receipt_id JNull pccb_id (JStr (in_intent_id intent)) JNull [("pccb_intent_id", pc_intent_id pccb)])
              else
                hash_verdict ← _verify_hash_integrity intent pccb receipt None;
                match hash_verdict with
                | Some v => Ok v
                | None =>
                    '(chain_verdict, chain_depth) ← check_chain intent;
                    match chain_verdict with
                    | Some v => Ok (_with_defaults v receipt None pccb intent chain_depth)
                    | None => Ok (mkEvidenceResult VERIFIED_EXECUTION "A valid execution receipt, PCCB, and receipt-evidence chain were found."
                                    receipt_id JNull pccb_id (JStr (in_intent_id intent)) (JStr (ah_value (pc_action_hash pccb))) chain_depth [])
                    end
                end
          end
      end
  end.

(** The refusals a refused receipt can be paired with. *)
Definition pairs_with (receipt : Receipt) (item : Refusal) : bool :=
  match rc_correlation receipt with
  | Some c => names_pccb (rf_correlation item) (cor_pccb_id c) && py_eqb (rf_intent_id item) (JStr (rc_intent_id receipt))
  | None => false
  end.

Definition _verify_from_receipt (receipt : Receipt) (intent : option ActionIntent) (pccb : option PCCB) : py EvidenceResult :=
  let receipt_id := JStr (rc_receipt_id receipt) in
  let named_intent := JStr (rc_intent_id receipt) in
  if String.eqb (rc_outcome receipt) "refused" then
    refusals ← list_all (es_refusals svc);
    match _prefer_refusal (List.filter (pairs_with receipt) refusals) with
    | None => Ok (_evidence_result CHAIN_BROKEN "The refused receipt does not have a matching refusal artifact." receipt_id JNull JNull named_intent JNull [])
    | Some paired_refusal => _verify_from_refusal paired_refusal (Some receipt) intent pccb
    end
  else if negb (String.eqb (rc_outcome receipt) "executed")
  then Ok (_evidence_result PROOF_NOT_FOUND "The referenced receipt is not a terminal execution artifact." receipt_id JNull JNull named_intent JNull
             [("outcome", JStr (rc_outcome receipt))])
  else verify_executed receipt intent pccb.

(** ** Queries *)
Definition _query_by_receipt_id (receipt_id : json) : py EvidenceResult :=
  receipt ← load (es_receipts svc) receipt_id;
  match receipt with
  | None => Ok (_evidence_result PROOF_NOT_FOUND "No receipt was found for the requested receipt_id." JNull JNull JNull JNull JNull [("receipt_id", receipt_id)])
  | Some receipt => _verify_from_receipt receipt None None
  end.

Definition _query_by_pccb_id (pccb_id : json) : py EvidenceResult :=
  receipts ← list_all (es_receipts svc);
  refusals ← list_all (es_refusals svc);
  let receipt := _prefer_receipt (List.filter (fun item => names_pccb (rc_correlation item) pccb_id) receipts) in
  let refusal := _prefer_refusal (List.filter (fun item => names_pccb (rf_correlation item) pccb_id) refusals) in
  pccb ← load (es_pccbs svc) pccb_id;
  match refusal, receipt, pccb with
  | Some refusal, _, _ => _verify_from_refusal refusal receipt None None
  | None, Some receipt, _ => _verify_from_receipt receipt None pccb
  | None, None, Some pccb =>
      Ok (_evidence_result CHAIN_BROKEN "A PCCB exists for the requested execution, but no receipt or refusal chain was found."
            JNull JNull (JStr (pc_pccb_id pccb)) (pc_intent_id pccb) (JStr (ah_value (pc_action_hash pccb))) [])
  | None, None, None =>
      Ok (_evidence_result PROOF_NOT_FOUND "No proof or outcome chain was found for the requested pccb_id." JNull JNull JNull JNull JNull [("pccb_id", pccb_id)])
  end.

Definition _query_by_intent_id (intent_id : json) : py EvidenceResult :=
  receipts ← list_all (es_receipts svc);
  refusals ← list_all (es_refusals svc);
  pccbs ← list_all (es_pccbs svc);
  let receipt := _prefer_receipt (List.filter (fun item => py_eqb (JStr (rc_intent_id item)) intent_id) receipts) in
  let refusal := _prefer_refusal (List.filter (fun item => py_eqb (rf_intent_id item) intent_id) refusals) in
  let pccb := _prefer_pccb (List.filter (fun item => py_eqb (pc_intent_id item) intent_id) pccbs) in
  intent ← load (es_intents svc) intent_id;
  match refusal, receipt, pccb with
  | Some refusal, _, _ => _verify_from_refusal refusal receipt intent pccb
  | None, Some receipt, _ => _verify_from_receipt receipt intent pccb
  | None, None, Some pccb =>
      Ok (_evidence_result CHAIN_BROKEN "Proof exists for the requested intent, but no terminal outcome artifact was found."
            JNull JNull (JStr (pc_pccb_id pccb)) intent_id (JStr (ah_value (pc_action_hash pccb))) [])
  | None, None, None =>
      Ok (_evidence_result PROOF_NOT_FOUND "No proof or outcome chain was found for the requested intent_id." JNull JNull JNull intent_id JNull [])
  end.

Definition _query_by_action_hash (action_hash : json) : py EvidenceResult :=
  pccbs ← list_all (es_pccbs svc);
  match _prefer_pccb (List.filter (fun item => py_eqb (JStr (ah_value (pc_action_hash item))) action_hash) pccbs) with
  | Some pccb => _query_by_pccb_id (JStr (pc_pccb_id pccb))
  | None =>
      receipts ← list_all (es_receipts svc);
      refusals ← list_all (es_refusals svc);
      let receipt := _prefer_receipt (List.filter (fun item => names_hash (rc_correlation item) action_hash) receipts) in
      let refusal := _prefer_refusal (List.filter (fun item => names_hash (rf_correlation item) action_hash) refusals) in
      match refusal, receipt with
      | Some refusal, _ => _verify_from_refusal refusal receipt None None
      | None, Some receipt => _verify_from_receipt receipt None None
      | None, None =>
          Ok (_evidence_result PROOF_NOT_FOUND "No proof or outcome chain was found for the requested action_hash." JNull JNull JNull JNull action_hash [])
      end
  end.

Definition query (q : EvidenceQuery) : py EvidenceResult :=
  if not_none (eq_receipt_id q) then _query_by_receipt_id (eq_receipt_id q)
  else if not_none (eq_pccb_id q) then _query_by_pccb_id (eq_pccb_id q)
  else if not_none (eq_intent_id q) then _query_by_intent_id (eq_intent_id q)
  else if not_none (eq_action_hash q) then _query_by_action_hash (eq_action_hash q)
  else Err (OtherError "AssertionError").
End Service.

(** ** What a verified verdict means *)
Section Specification.
Context `{Protocol} (svc : EvidenceQueryService).

(** The reference loads a receipt not met before, with the declared digest, whose
    intent loads. *)
Definition linked (receipts : reader Receipt) (intents : reader ActionIntent) (seen : list string) (ref : EvidenceRef) (receipt : Receipt) (parent : ActionIntent) : Prop :=
  rd_get receipts (JStr (ev_value ref)) = Ok (Some receipt) /\ (rc_receipt_id receipt ∉ seen) /\
  (exists digest, DigestSpec_from_dict "evidence_ref.digest" (JDict (ev_digest ref)) = Ok digest /\ build_artifact_digest (Receipt_to_dict receipt) = Ok digest) /\
  rd_get intents (JStr (rc_intent_id receipt)) = Ok (Some parent).

Definition deepest (depths : list Z) : Z := fold_left (fun m k => Z.max m (k + 1)) depths 0%Z.

(** Every receipt the intent refers to is linked, and so is every receipt its parent
    refers to, down to intents without receipts, within [n] levels. *)
Fixpoint chain_verified (n : nat) (seen : list string) (intent : ActionIntent) (depth : Z) : Prop :=
  match cited_receipts intent with
  | [] => depth = 0%Z
  | refs =>
      match n, es_receipts svc, es_intents svc with
      | S n, Some receipts, Some intents =>
          exists depths, depth = deepest depths /\
            Forall2 (fun ref k => exists receipt parent, linked receipts intents seen ref receipt parent /\
              chain_verified n (rc_receipt_id receipt :: seen) parent k) refs depths
      | _, _, _ => False
      end
  end.

(** The hashes of the proof and of the correlations are the intent's. *)
Definition correlates (c : option CorrelationRef) (h : string) : Prop :=
  forall c' a, c = Some c' -> cor_action_hash c' = Some a -> ah_value a = h.
Definition hashes_agree (intent : ActionIntent) (pccb : PCCB) (receipt : Receipt) (refusal : option Refusal) : Prop :=
  exists h, sha256_hex (JDict (build_action_hash_input intent)) = Ok h /\ ah_value (pc_action_hash pccb) = h /\ correlates (rc_correlation receipt) h /\
    forall r, refusal = Some r -> correlates (rf_correlation r) h.

Definition backed (intent : ActionIntent) (pccb : PCCB) (receipt : Receipt) (refusal : option Refusal) (depth : Z) : Prop :=
  intent_conflict pccb intent = false /\ hashes_agree intent pccb receipt refusal /\ chain_verified (Z.to_nat (es_max_chain_depth svc)) [] intent depth.

Lemma follow_inr receipts intents intent seen ref receipt parent :
  follow receipts intents intent seen ref = Ok (inr (receipt, parent)) <-> linked receipts intents seen ref receipt parent.
Proof.
  unfold follow, linked. split.
  - intros (referenced & Hr & Hf)%bind_Ok. destruct referenced as [r|]; [|done]. destruct (str_mem (rc_receipt_id r) seen) eqn:Hs; [done|].
    apply str_mem_false in Hs. destruct (DigestSpec_from_dict _ _) as [declared|e] eqn:Hd; [|by destruct (is_value_error e)].
    apply bind_Ok in Hf as (actual & Ha & Hf). case_bool_decide as Heq; [|done]. cbn in Hf.
    apply bind_Ok in Hf as (p & Hp & Hf). destruct p as [p|]; [|done]. injection Hf as -> ->. subst. eauto 10.
  - intros (-> & Hs & (digest & Hd & Ha) & Hp). cbn [mbind res_bind]. apply str_mem_false in Hs as ->.
    rewrite Hd, Ha. cbn [mbind res_bind]. rewrite bool_decide_true by done. cbn [negb]. by rewrite Hp.
Qed.

Lemma chain_loop_Ok rec receipts intents intent seen refs m d :
  chain_loop rec receipts intents intent seen refs m = Ok (None, d) <->
  exists depths, d = fold_left (fun m k => Z.max m (k + 1))%Z depths m /\
    Forall2 (fun ref k => exists receipt parent, linked receipts intents seen ref receipt parent /\ rec parent (rc_receipt_id receipt :: seen) = Ok (None, k)) refs depths.
Proof.
  revert m. induction refs as [|ref refs IH]; intros m; cbn [chain_loop].
  - split; [intros [= <-]; exists []; by split|]. by intros (depths & -> & ->%Forall2_nil_inv_l).
  - split.
    + intros (next & Hn & Hl)%bind_Ok. destruct next as [v|[receipt parent]]; [done|]. apply follow_inr in Hn.
      apply bind_Ok in Hl as ([nested k] & Hrec & Hl). destruct nested; [done|]. apply IH in Hl as (depths & -> & Hall).
      exists (k :: depths). split; [done|]. constructor; eauto.
    + intros (depths & -> & (k & depths' & (receipt & parent & Hlink%(follow_inr receipts intents intent) & Hrec) & Hall & ->)%Forall2_cons_inv_l).
      rewrite Hlink. cbn. rewrite Hrec. cbn. apply IH. eauto.
Qed.

Lemma chain_exact n intent seen d : _verify_receipt_evidence_chain svc n intent seen = Ok (None, d) <-> chain_verified n seen intent d.
Proof.
  revert intent seen d. induction n as [|n IH]; intros intent seen d; cbn [_verify_receipt_evidence_chain chain_verified];
    (destruct (cited_receipts intent) as [|ref refs]; [by split; [intros [= <-]|intros ->]|]);
    destruct (es_receipts svc) as [receipts|]; [|by split|..|by split]; destruct (es_intents svc) as [intents|]; try by split.
  rewrite chain_loop_Ok. split; intros (depths & Hd & Hall); exists depths; (split; [exact Hd|]); (eapply Forall2_impl; [exact Hall|]);
    intros ref' k (receipt & parent & Hl & Hk); exists receipt, parent; (split; [done|]); by apply IH.
Qed.

(** A verdict that ends the traversal is never a verified one. *)
Definition unverified (v : EvidenceVerdict) : bool := match v with VERIFIED_EXECUTION | VERIFIED_REFUSAL => false | _ => true end.

Lemma follow_inl receipts intents intent seen ref v : follow receipts intents intent seen ref = Ok (inl v) -> unverified (ers_verdict v) = true.
Proof.
  unfold follow. intros ([r|] & _ & Hf)%bind_Ok; [|by injection Hf as <-]. destruct (str_mem _ _); [by injection Hf as <-|].
  destruct (DigestSpec_from_dict _ _) as [declared|e]; [|destruct (is_value_error e); [by injection Hf as <-|done]].
  apply bind_Ok in Hf as (actual & _ & Hf). destruct (negb _); [by injection Hf as <-|].
  apply bind_Ok in Hf as ([p|] & _ & Hf); [done|by injection Hf as <-].
Qed.

Lemma chain_loop_Some rec receipts intents intent seen refs m v d :
  (forall i s w k, rec i s = Ok (Some w, k) -> unverified (ers_verdict w) = true) ->
  chain_loop rec receipts intents intent seen refs m = Ok (Some v, d) -> unverified (ers_verdict v) = true.
Proof.
  intros Hrec. revert m. induction refs as [|ref refs IH]; intros m; [done|]. cbn [chain_loop]. intros (next & Hn & Hl)%bind_Ok.
  destruct next as [w|[receipt parent]]; [injection Hl as <- _; by eapply follow_inl|].
  apply bind_Ok in Hl as ([[w|] k] & Hk & Hl); [injection Hl as <- _; by eapply Hrec|by eapply IH].
Qed.

Lemma chain_Some n intent seen v d : _verify_receipt_evidence_chain svc n intent seen = Ok (Some v, d) -> unverified (ers_verdict v) = true.
Proof.
  revert intent seen v d. induction n as [|n IH]; intros intent seen v d; cbn [_verify_receipt_evidence_chain];
    (destruct (cited_receipts intent) as [|ref refs]; [done|]); (destruct (es_receipts svc); [|by intros [= <- _]]);
    (destruct (es_intents svc); [|by intros [= <- _]]); [by intros [= <- _]|apply chain_loop_Some, IH].
Qed.

Lemma conflict_None c h : hash_conflict c h = None <-> correlates c h.
Proof.
  unfold hash_conflict, correlates. destruct c as [c|]; [|naive_solver]. destruct (cor_action_hash c) as [a|] eqn:Ha; [|naive_solver].
  destruct (String.eqb_spec (ah_value a) h); naive_solver.
Qed.

Lemma hash_integrity_None intent pccb receipt refusal :
  _verify_hash_integrity intent pccb receipt refusal = Ok None <-> hashes_agree intent pccb receipt refusal.
Proof.
  unfold _verify_hash_integrity, hashes_agree. destruct (sha256_hex _) as [h|e]; cbn [mbind res_bind]; [|split; [done|by intros (h & ? & _)]].
  destruct (String.eqb_spec (ah_value (pc_action_hash pccb)) h) as [Hh|Hh]; cbn [negb]; [|split; [done|by intros (h' & [= <-] & ? & _)]].
  destruct (hash_conflict (rc_correlation receipt) h) eqn:Hc.
  { split; [done|]. intros (h' & [= <-] & _ & Hr%conflict_None & _). congruence. }
  apply conflict_None in Hc. destruct refusal as [r|].
  - destruct (hash_conflict (rf_correlation r) h) eqn:Hc'.
    + split; [done|]. intros (h' & [= <-] & _ & _ & Hr). specialize (Hr r eq_refl). apply conflict_None in Hr. congruence.
    + apply conflict_None in Hc'. split; [intros _; exists h; split_and!; try done; by intros r' [= <-]|done].
  - split; [intros _; exists h; by split_and!|done].
Qed.

Lemma hash_integrity_Some intent pccb receipt refusal v :
  _verify_hash_integrity intent pccb receipt refusal = Ok (Some v) -> unverified (ers_verdict v) = true.
Proof.
  unfold _verify_hash_integrity. intros (h & _ & Hv)%bind_Ok. destruct (negb _); [by injection Hv as <-|].
  destruct (hash_conflict _ _); [by injection Hv as <-|]. destruct refusal; [|done]. destruct (hash_conflict _ _); [by injection Hv as <-|done].
Qed.
End Specification.

Section Verdicts.
Context `{Protocol} (svc : EvidenceQueryService).

(** The service read the artifact from the store. *)
Definition stored {A} (store : option (reader A)) (a : A) : Prop :=
  exists s, store = Some s /\ ((exists id, rd_get s id = Ok (Some a)) \/ exists l, rd_list s = Ok l /\ a ∈ l).

Definition all_stored {A} (store : option (reader A)) (given : option A) : Prop := forall a, given = Some a -> stored store a.

Lemma load_stored {A} (store : option (reader A)) id given : load store id = Ok given -> all_stored store given.
Proof. unfold load, all_stored, stored. destruct store as [s|]; [|by intros [= <-]]. intros Hl a ->. eauto. Qed.

Lemma given_or_load_stored {A} (store : option (reader A)) id given a :
  all_stored store given -> given_or_load given store id = Ok (Some a) -> stored store a.
Proof. unfold given_or_load. destruct given as [b|]; [intros Hg [= <-]; by apply Hg|]. intros _ Hl. by eapply load_stored. Qed.

Lemma first_least_elem {A} before (best : A) l : first_least before best l ∈ best :: l.
Proof.
  revert best. induction l as [|a l IH]; intros best; cbn [first_least]; [left|]. specialize (IH (if before a best then a else best)).
  destruct (before a best); set_solver.
Qed.

Lemma prefer_elem {A} before (l : list A) a : prefer before l = Some a -> a ∈ l.
Proof. unfold prefer. destruct l as [|b l]; [done|]. intros [= <-]. apply first_least_elem. Qed.

(** The preferred of the items of a listing that satisfy a condition. *)
Lemma preferred_stored {A} (store : option (reader A)) l before cond : list_all store = Ok l -> all_stored store (prefer before (List.filter cond l)).
Proof.
  unfold list_all. intros Hl a Ha%prefer_elem. apply list_elem_of_In, List.filter_In in Ha as [Hin _]. apply list_elem_of_In in Hin.
  destruct store as [s|]; [|injection Hl as <-; by apply elem_of_nil in Hin]. exists s. eauto.
Qed.

(** An execution with its artifacts, and what the answer says of it. *)
Definition execution_verified (receipt : Receipt) (given_intent : option ActionIntent) (given_pccb : option PCCB) (r : EvidenceResult) : Prop :=
  exists intent named pccb depth,
    given_or_load given_intent (es_intents svc) (JStr (rc_intent_id receipt)) = Ok (Some intent) /\ pccb_of_correlation (rc_correlation receipt) = Some named /\
    given_or_load given_pccb (es_pccbs svc) named = Ok (Some pccb) /\ backed svc intent pccb receipt None depth /\
    r = mkEvidenceResult VERIFIED_EXECUTION "A valid execution receipt, PCCB, and receipt-evidence chain were found." (JStr (rc_receipt_id receipt)) JNull
          (JStr (pc_pccb_id pccb)) (JStr (in_intent_id intent)) (JStr (ah_value (pc_action_hash pccb))) depth [].

Lemma verify_executed_exact receipt i p r :
  verify_executed svc receipt i p = Ok r /\ unverified (ers_verdict r) = false <-> execution_verified receipt i p r.
Proof.
  unfold verify_executed, execution_verified, backed. split.
  - intros [(resolved & Hi & Hr)%bind_Ok Hv]. destruct resolved as [intent|]; [|by injection Hr as <-].
    destruct (pccb_of_correlation _) as [named|]; [|by injection Hr as <-]. apply bind_Ok in Hr as (rp & Hp & Hr).
    destruct rp as [pccb|]; [|by injection Hr as <-]. destruct (intent_conflict pccb intent) eqn:Hc; [by injection Hr as <-|].
    apply bind_Ok in Hr as ([v|] & Hh & Hr); [injection Hr as ->; apply hash_integrity_Some in Hh; congruence|]. apply hash_integrity_None in Hh.
    apply bind_Ok in Hr as ([[v|] depth] & Hch & Hr).
    + injection Hr as <-. apply chain_Some in Hch. cbn in Hv. congruence.
    + apply chain_exact in Hch. injection Hr as <-. by exists intent, named, pccb, depth.
  - intros (intent & named & pccb & depth & -> & -> & Hp & (Hc & Hh & Hch) & ->). cbn [mbind res_bind]. rewrite Hp. cbn [mbind res_bind]. rewrite Hc.
    apply hash_integrity_None in Hh as ->. cbn [mbind res_bind]. unfold check_chain. apply chain_exact in Hch as ->. done.
Qed.

(** A refusal with its artifacts. *)
Definition refusal_verified (refusal : Refusal) (r : EvidenceResult) : Prop :=
  exists intent pccb receipt depth, stored (es_intents svc) intent /\ stored (es_pccbs svc) pccb /\ stored (es_receipts svc) receipt /\
    rc_outcome receipt = "refused" /\ backed svc intent pccb receipt (Some refusal) depth /\
    r = mkEvidenceResult VERIFIED_REFUSAL "A valid refusal, refused receipt, PCCB, and receipt-evidence chain were found." (JStr (rc_receipt_id receipt))
          (JStr (rf_refusal_id refusal)) (JStr (pc_pccb_id pccb)) (JStr (in_intent_id intent)) (JStr (ah_value (pc_action_hash pccb))) depth [].

Lemma verify_from_refusal_sound refusal paired i p r :
  all_stored (es_receipts svc) paired -> all_stored (es_intents svc) i -> all_stored (es_pccbs svc) p ->
  _verify_from_refusal svc refusal paired i p = Ok r -> unverified (ers_verdict r) = false -> refusal_verified refusal r.
Proof.
  intros Hpa Hgi Hgp Hr Hv. unfold _verify_from_refusal in Hr. destruct (negb _); [by injection Hr as <-|].
  apply bind_Ok in Hr as ([intent|] & Hi & Hr); [|by injection Hr as <-]. destruct (pccb_of_correlation _) as [named|]; [|by injection Hr as <-].
  apply bind_Ok in Hr as ([pccb|] & Hp & Hr); [|by injection Hr as <-]. destruct (intent_conflict pccb intent) eqn:Hc; [by injection Hr as <-|].
  apply bind_Ok in Hr as ([receipt|] & Hpr & Hr); [|by injection Hr as <-].
  assert (stored (es_receipts svc) receipt) as Hst.
  { destruct paired as [pr|]; [injection Hpr as ->; by apply Hpa|]. apply bind_Ok in Hpr as (l & Hl & [= Hpr]). by eapply preferred_stored. }
  destruct (String.eqb_spec (rc_outcome receipt) "refused") as [Ho|]; [|by injection Hr as <-]. cbn [negb] in Hr.
  apply bind_Ok in Hr as ([v|] & Hh & Hr); [injection Hr as ->; apply hash_integrity_Some in Hh; congruence|]. apply hash_integrity_None in Hh.
  apply bind_Ok in Hr as ([[v|] depth] & Hch & Hr); [injection Hr as <-; apply chain_Some in Hch; cbn in Hv; congruence|].
  apply chain_exact in Hch. injection Hr as <-. exists intent, pccb, receipt, depth. split_and!; try done; by eapply given_or_load_stored.
Qed.

(** What stands behind an answer. *)
Definition answer_backed (r : EvidenceResult) : Prop :=
  exists receipt intent pccb, stored (es_receipts svc) receipt /\ stored (es_intents svc) intent /\ stored (es_pccbs svc) pccb /\
    ers_receipt_id r = JStr (rc_receipt_id receipt) /\ ers_intent_id r = JStr (in_intent_id intent) /\ ers_pccb_id r = JStr (pc_pccb_id pccb) /\
    ers_action_hash r = JStr (ah_value (pc_action_hash pccb)) /\
    match ers_verdict r with
    | VERIFIED_EXECUTION => rc_outcome receipt = "executed" /\ backed svc intent pccb receipt None (ers_chain_depth r)
    | _ => rc_outcome receipt = "refused" /\ exists refusal, stored (es_refusals svc) refusal /\ ers_refusal_id r = JStr (rf_refusal_id refusal) /\
             backed svc intent pccb receipt (Some refusal) (ers_chain_depth r)
    end.

Lemma refusal_answer refusal r : stored (es_refusals svc) refusal -> refusal_verified refusal r -> answer_backed r.
Proof. intros Hs (intent & pccb & receipt & depth & Hi & Hp & Hr & Ho & Hb & ->). exists receipt, intent, pccb. cbn. eauto 12. Qed.

Lemma verify_from_receipt_backed receipt i p r :
  stored (es_receipts svc) receipt -> all_stored (es_intents svc) i -> all_stored (es_pccbs svc) p ->
  _verify_from_receipt svc receipt i p = Ok r -> unverified (ers_verdict r) = false -> answer_backed r.
Proof.
  intros Hst Hi Hp Hr Hv. unfold _verify_from_receipt in Hr. destruct (String.eqb_spec (rc_outcome receipt) "refused") as [Ho|_].
  - apply bind_Ok in Hr as (refusals & Hl & Hr). pose proof (preferred_stored _ _ (fun a b => rf_refused_at a <? rf_refused_at b)%Z (pairs_with receipt) Hl) as Hs.
    unfold _prefer_refusal in Hr. destruct (prefer _ _) as [refusal|]; [|by injection Hr as <-]. eapply refusal_answer; [by apply Hs|].
    eapply verify_from_refusal_sound; [|exact Hi|exact Hp|exact Hr|exact Hv]. by intros a [= <-].
  - destruct (String.eqb_spec (rc_outcome receipt) "executed") as [Ho|]; [|by injection Hr as <-].
    destruct (proj1 (verify_executed_exact receipt i p r) (conj Hr Hv)) as (intent & named & pccb & depth & Hi' & _ & Hp' & Hb & ->).
    exists receipt, intent, pccb. split_and!; try done; by eapply given_or_load_stored.
Qed.
End Verdicts.

Lemma deepest_bounds depths n : Forall (fun k => 0 <= k <= n)%Z depths -> (0 <= n + 1)%Z -> (0 <= deepest depths <= n + 1)%Z.
Proof.
  unfold deepest. intros Hall Hn. enough (forall m, (0 <= m <= n + 1)%Z -> (0 <= fold_left (fun m k => Z.max m (k + 1)) depths m <= n + 1)%Z) as He
    by (apply He; lia). induction Hall as [|k depths Hk _ IH]; intros m Hm; cbn; [done|]. apply IH. lia.
Qed.

Lemma chain_depth_bounds `{Protocol} svc n seen intent d : chain_verified svc n seen intent d -> (0 <= d <= Z.of_nat n)%Z.
Proof.
  revert seen intent d. induction n as [|n IH]; intros seen intent d; cbn [chain_verified]; (destruct (cited_receipts intent) as [|ref refs]; [intros ->; lia|]); [done|].
  destruct (es_receipts svc) as [receipts|], (es_intents svc) as [intents|]; try done. intros (depths & -> & Hall).
  replace (Z.of_nat (S n)) with (Z.of_nat n + 1)%Z by lia. apply deepest_bounds; [|lia].
  apply Forall2_Forall_r with (Q := fun k => (0 <= k <= Z.of_nat n)%Z) in Hall; [done|]. apply Forall_true. intros ref' k (receipt & parent & _ & Hc). by eapply IH.
Qed.

Section Queries.
Context `{Protocol} (svc : EvidenceQueryService).

(** The two outcomes a query prefers, in its order. *)
Lemma outcome_answer refusal receipt i1 p1 i2 p2 other r :
  all_stored (es_refusals svc) refusal -> all_stored (es_receipts svc) receipt -> all_stored (es_intents svc) i1 -> all_stored (es_pccbs svc) p1 ->
  all_stored (es_intents svc) i2 -> all_stored (es_pccbs svc) p2 -> (forall r, other = Ok r -> unverified (ers_verdict r) = true) ->
  match refusal, receipt with
  | Some refusal, _ => _verify_from_refusal svc refusal receipt i1 p1
  | None, Some receipt => _verify_from_receipt svc receipt i2 p2
  | None, None => other
  end = Ok r -> unverified (ers_verdict r) = false -> answer_backed svc r.
Proof.
  intros Hrf Hrc Hi1 Hp1 Hi2 Hp2 Hot Hr Hv. destruct refusal as [refusal|].
  - eapply refusal_answer; [by apply Hrf|]. by eapply verify_from_refusal_sound; [exact Hrc|exact Hi1|exact Hp1|exact Hr|].
  - destruct receipt as [receipt|]; [|apply Hot in Hr; congruence]. by eapply verify_from_receipt_backed; [by apply Hrc|exact Hi2|exact Hp2|exact Hr|].
Qed.

Lemma none_stored {A} (store : option (reader A)) : all_stored store None.
Proof. done. Qed.

Lemma query_by_pccb_backed id r : _query_by_pccb_id svc id = Ok r -> unverified (ers_verdict r) = false -> answer_backed svc r.
Proof.
  intros (receipts & Hl & Hr)%bind_Ok Hv. apply bind_Ok in Hr as (refusals & Hl' & Hr). apply bind_Ok in Hr as (pccb & Hp & Hr). cbv zeta in Hr.
  refine (outcome_answer _ _ None None None pccb _ r _ _ _ _ _ _ _ Hr Hv); try done; [by eapply preferred_stored..|by eapply load_stored|].
  intros r' Hr'. destruct pccb; by injection Hr' as <-.
Qed.

Lemma query_by_intent_backed id r : _query_by_intent_id svc id = Ok r -> unverified (ers_verdict r) = false -> answer_backed svc r.
Proof.
  intros (receipts & Hl & Hr)%bind_Ok Hv. apply bind_Ok in Hr as (refusals & Hl' & Hr). apply bind_Ok in Hr as (pccbs & Hl'' & Hr).
  cbv zeta in Hr. apply bind_Ok in Hr as (intent & Hi & Hr).
  refine (outcome_answer _ _ intent _ intent _ _ r _ _ _ _ _ _ _ Hr Hv); [by eapply preferred_stored..|by eapply load_stored|by eapply preferred_stored|
    by eapply load_stored|by eapply preferred_stored|].
  intros r' Hr'. destruct (_prefer_pccb _); by injection Hr' as <-.
Qed.

Lemma query_by_hash_backed h r : _query_by_action_hash svc h = Ok r -> unverified (ers_verdict r) = false -> answer_backed svc r.
Proof.
  intros (pccbs & _ & Hr)%bind_Ok Hv. destruct (_prefer_pccb _) as [pccb|]; [by eapply query_by_pccb_backed|].
  apply bind_Ok in Hr as (receipts & Hl & Hr). apply bind_Ok in Hr as (refusals & Hl' & Hr). cbv zeta in Hr.
  refine (outcome_answer _ _ None None None None _ r _ _ _ _ _ _ _ Hr Hv); try done; [by eapply preferred_stored..|]. by intros r' [= <-].
Qed.

Lemma query_by_receipt_backed id r : _query_by_receipt_id svc id = Ok r -> unverified (ers_verdict r) = false -> answer_backed svc r.
Proof.
  intros ([receipt|] & Hl & Hr)%bind_Ok Hv; [|by injection Hr as <-]. by eapply verify_from_receipt_backed; [by eapply load_stored| | |exact Hr|].
Qed.
End Queries.

(** ** Properties *)

(** Whatever is asked, a verified verdict is backed: there are a receipt, an
    intent and a proof the service read from its stores and that the answer names;
    the proof's action hash and the hashes in the correlations are the hash of that
    intent; every receipt the intent cites as evidence, and every one cited further
    down, was loaded with the digest it is cited with, none twice on a path, and
    the traversal stayed within the configured depth.  A verified execution has an
    executed receipt; a verified refusal has a refused one and a stored refusal. *)
Theorem evidence_query_sound `{Protocol} (svc : EvidenceQueryService) (q : EvidenceQuery) (r : EvidenceResult) :
  query svc q = Ok r -> unverified (ers_verdict r) = false ->
  answer_backed svc r /\ (0 <= ers_chain_depth r <= Z.max 0 (es_max_chain_depth svc))%Z.
Proof.
  intros Hq Hv. assert (answer_backed svc r) as Ha.
  { unfold query in Hq. destruct (not_none (eq_receipt_id q)); [by eapply query_by_receipt_backed|]. destruct (not_none (eq_pccb_id q)); [by eapply query_by_pccb_backed|].
    destruct (not_none (eq_intent_id q)); [by eapply query_by_intent_backed|]. destruct (not_none (eq_action_hash q)); [by eapply query_by_hash_backed|done]. }
  split; [done|]. destruct Ha as (receipt & intent & pccb & _ & _ & _ & _ & _ & _ & _ & Hb).
  assert (chain_verified svc (Z.to_nat (es_max_chain_depth svc)) [] intent (ers_chain_depth r)) as Hc.
  { destruct (ers_verdict r); destruct Hb as [_ Hb]; [apply Hb|..]; destruct Hb as (refusal & _ & _ & Hb); apply Hb. }
  apply chain_depth_bounds in Hc. lia.
Qed.

(** C20: Asked for a receipt, the service reports a verified execution exactly when
    the specification holds: the receipt loads and is an executed one, its intent
    and the proof it is correlated with load, the proof is not for another intent,
    the hashes agree and the chain of cited receipts verifies; the answer then names
    exactly these artifacts and the depth of the chain. *)
Theorem receipt_query_exact `{Protocol} (svc : EvidenceQueryService) (receipt_id : json) (r : EvidenceResult) :
  not_none receipt_id = true ->
  (query svc (mkEvidenceQuery receipt_id JNull JNull JNull) = Ok r /\ ers_verdict r = VERIFIED_EXECUTION <->
   exists receipt, load (es_receipts svc) receipt_id = Ok (Some receipt) /\ rc_outcome receipt = "executed" /\ execution_verified svc receipt None None r).
Proof.
  intros Hn. unfold query. cbn [eq_receipt_id]. rewrite Hn. unfold _query_by_receipt_id. split.
  - intros [(found & Hl & Hr)%bind_Ok Hv]. destruct found as [receipt|]; [|by injection Hr as <-]. exists receipt. split; [done|].
    unfold _verify_from_receipt in Hr. destruct (String.eqb_spec (rc_outcome receipt) "refused").
    { apply bind_Ok in Hr as (refusals & Hlr & Hr). destruct (_prefer_refusal _) as [refusal|]; [|by injection Hr as <-].
      assert (stored (es_receipts svc) receipt) as Hst by by eapply load_stored.
      apply verify_from_refusal_sound in Hr as (? & ? & ? & ? & _ & _ & _ & _ & _ & ->); [done|by intros ? [= <-]|done|done|by rewrite Hv]. }
    destruct (String.eqb_spec (rc_outcome receipt) "executed"); [|by injection Hr as <-]. split; [done|]. apply verify_executed_exact. by rewrite Hv.
  - intros (receipt & -> & Ho & Hx). cbn [mbind res_bind]. unfold _verify_from_receipt. rewrite Ho. cbn [String.eqb Ascii.eqb Bool.eqb negb].
    pose proof (proj2 (verify_executed_exact svc receipt None None r) Hx) as [-> _]. split; [done|]. by destruct Hx as (? & ? & ? & ? & _ & _ & _ & _ & ->).
Qed.

(** ** Samples *)
Definition memory_reader {A} (s : list (string * A)) : reader A :=
  mkReader A (fun id => match id with JStr i => Ok (get_artifact i s) | JList _ | JDict _ => Err (TypeError "unhashable type") | _ => Ok None end)
    (Ok (list_artifacts s)).

Definition sample_correlation_of (pccb : PCCB) : CorrelationRef :=
  mkCorrelationRef (JStr (pc_pccb_id pccb)) JNull JNull JNull JNull (Some (pc_action_hash pccb)) JNull JNull JNull JNull None.
Definition outcome_receipt (id outcome : string) (intent : ActionIntent) (pccb : PCCB) (at_ : datetime) : Receipt :=
  mkReceipt id (in_intent_id intent) at_ outcome sample_tenant sample_agent sample_action sample_target "done" JNull (Some (sample_correlation_of pccb))
    [] [] [] [] [] [].
Definition replay_refusal (intent : ActionIntent) (pccb : PCCB) (at_ : datetime) : Refusal :=
  mkRefusal "rf_1" "replay" "REPLAY_DETECTED" "The proof has already been used." false at_ (JStr (in_intent_id intent)) None None None None None
    (Some (sample_correlation_of pccb)) [] [] [] [].

Definition first_receipt : Receipt := outcome_receipt "rc_1" "executed" sample_intent sample_pccb sample_now.

(** A second action that cites the first one's receipt. *)
Definition citing_intent : ActionIntent :=
  mkActionIntent "intent_2" sample_now (sample_now + 600000000)%Z sample_tenant sample_agent sample_action sample_target JNull JNull []
    match @receipt_evidence_ref demo_protocol first_receipt with Ok ref => [ref] | Err _ => [] end [] [].
Definition pccb_named (id : string) (intent : ActionIntent) : PCCB :=
  match @mint demo_protocol sample_authority sample_minter id "nonce-2" intent sample_decision sample_context JNull [] with Ok p => p | Err _ => sample_pccb end.
Definition citing_pccb : PCCB := Eval vm_compute in pccb_named "pccb_2" citing_intent.
Definition second_receipt : Receipt := outcome_receipt "rc_2" "executed" citing_intent citing_pccb (sample_now + 5)%Z.

Definition service (receipts : list Receipt) (refusals : list Refusal) (pccbs : list PCCB) : EvidenceQueryService :=
  mkEvidenceService (Some (memory_reader (from_intents [sample_intent; citing_intent]))) (Some (memory_reader (from_pccbs pccbs)))
    (Some (memory_reader (from_receipts receipts))) (Some (memory_reader (from_refusals refusals))) 8.
Definition sample_service : EvidenceQueryService := service [first_receipt; second_receipt] [] [sample_pccb; citing_pccb].
Definition by_receipt (id : string) : EvidenceQuery := mkEvidenceQuery (JStr id) JNull JNull JNull.
Definition by_pccb (id : string) : EvidenceQuery := mkEvidenceQuery JNull (JStr id) JNull JNull.
Definition by_intent (id : string) : EvidenceQuery := mkEvidenceQuery JNull JNull (JStr id) JNull.

Definition sample_answer : EvidenceResult :=
  Eval vm_compute in match @query demo_protocol sample_service (by_receipt "rc_2") with Ok r => r | Err _ => _evidence_result CHAIN_BROKEN "" JNull JNull JNull JNull JNull [] end.

Lemma evidence_query_sound_witness :
  ers_verdict sample_answer = VERIFIED_EXECUTION /\ ers_chain_depth sample_answer = 1%Z /\ @answer_backed demo_protocol sample_service sample_answer.
Proof.
  split; [reflexivity|]. split; [reflexivity|].
  refine (proj1 (@evidence_query_sound demo_protocol sample_service (by_receipt "rc_2") sample_answer _ _)); vm_compute; reflexivity.
Defined.

Lemma receipt_query_exact_witness : exists receipt, load (es_receipts sample_service) (JStr "rc_2") = Ok (Some receipt) /\
  rc_outcome receipt = "executed" /\ @execution_verified demo_protocol sample_service receipt None None sample_answer.
Proof. refine (proj1 (@receipt_query_exact demo_protocol sample_service (JStr "rc_2") sample_answer eq_refl) _). split; vm_compute; reflexivity. Defined.

(** A replayed attempt hides the execution: once the proof has an executed receipt and
    the refusal of a later attempt with its refused receipt, the query for the proof
    pairs the refusal with the executed receipt and reports a broken chain, while the
    query for the receipt still verifies the execution. *)
Definition replayed_service : EvidenceQueryService :=
  service [first_receipt; outcome_receipt "rc_9" "refused" sample_intent sample_pccb (sample_now + 9)%Z] [replay_refusal sample_intent sample_pccb (sample_now + 9)%Z]
    [sample_pccb].
Lemma replay_hides_execution :
  (ers_verdict <$> @query demo_protocol replayed_service (by_receipt "rc_1")) = Ok VERIFIED_EXECUTION /\
  (ers_verdict <$> @query demo_protocol replayed_service (by_receipt "rc_9")) = Ok VERIFIED_REFUSAL /\
  (ers_verdict <$> @query demo_protocol replayed_service (by_pccb "pccb_1")) = Ok CHAIN_BROKEN.
Proof. vm_compute. split_and!; reflexivity. Qed.

(** A query by intent takes the intent's earliest proof, not the one the receipt names. *)
Definition reissued_pccb : PCCB := Eval vm_compute in pccb_named "pccb_0" sample_intent.
Definition reissued_service : EvidenceQueryService := service [first_receipt] [] [reissued_pccb; sample_pccb].
Lemma intent_query_takes_other_proof :
  pccb_of_correlation (rc_correlation first_receipt) = Some (JStr "pccb_1") /\
  match @query demo_protocol reissued_service (by_intent (in_intent_id sample_intent)) with
  | Ok r => ers_verdict r = VERIFIED_EXECUTION /\ ers_receipt_id r = JStr "rc_1" /\ ers_pccb_id r = JStr "pccb_0"
  | Err _ => False
  end.
Proof. vm_compute. split_and!; reflexivity. Qed.
