(* ===== verification/Attestation.v ===== *)
(** * Signed outcome attestations: [receipts/attestation.py]

    The envelope that signs a receipt or a refusal together with its digest and
    the proof it is bound to.  The receipt and refusal variants of the source
    differ in the kind they name, which is an argument here.  A verifier of
    external anchors is a function that may fail in the three ways the source
    tells apart.

    The theorems: what [verify_..._attestation] accepts has the digest of its
    artifact, the proof binding the artifact itself names and a valid signature
    over all of it; and an attested artifact verifies and is returned. *)

From S2P Require Import Prelude Text Json Errors Timestamps Canonical Contracts Runtime Samples ProofService Receipts Artifacts.

Inductive attestation_kind := ReceiptKind | RefusalKind.
#[global] Instance attestation_kind_eq_dec : EqDecision attestation_kind.
Proof. solve_decision. Defined.

Definition kind_name (k : attestation_kind) : string := match k with ReceiptKind => "receipt" | RefusalKind => "refusal" end.
Definition kind_contract_name (k : attestation_kind) : string :=
  match k with ReceiptKind => "receipt_attestation" | RefusalKind => "refusal_attestation" end.
Definition ATTESTATION_CONTRACT (k : attestation_kind) : json := JDict [("name", JStr (kind_contract_name k)); ("version", JStr "v2alpha1")].

Section Attestation.
Context `{Protocol} `{PyText}.

Definition _build_digest (payload : dict) : py dict :=
  match canonicalize_bytes (JDict payload) DEFAULT_MAX_CANONICAL_OUTPUT_BYTES with
  | Err e => if is_type_or_value_error e then Err (ValueError "outcome attestation canonicalization failed") else Err e
  | Ok _ => value ← sha256_hex (JDict payload); Ok [("algorithm", JStr ARTIFACT_HASH_ALGORITHM); ("value", JStr value)]
  end.

Definition _parse_artifact_digest (raw : json) : py dict :=
  data ← expect_mapping raw "artifact_digest";
  algorithm ← expect_string (dget data "algorithm") "artifact_digest.algorithm";
  value ← expect_string (dget data "value") "artifact_digest.value";
  let canonicalization := dget data "canonicalization" in
  if not_none canonicalization && negb (is_str canonicalization CANONICALIZATION_PROFILE)
  then Err (ValueError "outcome attestation canonicalization metadata is not supported")
  else Ok [("algorithm", JStr algorithm); ("value", JStr value)].

Definition _verify_digest (expected_payload observed_digest : dict) : py unit :=
  digest ← _parse_artifact_digest (JDict observed_digest);
  if negb (is_str (dget digest "algorithm") ARTIFACT_HASH_ALGORITHM)
  then Err (ValueError "outcome attestation digest algorithm is not supported")
  else
    expected_digest ← _build_digest expected_payload;
    if negb (py_eqb (dget digest "value") (dget expected_digest "value"))
    then Err (ValueError "embedded artifact digest does not match the signed attestation payload") else Ok tt.

Definition canonical_payload (payload : dict) : py string :=
  match canonicalize_bytes (JDict payload) DEFAULT_MAX_CANONICAL_OUTPUT_BYTES with
  | Err e => if is_type_or_value_error e then Err (ValueError "outcome attestation canonicalization failed") else Err e
  | Ok s => Ok s
  end.

Definition _sign_unsigned_payload (signer : Signer) (payload : dict) : py SignatureSpec :=
  s ← canonical_payload payload;
  sg_sign signer s.

(** A signature verifier; [verify_with_metadata] is called with the anchor arguments
    and, when it does not take them ([TypeError]), without. *)
Record attestation_verifier := mkAttVerifier {
  av_verify : string -> SignatureSpec -> py bool;
  av_verify_with_metadata : option (string -> SignatureSpec -> PartyRef -> datetime -> option (bool * option datetime) -> py bool)
}.

Definition signature_check (v : attestation_verifier) (s : string) (signature : SignatureSpec) (issuer : PartyRef) (issued_at : datetime)
    (anchor_time : option datetime) : py bool :=
  match av_verify_with_metadata v with
  | Some verify =>
      match verify s signature issuer issued_at (Some (bool_decide (is_Some anchor_time), anchor_time)) with
      | Err (TypeError _) => verify s signature issuer issued_at None
      | r => r
      end
  | None => av_verify v s signature
  end.

Definition _verify_unsigned_payload (v : attestation_verifier) (payload : dict) (signature : SignatureSpec) (issuer : PartyRef)
    (issued_at : datetime) (anchor_time : option datetime) : py unit :=
  s ← canonical_payload payload;
  is_valid ← signature_check v s signature issuer issued_at anchor_time;
  if negb is_valid then Err (ValueError "outcome attestation signature could not be verified") else Ok tt.

Definition _parse_optional_metadata (raw : json) : py dict :=
  match raw with JNull => Ok [] | _ => expect_mapping raw "metadata" end.

Definition _parse_external_anchors (raw : json) : py (list dict) :=
  match raw with
  | JNull => Ok []
  | JList l => res_mapM (fun anchor => expect_mapping anchor "external_anchors[]") l
  | _ => Err (ValueError "external_anchors must be an array")
  end.

(** How verifying an anchor fails: it was checked and is wrong, it could not be read
    (another [ValueError]), or anything else. *)
Inductive anchor_failure := AnchorWrong | AnchorUnreadable | AnchorRaised (e : exn).
Definition anchor_verifier : Type := dict -> dict -> res anchor_failure datetime.

Fixpoint earliest_anchor (verifier : anchor_verifier) (digest : dict) (anchors : list dict) (earliest : option datetime)
    : py (option datetime) :=
  match anchors with
  | [] => Ok earliest
  | anchor :: anchors =>
      match verifier anchor digest with
      | Err AnchorWrong => Err (ValueError "external anchor verification failed")
      | Err AnchorUnreadable => earliest_anchor verifier digest anchors earliest
      | Err (AnchorRaised e) => Err e
      | Ok anchored_at =>
          let sooner := match earliest with None => true | Some t => (anchored_at <? t)%Z end in
          earliest_anchor verifier digest anchors (if sooner then Some anchored_at else earliest)
      end
  end.

Definition _verify_external_anchors (anchors : list dict) (digest : dict) (verifier : option anchor_verifier) : py (option datetime) :=
  match anchors, verifier with
  | [], _ | _, None => Ok None
  | _, Some verifier => earliest_anchor verifier digest anchors None
  end.

Definition BINDING_FIELDS : list string := ["intent_id"; "pccb_id"; "action_hash"].

(** The fields that are there, checked in order. *)
Fixpoint binding_fields (data : dict) (fields : list string) : py dict :=
  match fields with
  | [] => Ok []
  | f :: fields =>
      match dget data f with
      | JNull => binding_fields data fields
      | value => s ← expect_string value ("proof_binding." +:+ f); rest ← binding_fields data fields; Ok ((f, JStr s) :: rest)
      end
  end.

Definition _normalize_proof_binding (raw : json) : py dict :=
  data ← expect_mapping raw "proof_binding";
  binding_fields data BINDING_FIELDS.

Definition _action_hash_value (raw : json) : json :=
  match raw with
  | JStr s => JStr s
  | JDict d => match dget d "value" with JStr s => JStr s | _ => JNull end
  | _ => JNull
  end.

Definition mapping_or_empty (raw : json) : dict := match raw with JDict d => d | _ => [] end.

(** [if isinstance(value, str) and value: derived[key] = value] *)
Definition derived_item (key : string) (value : json) : dict :=
  match value with JStr s => if str_truthy s then [(key, JStr s)] else [] | _ => [] end.

Definition _derive_proof_binding (outcome_artifact : dict) : dict :=
  let embedded_binding_map := mapping_or_empty (dget outcome_artifact "proof_binding") in
  let correlation_map := mapping_or_empty (dget outcome_artifact "correlation") in
  let intent_id := py_or (dget outcome_artifact "intent_id") (dget embedded_binding_map "intent_id") in
  let pccb_id := py_or (dget embedded_binding_map "pccb_id") (dget correlation_map "pccb_id") in
  let action_hash := py_or (dget embedded_binding_map "action_hash") (_action_hash_value (dget correlation_map "action_hash")) in
  derived_item "intent_id" intent_id ++ derived_item "pccb_id" pccb_id ++ derived_item "action_hash" action_hash.

(** One round of the loop over the three fields. *)
Definition check_binding (expected proof_binding : dict) (key : string) : py unit :=
  let observed := dget proof_binding key in
  let expected_value := dget expected key in
  if not_none expected_value && negb (py_eqb observed expected_value)
  then Err (ValueError ("proof_binding." +:+ key +:+ " does not match the embedded outcome artifact"))
  else if negb (not_none expected_value) && not_none observed
  then Err (ValueError ("proof_binding." +:+ key +:+ " is not present in the embedded outcome artifact and must not be invented"))
  else Ok tt.

Definition _verify_proof_binding (outcome_artifact proof_binding : dict) : py unit :=
  let expected := _derive_proof_binding outcome_artifact in
  _ ← check_binding expected proof_binding "intent_id";
  _ ← check_binding expected proof_binding "pccb_id";
  check_binding expected proof_binding "action_hash".

Record Attestation := mkAttestation {
  at_attestation_id : string; at_issued_at : datetime; at_issuer : PartyRef; at_kind : attestation_kind; at_outcome_artifact : dict;
  at_artifact_digest : dict; at_proof_binding : dict; at_signature : SignatureSpec; at_metadata : dict; at_external_anchors : list dict
}.

(** [{key: value for key, value in binding.items() if value is not None}] *)
Definition present_items (d : dict) : dict := List.filter (fun kv => not_none kv.2) d.

Definition attestation_payload (a : Attestation) : dict :=
  [("attestation_id", JStr (at_attestation_id a)); ("issued_at", JStr (format_timestamp (at_issued_at a)));
   ("issuer", JDict (PartyRef_to_dict (at_issuer a))); ("artifact_type", JStr (kind_name (at_kind a)));
   ("artifact_digest", JDict (at_artifact_digest a)); ("outcome_artifact", JDict (at_outcome_artifact a));
   ("proof_binding", JDict (present_items (at_proof_binding a))); ("metadata", JDict (at_metadata a))].

Definition Attestation_to_dict (a : Attestation) : dict :=
  [("contract", ATTESTATION_CONTRACT (at_kind a)); ("unsigned_payload", JDict (attestation_payload a));
   ("signature", JDict (SignatureSpec_to_dict (at_signature a))); ("external_anchors", JList (map JDict (at_external_anchors a)))].

Definition Attestation_from_dict (k : attestation_kind) (raw : json) : py Attestation :=
  data ← expect_mapping raw (kind_contract_name k);
  contract ← expect_mapping (dget data "contract") "contract";
  if negb (is_str (dget contract "name") (kind_contract_name k)) || negb (is_str (dget contract "version") "v2alpha1")
  then Err (ValueError ("contract must declare " +:+ kind_contract_name k +:+ " v2alpha1"))
  else
    payload ← expect_mapping (dget data "unsigned_payload") "unsigned_payload";
    if has_key "external_anchors" payload
    then Err (ValueError "external_anchors must sit beside signature and must not be inside unsigned_payload")
    else
      artifact_type ← expect_string (dget payload "artifact_type") "unsigned_payload.artifact_type";
      if negb (String.eqb artifact_type (kind_name k)) then Err (ValueError "attestation artifact_type is not the expected one")
      else
        attestation_id ← expect_string (dget payload "attestation_id") "unsigned_payload.attestation_id";
        issued_at ← parse_timestamp (dget payload "issued_at") "unsigned_payload.issued_at";
        issuer ← PartyRef_from_dict "unsigned_payload.issuer" (dget payload "issuer");
        outcome_artifact ← expect_mapping (dget payload "outcome_artifact") "unsigned_payload.outcome_artifact";
        artifact_digest ← _parse_artifact_digest (dget payload "artifact_digest");
        proof_binding ← _normalize_proof_binding (dget payload "proof_binding");
        signature ← SignatureSpec_from_dict (dget data "signature");
        metadata ← _parse_optional_metadata (dget payload "metadata");
        external_anchors ← _parse_external_anchors (dget_default data "external_anchors" (JList []));
        Ok (mkAttestation attestation_id issued_at issuer k outcome_artifact artifact_digest proof_binding signature metadata
              external_anchors).

(** [_artifact_id] *)
Definition attested_artifact_id (a : Attestation) : string :=
  match at_kind a with
  | ReceiptKind => py_str (dget_default (at_outcome_artifact a) "receipt_id" (JStr "unknown-receipt"))
  | RefusalKind => py_str (dget_default (at_outcome_artifact a) "refusal_id" (JStr "unknown-refusal"))
  end.

(** ** [OutcomeAttestationService] *)
Record OutcomeAttestationService := mkAttestationService {
  os_signer : Signer; os_signer_verifier : attestation_verifier; os_issuer : PartyRef; os_external_anchor_verifier : option anchor_verifier
}.

(** [attest_receipt] and [attest_refusal], on the artifact's [to_dict()]; the
    identifier is the factory's and the time the argument or the clock's. *)
Definition attest (svc : OutcomeAttestationService) (k : attestation_kind) (attestation_id : string) (outcome_artifact : dict)
    (issued_at : datetime) (metadata proof_binding : option dict) (external_anchors : list dict) : py Attestation :=
  digest ← _build_digest outcome_artifact;
  let binding := match proof_binding with Some (x :: b) => x :: b | _ => _derive_proof_binding outcome_artifact end in
  let pending := mkSignatureSpec (sg_algorithm (os_signer svc)) (sg_key_id (os_signer svc)) "base64url" "pending" in
  let attestation := mkAttestation attestation_id issued_at (os_issuer svc) k outcome_artifact digest binding pending
                       (default [] metadata) external_anchors in
  signature ← _sign_unsigned_payload (os_signer svc) (attestation_payload attestation);
  Ok (mkAttestation attestation_id issued_at (os_issuer svc) k outcome_artifact digest binding signature (default [] metadata)
        external_anchors).

Definition attest_receipt (svc : OutcomeAttestationService) (id : string) (receipt : Receipt) := attest svc ReceiptKind id (Receipt_to_dict receipt).
Definition attest_refusal (svc : OutcomeAttestationService) (id : string) (refusal : Refusal) := attest svc RefusalKind id (Refusal_to_dict refusal).

(** [attestation if isinstance(attestation, cls) else cls.from_dict(attestation)]; an
    attestation of the other class is not a mapping. *)
Definition resolve_attestation (k : attestation_kind) (attestation : Attestation + json) : py Attestation :=
  match attestation with
  | inl a => if bool_decide (at_kind a = k) then Ok a else Err (ValueError (kind_contract_name k +:+ " must be an object"))
  | inr raw => Attestation_from_dict k raw
  end.

(** The checks the two verification methods share. *)
Definition verify_attestation (svc : OutcomeAttestationService) (k : attestation_kind) (attestation : Attestation + json)
    (verifier : option attestation_verifier) : py Attestation :=
  resolved ← resolve_attestation k attestation;
  _ ← _verify_digest (at_outcome_artifact resolved) (at_artifact_digest resolved);
  _ ← _verify_proof_binding (at_outcome_artifact resolved) (at_proof_binding resolved);
  anchor_time ← _verify_external_anchors (at_external_anchors resolved) (at_artifact_digest resolved) (os_external_anchor_verifier svc);
  _ ← _verify_unsigned_payload (default (os_signer_verifier svc) verifier) (attestation_payload resolved) (at_signature resolved)
        (at_issuer resolved) (at_issued_at resolved) anchor_time;
  Ok resolved.

(** The artifact, or its document when it does not parse. *)
Definition verify_receipt_attestation (svc : OutcomeAttestationService) (attestation : Attestation + json)
    (verifier : option attestation_verifier) : py (Receipt + dict) :=
  resolved ← verify_attestation svc ReceiptKind attestation verifier;
  Ok match Receipt_from_dict (JDict (at_outcome_artifact resolved)) with Ok r => inl r | Err _ => inr (at_outcome_artifact resolved) end.

Definition verify_refusal_attestation (svc : OutcomeAttestationService) (attestation : Attestation + json)
    (verifier : option attestation_verifier) : py (Refusal + dict) :=
  resolved ← verify_attestation svc RefusalKind attestation verifier;
  Ok match Refusal_from_dict (JDict (at_outcome_artifact resolved)) with Ok r => inl r | Err _ => inr (at_outcome_artifact resolved) end.
End Attestation.

(** ** Facts *)
Section Facts.
Context `{Protocol} `{PyText}.

Lemma str_truthy_iff s : str_truthy s = true <-> s <> "".
Proof. unfold str_truthy. destruct (String.eqb_spec s ""); naive_solver. Qed.

Lemma canonical_payload_Ok payload s : canonical_payload payload = Ok s <->
  canonicalize_bytes (JDict payload) DEFAULT_MAX_CANONICAL_OUTPUT_BYTES = Ok s.
Proof. unfold canonical_payload. destruct (canonicalize_bytes _ _) as [t|e]; [done|]. by destruct (is_type_or_value_error e). Qed.

Lemma build_digest_Ok payload d : _build_digest payload = Ok d <->
  exists s, canonicalize_bytes (JDict payload) DEFAULT_MAX_CANONICAL_OUTPUT_BYTES = Ok s /\
    d = [("algorithm", JStr ARTIFACT_HASH_ALGORITHM); ("value", JStr (sha256_hexdigest s))].
Proof.
  unfold _build_digest, sha256_hex. destruct (canonicalize_bytes _ _) as [t|e].
  - simpl. naive_solver.
  - destruct (is_type_or_value_error e); naive_solver.
Qed.

(** The digest an attestation carries is its artifact's. *)
Definition digest_ok (a : Attestation) : Prop :=
  exists s, canonicalize_bytes (JDict (at_outcome_artifact a)) DEFAULT_MAX_CANONICAL_OUTPUT_BYTES = Ok s /\
    dget (at_artifact_digest a) "algorithm" = JStr ARTIFACT_HASH_ALGORITHM /\
    dget (at_artifact_digest a) "value" = JStr (sha256_hexdigest s) /\ sha256_hexdigest s <> "" /\
    (dget (at_artifact_digest a) "canonicalization" = JNull \/ dget (at_artifact_digest a) "canonicalization" = JStr CANONICALIZATION_PROFILE).

(** It names the proof its artifact names, and no other. *)
Definition binding_ok (a : Attestation) : Prop :=
  forall key, key ∈ BINDING_FIELDS -> dget (at_proof_binding a) key = dget (_derive_proof_binding (at_outcome_artifact a)) key.

Lemma parse_artifact_digest_Ok raw d : _parse_artifact_digest raw = Ok d <->
  exists data algorithm value, raw = JDict data /\ dget data "algorithm" = JStr algorithm /\ algorithm <> "" /\ dget data "value" = JStr value /\ value <> "" /\
    (dget data "canonicalization" = JNull \/ dget data "canonicalization" = JStr CANONICALIZATION_PROFILE) /\
    d = [("algorithm", JStr algorithm); ("value", JStr value)].
Proof.
  unfold _parse_artifact_digest. rewrite bind_Ok. setoid_rewrite bind_Ok. setoid_rewrite bind_Ok. setoid_rewrite expect_string_inv.
  setoid_rewrite str_truthy_iff. split.
  - intros (data & Hm & algorithm & [Ha Hane] & value & [Hv Hvne] & Hd). unfold expect_mapping in Hm. destruct raw; simplify_eq.
    exists data, algorithm, value. split_and!; try done.
    + destruct (dget data "canonicalization") as [| | | |c| |] eqn:Hc; try (exfalso; discriminate Hd); [by left|right].
      cbn in Hd. destruct (String.eqb_spec c CANONICALIZATION_PROFILE) as [->|]; done.
    + by destruct (not_none _ && _); simplify_eq.
  - intros (data & algorithm & value & -> & Ha & Hane & Hv & Hvne & Hc & ->). exists data. split; [done|]. exists algorithm. split; [done|].
    exists value. split; [done|]. destruct Hc as [-> | ->]; [done|]. simpl. by rewrite String.eqb_refl.
Qed.

Lemma verify_digest_Ok a : _verify_digest (at_outcome_artifact a) (at_artifact_digest a) = Ok tt <-> digest_ok a.
Proof.
  unfold _verify_digest, digest_ok. rewrite bind_Ok. setoid_rewrite parse_artifact_digest_Ok. split.
  - intros (d & (data & algorithm & value & [= <-] & Ha & Hane & Hv & Hvne & Hc & ->) & Hd). unfold dget at 1 in Hd. simpl in Hd.
    destruct (String.eqb_spec algorithm ARTIFACT_HASH_ALGORITHM) as [->|]; [|done]. simpl in Hd.
    apply bind_Ok in Hd as (ed & (s & Hs & ->)%build_digest_Ok & Hd). unfold dget in Hd. simpl in Hd.
    destruct (String.eqb_spec value (sha256_hexdigest s)) as [->|]; [|done]. by exists s.
  - intros (s & Hs & Ha & Hv & Hne & Hc). eexists. split; [exists (at_artifact_digest a), ARTIFACT_HASH_ALGORITHM, (sha256_hexdigest s); by split_and!|].
    simpl. rewrite (proj2 (build_digest_Ok _ _) (ex_intro _ s (conj Hs eq_refl))). simpl. unfold dget. simpl. by rewrite String.eqb_refl.
Qed.

Lemma derived_item_get key k v : assoc key (derived_item k v) = None \/ exists s, assoc key (derived_item k v) = Some (JStr s).
Proof.
  unfold derived_item. destruct v as [| | | |s| |]; try (by left). destruct (str_truthy s); [|by left].
  simpl. destruct (String.eqb key k); [right; by exists s|by left].
Qed.

(** What is derived is text or missing. *)
Lemma derived_text artifact key : dget (_derive_proof_binding artifact) key = JNull \/ exists s, dget (_derive_proof_binding artifact) key = JStr s.
Proof.
  unfold _derive_proof_binding, dget. cbv zeta. rewrite !assoc_app.
  match goal with |- context [derived_item "intent_id" ?a] => destruct (derived_item_get key "intent_id" a) as [-> | [s ->]]; [|by eauto] end.
  match goal with |- context [derived_item "pccb_id" ?a] => destruct (derived_item_get key "pccb_id" a) as [-> | [s ->]]; [|by eauto] end.
  match goal with |- context [derived_item "action_hash" ?a] => destruct (derived_item_get key "action_hash" a) as [-> | [s ->]]; by eauto end.
Qed.

Lemma check_binding_Ok artifact binding key :
  check_binding (_derive_proof_binding artifact) binding key = Ok tt <-> dget binding key = dget (_derive_proof_binding artifact) key.
Proof.
  unfold check_binding. destruct (derived_text artifact key) as [-> | [s ->]].
  - simpl. by destruct (dget binding key).
  - simpl. destruct (py_eqb (dget binding key) (JStr s)) eqn:He; simpl.
    + apply py_eqb_str_r in He. done.
    + split; [done|]. intros Hd. rewrite Hd in He. simpl in He. by rewrite String.eqb_refl in He.
Qed.

Lemma verify_binding_Ok a : _verify_proof_binding (at_outcome_artifact a) (at_proof_binding a) = Ok tt <-> binding_ok a.
Proof.
  unfold _verify_proof_binding, binding_ok. cbv zeta. split.
  - intros ([] & H1 & ([] & H2 & H3)%bind_Ok)%bind_Ok key Hin. rewrite !check_binding_Ok in *.
    unfold BINDING_FIELDS in Hin. rewrite !elem_of_cons in Hin. destruct Hin as [->|[->|[->|Hin]]]; [done..|]. by apply not_elem_of_nil in Hin.
  - intros Hb. rewrite !(proj2 (check_binding_Ok _ _ _)); [done|apply Hb; unfold BINDING_FIELDS; set_solver..].
Qed.

(** What the verification methods accept. *)
Lemma verify_attestation_Ok svc k att v a : verify_attestation svc k att v = Ok a <->
  resolve_attestation k att = Ok a /\ digest_ok a /\ binding_ok a /\
  exists anchor_time s, _verify_external_anchors (at_external_anchors a) (at_artifact_digest a) (os_external_anchor_verifier svc) = Ok anchor_time /\
    canonicalize_bytes (JDict (attestation_payload a)) DEFAULT_MAX_CANONICAL_OUTPUT_BYTES = Ok s /\
    signature_check (default (os_signer_verifier svc) v) s (at_signature a) (at_issuer a) (at_issued_at a) anchor_time = Ok true.
Proof.
  unfold verify_attestation. split.
  - intros (r & Hr & Hv)%bind_Ok. apply bind_Ok in Hv as ([] & Hd & Hv). apply bind_Ok in Hv as ([] & Hb & Hv).
    apply bind_Ok in Hv as (t & Ht & Hv). apply bind_Ok in Hv as ([] & Hs & [= <-]). split; [done|]. rewrite <- verify_digest_Ok, <- verify_binding_Ok.
    split; [done|]. split; [done|]. unfold _verify_unsigned_payload in Hs. apply bind_Ok in Hs as (s & Hc%canonical_payload_Ok & Hs).
    apply bind_Ok in Hs as ([] & Hsig & Hok); [|done]. by exists t, s.
  - intros (Hr & Hd & Hb & t & s & Ht & Hc & Hs). rewrite Hr. simpl. rewrite (proj2 (verify_digest_Ok a) Hd). simpl.
    rewrite (proj2 (verify_binding_Ok a) Hb). simpl. rewrite Ht. simpl. unfold _verify_unsigned_payload.
    rewrite (proj2 (canonical_payload_Ok _ _) Hc). simpl. by rewrite Hs.
Qed.

Lemma derived_item_cases k v : derived_item k v = [] \/ exists s, s <> "" /\ derived_item k v = [(k, JStr s)].
Proof.
  unfold derived_item. destruct v as [| | | |s| |]; try (by left). destruct (str_truthy s) eqn:Hs; [|by left].
  apply str_truthy_iff in Hs. right. by exists s.
Qed.

(** A derived binding prints and reads back. *)
Lemma derived_binding_roundtrip artifact :
  present_items (_derive_proof_binding artifact) = _derive_proof_binding artifact /\
  _normalize_proof_binding (JDict (_derive_proof_binding artifact)) = Ok (_derive_proof_binding artifact).
Proof.
  unfold _derive_proof_binding. cbv zeta.
  match goal with |- context [derived_item "intent_id" ?a] => generalize a as v1 end. intros v1.
  match goal with |- context [derived_item "pccb_id" ?a] => generalize a as v2 end. intros v2.
  match goal with |- context [derived_item "action_hash" ?a] => generalize a as v3 end. intros v3.
  destruct (derived_item_cases "intent_id" v1) as [-> | (s1 & H1%str_truthy_iff & ->)];
    destruct (derived_item_cases "pccb_id" v2) as [-> | (s2 & H2%str_truthy_iff & ->)];
    destruct (derived_item_cases "action_hash" v3) as [-> | (s3 & H3%str_truthy_iff & ->)];
    (split; [reflexivity|]); unfold _normalize_proof_binding; simpl; unfold dget; simpl; rewrite ?expect_string_Ok by done; simpl;
    rewrite ?expect_string_Ok by done; simpl; rewrite ?expect_string_Ok by done; reflexivity.
Qed.

Definition digest_spec (v : string) : dict := [("algorithm", JStr ARTIFACT_HASH_ALGORITHM); ("value", JStr v)].

Lemma Attestation_from_to k id t issuer artifact v sig meta anchors : id <> "" -> datetime_ok t -> PartyRef_wf issuer = true -> v <> "" ->
  SignatureSpec_wf sig = true ->
  let a := mkAttestation id t issuer k artifact (digest_spec v) (_derive_proof_binding artifact) sig meta anchors in
  Attestation_from_dict k (JDict (Attestation_to_dict a)) = Ok a.
Proof.
  intros Hid%str_truthy_iff Ht Hi Hv%str_truthy_iff Hs. cbv zeta. destruct (derived_binding_roundtrip artifact) as [Hp Hn].
  unfold Attestation_from_dict, Attestation_to_dict, attestation_payload. cbn [at_kind at_attestation_id at_issued_at at_issuer at_outcome_artifact
    at_artifact_digest at_proof_binding at_signature at_metadata at_external_anchors]. rewrite Hp. cbn [expect_mapping mbind res_bind].
  unfold dget, dget_default. cbn [assoc String.eqb Ascii.eqb Bool.eqb ATTESTATION_CONTRACT expect_mapping mbind res_bind].
  assert (forall x, is_str (JStr x) x = true) as Hx by (intros; apply String.eqb_refl). rewrite !Hx. cbn [negb orb].
  unfold has_key. cbn [assoc String.eqb Ascii.eqb Bool.eqb].
  assert (_parse_artifact_digest (JDict (digest_spec v)) = Ok (digest_spec v)) as Hd.
  { unfold _parse_artifact_digest, digest_spec. cbn [expect_mapping mbind res_bind]. unfold dget. cbn [assoc String.eqb Ascii.eqb Bool.eqb].
    rewrite expect_string_Ok by done. cbn [mbind res_bind]. by rewrite expect_string_Ok. }
  destruct k; (rewrite expect_string_Ok by done; cbn [mbind res_bind kind_name String.eqb Ascii.eqb Bool.eqb negb]; rewrite expect_string_Ok by done;
    cbn [mbind res_bind]; rewrite parse_format by done; cbn [mbind res_bind]; rewrite roundtrip by done; cbn [expect_mapping mbind res_bind];
    rewrite Hd; cbn [mbind res_bind]; rewrite Hn; cbn [mbind res_bind]; rewrite roundtrip by done;
    cbn [mbind res_bind _parse_optional_metadata expect_mapping _parse_external_anchors]; by rewrite expect_mappings_Ok).
Qed.
End Facts.

(** ** Properties *)

(** What the verification of an attestation accepts, exactly: the document
    reads as an attestation of the expected kind, the digest it carries is the
    hash of the artifact it embeds, the proof it names is the one the artifact
    names (nothing invented and nothing dropped), its anchors verify, and its
    signature is valid for the canonical bytes of all of these.  Two accepted
    attestations signed over the same bytes embed the same artifact, up to the
    order of object keys, under the same name and time. *)
Theorem attestation_exact `{Protocol} (svc : OutcomeAttestationService) (k : attestation_kind) (att : Attestation + json)
    (v : option attestation_verifier) (a b : Attestation) (s : string) :
  (verify_attestation svc k att v = Ok a <->
   resolve_attestation k att = Ok a /\ digest_ok a /\ binding_ok a /\
   exists anchor_time s, _verify_external_anchors (at_external_anchors a) (at_artifact_digest a) (os_external_anchor_verifier svc) = Ok anchor_time /\
     canonicalize_bytes (JDict (attestation_payload a)) DEFAULT_MAX_CANONICAL_OUTPUT_BYTES = Ok s /\
     signature_check (default (os_signer_verifier svc) v) s (at_signature a) (at_issuer a) (at_issued_at a) anchor_time = Ok true) /\
  (canonicalize_bytes (JDict (attestation_payload a)) DEFAULT_MAX_CANONICAL_OUTPUT_BYTES = Ok s ->
   canonicalize_bytes (JDict (attestation_payload b)) DEFAULT_MAX_CANONICAL_OUTPUT_BYTES = Ok s ->
   json_norm (JDict (at_outcome_artifact a)) = json_norm (JDict (at_outcome_artifact b)) /\
   at_attestation_id a = at_attestation_id b /\ kind_name (at_kind a) = kind_name (at_kind b) /\
   format_timestamp (at_issued_at a) = format_timestamp (at_issued_at b)).
Proof.
  split; [apply verify_attestation_Ok|].
  intros [Ha%decode_canon _]%canonicalize_bytes_Ok [Hb%decode_canon _]%canonicalize_bytes_Ok.
  assert (json_norm (JDict (attestation_payload a)) = json_norm (JDict (attestation_payload b))) as Hn by congruence.
  assert (forall k, json_norm <$> assoc k (attestation_payload a) = json_norm <$> assoc k (attestation_payload b)) as Hk.
  { intros key. apply json_norm_assoc; [by apply (bool_decide_unpack _)..|done]. }
  pose proof (Hk "outcome_artifact") as H1. pose proof (Hk "attestation_id") as H2. pose proof (Hk "artifact_type") as H3. pose proof (Hk "issued_at") as H4.
  unfold attestation_payload in *. cbn [assoc String.eqb Ascii.eqb Bool.eqb fmap option_fmap option_map] in H1, H2, H3, H4.
  cbn [json_norm] in H2, H3, H4. split_and!; congruence.
Qed.

(** An artifact that is attested verifies, as the object and as the document
    it prints, and the receipt that was attested is what the verification returns. *)
Theorem attested_verifies `{Protocol} (svc : OutcomeAttestationService) (v : option attestation_verifier) (id : string)
    (receipt : Receipt) (t : datetime) (metadata : option dict) (a : Attestation) :
  attest_receipt svc id receipt t metadata None [] = Ok a ->
  (forall s sig, sg_sign (os_signer svc) s = Ok sig -> SignatureSpec_wf sig = true /\
     signature_check (default (os_signer_verifier svc) v) s sig (os_issuer svc) t None = Ok true) ->
  (forall s, sha256_hexdigest s <> "") -> Receipt_wf receipt -> id <> "" -> datetime_ok t -> PartyRef_wf (os_issuer svc) = true ->
  verify_receipt_attestation svc (inl a) v = Ok (inl receipt) /\
  verify_receipt_attestation svc (inr (JDict (Attestation_to_dict a))) v = Ok (inl receipt).
Proof.
  intros Ha Hsig Hsha Hr Hid Ht Hi. unfold attest_receipt, attest in Ha. apply bind_Ok in Ha as (d & (s & Hs & ->)%build_digest_Ok & Ha). cbv zeta in Ha.
  apply bind_Ok in Ha as (sig & Hsg & Ha). unfold _sign_unsigned_payload in Hsg. apply bind_Ok in Hsg as (p & Hp%canonical_payload_Ok & Hsg).
  destruct (Hsig p sig Hsg) as [Hw Hv]. fold (digest_spec (sha256_hexdigest s)) in Ha.
  pose proof (Attestation_from_to ReceiptKind id t (os_issuer svc) (Receipt_to_dict receipt) (sha256_hexdigest s) sig (default [] metadata) [] Hid Ht Hi (Hsha s) Hw) as Hrt.
  cbv zeta in Hrt. assert (a = mkAttestation id t (os_issuer svc) ReceiptKind (Receipt_to_dict receipt) (digest_spec (sha256_hexdigest s))
    (_derive_proof_binding (Receipt_to_dict receipt)) sig (default [] metadata) []) as Hae by congruence. clear Ha. rewrite <- Hae in Hrt.
  assert (forall att, resolve_attestation ReceiptKind att = Ok a -> verify_attestation svc ReceiptKind att v = Ok a) as Hok.
  { intros att Hres. apply verify_attestation_Ok. split; [done|]. subst a. split; [|split; [done|]].
    - exists s. by split_and!; auto.
    - exists None, p. done. }
  unfold verify_receipt_attestation. rewrite !Hok; [|by rewrite <- Hrt|subst a; done]. cbn [mbind res_bind].
  subst a. cbn [at_outcome_artifact]. by rewrite Receipt_from_to.
Qed.

(** ** Samples *)
Definition demo_hashing : Protocol := {|
  MAX_JSON_DEPTH := 64;
  CANONICALIZATION_PROFILE := "ACTENON-JCS-STRICT-1";
  LEGACY_CANONICALIZATION_PROFILE := "RFC8785-JCS";
  ACCEPTED_CANONICALIZATION_PROFILES := ["ACTENON-JCS-STRICT-1"; "RFC8785-JCS"];
  canonicalisation_error_is_value_error := true;
  sha256_hexdigest := fun s => "h" +:+ s
|}.

Definition demo_att_verifier : attestation_verifier :=
  mkAttVerifier (fun payload s => Ok (String.eqb (sig_value s) (sample_tag payload))) None.
Definition demo_att_service : OutcomeAttestationService := mkAttestationService sample_signer demo_att_verifier sample_issuer None.
Definition demo_receipt : py Receipt :=
  @create_execution_receipt demo_text "rcpt_1" sample_intent sample_context "pccb_1" (JStr "esc_1") None (Some (pc_action_hash sample_pccb)).

Lemma attested_verifies_witness : exists receipt a, demo_receipt = Ok receipt /\
  @attest_receipt demo_hashing demo_att_service "att_1" receipt 63839188800123456 None None [] = Ok a /\
  @verify_receipt_attestation demo_hashing demo_att_service (inr (JDict (Attestation_to_dict a))) None = Ok (inl receipt).
Proof.
  destruct demo_receipt as [receipt|e] eqn:Hr; [|vm_compute in Hr; discriminate Hr].
  destruct (@attest_receipt demo_hashing demo_att_service "att_1" receipt 63839188800123456 None None []) as [a|e] eqn:Ha.
  2: { vm_compute in Hr. injection Hr as <-. vm_compute in Ha. discriminate Ha. }
  exists receipt, a. split; [reflexivity|]. split; [exact Ha|].
  apply (@attested_verifies demo_hashing demo_att_service None "att_1" receipt 63839188800123456 None a Ha).
  - intros s sig [= <-]. split; [reflexivity|]. cbn. by rewrite String.eqb_refl.
  - intros s. discriminate.
  - vm_compute in Hr. injection Hr as <-. vm_compute. repeat split; congruence.
  - discriminate.
  - vm_compute. split; congruence.
  - reflexivity.
Defined.
