(* ===== verification/AnchorLog.v ===== *)
(** * The local anchor log: [anchors/models.py], [anchors/local_log.py]

    A JSON-lines file in which every entry carries the hash of the one before it.
    The file is its lines and what was written after the last newline; the path's
    URI, the fresh identifier of an entry and the clock are arguments.  The text
    form of an entry is [json.dumps] with sorted keys, a parameter ([dump_line]);
    lines are read back with the strict loader.  [ExternalAnchorFormatError] and
    [ExternalAnchorVerificationError] are [ValueError]s.

    The theorems: logs with the same last hash are the same log, entry by entry,
    unless the hash function collides; appending keeps the chain valid; and the
    anchor an append returns verifies from then on, whatever is appended after
    it. *)

From S2P Require Import Prelude Text Json Errors Timestamps Canonical Contracts Runtime Samples ProofService Receipts Artifacts JsonEq.

Definition EXTERNAL_ANCHOR_CONTRACT : json := contract_header "external_anchor".
Definition LOCAL_ANCHOR_LOG_ENTRY_CONTRACT : json := contract_header "local_anchor_log_entry".
Definition LOCAL_APPEND_ONLY_ANCHOR_TYPE : string := "local_append_only_log".

(** ** [anchors/models.py] *)

(** [normalize_artifact_digest] and [_parse_hash_spec], which differ in the name
    of the field. *)
Definition parse_hash_fields (raw : json) (field_name : string) : py dict :=
  data ← expect_mapping raw field_name;
  algorithm ← expect_string (dget data "algorithm") (field_name +:+ ".algorithm");
  value ← expect_string (dget data "value") (field_name +:+ ".value");
  match dget data "canonicalization" with
  | JNull => Ok [("algorithm", JStr algorithm); ("value", JStr value)]
  | c => canonicalization ← expect_string c (field_name +:+ ".canonicalization");
         Ok [("algorithm", JStr algorithm); ("value", JStr value); ("canonicalization", JStr canonicalization)]
  end.

Definition normalize_artifact_digest (raw : json) : py dict := parse_hash_fields raw "artifact_digest".

Definition artifact_digests_match (left right : json) : py bool :=
  left_digest ← normalize_artifact_digest left;
  right_digest ← normalize_artifact_digest right;
  let differ k := negb (py_eqb (dget left_digest k) (dget right_digest k)) in
  Ok (if differ "algorithm" then false
      else if differ "value" then false
      else if not_none (dget left_digest "canonicalization") && not_none (dget right_digest "canonicalization")
      then negb (differ "canonicalization") else true).

(** [isinstance(raw, int) and raw > 0] *)
Definition _parse_positive_sequence (raw : json) : py Z :=
  match py_int_of raw with
  | Some z => if (z <=? 0)%Z then Err (ValueError "external anchor sequence must be a positive integer") else Ok z
  | None => Err (ValueError "external anchor sequence must be a positive integer")
  end.

Record ExternalAnchor := mkExternalAnchor {
  xa_anchor_id : string; xa_anchor_type : string; xa_artifact_digest : dict; xa_anchored_at : datetime; xa_log_uri : string;
  xa_sequence : Z; xa_entry_hash : dict; xa_previous_entry_hash : option dict; xa_artifact_type : option string;
  xa_artifact_id : option string; xa_metadata : dict
}.

(** [x if isinstance(x, str) else None] *)
Definition only_str (j : json) : option string := match j with JStr s => Some s | _ => None end.

Definition opt_json {A} (f : A -> json) (x : option A) : json := match x with Some a => f a | None => JNull end.

Definition ExternalAnchor_from_dict (raw : json) : py ExternalAnchor :=
  data ← expect_mapping raw "external_anchor";
  contract ← expect_mapping (dget data "contract") "external_anchor.contract";
  if negb (is_str (dget contract "name") "external_anchor") || negb (is_str (dget contract "version") "v1")
  then Err (ValueError "external anchor contract must declare external_anchor v1")
  else
    let previous := dget data "previous_entry_hash" in
    let metadata := dget_default data "metadata" (JDict []) in
    anchor_id ← expect_string (dget data "anchor_id") "external_anchor.anchor_id";
    anchor_type ← expect_string (dget data "anchor_type") "external_anchor.anchor_type";
    artifact_digest ← normalize_artifact_digest (dget data "artifact_digest");
    anchored_at ← parse_timestamp (dget data "anchored_at") "external_anchor.anchored_at";
    log_uri ← expect_string (dget data "log_uri") "external_anchor.log_uri";
    sequence ← _parse_positive_sequence (dget data "sequence");
    entry_hash ← parse_hash_fields (dget data "entry_hash") "external_anchor.entry_hash";
    previous_entry_hash ← match previous with
                          | JNull => Ok None
                          | p => h ← parse_hash_fields p "external_anchor.previous_entry_hash"; Ok (Some h)
                          end;
    meta ← (if py_truthy metadata then expect_mapping metadata "external_anchor.metadata" else Ok []);
    Ok (mkExternalAnchor anchor_id anchor_type artifact_digest anchored_at log_uri sequence entry_hash previous_entry_hash
          (only_str (dget data "artifact_type")) (only_str (dget data "artifact_id")) meta).

Definition ExternalAnchor_to_dict (a : ExternalAnchor) : dict :=
  [("contract", EXTERNAL_ANCHOR_CONTRACT); ("anchor_id", JStr (xa_anchor_id a)); ("anchor_type", JStr (xa_anchor_type a));
   ("artifact_digest", JDict (xa_artifact_digest a)); ("anchored_at", JStr (format_timestamp (xa_anchored_at a)));
   ("log_uri", JStr (xa_log_uri a)); ("sequence", JInt (xa_sequence a)); ("entry_hash", JDict (xa_entry_hash a))] ++
  json_item "previous_entry_hash" (opt_json JDict (xa_previous_entry_hash a)) ++
  json_item "artifact_type" (opt_json JStr (xa_artifact_type a)) ++
  json_item "artifact_id" (opt_json JStr (xa_artifact_id a)) ++
  dict_item "metadata" (xa_metadata a).

(** [==] of two anchors, field by field; dicts are compared up to order. *)
Definition anchor_eqb (a b : ExternalAnchor) : bool :=
  String.eqb (xa_anchor_id a) (xa_anchor_id b) && String.eqb (xa_anchor_type a) (xa_anchor_type b) &&
  py_eqb (JDict (xa_artifact_digest a)) (JDict (xa_artifact_digest b)) && (xa_anchored_at a =? xa_anchored_at b)%Z &&
  String.eqb (xa_log_uri a) (xa_log_uri b) && (xa_sequence a =? xa_sequence b)%Z &&
  py_eqb (JDict (xa_entry_hash a)) (JDict (xa_entry_hash b)) &&
  py_eqb (opt_json JDict (xa_previous_entry_hash a)) (opt_json JDict (xa_previous_entry_hash b)) &&
  bool_decide (xa_artifact_type a = xa_artifact_type b) && bool_decide (xa_artifact_id a = xa_artifact_id b) &&
  py_eqb (JDict (xa_metadata a)) (JDict (xa_metadata b)).

(** ** [anchors/local_log.py] *)
Section Log.
Context `{Protocol} `{PyText} `{Platform}.

Definition _hash_spec (value : dict) : py dict :=
  v ← sha256_hex (JDict value);
  Ok [("algorithm", JStr "sha-256"); ("canonicalization", JStr CANONICALIZATION_PROFILE); ("value", JStr v)].

(** [payload.pop("entry_hash", None)] *)
Definition _entry_hash_payload (entry : dict) : dict := List.filter (fun kv => negb (String.eqb kv.1 "entry_hash")) entry.

Definition _compute_entry_hash (entry : dict) : py dict := _hash_spec (_entry_hash_payload entry).

Definition _entry_anchor (entry : dict) : py ExternalAnchor :=
  anchor_id ← getitem entry "anchor_id";
  anchor_type ← getitem entry "anchor_type";
  raw_digest ← getitem entry "artifact_digest";
  artifact_digest ← normalize_artifact_digest raw_digest;
  raw_at ← getitem entry "anchored_at";
  anchored_at ← parse_timestamp raw_at "anchored_at";
  log_uri ← getitem entry "log_uri";
  raw_sequence ← getitem entry "sequence";
  sequence ← py_int raw_sequence;
  raw_hash ← getitem entry "entry_hash";
  entry_hash ← expect_mapping raw_hash "entry_hash";
  previous_entry_hash ← match dget entry "previous_entry_hash" with
                        | JNull => Ok None
                        | p => h ← expect_mapping p "previous_entry_hash"; Ok (Some h)
                        end;
  metadata ← (if py_truthy (dget entry "metadata") then expect_mapping (dget entry "metadata") "metadata" else Ok []);
  Ok (mkExternalAnchor (py_str anchor_id) (py_str anchor_type) artifact_digest anchored_at (py_str log_uri) sequence entry_hash
        previous_entry_hash (only_str (dget entry "artifact_type")) (only_str (dget entry "artifact_id")) metadata).

(** The chain check: contract, type, sequence, link and hash of every entry. *)
Fixpoint validate_from (index : Z) (previous_hash : json) (entries : list dict) : py unit :=
  match entries with
  | [] => Ok tt
  | entry :: entries =>
      if negb (py_eqb (dget entry "contract") LOCAL_ANCHOR_LOG_ENTRY_CONTRACT)
      then Err (ValueError "local anchor log entry contract is unsupported")
      else if negb (is_str (dget entry "anchor_type") LOCAL_APPEND_ONLY_ANCHOR_TYPE)
      then Err (ValueError "local anchor log entry anchor_type is unsupported")
      else if negb (py_eqb (dget entry "sequence") (JInt index)) then Err (ValueError "local anchor log sequence is not contiguous")
      else if negb (py_eqb (dget entry "previous_entry_hash") previous_hash)
      then Err (ValueError "local anchor log hash chain is broken")
      else
        expected_hash ← _compute_entry_hash entry;
        if negb (py_eqb (dget entry "entry_hash") (JDict expected_hash))
        then Err (ValueError "local anchor log entry hash does not match")
        else validate_from (index + 1) (JDict expected_hash) entries
  end.

Definition _validate_chain (entries : list dict) : py unit := validate_from 1 JNull entries.

(** The file: its complete lines, and an unterminated last one. *)
Record log_file := mkLogFile { lf_lines : list string; lf_partial : string }.

Definition log_lines (f : option log_file) : list string :=
  match f with
  | None => []
  | Some f => lf_lines f ++ (if str_truthy (lf_partial f) then [lf_partial f] else [])
  end.

(** One non-blank line. *)
Definition read_entry (line : string) : py dict :=
  match loads_no_duplicate_keys platform_parse_text platform_utf8_valid (RawStr (py_strip line)) DEFAULT_MAX_JSON_BYTES DEFAULT_MAX_JSON_DEPTH with
  | Err _ => Err (ValueError "local anchor log line is not valid JSON")
  | Ok (JDict d) => Ok d
  | Ok _ => Err (ValueError "local anchor log line must be a JSON object")
  end.

Definition parse_entries (lines : list string) : py (list dict) :=
  res_mapM read_entry (List.filter (fun line => str_truthy (py_strip line)) lines).

Definition _read_entries (f : option log_file) : py (list dict) :=
  entries ← parse_entries (log_lines f);
  _ ← _validate_chain entries;
  Ok entries.

Context (dump_line : dict -> string).

(** [open("a")]: an unterminated last line is continued. *)
Definition _append_entry (entry : dict) (f : option log_file) : option log_file :=
  match f with
  | None => Some (mkLogFile [dump_line entry] "")
  | Some f => Some (mkLogFile (lf_lines f ++ [lf_partial f +:+ dump_line entry]) "")
  end.

Record anchor_request := mkAnchorRequest {
  aq_artifact_digest : json; aq_artifact_type : json; aq_artifact_id : json; aq_anchored_at : datetime; aq_metadata : option dict
}.

(** The entry before its hash is added. *)
Definition new_entry (log_uri uuid : string) (digest : dict) (r : anchor_request) (sequence : Z) (previous_hash : json) : dict :=
  [("contract", LOCAL_ANCHOR_LOG_ENTRY_CONTRACT); ("anchor_contract", EXTERNAL_ANCHOR_CONTRACT);
   ("anchor_id", JStr ("anc_local_" +:+ uuid)); ("anchor_type", JStr LOCAL_APPEND_ONLY_ANCHOR_TYPE);
   ("artifact_digest", JDict digest); ("anchored_at", JStr (format_timestamp (aq_anchored_at r)));
   ("log_uri", JStr log_uri); ("sequence", JInt sequence); ("previous_entry_hash", previous_hash)] ++
  json_item "artifact_type" (aq_artifact_type r) ++
  json_item "artifact_id" (aq_artifact_id r) ++
  dict_item "metadata" (default [] (aq_metadata r)).

(** [existing_entries[-1]["entry_hash"] if existing_entries else None] *)
Definition last_hash (entries : list dict) : py json :=
  match last entries with None => Ok JNull | Some e => getitem e "entry_hash" end.

(** The entry an append writes, hash included. *)
Definition anchor_entry (log_uri uuid : string) (r : anchor_request) (f : option log_file) : py dict :=
  digest ← normalize_artifact_digest (aq_artifact_digest r);
  existing_entries ← _read_entries f;
  previous_hash ← last_hash existing_entries;
  let entry := new_entry log_uri uuid digest r (Z.of_nat (length existing_entries) + 1) previous_hash in
  entry_hash ← _compute_entry_hash entry;
  Ok (entry ++ [("entry_hash", JDict entry_hash)]).

Definition anchor_artifact_digest (log_uri uuid : string) (r : anchor_request) : M exn (option log_file) ExternalAnchor :=
  f ← gets id;
  entry ← lift (anchor_entry log_uri uuid r f);
  _ ← modify (_append_entry entry);
  lift (_entry_anchor entry).

(** What the log uses of an attestation. *)
Record attested := mkAttested {
  att_artifact_digest : json; att_artifact_type : json; att_artifact_id : json; att_external_anchors : list json
}.

Definition anchor_attestation (log_uri uuid : string) (a : attested) (anchored_at : datetime) (metadata : option dict)
    : M exn (option log_file) ExternalAnchor :=
  anchor_artifact_digest log_uri uuid
    (mkAnchorRequest (att_artifact_digest a) (att_artifact_type a) (att_artifact_id a) anchored_at metadata).

Definition append_anchor_to_attestation (log_uri uuid : string) (a : attested) (anchored_at : datetime) (metadata : option dict)
    : M exn (option log_file) attested :=
  anchor ← anchor_attestation log_uri uuid a anchored_at metadata;
  mret (mkAttested (att_artifact_digest a) (att_artifact_type a) (att_artifact_id a)
          (att_external_anchors a ++ [JDict (ExternalAnchor_to_dict anchor)])).

(** [entries[i]] of a Python list: a negative index counts from the end. *)
Definition py_index {A} (l : list A) (i : Z) : py A :=
  let j := if (i <? 0)%Z then (i + Z.of_nat (length l))%Z else i in
  if (j <? 0)%Z then Err (OtherError "IndexError")
  else match l !! Z.to_nat j with Some a => Ok a | None => Err (OtherError "IndexError") end.

Definition verify_external_anchor (log_uri : string) (anchor : ExternalAnchor + json) (artifact_digest : json) (f : option log_file)
    : py ExternalAnchor :=
  parsed_anchor ← match anchor with inl a => Ok a | inr raw => ExternalAnchor_from_dict raw end;
  if negb (String.eqb (xa_anchor_type parsed_anchor) LOCAL_APPEND_ONLY_ANCHOR_TYPE)
  then Err (ValueError "unsupported external anchor type")
  else if negb (String.eqb (xa_log_uri parsed_anchor) log_uri)
  then Err (ValueError "external anchor points at a different local log")
  else
    same ← artifact_digests_match (JDict (xa_artifact_digest parsed_anchor)) artifact_digest;
    if negb same then Err (ValueError "external anchor artifact_digest does not match the signed artifact_digest")
    else
      entries ← _read_entries f;
      if (Z.of_nat (length entries) <? xa_sequence parsed_anchor)%Z
      then Err (ValueError "external anchor sequence is not present in the local log")
      else
        entry ← py_index entries (xa_sequence parsed_anchor - 1);
        entry_anchor ← _entry_anchor entry;
        if negb (anchor_eqb entry_anchor parsed_anchor) then Err (ValueError "external anchor does not match the local log entry")
        else Ok parsed_anchor.
End Log.

(** ** The chain binds its entries *)
Section Chain.
Context `{Protocol}.

(** The bytes that are hashed for an entry. *)
Definition entry_bytes (entry : dict) : option string :=
  match canonicalize_bytes (JDict (_entry_hash_payload entry)) DEFAULT_MAX_CANONICAL_OUTPUT_BYTES with Ok s => Some s | Err _ => None end.

Definition hash_spec (v : string) : dict :=
  [("algorithm", JStr "sha-256"); ("canonicalization", JStr CANONICALIZATION_PROFILE); ("value", JStr v)].

Lemma compute_entry_hash_Ok entry h : _compute_entry_hash entry = Ok h <->
  exists s, entry_bytes entry = Some s /\ h = hash_spec (sha256_hexdigest s).
Proof.
  unfold _compute_entry_hash, _hash_spec, entry_bytes, hash_spec. rewrite bind_Ok. setoid_rewrite sha256_hex_Ok.
  destruct (canonicalize_bytes _ _) as [s|]; naive_solver.
Qed.

(** No two entries of the logs hash to the same value. *)
Definition no_collision (entries : list dict) : Prop :=
  forall e e' s s', e ∈ entries -> e' ∈ entries -> entry_bytes e = Some s -> entry_bytes e' = Some s' ->
    sha256_hexdigest s = sha256_hexdigest s' -> s = s'.

Lemma py_eqb_int_unique j n m : py_eqb j (JInt n) = true -> py_eqb j (JInt m) = true -> n = m.
Proof.
  destruct j as [|b|z|f|s|l|d]; simpl; try done.
  - intros H1%Z.eqb_eq H2%Z.eqb_eq. lia.
  - intros H1%Z.eqb_eq H2%Z.eqb_eq. lia.
  - unfold float_int_eqb. destruct (float_to_int f); [|done]. intros H1%Z.eqb_eq H2%Z.eqb_eq. lia.
Qed.

(** A dict that equals a hash in Python's sense has its [value]. *)
Lemma py_eqb_hash_spec d v : NoDup d.*1 -> py_eqb (JDict d) (JDict (hash_spec v)) = true -> assoc "value" d = Some (JStr v).
Proof.
  intros Hnd Heq. unfold hash_spec in Heq. cbn [py_eqb] in Heq. apply andb_true_iff in Heq as [Hlen%Nat.eqb_eq Hall].
  set (spec := [("algorithm", JStr "sha-256"); ("canonicalization", JStr CANONICALIZATION_PROFILE); ("value", JStr v)]) in *.
  assert (forall k x, (k, x) ∈ d -> exists y, assoc k spec = Some y /\ py_eqb x y = true) as Hk.
  { clear Hnd Hlen. induction d as [|[k x] d IH]; [by intros ?? ?%elem_of_nil|]. apply andb_true_iff in Hall as [Hx Hall].
    intros k' x' [[= -> ->]|Hin]%elem_of_cons; [|by apply IH]. destruct (assoc k spec) as [y|]; [by exists y|done]. }
  assert ("value" ∈ d.*1) as Hin.
  { apply list_elem_of_In. assert (incl spec.*1 d.*1) as Hincl.
    { apply NoDup_length_incl; [by apply NoDup_ListNoDup|rewrite !length_fmap, Hlen; done|].
      intros k [[k' x] [-> Hin]]%list_elem_of_In%list_elem_of_fmap. destruct (Hk _ _ Hin) as (y & Hy & _).
      apply list_elem_of_In, list_elem_of_fmap. exists (k', y). split; [done|]. by apply assoc_Some_elem. }
    apply Hincl. simpl. auto. }
  apply list_elem_of_fmap in Hin as ([k x] & Hkx & Hin). simpl in Hkx. subst k. destruct (Hk _ _ Hin) as (y & [= <-] & Hy).
  apply py_eqb_str_r in Hy as ->. by apply elem_assoc.
Qed.

Lemma payload_dget entry k : k <> "entry_hash" -> dget (_entry_hash_payload entry) k = dget entry k.
Proof.
  intros Hk. unfold dget, _entry_hash_payload. induction entry as [|[k' v] entry IH]; [done|]. simpl.
  destruct (String.eqb_spec k' "entry_hash") as [->|Hne]; simpl.
  - rewrite (proj2 (String.eqb_neq k "entry_hash")) by done. done.
  - destruct (String.eqb k k'); [done|apply IH].
Qed.

Lemma payload_wf entry : json_wf (JDict entry) -> json_wf (JDict (_entry_hash_payload entry)).
Proof.
  rewrite !json_wf_dict. unfold _entry_hash_payload. intros [Hnd Hall]. split.
  - clear Hall. induction entry as [|[k v] entry IH]; [constructor|]. csimpl in *. apply NoDup_cons in Hnd as [Hni Hnd].
    destruct (negb _); [|by apply IH]. csimpl. apply NoDup_cons. split; [|by apply IH].
    intros Hin. apply Hni. apply list_elem_of_fmap in Hin as (kv & -> & Hin). apply list_elem_of_fmap. exists kv. split; [done|].
    apply list_elem_of_In in Hin. apply filter_In in Hin as [Hin _]. by apply list_elem_of_In.
  - clear Hnd. induction Hall as [|kv entry Hkv _ IH]; [constructor|]. simpl. by destruct (negb _); [constructor|].
Qed.

(** Equal hashes, equal payloads. *)
Lemma same_bytes_same_payload e e' s : entry_bytes e = Some s -> entry_bytes e' = Some s ->
  json_norm (JDict (_entry_hash_payload e)) = json_norm (JDict (_entry_hash_payload e')).
Proof.
  unfold entry_bytes. intros He He'. destruct (canonicalize_bytes (JDict (_entry_hash_payload e)) _) eqn:Hc; [|done].
  destruct (canonicalize_bytes (JDict (_entry_hash_payload e')) _) eqn:Hc'; [|done]. simplify_eq.
  apply canonicalize_bytes_Ok in Hc as [Hc%decode_canon _]. apply canonicalize_bytes_Ok in Hc' as [Hc'%decode_canon _]. congruence.
Qed.

Lemma norm_dget (a b : dict) k : json_wf (JDict a) -> json_wf (JDict b) -> json_norm (JDict a) = json_norm (JDict b) ->
  json_norm (dget a k) = json_norm (dget b k).
Proof.
  rewrite !json_wf_dict. intros [Ha _] [Hb _] He. pose proof (json_norm_assoc a b k Ha Hb He) as Hn. unfold dget.
  destruct (assoc k a), (assoc k b); simpl in Hn; congruence.
Qed.

Lemma dget_wf (a : dict) k : json_wf (JDict a) -> json_wf (dget a k).
Proof.
  rewrite json_wf_dict. intros [_ Hall]. unfold dget. destruct (assoc k a) eqn:Hk; [|done]. apply assoc_Some_elem in Hk.
  rewrite Forall_forall in Hall. apply (Hall _ Hk).
Qed.

Lemma validate_cons index prev a l : validate_from index prev (a :: l) = Ok tt <->
  validate_from index prev [a] = Ok tt /\ exists h, _compute_entry_hash a = Ok h /\ validate_from (index + 1) (JDict h) l = Ok tt.
Proof.
  cbn [validate_from]. destruct (negb (py_eqb (dget a "contract") _)); [split; [done|by intros [? _]]|].
  destruct (negb (is_str _ _)); [split; [done|by intros [? _]]|].
  destruct (negb (py_eqb (dget a "sequence") _)); [split; [done|by intros [? _]]|].
  destruct (negb (py_eqb (dget a "previous_entry_hash") _)); [split; [done|by intros [? _]]|].
  destruct (_compute_entry_hash a) as [h|e]; cbn [mbind res_bind]; [|split; [done|by intros [? _]]].
  destruct (negb (py_eqb _ (JDict h))); [split; [done|by intros [? _]]|]. split; [by eauto|]. by intros (_ & h' & [= <-] & Hv).
Qed.

(** A valid chain read from its end: the last entry, and the chain before it. *)
Lemma validate_snoc index prev entries e : validate_from index prev (entries ++ [e]) = Ok tt <->
  validate_from index prev entries = Ok tt /\
  exists link, (match last entries with None => link = prev | Some e' => exists h, _compute_entry_hash e' = Ok h /\ link = JDict h end) /\
    validate_from (index + Z.of_nat (length entries)) link [e] = Ok tt.
Proof.
  revert index prev. induction entries as [|a entries IH]; intros index prev.
  - cbn [app length last]. replace (index + Z.of_nat 0)%Z with index by lia. split; [|by intros (_ & link & -> & ?)].
    intros Hv. split; [done|]. by exists prev.
  - cbn [app length]. rewrite (validate_cons index prev a (entries ++ [e])), (validate_cons index prev a entries).
    replace (index + Z.of_nat (S (length entries)))%Z with (index + 1 + Z.of_nat (length entries))%Z by lia. split.
    + intros (Ha & h & Hh & (Hv & link & Hl & Hlast)%IH). split; [eauto|]. exists link. split; [|done].
      destruct entries as [|b entries]; [by exists h|]. rewrite last_cons_cons. destruct (last (b :: entries)) eqn:Hb; [done|]. by apply last_None in Hb.
    + intros ((Ha & h & Hh & Hv) & link & Hl & Hlast). split; [done|]. exists h. split; [done|]. apply IH. split; [done|].
      exists link. split; [|done]. destruct entries as [|b entries]; [destruct Hl as (h' & Hh' & ->); simpl; congruence|].
      rewrite last_cons_cons in Hl. destruct (last (b :: entries)) eqn:Hb; [done|]. by apply last_None in Hb.
Qed.

Lemma validate_single index link e : validate_from index link [e] = Ok tt <->
  py_eqb (dget e "contract") LOCAL_ANCHOR_LOG_ENTRY_CONTRACT = true /\ is_str (dget e "anchor_type") LOCAL_APPEND_ONLY_ANCHOR_TYPE = true /\
  py_eqb (dget e "sequence") (JInt index) = true /\ py_eqb (dget e "previous_entry_hash") link = true /\
  exists s, entry_bytes e = Some s /\ py_eqb (dget e "entry_hash") (JDict (hash_spec (sha256_hexdigest s))) = true.
Proof.
  cbn [validate_from].
  destruct (py_eqb (dget e "contract") _); [|split; [done|by intros (? & _)]]. destruct (is_str _ _); [|split; [done|by intros (_ & ? & _)]].
  destruct (py_eqb (dget e "sequence") _); [|split; [done|by intros (_ & _ & ? & _)]].
  destruct (py_eqb (dget e "previous_entry_hash") _); [|split; [done|by intros (_ & _ & _ & ? & _)]]. cbn [negb].
  rewrite bind_Ok. setoid_rewrite compute_entry_hash_Ok. split.
  - intros (h & (s & Hs & ->) & Hv). split_and!; [done..|]. exists s. split; [done|]. by destruct (py_eqb _ (JDict _)).
  - intros (_ & _ & _ & _ & s & Hs & Hv). exists (hash_spec (sha256_hexdigest s)). split; [by exists s|]. by rewrite Hv.
Qed.

(** The hash that stands for a whole log. *)
Definition head_hash (entries : list dict) : json :=
  match last entries with
  | Some e => match dget e "entry_hash" with JDict d => dget d "value" | _ => JNull end
  | None => JNull
  end.

Definition chain_ok (entries : list dict) : Prop := _validate_chain entries = Ok tt.
Definition entries_wf (entries : list dict) : Prop := Forall (fun e => json_wf (JDict e)) entries.

Definition same_payload (e e' : dict) : Prop := json_norm (JDict (_entry_hash_payload e)) = json_norm (JDict (_entry_hash_payload e')).

Lemma py_eqb_dict_inv j d : py_eqb j (JDict d) = true -> exists d', j = JDict d'.
Proof. destruct j as [| | |f| | |d0]; simpl; try done; by eauto. Qed.

(** A value that equals a hash carries its hexadecimal value. *)
Lemma hash_value_of j v : json_wf j -> py_eqb j (JDict (hash_spec v)) = true ->
  exists d, j = JDict d /\ NoDup d.*1 /\ dget d "value" = JStr v.
Proof.
  intros Hw He. destruct (py_eqb_dict_inv _ _ He) as (d & ->). apply json_wf_dict in Hw as [Hnd _]. exists d. split; [done|].
  split; [done|]. unfold dget. by rewrite (py_eqb_hash_spec d v).
Qed.

Lemma chain_last entries e : chain_ok (entries ++ [e]) -> json_wf (JDict e) ->
  chain_ok entries /\ exists s, entry_bytes e = Some s /\ head_hash (entries ++ [e]) = JStr (sha256_hexdigest s) /\
  py_eqb (dget e "sequence") (JInt (1 + Z.of_nat (length entries))) = true /\
  match last entries with
  | None => True
  | Some e' => exists s', entry_bytes e' = Some s' /\ py_eqb (dget e "previous_entry_hash") (JDict (hash_spec (sha256_hexdigest s'))) = true
  end.
Proof.
  intros Hv Hw. unfold chain_ok, _validate_chain in *. apply validate_snoc in Hv as (Hv & link & Hl & Hlast). split; [done|].
  apply validate_single in Hlast as (_ & _ & Hseq & Hprev & s & Hs & Hh). exists s. split; [done|]. split; [|split; [done|]].
  - unfold head_hash. rewrite last_snoc. destruct (hash_value_of _ _ (dget_wf e "entry_hash" Hw) Hh) as (d & -> & _ & Hd). done.
  - destruct (last entries) as [e'|]; [|done]. destruct Hl as (h & Hh' & ->). apply compute_entry_hash_Ok in Hh' as (s' & Hs' & ->).
    by exists s'.
Qed.

Lemma no_collision_sub entries entries' : (forall e, e ∈ entries' -> e ∈ entries) -> no_collision entries -> no_collision entries'.
Proof. intros Hsub Hn e e' s s' He He'. apply Hn; auto. Qed.

(** The payloads link to the same predecessor. *)
Lemma same_link e e' v v' : json_wf (JDict e) -> json_wf (JDict e') -> same_payload e e' ->
  py_eqb (dget e "previous_entry_hash") (JDict (hash_spec v)) = true ->
  py_eqb (dget e' "previous_entry_hash") (JDict (hash_spec v')) = true -> v = v'.
Proof.
  intros Hw Hw' Hs He He'. pose proof (norm_dget _ _ "previous_entry_hash" (payload_wf _ Hw) (payload_wf _ Hw') Hs) as Hn.
  rewrite !payload_dget in Hn by done. pose proof (dget_wf e "previous_entry_hash" Hw) as Hd. pose proof (dget_wf e' "previous_entry_hash" Hw') as Hd'.
  destruct (hash_value_of _ _ Hd He) as (d & Ed & _ & Hv). destruct (hash_value_of _ _ Hd' He') as (d' & Ed' & _ & Hv').
  rewrite Ed, Ed' in Hn. rewrite Ed in Hd. rewrite Ed' in Hd'. pose proof (norm_dget d d' "value" Hd Hd' Hn) as Hval.
  rewrite Hv, Hv' in Hval. simpl in Hval. congruence.
Qed.

Lemma json_norm_int j n : py_eqb j (JInt n) = true -> json_norm j = j.
Proof. by destruct j. Qed.

Lemma entries_wf_snoc entries e : entries_wf (entries ++ [e]) <-> entries_wf entries /\ json_wf (JDict e).
Proof. unfold entries_wf. by rewrite Forall_app, Forall_singleton. Qed.

Lemma chain_binds l1 l2 : chain_ok l1 -> chain_ok l2 -> entries_wf l1 -> entries_wf l2 -> no_collision (l1 ++ l2) ->
  head_hash l1 = head_hash l2 -> Forall2 same_payload l1 l2.
Proof.
  revert l2. induction l1 as [|e l1 IH] using rev_ind; intros l2 H1 H2 W1 W2 Hnc Hh.
  - destruct l2 as [|e' l2 _] using rev_ind; [constructor|]. apply entries_wf_snoc in W2 as [_ W2].
    destruct (chain_last _ _ H2 W2) as (_ & s & _ & Hs & _). rewrite Hs in Hh. done.
  - apply entries_wf_snoc in W1 as [W1 We]. destruct (chain_last _ _ H1 We) as (C1 & s & Hs & Hhd & Hseq & Hprev).
    destruct l2 as [|e' l2 _] using rev_ind; [rewrite Hhd in Hh; done|]. apply entries_wf_snoc in W2 as [W2 We'].
    destruct (chain_last _ _ H2 We') as (C2 & s' & Hs' & Hhd' & Hseq' & Hprev').
    rewrite Hhd, Hhd' in Hh. injection Hh as Hh.
    assert (s = s') as <- by (apply (Hnc e e'); [set_solver..|done|done|done]).
    assert (same_payload e e') as Hsp by (by eapply same_bytes_same_payload).
    assert (length l1 = length l2) as Hlen.
    { pose proof (norm_dget _ _ "sequence" (payload_wf _ We) (payload_wf _ We') Hsp) as Hn. rewrite !payload_dget in Hn by done.
      rewrite (json_norm_int _ _ Hseq), (json_norm_int _ _ Hseq') in Hn. rewrite Hn in Hseq.
      pose proof (py_eqb_int_unique _ _ _ Hseq Hseq'). lia. }
    apply Forall2_app; [|by constructor]. apply IH; try done.
    + eapply no_collision_sub; [|exact Hnc]. set_solver.
    + destruct l1 as [|e1 l1 _] using rev_ind; [by destruct l2|]. destruct l2 as [|e2 l2 _] using rev_ind; [rewrite length_app in Hlen; simpl in Hlen; lia|].
      apply entries_wf_snoc in W1 as [_ We1]. apply entries_wf_snoc in W2 as [_ We2].
      destruct (chain_last _ _ C1 We1) as (_ & s1 & Hs1 & -> & _). destruct (chain_last _ _ C2 We2) as (_ & s2 & Hs2 & -> & _).
      rewrite last_snoc in Hprev, Hprev'. destruct Hprev as (s1' & E1 & Hp1). destruct Hprev' as (s2' & E2 & Hp2).
      rewrite Hs1 in E1. rewrite Hs2 in E2. injection E1 as <-. injection E2 as <-.
      by rewrite (same_link e e' _ _ We We' Hsp Hp1 Hp2).
Qed.
End Chain.

(** ** Reading back what was appended *)
Lemma payload_perm (l l' : dict) : l ≡ₚ l' -> _entry_hash_payload l ≡ₚ _entry_hash_payload l'.
Proof.
  unfold _entry_hash_payload. induction 1 as [|x l l' _ IH|x y l|l1 l2 l3 _ IH1 _ IH2]; simpl; [done| | |by etrans].
  - by destruct (negb _); [constructor|].
  - destruct (negb (String.eqb y.1 _)), (negb (String.eqb x.1 _)); done || apply perm_swap.
Qed.

Section Normalised.
Context `{Protocol} `{PyText}.
Context (e e' : dict) (Hwf : json_wf (JDict e)) (Hnorm : JDict e' = json_norm (JDict e)).

Lemma norm_entry_eq : e' = map (fun kv => (kv.1, json_norm kv.2)) (ksort e).
Proof. rewrite json_norm_dict in Hnorm. congruence. Qed.

Lemma assoc_norm k : assoc k e' = json_norm <$> assoc k e.
Proof.
  rewrite norm_entry_eq, assoc_map. apply json_wf_dict in Hwf as [Hnd _]. by rewrite (assoc_perm k e (ksort e)) by (done || by rewrite ksort_perm).
Qed.

Lemma dget_norm k : dget e' k = json_norm (dget e k).
Proof. unfold dget. rewrite assoc_norm. by destruct (assoc k e). Qed.

Lemma payload_norm : json_norm (JDict (_entry_hash_payload e')) = json_norm (JDict (_entry_hash_payload e)).
Proof.
  assert (_entry_hash_payload e' = map (fun kv => (kv.1, json_norm kv.2)) (_entry_hash_payload (ksort e))) as ->.
  { rewrite norm_entry_eq. unfold _entry_hash_payload. generalize (ksort e) as l. induction l as [|[k v] l IH]; [done|]. simpl.
    destruct (negb _); simpl; congruence. }
  pose proof (payload_wf e Hwf) as Hp. apply json_wf_dict in Hp as [Hnd Hall].
  assert (_entry_hash_payload (ksort e) ≡ₚ _entry_hash_payload e) as Hperm.
  { apply payload_perm, ksort_perm. }
  rewrite !json_norm_dict. f_equal. rewrite ksort_fmap, map_map. rewrite (ksort_unique (_entry_hash_payload (ksort e)) (_entry_hash_payload e));
    [|by rewrite Hperm|done].
  apply map_ext_in. intros [k v] Hin%list_elem_of_In. rewrite ksort_perm in Hin. simpl. f_equal. apply json_norm_idemp.
  rewrite Forall_forall in Hall. apply (Hall _ Hin).
Qed.

Lemma norm_wf : json_wf (JDict e').
Proof. rewrite Hnorm. by apply json_wf_norm. Qed.

Lemma entry_bytes_norm : entry_bytes e' = entry_bytes e.
Proof.
  unfold entry_bytes, canonicalize_bytes. rewrite (canonicalize_json_norm _ (JDict (_entry_hash_payload e))); [done|..].
  - apply payload_wf, norm_wf.
  - by apply payload_wf.
  - apply payload_norm.
Qed.

Lemma validate_norm i link : validate_from i link [e] = Ok tt -> validate_from i link [e'] = Ok tt.
Proof.
  rewrite !validate_single, !dget_norm, entry_bytes_norm.
  assert (forall k w, py_eqb (json_norm (dget e k)) w = py_eqb (dget e k) w) as Heq by (intros; by apply py_eqb_norm_l, dget_wf).
  setoid_rewrite Heq. assert (forall j s, is_str (json_norm j) s = is_str j s) as -> by (by intros []). done.
Qed.
End Normalised.

(** Parsing a hash again, from what parsing gave or from its sorted form. *)
Lemma parse_hash_fields_idem raw f g d : parse_hash_fields raw f = Ok d -> parse_hash_fields (JDict d) g = Ok d.
Proof.
  unfold parse_hash_fields. intros (data & _ & Hd)%bind_Ok. apply bind_Ok in Hd as (a & Ha & Hd). apply bind_Ok in Hd as (v & Hv & Hd).
  apply expect_string_inv in Ha as [_ Ha]. apply expect_string_inv in Hv as [_ Hv]. cbn [expect_mapping mbind res_bind].
  destruct (dget data "canonicalization"); [injection Hd as <-|..];
    try (apply bind_Ok in Hd as (c & Hc & Hd); apply expect_string_inv in Hc as [_ Hc]; injection Hd as <-);
    unfold dget; simpl; rewrite !expect_string_Ok by done; simpl; rewrite ?expect_string_Ok by done; done.
Qed.

Lemma expect_string_norm j f : expect_string (json_norm j) f = expect_string j f.
Proof. by destruct j. Qed.

Lemma parse_hash_fields_norm raw f : json_wf raw -> parse_hash_fields (json_norm raw) f = parse_hash_fields raw f.
Proof.
  intros Hw. unfold parse_hash_fields. destruct raw as [| | | | | |d]; try done.
  destruct (json_norm (JDict d)) as [| | | | | |d'] eqn:Hn; try (by rewrite json_norm_dict in Hn). cbn [expect_mapping mbind res_bind].
  rewrite !(dget_norm d d' Hw (eq_sym Hn)), !expect_string_norm. destruct (expect_string _ (f +:+ ".algorithm")); [|done]. cbn [mbind res_bind].
  destruct (expect_string _ (f +:+ ".value")); [|done]. cbn [mbind res_bind].
  assert (forall j, expect_string (json_norm j) (f +:+ ".canonicalization") = expect_string j (f +:+ ".canonicalization")) as Hx by (intros; apply expect_string_norm).
  specialize (Hx (dget d "canonicalization")). destruct (dget d "canonicalization") as [| | | | |l|x]; try done; simpl in *; by rewrite Hx.
Qed.

Section Append.
Context `{Protocol} `{PyText} `{Platform} (dump_line : dict -> string).

(** What the standard library's [json] promises for one entry: the line written for
    it is not blank and reads back as the entry with its keys sorted. *)
Definition reads_back (entry : dict) : Prop :=
  str_truthy (py_strip (dump_line entry)) = true /\
  exists e', read_entry (dump_line entry) = Ok e' /\ JDict e' = json_norm (JDict entry).

(** The parser builds objects from pairs and nothing else. *)
Definition scalar_leaves : Prop := forall s t, platform_parse_text s = ParsedTree t -> jtree_scalars t = true.

(** A file that ends in a newline. *)
Definition line_terminated (f : option log_file) : Prop := match f with Some f => lf_partial f = "" | None => True end.

Lemma parse_entries_app lines more : parse_entries (lines ++ more) =
  (a ← parse_entries lines; b ← parse_entries more; Ok (a ++ b)).
Proof.
  unfold parse_entries. rewrite List.filter_app. generalize (List.filter (fun line => str_truthy (py_strip line)) lines) as l.
  generalize (List.filter (fun line => str_truthy (py_strip line)) more) as m. intros m l. induction l as [|x l IH]; simpl.
  - by destruct (res_mapM read_entry m).
  - destruct (read_entry x); simpl; [|done]. rewrite IH. destruct (res_mapM read_entry l); simpl; [|done]. by destruct (res_mapM read_entry m).
Qed.

Lemma parse_entries_wf lines entries : scalar_leaves -> parse_entries lines = Ok entries -> entries_wf entries.
Proof.
  intros Hs Hp. unfold parse_entries in Hp. apply res_mapM_Ok in Hp. unfold entries_wf.
  induction Hp as [|line e lines' entries' He _ IH]; [constructor|]. constructor; [|done]. unfold read_entry in He.
  destruct (loads_no_duplicate_keys _ _ _ _ _) as [v|] eqn:Hl; [|done]. apply loads_Ok in Hl as [Hw _]; [|done]. destruct v; simplify_eq. done.
Qed.

Lemma append_lines entry f : line_terminated f -> log_lines (_append_entry dump_line entry f) = log_lines f ++ [dump_line entry].
Proof. destruct f as [[lines partial]|]; [|done]. simpl. intros ->. simpl. by rewrite !app_nil_r. Qed.

Lemma read_entries_Ok f entries : _read_entries f = Ok entries <-> parse_entries (log_lines f) = Ok entries /\ chain_ok entries.
Proof.
  unfold _read_entries, chain_ok. rewrite bind_Ok. setoid_rewrite bind_Ok. split.
  - intros (es & Hp & [] & Hv & [= <-]). done.
  - intros [Hp Hv]. exists entries. split; [done|]. by exists tt.
Qed.

(** The entry before its hash has no hash to remove. *)
Lemma new_entry_payload uri uuid digest r seq prev h :
  _entry_hash_payload (new_entry uri uuid digest r seq prev ++ [("entry_hash", h)]) = new_entry uri uuid digest r seq prev.
Proof.
  unfold _entry_hash_payload, new_entry, opt_item. rewrite !List.filter_app.
  destruct (not_none (aq_artifact_type r)), (not_none (aq_artifact_id r)), (dict_truthy (default [] (aq_metadata r))); reflexivity.
Qed.

Lemma new_entry_lookup uri uuid digest r seq prev h k v : assoc k (new_entry uri uuid digest r seq prev) = Some v ->
  assoc k (new_entry uri uuid digest r seq prev ++ [("entry_hash", h)]) = Some v.
Proof. intros Ha. by rewrite assoc_app, Ha. Qed.

(** The fields of a request are Python values. *)
Record request_wf (r : anchor_request) : Prop := {
  qw_type : json_wf (aq_artifact_type r);
  qw_id : json_wf (aq_artifact_id r);
  qw_metadata : json_wf (JDict (default [] (aq_metadata r)));
  qw_time : datetime_ok (aq_anchored_at r)
}.

Lemma parse_hash_fields_wf raw f d : parse_hash_fields raw f = Ok d -> json_wf (JDict d).
Proof.
  unfold parse_hash_fields. intros (data & _ & Hd)%bind_Ok. apply bind_Ok in Hd as (a & _ & Hd). apply bind_Ok in Hd as (v & _ & Hd).
  apply json_wf_dict.
  destruct (dget data "canonicalization"); [injection Hd as <-|..]; try (apply bind_Ok in Hd as (c & _ & Hd); injection Hd as <-);
    (split; [apply (bool_decide_unpack _); vm_compute; exact I|repeat constructor]).
Qed.

Lemma new_entry_wf uri uuid raw digest r seq prev v : normalize_artifact_digest raw = Ok digest -> request_wf r -> json_wf prev ->
  json_wf (JDict (new_entry uri uuid digest r seq prev ++ [("entry_hash", JDict (hash_spec v))])).
Proof.
  intros Hd [] Hp. apply parse_hash_fields_wf in Hd. apply json_wf_dict. unfold new_entry, opt_item. split.
  - apply (bool_decide_unpack _). destruct (not_none (aq_artifact_type r)), (not_none (aq_artifact_id r)), (dict_truthy (default [] (aq_metadata r)));
      vm_compute; exact I.
  - repeat first [apply Forall_app_2 | apply Forall_cons_2 | apply Forall_nil_2 | case_match]; simpl snd; try done;
      apply json_wf_dict; (split; [apply (bool_decide_unpack _); vm_compute; exact I|repeat constructor]).
Qed.

(** The link of the next entry. *)
Lemma last_hash_link entries prev : chain_ok entries -> entries_wf entries -> last_hash entries = Ok prev ->
  json_wf prev /\ exists link, py_eqb prev link = true /\
    (match last entries with None => link = JNull | Some e' => exists h, _compute_entry_hash e' = Ok h /\ link = JDict h end) /\
    (prev = JNull \/ exists d, prev = JDict d).
Proof.
  intros Hc Hw Hl. unfold last_hash in Hl. destruct entries as [|e entries _] using rev_ind.
  { injection Hl as <-. split; [done|]. exists JNull. simpl. auto. }
  rewrite last_snoc in *. apply entries_wf_snoc in Hw as [_ Hw]. unfold chain_ok, _validate_chain in Hc.
  apply validate_snoc in Hc as (_ & link & _ & Hlast). apply validate_single in Hlast as (_ & _ & _ & _ & s & Hs & Hh).
  unfold getitem in Hl. pose proof (dget_wf e "entry_hash" Hw) as Hd. unfold dget in Hd, Hh.
  destruct (assoc "entry_hash" e) as [v|]; [|done]. injection Hl as ->. split; [done|].
  exists (JDict (hash_spec (sha256_hexdigest s))). split; [done|]. split.
  - eexists. split; [apply compute_entry_hash_Ok; by exists s|done].
  - right. by destruct (py_eqb_dict_inv _ _ Hh) as (d & ->); exists d.
Qed.

Lemma contract_refl : py_eqb LOCAL_ANCHOR_LOG_ENTRY_CONTRACT LOCAL_ANCHOR_LOG_ENTRY_CONTRACT = true.
Proof. reflexivity. Qed.

Lemma hash_spec_refl v : py_eqb (JDict (hash_spec v)) (JDict (hash_spec v)) = true.
Proof. unfold hash_spec. cbn. by rewrite !String.eqb_refl. Qed.

Lemma new_entry_valid uri uuid digest r n prev link s :
  entry_bytes (new_entry uri uuid digest r n prev) = Some s -> py_eqb prev link = true ->
  validate_from n link [new_entry uri uuid digest r n prev ++ [("entry_hash", JDict (hash_spec (sha256_hexdigest s)))]] = Ok tt.
Proof.
  intros Hs Hp. apply validate_single.
  assert (entry_bytes (new_entry uri uuid digest r n prev ++ [("entry_hash", JDict (hash_spec (sha256_hexdigest s)))]) = Some s) as Hb.
  { unfold entry_bytes in *. rewrite new_entry_payload. revert Hs.
    assert (_entry_hash_payload (new_entry uri uuid digest r n prev) = new_entry uri uuid digest r n prev) as ->; [|done].
    rewrite <- (new_entry_payload uri uuid digest r n prev JNull) at 2. unfold _entry_hash_payload. rewrite List.filter_app. simpl. by rewrite app_nil_r. }
  rewrite Hb. unfold dget. rewrite (new_entry_lookup _ _ _ _ _ _ _ "contract" LOCAL_ANCHOR_LOG_ENTRY_CONTRACT) by done.
  rewrite (new_entry_lookup _ _ _ _ _ _ _ "anchor_type" (JStr LOCAL_APPEND_ONLY_ANCHOR_TYPE)) by done.
  rewrite (new_entry_lookup _ _ _ _ _ _ _ "sequence" (JInt n)) by done.
  rewrite (new_entry_lookup _ _ _ _ _ _ _ "previous_entry_hash" prev) by done.
  assert (assoc "entry_hash" (new_entry uri uuid digest r n prev) = None) as Hn.
  { unfold new_entry. rewrite !assoc_app, !assoc_opt_item. done. }
  rewrite assoc_app, Hn. split_and!; [done|done|apply Z.eqb_refl|done|]. exists s. split; [done|]. apply hash_spec_refl.
Qed.

(** What an append does to a valid log. *)
Lemma append_extends uri uuid r f entry : scalar_leaves -> request_wf r -> line_terminated f ->
  anchor_entry uri uuid r f = Ok entry -> reads_back entry ->
  exists entries e' digest prev s, _read_entries f = Ok entries /\ normalize_artifact_digest (aq_artifact_digest r) = Ok digest /\
    last_hash entries = Ok prev /\ (prev = JNull \/ exists d, prev = JDict d) /\ json_wf prev /\
    entry = new_entry uri uuid digest r (Z.of_nat (length entries) + 1) prev ++ [("entry_hash", JDict (hash_spec (sha256_hexdigest s)))] /\
    entry_bytes entry = Some s /\
    json_wf (JDict entry) /\ JDict e' = json_norm (JDict entry) /\
    _read_entries (_append_entry dump_line entry f) = Ok (entries ++ [e']).
Proof.
  intros Hsc Hrw Hlt Ha (Hb & e' & Hre & Hnorm). unfold anchor_entry in Ha.
  apply bind_Ok in Ha as (digest & Hdig & Ha). apply bind_Ok in Ha as (entries & Hre0 & Ha). apply bind_Ok in Ha as (prev & Hprev & Ha).
  cbv zeta in Ha. apply bind_Ok in Ha as (h & Hh & Ha). assert (entry = new_entry uri uuid digest r (Z.of_nat (length entries) + 1) prev ++ [("entry_hash", JDict h)]) as Hentry by congruence.
  clear Ha. apply compute_entry_hash_Ok in Hh as (s & Hs & ->).
  apply read_entries_Ok in Hre0 as Hre0'. destruct Hre0' as [Hp Hc]. pose proof (parse_entries_wf _ _ Hsc Hp) as Hwf.
  destruct (last_hash_link _ _ Hc Hwf Hprev) as (Hpw & link & Hpl & Hlink & Hcase).
  assert (json_wf (JDict entry)) as Hew by (rewrite Hentry; by eapply new_entry_wf).
  pose proof (new_entry_valid uri uuid digest r _ prev link s Hs Hpl) as Hv. rewrite <- Hentry in Hv.
  apply validate_single in Hv as Hv'. destruct Hv' as (_ & _ & _ & _ & s' & Hs' & Hh').
  assert (entry_bytes entry = Some s) as Hbytes.
  { rewrite Hentry. unfold entry_bytes in *. rewrite new_entry_payload. revert Hs.
    assert (_entry_hash_payload (new_entry uri uuid digest r (Z.of_nat (length entries) + 1) prev) = new_entry uri uuid digest r (Z.of_nat (length entries) + 1) prev) as ->; [|done].
    rewrite <- (new_entry_payload uri uuid digest r _ prev JNull) at 2. unfold _entry_hash_payload. rewrite List.filter_app. simpl. by rewrite app_nil_r. }
  exists entries, e', digest, prev, s. split_and!; try done. apply read_entries_Ok. split.
  - rewrite append_lines, parse_entries_app, Hp by done. unfold parse_entries at 1. simpl. rewrite Hb. simpl. by rewrite Hre.
  - unfold chain_ok, _validate_chain. apply validate_snoc. split; [exact Hc|]. exists link. split; [done|].
    rewrite Z.add_comm. by eapply validate_norm.
Qed.

(** An entry whose fields have the shapes an append gives them. *)
Record entry_fields (e : dict) (uuid uri : string) (at_ : datetime) (seq : Z) (dg hash : dict) (prev : option dict) (ty aid : json) (meta : dict) : Prop := {
  ef_id : assoc "anchor_id" e = Some (JStr ("anc_local_" +:+ uuid));
  ef_type : assoc "anchor_type" e = Some (JStr LOCAL_APPEND_ONLY_ANCHOR_TYPE);
  ef_digest : assoc "artifact_digest" e = Some (JDict dg);
  ef_at : assoc "anchored_at" e = Some (JStr (format_timestamp at_));
  ef_uri : assoc "log_uri" e = Some (JStr uri);
  ef_seq : assoc "sequence" e = Some (JInt seq);
  ef_hash : assoc "entry_hash" e = Some (JDict hash);
  ef_prev : dget e "previous_entry_hash" = opt_json JDict prev;
  ef_ty : dget e "artifact_type" = ty;
  ef_aid : dget e "artifact_id" = aid;
  ef_meta : dget e "metadata" = (if dict_truthy meta then JDict meta else JNull)
}.

Lemma entry_anchor_of e uuid uri at_ seq dg digest hash prev ty aid meta :
  entry_fields e uuid uri at_ seq dg hash prev ty aid meta -> datetime_ok at_ -> normalize_artifact_digest (JDict dg) = Ok digest ->
  _entry_anchor e = Ok (mkExternalAnchor ("anc_local_" +:+ uuid) LOCAL_APPEND_ONLY_ANCHOR_TYPE digest at_ uri seq hash prev
                          (only_str ty) (only_str aid) meta).
Proof.
  intros [] Ht Hd. unfold _entry_anchor, getitem. rewrite ef_id0, ef_type0, ef_digest0, ef_at0, ef_uri0, ef_seq0, ef_hash0, ef_prev0, ef_ty0, ef_aid0, ef_meta0.
  cbn [mbind res_bind]. rewrite Hd. cbn [mbind res_bind]. rewrite parse_format by done. cbn [mbind res_bind py_int expect_mapping py_str].
  destruct prev, meta; reflexivity.
Qed.

Lemma new_entry_fields uri uuid digest r n prev h : prev = JNull \/ (exists d, prev = JDict d) ->
  entry_fields (new_entry uri uuid digest r n prev ++ [("entry_hash", JDict h)]) uuid uri (aq_anchored_at r) n digest h
    (match prev with JDict d => Some d | _ => None end) (aq_artifact_type r) (aq_artifact_id r) (default [] (aq_metadata r)).
Proof.
  intros Hp. unfold new_entry. constructor; unfold dget; rewrite ?assoc_app, ?assoc_opt_item; try done.
  - by destruct Hp as [->|[d ->]].
  - simpl. by destruct (aq_artifact_type r).
  - simpl. by destruct (aq_artifact_type r), (aq_artifact_id r).
  - simpl. by destruct (default [] (aq_metadata r)).
Qed.

Definition norm_dict (d : dict) : dict := match json_norm (JDict d) with JDict d' => d' | _ => [] end.

Lemma json_norm_norm_dict d : json_norm (JDict d) = JDict (norm_dict d).
Proof. unfold norm_dict. by rewrite json_norm_dict. Qed.

Lemma norm_dict_truthy d : dict_truthy (norm_dict d) = dict_truthy d.
Proof.
  unfold norm_dict. rewrite json_norm_dict. pose proof (ksort_length d) as Hl. destruct (ksort d), d; done.
Qed.

Lemma norm_fields e e' uuid uri at_ seq dg hash prev ty aid meta : json_wf (JDict e) -> JDict e' = json_norm (JDict e) ->
  entry_fields e uuid uri at_ seq dg hash prev ty aid meta ->
  entry_fields e' uuid uri at_ seq (norm_dict dg) (norm_dict hash) (norm_dict <$> prev) (json_norm ty) (json_norm aid) (norm_dict meta).
Proof.
  intros Hw Hn []. pose proof (assoc_norm e e' Hw Hn) as Ha. pose proof (dget_norm e e' Hw Hn) as Hg. constructor.
  1-7: rewrite Ha; first [rewrite ef_id0|rewrite ef_type0|rewrite ef_digest0|rewrite ef_at0|rewrite ef_uri0|rewrite ef_seq0|rewrite ef_hash0];
    cbn [fmap option_fmap option_map]; by rewrite ?json_norm_norm_dict.
  all: rewrite Hg.
  - rewrite ef_prev0. destruct prev; [apply json_norm_norm_dict|done].
  - by rewrite ef_ty0.
  - by rewrite ef_aid0.
  - rewrite ef_meta0, norm_dict_truthy. destruct (dict_truthy meta); [apply json_norm_norm_dict|done].
Qed.

(** Every part of an entry but its hash can be canonicalised, so it equals itself. *)
Lemma entry_part_refl e s k v : json_wf (JDict e) -> entry_bytes e = Some s -> k <> "entry_hash" -> dget e k = v ->
  py_eqb (json_norm v) v = true.
Proof.
  intros Hw Hs Hk <-. pose proof (dget_wf e k Hw) as Hd. rewrite py_eqb_norm_l by done. rewrite <- (payload_dget e k Hk) in *. unfold dget in *.
  destruct (assoc k (_entry_hash_payload e)) as [v|] eqn:Ha; [|done]. unfold entry_bytes in Hs.
  destruct (canonicalize_bytes _ _) as [t|] eqn:Hc; [|done]. apply canonicalize_bytes_Ok in Hc as [Hc _].
  destruct (canon_part _ k v _ (assoc_Some_elem _ _ _ Ha) Hc) as (t' & Ht & _). by eapply py_eqb_refl_canon.
Qed.

Lemma parsed_digest_refl raw f d : parse_hash_fields raw f = Ok d -> forall k, py_eqb (dget d k) (dget d k) = true /\ py_eqb (JDict d) (JDict d) = true.
Proof.
  unfold parse_hash_fields. intros (data & _ & Hd)%bind_Ok k. apply bind_Ok in Hd as (a & _ & Hd). apply bind_Ok in Hd as (v & _ & Hd).
  unfold dget at 1 2.
  destruct (dget data "canonicalization"); [injection Hd as <-|..]; try (apply bind_Ok in Hd as (c & _ & Hd); injection Hd as <-);
    (split; [cbn [assoc]; destruct (String.eqb k "algorithm"), (String.eqb k "value"), (String.eqb k "canonicalization"); done || apply String.eqb_refl|cbn; by rewrite !String.eqb_refl]).
Qed.

Lemma digests_match_parsed raw d : normalize_artifact_digest raw = Ok d -> artifact_digests_match (JDict d) raw = Ok true.
Proof.
  intros Hd. unfold artifact_digests_match. unfold normalize_artifact_digest in *. rewrite (parse_hash_fields_idem _ _ _ _ Hd), Hd. cbn [mbind res_bind].
  rewrite !(proj1 (parsed_digest_refl _ _ _ Hd _)). by destruct (not_none _).
Qed.

(** An anchor taken from an entry equals the anchor read back from its line. *)
Lemma anchor_eqb_read_back raw digest a ty t uri n hash prev x y meta hash' prev' meta' : parse_hash_fields raw a = Ok digest ->
  py_eqb (JDict hash') (JDict hash) = true -> py_eqb (opt_json JDict prev') (opt_json JDict prev) = true -> py_eqb (JDict meta') (JDict meta) = true ->
  anchor_eqb (mkExternalAnchor ty LOCAL_APPEND_ONLY_ANCHOR_TYPE digest t uri n hash' prev' x y meta')
    (mkExternalAnchor ty LOCAL_APPEND_ONLY_ANCHOR_TYPE digest t uri n hash prev x y meta) = true.
Proof.
  intros Hd Hh Hp Hm. unfold anchor_eqb. cbn [xa_anchor_id xa_anchor_type xa_artifact_digest xa_anchored_at xa_log_uri xa_sequence xa_entry_hash
    xa_previous_entry_hash xa_artifact_type xa_artifact_id xa_metadata].
  rewrite Hh, Hp, Hm, !String.eqb_refl, !Z.eqb_refl, (proj2 (parsed_digest_refl _ _ _ Hd "")), !bool_decide_eq_true_2 by done. done.
Qed.
End Append.

(** C30: two logs that pass the chain check and end in the same entry hash are the
    same log: as many entries, and entry by entry the same content up to the order
    of object keys, unless two of the hashed texts collide. *)
Theorem hash_chain_binds `{Protocol} (l1 l2 : list dict) :
  _validate_chain l1 = Ok tt -> _validate_chain l2 = Ok tt -> entries_wf l1 -> entries_wf l2 -> no_collision (l1 ++ l2) ->
  head_hash l1 = head_hash l2 ->
  length l1 = length l2 /\ Forall2 (fun e e' => json_norm (JDict (_entry_hash_payload e)) = json_norm (JDict (_entry_hash_payload e'))) l1 l2.
Proof. intros H1 H2 W1 W2 Hn Hh. pose proof (chain_binds l1 l2 H1 H2 W1 W2 Hn Hh) as Hb. split; [by eapply Forall2_length|exact Hb]. Qed.

(** An append to a readable, newline-terminated log succeeds, adds exactly one
    entry to a chain that stays valid, and returns an anchor that
    [verify_external_anchor] accepts for the anchored digest in the file it
    leaves and in every readable file that extends its entries. *)
Theorem anchored_then_verified `{Protocol} `{PyText} `{Platform} (dump_line : dict -> string) (uri uuid : string) (r : anchor_request)
    (f : option log_file) (entry : dict) :
  scalar_leaves -> request_wf r -> line_terminated f -> anchor_entry uri uuid r f = Ok entry -> reads_back dump_line entry ->
  exists anchor old e', anchor_artifact_digest dump_line uri uuid r f = (Ok anchor, _append_entry dump_line entry f) /\
    _read_entries f = Ok old /\ _read_entries (_append_entry dump_line entry f) = Ok (old ++ [e']) /\
    forall later more, _read_entries later = Ok (old ++ [e'] ++ more) ->
      verify_external_anchor uri (inl anchor) (aq_artifact_digest r) later = Ok anchor.
Proof.
  intros Hsc Hrw Hlt Ha Hrb.
  destruct (append_extends dump_line uri uuid r f entry Hsc Hrw Hlt Ha Hrb)
    as (old & e' & digest & prev & s & Hold & Hd & Hprev & Hcase & Hpw & Hentry & Hbytes & Hw & Hnorm & Hnew).
  pose proof (new_entry_fields uri uuid digest r (Z.of_nat (length old) + 1) prev (hash_spec (sha256_hexdigest s)) Hcase) as Hf.
  rewrite <- Hentry in Hf. pose proof (norm_fields _ _ _ _ _ _ _ _ _ _ _ _ Hw Hnorm Hf) as Hf'. pose proof (qw_time r Hrw) as Ht.
  assert (normalize_artifact_digest (JDict digest) = Ok digest) as Hdd by (by eapply parse_hash_fields_idem).
  assert (normalize_artifact_digest (JDict (norm_dict digest)) = Ok digest) as Hdn.
  { rewrite <- json_norm_norm_dict. unfold normalize_artifact_digest. rewrite parse_hash_fields_norm; [done|]. by eapply parse_hash_fields_wf. }
  pose proof (entry_anchor_of _ _ _ _ _ _ _ _ _ _ _ _ Hf Ht Hdd) as Ean. pose proof (entry_anchor_of _ _ _ _ _ _ _ _ _ _ _ _ Hf' Ht Hdn) as Ean'.
  eexists _, old, e'. split; [|split; [done|split; [done|]]].
  { unfold anchor_artifact_digest. cbv [gets lift modify mbind M_bind id]. rewrite Ha, Ean. reflexivity. }
  intros later more Hl. unfold verify_external_anchor. cbn [mbind res_bind xa_anchor_type xa_log_uri xa_artifact_digest xa_sequence]. rewrite !String.eqb_refl.
  cbn [negb]. rewrite digests_match_parsed by done. cbn [mbind res_bind negb]. rewrite Hl. cbn [mbind res_bind].
  rewrite (proj2 (Z.ltb_ge _ _)) by (rewrite !length_app; simpl; lia).
  assert (py_index (old ++ [e'] ++ more) (Z.of_nat (length old) + 1 - 1) = Ok e') as ->.
  { unfold py_index. cbv zeta. rewrite !(proj2 (Z.ltb_ge (Z.of_nat (length old) + 1 - 1) 0)) by lia. replace (Z.to_nat _) with (length old) by lia.
    change ([e'] ++ more) with (e' :: more). by rewrite list_lookup_middle. }
  cbn [mbind res_bind]. rewrite Ean'. cbn [mbind res_bind].
  assert (forall j, only_str (json_norm j) = only_str j) as Hos by (by intros []). rewrite !Hos.
  rewrite (anchor_eqb_read_back _ _ _ _ _ _ _ _ _ _ _ _ _ _ _ Hd); [done|..].
  - rewrite <- json_norm_norm_dict, py_eqb_norm_l; [apply hash_spec_refl|]. pose proof (dget_wf entry "entry_hash" Hw) as Hh.
    unfold dget in Hh. by rewrite (ef_hash _ _ _ _ _ _ _ _ _ _ _ Hf) in Hh.
  - pose proof (entry_part_refl entry s "previous_entry_hash" _ Hw Hbytes ltac:(done) (ef_prev _ _ _ _ _ _ _ _ _ _ _ Hf)) as Hp.
    destruct Hcase as [->|[d ->]]; [done|]. cbn [opt_json fmap option_fmap option_map] in *. by rewrite <- json_norm_norm_dict.
  - pose proof (entry_part_refl entry s "metadata" _ Hw Hbytes ltac:(done) (ef_meta _ _ _ _ _ _ _ _ _ _ _ Hf)) as Hm.
    rewrite <- json_norm_norm_dict. by destruct (default [] (aq_metadata r)).
Qed.

(** ** A concrete log *)
Fixpoint tree_of (j : json) : jtree :=
  match j with
  | JList l => TArray (map tree_of l)
  | JDict d => TObject (map (fun kv => (kv.1, tree_of kv.2)) d)
  | v => TScalar v
  end.

Lemma tree_of_scalars j : jtree_scalars (tree_of j) = true.
Proof.
  induction j as [|b|z|x|t|l IH|d IH] using json_ind'; try done; simpl; rewrite map_map, forallb_map_comp; apply forallb_forall.
  - intros v Hin%list_elem_of_In. rewrite Forall_forall in IH. by apply IH.
  - intros [k v] Hin%list_elem_of_In. rewrite Forall_forall in IH. apply (IH _ Hin).
Qed.

Definition demo_platform : Platform := {|
  path_encodable _ := true;
  platform_utf8_valid _ := true;
  platform_parse_text s := match decode_canonical s with Some j => ParsedTree (tree_of j) | None => ParseFailed end
|}.

Definition demo_line (d : dict) : string :=
  match @canonicalize_bytes demo_protocol (JDict d) DEFAULT_MAX_CANONICAL_OUTPUT_BYTES with Ok s => s | Err _ => "" end.

Definition demo_request : anchor_request :=
  mkAnchorRequest (JDict [("value", JStr "ab"); ("algorithm", JStr "sha-256")]) (JStr "receipt") JNull 63839188800123456 (Some [("n", JInt 1)]).

Definition demo_append (uuid : string) (f : option log_file) : option log_file :=
  (@anchor_artifact_digest demo_protocol demo_text demo_platform demo_line "file:///log" uuid demo_request f).2.

Definition demo_log : option log_file := Eval vm_compute in demo_append "2" (demo_append "1" None).

Definition demo_entry : dict := Eval vm_compute in
  match @anchor_entry demo_protocol demo_platform "file:///log" "1" demo_request None with Ok e => e | Err _ => [] end.

Definition demo_entries : list dict := Eval vm_compute in
  match @_read_entries demo_protocol demo_platform demo_log with Ok l => l | Err _ => [] end.

Ltac solve_json_wf :=
  first [exact I | apply Forall_nil_2 | apply Forall_cons_2; solve_json_wf
        | apply json_wf_dict; split; [apply (bool_decide_unpack _); vm_compute; exact I|solve_json_wf] | apply json_wf_list; solve_json_wf].

Lemma hash_chain_binds_witness :
  length demo_entries = 2%nat /\
  Forall2 (fun e e' => json_norm (JDict (_entry_hash_payload e)) = json_norm (JDict (_entry_hash_payload e'))) demo_entries (map (@rev _) demo_entries).
Proof.
  split; [reflexivity|].
  apply (@hash_chain_binds demo_protocol demo_entries (map (@rev _) demo_entries)); try (vm_compute; reflexivity).
  - unfold entries_wf, demo_entries. solve_json_wf.
  - unfold entries_wf, demo_entries. cbn [map rev app]. solve_json_wf.
  - intros e e' s s' _ _ _ _ Hs. exact Hs.
Defined.

Lemma anchored_then_verified_witness : exists anchor,
  @verify_external_anchor demo_protocol demo_text demo_platform "file:///log" (inl anchor) (aq_artifact_digest demo_request) demo_log = Ok anchor.
Proof.
  destruct (@anchored_then_verified demo_protocol demo_text demo_platform demo_line "file:///log" "1" demo_request None demo_entry) as (anchor & old & e' & _ & Ho & Hn & Hv).
  - intros s t. simpl. destruct (decode_canonical s); [|done]. intros [= <-]. apply tree_of_scalars.
  - constructor; [solve_json_wf..|vm_compute; split; congruence].
  - done.
  - vm_compute. reflexivity.
  - split; [vm_compute; reflexivity|]. eexists. split; vm_compute; reflexivity.
  - exists anchor. vm_compute in Ho. injection Ho as <-. vm_compute in Hn. injection Hn as <-. apply (Hv demo_log (tail demo_entries)). vm_compute. reflexivity.
Defined.
