(* ===== verification/Transparency.v ===== *)
(** * Transparency-log verification: [verifier/transparency.py]

    Checkpoints, inclusion proofs and consistency proofs as JSON, with every check
    and its error code; the two hash loops are those of [Merkle].  Ed25519 and
    SHA-256 are parameters.

    The theorems: an inclusion proof that [verify_inclusion] accepts proves that
    the digest is the leaf at the index it names; the proofs a log builds from its
    tree are accepted; a consistency proof that is accepted proves that the log
    only grew, and a monitor that accepted every update has seen one growing
    log. *)

From Stdlib Require Import Ascii.
From S2P Require Import Prelude Text Json Errors Timestamps Canonical Contracts Receipts Merkle Base64.

(** [cryptography]'s Ed25519: whether the package can be imported, and
    verification of a signature over a message under a raw public key. *)
Class Ed25519 := {
  ed25519_available : bool;
  ed25519_verify : string -> string -> string -> py bool
}.

(** [TransparencyVerificationError], or another exception that escapes. *)
Inductive terror :=
| TransparencyVerificationError (code message : string)
| Raised (e : exn).
Abbreviation tv := (res terror).

Definition _error {A} (code message : string) : tv A := Err (TransparencyVerificationError code message).
Definition escape {A} (r : py A) : tv A := match r with Ok a => Ok a | Err e => Err (Raised e) end.

(** [except ValueError: raise _error(code, message)] around a call *)
Definition on_value_error {A} (code message : string) (r : py A) : tv A :=
  match r with
  | Ok a => Ok a
  | Err (ValueError _) => _error code message
  | Err e => Err (Raised e)
  end.

(** ** Field checks *)
Definition _require_mapping (value : json) (field_name code : string) : tv dict :=
  match value with JDict d => Ok d | _ => _error code (field_name +:+ " must be a JSON object") end.

Definition _require_string (value : json) (field_name code : string) : tv string :=
  match value with
  | JStr s => if str_truthy s then Ok s else _error code (field_name +:+ " must be a non-empty string")
  | _ => _error code (field_name +:+ " must be a non-empty string")
  end.

Definition _require_nonnegative_int (value : json) (field_name code : string) : tv Z :=
  match value with
  | JInt z => if (z <? 0)%Z then _error code (field_name +:+ " must be a non-negative integer") else Ok z
  | _ => _error code (field_name +:+ " must be a non-negative integer")
  end.

(** *** Hexadecimal *)
Definition hex_value (c : ascii) : option N :=
  let n := N_of_ascii c in
  if (48 <=? n)%N && (n <=? 57)%N then Some (n - 48)%N
  else if (97 <=? n)%N && (n <=? 102)%N then Some (n - 87)%N else None.

Definition hex_char (n : N) : ascii := ascii_of_N (if (n <? 10)%N then n + 48 else n + 87)%N.

(** [bytes.fromhex] on lower-case text without spaces; [None] elsewhere *)
Fixpoint hex_decode (s : string) : option string :=
  match s with
  | "" => Some ""
  | String a (String b r) =>
      match hex_value a, hex_value b, hex_decode r with
      | Some x, Some y, Some r => Some (String (ascii_of_N (16 * x + y)) r)
      | _, _, _ => None
      end
  | _ => None
  end.

(** [data.hex()] *)
Fixpoint hex_encode (s : string) : string :=
  match s with
  | "" => ""
  | String c r => let n := N_of_ascii c in String (hex_char (n / 16)) (String (hex_char (n mod 16)) (hex_encode r))
  end.

(** [_HEX_256_RE.fullmatch(raw)], with the bytes it denotes *)
Definition hex_256 (raw : string) : option string :=
  if Nat.eqb (String.length raw) 64 then hex_decode raw else None.

Definition _parse_hex_hash (value : json) (field_name code : string) : tv string :=
  raw ← _require_string value field_name code;
  match hex_256 raw with
  | Some b => Ok b
  | None => _error code (field_name +:+ " must be a lowercase 64-character SHA-256 hex value")
  end.

Definition _parse_hash_spec (value : json) (field_name code : string) : tv string :=
  data ← _require_mapping value field_name code;
  if negb (is_str (dget data "algorithm") "sha-256") || negb (is_str (dget data "encoding") "hex")
  then _error code (field_name +:+ " must declare sha-256 with hex encoding")
  else _parse_hex_hash (dget data "value") (field_name +:+ ".value") code.

Fixpoint parse_hashes (i : Z) (l : list json) (field_name code : string) : tv (list string) :=
  match l with
  | [] => Ok []
  | item :: l =>
      h ← _parse_hex_hash item (field_name +:+ "[" +:+ int_repr i +:+ "]") code;
      rest ← parse_hashes (i + 1) l field_name code;
      Ok (h :: rest)
  end.

Definition _parse_hash_path (value : json) (field_name code : string) : tv (list string) :=
  match value with
  | JList l => parse_hashes 0 l field_name code
  | _ => _error code (field_name +:+ " must be an array")
  end.

(** *** Base64url *)
Definition base64url_decode : string -> option string := base64_groups base64url_value.

Definition _decode_base64url (value field_name code : string) : tv string :=
  if negb (str_truthy value) then _error code (field_name +:+ " must be unpadded base64url")
  else match base64url_decode value with
       | Some b => Ok b
       | None => _error code (field_name +:+ " must be unpadded base64url")
       end.

Definition _parse_uses (value : json) : tv (list string) :=
  let uses := match value with JStr s => [JStr s] | JList l => l | _ => [] end in
  let bad := _error "TRUSTED_KEYS_INVALID" "trusted key use must be a non-empty string or array of strings" in
  match uses with
  | [] => bad
  | _ => (fix go l : tv (list string) :=
            match l with
            | [] => Ok []
            | JStr s :: l => if str_truthy s then rest ← go l; Ok (s :: rest) else bad
            | _ => bad
            end) uses
  end.

Definition _parse_timestamp (value : json) (field_name code : string) : tv datetime :=
  on_value_error code (field_name +:+ " must be an RFC3339 timestamp") (parse_timestamp value field_name).

Section Transparency.
Context `{Protocol} `{PyText} `{Sha256} `{Ed25519}.

Definition _parse_digest (value : json) (field_name : string) : tv DigestSpec :=
  data ← _require_mapping value field_name "INVALID_LEAF_DIGEST";
  algorithm ← _require_string (dget data "algorithm") (field_name +:+ ".algorithm") "INVALID_LEAF_DIGEST";
  canonicalization ← _require_string (dget data "canonicalization") (field_name +:+ ".canonicalization") "INVALID_LEAF_DIGEST";
  digest_value ← _require_string (dget data "value") (field_name +:+ ".value") "INVALID_LEAF_DIGEST";
  if negb (String.eqb algorithm "sha-256") || negb (str_mem canonicalization ACCEPTED_CANONICALIZATION_PROFILES)
     || match hex_256 digest_value with Some _ => false | None => true end
  then _error "INVALID_LEAF_DIGEST"
         "leaf digest must declare sha-256, a known canonicalization profile, and a lowercase 64-character hex value"
  else Ok (mkDigestSpec algorithm canonicalization digest_value).

(** The caller's digest: a [DigestSpec], or a mapping (or an object that turns
    itself into one). *)
Definition _resolve_digest (value : DigestSpec + json) : tv DigestSpec :=
  match value with
  | inl d => _parse_digest (JDict (DigestSpec_to_dict d)) "digest"
  | inr j => _parse_digest j "digest"
  end.

(** [bytes.fromhex(digest.value)] *)
Definition digest_bytes (d : DigestSpec) : string := default "" (hex_decode (dg_value d)).

(** ** Checkpoints *)
Record checkpoint_data := mkCheckpointData {
  cp_log : PartyRef; cp_tree_size : Z; cp_root_hash : string; cp_issued_at_raw : string; cp_issued_at : datetime;
  cp_signature : SignatureSpec
}.

Definition CHECKPOINT_CONTRACT : json := contract_header "transparency_checkpoint".
Definition INCLUSION_PROOF_CONTRACT : json := contract_header "transparency_inclusion_proof".
Definition CONSISTENCY_PROOF_CONTRACT : json := contract_header "transparency_consistency_proof".

Definition _parse_checkpoint (checkpoint : dict) : tv checkpoint_data :=
  contract ← _require_mapping (dget checkpoint "contract") "checkpoint.contract" "INVALID_CHECKPOINT";
  if negb (py_eqb (JDict contract) CHECKPOINT_CONTRACT)
  then _error "INVALID_CHECKPOINT" "checkpoint contract must declare transparency_checkpoint v1"
  else
    '(log, signature) ← on_value_error "INVALID_CHECKPOINT" "checkpoint log or signature is invalid"
      (log ← PartyRef_from_dict "checkpoint.log" (dget checkpoint "log");
       signature ← SignatureSpec_from_dict (dget checkpoint "signature");
       Ok (log, signature));
    tree_size ← _require_nonnegative_int (dget checkpoint "tree_size") "checkpoint.tree_size" "INVALID_CHECKPOINT";
    root_hash ← _parse_hash_spec (dget checkpoint "root_hash") "checkpoint.root_hash" "INVALID_CHECKPOINT";
    issued_at_raw ← _require_string (dget checkpoint "issued_at") "checkpoint.issued_at" "INVALID_CHECKPOINT";
    issued_at ← _parse_timestamp (JStr issued_at_raw) "checkpoint.issued_at" "INVALID_CHECKPOINT";
    Ok (mkCheckpointData log tree_size root_hash issued_at_raw issued_at signature).

Definition CHECKPOINT_CONTEXT : string := "actenon.transparency-checkpoint.v1".
Definition CHECKPOINT_KEY_USE : string := "transparency_checkpoint".

Definition _checkpoint_statement (c : checkpoint_data) : dict :=
  [("context", JStr CHECKPOINT_CONTEXT);
   ("log", JDict (PartyRef_to_dict (cp_log c)));
   ("tree_size", JInt (cp_tree_size c));
   ("root_hash", JDict [("algorithm", JStr "sha-256"); ("encoding", JStr "hex"); ("value", JStr (hex_encode (cp_root_hash c)))]);
   ("issued_at", JStr (cp_issued_at_raw c))].

(** One validity bound of a key: [inclusive] bounds exclude the bound itself. *)
Definition check_bound (key : dict) (issued_at : datetime) (b : string * bool * string) : tv unit :=
  let '(field_name, inclusive, message) := b in
  match dget key field_name with
  | JNull => Ok tt
  | v =>
      bound ← _parse_timestamp v ("keys[]." +:+ field_name) "TRUSTED_KEYS_INVALID";
      if (negb inclusive && (issued_at <? bound)%Z) || (inclusive && (bound <=? issued_at)%Z)
      then _error "KEY_NOT_VALID" message else Ok tt
  end.

Fixpoint check_bounds (key : dict) (issued_at : datetime) (bs : list (string * bool * string)) : tv unit :=
  match bs with
  | [] => Ok tt
  | b :: bs => _ ← check_bound key issued_at b; check_bounds key issued_at bs
  end.

Definition KEY_BOUNDS : list (string * bool * string) :=
  [("not_before", false, "trusted checkpoint key was not valid at signing time");
   ("expires_at", true, "trusted checkpoint key was expired at signing time");
   ("revoked_at", true, "trusted checkpoint key was revoked at signing time")].

(** The entries of [keys] that are mappings with this [key_id]. *)
Fixpoint matching_keys (key_id : string) (raw_keys : list json) : list dict :=
  match raw_keys with
  | [] => []
  | JDict d :: l => if is_str (dget d "key_id") key_id then d :: matching_keys key_id l else matching_keys key_id l
  | _ :: l => matching_keys key_id l
  end.

Definition _select_checkpoint_key (trusted_keys : dict) (c : checkpoint_data) : tv dict :=
  contract ← _require_mapping (dget trusted_keys "contract") "trusted_keys.contract" "TRUSTED_KEYS_INVALID";
  if negb (is_str (dget contract "name") "key_discovery") || negb (is_str (dget contract "version") "v1")
  then _error "TRUSTED_KEYS_INVALID" "trusted key set must declare key_discovery v1"
  else
    issuer ← on_value_error "TRUSTED_KEYS_INVALID" "trusted key-set issuer is invalid"
               (PartyRef_from_dict "trusted_keys.issuer" (dget trusted_keys "issuer"));
    if negb (String.eqb (party_type issuer) (party_type (cp_log c)) && String.eqb (party_id issuer) (party_id (cp_log c)))
    then _error "LOG_IDENTITY_MISMATCH" "checkpoint log identity does not match the trusted key-set issuer"
    else
      let key_id := sig_key_id (cp_signature c) in
      match dget trusted_keys "keys" with
      | JList (k :: ks) =>
          match matching_keys key_id (k :: ks) with
          | [] => _error "UNKNOWN_KEY_ID" ("no trusted checkpoint key matched key_id " +:+ str_repr key_id)
          | [key] =>
              if negb (is_str (dget key "algorithm") (sig_algorithm (cp_signature c)))
              then _error "SIGNATURE_INVALID" "trusted key algorithm does not match the checkpoint signature"
              else
                uses ← _parse_uses (dget key "use");
                if negb (str_mem CHECKPOINT_KEY_USE uses)
                then _error "KEY_PURPOSE_MISMATCH" "trusted key is not authorized for transparency checkpoints"
                else
                  _ ← match dget key "status" with
                      | JStr s => if str_mem s ["active"; "retired"] then Ok tt
                                  else _error "KEY_NOT_VALID" "trusted checkpoint key is not active or retired"
                      | JList _ | JDict _ => Err (Raised (TypeError "unhashable type"))
                      | _ => _error "KEY_NOT_VALID" "trusted checkpoint key is not active or retired"
                      end;
                  _ ← check_bounds key (cp_issued_at c) KEY_BOUNDS;
                  Ok key
          | _ => _error "TRUSTED_KEYS_INVALID" ("trusted key set contains duplicate key_id " +:+ str_repr key_id)
          end
      | _ => _error "TRUSTED_KEYS_INVALID" "trusted key set must contain a non-empty keys array"
      end.

Record VerifiedCheckpoint := mkVerifiedCheckpoint {
  vc_log : PartyRef; vc_tree_size : Z; vc_root_hash : string; vc_issued_at : datetime; vc_key_id : string
}.

(** [x not in (None, s)] *)
Definition neither_none_nor (j : json) (s : string) : bool := not_none j && negb (is_str j s).

Definition verify_checkpoint_signature (checkpoint trusted_keys : dict) : tv VerifiedCheckpoint :=
  c ← _parse_checkpoint checkpoint;
  let signature := cp_signature c in
  if negb (String.eqb (sig_algorithm signature) "EdDSA") || negb (String.eqb (sig_encoding signature) "base64url")
  then _error "UNSUPPORTED_ALGORITHM" "transparency checkpoint v1 supports EdDSA/Ed25519 with base64url encoding"
  else
    key ← _select_checkpoint_key trusted_keys c;
    jwk ← _require_mapping (dget key "public_key_jwk") "keys[].public_key_jwk" "TRUSTED_KEYS_INVALID";
    if negb (is_str (dget jwk "kty") "OKP") || negb (is_str (dget jwk "crv") "Ed25519")
       || neither_none_nor (dget jwk "kid") (sig_key_id signature) || neither_none_nor (dget jwk "alg") "EdDSA"
    then _error "TRUSTED_KEYS_INVALID" "checkpoint key must be an Ed25519 OKP JWK matching signature.key_id"
    else
      x ← _require_string (dget jwk "x") "public_key_jwk.x" "TRUSTED_KEYS_INVALID";
      public_key_bytes ← _decode_base64url x "public_key_jwk.x" "TRUSTED_KEYS_INVALID";
      signature_bytes ← _decode_base64url (sig_value signature) "checkpoint.signature.value" "SIGNATURE_INVALID";
      if negb (Nat.eqb (String.length public_key_bytes) 32) || negb (Nat.eqb (String.length signature_bytes) 64)
      then _error "SIGNATURE_INVALID" "checkpoint key or signature has an invalid Ed25519 length"
      else if negb ed25519_available
      then _error "CRYPTO_BACKEND_UNAVAILABLE"
        "Ed25519 verification requires the 'cryptography' package (a base dependency since 1.1.0 — this install is missing or broken)"
      else
        message ← escape (canonicalize_bytes (JDict (_checkpoint_statement c)) DEFAULT_MAX_CANONICAL_OUTPUT_BYTES);
        valid ← escape (ed25519_verify public_key_bytes signature_bytes message);
        if negb valid then _error "SIGNATURE_INVALID" "transparency checkpoint signature could not be verified"
        else Ok (mkVerifiedCheckpoint (cp_log c) (cp_tree_size c) (hex_encode (cp_root_hash c)) (cp_issued_at c)
                   (sig_key_id signature)).

(** ** Inclusion *)
Record VerifiedInclusion := mkVerifiedInclusion {
  vi_log_id : string; vi_tree_size : Z; vi_leaf_index : Z; vi_leaf_digest : DigestSpec;
  vi_checkpoint : option VerifiedCheckpoint
}.

(** The contract and hash algorithm every proof declares. *)
Definition check_proof_header (proof : dict) (name code : string) (expected : json) (contract_message algorithm_message : string) : tv unit :=
  contract ← _require_mapping (dget proof "contract") (name +:+ ".contract") code;
  if negb (py_eqb (JDict contract) expected) then _error code contract_message
  else if negb (is_str (dget proof "hash_algorithm") "sha-256") then _error code algorithm_message else Ok tt.

Definition verify_inclusion (digest : DigestSpec + json) (inclusion_proof : json) (checkpoint : dict) : tv VerifiedInclusion :=
  expected_digest ← _resolve_digest digest;
  proof ← _require_mapping inclusion_proof "inclusion_proof" "INVALID_INCLUSION_PROOF";
  _ ← check_proof_header proof "inclusion_proof" "INVALID_INCLUSION_PROOF" INCLUSION_PROOF_CONTRACT
        "proof contract must declare transparency_inclusion_proof v1" "inclusion proof hash_algorithm must be sha-256";
  observed_digest ← _parse_digest (dget proof "leaf_digest") "inclusion_proof.leaf_digest";
  if negb (bool_decide (observed_digest = expected_digest))
  then _error "LEAF_DIGEST_MISMATCH" "inclusion proof leaf digest does not match the supplied digest"
  else
    log_id ← _require_string (dget proof "log_id") "inclusion_proof.log_id" "INVALID_INCLUSION_PROOF";
    tree_size ← _require_nonnegative_int (dget proof "tree_size") "inclusion_proof.tree_size" "INVALID_INCLUSION_PROOF";
    leaf_index ← _require_nonnegative_int (dget proof "leaf_index") "inclusion_proof.leaf_index" "INVALID_INCLUSION_PROOF";
    if (tree_size =? 0)%Z || (tree_size <=? leaf_index)%Z
    then _error "INVALID_INCLUSION_PROOF" "leaf_index must identify a leaf within the non-empty proof tree"
    else
      audit_path ← _parse_hash_path (dget proof "audit_path") "inclusion_proof.audit_path" "INVALID_INCLUSION_PROOF";
      c ← _parse_checkpoint checkpoint;
      if negb (String.eqb (party_id (cp_log c)) log_id) || negb (cp_tree_size c =? tree_size)%Z
      then _error "CHECKPOINT_MISMATCH" "inclusion proof log or tree size does not match the checkpoint"
      else
        let '(sn, node) := inclusion_loop audit_path leaf_index (tree_size - 1) (_leaf_hash (digest_bytes expected_digest)) in
        if negb (sn =? 0)%Z || negb (String.eqb node (cp_root_hash c))
        then _error "INCLUSION_PROOF_INVALID" "digest is not included in the supplied checkpoint"
        else Ok (mkVerifiedInclusion log_id tree_size leaf_index expected_digest None).

(** ** Consistency *)
Record VerifiedConsistency := mkVerifiedConsistency { vk_log_id : string; vk_old_tree_size : Z; vk_new_tree_size : Z }.

(** The three cases of the path check. *)
Definition check_consistency_path (old_size new_size : Z) (old_root new_root : string) (path : list string) : tv unit :=
  if (old_size =? 0)%Z then
    match path with
    | [] => Ok tt
    | _ => _error "CONSISTENCY_PROOF_INVALID" "empty-tree consistency proof must have an empty path"
    end
  else if (old_size =? new_size)%Z then
    if match path with [] => false | _ => true end || negb (String.eqb old_root new_root)
    then _error "EQUIVOCATION_DETECTED" "same-size checkpoints have different roots or a non-empty proof" else Ok tt
  else
    let '(fn, sn) := while_odd (loop_fuel (old_size - 1)) (old_size - 1) (new_size - 1) in
    match consistency_start old_root path fn with
    | None => _error "CONSISTENCY_PROOF_INVALID" "consistency proof path is incomplete"
    | Some (start, rest) =>
        match consistency_loop rest fn sn start start with
        | None => _error "CONSISTENCY_PROOF_INVALID" "consistency proof path contains extra hashes"
        | Some (sn, first, second) =>
            if negb (sn =? 0)%Z || negb (String.eqb first old_root) || negb (String.eqb second new_root)
            then _error "CONSISTENCY_PROOF_INVALID" "checkpoints are not append-only consistent" else Ok tt
        end
    end.

Definition verify_consistency (old_checkpoint new_checkpoint : dict) (consistency_proof : json) : tv VerifiedConsistency :=
  old ← _parse_checkpoint old_checkpoint;
  new ← _parse_checkpoint new_checkpoint;
  if negb (String.eqb (party_type (cp_log old)) (party_type (cp_log new)) && String.eqb (party_id (cp_log old)) (party_id (cp_log new)))
  then _error "LOG_IDENTITY_MISMATCH" "consistency checkpoints identify different logs"
  else if (cp_tree_size new <? cp_tree_size old)%Z
  then _error "REWIND_DETECTED" "new checkpoint tree size is smaller than the previous checkpoint"
  else
    proof ← _require_mapping consistency_proof "consistency_proof" "INVALID_CONSISTENCY_PROOF";
    _ ← check_proof_header proof "consistency_proof" "INVALID_CONSISTENCY_PROOF" CONSISTENCY_PROOF_CONTRACT
          "proof contract must declare transparency_consistency_proof v1" "consistency proof hash_algorithm must be sha-256";
    log_id ← _require_string (dget proof "log_id") "consistency_proof.log_id" "INVALID_CONSISTENCY_PROOF";
    proof_old_size ← _require_nonnegative_int (dget proof "old_tree_size") "consistency_proof.old_tree_size" "INVALID_CONSISTENCY_PROOF";
    proof_new_size ← _require_nonnegative_int (dget proof "new_tree_size") "consistency_proof.new_tree_size" "INVALID_CONSISTENCY_PROOF";
    if negb (String.eqb log_id (party_id (cp_log old))) || negb (proof_old_size =? cp_tree_size old)%Z
       || negb (proof_new_size =? cp_tree_size new)%Z
    then _error "CHECKPOINT_MISMATCH" "consistency proof does not match the supplied checkpoints"
    else
      path ← _parse_hash_path (dget proof "consistency_path") "consistency_proof.consistency_path" "INVALID_CONSISTENCY_PROOF";
      _ ← check_consistency_path (cp_tree_size old) (cp_tree_size new) (cp_root_hash old) (cp_root_hash new) path;
      Ok (mkVerifiedConsistency log_id (cp_tree_size old) (cp_tree_size new)).

(** ** Counter-signatures and monitors *)
Definition verify_countersignature_inclusion (countersignature : json) (inclusion_proof : json) (checkpoint trusted_keys : dict)
    : tv VerifiedInclusion :=
  artifact ← _require_mapping countersignature "countersignature" "INVALID_COUNTERSIGNATURE";
  contract ← _require_mapping (dget artifact "contract") "countersignature.contract" "INVALID_COUNTERSIGNATURE";
  if negb (is_str (dget contract "name") "receipt_countersignature") || negb (is_str (dget contract "version") "v1")
  then _error "INVALID_COUNTERSIGNATURE" "contract must declare receipt_countersignature v1"
  else
    digest ← _parse_digest (dget artifact "receipt_digest") "countersignature.receipt_digest";
    anchor ← _require_mapping (dget artifact "anchor_reference") "countersignature.anchor_reference" "ORPHAN_COUNTERSIGNATURE";
    if negb (is_str (dget anchor "type") "transparency_log")
    then _error "ORPHAN_COUNTERSIGNATURE" "counter-signature is not anchored to a transparency log"
    else
      anchor_log_id ← _require_string (dget anchor "id") "countersignature.anchor_reference.id" "ORPHAN_COUNTERSIGNATURE";
      anchor_leaf_index ← _require_nonnegative_int (dget anchor "leaf_index") "countersignature.anchor_reference.leaf_index"
                            "ORPHAN_COUNTERSIGNATURE";
      verified_checkpoint ← verify_checkpoint_signature checkpoint trusted_keys;
      verified_inclusion ←
        match verify_inclusion (inl digest) inclusion_proof checkpoint with
        | Err (TransparencyVerificationError code _) as r =>
            if String.eqb code "LEAF_DIGEST_MISMATCH"
            then _error "ORPHAN_COUNTERSIGNATURE" "counter-signature digest is not the digest proven at the declared log leaf"
            else r
        | r => r
        end;
      if negb (String.eqb anchor_log_id (vi_log_id verified_inclusion)) || negb (anchor_leaf_index =? vi_leaf_index verified_inclusion)%Z
      then _error "ORPHAN_COUNTERSIGNATURE" "counter-signature anchor does not match the verified inclusion proof"
      else Ok (mkVerifiedInclusion (vi_log_id verified_inclusion) (vi_tree_size verified_inclusion)
                 (vi_leaf_index verified_inclusion) (vi_leaf_digest verified_inclusion) (Some verified_checkpoint)).

Record VerifiedMonitorUpdate := mkVerifiedMonitorUpdate {
  vm_previous : VerifiedCheckpoint; vm_current : VerifiedCheckpoint; vm_consistency : VerifiedConsistency
}.

Definition verify_monitor_update (previous_checkpoint current_checkpoint : dict) (consistency_proof : json) (trusted_keys : dict)
    : tv VerifiedMonitorUpdate :=
  previous ← verify_checkpoint_signature previous_checkpoint trusted_keys;
  current ← verify_checkpoint_signature current_checkpoint trusted_keys;
  consistency ← verify_consistency previous_checkpoint current_checkpoint consistency_proof;
  Ok (mkVerifiedMonitorUpdate previous current consistency).
End Transparency.

(** ** Facts *)
Lemma hex_decode_length s b : hex_decode s = Some b -> String.length s = 2 * String.length b.
Proof.
  revert b. induction s as [s IH] using (well_founded_ind (Wf_nat.well_founded_ltof _ String.length)). intros b.
  destruct s as [|x [|y r]]; simpl; [by intros [= <-]|done|]. destruct (hex_value x), (hex_value y); try done.
  destruct (hex_decode r) as [r'|] eqn:Hr; [|done]. intros [= <-]. apply IH in Hr; [simpl; lia|unfold Wf_nat.ltof; simpl; lia].
Qed.

Lemma hex_256_length raw b : hex_256 raw = Some b -> String.length b = 32.
Proof. unfold hex_256. destruct (Nat.eqb_spec (String.length raw) 64); [|done]. intros Hd%hex_decode_length. lia. Qed.

Lemma hex_value_char n : (n < 16)%N -> hex_value (hex_char n) = Some n.
Proof.
  intros Hn. assert (n ∈ map N.of_nat (seq 0 16)) as Hin.
  { apply list_elem_of_fmap. exists (N.to_nat n). split; [lia|]. apply elem_of_seq. lia. }
  simpl in Hin. repeat (apply elem_of_cons in Hin as [->|Hin]; [reflexivity|]). by apply elem_of_nil in Hin.
Qed.

Lemma hex_decode_encode b : hex_decode (hex_encode b) = Some b.
Proof.
  induction b as [|c b IH]; simpl; [done|]. pose proof (N_ascii_bounded c) as Hc.
  rewrite !hex_value_char, IH; [|apply N.mod_lt; lia|apply N.Div0.div_lt_upper_bound; lia].
  rewrite <- N.div_mod by lia. by rewrite ascii_N_embedding.
Qed.

Lemma hex_encode_length b : String.length (hex_encode b) = 2 * String.length b.
Proof. induction b as [|c b IH]; simpl; [done|]. rewrite IH. lia. Qed.

Lemma hex_256_encode b : String.length b = 32 -> hex_256 (hex_encode b) = Some b.
Proof. intros Hb. unfold hex_256. rewrite hex_encode_length, Hb. simpl. apply hex_decode_encode. Qed.

Lemma parse_hex_hash_length value f code b : _parse_hex_hash value f code = Ok b -> String.length b = 32.
Proof.
  unfold _parse_hex_hash. intros (raw & _ & Hb)%bind_Ok. destruct (hex_256 raw) eqn:Hx; [|done]. injection Hb as <-. by eapply hex_256_length.
Qed.

Lemma parse_hashes_length i l f code path : parse_hashes i l f code = Ok path -> Forall (fun h => String.length h = 32) path.
Proof.
  revert i path. induction l as [|x l IH]; intros i path; simpl; [by intros [= <-]|].
  intros (h & Hh & (rest & Hr & [= <-])%bind_Ok)%bind_Ok. constructor; [by eapply parse_hex_hash_length|eauto].
Qed.

Lemma parse_hash_path_length value f code path : _parse_hash_path value f code = Ok path -> Forall (fun h => String.length h = 32) path.
Proof. unfold _parse_hash_path. destruct value; try done. apply parse_hashes_length. Qed.

(** The hashes a log prints are read back. *)
Lemma parse_hashes_encode l i f code : Forall (fun h => String.length h = 32) l ->
  parse_hashes i (map (fun h => JStr (hex_encode h)) l) f code = Ok l.
Proof.
  revert i. induction l as [|h l IH]; intros i Hl; simpl; [done|]. apply Forall_cons in Hl as [Hh Hl].
  unfold _parse_hex_hash, _require_string, str_truthy. rewrite IH by done.
  destruct (String.eqb_spec (hex_encode h) "") as [He|]; [apply (f_equal String.length) in He; rewrite hex_encode_length, Hh in He; discriminate He|].
  simpl. by rewrite hex_256_encode.
Qed.

Lemma require_nonnegative_Ok value f code z : _require_nonnegative_int value f code = Ok z -> (0 <= z)%Z.
Proof. destruct value as [| |n| | | |]; simpl; try done. destruct (Z.ltb_spec n 0); [done|]. by intros [= <-]. Qed.

(** Break a verification that returned into its checks. *)
Ltac tv_inv :=
  repeat match goal with
  | H : (_ ≫= _) = Ok _ |- _ => apply bind_Ok in H as (? & ? & H)
  | H : (if ?c then _error _ _ else _) = Ok _ |- _ => let E := fresh "E" in destruct c eqn:E; [discriminate H|]
  | H : (let '(_, _) := ?p in _) = Ok _ |- _ => let E := fresh "E" in destruct p eqn:E
  | H : Ok _ = Ok _ |- _ => injection H as H
  end.

Section Facts.
Context `{Protocol} `{PyText} `{Sha256} `{Ed25519}.

Lemma parse_digest_Ok value f d : _parse_digest value f = Ok d -> exists b, hex_256 (dg_value d) = Some b /\ digest_bytes d = b.
Proof.
  unfold _parse_digest. intros Hd. tv_inv. subst d. simpl. apply orb_false_iff in E as [_ E].
  destruct (hex_256 _) as [b|] eqn:Hb; [|done]. exists b. split; [done|]. unfold digest_bytes. simpl.
  unfold hex_256 in Hb. destruct (Nat.eqb _ 64); [|done]. by rewrite Hb.
Qed.

(** What [verify_inclusion] has checked when it returns. *)
Lemma verify_inclusion_inv digest proof checkpoint v : verify_inclusion digest (JDict proof) checkpoint = Ok v ->
  exists c path, _parse_checkpoint checkpoint = Ok c /\
    _parse_hash_path (dget proof "audit_path") "inclusion_proof.audit_path" "INVALID_INCLUSION_PROOF" = Ok path /\
    _resolve_digest digest = Ok (vi_leaf_digest v) /\ vi_log_id v = party_id (cp_log c) /\ vi_tree_size v = cp_tree_size c /\
    (0 <= vi_leaf_index v < vi_tree_size v)%Z /\
    inclusion_loop path (vi_leaf_index v) (cp_tree_size c - 1) (_leaf_hash (digest_bytes (vi_leaf_digest v))) = (0%Z, cp_root_hash c).
Proof.
  unfold verify_inclusion. intros Hv. tv_inv. simpl in *. subst v. simpl.
  match goal with E : Ok proof = Ok _ |- _ => injection E as <- end.
  repeat match goal with E : _ || _ = false |- _ => apply orb_false_iff in E as [? ?] end.
  repeat match goal with E : negb _ = false |- _ => apply negb_false_iff in E end.
  match goal with E : (cp_tree_size ?c =? ?n)%Z = true |- _ => apply Z.eqb_eq in E; subst n; rename c into cd end.
  repeat match goal with E : String.eqb _ _ = true |- _ => apply String.eqb_eq in E end.
  repeat match goal with E : (_ =? _)%Z = true |- _ => apply Z.eqb_eq in E end. subst.
  match goal with E : _parse_hash_path _ _ _ = Ok ?p |- _ => exists cd, p end.
  split_and!; try done.
  - match goal with E : _require_nonnegative_int (dget proof "leaf_index") _ _ = Ok _ |- _ => by apply require_nonnegative_Ok in E end.
  - match goal with E : (_ <=? _)%Z = false |- _ => apply Z.leb_gt in E end. lia.
Qed.

(** A checkpoint that commits to a list of leaves. *)
Definition commits (checkpoint : dict) (leaves : list string) : Prop :=
  exists c, _parse_checkpoint checkpoint = Ok c /\ cp_root_hash c = merkle_root leaves /\ cp_tree_size c = Z.of_nat (length leaves).

(** Every input hashed for the tree, the digest and the path. *)
Definition inclusion_all_inputs (leaves : list string) (digest : string) (leaf_index : Z) (path : list string) : list string :=
  tree_inputs (tree_of leaves) ++
  String byte_00 digest :: inclusion_inputs path leaf_index (Z.of_nat (length leaves) - 1) (_leaf_hash digest).

Lemma inclusion_sound digest proof checkpoint v leaves path :
  verify_inclusion digest (JDict proof) checkpoint = Ok v -> commits checkpoint leaves ->
  _parse_hash_path (dget proof "audit_path") "inclusion_proof.audit_path" "INVALID_INCLUSION_PROOF" = Ok path ->
  collision_free (inclusion_all_inputs leaves (digest_bytes (vi_leaf_digest v)) (vi_leaf_index v) path) ->
  _resolve_digest digest = Ok (vi_leaf_digest v) /\
  leaves !! Z.to_nat (vi_leaf_index v) = Some (digest_bytes (vi_leaf_digest v)).
Proof.
  intros (c & path' & Hc & Hp & Hd & _ & Hts & Hi & Hloop)%verify_inclusion_inv (c' & Hc' & Hroot & Hsize) Hp' Hcf.
  rewrite Hc in Hc'. injection Hc' as <-. rewrite Hp in Hp'. injection Hp' as ->. split; [done|].
  rewrite Hts in Hi. rewrite Hsize in *. rewrite Hroot in Hloop.
  assert (merkle_root leaves = mroot (tree_of leaves)) as Hm by (destruct leaves; [simpl in Hi; lia|done]). rewrite Hm in Hloop.
  rewrite <- (Z2Nat.id (vi_leaf_index v)) in Hloop by lia. set (m := Z.to_nat (vi_leaf_index v)) in *.
  eapply (inclusion_loop_sound (tree_of leaves) _ Hcf); [| |lia|by eapply parse_hash_path_length| | |exact Hloop]; unfold inclusion_all_inputs.
  - set_solver.
  - done.
  - set_solver.
  - rewrite <- (Z2Nat.id (vi_leaf_index v)) by lia. set_solver.
Qed.

(** ** Honest proofs *)
Definition honest_inclusion_proof (leaves : list string) (m : nat) (digest : DigestSpec) (log_id : string) : dict :=
  [("contract", INCLUSION_PROOF_CONTRACT); ("hash_algorithm", JStr "sha-256"); ("leaf_digest", JDict (DigestSpec_to_dict digest));
   ("log_id", JStr log_id); ("tree_size", JInt (Z.of_nat (length leaves))); ("leaf_index", JInt (Z.of_nat m));
   ("audit_path", JList (map (fun h => JStr (hex_encode h)) (rfc_path m (map MLeaf leaves))))].

Lemma rfc_path_lengths m l : Forall (fun h => String.length h = 32) (rfc_path m l).
Proof.
  remember (length l) as n eqn:Hn. revert m l Hn. induction n as [n IH] using lt_wf_ind. intros m l ->.
  destruct (decide (length l < 2)) as [Hs|Hs]; [destruct l as [|? [|? ?]]; simpl in Hs; [constructor|constructor|lia]|].
  pose proof (split_point_bounds (length l)) as Hb. rewrite rfc_path_split by lia.
  case_match; (apply Forall_app; split; [|repeat constructor; apply mroot_length]); eapply IH; try done;
    rewrite ?length_take, ?length_drop; lia.
Qed.

Lemma parse_digest_roundtrip b profile f : String.length b = 32 -> profile ∈ ACCEPTED_CANONICALIZATION_PROFILES -> profile <> "" ->
  _parse_digest (JDict (DigestSpec_to_dict (mkDigestSpec "sha-256" profile (hex_encode b)))) f = Ok (mkDigestSpec "sha-256" profile (hex_encode b)).
Proof.
  intros Hb Hp Hne. unfold _parse_digest, _require_string, str_truthy. simpl.
  rewrite (proj2 (String.eqb_neq profile "")) by done.
  destruct (String.eqb_spec (hex_encode b) "") as [He|]; [apply (f_equal String.length) in He; rewrite hex_encode_length, Hb in He; discriminate He|].
  simpl. rewrite hex_256_encode by done. by rewrite (proj2 (str_mem_spec _ _)).
Qed.

Lemma on_value_error_Ok {A} code msg (r : py A) a : on_value_error code msg r = Ok a -> r = Ok a.
Proof. destruct r as [|[]]; simpl; try done. by intros [= ->]. Qed.

Lemma checkpoint_log_id checkpoint c : _parse_checkpoint checkpoint = Ok c -> str_truthy (party_id (cp_log c)) = true.
Proof.
  unfold _parse_checkpoint. intros Hc. tv_inv. subst c. simpl.
  match goal with E : on_value_error _ _ _ = Ok _ |- _ => apply on_value_error_Ok in E; rename E into Hl end. res_inv.
  match goal with E : PartyRef_from_dict _ _ = Ok _ |- _ => unfold PartyRef_from_dict in E; rename E into Hp end. res_inv. simpl.
  match goal with E : expect_string (dget _ "id") _ = Ok _ |- _ => unfold expect_string in E; rename E into Hid end.
  repeat case_match; try discriminate Hid. by injection Hid as <-.
Qed.

Lemma honest_inclusion checkpoint c leaves m b profile :
  _parse_checkpoint checkpoint = Ok c -> cp_root_hash c = merkle_root leaves -> cp_tree_size c = Z.of_nat (length leaves) ->
  leaves !! m = Some b -> String.length b = 32 -> profile ∈ ACCEPTED_CANONICALIZATION_PROFILES -> profile <> "" ->
  let digest := mkDigestSpec "sha-256" profile (hex_encode b) in
  verify_inclusion (inl digest) (JDict (honest_inclusion_proof leaves m digest (party_id (cp_log c)))) checkpoint =
    Ok (mkVerifiedInclusion (party_id (cp_log c)) (Z.of_nat (length leaves)) (Z.of_nat m) digest None).
Proof.
  intros Hc Hroot Hsize Hm Hb Hp Hne digest. pose proof (lookup_lt_Some _ _ _ Hm) as Hlt.
  pose proof (fun f => parse_digest_roundtrip b profile f Hb Hp Hne) as Hd.
  unfold verify_inclusion, _resolve_digest, honest_inclusion_proof. subst digest.
  set (dj := JDict (DigestSpec_to_dict _)) in *. clearbody dj. rewrite Hd. simpl.
  rewrite Hd. simpl. rewrite bool_decide_true by done. simpl.
  rewrite (checkpoint_log_id _ _ Hc). simpl. rewrite !(proj2 (Z.ltb_ge _ _)) by lia. simpl.
  rewrite (proj2 (Z.eqb_neq (Z.of_nat (length leaves)) 0)), (proj2 (Z.leb_gt (Z.of_nat (length leaves)) (Z.of_nat m))) by lia. simpl.
  rewrite parse_hashes_encode by apply rfc_path_lengths. simpl. rewrite Hc. simpl. rewrite String.eqb_refl, Hsize, Z.eqb_refl. simpl.
  unfold digest_bytes. simpl. rewrite hex_decode_encode. simpl.
  assert ((map MLeaf leaves) !! m = Some (MLeaf b)) as Hml by (change (map MLeaf leaves) with (MLeaf <$> leaves); by rewrite list_lookup_fmap, Hm).
  pose proof (inclusion_loop_complete _ _ _ Hml) as Hloop. rewrite length_map in Hloop. simpl in Hloop.
  replace (Z.of_nat (length leaves) - 1)%Z with (Z.of_nat (length leaves - 1)) by lia. rewrite Hloop. simpl.
  rewrite Hroot. replace (merkle_root leaves) with (mroot (tree_of leaves)) by (by destruct leaves). by rewrite String.eqb_refl.
Qed.

(** ** Consistency *)
Lemma check_consistency_sound D D' path :
  check_consistency_path (Z.of_nat (length D)) (Z.of_nat (length D')) (merkle_root D) (merkle_root D') path = Ok tt ->
  length D <= length D' -> Forall (fun h => String.length h = 32) path -> collision_free (consistency_all_inputs D D' path) ->
  D `prefix_of` D'.
Proof.
  unfold check_consistency_path. intros Hc Hle Hp Hcf.
  destruct (Z.eqb_spec (Z.of_nat (length D)) 0) as [Hz|Hz]; [replace D with (@nil string) by (by destruct D); apply prefix_nil|].
  destruct (Z.eqb_spec (Z.of_nat (length D)) (Z.of_nat (length D'))) as [He|Hne].
  - destruct path; [|done]. simpl in Hc. destruct (String.eqb_spec (merkle_root D) (merkle_root D')) as [Hr|]; [|done].
    assert (D <> [] /\ D' <> []) as [HD HD'] by (split; intros ->; simpl in *; lia).
    assert (mroot (tree_of D) = mroot (tree_of D')) as Ht by (destruct D, D'; done).
    apply (mroot_inj _ _ _ Hcf) in Ht; [|unfold consistency_all_inputs; set_solver..].
    apply (f_equal leaves_of) in Ht. rewrite !leaves_of_tree_of in Ht by done. by rewrite Ht.
  - destruct (while_odd _ _ _) as [fn sn] eqn:Hw. destruct (consistency_start _ path fn) as [[start rest]|] eqn:Hs; [|done].
    destruct (consistency_loop rest fn sn start start) as [[[sn' first] second]|] eqn:Hloop; [|done].
    match type of Hc with (if ?b then _ else _) = _ => destruct b eqn:E; [done|] end.
    repeat (apply orb_false_iff in E as [E ?]).
    repeat match goal with X : negb _ = false |- _ => apply negb_false_iff in X end.
    apply Z.eqb_eq in E. repeat match goal with X : String.eqb _ _ = true |- _ => apply String.eqb_eq in X end. subst.
    rewrite (consistency_sound D D' path); [apply prefix_take|lia|done|done|]. unfold consistency_accepts. by eexists _, _, _, _.
Qed.

Lemma verify_consistency_inv old new proof v : verify_consistency old new (JDict proof) = Ok v ->
  exists co cn path, _parse_checkpoint old = Ok co /\ _parse_checkpoint new = Ok cn /\
    _parse_hash_path (dget proof "consistency_path") "consistency_proof.consistency_path" "INVALID_CONSISTENCY_PROOF" = Ok path /\
    (cp_tree_size co <= cp_tree_size cn)%Z /\
    check_consistency_path (cp_tree_size co) (cp_tree_size cn) (cp_root_hash co) (cp_root_hash cn) path = Ok tt.
Proof.
  unfold verify_consistency. intros Hv. tv_inv. simpl in *.
  match goal with E : Ok proof = Ok _ |- _ => injection E as <- end.
  match goal with E : (_ <? _)%Z = false |- _ => apply Z.ltb_ge in E end.
  match goal with E : check_consistency_path _ _ _ _ ?p = Ok ?u |- _ => destruct u; eexists _, _, p; split_and!; done end.
Qed.

Lemma consistency_prefix old new proof v path D D' : verify_consistency old new (JDict proof) = Ok v ->
  _parse_hash_path (dget proof "consistency_path") "consistency_proof.consistency_path" "INVALID_CONSISTENCY_PROOF" = Ok path ->
  commits old D -> commits new D' -> collision_free (consistency_all_inputs D D' path) -> D `prefix_of` D'.
Proof.
  intros (co & cn & path' & Ho & Hn & Hp & Hle & Hc)%verify_consistency_inv Hp' (co' & Ho' & Hro & Hso) (cn' & Hn' & Hrn & Hsn) Hcf.
  rewrite Ho in Ho'. injection Ho' as <-. rewrite Hn in Hn'. injection Hn' as <-. rewrite Hp in Hp'. injection Hp' as ->.
  rewrite Hso, Hsn, Hro, Hrn in Hc. rewrite Hso, Hsn in Hle. eapply check_consistency_sound; [exact Hc|lia|by eapply parse_hash_path_length|done].
Qed.

(** A monitor's history: the checkpoints it accepted one after the other, with the
    leaves each commits to. *)
Inductive monitored (trusted_keys : dict) (c0 : dict) (D0 : list string) : dict -> list string -> Prop :=
| monitored_start : commits c0 D0 -> monitored trusted_keys c0 D0 c0 D0
| monitored_update c D c' D' proof path v :
    monitored trusted_keys c0 D0 c D ->
    verify_monitor_update c c' (JDict proof) trusted_keys = Ok v ->
    _parse_hash_path (dget proof "consistency_path") "consistency_proof.consistency_path" "INVALID_CONSISTENCY_PROOF" = Ok path ->
    commits c' D' -> collision_free (consistency_all_inputs D D' path) ->
    monitored trusted_keys c0 D0 c' D'.

Lemma monitored_commits trusted_keys c0 D0 c D : monitored trusted_keys c0 D0 c D -> commits c D.
Proof. by destruct 1. Qed.

Lemma monitor_update_consistent previous current proof trusted_keys v :
  verify_monitor_update previous current proof trusted_keys = Ok v ->
  exists k, verify_consistency previous current proof = Ok k.
Proof. unfold verify_monitor_update. intros Hv. tv_inv. eauto. Qed.
End Facts.

(** C28: an inclusion proof that [verify_inclusion] accepts against a checkpoint
    proves membership: when the checkpoint's root and size are those of a list of
    leaves and SHA-256 does not collide on the inputs that occur, the digest the
    caller asked about is the leaf at the index the proof names.  This holds
    although the loop does not bound the length of the path. *)
Theorem inclusion_proof_sound `{Protocol} `{Sha256} (digest : DigestSpec + json) (proof checkpoint : dict) (v : VerifiedInclusion)
    (leaves path : list string) :
  verify_inclusion digest (JDict proof) checkpoint = Ok v -> commits checkpoint leaves ->
  _parse_hash_path (dget proof "audit_path") "inclusion_proof.audit_path" "INVALID_INCLUSION_PROOF" = Ok path ->
  collision_free (inclusion_all_inputs leaves (digest_bytes (vi_leaf_digest v)) (vi_leaf_index v) path) ->
  _resolve_digest digest = Ok (vi_leaf_digest v) /\
  leaves !! Z.to_nat (vi_leaf_index v) = Some (digest_bytes (vi_leaf_digest v)).
Proof. apply inclusion_sound. Qed.

(** The proofs a log computes from its tree (RFC 6962) are accepted: for every
    leaf of the tree a checkpoint commits to, [verify_inclusion] returns the log,
    the size, the index and the digest. *)
Theorem honest_inclusion_accepted `{Protocol} `{Sha256} (checkpoint : dict) (c : checkpoint_data) (leaves : list string) (m : nat)
    (b profile : string) :
  _parse_checkpoint checkpoint = Ok c -> cp_root_hash c = merkle_root leaves -> cp_tree_size c = Z.of_nat (length leaves) ->
  leaves !! m = Some b -> String.length b = 32 -> profile ∈ ACCEPTED_CANONICALIZATION_PROFILES -> profile <> "" ->
  let digest := mkDigestSpec "sha-256" profile (hex_encode b) in
  verify_inclusion (inl digest) (JDict (honest_inclusion_proof leaves m digest (party_id (cp_log c)))) checkpoint =
    Ok (mkVerifiedInclusion (party_id (cp_log c)) (Z.of_nat (length leaves)) (Z.of_nat m) digest None).
Proof. apply honest_inclusion. Qed.

(** C29: a log a monitor has followed only grew: along every sequence of updates
    [verify_monitor_update] accepted, the leaves the first checkpoint commits to
    are a prefix of those the last one commits to. *)
Theorem monitor_append_only `{Protocol} `{PyText} `{Sha256} `{Ed25519} (trusted_keys c0 c : dict) (D0 D : list string) :
  monitored trusted_keys c0 D0 c D -> D0 `prefix_of` D.
Proof.
  induction 1 as [|c D c' D' proof path v Hm IH Hu Hp Hc Hcf]; [done|]. etransitivity; [exact IH|].
  apply monitor_update_consistent in Hu as [k Hk]. eapply consistency_prefix; [exact Hk|exact Hp|by eapply monitored_commits|done|done].
Qed.

(** ** Samples: a log of three and then four leaves *)
Definition demo_ed25519 : Ed25519 := {| ed25519_available := true; ed25519_verify _ _ _ := Ok true |}.
#[local] Existing Instance demo_sha256.

Definition sample_leaves : list string := map sha256_digest ["a"; "b"; "c"].
Definition sample_leaves' : list string := sample_leaves ++ [sha256_digest "d"].

Definition sample_checkpoint (leaves : list string) : dict :=
  [("contract", CHECKPOINT_CONTRACT);
   ("log", JDict [("type", JStr "log"); ("id", JStr "log-1")]);
   ("tree_size", JInt (Z.of_nat (length leaves)));
   ("root_hash", JDict [("algorithm", JStr "sha-256"); ("encoding", JStr "hex"); ("value", JStr (hex_encode (merkle_root leaves)))]);
   ("issued_at", JStr "2024-01-01T00:00:00Z");
   ("signature", JDict [("algorithm", JStr "EdDSA"); ("key_id", JStr "k1"); ("encoding", JStr "base64url");
      ("value", JStr (String.concat "" (repeat "A" 86)))])].

Definition sample_keys : dict :=
  [("contract", contract_header "key_discovery"); ("issuer", JDict [("type", JStr "log"); ("id", JStr "log-1")]);
   ("keys", JList [JDict [("key_id", JStr "k1"); ("algorithm", JStr "EdDSA"); ("use", JStr "transparency_checkpoint");
      ("status", JStr "active"); ("public_key_jwk", JDict [("kty", JStr "OKP"); ("crv", JStr "Ed25519"); ("x", JStr (String.concat "" (repeat "A" 43)))])]])].

Definition sample_digest (s : string) : DigestSpec := mkDigestSpec "sha-256" "ACTENON-JCS-STRICT-1" (hex_encode (sha256_digest s)).
Definition sample_inclusion : dict := Eval vm_compute in honest_inclusion_proof sample_leaves 1 (sample_digest "b") "log-1".
Definition sample_path : list string := Eval vm_compute in rfc_path 1 (map MLeaf sample_leaves).

Definition sample_parsed (leaves : list string) : checkpoint_data :=
  match _parse_checkpoint (sample_checkpoint leaves) with
  | Ok c => c
  | Err _ => mkCheckpointData (mkPartyRef "" "" JNull []) 0 "" "" 0 (mkSignatureSpec "" "" "" "")
  end.

Lemma sample_commits : commits (sample_checkpoint sample_leaves) sample_leaves.
Proof. exists (sample_parsed sample_leaves). vm_compute. done. Qed.
Lemma sample_commits' : commits (sample_checkpoint sample_leaves') sample_leaves'.
Proof. exists (sample_parsed sample_leaves'). vm_compute. done. Qed.

Lemma inclusion_proof_sound_witness : sample_leaves !! 1 = Some (digest_bytes (sample_digest "b")).
Proof.
  refine (proj2 (@inclusion_proof_sound demo_protocol demo_sha256 (inl (sample_digest "b")) sample_inclusion (sample_checkpoint sample_leaves)
    (mkVerifiedInclusion "log-1" 3 1 (sample_digest "b") None) sample_leaves sample_path _ sample_commits _ _)).
  - vm_compute. reflexivity.
  - vm_compute. reflexivity.
  - apply collision_freeb_spec. vm_compute. reflexivity.
Defined.

Lemma honest_inclusion_accepted_witness :
  @verify_inclusion demo_protocol demo_sha256 (inl (sample_digest "c"))
    (JDict (honest_inclusion_proof sample_leaves 2 (sample_digest "c") "log-1")) (sample_checkpoint sample_leaves) =
  Ok (mkVerifiedInclusion "log-1" 3 2 (sample_digest "c") None).
Proof.
  refine (@honest_inclusion_accepted demo_protocol demo_sha256 (sample_checkpoint sample_leaves) (sample_parsed sample_leaves) sample_leaves 2
    (sha256_digest "c") "ACTENON-JCS-STRICT-1" _ _ _ _ _ _ _); try (vm_compute; reflexivity).
  - left.
  - discriminate.
Defined.

Definition sample_consistency : dict :=
  [("contract", CONSISTENCY_PROOF_CONTRACT); ("hash_algorithm", JStr "sha-256"); ("log_id", JStr "log-1");
   ("old_tree_size", JInt 3); ("new_tree_size", JInt 4);
   ("consistency_path", JList (map (fun h => JStr (hex_encode h))
      [_leaf_hash (sha256_digest "c"); _leaf_hash (sha256_digest "d");
       _node_hash (_leaf_hash (sha256_digest "a")) (_leaf_hash (sha256_digest "b"))]))].
Definition sample_consistency_path : list string :=
  Eval vm_compute in [_leaf_hash (sha256_digest "c"); _leaf_hash (sha256_digest "d");
       _node_hash (_leaf_hash (sha256_digest "a")) (_leaf_hash (sha256_digest "b"))].
Lemma sample_update_Ok : exists v,
  @verify_monitor_update demo_protocol demo_text demo_sha256 demo_ed25519 (sample_checkpoint sample_leaves) (sample_checkpoint sample_leaves')
    (JDict sample_consistency) sample_keys = Ok v.
Proof.
  match goal with |- exists v, ?r = Ok v => assert (is_ok r = true) as Hok by (vm_compute; reflexivity); destruct r as [v|e] end; [by exists v|discriminate Hok].
Qed.

Lemma monitor_append_only_witness : sample_leaves `prefix_of` sample_leaves'.
Proof.
  destruct sample_update_Ok as [v Hv].
  refine (@monitor_append_only demo_protocol demo_text demo_sha256 demo_ed25519 sample_keys (sample_checkpoint sample_leaves)
    (sample_checkpoint sample_leaves') sample_leaves sample_leaves' _).
  refine (@monitored_update demo_protocol demo_text demo_sha256 demo_ed25519 _ _ _ (sample_checkpoint sample_leaves) sample_leaves _ _
    sample_consistency sample_consistency_path v (@monitored_start demo_protocol demo_text demo_sha256 demo_ed25519 _ _ _ sample_commits) Hv _ sample_commits' _).
  - vm_compute. reflexivity.
  - apply collision_freeb_spec. vm_compute. reflexivity.
Defined.
