(* ===== verification/Countersignature.v ===== *)
(** * Receipt counter-signatures: [verifier/countersignature.py]

    Offline verification against a pinned key set.  [CounterSignatureVerificationError]
    carries a code and a message like the transparency verifier's error, whose type
    and field checks (the two modules repeat them) serve here too; the codes are
    this module's.

    The theorem: what is accepted names the receipt's digest, and is signed, over
    exactly the statement it returns, with a key of the witness that was in force
    and meant for counter-signatures when it signed. *)

From S2P Require Import Prelude Text Json Errors Timestamps Canonical Contracts Runtime Samples ProofService Receipts Artifacts Merkle Base64 Transparency.

Definition COUNTERSIGNATURE_CONTRACT : json := contract_header "receipt_countersignature".
Definition COUNTERSIGNATURE_CONTEXT : string := "actenon.receipt-countersignature.v1".
Definition COUNTERSIGNATURE_KEY_USE : string := "receipt_countersignature".
Definition INVALID_COUNTERSIGNATURE : string := "INVALID_COUNTERSIGNATURE".

Record VerifiedCounterSignature := mkVerifiedCounterSignature {
  vs_receipt_digest : DigestSpec; vs_witness : PartyRef; vs_signed_at : datetime; vs_key_id : string; vs_anchor_reference : option dict
}.

Section Countersignature.
Context `{Protocol} `{PyText} `{Ed25519}.

Definition cs_parse_digest (value : json) (field_name : string) : tv DigestSpec :=
  data ← _require_mapping value field_name INVALID_COUNTERSIGNATURE;
  algorithm ← _require_string (dget data "algorithm") (field_name +:+ ".algorithm") INVALID_COUNTERSIGNATURE;
  canonicalization ← _require_string (dget data "canonicalization") (field_name +:+ ".canonicalization") INVALID_COUNTERSIGNATURE;
  digest_value ← _require_string (dget data "value") (field_name +:+ ".value") INVALID_COUNTERSIGNATURE;
  if negb (String.eqb algorithm ARTIFACT_HASH_ALGORITHM) || negb (str_mem canonicalization ACCEPTED_CANONICALIZATION_PROFILES)
     || match hex_256 digest_value with Some _ => false | None => true end
  then _error "INVALID_RECEIPT_DIGEST"
         "receipt digest must declare sha-256, a known canonicalization profile, and a lowercase 64-character hex value"
  else Ok (mkDigestSpec algorithm canonicalization digest_value).

(** A [DigestSpec], or a mapping (or an object that turns itself into one): a
    complete digest, or a receipt. *)
Definition _resolve_receipt_digest (receipt_or_digest : DigestSpec + json) : tv DigestSpec :=
  match receipt_or_digest with
  | inl d => cs_parse_digest (JDict (DigestSpec_to_dict d)) "receipt_or_digest"
  | inr j =>
      data ← _require_mapping j "receipt_or_digest" INVALID_COUNTERSIGNATURE;
      if has_key "algorithm" data && has_key "canonicalization" data && has_key "value" data
      then cs_parse_digest (JDict data) "receipt_or_digest"
      else
        let bad := _error "INVALID_RECEIPT_DIGEST" "receipt_or_digest must be a Receipt v1 artifact or a complete digest object" in
        match dget data "contract" with
        | JDict contract =>
            if negb (is_str (dget contract "name") "receipt") || negb (is_str (dget contract "version") "v1") then bad
            else match build_artifact_digest data with
                 | Ok d => Ok d
                 | Err e => if is_type_or_value_error e
                            then _error "INVALID_RECEIPT_DIGEST" "receipt could not be canonicalized for digest verification"
                            else Err (Raised e)
                 end
        | _ => bad
        end
  end.

Definition _signed_statement (receipt_digest : DigestSpec) (witness : PartyRef) (signed_at_raw : string) (anchor_reference : option dict) : dict :=
  [("context", JStr COUNTERSIGNATURE_CONTEXT); ("receipt_digest", JDict (DigestSpec_to_dict receipt_digest));
   ("witness", JDict (PartyRef_to_dict witness)); ("signed_at", JStr signed_at_raw)] ++
  match anchor_reference with Some a => [("anchor_reference", JDict a)] | None => [] end.

Definition COUNTERSIGNING_BOUNDS : list (string * bool * string) :=
  [("not_before", false, "trusted counter-signing key was not valid at signing time");
   ("expires_at", true, "trusted counter-signing key was expired at signing time");
   ("revoked_at", true, "trusted counter-signing key was revoked at signing time")].

(** [status not in {"active", "retired"}]: an unhashable status raises. *)
Definition check_status (status : json) (message : string) : tv unit :=
  match status with
  | JStr s => if str_mem s ["active"; "retired"] then Ok tt else _error "KEY_NOT_VALID" message
  | JList _ | JDict _ => Err (Raised (TypeError "unhashable type"))
  | _ => _error "KEY_NOT_VALID" message
  end.

Definition _select_trusted_key (trusted_keys : dict) (witness : PartyRef) (signature : SignatureSpec) (signed_at : datetime) : tv dict :=
  contract ← _require_mapping (dget trusted_keys "contract") "trusted_keys.contract" INVALID_COUNTERSIGNATURE;
  if negb (is_str (dget contract "name") "key_discovery") || negb (is_str (dget contract "version") "v1")
  then _error "TRUSTED_KEYS_INVALID" "trusted key set must declare key_discovery v1"
  else
    issuer ← on_value_error "TRUSTED_KEYS_INVALID" "trusted key set issuer is invalid"
               (PartyRef_from_dict "trusted_keys.issuer" (dget trusted_keys "issuer"));
    if negb (String.eqb (party_type issuer) (party_type witness) && String.eqb (party_id issuer) (party_id witness))
    then _error "WITNESS_MISMATCH" "counter-signature witness does not match the trusted key-set issuer"
    else
      match dget trusted_keys "keys" with
      | JList (k :: ks) =>
          match matching_keys (sig_key_id signature) (k :: ks) with
          | [] => _error "UNKNOWN_KEY_ID" ("no trusted counter-signing key matched key_id " +:+ str_repr (sig_key_id signature))
          | [key] =>
              if negb (is_str (dget key "algorithm") (sig_algorithm signature))
              then _error "SIGNATURE_INVALID" "trusted key algorithm does not match the counter-signature"
              else
                uses ← _parse_uses (dget key "use");
                if negb (str_mem COUNTERSIGNATURE_KEY_USE uses)
                then _error "KEY_PURPOSE_MISMATCH" "trusted key is not authorized for receipt counter-signatures"
                else
                  _ ← check_status (dget key "status") "trusted counter-signing key is not active or retired";
                  _ ← check_bounds key signed_at COUNTERSIGNING_BOUNDS;
                  Ok key
          | _ => _error "TRUSTED_KEYS_INVALID" ("trusted key set contains duplicate key_id " +:+ str_repr (sig_key_id signature))
          end
      | _ => _error "TRUSTED_KEYS_INVALID" "trusted key set must contain a non-empty keys array"
      end.

Definition _verify_ed25519 (statement : dict) (signature : SignatureSpec) (key : dict) : tv unit :=
  if negb (String.eqb (sig_algorithm signature) "EdDSA") || negb (String.eqb (sig_encoding signature) "base64url")
  then _error "UNSUPPORTED_ALGORITHM" "receipt counter-signature v1 verification supports EdDSA/Ed25519 with base64url encoding"
  else
    jwk ← _require_mapping (dget key "public_key_jwk") "keys[].public_key_jwk" INVALID_COUNTERSIGNATURE;
    if negb (is_str (dget jwk "kty") "OKP") || negb (is_str (dget jwk "crv") "Ed25519")
       || neither_none_nor (dget jwk "kid") (sig_key_id signature) || neither_none_nor (dget jwk "alg") "EdDSA"
    then _error "TRUSTED_KEYS_INVALID" "counter-signing key must be an Ed25519 OKP JWK matching signature.key_id"
    else
      x ← _require_string (dget jwk "x") "public_key_jwk.x" INVALID_COUNTERSIGNATURE;
      public_key_bytes ← _decode_base64url x "public_key_jwk.x" INVALID_COUNTERSIGNATURE;
      signature_bytes ← _decode_base64url (sig_value signature) "signature.value" INVALID_COUNTERSIGNATURE;
      if negb (Nat.eqb (String.length public_key_bytes) 32) || negb (Nat.eqb (String.length signature_bytes) 64)
      then _error "SIGNATURE_INVALID" "counter-signature key or signature has an invalid Ed25519 length"
      else if negb ed25519_available
      then _error "CRYPTO_BACKEND_UNAVAILABLE"
        "Ed25519 verification requires the 'cryptography' package (a base dependency since 1.1.0 — this install is missing or broken)"
      else
        message ← escape (canonicalize_bytes (JDict statement) DEFAULT_MAX_CANONICAL_OUTPUT_BYTES);
        valid ← escape (ed25519_verify public_key_bytes signature_bytes message);
        if negb valid then _error "SIGNATURE_INVALID" "receipt counter-signature could not be verified" else Ok tt.

Definition verify_countersignature (receipt_or_digest : DigestSpec + json) (countersignature trusted_keys : json) : tv VerifiedCounterSignature :=
  expected_digest ← _resolve_receipt_digest receipt_or_digest;
  artifact ← _require_mapping countersignature "countersignature" INVALID_COUNTERSIGNATURE;
  contract ← _require_mapping (dget artifact "contract") "countersignature.contract" INVALID_COUNTERSIGNATURE;
  if negb (py_eqb (JDict contract) COUNTERSIGNATURE_CONTRACT)
  then _error INVALID_COUNTERSIGNATURE "contract must declare receipt_countersignature v1"
  else
    observed_digest ← cs_parse_digest (dget artifact "receipt_digest") "countersignature.receipt_digest";
    if negb (String.eqb (dg_value observed_digest) (dg_value expected_digest))
    then _error "RECEIPT_DIGEST_MISMATCH" "counter-signature receipt digest does not match the supplied receipt or digest"
    else
      '(witness, signature) ← on_value_error INVALID_COUNTERSIGNATURE "counter-signature witness or signature is invalid"
        (witness ← PartyRef_from_dict "countersignature.witness" (dget artifact "witness");
         signature ← SignatureSpec_from_dict (dget artifact "signature");
         Ok (witness, signature));
      signed_at_raw ← _require_string (dget artifact "signed_at") "countersignature.signed_at" INVALID_COUNTERSIGNATURE;
      signed_at ← _parse_timestamp (JStr signed_at_raw) "countersignature.signed_at" INVALID_COUNTERSIGNATURE;
      anchor_reference ← match dget artifact "anchor_reference" with
                         | JNull => Ok None
                         | raw => a ← _require_mapping raw "countersignature.anchor_reference" INVALID_COUNTERSIGNATURE; Ok (Some a)
                         end;
      keys ← _require_mapping trusted_keys "trusted_keys" INVALID_COUNTERSIGNATURE;
      key ← _select_trusted_key keys witness signature signed_at;
      let statement := _signed_statement observed_digest witness signed_at_raw anchor_reference in
      _ ← _verify_ed25519 statement signature key;
      Ok (mkVerifiedCounterSignature observed_digest witness signed_at (sig_key_id signature) anchor_reference).
End Countersignature.

(** ** What an accepted counter-signature is *)
Section Facts.
Context `{Protocol} `{PyText} `{Ed25519}.

(** A key in force at [t]: from its [not_before], and before its expiry and its
    revocation, where it names them. *)
Definition bounded (key : dict) (f : string) (ok : datetime -> Prop) : Prop :=
  dget key f = JNull \/ exists b, parse_timestamp (dget key f) ("keys[]." +:+ f) = Ok b /\ ok b.
Definition in_force (key : dict) (t : datetime) : Prop :=
  bounded key "not_before" (fun b => b <= t)%Z /\ bounded key "expires_at" (fun b => t < b)%Z /\ bounded key "revoked_at" (fun b => t < b)%Z.

(** The key of the set [keys] that may sign for [signer] at [t] and for [use]: the
    set is the signer's, the key its only one of that name. *)
Definition trusted_key (keys : dict) (signer : PartyRef) (key_id use : string) (t : datetime) (key : dict) : Prop :=
  (exists issuer, PartyRef_from_dict "trusted_keys.issuer" (dget keys "issuer") = Ok issuer /\
     party_type issuer = party_type signer /\ party_id issuer = party_id signer) /\
  (exists raw, dget keys "keys" = JList raw /\ matching_keys key_id raw = [key]) /\
  dget key "algorithm" = JStr "EdDSA" /\
  (exists uses, _parse_uses (dget key "use") = Ok uses /\ use ∈ uses) /\
  (dget key "status" = JStr "active" \/ dget key "status" = JStr "retired") /\
  in_force key t.

(** The signature's bytes verify over [message] with [key]'s public key. *)
Definition signed_with (key : dict) (signature : SignatureSpec) (message : string) : Prop :=
  exists jwk x public_key_bytes signature_bytes,
    dget key "public_key_jwk" = JDict jwk /\ dget jwk "x" = JStr x /\
    base64url_decode x = Some public_key_bytes /\ String.length public_key_bytes = 32 /\
    base64url_decode (sig_value signature) = Some signature_bytes /\ String.length signature_bytes = 64 /\
    ed25519_verify public_key_bytes signature_bytes message = Ok true.

Lemma check_bound_inv key t f (incl : bool) m : check_bound key t (f, incl, m) = Ok tt ->
  bounded key f (fun b => if incl then t < b else b <= t)%Z.
Proof.
  unfold check_bound, bounded. intros Hc. destruct (decide (dget key f = JNull)) as [|Hn]; [by left|right].
  destruct (dget key f) eqn:Ek; [done|..]; apply bind_Ok in Hc as (bd & Hb & Hc); apply on_value_error_Ok in Hb; exists bd; split; try done;
  destruct incl; simpl in Hc; repeat case_match; try discriminate Hc; lia.
Qed.

Lemma decode_base64url_Ok x f code b : _decode_base64url x f code = Ok b -> base64url_decode x = Some b.
Proof. unfold _decode_base64url. destruct (negb _); [done|]. destruct (base64url_decode x); [|done]. by intros [= ->]. Qed.

Lemma check_bounds_in_force key t : check_bounds key t COUNTERSIGNING_BOUNDS = Ok tt -> in_force key t.
Proof.
  unfold COUNTERSIGNING_BOUNDS. cbn [check_bounds]. intros Hb. tv_inv.
  repeat match goal with x : unit |- _ => destruct x end.
  repeat match goal with E : check_bound _ _ _ = Ok tt |- _ => apply check_bound_inv in E end. by repeat split.
Qed.

Lemma check_status_inv status m u : check_status status m = Ok u -> status = JStr "active" \/ status = JStr "retired".
Proof.
  unfold check_status. destruct status; try done. destruct (str_mem s _) eqn:E; [|done]. intros _.
  apply str_mem_spec in E. set_solver.
Qed.

Lemma select_trusted_key_inv keys witness sg t key : sig_algorithm sg = "EdDSA" ->
  _select_trusted_key keys witness sg t = Ok key -> trusted_key keys witness (sig_key_id sg) COUNTERSIGNATURE_KEY_USE t key.
Proof.
  intros Ha. unfold _select_trusted_key. intros Hk. tv_inv.
  match goal with E : on_value_error _ _ _ = Ok _ |- _ => apply on_value_error_Ok in E end.
  destruct (dget keys "keys") as [| | | | |[|r rs]|] eqn:Ek; try discriminate Hk.
  destruct (matching_keys (sig_key_id sg) (r :: rs)) as [|k [|]] eqn:Em; try discriminate Hk. tv_inv. subst key.
  match goal with E : check_status _ _ = Ok _ |- _ => apply check_status_inv in E end.
  match goal with E : check_bounds _ _ _ = Ok ?u |- _ => destruct u; apply check_bounds_in_force in E end.
  repeat match goal with E : negb _ = false |- _ => apply negb_false_iff in E end.
  match goal with E : String.eqb _ _ && String.eqb _ _ = true |- _ => apply andb_true_iff in E as [?%String.eqb_eq ?%String.eqb_eq] end.
  match goal with E : is_str _ _ = true |- _ => apply is_str_true in E; rewrite Ha in E end.
  match goal with E : str_mem _ _ = true |- _ => apply str_mem_spec in E end.
  split; [eauto|]. split; [eauto|]. split; [done|]. split; [eauto|]. done.
Qed.

Lemma require_mapping_Ok j f code d : _require_mapping j f code = Ok d -> j = JDict d.
Proof. destruct j; try done. by intros [= ->]. Qed.

Lemma require_string_Ok j f code s : _require_string j f code = Ok s -> j = JStr s.
Proof. destruct j as [| | | |t| |]; try done. simpl. destruct (str_truthy t); [|done]. by intros [= ->]. Qed.

Lemma cs_parse_digest_algorithm j f d : cs_parse_digest j f = Ok d -> dg_algorithm d = "sha-256".
Proof.
  unfold cs_parse_digest. intros Hd. tv_inv. subst d. simpl.
  repeat match goal with E : _ || _ = false |- _ => apply orb_false_iff in E as [? ?] end.
  match goal with E : negb _ = false |- _ => apply negb_false_iff, String.eqb_eq in E; exact E end.
Qed.

Lemma verify_ed25519_inv statement sg key u : _verify_ed25519 statement sg key = Ok u ->
  sig_algorithm sg = "EdDSA" /\
  exists message, canonicalize_bytes (JDict statement) DEFAULT_MAX_CANONICAL_OUTPUT_BYTES = Ok message /\ signed_with key sg message.
Proof.
  unfold _verify_ed25519. intros Hv. tv_inv.
  repeat match goal with E : _ || _ = false |- _ => apply orb_false_iff in E as [? ?] end.
  repeat match goal with E : negb _ = false |- _ => apply negb_false_iff in E end.
  repeat match goal with E : String.eqb _ _ = true |- _ => apply String.eqb_eq in E | E : Nat.eqb _ _ = true |- _ => apply Nat.eqb_eq in E end.
  repeat match goal with E : escape ?r = Ok _ |- _ => destruct r eqn:?; [injection E as ?|discriminate E] end. subst.
  match goal with E : _require_mapping _ _ _ = Ok _ |- _ => apply require_mapping_Ok in E end.
  match goal with E : _require_string _ _ _ = Ok _ |- _ => apply require_string_Ok in E end.
  repeat match goal with E : _decode_base64url _ _ _ = Ok _ |- _ => apply decode_base64url_Ok in E end.
  split; [done|]. eexists. split; [done|]. unfold signed_with. eauto 12.
Qed.
End Facts.

(** A counter-signature is accepted only for the digest value of the receipt (or
    digest) presented, and then exactly one key of the pinned set carries its
    [key_id], that set was issued by the witness, the key is an EdDSA key meant
    for counter-signatures, active or retired and in force when the
    counter-signature was signed, and its Ed25519 signature verifies over the
    canonical bytes of the statement made of the returned digest, witness,
    signing time and anchor reference. *)
Theorem countersignature_sound `{Protocol} `{PyText} `{Ed25519} (receipt_or_digest : DigestSpec + json) (artifact keys : dict) (v : VerifiedCounterSignature) :
  verify_countersignature receipt_or_digest (JDict artifact) (JDict keys) = Ok v ->
  (exists expected, _resolve_receipt_digest receipt_or_digest = Ok expected /\ dg_value (vs_receipt_digest v) = dg_value expected) /\
  dg_algorithm (vs_receipt_digest v) = "sha-256" /\
  exists signed_at_raw signature key message,
    dget artifact "signed_at" = JStr signed_at_raw /\
    SignatureSpec_from_dict (dget artifact "signature") = Ok signature /\ sig_key_id signature = vs_key_id v /\
    _parse_timestamp (JStr signed_at_raw) "countersignature.signed_at" INVALID_COUNTERSIGNATURE = Ok (vs_signed_at v) /\
    trusted_key keys (vs_witness v) (vs_key_id v) COUNTERSIGNATURE_KEY_USE (vs_signed_at v) key /\
    canonicalize_bytes (JDict (_signed_statement (vs_receipt_digest v) (vs_witness v) signed_at_raw (vs_anchor_reference v)))
      DEFAULT_MAX_CANONICAL_OUTPUT_BYTES = Ok message /\
    signed_with key signature message.
Proof.
  unfold verify_countersignature. intros Hv. apply bind_Ok in Hv as (expected & Hexp & Hv). cbn [_require_mapping] in Hv.
  tv_inv. repeat match goal with E : on_value_error _ _ _ = Ok _ |- _ => apply on_value_error_Ok in E end. tv_inv. subst v. simplify_eq.
  repeat match goal with E : negb _ = false |- _ => apply negb_false_iff in E end.
  match goal with E : cs_parse_digest _ _ = Ok _ |- _ => apply cs_parse_digest_algorithm in E end.
  match goal with E : _require_string _ _ _ = Ok _ |- _ => apply require_string_Ok in E end.
  match goal with E : _verify_ed25519 _ _ _ = Ok _ |- _ => apply verify_ed25519_inv in E as (Ha & message & ? & ?) end.
  match goal with E : _select_trusted_key _ _ _ _ = Ok _ |- _ => apply (select_trusted_key_inv _ _ _ _ _ Ha) in E end.
  match goal with E : String.eqb _ _ = true |- _ => apply String.eqb_eq in E end.
  split; [eauto|]. split; [done|]. eexists _, _, _, message. eauto 8.
Qed.

(** ** Sample: a witness that counter-signed one receipt digest *)
Definition witness_ref : json := JDict [("type", JStr "log"); ("id", JStr "witness-1")].

Definition sample_countersignature : dict :=
  [("contract", COUNTERSIGNATURE_CONTRACT);
   ("receipt_digest", JDict (DigestSpec_to_dict (mkDigestSpec "sha-256" "ACTENON-JCS-STRICT-1" (String.concat "" (repeat "ab" 32)))));
   ("witness", witness_ref); ("signed_at", JStr "2024-01-01T00:00:00Z");
   ("anchor_reference", JDict [("log_id", JStr "log-1")]);
   ("signature", JDict [("algorithm", JStr "EdDSA"); ("key_id", JStr "k1"); ("encoding", JStr "base64url");
      ("value", JStr (String.concat "" (repeat "A" 86)))])].

Definition sample_witness_keys : dict :=
  [("contract", contract_header "key_discovery"); ("issuer", witness_ref);
   ("keys", JList [JDict [("key_id", JStr "k0")];
      JDict [("key_id", JStr "k1"); ("algorithm", JStr "EdDSA"); ("use", JList [JStr COUNTERSIGNATURE_KEY_USE]);
      ("status", JStr "retired"); ("not_before", JStr "2023-01-01T00:00:00Z"); ("expires_at", JStr "2025-01-01T00:00:00Z");
      ("public_key_jwk", JDict [("kty", JStr "OKP"); ("crv", JStr "Ed25519"); ("x", JStr (String.concat "" (repeat "A" 43)))])]])].

Definition sample_receipt_digest : DigestSpec + json :=
  inl (mkDigestSpec "sha-256" "ACTENON-JCS-STRICT-1" (String.concat "" (repeat "ab" 32))).

Lemma countersignature_sound_witness :
  exists v, @verify_countersignature demo_protocol demo_text demo_ed25519 sample_receipt_digest (JDict sample_countersignature) (JDict sample_witness_keys) = Ok v /\
    dg_algorithm (vs_receipt_digest v) = "sha-256".
Proof.
  eexists. split; [vm_compute; reflexivity|].
  refine (proj1 (proj2 (@countersignature_sound demo_protocol demo_text demo_ed25519 sample_receipt_digest sample_countersignature sample_witness_keys _ _))).
  vm_compute. reflexivity.
Defined.
