(* ===== verification/TrustArtifacts.v ===== *)
(** * Issuer status and approvals: [verifier/trust_artifacts.py]

    Offline verification of a signed statement that an issuer is in good standing,
    and of an approver's signature on one exact action.  The field checks repeat
    those of the transparency verifier, whose error type serves here too.

    Instants are UTC, so the check that [now] carries a time zone is always passed.
    [total_seconds] is compared exactly; Python's float agrees for ages below 285
    years.

    The theorems: an accepted status is the expected issuer's, good, current and no
    older than the freshness window; an accepted approval grants the expected
    action; both are signed, over exactly the fields returned, by a key of the
    right authority, meant for it and in force. *)

From S2P Require Import Prelude Text Json Errors Timestamps Canonical Contracts Runtime Samples ProofService Receipts Artifacts Merkle Base64 Transparency Countersignature.

Definition ISSUER_STATUS_CONTEXT : string := "actenon.issuer-status.v1".
Definition ISSUER_STATUS_KEY_USE : string := "issuer_status".
Definition ISSUER_STATUS_CONTRACT : json := contract_header "issuer_status".
Definition APPROVAL_CONTEXT : string := "actenon.approval-artifact.v1".
Definition APPROVAL_KEY_USE : string := "approval_artifact".
Definition APPROVAL_CONTRACT : json := contract_header "approval_artifact".
Definition DEFAULT_STATUS_FRESHNESS_SECONDS : Z := 3600.
Definition INVALID_ISSUER_STATUS : string := "INVALID_ISSUER_STATUS".
Definition INVALID_APPROVAL_ARTIFACT : string := "INVALID_APPROVAL_ARTIFACT".
Definition TRUSTED_KEYS_INVALID : string := "TRUSTED_KEYS_INVALID".

Record VerifiedIssuerStatus := mkVerifiedStatus {
  is_issuer : PartyRef; is_authority : PartyRef; is_status : string; is_issued_at : datetime; is_expires_at : datetime;
  is_key_id : string; is_status_reference : option string
}.

Record VerifiedApprovalArtifact := mkVerifiedApproval {
  va_approval_id : string; va_approver : PartyRef; va_approval_type : string; va_decision : string; va_action_hash : ActionHashSpec;
  va_issued_at : datetime; va_key_id : string
}.

(** The text of a timestamp with the instant it denotes. *)
Definition ta_parse_timestamp (value : json) (field_name code : string) : tv (string * datetime) :=
  raw ← _require_string value field_name code;
  t ← on_value_error code (field_name +:+ " must be an RFC3339 timestamp") (parse_timestamp (JStr raw) field_name);
  Ok (raw, t).

Definition _parse_party (value : json) (field_name code : string) : tv PartyRef :=
  on_value_error code (field_name +:+ " must identify a party") (PartyRef_from_dict field_name value).

Definition _parse_signature (value : json) (field_name code : string) : tv SignatureSpec :=
  on_value_error code (field_name +:+ " is invalid") (SignatureSpec_from_dict value).

(** One turn of the loop over the key's bounds. *)
Definition ta_check_bound (key : dict) (signed_at : datetime) (b : string * bool * string) : tv unit :=
  let '(field_name, inclusive, message) := b in
  match dget key field_name with
  | JNull => Ok tt
  | v =>
      '(_, bound) ← ta_parse_timestamp v ("keys[]." +:+ field_name) TRUSTED_KEYS_INVALID;
      if (negb inclusive && (signed_at <? bound)%Z) || (inclusive && (bound <=? signed_at)%Z)
      then _error "KEY_NOT_VALID" message else Ok tt
  end.

Fixpoint ta_check_bounds (key : dict) (signed_at : datetime) (bs : list (string * bool * string)) : tv unit :=
  match bs with
  | [] => Ok tt
  | b :: bs => _ ← ta_check_bound key signed_at b; ta_check_bounds key signed_at bs
  end.

Definition SIGNING_BOUNDS : list (string * bool * string) :=
  [("not_before", false, "trusted key was not valid at signing time");
   ("expires_at", true, "trusted key was expired at signing time");
   ("revoked_at", true, "trusted key was revoked at signing time")].

Section TrustArtifacts.
Context `{Protocol} `{PyText} `{Ed25519}.

Definition ta_select_key (trusted_keys : json) (signer : PartyRef) (signature : SignatureSpec) (signed_at : datetime) (required_use : string) : tv dict :=
  key_set ← _require_mapping trusted_keys "trusted_keys" TRUSTED_KEYS_INVALID;
  contract ← _require_mapping (dget key_set "contract") "trusted_keys.contract" TRUSTED_KEYS_INVALID;
  if negb (is_str (dget contract "name") "key_discovery") || negb (is_str (dget contract "version") "v1")
  then _error TRUSTED_KEYS_INVALID "trusted key set must declare key_discovery v1"
  else
    key_issuer ← _parse_party (dget key_set "issuer") "trusted_keys.issuer" TRUSTED_KEYS_INVALID;
    if negb (String.eqb (party_type key_issuer) (party_type signer) && String.eqb (party_id key_issuer) (party_id signer))
    then _error "SIGNER_MISMATCH" "artifact signer does not match the trusted key-set issuer"
    else
      match dget key_set "keys" with
      | JList (k :: ks) =>
          match matching_keys (sig_key_id signature) (k :: ks) with
          | [] => _error "UNKNOWN_KEY_ID" ("no trusted key matched key_id " +:+ str_repr (sig_key_id signature))
          | [key] =>
              if negb (is_str (dget key "algorithm") (sig_algorithm signature))
              then _error "SIGNATURE_INVALID" "trusted key algorithm does not match the artifact signature"
              else
                uses ← _parse_uses (dget key "use");
                if negb (str_mem required_use uses)
                then _error "KEY_PURPOSE_MISMATCH" ("trusted key is not authorized for " +:+ required_use)
                else
                  _ ← check_status (dget key "status") "trusted key is not active or retired";
                  _ ← ta_check_bounds key signed_at SIGNING_BOUNDS;
                  Ok key
          | _ => _error TRUSTED_KEYS_INVALID ("trusted key set contains duplicate key_id " +:+ str_repr (sig_key_id signature))
          end
      | _ => _error TRUSTED_KEYS_INVALID "trusted key set must contain a non-empty keys array"
      end.

Definition ta_verify_ed25519 (statement : dict) (signature : SignatureSpec) (key : dict) : tv unit :=
  if negb (String.eqb (sig_algorithm signature) "EdDSA") || negb (String.eqb (sig_encoding signature) "base64url")
  then _error "UNSUPPORTED_ALGORITHM" "trust artifact v1 supports EdDSA/Ed25519 with base64url encoding"
  else
    jwk ← _require_mapping (dget key "public_key_jwk") "keys[].public_key_jwk" TRUSTED_KEYS_INVALID;
    if negb (is_str (dget jwk "kty") "OKP") || negb (is_str (dget jwk "crv") "Ed25519")
       || neither_none_nor (dget jwk "kid") (sig_key_id signature) || neither_none_nor (dget jwk "alg") "EdDSA"
    then _error TRUSTED_KEYS_INVALID "trusted key must be an Ed25519 OKP JWK matching signature.key_id"
    else
      x ← _require_string (dget jwk "x") "public_key_jwk.x" TRUSTED_KEYS_INVALID;
      public_key_bytes ← _decode_base64url x "public_key_jwk.x" TRUSTED_KEYS_INVALID;
      signature_bytes ← _decode_base64url (sig_value signature) "signature.value" "SIGNATURE_INVALID";
      if negb (Nat.eqb (String.length public_key_bytes) 32) || negb (Nat.eqb (String.length signature_bytes) 64)
      then _error "SIGNATURE_INVALID" "trusted key or signature has an invalid Ed25519 length"
      else if negb ed25519_available
      then _error "CRYPTO_BACKEND_UNAVAILABLE"
        "Ed25519 verification requires the 'cryptography' package (a base dependency since 1.1.0 — this install is missing or broken)"
      else
        message ← escape (canonicalize_bytes (JDict statement) DEFAULT_MAX_CANONICAL_OUTPUT_BYTES);
        valid ← escape (ed25519_verify public_key_bytes signature_bytes message);
        if negb valid then _error "SIGNATURE_INVALID" "artifact signature could not be verified" else Ok tt.

(** ** Issuer status *)
Definition _resolve_issuer (value : PartyRef + json) : tv PartyRef :=
  match value with inl p => Ok p | inr j => _parse_party j "issuer" INVALID_ISSUER_STATUS end.

Definition status_statement (issuer authority : PartyRef) (status issued_at_raw expires_at_raw : string) (status_reference : option string) : dict :=
  [("context", JStr ISSUER_STATUS_CONTEXT); ("issuer", JDict (PartyRef_to_dict issuer)); ("authority", JDict (PartyRef_to_dict authority));
   ("status", JStr status); ("issued_at", JStr issued_at_raw); ("expires_at", JStr expires_at_raw)] ++
  match status_reference with Some r => [("status_reference", JStr r)] | None => [] end.

(** The checks on the period the status covers. *)
Definition check_status_period (issued_at expires_at now max_age_seconds : Z) : tv unit :=
  if (expires_at <=? issued_at)%Z then _error INVALID_ISSUER_STATUS "issuer-status expiry must be after issuance"
  else if (now <? issued_at)%Z then _error "ISSUER_STATUS_NOT_YET_VALID" "issuer status is not yet valid"
  else if (expires_at <=? now)%Z then _error "ISSUER_STATUS_EXPIRED" "issuer status has expired"
  else if (max_age_seconds * US_PER_SECOND <? now - issued_at)%Z
  then _error "ISSUER_STATUS_STALE" "issuer status exceeds the configured freshness window"
  else Ok tt.

Definition read_status (issuer : PartyRef + json) (status_artifact trusted_keys : json) (now : datetime) (max_age_seconds : Z) : tv VerifiedIssuerStatus :=
  expected_issuer ← _resolve_issuer issuer;
  artifact ← _require_mapping status_artifact "status_artifact" INVALID_ISSUER_STATUS;
  contract ← _require_mapping (dget artifact "contract") "status_artifact.contract" INVALID_ISSUER_STATUS;
  if negb (py_eqb (JDict contract) ISSUER_STATUS_CONTRACT) then _error INVALID_ISSUER_STATUS "contract must declare issuer_status v1"
  else
    observed_issuer ← _parse_party (dget artifact "issuer") "status_artifact.issuer" INVALID_ISSUER_STATUS;
    if negb (String.eqb (party_type observed_issuer) (party_type expected_issuer) && String.eqb (party_id observed_issuer) (party_id expected_issuer))
    then _error "ISSUER_MISMATCH" "issuer-status artifact does not describe the expected issuer"
    else
      authority ← _parse_party (dget artifact "authority") "status_artifact.authority" INVALID_ISSUER_STATUS;
      status ← _require_string (dget artifact "status") "status_artifact.status" INVALID_ISSUER_STATUS;
      if negb (str_mem status ["good_standing"; "suspended"; "revoked"])
      then _error INVALID_ISSUER_STATUS "issuer status must be good_standing, suspended, or revoked"
      else
        '(issued_at_raw, issued_at) ← ta_parse_timestamp (dget artifact "issued_at") "status_artifact.issued_at" INVALID_ISSUER_STATUS;
        '(expires_at_raw, expires_at) ← ta_parse_timestamp (dget artifact "expires_at") "status_artifact.expires_at" INVALID_ISSUER_STATUS;
        _ ← check_status_period issued_at expires_at now max_age_seconds;
        status_reference ← match dget artifact "status_reference" with
                           | JNull => Ok None
                           | v => r ← _require_string v "status_artifact.status_reference" INVALID_ISSUER_STATUS; Ok (Some r)
                           end;
        signature ← _parse_signature (dget artifact "signature") "status_artifact.signature" INVALID_ISSUER_STATUS;
        key ← ta_select_key trusted_keys authority signature issued_at ISSUER_STATUS_KEY_USE;
        _ ← ta_verify_ed25519 (status_statement observed_issuer authority status issued_at_raw expires_at_raw status_reference) signature key;
        if String.eqb status "revoked" then _error "ISSUER_REVOKED" "issuer status is revoked"
        else if String.eqb status "suspended" then _error "ISSUER_SUSPENDED" "issuer status is suspended"
        else Ok (mkVerifiedStatus observed_issuer authority status issued_at expires_at (sig_key_id signature) status_reference).

Definition verify_issuer_status (issuer : PartyRef + json) (status_artifact trusted_keys : option json) (now : datetime) (max_age_seconds : Z)
    (status_policy : string) : tv (option VerifiedIssuerStatus) :=
  if negb (str_mem status_policy ["required"; "disabled"]) then Err (Raised (ValueError "status_policy must be 'required' or 'disabled'"))
  else if String.eqb status_policy "disabled" then Ok None
  else match status_artifact, trusted_keys with
       | Some status_artifact, Some trusted_keys =>
           if (max_age_seconds <=? 0)%Z then Err (Raised (ValueError "max_age_seconds must be positive"))
           else v ← read_status issuer status_artifact trusted_keys now max_age_seconds; Ok (Some v)
       | _, _ => _error "ISSUER_STATUS_REQUIRED" "high-assurance verification requires a signed issuer-status artifact"
       end.

(** ** Approvals *)
Definition _parse_action_hash (value : json) : tv ActionHashSpec :=
  action_hash ← on_value_error INVALID_APPROVAL_ARTIFACT "approval action_hash is invalid" (ActionHashSpec_from_dict "action_hash" value);
  if negb (String.eqb (ah_algorithm action_hash) "sha-256") || negb (str_mem (ah_canonicalization action_hash) ACCEPTED_CANONICALIZATION_PROFILES)
     || match hex_256 (ah_value action_hash) with Some _ => false | None => true end
  then _error INVALID_APPROVAL_ARTIFACT
         "approval action_hash must declare sha-256, a known canonicalization profile, and lowercase hex"
  else Ok action_hash.

(** The action an approval is checked against. *)
Inductive expected_action := ExpectedIntent (i : ActionIntent) | ExpectedHash (h : ActionHashSpec) | ExpectedMapping (d : dict).

Definition intent_action_hash (intent : ActionIntent) : tv ActionHashSpec :=
  value ← escape (sha256_hex (JDict (build_action_hash_input intent)));
  Ok (mkActionHashSpec "sha-256" CANONICALIZATION_PROFILE value).

Definition _resolve_expected_action_hash (value : expected_action) : tv ActionHashSpec :=
  match value with
  | ExpectedHash h => _parse_action_hash (JDict (ActionHashSpec_to_dict h))
  | ExpectedIntent i => intent_action_hash i
  | ExpectedMapping d =>
      if has_key "algorithm" d && has_key "canonicalization" d && has_key "value" d then _parse_action_hash (JDict d)
      else
        intent ← on_value_error INVALID_APPROVAL_ARTIFACT "expected_action must be an Action Intent or action hash" (ActionIntent_from_dict (JDict d));
        intent_action_hash intent
  end.

Definition check_expected_action (action_hash : ActionHashSpec) (expected : option expected_action) : tv unit :=
  match expected with
  | None => Ok tt
  | Some e =>
      expected_hash ← _resolve_expected_action_hash e;
      if negb (String.eqb (ah_value action_hash) (ah_value expected_hash))
      then _error "APPROVAL_ACTION_MISMATCH" "approval artifact is not bound to the expected action" else Ok tt
  end.

Definition approval_statement (approval_id : string) (approver : PartyRef) (approval_type decision : string) (action_hash : ActionHashSpec)
    (issued_at_raw : string) : dict :=
  [("context", JStr APPROVAL_CONTEXT); ("approval_id", JStr approval_id); ("approver", JDict (PartyRef_to_dict approver));
   ("approval_type", JStr approval_type); ("decision", JStr decision); ("action_hash", JDict (ActionHashSpec_to_dict action_hash));
   ("issued_at", JStr issued_at_raw)].

Definition verify_approval_artifact (approval trusted_keys : json) (expected : option expected_action) : tv VerifiedApprovalArtifact :=
  artifact ← _require_mapping approval "approval" INVALID_APPROVAL_ARTIFACT;
  contract ← _require_mapping (dget artifact "contract") "approval.contract" INVALID_APPROVAL_ARTIFACT;
  if negb (py_eqb (JDict contract) APPROVAL_CONTRACT) then _error INVALID_APPROVAL_ARTIFACT "contract must declare approval_artifact v1"
  else
    approval_id ← _require_string (dget artifact "approval_id") "approval.approval_id" INVALID_APPROVAL_ARTIFACT;
    approver ← _parse_party (dget artifact "approver") "approval.approver" INVALID_APPROVAL_ARTIFACT;
    approval_type ← _require_string (dget artifact "approval_type") "approval.approval_type" INVALID_APPROVAL_ARTIFACT;
    decision ← _require_string (dget artifact "decision") "approval.decision" INVALID_APPROVAL_ARTIFACT;
    if negb (String.eqb decision "approved") then _error "APPROVAL_NOT_GRANTED" "approval artifact decision is not approved"
    else
      action_hash ← _parse_action_hash (dget artifact "action_hash");
      _ ← check_expected_action action_hash expected;
      '(issued_at_raw, issued_at) ← ta_parse_timestamp (dget artifact "issued_at") "approval.issued_at" INVALID_APPROVAL_ARTIFACT;
      signature ← _parse_signature (dget artifact "signature") "approval.signature" INVALID_APPROVAL_ARTIFACT;
      key ← ta_select_key trusted_keys approver signature issued_at APPROVAL_KEY_USE;
      _ ← ta_verify_ed25519 (approval_statement approval_id approver approval_type decision action_hash issued_at_raw) signature key;
      Ok (mkVerifiedApproval approval_id approver approval_type decision action_hash issued_at (sig_key_id signature)).
End TrustArtifacts.

(** ** Facts *)
Section Facts.
Context `{Protocol} `{PyText} `{Ed25519}.

Lemma ta_parse_timestamp_Ok value f code raw t : ta_parse_timestamp value f code = Ok (raw, t) -> value = JStr raw /\ parse_timestamp (JStr raw) f = Ok t.
Proof.
  unfold ta_parse_timestamp. intros Hp. tv_inv. match goal with E : on_value_error _ _ _ = Ok _ |- _ => apply on_value_error_Ok in E end.
  match goal with E : _require_string _ _ _ = Ok _ |- _ => apply require_string_Ok in E end. by simplify_eq.
Qed.

Lemma ta_check_bound_inv key t f (incl : bool) m : ta_check_bound key t (f, incl, m) = Ok tt -> bounded key f (fun b => if incl then t < b else b <= t)%Z.
Proof.
  unfold ta_check_bound, bounded. intros Hc. destruct (decide (dget key f = JNull)) as [|Hn]; [by left|right].
  destruct (dget key f) eqn:Ek; [done|..]; apply bind_Ok in Hc as ([raw bd] & Hb & Hc);
  apply ta_parse_timestamp_Ok in Hb as [? Hb]; simplify_eq; exists bd; split; try done;
  destruct incl; simpl in Hc; repeat case_match; try discriminate Hc; lia.
Qed.

Lemma ta_check_bounds_in_force key t : ta_check_bounds key t SIGNING_BOUNDS = Ok tt -> in_force key t.
Proof.
  unfold SIGNING_BOUNDS. cbn [ta_check_bounds]. intros Hb. tv_inv. repeat match goal with x : unit |- _ => destruct x end.
  repeat match goal with E : ta_check_bound _ _ _ = Ok tt |- _ => apply ta_check_bound_inv in E end. by repeat split.
Qed.

Lemma ta_select_key_inv keys signer sg t use key : sig_algorithm sg = "EdDSA" ->
  ta_select_key (JDict keys) signer sg t use = Ok key -> trusted_key keys signer (sig_key_id sg) use t key.
Proof.
  intros Ha. unfold ta_select_key. cbn [_require_mapping]. intros Hk. tv_inv. simplify_eq.
  match goal with E : _parse_party _ _ _ = Ok _ |- _ => apply on_value_error_Ok in E end.
  destruct (dget _ "keys") as [| | | | |[|r rs]|] eqn:Ek; try discriminate Hk.
  destruct (matching_keys (sig_key_id sg) (r :: rs)) as [|k [|]] eqn:Em; try discriminate Hk. tv_inv. subst key.
  match goal with E : check_status _ _ = Ok _ |- _ => apply check_status_inv in E end.
  match goal with E : ta_check_bounds _ _ _ = Ok ?u |- _ => destruct u; apply ta_check_bounds_in_force in E end.
  repeat match goal with E : negb _ = false |- _ => apply negb_false_iff in E end.
  match goal with E : String.eqb _ _ && String.eqb _ _ = true |- _ => apply andb_true_iff in E as [?%String.eqb_eq ?%String.eqb_eq] end.
  match goal with E : is_str _ _ = true |- _ => apply is_str_true in E; rewrite Ha in E end.
  match goal with E : str_mem _ _ = true |- _ => apply str_mem_spec in E end.
  split; [eauto|]. split; [eauto|]. split; [done|]. split; [eauto|]. done.
Qed.

Lemma ta_verify_ed25519_inv statement sg key u : ta_verify_ed25519 statement sg key = Ok u ->
  sig_algorithm sg = "EdDSA" /\
  exists message, canonicalize_bytes (JDict statement) DEFAULT_MAX_CANONICAL_OUTPUT_BYTES = Ok message /\ signed_with key sg message.
Proof.
  unfold ta_verify_ed25519. intros Hv. tv_inv.
  repeat match goal with E : _ || _ = false |- _ => apply orb_false_iff in E as [? ?] end.
  repeat match goal with E : negb _ = false |- _ => apply negb_false_iff in E end.
  repeat match goal with E : String.eqb _ _ = true |- _ => apply String.eqb_eq in E | E : Nat.eqb _ _ = true |- _ => apply Nat.eqb_eq in E end.
  repeat match goal with E : escape ?r = Ok _ |- _ => destruct r eqn:?; [injection E as ?|discriminate E] end. subst.
  match goal with E : _require_mapping _ _ _ = Ok _ |- _ => apply require_mapping_Ok in E end.
  match goal with E : _require_string _ _ _ = Ok _ |- _ => apply require_string_Ok in E end.
  repeat match goal with E : _decode_base64url _ _ _ = Ok _ |- _ => apply decode_base64url_Ok in E end.
  split; [done|]. eexists. split; [done|]. unfold signed_with. eauto 12.
Qed.

Lemma check_status_period_Ok issued_at expires_at now max_age u : check_status_period issued_at expires_at now max_age = Ok u ->
  (issued_at <= now < expires_at)%Z /\ (now - issued_at <= max_age * US_PER_SECOND)%Z.
Proof. unfold check_status_period. repeat case_match; try done. intros _. lia. Qed.

(** Signed by a key of [signer], over [statement]. *)
Definition signed_statement (keys : dict) (signer : PartyRef) (key_id use : string) (t : datetime) (raw_signature : json) (statement : dict) : Prop :=
  exists signature key message,
    SignatureSpec_from_dict raw_signature = Ok signature /\ sig_key_id signature = key_id /\
    trusted_key keys signer key_id use t key /\
    canonicalize_bytes (JDict statement) DEFAULT_MAX_CANONICAL_OUTPUT_BYTES = Ok message /\ signed_with key signature message.

Lemma signed_statement_intro keys signer sg use t raw statement key u u' f code :
  _parse_signature raw f code = Ok sg -> ta_select_key (JDict keys) signer sg t use = Ok key -> ta_verify_ed25519 statement sg key = Ok u -> u' = sig_key_id sg ->
  signed_statement keys signer u' use t raw statement.
Proof.
  intros Hs%on_value_error_Ok Hk (Ha & message & Hm & Hsig)%ta_verify_ed25519_inv ->. apply (ta_select_key_inv _ _ _ _ _ _ Ha) in Hk.
  by exists sg, key, message.
Qed.
End Facts.

(** With the default policy an issuer status is returned only for the expected
    issuer, in good standing, within the period it covers and no older than the
    freshness window, and signed over exactly the returned statement by a key of
    the stated authority that was meant for issuer statuses and in force when it
    was issued; without a status the call raises, and [None] is returned exactly
    when checking is disabled. *)
Theorem issuer_status_sound `{Protocol} `{PyText} `{Ed25519} (issuer : PartyRef + json) (artifact keys : dict) (now : datetime) (max_age : Z)
    (policy : string) (r : option VerifiedIssuerStatus) :
  verify_issuer_status issuer (Some (JDict artifact)) (Some (JDict keys)) now max_age policy = Ok r ->
  (r = None <-> policy = "disabled") /\
  forall v, r = Some v ->
    (exists expected, _resolve_issuer issuer = Ok expected /\ party_type (is_issuer v) = party_type expected /\ party_id (is_issuer v) = party_id expected) /\
    is_status v = "good_standing" /\
    (is_issued_at v <= now < is_expires_at v)%Z /\ (now - is_issued_at v <= max_age * US_PER_SECOND)%Z /\
    exists issued_at_raw expires_at_raw,
      parse_timestamp (JStr issued_at_raw) "status_artifact.issued_at" = Ok (is_issued_at v) /\
      parse_timestamp (JStr expires_at_raw) "status_artifact.expires_at" = Ok (is_expires_at v) /\
      signed_statement keys (is_authority v) (is_key_id v) ISSUER_STATUS_KEY_USE (is_issued_at v) (dget artifact "signature")
        (status_statement (is_issuer v) (is_authority v) (is_status v) issued_at_raw expires_at_raw (is_status_reference v)).
Proof.
  unfold verify_issuer_status. destruct (str_mem policy _) eqn:Ep; [cbn [negb]|done]. apply str_mem_spec in Ep.
  destruct (String.eqb_spec policy "disabled") as [->|Hne]; [intros [= <-]; by split|]. destruct (Z.leb_spec max_age 0); [done|].
  intros Hr. apply bind_Ok in Hr as (v & Hv & [= <-]). split; [done|]. intros v' [= <-].
  unfold read_status in Hv. apply bind_Ok in Hv as (expected & Hexp & Hv). cbn [_require_mapping] in Hv. tv_inv. simplify_eq.
  repeat match goal with E : ta_parse_timestamp _ _ _ = Ok (_, _) |- _ => apply ta_parse_timestamp_Ok in E as [? ?] end.
  repeat match goal with E : _parse_party _ _ _ = Ok _ |- _ => apply on_value_error_Ok in E end.
  match goal with E : check_status_period _ _ _ _ = Ok _ |- _ => apply check_status_period_Ok in E as [? ?] end.
  repeat match goal with E : negb _ = false |- _ => apply negb_false_iff in E end.
  match goal with E : String.eqb _ _ && String.eqb _ _ = true |- _ => apply andb_true_iff in E as [?%String.eqb_eq ?%String.eqb_eq] end.
  match goal with E : str_mem ?s ["good_standing"; _; _] = true, E1 : String.eqb ?s "revoked" = false, E2 : String.eqb ?s "suspended" = false |- _ =>
    apply str_mem_spec in E; apply String.eqb_neq in E1, E2; assert (s = "good_standing") by set_solver end.
  cbn [is_issuer is_authority is_status is_issued_at is_expires_at is_key_id is_status_reference].
  split; [eauto|]. split; [done|]. split; [done|]. split; [done|]. eexists _, _. split; [done|]. split; [done|]. by eapply signed_statement_intro.
Qed.

(** An approval is accepted only if it is granted and bound to the expected
    action (its hash is the hash of that intent, or the given hash), and it is
    signed over exactly the returned statement by a key of the approver that was
    meant for approvals and in force when it was issued. *)
Theorem approval_bound `{Protocol} `{PyText} `{Ed25519} (artifact keys : dict) (expected : option expected_action) (v : VerifiedApprovalArtifact) :
  verify_approval_artifact (JDict artifact) (JDict keys) expected = Ok v ->
  va_decision v = "approved" /\
  (forall e, expected = Some e -> exists h, _resolve_expected_action_hash e = Ok h /\ ah_value (va_action_hash v) = ah_value h) /\
  (forall intent, expected = Some (ExpectedIntent intent) -> sha256_hex (JDict (build_action_hash_input intent)) = Ok (ah_value (va_action_hash v))) /\
  exists issued_at_raw,
    parse_timestamp (JStr issued_at_raw) "approval.issued_at" = Ok (va_issued_at v) /\
    signed_statement keys (va_approver v) (va_key_id v) APPROVAL_KEY_USE (va_issued_at v) (dget artifact "signature")
      (approval_statement (va_approval_id v) (va_approver v) (va_approval_type v) (va_decision v) (va_action_hash v) issued_at_raw).
Proof.
  unfold verify_approval_artifact. cbn [_require_mapping]. intros Hv. tv_inv. simplify_eq.
  repeat match goal with E : ta_parse_timestamp _ _ _ = Ok (_, _) |- _ => apply ta_parse_timestamp_Ok in E as [? ?] end.
  match goal with E : negb (String.eqb _ "approved") = false |- _ => apply negb_false_iff, String.eqb_eq in E end.
  match goal with E : check_expected_action ?h _ = Ok _ |- _ => rename h into action_hash, E into Hc end.
  assert (forall e, expected = Some e -> exists h, _resolve_expected_action_hash e = Ok h /\ ah_value action_hash = ah_value h) as He.
  { intros e ->. cbn [check_expected_action] in Hc. tv_inv.
    match goal with E : negb (String.eqb _ _) = false |- _ => apply negb_false_iff, String.eqb_eq in E end. eauto. }
  cbn [va_approval_id va_approver va_approval_type va_decision va_action_hash va_issued_at va_key_id].
  split; [done|]. split; [done|]. split.
  - intros intent Hi. destruct (He _ Hi) as (h & Hh & ->). cbn [_resolve_expected_action_hash] in Hh. unfold intent_action_hash in Hh. tv_inv.
    subst h. cbn [ah_value]. by destruct (sha256_hex _); simplify_eq/=.
  - eexists. split; [done|]. by eapply signed_statement_intro.
Qed.

(** ** Samples *)
Definition sample_authority_ref : json := JDict [("type", JStr "authority"); ("id", JStr "registry-1")].
Definition sample_trust_keys (use : string) : dict :=
  [("contract", contract_header "key_discovery"); ("issuer", sample_authority_ref);
   ("keys", JList [JDict [("key_id", JStr "k1"); ("algorithm", JStr "EdDSA"); ("use", JStr use);
      ("status", JStr "active"); ("not_before", JStr "2023-01-01T00:00:00Z");
      ("public_key_jwk", JDict [("kty", JStr "OKP"); ("crv", JStr "Ed25519"); ("x", JStr (String.concat "" (repeat "A" 43)))])]])].
Definition sample_trust_signature : json :=
  JDict [("algorithm", JStr "EdDSA"); ("key_id", JStr "k1"); ("encoding", JStr "base64url"); ("value", JStr (String.concat "" (repeat "A" 86)))].

Definition sample_status : dict :=
  [("contract", ISSUER_STATUS_CONTRACT); ("issuer", JDict (PartyRef_to_dict sample_issuer)); ("authority", sample_authority_ref);
   ("status", JStr "good_standing"); ("issued_at", JStr "2023-12-26T11:30:00Z"); ("expires_at", JStr "2023-12-27T00:00:00Z");
   ("signature", sample_trust_signature)].

Lemma issuer_status_sound_witness : exists v,
  @verify_issuer_status demo_protocol demo_text demo_ed25519 (inl sample_issuer) (Some (JDict sample_status))
    (Some (JDict (sample_trust_keys ISSUER_STATUS_KEY_USE))) sample_now 3600 "required" = Ok (Some v) /\
  (sample_now - is_issued_at v <= 3600 * US_PER_SECOND)%Z.
Proof.
  eexists. split; [vm_compute; reflexivity|].
  refine (proj1 (proj2 (proj2 (proj2 (proj2 (@issuer_status_sound demo_protocol demo_text demo_ed25519 (inl sample_issuer) sample_status
    (sample_trust_keys ISSUER_STATUS_KEY_USE) sample_now 3600 "required" (Some _) _) _ eq_refl))))).
  vm_compute. reflexivity.
Defined.

Definition sample_approval : dict :=
  [("contract", APPROVAL_CONTRACT); ("approval_id", JStr "ap_1"); ("approver", sample_authority_ref); ("approval_type", JStr "manager");
   ("decision", JStr "approved");
   ("action_hash", JDict [("algorithm", JStr "sha-256"); ("canonicalization", JStr "ACTENON-JCS-STRICT-1"); ("value", JStr (String.concat "" (repeat "ab" 32)))]);
   ("issued_at", JStr "2024-01-01T00:00:00Z"); ("signature", sample_trust_signature)].
Definition sample_expected : expected_action :=
  ExpectedHash (mkActionHashSpec "sha-256" "ACTENON-JCS-STRICT-1" (String.concat "" (repeat "ab" 32))).

Lemma approval_bound_witness : exists v,
  @verify_approval_artifact demo_protocol demo_text demo_ed25519 (JDict sample_approval) (JDict (sample_trust_keys APPROVAL_KEY_USE)) (Some sample_expected) = Ok v /\
  va_decision v = "approved".
Proof.
  eexists. split; [vm_compute; reflexivity|].
  refine (proj1 (@approval_bound demo_protocol demo_text demo_ed25519 sample_approval (sample_trust_keys APPROVAL_KEY_USE) (Some sample_expected) _ _)).
  vm_compute. reflexivity.
Defined.
