(* ===== verification/WellKnown.v ===== *)
(** * Key discovery: [proof/signers/well_known.py]

    A verifier that knows an issuer's origin fetches the issuer's key document
    from it, keeps it for as long as the document and the response allow, and
    verifies signatures with the keys it publishes.

    The state of a resolver is its cache and the world it reads the clock, the
    network and the name service from.  Parameters: [urllib]'s URL splitting and
    [ipaddress]'s classification ([UrlLibrary]), the world ([Network]), the RSA and
    Ed25519 primitives of [cryptography].  A time-out is a whole number here; it is
    only handed to the fetcher.

    The theorems: a signature is accepted only with a key the issuer published for
    that purpose and that was in force when the artifact was issued; the key comes
    from a document fetched in this call or received earlier in the run and not
    older than its declared lifetime; the document [build_key_discovery_document]
    makes is read back as the key it was made for; and what the proof verifier
    accepts through this verifier was signed with such a key. *)

From Stdlib Require Import Ascii.
From S2P Require Import Prelude Text Json Errors Timestamps Canonical Contracts Runtime Samples ProofService Receipts Artifacts Merkle Base64 Transparency.

Definition WELL_KNOWN_KEYS_PATH : string := "/.well-known/actenon/keys.json".
Definition DEFAULT_WELL_KNOWN_CACHE_MAX_AGE_SECONDS : Z := 300.
Definition ALLOWED_DISCOVERY_KEY_STATUSES : list string := ["active"; "retired"; "suspended"; "revoked"; "hard_revoked"].
Definition ALLOWED_DISCOVERY_KEY_USES : list string := ["verify"; "proof_issuance"; "outcome_attestation"; "receipt_countersignature"].
Definition PROOF_ISSUANCE_USE : string := "proof_issuance".
Definition LEGACY_VERIFY_USE : string := "verify".
Definition MIN_RS256_MODULUS_BITS : Z := 2048.
Definition EXPECTED_RS256_PUBLIC_EXPONENT : Z := 65537.
Definition _BLOCKED_METADATA_HOSTS : list string := ["169.254.169.254"; "metadata"; "metadata.google.internal"].

(** The subclasses of [WellKnownKeyResolverError], and what else may be raised. *)
Inductive resolver_error :=
| KeyDiscoveryFetchError (msg : string)
| KeyDiscoveryFormatError (msg : string)
| KeyNotFoundError (msg : string)
| IssuerMismatchError (msg : string)
| RevokedKeyError (msg : string)
| KeyPurposeMismatchError (msg : string)
| ExpiredKeyError (msg : string)
| KeyNotYetValidError (msg : string)
| UnsupportedVerificationAlgorithmError (msg : string)
| OtherRaised (e : exn).
Abbreviation wk := (res resolver_error).

Definition raises {A} (r : py A) : wk A := match r with Ok a => Ok a | Err e => Err (OtherRaised e) end.

Record DiscoveredVerificationKey := mkDiscoveredKey {
  dk_key_id : string; dk_algorithm : string; dk_use : list string; dk_status : string; dk_public_key_jwk : dict;
  dk_not_before : option datetime; dk_expires_at : option datetime; dk_revoked_at : option datetime;
  dk_hard_revoked_at : option datetime; dk_replaced_by : json; dk_revocation_reason : json
}.

Record KeyDiscoveryDocument := mkDiscoveryDocument {
  kd_issuer : PartyRef; kd_origin : string; kd_published_at : datetime; kd_keys : list DiscoveredVerificationKey;
  kd_cache_max_age_seconds : option Z
}.

Record ResolvedVerificationKey := mkResolvedKey {
  rk_issuer : PartyRef; rk_origin : string; rk_published_at : datetime; rk_key : DiscoveredVerificationKey
}.

(** ** URLs and addresses *)

(** [urlsplit]'s result with the parts derived from it; [port] may raise. *)
Record SplitResult := mkSplit {
  us_scheme : string; us_netloc : string; us_path : string; us_query : string; us_fragment : string;
  us_hostname : option string; us_username : option string; us_password : option string; us_port : py (option Z)
}.

Record ip_flags := mkIp {
  is_loopback : bool; is_link_local : bool; is_private : bool; is_multicast : bool; is_unspecified : bool; is_reserved : bool
}.

Class UrlLibrary := {
  urlsplit : string -> py SplitResult;
  (** [ipaddress.ip_address]: [None] when the text is not an address *)
  ip_address : string -> option ip_flags
}.

(** [s.strip("[]")] *)
Fixpoint drop_brackets (l : list ascii) : list ascii :=
  match l with c :: l' => if Ascii.eqb c "[" || Ascii.eqb c "]" then drop_brackets l' else l | [] => [] end.
Definition strip_brackets (s : string) : string :=
  String.string_of_list_ascii (rev (drop_brackets (rev (drop_brackets (String.list_ascii_of_string s))))).

(** [s.split(c)] for a one-character separator *)
Fixpoint split_on (c : ascii) (s : string) : string * list string :=
  match s with
  | "" => ("", [])
  | String c' r => let '(first, rest) := split_on c r in if Ascii.eqb c' c then ("", first :: rest) else (String c' first, rest)
  end.
Definition py_split (c : ascii) (s : string) : list string := let '(first, rest) := split_on c s in first :: rest.

Definition bool_of_option {A} (o : option A) : bool := match o with Some _ => true | None => false end.
Definition opt_nonempty (o : option string) : bool := match o with Some s => str_truthy s | None => false end.

Section Urls.
Context `{PyText} `{UrlLibrary}.

Definition _is_blocked_ip_address (ip : ip_flags) : bool :=
  is_loopback ip || is_link_local ip || is_private ip || is_multicast ip || is_unspecified ip || is_reserved ip.

Definition _assert_public_ip_address (ip : ip_flags) (field_name : string) : wk unit :=
  if _is_blocked_ip_address ip then Err (KeyDiscoveryFetchError (field_name +:+ " resolves to a non-public IP address")) else Ok tt.

Definition _assert_host_is_not_blocked_ip_literal (host field_name : string) : wk unit :=
  let normalized_host := str_lower (strip_brackets host) in
  if str_mem normalized_host _BLOCKED_METADATA_HOSTS
  then Err (KeyDiscoveryFetchError (field_name +:+ " uses a blocked metadata host"))
  else match ip_address normalized_host with
       | None => Ok tt
       | Some parsed => _assert_public_ip_address parsed field_name
       end.

(** The two checks [_normalize_origin] makes in its [try] block. *)
Definition check_origin_host (parts : SplitResult) (host : string) : py unit :=
  match _assert_host_is_not_blocked_ip_literal host "issuer_origin" with
  | Err (KeyDiscoveryFetchError msg) => Err (ValueError msg)
  | Err _ => Err OutOfModel
  | Ok _ => match us_port parts with Ok _ => Ok tt | Err (ValueError msg) => Err (ValueError msg) | Err e => Err e end
  end.

Definition _normalize_origin (origin : string) : py string :=
  parts ← urlsplit origin;
  if negb (String.eqb (us_scheme parts) "https") then Err (ValueError "issuer_origin must use https")
  else if negb (str_truthy (us_netloc parts)) || negb (opt_nonempty (us_hostname parts))
  then Err (ValueError "issuer_origin must include a host")
  else if bool_of_option (us_username parts) || bool_of_option (us_password parts)
  then Err (ValueError "issuer_origin must not include userinfo")
  else
    _ ← check_origin_host parts (default "" (us_hostname parts));
    if str_truthy (us_query parts) || str_truthy (us_fragment parts)
    then Err (ValueError "issuer_origin must not include query or fragment components")
    else if negb (str_mem (us_path parts) [""; "/"])
    then Err (ValueError "issuer_origin must be an origin, not a full URL path")
    else Ok (us_scheme parts +:+ "://" +:+ str_lower (us_netloc parts)).

Definition _port_or_raise (parts : SplitResult) (field_name : string) : wk (option Z) :=
  match us_port parts with
  | Err (ValueError _) => Err (KeyDiscoveryFetchError (field_name +:+ " has an invalid port"))
  | r => raises r
  end.

Definition _origin_from_url (url field_name : string) : wk string :=
  parts ← raises (urlsplit url);
  if negb (String.eqb (us_scheme parts) "https") then Err (KeyDiscoveryFetchError (field_name +:+ " must use https"))
  else if negb (str_truthy (us_netloc parts)) || negb (opt_nonempty (us_hostname parts))
  then Err (KeyDiscoveryFetchError (field_name +:+ " must include a host"))
  else if bool_of_option (us_username parts) || bool_of_option (us_password parts)
  then Err (KeyDiscoveryFetchError (field_name +:+ " must not include userinfo"))
  else
    _ ← _port_or_raise parts field_name;
    Ok (us_scheme parts +:+ "://" +:+ str_lower (us_netloc parts)).
End Urls.

(** ** The world: the clock, the name service and HTTPS without redirects *)
Definition headers : Type := list (string * string).

Record address_info := mkAddress { ai_inet : bool; ai_address : string }.
Inductive open_failure := URLError (text : string) | OpenRaised (e : exn).

Class Network (W : Type) := {
  net_now : W -> datetime * W;
  (** the addresses of a host, or the text of the [OSError] *)
  net_getaddrinfo : string -> W -> res string (list address_info) * W;
  (** the final URL, the headers and the body of a response *)
  net_open : string -> Z -> W -> res open_failure (string * headers * string) * W
}.

Section Fetch.
Context `{PyText} `{UrlLibrary} {W : Type} `{Network W}.

Definition getaddrinfo (host : string) : M resolver_error W (res string (list address_info)) := fun w =>
  let '(r, w') := net_getaddrinfo host w in (Ok r, w').

Fixpoint assert_public_addresses (infos : list address_info) (field_name : string) : wk unit :=
  match infos with
  | [] => Ok tt
  | i :: infos =>
      if negb (ai_inet i) then assert_public_addresses infos field_name
      else match ip_address (ai_address i) with
           | None => Err (KeyDiscoveryFetchError (field_name +:+ " resolved to an invalid IP address " +:+ str_repr (ai_address i)))
           | Some parsed => _ ← _assert_public_ip_address parsed field_name; assert_public_addresses infos field_name
           end
  end.

Definition _assert_resolved_host_is_public (host field_name : string) : M resolver_error W unit :=
  let normalized_host := str_lower (strip_brackets host) in
  if str_mem normalized_host _BLOCKED_METADATA_HOSTS
  then raise (KeyDiscoveryFetchError (field_name +:+ " uses a blocked metadata host"))
  else
    resolved ← getaddrinfo normalized_host;
    match resolved with
    | Err exc => raise (KeyDiscoveryFetchError ("could not resolve " +:+ field_name +:+ " host " +:+ str_repr host +:+ ": " +:+ exc))
    | Ok infos => lift (assert_public_addresses infos field_name)
    end.

Definition DISCOVERY_URL : string := "well-known discovery URL".

(** The checks on the URL itself. *)
Definition check_fetch_url (url expected_origin : string) : wk string :=
  parts ← raises (urlsplit url);
  origin ← _origin_from_url url DISCOVERY_URL;
  if negb (String.eqb origin expected_origin)
  then Err (KeyDiscoveryFetchError ("well-known discovery URL origin " +:+ str_repr origin +:+
         " does not match expected issuer origin " +:+ str_repr expected_origin))
  else if negb (String.eqb (us_path parts) WELL_KNOWN_KEYS_PATH)
  then Err (KeyDiscoveryFetchError ("well-known discovery URL path must be " +:+ str_repr WELL_KNOWN_KEYS_PATH))
  else if str_truthy (us_query parts) || str_truthy (us_fragment parts)
  then Err (KeyDiscoveryFetchError "well-known discovery URL must not include query or fragment components")
  else match us_hostname parts with
       | None => Err (KeyDiscoveryFetchError "well-known discovery URL must include a host")
       | Some host => _ ← _assert_host_is_not_blocked_ip_literal host DISCOVERY_URL; Ok host
       end.

Definition _validate_well_known_fetch_url (url expected_origin : string) (resolve_host : bool) : M resolver_error W unit :=
  host ← lift (check_fetch_url url expected_origin);
  if resolve_host then _assert_resolved_host_is_public host DISCOVERY_URL else mret tt.

Definition lower_headers (h : headers) : headers := fold_left (fun d kv => assoc_set (str_lower kv.1) kv.2 d) h [].

Definition open_url (url : string) (timeout_seconds : Z) : M resolver_error W (res open_failure (string * headers * string)) := fun w =>
  let '(r, w') := net_open url timeout_seconds w in (Ok r, w').

Definition _default_fetch_document (url : string) (timeout_seconds : Z) : M resolver_error W (headers * string) :=
  expected_origin ← lift (_origin_from_url url DISCOVERY_URL);
  _ ← _validate_well_known_fetch_url url expected_origin true;
  response ← open_url url timeout_seconds;
  match response with
  | Err (URLError exc) => raise (KeyDiscoveryFetchError ("could not fetch well-known key document from " +:+ url +:+ ": " +:+ exc))
  | Err (OpenRaised e) => raise (OtherRaised e)
  | Ok (final_url, response_headers, body) =>
      _ ← _validate_well_known_fetch_url final_url expected_origin false;
      mret (lower_headers response_headers, body)
  end.
End Fetch.

(** ** Documents *)

(** [isinstance(raw, int) and raw > 0]: a [bool] is an [int]. *)
Definition _parse_positive_int (raw : json) (field_name : string) : wk Z :=
  let bad := Err (KeyDiscoveryFormatError (field_name +:+ " must be a positive integer")) in
  match raw with
  | JInt z => if (z <=? 0)%Z then bad else Ok z
  | JBool true => Ok 1%Z
  | _ => bad
  end.

(** [d.setdefault(k, v)] *)
Definition setdefault (k : string) (v : json) (d : dict) : dict := if has_key k d then d else d ++ [(k, v)].

Section Documents.
Context `{PyText} `{UrlLibrary} `{Platform}.

Fixpoint first_max_age (parts : list string) : option Z :=
  match parts with
  | [] => None
  | part :: parts =>
      let part := str_lower (py_strip part) in
      if String.prefix "max-age=" part
      then match int_of_text (py_strip (String.substring 8 (String.length part - 8) part)) with
           | Some parsed => if (0 <? parsed)%Z then Some parsed else None
           | None => None
           end
      else first_max_age parts
  end.

Definition _parse_cache_control_max_age (raw : option string) : option Z :=
  match raw with None => None | Some raw => first_max_age (py_split "," raw) end.

Definition _normalize_public_key_jwk (public_key_jwk : json) (key_id algorithm : string) : py dict :=
  match public_key_jwk with
  | JDict jwk =>
      if neither_none_nor (dget jwk "kid") key_id
      then Err (ValueError ("public_key_jwk.kid " +:+ py_repr (dget jwk "kid") +:+ " does not match key_id " +:+ str_repr key_id))
      else if neither_none_nor (dget jwk "alg") algorithm
      then Err (ValueError ("public_key_jwk.alg " +:+ py_repr (dget jwk "alg") +:+ " does not match algorithm " +:+ str_repr algorithm))
      else if neither_none_nor (dget jwk "use") "sig" then Err (ValueError "public_key_jwk.use must be 'sig' when provided")
      else Ok (setdefault "use" (JStr "sig") (setdefault "alg" (JStr algorithm) (setdefault "kid" (JStr key_id) jwk)))
  | _ => Err (ValueError "public_key_jwk must be a JSON object")
  end.

Fixpoint normalize_uses (uses : list json) (normalized : list string) : wk (list string) :=
  match uses with
  | [] => Ok normalized
  | JStr use :: uses =>
      if negb (str_truthy use) then Err (KeyDiscoveryFormatError "keys[].use entries must be non-empty strings")
      else if negb (str_mem use ALLOWED_DISCOVERY_KEY_USES)
      then Err (KeyDiscoveryFormatError ("keys[].use " +:+ str_repr use +:+ " is not supported; expected one of " +:+
             join ", " ALLOWED_DISCOVERY_KEY_USES))
      else normalize_uses uses (if str_mem use normalized then normalized else normalized ++ [use])
  | _ => Err (KeyDiscoveryFormatError "keys[].use entries must be non-empty strings")
  end.

Definition _normalize_key_uses (raw : json) : wk (list string) :=
  match raw with
  | JStr s => normalize_uses [JStr s] []
  | JList [] => Err (KeyDiscoveryFormatError "keys[].use must not be empty")
  | JList l => normalize_uses l []
  | _ => Err (KeyDiscoveryFormatError "keys[].use must be a non-empty string or array of strings")
  end.

Definition _serialize_key_use (use : json) : wk json :=
  normalized ← _normalize_key_uses use;
  Ok match normalized with [u] => JStr u | _ => JList (map JStr normalized) end.

(** The keyword arguments of [build_key_discovery_document]. *)
Record key_publication := mkPublication {
  kp_issuer : PartyRef; kp_origin : string; kp_key_id : string; kp_algorithm : string; kp_public_key_jwk : json;
  kp_published_at : datetime; kp_status : string; kp_use : json; kp_cache_max_age_seconds : Z;
  kp_not_before : option datetime; kp_expires_at : option datetime; kp_revoked_at : option datetime;
  kp_hard_revoked_at : option datetime; kp_replaced_by : option string; kp_revocation_reason : json
}.

Definition time_entry (k : string) (t : option datetime) : dict :=
  match t with Some t => [(k, JStr (format_timestamp t))] | None => [] end.

Definition key_payload (p : key_publication) (use : json) (jwk : dict) : dict :=
  [("key_id", JStr (kp_key_id p)); ("algorithm", JStr (kp_algorithm p)); ("use", use); ("status", JStr (kp_status p));
   ("public_key_jwk", JDict jwk)] ++
  time_entry "not_before" (kp_not_before p) ++ time_entry "expires_at" (kp_expires_at p) ++
  time_entry "revoked_at" (kp_revoked_at p) ++ time_entry "hard_revoked_at" (kp_hard_revoked_at p) ++
  match kp_replaced_by p with Some s => [("replaced_by", JStr s)] | None => [] end ++
  match kp_revocation_reason p with JNull => [] | r => [("revocation_reason", r)] end.

Definition build_key_discovery_document (p : key_publication) : wk dict :=
  if negb (str_mem (kp_status p) ALLOWED_DISCOVERY_KEY_STATUSES)
  then Err (OtherRaised (ValueError ("status must be one of " +:+ join ", " ALLOWED_DISCOVERY_KEY_STATUSES)))
  else if (kp_cache_max_age_seconds p <=? 0)%Z then Err (OtherRaised (ValueError "cache_max_age_seconds must be positive"))
  else
    normalized_origin ← raises (_normalize_origin (kp_origin p));
    use ← _serialize_key_use (kp_use p);
    jwk ← raises (_normalize_public_key_jwk (kp_public_key_jwk p) (kp_key_id p) (kp_algorithm p));
    Ok [("contract", contract_header "key_discovery"); ("issuer", JDict (PartyRef_to_dict (kp_issuer p)));
        ("origin", JStr normalized_origin); ("published_at", JStr (format_timestamp (kp_published_at p)));
        ("cache", JDict [("max_age_seconds", JInt (kp_cache_max_age_seconds p))]);
        ("keys", JList [JDict (key_payload p use jwk)])].

Definition require_text (raw : dict) (field_name : string) : wk string :=
  match dget raw field_name with
  | JStr s => if str_truthy s then Ok s else Err (KeyDiscoveryFormatError ("keys[]." +:+ field_name +:+ " must be a non-empty string"))
  | _ => Err (KeyDiscoveryFormatError ("keys[]." +:+ field_name +:+ " must be a non-empty string"))
  end.

Definition optional_time (raw : dict) (k : string) : wk (option datetime) := raises (opt_timestamp (dget raw k) ("keys[]." +:+ k)).

Definition _parse_key_descriptor (item : json) : wk DiscoveredVerificationKey :=
  match item with
  | JDict raw =>
      key_id ← match py_or (dget raw "key_id") (dget raw "kid") with
               | JStr s => if str_truthy s then Ok s else Err (KeyDiscoveryFormatError "keys[].key_id must be a non-empty string")
               | _ => Err (KeyDiscoveryFormatError "keys[].key_id must be a non-empty string")
               end;
      if not_none (dget raw "key_id") && not_none (dget raw "kid") && negb (py_eqb (dget raw "key_id") (dget raw "kid"))
      then Err (KeyDiscoveryFormatError "keys[].kid must match keys[].key_id when both are present")
      else
        algorithm ← require_text raw "algorithm";
        use ← _normalize_key_uses (dget raw "use");
        status ← require_text raw "status";
        public_key_jwk ← match dget raw "public_key_jwk" with
                         | JDict d => Ok d
                         | _ => Err (KeyDiscoveryFormatError "keys[].public_key_jwk must be an object")
                         end;
        not_before ← optional_time raw "not_before";
        expires_at ← optional_time raw "expires_at";
        revoked_at ← optional_time raw "revoked_at";
        hard_revoked_at ← optional_time raw "hard_revoked_at";
        Ok (mkDiscoveredKey key_id algorithm use status public_key_jwk not_before expires_at revoked_at hard_revoked_at
              (dget raw "replaced_by") (dget raw "revocation_reason"))
  | _ => Err (KeyDiscoveryFormatError "keys[] must be an object")
  end.

Fixpoint reject_duplicate_ids (keys : list DiscoveredVerificationKey) (seen : list string) : wk unit :=
  match keys with
  | [] => Ok tt
  | k :: keys =>
      if str_mem (dk_key_id k) seen
      then Err (KeyDiscoveryFormatError ("duplicate key_id " +:+ str_repr (dk_key_id k) +:+ " in key-discovery document"))
      else reject_duplicate_ids keys (dk_key_id k :: seen)
  end.

Definition cache_max_age (payload : dict) : wk (option Z) :=
  match dget_default payload "cache" (JDict []) with
  | JNull => Ok None
  | JDict raw_cache =>
      match dget raw_cache "max_age_seconds" with
      | JNull => Ok None
      | v => z ← _parse_positive_int v "cache.max_age_seconds"; Ok (Some z)
      end
  | _ => Err (KeyDiscoveryFormatError "cache must be an object when present")
  end.

(** The document a parsed payload denotes. *)
Definition parse_payload (payload : dict) (expected_origin fetched_url : string) : wk KeyDiscoveryDocument :=
  match dget payload "contract" with
  | JDict contract =>
      if negb (is_str (dget contract "name") "key_discovery") || negb (is_str (dget contract "version") "v1")
      then Err (KeyDiscoveryFormatError "contract must declare key_discovery v1")
      else
        origin ← match dget payload "origin" with
                 | JStr s => if str_truthy s then Ok s else Err (KeyDiscoveryFormatError "origin must be a non-empty string")
                 | _ => Err (KeyDiscoveryFormatError "origin must be a non-empty string")
                 end;
        normalized_origin ← raises (_normalize_origin origin);
        if negb (String.eqb normalized_origin expected_origin)
        then Err (KeyDiscoveryFormatError ("well-known key document origin " +:+ str_repr normalized_origin +:+
               " does not match fetched origin " +:+ str_repr expected_origin))
        else
          fetched ← raises (urlsplit fetched_url);
          let fetched_origin := us_scheme fetched +:+ "://" +:+ us_netloc fetched in
          if negb (String.eqb normalized_origin fetched_origin)
          then Err (KeyDiscoveryFormatError ("well-known key document origin " +:+ str_repr normalized_origin +:+
                 " does not match fetched URL origin " +:+ str_repr fetched_origin))
          else
            issuer ← raises (PartyRef_from_dict "issuer" (dget payload "issuer"));
            published_at ← raises (parse_timestamp (dget payload "published_at") "published_at");
            max_age ← cache_max_age payload;
            match dget payload "keys" with
            | JList (k :: ks) =>
                keys ← res_mapM _parse_key_descriptor (k :: ks);
                _ ← reject_duplicate_ids keys [];
                Ok (mkDiscoveryDocument issuer normalized_origin published_at keys max_age)
            | _ => Err (KeyDiscoveryFormatError "keys must be a non-empty array")
            end
  | _ => Err (KeyDiscoveryFormatError "contract must be an object")
  end.

Definition _parse_discovery_document (body expected_origin fetched_url : string) : wk KeyDiscoveryDocument :=
  match loads_no_duplicate_keys platform_parse_text platform_utf8_valid (RawBytes body) DEFAULT_MAX_JSON_BYTES DEFAULT_MAX_JSON_DEPTH with
  | Err _ => Err (KeyDiscoveryFormatError
               "well-known key document must be valid JSON without duplicate object keys and within size/depth limits")
  | Ok (JDict payload) => parse_payload payload expected_origin fetched_url
  | Ok _ => Err (KeyDiscoveryFormatError "well-known key document must be a JSON object")
  end.
End Documents.

(** ** The resolver *)
Record _CachedDiscoveryDocument := mkCached { cd_document : KeyDiscoveryDocument; cd_expires_at : datetime }.

Section Resolver.
Context `{PyText} `{UrlLibrary} `{Platform} {W : Type} `{Network W}.

Record resolver_state := mkResolverState { rs_cache : option _CachedDiscoveryDocument; rs_world : W }.
Definition world_lens : lens resolver_state W := mkLens _ _ rs_world (fun w s => mkResolverState (rs_cache s) w).

(** [fetch_document]: the default one, or another. *)
Record WellKnownKeyResolver := mkResolver {
  wr_issuer_origin : string; wr_timeout_seconds : Z; wr_default_cache_max_age_seconds : Z;
  wr_fetch_document : option (string -> Z -> M resolver_error W (headers * string))
}.

Definition WellKnownKeyResolver_new (issuer_origin : string) (timeout_seconds default_cache_max_age_seconds : Z)
    (fetch_document : option (string -> Z -> M resolver_error W (headers * string))) : py WellKnownKeyResolver :=
  issuer_origin ← _normalize_origin issuer_origin;
  if (timeout_seconds <=? 0)%Z then Err (ValueError "timeout_seconds must be positive")
  else if (default_cache_max_age_seconds <=? 0)%Z then Err (ValueError "default_cache_max_age_seconds must be positive")
  else Ok (mkResolver issuer_origin timeout_seconds default_cache_max_age_seconds fetch_document).

Definition discovery_url (r : WellKnownKeyResolver) : string := wr_issuer_origin r +:+ WELL_KNOWN_KEYS_PATH.

Definition now_provider : M resolver_error resolver_state datetime := fun s =>
  let '(t, w) := net_now (rs_world s) in (Ok t, mkResolverState (rs_cache s) w).

Definition set_cache (c : _CachedDiscoveryDocument) : M resolver_error resolver_state unit :=
  modify (fun s => mkResolverState (Some c) (rs_world s)).

Definition min_candidates (a b : option Z) (default_age : Z) : Z :=
  match a, b with
  | Some x, Some y => Z.min x y
  | Some x, None => x
  | None, Some y => y
  | None, None => default_age
  end.

(** How long a document may be kept. *)
Definition document_lifetime (r : WellKnownKeyResolver) (response_headers : headers) (document : KeyDiscoveryDocument) : Z :=
  min_candidates (_parse_cache_control_max_age (assoc "cache-control" (lower_headers response_headers)))
    (kd_cache_max_age_seconds document) (wr_default_cache_max_age_seconds r).

(** The body of [_get_document] behind the cache. *)
Definition refresh_document (r : WellKnownKeyResolver) (now : datetime) : M resolver_error resolver_state KeyDiscoveryDocument :=
  _ ← zoom world_lens (_validate_well_known_fetch_url (discovery_url r) (wr_issuer_origin r) (negb (bool_of_option (wr_fetch_document r))));
  '(response_headers, body) ← zoom world_lens (default _default_fetch_document (wr_fetch_document r) (discovery_url r) (wr_timeout_seconds r));
  document ← lift (_parse_discovery_document body (wr_issuer_origin r) (discovery_url r));
  expires_at ← lift (raises (datetime_add now (document_lifetime r response_headers document * US_PER_SECOND)%Z));
  _ ← set_cache (mkCached document expires_at);
  mret document.

Definition _get_document (r : WellKnownKeyResolver) (bypass_cache : bool) : M resolver_error resolver_state KeyDiscoveryDocument :=
  now ← now_provider;
  cache ← gets rs_cache;
  match cache with
  | Some c => if negb bypass_cache && (now <? cd_expires_at c)%Z then mret (cd_document c) else refresh_document r now
  | None => refresh_document r now
  end.

(** What is asked of a key. *)
Record key_request := mkKeyRequest {
  kq_key_id : string; kq_algorithm : string; kq_issued_at : datetime; kq_issuer : option PartyRef;
  kq_required_use : option string; kq_external_anchor_verified : bool; kq_external_anchor_time : option datetime
}.

Definition check_use (key : DiscoveredVerificationKey) (required_use : option string) : wk unit :=
  match required_use with
  | Some use =>
      if negb (str_mem use ALLOWED_DISCOVERY_KEY_USES) || String.eqb use LEGACY_VERIFY_USE
      then Err (KeyDiscoveryFormatError ("required_use " +:+ str_repr use +:+ " is not a supported purpose"))
      else if negb (str_mem use (dk_use key))
      then Err (KeyPurposeMismatchError ("discovery key " +:+ str_repr (dk_key_id key) +:+ " is not authorized for required use " +:+ str_repr use))
      else Ok tt
  | None =>
      if negb (existsb (fun use => str_mem use ALLOWED_DISCOVERY_KEY_USES) (dk_use key))
      then Err (KeyDiscoveryFormatError ("discovery key " +:+ str_repr (dk_key_id key) +:+ " has no supported use"))
      else Ok tt
  end.

(** [bound is not None and test(bound)] *)
Definition bound_holds (bound : option datetime) (test : datetime -> bool) : bool :=
  match bound with Some t => test t | None => false end.

Definition _assert_key_usable (key : DiscoveredVerificationKey) (q : key_request) : wk unit :=
  let named (rest : string) := "discovery key " +:+ str_repr (dk_key_id key) +:+ rest in
  let issued_at := kq_issued_at q in
  if negb (str_mem (dk_status key) ALLOWED_DISCOVERY_KEY_STATUSES)
  then Err (KeyDiscoveryFormatError (named (" has unsupported status " +:+ str_repr (dk_status key))))
  else
    _ ← check_use key (kq_required_use q);
    if bound_holds (dk_not_before key) (fun t => issued_at <? t)%Z
    then Err (KeyNotYetValidError (named " is not yet valid for the artifact issuance time"))
    else if bound_holds (dk_expires_at key) (fun t => t <=? issued_at)%Z
    then Err (ExpiredKeyError (named " is expired for the artifact issuance time"))
    else if String.eqb (dk_status key) "suspended"
    then Err (RevokedKeyError (named " is suspended; this pass has no timestamped suspension boundary for historical verification"))
    else if (String.eqb (dk_status key) "hard_revoked" || bool_of_option (dk_hard_revoked_at key)) &&
            (negb (kq_external_anchor_verified q) ||
             match kq_external_anchor_time q, dk_hard_revoked_at key with
             | Some anchored, Some hard => (hard <=? anchored)%Z
             | _, _ => true
             end)
    then Err (RevokedKeyError (named " is hard-revoked and requires an independently verified pre-revocation external anchor"))
    else if String.eqb (dk_status key) "revoked" && negb (bool_of_option (dk_revoked_at key))
    then Err (RevokedKeyError (named " is revoked without an issue-time boundary"))
    else if bound_holds (dk_revoked_at key) (fun t => t <=? issued_at)%Z
    then Err (RevokedKeyError (named " was revoked before or at the artifact issuance time"))
    else Ok tt.

Definition _select_key (document : KeyDiscoveryDocument) (q : key_request) : wk ResolvedVerificationKey :=
  let key_id := kq_key_id q in
  let named (p : PartyRef) := party_type p +:+ ":" +:+ party_id p in
  _ ← match kq_issuer q with
      | Some issuer =>
          if negb (String.eqb (party_type (kd_issuer document)) (party_type issuer)) ||
             negb (String.eqb (party_id (kd_issuer document)) (party_id issuer))
          then Err (IssuerMismatchError ("discovery document issuer " +:+ named (kd_issuer document) +:+
                 " does not match artifact issuer " +:+ named issuer))
          else Ok tt
      | None => Ok tt
      end;
  match List.filter (fun item => String.eqb (dk_key_id item) key_id) (kd_keys document) with
  | [] => Err (KeyNotFoundError ("no discovery key matched key_id " +:+ str_repr key_id))
  | [key] =>
      if negb (String.eqb (dk_algorithm key) (kq_algorithm q))
      then Err (KeyNotFoundError ("discovery key " +:+ str_repr key_id +:+ " advertises algorithm " +:+
             str_repr (dk_algorithm key) +:+ ", not " +:+ str_repr (kq_algorithm q)))
      else
        _ ← _assert_key_usable key q;
        Ok (mkResolvedKey (kd_issuer document) (kd_origin document) (kd_published_at document) key)
  | _ => Err (KeyDiscoveryFormatError ("multiple discovery keys matched key_id " +:+ str_repr key_id))
  end.

Definition resolve_key (r : WellKnownKeyResolver) (q : key_request) (bypass_cache : bool) : M resolver_error resolver_state ResolvedVerificationKey :=
  document ← _get_document r bypass_cache;
  let retry := refreshed ← _get_document r true; lift (_select_key refreshed q) in
  match _select_key document q with
  | Ok key => mret key
  | Err (KeyNotFoundError msg) =>
      cache ← gets rs_cache;
      if bypass_cache || negb (bool_of_option cache) then raise (KeyNotFoundError msg) else retry
  | Err e => raise e
  end.
End Resolver.
Arguments resolver_state : clear implicits.
Arguments WellKnownKeyResolver : clear implicits.

(** ** Signatures *)

(** [cryptography]'s RSA: whether the public numbers make a key, and PKCS #1 v1.5
    verification with SHA-256 under them. *)
Class Rsa := {
  rsa_numbers_ok : Z -> Z -> bool;
  rsa_verify : Z -> Z -> string -> string -> py bool
}.

(** [int.from_bytes(b, "big")] and [n.bit_length()] *)
Fixpoint bytes_to_int (b : string) (acc : Z) : Z :=
  match b with "" => acc | String c r => bytes_to_int r (256 * acc + Z.of_N (N_of_ascii c))%Z end.
Definition bit_length (n : Z) : Z := if (n =? 0)%Z then 0%Z else (Z.log2 n + 1)%Z.

Definition all_base64url (s : string) : bool :=
  forallb (fun c => bool_of_option (base64url_value c)) (String.list_ascii_of_string s).

Section Signatures.
Context `{PyText} `{UrlLibrary} `{Platform} `{Base64Padding} `{Ed25519} `{Rsa} {W : Type} `{Network W}.

Definition _decode_unpadded_base64url_wire (raw : json) (field_name : string) : wk string :=
  match raw with
  | JStr s =>
      if negb (str_truthy s) then Err (KeyDiscoveryFormatError (field_name +:+ " must be a non-empty base64url string"))
      else if has_char "=" s then Err (KeyDiscoveryFormatError (field_name +:+ " must be base64url without padding"))
      else if negb (all_base64url s)
      then Err (KeyDiscoveryFormatError (field_name +:+ " contains characters outside unpadded base64url"))
      else match b64url_decode s with
           | Ok b => Ok b
           | Err _ => Err (KeyDiscoveryFormatError (field_name +:+ " could not be decoded as base64url"))
           end
  | _ => Err (KeyDiscoveryFormatError (field_name +:+ " must be a non-empty base64url string"))
  end.

(** [jwk[k]] *)
Definition jwk_field (jwk : dict) (k : string) : wk json :=
  match assoc k jwk with Some v => Ok v | None => Err (OtherRaised (KeyError k)) end.

Definition verify_eddsa (jwk : dict) (raw_signature payload : string) : wk bool :=
  if negb (is_str (dget jwk "kty") "OKP") || negb (is_str (dget jwk "crv") "Ed25519")
  then Err (KeyDiscoveryFormatError "EdDSA discovery keys must publish an Ed25519 OKP JWK")
  else
    x ← jwk_field jwk "x";
    public_key_bytes ← _decode_unpadded_base64url_wire x "public_key_jwk.x";
    if negb (Nat.eqb (String.length public_key_bytes) 32)
    then Err (KeyDiscoveryFormatError "EdDSA discovery keys must publish a raw 32-byte Ed25519 public key")
    else if negb (Nat.eqb (String.length raw_signature) 64) then Ok false
    else raises (ed25519_verify public_key_bytes raw_signature payload).

Definition verify_rs256 (jwk : dict) (raw_signature payload : string) : wk bool :=
  if negb (is_str (dget jwk "kty") "RSA") then Err (KeyDiscoveryFormatError "RS256 discovery keys must publish an RSA JWK")
  else
    n ← jwk_field jwk "n";
    modulus_bytes ← _decode_unpadded_base64url_wire n "public_key_jwk.n";
    e ← jwk_field jwk "e";
    exponent_bytes ← _decode_unpadded_base64url_wire e "public_key_jwk.e";
    let modulus := bytes_to_int modulus_bytes 0 in
    let exponent := bytes_to_int exponent_bytes 0 in
    if (bit_length modulus <? MIN_RS256_MODULUS_BITS)%Z
    then Err (KeyDiscoveryFormatError ("RS256 discovery keys must use RSA modulus size >= 2048 bits"))
    else if negb (exponent =? EXPECTED_RS256_PUBLIC_EXPONENT)%Z
    then Err (KeyDiscoveryFormatError ("RS256 discovery keys must use public exponent 65537"))
    else if negb (rsa_numbers_ok exponent modulus)
    then Err (KeyDiscoveryFormatError "RS256 discovery key has invalid RSA public numbers")
    else raises (rsa_verify exponent modulus raw_signature payload).

(** [except KeyError] *)
Definition missing_field {A} (r : wk A) : wk A :=
  match r with
  | Err (OtherRaised (KeyError k)) => Err (KeyDiscoveryFormatError ("public_key_jwk is missing required field " +:+ str_repr k))
  | r => r
  end.

Definition _verify_signature_with_resolved_key (payload : string) (signature : SignatureSpec) (resolved : ResolvedVerificationKey) : wk bool :=
  if negb (String.eqb (sig_encoding signature) "base64url") then Ok false
  else
    let jwk := dk_public_key_jwk (rk_key resolved) in
    if neither_none_nor (dget jwk "kid") (dk_key_id (rk_key resolved))
    then Err (KeyDiscoveryFormatError "public_key_jwk.kid does not match the discovery key_id")
    else if neither_none_nor (dget jwk "alg") (sig_algorithm signature)
    then Err (KeyDiscoveryFormatError "public_key_jwk.alg does not match the signature algorithm")
    else if negb ed25519_available
    then Err (UnsupportedVerificationAlgorithmError
           "asymmetric well-known key verification requires the optional 'cryptography' package in the current Python path")
    else
      raw_signature ← _decode_unpadded_base64url_wire (JStr (sig_value signature)) "signature.value";
      if String.eqb (sig_algorithm signature) "EdDSA" then missing_field (verify_eddsa jwk raw_signature payload)
      else if String.eqb (sig_algorithm signature) "RS256" then missing_field (verify_rs256 jwk raw_signature payload)
      else Err (UnsupportedVerificationAlgorithmError
             ("well-known verification supports RS256 and EdDSA only when the optional crypto backend is available; got " +:+
              str_repr (sig_algorithm signature))).

Record WellKnownKeySignatureVerifier := mkWellKnownVerifier {
  wv_resolver : WellKnownKeyResolver W; wv_required_use : string;
  wv_external_anchor_verified : bool; wv_external_anchor_time : option datetime
}.

(** Without the artifact's issue time no key can be judged. *)
Definition plain_verify (v : WellKnownKeySignatureVerifier) (payload : string) (signature : SignatureSpec) : bool := false.

Definition signature_request (v : WellKnownKeySignatureVerifier) (signature : SignatureSpec) (issuer : option PartyRef) (issued_at : datetime)
    (external_anchor_verified : option bool) (external_anchor_time : option datetime) : key_request :=
  mkKeyRequest (sig_key_id signature) (sig_algorithm signature) issued_at issuer (Some (wv_required_use v))
    (default (wv_external_anchor_verified v) external_anchor_verified)
    match external_anchor_time with None => wv_external_anchor_time v | t => t end.

(** [except WellKnownKeyResolverError: return False] *)
Definition closed_on_error (r : wk bool) : py bool :=
  match r with Ok b => Ok b | Err (OtherRaised e) => Err e | Err _ => Ok false end.

Definition verify_with_metadata (v : WellKnownKeySignatureVerifier) (payload : string) (signature : SignatureSpec) (issuer : option PartyRef)
    (issued_at : option datetime) (external_anchor_verified : option bool) (external_anchor_time : option datetime) : M exn (resolver_state W) bool :=
  match issued_at with
  | None => mret false
  | Some issued_at => fun s =>
      let q := signature_request v signature issuer issued_at external_anchor_verified external_anchor_time in
      let '(r, s') := (key ← resolve_key (wv_resolver v) q false; lift (_verify_signature_with_resolved_key payload signature key)) s in
      (closed_on_error r, s')
  end.

(** The verifier in a state of its resolver, as the proof service uses it. *)
Definition well_known_signature_verifier (v : WellKnownKeySignatureVerifier) (s : resolver_state W) : SignatureVerifier :=
  mkSignatureVerifier (fun payload signature => Ok (plain_verify v payload signature))
    (Some (fun payload signature issuer issued_at => (verify_with_metadata v payload signature (Some issuer) (Some issued_at) None None s).1)).
End Signatures.

(** ** Which keys are usable *)
Definition use_allowed (key : DiscoveredVerificationKey) (required_use : option string) : Prop :=
  match required_use with
  | Some use => use ∈ ALLOWED_DISCOVERY_KEY_USES /\ use <> LEGACY_VERIFY_USE /\ use ∈ dk_use key
  | None => exists use, use ∈ dk_use key /\ use ∈ ALLOWED_DISCOVERY_KEY_USES
  end.

(** The key may sign for the request's purpose, was in force at the issue time and,
    when it is hard-revoked, the artifact is anchored before that. *)
Record key_usable (key : DiscoveredVerificationKey) (q : key_request) : Prop := mkUsable {
  usable_status : dk_status key ∈ ["active"; "retired"; "revoked"; "hard_revoked"];
  usable_use : use_allowed key (kq_required_use q);
  usable_not_before : forall t, dk_not_before key = Some t -> (t <= kq_issued_at q)%Z;
  usable_not_expired : forall t, dk_expires_at key = Some t -> (kq_issued_at q < t)%Z;
  usable_before_revocation : forall t, dk_revoked_at key = Some t -> (kq_issued_at q < t)%Z;
  usable_bounded_revocation : dk_status key = "revoked" -> dk_revoked_at key <> None;
  usable_anchored : dk_status key = "hard_revoked" \/ dk_hard_revoked_at key <> None ->
    kq_external_anchor_verified q = true /\
    exists anchored hard, kq_external_anchor_time q = Some anchored /\ dk_hard_revoked_at key = Some hard /\ (anchored < hard)%Z
}.

Definition issuer_ok (document : KeyDiscoveryDocument) (q : key_request) : Prop :=
  forall issuer, kq_issuer q = Some issuer ->
    party_type (kd_issuer document) = party_type issuer /\ party_id (kd_issuer document) = party_id issuer.

Definition named_key (key_id : string) (key : DiscoveredVerificationKey) : bool := String.eqb (dk_key_id key) key_id.

(** The one key of the document that answers a request. *)
Definition answers (document : KeyDiscoveryDocument) (q : key_request) (key : DiscoveredVerificationKey) : Prop :=
  issuer_ok document q /\ List.filter (named_key (kq_key_id q)) (kd_keys document) = [key] /\
  dk_algorithm key = kq_algorithm q /\ key_usable key q.

Section SelectFacts.
Context `{PyText}.

Lemma check_use_Ok key required_use u : check_use key required_use = Ok u <-> use_allowed key required_use.
Proof.
  destruct u. unfold check_use, use_allowed. destruct required_use as [use|].
  - rewrite <- !str_mem_spec. destruct (str_mem use ALLOWED_DISCOVERY_KEY_USES), (String.eqb_spec use LEGACY_VERIFY_USE), (str_mem use (dk_use key));
      simpl; naive_solver.
  - destruct (existsb _ (dk_use key)) eqn:E; simpl.
    + split; [intros _|done]. apply existsb_exists in E as (use & Hin & Hm). exists use.
      split; [by apply list_elem_of_In|by apply str_mem_spec].
    + split; [done|]. intros (use & Hin & Hm). apply str_mem_spec in Hm. exfalso. apply not_true_iff_false in E. apply E, existsb_exists.
      exists use. by rewrite <- list_elem_of_In.
Qed.

Lemma bound_holds_false bound test : bound_holds bound test = false <-> forall t, bound = Some t -> test t = false.
Proof. destruct bound; simpl; naive_solver. Qed.

(** A chain of refusals returns exactly when no test holds. *)
Lemma guard_Ok (c : bool) (e : resolver_error) (r : wk unit) : (if c then Err e else r) = Ok tt <-> c = false /\ r = Ok tt.
Proof. destruct c; naive_solver. Qed.

Lemma check_bind_Ok (r1 r2 : wk unit) : (_ ← r1; r2) = Ok tt <-> r1 = Ok tt /\ r2 = Ok tt.
Proof. destruct r1 as [[]|]; simpl; naive_solver. Qed.

Lemma usable_status_iff s :
  (negb (str_mem s ALLOWED_DISCOVERY_KEY_STATUSES) = false /\ String.eqb s "suspended" = false) <->
  s ∈ ["active"; "retired"; "revoked"; "hard_revoked"].
Proof.
  rewrite negb_false_iff, str_mem_spec, String.eqb_neq. unfold ALLOWED_DISCOVERY_KEY_STATUSES. rewrite !elem_of_cons. split.
  - intros [[->|[->|[->|[->|[->|[]%elem_of_nil]]]]] ?]; naive_solver.
  - intros [->|[->|[->|[->|[]%elem_of_nil]]]]; naive_solver.
Qed.

Lemma anchored_iff (hard : bool) (hard_at anchor_time : option datetime) (verified : bool) :
  (hard || bool_of_option hard_at) &&
    (negb verified || match anchor_time, hard_at with Some a, Some h => (h <=? a)%Z | _, _ => true end) = false <->
  (hard = true \/ hard_at <> None -> verified = true /\ exists a h, anchor_time = Some a /\ hard_at = Some h /\ (a < h)%Z).
Proof.
  destruct hard_at as [h|], anchor_time as [a|], verified, hard; simpl; try destruct (Z.leb_spec h a);
    split; try done; intros Hx; try naive_solver lia;
    exfalso; (destruct Hx as (? & ? & ? & ? & ? & ?); [naive_solver|]); simplify_eq; lia.
Qed.

Lemma assert_key_usable_Ok key q : _assert_key_usable key q = Ok tt <-> key_usable key q.
Proof.
  unfold _assert_key_usable. cbv zeta. rewrite guard_Ok, check_bind_Ok, !guard_Ok, check_use_Ok, !bound_holds_false, anchored_iff, andb_false_iff, String.eqb_eq.
  setoid_rewrite Z.ltb_ge. setoid_rewrite Z.leb_gt.
  assert (forall P : Prop, (P /\ Ok tt = Ok (E:=resolver_error) tt) <-> P) as Hd by tauto. rewrite Hd. clear Hd.
  pose proof (usable_status_iff (dk_status key)) as Hst.
  assert (((dk_status key =? "revoked")%string = false \/ negb (bool_of_option (dk_revoked_at key)) = false) <->
          (dk_status key = "revoked" -> dk_revoked_at key <> None)) as Hrv.
  { destruct (String.eqb_spec (dk_status key) "revoked"), (dk_revoked_at key); simpl; naive_solver. }
  rewrite Hrv. split.
  - intros (H1 & H2 & H3 & H4 & H5 & H6 & H7 & H8). constructor; try done. by apply Hst.
  - intros []. apply Hst in usable_status0 as [? ?]. by split_and!.
Qed.

Lemma select_key_Ok document q k : _select_key document q = Ok k <->
  exists key, answers document q key /\
    k = mkResolvedKey (kd_issuer document) (kd_origin document) (kd_published_at document) key.
Proof.
  unfold _select_key, answers. cbv zeta. change (fun item => String.eqb (dk_key_id item) (kq_key_id q)) with (named_key (kq_key_id q)).
  rewrite bind_Ok. split.
  - intros (u & Hi & Hk). assert (issuer_ok document q) as Hio.
    { intros issuer Hq. rewrite Hq in Hi. destruct (_ || _) eqn:E; [done|]. apply orb_false_iff in E as [E1 E2].
      apply negb_false_iff, String.eqb_eq in E1, E2. done. }
    destruct (List.filter _ _) as [|key [|]]; try done. destruct (String.eqb_spec (dk_algorithm key) (kq_algorithm q)); [|done].
    simpl in Hk. apply bind_Ok in Hk as ([] & Hu & [= <-]). exists key. apply assert_key_usable_Ok in Hu. by split_and!.
  - intros (key & (Hi & Hf & Ha & Hu) & ->). exists tt. split.
    + destruct (kq_issuer q) as [issuer|] eqn:Eq; [|done]. destruct (Hi issuer Eq) as [-> ->]. by rewrite !String.eqb_refl.
    + rewrite Hf, Ha, String.eqb_refl. simpl. apply bind_Ok. exists tt. split; [by apply assert_key_usable_Ok|done].
Qed.
End SelectFacts.

(** ** Where a document comes from *)
Section RunFacts.
Context `{PyText} `{UrlLibrary} `{Platform} {W : Type} `{Network W}.
Variable r : WellKnownKeyResolver W.

(** In state [s] the clock read [now], and the response to the request made then had
    these headers and denotes [document]. *)
Definition received (s : resolver_state W) (now : datetime) (response_headers : headers) (document : KeyDiscoveryDocument) : Prop :=
  exists s1 s2 s3 body,
    now_provider s = (Ok now, s1) /\
    zoom world_lens (_validate_well_known_fetch_url (discovery_url r) (wr_issuer_origin r) (negb (bool_of_option (wr_fetch_document r)))) s1 = (Ok tt, s2) /\
    zoom world_lens (default _default_fetch_document (wr_fetch_document r) (discovery_url r) (wr_timeout_seconds r)) s2 = (Ok (response_headers, body), s3) /\
    _parse_discovery_document body (wr_issuer_origin r) (discovery_url r) = Ok document.

Definition expiry (now : datetime) (response_headers : headers) (document : KeyDiscoveryDocument) : datetime :=
  (now + document_lifetime r response_headers document * US_PER_SECOND)%Z.

(** The states of a run: the resolver starts without a document, looks documents up,
    and the world moves on its own in between. *)
Inductive runs (w0 : W) : resolver_state W -> Prop :=
| runs_start : runs w0 (mkResolverState None w0)
| runs_get bypass_cache s res s' : runs w0 s -> _get_document r bypass_cache s = (res, s') -> runs w0 s'
| runs_world s w : runs w0 s -> runs w0 (mkResolverState (rs_cache s) w).

Lemma zoom_cache {A} (m : M resolver_error W A) s res s' : zoom world_lens m s = (res, s') -> rs_cache s' = rs_cache s.
Proof. unfold zoom. destruct (m _) as [? w]. by intros [= _ <-]. Qed.

Lemma now_provider_cache s now s' : now_provider s = (Ok now, s') -> rs_cache s' = rs_cache s.
Proof. unfold now_provider. destruct (net_now _) as [t w]. by intros [= _ <-]. Qed.

(** Refreshing stores what was received, or leaves the cache alone. *)
Lemma refresh_document_spec s now s1 res s' : now_provider s = (Ok now, s1) -> refresh_document r now s1 = (res, s') ->
  match res with
  | Ok document => exists h, received s now h document /\ rs_cache s' = Some (mkCached document (expiry now h document))
  | Err _ => rs_cache s' = rs_cache s
  end.
Proof.
  intros Hnow. rewrite <- (now_provider_cache _ _ _ Hnow). unfold refresh_document.
  unfold mbind at 1, M_bind at 1. destruct (zoom _ _ s1) as [[[]|e] s2] eqn:E2; [|intros [= <- <-]; by apply zoom_cache in E2].
  unfold mbind at 1, M_bind at 1. destruct (zoom _ _ s2) as [[[h body]|e] s3] eqn:E3.
  2: { intros [= <- <-]. by rewrite (zoom_cache _ _ _ _ E3), (zoom_cache _ _ _ _ E2). }
  assert (rs_cache s3 = rs_cache s1) as Hc by (by rewrite (zoom_cache _ _ _ _ E3), (zoom_cache _ _ _ _ E2)).
  unfold mbind, M_bind, lift. destruct (_parse_discovery_document _ _ _) as [document|e] eqn:Ep; [|by intros [= <- <-]].
  destruct (datetime_add _ _) as [t|e] eqn:Et; simpl; [|by intros [= <- <-]]. intros [= <- <-]. exists h.
  split; [by exists s1, s2, s3, body|]. simpl. apply datetime_add_Ok in Et as [-> _]. done.
Qed.

(** What a look-up does: it returns the kept document before its expiry, or what it
    received, which it keeps; a failure leaves the cache alone. *)
Definition looked_up (s : resolver_state W) (res : wk KeyDiscoveryDocument) (s' : resolver_state W) : Prop :=
  match res with
  | Ok document =>
      (exists now s1 c, now_provider s = (Ok now, s1) /\ rs_cache s = Some c /\ (now < cd_expires_at c)%Z /\ document = cd_document c /\
         rs_cache s' = rs_cache s) \/
      (exists now h, received s now h document /\ rs_cache s' = Some (mkCached document (expiry now h document)))
  | Err _ => rs_cache s' = rs_cache s
  end.

Lemma get_document_spec bypass_cache s res s' : _get_document r bypass_cache s = (res, s') -> looked_up s res s'.
Proof.
  unfold _get_document. unfold mbind at 1, M_bind at 1. destruct (now_provider s) as [[now|e] s1] eqn:En.
  2: { unfold now_provider in En. destruct (net_now _). discriminate. }
  pose proof (now_provider_cache _ _ _ En) as Hc.
  assert (refresh_document r now s1 = (res, s') -> looked_up s res s') as Hr.
  { intros Hs. apply (refresh_document_spec s) in Hs; [|done]. destruct res; [|done]. destruct Hs as (h & ? & ?). right. by exists now, h. }
  unfold mbind at 1, M_bind at 1, gets. rewrite Hc.
  destruct (rs_cache s) as [c|] eqn:Ec; [|done]. destruct bypass_cache; [done|]. simpl. destruct (Z.ltb_spec now (cd_expires_at c)); [|done].
  intros [= <- <-]. left. exists now, s1, c. by rewrite Hc, Ec.
Qed.

(** What a run keeps was received in it, and is kept for its lifetime only. *)
Lemma runs_cache w0 s c : runs w0 s -> rs_cache s = Some c ->
  exists s0 now h, runs w0 s0 /\ received s0 now h (cd_document c) /\ cd_expires_at c = expiry now h (cd_document c).
Proof.
  induction 1 as [|bypass_cache s res s' Hs IH Hg|s w Hs IH]; [done| |done]. intros Hc. apply get_document_spec in Hg.
  destruct res as [document|e]; [|apply IH; by rewrite <- Hg].
  destruct Hg as [(now & s1 & c' & _ & Hc' & _ & _ & Heq)|(now & h & Hrec & Heq)].
  - apply IH. by rewrite <- Heq.
  - rewrite Hc in Heq. injection Heq as ->. by exists s, now, h.
Qed.

(** The document a look-up in [s] returns: received now, or earlier in the run and
    still within its lifetime. *)
Definition current_document (w0 : W) (s : resolver_state W) (document : KeyDiscoveryDocument) : Prop :=
  exists s0 now h, runs w0 s0 /\ received s0 now h document /\
    (s0 = s \/ exists asked s1, now_provider s = (Ok asked, s1) /\ (asked < expiry now h document)%Z).

Lemma get_document_current w0 bypass_cache s document s' : runs w0 s -> _get_document r bypass_cache s = (Ok document, s') ->
  current_document w0 s document.
Proof.
  intros Hs Hg. apply get_document_spec in Hg as [(asked & s1 & c & Hn & Hc & Hlt & -> & _)|(now & h & Hrec & _)].
  - destruct (runs_cache _ _ _ Hs Hc) as (s0 & now & h & Hs0 & Hrec & He). exists s0, now, h. split_and!; [done..|]. right. exists asked, s1. by rewrite <- He.
  - exists s, now, h. eauto.
Qed.

Lemma resolve_key_trusted w0 q bypass_cache s k s' : runs w0 s -> resolve_key r q bypass_cache s = (Ok k, s') ->
  exists document key sc, answers document q key /\
    k = mkResolvedKey (kd_issuer document) (kd_origin document) (kd_published_at document) key /\
    runs w0 sc /\ current_document w0 sc document /\ (sc = s \/ exists d, _get_document r bypass_cache s = (Ok d, sc)).
Proof.
  intros Hs. unfold resolve_key. intros (d & s1 & Hg & Hk)%M_bind_Ok. cbv zeta in Hk.
  destruct (_select_key d q) as [k'|e] eqn:Es.
  - injection Hk as -> ->. apply select_key_Ok in Es as (key & ? & ?). exists d, key, s. split_and!; [done..| |by left].
    by eapply get_document_current.
  - destruct e; try discriminate Hk. apply M_bind_Ok in Hk as (cache & s2 & [= <- <-] & Hk). destruct (_ || _); [discriminate Hk|].
    apply M_bind_Ok in Hk as (d2 & s2 & Hg2 & [= Hk <-]). apply select_key_Ok in Hk as (key & ? & ?). exists d2, key, s1.
    assert (runs w0 s1) as Hs1 by (by eapply runs_get). split_and!; [done..| |by right; exists d]. by eapply get_document_current.
Qed.

Lemma resolve_key_runs w0 q bypass_cache s res s' : runs w0 s -> resolve_key r q bypass_cache s = (res, s') -> runs w0 s'.
Proof.
  intros Hs. unfold resolve_key. unfold mbind at 1, M_bind at 1. destruct (_get_document r bypass_cache s) as [[d|e] s1] eqn:Eg.
  2: { intros [= <- <-]. by eapply runs_get. }
  assert (runs w0 s1) as Hs1 by (by eapply runs_get). cbv zeta.
  destruct (_select_key d q) as [k|[]]; try (by intros [= <- <-]).
  unfold mbind at 1, M_bind at 1, gets. destruct (_ || _); [by intros [= <- <-]|].
  unfold mbind, M_bind, lift. destruct (_get_document r true s1) as [[d2|e] s2] eqn:Eg2; intros [= <- <-]; by eapply runs_get.
Qed.
End RunFacts.

(** ** What an accepted signature is *)
Section SignatureFacts.
Context `{PyText} `{UrlLibrary} `{Platform} `{Base64Padding} `{Ed25519} `{Rsa} {W : Type} `{Network W}.

(** The signature over [payload] verifies under the JWK: Ed25519 with a 32-byte key,
    or RSA with a modulus of at least 2048 bits and exponent 65537. *)
Definition signed_under (jwk : dict) (signature : SignatureSpec) (payload : string) : Prop :=
  exists raw, _decode_unpadded_base64url_wire (JStr (sig_value signature)) "signature.value" = Ok raw /\
  ((sig_algorithm signature = "EdDSA" /\ String.length raw = 64 /\
    exists x public_key_bytes, dget jwk "x" = x /\ _decode_unpadded_base64url_wire x "public_key_jwk.x" = Ok public_key_bytes /\
      String.length public_key_bytes = 32 /\ ed25519_verify public_key_bytes raw payload = Ok true) \/
   (sig_algorithm signature = "RS256" /\
    exists n modulus_bytes, dget jwk "n" = n /\ _decode_unpadded_base64url_wire n "public_key_jwk.n" = Ok modulus_bytes /\
      (2 ^ 2047 <= bytes_to_int modulus_bytes 0)%Z /\ rsa_verify 65537 (bytes_to_int modulus_bytes 0) raw payload = Ok true)).

Lemma jwk_field_dget jwk k v : jwk_field jwk k = Ok v -> dget jwk k = v.
Proof. unfold jwk_field, dget. by destruct (assoc k jwk); intros [= ->]. Qed.

Lemma bytes_to_int_nonneg b acc : (0 <= acc)%Z -> (0 <= bytes_to_int b acc)%Z.
Proof. revert acc. induction b as [|c b IH]; intros acc Hacc; simpl; [done|]. apply IH. lia. Qed.

Lemma bit_length_bound n k : (0 <= n)%Z -> (0 < k)%Z -> (bit_length n <? k)%Z = false -> (2 ^ (k - 1) <= n)%Z.
Proof.
  unfold bit_length. intros Hn Hk. destruct (Z.eqb_spec n 0) as [->|].
  - destruct (Z.ltb_spec 0 k); [done|lia].
  - destruct (Z.ltb_spec (Z.log2 n + 1) k); [done|]. intros _. apply Z.le_trans with (2 ^ Z.log2 n)%Z.
    + apply Z.pow_le_mono_r; lia.
    + apply Z.log2_spec. lia.
Qed.

Lemma raises_Ok {A} (r : py A) a : raises r = Ok a -> r = Ok a.
Proof. destruct r; simpl; naive_solver. Qed.

Lemma missing_field_Ok {A} (r : wk A) a : missing_field r = Ok a -> r = Ok a.
Proof. destruct r as [|[| | | | | | | | |[]]]; simpl; naive_solver. Qed.

(** Break an accepted check into its steps. *)
Ltac wk_inv H :=
  repeat match type of H with
  | (_ ≫= _) = Ok _ => let E := fresh "E" in apply bind_Ok in H as (? & E & H)
  | (if ?c then Err _ else _) = Ok _ => let E := fresh "E" in destruct c eqn:E; [discriminate H|]
  | (if ?c then Ok false else _) = Ok true => let E := fresh "E" in destruct c eqn:E; [discriminate H|]
  end.

Lemma verify_signature_true payload signature k : _verify_signature_with_resolved_key payload signature k = Ok true ->
  signed_under (dk_public_key_jwk (rk_key k)) signature payload.
Proof.
  unfold _verify_signature_with_resolved_key. cbv zeta. intros Hv. wk_inv Hv. rename x into raw. exists raw. split; [done|].
  destruct (String.eqb_spec (sig_algorithm signature) "EdDSA") as [Ha|_]; [left|].
  - apply missing_field_Ok in Hv. unfold verify_eddsa in Hv. wk_inv Hv. apply raises_Ok in Hv.
    match goal with E : jwk_field _ _ = Ok _ |- _ => apply jwk_field_dget in E end.
    repeat match goal with E : negb (Nat.eqb _ _) = false |- _ => apply negb_false_iff, Nat.eqb_eq in E end. eauto 10.
  - destruct (String.eqb_spec (sig_algorithm signature) "RS256") as [Ha|_]; [right|discriminate Hv].
    apply missing_field_Ok in Hv. unfold verify_rs256 in Hv. wk_inv Hv. cbv zeta in Hv. wk_inv Hv. apply raises_Ok in Hv.
    repeat match goal with E : jwk_field _ _ = Ok _ |- _ => apply jwk_field_dget in E end.
    match goal with E : (bit_length _ <? _)%Z = false |- _ => apply bit_length_bound in E; [|by apply bytes_to_int_nonneg|done] end.
    match goal with E : negb (Z.eqb _ _) = false |- _ => apply negb_false_iff, Z.eqb_eq in E; rewrite E in Hv end.
    unfold EXPECTED_RS256_PUBLIC_EXPONENT in *. split; [done|]. eexists _, _. split_and!; eauto.
Qed.

(** Documents name each key once and declare the origin they were asked for at. *)
Lemma reject_duplicate_ids_Ok keys seen u : reject_duplicate_ids keys seen = Ok u ->
  NoDup (map dk_key_id keys) /\ forall i, i ∈ map dk_key_id keys -> i ∉ seen.
Proof.
  revert seen. induction keys as [|k keys IH]; simpl; intros seen Hr; [split; [constructor|set_solver]|].
  destruct (str_mem _ seen) eqn:E; [done|]. apply IH in Hr as [Hd Hs]. apply not_true_iff_false in E. rewrite str_mem_spec in E.
  split; [constructor; [intros Hin; apply (Hs _ Hin); by left|done]|]. intros i [->|Hi]%elem_of_cons; [done|]. specialize (Hs _ Hi). set_solver.
Qed.

Lemma parse_document_Ok body origin url d : _parse_discovery_document body origin url = Ok d ->
  kd_origin d = origin /\ NoDup (map dk_key_id (kd_keys d)) /\ kd_keys d <> [].
Proof.
  unfold _parse_discovery_document. destruct (loads_no_duplicate_keys _ _ _ _ _) as [[]|]; try done. unfold parse_payload.
  destruct (dget _ "contract"); try done. intros Hd. wk_inv Hd. cbv zeta in Hd. wk_inv Hd.
  destruct (dget _ "keys") as [| | | | |[|k ks]|]; try done. wk_inv Hd. injection Hd as <-. simpl.
  match goal with E : reject_duplicate_ids _ _ = Ok _ |- _ => apply reject_duplicate_ids_Ok in E as [? _] end.
  match goal with E : negb (String.eqb _ origin) = false |- _ => apply negb_false_iff, String.eqb_eq in E end.
  split_and!; [done..|]. intros ->. match goal with E : res_mapM _ _ = Ok [] |- _ => simpl in E; wk_inv E; discriminate E end.
Qed.
End SignatureFacts.

(** ** Publishing and reading back *)
Section PublishFacts.
Context `{PyText} `{UrlLibrary}.

Lemma normalize_uses_spec uses acc l : normalize_uses uses acc = Ok l -> NoDup acc -> Forall (fun u => u ∈ ALLOWED_DISCOVERY_KEY_USES /\ u <> "") acc ->
  NoDup l /\ Forall (fun u => u ∈ ALLOWED_DISCOVERY_KEY_USES /\ u <> "") l /\ (uses <> [] \/ acc <> [] -> l <> []).
Proof.
  revert acc. induction uses as [|u uses IH]; intros acc Hn Hd Hf; [injection Hn as <-; naive_solver|].
  destruct u as [| | | |use| |]; try discriminate Hn. cbn [normalize_uses] in Hn. destruct (str_truthy use) eqn:Et; cbn [negb] in Hn; [|discriminate Hn].
  destruct (str_mem use ALLOWED_DISCOVERY_KEY_USES) eqn:Ea; cbn [negb] in Hn; [|discriminate Hn]. apply str_mem_spec in Ea.
  unfold str_truthy in Et. apply negb_true_iff, String.eqb_neq in Et.
  destruct (str_mem use acc) eqn:Em.
  - apply str_mem_spec in Em. apply IH in Hn as (? & ? & Hne); [|done..]. split_and!; [done..|]. intros _. apply Hne. right. intros ->. by apply elem_of_nil in Em.
  - apply not_true_iff_false in Em. rewrite str_mem_spec in Em. apply IH in Hn as (? & ? & Hne).
    + split_and!; [done..|]. intros _. apply Hne. right. by destruct acc.
    + apply NoDup_app. split_and!; [done|set_solver|apply NoDup_singleton].
    + apply Forall_app. split; [done|by apply Forall_singleton].
Qed.

Lemma normalize_uses_fix l acc : NoDup (acc ++ l) -> Forall (fun u => u ∈ ALLOWED_DISCOVERY_KEY_USES /\ u <> "") l ->
  normalize_uses (map JStr l) acc = Ok (acc ++ l).
Proof.
  revert acc. induction l as [|u l IH]; intros acc Hd Hf; [by rewrite app_nil_r|]. apply Forall_cons in Hf as [[Ha Hne] Hf].
  cbn [map normalize_uses]. unfold str_truthy. apply String.eqb_neq in Hne. rewrite Hne. cbn [negb]. apply str_mem_spec in Ha. rewrite Ha. cbn [negb].
  assert (str_mem u acc = false) as ->.
  { apply not_true_iff_false. rewrite str_mem_spec. intros Hin. apply NoDup_app in Hd as (_ & Hd & _). apply (Hd u Hin). by left. }
  rewrite IH; [by rewrite <- (assoc_L (++))|by rewrite <- (assoc_L (++))|done].
Qed.

(** The published form of the uses reads back as the same uses. *)
Lemma serialize_key_use_back use j : _serialize_key_use use = Ok j ->
  exists uses, _normalize_key_uses use = Ok uses /\ _normalize_key_uses j = Ok uses.
Proof.
  unfold _serialize_key_use. intros (uses & Hu & [= <-])%bind_Ok. exists uses. split; [done|].
  assert (NoDup uses /\ Forall (fun u => u ∈ ALLOWED_DISCOVERY_KEY_USES /\ u <> "") uses /\ uses <> []) as (Hd & Hf & Hne).
  { unfold _normalize_key_uses in Hu. destruct use as [| | | | |[|]|]; try discriminate Hu;
      (apply normalize_uses_spec in Hu as (? & ? & Hx); [split_and!; [done..|]; apply Hx; by left|constructor|constructor]). }
  assert (normalize_uses (map JStr uses) [] = Ok uses) as Hfix by (by apply (normalize_uses_fix uses [])).
  destruct uses as [|u1 [|u2 uses]]; [done|exact Hfix|exact Hfix].
Qed.

Definition opt_ok (t : option datetime) : Prop := match t with Some t => datetime_ok t | None => True end.

(** What a publication must satisfy beyond what the builder checks. *)
Definition publication_wf (p : key_publication) : Prop :=
  PartyRef_wf (kp_issuer p) = true /\ kp_key_id p <> "" /\ kp_algorithm p <> "" /\ datetime_ok (kp_published_at p) /\
  opt_ok (kp_not_before p) /\ opt_ok (kp_expires_at p) /\ opt_ok (kp_revoked_at p) /\ opt_ok (kp_hard_revoked_at p).

Definition opt_text (o : option string) : json := match o with Some s => JStr s | None => JNull end.

Lemma assoc_time_entry k k' t : assoc k (time_entry k' t) = if String.eqb k k' then (fun t => JStr (format_timestamp t)) <$> t else None.
Proof. destruct t; simpl; [|by destruct (String.eqb k k')]. rewrite String.eqb_sym. by destruct (String.eqb k' k). Qed.

Lemma key_payload_get p use jwk :
  let d := key_payload p use jwk in
  dget d "key_id" = JStr (kp_key_id p) /\ dget d "kid" = JNull /\ dget d "algorithm" = JStr (kp_algorithm p) /\ dget d "use" = use /\
  dget d "status" = JStr (kp_status p) /\ dget d "public_key_jwk" = JDict jwk /\
  dget d "not_before" = opt_text (format_timestamp <$> kp_not_before p) /\ dget d "expires_at" = opt_text (format_timestamp <$> kp_expires_at p) /\
  dget d "revoked_at" = opt_text (format_timestamp <$> kp_revoked_at p) /\ dget d "hard_revoked_at" = opt_text (format_timestamp <$> kp_hard_revoked_at p) /\
  dget d "replaced_by" = opt_text (kp_replaced_by p) /\ dget d "revocation_reason" = kp_revocation_reason p.
Proof.
  cbv zeta. unfold key_payload. destruct p as [p1 p2 p3 p4 p5 p6 p7 p8 p9 nb ex re hr rb rr].
  unfold dget. rewrite !assoc_app, !assoc_time_entry. cbn.
  split_and!; try reflexivity; [by destruct rb, rr|by destruct nb, rb, rr|by destruct ex, rb, rr|by destruct re, rb, rr|by destruct hr, rb, rr|
    by destruct rb, rr|by destruct rb, rr].
Qed.

Lemma optional_time_back d k t : dget d k = opt_text (format_timestamp <$> t) -> opt_ok t -> optional_time d k = Ok t.
Proof.
  unfold optional_time, opt_timestamp. intros ->. destruct t as [t|]; [|done]. intros Ht.
  change (opt_text (format_timestamp <$> Some t)) with (JStr (format_timestamp t)). rewrite parse_format by done. unfold py_truthy. destruct (String.eqb_spec (format_timestamp t) "") as [E|]; [|done].
  pose proof (parse_format t "" Ht) as Hp. rewrite E in Hp. discriminate Hp.
Qed.

Lemma normalize_origin_nonempty o origin : _normalize_origin o = Ok origin -> str_truthy origin = true.
Proof.
  unfold _normalize_origin. intros (parts & _ & Hp)%bind_Ok. destruct (String.eqb_spec (us_scheme parts) "https") as [E|]; [|done]. rewrite E in Hp.
  cbn [negb] in Hp. do 2 (destruct (_ || _); [done|]). apply bind_Ok in Hp as (? & _ & Hp). destruct (_ || _); [done|].
  destruct (negb _); [done|]. by injection Hp as <-.
Qed.

Lemma require_text_back d k s : dget d k = JStr s -> s <> "" -> require_text d k = Ok s.
Proof. unfold require_text. intros -> Hs. unfold str_truthy. apply String.eqb_neq in Hs. by rewrite Hs. Qed.

Lemma parse_published_key p use jwk uses : publication_wf p -> kp_status p ∈ ALLOWED_DISCOVERY_KEY_STATUSES -> _normalize_key_uses use = Ok uses ->
  _parse_key_descriptor (JDict (key_payload p use jwk)) =
    Ok (mkDiscoveredKey (kp_key_id p) (kp_algorithm p) uses (kp_status p) jwk (kp_not_before p) (kp_expires_at p) (kp_revoked_at p)
          (kp_hard_revoked_at p) (opt_text (kp_replaced_by p)) (kp_revocation_reason p)).
Proof.
  intros (_ & Hk & Ha & _ & Hnb & Hex & Hre & Hhr) Hst Hu. unfold _parse_key_descriptor.
  destruct (key_payload_get p use jwk) as (G1 & G2 & G3 & G4 & G5 & G6 & G7 & G8 & G9 & G10 & G11 & G12).
  rewrite G1, G2, G4, G6, G11, G12, Hu, (require_text_back _ _ _ G3 Ha), (require_text_back _ _ _ G5).
  2: { intros E. rewrite E in Hst. unfold ALLOWED_DISCOVERY_KEY_STATUSES in Hst. set_solver. }
  rewrite (optional_time_back _ _ _ G7), (optional_time_back _ _ _ G8), (optional_time_back _ _ _ G9), (optional_time_back _ _ _ G10) by done.
  unfold py_or, py_truthy, str_truthy. apply String.eqb_neq in Hk. rewrite Hk. cbn [negb]. rewrite Hk. reflexivity.
Qed.
End PublishFacts.

Lemma verify_with_metadata_trusted `{PyText} `{UrlLibrary} `{Platform} `{Base64Padding} `{Ed25519} `{Rsa} {W : Type} `{Network W}
    (v : WellKnownKeySignatureVerifier) (w0 : W) (s s' : resolver_state W) (payload : string) (signature : SignatureSpec)
    (issuer : option PartyRef) (issued_at : datetime) (anchor_verified : option bool) (anchor_time : option datetime) :
  runs (wv_resolver v) w0 s ->
  verify_with_metadata v payload signature issuer (Some issued_at) anchor_verified anchor_time s = (Ok true, s') ->
  runs (wv_resolver v) w0 s' /\
  exists document key sc,
    answers document (signature_request v signature issuer issued_at anchor_verified anchor_time) key /\
    kd_origin document = wr_issuer_origin (wv_resolver v) /\
    signed_under (dk_public_key_jwk key) signature payload /\
    current_document (wv_resolver v) w0 sc document /\
    (sc = s \/ exists d, _get_document (wv_resolver v) false s = (Ok d, sc)).
Proof.
  intros Hs. unfold verify_with_metadata. cbv zeta.
  match goal with |- context [match ?m with pair _ _ => _ end] => destruct m as [r s1] eqn:Er end. intros [= Hr ->]. destruct r as [b|[]]; try discriminate Hr. injection Hr as ->.
  apply M_bind_Ok in Er as (k & s1 & Hk & [= Hv ->]). split; [by eapply resolve_key_runs|].
  eapply resolve_key_trusted in Hk as (document & key & sc & Ha & -> & Hsc & Hcur & Hor); [|done].
  exists document, key, sc. split; [done|]. split_and!; [|by apply verify_signature_true in Hv|done|done].
  destruct Hcur as (s0 & now & h & _ & (? & ? & ? & body & _ & _ & _ & Hp) & _). by apply parse_document_Ok in Hp as [? _].
Qed.

(** C25: a signature is accepted only with a key the issuer publishes. When
    [verify_with_metadata] answers true in a state of a run, there is a key
    document of the resolver's own origin, with the artifact's issuer, whose only
    key of the signature's [key_id] has its algorithm, is authorised for the
    required use, was in force when the artifact was issued (not before its
    start, before its expiry and its revocation, not suspended, and anchored
    before any hard revocation), and the signature verifies over the payload under
    its published public key. The document was received in this call, or earlier
    in the run and is not older than the lifetime its issuer gave it; the state
    afterwards is again a state of the run. *)
Theorem discovered_key_trusted `{PyText} `{UrlLibrary} `{Platform} `{Base64Padding} `{Ed25519} `{Rsa} {W : Type} `{Network W}
    (v : WellKnownKeySignatureVerifier) (w0 : W) (s s' : resolver_state W) (payload : string) (signature : SignatureSpec)
    (issuer : option PartyRef) (issued_at : datetime) (anchor_verified : option bool) (anchor_time : option datetime) :
  runs (wv_resolver v) w0 s ->
  verify_with_metadata v payload signature issuer (Some issued_at) anchor_verified anchor_time s = (Ok true, s') ->
  runs (wv_resolver v) w0 s' /\
  exists document key sc,
    answers document (signature_request v signature issuer issued_at anchor_verified anchor_time) key /\
    kd_origin document = wr_issuer_origin (wv_resolver v) /\
    signed_under (dk_public_key_jwk key) signature payload /\
    current_document (wv_resolver v) w0 sc document /\
    (sc = s \/ exists d, _get_document (wv_resolver v) false s = (Ok d, sc)).
Proof. apply verify_with_metadata_trusted. Qed.

Ltac payload_step :=
  cbn -[parse_timestamp format_timestamp _parse_key_descriptor key_payload PartyRef_from_dict PartyRef_to_dict _normalize_origin urlsplit str_truthy].

(** The document [build_key_discovery_document] publishes is read back, at the
    origin it names, as exactly the key it was built for: the identifier,
    algorithm, status, dates, replacement and revocation reason of the
    publication, its uses once each, and its JWK completed with [kid], [alg] and
    [use]; the document keeps the issuer, the publication time and the cache age.
    (That normalising an origin twice changes nothing is [urllib]'s behaviour.) *)
Theorem published_key_read_back `{PyText} `{UrlLibrary} (p : key_publication) (doc : dict) (origin url : string) (u : SplitResult) :
  publication_wf p ->
  build_key_discovery_document p = Ok doc ->
  _normalize_origin (kp_origin p) = Ok origin -> _normalize_origin origin = Ok origin ->
  urlsplit url = Ok u -> us_scheme u +:+ "://" +:+ us_netloc u = origin ->
  exists uses jwk,
    _normalize_key_uses (kp_use p) = Ok uses /\
    _normalize_public_key_jwk (kp_public_key_jwk p) (kp_key_id p) (kp_algorithm p) = Ok jwk /\
    parse_payload doc origin url =
      Ok (mkDiscoveryDocument (kp_issuer p) origin (kp_published_at p)
            [mkDiscoveredKey (kp_key_id p) (kp_algorithm p) uses (kp_status p) jwk (kp_not_before p) (kp_expires_at p) (kp_revoked_at p)
               (kp_hard_revoked_at p) (opt_text (kp_replaced_by p)) (kp_revocation_reason p)]
            (Some (kp_cache_max_age_seconds p))).
Proof.
  intros (Hi & Hk & Ha & Hp & Hnb & Hex & Hre & Hhr) Hb Ho Hoo Hu Hs. unfold build_key_discovery_document in Hb.
  destruct (str_mem (kp_status p) _) eqn:Est; [cbn [negb] in Hb|discriminate Hb]. destruct (Z.leb_spec (kp_cache_max_age_seconds p) 0); [discriminate Hb|].
  rewrite Ho in Hb. cbn [raises mbind res_bind] in Hb. apply bind_Ok in Hb as (use & Huse & Hb). apply bind_Ok in Hb as (jwk & Hjwk & [= <-]).
  apply raises_Ok in Hjwk. destruct (serialize_key_use_back _ _ Huse) as (uses & Hn & Hback). exists uses, jwk. split_and!; [done..|].
  apply str_mem_spec in Est. unfold parse_payload. payload_step.
  rewrite (normalize_origin_nonempty _ _ Ho). payload_step. rewrite Hoo. payload_step.
  rewrite String.eqb_refl, Hu. payload_step.
  rewrite Hs, String.eqb_refl, (roundtrip _ Hi). payload_step.
  rewrite (parse_format _ _ Hp). payload_step. destruct (Z.leb_spec (kp_cache_max_age_seconds p) 0); [lia|].
  payload_step. rewrite (parse_published_key p use jwk uses) by (try done; by split_and!). reflexivity.
Qed.

(** A proof the kernel's proof verifier accepts through the well-known verifier
    was signed, over the canonical bytes of all its signed fields, with a key that
    the proof's own issuer publishes at the resolver's origin for issuing proofs,
    and that was in force when the proof was issued. *)
Theorem well_known_proof_trusted `{Protocol} `{ProtocolAuthority} `{PyText} `{UrlLibrary} `{Platform} `{Base64Padding} `{Ed25519} `{Rsa} {W : Type}
    `{Network W} (v : WellKnownKeySignatureVerifier) (w0 : W) (s : resolver_state W) (pv : PCCBVerifier)
    (intent : ActionIntent) (pccb : PCCB) (context : DynamicContextInput) :
  canonicalisation_error_is_value_error = true ->
  runs (wv_resolver v) w0 s -> wv_required_use v = PROOF_ISSUANCE_USE ->
  vf_signer pv = well_known_signature_verifier v s ->
  verify pv intent pccb context = Ok tt ->
  exists bytes document key sc,
    canonicalize_bytes (JDict (unsigned_payload pccb)) DEFAULT_MAX_CANONICAL_OUTPUT_BYTES = Ok bytes /\
    signed_under (dk_public_key_jwk key) (pc_signature pccb) bytes /\
    kd_origin document = wr_issuer_origin (wv_resolver v) /\
    party_type (kd_issuer document) = party_type (pc_issuer pccb) /\ party_id (kd_issuer document) = party_id (pc_issuer pccb) /\
    List.filter (named_key (sig_key_id (pc_signature pccb))) (kd_keys document) = [key] /\
    PROOF_ISSUANCE_USE ∈ dk_use key /\ dk_status key <> "suspended" /\
    (forall t, dk_revoked_at key = Some t -> (pc_issued_at pccb < t)%Z) /\
    (forall t, dk_expires_at key = Some t -> (pc_issued_at pccb < t)%Z) /\
    current_document (wv_resolver v) w0 sc document.
Proof.
  intros Hve Hs Huse Hsv Hver. apply verify_Ok in Hver; [|done]. destruct (acc_signature _ _ _ _ Hver) as (bytes & Hb & Hsig).
  rewrite Hsv in Hsig. cbn [well_known_signature_verifier sv_verify_with_metadata] in Hsig.
  destruct (verify_with_metadata v bytes _ _ _ _ _ s) as [r s'] eqn:Ev. simpl in Hsig. subst r.
  apply (verify_with_metadata_trusted v w0) in Ev as (_ & document & key & sc & (Hi & Hf & Ha & Hu) & Ho & Hsu & Hcur & _); [|done].
  exists bytes, document, key, sc. destruct (Hi (pc_issuer pccb) eq_refl) as [Ht Hid]. destruct Hu as [Hst (_ & _ & Hin) _ Hex Hre _ _].
  rewrite Huse in Hin. split_and!; try done. intros Hsus. rewrite Hsus in Hst. set_solver.
Qed.

(** ** Samples: an issuer that publishes one Ed25519 key *)
Definition demo_origin : string := "https://issuer.example".
Definition demo_split (path : string) : SplitResult :=
  mkSplit "https" "issuer.example" path "" "" (Some "issuer.example") None None (Ok None).
Definition demo_urls : UrlLibrary := {|
  urlsplit url :=
    if String.eqb url demo_origin then Ok (demo_split "")
    else if String.eqb url (demo_origin +:+ WELL_KNOWN_KEYS_PATH) then Ok (demo_split WELL_KNOWN_KEYS_PATH)
    else Err (ValueError "not modelled");
  ip_address _ := None
|}.

Definition demo_publication : key_publication :=
  mkPublication sample_issuer demo_origin "k1" "EdDSA"
    (JDict [("kty", JStr "OKP"); ("crv", JStr "Ed25519"); ("x", JStr (String.concat "" (repeat "A" 43)))])
    sample_now "active" (JList [JStr "proof_issuance"; JStr "verify"; JStr "verify"]) 300 (Some sample_now) None None None (Some "k2") JNull.

Definition demo_key_document : dict :=
  Eval vm_compute in match @build_key_discovery_document demo_text demo_urls demo_publication with Ok d => d | Err _ => [] end.

Fixpoint tree_of_json (j : json) : jtree :=
  match j with
  | JList l => TArray (map tree_of_json l)
  | JDict d => TObject (map (fun kv => (kv.1, tree_of_json kv.2)) d)
  | v => TScalar v
  end.

Definition demo_key_platform : Platform := {|
  path_encodable _ := true; platform_utf8_valid _ := true;
  platform_parse_text s := if String.eqb s "keys" then ParsedTree (tree_of_json (JDict demo_key_document)) else ParseFailed
|}.

Definition demo_network : Network datetime := {|
  net_now t := (t, (t + 1)%Z);
  net_getaddrinfo _ w := (Err "no name service", w);
  net_open _ _ w := (Err (URLError "no network"), w)
|}.
Definition demo_fetch : string -> Z -> M resolver_error datetime (headers * string) := fun _ _ w => (Ok ([("Cache-Control", "max-age=60")], "keys"), w).
Definition demo_resolver : WellKnownKeyResolver datetime := mkResolver demo_origin 5 300 (Some demo_fetch).
Definition demo_wk_verifier : @WellKnownKeySignatureVerifier datetime := mkWellKnownVerifier demo_resolver PROOF_ISSUANCE_USE false None.
Definition demo_rsa : Rsa := {| rsa_numbers_ok _ _ := false; rsa_verify _ _ _ _ := Ok false |}.
Definition demo_wk_padding : Base64Padding := true.
Definition demo_wk_signature : SignatureSpec := mkSignatureSpec "EdDSA" "k1" "base64url" (String.concat "" (repeat "A" 86)).
Definition demo_wk_start : resolver_state datetime := mkResolverState None (sample_now + 5)%Z.

Lemma discovered_key_trusted_witness :
  exists document key sc,
    kd_origin document = demo_origin /\ @current_document demo_text demo_urls demo_key_platform datetime demo_network demo_resolver (sample_now + 5)%Z sc document /\
    key_usable key (signature_request demo_wk_verifier demo_wk_signature (Some sample_issuer) sample_now None None).
Proof.
  destruct (@discovered_key_trusted demo_text demo_urls demo_key_platform demo_wk_padding demo_ed25519 demo_rsa datetime demo_network demo_wk_verifier
    (sample_now + 5)%Z demo_wk_start
    (@verify_with_metadata demo_text demo_urls demo_key_platform demo_wk_padding demo_ed25519 demo_rsa datetime demo_network demo_wk_verifier
       "payload" demo_wk_signature (Some sample_issuer) (Some sample_now) None None demo_wk_start).2
    "payload" demo_wk_signature (Some sample_issuer) sample_now None None) as (_ & document & key & sc & (_ & _ & _ & Hu) & Ho & _ & Hc & _).
  - apply runs_start.
  - vm_compute. reflexivity.
  - by exists document, key, sc.
Defined.

Lemma published_key_read_back_witness :
  exists (uses : list string) (jwk : dict), is_ok (@parse_payload demo_text demo_urls demo_key_document demo_origin (demo_origin +:+ WELL_KNOWN_KEYS_PATH)) = true /\
    uses = ["proof_issuance"; "verify"] /\ has_key "kid" jwk = true.
Proof.
  destruct (@published_key_read_back demo_text demo_urls demo_publication demo_key_document demo_origin (demo_origin +:+ WELL_KNOWN_KEYS_PATH)
    (demo_split WELL_KNOWN_KEYS_PATH)) as (uses & jwk & Hu & Hj & Hp).
  - vm_compute. repeat split; congruence.
  - vm_compute. reflexivity.
  - vm_compute. reflexivity.
  - vm_compute. reflexivity.
  - vm_compute. reflexivity.
  - reflexivity.
  - exists uses, jwk. rewrite Hp. vm_compute in Hu, Hj. injection Hu as <-. injection Hj as <-. vm_compute. auto.
Defined.

Definition demo_wk_pccb : PCCB :=
  let p := sample_pccb in
  mkPCCB (pc_pccb_id p) (pc_issued_at p) (pc_not_before p) (pc_expires_at p) (pc_issuer p) (pc_subject p) (pc_tenant p) (pc_audience p)
    (pc_action p) (pc_target p) (pc_scope p) (pc_nonce p) (pc_action_hash p) demo_wk_signature (pc_intent_id p) (pc_escrow_id p) (pc_extensions p).

Definition demo_wk_pccb_verifier : PCCBVerifier :=
  mkPCCBVerifier (@well_known_signature_verifier demo_text demo_urls demo_key_platform demo_wk_padding demo_ed25519 demo_rsa datetime demo_network
    demo_wk_verifier demo_wk_start) 0 TRUSTED_DETAILED None (Some "refunds-api") None.

Lemma well_known_proof_trusted_witness :
  exists document key, party_id (kd_issuer document) = "actenon" /\ PROOF_ISSUANCE_USE ∈ dk_use key.
Proof.
  destruct (@well_known_proof_trusted demo_protocol sample_authority demo_text demo_urls demo_key_platform demo_wk_padding demo_ed25519 demo_rsa datetime
    demo_network demo_wk_verifier (sample_now + 5)%Z demo_wk_start demo_wk_pccb_verifier sample_intent demo_wk_pccb sample_context)
    as (bytes & document & key & sc & _ & _ & _ & _ & Hid & _ & Hu & _).
  - reflexivity.
  - apply runs_start.
  - reflexivity.
  - reflexivity.
  - vm_compute. reflexivity.
  - by exists document, key.
Defined.

(** A document with an unreadable date, or one that asks to be kept for longer than
    dates reach, is neither accepted nor refused: the exception leaves
    [verify_with_metadata], which catches the resolver's errors only. *)
Definition unreadable_document : dict := assoc_set "published_at" (JStr "yesterday") demo_key_document.
Definition eternal_document : dict := assoc_set "cache" (JDict [("max_age_seconds", JInt (10 ^ 18))]) demo_key_document.

Definition demo_platform_of (d : dict) : Platform := {|
  path_encodable _ := true; platform_utf8_valid _ := true;
  platform_parse_text s := ParsedTree (tree_of_json (JDict d))
|}.
Definition demo_answer (d : dict) (resolver : WellKnownKeyResolver datetime) : py bool :=
  (@verify_with_metadata demo_text demo_urls (demo_platform_of d) demo_wk_padding demo_ed25519 demo_rsa datetime demo_network
    (mkWellKnownVerifier resolver PROOF_ISSUANCE_USE false None) "payload" demo_wk_signature (Some sample_issuer) (Some sample_now) None None demo_wk_start).1.

Lemma malformed_document_escapes :
  demo_answer unreadable_document demo_resolver = Err (ValueError "published_at must be an RFC3339 timestamp string") /\
  demo_answer eternal_document (mkResolver demo_origin 5 300 (Some (fun _ _ w => (Ok ([], "keys"), w)))) = Err OverflowError /\
  demo_answer demo_key_document demo_resolver = Ok true.
Proof. vm_compute. auto. Qed.
