(* ===== verification/LocalSigner.v ===== *)
(** * The local signer: [proof/signers/local.py]

    HMAC-SHA256 is a parameter ([Hmac]); the codec is [Base64].  The environment is
    the one of [SecurityPosture].  A secret given as text is its UTF-8 bytes.

    The theorems: a signer can be built exactly outside production-like
    environments and, with the published secret, only under development intent;
    it accepts exactly the signatures that carry the MAC of the payload; and it
    meets the contract the proof service asks of a signer, so that the proofs it
    mints are accepted and the proofs accepted against it carry its MAC. *)

From Stdlib Require Import Ascii.
From S2P Require Import Prelude Text Json Errors Timestamps Canonical Contracts Runtime Samples ProofService SecurityPosture Base64.

(** [hmac.new(key, payload, sha256).digest()] *)
Class Hmac := hmac_sha256 : string -> string -> string.

Definition LOCAL_PROOF_KEY_ID : string := "local-proof-v1".
Definition LOCAL_PROOF_SECRET : string := "actenon-local-proof-secret-v1".
Definition ACTENON_LOCAL_HMAC_SECRET_ENV : string := "ACTENON_LOCAL_HMAC_SECRET".
Definition _PRODUCTION_ENV_VALUES : list string := ["prod"; "production"; "staging"; "release"; "ci"; "non-dev"; "nondev"].

Definition LocalHmacProductionGuardError : exn := OtherError "LocalHmacProductionGuardError".

Definition _production_like_environment (e : environment) : bool :=
  str_mem (normalized_environment e) _PRODUCTION_ENV_VALUES || existsb (fun name => _truthy (getenv e name)) PRODUCTION_FLAG_ENVS.

Definition _resolve_local_hmac_secret (e : environment) (secret : option string) : string :=
  match secret with
  | Some s => s
  | None => match getenv e ACTENON_LOCAL_HMAC_SECRET_ENV with Some s => s | None => LOCAL_PROOF_SECRET end
  end.

Definition _guard_local_hmac_creation (e : environment) : py unit :=
  if _production_like_environment e then Err LocalHmacProductionGuardError else Ok tt.

Definition _guard_public_secret (e : environment) (secret : string) : py unit :=
  if String.eqb secret LOCAL_PROOF_SECRET && negb (development_intent e) then Err LocalHmacProductionGuardError else Ok tt.

Record HmacSha256Signer := mkHmacSigner { hs_secret : string; hs_key_id : string; hs_algorithm : string }.

(** The constructor with its [__post_init__]. *)
Definition HmacSha256Signer_new (e : environment) (secret key_id algorithm : string) : py HmacSha256Signer :=
  _ ← _guard_local_hmac_creation e;
  _ ← _guard_public_secret e secret;
  Ok (mkHmacSigner secret key_id algorithm).

Definition build_local_proof_signer (e : environment) (secret : option string) (key_id : string) : py HmacSha256Signer :=
  HmacSha256Signer_new e (_resolve_local_hmac_secret e secret) key_id "HS256".

Section Signer.
Context `{Hmac} `{Base64Padding}.

Definition hmac_sign (s : HmacSha256Signer) (payload : string) : py SignatureSpec :=
  let digest := hmac_sha256 (hs_secret s) payload in
  Ok (mkSignatureSpec (hs_algorithm s) (hs_key_id s) "base64url" (b64url_encode digest)).

Definition hmac_verify (s : HmacSha256Signer) (payload : string) (signature : SignatureSpec) : py bool :=
  if negb (String.eqb (sig_algorithm signature) (hs_algorithm s)) || negb (String.eqb (sig_key_id signature) (hs_key_id s))
     || negb (String.eqb (sig_encoding signature) "base64url")
  then Ok false
  else
    let expected := hmac_sha256 (hs_secret s) payload in
    match b64url_decode (sig_value signature) with
    | Ok provided => Ok (String.eqb expected provided)
    | Err (TypeError _) | Err (ValueError _) => Ok false
    | Err e => Err e
    end.

(** The local signer in the two roles the proof service has for it. *)
Definition local_signer (s : HmacSha256Signer) : Signer := mkSigner (hs_algorithm s) (hs_key_id s) (hmac_sign s).
Definition local_verifier (s : HmacSha256Signer) : SignatureVerifier := mkSignatureVerifier (hmac_verify s) None.

(** ** Facts *)

(** The signature that carries a MAC. *)
Definition carries_mac (s : HmacSha256Signer) (payload : string) (sig : SignatureSpec) : Prop :=
  sig_algorithm sig = hs_algorithm s /\ sig_key_id sig = hs_key_id s /\ sig_encoding sig = "base64url" /\
  b64url_decode (sig_value sig) = Ok (hmac_sha256 (hs_secret s) payload).

Lemma hmac_verify_spec s payload sig : exists b, hmac_verify s payload sig = Ok b /\ (b = true <-> carries_mac s payload sig).
Proof.
  unfold hmac_verify, carries_mac.
  destruct (String.eqb_spec (sig_algorithm sig) (hs_algorithm s)) as [->|]; [|exists false; naive_solver].
  destruct (String.eqb_spec (sig_key_id sig) (hs_key_id s)) as [->|]; [|exists false; naive_solver].
  destruct (String.eqb_spec (sig_encoding sig) "base64url") as [->|]; [|exists false; naive_solver]. cbn [negb orb].
  destruct (b64url_decode (sig_value sig)) as [provided|e] eqn:Hd.
  - exists (String.eqb (hmac_sha256 (hs_secret s) payload) provided). split; [done|]. rewrite String.eqb_eq. naive_solver.
  - apply b64url_decode_error in Hd as ->. exists false. naive_solver.
Qed.

Lemma sign_carries_mac s payload sig : hmac_sign s payload = Ok sig -> carries_mac s payload sig.
Proof. intros [= <-]. repeat split. apply b64url_decode_encode. Qed.
End Signer.

(** ** Properties *)

(** Building a local signer succeeds exactly outside production-like
    environments and with a secret that is not the published one, unless the
    process declares development intent; the signer has the secret the caller or
    the environment gives, and every refusal is the guard's. *)
Theorem local_signer_guarded (e : environment) (secret : option string) (key_id : string) :
  let resolved := _resolve_local_hmac_secret e secret in
  (build_local_proof_signer e secret key_id = Ok (mkHmacSigner resolved key_id "HS256") <->
     ~ (normalized_environment e ∈ _PRODUCTION_ENV_VALUES) /\
     (forall flag, flag ∈ PRODUCTION_FLAG_ENVS -> _truthy (getenv e flag) = false) /\
     (resolved = LOCAL_PROOF_SECRET -> has_development_intent e)) /\
  (forall s, build_local_proof_signer e secret key_id = Ok s -> s = mkHmacSigner resolved key_id "HS256") /\
  (forall x, build_local_proof_signer e secret key_id = Err x -> x = LocalHmacProductionGuardError).
Proof.
  cbv zeta. set (resolved := _resolve_local_hmac_secret e secret).
  unfold build_local_proof_signer, HmacSha256Signer_new, _guard_local_hmac_creation, _guard_public_secret. fold resolved.
  unfold _production_like_environment. change (existsb _ PRODUCTION_FLAG_ENVS) with (production_flag_set e).
  rewrite <- production_flag_false, <- str_mem_spec, <- development_intent_spec.
  destruct (str_mem (normalized_environment e) _PRODUCTION_ENV_VALUES), (production_flag_set e); simpl; [naive_solver..|].
  destruct (String.eqb_spec resolved LOCAL_PROOF_SECRET), (development_intent e); simpl; naive_solver.
Qed.

(** The local signer keeps the contract of the proof service: it accepts
    exactly the signatures of its algorithm and key that decode to the MAC of the
    payload, everything it signs among them; a proof it minted is accepted by the
    matching verifier, and every proof [verify] accepts against it carries the
    MAC of the bytes the proof is signed over. *)
Theorem local_signer_contract `{Protocol} `{ProtocolAuthority} `{Hmac} `{Base64Padding} (s : HmacSha256Signer) (v : PCCBVerifier) :
  (forall key payload, hmac_sha256 key payload <> "") -> vf_signer v = local_verifier s ->
  (forall payload sig, hmac_verify s payload sig = Ok true <-> carries_mac s payload sig) /\
  signer_matches (local_signer s) v /\
  (canonicalisation_error_is_value_error = true -> forall intent pccb context, verify v intent pccb context = Ok tt ->
     exists payload, canonical_bytes_of (JDict (unsigned_payload pccb)) = Ok payload /\ carries_mac s payload (pc_signature pccb)).
Proof.
  intros Hne Hv. assert (forall payload sig, hmac_verify s payload sig = Ok true <-> carries_mac s payload sig) as Hspec.
  { intros payload sig. destruct (hmac_verify_spec s payload sig) as (b & -> & Hb). rewrite <- Hb. split; congruence. }
  split; [done|]. split.
  - intros payload sig Hs. pose proof (sign_carries_mac s payload sig Hs) as Hc. rewrite Hv. split; [|split].
    + injection Hs as <-. simpl. by apply b64url_encode_nonempty.
    + apply Hc.
    + intros issuer issued_at. simpl. by apply Hspec.
  - intros Hve intent pccb context Hver. apply verify_Ok in Hver; [|done]. destruct (acc_signature _ _ _ _ Hver) as (payload & Hp & Hsig).
    exists payload. split; [done|]. rewrite Hv in Hsig. simpl in Hsig. by apply Hspec.
Qed.

(** ** Samples *)
Definition demo_hmac : Hmac := fun key payload => "mac:" +:+ String.substring 0 16 payload.
Definition demo_padding : Base64Padding := true.
Definition demo_hmac_signer : HmacSha256Signer := mkHmacSigner "secret" "k1" "HS256".
Definition demo_hmac_verifier : PCCBVerifier :=
  mkPCCBVerifier (@local_verifier demo_hmac demo_padding demo_hmac_signer) 0 TRUSTED_DETAILED None (Some "refunds-api") None.

Lemma local_signer_contract_witness :
  @signer_matches (@local_signer demo_hmac demo_hmac_signer) demo_hmac_verifier /\
  is_ok (@mint demo_protocol sample_authority (mkPCCBMinter (@local_signer demo_hmac demo_hmac_signer) sample_issuer None) "pccb_1" "nonce-1"
           sample_intent sample_decision sample_context (JStr "esc_1") []) = true.
Proof.
  split; [|vm_compute; reflexivity].
  apply (@local_signer_contract demo_protocol sample_authority demo_hmac demo_padding demo_hmac_signer demo_hmac_verifier); [|reflexivity].
  intros key payload. discriminate.
Defined.

(** The text of a signature is not unique: padding, the standard alphabet and the
    spare bits of the last group all decode to the same MAC. *)
Lemma signature_text_malleable :
  let padding : Base64Padding := true in
  b64url_decode "-_8" = b64url_decode "-_8=" /\ b64url_decode "-_8" = b64url_decode "+/8" /\ b64url_decode "-_8" = b64url_decode "-_9" /\
  is_ok (b64url_decode "-_8") = true.
Proof. vm_compute. auto. Qed.
