(* ===== verification/KeyLifecycle.v ===== *)
(** * The life cycle of a signing key: [proof/signers/key_lifecycle.py]

    The machine keeps no state: the backend stores the state of a key and asks
    before it changes or uses it.  [lifecycle_step] is the relation a backend that
    asks follows.

    The theorems: which states a key can still reach and which operations it can
    ever be used for again, from every state; revocation is permanent. *)

From S2P Require Import Prelude Text Json Errors Timestamps Canonical Contracts Runtime Samples ProofService Receipts.

Inductive KeyLifecycleState := ACTIVE | RETIRED | SUSPENDED | REVOKED | HARD_REVOKED.
#[global] Instance KeyLifecycleState_eq_dec : EqDecision KeyLifecycleState.
Proof. solve_decision. Defined.

Definition KEY_STATES : list KeyLifecycleState := [ACTIVE; RETIRED; SUSPENDED; REVOKED; HARD_REVOKED].

Definition state_value (s : KeyLifecycleState) : string :=
  match s with
  | ACTIVE => "active" | RETIRED => "retired" | SUSPENDED => "suspended" | REVOKED => "revoked" | HARD_REVOKED => "hard_revoked"
  end.

Definition KeyLifecycleError : exn := OtherError "KeyLifecycleError".

Definition SIGN_ALLOWED_STATES : list KeyLifecycleState := [ACTIVE].
Definition VERIFY_ALLOWED_STATES : list KeyLifecycleState := [ACTIVE; RETIRED; SUSPENDED; REVOKED].

Definition ALLOWED_TRANSITIONS (s : KeyLifecycleState) : list KeyLifecycleState :=
  match s with
  | ACTIVE => [RETIRED; SUSPENDED; REVOKED; HARD_REVOKED]
  | RETIRED => [SUSPENDED; REVOKED; HARD_REVOKED]
  | SUSPENDED => [ACTIVE; RETIRED; REVOKED; HARD_REVOKED]
  | REVOKED => [HARD_REVOKED]
  | HARD_REVOKED => []
  end.

Lemma in_states (s : KeyLifecycleState) (l : list KeyLifecycleState) : s ∈ l -> bool_decide (s ∈ l) = true.
Proof. intros Hin. by apply bool_decide_eq_true_2. Qed.

Section Machine.
Context `{PyText}.

Definition KeyLifecycleState_from_string (value : string) : py KeyLifecycleState :=
  match List.find (fun s => String.eqb (state_value s) (str_lower value)) KEY_STATES with
  | Some s => Ok s
  | None => Err KeyLifecycleError
  end.

(** [x if isinstance(x, KeyLifecycleState) else KeyLifecycleState.from_string(x)]; a
    member is also a string, its value. *)
Definition as_state (s : KeyLifecycleState + string) : py KeyLifecycleState :=
  match s with inl s => Ok s | inr value => KeyLifecycleState_from_string value end.

Definition assert_can_transition (from_state to_state : KeyLifecycleState + string) : py unit :=
  current ← as_state from_state;
  target ← as_state to_state;
  if negb (bool_decide (target ∈ ALLOWED_TRANSITIONS current)) then Err KeyLifecycleError else Ok tt.

(** [except KeyLifecycleError: return False] *)
Definition can_transition (from_state to_state : KeyLifecycleState + string) : py bool :=
  match assert_can_transition from_state to_state with
  | Ok _ => Ok true
  | Err e => if bool_decide (e = KeyLifecycleError) then Ok false else Err e
  end.

Definition assert_can_sign (state : KeyLifecycleState + string) : py unit :=
  current ← as_state state;
  if negb (bool_decide (current ∈ SIGN_ALLOWED_STATES)) then Err KeyLifecycleError else Ok tt.

Definition assert_can_verify (state : KeyLifecycleState + string) : py unit :=
  current ← as_state state;
  if negb (bool_decide (current ∈ VERIFY_ALLOWED_STATES)) then Err KeyLifecycleError else Ok tt.

Definition is_terminal (state : KeyLifecycleState + string) : py bool :=
  current ← as_state state;
  Ok (Nat.eqb (length (ALLOWED_TRANSITIONS current)) 0).

(** A backend that stores a key's state and asks the machine before it changes it. *)
Inductive lifecycle_step : KeyLifecycleState -> KeyLifecycleState -> Prop :=
| step_allowed current target : assert_can_transition (inl current) (inl target) = Ok tt -> lifecycle_step current target.

Lemma step_iff s t : lifecycle_step s t <-> t ∈ ALLOWED_TRANSITIONS s.
Proof.
  split.
  - intros [s' t' Hs]. unfold assert_can_transition in Hs. simpl in Hs. by destruct (bool_decide_reflect (t' ∈ ALLOWED_TRANSITIONS s')).
  - intros Hin. constructor. unfold assert_can_transition. simpl. by rewrite bool_decide_eq_true_2.
Qed.

(** The states a key can still reach. *)
Definition reachable_states (s : KeyLifecycleState) : list KeyLifecycleState :=
  match s with
  | ACTIVE | RETIRED | SUSPENDED => KEY_STATES
  | REVOKED => [REVOKED; HARD_REVOKED]
  | HARD_REVOKED => [HARD_REVOKED]
  end.

Lemma reachable_closed s t u : t ∈ reachable_states s -> u ∈ ALLOWED_TRANSITIONS t -> u ∈ reachable_states s.
Proof. intros Ht%in_states Hu%in_states. apply (bool_decide_unpack _). by destruct s, t, u. Qed.

Lemma step_to s t : bool_decide (t ∈ ALLOWED_TRANSITIONS s) = true -> rtc lifecycle_step s t.
Proof. intros Hb. apply rtc_once, step_iff. by eapply bool_decide_eq_true_1. Qed.

Lemma reachable_exact s t : rtc lifecycle_step s t <-> t ∈ reachable_states s.
Proof.
  split.
  - apply (rtc_ind_r (fun t => t ∈ reachable_states s)).
    + apply (bool_decide_unpack _). by destruct s.
    + intros y z _ Hyz%step_iff Hy. by eapply reachable_closed.
  - intros Hin. destruct (decide (s = t)) as [->|Hne]; [done|].
    destruct (bool_decide (t ∈ ALLOWED_TRANSITIONS s)) eqn:Hb; [by apply step_to|].
    assert (s = RETIRED /\ t = ACTIVE) as [-> ->].
    { apply in_states in Hin. by destruct s, t. }
    etrans; [apply (step_to RETIRED SUSPENDED)|apply (step_to SUSPENDED ACTIVE)]; reflexivity.
Qed.
End Machine.

(** What a key can still be used for, along every sequence of transitions the
    machine allows.  A revoked key never signs again and a hard-revoked one never
    verifies again; a key can come back to signing from the other three states,
    the retired one included; the machine calls a state terminal exactly when
    nothing else is reachable. *)
Theorem key_lifecycle_exact `{PyText} (s : KeyLifecycleState) :
  ((exists t, rtc lifecycle_step s t /\ assert_can_sign (inl t) = Ok tt) <-> s ∈ [ACTIVE; RETIRED; SUSPENDED]) /\
  ((exists t, rtc lifecycle_step s t /\ assert_can_verify (inl t) = Ok tt) <-> s <> HARD_REVOKED) /\
  (assert_can_sign (inl s) = Ok tt -> assert_can_verify (inl s) = Ok tt) /\
  (forall t, rtc lifecycle_step s t -> assert_can_verify (inl s) = Err KeyLifecycleError -> assert_can_verify (inl t) = Err KeyLifecycleError) /\
  (is_terminal (inl s) = Ok true <-> forall t, rtc lifecycle_step s t -> t = s).
Proof.
  setoid_rewrite reachable_exact. split_and!.
  - split; [|intros Hin; exists ACTIVE; split; [|done]].
    + intros (t & Hr%in_states & Ht). apply (bool_decide_unpack _). by destruct s, t.
    + apply in_states in Hin. apply (bool_decide_unpack _). by destruct s.
  - split; [|intros Hne; exists s; split; [|by destruct s]].
    + intros (t & Hr%in_states & Ht) ->. by destruct t.
    + apply (bool_decide_unpack _). by destruct s.
  - by destruct s.
  - intros t Hr%in_states. by destruct s, t.
  - split.
    + intros Hterm t Hr. destruct s; try done. by apply list_elem_of_singleton in Hr.
    + intros Hall. assert (HARD_REVOKED ∈ reachable_states s) as Hin by (apply (bool_decide_unpack _); by destruct s).
      by rewrite <- (Hall _ Hin).
Qed.

(** The transition the module's notes rule out is still possible in two steps. *)
Lemma retired_key_reactivated `{PyText} :
  can_transition (inl RETIRED) (inl ACTIVE) = Ok false /\ rtc lifecycle_step RETIRED ACTIVE.
Proof. split; [done|]. apply reachable_exact. by apply (bool_decide_unpack _). Qed.
