(* ===== verification/ManagedSigners.v ===== *)
(** * Managed signers: [proof/signers/kms.py], [hsm.py], [external_managed.py] and
    [aws_kms.py]

    The signing services are parameters: a backend acts on a state [K] of its own
    (the service can change between two calls) and may raise.  The KMS and HSM
    signers differ in the key handle only, so their bodies are shared
    ([remote_sign], [remote_verify]); the external-managed signer adds the checks
    of purpose and status and of the result; the AWS backend is one of its
    backends, over a client with three calls.

    The theorems: which signing backends an environment admits; a managed signer
    returns only signatures of the backend, over this payload, with an active key
    of the required purpose, and accepts exactly what its backend accepts; with the
    AWS backend the key was reported enabled in both readings, and nothing else
    reaches the service's signing operation. *)

From Stdlib Require Import Ascii.
From S2P Require Import Prelude Text Json Errors Timestamps Canonical Base64 Contracts Runtime Samples ProofService Receipts SecurityPosture KeyLifecycle LocalSigner.

(** ** The bodies the signers share *)
Section Remote.
Context `{Base64Padding} {K : Type}.

Definition remote_sign (algorithm key_id : string) (sign : M exn K string) : M exn K SignatureSpec :=
  raw_signature ← sign;
  mret (mkSignatureSpec algorithm key_id "base64url" (b64url_encode raw_signature)).

Definition remote_verify (algorithm key_id : string) (check : string -> M exn K bool) (signature : SignatureSpec) : M exn K bool :=
  if negb (String.eqb (sig_algorithm signature) algorithm) || negb (String.eqb (sig_key_id signature) key_id) ||
     negb (String.eqb (sig_encoding signature) "base64url")
  then mret false
  else
    match b64url_decode (sig_value signature) with
    | Ok raw_signature => check raw_signature
    | Err (TypeError _) | Err (ValueError _) => mret false
    | Err e => raise e
    end.

(** ** KMS and HSM *)
Record KmsKeyHandle := mkKmsKey { kk_key_uri : string; kk_key_id : string; kk_algorithm : string; kk_provider : string; kk_key_version : option string }.
Record KmsSigningBackend := mkKmsBackend {
  kb_sign : KmsKeyHandle -> string -> M exn K string;
  kb_verify : KmsKeyHandle -> string -> string -> M exn K bool
}.
Record KmsSigner := mkKmsSigner { ks_backend : KmsSigningBackend; ks_key : KmsKeyHandle }.

Definition KmsSigner_sign (s : KmsSigner) (payload : string) : M exn K SignatureSpec :=
  remote_sign (kk_algorithm (ks_key s)) (kk_key_id (ks_key s)) (kb_sign (ks_backend s) (ks_key s) payload).
Definition KmsSigner_verify (s : KmsSigner) (payload : string) (signature : SignatureSpec) : M exn K bool :=
  remote_verify (kk_algorithm (ks_key s)) (kk_key_id (ks_key s)) (kb_verify (ks_backend s) (ks_key s) payload) signature.

Record HsmKeyHandle := mkHsmKey { hk_module : string; hk_key_label : string; hk_key_id : string; hk_algorithm : string; hk_slot : option string }.
Record HsmSigningBackend := mkHsmBackend {
  hb_sign : HsmKeyHandle -> string -> M exn K string;
  hb_verify : HsmKeyHandle -> string -> string -> M exn K bool
}.
Record HsmSigner := mkHsmSigner { hm_backend : HsmSigningBackend; hm_key : HsmKeyHandle }.

Definition HsmSigner_sign (s : HsmSigner) (payload : string) : M exn K SignatureSpec :=
  remote_sign (hk_algorithm (hm_key s)) (hk_key_id (hm_key s)) (hb_sign (hm_backend s) (hm_key s) payload).
Definition HsmSigner_verify (s : HsmSigner) (payload : string) (signature : SignatureSpec) : M exn K bool :=
  remote_verify (hk_algorithm (hm_key s)) (hk_key_id (hm_key s)) (hb_verify (hm_backend s) (hm_key s) payload) signature.
End Remote.
Arguments KmsSigningBackend : clear implicits.
Arguments KmsSigner : clear implicits.
Arguments HsmSigningBackend : clear implicits.
Arguments HsmSigner : clear implicits.

(** ** [external_managed.py] *)
Definition EXTERNAL_MANAGED_BACKEND : string := "external_managed".
Definition DEVELOPMENT_LOCAL_HMAC_BACKEND : string := "development_local_hmac".
Definition PILOT_LOCAL_EDDSA_BACKEND : string := "pilot_local_eddsa".
Definition ACTENON_ALLOW_PILOT_EDDSA_IN_PRODUCTION_ENV : string := "ACTENON_ALLOW_PILOT_LOCAL_EDDSA_IN_PRODUCTION".
Definition PROOF_ISSUANCE_PURPOSE : string := "proof_issuance".
Definition OUTCOME_ATTESTATION_PURPOSE : string := "outcome_attestation".
Definition ALLOWED_KEY_PURPOSES : list string := [PROOF_ISSUANCE_PURPOSE; OUTCOME_ATTESTATION_PURPOSE].
Definition ACTIVE_KEY_STATUS : string := "active".
Definition BLOCKED_KEY_STATUSES : list string := ["suspended"; "revoked"; "hard_revoked"; "disabled"; "deleted"; "unknown"].
Definition PRODUCTION_ENV_VALUES : list string := ["prod"; "production"; "staging"; "release"; "ci"; "non-dev"; "nondev"].

Definition ProductionSigningGuardError : exn := OtherError "ProductionSigningGuardError".
Definition ExternalManagedSigningError : exn := OtherError "ExternalManagedSigningError".

Definition is_production_like_environment (e : environment) : bool :=
  str_mem (normalized_environment e) PRODUCTION_ENV_VALUES || production_flag_set e.

Definition _pilot_eddsa_override_enabled (e : environment) : bool := _truthy (getenv e ACTENON_ALLOW_PILOT_EDDSA_IN_PRODUCTION_ENV).

(** [e] is the given environment or the process's. *)
Definition validate_signing_backend_for_environment `{PyText} (backend : string) (e : environment) (production : option bool) : py unit :=
  let backend_value := str_lower (py_strip backend) in
  let production_mode := default (is_production_like_environment e) production in
  if negb production_mode then Ok tt
  else if String.eqb backend_value EXTERNAL_MANAGED_BACKEND then Ok tt
  else if String.eqb backend_value DEVELOPMENT_LOCAL_HMAC_BACKEND then Err ProductionSigningGuardError
  else if String.eqb backend_value PILOT_LOCAL_EDDSA_BACKEND && negb (_pilot_eddsa_override_enabled e) then Err ProductionSigningGuardError
  else if negb (String.eqb backend_value PILOT_LOCAL_EDDSA_BACKEND) then Err ProductionSigningGuardError
  else Ok tt.

Record ManagedKeyReference := mkManagedKey {
  mk_provider : string; mk_provider_key_ref : string; mk_key_id : string; mk_algorithm : string; mk_purpose : string;
  mk_tenant_id : option string; mk_public_key_ref : option string; mk_key_version : option string; mk_status : string
}.

Record ManagedSigningAuditMetadata := mkAuditMetadata {
  am_operation_id : string; am_purpose : string; am_tenant_id : option string; am_request_id : option string; am_correlation_id : option string;
  am_actor_id : option string; am_payload_digest : option string; am_extra : list (string * string)
}.

Definition opt_entry (k : string) (v : option string) : dict := match v with Some s => [(k, JStr s)] | None => [] end.

Definition ManagedSigningAuditMetadata_to_dict (a : ManagedSigningAuditMetadata) : dict :=
  [("operation_id", JStr (am_operation_id a)); ("purpose", JStr (am_purpose a))] ++
  opt_entry "tenant_id" (am_tenant_id a) ++ opt_entry "request_id" (am_request_id a) ++ opt_entry "correlation_id" (am_correlation_id a) ++
  opt_entry "actor_id" (am_actor_id a) ++ opt_entry "payload_digest" (am_payload_digest a) ++
  match am_extra a with [] => [] | extra => [("extra", JDict (map (fun kv => (kv.1, JStr kv.2)) extra))] end.

Record ManagedSigningResult := mkSigningResult {
  sr_algorithm : string; sr_key_id : string; sr_signature : string; sr_public_key_ref : string; sr_provider_operation_id : option string
}.

Definition to_signature_spec (r : ManagedSigningResult) : SignatureSpec :=
  mkSignatureSpec (sr_algorithm r) (sr_key_id r) "base64url" (b64url_encode (sr_signature r)).

Section External.
Context `{PyText} `{Base64Padding} {K : Type}.

Record ExternalManagedSigningBackend := mkManagedBackend {
  eb_get_key_status : ManagedKeyReference -> M exn K string;
  eb_sign_canonical_bytes : ManagedKeyReference -> string -> dict -> M exn K ManagedSigningResult;
  eb_verify_canonical_bytes : ManagedKeyReference -> string -> string -> M exn K bool
}.

Record ExternalManagedSigner := mkManagedSigner {
  es_backend : ExternalManagedSigningBackend; es_key : ManagedKeyReference; es_required_purpose : string;
  es_audit_metadata : option ManagedSigningAuditMetadata
}.

Definition refuse_signing (cond : bool) : M exn K unit := if cond then raise ExternalManagedSigningError else mret tt.

Definition _ensure_key_can_sign (s : ExternalManagedSigner) : M exn K unit :=
  let key := es_key s in
  _ ← refuse_signing (negb (str_mem (mk_purpose key) ALLOWED_KEY_PURPOSES));
  _ ← refuse_signing (negb (String.eqb (mk_purpose key) (es_required_purpose s)));
  let local_status := str_lower (py_strip (mk_status key)) in
  reported ← eb_get_key_status (es_backend s) key;
  let provider_status := str_lower (py_strip reported) in
  _ ← refuse_signing (negb (String.eqb local_status ACTIVE_KEY_STATUS));
  _ ← refuse_signing (negb (String.eqb provider_status ACTIVE_KEY_STATUS));
  refuse_signing (str_mem local_status BLOCKED_KEY_STATUSES || str_mem provider_status BLOCKED_KEY_STATUSES).

Definition audit_of (s : ExternalManagedSigner) : ManagedSigningAuditMetadata :=
  default (mkAuditMetadata "external-managed-signing-operation" (es_required_purpose s) (mk_tenant_id (es_key s)) None None None None [])
    (es_audit_metadata s).

Definition sign_managed (s : ExternalManagedSigner) (payload : string) : M exn K ManagedSigningResult :=
  _ ← _ensure_key_can_sign s;
  result ← eb_sign_canonical_bytes (es_backend s) (es_key s) payload (ManagedSigningAuditMetadata_to_dict (audit_of s));
  _ ← refuse_signing (negb (String.eqb (sr_algorithm result) (mk_algorithm (es_key s))) || negb (String.eqb (sr_key_id result) (mk_key_id (es_key s))));
  _ ← refuse_signing (negb (str_truthy (sr_signature result)));
  _ ← refuse_signing (negb (str_truthy (sr_public_key_ref result)));
  mret result.

Definition ExternalManagedSigner_sign (s : ExternalManagedSigner) (payload : string) : M exn K SignatureSpec :=
  result ← sign_managed s payload; mret (to_signature_spec result).

Definition ExternalManagedSigner_verify (s : ExternalManagedSigner) (payload : string) (signature : SignatureSpec) : M exn K bool :=
  remote_verify (mk_algorithm (es_key s)) (mk_key_id (es_key s)) (eb_verify_canonical_bytes (es_backend s) (es_key s) payload) signature.
End External.
Arguments ExternalManagedSigningBackend : clear implicits.
Arguments ExternalManagedSigner : clear implicits.

(** ** [aws_kms.py] *)
Definition AWS_KMS_ALGORITHMS : list string := ["RS256"; "RS384"; "RS512"; "PS256"; "PS384"; "PS512"; "ES256"; "ES384"; "ES512"; "EdDSA"].

Definition AWS_KMS_KEY_STATE_MAP : list (string * KeyLifecycleState) :=
  [("Enabled", ACTIVE); ("Disabled", SUSPENDED); ("PendingDeletion", REVOKED); ("PendingImport", SUSPENDED); ("Unavailable", REVOKED);
   ("Updating", SUSPENDED)].

Definition restrictiveness (s : KeyLifecycleState) : nat :=
  match s with ACTIVE => 0 | RETIRED => 1 | SUSPENDED => 2 | REVOKED => 3 | HARD_REVOKED => 4 end.

(** [response[k]] of a client's response *)
Definition response_item (response : json) (k : string) : py json :=
  match response with JDict d => getitem d k | _ => Err (TypeError "object is not subscriptable") end.

Section Aws.
Context `{Protocol} `{PyText} {K : Type}.

(** The client: the response to [describe_key], the ["Signature"] of the response to
    [sign] (when it has one) and the response to [verify]. *)
Record KmsClient := mkKmsClient {
  kc_describe_key : string -> M exn K json;
  kc_sign : string -> string -> string -> M exn K (option string);
  kc_verify : string -> string -> string -> string -> M exn K dict
}.
Context (client : KmsClient).

(** [except Exception as e: raise ExternalManagedSigningError(...)] *)
Definition failing_closed {A} (m : M exn K A) : M exn K A := try_catch m (fun _ => raise ExternalManagedSigningError).

Definition described_state (key_ref : string) : M exn K json :=
  failing_closed (response ← kc_describe_key client key_ref;
                  metadata ← lift (response_item response "KeyMetadata");
                  lift (response_item metadata "KeyState")).

Definition lifecycle_of (aws_state : json) : py KeyLifecycleState :=
  match aws_state with
  | JStr s => match assoc s AWS_KMS_KEY_STATE_MAP with Some state => Ok state | None => Err ExternalManagedSigningError end
  | JList _ | JDict _ => Err (TypeError "unhashable type")
  | _ => Err ExternalManagedSigningError
  end.

Definition more_restrictive (kms_state operator_state : KeyLifecycleState) : KeyLifecycleState :=
  if (restrictiveness operator_state <? restrictiveness kms_state)%nat then kms_state else operator_state.

Definition aws_get_key_status (key : ManagedKeyReference) : M exn K string :=
  operator_state ← lift (KeyLifecycleState_from_string (mk_status key));
  if bool_decide (operator_state = HARD_REVOKED) then mret (state_value operator_state)
  else
    aws_state ← described_state (mk_provider_key_ref key);
    kms_state ← lift (lifecycle_of aws_state);
    mret (state_value (more_restrictive kms_state operator_state)).

Definition on_lifecycle_error {A} (m : py A) (h : M exn K A) : M exn K A :=
  match m with Ok a => mret a | Err e => if bool_decide (e = KeyLifecycleError) then h else raise e end.

Definition public_ref_of (key : ManagedKeyReference) : string :=
  match mk_public_key_ref key with
  | Some r => if str_truthy r then r else "aws-kms://" +:+ mk_provider_key_ref key
  | None => "aws-kms://" +:+ mk_provider_key_ref key
  end.

Definition aws_sign_canonical_bytes (key : ManagedKeyReference) (payload : string) (audit_metadata : dict) : M exn K ManagedSigningResult :=
  status ← aws_get_key_status key;
  _ ← on_lifecycle_error (assert_can_sign (inr status)) (raise ExternalManagedSigningError);
  _ ← refuse_signing (negb (str_mem (mk_algorithm key) AWS_KMS_ALGORITHMS));
  response ← failing_closed (kc_sign client (mk_provider_key_ref key) payload (mk_algorithm key));
  signature ← lift (match response with Some s => Ok s | None => Err (KeyError "Signature") end);
  mret (mkSigningResult (mk_algorithm key) (mk_key_id key) signature (public_ref_of key)
          (Some ("aws-kms-sign-" +:+ py_prefix 16 (sha256_hexdigest signature)))).

Definition aws_verify_canonical_bytes (key : ManagedKeyReference) (payload signature : string) : M exn K bool :=
  status ← aws_get_key_status key;
  can_verify ← on_lifecycle_error (_ ← assert_can_verify (inr status); Ok true) (mret false);
  if negb can_verify then mret false
  else if negb (str_mem (mk_algorithm key) AWS_KMS_ALGORITHMS) then mret false
  else
    try_catch (response ← kc_verify client (mk_provider_key_ref key) payload signature (mk_algorithm key);
               mret (py_truthy (dget_default response "SignatureValid" (JBool false))))
      (fun _ => mret false).

Definition AwsKmsSigningBackend : ExternalManagedSigningBackend K :=
  mkManagedBackend aws_get_key_status aws_sign_canonical_bytes aws_verify_canonical_bytes.
End Aws.
Arguments KmsClient : clear implicits.

(** ** Facts *)
Section Facts.
Context `{PyText} `{Base64Padding} {K : Type}.

(** The bytes a signature of this key carries. *)
Definition carries (algorithm key_id : string) (signature : SignatureSpec) (raw : string) : Prop :=
  sig_algorithm signature = algorithm /\ sig_key_id signature = key_id /\ sig_encoding signature = "base64url" /\
  b64url_decode (sig_value signature) = Ok raw.

Lemma remote_sign_Ok algorithm key_id (sign : M exn K string) k sig k' :
  remote_sign algorithm key_id sign k = (Ok sig, k') <->
  exists raw, sign k = (Ok raw, k') /\ sig = mkSignatureSpec algorithm key_id "base64url" (b64url_encode raw).
Proof.
  unfold remote_sign. split.
  - intros (raw & k1 & Hs & [= <- <-])%M_bind_Ok. eauto.
  - intros (raw & Hs & ->). apply M_bind_Ok. eauto.
Qed.

Lemma carries_encoded algorithm key_id raw : carries algorithm key_id (mkSignatureSpec algorithm key_id "base64url" (b64url_encode raw)) raw.
Proof. repeat split. apply b64url_decode_encode. Qed.

(** A signature is judged by the backend on the bytes it carries, and not at all when
    it carries none of this key. *)
Lemma remote_verify_spec algorithm key_id (check : string -> M exn K bool) sig k :
  (exists raw, carries algorithm key_id sig raw /\ remote_verify algorithm key_id check sig k = check raw k) \/
  ((forall raw, ~ (carries algorithm key_id sig raw)) /\ remote_verify algorithm key_id check sig k = (Ok false, k)).
Proof.
  unfold remote_verify, carries.
  destruct (String.eqb_spec (sig_algorithm sig) algorithm) as [->|]; [|right; split; [naive_solver|done]].
  destruct (String.eqb_spec (sig_key_id sig) key_id) as [->|]; [|right; split; [naive_solver|done]].
  destruct (String.eqb_spec (sig_encoding sig) "base64url") as [->|]; [|right; split; [naive_solver|done]]. cbn [negb orb].
  destruct (b64url_decode (sig_value sig)) as [raw|e] eqn:Hd; [left; eauto 10|].
  apply b64url_decode_error in Hd as ->. right. split; [naive_solver|done].
Qed.

Lemma refuse_signing_Ok b (k : K) u k' : refuse_signing b k = (Ok u, k') <-> b = false /\ k' = k.
Proof. destruct u, b; (split; [intros [= <-]; done|intros [? ->]; done]). Qed.

Lemma refuse_then {A} b (m : M exn K A) k : (refuse_signing b ≫= fun _ => m) k = if b then (Err ExternalManagedSigningError, k) else m k.
Proof. by destruct b. Qed.

(** The checks before a managed signature: what they establish, and that they only
    ask for the status. *)
Lemma ensure_Ok (s : ExternalManagedSigner K) k u k' :
  _ensure_key_can_sign s k = (Ok u, k') ->
  mk_purpose (es_key s) ∈ ALLOWED_KEY_PURPOSES /\ mk_purpose (es_key s) = es_required_purpose s /\
  str_lower (py_strip (mk_status (es_key s))) = ACTIVE_KEY_STATUS /\
  exists reported, eb_get_key_status (es_backend s) (es_key s) k = (Ok reported, k') /\ str_lower (py_strip reported) = ACTIVE_KEY_STATUS.
Proof.
  unfold _ensure_key_can_sign. cbv zeta. intros Hs. M_inv. rewrite refuse_signing_Ok in *. destruct_and!. subst.
  rewrite !negb_false_iff, ?String.eqb_eq, str_mem_spec in *. eauto 10.
Qed.

Lemma ensure_state (s : ExternalManagedSigner K) k :
  (_ensure_key_can_sign s k).2 = k \/ (_ensure_key_can_sign s k).2 = (eb_get_key_status (es_backend s) (es_key s) k).2.
Proof.
  unfold _ensure_key_can_sign. rewrite !refuse_then. destruct (negb _); [by left|]. destruct (negb _); [by left|].
  right. rewrite M_bind_run. destruct (eb_get_key_status (es_backend s) (es_key s) k) as [[r|e] k1]; [|done].
  rewrite !refuse_then. destruct (negb _); [done|]. destruct (negb _); [done|]. by destruct (_ || _).
Qed.
End Facts.

(** ** Properties *)

(** An environment admits a signing backend exactly when it is not a
    production one, or the backend is the external-managed one, or it is the pilot
    one under its named override; every other choice is refused with the guard's
    error. *)
Theorem signing_backend_exact `{PyText} (backend : string) (e : environment) (production : option bool) :
  let admitted := default (is_production_like_environment e) production = false \/
    str_lower (py_strip backend) = EXTERNAL_MANAGED_BACKEND \/
    (str_lower (py_strip backend) = PILOT_LOCAL_EDDSA_BACKEND /\ _truthy (getenv e ACTENON_ALLOW_PILOT_EDDSA_IN_PRODUCTION_ENV) = true) in
  (validate_signing_backend_for_environment backend e production = Ok tt <-> admitted) /\
  (validate_signing_backend_for_environment backend e production = Err ProductionSigningGuardError <-> ~ admitted).
Proof.
  cbv zeta. unfold validate_signing_backend_for_environment, _pilot_eddsa_override_enabled.
  destruct (default _ _); cbn [negb]; [|split; split; (done || (intros; by left) || (intros Hn; destruct Hn; by left))].
  destruct (String.eqb_spec (str_lower (py_strip backend)) EXTERNAL_MANAGED_BACKEND) as [He|He];
    [split; split; (done || (intros; by right; left) || (intros Hn; destruct Hn; by right; left))|].
  destruct (String.eqb_spec (str_lower (py_strip backend)) DEVELOPMENT_LOCAL_HMAC_BACKEND) as [Hd|Hd].
  { rewrite Hd in *. split; split; (done || intros [?|[?|[? _]]] || intros _ [?|[?|[? _]]]); done. }
  destruct (String.eqb_spec (str_lower (py_strip backend)) PILOT_LOCAL_EDDSA_BACKEND) as [Hp|Hp], (_truthy _); cbn;
    split; split; (done || (intros; by right; right) || (intros [?|[?|[? ?]]]; done) || (intros _ [?|[?|[? ?]]]; done) ||
                   (intros Hn; destruct Hn; by right; right)).
Qed.

(** What allows a managed signature: the key's purpose and local status, and the
    status the backend reports in state [k], which leaves it in [k1]. *)
Definition can_sign `{PyText} {K : Type} (s : ExternalManagedSigner K) (k k1 : K) : Prop :=
  mk_purpose (es_key s) ∈ ALLOWED_KEY_PURPOSES /\ mk_purpose (es_key s) = es_required_purpose s /\
  str_lower (py_strip (mk_status (es_key s))) = ACTIVE_KEY_STATUS /\
  exists reported, eb_get_key_status (es_backend s) (es_key s) k = (Ok reported, k1) /\ str_lower (py_strip reported) = ACTIVE_KEY_STATUS.

Section SigningFacts.
Context `{PyText} `{Base64Padding} {K : Type}.

(** Either the signer fails before the backend is asked to sign, or it may sign and
    its answer is the backend's. *)
Lemma managed_sign_paths (s : ExternalManagedSigner K) payload k :
  let k1 := (eb_get_key_status (es_backend s) (es_key s) k).2 in
  let asked := eb_sign_canonical_bytes (es_backend s) (es_key s) payload (ManagedSigningAuditMetadata_to_dict (audit_of s)) k1 in
  let r := ExternalManagedSigner_sign s payload k in
  (is_ok r.1 = false /\ (r.2 = k \/ r.2 = k1)) \/
  (can_sign s k k1 /\ r.2 = asked.2 /\
   forall sig, r.1 = Ok sig -> exists result, asked.1 = Ok result /\ sr_signature result <> "" /\
     carries (mk_algorithm (es_key s)) (mk_key_id (es_key s)) sig (sr_signature result)).
Proof.
  cbv zeta. unfold ExternalManagedSigner_sign, sign_managed. rewrite !M_bind_run. pose proof (ensure_state s k) as Hst.
  destruct (_ensure_key_can_sign s k) as [[[]|e] k1] eqn:He; cbn in Hst; [|left; by destruct Hst as [->| ->]; auto].
  apply ensure_Ok in He. right. assert (k1 = (eb_get_key_status (es_backend s) (es_key s) k).2) as ->.
  { destruct He as (_ & _ & _ & reported & -> & _). done. }
  split; [done|]. generalize (eb_get_key_status (es_backend s) (es_key s) k).2 as k1. intros k1. rewrite M_bind_run.
  destruct (eb_sign_canonical_bytes _ _ _ _ k1) as [[r|e] k2]; [|done]. rewrite !refuse_then.
  destruct (_ || _) eqn:Hm; [done|]. apply orb_false_iff in Hm as [Ha%negb_false_iff%String.eqb_eq Hk%negb_false_iff%String.eqb_eq].
  destruct (str_truthy (sr_signature r)) eqn:Hsig; [|done]. destruct (str_truthy (sr_public_key_ref r)); [|done].
  split; [done|]. intros sig [= <-]. exists r. split; [done|]. split; [intros Hn; by rewrite Hn in Hsig|].
  unfold to_signature_spec. rewrite Ha, Hk. apply carries_encoded.
Qed.
End SigningFacts.

(** A managed signer signs only when it may, and judges only what it can: a
    signature it returns carries bytes the backend returned for this payload, not
    empty, under this algorithm and key, after the key's purpose was the required
    one and both the local and the reported status were active; otherwise the
    backend is never asked to sign.  A signature is accepted exactly when the
    backend accepts the bytes it carries under this key, in particular every
    signature of the signer that the backend accepts. *)
Theorem managed_signer_sound `{PyText} `{Base64Padding} {K : Type} (s : ExternalManagedSigner K) (payload : string) (k : K) :
  let k1 := (eb_get_key_status (es_backend s) (es_key s) k).2 in
  let asked := eb_sign_canonical_bytes (es_backend s) (es_key s) payload (ManagedSigningAuditMetadata_to_dict (audit_of s)) k1 in
  let bears := carries (mk_algorithm (es_key s)) (mk_key_id (es_key s)) in
  let r := ExternalManagedSigner_sign s payload k in
  ((is_ok r.1 = false /\ (r.2 = k \/ r.2 = k1)) \/
   (can_sign s k k1 /\ r.2 = asked.2 /\
    forall sig, r.1 = Ok sig -> exists result, asked.1 = Ok result /\ sr_signature result <> "" /\ bears sig (sr_signature result))) /\
  (forall sig, (forall raw, bears sig raw ->
                  ExternalManagedSigner_verify s payload sig k = eb_verify_canonical_bytes (es_backend s) (es_key s) payload raw k) /\
               ((forall raw, ~ (bears sig raw)) -> ExternalManagedSigner_verify s payload sig k = (Ok false, k))).
Proof.
  cbv zeta. split; [apply managed_sign_paths|]. intros sig. unfold ExternalManagedSigner_verify.
  destruct (remote_verify_spec (mk_algorithm (es_key s)) (mk_key_id (es_key s)) (eb_verify_canonical_bytes (es_backend s) (es_key s) payload) sig k)
    as [(raw' & Hc & ->)|[Hn ->]]; (split; [intros raw Hraw|intros Hno]); [|by destruct (Hno raw')|by destruct (Hn raw)|done].
  destruct Hraw as (_ & _ & _ & Hd), Hc as (_ & _ & _ & Hd'). congruence.
Qed.

(** ** The AWS backend *)

(** [str.lower] leaves the five words of the life cycle as they are. *)
Definition lowers_words `{PyText} : Prop := forall s, str_lower (state_value s) = state_value s.

(** The service says the key is enabled, in state [k], and is left in [k1]. *)
Definition reads_enabled {K : Type} (client : KmsClient K) (key_ref : string) (k k1 : K) : Prop :=
  exists response metadata, kc_describe_key client key_ref k = (Ok response, k1) /\
    response_item response "KeyMetadata" = Ok metadata /\ response_item metadata "KeyState" = Ok (JStr "Enabled").

Section AwsFacts.
Context `{Protocol} `{PyText} `{Base64Padding} {K : Type} (client : KmsClient K).
Hypothesis lowers : lowers_words.

Lemma state_value_inj s t : state_value s = state_value t -> s = t.
Proof. by destruct s, t. Qed.

Lemma from_string_value v s : KeyLifecycleState_from_string v = Ok s -> state_value s = str_lower v.
Proof.
  unfold KeyLifecycleState_from_string. destruct (List.find _ _) as [t|] eqn:Hf; [|done]. intros [= <-].
  by apply List.find_some in Hf as [_ Hf%String.eqb_eq].
Qed.

Lemma more_restrictive_active a b : more_restrictive a b = ACTIVE -> a = ACTIVE /\ b = ACTIVE.
Proof. by destruct a, b. Qed.

Lemma lifecycle_of_active j : lifecycle_of j = Ok ACTIVE -> j = JStr "Enabled".
Proof.
  destruct j as [| | | |s| |]; try done. cbn. destruct (String.eqb_spec s "Enabled") as [->|]; [done|]. intros Hl. repeat case_match; simplify_eq; done.
Qed.

Lemma described_Ok key_ref k j k1 : described_state client key_ref k = (Ok j, k1) ->
  exists response metadata, kc_describe_key client key_ref k = (Ok response, k1) /\
    response_item response "KeyMetadata" = Ok metadata /\ response_item metadata "KeyState" = Ok j.
Proof. unfold described_state, failing_closed. intros [Hd|(e & k2 & _ & Hd)]%try_catch_Ok; [|done]. M_inv. eauto. Qed.

Lemma described_state_state key_ref k : (described_state client key_ref k).2 = (kc_describe_key client key_ref k).2.
Proof.
  cbv [described_state failing_closed try_catch mbind M_bind lift]. destruct (kc_describe_key client key_ref k) as [[r|e] k1]; [|done].
  destruct (response_item r _) as [m|]; [|done]. by destruct (response_item m _).
Qed.

(** The status is one of the five words; it is "active" only for an enabled key the
    operator keeps active. *)
Lemma aws_status_Ok key k v k1 : aws_get_key_status client key k = (Ok v, k1) ->
  exists s, v = state_value s /\
    (s = ACTIVE -> KeyLifecycleState_from_string (mk_status key) = Ok ACTIVE /\ reads_enabled client (mk_provider_key_ref key) k k1).
Proof.
  unfold aws_get_key_status. intros (op & k2 & [= Hop <-] & Hs)%M_bind_Ok. case_bool_decide as Hh.
  - injection Hs as <- <-. exists op. split; [done|]. intros ->. done.
  - apply M_bind_Ok in Hs as (j & k2 & Hd & Hs). apply M_bind_Ok in Hs as (st & k3 & [= Hl <-] & [= <- <-]).
    eexists. split; [done|]. intros [-> ->]%more_restrictive_active. split; [done|]. apply lifecycle_of_active in Hl as ->.
    by apply described_Ok in Hd.
Qed.

Lemma aws_status_state key k : (aws_get_key_status client key k).2 = k \/ (aws_get_key_status client key k).2 = (kc_describe_key client (mk_provider_key_ref key) k).2.
Proof.
  unfold aws_get_key_status. rewrite M_bind_run. destruct (KeyLifecycleState_from_string _) as [op|]; [|by left]. cbn [lift].
  case_bool_decide; [by left|]. right. rewrite M_bind_run, <- described_state_state. destruct (described_state _ _ k) as [[j|e] k1]; [|done].
  rewrite M_bind_run. unfold lift. by destruct (lifecycle_of j).
Qed.

Lemma strip_state_value s : py_strip (state_value s) = state_value s.
Proof. by destruct s. Qed.

Lemma assert_can_sign_active s : assert_can_sign (inr (state_value s)) = Ok tt -> s = ACTIVE.
Proof.
  unfold assert_can_sign, as_state. intros (st & Hst%from_string_value & Hd)%bind_Ok. rewrite lowers in Hst. apply state_value_inj in Hst as ->.
  by destruct s.
Qed.

(** What the AWS backend needs to sign, from the state it is asked in. *)
Definition aws_cleared (key : ManagedKeyReference) (k k1 : K) : Prop :=
  KeyLifecycleState_from_string (mk_status key) = Ok ACTIVE /\ mk_algorithm key ∈ AWS_KMS_ALGORITHMS /\
  reads_enabled client (mk_provider_key_ref key) k k1.

Lemma aws_sign_paths key payload audit k :
  let k1 := (kc_describe_key client (mk_provider_key_ref key) k).2 in
  let r := aws_sign_canonical_bytes client key payload audit k in
  (is_ok r.1 = false /\ (r.2 = k \/ r.2 = k1)) \/
  (aws_cleared key k k1 /\ r.2 = (kc_sign client (mk_provider_key_ref key) payload (mk_algorithm key) k1).2 /\
   forall result, r.1 = Ok result -> (kc_sign client (mk_provider_key_ref key) payload (mk_algorithm key) k1).1 = Ok (Some (sr_signature result))).
Proof.
  cbv zeta. unfold aws_sign_canonical_bytes. rewrite M_bind_run. pose proof (aws_status_state key k) as Hst.
  destruct (aws_get_key_status client key k) as [[v|e] k1] eqn:Hg; cbn in Hst; [|left; split; [done|tauto]].
  apply aws_status_Ok in Hg as (s & -> & Hact). rewrite M_bind_run. unfold on_lifecycle_error.
  destruct (assert_can_sign (inr (state_value s))) as [[]|e] eqn:Hc; [|left; case_bool_decide; (split; [done|tauto])].
  apply assert_can_sign_active in Hc. destruct (Hact Hc) as [Hop Hread]. cbn [mret M_ret]. rewrite refuse_then.
  destruct (str_mem (mk_algorithm key) AWS_KMS_ALGORITHMS) eqn:Halg; [|left; split; [done|tauto]]. apply str_mem_spec in Halg. right.
  assert (k1 = (kc_describe_key client (mk_provider_key_ref key) k).2) as -> by (destruct Hread as (? & ? & -> & _); done).
  split; [done|]. generalize (kc_describe_key client (mk_provider_key_ref key) k).2 as k2. intros k2.
  rewrite M_bind_run. unfold failing_closed, try_catch. destruct (kc_sign client _ _ _ k2) as [[[raw|]|e] k3]; (split; [done|]); try done.
  by intros result [= <-].
Qed.
End AwsFacts.

(** With the AWS backend a managed signer signs only with a live key: a
    signature it returns carries exactly the bytes the service signed for this
    payload and algorithm, after the service reported the key enabled in both
    readings and the operator keeps it active; in every other case the service's
    signing operation is never invoked. *)
Theorem aws_signing_guarded `{Protocol} `{PyText} `{Base64Padding} {K : Type} (client : KmsClient K) (s : ExternalManagedSigner K) (payload : string) (k : K) :
  lowers_words -> es_backend s = AwsKmsSigningBackend client ->
  let ref := mk_provider_key_ref (es_key s) in
  let k1 := (kc_describe_key client ref k).2 in
  let k2 := (kc_describe_key client ref k1).2 in
  let signed := kc_sign client ref payload (mk_algorithm (es_key s)) k2 in
  let r := ExternalManagedSigner_sign s payload k in
  (is_ok r.1 = false /\ (r.2 = k \/ r.2 = k1 \/ r.2 = k2)) \/
  (mk_purpose (es_key s) = es_required_purpose s /\ reads_enabled client ref k k1 /\ aws_cleared client (es_key s) k1 k2 /\ r.2 = signed.2 /\
   forall sig, r.1 = Ok sig -> exists raw, signed.1 = Ok (Some raw) /\ carries (mk_algorithm (es_key s)) (mk_key_id (es_key s)) sig raw).
Proof.
  intros Hlow Hb. cbv zeta. set (ref := mk_provider_key_ref (es_key s)). set (k1 := (kc_describe_key client ref k).2).
  pose proof (managed_sign_paths s payload k) as Hm. cbv zeta in Hm. rewrite Hb in Hm. cbn [eb_get_key_status eb_sign_canonical_bytes AwsKmsSigningBackend] in Hm.
  pose proof (aws_status_state client (es_key s) k) as Hst. fold ref in Hst. fold k1 in Hst.
  destruct Hm as [[Hf Hk]|(Hcan & Hk & Hsig)]; [left; split; [done|]; destruct Hk as [->| ->]; tauto|].
  destruct Hcan as (_ & Hpur & _ & v & Hv & Ha). rewrite Hb in Hv. cbn in Hv. destruct (aws_status_Ok client _ _ _ _ Hv) as (st & -> & Hact).
  rewrite strip_state_value, Hlow in Ha. destruct (Hact (state_value_inj st ACTIVE Ha)) as [_ Hread].
  assert ((aws_get_key_status client (es_key s) k).2 = k1) as Hks by (unfold k1, ref; destruct Hread as (? & ? & -> & _); done).
  rewrite Hks in *. pose proof (aws_sign_paths client Hlow (es_key s) payload (ManagedSigningAuditMetadata_to_dict (audit_of s)) k1) as Hp.
  cbv zeta in Hp. fold ref in Hp, Hread. destruct Hp as [[Hf Hp]|(Hcl & Hp & Hres)].
  - left. split; [|destruct Hp as [Hp|Hp]; rewrite Hk, Hp; auto]. destruct (ExternalManagedSigner_sign s payload k).1 as [sig|]; [|done].
    destruct (Hsig sig eq_refl) as (result & Hr & _). by rewrite Hr in Hf.
  - right. split_and!; try done; [congruence|]. intros sig (result & Hr & _ & Hcar)%Hsig. exists (sr_signature result). split; [by apply Hres|done].
Qed.

(** The KMS and HSM signers hand their backend's bytes through: what they sign is
    verified by asking the backend about exactly the bytes it produced, whenever
    that is. *)
Theorem remote_signers_faithful `{Base64Padding} {K : Type} (payload : string) :
  (forall (s : KmsSigner K) k sig k', KmsSigner_sign s payload k = (Ok sig, k') ->
     exists raw, kb_sign (ks_backend s) (ks_key s) payload k = (Ok raw, k') /\
       forall later, KmsSigner_verify s payload sig later = kb_verify (ks_backend s) (ks_key s) payload raw later) /\
  (forall (s : HsmSigner K) k sig k', HsmSigner_sign s payload k = (Ok sig, k') ->
     exists raw, hb_sign (hm_backend s) (hm_key s) payload k = (Ok raw, k') /\
       forall later, HsmSigner_verify s payload sig later = hb_verify (hm_backend s) (hm_key s) payload raw later).
Proof.
  split; intros s k sig k' (raw & Hs & ->)%remote_sign_Ok; exists raw; (split; [done|]); intros later;
    unfold KmsSigner_verify, HsmSigner_verify, remote_verify; cbn [sig_algorithm sig_key_id sig_encoding sig_value];
    by rewrite !String.eqb_refl, b64url_decode_encode.
Qed.

(** ** Samples: a service that counts its calls *)
Definition sample_managed_key (status : string) : ManagedKeyReference :=
  mkManagedKey "aws-kms" "arn:key" "issuer:prod" "EdDSA" PROOF_ISSUANCE_PURPOSE (Some "t1") None None status.
Definition sample_client (state : string) : KmsClient (list string) := mkKmsClient
  (fun ref calls => (Ok (JDict [("KeyMetadata", JDict [("KeyState", JStr state)])]), calls ++ ["describe"]))
  (fun ref payload alg calls => (Ok (Some ("sig:" +:+ payload)), calls ++ ["sign"]))
  (fun ref payload sig alg calls => (Ok [("SignatureValid", JBool (String.eqb sig ("sig:" +:+ payload)))], calls ++ ["verify"])).
Definition unreachable_client : KmsClient (list string) := mkKmsClient
  (fun ref calls => (Err (OtherError "EndpointConnectionError"), calls)) (fun ref payload alg calls => (Err (OtherError "EndpointConnectionError"), calls))
  (fun ref payload sig alg calls => (Err (OtherError "EndpointConnectionError"), calls)).
Definition sample_managed_signer (client : KmsClient (list string)) (status : string) : ExternalManagedSigner (list string) :=
  mkManagedSigner (@AwsKmsSigningBackend demo_protocol demo_text _ client) (sample_managed_key status) PROOF_ISSUANCE_PURPOSE None.

(** A disabled key is never asked to sign. *)
Lemma disabled_key_not_asked :
  @ExternalManagedSigner_sign demo_text _ (sample_managed_signer (sample_client "Disabled") "active") "payload" [] =
    (Err ExternalManagedSigningError, ["describe"]).
Proof. vm_compute. reflexivity. Qed.

(** Verification is documented to return False when the service fails; a failure of
    the status reading raises instead. *)
Lemma aws_verify_raises :
  @aws_verify_canonical_bytes demo_text _ unreachable_client (sample_managed_key "active") "payload" "sig" [] = (Err ExternalManagedSigningError, []).
Proof. vm_compute. reflexivity. Qed.

Lemma aws_signing_guarded_witness :
  let s := sample_managed_signer (sample_client "Enabled") "active" in
  (@ExternalManagedSigner_sign demo_text _ s "payload" []).2 = ["describe"; "describe"; "sign"] /\
  reads_enabled (sample_client "Enabled") "arn:key" [] ["describe"].
Proof.
  cbv zeta. split; [vm_compute; reflexivity|].
  destruct (@aws_signing_guarded demo_protocol demo_text demo_padding (list string) (sample_client "Enabled")
    (sample_managed_signer (sample_client "Enabled") "active") "payload" []) as [[Hf _]|(_ & Hread & _)].
  - intros []; vm_compute; reflexivity.
  - reflexivity.
  - vm_compute in Hf. discriminate Hf.
  - exact Hread.
Defined.
