(* ===== verification/Outcomes.v ===== *)
(** * The failure taxonomy: [outcomes.py]

    The catalogue of [actenon_protocol] is a parameter ([Catalogue]): alias
    resolution, which raises [KeyError] on unknown codes, and the disclosure
    lookups.  The kernel's own table and the order it is consulted in are
    modelled.

    The theorems: every code the proof verifier refuses with has a failure code,
    and not one of the two positive ones; which codes the classification accepts
    and what the others raise; an alias is disclosed and retried as the code it
    stands for. *)

From S2P Require Import Prelude Text Json Errors Timestamps Canonical Contracts Runtime Samples ProofService.

Inductive FailureCode :=
| ALLOWED | APPROVAL_REQUIRED
| NOT_ACTIVE | REVOKED | EXPIRED | SCOPE_DENIED | OUT_OF_SCOPE | BUDGET_EXCEEDED | RATE_LIMITED | ENGINE_ERROR
| PCCB_REQUIRED | SIGNATURE_INVALID | ACTION_MISMATCH | PCCB_EXPIRED | DUPLICATE_REPLAY | AUDIENCE_MISMATCH.
#[global] Instance FailureCode_eq_dec : EqDecision FailureCode.
Proof. solve_decision. Defined.

Definition FAILURE_CODES : list FailureCode :=
  [ALLOWED; APPROVAL_REQUIRED; NOT_ACTIVE; REVOKED; EXPIRED; SCOPE_DENIED; OUT_OF_SCOPE; BUDGET_EXCEEDED; RATE_LIMITED; ENGINE_ERROR;
   PCCB_REQUIRED; SIGNATURE_INVALID; ACTION_MISMATCH; PCCB_EXPIRED; DUPLICATE_REPLAY; AUDIENCE_MISMATCH].

Definition failure_value (f : FailureCode) : string :=
  match f with
  | ALLOWED => "ALLOWED" | APPROVAL_REQUIRED => "APPROVAL_REQUIRED" | NOT_ACTIVE => "NOT_ACTIVE" | REVOKED => "REVOKED"
  | EXPIRED => "EXPIRED" | SCOPE_DENIED => "SCOPE_DENIED" | OUT_OF_SCOPE => "OUT_OF_SCOPE" | BUDGET_EXCEEDED => "BUDGET_EXCEEDED"
  | RATE_LIMITED => "RATE_LIMITED" | ENGINE_ERROR => "ENGINE_ERROR" | PCCB_REQUIRED => "PCCB_REQUIRED"
  | SIGNATURE_INVALID => "SIGNATURE_INVALID" | ACTION_MISMATCH => "ACTION_MISMATCH" | PCCB_EXPIRED => "PCCB_EXPIRED"
  | DUPLICATE_REPLAY => "DUPLICATE_REPLAY" | AUDIENCE_MISMATCH => "AUDIENCE_MISMATCH"
  end.

(** [FailureCode(value)] *)
Definition FailureCode_of (value : string) : py FailureCode :=
  match List.find (fun f => String.eqb (failure_value f) value) FAILURE_CODES with
  | Some f => Ok f
  | None => Err (ValueError "not a valid FailureCode")
  end.

Definition _REFUSAL_CODE_MAP : list (string * FailureCode) :=
  [("ACTION_MISMATCH", ACTION_MISMATCH); ("AUDIENCE_MISMATCH", AUDIENCE_MISMATCH); ("SIGNATURE_INVALID", SIGNATURE_INVALID);
   ("PROOF_INVALID", SIGNATURE_INVALID); ("PROOF_EXPIRED", PCCB_EXPIRED); ("PROOF_NOT_YET_VALID", PCCB_EXPIRED);
   ("INTENT_MISMATCH", ACTION_MISMATCH); ("TARGET_MISMATCH", ACTION_MISMATCH); ("ACTION_HASH_MISMATCH", ACTION_MISMATCH);
   ("ACTION_HASH_ALGORITHM_INVALID", ACTION_MISMATCH); ("ACTION_HASH_INVALID", ACTION_MISMATCH);
   ("SCOPE_MODE_INVALID", ACTION_MISMATCH); ("SCOPE_CAPABILITY_MISMATCH", ACTION_MISMATCH); ("TENANT_MISMATCH", ACTION_MISMATCH);
   ("SUBJECT_MISMATCH", ACTION_MISMATCH); ("PROOF_PAYLOAD_INVALID", SIGNATURE_INVALID);
   ("PROOF_MISSING", PCCB_REQUIRED); ("REPLAY_DETECTED", DUPLICATE_REPLAY); ("AUTHORITY_REVOKED", REVOKED);
   ("POLICY_REFUSAL", NOT_ACTIVE); ("OUTCOME_UNKNOWN", ENGINE_ERROR); ("ISSUER_UNTRUSTED", SIGNATURE_INVALID);
   ("PARAMETER_MISMATCH", ACTION_MISMATCH); ("MALFORMED_REQUEST", SIGNATURE_INVALID);
   ("UNSUPPORTED_PROTOCOL_VERSION", SIGNATURE_INVALID); ("CANONICALISATION_FAILURE", SIGNATURE_INVALID);
   ("CREDENTIAL_UNAVAILABLE", ENGINE_ERROR); ("PROVIDER_REFUSAL", ENGINE_ERROR); ("PROVIDER_FAILURE", ENGINE_ERROR)].

(** What the kernel uses of [actenon_protocol]; [None] is a [KeyError], and
    [disclosure_policy] fails on a word that is not a member of the enumeration. *)
Class Catalogue := {
  resolve_alias : string -> option string;
  DisclosurePolicy : Type;
  disclosure_policy : string -> option DisclosurePolicy;
  refusal_to_disclosed_code : option string -> DisclosurePolicy -> string;
  refusal_to_internal_code : option string -> DisclosurePolicy -> option string;
  refusal_to_retryable : option string -> bool
}.

Section Outcomes.
Context `{Catalogue}.

Definition canonical (f : FailureCode) : py string :=
  if str_mem (failure_value f) ["ALLOWED"; "APPROVAL_REQUIRED"] then Ok (failure_value f)
  else match resolve_alias (failure_value f) with Some c => Ok c | None => Err (KeyError (failure_value f)) end.

(** The [KeyError] of the alias lookup is caught, the [ValueError] of the member
    lookup after it is not. *)
Definition refusal_code_to_failure_code (refusal_code : string) : py FailureCode :=
  match FailureCode_of refusal_code with
  | Ok f => Ok f
  | Err _ =>
      match assoc refusal_code _REFUSAL_CODE_MAP with
      | Some f => Ok f
      | None =>
          match resolve_alias refusal_code with
          | Some c => FailureCode_of c
          | None => Err (KeyError refusal_code)
          end
      end
  end.

Definition _canonical_code (code : option string) : option string :=
  match code with
  | None => None
  | Some code => match resolve_alias code with Some c => Some c | None => Some code end
  end.

Definition policy_of (policy : string) : py DisclosurePolicy :=
  match disclosure_policy policy with Some p => Ok p | None => Err (ValueError "not a valid DisclosurePolicy") end.

Definition to_disclosed_code (internal_code : option string) (policy : string) : py string :=
  p ← policy_of policy;
  Ok (refusal_to_disclosed_code (_canonical_code internal_code) p).

Definition to_internal_code (internal_code : option string) (policy : string) : py (option string) :=
  p ← policy_of policy;
  Ok (refusal_to_internal_code internal_code p).

Definition to_retryable (internal_code : option string) : bool := refusal_to_retryable (_canonical_code internal_code).

(** ** Facts *)
Definition is_refusal (f : FailureCode) : bool := negb (bool_decide (f ∈ [ALLOWED; APPROVAL_REQUIRED])).

(** The codes the classification knows by itself. *)
Definition KNOWN_CODES : list string := map failure_value FAILURE_CODES ++ _REFUSAL_CODE_MAP.*1.

Lemma failure_code_of_iff value f : FailureCode_of value = Ok f <-> failure_value f = value.
Proof.
  unfold FailureCode_of. split.
  - destruct (List.find _ _) as [g|] eqn:Hf; [|done]. intros [= <-]. apply find_some in Hf as [_ Hf]. by apply String.eqb_eq.
  - intros <-. by destruct f.
Qed.

Lemma failure_code_of_error value e : FailureCode_of value = Err e -> e = ValueError "not a valid FailureCode".
Proof. unfold FailureCode_of. by destruct (List.find _ _); congruence. Qed.

Lemma public_codes_classified code : code ∈ PUBLIC_PROOF_REFUSAL_MESSAGES.*1 ->
  exists f, refusal_code_to_failure_code code = Ok f /\ is_refusal f = true.
Proof.
  intros Hin. apply list_elem_of_In in Hin. vm_compute in Hin.
  repeat (destruct Hin as [<-|Hin]; [eexists; split; reflexivity|]). done.
Qed.

Lemma classified_known code : code ∈ KNOWN_CODES -> is_ok (refusal_code_to_failure_code code) = true.
Proof.
  intros Hin. unfold refusal_code_to_failure_code. destruct (FailureCode_of code) eqn:Hf; [done|].
  destruct (assoc code _REFUSAL_CODE_MAP) eqn:Ha; [done|]. exfalso. apply elem_of_app in Hin as [Hin|Hin].
  - apply list_elem_of_fmap in Hin as (f & -> & _). by rewrite (proj2 (failure_code_of_iff _ f) eq_refl) in Hf.
  - by apply assoc_None_keys in Ha.
Qed.
End Outcomes.

(** ** Properties *)

(** Whatever [verify] refuses a proof with is a known failure: its code has a
    failure code, and that is never one of the two positive outcomes. *)
Theorem verify_refusals_classified `{Protocol} `{ProtocolAuthority} `{Catalogue} (v : PCCBVerifier) (intent : ActionIntent) (pccb : PCCB)
    (context : DynamicContextInput) :
  canonicalisation_error_is_value_error = true ->
  signer_answers v pccb -> clock_in_range v context -> authority_has_revocable pccb ->
  verify v intent pccb context = Ok tt \/
  exists code msg f, verify v intent pccb context = Err (Refused (ProofVerificationError code msg [])) /\
    refusal_code_to_failure_code code = Ok f /\ f <> ALLOWED /\ f <> APPROVAL_REQUIRED.
Proof.
  intros Hve Hs Hc Ha. pose proof (verify_refusal v Hve intent pccb context Hs Hc Ha) as Hr.
  destruct (verify v intent pccb context) as [[]|e]; [by left|]. right.
  destruct (Hr e eq_refl) as ((code & msg & -> & Hin) & _). destruct (public_codes_classified code Hin) as (f & Hf & Href).
  exists code, msg, f. split_and!; [done|done|..]; by intros ->.
Qed.

(** The classification of a code: the kernel's names and its table come first,
    whatever the catalogue says; another code is classified exactly when it is an
    alias of one of the kernel's names; an unknown code raises [KeyError], and an
    alias of any other canonical code raises [ValueError].  An alias is disclosed
    and retried as the code it stands for. *)
Theorem refusal_codes_exact `{Catalogue} (code : string) :
  (code ∈ KNOWN_CODES -> is_ok (refusal_code_to_failure_code code) = true) /\
  (forall f, refusal_code_to_failure_code (failure_value f) = Ok f) /\
  (code ∉ KNOWN_CODES ->
     (forall f, refusal_code_to_failure_code code = Ok f <-> resolve_alias code = Some (failure_value f)) /\
     (resolve_alias code = None -> refusal_code_to_failure_code code = Err (KeyError code)) /\
     (forall c, resolve_alias code = Some c -> c ∉ map failure_value FAILURE_CODES ->
        exists msg, refusal_code_to_failure_code code = Err (ValueError msg))) /\
  (forall c policy, resolve_alias code = Some c -> resolve_alias c = Some c \/ resolve_alias c = None ->
     to_disclosed_code (Some code) policy = to_disclosed_code (Some c) policy /\ to_retryable (Some code) = to_retryable (Some c)).
Proof.
  split_and!; [apply classified_known|..].
  - intros f. unfold refusal_code_to_failure_code. by rewrite (proj2 (failure_code_of_iff _ f) eq_refl).
  - intros Hn. unfold refusal_code_to_failure_code, KNOWN_CODES in *. rewrite not_elem_of_app in Hn. destruct Hn as [Hv Hm].
    destruct (FailureCode_of code) as [g|] eqn:Hg.
    { apply failure_code_of_iff in Hg as <-. destruct Hv. apply list_elem_of_fmap. exists g. split; [done|]. by destruct g; apply (bool_decide_unpack _). }
    destruct (assoc code _REFUSAL_CODE_MAP) eqn:Ha; [by apply assoc_Some_elem, (list_elem_of_fmap_2 fst) in Ha|].
    destruct (resolve_alias code) as [c|]; split_and!; try done.
    + intros f. rewrite failure_code_of_iff. split; congruence.
    + intros c' [= <-] Hc. destruct (FailureCode_of c) as [g|e'] eqn:Hg'; [|apply failure_code_of_error in Hg' as ->; by eexists].
      apply failure_code_of_iff in Hg' as <-. destruct Hc. apply list_elem_of_fmap. exists g. split; [done|]. by destruct g; apply (bool_decide_unpack _).
  - intros c policy Hc Hcc. unfold to_disclosed_code, to_retryable, _canonical_code. rewrite Hc. by destruct Hcc as [-> | ->].
Qed.

(** ** A catalogue *)
Definition demo_catalogue : Catalogue := {|
  resolve_alias code := assoc code [("PCCB_REQUIRED", "PROOF_MISSING"); ("PROOF_MISSING", "PROOF_MISSING"); ("REPLAYED", "DUPLICATE_REPLAY");
                                    ("STATE_INVALID", "AUTHORITY_UNKNOWN")];
  DisclosurePolicy := unit;
  disclosure_policy s := if String.eqb s "public" then Some tt else None;
  refusal_to_disclosed_code code _ := default "OUTCOME_UNKNOWN" code;
  refusal_to_internal_code _ _ := None;
  refusal_to_retryable code := bool_decide (code = Some "OUTCOME_UNKNOWN")
|}.

Lemma verify_refusals_classified_witness :
  exists code msg f,
    @verify demo_protocol sample_authority (sample_verifier PUBLIC_GENERIC) sample_intent sample_pccb sample_late
      = Err (Refused (ProofVerificationError code msg [])) /\
    @refusal_code_to_failure_code demo_catalogue code = Ok f /\ f <> ALLOWED /\ f <> APPROVAL_REQUIRED.
Proof.
  destruct (@verify_refusals_classified demo_protocol sample_authority demo_catalogue (sample_verifier PUBLIC_GENERIC) sample_intent sample_pccb
    sample_late) as [Hok|Hex]; [reflexivity|by eexists|vm_compute; repeat split; congruence|..|exact Hex].
  - intros a Ha. vm_compute in Ha. discriminate Ha.
  - vm_compute in Hok. discriminate Hok.
Defined.

Lemma refusal_codes_exact_witness :
  @refusal_code_to_failure_code demo_catalogue "PROOF_EXPIRED" = Ok PCCB_EXPIRED /\
  @refusal_code_to_failure_code demo_catalogue "REPLAYED" = Ok DUPLICATE_REPLAY /\
  @refusal_code_to_failure_code demo_catalogue "NO_SUCH_CODE" = Err (KeyError "NO_SUCH_CODE") /\
  exists msg, @refusal_code_to_failure_code demo_catalogue "STATE_INVALID" = Err (ValueError msg).
Proof.
  split; [reflexivity|]. split; [|split].
  - apply (@refusal_codes_exact demo_catalogue "REPLAYED"); [by apply (bool_decide_unpack _)|reflexivity].
  - apply (@refusal_codes_exact demo_catalogue "NO_SUCH_CODE"); [by apply (bool_decide_unpack _)|reflexivity].
  - apply (@refusal_codes_exact demo_catalogue "STATE_INVALID") with "AUTHORITY_UNKNOWN"; [by apply (bool_decide_unpack _)|reflexivity|by apply (bool_decide_unpack _)].
Defined.
