(* ===== verification/ModeAware.v ===== *)
(** * Mode-aware execution results: [execution/mode_aware.py]

    The result classes of [actenon_protocol] are a parameter ([ExecutionResults]):
    the check their constructors make, their finality and their serialised form;
    what a result holds is what the kernel passes to them.  The compact, key-sorted
    [json.dumps] of a receipt's body and HMAC-SHA256 are parameters too.

    The theorems: which states a result can still move to in either mode; and a
    resource-owned result is marked verified exactly when it carries a receipt
    whose signature is the MAC of its body under the key it names. *)

From Stdlib Require Import Ascii.
From S2P Require Import Prelude Text Json Errors Timestamps Canonical Contracts Runtime Samples ProofService Base64 LocalSigner Receipts Merkle Transparency.

Inductive BrokeredExecutionState := B_SUCCEEDED | B_FAILED | B_REFUSED | B_OUTCOME_UNKNOWN.
#[global] Instance BrokeredExecutionState_eq_dec : EqDecision BrokeredExecutionState.
Proof. solve_decision. Defined.

Inductive ResourceOwnedExecutionState := R_SUBMITTED | R_ACCEPTED | R_REFUSED | R_SUCCEEDED | R_FAILED | R_OUTCOME_UNKNOWN.
#[global] Instance ResourceOwnedExecutionState_eq_dec : EqDecision ResourceOwnedExecutionState.
Proof. solve_decision. Defined.

Definition ResourceReceiptVerificationError : exn := OtherError "ResourceReceiptVerificationError".
Definition StateTransitionError : exn := ValueError "state transition not allowed".

(** ** State machines *)
Definition BROKERED_TRANSITIONS (s : BrokeredExecutionState) : list BrokeredExecutionState :=
  match s with
  | B_SUCCEEDED | B_FAILED | B_REFUSED => []
  | B_OUTCOME_UNKNOWN => [B_SUCCEEDED; B_FAILED; B_OUTCOME_UNKNOWN]
  end.

Definition RESOURCE_OWNED_TRANSITIONS (s : ResourceOwnedExecutionState) : list ResourceOwnedExecutionState :=
  match s with
  | R_SUBMITTED => [R_ACCEPTED; R_REFUSED; R_SUCCEEDED; R_FAILED; R_OUTCOME_UNKNOWN]
  | R_ACCEPTED => [R_SUCCEEDED; R_FAILED; R_OUTCOME_UNKNOWN]
  | R_REFUSED | R_SUCCEEDED | R_FAILED => []
  | R_OUTCOME_UNKNOWN => [R_SUCCEEDED; R_FAILED; R_OUTCOME_UNKNOWN]
  end.

Definition brokered_can_transition (current next : BrokeredExecutionState) : bool := bool_decide (next ∈ BROKERED_TRANSITIONS current).
Definition brokered_validate_transition (current next : BrokeredExecutionState) : py unit :=
  if negb (brokered_can_transition current next) then Err StateTransitionError else Ok tt.

Definition resource_can_transition (current next : ResourceOwnedExecutionState) : bool :=
  bool_decide (next ∈ RESOURCE_OWNED_TRANSITIONS current).
Definition resource_validate_transition (current next : ResourceOwnedExecutionState) : py unit :=
  if negb (resource_can_transition current next) then Err StateTransitionError else Ok tt.

(** ** Resource receipts *)
Record ResourceSigningKey := mkResourceKey { rk_resource_id : string; rk_key_id : string; rk_secret : string }.

Definition receipt_keys : Type := list (string * ResourceSigningKey).
Definition register_key (key : ResourceSigningKey) (keys : receipt_keys) : receipt_keys := assoc_set (rk_key_id key) key keys.

Definition is_ascii (s : string) : bool := forallb (fun c => (N_of_ascii c <? 128)%N) (String.list_ascii_of_string s).

(** [json.dumps(body, sort_keys=True, separators=(",", ":"), default=str)] *)
Class CompactDumps := compact_dumps : dict -> string.

Section Receipts.
Context `{Hmac} `{CompactDumps}.

(** [{k: v for k, v in receipt.items() if k != "signature"}] *)
Definition receipt_body (receipt : dict) : dict := List.filter (fun kv => negb (String.eqb kv.1 "signature")) receipt.

Definition receipt_mac (key : ResourceSigningKey) (receipt : dict) : string :=
  hex_encode (hmac_sha256 (rk_secret key) (compact_dumps (receipt_body receipt))).

(** [hmac.compare_digest] of two texts raises unless both are ASCII. *)
Definition compare_digest (a b : string) : py bool :=
  if is_ascii a && is_ascii b then Ok (String.eqb a b) else Err (TypeError "comparing strings with non-ASCII characters is not supported").

Definition nonempty_text (j : json) : option string := match j with JStr s => if str_truthy s then Some s else None | _ => None end.

Definition resource_receipt_verify (keys : receipt_keys) (receipt : json) : py (bool * option string) :=
  match receipt with
  | JDict receipt =>
      match nonempty_text (dget receipt "signature") with
      | None => Err ResourceReceiptVerificationError
      | Some signature =>
          match nonempty_text (dget receipt "signing_key_id") with
          | None => Err ResourceReceiptVerificationError
          | Some key_id =>
              match assoc key_id keys with
              | None => Err ResourceReceiptVerificationError
              | Some key =>
                  same ← compare_digest (receipt_mac key receipt) signature;
                  Ok (if (same : bool) then (true, Some key_id) else (false, None))
              end
          end
      end
  | _ => Err ResourceReceiptVerificationError
  end.

Definition verify_or_raise (keys : receipt_keys) (receipt : json) : py (option string) :=
  r ← resource_receipt_verify keys receipt;
  let '(ok, key_id) := r in
  if negb ok then Err ResourceReceiptVerificationError else Ok key_id.

(** ** Results *)
Record brokered_args := mkBrokered {
  ba_state : BrokeredExecutionState; ba_verified_by : string; ba_executed_by : string; ba_provider_execution_observed : bool;
  ba_attempt_id : string; ba_occurred_at : string; ba_receipt_received : bool; ba_receipt_verified : bool;
  ba_provider_evidence : dict; ba_reconciliation_status : option string
}.

Record resource_args := mkResource {
  ra_state : ResourceOwnedExecutionState; ra_verified_by : string; ra_executed_by : string; ra_attempt_id : string;
  ra_occurred_at : string; ra_provider_execution_observed : bool; ra_receipt_received : bool; ra_receipt_verified : bool;
  ra_receipt : option json; ra_submission_reference : option string
}.

Inductive protocol_result := Brokered (a : brokered_args) | ResourceOwned (a : resource_args).

(** The constructors' validation, the finality and the serialised form. *)
Class ExecutionResults := {
  brokered_check : brokered_args -> py unit;
  resource_check : resource_args -> py unit;
  FinalityStatus : Type;
  FINAL : FinalityStatus;
  finality_eqb : FinalityStatus -> FinalityStatus -> bool;
  finality : protocol_result -> FinalityStatus;
  serialise_result : protocol_result -> dict
}.

Record ModeAwareExecutionResult := mkModeAware {
  ma_protocol_result : protocol_result; ma_pccb_id : option string; ma_action_hash : option string;
  ma_kernel_verifier_identity : option string; ma_resource_signing_key_id : option string
}.

Context `{ExecutionResults}.

Definition is_final (r : ModeAwareExecutionResult) : bool := finality_eqb (finality (ma_protocol_result r)) FINAL.

Definition opt_str (o : option string) : json := match o with Some s => JStr s | None => JNull end.

Definition ModeAwareExecutionResult_to_dict (r : ModeAwareExecutionResult) : dict :=
  assoc_set "resource_signing_key_id" (opt_str (ma_resource_signing_key_id r))
    (assoc_set "kernel_verifier_identity" (opt_str (ma_kernel_verifier_identity r))
      (assoc_set "action_hash" (opt_str (ma_action_hash r))
        (assoc_set "pccb_id" (opt_str (ma_pccb_id r)) (serialise_result (ma_protocol_result r))))).

Definition build_brokered_result (state : BrokeredExecutionState) (verified_by executed_by attempt_id occurred_at : string)
    (provider_execution_observed receipt_received receipt_verified : bool) (provider_evidence : option dict)
    (reconciliation_status pccb_id action_hash kernel_verifier_identity : option string) : py ModeAwareExecutionResult :=
  let a := mkBrokered state verified_by executed_by provider_execution_observed attempt_id occurred_at receipt_received receipt_verified
             (default [] provider_evidence) reconciliation_status in
  _ ← brokered_check a;
  Ok (mkModeAware (Brokered a) pccb_id action_hash kernel_verifier_identity None).

(** The verification of a receipt that comes with a verifier: a failed one leaves
    the result unverified, any other exception goes through. *)
Definition receipt_status (resource_receipt : option json) (verifier : option receipt_keys) : py (bool * option string) :=
  match resource_receipt, verifier with
  | Some receipt, Some keys =>
      match verify_or_raise keys receipt with
      | Ok key_id => Ok (true, key_id)
      | Err e => if bool_decide (e = ResourceReceiptVerificationError) then Ok (false, None) else Err e
      end
  | _, _ => Ok (false, None)
  end.

Definition build_resource_owned_result (state : ResourceOwnedExecutionState) (verified_by executed_by attempt_id occurred_at : string)
    (provider_execution_observed resource_receipt_received : bool) (resource_receipt : option json) (verifier : option receipt_keys)
    (submission_reference pccb_id action_hash kernel_verifier_identity : option string) : py ModeAwareExecutionResult :=
  status ← receipt_status resource_receipt verifier;
  let '(resource_receipt_verified, resource_signing_key_id) := status in
  let a := mkResource state verified_by executed_by attempt_id occurred_at provider_execution_observed resource_receipt_received
             resource_receipt_verified resource_receipt submission_reference in
  _ ← resource_check a;
  Ok (mkModeAware (ResourceOwned a) pccb_id action_hash kernel_verifier_identity resource_signing_key_id).
End Receipts.

(** ** Facts *)
Definition brokered_step (s t : BrokeredExecutionState) : Prop := brokered_validate_transition s t = Ok tt.
Definition resource_step (s t : ResourceOwnedExecutionState) : Prop := resource_validate_transition s t = Ok tt.

Definition brokered_reach (s : BrokeredExecutionState) : list BrokeredExecutionState :=
  match s with B_OUTCOME_UNKNOWN => [B_SUCCEEDED; B_FAILED; B_OUTCOME_UNKNOWN] | s => [s] end.

Definition resource_reach (s : ResourceOwnedExecutionState) : list ResourceOwnedExecutionState :=
  match s with
  | R_SUBMITTED => [R_SUBMITTED; R_ACCEPTED; R_REFUSED; R_SUCCEEDED; R_FAILED; R_OUTCOME_UNKNOWN]
  | R_ACCEPTED => [R_ACCEPTED; R_SUCCEEDED; R_FAILED; R_OUTCOME_UNKNOWN]
  | R_OUTCOME_UNKNOWN => [R_SUCCEEDED; R_FAILED; R_OUTCOME_UNKNOWN]
  | s => [s]
  end.

Lemma rtc_within {A} (step : A -> A -> Prop) (reach : list A) s t :
  (forall x y, x ∈ reach -> step x y -> y ∈ reach) -> s ∈ reach -> rtc step s t -> t ∈ reach.
Proof. intros Hc Hs Hr. induction Hr as [|x y z Hxy _ IH]; [done|]. apply IH. by eapply Hc. Qed.

Lemma brokered_reach_exact s t : rtc brokered_step s t <-> t ∈ brokered_reach s.
Proof.
  split.
  - apply (rtc_within brokered_step); [|by destruct s; apply (bool_decide_unpack _)].
    intros x y Hx%(bool_decide_eq_true_2 _) Hxy. apply (bool_decide_unpack _). by destruct s, x, y.
  - intros Hin%(bool_decide_eq_true_2 _). destruct (decide (s = t)) as [->|Hne]; [done|]. apply rtc_once. by destruct s, t.
Qed.

Lemma resource_reach_exact s t : rtc resource_step s t <-> t ∈ resource_reach s.
Proof.
  split.
  - apply (rtc_within resource_step); [|by destruct s; apply (bool_decide_unpack _)].
    intros x y Hx%(bool_decide_eq_true_2 _) Hxy. apply (bool_decide_unpack _). by destruct s, x, y.
  - intros Hin%(bool_decide_eq_true_2 _). destruct (decide (s = t)) as [->|Hne]; [done|]. apply rtc_once. by destruct s, t.
Qed.

Section Receipts.
Context `{Hmac} `{CompactDumps} `{ExecutionResults}.

(** A receipt signed with the key it names. *)
Definition authentic_receipt (keys : receipt_keys) (receipt : dict) (key_id : string) : Prop :=
  exists key, assoc key_id keys = Some key /\ dget receipt "signing_key_id" = JStr key_id /\ key_id <> "" /\
    dget receipt "signature" = JStr (receipt_mac key receipt) /\ receipt_mac key receipt <> "" /\ is_ascii (receipt_mac key receipt) = true.

Lemma nonempty_text_Some j s : nonempty_text j = Some s <-> j = JStr s /\ s <> "".
Proof.
  unfold nonempty_text, str_truthy. destruct j as [| | | |t| |]; try naive_solver. destruct (String.eqb_spec t ""); naive_solver.
Qed.

Lemma compare_digest_true a b : compare_digest a b = Ok true <-> a = b /\ is_ascii a = true.
Proof.
  unfold compare_digest. destruct (String.eqb_spec a b) as [->|Hne].
  - destruct (is_ascii b); simpl; naive_solver.
  - destruct (is_ascii a && is_ascii b); split; [by intros [=]|naive_solver|done|naive_solver].
Qed.

Lemma verify_or_raise_Ok keys receipt r : verify_or_raise keys receipt = Ok r <->
  exists d key_id, receipt = JDict d /\ r = Some key_id /\ authentic_receipt keys d key_id.
Proof.
  unfold verify_or_raise, resource_receipt_verify, authentic_receipt. destruct receipt as [| | | | | |d];
    try (split; [done|]; by intros (? & ? & ? & _)).
  destruct (nonempty_text (dget d "signature")) as [signature|] eqn:Hs.
  2: { split; [done|]. intros (d' & k & [= <-] & _ & key & _ & _ & _ & Hsig & Hne & _).
       by rewrite (proj2 (nonempty_text_Some _ _) (conj Hsig Hne)) in Hs. }
  apply nonempty_text_Some in Hs as [Hs Hsne].
  destruct (nonempty_text (dget d "signing_key_id")) as [key_id|] eqn:Hk.
  2: { split; [done|]. intros (d' & k & [= <-] & _ & key & _ & Hkey & Hne & _). by rewrite (proj2 (nonempty_text_Some _ _) (conj Hkey Hne)) in Hk. }
  apply nonempty_text_Some in Hk as [Hk Hkne]. destruct (assoc key_id keys) as [key|] eqn:Hkey.
  2: { split; [done|]. intros (d' & k & [= <-] & _ & key' & Hk' & Hid & _). congruence. }
  destruct (compare_digest (receipt_mac key d) signature) as [[]|e] eqn:Hc; cbn [mbind res_bind negb].
  - apply compare_digest_true in Hc as [<- Ha]. split; [intros [= <-]; by eauto 12|]. intros (d' & k & [= <-] & -> & key' & Hk' & Hid & _). congruence.
  - split; [done|]. intros (d' & k & [= <-] & _ & key' & Hk' & Hid & _ & Hsig & _ & Ha).
    assert (compare_digest (receipt_mac key d) signature = Ok true); [|congruence]. apply compare_digest_true. split; congruence.
  - split; [done|]. intros (d' & k & [= <-] & _ & key' & Hk' & Hid & _ & Hsig & _ & Ha).
    assert (compare_digest (receipt_mac key d) signature = Ok true); [|congruence]. apply compare_digest_true. split; congruence.
Qed.
End Receipts.

(** ** Properties *)

(** What a result can still become, along every sequence of transitions the
    machines validate.  In either mode a succeeded, failed or refused result stays
    what it is; an unknown outcome is resolved to success or failure and never to
    a refusal; a resource-owned result that was accepted is never refused, and
    nothing returns to the submitted state. *)
Theorem mode_transitions_exact (s t : BrokeredExecutionState) (s' t' : ResourceOwnedExecutionState) :
  (rtc brokered_step s t <-> s = t \/ s = B_OUTCOME_UNKNOWN /\ (t = B_SUCCEEDED \/ t = B_FAILED)) /\
  (rtc resource_step s' t' <->
     s' = t' \/ s' = R_SUBMITTED \/ (s' = R_ACCEPTED \/ s' = R_OUTCOME_UNKNOWN) /\ t' ∈ [R_SUCCEEDED; R_FAILED; R_OUTCOME_UNKNOWN]).
Proof.
  rewrite brokered_reach_exact, resource_reach_exact. split.
  - rewrite <- (bool_decide_eq_true (t ∈ _)). destruct s, t; vm_compute; naive_solver.
  - rewrite <- (bool_decide_eq_true (t' ∈ _)), <- (bool_decide_eq_true (t' ∈ [_; _; _])). destruct s', t'; vm_compute; naive_solver.
Qed.

(** A resource-owned result is marked as verified, and names the key, exactly
    when the verifier's keys have the key the receipt names and the receipt's
    signature is the MAC of its body under it; a forged receipt never marks a
    result.  With the protocol's documented rule that a success needs a verified
    receipt, every succeeded result carries an authentic one. *)
Theorem resource_receipt_authentic `{Hmac} `{CompactDumps} `{ExecutionResults} (state : ResourceOwnedExecutionState)
    (verified_by executed_by attempt_id occurred_at : string) (observed received : bool) (receipt : option json)
    (verifier : option receipt_keys) (reference pccb_id action_hash identity : option string) (r : ModeAwareExecutionResult) :
  build_resource_owned_result state verified_by executed_by attempt_id occurred_at observed received receipt verifier reference pccb_id
    action_hash identity = Ok r ->
  exists a, ma_protocol_result r = ResourceOwned a /\ ra_state a = state /\ ra_receipt a = receipt /\
    (ra_receipt_verified a = true <->
       exists d keys key_id, receipt = Some (JDict d) /\ verifier = Some keys /\ authentic_receipt keys d key_id) /\
    (ra_receipt_verified a = true ->
       exists d keys key_id, receipt = Some (JDict d) /\ verifier = Some keys /\ authentic_receipt keys d key_id /\
         ma_resource_signing_key_id r = Some key_id) /\
    (ra_receipt_verified a = false -> ma_resource_signing_key_id r = None) /\
    ((forall b, resource_check b = Ok tt -> ra_state b = R_SUCCEEDED -> ra_receipt_verified b = true) ->
       state = R_SUCCEEDED -> exists d keys key_id, receipt = Some (JDict d) /\ verifier = Some keys /\ authentic_receipt keys d key_id).
Proof.
  unfold build_resource_owned_result. intros ([ver kid] & Hst & Hr)%bind_Ok. apply bind_Ok in Hr as ([] & Hchk & [= <-]).
  assert (if ver then exists d keys key_id, receipt = Some (JDict d) /\ verifier = Some keys /\ authentic_receipt keys d key_id /\ kid = Some key_id
          else kid = None /\ ~ exists d keys key_id, receipt = Some (JDict d) /\ verifier = Some keys /\ authentic_receipt keys d key_id) as Hver.
  { unfold receipt_status in Hst. destruct receipt as [j|], verifier as [keys|]; try (injection Hst as <- <-; naive_solver).
    destruct (verify_or_raise keys j) as [k|e] eqn:Hv.
    - injection Hst as <- <-. apply verify_or_raise_Ok in Hv as (d & key_id & -> & -> & Ha). by eauto 10.
    - destruct (bool_decide _); [injection Hst as <- <-|done]. split; [done|]. intros (d & keys' & key_id & [= ->] & [= <-] & Ha).
      assert (verify_or_raise keys (JDict d) = Ok (Some key_id)); [|congruence]. apply verify_or_raise_Ok. by eauto. }
  eexists. split; [done|]. split; [done|]. split; [done|]. simpl. split; [|split; [|split]].
  - destruct ver; [destruct Hver as (d & keys & key_id & -> & -> & Ha & _)|]; naive_solver.
  - intros ->. naive_solver.
  - intros ->. naive_solver.
  - intros Hrule ->. pose proof (Hrule _ Hchk eq_refl) as Ht. simpl in Ht. subst ver. naive_solver.
Qed.

(** ** Samples *)
Definition demo_dumps : CompactDumps := fun d =>
  match @canonicalize_bytes demo_protocol (JDict d) DEFAULT_MAX_CANONICAL_OUTPUT_BYTES with Ok s => s | Err _ => "" end.

Definition demo_results : ExecutionResults := {|
  brokered_check a := if bool_decide (ba_state a = B_SUCCEEDED) && negb (ba_provider_execution_observed a)
                      then Err (OtherError "ExecutionResultValidationError") else Ok tt;
  resource_check a := if bool_decide (ra_state a = R_SUCCEEDED) && negb (ra_receipt_verified a)
                      then Err (OtherError "ExecutionResultValidationError") else Ok tt;
  FinalityStatus := bool;
  FINAL := true;
  finality_eqb := Bool.eqb;
  finality r := match r with
                | Brokered a => negb (bool_decide (ba_state a = B_OUTCOME_UNKNOWN))
                | ResourceOwned a => bool_decide (ra_state a ∈ [R_SUCCEEDED; R_FAILED; R_REFUSED])
                end;
  serialise_result _ := []
|}.

Definition demo_keys : receipt_keys := register_key (mkResourceKey "ledger" "k1" "s") [].
Definition demo_resource_receipt : dict :=
  Eval vm_compute in
    let body := [("receipt_id", JStr "r1"); ("signing_key_id", JStr "k1")] in
    body ++ [("signature", JStr (@receipt_mac demo_hmac demo_dumps (mkResourceKey "ledger" "k1" "s") body))].

Definition demo_resource_result : py ModeAwareExecutionResult :=
  @build_resource_owned_result demo_hmac demo_dumps demo_results R_SUCCEEDED "kernel" "ledger" "att_1" "2024-01-01T00:00:00Z" false true
    (Some (JDict demo_resource_receipt)) (Some demo_keys) None None None None.

Lemma resource_receipt_authentic_witness :
  exists r, demo_resource_result = Ok r /\ ma_resource_signing_key_id r = Some "k1" /\
    exists d keys key_id, Some (JDict demo_resource_receipt) = Some (JDict d) /\ Some demo_keys = Some keys /\
      @authentic_receipt demo_hmac demo_dumps keys d key_id.
Proof.
  destruct demo_resource_result as [r|e] eqn:He; [|vm_compute in He; discriminate He].
  exists r. split; [reflexivity|]. split; [vm_compute in He; injection He as <-; reflexivity|].
  destruct (@resource_receipt_authentic demo_hmac demo_dumps demo_results _ _ _ _ _ _ _ _ _ _ _ _ _ _ He) as (a & _ & _ & _ & _ & _ & _ & Hs).
  apply Hs; [|reflexivity]. intros b Hb Hst. simpl in Hb. rewrite Hst in Hb. by destruct (ra_receipt_verified b).
Defined.

(** The resource a key was published for plays no part in the verification. *)
Lemma receipt_resource_ignored `{Hmac} `{CompactDumps} (keys : receipt_keys) (f : string -> string) (receipt : json) :
  resource_receipt_verify (map (fun kv => (kv.1, mkResourceKey (f (rk_resource_id kv.2)) (rk_key_id kv.2) (rk_secret kv.2))) keys) receipt
  = resource_receipt_verify keys receipt.
Proof.
  unfold resource_receipt_verify. destruct receipt as [| | | | | |d]; try done. destruct (nonempty_text _); [|done]. destruct (nonempty_text _); [|done].
  rewrite (assoc_map (fun k => mkResourceKey (f (rk_resource_id k)) (rk_key_id k) (rk_secret k))). by destruct (assoc _ keys).
Qed.

(** A signature that is not ASCII escapes the verifier as another exception. *)
Lemma non_ascii_signature_escapes :
  let receipt := JDict [("signing_key_id", JStr "k1"); ("signature", JStr (String (ascii_of_N 195) (String (ascii_of_N 169) "")))] in
  exists msg, @build_resource_owned_result demo_hmac demo_dumps demo_results R_OUTCOME_UNKNOWN "kernel" "ledger" "att_1" "2024-01-01T00:00:00Z"
    false true (Some receipt) (Some demo_keys) None None None None = Err (TypeError msg).
Proof. eexists. vm_compute. reflexivity. Qed.
