(* ===== verification/IntentRecord.v ===== *)
(** * Intent records and policy bundles: [models/intent_record.py], [models/policy_bundle.py]

    The record an intent, its decision and its boundaries are kept in, the builder
    that derives it, and the portable policy bundle.  A fact of the context is JSON;
    [str.isalnum] of one character is a parameter ([UnicodeData]).

    The theorems: the record a builder makes is about the request it was given and
    reads back as itself; what the two [from_dict] accept prints and reads back. *)

From S2P Require Import Prelude Text Json Errors Timestamps Canonical Contracts Runtime Samples ProofService Receipts.

(** [c.isalnum()] of one character *)
Class UnicodeData := char_isalnum : string -> bool.

Abbreviation strs_item k l := (list_item k (map JStr l)).

Section Records.
Context `{PyText}.

(** [tuple(str(item) for item in data.get(k, ()))] *)
Definition str_tuple (data : dict) (k : string) : py (list string) :=
  items ← py_iter (dget_default data k (JList []));
  Ok (map py_str items).

(** ** [models/intent_record.py] *)
Definition _normalize_string_tuple (raw : json) : list string :=
  match raw with
  | JStr s => [s]
  | JList l => List.filter str_truthy (map py_str l)
  | _ => []
  end.

Record BlastRadiusLimit := mkBlastRadiusLimit { br_name : string; br_summary : string; br_value : json; br_unit : json }.

Definition BlastRadiusLimit_from_dict (raw : json) : py BlastRadiusLimit :=
  data ← expect_mapping raw "blast_radius_limit";
  name ← expect_string (dget data "name") "blast_radius_limit.name";
  summary ← expect_string (dget data "summary") "blast_radius_limit.summary";
  Ok (mkBlastRadiusLimit name summary (dget data "value") (dget data "unit")).

Definition BlastRadiusLimit_to_dict (b : BlastRadiusLimit) : dict :=
  [("name", JStr (br_name b)); ("summary", JStr (br_summary b))] ++ json_item "value" (br_value b) ++ json_item "unit" (br_unit b).

Record IntentBoundaries := mkIntentBoundaries {
  ib_prohibited_actions : list string; ib_abort_conditions : list string; ib_blast_radius_limits : list BlastRadiusLimit;
  ib_required_approvals : list string; ib_required_evidence : list string
}.

Definition IntentBoundaries_from_dict (raw : json) : py IntentBoundaries :=
  data ← expect_mapping raw "boundaries";
  prohibited_actions ← str_tuple data "prohibited_actions";
  abort_conditions ← str_tuple data "abort_conditions";
  limits ← py_iter (dget_default data "blast_radius_limits" (JList []));
  blast_radius_limits ← res_mapM BlastRadiusLimit_from_dict limits;
  required_approvals ← str_tuple data "required_approvals";
  required_evidence ← str_tuple data "required_evidence";
  Ok (mkIntentBoundaries prohibited_actions abort_conditions blast_radius_limits required_approvals required_evidence).

Definition IntentBoundaries_to_dict (b : IntentBoundaries) : dict :=
  strs_item "prohibited_actions" (ib_prohibited_actions b) ++
  strs_item "abort_conditions" (ib_abort_conditions b) ++
  list_item "blast_radius_limits" (map (fun l => JDict (BlastRadiusLimit_to_dict l)) (ib_blast_radius_limits b)) ++
  strs_item "required_approvals" (ib_required_approvals b) ++
  strs_item "required_evidence" (ib_required_evidence b).

Record IntentRecordDecision := mkRecordDecision { rd_outcome : string; rd_summary : string; rd_reason_codes : list string }.

Definition IntentRecordDecision_from_dict (raw : json) : py IntentRecordDecision :=
  data ← expect_mapping raw "decision";
  outcome ← expect_string (dget data "outcome") "decision.outcome";
  summary ← expect_string (dget data "summary") "decision.summary";
  reason_codes ← str_tuple data "reason_codes";
  Ok (mkRecordDecision outcome summary reason_codes).

Definition IntentRecordDecision_to_dict (d : IntentRecordDecision) : dict :=
  [("outcome", JStr (rd_outcome d)); ("summary", JStr (rd_summary d))] ++ strs_item "reason_codes" (rd_reason_codes d).

Record IntentRecordProofState := mkProofState { ps_required_for_execution : bool; ps_status : string; ps_pccb_id : json }.

Definition IntentRecordProofState_from_dict (raw : json) : py IntentRecordProofState :=
  data ← expect_mapping raw "proof";
  status ← expect_string (dget data "status") "proof.status";
  Ok (mkProofState (py_truthy (dget_default data "required_for_execution" (JBool true))) status (dget data "pccb_id")).

Definition IntentRecordProofState_to_dict (p : IntentRecordProofState) : dict :=
  [("required_for_execution", JBool (ps_required_for_execution p)); ("status", JStr (ps_status p))] ++ json_item "pccb_id" (ps_pccb_id p).

Record IntentRecordEvidenceState := mkEvidenceState { es_receipt_id : json; es_refusal_id : json }.

Definition IntentRecordEvidenceState_from_dict (raw : json) : py IntentRecordEvidenceState :=
  data ← expect_mapping raw "execution_evidence";
  Ok (mkEvidenceState (dget data "receipt_id") (dget data "refusal_id")).

Definition IntentRecordEvidenceState_to_dict (e : IntentRecordEvidenceState) : dict :=
  json_item "receipt_id" (es_receipt_id e) ++ json_item "refusal_id" (es_refusal_id e).

Record IntentRecord := mkIntentRecord {
  ir_intent_record_id : string; ir_created_at : datetime; ir_source : string; ir_intent_id : string; ir_tenant : TenantRef;
  ir_subject : PartyRef; ir_audience : AudienceRef; ir_action : ActionSpec; ir_target : TargetRef; ir_decision : IntentRecordDecision;
  ir_boundaries : IntentBoundaries; ir_proof : IntentRecordProofState; ir_execution_evidence : IntentRecordEvidenceState
}.

Definition record_contract : json := JDict [("name", JStr "intent_record"); ("version", JStr "v1alpha1")].

Definition expect_record_contract (data : dict) : py unit :=
  contract ← expect_mapping (dget data "contract") "contract";
  if negb (is_str (dget contract "name") "intent_record") || negb (is_str (dget contract "version") "v1alpha1")
  then Err (ValueError "contract must declare intent_record v1alpha1") else Ok tt.

Definition IntentRecord_from_dict (raw : json) : py IntentRecord :=
  data ← expect_mapping raw "intent_record";
  _ ← expect_record_contract data;
  intent_record_id ← expect_string (dget data "intent_record_id") "intent_record_id";
  created_at ← parse_timestamp (dget data "created_at") "created_at";
  source ← expect_string (dget data "source") "source";
  intent_id ← expect_string (dget data "intent_id") "intent_id";
  tenant ← TenantRef_from_dict (dget data "tenant");
  subject ← PartyRef_from_dict "subject" (dget data "subject");
  audience ← AudienceRef_from_dict "audience" (dget data "audience");
  action ← ActionSpec_from_dict (dget data "action");
  target ← TargetRef_from_dict (dget data "target");
  decision ← IntentRecordDecision_from_dict (dget data "decision");
  boundaries ← IntentBoundaries_from_dict (dget_default data "boundaries" (JDict []));
  proof ← IntentRecordProofState_from_dict (dget data "proof");
  execution_evidence ← IntentRecordEvidenceState_from_dict (dget_default data "execution_evidence" (JDict []));
  Ok (mkIntentRecord intent_record_id created_at source intent_id tenant subject audience action target decision boundaries proof
        execution_evidence).

Definition IntentRecord_to_dict (r : IntentRecord) : dict :=
  [("contract", record_contract);
   ("intent_record_id", JStr (ir_intent_record_id r));
   ("created_at", JStr (format_timestamp (ir_created_at r)));
   ("source", JStr (ir_source r));
   ("intent_id", JStr (ir_intent_id r));
   ("tenant", JDict (TenantRef_to_dict (ir_tenant r)));
   ("subject", JDict (PartyRef_to_dict (ir_subject r)));
   ("audience", JDict (AudienceRef_to_dict (ir_audience r)));
   ("action", JDict (ActionSpec_to_dict (ir_action r)));
   ("target", JDict (TargetRef_to_dict (ir_target r)));
   ("decision", JDict (IntentRecordDecision_to_dict (ir_decision r)));
   ("boundaries", JDict (IntentBoundaries_to_dict (ir_boundaries r)));
   ("proof", JDict (IntentRecordProofState_to_dict (ir_proof r)));
   ("execution_evidence", JDict (IntentRecordEvidenceState_to_dict (ir_execution_evidence r)))].

(** One entry of a mapping of limits. *)
Definition bound_summary (name : string) : string := "Bound " +:+ name +:+ " during delegated execution.".

Definition limit_of_entry (kv : string * json) : BlastRadiusLimit :=
  match kv with
  | (name, JDict value) =>
      mkBlastRadiusLimit (py_str (dget_default value "name" (JStr name))) (py_str (dget_default value "summary" (JStr (bound_summary name))))
        (dget value "value") (dget value "unit")
  | (name, value) => mkBlastRadiusLimit name (bound_summary name) value JNull
  end.

(** The argument: limits given as such, or a JSON value. *)
Definition _normalize_blast_radius_limits (raw : list BlastRadiusLimit + json) : py (list BlastRadiusLimit) :=
  match raw with
  | inl l => Ok l
  | inr (JList l) => res_mapM BlastRadiusLimit_from_dict l
  | inr (JDict d) => Ok (map limit_of_entry d)
  | inr _ => Ok []
  end.

Context `{UnicodeData}.

(** [s.strip("_")] *)
Fixpoint drop_underscores (l : list string) : list string :=
  match l with c :: r => if String.eqb c "_" then drop_underscores r else l | [] => [] end.

Definition _slug_intent_record_source (value : string) : string :=
  let cleaned := map (fun char => if char_isalnum char then char else "_") (py_chars value) in
  let s := concat_chars (reverse (drop_underscores (reverse (drop_underscores cleaned)))) in
  if str_truthy s then s else "intent_record".

(** The optional arguments of the builder. *)
Record record_options := mkRecordOptions {
  ro_intent_record_id : option string; ro_created_at : option datetime; ro_pccb_id : json; ro_receipt_id : json; ro_refusal_id : json;
  ro_prohibited_actions : option (list string); ro_abort_conditions : option (list string);
  ro_blast_radius_limits : option (list BlastRadiusLimit + json); ro_required_approvals : option (list string);
  ro_required_evidence : option (list string)
}.

(** [a or b] on tuples *)
Definition or_list (a b : list string) : list string := match a with [] => b | _ => a end.

Definition derived_required_approvals (context : DynamicContextInput) (decision : PolicyDecision) (o : option (list string)) : list string :=
  match o with
  | Some l => l
  | None => or_list (_normalize_string_tuple (dget (cx_facts context) "required_approval_chain"))
              (or_list (pd_approver_types decision) (cx_approver_types context))
  end.

Definition derived_required_evidence (context : DynamicContextInput) (decision : PolicyDecision) (o : option (list string)) : list string :=
  match o with
  | Some l => l
  | None => or_list (or_list (pd_required_evidence decision) (cx_required_evidence_types context))
              (_normalize_string_tuple (dget (cx_facts context) "required_evidence_types"))
  end.

Definition build_intent_record (source : string) (intent : ActionIntent) (context : DynamicContextInput) (decision : PolicyDecision)
    (o : record_options) : py IntentRecord :=
  let fact k := dget (cx_facts context) k in
  limits ← _normalize_blast_radius_limits (default (inr (fact "blast_radius_limits")) (ro_blast_radius_limits o));
  let boundaries := mkIntentBoundaries
    (default (_normalize_string_tuple (fact "prohibited_actions")) (ro_prohibited_actions o))
    (default (_normalize_string_tuple (fact "abort_conditions")) (ro_abort_conditions o))
    limits (derived_required_approvals context decision (ro_required_approvals o))
    (derived_required_evidence context decision (ro_required_evidence o)) in
  let proof_status := if not_none (ro_pccb_id o) then "issued" else "not-issued" in
  let resolved_record_id :=
    match ro_intent_record_id o with
    | Some id => if str_truthy id then id else "ir_" +:+ _slug_intent_record_source source +:+ "_" +:+ in_intent_id intent
    | None => "ir_" +:+ _slug_intent_record_source source +:+ "_" +:+ in_intent_id intent
    end in
  Ok (mkIntentRecord resolved_record_id (default (cx_now context) (ro_created_at o)) source (in_intent_id intent) (in_tenant intent)
        (in_requester intent) (cx_audience context) (in_action intent) (in_target intent)
        (mkRecordDecision (outcome_text (pd_outcome decision)) (pd_summary decision) (pd_reason_codes decision))
        boundaries (mkProofState true proof_status (ro_pccb_id o)) (mkEvidenceState (ro_receipt_id o) (ro_refusal_id o))).

(** ** [models/policy_bundle.py] *)
Record PolicyBundleRule := mkBundleRule {
  bl_rule_id : string; bl_effect : string; bl_summary : string; bl_reason_code : string; bl_capabilities : list string;
  bl_audiences : list string; bl_parameter_constraints : dict; bl_resource_selectors : list dict;
  bl_required_evidence_types : list string; bl_approver_types : list string; bl_metadata : dict
}.

Definition PolicyBundleRule_from_dict (raw : json) : py PolicyBundleRule :=
  data ← expect_mapping raw "policy_bundle.rules[]";
  rule_id ← expect_string (dget data "rule_id") "policy_bundle.rules[].rule_id";
  effect ← expect_string (dget data "effect") "policy_bundle.rules[].effect";
  summary ← expect_string (dget data "summary") "policy_bundle.rules[].summary";
  reason_code ← expect_string (dget data "reason_code") "policy_bundle.rules[].reason_code";
  capabilities ← str_tuple data "capabilities";
  audiences ← str_tuple data "audiences";
  parameter_constraints ← py_dict (dget_default data "parameter_constraints" (JDict []));
  selectors ← py_iter (dget_default data "resource_selectors" (JList []));
  resource_selectors ← res_mapM py_dict selectors;
  required_evidence_types ← str_tuple data "required_evidence_types";
  approver_types ← str_tuple data "approver_types";
  metadata ← py_dict (dget_default data "metadata" (JDict []));
  Ok (mkBundleRule rule_id effect summary reason_code capabilities audiences parameter_constraints resource_selectors
        required_evidence_types approver_types metadata).

Definition PolicyBundleRule_to_dict (r : PolicyBundleRule) : dict :=
  [("rule_id", JStr (bl_rule_id r)); ("effect", JStr (bl_effect r)); ("summary", JStr (bl_summary r));
   ("reason_code", JStr (bl_reason_code r)); ("capabilities", JList (map JStr (bl_capabilities r)))] ++
  strs_item "audiences" (bl_audiences r) ++
  dict_item "parameter_constraints" (bl_parameter_constraints r) ++
  list_item "resource_selectors" (map JDict (bl_resource_selectors r)) ++
  strs_item "required_evidence_types" (bl_required_evidence_types r) ++
  strs_item "approver_types" (bl_approver_types r) ++
  dict_item "metadata" (bl_metadata r).

Definition bundle_rule_applies_to (r : PolicyBundleRule) (capability : string) (audience : option string) : bool :=
  if negb (bool_decide (bl_capabilities r = [])) && negb (str_mem capability (bl_capabilities r)) then false
  else match audience with
       | Some a => negb (negb (bool_decide (bl_audiences r = [])) && negb (str_mem a (bl_audiences r)))
       | None => true
       end.

Record PolicyBundle := mkPolicyBundle {
  pb_bundle_id : string; pb_issued_at : datetime; pb_issuer : string; pb_rules : list PolicyBundleRule; pb_tenant_id : json;
  pb_not_before : option datetime; pb_expires_at : option datetime; pb_audiences : list string; pb_capabilities : list string;
  pb_metadata : dict
}.

Definition expect_bundle_contract (data : dict) : py unit :=
  contract ← expect_mapping (dget data "contract") "policy_bundle.contract";
  if negb (is_str (dget contract "name") "policy_bundle") || negb (is_str (dget contract "version") "v1")
  then Err (ValueError "policy bundle contract must declare policy_bundle v1") else Ok tt.

Definition PolicyBundle_from_dict (raw : json) : py PolicyBundle :=
  data ← expect_mapping raw "policy_bundle";
  _ ← expect_bundle_contract data;
  bundle_id ← expect_string (dget data "bundle_id") "policy_bundle.bundle_id";
  issued_at ← parse_timestamp (dget data "issued_at") "policy_bundle.issued_at";
  issuer ← expect_string (dget data "issuer") "policy_bundle.issuer";
  items ← py_iter (dget_default data "rules" (JList []));
  rules ← res_mapM PolicyBundleRule_from_dict items;
  not_before ← opt_timestamp (dget data "not_before") "policy_bundle.not_before";
  expires_at ← opt_timestamp (dget data "expires_at") "policy_bundle.expires_at";
  audiences ← str_tuple data "audiences";
  capabilities ← str_tuple data "capabilities";
  metadata ← py_dict (dget_default data "metadata" (JDict []));
  Ok (mkPolicyBundle bundle_id issued_at issuer rules (dget data "tenant_id") not_before expires_at audiences capabilities metadata).

Definition timestamp_item (k : string) (t : option datetime) : dict :=
  match t with Some t => [(k, JStr (format_timestamp t))] | None => [] end.

Definition PolicyBundle_to_dict (b : PolicyBundle) : dict :=
  [("contract", contract_header "policy_bundle"); ("bundle_id", JStr (pb_bundle_id b));
   ("issued_at", JStr (format_timestamp (pb_issued_at b))); ("issuer", JStr (pb_issuer b));
   ("rules", JList (map (fun r => JDict (PolicyBundleRule_to_dict r)) (pb_rules b)))] ++
  json_item "tenant_id" (pb_tenant_id b) ++
  timestamp_item "not_before" (pb_not_before b) ++
  timestamp_item "expires_at" (pb_expires_at b) ++
  strs_item "audiences" (pb_audiences b) ++
  strs_item "capabilities" (pb_capabilities b) ++
  dict_item "metadata" (pb_metadata b).

Definition rules_for (b : PolicyBundle) (capability : string) (audience : option string) : list PolicyBundleRule :=
  List.filter (fun rule => bundle_rule_applies_to rule capability audience) (pb_rules b).
End Records.

(** ** Facts *)
Section Facts.
Context `{PyText}.

Lemma map_py_str l : map py_str (map JStr l) = l.
Proof. induction l; simpl; congruence. Qed.

Lemma str_tuple_lookup data k l : assoc k data = (if py_truthy (JList (map JStr l)) then Some (JList (map JStr l)) else None) ->
  str_tuple data k = Ok l.
Proof. intros Hd. unfold str_tuple, dget_default. rewrite Hd, get_list_item. simpl. by rewrite map_py_str. Qed.

Definition BlastRadiusLimit_wf (b : BlastRadiusLimit) : bool := str_truthy (br_name b) && str_truthy (br_summary b).

#[global] Instance BlastRadiusLimit_roundtrip : RoundTrip _ BlastRadiusLimit_to_dict BlastRadiusLimit_from_dict BlastRadiusLimit_wf.
Proof. roundtrip_tac BlastRadiusLimit_wf BlastRadiusLimit_from_dict BlastRadiusLimit_to_dict. Qed.

Lemma limits_roundtrip l : forallb BlastRadiusLimit_wf l = true ->
  res_mapM BlastRadiusLimit_from_dict (map (fun b => JDict (BlastRadiusLimit_to_dict b)) l) = Ok l.
Proof. apply (res_mapM_roundtrip _ (fun b => JDict (BlastRadiusLimit_to_dict b))). intros b. apply BlastRadiusLimit_roundtrip. Qed.

(** Evaluate one [str_tuple] of a [from_dict] on what [to_dict] wrote. *)
Ltac eval_str_tuple :=
  match goal with |- context [str_tuple ?D ?k] =>
    erewrite (str_tuple_lookup D k) by (try match D with ?to ?a => unfold to end; rewrite ?assoc_app; simpl; rewrite ?assoc_opt_item; simpl; rewrite ?option_eta; reflexivity)
  end.

Definition IntentBoundaries_wf (b : IntentBoundaries) : bool := forallb BlastRadiusLimit_wf (ib_blast_radius_limits b).

#[global] Instance IntentBoundaries_roundtrip : RoundTrip _ IntentBoundaries_to_dict IntentBoundaries_from_dict IntentBoundaries_wf.
Proof.
  intros [pa ac br ra re] Hw. unfold IntentBoundaries_wf in Hw. simpl in Hw. unfold IntentBoundaries_from_dict.
  cbn [expect_mapping mbind res_bind]. repeat eval_str_tuple. eval_lookups. read_back. rewrite limits_roundtrip by done. done.
Qed.

Definition IntentRecordDecision_wf (d : IntentRecordDecision) : bool := str_truthy (rd_outcome d) && str_truthy (rd_summary d).

#[global] Instance IntentRecordDecision_roundtrip :
  RoundTrip _ IntentRecordDecision_to_dict IntentRecordDecision_from_dict IntentRecordDecision_wf.
Proof.
  intros [o sm rs] Hw. unfold IntentRecordDecision_wf in Hw. simpl in Hw. split_andb. unfold IntentRecordDecision_from_dict.
  cbn [expect_mapping mbind res_bind]. repeat eval_str_tuple. eval_lookups. read_back. done.
Qed.

Definition IntentRecordProofState_wf (p : IntentRecordProofState) : bool := str_truthy (ps_status p).

#[global] Instance IntentRecordProofState_roundtrip :
  RoundTrip _ IntentRecordProofState_to_dict IntentRecordProofState_from_dict IntentRecordProofState_wf.
Proof.
  roundtrip_tac IntentRecordProofState_wf IntentRecordProofState_from_dict IntentRecordProofState_to_dict.
Qed.

#[global] Instance IntentRecordEvidenceState_roundtrip :
  RoundTrip _ IntentRecordEvidenceState_to_dict IntentRecordEvidenceState_from_dict (fun _ => true).
Proof. intros [a b] _. unfold IntentRecordEvidenceState_from_dict. eval_lookups. read_back. done. Qed.

Definition IntentRecord_wf (r : IntentRecord) : Prop :=
  datetime_ok (ir_created_at r) /\
  str_truthy (ir_intent_record_id r) && str_truthy (ir_source r) && str_truthy (ir_intent_id r) && TenantRef_wf (ir_tenant r) &&
  PartyRef_wf (ir_subject r) && AudienceRef_wf (ir_audience r) && ActionSpec_wf (ir_action r) && TargetRef_wf (ir_target r) &&
  IntentRecordDecision_wf (ir_decision r) && IntentBoundaries_wf (ir_boundaries r) && IntentRecordProofState_wf (ir_proof r) = true.

Lemma IntentRecord_from_to r : IntentRecord_wf r -> IntentRecord_from_dict (JDict (IntentRecord_to_dict r)) = Ok r.
Proof.
  destruct r as [id at_ src iid ten sub aud act tgt dec bnd prf evd]; unfold IntentRecord_wf; simpl; intros (Ht & Hw); split_andb.
  unfold IntentRecord_from_dict, expect_record_contract. eval_lookups. cbn [record_contract]. unfold record_contract. cbn [expect_mapping mbind res_bind].
  simpl (negb _ || negb _). rewrite (IntentRecordEvidenceState_roundtrip evd) by done. read_back. done.
Qed.

Definition PolicyBundleRule_wf (r : PolicyBundleRule) : bool :=
  str_truthy (bl_rule_id r) && str_truthy (bl_effect r) && str_truthy (bl_summary r) && str_truthy (bl_reason_code r).

Lemma py_dicts_Ok l : res_mapM py_dict (map JDict l) = Ok l.
Proof. apply (res_mapM_roundtrip _ _ (fun _ => true)); [done|]. by induction l. Qed.

#[global] Instance PolicyBundleRule_roundtrip : RoundTrip _ PolicyBundleRule_to_dict PolicyBundleRule_from_dict PolicyBundleRule_wf.
Proof.
  intros [id ef sm rc caps auds pcs sels evs aps meta] Hw. unfold PolicyBundleRule_wf in Hw. simpl in Hw. split_andb.
  unfold PolicyBundleRule_from_dict. cbn [expect_mapping mbind res_bind].
  assert (str_tuple (PolicyBundleRule_to_dict (mkBundleRule id ef sm rc caps auds pcs sels evs aps meta)) "capabilities" = Ok caps) as ->.
  { unfold str_tuple, dget_default. simpl. by rewrite map_py_str. }
  repeat eval_str_tuple. eval_lookups. read_back. rewrite py_dicts_Ok. read_back. done.
Qed.

Lemma bundle_rules_roundtrip l : forallb PolicyBundleRule_wf l = true ->
  res_mapM PolicyBundleRule_from_dict (map (fun r => JDict (PolicyBundleRule_to_dict r)) l) = Ok l.
Proof. apply (res_mapM_roundtrip _ (fun r => JDict (PolicyBundleRule_to_dict r))). intros b. apply PolicyBundleRule_roundtrip. Qed.

Definition opt_datetime_ok (t : option datetime) : Prop := match t with Some t => datetime_ok t | None => True end.

Definition PolicyBundle_wf (b : PolicyBundle) : Prop :=
  datetime_ok (pb_issued_at b) /\ opt_datetime_ok (pb_not_before b) /\ opt_datetime_ok (pb_expires_at b) /\
  str_truthy (pb_bundle_id b) && str_truthy (pb_issuer b) && forallb PolicyBundleRule_wf (pb_rules b) = true.

Lemma assoc_timestamp_item k k' t : assoc k (timestamp_item k' t) = if String.eqb k k' then (fun t => JStr (format_timestamp t)) <$> t else None.
Proof. destruct t; simpl; by destruct (String.eqb k k'). Qed.

Lemma opt_timestamp_Ok t f : opt_datetime_ok t -> opt_timestamp match (fun t => JStr (format_timestamp t)) <$> t with Some v => v | None => JNull end f = Ok t.
Proof.
  destruct t as [t|]; [|done]. intros Ht. unfold opt_timestamp. cbn [fmap option_fmap option_map].
  assert (py_truthy (JStr (format_timestamp t)) = true) as ->.
  { pose proof (parse_format t f Ht) as Hp. unfold py_truthy. by destruct (format_timestamp t). }
  by rewrite parse_format.
Qed.

Ltac eval_bundle := unfold dget, dget_default, PolicyBundle_to_dict; rewrite !assoc_app, !assoc_timestamp_item, !assoc_opt_item; simpl.

Lemma PolicyBundle_from_to b : PolicyBundle_wf b -> PolicyBundle_from_dict (JDict (PolicyBundle_to_dict b)) = Ok b.
Proof.
  destruct b as [id at_ iss rules ten nb exp auds caps meta]; unfold PolicyBundle_wf; simpl; intros (Ht & Hnb & Hexp & Hw); split_andb.
  set (b := mkPolicyBundle id at_ iss rules ten nb exp auds caps meta). unfold PolicyBundle_from_dict, expect_bundle_contract.
  assert (dget (PolicyBundle_to_dict b) "not_before" = match (fun t => JStr (format_timestamp t)) <$> nb with Some v => v | None => JNull end) as Hb1.
  { eval_bundle. by destruct nb. }
  assert (dget (PolicyBundle_to_dict b) "expires_at" = match (fun t => JStr (format_timestamp t)) <$> exp with Some v => v | None => JNull end) as Hb2.
  { eval_bundle. by destruct exp. }
  assert (str_tuple (PolicyBundle_to_dict b) "audiences" = Ok auds) as Hb3.
  { apply str_tuple_lookup. eval_bundle. by destruct auds. }
  assert (str_tuple (PolicyBundle_to_dict b) "capabilities" = Ok caps) as Hb4.
  { apply str_tuple_lookup. eval_bundle. by destruct caps. }
  assert (dget (PolicyBundle_to_dict b) "tenant_id" = ten) as Hb5.
  { eval_bundle. by destruct ten. }
  assert (py_dict (dget_default (PolicyBundle_to_dict b) "metadata" (JDict [])) = Ok meta) as Hb6.
  { eval_bundle. by destruct meta. }
  cbn [expect_mapping mbind res_bind]. rewrite Hb1, Hb2, Hb3, Hb4, Hb5, Hb6.
  unfold dget, dget_default. cbn [PolicyBundle_to_dict app assoc String.eqb Ascii.eqb Bool.eqb b pb_bundle_id pb_issued_at pb_issuer pb_rules].
  simpl (negb _ || negb _). cbn [contract_header expect_mapping mbind res_bind]. read_back.
  rewrite bundle_rules_roundtrip by done. read_back. by rewrite !opt_timestamp_Ok.
Qed.

(** *** What [from_dict] accepts *)
Lemma BlastRadiusLimit_from_wf raw b : BlastRadiusLimit_from_dict raw = Ok b -> BlastRadiusLimit_wf b = true.
Proof. unfold BlastRadiusLimit_from_dict, BlastRadiusLimit_wf. intros Hf. from_dict_inv Hf. simpl. by apply andb_true_iff. Qed.
Lemma IntentRecordDecision_from_wf raw b : IntentRecordDecision_from_dict raw = Ok b -> IntentRecordDecision_wf b = true.
Proof. unfold IntentRecordDecision_from_dict, IntentRecordDecision_wf. intros Hf. from_dict_inv Hf. simpl. by apply andb_true_iff. Qed.
Lemma IntentRecordProofState_from_wf raw b : IntentRecordProofState_from_dict raw = Ok b -> IntentRecordProofState_wf b = true.
Proof. unfold IntentRecordProofState_from_dict, IntentRecordProofState_wf. intros Hf. by from_dict_inv Hf. Qed.
Lemma IntentBoundaries_from_wf raw b : IntentBoundaries_from_dict raw = Ok b -> IntentBoundaries_wf b = true.
Proof.
  unfold IntentBoundaries_from_dict, IntentBoundaries_wf. intros Hf. from_dict_inv Hf. simpl.
  eapply res_mapM_forallb; [|eassumption]. apply BlastRadiusLimit_from_wf.
Qed.
Hint Resolve IntentRecordDecision_from_wf IntentRecordProofState_from_wf IntentBoundaries_from_wf : kernel.

Lemma IntentRecord_from_wf raw r : IntentRecord_from_dict raw = Ok r -> IntentRecord_wf r.
Proof.
  unfold IntentRecord_from_dict, IntentRecord_wf. intros Hf. from_dict_inv Hf. simpl. rewrite !andb_true_iff. split_and!; eauto with kernel.
Qed.

Lemma PolicyBundleRule_from_wf raw r : PolicyBundleRule_from_dict raw = Ok r -> PolicyBundleRule_wf r = true.
Proof. unfold PolicyBundleRule_from_dict, PolicyBundleRule_wf. intros Hf. from_dict_inv Hf. simpl. by rewrite !andb_true_iff. Qed.

Lemma opt_timestamp_wf raw f t : opt_timestamp raw f = Ok t -> opt_datetime_ok t.
Proof.
  unfold opt_timestamp. destruct (py_truthy raw); [|by intros [= <-]]. intros (t' & Ht & [= <-])%bind_Ok. simpl. by eapply parse_timestamp_ok.
Qed.

Lemma PolicyBundle_from_wf raw b : PolicyBundle_from_dict raw = Ok b -> PolicyBundle_wf b.
Proof.
  unfold PolicyBundle_from_dict, PolicyBundle_wf. intros Hf. from_dict_inv Hf. simpl. rewrite !andb_true_iff.
  split_and!; eauto using opt_timestamp_wf. eapply res_mapM_forallb; [|eassumption]. apply PolicyBundleRule_from_wf.
Qed.

Lemma record_id_truthy x y : str_truthy ("ir_" +:+ x +:+ y) = true.
Proof. done. Qed.
End Facts.

(** ** Properties *)

(** Whatever [IntentRecord.from_dict] and [PolicyBundle.from_dict] accept
    prints, with [to_dict], to a document they read back to the same object; and
    [rules_for] keeps exactly the rules that name the capability and the audience
    or leave them open, in their order. *)
Theorem record_artifacts_roundtrip `{PyText} (raw : json) :
  (forall r, IntentRecord_from_dict raw = Ok r -> IntentRecord_from_dict (JDict (IntentRecord_to_dict r)) = Ok r) /\
  (forall b, PolicyBundle_from_dict raw = Ok b -> PolicyBundle_from_dict (JDict (PolicyBundle_to_dict b)) = Ok b /\
     forall rule capability audience, rule ∈ rules_for b capability audience <->
       rule ∈ pb_rules b /\ (bl_capabilities rule = [] \/ capability ∈ bl_capabilities rule) /\
       (audience = None \/ bl_audiences rule = [] \/ exists a, audience = Some a /\ a ∈ bl_audiences rule)).
Proof.
  split; [intros r Hr; eapply IntentRecord_from_to, IntentRecord_from_wf, Hr|].
  intros b Hb. split; [eapply PolicyBundle_from_to, PolicyBundle_from_wf, Hb|]. intros rule capability audience.
  unfold rules_for. rewrite list_elem_of_In, filter_In, <- list_elem_of_In. unfold bundle_rule_applies_to.
  destruct (bool_decide_reflect (bl_capabilities rule = [])) as [Hc|Hc]; destruct (bool_decide_reflect (bl_audiences rule = [])) as [Ha|Ha];
    destruct (str_mem capability (bl_capabilities rule)) eqn:Hm; destruct audience as [a|]; simpl;
    try (destruct (str_mem a (bl_audiences rule)) eqn:Hma); simpl; rewrite <- ?str_mem_spec; naive_solver (rewrite <- ?str_mem_spec in *; congruence).
Qed.

(** The record [build_intent_record] makes is about the request it was given:
    it names the intent, its tenant, requester, action and target, the audience of
    the context and the outcome of the decision; it says a proof was issued exactly
    when one is named, and the approvals and evidence an explicit argument, the
    facts or the decision ask for are its boundaries.  For well-formed parts it
    reads back as itself. *)
Theorem intent_record_faithful `{PyText} `{UnicodeData} (source : string) (intent : ActionIntent) (context : DynamicContextInput)
    (decision : PolicyDecision) (o : record_options) (r : IntentRecord) :
  build_intent_record source intent context decision o = Ok r ->
  (ir_intent_id r = in_intent_id intent /\ ir_tenant r = in_tenant intent /\ ir_subject r = in_requester intent /\
   ir_action r = in_action intent /\ ir_target r = in_target intent /\ ir_audience r = cx_audience context) /\
  rd_outcome (ir_decision r) = outcome_text (pd_outcome decision) /\
  ps_required_for_execution (ir_proof r) = true /\ (ps_status (ir_proof r) = "issued" <-> ps_pccb_id (ir_proof r) <> JNull) /\
  (ro_required_approvals o = None -> forall a, a ∈ pd_approver_types decision ->
     _normalize_string_tuple (dget (cx_facts context) "required_approval_chain") = [] -> a ∈ ib_required_approvals (ir_boundaries r)) /\
  (ro_required_evidence o = None -> forall e, e ∈ pd_required_evidence decision -> e ∈ ib_required_evidence (ir_boundaries r)) /\
  (ActionIntent_wf intent -> AudienceRef_wf (cx_audience context) = true -> datetime_ok (ir_created_at r) -> source <> "" ->
   pd_summary decision <> "" -> forallb BlastRadiusLimit_wf (ib_blast_radius_limits (ir_boundaries r)) = true ->
   IntentRecord_from_dict (JDict (IntentRecord_to_dict r)) = Ok r).
Proof.
  unfold build_intent_record. cbv zeta. intros (limits & Hl & Hr)%bind_Ok. injection Hr as <-. cbn [ir_intent_id ir_tenant ir_subject ir_action ir_target
    ir_audience ir_decision rd_outcome ir_proof ps_required_for_execution ps_status ps_pccb_id ir_boundaries ib_required_approvals ib_required_evidence
    ir_created_at ib_blast_radius_limits]. split_and!; try done.
  - by destruct (ro_pccb_id o).
  - intros -> a Ha Hf. unfold derived_required_approvals. rewrite Hf. simpl. by destruct (pd_approver_types decision); [apply not_elem_of_nil in Ha|].
  - intros -> e He. unfold derived_required_evidence. by destruct (pd_required_evidence decision); [apply not_elem_of_nil in He|].
  - intros (_ & _ & Hi) Ha Ht Hs Hsum Hlim. apply IntentRecord_from_to. unfold IntentRecord_wf.
    cbn [ir_intent_record_id ir_source ir_intent_id ir_tenant ir_subject ir_action ir_target ir_audience ir_decision ir_proof ir_boundaries ir_created_at].
    split; [done|]. split_andb. rewrite !andb_true_iff. unfold IntentRecordDecision_wf, IntentBoundaries_wf, IntentRecordProofState_wf.
    cbn [rd_outcome rd_summary ib_blast_radius_limits ps_status]. rewrite andb_true_iff. split_and!; try done.
    + destruct (ro_intent_record_id o) as [id|]; [|apply record_id_truthy]. destruct (str_truthy id) eqn:Hid; [done|apply record_id_truthy].
    + unfold str_truthy. by destruct (String.eqb_spec source "").
    + by destruct (pd_outcome decision).
    + unfold str_truthy. by destruct (String.eqb_spec (pd_summary decision) "").
    + by destruct (not_none _).
Qed.

Definition demo_unicode : UnicodeData := fun c => negb (str_mem c [" "; "-"; "."; "/"; "_"]).
Definition demo_options : record_options := mkRecordOptions None None (JStr "pccb_1") JNull JNull None None None None None.
Definition demo_record : py IntentRecord := @build_intent_record demo_text demo_unicode "refund api" sample_intent sample_context sample_decision demo_options.

Lemma intent_record_faithful_witness :
  exists r, demo_record = Ok r /\ ps_status (ir_proof r) = "issued" /\ @IntentRecord_from_dict demo_text (JDict (IntentRecord_to_dict r)) = Ok r.
Proof.
  destruct demo_record as [r|e] eqn:He; [|vm_compute in He; discriminate He]. exists r. split; [reflexivity|].
  destruct (@intent_record_faithful demo_text demo_unicode _ _ _ _ _ _ He) as (_ & _ & _ & Hp & _ & _ & Hrt).
  split; [apply Hp; vm_compute in He; injection He as <-; discriminate|].
  apply Hrt; [..|vm_compute in He; injection He as <-; reflexivity].
  - vm_compute. repeat split; congruence.
  - reflexivity.
  - vm_compute in He. injection He as <-. vm_compute. split; congruence.
  - discriminate.
  - discriminate.
Defined.
