(* ===== verification/InvoiceLedger.v ===== *)
(** * Reconciliation records: [models/invoice_payment.py], [reconciliation/base.py]

    The records of the invoice-payment ledger and the state that holds them, whose
    tables are finite maps by key; [to_dict] lists them in key order.  The mapper of
    provider states is here too.

    The theorem: the state reads back from what it prints, whatever it holds. *)

From S2P Require Import Prelude Text Json Errors Timestamps Canonical Contracts Runtime Samples ProofService Receipts.

Section Ledger.
Context `{PyText}.

(** [raw[k]]: every value but a mapping refuses a text as an index. *)
Definition subscript (raw : json) (k : string) : py json :=
  match raw with JDict d => getitem d k | _ => Err (TypeError "indices must be integers") end.

Definition str_field (raw : json) (k : string) : py string := v ← subscript raw k; Ok (py_str v).
Definition int_field (raw : json) (k : string) : py Z := v ← subscript raw k; py_int v.

(** [raw.get(k, default)] *)
Definition get_field (raw : json) (k : string) (d : json) : py json :=
  match raw with JDict r => Ok (dget_default r k d) | _ => Err (AttributeError "get") end.

Record PayeeEnrollment := mkPayee {
  pe_payer_entity_id : string; pe_supplier_id : string; pe_bank_account_reference : string; pe_display_name : json
}.

Definition enrollment_key (p : PayeeEnrollment) : string := pe_payer_entity_id p +:+ ":" +:+ pe_supplier_id p.

Definition PayeeEnrollment_from_dict (raw : json) : py PayeeEnrollment :=
  payer_entity_id ← str_field raw "payer_entity_id";
  supplier_id ← str_field raw "supplier_id";
  bank_account_reference ← str_field raw "bank_account_reference";
  display_name ← get_field raw "display_name" JNull;
  Ok (mkPayee payer_entity_id supplier_id bank_account_reference display_name).

Definition PayeeEnrollment_to_dict (p : PayeeEnrollment) : dict :=
  [("payer_entity_id", JStr (pe_payer_entity_id p)); ("supplier_id", JStr (pe_supplier_id p));
   ("bank_account_reference", JStr (pe_bank_account_reference p))] ++ json_item "display_name" (pe_display_name p).

Record InvoiceRecord := mkInvoice {
  iv_invoice_id : string; iv_payer_entity_id : string; iv_supplier_id : string; iv_bank_account_reference : string;
  iv_amount_minor : Z; iv_currency : string; iv_status : string; iv_payment_execution_id : json
}.

Definition InvoiceRecord_from_dict (raw : json) : py InvoiceRecord :=
  invoice_id ← str_field raw "invoice_id";
  payer_entity_id ← str_field raw "payer_entity_id";
  supplier_id ← str_field raw "supplier_id";
  bank_account_reference ← str_field raw "bank_account_reference";
  amount_minor ← int_field raw "amount_minor";
  currency ← str_field raw "currency";
  status ← get_field raw "status" (JStr "approved");
  payment_execution_id ← get_field raw "payment_execution_id" JNull;
  Ok (mkInvoice invoice_id payer_entity_id supplier_id bank_account_reference amount_minor currency (py_str status) payment_execution_id).

Definition InvoiceRecord_to_dict (i : InvoiceRecord) : dict :=
  [("invoice_id", JStr (iv_invoice_id i)); ("payer_entity_id", JStr (iv_payer_entity_id i)); ("supplier_id", JStr (iv_supplier_id i));
   ("bank_account_reference", JStr (iv_bank_account_reference i)); ("amount_minor", JInt (iv_amount_minor i));
   ("currency", JStr (iv_currency i)); ("status", JStr (iv_status i))] ++
  json_item "payment_execution_id" (iv_payment_execution_id i).

Record PaymentBatchRecord := mkBatch {
  pbr_payment_batch_id : string; pbr_payment_date : string; pbr_batch_hash : string; pbr_payment_execution_ids : list string
}.

Definition PaymentBatchRecord_from_dict (raw : json) : py PaymentBatchRecord :=
  payment_batch_id ← str_field raw "payment_batch_id";
  payment_date ← str_field raw "payment_date";
  batch_hash ← str_field raw "batch_hash";
  ids ← get_field raw "payment_execution_ids" (JList []);
  items ← py_iter ids;
  Ok (mkBatch payment_batch_id payment_date batch_hash (map py_str items)).

Definition PaymentBatchRecord_to_dict (b : PaymentBatchRecord) : dict :=
  [("payment_batch_id", JStr (pbr_payment_batch_id b)); ("payment_date", JStr (pbr_payment_date b));
   ("batch_hash", JStr (pbr_batch_hash b)); ("payment_execution_ids", strings (pbr_payment_execution_ids b))].

Record PaymentExecutionRecord := mkPaymentExecution {
  px_payment_execution_id : string; px_payer_entity_id : string; px_supplier_id : string; px_bank_account_reference : string;
  px_invoice_ids : list string; px_amount_minor : Z; px_currency : string; px_payment_date : string; px_payment_batch_id : string;
  px_proposer_id : string; px_request_id : string; px_intent_id : string; px_pccb_id : string; px_executed_at : string;
  px_reconciliation_status : string
}.

Definition PaymentExecutionRecord_from_dict (raw : json) : py PaymentExecutionRecord :=
  payment_execution_id ← str_field raw "payment_execution_id";
  payer_entity_id ← str_field raw "payer_entity_id";
  supplier_id ← str_field raw "supplier_id";
  bank_account_reference ← str_field raw "bank_account_reference";
  ids ← subscript raw "invoice_ids";
  items ← py_iter ids;
  amount_minor ← int_field raw "amount_minor";
  currency ← str_field raw "currency";
  payment_date ← str_field raw "payment_date";
  payment_batch_id ← str_field raw "payment_batch_id";
  proposer_id ← str_field raw "proposer_id";
  request_id ← str_field raw "request_id";
  intent_id ← str_field raw "intent_id";
  pccb_id ← str_field raw "pccb_id";
  executed_at ← str_field raw "executed_at";
  reconciliation_status ← get_field raw "reconciliation_status" (JStr "recorded-local");
  Ok (mkPaymentExecution payment_execution_id payer_entity_id supplier_id bank_account_reference (map py_str items) amount_minor currency
        payment_date payment_batch_id proposer_id request_id intent_id pccb_id executed_at (py_str reconciliation_status)).

Definition PaymentExecutionRecord_to_dict (p : PaymentExecutionRecord) : dict :=
  [("payment_execution_id", JStr (px_payment_execution_id p)); ("payer_entity_id", JStr (px_payer_entity_id p));
   ("supplier_id", JStr (px_supplier_id p)); ("bank_account_reference", JStr (px_bank_account_reference p));
   ("invoice_ids", strings (px_invoice_ids p)); ("amount_minor", JInt (px_amount_minor p)); ("currency", JStr (px_currency p));
   ("payment_date", JStr (px_payment_date p)); ("payment_batch_id", JStr (px_payment_batch_id p));
   ("proposer_id", JStr (px_proposer_id p)); ("request_id", JStr (px_request_id p)); ("intent_id", JStr (px_intent_id p));
   ("pccb_id", JStr (px_pccb_id p)); ("executed_at", JStr (px_executed_at p));
   ("reconciliation_status", JStr (px_reconciliation_status p))].

Record PaymentReconciliationRecord := mkReconciliation {
  rr_reconciliation_id : string; rr_payment_execution_id : string; rr_payment_batch_id : string; rr_provider_reference : string;
  rr_amount_minor : Z; rr_currency : string; rr_status : string; rr_recorded_at : string
}.

Definition PaymentReconciliationRecord_from_dict (raw : json) : py PaymentReconciliationRecord :=
  reconciliation_id ← str_field raw "reconciliation_id";
  payment_execution_id ← str_field raw "payment_execution_id";
  payment_batch_id ← str_field raw "payment_batch_id";
  provider_reference ← str_field raw "provider_reference";
  amount_minor ← int_field raw "amount_minor";
  currency ← str_field raw "currency";
  status ← str_field raw "status";
  recorded_at ← str_field raw "recorded_at";
  Ok (mkReconciliation reconciliation_id payment_execution_id payment_batch_id provider_reference amount_minor currency status recorded_at).

Definition PaymentReconciliationRecord_to_dict (r : PaymentReconciliationRecord) : dict :=
  [("reconciliation_id", JStr (rr_reconciliation_id r)); ("payment_execution_id", JStr (rr_payment_execution_id r));
   ("payment_batch_id", JStr (rr_payment_batch_id r)); ("provider_reference", JStr (rr_provider_reference r));
   ("amount_minor", JInt (rr_amount_minor r)); ("currency", JStr (rr_currency r)); ("status", JStr (rr_status r));
   ("recorded_at", JStr (rr_recorded_at r))].

(** [{key: from_dict(value) for key, value in raw.items()}]; the keys of a JSON
    object are distinct. *)
Definition table_from {A} (from_dict : json -> py A) (raw : json) : py (gmap string A) :=
  match raw with
  | JDict d =>
      items ← res_mapM (fun kv => a ← from_dict kv.2; Ok (kv.1, a)) d;
      Ok (list_to_map items)
  | _ => Err (AttributeError "items")
  end.

(** [{key: value.to_dict() for key, value in sorted(table.items())}] *)
Definition table_to {A} (to_dict : A -> dict) (t : gmap string A) : dict :=
  ksort (map (fun kv => (kv.1, JDict (to_dict kv.2))) (map_to_list t)).

Record InvoicePaymentReconciliationState := mkLedger {
  ls_resource_version : Z; ls_payee_enrollments : gmap string PayeeEnrollment; ls_invoices : gmap string InvoiceRecord;
  ls_payment_batches : gmap string PaymentBatchRecord; ls_payment_executions : gmap string PaymentExecutionRecord;
  ls_reconciliation_records : gmap string PaymentReconciliationRecord
}.

Definition InvoicePaymentReconciliationState_from_dict (raw : json) : py InvoicePaymentReconciliationState :=
  version ← get_field raw "resource_version" (JInt 0);
  resource_version ← py_int version;
  payees ← get_field raw "payee_enrollments" (JDict []);
  payee_enrollments ← table_from PayeeEnrollment_from_dict payees;
  invs ← get_field raw "invoices" (JDict []);
  invoices ← table_from InvoiceRecord_from_dict invs;
  batches ← get_field raw "payment_batches" (JDict []);
  payment_batches ← table_from PaymentBatchRecord_from_dict batches;
  executions ← get_field raw "payment_executions" (JDict []);
  payment_executions ← table_from PaymentExecutionRecord_from_dict executions;
  records ← get_field raw "reconciliation_records" (JDict []);
  reconciliation_records ← table_from PaymentReconciliationRecord_from_dict records;
  Ok (mkLedger resource_version payee_enrollments invoices payment_batches payment_executions reconciliation_records).

Definition InvoicePaymentReconciliationState_to_dict (s : InvoicePaymentReconciliationState) : dict :=
  [("resource_version", JInt (ls_resource_version s));
   ("payee_enrollments", JDict (table_to PayeeEnrollment_to_dict (ls_payee_enrollments s)));
   ("invoices", JDict (table_to InvoiceRecord_to_dict (ls_invoices s)));
   ("payment_batches", JDict (table_to PaymentBatchRecord_to_dict (ls_payment_batches s)));
   ("payment_executions", JDict (table_to PaymentExecutionRecord_to_dict (ls_payment_executions s)));
   ("reconciliation_records", JDict (table_to PaymentReconciliationRecord_to_dict (ls_reconciliation_records s)))].
End Ledger.

(** ** [reconciliation/base.py] *)
Inductive KernelReconciliationStatus := RecordedLocal | ProviderPending | ProviderConfirmed | ProviderFailed | Reversed | Unknown.

Record ProviderReconciliationSnapshot := mkSnapshot {
  sn_provider_name : string; sn_provider_reference : string; sn_provider_state : string; sn_observed_at : datetime;
  sn_amount_minor : option Z; sn_currency : option string; sn_metadata : dict
}.

Record ProviderStateMapping := mkStateMapping {
  sm_provider_state : string; sm_kernel_status : KernelReconciliationStatus; sm_terminal : bool; sm_description : string
}.

Record KernelReconciliationRecord := mkKernelRecord {
  kr_reconciliation_id : string; kr_provider_name : string; kr_provider_reference : string; kr_provider_state : string;
  kr_kernel_status : KernelReconciliationStatus; kr_observed_at : datetime; kr_terminal : bool; kr_metadata : dict
}.

(** What a mapper promises its clients. *)
Class ReconciliationMapper (T : Type) := {
  mapping_for : T -> string -> ProviderStateMapping;
  reconcile : T -> ProviderReconciliationSnapshot -> string -> KernelReconciliationRecord;
  reconcile_maps : forall m snapshot id, kr_kernel_status (reconcile m snapshot id) = sm_kernel_status (mapping_for m (sn_provider_state snapshot)) /\
    kr_terminal (reconcile m snapshot id) = sm_terminal (mapping_for m (sn_provider_state snapshot))
}.

Record StaticReconciliationMapper := mkStaticMapper {
  rm_mappings : list (string * ProviderStateMapping); rm_default_status : KernelReconciliationStatus; rm_default_terminal : bool;
  rm_default_description : string
}.

Definition static_mapping_for (m : StaticReconciliationMapper) (provider_state : string) : ProviderStateMapping :=
  match assoc provider_state (rm_mappings m) with
  | Some s => s
  | None => mkStateMapping provider_state (rm_default_status m) (rm_default_terminal m) (rm_default_description m)
  end.

Definition static_reconcile (m : StaticReconciliationMapper) (snapshot : ProviderReconciliationSnapshot) (reconciliation_id : string)
    : KernelReconciliationRecord :=
  let mapping := static_mapping_for m (sn_provider_state snapshot) in
  mkKernelRecord reconciliation_id (sn_provider_name snapshot) (sn_provider_reference snapshot) (sn_provider_state snapshot)
    (sm_kernel_status mapping) (sn_observed_at snapshot) (sm_terminal mapping)
    (assoc_set "mapping_description" (JStr (sm_description mapping)) (sn_metadata snapshot)).

#[global] Instance static_mapper : ReconciliationMapper StaticReconciliationMapper := {|
  mapping_for := static_mapping_for; reconcile := static_reconcile; reconcile_maps m snapshot id := conj eq_refl eq_refl
|}.

(** ** Facts *)
Section Facts.
Context `{PyText}.

Lemma map_py_str_strings l : map py_str (map JStr l) = l.
Proof. induction l; simpl; congruence. Qed.

Lemma PayeeEnrollment_from_to a : PayeeEnrollment_from_dict (JDict (PayeeEnrollment_to_dict a)) = Ok a.
Proof. by destruct a as [? ? ? []]. Qed.
Lemma InvoiceRecord_from_to a : InvoiceRecord_from_dict (JDict (InvoiceRecord_to_dict a)) = Ok a.
Proof. by destruct a as [? ? ? ? ? ? ? []]. Qed.
Lemma PaymentBatchRecord_from_to a : PaymentBatchRecord_from_dict (JDict (PaymentBatchRecord_to_dict a)) = Ok a.
Proof. destruct a. unfold PaymentBatchRecord_from_dict. simpl. by rewrite map_py_str_strings. Qed.
Lemma PaymentExecutionRecord_from_to a : PaymentExecutionRecord_from_dict (JDict (PaymentExecutionRecord_to_dict a)) = Ok a.
Proof. destruct a. unfold PaymentExecutionRecord_from_dict. simpl. by rewrite map_py_str_strings. Qed.
Lemma PaymentReconciliationRecord_from_to a : PaymentReconciliationRecord_from_dict (JDict (PaymentReconciliationRecord_to_dict a)) = Ok a.
Proof. by destruct a. Qed.

(** A table reads back, whatever order it was listed in. *)
Lemma table_from_to {A} (from : json -> py A) (to : A -> dict) (t : gmap string A) :
  (forall a, from (JDict (to a)) = Ok a) -> table_from from (JDict (table_to to t)) = Ok t.
Proof.
  intros Hrt. unfold table_from, table_to. rewrite (ksort_fmap (fun a => JDict (to a))). set (l := ksort (map_to_list t)).
  assert (res_mapM (fun kv : string * json => a ← from kv.2; Ok (kv.1, a)) (map (fun kv => (kv.1, JDict (to kv.2))) l) = Ok l) as ->.
  { induction l as [|[k a] l IH]; [done|]. simpl. rewrite Hrt. simpl. by rewrite IH. }
  simpl. f_equal. assert (l ≡ₚ map_to_list t) as Hp by apply ksort_perm.
  rewrite (list_to_map_proper l (map_to_list t)); [apply list_to_map_to_list|rewrite Hp; apply NoDup_fst_map_to_list|done].
Qed.
End Facts.

(** The state of the invoice-payment ledger reads back from the document it
    prints, whatever its tables hold and in whatever order they were filled. *)
Theorem ledger_roundtrip `{PyText} (s : InvoicePaymentReconciliationState) :
  InvoicePaymentReconciliationState_from_dict (JDict (InvoicePaymentReconciliationState_to_dict s)) = Ok s.
Proof.
  destruct s as [v p i b e r]. unfold InvoicePaymentReconciliationState_from_dict.
  cbn [InvoicePaymentReconciliationState_to_dict get_field dget_default assoc String.eqb Ascii.eqb Bool.eqb mbind res_bind py_int ls_resource_version
    ls_payee_enrollments ls_invoices ls_payment_batches ls_payment_executions ls_reconciliation_records].
  rewrite (table_from_to _ _ p PayeeEnrollment_from_to). cbn [mbind res_bind]. rewrite (table_from_to _ _ i InvoiceRecord_from_to). cbn [mbind res_bind].
  rewrite (table_from_to _ _ b PaymentBatchRecord_from_to). cbn [mbind res_bind]. rewrite (table_from_to _ _ e PaymentExecutionRecord_from_to).
  cbn [mbind res_bind]. by rewrite (table_from_to _ _ r PaymentReconciliationRecord_from_to).
Qed.
