(* ===== verification/DomainApi.v ===== *)
(** * The refund and invoice-payment requests: [api/refund.py], [api/invoice_payment.py]

    The builders of the two action intents the kernel ships policies for, the
    normal form of a set of invoices, and the batch hash that commits to a
    payment.  A value a caller passes unchecked into the payload is a [json]; the
    datetime arguments are UTC ones, as everywhere in the development.

    The facts: a normal form is sorted, duplicate free and without empty
    identifiers, and is its own normal form; equal batch hashes mean equal
    payments unless the hash function collides. *)

From S2P Require Import Prelude Text Json Errors Timestamps Canonical Contracts Runtime Samples ProofService Policy Receipts.

Section Api.
Context `{Protocol} `{PyText}.

(** ** [api/refund.py] *)
Record refund_request := mkRefundRequest {
  rr_intent_id : string; rr_tenant_id : string; rr_requester_id : string; rr_payment_id : string;
  rr_amount_minor : json; rr_currency : json; rr_issued_at : datetime; rr_ttl_seconds : Z;
  rr_justification : json; rr_metadata : option dict; rr_context : option dict; rr_evidence_refs : list json
}.

Definition build_refund_action_intent_payload (r : refund_request) : py dict :=
  expires_at ← datetime_add (rr_issued_at r) (rr_ttl_seconds r * US_PER_SECOND);
  Ok ([("contract", contract_header "action_intent");
       ("intent_id", JStr (rr_intent_id r));
       ("issued_at", JStr (format_timestamp (rr_issued_at r)));
       ("expires_at", JStr (format_timestamp expires_at));
       ("tenant", JDict [("tenant_id", JStr (rr_tenant_id r))]);
       ("requester", JDict [("type", JStr "service"); ("id", JStr (rr_requester_id r))]);
       ("action", JDict [("name", JStr "refund.create"); ("capability", JStr "refund.execute");
          ("parameters", JDict [("amount_minor", rr_amount_minor r); ("currency", rr_currency r)]);
          ("constraints", JDict [("exact_amount_minor", rr_amount_minor r); ("exact_currency", rr_currency r)]);
          ("scope", JDict [("target_resource_type", JStr "payment"); ("single_use", JBool true)])]);
       ("target", JDict [("resource_type", JStr "payment"); ("resource_id", JStr (rr_payment_id r))]);
       ("metadata", JDict (default [] (rr_metadata r)));
       ("context", JDict (default [] (rr_context r)))] ++
      json_item "justification" (rr_justification r) ++
      list_item "evidence_refs" (rr_evidence_refs r)).

(** ** [api/invoice_payment.py] *)

(** [sorted({str(item) for item in invoice_ids if str(item)})] *)
Definition invoice_id_set (items : list json) : list string := sorted_set (List.filter str_truthy (map py_str items)).

Definition normalize_invoice_ids (invoice_ids : json) : py (list string) :=
  items ← py_iter invoice_ids;
  match invoice_id_set items with
  | [] => Err (ValueError "invoice_ids must contain at least one non-empty value")
  | normalized => Ok normalized
  end.

(** A [date] object or anything else. *)
Inductive date_value := IsDate (year month day : Z) | NotDate (raw : json).

Definition date_isoformat (y m d : Z) : string := padn 4 y +:+ "-" +:+ padn 2 m +:+ "-" +:+ padn 2 d.

Definition normalize_payment_date (value : date_value) : py string :=
  match value with
  | IsDate y m d => Ok (date_isoformat y m d)
  | NotDate raw => '(y, m, d) ← parse_calendar_date raw "payment_date"; Ok (date_isoformat y m d)
  end.

Record payment := mkPayment {
  pay_payer_entity_id : json; pay_supplier_id : json; pay_bank_account_reference : json; pay_invoice_ids : json;
  pay_amount_minor : json; pay_currency : json; pay_payment_date : date_value; pay_payment_batch_id : json
}.

(** The dict that is hashed. *)
Definition batch_hash_input (p : payment) : py dict :=
  invoice_ids ← normalize_invoice_ids (pay_invoice_ids p);
  payment_date ← normalize_payment_date (pay_payment_date p);
  Ok [("payer_entity_id", pay_payer_entity_id p); ("supplier_id", pay_supplier_id p);
      ("bank_account_reference", pay_bank_account_reference p); ("invoice_ids", strings invoice_ids);
      ("amount_minor", pay_amount_minor p); ("currency", pay_currency p); ("payment_date", JStr payment_date);
      ("payment_batch_id", pay_payment_batch_id p)].

Definition compute_invoice_payment_batch_hash (p : payment) : py string :=
  hash_input ← batch_hash_input p;
  h ← sha256_hex (JDict hash_input);
  Ok ("batch_" +:+ h).

Record invoice_request := mkInvoiceRequest {
  ir_intent_id : string; ir_tenant_id : string; ir_requester_id : string;
  ir_payer_entity_id : string; ir_supplier_id : string; ir_bank_account_reference : string; ir_invoice_ids : json;
  ir_amount_minor : json; ir_currency : string; ir_payment_date : date_value; ir_payment_batch_id : string;
  ir_issued_at : datetime; ir_proposer_id : option string; ir_ttl_seconds : Z; ir_justification : json;
  ir_evidence_refs : list json; ir_context : option dict; ir_metadata : option dict; ir_batch_hash : option string
}.

(** [a or b], for a string that may be missing *)
Definition str_or (a : option string) (b : py string) : py string :=
  match a with Some s => if str_truthy s then Ok s else b | None => b end.

Definition build_invoice_payment_action_intent_payload (r : invoice_request) : py dict :=
  normalized_invoice_ids ← normalize_invoice_ids (ir_invoice_ids r);
  normalized_payment_date ← normalize_payment_date (ir_payment_date r);
  let payer := JStr (ir_payer_entity_id r) in
  let supplier := JStr (ir_supplier_id r) in
  let bank := JStr (ir_bank_account_reference r) in
  let ids := strings normalized_invoice_ids in
  let amount := ir_amount_minor r in
  let currency := JStr (ir_currency r) in
  let date := JStr normalized_payment_date in
  let batch := JStr (ir_payment_batch_id r) in
  resolved_batch_hash ← str_or (ir_batch_hash r)
    (compute_invoice_payment_batch_hash (mkPayment payer supplier bank ids amount currency (NotDate date) batch));
  let hash := JStr resolved_batch_hash in
  resolved_proposer_id ← str_or (ir_proposer_id r) (Ok (ir_requester_id r));
  key_hash ← sha256_hex (JDict [("payment_batch_id", batch); ("invoice_ids", ids); ("amount_minor", amount); ("currency", currency);
                                ("payer_entity_id", payer); ("supplier_id", supplier)]);
  expires_at ← datetime_add (ir_issued_at r) (ir_ttl_seconds r * US_PER_SECOND);
  Ok ([("contract", contract_header "action_intent");
       ("intent_id", JStr (ir_intent_id r));
       ("idempotency_key", JStr ("ipy_" +:+ key_hash));
       ("issued_at", JStr (format_timestamp (ir_issued_at r)));
       ("expires_at", JStr (format_timestamp expires_at));
       ("tenant", JDict [("tenant_id", JStr (ir_tenant_id r))]);
       ("requester", JDict [("type", JStr "service"); ("id", JStr (ir_requester_id r))]);
       ("action", JDict [("name", JStr "invoice_payment.execute"); ("capability", JStr "invoice_payment.execute");
          ("parameters", JDict [("payer_entity_id", payer); ("supplier_id", supplier); ("bank_account_reference", bank);
             ("invoice_ids", ids); ("amount_minor", amount); ("currency", currency); ("payment_date", date);
             ("payment_batch_id", batch); ("batch_hash", hash); ("proposer_id", JStr resolved_proposer_id)]);
          ("constraints", JDict [("exact_payer_entity_id", payer); ("exact_supplier_id", supplier);
             ("exact_bank_account_reference", bank); ("exact_invoice_ids", ids); ("exact_amount_minor", amount);
             ("exact_currency", currency); ("exact_payment_date", date); ("exact_payment_batch_id", batch);
             ("exact_batch_hash", hash)]);
          ("scope", JDict [("target_resource_type", JStr "payment_batch"); ("single_use", JBool true)])]);
       ("target", JDict [("resource_type", JStr "payment_batch"); ("resource_id", batch)]);
       ("context", JDict (default [] (ir_context r)));
       ("metadata", JDict (default [] (ir_metadata r)))] ++
      json_item "justification" (ir_justification r) ++
      list_item "evidence_refs" (ir_evidence_refs r)).
End Api.

(** ** Facts *)
Section ApiFacts.
Context `{Protocol} `{PyText}.

(** A strictly sorted list is its own [sorted(set(...))]. *)
Lemma sorted_set_id l : StronglySorted str_lt l -> sorted_set l = l.
Proof.
  intros Hs. apply (StronglySorted_unique_strong str_lt); [|apply sorted_set_sorted|done|].
  - intros x y _ _ Hxy Hyx. by destruct (str_lt_asym x y Hxy).
  - apply NoDup_Permutation; [apply sorted_lt_NoDup, sorted_set_sorted|by apply sorted_lt_NoDup|].
    intros x. apply elem_of_sorted_set.
Qed.

Lemma py_iter_strings l : py_iter (strings l) = Ok (map JStr l).
Proof. done. Qed.

Lemma invoice_id_set_strings l : invoice_id_set (map JStr l) = sorted_set (List.filter str_truthy l).
Proof. unfold invoice_id_set. by rewrite map_map, map_id. Qed.

(** What a normal form looks like. *)
Definition normal_invoice_ids (l : list string) : Prop := l <> [] /\ StronglySorted str_lt l /\ Forall (fun s => str_truthy s = true) l.

Lemma normalize_invoice_ids_normal raw l : normalize_invoice_ids raw = Ok l -> normal_invoice_ids l.
Proof.
  unfold normalize_invoice_ids. intros (items & _ & Hn)%bind_Ok.
  assert (l = invoice_id_set items /\ l <> []) as [-> Hne] by (destruct (invoice_id_set items); simplify_eq; done).
  split; [done|]. split; [apply sorted_set_sorted|]. apply Forall_forall. intros s [_ Ht]%elem_of_sorted_set%list_elem_of_In%filter_In. done.
Qed.

Lemma normalize_invoice_ids_idem l : normal_invoice_ids l -> normalize_invoice_ids (strings l) = Ok l.
Proof.
  intros (Hne & Hs & Ht). unfold normalize_invoice_ids. rewrite py_iter_strings. cbn [mbind res_bind].
  assert (List.filter str_truthy l = l) as Hf.
  { clear -Ht. induction Ht as [|x l Hx _ IH]; [done|]. simpl. by rewrite Hx, IH. }
  rewrite invoice_id_set_strings, Hf, sorted_set_id by done. by destruct l.
Qed.

Lemma parse_calendar_date_Ok s f y m d : parse_calendar_date (JStr s) f = Ok (y, m, d) <->
  take_full_date s = Some (y, m, d, "") /\ ymd_ok y m d = true.
Proof.
  unfold parse_calendar_date. destruct (take_full_date s) as [[[[y' m'] d'] [|c rest]]|].
  - destruct (ymd_ok y' m' d') eqn:Hok; split.
    + by intros [= <- <- <-].
    + by intros [[= <- <- <-] _].
    + done.
    + intros [[= <- <- <-] Ht]. congruence.
  - split; [done|]. by intros [[=] _].
  - split; [done|]. by intros [[=] _].
Qed.

Lemma date_text_isoformat y m d h mi se us : date_text (mkClock y m d h mi se us) = date_isoformat y m d.
Proof. done. Qed.

Lemma normalize_payment_date_idem v s : normalize_payment_date v = Ok s ->
  (forall y m d, v = IsDate y m d -> ymd_ok y m d = true) -> normalize_payment_date (NotDate (JStr s)) = Ok s.
Proof.
  intros Hn Hv.
  assert (exists y m d, ymd_ok y m d = true /\ s = date_isoformat y m d) as (y & m & d & Hok & ->).
  { destruct v as [year month day|raw]; simpl in Hn.
    - injection Hn as <-. exists year, month, day. by rewrite (Hv _ _ _ eq_refl).
    - apply bind_Ok in Hn as ([[y m] d] & Hp & [= <-]). destruct raw; try discriminate Hp. apply parse_calendar_date_Ok in Hp as [_ Hp]. eauto. }
  unfold normalize_payment_date. assert (parse_calendar_date (JStr (date_isoformat y m d)) "payment_date" = Ok (y, m, d)) as ->; [|done].
  apply parse_calendar_date_Ok. split; [|done]. rewrite <- (date_text_isoformat y m d 0 0 0 0), <- (string_app_nil_r (date_text _)).
  apply (take_full_date_text (mkClock y m d 0 0 0 0)). unfold clock_ok. simpl. by rewrite Hok.
Qed.
End ApiFacts.
