(* ===== verification/DomainPolicy.v ===== *)
(** * The shipped policies: [policy/evidence.py], [policy/refund.py], [policy/invoice_payment.py]

    The rules of the refund and the invoice-payment workflow as further instances
    of [PolicyRule], and the two engines built from them.  A receipt store is its
    [get_receipt] method, which may raise.

    The theorems: the evidence rule lets a request through exactly when every
    receipt it cites is in the store with the digest it declares, the outcome and
    the capability the rule asks for; an allowed refund or invoice payment has
    every property its rules are named after; and the request the builders of
    [DomainApi] make for a matching context is allowed. *)

From S2P Require Import Prelude Text Json Errors Timestamps Canonical Contracts Runtime Samples ProofService Policy Receipts Artifacts DomainApi.

(** [RuleEvaluation(..., outcome="deny", ...)] *)
Definition denial (id code summary : string) (details : dict) : py (option RuleEvaluation) :=
  Ok (Some (mkRuleEvaluation id Deny code summary details [] [])).
Definition pass : py (option RuleEvaluation) := Ok None.

Section Rules.
Context `{Protocol} `{PyText}.

(** ** [policy/evidence.py] *)
Abbreviation receipt_lookup := (string -> py (option Receipt)).

Section Evidence.
Context (store : receipt_lookup) (allowed_outcomes : list string) (required_capability : option string) (id : string).

(** One cited receipt; the loop goes on when it returns [None]. *)
Definition check_receipt_ref (ref : EvidenceRef) : py (option RuleEvaluation) :=
  found ← store (ev_value ref);
  match found with
  | None => denial id "RECEIPT_EVIDENCE_MISSING" "The referenced receipt evidence could not be loaded."
              [("receipt_id", JStr (ev_value ref))]
  | Some receipt =>
      match DigestSpec_from_dict "evidence_ref.digest" (JDict (ev_digest ref)) with
      | Err (ValueError _) =>
          denial id "RECEIPT_EVIDENCE_DIGEST_INVALID" "Receipt evidence must declare a complete digest for the referenced receipt."
            [("receipt_id", JStr (ev_value ref))]
      | Err e => Err e
      | Ok declared_digest =>
          actual_digest ← build_artifact_digest (Receipt_to_dict receipt);
          if negb (bool_decide (declared_digest = actual_digest)) then
            denial id "RECEIPT_EVIDENCE_DIGEST_MISMATCH" "The referenced receipt digest does not match the loaded receipt artifact."
              [("receipt_id", JStr (ev_value ref)); ("expected_digest", JDict (DigestSpec_to_dict actual_digest));
               ("declared_digest", JDict (DigestSpec_to_dict declared_digest))]
          else if negb (str_mem (rc_outcome receipt) allowed_outcomes) then
            denial id "RECEIPT_EVIDENCE_OUTCOME_INVALID" "The referenced receipt outcome is not suitable for this evidence chain."
              [("receipt_id", JStr (ev_value ref)); ("allowed_outcomes", strings allowed_outcomes);
               ("observed_outcome", JStr (rc_outcome receipt))]
          else match required_capability with
               | Some capability =>
                   if negb (String.eqb (act_capability (rc_action receipt)) capability) then
                     denial id "RECEIPT_EVIDENCE_CAPABILITY_MISMATCH"
                       "The referenced receipt capability does not satisfy the configured receipt-chain requirement."
                       [("receipt_id", JStr (ev_value ref)); ("required_capability", JStr capability);
                        ("observed_capability", JStr (act_capability (rc_action receipt)))]
                   else pass
               | None => pass
               end
      end
  end.

Fixpoint check_receipt_refs (refs : list EvidenceRef) : py (option RuleEvaluation) :=
  match refs with
  | [] => pass
  | ref :: refs =>
      verdict ← check_receipt_ref ref;
      match verdict with Some e => Ok (Some e) | None => check_receipt_refs refs end
  end.
End Evidence.

Definition receipt_refs (intent : ActionIntent) : list EvidenceRef :=
  List.filter (fun item => String.eqb (ev_type item) EVIDENCE_TYPE_RECEIPT) (in_evidence_refs intent).

Definition ReceiptEvidenceVerificationRule (receipt_store : option receipt_lookup) (allowed_outcomes : list string)
    (required_capability : option string) : PolicyRule :=
  let id := "hard.evidence.receipt_chain" in
  mkRule id (fun intent context =>
    match receipt_refs intent, receipt_store with
    | [], _ => pass
    | refs, None =>
        denial id "RECEIPT_EVIDENCE_STORE_UNAVAILABLE" "Receipt evidence was supplied but no receipt lookup store is configured."
          [("receipt_ref_count", JInt (Z.of_nat (length refs)))]
    | refs, Some store => check_receipt_refs store allowed_outcomes required_capability id refs
    end).

(** ** [policy/refund.py] *)

(** [not isinstance(x, int) or x <= 0]: a bool is an int. *)
Definition not_positive_int (j : json) : bool :=
  match py_int_of j with Some z => (z <=? 0)%Z | None => true end.

(** [len(s) != 3 or s.upper() != s] *)
Definition bad_currency (s : string) : bool := negb (py_len s =? 3)%Z || negb (String.eqb (str_upper s) s).

Definition RefundActionShapeRule : PolicyRule :=
  let id := "hard.refund.action_shape" in
  mkRule id (fun intent context =>
    let amount_minor := dget (parameters intent) "amount_minor" in
    let currency := dget (parameters intent) "currency" in
    if negb (String.eqb (act_name (in_action intent)) "refund.create") then
      denial id "REFUND_ACTION_NAME_INVALID" "The refund wedge only accepts refund.create action intents." []
    else if negb (String.eqb (act_capability (in_action intent)) "refund.execute") then
      denial id "REFUND_CAPABILITY_INVALID" "The refund wedge only accepts refund.execute capability requests." []
    else if negb (String.eqb (tgt_resource_type (in_target intent)) "payment") then
      denial id "REFUND_TARGET_TYPE_INVALID" "Refund execution requires a payment target." []
    else if not_positive_int amount_minor then
      denial id "REFUND_AMOUNT_INVALID" "Refund execution requires a positive integer amount_minor." []
    else if match currency with JStr s => bad_currency s | _ => true end then
      denial id "REFUND_CURRENCY_INVALID" "Refund execution requires an uppercase three-letter currency." []
    else pass).

Definition RefundTargetBindingRule : PolicyRule :=
  let id := "hard.refund.target_binding" in
  mkRule id (fun intent context =>
    let expected_payment_id := dget (cx_facts context) "payment_id" in
    if py_truthy expected_payment_id && negb (py_eqb (JStr (tgt_resource_id (in_target intent))) expected_payment_id) then
      denial id "REFUND_TARGET_MISMATCH" "The refund target does not match the protected payment resource."
        [("expected_payment_id", expected_payment_id)]
    else pass).

Definition RefundAmountLimitRule : PolicyRule :=
  let id := "hard.refund.amount_limit" in
  mkRule id (fun intent context =>
    raw ← getitem (parameters intent) "amount_minor";
    amount_minor ← py_int raw;
    match dget (cx_facts context) "remaining_refundable_minor" with
    | JNull => pass
    | remaining =>
        limit ← py_int remaining;
        if (limit <? amount_minor)%Z then
          denial id "REFUND_AMOUNT_EXCEEDS_BALANCE" "The requested refund exceeds the remaining refundable balance."
            [("remaining_refundable_minor", remaining); ("requested_amount_minor", JInt amount_minor)]
        else pass
    end).

(** [expected is not None and observed != expected] *)
Definition mismatch (expected observed : json) : bool := not_none expected && negb (py_eqb observed expected).

Definition RefundCurrencyMatchRule : PolicyRule :=
  let id := "hard.refund.currency_match" in
  mkRule id (fun intent context =>
    requested_currency ← getitem (parameters intent) "currency";
    let expected_currency := dget (cx_facts context) "payment_currency" in
    if mismatch expected_currency requested_currency then
      denial id "REFUND_CURRENCY_MISMATCH" "The refund currency must match the original payment currency."
        [("expected_currency", expected_currency); ("requested_currency", requested_currency)]
    else pass).

Definition refund_workflow_rules : list PolicyRule :=
  let rule id outcome summary code risk evidence approvers :=
    TenantWorkflowRule (mkWorkflowRule id outcome summary code [] ["refund.execute"] [("risk_level", JStr risk)] evidence approvers) in
  [rule "tenant_demo.refund.deny" "deny" "The refund workflow denies blocked refund requests." "WORKFLOW_DENY" "blocked" [] [];
   rule "tenant_demo.refund.needs_evidence" "needs-evidence"
     "The refund workflow requires documentary evidence before review-risk refunds can proceed." "EVIDENCE_REQUIRED" "review"
     ["external_id"] [];
   rule "tenant_demo.refund.approval_required" "approval-required"
     "The refund workflow requires operator approval for elevated-value refunds." "APPROVAL_REQUIRED" "approval" []
     ["finance-operator"];
   rule "tenant_demo.refund.allow" "allow" "The refund workflow authorizes normal-risk refunds." "WORKFLOW_ALLOW" "normal" [] []].

Definition build_refund_policy_engine (receipt_store : option receipt_lookup) : PolicyEngine :=
  mkPolicyEngine
    [IntentChronologyHardRule; IntentTtlHardRule 900; CapabilityScopeHardRule;
     ReceiptEvidenceVerificationRule receipt_store ["executed"] (Some "refund.execute");
     RefundActionShapeRule; RefundTargetBindingRule; RefundAmountLimitRule; RefundCurrencyMatchRule]
    (mkLayer [("tenant_demo", refund_workflow_rules)] []).

(** ** [policy/invoice_payment.py] *)
Definition _invoice_ids (intent : ActionIntent) : list string :=
  match dget_default (parameters intent) "invoice_ids" (JList []) with
  | JList l => map py_str l
  | _ => []
  end.

Definition REQUIRED_STRING_FIELDS : list string :=
  ["payer_entity_id"; "supplier_id"; "bank_account_reference"; "currency"; "payment_date"; "payment_batch_id"; "batch_hash";
   "proposer_id"].

(** [isinstance(value, str) and value] *)
Definition nonempty_str (j : json) : bool := match j with JStr s => str_truthy s | _ => false end.

Definition InvoicePaymentActionShapeRule : PolicyRule :=
  let id := "hard.invoice_payment.action_shape" in
  mkRule id (fun intent context =>
    let params := parameters intent in
    if negb (String.eqb (act_name (in_action intent)) "invoice_payment.execute") then
      denial id "INVOICE_PAYMENT_ACTION_NAME_INVALID"
        "The invoice payment wedge only accepts invoice_payment.execute action intents." []
    else if negb (String.eqb (act_capability (in_action intent)) "invoice_payment.execute") then
      denial id "INVOICE_PAYMENT_CAPABILITY_INVALID"
        "The invoice payment wedge only accepts invoice_payment.execute capability requests." []
    else if negb (String.eqb (tgt_resource_type (in_target intent)) "payment_batch") then
      denial id "INVOICE_PAYMENT_TARGET_TYPE_INVALID" "Invoice payment execution requires a payment_batch target." []
    else match List.find (fun f => negb (nonempty_str (dget params f))) REQUIRED_STRING_FIELDS with
    | Some field_name =>
        denial id "INVOICE_PAYMENT_FIELD_INVALID" ("Invoice payment execution requires a non-empty " +:+ field_name +:+ ".")
          [("field_name", JStr field_name)]
    | None =>
        if not_positive_int (dget params "amount_minor") then
          denial id "INVOICE_PAYMENT_AMOUNT_INVALID" "Invoice payment execution requires a positive integer amount_minor." []
        else
          currency ← getitem params "currency";
          if match currency with JStr s => bad_currency s | _ => true end then
            denial id "INVOICE_PAYMENT_CURRENCY_INVALID" "Invoice payment execution requires an uppercase three-letter currency." []
          else
            let invoice_ids := _invoice_ids intent in
            match invoice_ids with
            | [] => denial id "INVOICE_SET_INVALID" "Invoice payment execution requires a non-empty invoice_ids set." []
            | _ =>
                normalized ← normalize_invoice_ids (strings invoice_ids);
                if negb (bool_decide (invoice_ids = normalized)) then
                  denial id "INVOICE_SET_INVALID" "Invoice payment invoice_ids must be unique and sorted for exact invoice-set binding." []
                else
                  payment_date ← getitem params "payment_date";
                  match parse_calendar_date payment_date "payment_date" with
                  | Err (ValueError _) =>
                      denial id "PAYMENT_DATE_INVALID" "Invoice payment execution requires a YYYY-MM-DD payment_date." []
                  | Err e => Err e
                  | Ok _ =>
                      payment_batch_id ← getitem params "payment_batch_id";
                      if negb (py_eqb (JStr (tgt_resource_id (in_target intent))) payment_batch_id) then
                        denial id "PAYMENT_BATCH_BINDING_MISMATCH"
                          "The payment batch target must match action.parameters.payment_batch_id." []
                      else
                        proposer_id ← getitem params "proposer_id";
                        if negb (py_eqb proposer_id (JStr (party_id (in_requester intent)))) then
                          denial id "PROPOSER_IDENTITY_MISMATCH" "The proposer identity must exactly match the requesting subject." []
                        else pass
                  end
            end
    end).

Definition expected_bindings (intent : ActionIntent) : py dict :=
  let params := parameters intent in
  payer ← getitem params "payer_entity_id";
  supplier ← getitem params "supplier_id";
  bank ← getitem params "bank_account_reference";
  amount ← getitem params "amount_minor";
  currency ← getitem params "currency";
  date ← getitem params "payment_date";
  batch ← getitem params "payment_batch_id";
  hash ← getitem params "batch_hash";
  Ok [("exact_payer_entity_id", payer); ("exact_supplier_id", supplier); ("exact_bank_account_reference", bank);
      ("exact_invoice_ids", strings (_invoice_ids intent)); ("exact_amount_minor", amount); ("exact_currency", currency);
      ("exact_payment_date", date); ("exact_payment_batch_id", batch); ("exact_batch_hash", hash)].

Definition InvoicePaymentConstraintBindingRule : PolicyRule :=
  let id := "hard.invoice_payment.constraint_binding" in
  mkRule id (fun intent context =>
    let constraints := act_constraints (in_action intent) in
    bindings ← expected_bindings intent;
    match List.find (fun kv => negb (py_eqb (dget constraints kv.1) kv.2)) bindings with
    | Some (field_name, expected_value) =>
        denial id "PAYMENT_BINDING_MISMATCH"
          "The invoice payment action constraints must exactly mirror the requested payment values."
          [("field_name", JStr field_name); ("expected", expected_value); ("observed", dget constraints field_name)]
    | None => pass
    end).

(** The three rules that compare one parameter with one fact. *)
Definition binding_rule (id fact param code summary : string) : PolicyRule :=
  mkRule id (fun intent context =>
    let expected := dget (cx_facts context) fact in
    observed ← getitem (parameters intent) param;
    if mismatch expected observed then denial id code summary [(fact, expected); ("observed_" +:+ param, observed)]
    else pass).

Definition InvoicePaymentEntityBindingRule : PolicyRule :=
  binding_rule "hard.invoice_payment.entity_binding" "expected_payer_entity_id" "payer_entity_id" "WRONG_ENTITY"
    "The requested payer entity does not match the protected payment context.".
Definition InvoicePaymentPayeeBindingRule : PolicyRule :=
  binding_rule "hard.invoice_payment.payee_binding" "expected_supplier_id" "supplier_id" "PAYEE_MISMATCH"
    "The requested supplier does not match the protected payment context.".
Definition InvoicePaymentBankBindingRule : PolicyRule :=
  binding_rule "hard.invoice_payment.bank_binding" "expected_bank_account_reference" "bank_account_reference" "BANK_MISMATCH"
    "The requested bank account reference does not match the validated payee bank details.".

Definition InvoicePaymentInvoiceSetRule : PolicyRule :=
  let id := "hard.invoice_payment.invoice_set" in
  mkRule id (fun intent context =>
    let invoice_ids := _invoice_ids intent in
    match dget (cx_facts context) "expected_invoice_ids" with
    | JNull => pass
    | expected_invoice_ids =>
        normalized ← normalize_invoice_ids expected_invoice_ids;
        if negb (bool_decide (invoice_ids = normalized)) then
          denial id "INVOICE_SET_MISMATCH" "The requested invoice set does not match the protected payment context."
            [("expected_invoice_ids", strings normalized); ("observed_invoice_ids", strings invoice_ids)]
        else pass
    end).

(** [expected_amount_minor is not None and params["amount_minor"] != int(expected_amount_minor)] *)
Definition amount_mismatch (params : dict) (expected : json) : py (option (Z * json)) :=
  match expected with
  | JNull => Ok None
  | _ =>
      observed ← getitem params "amount_minor";
      limit ← py_int expected;
      Ok (if negb (py_eqb observed (JInt limit)) then Some (limit, observed) else None)
  end.

(** The same for a fact that is compared as it is. *)
Definition value_mismatch (params : dict) (param : string) (expected : json) : py (option json) :=
  match expected with
  | JNull => Ok None
  | _ => observed ← getitem params param; Ok (if negb (py_eqb observed expected) then Some observed else None)
  end.

Definition InvoicePaymentAmountCurrencyRule : PolicyRule :=
  let id := "hard.invoice_payment.amount_currency" in
  mkRule id (fun intent context =>
    let params := parameters intent in
    let fact k := dget (cx_facts context) k in
    amount ← amount_mismatch params (fact "expected_amount_minor");
    match amount with
    | Some (expected, observed) =>
        denial id "PAYMENT_AMOUNT_MISMATCH" "The requested payment amount does not match the protected payment context."
          [("expected_amount_minor", JInt expected); ("observed_amount_minor", observed)]
    | None =>
        currency ← value_mismatch params "currency" (fact "expected_currency");
        match currency with
        | Some observed =>
            denial id "PAYMENT_CURRENCY_MISMATCH" "The requested payment currency does not match the protected payment context."
              [("expected_currency", fact "expected_currency"); ("observed_currency", observed)]
        | None =>
            date ← value_mismatch params "payment_date" (fact "expected_payment_date");
            match date with
            | Some observed =>
                denial id "PAYMENT_DATE_MISMATCH" "The requested payment date does not match the protected payment context."
                  [("expected_payment_date", fact "expected_payment_date"); ("observed_payment_date", observed)]
            | None => pass
            end
        end
    end).

(** [str(item) for item in facts.get(k, default)] *)
Definition fact_strings (context : DynamicContextInput) (k : string) (def : list string) : py (list string) :=
  items ← py_iter (dget_default (cx_facts context) k (strings def)); Ok (map py_str items).

Definition InvoicePaymentDuplicateRule : PolicyRule :=
  let id := "hard.invoice_payment.duplicate" in
  mkRule id (fun intent context =>
    duplicate_invoice_ids ← fact_strings context "duplicate_invoice_ids" [];
    let duplicate_match := sorted_set (List.filter (fun i => str_mem i duplicate_invoice_ids) (_invoice_ids intent)) in
    if match duplicate_match with [] => py_truthy (dget (cx_facts context) "duplicate_payment_detected") | _ => true end then
      denial id "DUPLICATE_INVOICE_PAYMENT"
        "The requested invoice payment duplicates an already-paid or already-scheduled invoice payment."
        [("duplicate_invoice_ids", strings duplicate_match)]
    else pass).

(** The payment the parameters describe. *)
Definition declared_payment (intent : ActionIntent) : py payment :=
  let params := parameters intent in
  payer ← getitem params "payer_entity_id";
  supplier ← getitem params "supplier_id";
  bank ← getitem params "bank_account_reference";
  amount ← getitem params "amount_minor";
  currency ← getitem params "currency";
  date ← getitem params "payment_date";
  batch ← getitem params "payment_batch_id";
  Ok (mkPayment payer supplier bank (strings (_invoice_ids intent)) amount currency (NotDate date) batch).

Definition InvoicePaymentBatchHashRule : PolicyRule :=
  let id := "hard.invoice_payment.batch_hash" in
  mkRule id (fun intent context =>
    p ← declared_payment intent;
    computed_batch_hash ← compute_invoice_payment_batch_hash p;
    observed ← getitem (parameters intent) "batch_hash";
    if negb (py_eqb observed (JStr computed_batch_hash)) then
      denial id "BATCH_HASH_MISMATCH" "The requested payment batch hash does not match the declared invoice payment set."
        [("expected_batch_hash", JStr computed_batch_hash); ("observed_batch_hash", observed)]
    else
      let expected_batch_hash := dget (cx_facts context) "expected_batch_hash" in
      if mismatch expected_batch_hash observed then
        denial id "BATCH_HASH_MISMATCH" "The requested payment batch hash does not match the protected payment context."
          [("expected_batch_hash", expected_batch_hash); ("observed_batch_hash", observed)]
      else pass).

(** The guard of the three workflow rules. *)
Definition applies_to (tenant : string) (intent : ActionIntent) : bool :=
  String.eqb (tenant_id (in_tenant intent)) tenant && String.eqb (act_capability (in_action intent)) "invoice_payment.execute".

Definition InvoicePaymentEvidenceWorkflowRule : PolicyRule :=
  let id := "tenant_demo.invoice_payment.evidence" in
  mkRule id (fun intent context =>
    if negb (applies_to "tenant_demo" intent) then pass
    else
      required_evidence ← fact_strings context "required_evidence_types" (cx_required_evidence_types context);
      let evidence_types := map ev_type (in_evidence_refs intent) in
      match sorted_set (List.filter (fun t => negb (str_mem t evidence_types)) required_evidence) with
      | [] => pass
      | missing =>
          Ok (Some (mkRuleEvaluation id NeedsEvidence "EVIDENCE_MISSING"
            "The invoice payment requires additional evidence before execution can proceed."
            [("required_evidence_types", strings required_evidence)] missing []))
      end).

Definition InvoicePaymentApprovalWorkflowRule : PolicyRule :=
  let id := "tenant_demo.invoice_payment.approval" in
  mkRule id (fun intent context =>
    if negb (applies_to "tenant_demo" intent) then pass
    else
      required_chain ← fact_strings context "required_approval_chain" [];
      provided_chain ← fact_strings context "provided_approval_chain" [];
      let missing_approvals := List.filter (fun a => negb (str_mem a provided_chain)) required_chain in
      if match missing_approvals with [] => negb (py_truthy (dget (cx_facts context) "approval_required")) | _ => false end then pass
      else
        approver_types ← fact_strings context "required_approver_types" (cx_approver_types context);
        Ok (Some (mkRuleEvaluation id ApprovalRequired "APPROVAL_MISSING"
          "The invoice payment requires the full approval chain before execution can proceed."
          [("missing_approvals", strings missing_approvals); ("required_approval_chain", strings required_chain)] [] approver_types))).

Definition InvoicePaymentAllowWorkflowRule : PolicyRule :=
  let id := "tenant_demo.invoice_payment.allow" in
  mkRule id (fun intent context =>
    if negb (applies_to "tenant_demo" intent) then pass
    else Ok (Some (evaluation id Allow "PAYMENT_READY" "The invoice payment is approved for protected execution."))).

Definition invoice_payment_workflow_rules : list PolicyRule :=
  [TenantWorkflowRule (mkWorkflowRule "tenant_demo.invoice_payment.blocked" "deny"
     "The invoice payment workflow denies blocked payment requests." "PAYMENT_BLOCKED_RISK" [] ["invoice_payment.execute"]
     [("risk_level", JStr "blocked")] [] []);
   InvoicePaymentEvidenceWorkflowRule; InvoicePaymentApprovalWorkflowRule; InvoicePaymentAllowWorkflowRule].

Definition build_invoice_payment_policy_engine (receipt_store : option receipt_lookup) : PolicyEngine :=
  mkPolicyEngine
    [IntentChronologyHardRule; IntentTtlHardRule 900; CapabilityScopeHardRule;
     ReceiptEvidenceVerificationRule receipt_store ["executed"] (Some "invoice_payment.execute");
     InvoicePaymentActionShapeRule; InvoicePaymentConstraintBindingRule; InvoicePaymentEntityBindingRule;
     InvoicePaymentPayeeBindingRule; InvoicePaymentBankBindingRule; InvoicePaymentInvoiceSetRule;
     InvoicePaymentAmountCurrencyRule; InvoicePaymentDuplicateRule; InvoicePaymentBatchHashRule]
    (mkLayer [("tenant_demo", invoice_payment_workflow_rules)] []).
End Rules.

(** ** When an engine allows *)

(** A hard rule lets the request through; a workflow rule does not object. *)
Definition not_denied (r : py (option RuleEvaluation)) : Prop := exists o, r = Ok o /\ forall e, o = Some e -> re_outcome e <> Deny.
Definition only_allows (r : py (option RuleEvaluation)) : Prop := exists o, r = Ok o /\ forall e, o = Some e -> re_outcome e = Allow.

Definition engine_allows (engine : PolicyEngine) (intent : ActionIntent) (context : DynamicContextInput) : Prop :=
  exists d, PolicyEngine_evaluate engine intent context = Ok d /\ pd_outcome d = Allow.

Lemma not_denied_denial id code summary details : not_denied (denial id code summary details) <-> False.
Proof. split; [|done]. intros (o & [= <-] & Ho). by apply (Ho _ eq_refl). Qed.

Lemma not_denied_pass : not_denied pass <-> True.
Proof. split; [done|]. intros _. by exists None. Qed.

Lemma not_denied_None : not_denied (Ok None) <-> True.
Proof. apply not_denied_pass. Qed.

Lemma not_denied_Err e : not_denied (Err e) <-> False.
Proof. split; [|done]. by intros (o & ? & _). Qed.

Lemma not_denied_bind {A} (m : py A) (f : A -> py (option RuleEvaluation)) :
  not_denied (m ≫= f) <-> exists a, m = Ok a /\ not_denied (f a).
Proof. destruct m as [a|e]; simpl; [naive_solver|]. rewrite not_denied_Err. naive_solver. Qed.

Lemma not_denied_if (b : bool) (m : py (option RuleEvaluation)) id code summary details :
  not_denied (if b then denial id code summary details else m) <-> b = false /\ not_denied m.
Proof. destruct b; [rewrite not_denied_denial|]; naive_solver. Qed.

Lemma only_allows_if (b : bool) (m : py (option RuleEvaluation)) (e : RuleEvaluation) : re_outcome e <> Allow ->
  only_allows (if b then Ok (Some e) else m) <-> b = false /\ only_allows m.
Proof. intros Hd. destruct b; [|naive_solver]. split; [|naive_solver]. intros (o & [= <-] & Ho). by destruct Hd; apply Ho. Qed.

Lemma evaluate_rules_Ok rules intent context :
  Forall (fun r => exists o, evaluate r intent context = Ok o) rules <-> exists es, evaluate_rules rules intent context = Ok es.
Proof.
  induction rules as [|r rules IH]; simpl; [split; [by eexists|constructor]|]. rewrite Forall_cons, IH. split.
  - intros ((o & ->) & es & ->). simpl. by eexists.
  - intros (es & (o & Ho & He)%bind_Ok). apply bind_Ok in He as (rest & Hr & _). eauto.
Qed.

(** Rules that all evaluate, none of them to a forbidden outcome. *)
Lemma evaluate_rules_outcomes (P : PolicyOutcome -> Prop) rules intent context es : evaluate_rules rules intent context = Ok es ->
  Forall (fun r => exists o, evaluate r intent context = Ok o /\ forall e, o = Some e -> P (re_outcome e)) rules <->
  forall e, e ∈ es -> P (re_outcome e).
Proof.
  intros He. split.
  - intros Hall e Hin. apply (evaluate_rules_elem _ _ _ _ _ He) in Hin as (r & Hr & Hev).
    eapply Forall_forall in Hall as (o & Ho & HP); [|exact Hr]. rewrite Hev in Ho. injection Ho as <-. by apply HP.
  - intros HP. apply Forall_forall. intros r Hr.
    assert (exists o, evaluate r intent context = Ok o) as (o & Ho).
    { pose proof (proj2 (evaluate_rules_Ok rules intent context) (ex_intro _ _ He)) as Hall. by eapply Forall_forall in Hall. }
    exists o. split; [done|]. intros e ->. apply HP. apply (evaluate_rules_elem _ _ _ _ _ He). eauto.
Qed.

Lemma fired_false o l : fired o l = false <-> forall e, e ∈ l -> re_outcome e <> o.
Proof.
  rewrite <- not_true_iff_false, fired_spec. split; [intros Hn e Hin Ho; apply Hn; eauto|]. intros Hn (e & Hin & Ho). by apply (Hn e).
Qed.

Lemma engine_allows_iff engine intent context :
  let workflow := workflow_rules (pe_tenant_workflow_rules engine) intent in
  engine_allows engine intent context <->
  Forall (fun r => not_denied (evaluate r intent context)) (pe_hard_rules engine) /\
  Forall (fun r => only_allows (evaluate r intent context)) workflow /\
  Exists (fun r => exists e, evaluate r intent context = Ok (Some e)) workflow.
Proof.
  cbv zeta. split.
  - intros (d & Hd & Ha). apply engine_decision in Hd as (hs & Hh & Hcase).
    destruct Hcase as [[Hf ->]|(Hf & ws & Hw & ->)]; rewrite combine_verdict in Ha; unfold verdict in Ha; rewrite Hf in Ha; [done|].
    simpl in Ha. destruct (fired Deny ws) eqn:H1, (fired NeedsEvidence ws) eqn:H2, (fired ApprovalRequired ws) eqn:H3, (fired Allow ws) eqn:H4;
      try discriminate Ha.
    rewrite fired_false in Hf, H1, H2, H3. apply fired_spec in H4 as (e & Hin & _). unfold evaluate_workflow in Hw. split_and!.
    + by apply (evaluate_rules_outcomes (fun o => o <> Deny) _ _ _ _ Hh).
    + apply (evaluate_rules_outcomes (fun o => o = Allow) _ _ _ _ Hw). intros e' Hin'.
      specialize (H1 _ Hin'). specialize (H2 _ Hin'). specialize (H3 _ Hin'). by destruct (re_outcome e').
    + apply (evaluate_rules_elem _ _ _ _ _ Hw) in Hin as (r & Hr & He). apply Exists_exists. eauto.
  - intros (Hh & Hw & Hx).
    assert (exists hs, evaluate_rules (pe_hard_rules engine) intent context = Ok hs) as (hs & Hhs).
    { apply evaluate_rules_Ok. eapply Forall_impl; [exact Hh|]. intros r (o & Ho & _). eauto. }
    assert (exists ws, evaluate_rules (workflow_rules (pe_tenant_workflow_rules engine) intent) intent context = Ok ws) as (ws & Hws).
    { apply evaluate_rules_Ok. eapply Forall_impl; [exact Hw|]. intros r (o & Ho & _). eauto. }
    pose proof (proj1 (evaluate_rules_outcomes (fun o => o <> Deny) _ _ _ _ Hhs) Hh) as Hd.
    pose proof (proj1 (evaluate_rules_outcomes (fun o => o = Allow) _ _ _ _ Hws) Hw) as Ha.
    exists (combine_evaluations hs ws). unfold PolicyEngine_evaluate, evaluate_workflow. rewrite Hhs. cbn [mbind res_bind].
    pose proof (with_outcome_fired Deny hs) as Hf. rewrite (proj2 (fired_false Deny hs) Hd) in Hf.
    destruct (with_outcome Deny hs); [|done]. rewrite Hws. split; [done|]. rewrite combine_verdict. unfold verdict.
    apply Exists_exists in Hx as (r & Hr & e & He). assert (e ∈ ws) as Hin by (apply (evaluate_rules_elem _ _ _ _ _ Hws); eauto).
    rewrite (proj2 (fired_false Deny hs) Hd), (proj2 (fired_spec Allow ws)) by (exists e; eauto).
    assert (forall o, o <> Allow -> fired o ws = false) as Hno.
    { intros o Ho. apply fired_false. intros e' Hin' He'. rewrite <- He' in Ho. by apply Ho, Ha. }
    rewrite !Hno by done. done.
Qed.

(** ** What each rule asks for *)
Lemma getitem_Ok d k v : getitem d k = Ok v <-> assoc k d = Some v.
Proof. unfold getitem. destruct (assoc k d); split; congruence. Qed.

Lemma dget_nonnull d k v : v <> JNull -> dget d k = v <-> assoc k d = Some v.
Proof. unfold dget. destruct (assoc k d); split; congruence. Qed.

(** A fact that is given must be the value. *)
Definition fact_matches (context : DynamicContextInput) (k : string) (v : json) : Prop :=
  dget (cx_facts context) k = JNull \/ py_eqb v (dget (cx_facts context) k) = true.

Lemma mismatch_false context k v : mismatch (dget (cx_facts context) k) v = false <-> fact_matches context k v.
Proof.
  unfold mismatch, fact_matches. rewrite andb_false_iff, negb_false_iff. destruct (dget (cx_facts context) k); simpl; naive_solver.
Qed.

Section Requirements.
Context `{Protocol} `{PyText}.

(** The time window, the lifetime and the scope. *)
Record well_timed (intent : ActionIntent) (context : DynamicContextInput) : Prop := {
  wt_window : (in_issued_at intent <= cx_now context < in_expires_at intent)%Z;
  wt_max : (0 < default 900 (cx_max_ttl_seconds context) <= TIMEDELTA_MAX_SECONDS)%Z;
  wt_ttl : (in_expires_at intent - in_issued_at intent <= default 900 (cx_max_ttl_seconds context) * US_PER_SECOND)%Z;
  wt_scope : cx_scope_capabilities context = [] \/ act_capability (in_action intent) ∈ cx_scope_capabilities context
}.

Lemma chronology_rule intent context :
  not_denied (evaluate IntentChronologyHardRule intent context) <-> (in_issued_at intent <= cx_now context < in_expires_at intent)%Z.
Proof.
  unfold not_denied, IntentChronologyHardRule, evaluate.
  destruct (Z.ltb_spec (cx_now context) (in_issued_at intent)); [|destruct (Z.leb_spec (in_expires_at intent) (cx_now context))].
  1, 2: split; [intros (o & [= <-] & Ho); by destruct (Ho _ eq_refl)|lia].
  split; [lia|]. intros _. by exists None.
Qed.

Lemma ttl_rule intent context : not_denied (evaluate (IntentTtlHardRule 900) intent context) <->
  (0 < default 900 (cx_max_ttl_seconds context) <= TIMEDELTA_MAX_SECONDS)%Z /\
  (in_expires_at intent - in_issued_at intent <= default 900 (cx_max_ttl_seconds context) * US_PER_SECOND)%Z.
Proof.
  unfold not_denied, IntentTtlHardRule, evaluate. cbv zeta. set (ttl := default 900%Z (cx_max_ttl_seconds context)).
  destruct (Z.leb_spec ttl 0); [split; [intros (o & [= <-] & Ho); by destruct (Ho _ eq_refl)|lia]|].
  destruct (Z.ltb_spec TIMEDELTA_MAX_SECONDS ttl); [split; [by intros (o & ? & _)|lia]|].
  destruct (Z.ltb_spec (ttl * US_PER_SECOND) (in_expires_at intent - in_issued_at intent));
    [split; [intros (o & [= <-] & Ho); by destruct (Ho _ eq_refl)|lia]|].
  split; [lia|]. intros _. by exists None.
Qed.

Lemma scope_rule intent context : not_denied (evaluate CapabilityScopeHardRule intent context) <->
  cx_scope_capabilities context = [] \/ act_capability (in_action intent) ∈ cx_scope_capabilities context.
Proof.
  unfold not_denied, CapabilityScopeHardRule, evaluate. destruct (cx_scope_capabilities context) as [|c cs]; [split; [by left|by exists None]|].
  destruct (str_mem _ _) eqn:Hm.
  - split; [|by exists None]. intros _. right. by apply str_mem_spec.
  - split; [intros (o & [= <-] & Ho); by destruct (Ho _ eq_refl)|]. intros [?|Hin]; [done|]. apply str_mem_spec in Hin. congruence.
Qed.

(** A cited receipt is in the store, with the declared digest, an outcome the rule
    accepts and the capability it asks for. *)
Definition receipt_ref_verified (get : string -> py (option Receipt)) (outcomes : list string) (capability : option string)
    (ref : EvidenceRef) : Prop :=
  exists receipt digest, get (ev_value ref) = Ok (Some receipt) /\ build_artifact_digest (Receipt_to_dict receipt) = Ok digest /\
    DigestSpec_from_dict "evidence_ref.digest" (JDict (ev_digest ref)) = Ok digest /\ rc_outcome receipt ∈ outcomes /\
    (capability = None \/ capability = Some (act_capability (rc_action receipt))).

Definition evidence_verified (store : option (string -> py (option Receipt))) (outcomes : list string) (capability : option string)
    (intent : ActionIntent) : Prop :=
  receipt_refs intent = [] \/ exists get, store = Some get /\ Forall (receipt_ref_verified get outcomes capability) (receipt_refs intent).

Lemma digest_error_not_denied id code summary details (r : py DigestSpec) (f : DigestSpec -> py (option RuleEvaluation)) :
  not_denied match r with Err (ValueError _) => denial id code summary details | Err e => Err e | Ok d => f d end <->
  exists d, r = Ok d /\ not_denied (f d).
Proof. destruct r as [d|[]]; rewrite ?not_denied_denial, ?not_denied_Err; naive_solver. Qed.

Lemma check_receipt_ref_verified get outcomes capability id ref :
  not_denied (check_receipt_ref get outcomes capability id ref) <-> receipt_ref_verified get outcomes capability ref.
Proof.
  unfold check_receipt_ref, receipt_ref_verified. rewrite not_denied_bind. split.
  - intros ([receipt|] & Hg & Hn); [|by apply not_denied_denial in Hn]. rewrite digest_error_not_denied in Hn.
    destruct Hn as (declared & Hd & Hn). rewrite not_denied_bind in Hn. destruct Hn as (actual & Hb & Hn).
    rewrite not_denied_if, not_denied_if in Hn. destruct Hn as (He & Ho & Hc). apply negb_false_iff, bool_decide_eq_true in He. subst declared.
    apply negb_false_iff, str_mem_spec in Ho. exists receipt, actual. split_and!; try done.
    destruct capability as [c|]; [|by left]. right. rewrite not_denied_if in Hc. destruct Hc as [Hc _].
    apply negb_false_iff, String.eqb_eq in Hc. by subst.
  - intros (receipt & digest & Hg & Hb & Hd & Ho & Hc). exists (Some receipt). split; [done|].
    rewrite digest_error_not_denied. exists digest. split; [done|]. rewrite not_denied_bind. exists digest. split; [done|].
    rewrite not_denied_if, not_denied_if, bool_decide_true, (proj2 (str_mem_spec _ _)) by done. split_and!; try done.
    destruct Hc as [->| ->]; [by apply not_denied_pass|]. rewrite not_denied_if, String.eqb_refl. split; [done|]. by apply not_denied_pass.
Qed.

Lemma check_receipt_ref_outcome get outcomes capability id ref e :
  check_receipt_ref get outcomes capability id ref = Ok (Some e) -> re_outcome e = Deny.
Proof. unfold check_receipt_ref, denial, pass. intros Hc. res_inv. repeat (case_match; simplify_eq; res_inv); done. Qed.

Lemma evidence_rule store outcomes capability intent context :
  not_denied (evaluate (ReceiptEvidenceVerificationRule store outcomes capability) intent context) <->
  evidence_verified store outcomes capability intent.
Proof.
  unfold evidence_verified, ReceiptEvidenceVerificationRule, evaluate. cbv zeta. destruct (receipt_refs intent) as [|ref refs]; [rewrite not_denied_pass; naive_solver|].
  destruct store as [get|]; [|rewrite not_denied_denial; naive_solver]. generalize (ref :: refs) as l. clear.
  intros l. transitivity (Forall (receipt_ref_verified get outcomes capability) l).
  - induction l as [|r l IH]; [split; [constructor|by exists None]|].
    cbn [check_receipt_refs]. rewrite Forall_cons, <- IH, <- (check_receipt_ref_verified _ _ _ "hard.evidence.receipt_chain"), not_denied_bind.
    split.
    + intros (o & Ho & Hn). destruct o as [e|]; [|split; [by exists None|done]].
      apply check_receipt_ref_outcome in Ho as He. destruct Hn as (o & [= <-] & Hn). by destruct (Hn _ eq_refl).
    + intros ((o & Ho & Hd) & Hn). exists o. split; [done|]. destruct o as [e|]; [|done].
      destruct (Hd _ eq_refl). by eapply check_receipt_ref_outcome.
  - naive_solver.
Qed.

(** *** Refunds *)
Lemma not_positive_int_false j : not_positive_int j = false <-> exists z, py_int_of j = Some z /\ (0 < z)%Z.
Proof.
  unfold not_positive_int. destruct (py_int_of j) as [z|]; [|naive_solver].
  rewrite Z.leb_gt. split; [eauto|]. by intros (? & [= <-] & ?).
Qed.

Definition currency_code (s : string) : Prop := py_len s = 3%Z /\ str_upper s = s.

Lemma bad_currency_false s : bad_currency s = false <-> currency_code s.
Proof. unfold bad_currency, currency_code. by rewrite orb_false_iff, !negb_false_iff, Z.eqb_eq, String.eqb_eq. Qed.

Lemma currency_value_false j : match j with JStr s => bad_currency s | _ => true end = false <-> exists s, j = JStr s /\ currency_code s.
Proof. destruct j; try naive_solver. rewrite bad_currency_false. naive_solver. Qed.

Lemma py_int_of_int j z : py_int_of j = Some z -> py_int j = Ok z.
Proof. by destruct j as [|[]| | | | |]; intros [= <-]. Qed.

Definition within_balance (context : DynamicContextInput) (amount : Z) : Prop :=
  dget (cx_facts context) "remaining_refundable_minor" = JNull \/
  exists limit, py_int (dget (cx_facts context) "remaining_refundable_minor") = Ok limit /\ (amount <= limit)%Z.

Record refund_authorised (store : option (string -> py (option Receipt))) (intent : ActionIntent) (context : DynamicContextInput) : Prop := {
  ra_timed : well_timed intent context;
  ra_evidence : evidence_verified store ["executed"] (Some "refund.execute") intent;
  ra_action : act_name (in_action intent) = "refund.create" /\ act_capability (in_action intent) = "refund.execute" /\
              tgt_resource_type (in_target intent) = "payment";
  ra_amount : exists raw z, assoc "amount_minor" (parameters intent) = Some raw /\ py_int_of raw = Some z /\ (0 < z)%Z /\
              within_balance context z;
  ra_currency : exists s, assoc "currency" (parameters intent) = Some (JStr s) /\ currency_code s /\
                fact_matches context "payment_currency" (JStr s);
  ra_target : py_truthy (dget (cx_facts context) "payment_id") = false \/
              dget (cx_facts context) "payment_id" = JStr (tgt_resource_id (in_target intent));
  ra_workflow : tenant_id (in_tenant intent) = "tenant_demo" /\ dget (cx_facts context) "risk_level" = JStr "normal"
}.

Lemma refund_shape_rule intent context : not_denied (evaluate RefundActionShapeRule intent context) <->
  (act_name (in_action intent) = "refund.create" /\ act_capability (in_action intent) = "refund.execute" /\
   tgt_resource_type (in_target intent) = "payment") /\
  (exists z, py_int_of (dget (parameters intent) "amount_minor") = Some z /\ (0 < z)%Z) /\
  (exists s, dget (parameters intent) "currency" = JStr s /\ currency_code s).
Proof.
  unfold RefundActionShapeRule, evaluate. cbv zeta.
  rewrite !not_denied_if, not_denied_pass, !negb_false_iff, !String.eqb_eq, not_positive_int_false, currency_value_false. tauto.
Qed.

Lemma refund_target_rule intent context : not_denied (evaluate RefundTargetBindingRule intent context) <->
  py_truthy (dget (cx_facts context) "payment_id") = false \/
  dget (cx_facts context) "payment_id" = JStr (tgt_resource_id (in_target intent)).
Proof.
  unfold RefundTargetBindingRule, evaluate. cbv zeta.
  rewrite not_denied_if, not_denied_pass, andb_false_iff, negb_false_iff, py_eqb_str_l. tauto.
Qed.

Lemma refund_amount_rule intent context : not_denied (evaluate RefundAmountLimitRule intent context) <->
  exists raw z, assoc "amount_minor" (parameters intent) = Some raw /\ py_int raw = Ok z /\ within_balance context z.
Proof.
  unfold RefundAmountLimitRule, evaluate, within_balance. cbv zeta. rewrite not_denied_bind. setoid_rewrite getitem_Ok.
  setoid_rewrite not_denied_bind. generalize (dget (cx_facts context) "remaining_refundable_minor") as fact. intros fact.
  assert (forall z, not_denied match fact with
    | JNull => pass
    | _ => limit ← py_int fact;
           if (limit <? z)%Z then denial "hard.refund.amount_limit" "REFUND_AMOUNT_EXCEEDS_BALANCE"
             "The requested refund exceeds the remaining refundable balance."
             [("remaining_refundable_minor", fact); ("requested_amount_minor", JInt z)] else pass
    end <-> fact = JNull \/ exists limit, py_int fact = Ok limit /\ (z <= limit)%Z) as Hfact.
  { intros z. destruct fact; [rewrite not_denied_pass; naive_solver|..];
      rewrite not_denied_bind; setoid_rewrite not_denied_if; setoid_rewrite not_denied_pass; setoid_rewrite Z.ltb_ge; naive_solver. }
  split.
  - intros (raw & Hr & z & Hz & Hn). exists raw, z. split_and!; [done|done|]. apply Hfact. by destruct fact.
  - intros (raw & z & Hr & Hz & Hw). exists raw. split; [done|]. exists z. split; [done|]. apply Hfact in Hw. by destruct fact.
Qed.

Lemma refund_currency_rule intent context : not_denied (evaluate RefundCurrencyMatchRule intent context) <->
  exists v, assoc "currency" (parameters intent) = Some v /\ fact_matches context "payment_currency" v.
Proof.
  unfold RefundCurrencyMatchRule, evaluate. cbv zeta. rewrite not_denied_bind. setoid_rewrite getitem_Ok.
  setoid_rewrite not_denied_if. setoid_rewrite not_denied_pass. setoid_rewrite mismatch_false. naive_solver.
Qed.

(** The tenant has a workflow, and its risk level is the allowed one. *)
Lemma refund_workflow store intent context : act_capability (in_action intent) = "refund.execute" ->
  let rules := workflow_rules (pe_tenant_workflow_rules (build_refund_policy_engine store)) intent in
  (Forall (fun r => only_allows (evaluate r intent context)) rules /\
   Exists (fun r => exists e, evaluate r intent context = Ok (Some e)) rules) <->
  tenant_id (in_tenant intent) = "tenant_demo" /\ dget (cx_facts context) "risk_level" = JStr "normal".
Proof.
  intros Hc. cbv zeta. unfold workflow_rules, build_refund_policy_engine, pe_tenant_workflow_rules, ly_default_rules, ly_tenant_rules.
  cbn [assoc]. destruct (String.eqb_spec (tenant_id (in_tenant intent)) "tenant_demo") as [Ht|Ht];
    [change ([] ++ default [] (Some refund_workflow_rules)) with refund_workflow_rules|simpl; rewrite Exists_nil; naive_solver].
  assert (forall id outcome summary code risk evidence approvers,
    evaluate (TenantWorkflowRule (mkWorkflowRule id outcome summary code [] ["refund.execute"] [("risk_level", JStr risk)] evidence approvers))
      intent context =
    if py_eqb (dget (cx_facts context) "risk_level") (JStr risk)
    then evaluate (TenantWorkflowRule (mkWorkflowRule id outcome summary code [] [] [] evidence approvers)) intent context else Ok None) as Hrule.
  { intros. unfold TenantWorkflowRule, evaluate. simpl. rewrite Hc. simpl. by destruct (py_eqb _ _). }
  assert (dget (cx_facts context) "risk_level" = JStr "normal" \/ dget (cx_facts context) "risk_level" <> JStr "normal") as [Hr|Hr].
  { destruct (decide (dget (cx_facts context) "risk_level" = JStr "normal")); auto. }
  - split; [done|]. intros _. unfold refund_workflow_rules. rewrite !Forall_cons, !Exists_cons, !Hrule, Hr. simpl.
    split; [split_and!; try (by eexists; split; [reflexivity|]); [|constructor]|do 3 right; left; by eexists].
    eexists. split; [reflexivity|]. by intros e [= <-].
  - split; [|naive_solver]. intros [Hall Hx]. exfalso. unfold refund_workflow_rules in *.
    rewrite !Forall_cons, !Hrule in Hall. rewrite !Exists_cons, !Hrule, Exists_nil in Hx.
    destruct Hall as (H1 & H2 & H3 & _ & _).
    assert (py_eqb (dget (cx_facts context) "risk_level") (JStr "normal") = false) as Hn.
    { apply not_true_iff_false. by rewrite py_eqb_str_r. }
    rewrite Hn in Hx. destruct (py_eqb _ (JStr "blocked")).
    { destruct H1 as (o & [= <-] & Ho). by specialize (Ho _ eq_refl). }
    destruct (py_eqb _ (JStr "approval")).
    { destruct H3 as (o & [= <-] & Ho). by specialize (Ho _ eq_refl). }
    destruct (py_eqb _ (JStr "review")).
    { destruct Hx as [(? & ?)|[(e & He)|[(? & ?)|[(? & ?)|?]]]]; try done. destruct H2 as (o & Ho & Ha). rewrite He in Ho. injection Ho as <-.
      specialize (Ha _ eq_refl). unfold TenantWorkflowRule, evaluate in He. simpl in He. destruct (filter _ _); simplify_eq; done. }
    destruct Hx as [(? & ?)|[(e & He)|[(? & ?)|[(? & ?)|?]]]]; done.
Qed.

Lemma refund_engine_exact store intent context :
  engine_allows (build_refund_policy_engine store) intent context <-> refund_authorised store intent context.
Proof.
  rewrite engine_allows_iff. unfold pe_hard_rules, build_refund_policy_engine at 1.
  rewrite !Forall_cons, Forall_nil, chronology_rule, ttl_rule, scope_rule, evidence_rule, refund_shape_rule, refund_target_rule,
    refund_amount_rule, refund_currency_rule.
  split.
  - intros ((Hw & (Hm & Ht) & Hs & He & (Ha & (z & Hz & Hp) & s & Hc & Hcc) & Hg & (raw & z' & Hr & Hz' & Hb) & (v & Hv & Hf) & _) & Hwf).
    apply refund_workflow in Hwf; [|by destruct Ha as (_ & ? & _)].
    unfold dget in Hz, Hc. rewrite Hr in Hz. rewrite Hv in Hc. subst v. rewrite (py_int_of_int raw z) in Hz' by done. injection Hz' as ->.
    constructor; eauto 10. by constructor.
  - intros [[Hw Hm Ht Hs] He Ha (raw & z & Hr & Hz & Hp & Hb) (s & Hc & Hcc & Hf) Hg Hwf].
    split; [|apply refund_workflow; [by destruct Ha as (_ & ? & _)|done]].
    unfold dget. rewrite Hr, Hc. destruct Hw, Hm, Ha as (? & ? & ?). split_and!; eauto 6 using py_int_of_int.
Qed.

(** *** Invoice payments *)
Definition str_param (intent : ActionIntent) (k s : string) : Prop := assoc k (parameters intent) = Some (JStr s) /\ str_truthy s = true.

Lemma nonempty_str_true j : nonempty_str j = true <-> exists s, j = JStr s /\ str_truthy s = true.
Proof. destruct j; naive_solver. Qed.

(** The parameters of an invoice payment, read once. *)
Record payment_params (intent : ActionIntent) := mkPaymentParams {
  pp_payer : string; pp_supplier : string; pp_bank : string; pp_currency : string; pp_date : string; pp_batch : string;
  pp_hash : string; pp_proposer : string; pp_amount : json;
  pp_payer_param : str_param intent "payer_entity_id" pp_payer;
  pp_supplier_param : str_param intent "supplier_id" pp_supplier;
  pp_bank_param : str_param intent "bank_account_reference" pp_bank;
  pp_currency_param : str_param intent "currency" pp_currency;
  pp_date_param : str_param intent "payment_date" pp_date;
  pp_batch_param : str_param intent "payment_batch_id" pp_batch;
  pp_hash_param : str_param intent "batch_hash" pp_hash;
  pp_proposer_param : str_param intent "proposer_id" pp_proposer;
  pp_amount_param : assoc "amount_minor" (parameters intent) = Some pp_amount
}.
#[global] Arguments pp_payer {intent} _.
#[global] Arguments pp_supplier {intent} _.
#[global] Arguments pp_bank {intent} _.
#[global] Arguments pp_currency {intent} _.
#[global] Arguments pp_date {intent} _.
#[global] Arguments pp_batch {intent} _.
#[global] Arguments pp_hash {intent} _.
#[global] Arguments pp_proposer {intent} _.
#[global] Arguments pp_amount {intent} _.

Lemma str_param_find intent k s : str_param intent k s -> negb (nonempty_str (dget (parameters intent) k)) = false.
Proof. intros [Ha Ht]. unfold dget. rewrite Ha. simpl. by rewrite Ht. Qed.

Lemma str_param_getitem intent k s : str_param intent k s -> getitem (parameters intent) k = Ok (JStr s).
Proof. intros [Ha _]. by apply getitem_Ok. Qed.

Lemma payment_params_found intent (p : payment_params intent) :
  List.find (fun f => negb (nonempty_str (dget (parameters intent) f))) REQUIRED_STRING_FIELDS = None.
Proof. destruct p. unfold REQUIRED_STRING_FIELDS. cbn [List.find]. by erewrite !str_param_find by eassumption. Qed.

Lemma payment_params_exist intent z :
  List.find (fun f => negb (nonempty_str (dget (parameters intent) f))) REQUIRED_STRING_FIELDS = None ->
  py_int_of (dget (parameters intent) "amount_minor") = Some z -> inhabited (payment_params intent).
Proof.
  intros Hf Hz.
  assert (forall k, In k REQUIRED_STRING_FIELDS -> exists s, str_param intent k s) as Hall.
  { intros k Hk. pose proof (List.find_none _ _ Hf k Hk) as Hn. apply negb_false_iff, nonempty_str_true in Hn as (s & Hs & Ht).
    exists s. split; [|done]. by apply dget_nonnull in Hs. }
  destruct (Hall "payer_entity_id") as [s1 H1]; [by left|]. destruct (Hall "supplier_id") as [s2 H2]; [by right; left|].
  destruct (Hall "bank_account_reference") as [s3 H3]; [by do 2 right; left|]. destruct (Hall "currency") as [s4 H4]; [by do 3 right; left|].
  destruct (Hall "payment_date") as [s5 H5]; [by do 4 right; left|]. destruct (Hall "payment_batch_id") as [s6 H6]; [by do 5 right; left|].
  destruct (Hall "batch_hash") as [s7 H7]; [by do 6 right; left|]. destruct (Hall "proposer_id") as [s8 H8]; [by do 7 right; left|].
  unfold dget in Hz. destruct (assoc "amount_minor" (parameters intent)) as [v|] eqn:Hv; [|done]. by constructor; econstructor.
Qed.

Lemma normalize_fixed l : normalize_invoice_ids (strings l) = Ok l <-> normal_invoice_ids l.
Proof. split; [apply normalize_invoice_ids_normal|apply normalize_invoice_ids_idem]. Qed.

(** The checks of the shape rule after the mandatory strings. *)
Record payment_shape (intent : ActionIntent) (p : payment_params intent) : Prop := {
  ps_amount : exists z, py_int_of (pp_amount p) = Some z /\ (0 < z)%Z;
  ps_currency : currency_code (pp_currency p);
  ps_invoices : normal_invoice_ids (_invoice_ids intent);
  ps_date : exists ymd, parse_calendar_date (JStr (pp_date p)) "payment_date" = Ok ymd;
  ps_target : tgt_resource_id (in_target intent) = pp_batch p;
  ps_proposer : pp_proposer p = party_id (in_requester intent)
}.

Lemma date_error_not_denied id code summary details {A} (r : py A) (m : py (option RuleEvaluation)) :
  not_denied match r with Err (ValueError _) => denial id code summary details | Err e => Err e | Ok _ => m end <->
  (exists a, r = Ok a) /\ not_denied m.
Proof. destruct r as [d|[]]; rewrite ?not_denied_denial, ?not_denied_Err; naive_solver. Qed.

Lemma not_denied_nil id code summary details {A} (l : list A) (m : py (option RuleEvaluation)) :
  not_denied match l with [] => denial id code summary details | _ => m end <-> l <> [] /\ not_denied m.
Proof. destruct l; rewrite ?not_denied_denial; naive_solver. Qed.

Definition invoice_action (intent : ActionIntent) : Prop :=
  act_name (in_action intent) = "invoice_payment.execute" /\ act_capability (in_action intent) = "invoice_payment.execute" /\
  tgt_resource_type (in_target intent) = "payment_batch".

Lemma invoice_shape_rule intent context : not_denied (evaluate InvoicePaymentActionShapeRule intent context) <->
  invoice_action intent /\ exists p : payment_params intent, payment_shape intent p.
Proof.
  unfold InvoicePaymentActionShapeRule, evaluate, invoice_action. cbv zeta. rewrite !not_denied_if, !negb_false_iff, !String.eqb_eq. split.
  - intros (Hn & Hc & Ht & Hr). split; [done|]. destruct (List.find _ _) eqn:Hf; [by apply not_denied_denial in Hr|].
    rewrite not_denied_if, not_positive_int_false in Hr. destruct Hr as ((z & Hz & Hp) & Hr).
    destruct (payment_params_exist intent z Hf Hz) as [p]. exists p. destruct p as [payer supplier bank cur date batch hash prop amount H1 H2 H3 H4 H5 H6 H7 H8 H9].
    unfold dget in Hz. rewrite H9 in Hz.
    rewrite (str_param_getitem _ _ _ H4) in Hr. cbn [mbind res_bind] in Hr.
    rewrite not_denied_if, bad_currency_false, not_denied_nil, not_denied_bind in Hr.
    destruct Hr as (Hcur & _ & ids & Hids & Hr). rewrite not_denied_if in Hr. destruct Hr as [Hsame Hr].
    apply negb_false_iff, bool_decide_eq_true in Hsame. subst ids.
    rewrite (str_param_getitem _ _ _ H5) in Hr. cbn [mbind res_bind] in Hr. rewrite date_error_not_denied in Hr. destruct Hr as [Hdate Hr].
    rewrite (str_param_getitem _ _ _ H6) in Hr. cbn [mbind res_bind] in Hr.
    rewrite not_denied_if, negb_false_iff, py_eqb_str_r in Hr. destruct Hr as [[= Htgt] Hr].
    rewrite (str_param_getitem _ _ _ H8) in Hr. cbn [mbind res_bind] in Hr.
    rewrite not_denied_if, negb_false_iff, py_eqb_str_r in Hr. destruct Hr as [[= Hprop] _].
    constructor; simpl; eauto. by apply normalize_fixed.
  - intros ((Hn & Hc & Ht) & p & [(z & Hz & Hp) Hcur Hids Hdate Htgt Hprop]). split_and!; [done..|]. rewrite payment_params_found by done.
    destruct p as [payer supplier bank cur date batch hash prop amount H1 H2 H3 H4 H5 H6 H7 H8 H9].
    cbn [pp_amount pp_currency pp_date pp_batch pp_proposer] in *.
    rewrite not_denied_if, not_positive_int_false. split; [unfold dget; rewrite H9; eauto|].
    rewrite (str_param_getitem _ _ _ H4), not_denied_bind. exists (JStr cur). split; [done|].
    rewrite not_denied_if, bad_currency_false, not_denied_nil, not_denied_bind. split; [done|]. split; [by destruct Hids|].
    exists (_invoice_ids intent). split; [by apply normalize_fixed|]. rewrite not_denied_if, bool_decide_true by done. split; [done|].
    rewrite (str_param_getitem _ _ _ H5), not_denied_bind. exists (JStr date). split; [done|].
    rewrite date_error_not_denied. split; [done|]. rewrite (str_param_getitem _ _ _ H6), not_denied_bind. exists (JStr batch). split; [done|].
    rewrite not_denied_if, negb_false_iff, py_eqb_str_r. split; [congruence|].
    rewrite (str_param_getitem _ _ _ H8), not_denied_bind. exists (JStr prop). split; [done|].
    rewrite not_denied_if, negb_false_iff, py_eqb_str_r. split; [congruence|]. by apply not_denied_pass.
Qed.

(** The bindings the constraints must repeat. *)
Definition payment_bindings (intent : ActionIntent) (p : payment_params intent) : dict :=
  [("exact_payer_entity_id", JStr (pp_payer p)); ("exact_supplier_id", JStr (pp_supplier p));
   ("exact_bank_account_reference", JStr (pp_bank p)); ("exact_invoice_ids", strings (_invoice_ids intent));
   ("exact_amount_minor", pp_amount p); ("exact_currency", JStr (pp_currency p)); ("exact_payment_date", JStr (pp_date p));
   ("exact_payment_batch_id", JStr (pp_batch p)); ("exact_batch_hash", JStr (pp_hash p))].

(** The payment that is hashed. *)
Definition payment_of (intent : ActionIntent) (p : payment_params intent) : payment :=
  mkPayment (JStr (pp_payer p)) (JStr (pp_supplier p)) (JStr (pp_bank p)) (strings (_invoice_ids intent)) (pp_amount p)
    (JStr (pp_currency p)) (NotDate (JStr (pp_date p))) (JStr (pp_batch p)).

(** Read the parameters of a payment. *)
Ltac read_params :=
  repeat match goal with
  | P : str_param ?i ?k ?s |- context [getitem (parameters ?i) ?k] => rewrite (str_param_getitem i k s P); cbn [mbind res_bind]
  | P : assoc ?k (parameters ?i) = Some ?v |- context [getitem (parameters ?i) ?k] =>
      rewrite (proj2 (getitem_Ok (parameters i) k v) P); cbn [mbind res_bind]
  end.

Lemma expected_bindings_Ok intent (p : payment_params intent) : expected_bindings intent = Ok (payment_bindings intent p).
Proof. destruct p. unfold expected_bindings, payment_bindings. cbv zeta. by read_params. Qed.

Lemma declared_payment_Ok intent (p : payment_params intent) : declared_payment intent = Ok (payment_of intent p).
Proof. destruct p. unfold declared_payment, payment_of. cbv zeta. by read_params. Qed.

Lemma not_denied_find {A} (f : A -> bool) l (g : A -> py (option RuleEvaluation)) : (forall a, not_denied (g a) <-> False) ->
  not_denied match List.find (fun a => negb (f a)) l with Some a => g a | None => pass end <-> Forall (fun a => f a = true) l.
Proof.
  intros Hg. induction l as [|a l IH]; simpl; [rewrite not_denied_pass; split; [constructor|done]|]. rewrite Forall_cons.
  destruct (f a); simpl; [rewrite IH; naive_solver|]. rewrite Hg. naive_solver.
Qed.

Lemma constraint_rule intent (p : payment_params intent) context :
  not_denied (evaluate InvoicePaymentConstraintBindingRule intent context) <->
  Forall (fun kv => py_eqb (dget (act_constraints (in_action intent)) kv.1) kv.2 = true) (payment_bindings intent p).
Proof.
  unfold InvoicePaymentConstraintBindingRule, evaluate. cbv zeta. rewrite (expected_bindings_Ok intent p). cbn [mbind res_bind].
  rewrite <- (not_denied_find _ _ (fun kv => denial "hard.invoice_payment.constraint_binding" "PAYMENT_BINDING_MISMATCH"
    "The invoice payment action constraints must exactly mirror the requested payment values."
    [("field_name", JStr kv.1); ("expected", kv.2); ("observed", dget (act_constraints (in_action intent)) kv.1)]))
    by (intros; apply not_denied_denial).
  by destruct (List.find _ _) as [[k v]|].
Qed.

Lemma binding_rule_spec id fact param code summary intent context v : assoc param (parameters intent) = Some v ->
  not_denied (evaluate (binding_rule id fact param code summary) intent context) <-> fact_matches context fact v.
Proof.
  intros Hv. unfold binding_rule, evaluate. cbv zeta. rewrite (proj2 (getitem_Ok _ _ _) Hv). cbn [mbind res_bind].
  rewrite not_denied_if, not_denied_pass, mismatch_false. tauto.
Qed.

Definition expects_invoices (context : DynamicContextInput) (ids : list string) : Prop :=
  dget (cx_facts context) "expected_invoice_ids" = JNull \/ normalize_invoice_ids (dget (cx_facts context) "expected_invoice_ids") = Ok ids.

Lemma invoice_set_rule intent context :
  not_denied (evaluate InvoicePaymentInvoiceSetRule intent context) <-> expects_invoices context (_invoice_ids intent).
Proof.
  unfold InvoicePaymentInvoiceSetRule, evaluate, expects_invoices. cbv zeta.
  generalize (dget (cx_facts context) "expected_invoice_ids") as fact. intros fact.
  assert (forall id code summary details, not_denied (normalized ← normalize_invoice_ids fact;
    if negb (bool_decide (_invoice_ids intent = normalized)) then denial id code summary (details normalized) else pass) <->
    normalize_invoice_ids fact = Ok (_invoice_ids intent)) as Hn.
  { intros id code summary details. rewrite not_denied_bind. setoid_rewrite not_denied_if. setoid_rewrite not_denied_pass. split.
    - intros (n & Hn & He & _). apply negb_false_iff, bool_decide_eq_true in He. congruence.
    - intros Hn. exists (_invoice_ids intent). by rewrite bool_decide_true. }
  destruct fact; [rewrite not_denied_pass; split; [by left|done]|..];
    rewrite (Hn _ _ _ (fun n => [("expected_invoice_ids", strings n); ("observed_invoice_ids", strings (_invoice_ids intent))]));
    (split; [by right|by intros [?|?]]).
Qed.

(** The amount, the currency and the date the context expects. *)
Definition expects_amount (context : DynamicContextInput) (amount : json) : Prop :=
  dget (cx_facts context) "expected_amount_minor" = JNull \/
  exists expected, py_int (dget (cx_facts context) "expected_amount_minor") = Ok expected /\ py_eqb amount (JInt expected) = true.

Lemma amount_mismatch_None intent context amount : assoc "amount_minor" (parameters intent) = Some amount ->
  amount_mismatch (parameters intent) (dget (cx_facts context) "expected_amount_minor") = Ok None <-> expects_amount context amount.
Proof.
  intros Ha. unfold amount_mismatch, expects_amount. generalize (dget (cx_facts context) "expected_amount_minor") as fact. intros fact.
  rewrite (proj2 (getitem_Ok _ _ _) Ha). cbn [mbind res_bind]. destruct fact; [split; [by left|done]|..];
    (destruct (py_int _) as [n|err]; cbn [mbind res_bind]; [destruct (py_eqb amount (JInt n)) eqn:He|]; simpl; (split; [intros ?|intros [?|(? & ? & ?)]]);
     simplify_eq; eauto; congruence).
Qed.

Lemma value_mismatch_None intent context param k v : assoc param (parameters intent) = Some v ->
  value_mismatch (parameters intent) param (dget (cx_facts context) k) = Ok None <-> fact_matches context k v.
Proof.
  intros Ha. unfold value_mismatch, fact_matches. generalize (dget (cx_facts context) k) as fact. intros fact.
  rewrite (proj2 (getitem_Ok _ _ _) Ha). cbn [mbind res_bind]. destruct fact; [split; [by left|done]|..];
    (destruct (py_eqb v _) eqn:He; cbn [negb]; (split; [intros ?|intros [?|?]]); simplify_eq; eauto).
Qed.

Lemma not_denied_opt {A} (m : py (option A)) (g : A -> py (option RuleEvaluation)) k : (forall a, not_denied (g a) <-> False) ->
  not_denied (o ← m; match o with Some a => g a | None => k end) <-> m = Ok None /\ not_denied k.
Proof.
  intros Hg. rewrite not_denied_bind. split; [|naive_solver]. intros ([a|] & Hm & Hn); [by apply Hg in Hn|done].
Qed.

Lemma amount_currency_rule intent (p : payment_params intent) context :
  not_denied (evaluate InvoicePaymentAmountCurrencyRule intent context) <->
  expects_amount context (pp_amount p) /\ fact_matches context "expected_currency" (JStr (pp_currency p)) /\
  fact_matches context "expected_payment_date" (JStr (pp_date p)).
Proof.
  destruct p as [payer supplier bank cur date batch hash prop amount H1 H2 H3 [H4 H4'] [H5 H5'] H6 H7 H8 H9]. cbn [pp_amount pp_currency pp_date].
  unfold InvoicePaymentAmountCurrencyRule, evaluate. cbv zeta.
  rewrite <- (amount_mismatch_None _ _ _ H9), <- (value_mismatch_None _ _ _ _ _ H4), <- (value_mismatch_None _ _ _ _ _ H5).
  rewrite not_denied_bind. split.
  - intros ([[e o]|] & Ha & Hr); [by apply not_denied_denial in Hr|]. split; [done|].
    apply not_denied_opt in Hr as [Hc Hr]; [|intros; apply not_denied_denial]. split; [done|].
    by apply not_denied_opt in Hr as [Hd _]; [|intros; apply not_denied_denial].
  - intros (Ha & Hc & Hd). exists None. split; [done|].
    apply not_denied_opt; [intros; apply not_denied_denial|]. split; [done|].
    apply not_denied_opt; [intros; apply not_denied_denial|]. split; [done|]. by apply not_denied_pass.
Qed.

(** No invoice of the request is among the paid ones, and no duplicate is flagged. *)
Definition not_duplicate (intent : ActionIntent) (context : DynamicContextInput) : Prop :=
  (exists paid, fact_strings context "duplicate_invoice_ids" [] = Ok paid /\ forall i, i ∈ _invoice_ids intent -> i ∉ paid) /\
  py_truthy (dget (cx_facts context) "duplicate_payment_detected") = false.

Lemma sorted_set_nil l : sorted_set l = [] <-> l = [].
Proof.
  split; [|by intros ->]. intros He. destruct l as [|x l]; [done|]. assert (x ∈ sorted_set (x :: l)) as Hin by (apply elem_of_sorted_set; left).
  rewrite He in Hin. by apply elem_of_nil in Hin.
Qed.

Lemma filter_nil_iff {A} (f : A -> bool) l : List.filter f l = [] <-> forall x, x ∈ l -> f x = false.
Proof.
  induction l as [|a l IH]; simpl; [split; [by intros _ x ?%elem_of_nil|done]|].
  setoid_rewrite elem_of_cons. destruct (f a) eqn:Ha; [split; [done|]|]; [|rewrite IH; naive_solver].
  intros Hall. rewrite (Hall a) in Ha by auto. done.
Qed.

Lemma duplicate_rule intent context :
  not_denied (evaluate InvoicePaymentDuplicateRule intent context) <-> not_duplicate intent context.
Proof.
  unfold InvoicePaymentDuplicateRule, evaluate, not_duplicate. cbv zeta. rewrite not_denied_bind.
  setoid_rewrite not_denied_if. setoid_rewrite not_denied_pass.
  assert (forall paid, match sorted_set (List.filter (fun i => str_mem i paid) (_invoice_ids intent)) with
    | [] => py_truthy (dget (cx_facts context) "duplicate_payment_detected") | _ => true end = false <->
    (forall i, i ∈ _invoice_ids intent -> i ∉ paid) /\ py_truthy (dget (cx_facts context) "duplicate_payment_detected") = false) as Hd.
  { intros paid. setoid_rewrite <- (str_mem_false _ paid). rewrite <- filter_nil_iff, <- sorted_set_nil.
    destruct (sorted_set _); naive_solver. }
  setoid_rewrite Hd. naive_solver.
Qed.

Lemma batch_hash_rule intent (p : payment_params intent) context :
  not_denied (evaluate InvoicePaymentBatchHashRule intent context) <->
  compute_invoice_payment_batch_hash (payment_of intent p) = Ok (pp_hash p) /\ fact_matches context "expected_batch_hash" (JStr (pp_hash p)).
Proof.
  unfold InvoicePaymentBatchHashRule, evaluate. cbv zeta. rewrite (declared_payment_Ok intent p). cbn [mbind res_bind].
  rewrite not_denied_bind, (str_param_getitem _ _ _ (pp_hash_param _ p)). cbn [mbind res_bind].
  setoid_rewrite not_denied_if. setoid_rewrite not_denied_if. setoid_rewrite not_denied_pass. setoid_rewrite mismatch_false.
  setoid_rewrite negb_false_iff. setoid_rewrite py_eqb_str_r. split.
  - intros (h & Hh & [= ->] & Hm & _). done.
  - intros [Hh Hm]. by exists (pp_hash p).
Qed.

(** What the workflow of the demo tenant asks for. *)
Record payment_ready (intent : ActionIntent) (context : DynamicContextInput) : Prop := {
  pr_tenant : tenant_id (in_tenant intent) = "tenant_demo";
  pr_risk : dget (cx_facts context) "risk_level" <> JStr "blocked";
  pr_evidence : exists required, fact_strings context "required_evidence_types" (cx_required_evidence_types context) = Ok required /\
                forall t, t ∈ required -> t ∈ map ev_type (in_evidence_refs intent);
  pr_approvals : exists required provided, fact_strings context "required_approval_chain" [] = Ok required /\
                 fact_strings context "provided_approval_chain" [] = Ok provided /\ forall a, a ∈ required -> a ∈ provided;
  pr_no_approval : py_truthy (dget (cx_facts context) "approval_required") = false
}.

Lemma only_allows_bind {A} (m : py A) (f : A -> py (option RuleEvaluation)) :
  only_allows (m ≫= f) <-> exists a, m = Ok a /\ only_allows (f a).
Proof. unfold only_allows. destruct m as [a|e]; simpl; naive_solver. Qed.

Lemma only_allows_pass : only_allows pass <-> True.
Proof. split; [done|]. intros _. by exists None. Qed.

Lemma only_allows_some e : only_allows (Ok (Some e)) <-> re_outcome e = Allow.
Proof. split; [intros (o & [= <-] & Ho); by apply Ho|]. intros He. eexists. split; [done|]. by intros e' [= <-]. Qed.

Lemma missing_nil (l have : list string) : List.filter (fun t => negb (str_mem t have)) l = [] <-> forall t, t ∈ l -> t ∈ have.
Proof. rewrite filter_nil_iff. setoid_rewrite negb_false_iff. by setoid_rewrite str_mem_spec. Qed.

Lemma evidence_workflow_rule intent context : applies_to "tenant_demo" intent = true ->
  only_allows (evaluate InvoicePaymentEvidenceWorkflowRule intent context) <->
  exists required, fact_strings context "required_evidence_types" (cx_required_evidence_types context) = Ok required /\
    forall t, t ∈ required -> t ∈ map ev_type (in_evidence_refs intent).
Proof.
  intros Ha. unfold InvoicePaymentEvidenceWorkflowRule, evaluate. cbv zeta. rewrite Ha. cbn [negb]. rewrite only_allows_bind.
  setoid_rewrite <- missing_nil. setoid_rewrite <- sorted_set_nil. f_equiv. intros required. f_equiv.
  destruct (sorted_set _); [by rewrite only_allows_pass|]. rewrite only_allows_some. done.
Qed.

Lemma approval_workflow_rule intent context : applies_to "tenant_demo" intent = true ->
  only_allows (evaluate InvoicePaymentApprovalWorkflowRule intent context) <->
  (exists required provided, fact_strings context "required_approval_chain" [] = Ok required /\
     fact_strings context "provided_approval_chain" [] = Ok provided /\ forall a, a ∈ required -> a ∈ provided) /\
  py_truthy (dget (cx_facts context) "approval_required") = false.
Proof.
  intros Ha. unfold InvoicePaymentApprovalWorkflowRule, evaluate. cbv zeta. rewrite Ha. cbn [negb]. rewrite only_allows_bind.
  setoid_rewrite only_allows_bind. setoid_rewrite <- missing_nil. split.
  - intros (required & Hr & provided & Hp & Hc). destruct (List.filter _ _) eqn:Hf.
    + destruct (py_truthy _) eqn:Ht; [|eauto 10]. cbn [negb] in Hc. rewrite only_allows_bind in Hc. destruct Hc as (l & _ & Hc).
      by apply only_allows_some in Hc.
    + rewrite only_allows_bind in Hc. destruct Hc as (k & _ & Hc). by apply only_allows_some in Hc.
  - intros ((required & provided & Hr & Hp & Hf) & Ht). exists required. split; [done|]. exists provided. split; [done|].
    rewrite Hf, Ht. by apply only_allows_pass.
Qed.

Lemma invoice_workflow store intent context : act_capability (in_action intent) = "invoice_payment.execute" ->
  let rules := workflow_rules (pe_tenant_workflow_rules (build_invoice_payment_policy_engine store)) intent in
  (Forall (fun r => only_allows (evaluate r intent context)) rules /\
   Exists (fun r => exists e, evaluate r intent context = Ok (Some e)) rules) <-> payment_ready intent context.
Proof.
  intros Hc. cbv zeta. unfold workflow_rules, build_invoice_payment_policy_engine, pe_tenant_workflow_rules, ly_default_rules, ly_tenant_rules.
  cbn [assoc]. destruct (String.eqb_spec (tenant_id (in_tenant intent)) "tenant_demo") as [Ht|Ht];
    [change ([] ++ default [] (Some invoice_payment_workflow_rules)) with invoice_payment_workflow_rules|simpl; rewrite Exists_nil; split; [naive_solver|intros []; done]].
  assert (applies_to "tenant_demo" intent = true) as Ha by (unfold applies_to; by rewrite Ht, Hc).
  unfold invoice_payment_workflow_rules. rewrite !Forall_cons, !Exists_cons.
  rewrite evidence_workflow_rule, approval_workflow_rule by done.
  assert (evaluate InvoicePaymentAllowWorkflowRule intent context =
    Ok (Some (evaluation "tenant_demo.invoice_payment.allow" Allow "PAYMENT_READY" "The invoice payment is approved for protected execution."))) as Hal.
  { unfold InvoicePaymentAllowWorkflowRule, evaluate. cbv zeta. by rewrite Ha. }
  rewrite Hal, only_allows_some. unfold evaluate at 1, TenantWorkflowRule at 1. cbn [wf_tenant_ids wf_capabilities excluded str_mem existsb wf_required_fact_values].
  rewrite Hc. simpl String.eqb. cbn [orb negb fst snd]. rewrite orb_false_r. split.
  - intros ((Hb & He & (Hp & Hn) & _) & _). constructor; try done. intros Hr. rewrite Hr in Hb. simpl in Hb.
    apply only_allows_some in Hb. done.
  - intros [_ Hr He Hp Hn]. split; [|do 3 right; left; by eexists]. split_and!; try done.
    rewrite (proj1 (not_true_iff_false _) (fun Hx => Hr (proj1 (py_eqb_str_r _ _) Hx))). by apply only_allows_pass.
Qed.

(** Everything an allowed invoice payment satisfies. *)
Record payment_bound (intent : ActionIntent) (context : DynamicContextInput) (p : payment_params intent) : Prop := {
  pb_shape : payment_shape intent p;
  pb_constraints : Forall (fun kv => py_eqb (dget (act_constraints (in_action intent)) kv.1) kv.2 = true) (payment_bindings intent p);
  pb_entity : fact_matches context "expected_payer_entity_id" (JStr (pp_payer p));
  pb_payee : fact_matches context "expected_supplier_id" (JStr (pp_supplier p));
  pb_bank : fact_matches context "expected_bank_account_reference" (JStr (pp_bank p));
  pb_amount : expects_amount context (pp_amount p);
  pb_currency : fact_matches context "expected_currency" (JStr (pp_currency p));
  pb_date : fact_matches context "expected_payment_date" (JStr (pp_date p));
  pb_hash : compute_invoice_payment_batch_hash (payment_of intent p) = Ok (pp_hash p);
  pb_expected_hash : fact_matches context "expected_batch_hash" (JStr (pp_hash p))
}.

Record invoice_payment_authorised (store : option (string -> py (option Receipt))) (intent : ActionIntent) (context : DynamicContextInput)
    : Prop := {
  ia_timed : well_timed intent context;
  ia_evidence : evidence_verified store ["executed"] (Some "invoice_payment.execute") intent;
  ia_action : invoice_action intent;
  ia_payment : exists p : payment_params intent, payment_bound intent context p;
  ia_invoices : expects_invoices context (_invoice_ids intent);
  ia_not_duplicate : not_duplicate intent context;
  ia_ready : payment_ready intent context
}.

Lemma invoice_engine_exact store intent context :
  engine_allows (build_invoice_payment_policy_engine store) intent context <-> invoice_payment_authorised store intent context.
Proof.
  rewrite engine_allows_iff. unfold pe_hard_rules, build_invoice_payment_policy_engine at 1.
  rewrite !Forall_cons, Forall_nil, chronology_rule, ttl_rule, scope_rule, evidence_rule, invoice_shape_rule, invoice_set_rule, duplicate_rule.
  assert (forall p : payment_params intent, let rules := [InvoicePaymentConstraintBindingRule; InvoicePaymentEntityBindingRule;
    InvoicePaymentPayeeBindingRule; InvoicePaymentBankBindingRule; InvoicePaymentAmountCurrencyRule; InvoicePaymentBatchHashRule] in
    payment_shape intent p -> Forall (fun r => not_denied (evaluate r intent context)) rules <-> payment_bound intent context p) as Hb.
  { intros p rules Hs. unfold rules. rewrite !Forall_cons, Forall_nil, (constraint_rule intent p), (amount_currency_rule intent p), (batch_hash_rule intent p).
    unfold InvoicePaymentEntityBindingRule, InvoicePaymentPayeeBindingRule, InvoicePaymentBankBindingRule.
    rewrite (binding_rule_spec _ _ _ _ _ _ _ _ (proj1 (pp_payer_param _ p))), (binding_rule_spec _ _ _ _ _ _ _ _ (proj1 (pp_supplier_param _ p))),
      (binding_rule_spec _ _ _ _ _ _ _ _ (proj1 (pp_bank_param _ p))).
    split; [intros (? & ? & ? & ? & (? & ? & ?) & (? & ?) & _); by constructor|]. intros []. by split_and!. }
  cbv zeta in Hb. split.
  - intros ((Hw & (Hm & Ht) & Hs & He & (Ha & p & Hp) & Hr1 & Hr2 & Hr3 & Hr4 & Hi & Hr5 & Hd & Hr6 & _) & Hwf).
    constructor; [by constructor|done|done| |done|done|].
    + exists p. apply Hb; [done|]. rewrite !Forall_cons. by split_and!.
    + apply invoice_workflow in Hwf; [done|by destruct Ha as (_ & ? & _)].
  - intros [[Hw Hm Ht Hs] He Ha (p & Hp) Hi Hd Hr]. pose proof (pb_shape _ _ _ Hp) as Hsh.
    apply Hb in Hp; [|done]. rewrite !Forall_cons in Hp. destruct Hp as (? & ? & ? & ? & ? & ? & _).
    split; [|by apply invoice_workflow; [destruct Ha as (_ & ? & _)|]].
    split_and!; try done; [by destruct Hw|by destruct Hw|by destruct Hm|by destruct Hm|by exists p].
Qed.
End Requirements.

(** ** Properties *)

(** The refund engine allows an intent exactly when it is in its window and
    scope, every receipt it cites as evidence is in the store with the declared
    digest as an executed refund, it asks for a refund of a payment with a
    positive amount within the refundable balance, in the currency and against
    the payment of the context, and the demo tenant's risk level is normal; every
    other request is denied, deferred or raises. *)
Theorem refund_policy_exact `{Protocol} `{PyText} (store : option (string -> py (option Receipt))) (intent : ActionIntent)
    (context : DynamicContextInput) :
  engine_allows (build_refund_policy_engine store) intent context <-> refund_authorised store intent context.
Proof. apply refund_engine_exact. Qed.

(** C27: the invoice-payment engine allows an intent exactly when its parameters
    name every party, a positive amount, a currency, a date and a sorted
    duplicate-free set of invoices, the action constraints repeat all of them,
    the batch hash is the hash of the declared payment, payer, payee, bank,
    amount, currency, date, invoices and hash are those the context expects, no
    invoice is already paid, and the demo tenant's evidence and approvals are
    complete. *)
Theorem invoice_payment_policy_exact `{Protocol} `{PyText} (store : option (string -> py (option Receipt))) (intent : ActionIntent)
    (context : DynamicContextInput) :
  engine_allows (build_invoice_payment_policy_engine store) intent context <-> invoice_payment_authorised store intent context.
Proof. apply invoice_engine_exact. Qed.

(** A rule that raises instead of denying: the engine evaluates every hard rule,
    so a refund without an amount makes [RefundAmountLimitRule] raise [KeyError]
    although the shape rule denies it. *)
Definition malformed_refund : ActionIntent :=
  mkActionIntent "intent_1" sample_now (sample_now + 600000000)%Z (mkTenantRef "tenant_demo" []) sample_agent
    (mkActionSpec "refund.create" "refund.execute" [("currency", JStr "EUR")] [] []) sample_target JNull JNull [] [] [] [].

Lemma malformed_refund_raises :
  @evaluate (@RefundActionShapeRule demo_text) malformed_refund sample_context =
    denial "hard.refund.action_shape" "REFUND_AMOUNT_INVALID" "Refund execution requires a positive integer amount_minor." [] /\
  PolicyEngine_evaluate (@build_refund_policy_engine demo_protocol demo_text None) malformed_refund sample_context = Err (KeyError "amount_minor").
Proof. split; vm_compute; reflexivity. Qed.
