(* ===== verification/Idempotency.v ===== *)
(** * Idempotency: [actenon/idempotency.py]

    The store of operation results keyed by [operation_id], and the eight outcome
    states.  An [operation_id] comes from the intent's metadata, so it is any JSON
    value: keys compare as Python compares them and an unhashable one raises
    [TypeError].  The lock makes every method one step.

    The theorems: the first result recorded for an operation is the one every
    later lookup returns, a second record with another action hash raises
    IDEMPOTENCY_CONFLICT and changes nothing. *)

From S2P Require Import Prelude Text Json Errors Canonical Contracts Runtime Receipts.

(** ** Outcome states *)
Inductive OutcomeState :=
| REFUSED_BEFORE_EXECUTION | VERIFIED_NOT_EXECUTED | EXECUTION_ATTEMPTED
| PROVIDER_CONFIRMED_SUCCESS | PROVIDER_CONFIRMED_FAILURE | OUTCOME_UNKNOWN
| RECONCILED_SUCCESS | RECONCILED_FAILURE.
#[global] Instance OutcomeState_eq_dec : EqDecision OutcomeState.
Proof. solve_decision. Defined.

Definition is_terminal (s : OutcomeState) : bool :=
  bool_decide (s ∈ [REFUSED_BEFORE_EXECUTION; PROVIDER_CONFIRMED_SUCCESS; PROVIDER_CONFIRMED_FAILURE;
                    RECONCILED_SUCCESS; RECONCILED_FAILURE]).

Definition is_reconcilable (s : OutcomeState) : bool :=
  bool_decide (s ∈ [OUTCOME_UNKNOWN; EXECUTION_ATTEMPTED]).

(** ** The store *)
Record idem_record := mkIdem { id_action_hash : string; id_result : option dict }.

Abbreviation idem_store := (list (json * idem_record)).

Definition hashable (k : json) : bool := match k with JList _ | JDict _ => false | _ => true end.

Definition unhashable : exn := TypeError "unhashable type".

(** [self._records.get(operation_id)] *)
Fixpoint idem_get (k : json) (s : idem_store) : option idem_record :=
  match s with
  | [] => None
  | (k', r) :: s => if py_eqb k k' then Some r else idem_get k s
  end.

Definition lookup (operation_id : json) : M exn idem_store (option idem_record) :=
  if hashable operation_id then gets (idem_get operation_id) else raise unhashable.

(** [s[:n]] *)
Definition str_prefix (n : nat) (s : string) : string := concat_chars (take n (py_chars s)).

Section Idempotency.
Context `{PyText}.

Definition IdempotencyConflict (operation_id : json) (expected_hash actual_hash : string) : RefusalException :=
  mkRefusalException IdempotencyConflictC "idempotency" "IDEMPOTENCY_CONFLICT"
    ("Operation " +:+ py_repr operation_id +:+ " was already executed with a different action_hash. Expected " +:+
       str_prefix 12 expected_hash +:+ "..., got " +:+ str_prefix 12 actual_hash +:+ "....")
    false [] []
    [("operation_id", operation_id); ("expected_action_hash", JStr expected_hash); ("actual_action_hash", JStr actual_hash)].

Definition record (operation_id : json) (action_hash : string) (result : option dict) : M exn idem_store unit :=
  if negb (hashable operation_id) then raise unhashable
  else
    existing ← gets (idem_get operation_id);
    match existing with
    | Some r =>
        if String.eqb (id_action_hash r) action_hash then mret tt
        else raise (Refused (IdempotencyConflict operation_id (id_action_hash r) action_hash))
    | None => modify (fun s => s ++ [(operation_id, mkIdem action_hash result)])
    end.

(** ** The first result wins *)
Lemma idem_get_app k s s' : idem_get k (s ++ s') = match idem_get k s with Some r => Some r | None => idem_get k s' end.
Proof. induction s as [|[k' r] s IH]; simpl; [done|]. by destruct (py_eqb k k'). Qed.

Lemma record_keeps k r s op ah res : idem_get k s = Some r -> idem_get k (record op ah res s).2 = Some r.
Proof.
  intros Hk. unfold record. destruct (hashable op); simpl; [|done].
  unfold mbind, M_bind, gets. destruct (idem_get op s) as [r'|] eqn:Hop.
  - by destruct (String.eqb (id_action_hash r') ah).
  - simpl. by rewrite idem_get_app, Hk.
Qed.

Fixpoint record_all (ops : list (json * string * option dict)) (s : idem_store) : idem_store :=
  match ops with
  | [] => s
  | (op, ah, res) :: ops => record_all ops (record op ah res s).2
  end.

(** A recorded operation keeps its first result: after any further records,
    of any keys, hashes and results, [lookup] returns the same record. *)
Theorem idempotency_first_result_wins (k : json) (ah : string) (res : option dict) (s : idem_store)
    (ops : list (json * string * option dict)) :
  hashable k = true -> py_eqb k k = true -> idem_get k s = None ->
  lookup k (record_all ((k, ah, res) :: ops) s) = (Ok (Some (mkIdem ah res)), record_all ((k, ah, res) :: ops) s).
Proof.
  intros Hh Hkk Hn. unfold lookup. rewrite Hh. unfold gets. do 2 f_equal.
  assert (forall ops s r, idem_get k s = Some r -> idem_get k (record_all ops s) = Some r) as Hkeep.
  { clear -k. induction ops as [|[[op ah] res] ops IH]; intros s r Hs; simpl; [done|]. by apply IH, record_keeps. }
  simpl. apply Hkeep. unfold record. rewrite Hh. simpl. unfold mbind, M_bind, gets. rewrite Hn. simpl.
  by rewrite idem_get_app, Hn; simpl; rewrite Hkk.
Qed.

(** [record] under another action hash raises IDEMPOTENCY_CONFLICT and leaves
    the store as it was; under the same hash it changes nothing and returns. *)
Theorem idempotency_conflict_exact (k : json) (ah : string) (res : option dict) (s : idem_store) (r : idem_record) :
  hashable k = true -> idem_get k s = Some r ->
  record k ah res s =
  (if String.eqb (id_action_hash r) ah then Ok tt else Err (Refused (IdempotencyConflict k (id_action_hash r) ah)), s).
Proof.
  intros Hh Hk. unfold record. rewrite Hh. simpl. unfold mbind, M_bind, gets. rewrite Hk.
  by destruct (String.eqb (id_action_hash r) ah).
Qed.
End Idempotency.

Lemma idempotency_first_result_wins_witness :
  lookup (JStr "op-1") (@record_all demo_text [(JStr "op-1", "h1", Some []); (JStr "op-1", "h2", None)] []) =
  (Ok (Some (mkIdem "h1" (Some []))), [(JStr "op-1", mkIdem "h1" (Some []))]).
Proof. apply (@idempotency_first_result_wins demo_text (JStr "op-1") "h1" (Some []) [] [(JStr "op-1", "h2", None)]); reflexivity. Defined.

Lemma idempotency_conflict_exact_witness :
  @record demo_text (JStr "op-1") "h2" None [(JStr "op-1", mkIdem "h1" None)] =
  (Err (Refused (@IdempotencyConflict demo_text (JStr "op-1") "h1" "h2")), [(JStr "op-1", mkIdem "h1" None)]).
Proof. apply (@idempotency_conflict_exact demo_text (JStr "op-1") "h2" None _ (mkIdem "h1" None)); reflexivity. Defined.
