(* ===== verification/Credentials.v ===== *)
(** * Credential brokering: [actenon/credentials/broker.py]

    The broker interface the executor acquires execution authority through, and
    the in-memory broker.  The broker's identifier source is a function of the
    number of credentials drawn so far.

    The theorem: a brokered credential carries the proof's scope and is never
    valid longer than the proof or the broker's time to live, and the broker
    remembers exactly what it issued and what was released. *)

From Stdlib Require Import Ascii.
From S2P Require Import Prelude Json Errors Timestamps Canonical Contracts Runtime Samples ProofService.

Record BrokeredCredential := mkCredential {
  bc_credential_id : string;
  bc_issued_at : datetime;
  bc_expires_at : datetime;
  bc_scope : list string;
  bc_metadata : dict;
  bc_secret_reference : option string
}.

Definition to_public_dict (c : BrokeredCredential) : dict :=
  [("credential_id", JStr (bc_credential_id c));
   ("issued_at", JStr (format_timestamp (bc_issued_at c)));
   ("expires_at", JStr (format_timestamp (bc_expires_at c)));
   ("scope", JList (map JStr (bc_scope c)));
   ("metadata", JDict (bc_metadata c))] ++
  match bc_secret_reference c with Some r => [("secret_reference", JStr r)] | None => [] end.

(** [CredentialBroker]: what the executor asks of a broker with state [B]. *)
Record CredentialBroker (B : Type) := mkBroker {
  cb_acquire : ActionIntent -> PCCB -> DynamicContextInput -> M exn B BrokeredCredential;
  cb_release : BrokeredCredential -> json -> M exn B unit
}.
Arguments cb_acquire {B} _ _ _ _.
Arguments cb_release {B} _ _ _.

(** ** [InMemoryCredentialBroker] *)
Record broker_config := mkBrokerConfig {
  bk_ttl : Z;
  bk_credential_id_factory : nat -> string;
  bk_secret_reference_prefix : string
}.

Record broker_state := mkBrokerState {
  bs_drawn : nat;
  issued_credentials : list BrokeredCredential;
  released_credentials : list (BrokeredCredential * json)
}.

Fixpoint drop_slashes (l : list Ascii.ascii) : list Ascii.ascii :=
  match l with
  | c :: l' => if Ascii.eqb c "/"%char then drop_slashes l' else l
  | [] => []
  end.

(** [s.rstrip("/")] *)
Definition rstrip_slash (s : string) : string :=
  String.string_of_list_ascii (reverse (drop_slashes (reverse (String.list_ascii_of_string s)))).

Definition InMemoryCredentialBroker_init (c : broker_config) : py (broker_config * broker_state) :=
  if (bk_ttl c <=? 0)%Z then Err (ValueError "ttl must be positive")
  else Ok (mkBrokerConfig (bk_ttl c) (bk_credential_id_factory c) (rstrip_slash (bk_secret_reference_prefix c)),
           mkBrokerState 0 [] []).

Definition acquire (c : broker_config) (intent : ActionIntent) (pccb : PCCB) (context : DynamicContextInput)
    : M exn broker_state BrokeredCredential :=
  n ← gets bs_drawn;
  let credential_id := bk_credential_id_factory c n in
  _ ← modify (fun s => mkBrokerState (S (bs_drawn s)) (issued_credentials s) (released_credentials s));
  let issued_at := cx_now context in
  horizon ← lift (datetime_add issued_at (bk_ttl c));
  let credential :=
    mkCredential credential_id issued_at (Z.min horizon (pc_expires_at pccb)) (sc_capabilities (pc_scope pccb))
      [("broker", JStr "in_memory"); ("intent_id", JStr (in_intent_id intent)); ("pccb_id", JStr (pc_pccb_id pccb));
       ("audience", JDict (AudienceRef_to_dict (pc_audience pccb)));
       ("capability", JStr (act_capability (in_action intent)))]
      (Some (bk_secret_reference_prefix c +:+ "/" +:+ credential_id)) in
  _ ← modify (fun s => mkBrokerState (bs_drawn s) (issued_credentials s ++ [credential]) (released_credentials s));
  mret credential.

Definition release (credential : BrokeredCredential) (result : json) : M exn broker_state unit :=
  modify (fun s => mkBrokerState (bs_drawn s) (issued_credentials s) (released_credentials s ++ [(credential, result)])).

Definition InMemoryCredentialBroker (c : broker_config) : CredentialBroker broker_state :=
  mkBroker _ (acquire c) release.

(** A credential from the in-memory broker is scoped to the proof's
    capabilities, names the proof and the intent, and expires no later than the
    proof and no later than the broker's time to live; it is the one credential
    added to the issued list. *)
Theorem credential_bounded_by_proof (c : broker_config) (intent : ActionIntent) (pccb : PCCB) (context : DynamicContextInput)
    (s s' : broker_state) (cred : BrokeredCredential) :
  acquire c intent pccb context s = (Ok cred, s') ->
  (bc_expires_at cred <= pc_expires_at pccb)%Z /\ (bc_expires_at cred <= cx_now context + bk_ttl c)%Z /\
  (pc_expires_at pccb = bc_expires_at cred \/ cx_now context + bk_ttl c = bc_expires_at cred)%Z /\
  bc_issued_at cred = cx_now context /\ bc_scope cred = sc_capabilities (pc_scope pccb) /\
  dget (bc_metadata cred) "pccb_id" = JStr (pc_pccb_id pccb) /\
  dget (bc_metadata cred) "intent_id" = JStr (in_intent_id intent) /\
  issued_credentials s' = issued_credentials s ++ [cred] /\ released_credentials s' = released_credentials s.
Proof.
  unfold acquire, gets, modify, lift, mbind, M_bind, datetime_add. intros Ha.
  destruct (_ && _)%Z; [|done]. injection Ha as <- <-. simpl. split_and!; try done; lia.
Qed.

Definition sample_broker : broker_config := mkBrokerConfig 120000000 (fun _ => "cred_1") "memory://brokered-credential".

Definition sample_credential : BrokeredCredential :=
  mkCredential "cred_1" sample_now (sample_now + 120000000) ["payments.refund"]
    [("broker", JStr "in_memory"); ("intent_id", JStr "intent_1"); ("pccb_id", JStr "pccb_1");
     ("audience", JDict (AudienceRef_to_dict sample_audience)); ("capability", JStr "payments.refund")]
    (Some "memory://brokered-credential/cred_1").

Lemma credential_bounded_by_proof_witness :
  acquire sample_broker sample_intent sample_pccb sample_context (mkBrokerState 0 [] []) =
    (Ok sample_credential, mkBrokerState 1 [sample_credential] []) /\
  (bc_expires_at sample_credential <= pc_expires_at sample_pccb)%Z.
Proof.
  split; [vm_compute; reflexivity|].
  refine (proj1 (credential_bounded_by_proof sample_broker sample_intent sample_pccb sample_context
    (mkBrokerState 0 [] []) (mkBrokerState 1 [sample_credential] []) sample_credential _)). vm_compute. reflexivity.
Defined.
