(* ===== verification/Effects.v ===== *)
(** * Effect ownership at the edge: [actenon/execution/effects.py]

    The effect reference a proof carries in its extensions, and the protector
    that recomputes the effect's identity from the request before it claims the
    reservation in the authority's ledger.  The ledger (state [X]) and its claim
    are supplied by the authority engine; the effect profile, the identity
    function and the outcome validator come from [actenon_protocol].

    The theorem: the ledger is asked only after the reference parses, belongs to
    this attempt, names the proof's issuer and has the identity of the exact
    request, and execution continues only when the ledger answered [True]. *)

From Stdlib Require Import Ascii.
From S2P Require Import Prelude Text Json Errors Timestamps Canonical Contracts Runtime ProofService Receipts.

(** What the edge takes from [actenon_protocol.effects] (and whether its
    [CapabilityError] is a [ValueError]). *)
Class ProtocolEffects := {
  EFFECT_PROFILE : string;
  effect_identity : dict -> py string;
  validate_effect_outcome : json -> json -> json -> py unit;
  capability_error_is_value_error : bool
}.

Record EffectReference := mkEffectReference {
  ef_profile : string;
  ef_effect_id : string;
  ef_reservation_id : string;
  ef_owner_attempt_id : string
}.

Definition EffectReference_to_dict (r : EffectReference) : dict :=
  [("profile", JStr (ef_profile r)); ("effect_id", JStr (ef_effect_id r));
   ("reservation_id", JStr (ef_reservation_id r)); ("owner_attempt_id", JStr (ef_owner_attempt_id r))].

(** ** The patterns of [EffectReference.from_dict] *)
Definition is_lower_hex (c : ascii) : bool :=
  let n := N_of_ascii c in ((48 <=? n) && (n <=? 57) || (97 <=? n) && (n <=? 102))%N.

Fixpoint all_lower_hex (s : string) : bool :=
  match s with EmptyString => true | String c s => is_lower_hex c && all_lower_hex s end.

(** [re.fullmatch(prefix + "[0-9a-f]{n}")], and with [{n,}] when [more] *)
Definition hex_id_fullmatch (prefix : string) (n : nat) (more : bool) (s : string) : bool :=
  match strip_prefix prefix s with
  | Some t => all_lower_hex t && (if more then n <=? String.length t else n =? String.length t)%nat
  | None => false
  end.

Definition REFERENCE_KEYS : list string := ["profile"; "effect_id"; "reservation_id"; "owner_attempt_id"].

(** ** [EffectProtector] *)
Record EffectProtector (X : Type) := mkEffectProtector {
  ep_namespace : string;
  ep_claim : EffectReference -> ProtectedExecutionRequest -> M exn X json;
  ep_descriptor_builder : option (ProtectedExecutionRequest -> py dict)
}.
Arguments ep_namespace {X} _.
Arguments ep_claim {X} _ _ _.
Arguments ep_descriptor_builder {X} _.

Section Effects.
Context `{Protocol} `{ProtocolAuthority} `{ProtocolEffects}.

Definition malformed_reference : exn := ValueError "malformed effect reference".

Definition expect_pattern (raw : dict) (name prefix : string) (n : nat) (more : bool) : py string :=
  match dget raw name with
  | JStr s => if hex_id_fullmatch prefix n more s then Ok s else Err malformed_reference
  | _ => Err malformed_reference
  end.

Definition EffectReference_from_dict (raw : json) : py EffectReference :=
  match raw with
  | JDict d =>
      if forallb (fun k => has_key k d) REFERENCE_KEYS && forallb (fun kv => str_mem kv.1 REFERENCE_KEYS) d then
        if negb (is_str (dget d "profile") EFFECT_PROFILE) then Err (ValueError "unsupported effect profile")
        else
          effect_id ← expect_pattern d "effect_id" "effect_" 64 false;
          reservation_id ← expect_pattern d "reservation_id" "reservation_" 32 false;
          owner_attempt_id ← expect_pattern d "owner_attempt_id" "exec_" 16 true;
          Ok (mkEffectReference EFFECT_PROFILE effect_id reservation_id owner_attempt_id)
      else Err malformed_reference
  | _ => Err malformed_reference
  end.

Definition EffectProtector_post_init {X} (p : EffectProtector X) : py unit :=
  if negb (str_truthy (ep_namespace p)) || negb (String.eqb (py_strip (ep_namespace p)) (ep_namespace p))
  then Err (ValueError "effect namespace must be owner configured") else Ok tt.

(** The [try] around the two parsers. *)
Definition parse_references (pccb : PCCB) : py (EffectReference * dict) :=
  match
    (reference ← EffectReference_from_dict (dget (pc_extensions pccb) "effect");
     match parse_authority_extension (pc_extensions pccb) with
     | Some authority => Ok (reference, authority)
     | None => Err (if capability_error_is_value_error then ValueError "CapabilityError" else OtherError "CapabilityError")
     end)
  with
  | Ok x => Ok x
  | Err e =>
      if is_type_or_value_error e
      then Err (Refused (ProofVerificationError "MALFORMED_REQUEST" "The proof has no usable effect/authority reference." []))
      else Err e
  end.

Definition expected_descriptor (namespace : string) (request : ProtectedExecutionRequest) : dict :=
  let intent := rq_intent request in
  [("profile", JStr EFFECT_PROFILE); ("namespace", JStr namespace); ("kind", JStr "exact");
   ("action_type", JStr (act_capability (in_action intent)));
   ("target", JDict [("type", JStr (tgt_resource_type (in_target intent))); ("id", JStr (tgt_resource_id (in_target intent)))]);
   ("parameters", JDict (act_parameters (in_action intent)))].

(** [canonicalize_bytes(a) != canonicalize_bytes(b)] raises *)
Definition same_bytes_or_raise (a b : json) (msg : string) : py unit :=
  x ← canonical_bytes_of a; y ← canonical_bytes_of b;
  if String.eqb x y then Ok tt else Err (ValueError msg).

(** The loop over the four bound names. *)
Fixpoint check_descriptor (names : list string) (descriptor expected : dict) : py unit :=
  match names with
  | [] => Ok tt
  | name :: names =>
      _ ← same_bytes_or_raise (dget descriptor name) (dget expected name)
            "effect descriptor does not match the actual edge request";
      check_descriptor names descriptor expected
  end.

(** The identity of the effect this request would have. *)
Definition derive_identity {X} (p : EffectProtector X) (request : ProtectedExecutionRequest) : py string :=
  let expected := expected_descriptor (ep_namespace p) request in
  descriptor ← match ep_descriptor_builder p with Some build => build request | None => Ok expected end;
  _ ← check_descriptor ["profile"; "namespace"; "action_type"; "target"] descriptor expected;
  _ ← (if is_str (dget descriptor "kind") "exact"
       then same_bytes_or_raise (dget descriptor "parameters") (dget expected "parameters")
              "exact effect descriptor dropped or changed parameters"
       else Ok tt);
  effect_identity descriptor.

Definition effect_refusal (code msg : string) : exn := Refused (ProofVerificationError code msg []).

(** Every check before the ledger is asked. *)
Definition check_effect {X} (p : EffectProtector X) (request : ProtectedExecutionRequest) : py EffectReference :=
  '(reference, authority) ← parse_references (rq_pccb request);
  if negb (String.eqb (ef_owner_attempt_id reference) (in_intent_id (rq_intent request)))
  then Err (effect_refusal "ACTION_MISMATCH" "The effect reservation belongs to a different execution attempt.")
  else
    issuer ← getitem authority "issuer";
    let proof_issuer := pc_issuer (rq_pccb request) in
    if negb (is_str issuer (party_type proof_issuer +:+ ":" +:+ party_id proof_issuer))
    then Err (effect_refusal "ISSUER_UNTRUSTED" "The effect authority issuer does not match the proof issuer.")
    else
      computed ← match derive_identity p request with
                 | Ok c => Ok c
                 | Err _ => Err (effect_refusal "ACTION_MISMATCH"
                              "The protected edge could not derive this effect from the exact request.")
                 end;
      if negb (String.eqb (ef_effect_id reference) computed)
      then Err (effect_refusal "ACTION_MISMATCH" "The signed effect identity does not match the protected request.")
      else Ok reference.

Definition claim_effect {X} (p : EffectProtector X) (request : ProtectedExecutionRequest) : M exn X EffectReference :=
  reference ← lift (check_effect p request);
  claimed ← try_catch (ep_claim p reference request)
              (fun _ => raise (effect_refusal "POLICY_REFUSAL"
                 "Authoritative effect ownership could not be established; execution refused."));
  if is_true claimed then mret reference
  else raise (effect_refusal "POLICY_REFUSAL"
         "This effect is already owned, completed, unresolved, or not authorized for this attempt.").

(** ** What a granted claim has established *)
Lemma same_bytes_Ok a b msg : same_bytes_or_raise a b msg = Ok tt <-> same_canonical a b.
Proof.
  unfold same_bytes_or_raise, same_canonical. rewrite bind_Ok. split.
  - intros (x & Hx & Hy). apply bind_Ok in Hy as (y & Hy & He). destruct (String.eqb_spec x y); [subst|done]. eauto.
  - intros (x & Hx & Hy). exists x. split; [done|]. rewrite Hy. simpl. by rewrite String.eqb_refl.
Qed.

Lemma check_descriptor_Ok names d e :
  check_descriptor names d e = Ok tt <-> Forall (fun n => same_canonical (dget d n) (dget e n)) names.
Proof.
  induction names as [|n names IH]; simpl; [split; [constructor|done]|].
  rewrite bind_Ok, Forall_cons. split.
  - intros ([] & Hn & Hr). split; [by eapply same_bytes_Ok|by apply IH].
  - intros [Hn Hr]. exists tt. split; [by apply same_bytes_Ok|by apply IH].
Qed.

(** The descriptor the identity was computed from describes this request. *)
Definition describes {X} (p : EffectProtector X) (request : ProtectedExecutionRequest) (d : dict) : Prop :=
  let expected := expected_descriptor (ep_namespace p) request in
  match ep_descriptor_builder p with Some build => build request = Ok d | None => d = expected end /\
  Forall (fun n => same_canonical (dget d n) (dget expected n)) ["profile"; "namespace"; "action_type"; "target"] /\
  (is_str (dget d "kind") "exact" = true -> same_canonical (dget d "parameters") (dget expected "parameters")).

Lemma derive_identity_Ok {X} (p : EffectProtector X) request i :
  derive_identity p request = Ok i <-> exists d, describes p request d /\ effect_identity d = Ok i.
Proof.
  unfold derive_identity, describes. cbv zeta. rewrite bind_Ok. split.
  - intros (d & Hb & Hd). apply bind_Ok in Hd as ([] & Hc & Hd). apply bind_Ok in Hd as ([] & Hk & Hd).
    exists d. split_and!; [|by apply check_descriptor_Ok| |done].
    + destruct (ep_descriptor_builder p); [done|by injection Hb].
    + intros He. rewrite He in Hk. by eapply same_bytes_Ok.
  - intros (d & (Hb & Hc & Hk) & Hd). exists d. split; [destruct (ep_descriptor_builder p); [done|by subst]|].
    apply check_descriptor_Ok in Hc. rewrite Hc. simpl.
    destruct (is_str (dget d "kind") "exact"); [|done]. by rewrite (proj2 (same_bytes_Ok _ _ _) (Hk eq_refl)).
Qed.

Record effect_owned {X} (p : EffectProtector X) (request : ProtectedExecutionRequest) (ref : EffectReference) : Prop := {
  owned_signed : EffectReference_from_dict (dget (pc_extensions (rq_pccb request)) "effect") = Ok ref;
  owned_attempt : ef_owner_attempt_id ref = in_intent_id (rq_intent request);
  owned_issuer : exists authority, parse_authority_extension (pc_extensions (rq_pccb request)) = Some authority /\
    assoc "issuer" authority = Some (JStr (party_type (pc_issuer (rq_pccb request)) +:+ ":" +:+ party_id (pc_issuer (rq_pccb request))));
  owned_identity : exists d, describes p request d /\ effect_identity d = Ok (ef_effect_id ref)
}.

Lemma parse_references_Ok pccb r a :
  parse_references pccb = Ok (r, a) <->
  EffectReference_from_dict (dget (pc_extensions pccb) "effect") = Ok r /\ parse_authority_extension (pc_extensions pccb) = Some a.
Proof.
  unfold parse_references. destruct (EffectReference_from_dict _) as [r'|e]; simpl.
  - destruct (parse_authority_extension _); simpl; [naive_solver|]. split; [|by intros [_ ?]].
    by destruct (is_type_or_value_error _).
  - split; [|by intros [? _]]. by destruct (is_type_or_value_error e).
Qed.

Lemma check_effect_Ok {X} (p : EffectProtector X) request ref :
  check_effect p request = Ok ref <-> effect_owned p request ref.
Proof.
  unfold check_effect. rewrite bind_Ok. split.
  - intros ([r a] & (Hsig & Ha)%parse_references_Ok & Hr).
    destruct (String.eqb_spec (ef_owner_attempt_id r) (in_intent_id (rq_intent request))) as [Ho|]; [|done]. simpl in Hr.
    apply bind_Ok in Hr as (issuer & Hi & Hr). unfold getitem in Hi.
    destruct (assoc "issuer" a) as [issuer'|] eqn:Hai; [|done]. simplify_eq.
    destruct (is_str issuer _) eqn:His; [|done]. simpl in Hr. apply bind_Ok in Hr as (computed & Hc & Hr).
    destruct (derive_identity p request) eqn:Hder; [|done]. simplify_eq. apply derive_identity_Ok in Hder.
    destruct (String.eqb_spec (ef_effect_id r) computed) as [He|]; [|done]. simpl in Hr. simplify_eq. constructor; try done.
    exists a. split; [done|]. rewrite Hai. f_equal. destruct issuer; try done. simpl in His. f_equal. by apply String.eqb_eq.
  - intros [Hsig Ho (a & Ha & Hi) Hid]. apply derive_identity_Ok in Hid. exists (ref, a). split.
    + by apply parse_references_Ok.
    + rewrite Ho, String.eqb_refl. simpl. unfold getitem. rewrite Hi. simpl. rewrite String.eqb_refl. simpl.
      rewrite Hid. simpl. by rewrite String.eqb_refl.
Qed.
End Effects.

Lemma effect_claim_sound `{Protocol} `{ProtocolAuthority} `{ProtocolEffects} {X} (p : EffectProtector X)
    (request : ProtectedExecutionRequest) (x x' : X) ref :
  claim_effect p request x = (Ok ref, x') -> effect_owned p request ref /\ ep_claim p ref request x = (Ok (JBool true), x').
Proof.
  unfold claim_effect. intros (r & x1 & Hl & Hc)%M_bind_Ok. injection Hl as Hl <-. apply check_effect_Ok in Hl.
  apply M_bind_Ok in Hc as (j & x2 & Hc & Hr). unfold try_catch in Hc.
  destruct (ep_claim p r request x) as [[j'|e] x3] eqn:He; [|done]. injection Hc as <- <-.
  destruct j' as [|[]| | | | |]; try done. injection Hr as <- <-. done.
Qed.

(** ** Properties *)

(** Effect ownership: [EffectProtector.claim_request] returns a reference
    exactly when the signed reference parses, belongs to this attempt, is issued
    by the proof's issuer and has the identity recomputed from the exact request,
    and the authority's ledger then answered [True]; when a check fails the ledger
    is not touched. *)
Theorem effect_claim_exact `{Protocol} `{ProtocolAuthority} `{ProtocolEffects} {X} (p : EffectProtector X)
    (request : ProtectedExecutionRequest) (x : X) :
  (forall ref x', claim_effect p request x = (Ok ref, x') <->
     effect_owned p request ref /\ ep_claim p ref request x = (Ok (JBool true), x')) /\
  ((forall ref, ~ effect_owned p request ref) -> (claim_effect p request x).2 = x).
Proof.
  unfold claim_effect, lift, mbind, M_bind, try_catch. split.
  - intros ref x'. rewrite <- check_effect_Ok. destruct (check_effect p request) as [r|e]; simpl.
    + destruct (ep_claim p r request x) as [[j|e] x''] eqn:Hc; simpl.
      * split.
        -- destruct j as [|[]| | | | |]; simpl; try done. intros [= <- <-]. done.
        -- intros [[= <-] Hc']. rewrite Hc in Hc'. by simplify_eq.
      * split; [done|]. intros [[= <-] Hc']. by rewrite Hc in Hc'.
    + split; [done|]. by intros [? _].
  - intros Hn. destruct (check_effect p request) as [r|e] eqn:Hc; [|done]. apply check_effect_Ok in Hc. by apply Hn in Hc.
Qed.
