(* ===== verification/Executor.v ===== *)
(** * The protected executor: [actenon/execution/protected_executor.py]

    [ProtectedExecutor.execute] on every branch, against the interfaces of the
    components it calls: the verifier, the replay store, the escrow, the effect
    ledger, the credential broker, the idempotency store, the outcome writer, and
    the caller's handler, which acts on an environment of its own.

    The state of the process is a [world]; the local variables of [execute] that
    its exception handlers read are a record of their own ([locals]), so an
    exception leaves them as the Python frame does.  [w_calls] is the list of
    requests the handler was called with, the observation the theorems count.

    The theorems: the handler runs only behind the accepted proof, the policy
    decision, the effect claim, the consumed escrow and the replay key this
    execution consumed; at most once per replay key along any sequence of
    executions and of other workers' moves; an idempotent retry never runs it; and
    every execution of a describable request ends in a recorded artifact. *)

From S2P Require Import Prelude Text Json Errors Timestamps Canonical Contracts Runtime Samples ProofService SecurityPosture Replay ReplayStore Escrow Receipts Idempotency Credentials Effects.

(** [OutcomeWriter] with state [W] *)
Record OutcomeWriter (W : Type) := mkWriter {
  ow_write_receipt : Receipt -> M exn W unit;
  ow_write_refusal : Refusal -> M exn W unit
}.
Arguments ow_write_receipt {W} _ _.
Arguments ow_write_refusal {W} _ _.

(** ** [ProtectedExecutor.__post_init__]

    The replay configuration an executor ends up with: whether a replay protector
    is attached, whether store failures fail open, whether the protector is the
    default store built here, and the recorded downgrades. *)
Record replay_posture := mkPosture {
  rp_protector : bool;
  rp_fail_open : bool;
  rp_default_store : bool;
  rp_security_downgrades : list string
}.

Definition ProtectedExecutor_post_init (env : environment) (replay_protection replay_store_failure : string)
    (replay_protector : bool) : py replay_posture :=
  if negb (str_mem replay_protection ["default"; "disabled"])
  then Err (ValueError "replay_protection must be 'default' or 'disabled'")
  else if negb (str_mem replay_store_failure ["fail_closed"; "fail_open"])
  then Err (ValueError "replay_store_failure must be 'fail_closed' or 'fail_open'")
  else if String.eqb replay_protection "disabled" then
    if replay_protector
    then Err (ValueError "replay_protector cannot be supplied when replay_protection is 'disabled'")
    else if negb (String.eqb replay_store_failure "fail_closed")
    then Err (ValueError "replay_store_failure cannot be 'fail_open' when replay_protection is 'disabled'")
    else
      downgrade ← permit_downgrade env DOWNGRADE_REPLAY_PROTECTION_DISABLED UNSAFE_ALLOW_REPLAY_DISABLED_ENV;
      Ok (mkPosture false false false [downgrade])
  else
    fail_open ← (if String.eqb replay_store_failure "fail_open"
                 then d ← permit_downgrade env DOWNGRADE_REPLAY_STORE_FAIL_OPEN UNSAFE_ALLOW_REPLAY_FAIL_OPEN_ENV; Ok [d]
                 else Ok []);
    default_store ← (if replay_protector then Ok [] else default_replay_store_downgrades env None);
    Ok (mkPosture true (String.eqb replay_store_failure "fail_open") (negb replay_protector) (fail_open ++ default_store)).

(** The states of the components an executor is wired to. *)
Record world (R E B X W V : Type) := mkExecWorld {
  w_replay : R; w_escrow : E; w_broker : B; w_effects : X; w_idempotency : idem_store; w_writer : W;
  w_env : V; w_calls : list ProtectedExecutionRequest
}.
Arguments mkExecWorld {R E B X W V}.
Arguments w_replay {R E B X W V}. Arguments w_escrow {R E B X W V}. Arguments w_broker {R E B X W V}.
Arguments w_effects {R E B X W V}. Arguments w_idempotency {R E B X W V}. Arguments w_writer {R E B X W V}.
Arguments w_env {R E B X W V}. Arguments w_calls {R E B X W V}.

(** The variables of [execute] its [except] clauses read. *)
Record locals := mkLocals {
  l_replay_state : option ActionConsumptionState;
  l_replay_consumed : bool;
  l_credential : option BrokeredCredential;
  l_handler_started : bool;
  l_effect_reference : option EffectReference;
  l_effect_evidence : option dict
}.

Definition locals0 : locals := mkLocals None false None false None None.

Section Executor.
Context `{Protocol} `{ProtocolAuthority} `{ProtocolEffects} `{PyText}.
Context {R E B X W V : Type} `{ReplayStore R} `{CapabilityEscrow E}.

Definition frame : Type := world R E B X W V * locals.

Definition replay_lens : lens frame R :=
  mkLens _ _ (fun f => w_replay f.1)
    (fun r f => let w := f.1 in
      (mkExecWorld r (w_escrow w) (w_broker w) (w_effects w) (w_idempotency w) (w_writer w) (w_env w) (w_calls w), f.2)).
Definition escrow_lens : lens frame E :=
  mkLens _ _ (fun f => w_escrow f.1)
    (fun e f => let w := f.1 in
      (mkExecWorld (w_replay w) e (w_broker w) (w_effects w) (w_idempotency w) (w_writer w) (w_env w) (w_calls w), f.2)).
Definition broker_lens : lens frame B :=
  mkLens _ _ (fun f => w_broker f.1)
    (fun b f => let w := f.1 in
      (mkExecWorld (w_replay w) (w_escrow w) b (w_effects w) (w_idempotency w) (w_writer w) (w_env w) (w_calls w), f.2)).
Definition effects_lens : lens frame X :=
  mkLens _ _ (fun f => w_effects f.1)
    (fun x f => let w := f.1 in
      (mkExecWorld (w_replay w) (w_escrow w) (w_broker w) x (w_idempotency w) (w_writer w) (w_env w) (w_calls w), f.2)).
Definition idempotency_lens : lens frame idem_store :=
  mkLens _ _ (fun f => w_idempotency f.1)
    (fun i f => let w := f.1 in
      (mkExecWorld (w_replay w) (w_escrow w) (w_broker w) (w_effects w) i (w_writer w) (w_env w) (w_calls w), f.2)).
Definition writer_lens : lens frame W :=
  mkLens _ _ (fun f => w_writer f.1)
    (fun o f => let w := f.1 in
      (mkExecWorld (w_replay w) (w_escrow w) (w_broker w) (w_effects w) (w_idempotency w) o (w_env w) (w_calls w), f.2)).

Definition exec (A : Type) : Type := M exn frame A.

Definition set_locals (g : locals -> locals) : exec unit := modify (fun f => (f.1, g f.2)).
Definition get_locals : exec locals := gets snd.

(** [ProtectedExecutor]: its configuration.  The flags say whether a component
    whose state is in the world is attached. *)
Record ProtectedExecutor := mkExecutor {
  px_verifier : PCCBVerifier;
  px_broker : CredentialBroker B;
  px_replay_protector : bool;
  px_escrow : bool;
  px_writer : OutcomeWriter W;
  px_fail_open : bool;
  px_idempotency_store : bool;
  px_effect_protector : option (EffectProtector X)
}.

(** [BrokeredHandler]: the caller's code, acting on its own environment. *)
Definition BrokeredHandler : Type := ProtectedExecutionRequest -> BrokeredCredential -> M exn V (option dict).

(** Calling the handler: the call is observed, then the handler runs. *)
Definition call_handler (handler : BrokeredHandler) (request : ProtectedExecutionRequest) (cred : BrokeredCredential)
    : exec (option dict) := fun f =>
  let w := f.1 in
  let '(r, h) := handler request cred (w_env w) in
  (r, (mkExecWorld (w_replay w) (w_escrow w) (w_broker w) (w_effects w) (w_idempotency w) (w_writer w) h
         (w_calls w ++ [request]), f.2)).

Variable x : ProtectedExecutor.

(** ** [_policy_refusal] *)
Definition unmet_requirement (ev : RuleEvaluation) : py json :=
  keys ← py_iter (dget_default (re_details ev) "evidence_keys" (JList []));
  Ok (JDict [("reason_code", JStr (re_reason_code ev)); ("summary", JStr (re_summary ev));
             ("required_evidence", strings (re_required_evidence ev)); ("required_approvals", strings (re_approver_types ev));
             ("evidence_keys", JList keys)]).

Definition _policy_refusal (decision : PolicyDecision) : py RefusalException :=
  unmet ← res_mapM unmet_requirement
            (filter (fun ev => re_outcome ev <> Allow) (pd_rule_evaluations decision));
  Ok (mkRefusalException RefusalExceptionC "policy" (match pd_reason_codes decision with c :: _ => c | [] => "POLICY_REFUSED" end)
        (pd_summary decision)
        (match pd_outcome decision with ApprovalRequired | NeedsEvidence => true | _ => false end)
        (map re_rule_id (pd_rule_evaluations decision)) []
        [("policy_outcome", JStr (outcome_text (pd_outcome decision))); ("reason_codes", strings (pd_reason_codes decision));
         ("required_evidence", strings (pd_required_evidence decision));
         ("approver_types", strings (pd_approver_types decision)); ("unmet_requirements", JList unmet)]).

(** ** The replay helpers *)
Definition store_unavailable (operation message : string) : exn :=
  Refused (RefusalExn "replay" "REPLAY_STORE_UNAVAILABLE" message true [("operation", JStr operation)]).

(** [except RefusalException: raise], [except Exception]: fail open or refuse. *)
Definition guard_store {A} (operation message : string) (fallback : A) (m : exec A) : exec A :=
  try_catch m (fun e =>
    match e with
    | Refused r => raise (Refused r)
    | _ => if px_fail_open x then mret fallback else raise (store_unavailable operation message)
    end).

Definition _claim_replay (request : ProtectedExecutionRequest) : exec (option ActionConsumptionState) :=
  if px_replay_protector x
  then guard_store "claim" "Replay/single-use state could not be established. Execution was refused." None
         (zoom replay_lens (protector_claim_request request))
  else mret None.

Definition _mark_replay_consumed (state : option ActionConsumptionState) (request : ProtectedExecutionRequest) : exec bool :=
  match px_replay_protector x, state with
  | true, Some st =>
      guard_store "consume" "Replay/single-use consumption could not be recorded. Execution was refused." false
        (_ ← zoom replay_lens (protector_mark_consumed (cs_replay_key st) (cx_now (rq_context request))); mret true)
  | _, _ => mret false
  end.

Definition _release_replay_claim (state : option ActionConsumptionState) (request : ProtectedExecutionRequest) (reason : string)
    : exec unit :=
  match px_replay_protector x, state with
  | true, Some st =>
      try_catch (_ ← zoom replay_lens (protector_release_claim (cs_replay_key st) (cx_now (rq_context request)) reason); mret tt)
        (fun _ => mret tt)
  | _, _ => mret tt
  end.

Definition _release_credential (cred : option BrokeredCredential) (outcome : json) : exec unit :=
  match cred with
  | Some c => try_catch (zoom broker_lens (cb_release (px_broker x) c outcome)) (fun _ => mret tt)
  | None => mret tt
  end.

(** ** [execute] *)

(** The identifiers [uuid4] gives the artifacts of one execution. *)
Record artifact_ids := mkIds { id_executed : string; id_refusal : string; id_refused : string }.

Definition payload_json (payload : option dict) : json := match payload with Some d => JDict d | None => JNull end.

Definition EFFECT_NOT_ENFORCED : exn :=
  Refused (RefusalExn "policy" "POLICY_REFUSAL"
    "This proof requires authoritative effect ownership verification at the edge." false []).
Definition ESCROW_REFERENCE_MISSING : exn :=
  Refused (RefusalExn "escrow" "ESCROW_REFERENCE_MISSING" "The proof does not include an escrow reference." false []).

Definition write_receipt (r : Receipt) : exec unit := zoom writer_lens (ow_write_receipt (px_writer x) r).
Definition write_refusal (r : Refusal) : exec unit := zoom writer_lens (ow_write_refusal (px_writer x) r).

Section Request.
Variable (request : ProtectedExecutionRequest) (handler : BrokeredHandler) (policy_decision : option PolicyDecision)
  (ids : artifact_ids).

Let intent := rq_intent request.
Let pccb := rq_pccb request.
Let context := rq_context request.
Let operation_id := dget (in_metadata intent) "operation_id".
Let action_hash_value := ah_value (pc_action_hash pccb).
Let escrow_id := pc_escrow_id pccb.

(** Verification, the policy decision and the replay claim. *)
Definition admit_request : exec unit :=
  _ ← lift (verify (px_verifier x) intent pccb context);
  _ ← match policy_decision with
      | Some d => if allowed d then mret tt else r ← lift (_policy_refusal d); raise (Refused r)
      | None => mret tt
      end;
  _ ← (if has_key "effect" (pc_extensions pccb) && match px_effect_protector x with None => true | Some _ => false end
       then raise EFFECT_NOT_ENFORCED else mret tt);
  st ← _claim_replay request;
  set_locals (fun l => mkLocals st (l_replay_consumed l) (l_credential l) (l_handler_started l) (l_effect_reference l) (l_effect_evidence l)).

Definition uses_idempotency : bool :=
  not_none operation_id && px_idempotency_store x && match px_effect_protector x with None => true | Some _ => false end.

Definition idempotency_conflict (prior : idem_record) : exn :=
  Refused (RefusalExn "idempotency" "IDEMPOTENCY_CONFLICT"
    ("Operation " +:+ py_repr operation_id +:+ " was already executed with a different action_hash.") false
    [("operation_id", operation_id); ("expected_action_hash", JStr (id_action_hash prior));
     ("actual_action_hash", JStr action_hash_value)]).

Definition consume_replay : exec unit :=
  l ← get_locals;
  b ← _mark_replay_consumed (l_replay_state l) request;
  set_locals (fun l => mkLocals (l_replay_state l) b (l_credential l) (l_handler_started l) (l_effect_reference l) (l_effect_evidence l)).

(** The prior result of the operation, when there is one. *)
Definition check_idempotency : exec (option ExecutionResult) :=
  if uses_idempotency then
    prior ← zoom idempotency_lens (lookup operation_id);
    match prior with
    | None => mret None
    | Some prior =>
        if negb (String.eqb (id_action_hash prior) action_hash_value) then raise (idempotency_conflict prior)
        else
          _ ← consume_replay;
          receipt ← lift (create_execution_receipt (id_executed ids) intent context (pc_pccb_id pccb) (pc_escrow_id pccb)
                            (id_result prior) (Some (pc_action_hash pccb)));
          _ ← write_receipt receipt;
          mret (Some (mkExecutionResult (Some receipt) None (id_result prior)))
    end
  else mret None.

Definition consume_escrow : exec unit :=
  if px_escrow x then
    match escrow_id with
    | JNull => raise ESCROW_REFERENCE_MISSING
    | JStr id =>
        _ ← zoom escrow_lens (escrow_run (OpConsume id (pc_pccb_id pccb) (act_capability (in_action intent)) (cx_now context)));
        mret tt
    | _ => raise OutOfModel
    end
  else mret tt.

Definition claim_the_effect : exec unit :=
  match px_effect_protector x with
  | Some p =>
      ref ← zoom effects_lens (claim_effect p request);
      set_locals (fun l => mkLocals (l_replay_state l) (l_replay_consumed l) (l_credential l) (l_handler_started l) (Some ref) (l_effect_evidence l))
  | None => mret tt
  end.

Definition acquire_credential : exec BrokeredCredential :=
  cred ← zoom broker_lens (cb_acquire (px_broker x) intent pccb context);
  _ ← set_locals (fun l => mkLocals (l_replay_state l) (l_replay_consumed l) (Some cred) (l_handler_started l) (l_effect_reference l) (l_effect_evidence l));
  mret cred.

(** Everything before the handler: an early result, or the credential to call it
    with. *)
Definition prepare : exec (ExecutionResult + BrokeredCredential) :=
  _ ← admit_request;
  early ← check_idempotency;
  match early with
  | Some result => mret (inl result)
  | None =>
      _ ← consume_escrow;
      _ ← claim_the_effect;
      cred ← acquire_credential;
      _ ← consume_replay;
      mret (inr cred)
  end.

(** The consequence evidence a handler must return for a claimed effect. *)
Definition EVIDENCE_KEYS : list string := REFERENCE_KEYS ++ ["outcome"; "execution_occurred"; "evidence_hash"].

Definition OUTCOME_UNKNOWN_EVIDENCE : exn :=
  Refused (RefusalExn "execution" "OUTCOME_UNKNOWN"
    "The protected boundary did not provide valid consequence evidence; the effect remains held." false []).

Definition validate_evidence (ref : EffectReference) (raw : json) : py dict :=
  match raw with
  | JDict e =>
      if forallb (fun k => has_key k e) EVIDENCE_KEYS && forallb (fun kv => str_mem kv.1 EVIDENCE_KEYS) e then
        if existsb (fun kv => negb (py_eqb (dget e kv.1) kv.2)) (EffectReference_to_dict ref)
        then Err (ValueError "boundary evidence refers to another effect")
        else
          _ ← validate_effect_outcome (dget e "outcome") (dget e "execution_occurred") (dget e "evidence_hash");
          Ok e
      else Err (ValueError "missing boundary consequence evidence")
  | _ => Err (ValueError "missing boundary consequence evidence")
  end.

Definition check_evidence (payload : option dict) : exec unit :=
  l ← get_locals;
  match l_effect_reference l with
  | None => mret tt
  | Some ref =>
      match validate_evidence ref (dget (payload_or_empty payload) "effect_evidence") with
      | Ok e =>
          _ ← set_locals (fun l => mkLocals (l_replay_state l) (l_replay_consumed l) (l_credential l) (l_handler_started l) (l_effect_reference l) (Some e));
          if is_str (dget e "outcome") "COMMITTED" then mret tt
          else raise (Refused (RefusalExn "execution"
                 (if is_str (dget e "outcome") "AMBIGUOUS" then "OUTCOME_UNKNOWN" else "PROVIDER_REFUSAL")
                 "The protected boundary did not confirm a committed consequence." false []))
      | Err (Refused r) => raise (Refused r)
      | Err _ => raise OUTCOME_UNKNOWN_EVIDENCE
      end
  end.

Definition add_extension (k : string) (v : json) (r : Receipt) : Receipt :=
  mkReceipt (rc_receipt_id r) (rc_intent_id r) (rc_occurred_at r) (rc_outcome r) (rc_tenant r) (rc_subject r) (rc_action r)
    (rc_target r) (rc_summary r) (rc_phase r) (rc_correlation r) (rc_reason_codes r) (rc_follow_up r) (rc_side_effects r)
    (rc_details r) (rc_metadata r) (assoc_set k v (rc_extensions r)).

(** From the handler's call to the returned result. *)
Definition perform (cred : BrokeredCredential) : exec ExecutionResult :=
  _ ← set_locals (fun l => mkLocals (l_replay_state l) (l_replay_consumed l) (l_credential l) true (l_effect_reference l) (l_effect_evidence l));
  payload ← call_handler handler request cred;
  _ ← check_evidence payload;
  let broker_payload :=
    [("brokered_credential", JDict (to_public_dict cred));
     ("credential_broker", JDict [("mode", JStr "protected_endpoint"); ("credential_material_exposed", JBool false)])] in
  let receipt_payload := assoc_merge (payload_or_empty payload) broker_payload in
  _ ← zoom broker_lens (cb_release (px_broker x) cred (JDict [("outcome", JStr "executed"); ("payload", payload_json payload)]));
  receipt ← lift (create_execution_receipt (id_executed ids) intent context (pc_pccb_id pccb) escrow_id
                    (Some receipt_payload) (Some (pc_action_hash pccb)));
  l ← get_locals;
  let receipt := match l_effect_evidence l with Some e => add_extension "effect" (JDict e) receipt | None => receipt end in
  _ ← write_receipt receipt;
  _ ← (if uses_idempotency then zoom idempotency_lens (record operation_id action_hash_value payload) else mret tt);
  mret (mkExecutionResult (Some receipt) None payload).

Definition execute_body : exec ExecutionResult :=
  p ← prepare;
  match p with
  | inl result => mret result
  | inr cred => perform cred
  end.

(** [_effect_refusal_receipt] *)
Definition _effect_refusal_receipt (receipt : Receipt) (reference : EffectReference) (handler_started : bool)
    (evidence : option dict) : py Receipt :=
  evidence ← match evidence with
             | Some e => Ok e
             | None =>
                 h ← sha256_hex (JDict [("reference", JDict (EffectReference_to_dict reference));
                                        ("handler_started", JBool handler_started);
                                        ("reason", strings (rc_reason_codes receipt))]);
                 Ok (EffectReference_to_dict reference ++
                     [("outcome", JStr (if handler_started then "AMBIGUOUS" else "NOT_EXECUTED"));
                      ("execution_occurred", if handler_started then JNull else JBool false);
                      ("evidence_hash", JStr h)])
             end;
  outcome ← getitem evidence "outcome";
  let is_ambiguous := is_str outcome "AMBIGUOUS" in
  Ok (mkReceipt (rc_receipt_id receipt) (rc_intent_id receipt) (rc_occurred_at receipt) (rc_outcome receipt)
        (rc_tenant receipt) (rc_subject receipt) (rc_action receipt) (rc_target receipt)
        (if is_ambiguous then "Execution outcome is unknown; blind retry is refused until reconciliation." else rc_summary receipt)
        (rc_phase receipt) (rc_correlation receipt) (rc_reason_codes receipt) (rc_follow_up receipt)
        [("state", JStr (if is_ambiguous then "unknown" else "none"))]
        (rc_details receipt) (rc_metadata receipt) (assoc_set "effect" (JDict evidence) (rc_extensions receipt))).

(** The artifacts of a refused execution, written and returned. *)
Definition emit_refusal (exc : RefusalException) : exec ExecutionResult :=
  refusal ← lift (create_from_exception (id_refusal ids) exc (cx_now context) (Some intent) (Some context)
                    (JStr (pc_pccb_id pccb)) escrow_id (Some (pc_action_hash pccb)));
  receipt ← lift (create_refused_receipt (id_refused ids) intent context refusal);
  l ← get_locals;
  receipt ← match l_effect_reference l with
            | Some ref => lift (_effect_refusal_receipt receipt ref (l_handler_started l) (l_effect_evidence l))
            | None => mret receipt
            end;
  _ ← write_refusal refusal;
  _ ← write_receipt receipt;
  mret (mkExecutionResult (Some receipt) (Some refusal) None).

(** [except RefusalException as caught_refusal] *)
Definition on_refusal (caught_refusal : RefusalException) : exec ExecutionResult :=
  l ← get_locals;
  let exc :=
    match l_effect_reference l, l_handler_started l, l_effect_evidence l with
    | Some _, true, None =>
        RefusalExn "execution" "OUTCOME_UNKNOWN"
          "Execution may have crossed the protected boundary; the effect remains held for reconciliation." false []
    | _, _, _ => caught_refusal
    end in
  let code := exc_refusal_code exc in
  _ ← _release_credential (l_credential l)
        (JDict [("outcome", JStr (if String.eqb code "OUTCOME_UNKNOWN" then "ambiguous" else "refused")); ("reason_code", JStr code)]);
  _ ← (if l_replay_consumed l then mret tt else _release_replay_claim (l_replay_state l) request code);
  emit_refusal exc.

(** [except Exception as exc] *)
Definition on_exception (e : exn) : exec ExecutionResult :=
  l ← get_locals;
  let held := match l_effect_reference l with Some _ => l_handler_started l | None => false end in
  let redacted_details := redacted_handler_exception_details e (Some (cx_request_id context)) in
  _ ← _release_credential (l_credential l)
        (JDict (assoc_merge [("outcome", JStr (if held then "ambiguous" else "failed"));
                             ("safe_error_code", JStr SAFE_HANDLER_EXCEPTION_CODE)] redacted_details));
  _ ← (if negb (l_replay_consumed l) && match l_replay_state l with Some _ => true | None => false end
       then try_catch consume_replay (fun e => match e with Refused _ => mret tt | _ => raise e end)
       else mret tt);
  emit_refusal (RefusalExn "execution" (if held then "OUTCOME_UNKNOWN" else "EXECUTION_FAILED")
    (if held then "The execution outcome is unknown; the effect remains held for reconciliation." else SAFE_HANDLER_EXCEPTION_MESSAGE)
    false redacted_details).

Definition handle_exception (e : exn) : exec ExecutionResult :=
  match e with Refused r => on_refusal r | _ => on_exception e end.

Definition execute_frame : exec ExecutionResult := try_catch execute_body handle_exception.

Definition execute : M exn (world R E B X W V) ExecutionResult := fun w =>
  let '(r, f) := execute_frame (w, locals0) in (r, f.1).
End Request.
End Executor.
