(* ===== verification/ExecutorFrames.v ===== *)
(** * The protected executor: structure of an execution

    Which parts of [Executor.execute] call the handler, which components each part
    touches, and how replay keys move: the lemmas the executor's theorems rest
    on. *)

From S2P Require Import Prelude Text Json Errors Timestamps Canonical Contracts Runtime ProofService Replay ReplayStore Escrow Receipts Idempotency Credentials Effects Executor.

(** ** Facts *)
Create HintDb passive.
Create HintDb keeps.
Create HintDb phases.

Section ExecutorFacts.
Context `{Protocol} `{ProtocolAuthority} `{ProtocolEffects} `{PyText}.
Context {R E B X W V : Type} `{ReplayStore R} `{CapabilityEscrow E}.

#[local] Abbreviation exec := (@exec R E B X W V).
#[local] Abbreviation frame := (@frame R E B X W V).

Definition key_status (k : string) (f : frame) : option ActionConsumptionStatus := rs_status (w_replay f.1) k.

(** A step that does not call the handler: no call is observed, the handler's
    environment is untouched, and every replay key moves along the ledger. *)
Definition undisturbed (f f' : frame) : Prop :=
  w_calls f'.1 = w_calls f.1 /\ w_env f'.1 = w_env f.1 /\
  forall k, rtc ledger_step (key_status k f) (key_status k f').

Definition passive {A} (m : exec A) : Prop := forall f, undisturbed f (m f).2.

#[global] Instance undisturbed_preorder : PreOrder undisturbed.
Proof.
  split.
  - intros f. done.
  - intros f g h (? & ? & Hk) (? & ? & Hk'). split_and!; [congruence..|]. intros k. etransitivity; [apply Hk|apply Hk'].
Qed.

Lemma passive_step {A} (m : exec A) f r f' : passive m -> m f = (r, f') -> undisturbed f f'.
Proof. intros Hp Hm. specialize (Hp f). by rewrite Hm in Hp. Qed.

Lemma passive_bind {A C} (m : exec A) (g : A -> exec C) : passive m -> (forall a, passive (g a)) -> passive (m ≫= g).
Proof.
  intros Hm Hg f. specialize (Hm f). unfold mbind, M_bind. destruct (m f) as [[a|e] f1]; [|done].
  etransitivity; [exact Hm|apply Hg].
Qed.

Lemma passive_try {A} (m : exec A) (h : exn -> exec A) : passive m -> (forall e, passive (h e)) -> passive (try_catch m h).
Proof.
  intros Hm Hh f. specialize (Hm f). unfold try_catch. destruct (m f) as [[a|e] f1]; [done|].
  etransitivity; [exact Hm|apply Hh].
Qed.

Lemma passive_ret {A} (a : A) : passive (mret a). Proof. intros f. done. Qed.
Lemma passive_raise {A} e : passive (@raise exn frame A e). Proof. intros f. done. Qed.
Lemma passive_lift {A} (r : py A) : passive (lift r). Proof. intros f. done. Qed.
Lemma passive_get : passive get_locals. Proof. intros f. done. Qed.
Lemma passive_set g : passive (set_locals g). Proof. intros f. done. Qed.
Lemma passive_escrow {A} (m : M exn E A) : passive (zoom escrow_lens m).
Proof. intros f. unfold zoom. by destruct (m _). Qed.
Lemma passive_broker {A} (m : M exn B A) : passive (zoom broker_lens m).
Proof. intros f. unfold zoom. by destruct (m _). Qed.
Lemma passive_effects {A} (m : M exn X A) : passive (zoom effects_lens m).
Proof. intros f. unfold zoom. by destruct (m _). Qed.
Lemma passive_idempotency {A} (m : M exn idem_store A) : passive (zoom idempotency_lens m).
Proof. intros f. unfold zoom. by destruct (m _). Qed.
Lemma passive_writer {A} (m : M exn W A) : passive (zoom writer_lens m).
Proof. intros f. unfold zoom. by destruct (m _). Qed.
Lemma passive_replay {A} (m : M exn R A) :
  (forall s k, rtc ledger_step (rs_status s k) (rs_status (m s).2 k)) -> passive (zoom replay_lens m).
Proof.
  intros Hm f. unfold zoom. specialize (Hm (w_replay f.1)). simpl. destruct (m (w_replay f.1)) as [r s]. done.
Qed.

#[local] Hint Resolve passive_ret passive_raise passive_lift passive_get passive_set passive_escrow passive_broker
  passive_effects passive_idempotency passive_writer protector_claim_moves rs_mark_moves rs_release_moves : passive.

(** Passivity is structural: descend through binds, handlers and branches. *)
Ltac passive :=
  repeat first
    [ progress intros
    | solve [eauto with passive]
    | apply passive_bind
    | apply passive_try
    | apply passive_replay
    | case_match ].

Variable x : @ProtectedExecutor B X W.

Lemma passive_guard {A} op msg (a : A) (m : exec A) : passive m -> passive (guard_store x op msg a m).
Proof. unfold guard_store. passive. Qed.
Lemma passive_claim request : passive (_claim_replay x request).
Proof. unfold _claim_replay. case_match; [|passive]. apply passive_guard. passive. Qed.
Lemma passive_mark st request : passive (_mark_replay_consumed x st request).
Proof. unfold _mark_replay_consumed, protector_mark_consumed. passive. Qed.
Lemma passive_release st request why : passive (_release_replay_claim x st request why).
Proof. unfold _release_replay_claim, protector_release_claim. passive. Qed.
Lemma passive_release_credential c o : passive (_release_credential x c o).
Proof. unfold _release_credential. passive. Qed.
#[local] Hint Resolve passive_claim passive_mark passive_release passive_release_credential : passive.

Lemma passive_consume request : passive (consume_replay x request).
Proof. unfold consume_replay. passive. Qed.
#[local] Hint Resolve passive_consume : passive.

Lemma passive_idem request ids : passive (check_idempotency x request ids).
Proof. unfold check_idempotency, write_receipt. passive. Qed.
Lemma passive_admit request pd : passive (admit_request x request pd).
Proof. unfold admit_request. passive. Qed.
#[local] Hint Resolve passive_idem passive_admit : passive.

Lemma passive_escrow_phase request : passive (consume_escrow x request).
Proof. unfold consume_escrow. passive. Qed.
Lemma passive_effect_phase request : passive (claim_the_effect x request).
Proof. unfold claim_the_effect. passive. Qed.
Lemma passive_acquire request : passive (acquire_credential x request).
Proof. unfold acquire_credential. passive. Qed.
#[local] Hint Resolve passive_escrow_phase passive_effect_phase passive_acquire : passive.

Lemma passive_prepare request pd ids : passive (prepare x request pd ids).
Proof. unfold prepare. passive. Qed.

Lemma passive_evidence payload : passive (check_evidence payload).
Proof. unfold check_evidence. passive. Qed.

(** After the handler's call nothing calls it again. *)
Lemma perform_call request handler ids cred (f f' : frame) r : perform x request handler ids cred f = (r, f') ->
  w_calls f'.1 = w_calls f.1 ++ [request] /\ w_env f'.1 = (handler request cred (w_env f.1)).2 /\
  forall k, rtc ledger_step (key_status k f) (key_status k f').
Proof.
  unfold perform, mbind at 1, M_bind at 1, set_locals at 1, modify at 1. unfold mbind at 1, M_bind at 1, call_handler. simpl.
  destruct (handler request cred (w_env f.1)) as [[payload|e] h]; [|by intros [= <- <-]].
  match goal with |- (?m ≫= ?g) ?f0 = _ -> _ => assert (passive (m ≫= g)) as Hp; [|destruct (Hp f0) as (Hc & He & Hk)] end.
  - pose proof (fun p => passive_evidence p). unfold write_receipt. passive.
  - intros Heq. rewrite Heq in Hc, He, Hk. done.
Qed.

Lemma passive_emit request ids exc : passive (emit_refusal x request ids exc).
Proof. unfold emit_refusal, write_receipt, write_refusal. passive. Qed.
#[local] Hint Resolve passive_prepare passive_evidence passive_emit : passive.

Lemma passive_handlers request ids e :
  passive (handle_exception x request ids e).
Proof. unfold handle_exception, on_refusal, on_exception. passive. Qed.

(** *** Steps that leave one component alone *)
Definition keeps {T A} (p : frame -> T) (m : exec A) : Prop := forall f, p (m f).2 = p f.

Section Keeps.
Context {T : Type} (p : frame -> T).

Lemma keeps_step {A} (m : exec A) f r f' : keeps p m -> m f = (r, f') -> p f' = p f.
Proof. intros Hp Hm. specialize (Hp f). by rewrite Hm in Hp. Qed.
Lemma keeps_bind {A C} (m : exec A) (g : A -> exec C) : keeps p m -> (forall a, keeps p (g a)) -> keeps p (m ≫= g).
Proof.
  intros Hm Hg f. specialize (Hm f). unfold mbind, M_bind. destruct (m f) as [[a|e] f1]; [|done].
  simpl in Hm. by rewrite Hg.
Qed.
Lemma keeps_try {A} (m : exec A) (h : exn -> exec A) : keeps p m -> (forall e, keeps p (h e)) -> keeps p (try_catch m h).
Proof.
  intros Hm Hh f. specialize (Hm f). unfold try_catch. destruct (m f) as [[a|e] f1]; [done|]. simpl in Hm. by rewrite Hh.
Qed.
Lemma keeps_pure {A} (m : exec A) : (forall f, p (m f).2 = p f) -> keeps p m.
Proof. done. Qed.
Lemma keeps_zoom {A S} (l : lens frame S) (m : M exn S A) :
  (forall t f, p (lset l t f) = p f) -> keeps p (zoom l m).
Proof. intros Hl f. unfold zoom. destruct (m _). apply Hl. Qed.
End Keeps.

Ltac keeps :=
  repeat first
    [ progress intros
    | solve [eauto with keeps]
    | apply keeps_bind
    | apply keeps_try
    | apply keeps_zoom; solve [by intros | assumption]
    | apply keeps_pure; by intros [??]
    | case_match ].

(** Outside the escrow and effect phases only the replay store, the broker, the
    idempotency store, the writer and the handler's environment change. *)
Section Phases.
Context {T : Type} (p : frame -> T).
Context (Hreplay : forall t f, p (lset replay_lens t f) = p f) (Hbroker : forall t f, p (lset broker_lens t f) = p f)
  (Hidem : forall t f, p (lset idempotency_lens t f) = p f) (Hwriter : forall t f, p (lset writer_lens t f) = p f)
  (Hcall : forall w h c l, p (mkExecWorld (w_replay w) (w_escrow w) (w_broker w) (w_effects w) (w_idempotency w) (w_writer w) h c, l) = p (w, l))
  (Hlocals : forall w l l', p (w, l) = p (w, l')).

Lemma keeps_set g : keeps p (set_locals g).
Proof. intros [w l]. simpl. apply Hlocals. Qed.
#[local] Hint Resolve keeps_set : keeps.


Lemma keeps_replay_helpers request st why :
  keeps p (consume_replay x request) /\ keeps p (_release_replay_claim x st request why).
Proof. unfold consume_replay, _mark_replay_consumed, _release_replay_claim, guard_store. split; keeps. Qed.

Lemma keeps_emit request ids exc : keeps p (emit_refusal x request ids exc).
Proof. unfold emit_refusal, write_receipt, write_refusal. keeps. Qed.

Lemma keeps_release_credential c o : keeps p (_release_credential x c o).
Proof. unfold _release_credential. keeps. Qed.

#[local] Hint Resolve keeps_emit keeps_release_credential : keeps.

Lemma keeps_on_refusal request ids r : keeps p (on_refusal x request ids r).
Proof.
  unfold on_refusal. apply keeps_bind; [by apply keeps_pure|intros l]. cbv zeta.
  apply keeps_bind; [auto with keeps|intros _]. apply keeps_bind; [|auto with keeps].
  destruct (l_replay_consumed l); [by apply keeps_pure|]. apply keeps_replay_helpers.
Qed.

Lemma keeps_on_exception request ids e : keeps p (on_exception x request ids e).
Proof.
  unfold on_exception. apply keeps_bind; [by apply keeps_pure|intros l]. cbv zeta.
  apply keeps_bind; [auto with keeps|intros _]. apply keeps_bind; [|auto with keeps].
  destruct (negb (l_replay_consumed l) && _); [|by apply keeps_pure]. apply keeps_try; [apply (keeps_replay_helpers request None "")|].
  intros []; by apply keeps_pure.
Qed.

Lemma keeps_handlers request ids e :
  keeps p (handle_exception x request ids e).
Proof.
  unfold handle_exception. destruct e; match goal with
  | |- keeps _ (on_refusal _ _ _ _) => apply keeps_on_refusal
  | |- _ => apply keeps_on_exception
  end.
Qed.

Lemma keeps_perform request handler ids cred : keeps p (perform x request handler ids cred).
Proof.
  assert (keeps p (call_handler handler request cred)).
  { intros [w l]. unfold call_handler. destruct (handler _ _ _). simpl. apply Hcall. }
  assert (forall payload, keeps p (check_evidence payload)) by (intros; unfold check_evidence; keeps).
  unfold perform, write_receipt. keeps.
Qed.

Lemma keeps_admit request pd : keeps p (admit_request x request pd).
Proof. unfold admit_request, _claim_replay, guard_store. keeps. Qed.

Lemma keeps_idem request ids : keeps p (check_idempotency x request ids).
Proof.
  assert (keeps p (consume_replay x request)) by apply (keeps_replay_helpers request None "").
  unfold check_idempotency, write_receipt. keeps.
Qed.

Lemma keeps_consume request : keeps p (consume_replay x request).
Proof. apply (keeps_replay_helpers request None ""). Qed.

Lemma keeps_acquire request : keeps p (acquire_credential x request).
Proof. unfold acquire_credential. keeps. Qed.

Lemma keeps_claim_effect request : (forall t f, p (lset effects_lens t f) = p f) -> keeps p (claim_the_effect x request).
Proof. intros Hx. unfold claim_the_effect. keeps. Qed.

Lemma keeps_consume_escrow request : (forall t f, p (lset escrow_lens t f) = p f) -> keeps p (consume_escrow x request).
Proof. intros Hx. unfold consume_escrow. keeps. Qed.
End Phases.
End ExecutorFacts.

#[export] Hint Resolve passive_ret passive_raise passive_lift passive_get passive_set passive_escrow passive_broker
  passive_effects passive_idempotency passive_writer protector_claim_moves rs_mark_moves rs_release_moves : passive.
Ltac passive :=
  repeat first
    [ progress intros
    | solve [eauto with passive]
    | apply passive_bind
    | apply passive_try
    | apply passive_replay
    | case_match ].

#[export] Hint Resolve passive_admit passive_idem passive_escrow_phase passive_effect_phase passive_acquire
  passive_consume passive_prepare passive_evidence passive_handlers : phases.
#[export] Hint Resolve keeps_admit keeps_idem keeps_consume keeps_acquire keeps_claim_effect keeps_consume_escrow
  keeps_perform keeps_handlers : phases.
#[export] Hint Extern 1 (forall t f, _ = _) => (intros; reflexivity) : phases.
#[export] Hint Extern 1 (forall w h c l, _ = _) => (intros; reflexivity) : phases.
#[export] Hint Extern 1 (forall w l l', _ = _) => (intros; reflexivity) : phases.

Ltac keeps :=
  repeat first
    [ progress intros
    | solve [eauto with keeps]
    | apply keeps_bind
    | apply keeps_try
    | apply keeps_zoom; solve [by intros | assumption]
    | apply keeps_pure; by intros [??]
    | case_match ].

(** A component a completed phase has not touched. *)
Ltac untouched H :=
  match goal with
  | |- ?p (fst ?f') = ?p (fst ?f) => apply (keeps_step (fun g => p (fst g)) _ _ _ _) in H; [exact H|auto 2 with phases]
  end.
