(* ===== verification/ExecutorProofs.v ===== *)
(** * The protected executor: theorems

    From the frame lemmas of [ExecutorFrames]: what stands behind a handler call
    ([cleared]), at most one call per replay key along any sequence of executions
    and moves of other workers, that every execution ends in a recorded artifact
    that says what happened, and what a constructed executor guarantees.  The
    sample executor at the end wires every component together and runs. *)

From S2P Require Import Prelude Text Json Errors Timestamps Canonical Contracts Runtime Samples ProofService SecurityPosture Replay ReplayStore Escrow Receipts Idempotency Credentials Effects Executor ExecutorFrames.

Section ExecutorTheorems.
Context `{Protocol} `{ProtocolAuthority} `{ProtocolEffects} `{PyText}.
Context {R E B X W V : Type} `{ReplayStore R} `{CapabilityEscrow E}.

#[local] Abbreviation exec := (@exec R E B X W V).
#[local] Abbreviation frame := (@frame R E B X W V).
Variable x : @ProtectedExecutor B X W.

(** *** What stands behind a handler call *)
Record cleared (request : ProtectedExecutionRequest) (pd : option PolicyDecision) (w w' : world R E B X W V) : Prop := {
  cleared_proof : verify (px_verifier x) (rq_intent request) (rq_pccb request) (rq_context request) = Ok tt;
  cleared_policy : forall d, pd = Some d -> allowed d = true;
  cleared_effect_enforced : has_key "effect" (pc_extensions (rq_pccb request)) = true -> px_effect_protector x <> None;
  cleared_effect : forall p, px_effect_protector x = Some p -> exists ref, effect_owned p request ref /\
    ep_claim p ref request (w_effects w) = (Ok (JBool true), w_effects w');
  cleared_escrow : px_escrow x = true -> exists id r, pc_escrow_id (rq_pccb request) = JStr id /\
    escrow_run (OpConsume id (pc_pccb_id (rq_pccb request)) (act_capability (in_action (rq_intent request)))
                  (cx_now (rq_context request))) (w_escrow w) = (Ok r, w_escrow w');
  cleared_replay : px_replay_protector x = true -> px_fail_open x = false -> exists k, request_key request = Ok k /\
    rs_status (w_replay w) k <> Some Consumed /\ rs_status (w_replay w') k = Some Consumed
}.

Lemma guard_closed {A} op msg (a : A) (m : exec A) (f f' : frame) b :
  px_fail_open x = false -> guard_store x op msg a m f = (Ok b, f') -> m f = (Ok b, f').
Proof.
  intros Hfo. unfold guard_store, try_catch. destruct (m f) as [[c|e] f1]; [done|]. rewrite Hfo. by destruct e.
Qed.

Lemma claim_state request (f f' : frame) st : px_replay_protector x = true -> px_fail_open x = false ->
  _claim_replay x request f = (Ok st, f') -> exists s, st = Some s /\ request_key request = Ok (cs_replay_key s).
Proof.
  intros Hrp Hfo. unfold _claim_replay. rewrite Hrp. intros Hc%guard_closed; [|done].
  apply zoom_Ok in Hc as (t & Hc & _). by eapply protector_claim_ok.
Qed.

Lemma consume_state request s (f f' : frame) : px_replay_protector x = true -> px_fail_open x = false ->
  l_replay_state f.2 = Some s -> consume_replay x request f = (Ok tt, f') ->
  key_status (cs_replay_key s) f <> Some Consumed /\ key_status (cs_replay_key s) f' = Some Consumed.
Proof.
  intros Hrp Hfo Hl. unfold consume_replay. intros (l & f1 & Hg & Hc)%M_bind_Ok. injection Hg as <- <-.
  apply M_bind_Ok in Hc as (b & f2 & Hm & Hs). injection Hs as <-.
  unfold _mark_replay_consumed in Hm. rewrite Hrp, Hl in Hm. apply guard_closed in Hm; [|done].
  apply M_bind_Ok in Hm as (o & f3 & Hm & Hr). injection Hr as <- <-. apply zoom_Ok in Hm as (t & Hm & ->).
  apply rs_mark_ok in Hm as [Hb Ha]. done.
Qed.

(** The claim stays in the frame until it is consumed. *)
Lemma keeps_claim_middle request ids :
  let claim (f : frame) := l_replay_state f.2 in
  keeps claim (check_idempotency x request ids) /\ keeps claim (consume_escrow x request) /\
  keeps claim (claim_the_effect x request) /\ keeps claim (acquire_credential x request).
Proof.
  unfold check_idempotency, consume_escrow, claim_the_effect, acquire_credential, write_receipt, consume_replay,
    _mark_replay_consumed, guard_store.
  cbv zeta. split_and!; keeps.
Qed.

Lemma idempotency_None request ids (f f' : frame) :
  check_idempotency x request ids f = (Ok None, f') ->
  uses_idempotency x request = false \/ idem_get (dget (in_metadata (rq_intent request)) "operation_id") (w_idempotency f.1) = None.
Proof.
  unfold check_idempotency. destruct (uses_idempotency x request); [|by left]. intros (prior & f1 & Hl & Hp)%M_bind_Ok. right.
  apply zoom_Ok in Hl as (t & Hl & ->). unfold lookup in Hl. destruct (hashable _); [|done]. injection Hl as <- <-.
  simpl in *. destruct (idem_get _ _) as [r|]; [|done]. destruct (negb _); [done|]. M_inv.
Qed.

(** The phases of a [prepare] that reached the handler. *)
Record prepared (request : ProtectedExecutionRequest) (pd : option PolicyDecision) (ids : artifact_ids) (cred : BrokeredCredential)
    (f f1 f2 f3 f4 f5 f6 : frame) : Prop := {
  p_admit : admit_request x request pd f = (Ok tt, f1);
  p_idem : check_idempotency x request ids f1 = (Ok None, f2);
  p_escrow : consume_escrow x request f2 = (Ok tt, f3);
  p_effect : claim_the_effect x request f3 = (Ok tt, f4);
  p_acquire : acquire_credential x request f4 = (Ok cred, f5);
  p_consume : consume_replay x request f5 = (Ok tt, f6)
}.

Lemma prepare_phases request pd ids (f : frame) cred f6 :
  prepare x request pd ids f = (Ok (inr cred), f6) -> exists f1 f2 f3 f4 f5, prepared request pd ids cred f f1 f2 f3 f4 f5 f6.
Proof.
  unfold prepare. intros ([] & f1 & Hadm & Hall)%M_bind_Ok.
  apply M_bind_Ok in Hall as (early & f2 & Hid & Hall). destruct early as [|]; [done|].
  apply M_bind_Ok in Hall as ([] & f3 & Hesc & Hall). apply M_bind_Ok in Hall as ([] & f4 & Heff & Hall).
  apply M_bind_Ok in Hall as (c & f5 & Hacq & Hall). apply M_bind_Ok in Hall as ([] & f7 & Hcons & Hall).
  injection Hall as -> ->. exists f1, f2, f3, f4, f5. by constructor.
Qed.

Lemma admit_cleared request pd w f1 :
  admit_request x request pd ((w, locals0) : frame) = (Ok tt, f1) ->
  verify (px_verifier x) (rq_intent request) (rq_pccb request) (rq_context request) = Ok tt /\
  (forall d, pd = Some d -> allowed d = true) /\
  (has_key "effect" (pc_extensions (rq_pccb request)) = true -> px_effect_protector x <> None) /\
  (px_replay_protector x = true -> px_fail_open x = false ->
   exists s, l_replay_state f1.2 = Some s /\ request_key request = Ok (cs_replay_key s)).
Proof.
  unfold admit_request. intros ([] & g1 & Hv & Hadm)%M_bind_Ok. injection Hv as Hv <-.
  apply M_bind_Ok in Hadm as (u & g2 & Hpol & Hadm). apply M_bind_Ok in Hadm as (u' & g3 & Heffg & Hadm).
  apply M_bind_Ok in Hadm as (st & g4 & Hclaim & Hset). injection Hset as <-. split_and!.
  - done.
  - intros d ->. destruct (allowed d) eqn:Ha; [done|]. M_inv.
  - intros Hk Hn. rewrite Hk, Hn in Heffg. done.
  - intros Hrp Hfo. simpl. by eapply claim_state.
Qed.

Lemma escrow_cleared request (f f' : frame) : consume_escrow x request f = (Ok tt, f') -> px_escrow x = true ->
  exists id r, pc_escrow_id (rq_pccb request) = JStr id /\
    escrow_run (OpConsume id (pc_pccb_id (rq_pccb request)) (act_capability (in_action (rq_intent request)))
                  (cx_now (rq_context request))) (w_escrow f.1) = (Ok r, w_escrow f'.1).
Proof.
  unfold consume_escrow. intros Hesc He. rewrite He in Hesc. destruct (pc_escrow_id (rq_pccb request)) eqn:Hid; try done.
  apply M_bind_Ok in Hesc as (r & h & Hc & Hs). injection Hs as ->. apply zoom_Ok in Hc as (t & Hc & ->). eauto.
Qed.

Lemma effect_cleared request p (f f' : frame) : claim_the_effect x request f = (Ok tt, f') -> px_effect_protector x = Some p ->
  exists ref, effect_owned p request ref /\ ep_claim p ref request (w_effects f.1) = (Ok (JBool true), w_effects f'.1) /\
    l_effect_reference f'.2 = Some ref.
Proof.
  unfold claim_the_effect. intros Heff Hp. rewrite Hp in Heff. apply M_bind_Ok in Heff as (ref & h & Hc & Hs).
  apply zoom_Ok in Hc as (t & Hc & ->). injection Hs as <-. apply effect_claim_sound in Hc as [Ho Hc]. eauto.
Qed.

(** A key consumed by this execution was not consumed when it began. *)
Lemma undisturbed_consumed k (f f' : frame) : undisturbed f f' -> key_status k f' <> Some Consumed -> key_status k f <> Some Consumed.
Proof. intros (_ & _ & Hk) Hn Hc. apply Hn, ledger_consumed_final. rewrite <- Hc. apply Hk. Qed.

Lemma prepare_cleared request pd ids w cred f' :
  prepare x request pd ids ((w, locals0) : frame) = (Ok (inr cred), f') -> cleared request pd w f'.1.
Proof.
  intros (f1 & f2 & f3 & f4 & f5 & [P1 P2 P3 P4 P5 P6])%prepare_phases.
  destruct (admit_cleared _ _ _ _ P1) as (Hv & Hp & He & Hr). split; [done..| | |].
  - intros p Hpx. destruct (effect_cleared _ _ _ _ P4 Hpx) as (ref & Ho & Hc & _). exists ref. split; [done|].
    assert (w_effects f3.1 = w_effects f2.1) as E3 by untouched P3. assert (w_effects f2.1 = w_effects f1.1) as E2 by untouched P2.
    assert (w_effects f1.1 = w_effects (w, locals0).1) as E1 by untouched P1. assert (w_effects f5.1 = w_effects f4.1) as E5 by untouched P5.
    assert (w_effects f'.1 = w_effects f5.1) as E6 by untouched P6. simpl in E1. congruence.
  - intros Hpx. destruct (escrow_cleared _ _ _ P3 Hpx) as (id & r & Hid & Hc). exists id, r. split; [done|].
    assert (w_escrow f2.1 = w_escrow f1.1) as E2 by untouched P2. assert (w_escrow f1.1 = w_escrow (w, locals0).1) as E1 by untouched P1.
    assert (w_escrow f4.1 = w_escrow f3.1) as E4 by untouched P4. assert (w_escrow f5.1 = w_escrow f4.1) as E5 by untouched P5.
    assert (w_escrow f'.1 = w_escrow f5.1) as E6 by untouched P6. simpl in E1. congruence.
  - intros Hrp Hfo. destruct (Hr Hrp Hfo) as (s & Hs & Hk). exists (cs_replay_key s). split; [done|].
    destruct (keeps_claim_middle request ids) as (K2 & K3 & K4 & K5).
    assert (l_replay_state f5.2 = Some s) as Hl.
    { apply (keeps_step _ _ _ _ _ K5) in P5. apply (keeps_step _ _ _ _ _ K4) in P4.
      apply (keeps_step _ _ _ _ _ K3) in P3. apply (keeps_step _ _ _ _ _ K2) in P2. congruence. }
    destruct (consume_state _ _ _ _ Hrp Hfo Hl P6) as [Hb Ha]. split; [|done].
    apply (undisturbed_consumed _ (w, locals0) f5); [|done].
    do 4 (etransitivity; [|eapply passive_step; [|eassumption]; auto 1 with phases]).
    eapply passive_step; [|exact P1]. auto 1 with phases.
Qed.

(** The two ways an execution can end: the handler was not called and its
    environment is as it was, or it was called once, with everything cleared. *)
Lemma cleared_later request pd w w1 (f f' : frame) :
  cleared request pd w w1 -> f.1 = w1 -> w_effects f'.1 = w_effects f.1 -> w_escrow f'.1 = w_escrow f.1 ->
  (forall k, rtc ledger_step (key_status k f) (key_status k f')) -> cleared request pd w f'.1.
Proof.
  intros [Hv Hpol Heff Hcl Hesc Hrep] <- Ex Es Hk. split; [done..| | |]; [by rewrite Ex|by rewrite Es|].
  intros Hrp Hfo. destruct (Hrep Hrp Hfo) as (k & Hkey & Hb & Ha). exists k. split_and!; [done|done|].
  apply ledger_consumed_final. rewrite <- Ha. apply Hk.
Qed.

Lemma execute_calls request handler pd ids (w w' : world R E B X W V) r :
  execute x request handler pd ids w = (r, w') ->
  (w_calls w' = w_calls w /\ w_env w' = w_env w) \/
  (exists cred, w_calls w' = w_calls w ++ [request] /\ w_env w' = (handler request cred (w_env w)).2 /\ cleared request pd w w').
Proof.
  unfold execute, execute_frame, try_catch, execute_body.
  unfold mbind at 1, M_bind at 1. destruct (prepare x request pd ids (w, locals0)) as [[[result|cred]|e] f1] eqn:Hp.
  - intros [= <- <-]. left. apply passive_step in Hp as (? & ? & _); [done|auto with phases].
  - pose proof (prepare_cleared _ _ _ _ _ _ Hp) as Hcl. apply passive_step in Hp as (Hc & He & _); [|auto with phases].
    destruct (perform x request handler ids cred f1) as [rp f2] eqn:Hperf.
    pose proof (perform_call _ _ _ _ _ _ _ _ Hperf) as (Hc2 & He2 & Hk2).
    assert (cleared request pd w f2.1) as Hcl2.
    { eapply cleared_later; [exact Hcl|done|untouched Hperf|untouched Hperf|done]. }
    intros Hend. right. exists cred. destruct rp as [result|e].
    + injection Hend as <- <-. simpl in *. split_and!; [congruence..|done].
    + destruct (handle_exception x request ids e f2) as [r3 f3] eqn:Hh. injection Hend as <- <-.
      pose proof Hh as Hh'. apply passive_step in Hh' as (Hc3 & He3 & Hk3); [|apply passive_handlers].
      simpl in *. split_and!; [congruence..|]. eapply cleared_later; [exact Hcl2|done|untouched Hh|untouched Hh|done].
  - destruct (handle_exception x request ids e f1) as [r3 f3] eqn:Hh. intros [= <- <-]. left.
    apply passive_step in Hh as (Hc3 & He3 & _); [|apply passive_handlers].
    apply passive_step in Hp as (Hc & He & _); [|auto with phases]. simpl in *. split; congruence.
Qed.

(** *** Early results and refusals *)
Lemma emit_refused request ids exc (f f' : frame) res : emit_refusal x request ids exc f = (Ok res, f') ->
  exists receipt refusal, res = mkExecutionResult (Some receipt) (Some refusal) None /\
    rc_outcome receipt = "refused" /\ rf_reason_code refusal = exc_refusal_code exc.
Proof.
  unfold emit_refusal. intros (refusal & f1 & Hr & He)%M_bind_Ok. injection Hr as Hr <-.
  apply M_bind_Ok in He as (receipt & f2 & Hc & He). injection Hc as Hc <-.
  apply M_bind_Ok in He as (l & f3 & Hl & He). apply M_bind_Ok in He as (receipt' & f4 & Hx & He).
  apply M_bind_Ok in He as (? & f5 & _ & He). apply M_bind_Ok in He as (? & f6 & _ & He). injection He as <- <-.
  exists receipt', refusal. split; [done|].
  assert (rc_outcome receipt = "refused") as Ho.
  { unfold create_refused_receipt in Hc. apply bind_Ok in Hc as ([s d] & _ & Hc). by injection Hc as <-. }
  split.
  - destruct (l_effect_reference l); [|by injection Hx as <- _]. injection Hx as Hx _. unfold _effect_refusal_receipt in Hx.
    apply bind_Ok in Hx as (ev & _ & Hx). apply bind_Ok in Hx as (o & _ & Hx). by injection Hx as <-.
  - by subst refusal.
Qed.

Lemma handle_refused request ids e (f f' : frame) res : handle_exception x request ids e f = (Ok res, f') ->
  exists receipt refusal, res = mkExecutionResult (Some receipt) (Some refusal) None /\ rc_outcome receipt = "refused".
Proof.
  assert (forall g exc, emit_refusal x request ids exc g = (Ok res, f') ->
    exists receipt refusal, res = mkExecutionResult (Some receipt) (Some refusal) None /\ rc_outcome receipt = "refused") as Hem.
  { intros g exc (receipt & refusal & -> & Ho & _)%emit_refused. by exists receipt, refusal. }
  unfold handle_exception, on_exception, on_refusal. destruct e; intros (l & f1 & _ & Hh)%M_bind_Ok; cbv zeta in Hh; apply M_bind_Ok in Hh as (? & f2 & _ & Hh);
    apply M_bind_Ok in Hh as (? & f3 & _ & Hh); by eapply Hem.
Qed.

Lemma idempotency_early request ids (f f' : frame) res :
  check_idempotency x request ids f = (Ok (Some res), f') ->
  uses_idempotency x request = true /\ exists prior receipt, idem_get (dget (in_metadata (rq_intent request)) "operation_id") (w_idempotency f.1) = Some prior /\
    id_action_hash prior = ah_value (pc_action_hash (rq_pccb request)) /\
    res = mkExecutionResult (Some receipt) None (id_result prior) /\ rc_outcome receipt = "executed".
Proof.
  unfold check_idempotency. destruct (uses_idempotency x request); [|done]. intros (prior & f1 & Hl & Hp)%M_bind_Ok. split; [done|].
  apply zoom_Ok in Hl as (t & Hl & ->). unfold lookup in Hl. destruct (hashable _); [|done]. injection Hl as <- <-.
  simpl in *. destruct (idem_get _ _) as [r|] eqn:Hg; [|done].
  destruct (String.eqb_spec (id_action_hash r) (ah_value (pc_action_hash (rq_pccb request)))) as [Hh|]; [|done]. simpl in Hp.
  apply M_bind_Ok in Hp as (? & f2 & _ & Hp). apply M_bind_Ok in Hp as (receipt & f3 & Hr & Hp). injection Hr as Hr <-.
  apply M_bind_Ok in Hp as (? & f4 & _ & Hp). injection Hp as <- <-. exists r, receipt. split_and!; try done.
  by apply execution_receipt_inv in Hr as (? & ? & ? & -> & _).
Qed.

(** A recorded operation never gets past the idempotency check. *)
Lemma recorded_not_prepared request pd ids (f f' : frame) cred prior :
  uses_idempotency x request = true ->
  idem_get (dget (in_metadata (rq_intent request)) "operation_id") (w_idempotency f.1) = Some prior ->
  prepare x request pd ids f <> (Ok (inr cred), f').
Proof.
  intros Hu Hg (f1 & f2 & f3 & f4 & f5 & [P1 P2 _ _ _ _])%prepare_phases.
  assert (w_idempotency f1.1 = w_idempotency f.1) as E1.
  { apply (keeps_step (fun g => w_idempotency g.1) _ _ _ _) in P1; [exact P1|].
    unfold admit_request, _claim_replay, guard_store. keeps. }
  apply idempotency_None in P2 as [P2|P2]; congruence.
Qed.

(** *** Totality *)

(** The writer records what it is given. *)
Definition writer_records : Prop :=
  (forall r s, is_ok (ow_write_receipt (px_writer x) r s).1 = true) /\ (forall r s, is_ok (ow_write_refusal (px_writer x) r s).1 = true).

(** The returned receipt is the last artifact written. *)
Definition recorded (res : ExecutionResult) (w : world R E B X W V) : Prop :=
  exists receipt s, er_receipt res = Some receipt /\ w_writer w = (ow_write_receipt (px_writer x) receipt s).2.

Lemma guard_refused {A} op msg (a : A) (m : exec A) (f f' : frame) e : guard_store x op msg a m f = (Err e, f') -> exists r, e = Refused r.
Proof.
  unfold guard_store, try_catch. destruct (m f) as [[b|e0] f1]; [done|].
  destruct e0; try (destruct (px_fail_open x); [done|]); intros [= <- _]; eauto.
Qed.

Lemma always_Ok (m : exec unit) (f : frame) : (try_catch m (fun _ => mret tt) f).1 = Ok tt.
Proof. unfold try_catch. by destruct (m f) as [[[]|] ?]. Qed.

Lemma consume_refused request (f f' : frame) e : consume_replay x request f = (Err e, f') -> exists r, e = Refused r.
Proof.
  unfold consume_replay. intros [Hg|(l & f1 & _ & Hm)]%M_bind_Err; [done|]. apply M_bind_Err in Hm as [Hm|(b & f2 & _ & Hs)]; [|done].
  unfold _mark_replay_consumed in Hm. destruct (px_replay_protector x), (l_replay_state l); try done. by eapply guard_refused.
Qed.

Lemma release_total c o st request why (f : frame) :
  (_release_credential x c o f).1 = Ok tt /\ (_release_replay_claim x st request why f).1 = Ok tt.
Proof.
  unfold _release_credential, _release_replay_claim. split.
  - destruct c; [apply always_Ok|done].
  - destruct (px_replay_protector x), st; try done. apply always_Ok.
Qed.

Lemma emit_total request ids exc (f : frame) :
  writer_records -> describable (rq_intent request) = true -> l_effect_reference f.2 = None ->
  exists res f', emit_refusal x request ids exc f = (Ok res, f') /\ recorded res f'.1.
Proof.
  intros [Hw1 Hw2] Hd Hl. unfold emit_refusal.
  edestruct create_from_exception_Ok as (refusal & Hf & _). unfold lift, mbind, M_bind. rewrite Hf.
  pose proof (refused_receipt_describable (id_refused ids) (rq_intent request) (rq_context request) refusal) as Hr.
  rewrite Hd in Hr. destruct (create_refused_receipt _ _ _ _) as [receipt|]; [|done].
  unfold get_locals, gets. rewrite Hl. unfold mret, M_ret, write_refusal, write_receipt, zoom.
  specialize (Hw2 refusal (lget writer_lens f)). destruct (ow_write_refusal _ _ _) as [[[]|] s1]; [|done].
  specialize (Hw1 receipt (lget writer_lens (lset writer_lens s1 f))). unfold recorded.
  destruct (ow_write_receipt _ receipt _) as [[[]|] s2] eqn:Hs; [|done]. do 2 eexists. split; [reflexivity|].
  exists receipt. eexists. split; [done|]. rewrite Hs. done.
Qed.

(** A step that returns, and keeps the effect reference. *)
Definition settles {A} (m : exec A) : Prop :=
  forall f, l_effect_reference f.2 = None -> exists a f', m f = (Ok a, f') /\ l_effect_reference f'.2 = None.

Lemma settles_bind {A} (m : exec A) (g : A -> exec ExecutionResult) :
  settles m -> (forall a f, l_effect_reference f.2 = None -> exists res f', g a f = (Ok res, f') /\ recorded res f'.1) ->
  forall f, l_effect_reference f.2 = None -> exists res f', (m ≫= g) f = (Ok res, f') /\ recorded res f'.1.
Proof. intros Hm Hg f Hf. destruct (Hm f Hf) as (a & f1 & Hm1 & Hf1). unfold mbind, M_bind. rewrite Hm1. by apply Hg. Qed.

Lemma settles_total {A} (m : exec A) :
  keeps (fun f => l_effect_reference f.2) m -> (forall f, is_ok (m f).1 = true) -> settles m.
Proof.
  intros Hk Ho f Hf. specialize (Hk f). specialize (Ho f). destruct (m f) as [[a|] f']; [|done]. exists a, f'. split; [done|].
  simpl in Hk. congruence.
Qed.

Lemma settles_releases c o st request why :
  settles (_release_credential x c o) /\ settles (_release_replay_claim x st request why) /\
  settles (try_catch (consume_replay x request) (fun e => match e with Refused _ => mret tt | _ => raise e end)).
Proof.
  split_and!; apply settles_total.
  - unfold _release_credential. keeps.
  - intros f. by rewrite (proj1 (release_total c o st request why f)).
  - unfold _release_replay_claim. keeps.
  - intros f. by rewrite (proj2 (release_total c o st request why f)).
  - unfold consume_replay, _mark_replay_consumed, guard_store. keeps.
  - intros f. unfold try_catch. destruct (consume_replay x request f) as [[[]|e] f'] eqn:Hc; [done|].
    by destruct (consume_refused _ _ _ _ Hc) as [r ->].
Qed.

Lemma settles_pure {A} (a : A) : settles (mret a).
Proof. intros f Hf. by exists a, f. Qed.
Lemma settles_get : settles get_locals.
Proof. intros f Hf. by exists f.2, f. Qed.

Lemma handle_total request ids e (f : frame) :
  writer_records -> describable (rq_intent request) = true -> l_effect_reference f.2 = None ->
  exists res f', handle_exception x request ids e f = (Ok res, f') /\ recorded res f'.1.
Proof.
  intros Hw Hd. assert (forall exc g, l_effect_reference g.2 = None ->
    exists res f', emit_refusal x request ids exc g = (Ok res, f') /\ recorded res f'.1) as Hem by (intros; by apply emit_total).
  assert (forall r g, l_effect_reference g.2 = None -> exists res f', on_refusal x request ids r g = (Ok res, f') /\ recorded res f'.1) as Hr.
  { intros r. unfold on_refusal. apply settles_bind; [apply settles_get|intros l]. cbv zeta.
    apply settles_bind; [apply (settles_releases _ _ None request "")|intros _].
    apply settles_bind; [|intros _; apply Hem]. destruct (l_replay_consumed l); [apply settles_pure|apply (settles_releases None JNull)]. }
  assert (forall r g, l_effect_reference g.2 = None -> exists res f', on_exception x request ids r g = (Ok res, f') /\ recorded res f'.1) as Hx.
  { intros r. unfold on_exception. apply settles_bind; [apply settles_get|intros l]. cbv zeta.
    apply settles_bind; [apply (settles_releases _ _ None request "")|intros _].
    apply settles_bind; [|intros _; apply Hem]. destruct (_ && _); [apply (settles_releases None JNull None request "")|apply settles_pure]. }
  unfold handle_exception. destruct e; auto.
Qed.

(** *** A body that returns *)
Lemma idempotency_recorded request ids (f f' : frame) res : check_idempotency x request ids f = (Ok (Some res), f') -> recorded res f'.1.
Proof.
  unfold check_idempotency. destruct (uses_idempotency x request); [|done]. intros (prior & f1 & _ & Hp)%M_bind_Ok.
  destruct prior as [r|]; [|done]. destruct (negb _); [done|].
  apply M_bind_Ok in Hp as (? & f2 & _ & Hp). apply M_bind_Ok in Hp as (receipt & f3 & _ & Hp).
  apply M_bind_Ok in Hp as (? & f4 & Hw & Hp). injection Hp as <- <-. apply zoom_Ok in Hw as (t & Hw & ->).
  exists receipt, (w_writer f3.1). split; [done|]. simpl in *. by rewrite Hw.
Qed.

Lemma perform_Ok request handler ids cred (f f' : frame) res : perform x request handler ids cred f = (Ok res, f') ->
  exists receipt payload h, res = mkExecutionResult (Some receipt) None payload /\ rc_outcome receipt = "executed" /\
    handler request cred (w_env f.1) = (Ok payload, h) /\ recorded res f'.1.
Proof.
  unfold perform. intros ([] & f1 & Hs & Hp)%M_bind_Ok. injection Hs as <-.
  apply M_bind_Ok in Hp as (payload & f2 & Hh & Hp). unfold call_handler in Hh. simpl in Hh.
  destruct (handler request cred (w_env f.1)) as [r h]. injection Hh as -> Hf2.
  apply M_bind_Ok in Hp as (? & f3 & _ & Hp). cbv zeta in Hp. apply M_bind_Ok in Hp as (? & f4 & _ & Hp).
  apply M_bind_Ok in Hp as (receipt & f5 & Hr & Hp). injection Hr as Hr <-. apply M_bind_Ok in Hp as (l & f6 & Hl & Hp).
  apply M_bind_Ok in Hp as (? & f7 & Hw & Hp). apply M_bind_Ok in Hp as (? & f8 & Hi & Hp). injection Hp as <- <-.
  apply execution_receipt_inv in Hr as (? & ? & ? & -> & _).
  do 3 eexists. split_and!; [done|by destruct (l_effect_evidence l)|done|].
  apply zoom_Ok in Hw as (t & Hw & ->). eexists _, (w_writer f6.1). split; [done|]. simpl in Hw. rewrite Hw. simpl.
  destruct (uses_idempotency x request); [|by unfold mret, M_ret in Hi; simplify_eq]. by apply zoom_Ok in Hi as (t' & _ & ->).
Qed.

Lemma prepare_early request pd ids (w : world R E B X W V) res f' prior :
  prepare x request pd ids (w, locals0) = (Ok (inl res), f') ->
  idem_get (dget (in_metadata (rq_intent request)) "operation_id") (w_idempotency w) = Some prior ->
  id_action_hash prior = ah_value (pc_action_hash (rq_pccb request)) /\ er_payload res = id_result prior.
Proof.
  intros Hp Hg. unfold prepare in Hp. apply M_bind_Ok in Hp as ([] & g1 & Ha & Hp).
  apply M_bind_Ok in Hp as (early & g2 & Hi & Hp). destruct early as [r|]; [|M_inv]. injection Hp as <- <-.
  apply idempotency_early in Hi as (_ & prior' & receipt & Hg' & Hh & -> & _).
  apply (keeps_step (fun g => w_idempotency g.1) _ _ _ _) in Ha;
    [|unfold admit_request, _claim_replay, guard_store; keeps]. simpl in Ha. rewrite Ha in Hg'. simplify_eq. done.
Qed.

Lemma body_Ok request handler pd ids (w : world R E B X W V) res f' :
  execute_body x request handler pd ids (w, locals0) = (Ok res, f') ->
  exists receipt, er_receipt res = Some receipt /\ er_refusal res = None /\ rc_outcome receipt = "executed" /\ recorded res f'.1 /\
    ((exists prior, uses_idempotency x request = true /\ idem_get (dget (in_metadata (rq_intent request)) "operation_id") (w_idempotency w) = Some prior /\
        id_action_hash prior = ah_value (pc_action_hash (rq_pccb request)) /\ er_payload res = id_result prior) \/
     (exists cred h, handler request cred (w_env w) = (Ok (er_payload res), h))).
Proof.
  unfold execute_body. intros ([result|cred] & f1 & Hp & Hb)%M_bind_Ok.
  - injection Hb as <- <-. unfold prepare in Hp. apply M_bind_Ok in Hp as ([] & g1 & Ha & Hp).
    apply M_bind_Ok in Hp as (early & g2 & Hi & Hp). destruct early as [r|]; [|M_inv]. injection Hp as <- <-.
    pose proof (idempotency_recorded _ _ _ _ _ Hi) as Hrec. apply idempotency_early in Hi as (Hu & prior & receipt & Hg & Hh & -> & Ho).
    exists receipt. split_and!; try done. left. exists prior. split_and!; try done. rewrite <- Hg. f_equal. symmetry.
    apply (keeps_step (fun g => w_idempotency g.1) _ _ _ _) in Ha; [exact Ha|]. unfold admit_request, _claim_replay, guard_store. keeps.
  - apply passive_step in Hp as (_ & He & _); [|auto with phases]. simpl in He.
    apply perform_Ok in Hb as (receipt & payload & h & -> & Ho & Hh & Hrec). exists receipt. split_and!; try done. right.
    exists cred, h. by rewrite <- He.
Qed.

Lemma body_keeps_no_effect request handler pd ids : px_effect_protector x = None ->
  keeps (fun f : frame => l_effect_reference f.2) (execute_body x request handler pd ids).
Proof.
  intros Hn. assert (forall c, keeps (fun f : frame => l_effect_reference f.2) (call_handler handler request c)) as Hc.
  { intros c f. unfold call_handler. by destruct (handler _ _ _). }
  assert (keeps (fun f : frame => l_effect_reference f.2) (consume_replay x request)) as Hr.
  { unfold consume_replay, _mark_replay_consumed, guard_store. keeps. }
  assert (keeps (fun f : frame => l_effect_reference f.2) (admit_request x request pd)) as Ha.
  { unfold admit_request, _claim_replay, guard_store. keeps. }
  assert (keeps (fun f : frame => l_effect_reference f.2) (check_idempotency x request ids)) as Hi.
  { unfold check_idempotency, write_receipt. keeps. }
  assert (forall c, keeps (fun f : frame => l_effect_reference f.2) (perform x request handler ids c)) as Hp.
  { intros c. unfold perform, check_evidence, write_receipt. keeps. }
  unfold execute_body, prepare, consume_escrow, claim_the_effect, acquire_credential. rewrite Hn. keeps.
Qed.

(** The effect reference claimed is the one the evidence is checked against. *)
Lemma prepare_effect request pd ids (f f' : frame) cred p :
  prepare x request pd ids f = (Ok (inr cred), f') -> px_effect_protector x = Some p ->
  exists ref, effect_owned p request ref /\ l_effect_reference f'.2 = Some ref.
Proof.
  intros (f1 & f2 & f3 & f4 & f5 & [_ _ _ P4 P5 P6])%prepare_phases Hp.
  destruct (effect_cleared _ _ _ _ P4 Hp) as (ref & Ho & _ & Hl). exists ref. split; [done|].
  apply (keeps_step (fun g => l_effect_reference g.2)) in P5; [|unfold acquire_credential; keeps].
  apply (keeps_step (fun g => l_effect_reference g.2)) in P6; [congruence|].
  unfold consume_replay, _mark_replay_consumed, guard_store. keeps.
Qed.

Lemma perform_evidence request handler ids cred (f f' : frame) res ref :
  perform x request handler ids cred f = (Ok res, f') -> l_effect_reference f.2 = Some ref ->
  exists e, validate_evidence ref (dget (payload_or_empty (er_payload res)) "effect_evidence") = Ok e /\
    is_str (dget e "outcome") "COMMITTED" = true.
Proof.
  unfold perform. intros ([] & f1 & Hs & Hp)%M_bind_Ok Hl. injection Hs as <-.
  apply M_bind_Ok in Hp as (payload & f2 & Hh & Hp). unfold call_handler in Hh.
  destruct (handler request cred _) as [r h]. injection Hh as -> <-.
  apply M_bind_Ok in Hp as (? & f3 & He & Hp). cbv zeta in Hp. apply M_bind_Ok in Hp as (? & f4 & _ & Hp).
  apply M_bind_Ok in Hp as (receipt & f5 & _ & Hp). apply M_bind_Ok in Hp as (l & f6 & _ & Hp).
  apply M_bind_Ok in Hp as (? & f7 & _ & Hp). apply M_bind_Ok in Hp as (? & f8 & _ & Hp). injection Hp as <- <-. simpl.
  unfold check_evidence in He. apply M_bind_Ok in He as (l' & f9 & Hg & He). injection Hg as <- <-. simpl in He. rewrite Hl in He.
  destruct (validate_evidence ref _) as [e|[]]; try done. exists e. split; [done|].
  apply M_bind_Ok in He as ([] & f10 & _ & He). by destruct (is_str (dget e "outcome") "COMMITTED").
Qed.

Lemma execute_moves request handler pd ids (w : world R E B X W V) k :
  rtc ledger_step (rs_status (w_replay w) k) (rs_status (w_replay (execute x request handler pd ids w).2) k).
Proof.
  unfold execute, execute_frame, try_catch. destruct (execute_body x request handler pd ids (w, locals0)) as [r f1] eqn:Hb.
  assert (rtc ledger_step (key_status k ((w, locals0) : frame)) (key_status k f1)) as Hm.
  { unfold execute_body, mbind, M_bind in Hb. destruct (prepare x request pd ids (w, locals0)) as [[[result|cred]|e] f0] eqn:Hp;
      (apply passive_step in Hp as (_ & _ & Hk); [|auto with phases]); [by injection Hb as _ <-| |by injection Hb as _ <-].
    apply perform_call in Hb as (_ & _ & Hk'). etransitivity; [apply Hk|apply Hk']. }
  destruct r as [res|e]; [done|]. destruct (handle_exception x request ids e f1) as [r2 f2] eqn:Hh.
  apply passive_step in Hh as (_ & _ & Hk); [|apply passive_handlers]. etransitivity; [apply Hm|apply Hk].
Qed.
End ExecutorTheorems.

(** ** Sequences of executions

    Executors of any configuration share the replay store; between executions
    other workers move it along the ledger. *)
Section Sequences.
Context `{Protocol} `{ProtocolAuthority} `{ProtocolEffects} `{PyText}.
Context {R E B X W V : Type} `{ReplayStore R} `{CapabilityEscrow E}.

Inductive event :=
| Execute (x : @ProtectedExecutor B X W) (request : ProtectedExecutionRequest) (handler : @BrokeredHandler V)
    (pd : option PolicyDecision) (ids : artifact_ids)
| OtherWorkers (g : R -> R).

Definition run_event (e : event) (w : world R E B X W V) : world R E B X W V :=
  match e with
  | Execute x request handler pd ids => (execute x request handler pd ids w).2
  | OtherWorkers g => mkExecWorld (g (w_replay w)) (w_escrow w) (w_broker w) (w_effects w) (w_idempotency w) (w_writer w) (w_env w) (w_calls w)
  end.

Fixpoint run_events (es : list event) (w : world R E B X W V) : world R E B X W V :=
  match es with [] => w | e :: es => run_events es (run_event e w) end.

(** Replay protection is on and fails closed; the others respect the ledger. *)
Definition single_use_enforced (e : event) : Prop :=
  match e with
  | Execute x _ _ _ _ => px_replay_protector x = true /\ px_fail_open x = false
  | OtherWorkers g => forall s k, rtc ledger_step (rs_status s k) (rs_status (g s) k)
  end.

(** The calls with replay key [k]. *)
Definition calls_of_key (k : string) (calls : list ProtectedExecutionRequest) : nat :=
  length (filter (fun r => request_key r = Ok k) calls).

Lemma calls_of_key_app k l l' : calls_of_key k (l ++ l') = calls_of_key k l + calls_of_key k l'.
Proof. unfold calls_of_key. by rewrite filter_app, length_app. Qed.

Lemma calls_of_key_one k r : calls_of_key k [r] = if decide (request_key r = Ok k) then 1 else 0.
Proof. unfold calls_of_key. rewrite filter_cons. by destruct (decide (request_key r = Ok k)). Qed.

Lemma run_event_moves e w k : single_use_enforced e -> rtc ledger_step (rs_status (w_replay w) k) (rs_status (w_replay (run_event e w)) k).
Proof. destruct e; simpl; intros He; [apply execute_moves|apply He]. Qed.

(** One event: the calls it adds, and the key it consumed if it called. *)
Lemma run_event_calls e w k : single_use_enforced e ->
  exists new, w_calls (run_event e w) = w_calls w ++ new /\
    (calls_of_key k new = 0 \/
     calls_of_key k new = 1 /\ rs_status (w_replay w) k <> Some Consumed /\ rs_status (w_replay (run_event e w)) k = Some Consumed).
Proof.
  destruct e as [x request handler pd ids|g]; simpl; intros He; [|exists []; rewrite app_nil_r; auto].
  destruct (execute x request handler pd ids w) as [r w'] eqn:Hx. simpl.
  apply execute_calls in Hx as [[Hc _]|(cred & Hc & _ & Hcl)].
  - exists []. rewrite app_nil_r. auto.
  - exists [request]. split; [done|]. rewrite calls_of_key_one. case_decide as Hk; [right|by left]. split; [done|].
    destruct He as [Hrp Hfo]. destruct (cleared_replay _ _ _ _ _ Hcl Hrp Hfo) as (k' & Hk' & Hb & Ha).
    rewrite Hk' in Hk. by injection Hk as ->.
Qed.

Lemma no_calls_once_consumed es w k : Forall single_use_enforced es -> rs_status (w_replay w) k = Some Consumed ->
  exists new, w_calls (run_events es w) = w_calls w ++ new /\ calls_of_key k new = 0.
Proof.
  revert w. induction es as [|e es IH]; intros w Hall Hc; simpl; [exists []; by rewrite app_nil_r|].
  apply Forall_cons in Hall as [He Hall]. destruct (run_event_calls e w k He) as (new & Hn & Hcase).
  destruct (IH (run_event e w) Hall) as (new' & Hn' & H0').
  - apply ledger_consumed_final. rewrite <- Hc. by apply run_event_moves.
  - exists (new ++ new'). rewrite Hn', Hn, app_assoc. split; [done|]. rewrite calls_of_key_app, H0'.
    destruct Hcase as [->|(_ & Hn0 & _)]; [done|congruence].
Qed.

Lemma calls_at_most_once es w k : Forall single_use_enforced es ->
  exists new, w_calls (run_events es w) = w_calls w ++ new /\ calls_of_key k new <= 1.
Proof.
  revert w. induction es as [|e es IH]; intros w Hall; simpl; [exists []; rewrite app_nil_r; split; [done|unfold calls_of_key; simpl; lia]|].
  apply Forall_cons in Hall as [He Hall]. destruct (run_event_calls e w k He) as (new & Hn & Hcase).
  destruct Hcase as [H0'|(H1' & _ & Hc)].
  - destruct (IH (run_event e w) Hall) as (new' & Hn' & Hle). exists (new ++ new'). rewrite Hn', Hn, app_assoc, calls_of_key_app. split; [done|lia].
  - destruct (no_calls_once_consumed es (run_event e w) k Hall Hc) as (new' & Hn' & H0'). exists (new ++ new').
    rewrite Hn', Hn, app_assoc, calls_of_key_app. split; [done|lia].
Qed.
End Sequences.

(** ** Properties *)
Section Properties.
Context `{Protocol} `{ProtocolAuthority} `{ProtocolEffects} `{PyText}.
Context {R E B X W V : Type} `{ReplayStore R} `{CapabilityEscrow E}.

(** The request's operation has a recorded result. *)
Definition recorded_before (request : ProtectedExecutionRequest) (w : world R E B X W V) (prior : idem_record) : Prop :=
  idem_get (dget (in_metadata (rq_intent request)) "operation_id") (w_idempotency w) = Some prior.

(** This attempt owns the effect its proof names, and the result carries valid
    evidence for it with the outcome COMMITTED. *)
Definition committed_effect (p : EffectProtector X) (request : ProtectedExecutionRequest) (res : ExecutionResult) : Prop :=
  exists ref e, effect_owned p request ref /\
    validate_evidence ref (dget (payload_or_empty (er_payload res)) "effect_evidence") = Ok e /\
    dget e "outcome" = JStr "COMMITTED".

(** C1: complete mediation: an execution either leaves the handler uncalled and
    its environment as it was, or calls it exactly once, on a request whose proof
    verified, whose policy decision allows, whose effect (if the edge protects
    effects) this attempt owns and has claimed, whose escrow (if attached) it
    consumed, and, when replay protection fails closed, whose replay key was not
    consumed before and is consumed by this execution. *)
Theorem handler_gated (x : @ProtectedExecutor B X W) (request : ProtectedExecutionRequest) (handler : @BrokeredHandler V)
    (pd : option PolicyDecision) (ids : artifact_ids) (w : world R E B X W V) :
  let w' := (execute x request handler pd ids w).2 in
  (w_calls w' = w_calls w /\ w_env w' = w_env w) \/
  (exists cred, w_calls w' = w_calls w ++ [request] /\ w_env w' = (handler request cred (w_env w)).2 /\ cleared x request pd w w').
Proof. cbv zeta. destruct (execute x request handler pd ids w) as [r w'] eqn:He. by eapply execute_calls. Qed.

(** C2: single use: along any sequence of executions, by executors of any
    configuration whose replay protection fails closed, interleaved with any moves
    of other workers on the shared store, the handler is called at most once per
    replay key. *)
Theorem handler_at_most_once (k : string) (es : list (@event R B X W V)) (w : world R E B X W V) :
  Forall single_use_enforced es ->
  exists new, w_calls (run_events es w) = w_calls w ++ new /\ calls_of_key k new <= 1.
Proof. apply calls_at_most_once. Qed.

(** C16: the executor always answers: for a describable request, an executor
    without effect protection whose writer records what it is given returns a
    result, never an exception, whatever the verifier, stores, broker and handler
    raise, and the receipt it returns is the last artifact written. *)
Theorem execution_always_recorded (x : @ProtectedExecutor B X W) (request : ProtectedExecutionRequest) (handler : @BrokeredHandler V)
    (pd : option PolicyDecision) (ids : artifact_ids) (w : world R E B X W V) :
  writer_records x -> describable (rq_intent request) = true -> px_effect_protector x = None ->
  exists res w', execute x request handler pd ids w = (Ok res, w') /\ recorded x res w'.
Proof.
  intros Hw Hd Hn. unfold execute, execute_frame, try_catch.
  destruct (execute_body x request handler pd ids (w, locals0)) as [[res|e] f] eqn:Hb.
  - exists res, f.1. split; [done|]. by apply body_Ok in Hb as (? & _ & _ & _ & ? & _).
  - apply (keeps_step _ _ _ _ _ (body_keeps_no_effect x request handler pd ids Hn)) in Hb.
    destruct (handle_total x request ids e f Hw Hd Hb) as (res & f' & -> & Hr). by exists res, f'.1.
Qed.

(** What a returned result says happened. *)
Lemma execute_result (x : @ProtectedExecutor B X W) (request : ProtectedExecutionRequest) (handler : @BrokeredHandler V)
    (pd : option PolicyDecision) (ids : artifact_ids) (w w' : world R E B X W V) (res : ExecutionResult) :
  execute x request handler pd ids w = (Ok res, w') ->
  exists receipt, er_receipt res = Some receipt /\
  match er_refusal res with
  | Some _ => rc_outcome receipt = "refused" /\ er_payload res = None
  | None => rc_outcome receipt = "executed" /\
      ((exists prior, uses_idempotency x request = true /\ recorded_before request w prior /\
          id_action_hash prior = ah_value (pc_action_hash (rq_pccb request)) /\ er_payload res = id_result prior) \/
       (exists cred h, handler request cred (w_env w) = (Ok (er_payload res), h)))
  end.
Proof.
  unfold execute, execute_frame, try_catch. destruct (execute_body x request handler pd ids (w, locals0)) as [[r|e] f] eqn:Hb.
  - intros [= <- <-]. apply body_Ok in Hb as (receipt & Hr & Hn & Ho & _ & Hcase). exists receipt. by rewrite Hn.
  - destruct (handle_exception x request ids e f) as [r f'] eqn:Hh. intros [= -> <-].
    apply handle_refused in Hh as (receipt & refusal & -> & Ho). by exists receipt.
Qed.

(** Without a recorded operation, a result without a refusal means the handler was called. *)
Lemma execute_called (x : @ProtectedExecutor B X W) (request : ProtectedExecutionRequest) (handler : @BrokeredHandler V)
    (pd : option PolicyDecision) (ids : artifact_ids) (w w' : world R E B X W V) (res : ExecutionResult) :
  execute x request handler pd ids w = (Ok res, w') -> er_refusal res = None -> uses_idempotency x request = false -> w_calls w' <> w_calls w.
Proof.
  unfold execute, execute_frame, try_catch. destruct (execute_body x request handler pd ids (w, locals0)) as [[r|e] f] eqn:Hb.
  - intros [= <- <-] _ Hu. unfold execute_body in Hb. apply M_bind_Ok in Hb as ([early|cred] & f1 & Hp & Hb).
    + exfalso. unfold prepare in Hp. apply M_bind_Ok in Hp as ([] & g1 & _ & Hp). apply M_bind_Ok in Hp as (ea & g2 & Hi & Hp).
      destruct ea as [r'|]; [|M_inv]. apply idempotency_early in Hi as (Hu' & _). congruence.
    + apply passive_step in Hp as (Hc & _); [|auto with phases]. apply perform_call in Hb as (Hc2 & _). rewrite Hc2, Hc. simpl.
      intros Hl%(f_equal length). rewrite length_app in Hl. simpl in Hl. lia.
  - destruct (handle_exception x request ids e f) as [r f'] eqn:Hh. intros [= -> <-] Hn.
    apply handle_refused in Hh as (receipt & refusal & -> & Ho). done.
Qed.

(** The result is honest: a result without a refusal has an "executed"
    receipt and the payload the handler returned, or the recorded payload of the
    same operation and action hash; a result with a refusal has a "refused"
    receipt and no payload. *)
Theorem result_matches_outcome (x : @ProtectedExecutor B X W) (request : ProtectedExecutionRequest) (handler : @BrokeredHandler V)
    (pd : option PolicyDecision) (ids : artifact_ids) (w w' : world R E B X W V) (res : ExecutionResult) :
  execute x request handler pd ids w = (Ok res, w') ->
  exists receipt, er_receipt res = Some receipt /\
  match er_refusal res with
  | Some _ => rc_outcome receipt = "refused" /\ er_payload res = None
  | None => rc_outcome receipt = "executed" /\
      ((exists prior, recorded_before request w prior /\
          id_action_hash prior = ah_value (pc_action_hash (rq_pccb request)) /\ er_payload res = id_result prior) \/
       (exists cred h, handler request cred (w_env w) = (Ok (er_payload res), h)))
  end.
Proof.
  intros (receipt & Hr & Hcase)%execute_result. exists receipt. split; [done|]. destruct (er_refusal res); [done|].
  destruct Hcase as [Ho [(prior & _ & Hp)|Hh]]; split; [done|left; by exists prior|done|by right].
Qed.


(** C39: an effect is reported executed only when it was committed: with effect
    protection, a result without a refusal means that this attempt owns the signed
    effect reference and that the handler's payload carries valid evidence for
    that very reference with the outcome COMMITTED. *)
Theorem executed_effect_committed (x : @ProtectedExecutor B X W) (request : ProtectedExecutionRequest) (handler : @BrokeredHandler V)
    (pd : option PolicyDecision) (ids : artifact_ids) (w w' : world R E B X W V) (res : ExecutionResult) (p : EffectProtector X) :
  execute x request handler pd ids w = (Ok res, w') -> px_effect_protector x = Some p -> er_refusal res = None ->
  committed_effect p request res.
Proof.
  intros He Hp Hn. unfold execute, execute_frame, try_catch in He.
  destruct (execute_body x request handler pd ids (w, locals0)) as [[r|e] f] eqn:Hb.
  - injection He as -> <-. unfold execute_body in Hb. apply M_bind_Ok in Hb as ([early|cred] & f1 & Hprep & Hb).
    + unfold prepare, check_idempotency, uses_idempotency in Hprep. rewrite Hp, andb_false_r in Hprep. M_inv. M_inv.
    + destruct (prepare_effect _ _ _ _ _ _ _ _ Hprep Hp) as (ref & Ho & Hl).
      destruct (perform_evidence _ _ _ _ _ _ _ _ _ Hb Hl) as (e & Hv & Hc). exists ref, e. split_and!; [done..|].
      destruct (dget e "outcome"); try done. simpl in Hc. f_equal. by apply String.eqb_eq.
  - destruct (handle_exception x request ids e f) as [r f'] eqn:Hh. injection He as -> <-.
    apply handle_refused in Hh as (? & ? & -> & _). done.
Qed.
End Properties.

(** None of the replay overrides is set. *)
Definition no_unsafe_override (env : environment) : Prop :=
  Forall (fun v => _truthy (getenv env v) = false)
    [UNSAFE_ALLOW_REPLAY_DISABLED_ENV; UNSAFE_ALLOW_REPLAY_FAIL_OPEN_ENV; UNSAFE_ALLOW_PROCESS_LOCAL_REPLAY_ENV].

(** An executor that can be built outside development and without an unsafe
    override enforces single use: its replay protection is on and fails closed, it
    records no downgrade, and its store is the one supplied or a configured
    durable one; the same holds of every executor that records no downgrade. *)
Theorem executor_construction_safe (env : environment) (replay_protection replay_store_failure : string)
    (replay_protector : bool) (posture : replay_posture) :
  ProtectedExecutor_post_init env replay_protection replay_store_failure replay_protector = Ok posture ->
  (~ has_development_intent env -> no_unsafe_override env -> rp_security_downgrades posture = []) /\
  (rp_security_downgrades posture = [] ->
   rp_protector posture = true /\ rp_fail_open posture = false /\
   (rp_default_store posture = true -> replay_db_configured env = true)).
Proof.
  rewrite <- development_intent_spec. unfold ProtectedExecutor_post_init, default_replay_store_downgrades,
    permit_process_local_replay, permit_downgrade. rewrite orb_false_r.
  intros Hp. split.
  - intros Hd HF. apply not_true_is_false in Hd. rewrite Hd in Hp. apply Forall_cons in HF as [F1 HF].
    apply Forall_cons in HF as [F2 HF]. apply Forall_cons in HF as [F3 _]. rewrite F1, F2, F3 in Hp. clear Hd F1 F2 F3.
    destruct (negb (str_mem replay_protection _)); [done|]. destruct (negb (str_mem replay_store_failure _)); [done|].
    destruct (String.eqb replay_protection _), replay_protector; try done.
    + destruct (negb _); done.
    + destruct (String.eqb _ _); [done|]. by injection Hp as <-.
    + destruct (String.eqb _ _); [done|]. destruct (replay_db_configured env); [|done]. by injection Hp as <-.
  - destruct (negb (str_mem replay_protection _)); [done|]. destruct (negb (str_mem replay_store_failure _)); [done|].
    destruct (String.eqb replay_protection _), replay_protector; try done.
    + destruct (negb _); [done|]. apply bind_Ok in Hp as (? & _ & Hp). by injection Hp as <-.
    + apply bind_Ok in Hp as (d & Hd & Hp). injection Hp as <-. simpl. destruct (String.eqb _ _); [|done].
      apply bind_Ok in Hd as (? & _ & Hd). by injection Hd as <-.
    + apply bind_Ok in Hp as (d & Hd & Hp). apply bind_Ok in Hp as (d' & Hd' & Hp). injection Hp as <-. simpl.
      destruct (String.eqb _ _); [apply bind_Ok in Hd as (? & _ & Hd); by injection Hd as <-|].
      injection Hd as <-. simpl. intros ->. split_and!; [done..|intros _]. destruct (replay_db_configured env); [done|].
      apply bind_Ok in Hd' as (? & _ & Hd'). by injection Hd'.
Qed.

Definition production_env : environment := mkEnvironment [("ACTENON_ENV", "production"); ("ACTENON_REPLAY_DB", "/var/lib/replay.db")] None.

Lemma executor_construction_safe_witness :
  ProtectedExecutor_post_init production_env "default" "fail_closed" false = Ok (mkPosture true false true []) /\
  (rp_security_downgrades (mkPosture true false true []) = [] -> rp_protector (mkPosture true false true []) = true).
Proof.
  split; [reflexivity|]. intros Hd.
  destruct (executor_construction_safe production_env "default" "fail_closed" false (mkPosture true false true []) eq_refl) as [_ Hs].
  exact (proj1 (Hs Hd)).
Defined.

(** ** Samples *)
Definition sample_effects : ProtocolEffects := {|
  EFFECT_PROFILE := "actenon.effect.v1";
  effect_identity _ := Ok "effect_0";
  validate_effect_outcome _ _ _ := Ok tt;
  capability_error_is_value_error := true
|}.

(** [InMemoryOutcomeWriter] without stores: two lists. *)
Definition sample_writer : OutcomeWriter (list Receipt * list Refusal) :=
  mkWriter _ (fun r => modify (fun s => (s.1 ++ [r], s.2))) (fun r => modify (fun s => (s.1, s.2 ++ [r]))).

Definition sample_executor : @ProtectedExecutor broker_state unit (list Receipt * list Refusal) :=
  mkExecutor (sample_verifier TRUSTED_DETAILED) (InMemoryCredentialBroker sample_broker) true true sample_writer false true None.

Definition sample_request : ProtectedExecutionRequest := mkRequest sample_intent sample_pccb sample_context.

(** A handler that counts its calls. *)
Definition sample_handler : @BrokeredHandler nat := fun _ _ n => (Ok (Some [("external_reference", JStr "re_1")]), S n).

Definition sample_ids : artifact_ids := mkIds "rcpt_1" "rfsl_1" "rcpt_2".

Definition sample_escrows : Memory.records :=
  (Memory.issue "esc_1" "pccb_1" "payments.refund" (sample_now + 600000000)%Z [] ∅).2.

Definition sample_world : world store Memory.records broker_state unit (list Receipt * list Refusal) nat :=
  mkExecWorld sample_store sample_escrows (mkBrokerState 0 [] []) tt [] ([], []) 0 [].

Definition sample_run : py ExecutionResult * world store Memory.records broker_state unit (list Receipt * list Refusal) nat :=
  @execute demo_protocol sample_authority sample_effects demo_text _ _ _ _ _ _ database_store memory_escrow
    sample_executor sample_request sample_handler (Some sample_decision) sample_ids sample_world.

(** The sample request runs: the handler is called once and a second attempt with
    the same proof is a duplicate. *)
Example sample_run_executes : w_env sample_run.2 = 1 /\ is_ok sample_run.1 = true.
Proof. vm_compute. split; reflexivity. Qed.

(** The sample executor, with every parameter instantiated. *)
Definition sample_execute (request : ProtectedExecutionRequest) :=
  @execute demo_protocol sample_authority sample_effects demo_text _ _ _ _ _ _ database_store memory_escrow
    sample_executor request sample_handler (Some sample_decision) sample_ids.

Definition sample_events : list (@event store broker_state unit (list Receipt * list Refusal) nat) :=
  [Execute sample_executor sample_request sample_handler None sample_ids;
   OtherWorkers id;
   Execute sample_executor sample_request sample_handler None sample_ids].

Definition sample_run_events :=
  @run_events demo_protocol sample_authority sample_effects demo_text _ Memory.records _ _ _ _ database_store memory_escrow
    sample_events sample_world.

Lemma handler_at_most_once_witness :
  w_calls sample_run_events = [sample_request] /\
  exists new, w_calls sample_run_events = w_calls sample_world ++ new /\
    @calls_of_key demo_protocol "rpk_x" new <= 1.
Proof.
  split; [vm_compute; reflexivity|].
  apply (@handler_at_most_once demo_protocol sample_authority sample_effects demo_text store Memory.records _ _ _ _
    database_store memory_escrow "rpk_x" sample_events sample_world).
  repeat constructor.
Defined.

Lemma execution_always_recorded_witness :
  exists res w', sample_execute sample_request sample_world = (Ok res, w') /\ recorded sample_executor res w'.
Proof.
  refine (@execution_always_recorded demo_protocol sample_authority sample_effects demo_text _ _ _ _ _ _ database_store memory_escrow
    sample_executor sample_request sample_handler (Some sample_decision) sample_ids sample_world _ _ _); [|reflexivity|reflexivity].
  split; intros; reflexivity.
Defined.

Lemma sample_run_ok : is_ok (sample_execute sample_request sample_world).1 = true.
Proof. vm_compute. reflexivity. Qed.

Lemma result_matches_outcome_witness :
  exists res receipt, (sample_execute sample_request sample_world).1 = Ok res /\ er_receipt res = Some receipt.
Proof.
  pose proof sample_run_ok as Hok. destruct (sample_execute sample_request sample_world) as [[res|e] w'] eqn:He; [|discriminate Hok].
  destruct (@result_matches_outcome demo_protocol sample_authority sample_effects demo_text _ _ _ _ _ _ database_store memory_escrow
    sample_executor sample_request sample_handler (Some sample_decision) sample_ids sample_world w' res He)
    as (receipt & Hr & _). exists res, receipt. split; [reflexivity|exact Hr].
Defined.

(** A retry of a recorded operation, with a fresh proof. *)
Definition retry_intent : ActionIntent :=
  mkActionIntent "intent_1" sample_now (sample_now + 600000000)%Z sample_tenant sample_agent sample_action
    sample_target (JStr "idem-1") JNull [] [mkEvidenceRef "ticket" "T-9" []] [("operation_id", JStr "op-1")] [].
Definition retry_request : ProtectedExecutionRequest := mkRequest retry_intent sample_pccb sample_context.
Definition retry_world : world store Memory.records broker_state unit (list Receipt * list Refusal) nat :=
  mkExecWorld sample_store sample_escrows (mkBrokerState 0 [] []) tt
    [(JStr "op-1", mkIdem (ah_value (pc_action_hash sample_pccb)) (Some []))] ([], []) 7 [].


(** The retry succeeds and returns the recorded payload. *)
Example retry_returns_prior :
  match (sample_execute retry_request retry_world).1 with Ok r => er_refusal r = None /\ er_payload r = Some [] | Err _ => False end.
Proof. vm_compute. split; reflexivity. Qed.

(** An edge that protects effects: the proof carries the reference of the effect
    and the ledger (a flag) grants it once. *)
Definition zeros (n : nat) : string := String.concat "" (repeat "0" n).
Definition effect_reference_json : dict :=
  [("profile", JStr "actenon.effect.v1"); ("effect_id", JStr ("effect_" +:+ zeros 64));
   ("reservation_id", JStr ("reservation_" +:+ zeros 32)); ("owner_attempt_id", JStr ("exec_" +:+ zeros 16))].

Definition granting_effects : ProtocolEffects := {|
  EFFECT_PROFILE := "actenon.effect.v1";
  effect_identity _ := Ok ("effect_" +:+ zeros 64);
  validate_effect_outcome _ _ _ := Ok tt;
  capability_error_is_value_error := true
|}.

Definition effect_intent : ActionIntent :=
  mkActionIntent ("exec_" +:+ zeros 16) sample_now (sample_now + 600000000)%Z sample_tenant sample_agent sample_action
    sample_target JNull JNull [] [] [] [].

Definition effect_pccb : PCCB :=
  Eval vm_compute in
  match @mint demo_protocol sample_authority sample_minter "pccb_2" "nonce-2" effect_intent sample_decision sample_context (JStr "esc_1")
          [("effect", JDict effect_reference_json);
           ("authority", JDict [("issuer", JStr "service:actenon"); ("revocable", JBool false)])] with
  | Ok p => p
  | Err _ => sample_pccb
  end.

Definition effect_protector : EffectProtector bool :=
  mkEffectProtector _ "payments" (fun _ _ free => (Ok (JBool free), false)) None.

Definition effect_executor : @ProtectedExecutor broker_state bool (list Receipt * list Refusal) :=
  mkExecutor (sample_verifier TRUSTED_DETAILED) (InMemoryCredentialBroker sample_broker) true false sample_writer false false
    (Some effect_protector).

Definition committing_handler : @BrokeredHandler nat := fun _ _ n =>
  (Ok (Some [("effect_evidence", JDict (effect_reference_json ++
     [("outcome", JStr "COMMITTED"); ("execution_occurred", JBool true); ("evidence_hash", JStr "h")]))]), S n).

Definition effect_request : ProtectedExecutionRequest := mkRequest effect_intent effect_pccb sample_context.
Definition effect_world : world store Memory.records broker_state bool (list Receipt * list Refusal) nat :=
  mkExecWorld sample_store ∅ (mkBrokerState 0 [] []) true [] ([], []) 0 [].

Definition effect_execute :=
  @execute demo_protocol sample_authority granting_effects demo_text _ _ _ _ _ _ database_store memory_escrow
    effect_executor effect_request committing_handler None sample_ids effect_world.

Lemma effect_run_ok : match effect_execute.1 with Ok res => er_refusal res = None | Err _ => False end.
Proof. vm_compute. reflexivity. Qed.

Lemma executed_effect_committed_witness :
  exists ref, @effect_owned demo_protocol sample_authority granting_effects _ effect_protector effect_request ref.
Proof.
  pose proof effect_run_ok as Hok. destruct effect_execute as [[res|e] w'] eqn:He; [|destruct Hok].
  destruct (@executed_effect_committed demo_protocol sample_authority granting_effects demo_text _ _ _ _ _ _ database_store memory_escrow
    effect_executor effect_request committing_handler None sample_ids effect_world w' res effect_protector
    He eq_refl Hok) as (ref & e & Ho & _). exists ref. exact Ho.
Defined.
