(* ===== verification/Writers.v ===== *)
(** * Execution anchors and outcome writers: [execution_graph.py], [receipts/writers.py]

    The anchors an outcome is published under, and the writers that keep receipts
    and refusals: in memory, as files, and several at once.  The graph client and
    the file system act on states of their own; the proof store is its lookup,
    which may raise.

    The theorems: a writer records every artifact it is given before anything
    else can fail, what the graph client does never changes the record or the
    result, and every published anchor names the recorded artifact and the proof
    it is correlated with by their digests. *)

From S2P Require Import Prelude Text Json Errors Timestamps Canonical Contracts Runtime Samples ProofService Receipts Artifacts Idempotency Credentials Effects Replay ReplayStore Escrow SecurityPosture Executor.

Section Anchors.
Context `{Protocol}.

(** ** [execution_graph.py] *)

(** [_normalize_metadata(metadata)]; the keys of a JSON object are strings. *)
Fixpoint check_anchor_metadata (d : dict) : py unit :=
  match d with
  | [] => Ok tt
  | (k, v) :: d =>
      if negb (str_truthy k) then Err (ValueError "execution anchor metadata keys must be non-empty strings")
      else match v with
           | JList _ | JDict _ => Err (ValueError "execution anchor metadata value must be a JSON scalar")
           | _ => check_anchor_metadata d
           end
  end.

Definition _normalize_metadata (metadata : option dict) : py dict :=
  match metadata with
  | None => Ok []
  | Some d => _ ← check_anchor_metadata d; Ok d
  end.

(** The checks on the correlation, shared by both builders; [what] is the artifact. *)
Definition check_correlation (what : string) (correlation : option CorrelationRef) (pccb : PCCB) : py unit :=
  match correlation with
  | None => Err (ValueError (what +:+ " must include a correlated pccb_id"))
  | Some c =>
      match cor_pccb_id c with
      | JNull => Err (ValueError (what +:+ " must include a correlated pccb_id"))
      | id =>
          if negb (py_eqb id (JStr (pc_pccb_id pccb)))
          then Err (ValueError (what +:+ " correlation pccb_id does not match the supplied PCCB"))
          else match cor_action_hash c with
               | Some h => if bool_decide (h = pc_action_hash pccb) then Ok tt
                           else Err (ValueError (what +:+ " correlation action_hash does not match the supplied PCCB"))
               | None => Ok tt
               end
      end
  end.

(** [published_at or utc_now()] is the argument [published_at]. *)
Definition create_execution_anchor_from_receipt (receipt : Receipt) (pccb : PCCB) (published_at : datetime) (metadata : option dict)
    : py ExecutionAnchor :=
  if negb (String.eqb (rc_outcome receipt) "executed")
  then Err (ValueError "only executed receipts can produce a receipt-based execution anchor")
  else
    _ ← check_correlation "receipt" (rc_correlation receipt) pccb;
    pccb_digest ← build_artifact_digest (PCCB_to_dict pccb);
    receipt_digest ← build_artifact_digest (Receipt_to_dict receipt);
    m ← _normalize_metadata metadata;
    ExecutionAnchor_post_init
      (mkExecutionAnchor published_at "executed" (pc_action_hash pccb) pccb_digest (Some receipt_digest) None m).

Definition create_execution_anchor_from_refusal (refusal : Refusal) (pccb : PCCB) (published_at : datetime) (metadata : option dict)
    : py ExecutionAnchor :=
  _ ← check_correlation "refusal" (rf_correlation refusal) pccb;
  pccb_digest ← build_artifact_digest (PCCB_to_dict pccb);
  refusal_digest ← build_artifact_digest (Refusal_to_dict refusal);
  m ← _normalize_metadata metadata;
  ExecutionAnchor_post_init
    (mkExecutionAnchor published_at "refused" (pc_action_hash pccb) pccb_digest None (Some refusal_digest) m).

Definition build_execution_anchor_hash (anchor : ExecutionAnchor) : py string := sha256_artifact_hex (ExecutionAnchor_to_dict anchor).

(** ** [receipts/writers.py] *)

(** [store.get(key)] with a key of any type: only strings are keys of the store. *)
Definition get_by_key {A} (get : string -> py (option A)) (key : json) : py (option A) :=
  match key with
  | JStr s => get s
  | JList _ | JDict _ => Err (TypeError "unhashable type")
  | _ => Ok None
  end.

(** *** [CompositeOutcomeWriter] *)
Section Composite.
Context {W : Type}.
Fixpoint write_each {A} (write : OutcomeWriter W -> A -> M exn W unit) (writers : list (OutcomeWriter W)) (a : A) : M exn W unit :=
  match writers with
  | [] => mret tt
  | writer :: writers => _ ← write writer a; write_each write writers a
  end.

Definition CompositeOutcomeWriter (writers : list (OutcomeWriter W)) : OutcomeWriter W :=
  mkWriter W (write_each ow_write_receipt writers) (write_each ow_write_refusal writers).
End Composite.

Section Writers.
Context {G : Type}.

(** A graph client with its state, the proof store, and the clock the anchors are
    stamped with. *)
Record publication := mkPublication {
  pb_publish : option (ExecutionAnchor -> M exn G unit);
  pb_get_pccb : option (string -> py (option PCCB));
  pb_utc_now : datetime
}.

(** [correlation is not None and correlation.pccb_id is not None], and the store's
    answer for it. *)
Definition correlated_pccb (get : string -> py (option PCCB)) (correlation : option CorrelationRef) : py (option PCCB) :=
  match correlation with
  | None => Ok None
  | Some c => match cor_pccb_id c with JNull => Ok None | id => get_by_key get id end
  end.

(** The tail of both methods of both writers: look the proof up, build the anchor
    and publish it; an exception of the last two is logged. *)
Definition publish_anchor (p : publication) (applies : bool) (correlation : option CorrelationRef) (anchor_for : PCCB -> py ExecutionAnchor)
    : M exn G unit :=
  match pb_publish p, pb_get_pccb p with
  | Some publish, Some get_pccb =>
      if negb applies then mret tt
      else
        pccb ← lift (correlated_pccb get_pccb correlation);
        match pccb with
        | None => mret tt
        | Some pccb =>
            try_catch (anchor ← lift (anchor_for pccb); publish anchor) (fun _ => mret tt)
        end
  | _, _ => mret tt
  end.

Definition publish_receipt (p : publication) (receipt : Receipt) : M exn G unit :=
  publish_anchor p (String.eqb (rc_outcome receipt) "executed") (rc_correlation receipt)
    (fun pccb => create_execution_anchor_from_receipt receipt pccb (pb_utc_now p) None).

Definition publish_refusal (p : publication) (refusal : Refusal) : M exn G unit :=
  publish_anchor p true (rf_correlation refusal)
    (fun pccb => create_execution_anchor_from_refusal refusal pccb (pb_utc_now p) None).

(** *** [InMemoryOutcomeWriter] *)
Record memory_writer := mkMemoryWriter {
  mw_receipts : list Receipt;
  mw_refusals : list Refusal;
  mw_receipt_store : option (@artifact_store Receipt);
  mw_refusal_store : option (@artifact_store Refusal);
  mw_graph : G
}.

Definition mw_graph_lens : lens memory_writer G :=
  mkLens _ _ mw_graph (fun g w => mkMemoryWriter (mw_receipts w) (mw_refusals w) (mw_receipt_store w) (mw_refusal_store w) g).

Definition record_receipt (receipt : Receipt) (w : memory_writer) : memory_writer :=
  mkMemoryWriter (mw_receipts w ++ [receipt]) (mw_refusals w) (put_receipt receipt <$> mw_receipt_store w) (mw_refusal_store w) (mw_graph w).
Definition record_refusal (refusal : Refusal) (w : memory_writer) : memory_writer :=
  mkMemoryWriter (mw_receipts w) (mw_refusals w ++ [refusal]) (mw_receipt_store w) (put_refusal refusal <$> mw_refusal_store w) (mw_graph w).

Definition InMemoryOutcomeWriter (p : publication) : OutcomeWriter memory_writer :=
  mkWriter memory_writer
    (fun receipt => _ ← modify (record_receipt receipt); zoom mw_graph_lens (publish_receipt p receipt))
    (fun refusal => _ ← modify (record_refusal refusal); zoom mw_graph_lens (publish_refusal p refusal)).

(** *** [JsonArtifactOutcomeWriter]

    The file system is a parameter: writing a text to a path of the artifact root,
    which may raise; so is the indented, key-sorted [json.dumps]. *)
Context {F : Type} (write_text : string -> string -> M exn F unit) (dumps : dict -> string).

Record file_writer := mkFileWriter { fw_files : F; fw_graph : G }.
Definition fw_files_lens : lens file_writer F := mkLens _ _ fw_files (fun f w => mkFileWriter f (fw_graph w)).
Definition fw_graph_lens : lens file_writer G := mkLens _ _ fw_graph (fun g w => mkFileWriter (fw_files w) g).

Definition newline : string := String (Ascii.ascii_of_N 10) "".

Definition JsonArtifactOutcomeWriter (p : publication) : OutcomeWriter file_writer :=
  mkWriter file_writer
    (fun receipt =>
      _ ← zoom fw_files_lens (write_text ("receipts/" +:+ rc_receipt_id receipt +:+ ".json") (dumps (Receipt_to_dict receipt) +:+ newline));
      zoom fw_graph_lens (publish_receipt p receipt))
    (fun refusal =>
      _ ← zoom fw_files_lens (write_text ("refusals/" +:+ rf_refusal_id refusal +:+ ".json") (dumps (Refusal_to_dict refusal) +:+ newline));
      zoom fw_graph_lens (publish_refusal p refusal)).
End Writers.
End Anchors.

(** ** Facts *)
Section Facts.
Context `{Protocol} {G : Type}.

(** What a publication did to the graph client's state. *)
Definition published (p : @publication G) (correlation : option CorrelationRef) (anchor_for : PCCB -> py ExecutionAnchor) (g g' : G) : Prop :=
  g' = g \/
  exists publish get pccb anchor, pb_publish p = Some publish /\ pb_get_pccb p = Some get /\
    correlated_pccb get correlation = Ok (Some pccb) /\ anchor_for pccb = Ok anchor /\ g' = (publish anchor g).2.

(** The only exception a publication lets through is the proof store's. *)
Definition lookup_raised (p : @publication G) (correlation : option CorrelationRef) (e : exn) : Prop :=
  exists get, pb_get_pccb p = Some get /\ correlated_pccb get correlation = Err e.

Lemma publish_anchor_spec p applies correlation anchor_for g :
  let '(r, g') := publish_anchor p applies correlation anchor_for g in
  published p correlation anchor_for g g' /\ (r = Ok tt \/ exists e, r = Err e /\ lookup_raised p correlation e).
Proof.
  unfold publish_anchor, published, lookup_raised.
  destruct (pb_publish p) as [publish|] eqn:Hp; [|by split; left]. destruct (pb_get_pccb p) as [get|] eqn:Hg; [|by split; left].
  destruct applies; simpl; [|by split; left]. unfold mbind, M_bind, lift.
  destruct (correlated_pccb get correlation) as [[pccb|]|e] eqn:Hc; [|by split; left|by split; [left|right; eauto]].
  unfold try_catch. destruct (anchor_for pccb) as [anchor|e] eqn:Ha; [|by split; left].
  destruct (publish anchor g) as [[[]|e] g'] eqn:Hpub; (split; [right|by left]); exists publish, get, pccb, anchor; by rewrite Hpub.
Qed.

(** The artifact and the proof an anchor commits to. *)
Record anchors (a : ExecutionAnchor) (pccb : PCCB) (correlation : option CorrelationRef) (outcome : string) (artifact : dict) : Prop := {
  an_outcome : ea_outcome a = outcome;
  an_action : ea_action_hash a = pc_action_hash pccb;
  an_pccb : build_artifact_digest (PCCB_to_dict pccb) = Ok (ea_pccb_digest a);
  an_artifact : exists d, build_artifact_digest artifact = Ok d /\
    (ea_receipt_digest a, ea_refusal_digest a) = (if String.eqb outcome "executed" then (Some d, None) else (None, Some d));
  an_correlation : exists c, correlation = Some c /\ cor_pccb_id c = JStr (pc_pccb_id pccb) /\
    (cor_action_hash c = None \/ cor_action_hash c = Some (pc_action_hash pccb))
}.

Lemma check_correlation_Ok what correlation pccb : check_correlation what correlation pccb = Ok tt ->
  exists c, correlation = Some c /\ cor_pccb_id c = JStr (pc_pccb_id pccb) /\
    (cor_action_hash c = None \/ cor_action_hash c = Some (pc_action_hash pccb)).
Proof.
  unfold check_correlation. destruct correlation as [c|]; [|done]. intros Hc. exists c. split; [done|].
  assert (cor_pccb_id c = JStr (pc_pccb_id pccb)) as Hid.
  { apply py_eqb_str_r. destruct (py_eqb (cor_pccb_id c) (JStr (pc_pccb_id pccb))) eqn:He; [done|].
    destruct (cor_pccb_id c); [discriminate Hc|..]; rewrite He in Hc; discriminate Hc. }
  split; [done|]. rewrite Hid in Hc. cbn [py_eqb] in Hc. rewrite String.eqb_refl in Hc. cbn [negb] in Hc.
  destruct (cor_action_hash c) as [h|]; [|by left]. case_bool_decide as Hb; [|done]. right. by rewrite Hb.
Qed.

Lemma post_init_same a a' : ExecutionAnchor_post_init a = Ok a' -> a' = a.
Proof. unfold ExecutionAnchor_post_init. intros Hp. repeat (case_match; [discriminate Hp|]). apply bind_Ok in Hp as (? & _ & Hp). congruence. Qed.

Lemma receipt_anchor_sound receipt pccb t m a : create_execution_anchor_from_receipt receipt pccb t m = Ok a ->
  rc_outcome receipt = "executed" /\ anchors a pccb (rc_correlation receipt) "executed" (Receipt_to_dict receipt).
Proof.
  unfold create_execution_anchor_from_receipt. destruct (String.eqb_spec (rc_outcome receipt) "executed") as [Ho|]; [|done]. simpl negb. cbn iota.
  intros ([] & Hc & Ha)%bind_Ok. apply bind_Ok in Ha as (pd & Hpd & Ha). apply bind_Ok in Ha as (rd & Hrd & Ha).
  apply bind_Ok in Ha as (md & _ & Ha). apply post_init_same in Ha as ->. split; [done|].
  constructor; [done|done|done|by exists rd|by eapply check_correlation_Ok].
Qed.

Lemma refusal_anchor_sound refusal pccb t m a : create_execution_anchor_from_refusal refusal pccb t m = Ok a ->
  anchors a pccb (rf_correlation refusal) "refused" (Refusal_to_dict refusal).
Proof.
  unfold create_execution_anchor_from_refusal.
  intros ([] & Hc & Ha)%bind_Ok. apply bind_Ok in Ha as (pd & Hpd & Ha). apply bind_Ok in Ha as (rd & Hrd & Ha).
  apply bind_Ok in Ha as (md & _ & Ha). apply post_init_same in Ha as ->.
  constructor; [done|done|done|by exists rd|by eapply check_correlation_Ok].
Qed.

(** One write of the in-memory writer. *)
Lemma memory_write (p : @publication G) (w0 : memory_writer) publish (cor : option CorrelationRef) anchor_for w r w' :
  (forall g, let '(r, g') := publish g in published p cor anchor_for g g' /\ (r = Ok tt \/ exists e, r = Err e /\ lookup_raised p cor e)) ->
  (_ ← modify (fun _ => w0); zoom mw_graph_lens publish) w = (r, w') ->
  mw_receipts w' = mw_receipts w0 /\ mw_refusals w' = mw_refusals w0 /\ mw_receipt_store w' = mw_receipt_store w0 /\
  mw_refusal_store w' = mw_refusal_store w0 /\ published p cor anchor_for (mw_graph w0) (mw_graph w') /\
  (r = Ok tt \/ exists e, r = Err e /\ lookup_raised p cor e).
Proof.
  intros Hp. unfold mbind, M_bind, modify, zoom. specialize (Hp (mw_graph w0)). simpl lget.
  destruct (publish (mw_graph w0)) as [r' g'] eqn:He. destruct Hp as [Hpub Hr]. intros [= <- <-]. simpl. by split_and!.
Qed.
End Facts.

(** ** Properties *)

(** The in-memory outcome writer keeps every receipt and refusal it is given,
    in order and in its stores, whatever the proof store and the graph client do;
    a write raises only what the proof store's lookup raises; and the graph client
    is left alone or handed one anchor, which names the recorded artifact and the
    proof its correlation names by their digests. *)
Theorem outcomes_recorded_and_anchored `{Protocol} {G : Type} (p : @publication G) (receipt : Receipt) (refusal : Refusal)
    (w : @memory_writer G) :
  (let '(r, w') := ow_write_receipt (InMemoryOutcomeWriter p) receipt w in
   mw_receipts w' = mw_receipts w ++ [receipt] /\ mw_refusals w' = mw_refusals w /\
   mw_receipt_store w' = put_receipt receipt <$> mw_receipt_store w /\ mw_refusal_store w' = mw_refusal_store w /\
   (r = Ok tt \/ exists e, r = Err e /\ lookup_raised p (rc_correlation receipt) e) /\
   (mw_graph w' = mw_graph w \/
    exists publish pccb anchor, pb_publish p = Some publish /\ mw_graph w' = (publish anchor (mw_graph w)).2 /\
      rc_outcome receipt = "executed" /\ anchors anchor pccb (rc_correlation receipt) "executed" (Receipt_to_dict receipt))) /\
  (let '(r, w') := ow_write_refusal (InMemoryOutcomeWriter p) refusal w in
   mw_refusals w' = mw_refusals w ++ [refusal] /\ mw_receipts w' = mw_receipts w /\
   mw_refusal_store w' = put_refusal refusal <$> mw_refusal_store w /\ mw_receipt_store w' = mw_receipt_store w /\
   (r = Ok tt \/ exists e, r = Err e /\ lookup_raised p (rf_correlation refusal) e) /\
   (mw_graph w' = mw_graph w \/
    exists publish pccb anchor, pb_publish p = Some publish /\ mw_graph w' = (publish anchor (mw_graph w)).2 /\
      anchors anchor pccb (rf_correlation refusal) "refused" (Refusal_to_dict refusal))).
Proof.
  split.
  - destruct (ow_write_receipt (InMemoryOutcomeWriter p) receipt w) as [r w'] eqn:Hw.
    destruct (memory_write p (record_receipt receipt w) (publish_receipt p receipt) (rc_correlation receipt) _ w r w'
      (fun g => publish_anchor_spec p _ _ _ g) Hw) as (H1 & H2 & H3 & H4 & Hp & Hr). split_and!; [done..|].
    destruct Hp as [Hp|(publish & get & pccb & anchor & ? & _ & _ & Ha & ?)]; [by left|right].
    apply receipt_anchor_sound in Ha as [? ?]. by exists publish, pccb, anchor.
  - destruct (ow_write_refusal (InMemoryOutcomeWriter p) refusal w) as [r w'] eqn:Hw.
    destruct (memory_write p (record_refusal refusal w) (publish_refusal p refusal) (rf_correlation refusal) _ w r w'
      (fun g => publish_anchor_spec p _ _ _ g) Hw) as (H1 & H2 & H3 & H4 & Hp & Hr). split_and!; [done..|].
    destruct Hp as [Hp|(publish & get & pccb & anchor & ? & _ & _ & Ha & ?)]; [by left|right].
    apply refusal_anchor_sound in Ha. by exists publish, pccb, anchor.
Qed.

(** The writers of a composite are called in order; the first that raises stops
    the rest. *)
Lemma composite_writes {W : Type} (writers : list (OutcomeWriter W)) (receipt : Receipt) w :
  ow_write_receipt (CompositeOutcomeWriter writers) receipt w =
  fold_left (fun rw writer => match rw with
    | (Ok tt, w) => ow_write_receipt writer receipt w
    | stopped => stopped
    end) writers (Ok tt, w).
Proof.
  simpl. revert w. induction writers as [|writer writers IH]; intros w; [done|]. simpl. unfold mbind, M_bind.
  destruct (ow_write_receipt writer receipt w) as [[[]|e] w']; [apply IH|].
  clear. induction writers; [done|]. done.
Qed.
