(* ===== verification/Middleware.v ===== *)
(** * The escrow middleware: [actenon/verifier/middleware.py]

    [ProtectedEndpointMiddleware.execute] on every branch, over the process state
    of [Executor].  Unlike the executor it consumes the escrow before the handler
    and the replay key after it, and it does not guard the cleanup calls of its
    exception handlers, so an exception they raise leaves the method.

    The theorems: the handler runs only behind an accepted proof that bears no
    effect and an escrow this execution consumed, so at most once per escrow along
    any sequence of executions and escrow operations. *)

From S2P Require Import Prelude Text Json Errors Timestamps Canonical Contracts Runtime Samples ProofService Replay ReplayStore Escrow Receipts Idempotency Credentials Effects Executor ExecutorFrames ExecutorProofs.

Section Middleware.
Context `{Protocol} `{ProtocolAuthority} `{ProtocolEffects} `{PyText}.
Context {R E B X W V : Type} `{ReplayStore R} `{CapabilityEscrow E}.

#[local] Abbreviation exec := (@exec R E B X W V).
#[local] Abbreviation frame := (@frame R E B X W V).

Record ProtectedEndpointMiddleware := mkMiddleware {
  mw_proof_verifier : PCCBVerifier;
  mw_outcome_writer : OutcomeWriter W
}.

(** [Handler] *)
Definition Handler : Type := ProtectedExecutionRequest -> M exn V (option dict).

Definition mw_call (handler : Handler) (request : ProtectedExecutionRequest) : exec (option dict) := fun f =>
  let w := f.1 in
  let '(r, h) := handler request (w_env w) in
  (r, (mkExecWorld (w_replay w) (w_escrow w) (w_broker w) (w_effects w) (w_idempotency w) (w_writer w) h
         (w_calls w ++ [request]), f.2)).

Variable m : ProtectedEndpointMiddleware.

Definition EFFECT_UNSUPPORTED : exn :=
  Refused (RefusalExn "policy" "POLICY_REFUSAL"
    "This middleware cannot enforce effect ownership; use an effect-aware ProtectedExecutor." false []).

Definition mw_write_receipt (r : Receipt) : exec unit := zoom writer_lens (ow_write_receipt (mw_outcome_writer m) r).
Definition mw_write_refusal (r : Refusal) : exec unit := zoom writer_lens (ow_write_refusal (mw_outcome_writer m) r).

(** [self.replay_protector.mark_consumed(replay_state.replay_key, now=...)] *)
Definition mw_mark (st : option ActionConsumptionState) (request : ProtectedExecutionRequest) : exec unit :=
  match st with
  | Some s => _ ← zoom replay_lens (protector_mark_consumed (cs_replay_key s) (cx_now (rq_context request))); mret tt
  | None => raise (AttributeError "replay_key")
  end.

Definition mw_release (st : option ActionConsumptionState) (request : ProtectedExecutionRequest) (reason : string) : exec unit :=
  match st with
  | Some s => _ ← zoom replay_lens (protector_release_claim (cs_replay_key s) (cx_now (rq_context request)) reason); mret tt
  | None => mret tt
  end.

Section Request.
Variable (request : ProtectedExecutionRequest) (handler : Handler) (ids : artifact_ids).
Let intent := rq_intent request.
Let pccb := rq_pccb request.
Let context := rq_context request.

(** Verification and the replay claim. *)
Definition mw_admit : exec unit :=
  _ ← lift (verify (mw_proof_verifier m) intent pccb context);
  _ ← (if has_key "effect" (pc_extensions pccb) then raise EFFECT_UNSUPPORTED else mret tt);
  _ ← match pc_escrow_id pccb with JNull => raise ESCROW_REFERENCE_MISSING | _ => mret tt end;
  st ← zoom replay_lens (protector_claim_request request);
  set_locals (fun l => mkLocals st (l_replay_consumed l) (l_credential l) (l_handler_started l) (l_effect_reference l) (l_effect_evidence l)).

Definition mw_consume : exec unit :=
  match pc_escrow_id pccb with
  | JStr id =>
      _ ← zoom escrow_lens (escrow_run (OpConsume id (pc_pccb_id pccb) (act_capability (in_action intent)) (cx_now context)));
      mret tt
  | _ => raise OutOfModel
  end.

(** Everything before the handler. *)
Definition mw_prepare : exec unit := _ ← mw_admit; mw_consume.

(** From the handler's call to the result. *)
Definition mw_perform : exec ExecutionResult :=
  payload ← mw_call handler request;
  l ← get_locals;
  _ ← mw_mark (l_replay_state l) request;
  receipt ← lift (create_execution_receipt (id_executed ids) intent context (pc_pccb_id pccb) (pc_escrow_id pccb) payload
                    (Some (pc_action_hash pccb)));
  _ ← mw_write_receipt receipt;
  mret (mkExecutionResult (Some receipt) None payload).

Definition mw_emit (exc : RefusalException) : exec ExecutionResult :=
  refusal ← lift (create_from_exception (id_refusal ids) exc (cx_now context) (Some intent) (Some context)
                    (JStr (pc_pccb_id pccb)) (pc_escrow_id pccb) (Some (pc_action_hash pccb)));
  receipt ← lift (create_refused_receipt (id_refused ids) intent context refusal);
  _ ← mw_write_refusal refusal;
  _ ← mw_write_receipt receipt;
  mret (mkExecutionResult (Some receipt) (Some refusal) None).

(** The two [except] clauses. *)
Definition mw_handle (e : exn) : exec ExecutionResult :=
  l ← get_locals;
  match e with
  | Refused exc =>
      _ ← (if str_mem (exc_category exc) ["escrow"; "authorization"; "proof"]
           then mw_release (l_replay_state l) request (exc_refusal_code exc) else mret tt);
      mw_emit exc
  | _ =>
      _ ← match l_replay_state l with Some s => mw_mark (Some s) request | None => mret tt end;
      mw_emit (RefusalExn "execution" "EXECUTION_FAILED" SAFE_HANDLER_EXCEPTION_MESSAGE false
                 (redacted_handler_exception_details e (Some (cx_request_id context))))
  end.

Definition mw_frame : exec ExecutionResult :=
  try_catch (_ ← mw_prepare; mw_perform) mw_handle.

Definition mw_execute : M exn (world R E B X W V) ExecutionResult := fun w =>
  let '(r, f) := mw_frame (w, locals0) in (r, f.1).
End Request.

(** ** Facts *)
Lemma mw_passive_prepare request : passive (mw_prepare request).
Proof. unfold mw_prepare, mw_admit, mw_consume. passive. Qed.
Lemma mw_passive_mark st request : passive (mw_mark st request).
Proof. unfold mw_mark, protector_mark_consumed. passive. Qed.
Lemma mw_passive_handle request ids e : passive (mw_handle request ids e).
Proof.
  pose proof mw_passive_mark. unfold mw_handle, mw_emit, mw_write_receipt, mw_write_refusal, mw_release, protector_release_claim. passive.
Qed.

Lemma mw_keeps_handle request ids e : keeps (fun f => w_escrow f.1) (mw_handle request ids e).
Proof.
  unfold mw_handle, mw_emit, mw_write_receipt, mw_write_refusal, mw_release, mw_mark. keeps.
Qed.

(** What stands behind a call. *)
Record mw_cleared (request : ProtectedExecutionRequest) (w w' : world R E B X W V) : Prop := {
  mw_cleared_proof : verify (mw_proof_verifier m) (rq_intent request) (rq_pccb request) (rq_context request) = Ok tt;
  mw_cleared_effect : has_key "effect" (pc_extensions (rq_pccb request)) = false;
  mw_cleared_escrow : exists id r, pc_escrow_id (rq_pccb request) = JStr id /\
    escrow_run (OpConsume id (pc_pccb_id (rq_pccb request)) (act_capability (in_action (rq_intent request)))
                  (cx_now (rq_context request))) (w_escrow w) = (Ok r, w_escrow w')
}.

Lemma mw_keeps_admit request : keeps (fun f : frame => w_escrow f.1) (mw_admit request).
Proof. unfold mw_admit. keeps. Qed.

Lemma mw_admit_cleared request (f f' : frame) : mw_admit request f = (Ok tt, f') ->
  verify (mw_proof_verifier m) (rq_intent request) (rq_pccb request) (rq_context request) = Ok tt /\
  has_key "effect" (pc_extensions (rq_pccb request)) = false.
Proof.
  unfold mw_admit. intros ([] & g1 & Hv & Hall)%M_bind_Ok. injection Hv as Hv <-.
  apply M_bind_Ok in Hall as (? & g2 & He & Hall). by destruct (has_key "effect" (pc_extensions (rq_pccb request))).
Qed.

(** The escrow moves only by the consumption, whether it succeeds or raises. *)
Lemma mw_consume_step request (f f' : frame) r : mw_consume request f = (r, f') ->
  w_escrow f'.1 = w_escrow f.1 /\ (r <> Ok tt) \/
  exists id o, pc_escrow_id (rq_pccb request) = JStr id /\
    escrow_run (OpConsume id (pc_pccb_id (rq_pccb request)) (act_capability (in_action (rq_intent request)))
                  (cx_now (rq_context request))) (w_escrow f.1) = (o, w_escrow f'.1) /\ (r = Ok tt <-> exists x, o = Ok x).
Proof.
  unfold mw_consume. destruct (pc_escrow_id (rq_pccb request)) as [| | | |id| |]; try (intros [= <- <-]; by left).
  unfold mbind, M_bind, zoom. simpl.
  destruct (escrow_run _ (w_escrow f.1)) as [[o|e] s] eqn:Hr; intros [= <- <-]; right; exists id; eexists; split_and!; try done; naive_solver.
Qed.

Lemma mw_prepare_cleared request w f' : mw_prepare request ((w, locals0) : frame) = (Ok tt, f') -> mw_cleared request w f'.1.
Proof.
  unfold mw_prepare. intros ([] & f1 & Ha & Hc)%M_bind_Ok. destruct (mw_admit_cleared _ _ _ Ha) as [Hv He].
  apply (keeps_step _ _ _ _ _ (mw_keeps_admit request)) in Ha. simpl in Ha. split; [done..|].
  apply mw_consume_step in Hc as [[_ Hn]|(id & o & Hid & Hr & [Ho _])]; [done|].
  destruct (Ho eq_refl) as [x ->]. exists id, x. by rewrite <- Ha.
Qed.

Lemma mw_keeps_perform request handler ids : keeps (fun f : frame => w_escrow f.1) (mw_perform request handler ids).
Proof.
  assert (keeps (fun f : frame => w_escrow f.1) (mw_call handler request)).
  { intros f. unfold mw_call. by destruct (handler request (w_env f.1)). }
  unfold mw_perform, mw_mark, mw_write_receipt. keeps.
Qed.

Lemma mw_perform_call request handler ids (f f' : frame) r : mw_perform request handler ids f = (r, f') ->
  w_calls f'.1 = w_calls f.1 ++ [request] /\ w_env f'.1 = (handler request (w_env f.1)).2.
Proof.
  unfold mw_perform, mbind at 1, M_bind at 1, mw_call.
  destruct (handler request (w_env f.1)) as [[payload|e] h]; [|by intros [= <- <-]].
  match goal with |- (?mm ≫= ?g) ?f0 = _ -> _ => assert (passive (mm ≫= g)) as Hp; [|destruct (Hp f0) as (Hc & He & Hk)] end.
  - pose proof mw_passive_mark. unfold mw_write_receipt. passive.
  - intros Heq. rewrite Heq in Hc, He. done.
Qed.

Lemma mw_cleared_later request w w1 w2 : mw_cleared request w w1 -> w_escrow w2 = w_escrow w1 -> mw_cleared request w w2.
Proof. intros [Hv He (id & r & Hid & Hr)] Hs. split; [done..|]. exists id, r. by rewrite Hs. Qed.

(** An execution moves the escrow by its own consumption, or not at all. *)
Lemma mw_escrow_moves request handler ids (w : world R E B X W V) :
  w_escrow (mw_execute request handler ids w).2 = w_escrow w \/
  exists id p c now, w_escrow (mw_execute request handler ids w).2 = (escrow_run (OpConsume id p c now) (w_escrow w)).2.
Proof.
  unfold mw_execute, mw_frame, try_catch.
  destruct ((_ ← mw_prepare request; mw_perform request handler ids) (w, locals0)) as [r f] eqn:Hb.
  assert (w_escrow f.1 = w_escrow w \/ exists id p c now, w_escrow f.1 = (escrow_run (OpConsume id p c now) (w_escrow w)).2) as Hf.
  { unfold mw_prepare, mbind, M_bind in Hb. destruct (mw_admit request (w, locals0)) as [ra f1] eqn:Ha.
    apply (keeps_step _ _ _ _ _ (mw_keeps_admit request)) in Ha. simpl in Ha.
    destruct ra as [?|?]; [|injection Hb as _ <-; by left].
    destruct (mw_consume request f1) as [rc f2] eqn:Hc.
    assert (w_escrow f.1 = w_escrow f2.1) as ->.
    { destruct rc as [[]|]; [|by injection Hb as _ <-].
      by apply (keeps_step _ _ _ _ _ (mw_keeps_perform request handler ids)) in Hb. }
    apply mw_consume_step in Hc as [[-> _]|(id & o & _ & Hr & _)]; [by left|right]. rewrite Ha in Hr.
    eexists _, _, _, _. by rewrite Hr. }
  destruct r as [res|e]; [done|]. destruct (mw_handle request ids e f) as [r2 f2] eqn:Hh.
  apply (keeps_step _ _ _ _ _ (mw_keeps_handle request ids e)) in Hh. simpl in *. by rewrite Hh.
Qed.

Lemma mw_spent_stays request handler ids (w : world R E B X W V) k :
  spent (escrow_state_of (w_escrow w) k) = true -> spent (escrow_state_of (w_escrow (mw_execute request handler ids w).2) k) = true.
Proof.
  intros Hk. destruct (mw_escrow_moves request handler ids w) as [->|(id & p & c & now & ->)]; [done|]. by apply escrow_spent_stays.
Qed.

(** Once everything before the handler succeeded, the handler runs. *)
Lemma mw_prepared_runs request handler ids (w : world R E B X W V) f : mw_prepare request (w, locals0) = (Ok tt, f) ->
  w_calls (mw_execute request handler ids w).2 = w_calls w ++ [request].
Proof.
  intros Hp. unfold mw_execute, mw_frame, try_catch, mbind, M_bind. rewrite Hp.
  apply passive_step in Hp as (Hc & _ & _); [|apply mw_passive_prepare]. simpl in Hc.
  destruct (mw_perform request handler ids f) as [r f1] eqn:Hb. apply mw_perform_call in Hb as [Hcb _].
  destruct r as [res|e]; [simpl; congruence|]. destruct (mw_handle request ids e f1) as [r2 f2] eqn:Hh.
  apply passive_step in Hh as (Hh & _ & _); [|apply mw_passive_handle]. simpl. congruence.
Qed.

Lemma mw_prepare_Ok request (w : world R E B X W V) id st r : 
  verify (mw_proof_verifier m) (rq_intent request) (rq_pccb request) (rq_context request) = Ok tt ->
  has_key "effect" (pc_extensions (rq_pccb request)) = false -> pc_escrow_id (rq_pccb request) = JStr id ->
  (protector_claim_request request (w_replay w)).1 = Ok st ->
  (escrow_run (OpConsume id (pc_pccb_id (rq_pccb request)) (act_capability (in_action (rq_intent request)))
     (cx_now (rq_context request))) (w_escrow w)).1 = Ok r ->
  exists f, mw_prepare request (w, locals0) = (Ok tt, f).
Proof.
  intros Hv He Hid Hst Hr. unfold mw_prepare, mw_admit, mw_consume, mbind, M_bind, lift. rewrite Hv, He, Hid. unfold mret, M_ret, zoom. simpl.
  destruct (protector_claim_request request (w_replay w)) as [c s]. simpl in Hst. subst c. simpl.
  destruct (escrow_run _ (w_escrow w)) as [c s']. simpl in Hr. subst c. eauto.
Qed.

Lemma mw_execute_calls request handler ids (w w' : world R E B X W V) r : mw_execute request handler ids w = (r, w') ->
  (w_calls w' = w_calls w /\ w_env w' = w_env w) \/
  (w_calls w' = w_calls w ++ [request] /\ w_env w' = (handler request (w_env w)).2 /\ mw_cleared request w w').
Proof.
  unfold mw_execute, mw_frame, try_catch. intros He.
  destruct ((_ ← mw_prepare request; mw_perform request handler ids) (w, locals0)) as [rb f] eqn:Hb.
  assert ((w_calls f.1 = w_calls w /\ w_env f.1 = w_env w) \/
    (w_calls f.1 = w_calls w ++ [request] /\ w_env f.1 = (handler request (w_env w)).2 /\ mw_cleared request w f.1)) as Hf.
  { unfold mbind, M_bind in Hb. destruct (mw_prepare request (w, locals0)) as [[[]|e] f1] eqn:Hp.
    - pose proof (mw_prepare_cleared _ _ _ Hp) as Hcl. apply passive_step in Hp as (Hc & Hv & _); [|apply mw_passive_prepare].
      pose proof Hb as Hk. apply mw_perform_call in Hb as [Hcb Hvb].
      apply (keeps_step _ _ _ _ _ (mw_keeps_perform request handler ids)) in Hk. simpl in *.
      right. split_and!; [congruence..|]. by eapply mw_cleared_later.
    - injection Hb as _ <-. left. apply passive_step in Hp as (Hc & Hv & _); [done|apply mw_passive_prepare]. }
  destruct rb as [res|e]; [by injection He as _ <-|]. destruct (mw_handle request ids e f) as [r2 f2] eqn:Hh. injection He as _ <-.
  pose proof Hh as Hk. apply (keeps_step _ _ _ _ _ (mw_keeps_handle request ids e)) in Hk.
  apply passive_step in Hh as (Hc & Hv & _); [|apply mw_passive_handle]. simpl in *.
  destruct Hf as [[Hc1 Hv1]|(Hc1 & Hv1 & Hcl)]; [left; split; congruence|right].
  split_and!; [congruence..|]. by eapply mw_cleared_later.
Qed.
End Middleware.

(** ** Sequences of middleware executions and escrow operations *)
Section Sequences.
Context `{Protocol} `{ProtocolAuthority} `{ProtocolEffects} `{PyText}.
Context {R E B X W V : Type} `{ReplayStore R} `{CapabilityEscrow E}.

Inductive mw_event :=
| MwExecute (m : @ProtectedEndpointMiddleware W) (request : ProtectedExecutionRequest) (handler : @Handler V) (ids : artifact_ids)
| EscrowOp (op : escrow_op).

Definition run_mw_event (e : mw_event) (w : world R E B X W V) : world R E B X W V :=
  match e with
  | MwExecute m request handler ids => (mw_execute m request handler ids w).2
  | EscrowOp op => mkExecWorld (w_replay w) (escrow_run op (w_escrow w)).2 (w_broker w) (w_effects w) (w_idempotency w) (w_writer w) (w_env w) (w_calls w)
  end.

Fixpoint run_mw_events (es : list mw_event) (w : world R E B X W V) : world R E B X W V :=
  match es with [] => w | e :: es => run_mw_events es (run_mw_event e w) end.

(** The calls under an escrow identifier. *)
Definition calls_of_escrow (id : string) (calls : list ProtectedExecutionRequest) : nat :=
  length (filter (fun r => pc_escrow_id (rq_pccb r) = JStr id) calls).

Lemma calls_of_escrow_app id l l' : calls_of_escrow id (l ++ l') = calls_of_escrow id l + calls_of_escrow id l'.
Proof. unfold calls_of_escrow. by rewrite filter_app, length_app. Qed.

Lemma mw_event_spent e w k : spent (escrow_state_of (w_escrow w) k) = true -> spent (escrow_state_of (w_escrow (run_mw_event e w)) k) = true.
Proof. destruct e as [m request handler ids|op]; simpl; [apply mw_spent_stays|apply escrow_spent_stays]. Qed.

Lemma mw_event_calls e w id :
  exists new, w_calls (run_mw_event e w) = w_calls w ++ new /\
    (calls_of_escrow id new = 0 \/ calls_of_escrow id new = 1 /\ spent (escrow_state_of (w_escrow w) id) = false /\
       spent (escrow_state_of (w_escrow (run_mw_event e w)) id) = true).
Proof.
  destruct e as [m request handler ids|op]; simpl; [|exists []; rewrite app_nil_r; auto].
  destruct (mw_execute m request handler ids w) as [r w'] eqn:Hx. simpl.
  apply mw_execute_calls in Hx as [[Hc _]|(Hc & _ & [_ _ (id' & o & Hid & Hr)])]; [exists []; rewrite app_nil_r; auto|].
  exists [request]. split; [done|]. unfold calls_of_escrow. rewrite filter_cons. case_decide as Hk; [right|by left].
  rewrite Hid in Hk. injection Hk as ->. apply escrow_consume_ok in Hr as [Hb Ha]. rewrite Ha. done.
Qed.

Lemma mw_calls_bound es w id :
  exists new, w_calls (run_mw_events es w) = w_calls w ++ new /\
    calls_of_escrow id new <= if spent (escrow_state_of (w_escrow w) id) then 0 else 1.
Proof.
  revert w. induction es as [|e es IH]; intros w; simpl; [exists []; rewrite app_nil_r; split; [done|unfold calls_of_escrow; simpl; lia]|].
  destruct (mw_event_calls e w id) as (new & Hn & Hcase). destruct (IH (run_mw_event e w)) as (new' & Hn' & Hle).
  exists (new ++ new'). rewrite Hn', Hn, app_assoc, calls_of_escrow_app. split; [done|].
  pose proof (mw_event_spent e w id) as Hs. destruct Hcase as [->|(-> & Hb & Ha)].
  - destruct (spent (escrow_state_of (w_escrow w) id)); [by rewrite (Hs eq_refl) in Hle|].
    destruct (spent _) in Hle; lia.
  - rewrite Hb. rewrite Ha in Hle. lia.
Qed.

(** The middleware mediates completely: an execution leaves the handler
    uncalled and its environment as it was, or calls it once, on a request whose
    proof verified and bears no effect, under an escrow that this execution
    consumed. *)
Theorem middleware_gated (m : @ProtectedEndpointMiddleware W) (request : ProtectedExecutionRequest) (handler : @Handler V)
    (ids : artifact_ids) (w : world R E B X W V) :
  let w' := (mw_execute m request handler ids w).2 in
  (w_calls w' = w_calls w /\ w_env w' = w_env w) \/
  (w_calls w' = w_calls w ++ [request] /\ w_env w' = (handler request (w_env w)).2 /\ mw_cleared m request w w').
Proof. cbv zeta. destruct (mw_execute m request handler ids w) as [r w'] eqn:He. by eapply mw_execute_calls. Qed.

(** One escrow, one execution: along any sequence of middleware executions
    and of escrow operations by anyone (issues, consumptions, revocations), the
    handler is called at most once per escrow, and never once it was spent. *)
Theorem handler_once_per_escrow (id : string) (es : list mw_event) (w : world R E B X W V) :
  exists new, w_calls (run_mw_events es w) = w_calls w ++ new /\
    calls_of_escrow id new <= if spent (escrow_state_of (w_escrow w) id) then 0 else 1.
Proof. apply mw_calls_bound. Qed.
End Sequences.
