(* ===== verification/Kernel.v ===== *)
(** * The kernel: [core/kernel.py] and [api/intake.py]

    [ActionIntentIntakeService.parse], [ProtectedExecutionKernel.submit_intent]
    with the optional proof seal, and [execute], over the process state of
    [Executor] and the state of the two optional artifact stores.

    The theorems: a submission issues an escrow only for an intent that parses,
    that the policy allows and whose proof keeps the minted bindings; along any
    sequence of submissions and executions the handler runs only under a proof
    and a capability that such a submission admitted; and the request an
    admission returns does run, for every escrow that consumes what it issued. *)

From S2P Require Import Prelude Text Json Errors Timestamps Canonical Contracts Runtime Samples ProofService Replay ReplayStore Escrow Receipts Idempotency Credentials Effects Executor ExecutorFrames ExecutorProofs Policy Middleware.

(** ** [ActionIntentIntakeService.parse] *)
Definition intake_violations (intent : ActionIntent) : list Violation :=
  (if (in_expires_at intent <=? in_issued_at intent)%Z
   then [mkViolation "INVALID_WINDOW" "expires_at must be later than issued_at" (JStr "expires_at") JNull JNull] else []) ++
  (if dict_truthy (act_parameters (in_action intent)) then []
   else [mkViolation "MISSING_ACTION_PARAMETERS" "action.parameters must contain at least one value"
           (JStr "action.parameters") JNull JNull]).

Definition parse (payload : json) : py ActionIntent :=
  match ActionIntent_from_dict payload with
  | Err (ValueError msg) =>
      Err (Refused (ContractValidationError "Action Intent contract validation failed"
        [mkViolation "INVALID_CONTRACT" msg JNull JNull JNull] []))
  | Err e => Err e
  | Ok intent =>
      match intake_violations intent with
      | [] => Ok intent
      | violations => Err (Refused (ContractValidationError "Action Intent semantic validation failed" violations []))
      end
  end.

(** ** Python equality of the contract dataclasses *)
Definition py_eq_dict (a b : dict) : bool := py_eqb (JDict a) (JDict b).
Definition py_eq_tenant (a b : TenantRef) : bool :=
  String.eqb (tenant_id a) (tenant_id b) && py_eq_dict (tenant_attributes a) (tenant_attributes b).
Definition py_eq_party (a b : PartyRef) : bool :=
  String.eqb (party_type a) (party_type b) && String.eqb (party_id a) (party_id b) &&
  py_eqb (party_display_name a) (party_display_name b) && py_eq_dict (party_attributes a) (party_attributes b).
Definition py_eq_audience (a b : AudienceRef) : bool :=
  String.eqb (aud_type a) (aud_type b) && String.eqb (aud_id a) (aud_id b) && py_eqb (aud_uri a) (aud_uri b).
Definition py_eq_action (a b : ActionSpec) : bool :=
  String.eqb (act_name a) (act_name b) && String.eqb (act_capability a) (act_capability b) &&
  py_eq_dict (act_parameters a) (act_parameters b) && py_eq_dict (act_constraints a) (act_constraints b) &&
  py_eq_dict (act_scope a) (act_scope b).
Definition py_eq_target (a b : TargetRef) : bool :=
  String.eqb (tgt_resource_type a) (tgt_resource_type b) && String.eqb (tgt_resource_id a) (tgt_resource_id b) &&
  py_eqb (tgt_uri a) (tgt_uri b) && py_eq_dict (tgt_selectors a) (tgt_selectors b).
Definition py_eq_scope (a b : ScopeSpec) : bool :=
  String.eqb (sc_mode a) (sc_mode b) && bool_decide (sc_capabilities a = sc_capabilities b) &&
  Bool.eqb (sc_single_use a) (sc_single_use b) &&
  py_eqb (JList (map JDict (sc_resource_selectors a))) (JList (map JDict (sc_resource_selectors b))) &&
  py_eq_dict (sc_parameter_constraints a) (sc_parameter_constraints b).

(** ** The proof seal *)
Definition ProofSealError (refusal_code message : string) (details : dict) : RefusalException :=
  mkRefusalException ProofSealErrorC "proof" refusal_code message false [] [] details.

(** [required_matches]: each bound field with whether the seal kept it. *)
Definition required_matches (local_pccb sealed_pccb : PCCB) : list (string * bool) :=
  [("intent_id", py_eqb (pc_intent_id sealed_pccb) (pc_intent_id local_pccb));
   ("issued_at", (pc_issued_at sealed_pccb =? pc_issued_at local_pccb)%Z);
   ("not_before", (pc_not_before sealed_pccb =? pc_not_before local_pccb)%Z);
   ("expires_at", (pc_expires_at sealed_pccb =? pc_expires_at local_pccb)%Z);
   ("subject", py_eq_party (pc_subject sealed_pccb) (pc_subject local_pccb));
   ("tenant", py_eq_tenant (pc_tenant sealed_pccb) (pc_tenant local_pccb));
   ("audience", py_eq_audience (pc_audience sealed_pccb) (pc_audience local_pccb));
   ("action", py_eq_action (pc_action sealed_pccb) (pc_action local_pccb));
   ("target", py_eq_target (pc_target sealed_pccb) (pc_target local_pccb));
   ("scope", py_eq_scope (pc_scope sealed_pccb) (pc_scope local_pccb));
   ("escrow_id", py_eqb (pc_escrow_id sealed_pccb) (pc_escrow_id local_pccb));
   ("action_hash", bool_decide (pc_action_hash sealed_pccb = pc_action_hash local_pccb))].

Fixpoint first_mismatch (matches : list (string * bool)) : option string :=
  match matches with
  | [] => None
  | (field_name, same) :: rest => if same then first_mismatch rest else Some field_name
  end.

Definition _validated_execution_pccb (local_pccb sealed_pccb : PCCB) : py PCCB :=
  match first_mismatch (required_matches local_pccb sealed_pccb) with
  | Some field_name =>
      Err (Refused (ProofSealError "PROOF_SEAL_INVALID"
        ("proof seal substitution changed the PCCB " +:+ field_name +:+ ".") [("field", JStr field_name)]))
  | None => Ok sealed_pccb
  end.

Definition ProofSealClient : Type := ActionIntent -> PolicyDecision -> DynamicContextInput -> PCCB -> py PCCB.

Definition _resolve_execution_pccb (client : option ProofSealClient) (intent : ActionIntent) (decision : PolicyDecision)
    (context : DynamicContextInput) (local_pccb : PCCB) : py PCCB :=
  match client with
  | None => Ok local_pccb
  | Some seal =>
      match seal intent decision context local_pccb with
      | Ok sealed_pccb => _validated_execution_pccb local_pccb sealed_pccb
      | Err (Refused exc) =>
          if bool_decide (exc_cls exc = ProofSealErrorC) then Err (Refused exc)
          else Err (Refused (ProofSealError "PROOF_SEAL_FAILED" "proof seal substitution failed." []))
      | Err OutOfModel => Err OutOfModel
      | Err _ => Err (Refused (ProofSealError "PROOF_SEAL_FAILED" "proof seal substitution failed." []))
      end
  end.

(** ** Steps that leave one part of the state alone *)
Definition leaves {S T A} (p : S -> T) (m : M exn S A) : Prop := forall s, p (m s).2 = p s.

Section Leaves.
Context {S T : Type} (p : S -> T).
Lemma leaves_bind {A C} (m : M exn S A) (g : A -> M exn S C) : leaves p m -> (forall a, leaves p (g a)) -> leaves p (m ≫= g).
Proof.
  intros Hm Hg s. specialize (Hm s). unfold mbind, M_bind. destruct (m s) as [[a|e] s1]; [|done]. rewrite Hg. exact Hm.
Qed.
Lemma leaves_ret {A} (a : A) : leaves p (mret a). Proof. done. Qed.
Lemma leaves_raise {A} e : leaves p (@raise exn S A e). Proof. done. Qed.
Lemma leaves_lift {A} (r : py A) : leaves p (lift r). Proof. done. Qed.
Lemma leaves_gets {A} (get : S -> A) : leaves p (gets get). Proof. done. Qed.
Lemma leaves_zoom {A D} (l : lens S D) (m : M exn D A) : (forall d s, p (lset l d s) = p s) -> leaves p (zoom l m).
Proof. intros Hl s. unfold zoom. destruct (m (lget l s)) as [r d]. apply Hl. Qed.
End Leaves.

(** Step through a computation; [tac] handles the steps of its own. *)
Ltac leaves_with tac :=
  repeat first
    [ progress intros
    | apply leaves_bind
    | apply leaves_ret | apply leaves_raise | apply leaves_lift | apply leaves_gets
    | tac
    | apply leaves_zoom; [reflexivity]
    | case_match ].

(** ** [ProtectedExecutionKernel] *)
Section Kernel.
Context `{Protocol} `{ProtocolAuthority} `{ProtocolEffects} `{PyText}.
Context {R E B X W V N : Type} `{ReplayStore R} `{CapabilityEscrow E}.

(** The process state and that of the two artifact stores. *)
Definition kstate : Type := world R E B X W V * N.
#[local] Abbreviation kernel_m := (M exn kstate).

(** [intent_store] and [pccb_store]: the [put] method, when there is a store and
    it has one. *)
Record ProtectedExecutionKernel := mkKernel {
  (** the [evaluate] method of the policy engine *)
  kn_policy_engine : ActionIntent -> DynamicContextInput -> py PolicyDecision;
  kn_pccb_minter : PCCBMinter;
  kn_middleware : @ProtectedEndpointMiddleware W;
  kn_outcome_writer : OutcomeWriter W;
  kn_put_intent : option (ActionIntent -> M exn N unit);
  kn_put_pccb : option (PCCB -> M exn N unit);
  kn_proof_seal_client : option ProofSealClient;
  kn_require_proof_seal : bool
}.

(** The identifiers the factories return during a submission. *)
Record kernel_ids := mkKernelIds {
  kid_escrow : string; kid_pccb : string; kid_nonce : string; kid_receipt : string; kid_refusal : string
}.

Definition k_escrow_lens : lens kstate E :=
  mkLens _ _ (fun s => w_escrow s.1)
    (fun e s => let w := s.1 in
      (mkExecWorld (w_replay w) e (w_broker w) (w_effects w) (w_idempotency w) (w_writer w) (w_env w) (w_calls w), s.2)).
Definition k_writer_lens : lens kstate W :=
  mkLens _ _ (fun s => w_writer s.1)
    (fun x s => let w := s.1 in
      (mkExecWorld (w_replay w) (w_escrow w) (w_broker w) (w_effects w) (w_idempotency w) x (w_env w) (w_calls w), s.2)).
Definition k_stores_lens : lens kstate N := mkLens _ _ snd (fun n s => (s.1, n)).

Variable k : ProtectedExecutionKernel.

Definition k_write_receipt (r : Receipt) : kernel_m unit := zoom k_writer_lens (ow_write_receipt (kn_outcome_writer k) r).
Definition k_write_refusal (r : Refusal) : kernel_m unit := zoom k_writer_lens (ow_write_refusal (kn_outcome_writer k) r).
Definition k_put {A} (put : option (A -> M exn N unit)) (a : A) : kernel_m unit :=
  match put with Some p => zoom k_stores_lens (p a) | None => mret tt end.

Section Submission.
Variable (context : DynamicContextInput) (ids : kernel_ids).

(** The intake refused the payload. *)
Definition refuse_intake (exc : RefusalException) : kernel_m AdmissionResult :=
  refusal ← lift (create_from_exception (kid_refusal ids) exc (cx_now context) None (Some context) JNull JNull None);
  _ ← k_write_refusal refusal;
  mret (mkAdmissionResult None None None (Some refusal) None None).

Definition deny_rule_refs (decision : PolicyDecision) : list string :=
  map re_rule_id (with_outcome Deny (pd_rule_evaluations decision)).

(** [decision.outcome == "deny"] *)
Definition admit_denied (intent : ActionIntent) (decision : PolicyDecision) : kernel_m AdmissionResult :=
  receipt ← lift (create_decision_receipt (kid_receipt ids) intent decision context JNull JNull None);
  _ ← k_write_receipt receipt;
  let refusal_code := match pd_reason_codes decision with c :: _ => c | [] => "POLICY_DENIED" end in
  refusal ← lift (create_from_exception (kid_refusal ids)
    (PolicyDecisionError refusal_code (pd_summary decision) (deny_rule_refs decision)
       [("reason_codes", strings (pd_reason_codes decision))])
    (cx_now context) (Some intent) (Some context) JNull JNull None);
  _ ← k_write_refusal refusal;
  mret (mkAdmissionResult (Some intent) (Some decision) (Some receipt) (Some refusal) None None).

(** [decision.outcome in {"approval-required", "needs-evidence"}] *)
Definition admit_pending (intent : ActionIntent) (decision : PolicyDecision) : kernel_m AdmissionResult :=
  receipt ← lift (create_decision_receipt (kid_receipt ids) intent decision context JNull JNull None);
  _ ← k_write_receipt receipt;
  mret (mkAdmissionResult (Some intent) (Some decision) (Some receipt) None None None).

(** The required proof seal could not be had. *)
Definition refuse_unsealed (intent : ActionIntent) (decision : PolicyDecision) (local_pccb : PCCB) (exc : RefusalException) :
    kernel_m AdmissionResult :=
  refusal ← lift (create_from_exception (kid_refusal ids) exc (cx_now context) (Some intent) (Some context)
    (JStr (pc_pccb_id local_pccb)) (JStr (kid_escrow ids)) (Some (pc_action_hash local_pccb)));
  _ ← k_write_refusal refusal;
  mret (mkAdmissionResult (Some intent) (Some decision) None (Some refusal) None None).

(** The proof the admission goes on with, or the seal's error when it is
    required. *)
Definition choose_pccb (intent : ActionIntent) (decision : PolicyDecision) (local_pccb : PCCB) : py (PCCB + RefusalException) :=
  match _resolve_execution_pccb (kn_proof_seal_client k) intent decision context local_pccb with
  | Ok pccb => Ok (inl pccb)
  | Err (Refused exc) =>
      if bool_decide (exc_cls exc = ProofSealErrorC)
      then Ok (if kn_require_proof_seal k then inr exc else inl local_pccb)
      else Err (Refused exc)
  | Err e => Err e
  end.

(** Escrow, decision receipt and storage for the final proof. *)
Definition grant (intent : ActionIntent) (decision : PolicyDecision) (pccb : PCCB) : kernel_m AdmissionResult :=
  _ ← zoom k_escrow_lens (escrow_run (OpIssue (kid_escrow ids) (pc_pccb_id pccb) (act_capability (in_action intent))
        (pc_expires_at pccb) [("intent_id", JStr (in_intent_id intent))]));
  receipt ← lift (create_decision_receipt (kid_receipt ids) intent decision context (JStr (pc_pccb_id pccb))
        (JStr (kid_escrow ids)) (Some (pc_action_hash pccb)));
  _ ← k_put (kn_put_pccb k) pccb;
  _ ← k_write_receipt receipt;
  mret (mkAdmissionResult (Some intent) (Some decision) (Some receipt) None (Some pccb) (Some (kid_escrow ids))).

Definition admit_allowed (intent : ActionIntent) (decision : PolicyDecision) : kernel_m AdmissionResult :=
  local_pccb ← lift (mint (kn_pccb_minter k) (kid_pccb ids) (kid_nonce ids) intent decision context (JStr (kid_escrow ids)) []);
  choice ← lift (choose_pccb intent decision local_pccb);
  match choice with
  | inl pccb => grant intent decision pccb
  | inr exc => refuse_unsealed intent decision local_pccb exc
  end.

Definition submit_intent (payload : json) : kernel_m AdmissionResult :=
  match parse payload with
  | Err (Refused exc) => refuse_intake exc
  | Err e => raise e
  | Ok intent =>
      _ ← k_put (kn_put_intent k) intent;
      decision ← lift (kn_policy_engine k intent context);
      match pd_outcome decision with
      | Deny => admit_denied intent decision
      | ApprovalRequired | NeedsEvidence => admit_pending intent decision
      | Allow => admit_allowed intent decision
      end
  end.
End Submission.

(** [build_execution_request] and [execute] *)
Definition build_execution_request (intent : ActionIntent) (pccb : PCCB) (context : DynamicContextInput) : ProtectedExecutionRequest :=
  mkRequest intent pccb context.

Definition kernel_execute (request : ProtectedExecutionRequest) (handler : @Handler V) (ids : artifact_ids) :
    kernel_m ExecutionResult := fun s =>
  let '(r, w) := mw_execute (kn_middleware k) request handler ids s.1 in (r, (w, s.2)).

(** ** Facts *)

Lemma leaves_put {T A} (p : kstate -> T) (put : option (A -> M exn N unit)) a : (forall n s, p (lset k_stores_lens n s) = p s) -> leaves p (k_put put a).
Proof. intros Hl. unfold k_put. destruct put; [by apply leaves_zoom|done]. Qed.

Ltac leaves := leaves_with ltac:(apply leaves_put; [reflexivity]).

(** The process state of a submission apart from the escrow and the writer. *)
Definition bystanders (s : kstate) := (w_replay s.1, w_broker s.1, w_effects s.1, w_idempotency s.1, w_env s.1, w_calls s.1).

Lemma submit_bystanders context ids payload : leaves bystanders (submit_intent context ids payload).
Proof.
  unfold submit_intent, refuse_intake, admit_denied, admit_pending, admit_allowed, grant, refuse_unsealed, k_write_receipt, k_write_refusal.
  leaves.
Qed.

(** What an admission rests on. *)
Record admitted (context : DynamicContextInput) (ids : kernel_ids) (payload : json) (intent : ActionIntent) (pccb : PCCB) : Prop := {
  adm_parsed : parse payload = Ok intent;
  adm_allowed : exists decision, kn_policy_engine k intent context = Ok decision /\ pd_outcome decision = Allow;
  adm_proof : exists decision local_pccb,
    mint (kn_pccb_minter k) (kid_pccb ids) (kid_nonce ids) intent decision context (JStr (kid_escrow ids)) [] = Ok local_pccb /\
    (pccb = local_pccb \/ Forall (fun f => f.2 = true) (required_matches local_pccb pccb))
}.

(** The issue an admission makes. *)
Definition admission_issue (ids : kernel_ids) (intent : ActionIntent) (pccb : PCCB) : escrow_op :=
  OpIssue (kid_escrow ids) (pc_pccb_id pccb) (act_capability (in_action intent)) (pc_expires_at pccb)
    [("intent_id", JStr (in_intent_id intent))].

Lemma first_mismatch_None l : first_mismatch l = None -> Forall (fun f => f.2 = true) l.
Proof. induction l as [|[f same] l IH]; simpl; [constructor|]. destruct same; [|done]. constructor; auto. Qed.

Lemma choose_pccb_bound context intent decision local_pccb pccb :
  choose_pccb context intent decision local_pccb = Ok (inl pccb) ->
  pccb = local_pccb \/ Forall (fun f => f.2 = true) (required_matches local_pccb pccb).
Proof.
  unfold choose_pccb, _resolve_execution_pccb. destruct (kn_proof_seal_client k) as [seal|]; [|intros [= ->]; by left].
  destruct (seal intent decision context local_pccb) as [sealed|e].
  - unfold _validated_execution_pccb. destruct (first_mismatch _) eqn:Hm; simpl.
    + destruct (kn_require_proof_seal k); [done|]. intros [= ->]. by left.
    + intros [= ->]. right. by apply first_mismatch_None.
  - destruct e as [| | | | | |exc| |]; try done; simpl;
      [..|case_bool_decide as Hc; simpl; [rewrite bool_decide_true by done|]|];
      (destruct (kn_require_proof_seal k); [done|]; intros [= ->]; by left).
Qed.

(** What a step of a submission does to the escrow: nothing, and it admits
    nothing; or the issue of an admission. *)
Definition grants_only (context : DynamicContextInput) (ids : kernel_ids) (payload : json) (e0 : E) (o : py AdmissionResult * kstate) : Prop :=
  (w_escrow o.2.1 = e0 /\ forall ar, o.1 = Ok ar -> ar_pccb ar = None) \/
  exists intent pccb issued, admitted context ids payload intent pccb /\
    escrow_run (admission_issue ids intent pccb) e0 = (issued, w_escrow o.2.1) /\
    forall ar, o.1 = Ok ar ->
      ar_intent ar = Some intent /\ ar_pccb ar = Some pccb /\ ar_escrow_id ar = Some (kid_escrow ids) /\ exists x, issued = Ok x.

Definition escrow_of (s : kstate) : E := w_escrow s.1.

Lemma quiet_grants context ids payload (m : kernel_m AdmissionResult) s :
  leaves escrow_of m -> (forall ar s', m s = (Ok ar, s') -> ar_pccb ar = None) -> grants_only context ids payload (w_escrow s.1) (m s).
Proof. intros Hm Hn. left. split; [apply Hm|]. intros ar Har. eapply (Hn ar (m s).2). rewrite <- Har. by destruct (m s). Qed.

Ltac quiet := apply quiet_grants; [unfold k_write_receipt, k_write_refusal; leaves|intros ? ? ?; by M_inv].

Lemma intake_grants context ids payload exc s : grants_only context ids payload (w_escrow s.1) (refuse_intake context ids exc s).
Proof. unfold refuse_intake. quiet. Qed.
Lemma denied_grants context ids payload intent decision s : grants_only context ids payload (w_escrow s.1) (admit_denied context ids intent decision s).
Proof. unfold admit_denied. quiet. Qed.
Lemma pending_grants context ids payload intent decision s : grants_only context ids payload (w_escrow s.1) (admit_pending context ids intent decision s).
Proof. unfold admit_pending. quiet. Qed.
Lemma unsealed_grants context ids payload intent decision pccb exc s :
  grants_only context ids payload (w_escrow s.1) (refuse_unsealed context ids intent decision pccb exc s).
Proof. unfold refuse_unsealed. quiet. Qed.

Lemma grant_grants context ids payload intent decision pccb s :
  admitted context ids payload intent pccb -> grants_only context ids payload (w_escrow s.1) (grant context ids intent decision pccb s).
Proof.
  intros Ha. right. exists intent, pccb. destruct (grant context ids intent decision pccb s) as [r s'] eqn:Hg.
  unfold grant, mbind at 1, M_bind at 1, zoom at 1 in Hg. fold (admission_issue ids intent pccb) in Hg. simpl in Hg |- *.
  destruct (escrow_run (admission_issue ids intent pccb) (w_escrow s.1)) as [o e] eqn:Hr. exists o. split; [done|].
  destruct o as [x|x]; [|by injection Hg as <- <-].
  match type of Hg with (?m ≫= ?g) ?s0 = _ => assert (leaves escrow_of (m ≫= g)) as Hl; [unfold k_write_receipt; leaves|specialize (Hl s0)] end.
  rewrite Hg in Hl. unfold escrow_of in Hl. simpl in Hl. rewrite Hl. split; [done|]. intros ar ->. M_inv. simpl. eauto.
Qed.

Lemma allowed_grants context ids payload intent decision s :
  parse payload = Ok intent -> kn_policy_engine k intent context = Ok decision -> pd_outcome decision = Allow ->
  grants_only context ids payload (w_escrow s.1) (admit_allowed context ids intent decision s).
Proof.
  intros Hp Hd Ho. unfold admit_allowed, lift, mbind, M_bind.
  destruct (mint _ _ _ _ _ _ _ _) as [local|e] eqn:Hm; [|by left].
  destruct (choose_pccb context intent decision local) as [[pccb|exc]|e] eqn:Hc; [|apply unsealed_grants|by left].
  apply grant_grants. split; [done|eauto|]. exists decision, local. split; [done|]. by eapply choose_pccb_bound.
Qed.

Lemma submit_grants context ids payload s : grants_only context ids payload (w_escrow s.1) (submit_intent context ids payload s).
Proof.
  unfold submit_intent. destruct (parse payload) as [intent|e] eqn:Hp.
  2: { destruct e; try (by left). apply intake_grants. }
  unfold mbind at 1, M_bind at 1.
  assert (leaves escrow_of (k_put (kn_put_intent k) intent)) as Hl by leaves.
  specialize (Hl s). destruct (k_put (kn_put_intent k) intent s) as [[[]|e] s1]; [|by left].
  unfold escrow_of in Hl. simpl in Hl. rewrite <- Hl. unfold lift, mbind, M_bind.
  destruct (kn_policy_engine k intent context) as [decision|e] eqn:Hd; [|by left].
  destruct (pd_outcome decision) eqn:Ho; [by apply allowed_grants|apply denied_grants|apply pending_grants..].
Qed.
End Kernel.

(** ** Sequences of submissions, executions and other escrow operations *)
Section KernelSequences.
Context `{Protocol} `{ProtocolAuthority} `{ProtocolEffects} `{PyText}.
Context {R E B X W V N : Type} `{ReplayStore R} `{CapabilityEscrow E}.

#[local] Abbreviation kernel := (@ProtectedExecutionKernel W N).
#[local] Abbreviation kstate := (@kstate R E B X W V N).

Inductive kernel_event :=
| KSubmit (k : kernel) (context : DynamicContextInput) (ids : kernel_ids) (payload : json)
| KExecute (k : kernel) (request : ProtectedExecutionRequest) (handler : @Handler V) (ids : artifact_ids)
| KConsume (escrow_id pccb_id capability : string) (now : datetime)
| KRevoke (escrow_id reason : string).

Definition on_escrow (op : escrow_op) (s : kstate) : kstate := (zoom k_escrow_lens (escrow_run op) s).2.

Definition run_kernel_event (e : kernel_event) (s : kstate) : kstate :=
  match e with
  | KSubmit k context ids payload => (submit_intent k context ids payload s).2
  | KExecute k request handler ids => (kernel_execute k request handler ids s).2
  | KConsume id p c now => on_escrow (OpConsume id p c now) s
  | KRevoke id reason => on_escrow (OpRevoke id reason) s
  end.

Fixpoint run_kernel_events (es : list kernel_event) (s : kstate) : kstate :=
  match es with [] => s | e :: es => run_kernel_events es (run_kernel_event e s) end.

(** A submission of the sequence admitted this escrow for this proof and
    capability. *)
Definition admitted_by (es : list kernel_event) (escrow_id pccb_id capability : string) : Prop :=
  exists k context ids payload intent pccb,
    KSubmit k context ids payload ∈ es /\ admitted k context ids payload intent pccb /\
    escrow_id = kid_escrow ids /\ pccb_id = pc_pccb_id pccb /\ capability = act_capability (in_action intent).

(** Every bound escrow was admitted. *)
Definition all_admitted (es : list kernel_event) (s : kstate) : Prop :=
  forall id p c, escrow_binding (w_escrow s.1) id = Some (p, c) -> admitted_by es id p c.

Definition request_admitted (es : list kernel_event) (r : ProtectedExecutionRequest) : Prop :=
  exists id, pc_escrow_id (rq_pccb r) = JStr id /\
    admitted_by es id (pc_pccb_id (rq_pccb r)) (act_capability (in_action (rq_intent r))).

Lemma admitted_by_mono es es' id p c : es ⊆ es' -> admitted_by es id p c -> admitted_by es' id p c.
Proof. intros Hs (k & cx & ids & pl & i & q & Hin & Hrest). exists k, cx, ids, pl, i, q. split; [by apply Hs|done]. Qed.

Lemma on_escrow_binding op s id : (forall k p c x m, op <> OpIssue k p c x m) ->
  escrow_binding (w_escrow (on_escrow op s).1) id = escrow_binding (w_escrow s.1) id.
Proof.
  intros Hop. unfold on_escrow, zoom. destruct (escrow_binding_moves op (w_escrow s.1) id) as [Hb|(p & c & x & m & -> & _)].
  - simpl. by destruct (escrow_run op (w_escrow s.1)).
  - by destruct (Hop id p c x m).
Qed.

Lemma kernel_step_admitted past e s : all_admitted past s -> all_admitted (past ++ [e]) (run_kernel_event e s).
Proof.
  intros Hi id p c Hb.
  assert (escrow_binding (w_escrow s.1) id = Some (p, c) -> admitted_by (past ++ [e]) id p c) as Hold.
  { intros Hs. eapply admitted_by_mono; [|by apply Hi]. set_solver. }
  destruct e as [k cx ids pl|k rq h ids|id' p' c' now|id' why]; simpl in Hb.
  - destruct (submit_grants k cx ids pl s) as [[He _]|(i & q & o & Ha & Hr & _)]; [rewrite He in Hb; auto|].
    destruct (escrow_binding_moves (admission_issue ids i q) (w_escrow s.1) id) as [Hm|(p' & c' & x & m & Hop & _ & Hm)];
      rewrite Hr in Hm; simpl in Hm; [rewrite Hm in Hb; auto|].
    unfold admission_issue in Hop. injection Hop as <- <- <- _ _. rewrite Hm in Hb. injection Hb as <- <-.
    exists k, cx, ids, pl, i, q. split; [set_solver|done].
  - unfold kernel_execute in Hb. pose proof (mw_escrow_moves (kn_middleware k) rq h ids s.1) as Hmv.
    destruct (mw_execute (kn_middleware k) rq h ids s.1) as [r w] eqn:Hx. simpl in Hb, Hmv.
    destruct Hmv as [Hmv|(id' & p' & c' & now & Hmv)]; rewrite Hmv in Hb; [auto|]. apply Hold. rewrite <- Hb.
    by destruct (escrow_binding_moves (OpConsume id' p' c' now) (w_escrow s.1) id) as [->|(? & ? & ? & ? & ? & _)].
  - rewrite on_escrow_binding in Hb by done. auto.
  - rewrite on_escrow_binding in Hb by done. auto.
Qed.

Lemma kernel_step_calls past e s : all_admitted past s ->
  exists new, w_calls (run_kernel_event e s).1 = w_calls s.1 ++ new /\ Forall (request_admitted past) new.
Proof.
  intros Hi. destruct e as [k cx ids pl|k rq h ids|id p c now|id why]; simpl.
  - exists []. rewrite app_nil_r. split; [|done]. pose proof (submit_bystanders k cx ids pl s) as Hb.
    unfold bystanders in Hb. by injection Hb.
  - unfold kernel_execute. destruct (mw_execute (kn_middleware k) rq h ids s.1) as [r w] eqn:Hx. simpl.
    apply mw_execute_calls in Hx as [[Hc _]|(Hc & _ & [_ _ (id & o & Hid & Hr)])]; [exists []; rewrite app_nil_r; auto|].
    exists [rq]. split; [done|]. constructor; [|done]. exists id. split; [done|]. apply Hi. by eapply escrow_consume_bound.
  - exists []. rewrite app_nil_r. split; [|done]. unfold on_escrow, zoom. by destruct (escrow_run _ _).
  - exists []. rewrite app_nil_r. split; [|done]. unfold on_escrow, zoom. by destruct (escrow_run _ _).
Qed.

Lemma kernel_run_calls es past s : all_admitted past s ->
  exists new, w_calls (run_kernel_events es s).1 = w_calls s.1 ++ new /\ Forall (request_admitted (past ++ es)) new.
Proof.
  revert past s. induction es as [|e es IH]; intros past s Hi; simpl; [exists []; by rewrite app_nil_r|].
  destruct (kernel_step_calls past e s Hi) as (new & Hn & Hf).
  destruct (IH (past ++ [e]) (run_kernel_event e s)) as (new' & Hn' & Hf'); [by apply kernel_step_admitted|].
  exists (new ++ new'). rewrite Hn', Hn, app_assoc. split; [done|]. rewrite <- app_assoc in Hf'. apply Forall_app. split; [|done].
  eapply Forall_impl; [exact Hf|]. intros r (id & Hid & Ha). exists id. split; [done|]. eapply admitted_by_mono; [|exact Ha]. set_solver.
Qed.

(** A submission moves no state but the escrow, the outcome writer and the
    artifact stores; it issues an escrow only for an intent that parses, that the
    policy allows, and for the minted proof or a sealed one with the same
    bindings; and a result with a proof means that this issue succeeded. *)
Theorem admission_sound (k : kernel) (context : DynamicContextInput) (ids : kernel_ids) (payload : json) (s : kstate) :
  let o := submit_intent k context ids payload s in
  bystanders o.2 = bystanders s /\ grants_only k context ids payload (w_escrow s.1) o.
Proof. split; [apply submit_bystanders|apply submit_grants]. Qed.

(** C3: complete mediation from submission to effect: starting with no escrow
    issued, along any sequence of submissions, executions, and consumptions and
    revocations by others, every call of the handler is made under an escrow, a
    proof and a capability that an earlier submission of the sequence admitted. *)
Theorem only_admitted_requests_run (es : list kernel_event) (s : kstate) :
  (forall id, escrow_binding (w_escrow s.1) id = None) ->
  exists new, w_calls (run_kernel_events es s).1 = w_calls s.1 ++ new /\ Forall (request_admitted es) new.
Proof. intros Hn. apply (kernel_run_calls es [] s). intros id p c Hb. by rewrite Hn in Hb. Qed.
End KernelSequences.

(** ** Liveness: what a submission admits can be executed *)
Section KernelLiveness.
Context `{Protocol} `{ProtocolAuthority} `{ProtocolEffects} `{PyText}.
Context {R E B X W V N : Type} `{ReplayStore R} `{LiveEscrow E}.

#[local] Abbreviation kernel := (@ProtectedExecutionKernel W N).
#[local] Abbreviation kstate := (@kstate R E B X W V N).

Lemma admitted_escrow_id (k : kernel) context ids payload intent pccb :
  admitted k context ids payload intent pccb -> pc_escrow_id pccb = JStr (kid_escrow ids).
Proof.
  intros [_ _ (decision & local & Hm & Hb)]. apply mint_Ok in Hm as (_ & caps & h & pl & sig & _ & _ & _ & _ & ->).
  destruct Hb as [->|Hb]; [done|]. rewrite Forall_forall in Hb.
  specialize (Hb ("escrow_id", py_eqb (pc_escrow_id pccb) (JStr (kid_escrow ids)))). apply py_eqb_JStr, Hb.
  unfold required_matches. simpl. set_solver.
Qed.

(** C24: what a submission admits runs, once its conditions hold: when [submit_intent]
    returned a proof, a request with that intent and proof reaches the handler in any
    later state in which the escrow store is as the submission left it, provided the
    verifier accepts the proof there, its expiry has not passed, its replay key can be
    claimed, and it carries no effect constraint.  This holds for every escrow that
    consumes what it has just issued, as the in-memory and the SQLite one do. *)
Theorem admitted_request_runs (k : kernel) (context context' : DynamicContextInput) (ids : kernel_ids) (aids : artifact_ids)
    (payload : json) (s s' later : kstate) (ar : AdmissionResult) (intent : ActionIntent) (pccb : PCCB) (handler : @Handler V)
    (st : option ActionConsumptionState) :
  let request := build_execution_request intent pccb context' in
  submit_intent k context ids payload s = (Ok ar, s') -> ar_intent ar = Some intent -> ar_pccb ar = Some pccb ->
  w_escrow later.1 = w_escrow s'.1 ->
  verify (mw_proof_verifier (kn_middleware k)) intent pccb context' = Ok tt ->
  datetime_ok (cx_now context') -> datetime_ok (pc_expires_at pccb) -> (cx_now context' <= pc_expires_at pccb)%Z ->
  has_key "effect" (pc_extensions pccb) = false ->
  (protector_claim_request request (w_replay later.1)).1 = Ok st ->
  w_calls (kernel_execute k request handler aids later).2.1 = w_calls later.1 ++ [request].
Proof.
  intros request Hs Hi Hp Hl Hv Hdn Hdx Ht He Hc.
  pose proof (submit_grants k context ids payload s) as Hg. rewrite Hs in Hg.
  destruct Hg as [[_ Hg]|(i & q & o & Ha & Hr & Hg)]; [by rewrite (Hg ar eq_refl) in Hp|].
  destruct (Hg ar eq_refl) as (Hi' & Hp' & _ & x & ->). simpl in Hr. replace i with intent in * by congruence. replace q with pccb in * by congruence.
  destruct (escrow_issue_consume _ _ _ _ _ (cx_now context') _ _ _ Hr Hdx Hdn Ht) as [y Hy]. rewrite <- Hl in Hy.
  destruct (mw_prepare_Ok (kn_middleware k) request later.1 (kid_escrow ids) st y) as [f Hf]; [done..|by eapply admitted_escrow_id|done|done|].
  unfold kernel_execute. pose proof (mw_prepared_runs (kn_middleware k) request handler aids later.1 f Hf) as Hcalls.
  by destruct (mw_execute (kn_middleware k) request handler aids later.1) as [r w].
Qed.
End KernelLiveness.

(** ** Samples *)
Definition sample_middleware : @ProtectedEndpointMiddleware (list Receipt * list Refusal) :=
  mkMiddleware (sample_verifier TRUSTED_DETAILED) sample_writer.

(** [InMemoryActionIntentStore] and [InMemoryPCCBStore] as the lists of what was
    put, and a seal client that changes nothing. *)
Definition sample_kernel : @ProtectedExecutionKernel (list Receipt * list Refusal) (list ActionIntent * list PCCB) :=
  mkKernel (PolicyEngine_evaluate sample_engine) sample_minter sample_middleware sample_writer
    (Some (fun i => modify (fun s => (s.1 ++ [i], s.2)))) (Some (fun p => modify (fun s => (s.1, s.2 ++ [p]))))
    (Some (fun _ _ _ p => Ok p)) true.

Definition sample_kernel_ids : kernel_ids := mkKernelIds "esc_1" "pccb_1" "nonce-1" "rcpt_0" "rfsl_0".
Definition sample_payload : json := JDict (ActionIntent_to_dict sample_intent).
Definition sample_kstate : @kstate store Memory.records broker_state unit (list Receipt * list Refusal) nat (list ActionIntent * list PCCB) :=
  (mkExecWorld sample_store ∅ (mkBrokerState 0 [] []) tt [] ([], []) 0 [], ([], [])).
Definition sample_middleware_handler : @Handler nat := fun _ n => (Ok (Some [("external_reference", JStr "re_1")]), S n).

Definition sample_submit : py AdmissionResult * _ :=
  @submit_intent demo_protocol sample_authority demo_text _ _ _ _ _ _ _ memory_escrow
    sample_kernel sample_context sample_kernel_ids sample_payload sample_kstate.

Example sample_submit_admits :
  match sample_submit.1 with Ok ar => bool_decide (ar_pccb ar = Some sample_pccb) | Err _ => false end = true.
Proof. vm_compute. reflexivity. Qed.

Definition sample_kernel_events : list (@kernel_event (list Receipt * list Refusal) nat (list ActionIntent * list PCCB)) :=
  [KSubmit sample_kernel sample_context sample_kernel_ids sample_payload;
   KExecute sample_kernel sample_request sample_middleware_handler sample_ids;
   KExecute sample_kernel sample_request sample_middleware_handler sample_ids].

Definition sample_kernel_run :=
  @run_kernel_events demo_protocol sample_authority demo_text _ _ _ _ _ _ _ database_store memory_escrow
    sample_kernel_events sample_kstate.

Lemma only_admitted_requests_run_witness :
  w_calls sample_kernel_run.1 = [sample_request] /\
  exists new, w_calls sample_kernel_run.1 = [] ++ new /\
    Forall (@request_admitted demo_protocol sample_authority _ _ _ sample_kernel_events) new.
Proof.
  split; [vm_compute; reflexivity|].
  exact (@only_admitted_requests_run demo_protocol sample_authority demo_text _ _ _ _ _ _ _ database_store memory_escrow
    sample_kernel_events sample_kstate (fun id => eq_refl)).
Defined.

Definition sample_admission : AdmissionResult :=
  Eval vm_compute in match sample_submit.1 with Ok ar => ar | Err _ => mkAdmissionResult None None None None None None end.

Lemma sample_submit_Ok : sample_submit = (Ok sample_admission, sample_submit.2).
Proof. rewrite (surjective_pairing sample_submit) at 1. apply (f_equal (fun r => (r, sample_submit.2))). vm_compute. reflexivity. Qed.

Definition sample_claim : option ActionConsumptionState :=
  Eval vm_compute in match (@protector_claim_request demo_protocol _ database_store sample_request sample_store).1 with Ok st => st | Err _ => None end.

Lemma sample_claim_Ok :
  (@protector_claim_request demo_protocol _ database_store sample_request (w_replay sample_submit.2.1)).1 = Ok sample_claim.
Proof. vm_compute. reflexivity. Qed.

(** The same submission and execution over the SQLite escrow. *)
Definition sqlite_kstate : @kstate store Sqlite.table broker_state unit (list Receipt * list Refusal) nat (list ActionIntent * list PCCB) :=
  (mkExecWorld sample_store ∅ (mkBrokerState 0 [] []) tt [] ([], []) 0 [], ([], [])).
Definition sqlite_submit : py AdmissionResult * _ :=
  @submit_intent demo_protocol sample_authority demo_text _ _ _ _ _ _ _ sqlite_escrow
    sample_kernel sample_context sample_kernel_ids sample_payload sqlite_kstate.
Definition sqlite_admission : AdmissionResult :=
  Eval vm_compute in match sqlite_submit.1 with Ok ar => ar | Err _ => mkAdmissionResult None None None None None None end.
Lemma sqlite_submit_Ok : sqlite_submit = (Ok sqlite_admission, sqlite_submit.2).
Proof. rewrite (surjective_pairing sqlite_submit) at 1. apply (f_equal (fun r => (r, sqlite_submit.2))). vm_compute. reflexivity. Qed.

Lemma admitted_request_runs_witness :
  w_calls (@kernel_execute demo_protocol sample_authority demo_text _ _ _ _ _ _ _ database_store memory_escrow
    sample_kernel sample_request sample_middleware_handler sample_ids sample_submit.2).2.1 = [sample_request] /\
  w_calls (@kernel_execute demo_protocol sample_authority demo_text _ _ _ _ _ _ _ database_store sqlite_escrow
    sample_kernel sample_request sample_middleware_handler sample_ids sqlite_submit.2).2.1 = [sample_request].
Proof.
  split.
  - refine (@admitted_request_runs demo_protocol sample_authority demo_text _ _ _ _ _ _ _ database_store memory_escrow memory_live
      sample_kernel sample_context sample_context sample_kernel_ids sample_ids sample_payload sample_kstate sample_submit.2 sample_submit.2
      sample_admission sample_intent sample_pccb sample_middleware_handler sample_claim
      sample_submit_Ok _ _ eq_refl _ _ _ _ _ sample_claim_Ok); first [vm_compute; reflexivity|vm_compute; split; congruence|vm_compute; discriminate].
  - refine (@admitted_request_runs demo_protocol sample_authority demo_text _ _ _ _ _ _ _ database_store sqlite_escrow sqlite_live
      sample_kernel sample_context sample_context sample_kernel_ids sample_ids sample_payload sqlite_kstate sqlite_submit.2 sqlite_submit.2
      sqlite_admission sample_intent sample_pccb sample_middleware_handler sample_claim
      sqlite_submit_Ok _ _ eq_refl _ _ _ _ _ _); first [vm_compute; reflexivity|vm_compute; split; congruence|vm_compute; discriminate].
Defined.
