(* ===== verification/RemoteClients.v ===== *)
(** * Clients of remote services: [core/http_url.py], [proof/signers/proof_seal.py],
      the publisher of [execution_graph.py], and [proof/audit.py]

    The proof seal client asks a service for a proof to use in place of the local one;
    the graph client publishes execution anchors from a thread of its own; the audit
    sink appends a record per minted proof.  The network is a parameter: what
    [urlopen] gives for a request.

    The theorems: whatever the seal service answers, an admission goes on with the
    local proof, or with one the answer carries and that keeps every bound field, or
    is refused when a seal is required, and no answer makes it raise; publication
    returns whatever the network does; and an audit record depends on the sensitive
    parts of a proof only through their digests. *)

From S2P Require Import Prelude Text Json Errors Timestamps Canonical Contracts Runtime Samples ProofService Replay ReplayStore Escrow Receipts Artifacts AnchorLog WellKnown Executor Middleware Kernel.

(** ** [require_http_url] *)
Section Urls.
Context `{UrlLibrary}.
Definition require_http_url (url : json) (what : string) : py string :=
  let invalid : py string := Err (ValueError (what +:+ " must be an http:// or https:// URL")) in
  match url with
  | JStr s =>
      parts ← urlsplit s;
      if negb (str_mem (us_scheme parts) ["http"; "https"]) || negb (str_truthy (us_netloc parts)) then invalid else Ok s
  | _ => invalid
  end.
End Urls.

(** What [urlopen] gives for a POST: the body, an HTTP status that is an error, an
    unreachable service, or another exception. *)
Inductive http_reply := ReplyBody (body : string) | ReplyStatus (code : Z) | ReplyUnreachable (reason : string) | ReplyRaises (e : exn).

(** ** The proof seal *)
Definition seal_failed (message : string) (retryable : bool) (details : dict) : RefusalException :=
  mkRefusalException ProofSealErrorC "proof" "PROOF_SEAL_FAILED" message retryable [] [] details.

(** [transport(endpoint_url, payload, timeout_seconds)] *)
Definition ProofSealTransport : Type := string -> string -> string -> py string.

Definition NoOpProofSealClient : ProofSealClient := fun _ _ _ pccb => Ok pccb.

Section Network.
Variable urlopen : string -> string -> string -> http_reply.

Definition _default_post_json : ProofSealTransport := fun endpoint_url payload timeout_seconds =>
  match urlopen endpoint_url payload timeout_seconds with
  | ReplyBody body => Ok body
  | ReplyStatus code =>
      Err (Refused (seal_failed ("proof seal service rejected the request with HTTP " +:+ int_repr code +:+ ".") ((500 <=? code) && (code <? 600))%Z
        [("status_code", JInt code)]))
  | ReplyUnreachable reason => Err (Refused (seal_failed "proof seal service could not be reached." true [("reason", JStr reason)]))
  | ReplyRaises e => Err e
  end.

(** *** [execution_graph._default_http_transport] *)
Definition _default_http_transport (endpoint_url payload timeout_seconds : string) : py unit :=
  match urlopen endpoint_url payload timeout_seconds with
  | ReplyBody _ => Ok tt
  | ReplyStatus _ | ReplyUnreachable _ => Err (OtherError "RuntimeError")
  | ReplyRaises e => Err e
  end.
End Network.

(** [if xs: payload[k] = list(xs)] *)
Definition strings_item (k : string) (l : list string) : dict := match l with [] => [] | _ => [(k, strings l)] end.

Definition _rule_evaluation_payload (item : RuleEvaluation) : json := JDict
  ([("rule_id", JStr (re_rule_id item)); ("outcome", JStr (outcome_text (re_outcome item))); ("reason_code", JStr (re_reason_code item));
    ("summary", JStr (re_summary item))] ++
   (if dict_truthy (re_details item) then [("details", JDict (re_details item))] else []) ++
   strings_item "required_evidence" (re_required_evidence item) ++ strings_item "approver_types" (re_approver_types item)).

Definition seal_decision_payload (decision : PolicyDecision) : dict :=
  [("outcome", JStr (outcome_text (pd_outcome decision))); ("summary", JStr (pd_summary decision));
   ("rule_evaluations", JList (map _rule_evaluation_payload (pd_rule_evaluations decision)))] ++
  strings_item "reason_codes" (pd_reason_codes decision) ++ strings_item "required_evidence" (pd_required_evidence decision) ++
  strings_item "approver_types" (pd_approver_types decision).

Definition _context_payload (context : DynamicContextInput) : dict :=
  [("request_id", JStr (cx_request_id context)); ("audience", JDict (AudienceRef_to_dict (cx_audience context)));
   ("scope_capabilities", strings (cx_scope_capabilities context)); ("now", JStr (format_timestamp (cx_now context)))] ++
  (if dict_truthy (cx_facts context) then [("facts", JDict (cx_facts context))] else []) ++
  (if dict_truthy (cx_parameter_constraints context) then [("parameter_constraints", JDict (cx_parameter_constraints context))] else []) ++
  match cx_resource_selectors context with [] => [] | l => [("resource_selectors", JList (map JDict l))] end ++
  strings_item "required_evidence_types" (cx_required_evidence_types context) ++ strings_item "approver_types" (cx_approver_types context) ++
  match cx_max_ttl_seconds context with Some z => [("max_ttl_seconds", JInt z)] | None => [] end.

Definition build_proof_seal_request (intent : ActionIntent) (decision : PolicyDecision) (context : DynamicContextInput) (pccb : PCCB) : dict :=
  [("intent", JDict (ActionIntent_to_dict intent)); ("decision", JDict (seal_decision_payload decision)); ("context", JDict (_context_payload context));
   ("pccb", JDict (PCCB_to_dict pccb))].

Record HttpProofSealClient := mkSealClient { sl_endpoint_url : string; sl_timeout_seconds : string; sl_transport : ProofSealTransport }.

Section Clients.
Context `{UrlLibrary} `{Platform}.

(** [json.dumps(payload, separators=(",", ":"), sort_keys=True).encode("utf-8")] *)
Variable compact_dumps : dict -> string.

Definition HttpProofSealClient_new (endpoint_url timeout_seconds : string) (transport : ProofSealTransport) : py HttpProofSealClient :=
  _ ← require_http_url (JStr endpoint_url) "proof seal endpoint_url";
  Ok (mkSealClient endpoint_url timeout_seconds transport).

(** Reading the answer. *)
Definition sealed_pccb_of (response_body : string) : py PCCB :=
  match from_json_error (loads_no_duplicate_keys platform_parse_text platform_utf8_valid (RawBytes response_body) DEFAULT_MAX_JSON_BYTES DEFAULT_MAX_JSON_DEPTH) with
  | Err (ValueError _) => Err (Refused (seal_failed "proof seal service returned invalid JSON." false []))
  | Err e => Err e
  | Ok (JDict response) =>
      match dget response "pccb" with
      | JDict raw_pccb =>
          match PCCB_from_dict (JDict raw_pccb) with
          | Ok pccb => Ok pccb
          | Err OutOfModel => Err OutOfModel
          | Err _ => Err (Refused (seal_failed "proof seal service returned a malformed PCCB." false []))
          end
      | _ => Err (Refused (seal_failed "proof seal service response did not include a PCCB." false []))
      end
  | Ok _ => Err (Refused (seal_failed "proof seal service returned an invalid response body." false []))
  end.

Definition http_seal (client : HttpProofSealClient) : ProofSealClient := fun intent decision context pccb =>
  let body := compact_dumps (build_proof_seal_request intent decision context pccb) in
  response_body ← sl_transport client (sl_endpoint_url client) body (sl_timeout_seconds client);
  sealed_pccb_of response_body.

(** ** [HttpExecutionGraphClient] *)
Record HttpExecutionGraphClient := mkGraphClient {
  gc_endpoint_url : string; gc_timeout_seconds : string; gc_transport : string -> string -> string -> py unit
}.

Definition HttpExecutionGraphClient_new (endpoint_url timeout_seconds : string) (transport : string -> string -> string -> py unit) : py HttpExecutionGraphClient :=
  _ ← require_http_url (JStr endpoint_url) "execution graph endpoint_url";
  Ok (mkGraphClient endpoint_url timeout_seconds transport).

(** The threads that were started and have not run, the posts that were delivered, and
    the warnings that were logged. *)
Record graph_state := mkGraphState { gs_pending : list string; gs_posted : list string; gs_warnings : list exn }.

Definition graph_publish (anchor : ExecutionAnchor) : M exn graph_state unit :=
  let payload := compact_dumps (ExecutionAnchor_to_dict anchor) in
  modify (fun s => mkGraphState (gs_pending s ++ [payload]) (gs_posted s) (gs_warnings s)).

(** One thread runs to its end. *)
Definition _worker (client : HttpExecutionGraphClient) (payload : string) : M exn graph_state unit :=
  modify (fun s => match gc_transport client (gc_endpoint_url client) payload (gc_timeout_seconds client) with
                   | Ok _ => mkGraphState (gs_pending s) (gs_posted s ++ [payload]) (gs_warnings s)
                   | Err exc => mkGraphState (gs_pending s) (gs_posted s) (gs_warnings s ++ [exc])
                   end).

(** The scheduler picks any pending thread. *)
Inductive graph_step (client : HttpExecutionGraphClient) : graph_state -> graph_state -> Prop :=
| graph_run before payload after posted warnings :
    graph_step client (mkGraphState (before ++ payload :: after) posted warnings)
      (_worker client payload (mkGraphState (before ++ after) posted warnings)).2.
End Clients.

(** ** [proof/audit.py] *)
Section Audit.
Context `{Protocol}.

Definition audit_digest (value : json) : py json := hex ← sha256_hex value; Ok (JDict [("algorithm", JStr "sha-256"); ("value", JStr hex)]).
Definition _party_minimal (type id : string) : json := JDict [("type", JStr type); ("id", JStr id)].

(** [sorted] of texts *)
Definition sorted_texts (l : list string) : list string := (ksort (map (fun s => (s, tt)) l)).*1.

(** [PCCBMintAuditRecord(pccb).to_dict()] *)
Definition PCCBMintAuditRecord_to_dict (p : PCCB) : py dict :=
  tenant_digest ← audit_digest (JDict (TenantRef_to_dict (pc_tenant p)));
  subject_digest ← audit_digest (JDict (PartyRef_to_dict (pc_subject p)));
  resource_digest ← audit_digest (JDict (TargetRef_to_dict (pc_target p)));
  nonce_digest ← audit_digest (JStr (pc_nonce p));
  Ok ([("contract", JDict [("name", JStr "pccb_mint_audit_record"); ("version", JStr "v1")]); ("event_type", JStr "pccb_minted");
       ("pccb_id", JStr (pc_pccb_id p)); ("intent_id", pc_intent_id p); ("issued_at", JStr (format_timestamp (pc_issued_at p)));
       ("not_before", JStr (format_timestamp (pc_not_before p))); ("expires_at", JStr (format_timestamp (pc_expires_at p)));
       ("issuer", _party_minimal (party_type (pc_issuer p)) (party_id (pc_issuer p)));
       ("audience", _party_minimal (aud_type (pc_audience p)) (aud_id (pc_audience p)));
       ("tenant_digest", tenant_digest); ("subject_digest", subject_digest);
       ("action", JDict [("name", JStr (act_name (pc_action p))); ("capability", JStr (act_capability (pc_action p)))]);
       ("target", JDict [("resource_type", JStr (tgt_resource_type (pc_target p))); ("resource_digest", resource_digest)]);
       ("scope", JDict [("mode", JStr (sc_mode (pc_scope p))); ("capabilities", strings (sorted_texts (sc_capabilities (pc_scope p))));
                        ("single_use", JBool (sc_single_use (pc_scope p)))]);
       ("action_hash", JDict (ActionHashSpec_to_dict (pc_action_hash p))); ("nonce_digest", nonce_digest);
       ("signature", JDict [("algorithm", JStr (sig_algorithm (pc_signature p))); ("key_id", JStr (sig_key_id (pc_signature p)));
                            ("encoding", JStr (sig_encoding (pc_signature p)))])] ++
      opt_item (not_none (pc_escrow_id p)) "escrow_id" (pc_escrow_id p)).

(** [LocalAppendOnlyAuditLogSink.record_pccb_mint]: the file's text grows by a line;
    a record that cannot be built writes nothing. *)
Definition record_pccb_mint (compact_dumps : dict -> string) (p : PCCB) : M exn string unit :=
  record ← lift (PCCBMintAuditRecord_to_dict p);
  modify (fun text => text +:+ compact_dumps record +:+ String (Ascii.ascii_of_N 10) "").
End Audit.

(** ** Facts *)

(** What an audit record shows of a proof: its public fields, and digests. *)
Record audit_view := mkAuditView {
  av_ids : string * json * json; av_times : datetime * datetime * datetime; av_issuer : string * string; av_audience : string * string;
  av_action : string * string; av_resource_type : string; av_scope : string * list string * bool; av_action_hash : ActionHashSpec;
  av_signature : string * string * string; av_digests : py string * py string * py string * py string
}.

Definition audit_view_of `{Protocol} (p : PCCB) : audit_view :=
  mkAuditView (pc_pccb_id p, pc_intent_id p, pc_escrow_id p) (pc_issued_at p, pc_not_before p, pc_expires_at p)
    (party_type (pc_issuer p), party_id (pc_issuer p)) (aud_type (pc_audience p), aud_id (pc_audience p))
    (act_name (pc_action p), act_capability (pc_action p)) (tgt_resource_type (pc_target p))
    (sc_mode (pc_scope p), sorted_texts (sc_capabilities (pc_scope p)), sc_single_use (pc_scope p)) (pc_action_hash p)
    (sig_algorithm (pc_signature p), sig_key_id (pc_signature p), sig_encoding (pc_signature p))
    (sha256_hex (JDict (TenantRef_to_dict (pc_tenant p))), sha256_hex (JDict (PartyRef_to_dict (pc_subject p))),
     sha256_hex (JDict (TargetRef_to_dict (pc_target p))), sha256_hex (JStr (pc_nonce p))).

Lemma strings_inj l l' : strings l = strings l' -> l = l'.
Proof.
  intros [= Hm]. revert l' Hm. induction l as [|x l IH]; intros [|y l'] Hm; try done. injection Hm as -> Hm. f_equal. by apply IH.
Qed.

(** The record as a function of the view. *)
Definition record_of_view (v : audit_view) : py dict :=
  let '(pccb_id, intent_id, escrow_id) := av_ids v in
  let '(issued_at, not_before, expires_at) := av_times v in
  let '(tenant, subject, target, nonce) := av_digests v in
  let digest hex : json := JDict [("algorithm", JStr "sha-256"); ("value", JStr hex)] in
  let '(mode, capabilities, single_use) := av_scope v in
  let '(algorithm, key_id, encoding) := av_signature v in
  tenant ← tenant; subject ← subject; target ← target; nonce ← nonce;
  Ok ([("contract", JDict [("name", JStr "pccb_mint_audit_record"); ("version", JStr "v1")]); ("event_type", JStr "pccb_minted");
       ("pccb_id", JStr pccb_id); ("intent_id", intent_id); ("issued_at", JStr (format_timestamp issued_at));
       ("not_before", JStr (format_timestamp not_before)); ("expires_at", JStr (format_timestamp expires_at));
       ("issuer", _party_minimal (av_issuer v).1 (av_issuer v).2); ("audience", _party_minimal (av_audience v).1 (av_audience v).2);
       ("tenant_digest", digest tenant); ("subject_digest", digest subject);
       ("action", JDict [("name", JStr (av_action v).1); ("capability", JStr (av_action v).2)]);
       ("target", JDict [("resource_type", JStr (av_resource_type v)); ("resource_digest", digest target)]);
       ("scope", JDict [("mode", JStr mode); ("capabilities", strings capabilities); ("single_use", JBool single_use)]);
       ("action_hash", JDict (ActionHashSpec_to_dict (av_action_hash v))); ("nonce_digest", digest nonce);
       ("signature", JDict [("algorithm", JStr algorithm); ("key_id", JStr key_id); ("encoding", JStr encoding)])] ++
      opt_item (not_none escrow_id) "escrow_id" escrow_id).

Lemma audit_record_of_view `{Protocol} p : PCCBMintAuditRecord_to_dict p = record_of_view (audit_view_of p).
Proof.
  unfold PCCBMintAuditRecord_to_dict, record_of_view, audit_view_of, audit_digest.
  cbn [av_ids av_times av_issuer av_audience av_action av_resource_type av_scope av_action_hash av_signature av_digests fst snd].
  by destruct (sha256_hex (JDict (TenantRef_to_dict _))), (sha256_hex (JDict (PartyRef_to_dict _))), (sha256_hex (JDict (TargetRef_to_dict _))), (sha256_hex (JStr _)).
Qed.

Definition times_ok (v : audit_view) : Prop := datetime_ok (av_times v).1.1 /\ datetime_ok (av_times v).1.2 /\ datetime_ok (av_times v).2.

Lemma audit_view_record_inj v v' r : times_ok v -> times_ok v' -> record_of_view v = Ok r -> record_of_view v' = Ok r -> v' = v.
Proof.
  destruct v as [[[i1 i2] i3] [[t1 t2] t3] [s1 s2] [a1 a2] [c1 c2] rt [[m1 m2] m3] [h1 h2 h3] [[g1 g2] g3] [[[d1 d2] d3] d4]].
  destruct v' as [[[i1' i2'] i3'] [[t1' t2'] t3'] [s1' s2'] [a1' a2'] [c1' c2'] rt' [[m1' m2'] m3'] [h1' h2' h3'] [[g1' g2'] g3'] [[[d1' d2'] d3'] d4']].
  unfold times_ok, record_of_view. cbn [av_ids av_times av_issuer av_audience av_action av_resource_type av_scope av_action_hash av_signature av_digests fst snd].
  intros (Ht1 & Ht2 & Ht3) (Ht1' & Ht2' & Ht3') Hr Hr'.
  apply bind_Ok in Hr as (x1 & -> & Hr). apply bind_Ok in Hr as (x2 & -> & Hr). apply bind_Ok in Hr as (x3 & -> & Hr). apply bind_Ok in Hr as (x4 & -> & Hr).
  apply bind_Ok in Hr' as (x1' & -> & Hr'). apply bind_Ok in Hr' as (x2' & -> & Hr'). apply bind_Ok in Hr' as (x3' & -> & Hr'). apply bind_Ok in Hr' as (x4' & -> & Hr').
  rewrite <- Hr in Hr'. clear Hr. cbn [app] in Hr'.
  pose proof (format_timestamp_inj t1' t1 Ht1' Ht1) as I1. pose proof (format_timestamp_inj t2' t2 Ht2' Ht2) as I2. pose proof (format_timestamp_inj t3' t3 Ht3' Ht3) as I3.
  revert I1 I2 I3 Hr'. generalize (format_timestamp t1) (format_timestamp t2) (format_timestamp t3) (format_timestamp t1') (format_timestamp t2') (format_timestamp t3').
  intros f1 f2 f3 f1' f2' f3' I1 I2 I3 Hr'. injection Hr' as -> -> E1 E2 E3 -> -> -> -> -> -> -> -> -> -> -> Em -> -> -> -> -> -> -> -> Eesc.
  rewrite (I1 E1), (I2 E2), (I3 E3). assert (m2' = m2) as -> by (apply strings_inj; unfold strings; by rewrite Em).
  assert (i3' = i3) as -> by (unfold opt_item, not_none in Eesc; destruct i3, i3'; congruence). done.
Qed.

Lemma graph_step_delivery client s s' : graph_step client s s' ->
  exists delivered failed, gs_pending s ≡ₚ gs_pending s' ++ delivered ++ failed /\ gs_posted s' = gs_posted s ++ delivered /\
    length (gs_warnings s') = length (gs_warnings s) + length failed.
Proof.
  intros [before payload after posted warnings]. simpl.
  destruct (gc_transport client _ payload _) as [[]|e]; simpl.
  - exists [payload], []. split_and!; [|done|simpl; lia]. rewrite app_nil_r, <- app_assoc. apply Permutation_app_head. apply Permutation_cons_append.
  - exists [], [payload]. split_and!; [|by rewrite app_nil_r|rewrite length_app; simpl; lia].
    rewrite <- app_assoc. apply Permutation_app_head. apply Permutation_cons_append.
Qed.

Lemma first_mismatch_iff l : first_mismatch l = None <-> Forall (fun f => f.2 = true) l.
Proof.
  split; [apply first_mismatch_None|]. induction 1 as [|[f same] l Hs Hl IH]; [done|]. simpl in *. by rewrite Hs.
Qed.

(** ** Properties *)

(** A seal service cannot widen or break an admission: with the HTTP client in place,
    whatever the transport answers, the admission goes on with the proof of the answer
    only when the answer parses to a proof that keeps every bound field of the local
    one; otherwise it goes on with the local proof when no seal is required, and is
    refused with a seal error when one is; it never raises. *)
Theorem sealed_admission_safe `{Platform} {W N : Type} (k : @ProtectedExecutionKernel W N) (dumps : dict -> string) (client : HttpProofSealClient)
    (context : DynamicContextInput) (intent : ActionIntent) (decision : PolicyDecision) (local_pccb : PCCB) :
  kn_proof_seal_client k = Some (http_seal dumps client) ->
  let answer := sl_transport client (sl_endpoint_url client) (dumps (build_proof_seal_request intent decision context local_pccb)) (sl_timeout_seconds client) in
  let sealed p := exists body, answer = Ok body /\ sealed_pccb_of body = Ok p /\ Forall (fun f => f.2 = true) (required_matches local_pccb p) in
  match choose_pccb k context intent decision local_pccb with
  | Ok (inl pccb) => sealed pccb \/ (kn_require_proof_seal k = false /\ pccb = local_pccb /\ forall p, ~ sealed p)
  | Ok (inr exc) => kn_require_proof_seal k = true /\ exc_cls exc = ProofSealErrorC /\ forall p, ~ sealed p
  | Err e => e = OutOfModel
  end.
Proof.
  intros Hc answer sealed. unfold choose_pccb, _resolve_execution_pccb. rewrite Hc.
  change (http_seal dumps client intent decision context local_pccb) with (answer ≫= sealed_pccb_of).
  assert (forall e, answer ≫= sealed_pccb_of = Err e -> forall p, ~ sealed p) as Hno.
  { intros e He p (body & Hb & Hp & _). rewrite Hb in He. cbn [mbind res_bind] in He. congruence. }
  destruct (answer ≫= sealed_pccb_of) as [p|e] eqn:Ha.
  - apply bind_Ok in Ha as (body & Hb & Hp). unfold _validated_execution_pccb. destruct (first_mismatch (required_matches local_pccb p)) eqn:Hm.
    + cbn [exc_cls ProofSealError]. rewrite ?bool_decide_true by done.
      assert (forall q, ~ sealed q) as Hn.
      { intros q (body' & Hb' & Hp' & Hf). rewrite Hb in Hb'. injection Hb' as <-. rewrite Hp in Hp'. injection Hp' as <-. by rewrite (proj2 (first_mismatch_iff _) Hf) in Hm. }
      destruct (kn_require_proof_seal k); [done|right; done].
    + left. exists body. split; [done|]. split; [done|]. by apply first_mismatch_None.
  - specialize (Hno e eq_refl).
    destruct e as [| | | | | |exc| |]; cbn [exc_cls ProofSealError]; try done;
      [..|case_bool_decide as Hx; cbn [exc_cls ProofSealError]; rewrite ?bool_decide_true by done|]; rewrite ?bool_decide_true by done;
      (destruct (kn_require_proof_seal k); [done|right; done]).
Qed.

(** Publication never touches the outcome: it returns at once with the payload
    queued; along any schedule of the threads every payload is still pending, was
    posted, or left one warning; and the queue can always drain. *)
Theorem graph_delivery (dumps : dict -> string) (client : HttpExecutionGraphClient) (s : graph_state) :
  (forall anchor, exists s', graph_publish dumps anchor s = (Ok tt, s') /\
     gs_pending s' = gs_pending s ++ [dumps (ExecutionAnchor_to_dict anchor)] /\ gs_posted s' = gs_posted s /\ gs_warnings s' = gs_warnings s) /\
  (forall s', rtc (graph_step client) s s' -> exists delivered failed, gs_pending s ≡ₚ gs_pending s' ++ delivered ++ failed /\
     gs_posted s' = gs_posted s ++ delivered /\ length (gs_warnings s') = length (gs_warnings s) + length failed) /\
  (exists s', rtc (graph_step client) s s' /\ gs_pending s' = []).
Proof.
  split; [|split].
  - intros anchor. eexists. split; [reflexivity|]. done.
  - intros s'. induction 1 as [s|s s1 s' H1 _ (delivered & failed & Hp & Hd & Hf)].
    + exists [], []. rewrite !app_nil_r. split_and!; [done..|simpl; lia].
    + apply graph_step_delivery in H1 as (delivered1 & failed1 & Hp1 & Hd1 & Hf1). exists (delivered1 ++ delivered), (failed1 ++ failed).
      split_and!; [|by rewrite Hd, Hd1, app_assoc|rewrite Hf, Hf1, length_app; lia]. rewrite Hp1, Hp. solve_Permutation.
  - destruct s as [pending posted warnings]. revert posted warnings. induction pending as [|payload pending IH]; intros posted warnings; [eexists; split; [apply rtc_refl|done]|].
    set (s1 := (_worker client payload (mkGraphState ([] ++ pending) posted warnings)).2).
    assert (graph_step client (mkGraphState (payload :: pending) posted warnings) s1) as Hs by exact (graph_run client [] payload pending posted warnings).
    assert (gs_pending s1 = pending) as Hp1 by (unfold s1; simpl; by destruct (gc_transport _ _ _ _)).
    destruct s1 as [pending1 posted1 warnings1]. simpl in Hp1. subst pending1. destruct (IH posted1 warnings1) as (s' & Hr & Hn).
    exists s'. split; [by eapply rtc_l|done].
Qed.

(** An audit record shows exactly the public view of a proof: two proofs give the same
    record exactly when their public fields and the four digests agree, so nothing else
    of a proof (its action's parameters, identifiers, selectors, constraints or
    signature bytes) reaches the log. *)
Theorem audit_record_exact `{Protocol} (p p' : PCCB) (r : dict) :
  datetime_ok (pc_issued_at p) -> datetime_ok (pc_not_before p) -> datetime_ok (pc_expires_at p) ->
  datetime_ok (pc_issued_at p') -> datetime_ok (pc_not_before p') -> datetime_ok (pc_expires_at p') ->
  PCCBMintAuditRecord_to_dict p = Ok r ->
  (PCCBMintAuditRecord_to_dict p' = Ok r <-> audit_view_of p' = audit_view_of p).
Proof.
  intros Ht1 Ht2 Ht3 Ht1' Ht2' Ht3' Hr. rewrite !audit_record_of_view in *. split; [|by intros ->].
  intros Hr'. by apply (audit_view_record_inj _ _ r).
Qed.

(** ** Samples *)
Definition demo_transport : ProofSealTransport := fun _ _ _ => Ok (demo_line [("pccb", JDict (PCCB_to_dict sample_pccb))]).
Definition demo_seal_client : HttpProofSealClient := mkSealClient "https://seal.example/v1" "5.0" demo_transport.
Definition sealing_kernel : @ProtectedExecutionKernel (list Receipt * list Refusal) (list ActionIntent * list PCCB) :=
  mkKernel (kn_policy_engine sample_kernel) (kn_pccb_minter sample_kernel) (kn_middleware sample_kernel) (kn_outcome_writer sample_kernel)
    (kn_put_intent sample_kernel) (kn_put_pccb sample_kernel) (Some (@http_seal demo_platform demo_line demo_seal_client)) true.

Lemma sealed_admission_safe_witness : exists p,
  choose_pccb sealing_kernel sample_context sample_intent sample_decision sample_pccb = Ok (inl p) /\
  Forall (fun f => f.2 = true) (required_matches sample_pccb p).
Proof.
  pose proof (@sealed_admission_safe demo_platform _ _ sealing_kernel demo_line demo_seal_client sample_context sample_intent sample_decision sample_pccb eq_refl) as Hs.
  cbv zeta in Hs. destruct (choose_pccb sealing_kernel sample_context sample_intent sample_decision sample_pccb) as [[p|exc]|e] eqn:Hc;
    [|vm_compute in Hc; discriminate Hc..].
  destruct Hs as [(body & _ & _ & Hf)|[Hr _]]; [exists p; split; [reflexivity|exact Hf]|discriminate Hr].
Defined.

Lemma audit_record_exact_witness : exists r, @PCCBMintAuditRecord_to_dict demo_protocol sample_pccb = Ok r /\
  (@PCCBMintAuditRecord_to_dict demo_protocol sample_pccb = Ok r <-> @audit_view_of demo_protocol sample_pccb = @audit_view_of demo_protocol sample_pccb).
Proof.
  destruct (@PCCBMintAuditRecord_to_dict demo_protocol sample_pccb) as [r|e] eqn:Hr; [|vm_compute in Hr; discriminate Hr].
  exists r. split; [reflexivity|]. rewrite <- Hr at 1.
  apply (@audit_record_exact demo_protocol sample_pccb sample_pccb r); try exact Hr; vm_compute; split; congruence.
Defined.
