(* ===== verification/Endpoint.v ===== *)
(** * Verifier SDK and protected endpoints: [verifier/sdk.py], [verifier/endpoint.py]

    [VerifierSDK] parses and verifies a presented intent and proof and, where the
    proof is bound to an effect, claims it.  [PythonProtectedEndpoint] runs a
    handler behind the escrow middleware; [LocalAdmissionProtectedEndpoint] takes a
    raw request through admission and execution in one call, against the interface
    [AdmissionKernel], which the kernel implements.  Fresh identifiers and the
    clock are arguments.

    The theorems: what the SDK returns has been verified, and its effect claimed;
    the endpoint runs its handler only on payloads that parse and verify, within
    capabilities its configuration names and never the intent; local admission
    runs the handler at most once, only for what this very call admitted, and
    reports what happened. *)

From S2P Require Import Prelude Text Json Errors Timestamps Canonical Contracts Runtime Samples ProofService Replay ReplayStore Escrow Receipts Idempotency Credentials Effects Executor ExecutorFrames ExecutorProofs Policy Middleware Kernel.

Record VerifiedPortableRequest := mkPortable { vp_intent : ActionIntent; vp_pccb : PCCB; vp_context : DynamicContextInput }.

Definition DEFAULT_CLOCK_SKEW_TOLERANCE : Z := 0.

Section Sdk.
Context `{Protocol} `{ProtocolAuthority} `{ProtocolEffects} {X : Type}.

Record VerifierSDK := mkSDK { sdk_proof_verifier : PCCBVerifier; sdk_effect_protector : option (EffectProtector X) }.

Definition VerifierSDK_new (env : option string) (signer : SignatureVerifier) (clock_skew_tolerance : Z) (disclosure_mode : VerifierDisclosureMode)
    (revocation_checker : option (PCCB -> DynamicContextInput -> py bool)) (effect_protector : option (EffectProtector X)) : py VerifierSDK :=
  proof_verifier ← PCCBVerifier_init env (mkPCCBVerifier signer clock_skew_tolerance disclosure_mode revocation_checker None None);
  Ok (mkSDK proof_verifier effect_protector).

Definition parse_intent (payload : json) : py ActionIntent := parse payload.
Definition parse_pccb (payload : json) : py PCCB := PCCB_from_dict payload.

Definition sdk_build_context (request_id : string) (audience : AudienceRef) (now : datetime) (scope_capabilities : list string)
    (parameter_constraints : option dict) (resource_selectors : list dict) : DynamicContextInput :=
  mkContext request_id audience scope_capabilities now [] (default [] parameter_constraints) resource_selectors [] [] None.

Definition EFFECT_UNVERIFIED : exn :=
  Refused (ProofVerificationError "POLICY_REFUSAL" "This proof requires authoritative effect ownership verification at the edge." []).

Definition sdk_verify (sdk : VerifierSDK) (intent : ActionIntent + json) (pccb : PCCB + json) (context : DynamicContextInput) :
    M exn X VerifiedPortableRequest :=
  resolved_intent ← lift match intent with inl i => Ok i | inr payload => parse_intent payload end;
  resolved_pccb ← lift match pccb with inl p => Ok p | inr payload => parse_pccb payload end;
  _ ← lift (verify (sdk_proof_verifier sdk) resolved_intent resolved_pccb context);
  match sdk_effect_protector sdk with
  | None => if has_key "effect" (pc_extensions resolved_pccb) then raise EFFECT_UNVERIFIED
            else mret (mkPortable resolved_intent resolved_pccb context)
  | Some protector =>
      _ ← claim_effect protector (mkRequest resolved_intent resolved_pccb context);
      mret (mkPortable resolved_intent resolved_pccb context)
  end.

Definition verify_payloads (sdk : VerifierSDK) (intent_payload pccb_payload : json) (request_id : string) (audience : AudienceRef) (now : datetime)
    (scope_capabilities : list string) (parameter_constraints : option dict) (resource_selectors : list dict) : M exn X VerifiedPortableRequest :=
  sdk_verify sdk (inr intent_payload) (inr pccb_payload)
    (sdk_build_context request_id audience now scope_capabilities parameter_constraints resource_selectors).
End Sdk.
Arguments VerifierSDK : clear implicits.

(** ** [PythonProtectedEndpoint] *)
Section Endpoint.
Context `{Protocol} `{ProtocolAuthority} `{ProtocolEffects} `{PyText}.
Context {R E B X W V : Type} `{ReplayStore R} `{CapabilityEscrow E}.

Record PythonProtectedEndpoint := mkEndpoint {
  pe_signer : SignatureVerifier; pe_outcome_writer : OutcomeWriter W; pe_scope_capabilities : list string
}.

Variable env : option string.
Variable ep : PythonProtectedEndpoint.

Definition MISSING_SCOPE : exn :=
  ValueError "PythonProtectedEndpoint requires explicit non-empty trusted scope_capabilities (configure scope_capabilities on the endpoint or pass scope_capabilities=(...) per request); edge capability scope must never be derived from the untrusted intent.".

Definition endpoint_build_context (request_id : string) (audience : AudienceRef) (now : datetime) (scope_capabilities : option (list string)) :
    py DynamicContextInput :=
  let effective_capabilities := default (pe_scope_capabilities ep) scope_capabilities in
  match effective_capabilities with
  | [] => Err MISSING_SCOPE
  | _ =>
      _ ← VerifierSDK_new (X := X) env (pe_signer ep) DEFAULT_CLOCK_SKEW_TOLERANCE TRUSTED_DETAILED None None;
      Ok (sdk_build_context request_id audience now effective_capabilities None [])
  end.

Definition endpoint_build_request (intent : ActionIntent) (pccb : PCCB) (request_id : string) (audience : AudienceRef) (now : datetime)
    (scope_capabilities : option (list string)) : py ProtectedExecutionRequest :=
  context ← endpoint_build_context request_id audience now scope_capabilities;
  Ok (mkRequest intent pccb context).

Definition endpoint_execute (request : ProtectedExecutionRequest) (handler : @Handler V) (ids : artifact_ids) : M exn (world R E B X W V) ExecutionResult :=
  proof_verifier ← lift (PCCBVerifier_init env (mkPCCBVerifier (pe_signer ep) DEFAULT_CLOCK_SKEW_TOLERANCE (default_disclosure_mode env) None None None));
  mw_execute (mkMiddleware proof_verifier (pe_outcome_writer ep)) request handler ids.

Definition execute_payloads (intent_payload pccb_payload : json) (request_id : string) (audience : AudienceRef) (now : datetime) (handler : @Handler V)
    (scope_capabilities : option (list string)) (ids : artifact_ids) : M exn (world R E B X W V) ExecutionResult :=
  _ ← lift (VerifierSDK_new (X := X) env (pe_signer ep) DEFAULT_CLOCK_SKEW_TOLERANCE TRUSTED_DETAILED None None);
  intent ← lift (parse_intent intent_payload);
  pccb ← lift (parse_pccb pccb_payload);
  request ← lift (endpoint_build_request intent pccb request_id audience now scope_capabilities);
  endpoint_execute request handler ids.

(** The verifier the endpoint's middleware uses. *)
Definition endpoint_verifier : PCCBVerifier :=
  mkPCCBVerifier (pe_signer ep) DEFAULT_CLOCK_SKEW_TOLERANCE (default_disclosure_mode env) None None None.

Lemma endpoint_verifier_init : PCCBVerifier_init env endpoint_verifier = Ok endpoint_verifier.
Proof. unfold PCCBVerifier_init, endpoint_verifier, default_disclosure_mode. simpl. by destruct (_is_production_like_env env). Qed.

Lemma sdk_init : VerifierSDK_new (X := X) env (pe_signer ep) DEFAULT_CLOCK_SKEW_TOLERANCE TRUSTED_DETAILED None None =
  Ok (mkSDK (mkPCCBVerifier (pe_signer ep) DEFAULT_CLOCK_SKEW_TOLERANCE TRUSTED_DETAILED None None None) None).
Proof. reflexivity. Qed.
End Endpoint.

(** ** [LocalAdmissionProtectedEndpoint] *)

(** The three operations of a kernel an endpoint uses. *)
Record AdmissionKernel (S V : Type) := mkAdmissionKernel {
  ak_submit_intent : json -> DynamicContextInput -> M exn S AdmissionResult;
  ak_build_execution_request : ActionIntent -> PCCB -> DynamicContextInput -> ProtectedExecutionRequest;
  ak_execute : ProtectedExecutionRequest -> @Handler V -> M exn S ExecutionResult
}.
Arguments ak_submit_intent {S V} _ _ _.
Arguments ak_build_execution_request {S V} _ _ _ _.
Arguments ak_execute {S V} _ _ _.

Record LocalAdmissionOutcome := mkLocalOutcome {
  lo_request_id : string; lo_normalized_intent_payload : dict; lo_decision : option PolicyDecision; lo_admission_receipt : option Receipt;
  lo_execution_receipt : option Receipt; lo_refusal : option Refusal; lo_pccb : option PCCB; lo_escrow_id : option string;
  lo_protected_response : option dict; lo_mode : string
}.

Definition LOCAL_ADMISSION_MODE : string := "proof-absent-local-admission".

Definition final_outcome (o : LocalAdmissionOutcome) : string :=
  match lo_execution_receipt o, lo_refusal o, lo_decision o with
  | Some r, _, _ => rc_outcome r
  | None, Some _, _ => "refused"
  | None, None, Some d => outcome_text (pd_outcome d)
  | None, None, None => "invalid"
  end.

Definition text_list (l : list string) : json := JList (map JStr l).

Definition _decision_payload (decision : option PolicyDecision) : json :=
  match decision with
  | None => JNull
  | Some d =>
      JDict [("outcome", JStr (outcome_text (pd_outcome d))); ("summary", JStr (pd_summary d)); ("reason_codes", text_list (pd_reason_codes d));
        ("required_evidence", text_list (pd_required_evidence d)); ("approver_types", text_list (pd_approver_types d));
        ("rule_evaluations", JList (map (fun item =>
           JDict [("rule_id", JStr (re_rule_id item)); ("outcome", JStr (outcome_text (re_outcome item))); ("reason_code", JStr (re_reason_code item));
             ("summary", JStr (re_summary item)); ("details", JDict (re_details item)); ("required_evidence", text_list (re_required_evidence item));
             ("approver_types", text_list (re_approver_types item))]) (pd_rule_evaluations d)))]
  end.

Definition or_null {A} (to_dict : A -> dict) (o : option A) : json := match o with Some a => JDict (to_dict a) | None => JNull end.

Definition LocalAdmissionOutcome_to_dict (o : LocalAdmissionOutcome) : dict :=
  [("mode", JStr (lo_mode o)); ("request_id", JStr (lo_request_id o)); ("final_outcome", JStr (final_outcome o));
   ("normalized_action_intent", JDict (lo_normalized_intent_payload o)); ("decision", _decision_payload (lo_decision o));
   ("escrow_id", match lo_escrow_id o with Some e => JStr e | None => JNull end); ("pccb", or_null PCCB_to_dict (lo_pccb o));
   ("admission_receipt", or_null Receipt_to_dict (lo_admission_receipt o)); ("execution_receipt", or_null Receipt_to_dict (lo_execution_receipt o));
   ("refusal", or_null Refusal_to_dict (lo_refusal o)); ("protected_response", or_null id (lo_protected_response o))].

Section LocalAdmission.
Context {S V : Type}.

Record LocalAdmissionProtectedEndpoint := mkLocalEndpoint {
  la_kernel : AdmissionKernel S V;
  la_normalize_action_intent : dict -> string -> datetime -> py dict;
  la_build_admission_context : dict -> dict -> string -> datetime -> py DynamicContextInput
}.

(** What the factories return when the caller names neither. *)
Record local_defaults := mkLocalDefaults { ld_request_id : string; ld_now : datetime }.

Definition resolved_id (request_id : option string) (d : local_defaults) : string :=
  match request_id with Some s => if str_truthy s then s else ld_request_id d | None => ld_request_id d end.

Definition admit_and_execute (e : LocalAdmissionProtectedEndpoint) (raw_request : dict) (handler : @Handler V) (request_id : option string)
    (now : option datetime) (d : local_defaults) : M exn S LocalAdmissionOutcome :=
  let resolved_request_id := resolved_id request_id d in
  let resolved_now := default (ld_now d) now in
  normalized_intent_payload ← lift (la_normalize_action_intent e raw_request resolved_request_id resolved_now);
  context ← lift (la_build_admission_context e raw_request normalized_intent_payload resolved_request_id resolved_now);
  admission ← ak_submit_intent (la_kernel e) (JDict normalized_intent_payload) context;
  let stopped := mkLocalOutcome resolved_request_id normalized_intent_payload (ar_decision admission) (ar_receipt admission) None
    (ar_refusal admission) (ar_pccb admission) (ar_escrow_id admission) None LOCAL_ADMISSION_MODE in
  match ar_intent admission, ar_decision admission, ar_pccb admission with
  | Some intent, Some decision, Some pccb =>
      if negb (String.eqb (outcome_text (pd_outcome decision)) "allow") then mret stopped
      else
        execution ← ak_execute (la_kernel e) (ak_build_execution_request (la_kernel e) intent pccb context) handler;
        mret (mkLocalOutcome resolved_request_id normalized_intent_payload (ar_decision admission) (ar_receipt admission) (er_receipt execution)
          (er_refusal execution) (ar_pccb admission) (ar_escrow_id admission) (er_payload execution) LOCAL_ADMISSION_MODE)
  | _, _, _ => mret stopped
  end.
End LocalAdmission.
Arguments LocalAdmissionProtectedEndpoint : clear implicits.

(** The kernel implements the interface. *)
Section KernelAdmission.
Context `{Protocol} `{ProtocolAuthority} `{ProtocolEffects} `{PyText}.
Context {R E B X W V N : Type} `{ReplayStore R} `{CapabilityEscrow E}.

Definition kernel_admission (k : @ProtectedExecutionKernel W N) (kids : kernel_ids) (aids : artifact_ids) : AdmissionKernel (@kstate R E B X W V N) V :=
  mkAdmissionKernel _ _ (fun payload context => submit_intent k context kids payload) build_execution_request
    (fun request handler => kernel_execute k request handler aids).
End KernelAdmission.

(** What the SDK returns is verified: the presented intent passed the intake and
    the presented proof its parser (where they were payloads), the proof verifier
    accepted the two in the given context, and a proof bound to an effect got
    through only with an effect protector, which owns exactly that effect and
    whose ledger granted the claim. *)
Theorem sdk_verified_and_claimed `{Protocol} `{ProtocolAuthority} `{ProtocolEffects} {X : Type} (sdk : VerifierSDK X)
    (intent : ActionIntent + json) (pccb : PCCB + json) (context : DynamicContextInput) (x x' : X) (v : VerifiedPortableRequest) :
  sdk_verify sdk intent pccb context x = (Ok v, x') ->
  (match intent with inl i => vp_intent v = i | inr payload => parse_intent payload = Ok (vp_intent v) end) /\
  (match pccb with inl p => vp_pccb v = p | inr payload => parse_pccb payload = Ok (vp_pccb v) end) /\
  vp_context v = context /\
  verify (sdk_proof_verifier sdk) (vp_intent v) (vp_pccb v) context = Ok tt /\
  match sdk_effect_protector sdk with
  | None => has_key "effect" (pc_extensions (vp_pccb v)) = false /\ x' = x
  | Some p => exists ref, effect_owned p (mkRequest (vp_intent v) (vp_pccb v) context) ref /\
      ep_claim p ref (mkRequest (vp_intent v) (vp_pccb v) context) x = (Ok (JBool true), x')
  end.
Proof.
  unfold sdk_verify. intros (i & x1 & [= Hi <-] & Hv)%M_bind_Ok. apply M_bind_Ok in Hv as (p & x2 & [= Hp <-] & Hv).
  apply M_bind_Ok in Hv as ([] & x3 & [= Hver <-] & Hv).
  assert (vp_intent v = i /\ vp_pccb v = p /\ vp_context v = context /\
    match sdk_effect_protector sdk with
    | None => has_key "effect" (pc_extensions p) = false /\ x' = x
    | Some pr => exists ref, claim_effect pr (mkRequest i p context) x = (Ok ref, x')
    end) as (-> & -> & -> & He).
  { destruct (sdk_effect_protector sdk) as [pr|].
    - apply M_bind_Ok in Hv as (ref & x4 & Hc & [= <- <-]). eauto.
    - destruct (has_key "effect" _); [discriminate Hv|]. by injection Hv as <- <-. }
  split_and!; try done.
  - destruct intent; [by injection Hi|done].
  - destruct pccb; [by injection Hp|done].
  - destruct (sdk_effect_protector sdk) as [pr|]; [|done]. destruct He as (ref & Hc). exists ref. by apply effect_claim_sound in Hc.
Qed.

(** The protected endpoint mediates completely and never takes its capability
    scope from the request: executing two payloads leaves the handler uncalled and
    its environment as it was, or calls it once, on the parsed intent and proof,
    in a context whose capabilities are the ones configured (or given per call)
    and are not empty, with the proof verified and the escrow consumed. *)
Theorem endpoint_confined `{Protocol} `{ProtocolAuthority} `{PyText} {R E B X W V : Type} `{ReplayStore R} `{CapabilityEscrow E}
    (env : option string) (ep : @PythonProtectedEndpoint W) (intent_payload pccb_payload : json) (request_id : string) (audience : AudienceRef)
    (now : datetime) (handler : @Handler V) (scope : option (list string)) (ids : artifact_ids) (w : world R E B X W V) :
  let w' := (execute_payloads env ep intent_payload pccb_payload request_id audience now handler scope ids w).2 in
  (w_calls w' = w_calls w /\ w_env w' = w_env w) \/
  exists request,
    w_calls w' = w_calls w ++ [request] /\ w_env w' = (handler request (w_env w)).2 /\
    parse intent_payload = Ok (rq_intent request) /\ PCCB_from_dict pccb_payload = Ok (rq_pccb request) /\
    cx_scope_capabilities (rq_context request) = default (pe_scope_capabilities ep) scope /\ cx_scope_capabilities (rq_context request) <> [] /\
    cx_audience (rq_context request) = audience /\ cx_now (rq_context request) = now /\
    mw_cleared (mkMiddleware (endpoint_verifier env ep) (pe_outcome_writer ep)) request w w'.
Proof.
  cbv zeta. unfold execute_payloads. rewrite sdk_init. unfold mbind, M_bind, lift.
  destruct (parse_intent intent_payload) as [intent|e] eqn:Hi; [|by left]. destruct (parse_pccb pccb_payload) as [pccb|e] eqn:Hp; [|by left].
  destruct (endpoint_build_request _ _ _ _ _ _ _ _) as [request|e] eqn:Hr; [|by left].
  unfold endpoint_execute. change (mkPCCBVerifier (pe_signer ep) DEFAULT_CLOCK_SKEW_TOLERANCE (default_disclosure_mode env) None None None) with (endpoint_verifier env ep).
  rewrite endpoint_verifier_init. unfold mbind, M_bind, lift.
  destruct (mw_execute _ request handler ids w) as [r w'] eqn:Hx.
  destruct (mw_execute_calls _ _ _ _ _ _ _ Hx) as [?|(Hc & He & Hcl)]; [by left|right]. exists request.
  unfold endpoint_build_request, endpoint_build_context in Hr. apply bind_Ok in Hr as (context & Hctx & [= <-]).
  destruct (default (pe_scope_capabilities ep) scope) as [|c cs] eqn:Ec; [discriminate Hctx|]. rewrite sdk_init in Hctx. injection Hctx as <-.
  by split_and!.
Qed.

(** Local admission runs the handler only for what it admitted itself: one call
    takes a raw request through normalisation, admission and execution, and either
    leaves the handler uncalled and its environment as it was, or calls it once,
    on the intent and proof that this call's submission admitted (the normalised
    payload parsed, the policy allowed it in the context built for it, and the
    proof is the minted one or its sealed copy). Whenever it returns a result with
    an execution receipt, the decision it reports is an allow. *)
Theorem local_admission_mediated `{Protocol} `{ProtocolAuthority} `{PyText} {R E B X W V N : Type} `{ReplayStore R} `{CapabilityEscrow E}
    (k : @ProtectedExecutionKernel W N) (kids : kernel_ids) (aids : artifact_ids) (e : LocalAdmissionProtectedEndpoint (@kstate R E B X W V N) V)
    (raw_request : dict) (handler : @Handler V) (request_id : option string) (now : option datetime) (d : local_defaults) (s : @kstate R E B X W V N) :
  la_kernel e = kernel_admission k kids aids ->
  let o := admit_and_execute e raw_request handler request_id now d s in
  ((w_calls o.2.1 = w_calls s.1 /\ w_env o.2.1 = w_env s.1) \/
   exists payload context intent pccb,
     la_normalize_action_intent e raw_request (resolved_id request_id d) (default (ld_now d) now) = Ok payload /\
     la_build_admission_context e raw_request payload (resolved_id request_id d) (default (ld_now d) now) = Ok context /\
     admitted k context kids (JDict payload) intent pccb /\
     w_calls o.2.1 = w_calls s.1 ++ [mkRequest intent pccb context] /\ w_env o.2.1 = (handler (mkRequest intent pccb context) (w_env s.1)).2) /\
  (forall out, o.1 = Ok out -> lo_execution_receipt out <> None -> exists decision, lo_decision out = Some decision /\ pd_outcome decision = Allow).
Proof.
  intros Hk. cbv zeta. destruct (admit_and_execute e raw_request handler request_id now d s) as [r s'] eqn:Ho. cbn [fst snd]. revert Ho.
  unfold admit_and_execute. cbv zeta. rewrite Hk. cbn [kernel_admission ak_submit_intent ak_execute ak_build_execution_request].
  unfold mbind at 1, M_bind at 1, lift at 1. destruct (la_normalize_action_intent _ _ _ _) as [payload|] eqn:Hn; [|intros [= <- <-]; by split; [left|intros]].
  unfold mbind at 1, M_bind at 1, lift at 1. destruct (la_build_admission_context _ _ _ _ _) as [context|] eqn:Hc; [|intros [= <- <-]; by split; [left|intros]].
  unfold mbind at 1, M_bind at 1. pose proof (submit_bystanders k context kids (JDict payload) s) as Hb.
  pose proof (submit_grants k context kids (JDict payload) s) as Hg. destruct (submit_intent k context kids (JDict payload) s) as [[ar|x] s1]; cbn [snd] in Hb.
  2: { intros [= <- <-]. split; [left|by intros]. by injection Hb as _ _ _ _ -> ->. }
  assert (w_calls s1.1 = w_calls s.1 /\ w_env s1.1 = w_env s.1) as [Hcalls Henv] by (by injection Hb as _ _ _ _ -> ->).
  destruct (ar_intent ar) as [intent|] eqn:Ei, (ar_decision ar) as [decision|] eqn:Ed, (ar_pccb ar) as [pccb|] eqn:Ep;
    try (intros [= <- <-]; split; [by left|by intros out [= <-]]).
  destruct (String.eqb_spec (outcome_text (pd_outcome decision)) "allow") as [Ha|]; cbn [negb]; [|intros [= <- <-]; split; [by left|by intros out [= <-]]].
  assert (pd_outcome decision = Allow) as Hal by (by destruct (pd_outcome decision)).
  assert (admitted k context kids (JDict payload) intent pccb) as Hadm.
  { destruct Hg as [[_ Hg]|(i & p & issued & Hadm & _ & Hg)]; [by rewrite (Hg ar eq_refl) in Ep|].
    destruct (Hg ar eq_refl) as (? & ? & _). by simplify_eq. }
  unfold mbind, M_bind, kernel_execute, build_execution_request.
  destruct (mw_execute (kn_middleware k) (mkRequest intent pccb context) handler aids s1.1) as [r1 w] eqn:Hx.
  assert ((w_calls w = w_calls s.1 /\ w_env w = w_env s.1) \/ (w_calls w = w_calls s.1 ++ [mkRequest intent pccb context] /\
    w_env w = (handler (mkRequest intent pccb context) (w_env s.1)).2)) as Hw.
  { rewrite <- Hcalls, <- Henv. destruct (mw_execute_calls _ _ _ _ _ _ _ Hx) as [?|(? & ? & _)]; [by left|by right]. }
  destruct r1; intros [= <- <-]; (split; [destruct Hw as [?|[? ?]]; [by left|right; by exists payload, context, intent, pccb]|]);
    intros out [= <-] _. by exists decision.
Qed.

(** ** Samples *)
Definition sample_sdk : VerifierSDK unit := mkSDK (sample_verifier TRUSTED_DETAILED) None.

Lemma sdk_verified_and_claimed_witness : exists v,
  @sdk_verify demo_protocol sample_authority sample_effects unit sample_sdk (inr sample_payload) (inr (JDict (PCCB_to_dict sample_pccb))) sample_context tt = (Ok v, tt) /\
  @verify demo_protocol sample_authority (sample_verifier TRUSTED_DETAILED) (vp_intent v) (vp_pccb v) sample_context = Ok tt.
Proof.
  eexists. split; [vm_compute; reflexivity|].
  refine (proj1 (proj2 (proj2 (proj2 (@sdk_verified_and_claimed demo_protocol sample_authority sample_effects unit sample_sdk (inr sample_payload)
    (inr (JDict (PCCB_to_dict sample_pccb))) sample_context tt tt _ _))))).
  vm_compute. reflexivity.
Defined.

Definition sample_admission_kernel :=
  @kernel_admission demo_protocol sample_authority demo_text _ _ broker_state unit _ nat _ database_store memory_escrow sample_kernel sample_kernel_ids sample_ids.
Definition sample_local_endpoint : LocalAdmissionProtectedEndpoint _ nat :=
  mkLocalEndpoint sample_admission_kernel (fun raw _ _ => Ok raw) (fun _ _ _ _ => Ok sample_context).
Definition sample_local_run :=
  admit_and_execute sample_local_endpoint (ActionIntent_to_dict sample_intent) sample_middleware_handler None None (mkLocalDefaults "req_1" sample_now) sample_kstate.

Lemma local_admission_mediated_witness :
  w_calls sample_local_run.2.1 = [sample_request] /\
  (forall out, sample_local_run.1 = Ok out -> lo_execution_receipt out <> None -> exists decision, lo_decision out = Some decision /\ pd_outcome decision = Allow).
Proof.
  split; [vm_compute; reflexivity|].
  refine (proj2 (@local_admission_mediated demo_protocol sample_authority demo_text _ _ _ unit _ nat _ database_store memory_escrow sample_kernel
    sample_kernel_ids sample_ids sample_local_endpoint (ActionIntent_to_dict sample_intent) sample_middleware_handler None None
    (mkLocalDefaults "req_1" sample_now) sample_kstate _)).
  reflexivity.
Defined.
