(* ===== verification/Boundary.v ===== *)
(** * The boundary verifier: [actenon/boundary/__init__.py]

    [BoundaryVerifier] is what a resource puts in front of its own handler: it
    decodes a proof token, binds the proof to the exact intent and to what the
    route declares, verifies it, enforces single use (a shared replay store or a
    set of keys in the process) and claims the effect the proof names.  Fresh
    identifiers and the clock are arguments.

    The theorems: a valid result means that all of it happened for one decoded
    proof and one intent, and an unverified proof leaves no trace; along any
    sequence of requests a proof is reported valid at most once, even when other
    workers use the same store; a receipt is constructed exactly for the verified
    request and with the outcome its evidence reports. *)

From Stdlib Require Import Ascii.
From S2P Require Import Prelude AnchorLog Text Json Errors Timestamps Canonical Base64 Contracts Runtime Samples ProofService SecurityPosture Replay ReplayStore Receipts Artifacts Effects Executor ExecutorProofs Kernel.

Definition PROOF_TOKEN_PREFIX : string := "v1.".

Record BoundaryVerificationRequest := mkBoundaryRequest {
  bq_proof_token : string; bq_action_type : string; bq_action_hash : string; bq_audience : string; bq_boundary_id : string; bq_target : string;
  bq_intent : option (ActionIntent + json); bq_now : option datetime; bq_scope_capabilities : list string
}.

Record BoundaryVerificationResult := mkBoundaryResult {
  br_valid : bool; br_reason : string; br_refusal_code : string; br_proof_id : option string; br_receipt_id : option string;
  br_verified_at : string; br_effect_reference : option EffectReference; br_verified_request_hash : string
}.

(** What one call draws from its surroundings: two [uuid4().hex] texts, the
    clock, and the ISO text of the time of the result. *)
Record boundary_draws := mkDraws { bd_request_uuid : string; bd_receipt_uuid : string; bd_now : datetime; bd_now_text : string }.

Definition success (clock proof_id receipt_id : string) (effect_reference : option EffectReference) (verified_request_hash : string) : BoundaryVerificationResult :=
  mkBoundaryResult true "verified" "" (Some proof_id) (Some receipt_id) clock effect_reference verified_request_hash.

Definition failure (clock reason refusal_code : string) : BoundaryVerificationResult :=
  mkBoundaryResult false reason refusal_code None None clock None "".

(** [s.removeprefix(p)] *)
Definition removeprefix (p s : string) : string := default s (strip_prefix p s).

Definition _parse_audience (raw : string) : py AudienceRef :=
  match py_partition ":" raw with
  | None => Ok (mkAudienceRef "service" raw JNull)
  | Some (audience_type, audience_id) =>
      if negb (str_truthy audience_type) || negb (str_truthy audience_id)
      then Err (ValueError "audience must be 'type:id' or a bare service id")
      else Ok (mkAudienceRef audience_type audience_id JNull)
  end.

Definition is_refusal_exception (e : exn) : bool := match e with Refused _ => true | _ => false end.
(** [except ProofVerificationError] *)
Definition as_proof_error (e : exn) : option RefusalException :=
  match e with Refused r => if bool_decide (exc_cls r = ProofVerificationErrorC) then Some r else None | _ => None end.

Section Decode.
Context `{Protocol} `{Platform} `{Base64Padding}.

Definition NOT_A_TOKEN : exn := ValueError "proof token is neither PCCB JSON nor base64url-encoded PCCB JSON".

Definition _decode_proof_token (token : string) : py PCCB :=
  let text := py_strip token in
  text ← (if match strip_prefix "{" text with Some _ => true | None => false end then Ok text
          else match b64url_decode (removeprefix PROOF_TOKEN_PREFIX text) with
               | Ok bytes => if platform_utf8_valid bytes then Ok bytes else Err NOT_A_TOKEN
               | Err _ => Err NOT_A_TOKEN
               end);
  payload ← from_json_error (loads_no_duplicate_keys platform_parse_text platform_utf8_valid (RawStr text) DEFAULT_MAX_JSON_BYTES DEFAULT_MAX_JSON_DEPTH);
  match payload with
  | JDict _ => PCCB_from_dict payload
  | _ => Err (ValueError "proof token must decode to a JSON object")
  end.
End Decode.

Section Boundary.
Context `{Protocol} `{ProtocolAuthority} `{ProtocolEffects} `{Platform} `{Base64Padding}.
Context {R X : Type} `{ReplayStore R}.

(** The fields of the object that do not change; [bv_durable] when
    [self._replay_store] is a store. *)
Record BoundaryVerifier := mkBoundaryVerifier {
  bv_pccb_verifier : option PCCBVerifier; bv_effect_protector : option (EffectProtector X); bv_scope_capabilities : list string;
  bv_security_downgrades : list string; bv_durable : bool
}.

(** What it works on: the store, [self._replay_keys] and the effect ledger. *)
Record boundary_state := mkBoundaryState { bs_store : R; bs_replay_keys : gset string; bs_ledger : X }.
Definition store_lens : lens boundary_state R := mkLens _ _ bs_store (fun r s => mkBoundaryState r (bs_replay_keys s) (bs_ledger s)).
Definition ledger_lens : lens boundary_state X := mkLens _ _ bs_ledger (fun x s => mkBoundaryState (bs_store s) (bs_replay_keys s) x).
Definition set_replay_keys (f : gset string -> gset string) (s : boundary_state) : boundary_state :=
  mkBoundaryState (bs_store s) (f (bs_replay_keys s)) (bs_ledger s).

Definition BoundaryVerifier_new (e : environment) (pccb_verifier : option PCCBVerifier) (replay_store : bool)
    (effect_protector : option (EffectProtector X)) (scope_capabilities : list string) : py BoundaryVerifier :=
  match pccb_verifier with
  | Some _ =>
      if replay_store || replay_db_configured e then Ok (mkBoundaryVerifier pccb_verifier effect_protector scope_capabilities [] true)
      else d ← permit_process_local_replay e; Ok (mkBoundaryVerifier pccb_verifier effect_protector scope_capabilities [d] false)
  | None => Ok (mkBoundaryVerifier None effect_protector scope_capabilities [] replay_store)
  end.

(** How a check ends the call: by returning a result or by raising. *)
Inductive stop := Return (r : BoundaryVerificationResult) | Raise (e : exn).
Definition catching {A} (m : py A) (h : exn -> option BoundaryVerificationResult) : res stop A :=
  match m with Ok a => Ok a | Err e => Err match h e with Some r => Return r | None => Raise e end end.

Section Verify.
Variable bv : BoundaryVerifier.
Variable d : boundary_draws.
Let fail (reason code : string) : BoundaryVerificationResult := failure (bd_now_text d) reason code.
Definition refuse_if (cond : bool) (reason code : string) : res stop unit := if cond then Err (Return (fail reason code)) else Ok tt.

Definition resolve_intent (intent : ActionIntent + json) : py ActionIntent := match intent with inl i => Ok i | inr payload => parse payload end.

Definition trusted_capabilities (request : BoundaryVerificationRequest) : list string :=
  match bq_scope_capabilities request with
  | [] => match bv_scope_capabilities bv with [] => [bq_action_type request] | l => l end
  | l => l
  end.

(** Steps 1 to 6, with the check of the declared hash and of the protector. *)
Definition verify_checks (request : BoundaryVerificationRequest) : res stop (ActionIntent * PCCB * DynamicContextInput) :=
  _ ← refuse_if (negb (str_truthy (bq_proof_token request))) "no proof token provided" "PROOF_MISSING";
  verifier ← match bv_pccb_verifier bv with
             | Some v => Ok v
             | None => Err (Return (fail "no PCCBVerifier trust root is configured; the boundary refuses every proof" "ISSUER_UNTRUSTED"))
             end;
  pccb ← catching (_decode_proof_token (bq_proof_token request)) (fun e =>
           if is_type_or_value_error e || bool_decide (e = OtherError "RecursionError")
           then Some (fail "proof token is not a well-formed PCCB" "PROOF_INVALID") else None);
  supplied ← match bq_intent request with
             | Some i => Ok i
             | None => Err (Return (fail "no Action Intent supplied; a proof can only be verified against the exact action it authorises" "MALFORMED_REQUEST"))
             end;
  '(intent, audience) ← catching (i ← resolve_intent supplied; a ← _parse_audience (bq_audience request); Ok (i, a)) (fun e =>
           if is_refusal_exception e || is_type_or_value_error e
           then Some (fail "the Action Intent or boundary audience is malformed" "MALFORMED_REQUEST") else None);
  _ ← refuse_if (negb (str_truthy (bq_action_type request)) || negb (str_truthy (py_strip (bq_action_type request))))
        "no boundary action_type declared" "MALFORMED_REQUEST";
  let trusted := trusted_capabilities request in
  _ ← refuse_if (negb (String.eqb (act_name (in_action intent)) (bq_action_type request)))
        "the intent's action does not match this boundary's action" "ACTION_MISMATCH";
  _ ← refuse_if (negb (str_mem (act_capability (in_action intent)) trusted))
        "the intent's capability is not permitted by this boundary's trusted scope" "ACTION_MISMATCH";
  _ ← refuse_if (str_truthy (bq_target request) && negb (String.eqb (tgt_resource_id (in_target intent)) (bq_target request)))
        "the intent's target does not match this request's target" "TARGET_MISMATCH";
  let context := mkContext ("req_boundary_" +:+ bd_request_uuid d) audience trusted (default (bd_now d) (bq_now request)) [] [] [] [] [] None in
  _ ← catching (verify verifier intent pccb context) (fun e =>
        r ← as_proof_error e; Some (fail ("proof verification failed: " +:+ exc_refusal_code r) (exc_refusal_code r)));
  _ ← refuse_if (str_truthy (bq_action_hash request) && negb (String.eqb (bq_action_hash request) (ah_value (pc_action_hash pccb))))
        "the declared action hash does not match the proof" "ACTION_HASH_MISMATCH";
  _ ← refuse_if (has_key "effect" (pc_extensions pccb) && match bv_effect_protector bv with None => true | Some _ => false end)
        "This proof requires authoritative effect ownership verification at the edge." "POLICY_REFUSAL";
  Ok (intent, pccb, context).

Definition boundary_key_input (pccb : PCCB) : dict :=
  [("pccb_id", JStr (pc_pccb_id pccb)); ("nonce", JStr (pc_nonce pccb)); ("action_hash", JDict (ActionHashSpec_to_dict (pc_action_hash pccb)));
   ("audience", JDict (AudienceRef_to_dict (pc_audience pccb)))].

Definition REPLAYED : BoundaryVerificationResult := fail "replay detected: proof has already been used" "REPLAY_DETECTED".

Definition _claim_single_use (intent : ActionIntent) (pccb : PCCB) (context : DynamicContextInput) : M exn boundary_state (option BoundaryVerificationResult) :=
  if bv_durable bv then
    claim ← lift (build_action_consumption_claim intent pccb context);
    try_catch
      (_ ← zoom store_lens (rs_claim_once claim (cx_now context));
       _ ← zoom store_lens (rs_mark_consumed (cl_replay_key claim) (cx_now context));
       mret None)
      (fun e => mret (Some (if is_refusal_exception e then REPLAYED
                            else fail "replay state could not be established; refusing" "REPLAY_STORE_UNAVAILABLE")))
  else
    replay_key ← lift (sha256_hex (JDict (boundary_key_input pccb)));
    keys ← gets bs_replay_keys;
    if bool_decide (replay_key ∈ keys) then mret (Some REPLAYED)
    else _ ← modify (set_replay_keys (fun keys => {[replay_key]} ∪ keys)); mret None.

Definition receipt_hash_input (request : BoundaryVerificationRequest) (proof : PCCB) (intent : ActionIntent) : dict :=
  [("proof", JDict (PCCB_to_dict proof)); ("intent", JDict (ActionIntent_to_dict intent)); ("action_type", JStr (bq_action_type request));
   ("action_hash", JStr (bq_action_hash request)); ("target", JStr (bq_target request)); ("audience", JStr (bq_audience request));
   ("boundary_id", JStr (bq_boundary_id request))].

Definition _receipt_request_hash (request : BoundaryVerificationRequest) : py string :=
  intent ← match bq_intent request with Some i => resolve_intent i | None => parse JNull end;
  proof ← _decode_proof_token (bq_proof_token request);
  sha256_hex (JDict (receipt_hash_input request proof intent)).

(** The claim of the effect, and a refusal of it as a result. *)
Definition claim_boundary_effect (request : ProtectedExecutionRequest) : M exn boundary_state (BoundaryVerificationResult + option EffectReference) :=
  match bv_effect_protector bv with
  | None => mret (inr None)
  | Some protector =>
      try_catch (reference ← zoom ledger_lens (claim_effect protector request); mret (inr (Some reference)))
        (fun e => match as_proof_error e with Some r => mret (inl (fail (exc_message r) (exc_refusal_code r))) | None => raise e end)
  end.

Definition _verify (request : BoundaryVerificationRequest) : M exn boundary_state BoundaryVerificationResult :=
  match verify_checks request with
  | Err (Return r) => mret r
  | Err (Raise e) => raise e
  | Ok (intent, pccb, context) =>
      replay_refusal ← _claim_single_use intent pccb context;
      match replay_refusal with
      | Some r => mret r
      | None =>
          effect ← claim_boundary_effect (mkRequest intent pccb context);
          match effect with
          | inl r => mret r
          | inr effect_reference =>
              let receipt_id := "rcpt_" +:+ py_prefix 16 (bd_receipt_uuid d) in
              h ← lift (_receipt_request_hash request);
              mret (success (bd_now_text d) (pc_pccb_id pccb) receipt_id effect_reference h)
          end
      end
  end.

(** Never raises. *)
Definition verify_boundary (request : BoundaryVerificationRequest) (s : boundary_state) : BoundaryVerificationResult * boundary_state :=
  match _verify request s with
  | (Ok r, s') => (r, s')
  | (Err _, s') => (fail "boundary verification failed unexpectedly" "OUTCOME_UNKNOWN", s')
  end.

Definition health (s : boundary_state) : dict :=
  let configured := JBool match bv_pccb_verifier bv with Some _ => true | None => false end in
  [("ok", configured); ("pccb_verifier_configured", configured);
   ("effect_protector_configured", JBool match bv_effect_protector bv with Some _ => true | None => false end);
   ("replay_store", JStr (if bv_durable bv then "durable" else "in_memory_set"));
   ("replay_keys_tracked", JInt (Z.of_nat (size (bs_replay_keys s)))); ("security_downgrades", JList (map JStr (bv_security_downgrades bv)))].
End Verify.

(** ** Receipts *)

(** The dict of reported outcomes, subscripted. *)
Definition reported_outcome (outcome : json) : py string :=
  match outcome with
  | JStr s => if String.eqb s "COMMITTED" then Ok "succeeded" else if String.eqb s "NOT_EXECUTED" then Ok "refused"
              else if String.eqb s "AMBIGUOUS" then Ok "outcome_unknown" else Err (KeyError s)
  | JList _ | JDict _ => Err (TypeError "unhashable type")
  | _ => Err (KeyError "")
  end.

(** [isinstance(..., Mapping) and set(...) == fields and] every field of the
    reference equal *)
Definition evidence_matches (reference : EffectReference) (evidence : option json) : option dict :=
  match evidence with
  | Some (JDict ev) =>
      if forallb (fun k => has_key k ev) EVIDENCE_KEYS && forallb (fun kv => str_mem kv.1 EVIDENCE_KEYS) ev &&
         forallb (fun kv => py_eqb (dget ev kv.1) kv.2) (EffectReference_to_dict reference)
      then Some ev else None
  | _ => None
  end.

Definition outcome_or (a : option string) (b : string) : string := match a with Some s => if str_truthy s then s else b | None => b end.
Definition text_or_none (o : option string) : json := match o with Some s => JStr s | None => JNull end.

Definition construct_receipt (clock : string) (request : BoundaryVerificationRequest) (result : BoundaryVerificationResult) (outcome : option string)
    (effect_evidence : option json) : py dict :=
  if negb (br_valid result) then Err (ValueError "a boundary receipt can only be constructed for a verified result")
  else
    let receipt := [("receipt_id", text_or_none (br_receipt_id result)); ("boundary_id", JStr (bq_boundary_id request)); ("action", JStr (bq_action_type request));
      ("action_hash", JStr (py_prefix 16 (bq_action_hash request) +:+ "...")); ("proof_id", text_or_none (br_proof_id result));
      ("outcome", JStr (outcome_or outcome "succeeded")); ("executed_at", JStr clock); ("execution_mode", JStr "resource_owned");
      ("verified_at", JStr (br_verified_at result))] in
    match br_effect_reference result with
    | Some reference =>
        _ ← (if negb (str_truthy (br_verified_request_hash result)) then Err (ValueError "receipt request differs from the verified execution request")
             else h ← _receipt_request_hash request;
                  if String.eqb h (br_verified_request_hash result) then Ok tt
                  else Err (ValueError "receipt request differs from the verified execution request"));
        evidence ← match evidence_matches reference effect_evidence with
                   | Some ev => Ok ev
                   | None => Err (ValueError "effect verification is not execution evidence")
                   end;
        _ ← validate_effect_outcome (dget evidence "outcome") (dget evidence "execution_occurred") (dget evidence "evidence_hash");
        reported ← reported_outcome (dget evidence "outcome");
        if match outcome with Some o => negb (String.eqb o reported) | None => false end
        then Err (ValueError "receipt outcome contradicts effect evidence")
        else Ok (assoc_merge receipt [("outcome", JStr reported); ("execution_occurred", dget evidence "execution_occurred");
                   ("extensions", JDict [("effect", JDict evidence)])])
    | None =>
        match effect_evidence with
        | Some _ => Err (ValueError "effect evidence has no verified effect reference")
        | None => Ok receipt
        end
    end.
End Boundary.
Arguments BoundaryVerifier : clear implicits.
Arguments boundary_state : clear implicits.

(** ** What the checks establish *)
Section Facts.
Context `{Protocol} `{ProtocolAuthority} `{ProtocolEffects} `{Platform} `{Base64Padding}.
Context {R X : Type} `{ReplayStore R}.
Implicit Types (bv : BoundaryVerifier X) (d : boundary_draws) (request : BoundaryVerificationRequest) (s : boundary_state R X).

(** The request carries a proof of exactly the action it performs, for this
    boundary, now. *)
Record authorised bv d request (intent : ActionIntent) (pccb : PCCB) (context : DynamicContextInput) : Prop := {
  au_proof : _decode_proof_token (bq_proof_token request) = Ok pccb;
  au_intent : exists supplied, bq_intent request = Some supplied /\ resolve_intent supplied = Ok intent;
  au_verified : exists v, bv_pccb_verifier bv = Some v /\ verify v intent pccb context = Ok tt;
  au_action : act_name (in_action intent) = bq_action_type request /\ py_strip (bq_action_type request) <> "";
  au_capability : act_capability (in_action intent) ∈ trusted_capabilities bv request;
  au_scope : cx_scope_capabilities context = trusted_capabilities bv request;
  au_target : bq_target request = "" \/ tgt_resource_id (in_target intent) = bq_target request;
  au_audience : _parse_audience (bq_audience request) = Ok (cx_audience context);
  au_time : cx_now context = default (bd_now d) (bq_now request);
  au_hash : bq_action_hash request = "" \/ bq_action_hash request = ah_value (pc_action_hash pccb);
  au_effect : has_key "effect" (pc_extensions pccb) = true -> bv_effect_protector bv <> None
}.

Lemma refuse_if_Ok d c reason code : refuse_if d c reason code = Ok tt -> c = false.
Proof. by destruct c. Qed.

Lemma refuse_if_Err d c reason code r : refuse_if d c reason code = Err (Return r) -> br_valid r = false.
Proof. destruct c; [|done]. by intros [= <-]. Qed.

Lemma catching_Ok {A} (m : py A) h a : catching m h = Ok a -> m = Ok a.
Proof. destruct m; [|done]. by intros [= <-]. Qed.

Lemma not_truthy t : str_truthy t = false -> t = "".
Proof. by destruct t. Qed.

Lemma verify_checks_Ok bv d request i p c : verify_checks bv d request = Ok (i, p, c) -> authorised bv d request i p c.
Proof.
  unfold verify_checks. intros Hc. apply bind_Ok in Hc as ([] & Ht%refuse_if_Ok & Hc). apply bind_Ok in Hc as (v & Hv & Hc).
  destruct (bv_pccb_verifier bv) as [v'|] eqn:Ev; [|done]. injection Hv as ->.
  apply bind_Ok in Hc as (pccb & Hp%catching_Ok & Hc). apply bind_Ok in Hc as (supplied & Hs & Hc).
  destruct (bq_intent request) as [sup|] eqn:Es; [|done]. injection Hs as ->.
  apply bind_Ok in Hc as ([intent audience] & Hi%catching_Ok & Hc). apply bind_Ok in Hi as (i' & Hi & Ha).
  apply bind_Ok in Ha as (a' & Ha & [= -> ->]).
  apply bind_Ok in Hc as ([] & [_ Hact]%refuse_if_Ok%orb_false_iff & Hc).
  cbv zeta in Hc. apply bind_Ok in Hc as ([] & Hname%refuse_if_Ok & Hc). apply bind_Ok in Hc as ([] & Hcap%refuse_if_Ok & Hc).
  apply bind_Ok in Hc as ([] & Htgt%refuse_if_Ok & Hc). apply bind_Ok in Hc as ([] & Hver%catching_Ok & Hc).
  apply bind_Ok in Hc as ([] & Hh%refuse_if_Ok & Hc). apply bind_Ok in Hc as ([] & He%refuse_if_Ok & Hc). injection Hc as <- <- <-.
  constructor; try done.
  - by exists supplied.
  - by exists v.
  - split; [by apply negb_false_iff, String.eqb_eq in Hname|]. intros Hn. by rewrite Hn in Hact.
  - by apply negb_false_iff, str_mem_spec in Hcap.
  - apply andb_false_iff in Htgt as [Htgt%not_truthy|Htgt]; [by left|right]. by apply negb_false_iff, String.eqb_eq in Htgt.
  - apply andb_false_iff in Hh as [Hh%not_truthy|Hh]; [by left|right]. by apply negb_false_iff, String.eqb_eq in Hh.
  - intros Hk. rewrite Hk in He. by destruct (bv_effect_protector bv).
Qed.

Lemma catching_Return {A} (m : py A) h r : catching m h = Err (Return r) -> exists e, h e = Some r.
Proof. destruct m as [|e]; [done|]. cbn. destruct (h e) as [r'|] eqn:He; [|done]. intros [= <-]. eauto. Qed.

(** A result the checks return is a refusal. *)
Lemma verify_checks_Return bv d request r : verify_checks bv d request = Err (Return r) -> br_valid r = false.
Proof.
  unfold verify_checks. cbv zeta.
  repeat first
    [ intros [Hx|(? & ? & Hx)]%bind_Err; revert Hx
    | by intros Hx%refuse_if_Err
    | intros (e & Hx)%catching_Return; revert Hx; first [ by destruct (_ || _); [intros [= <-]|done]
        | destruct (as_proof_error e); [by intros [= <-]|done] ]
    | match goal with |- match ?x with _ => _ end = _ -> _ => destruct x; try done; [] end
    | by intros [= <-] | done | progress intros ? ].
Qed.

(** The proof's key was free and this call took it. *)
Definition used_once bv (intent : ActionIntent) (pccb : PCCB) (context : DynamicContextInput) s s' : Prop :=
  if bv_durable bv then
    exists claim, build_action_consumption_claim intent pccb context = Ok claim /\
      rs_status (bs_store s) (cl_replay_key claim) <> Some Consumed /\ rs_status (bs_store s') (cl_replay_key claim) = Some Consumed
  else
    exists key, sha256_hex (JDict (boundary_key_input pccb)) = Ok key /\ (key ∉ bs_replay_keys s) /\ bs_replay_keys s' = {[key]} ∪ bs_replay_keys s.

Lemma claim_single_use_None bv d i p c s s' : _claim_single_use bv d i p c s = (Ok None, s') ->
  used_once bv i p c s s' /\ bs_ledger s' = bs_ledger s.
Proof.
  unfold _claim_single_use, used_once. destruct (bv_durable bv).
  - intros (claim & s1 & [= Hc <-] & [Hm|(e & s2 & _ & Ht)]%try_catch_Ok)%M_bind_Ok; [|by destruct (is_refusal_exception e)].
    apply M_bind_Ok in Hm as (st & s3 & (r1 & Hr1 & ->)%zoom_Ok & Hm). apply M_bind_Ok in Hm as (st' & s4 & (r2 & Hr2 & ->)%zoom_Ok & Hm).
    injection Hm as <-. cbn in *. split; [|done]. exists claim. split; [done|].
    apply rs_mark_ok in Hr2 as [Hn Hk]. split; [|done]. pose proof (rs_claim_moves claim (cx_now c) (bs_store s) (cl_replay_key claim)) as Hmv.
    rewrite Hr1 in Hmv. by apply (not_consumed_before R (cl_replay_key claim) _ r1).
  - intros (key & s1 & [= Hk <-] & Ht)%M_bind_Ok. apply M_bind_Ok in Ht as (keys & s2 & [= <- <-] & Ht).
    case_bool_decide as Hin; [done|]. apply M_bind_Ok in Ht as ([] & s3 & [= <-] & [= <-]). split; [|done]. by exists key.
Qed.

(** The effect the proof names, owned and granted by the ledger. *)
Definition effect_taken bv (request : ProtectedExecutionRequest) (x x' : X) (reference : option EffectReference) : Prop :=
  match bv_effect_protector bv, reference with
  | Some p, Some ref => effect_owned p request ref /\ ep_claim p ref request x = (Ok (JBool true), x')
  | None, None => x' = x
  | _, _ => False
  end.

Lemma claim_boundary_effect_inr bv d rq s ref s' : claim_boundary_effect bv d rq s = (Ok (inr ref), s') ->
  effect_taken bv rq (bs_ledger s) (bs_ledger s') ref /\ bs_store s' = bs_store s /\ bs_replay_keys s' = bs_replay_keys s.
Proof.
  unfold claim_boundary_effect, effect_taken. destruct (bv_effect_protector bv) as [p|]; [|by intros [= <- <-]].
  intros [Hm|(e & s2 & _ & Hm)]%try_catch_Ok; [|by destruct (as_proof_error e)].
  apply M_bind_Ok in Hm as (r & s3 & (x & Hc & ->)%zoom_Ok & [= <- <-]). apply effect_claim_sound in Hc. done.
Qed.

Lemma used_once_effect bv i p c s s1 s2 :
  used_once bv i p c s s1 -> bs_store s2 = bs_store s1 -> bs_replay_keys s2 = bs_replay_keys s1 -> used_once bv i p c s s2.
Proof. unfold used_once. by intros Hu -> ->. Qed.

Lemma claim_single_use_refusal bv d i p c s r s' : _claim_single_use bv d i p c s = (Ok (Some r), s') -> br_valid r = false.
Proof.
  unfold _claim_single_use. destruct (bv_durable bv).
  - intros (claim & s1 & [= Hc <-] & [Hm|(e & s2 & _ & Ht)]%try_catch_Ok)%M_bind_Ok.
    + apply M_bind_Ok in Hm as (? & ? & _ & Hm). by apply M_bind_Ok in Hm as (? & ? & _ & Hm).
    + injection Ht as <- <-. by destruct (is_refusal_exception e).
  - intros (key & s1 & [= Hk <-] & Ht)%M_bind_Ok. apply M_bind_Ok in Ht as (keys & s2 & [= <- <-] & Ht).
    case_bool_decide; [by injection Ht as <- <-|]. by apply M_bind_Ok in Ht as ([] & ? & _ & Ht).
Qed.

Lemma claim_boundary_effect_inl bv d rq s r s' : claim_boundary_effect bv d rq s = (Ok (inl r), s') -> br_valid r = false.
Proof.
  unfold claim_boundary_effect. destruct (bv_effect_protector bv) as [p|]; [|done].
  intros [Hm|(e & s2 & _ & Hm)]%try_catch_Ok.
  - by apply M_bind_Ok in Hm as (? & ? & _ & Hm).
  - destruct (as_proof_error e); [|done]. by injection Hm as <- <-.
Qed.

(** A valid result: authorised, used once, the effect taken. *)
Lemma verify_valid bv d request s r s' : verify_boundary bv d request s = (r, s') -> br_valid r = true ->
  exists intent pccb context, authorised bv d request intent pccb context /\ used_once bv intent pccb context s s' /\
    effect_taken bv (mkRequest intent pccb context) (bs_ledger s) (bs_ledger s') (br_effect_reference r) /\
    br_proof_id r = Some (pc_pccb_id pccb) /\ _receipt_request_hash request = Ok (br_verified_request_hash r).
Proof.
  unfold verify_boundary. intros Hv Hr. destruct (_verify bv d request s) as [[r'|e] s1] eqn:Hm; [|by injection Hv as <- <-].
  injection Hv as -> ->. unfold _verify in Hm. destruct (verify_checks bv d request) as [[[i p] c]|[r''|e]] eqn:Hc.
  2: { injection Hm as -> ->. apply verify_checks_Return in Hc. congruence. }
  2: discriminate Hm.
  exists i, p, c. apply verify_checks_Ok in Hc. apply M_bind_Ok in Hm as ([rf|] & s2 & Hu & Hm).
  { injection Hm as -> ->. apply claim_single_use_refusal in Hu. congruence. }
  apply claim_single_use_None in Hu as [Hu Hl]. apply M_bind_Ok in Hm as ([rf|ref] & s3 & He & Hm).
  { injection Hm as -> ->. apply claim_boundary_effect_inl in He. congruence. }
  apply claim_boundary_effect_inr in He as (He & Hs & Hk). cbv zeta in Hm. apply M_bind_Ok in Hm as (h & s4 & [= Hh <-] & [= <- <-]).
  rewrite Hl in He. split_and!; try done. by eapply used_once_effect.
Qed.

Lemma verify_unauthorised bv d request s : (forall i p c, ~ (authorised bv d request i p c)) ->
  br_valid (verify_boundary bv d request s).1 = false /\ (verify_boundary bv d request s).2 = s.
Proof.
  intros Hn. unfold verify_boundary, _verify. destruct (verify_checks bv d request) as [[[i p] c]|[r|e]] eqn:Hc.
  - apply verify_checks_Ok in Hc. by apply Hn in Hc.
  - apply verify_checks_Return in Hc. done.
  - done.
Qed.

(** ** Single use along a run *)

(** The key under which a request's proof is used. *)
Definition proof_key bv request : py string :=
  pccb ← _decode_proof_token (bq_proof_token request);
  if bv_durable bv then
    intent ← match bq_intent request with Some i => resolve_intent i | None => parse JNull end;
    h ← sha256_hex (JDict (replay_key_input intent pccb)); Ok ("rpk_" +:+ h)
  else sha256_hex (JDict (boundary_key_input pccb)).

Definition key_used bv s (k : string) : Prop :=
  if bv_durable bv then rs_status (bs_store s) k = Some Consumed else k ∈ bs_replay_keys s.

Lemma verify_valid_key bv d request s r s' k : verify_boundary bv d request s = (r, s') -> br_valid r = true ->
  proof_key bv request = Ok k -> ~ key_used bv s k /\ key_used bv s' k.
Proof.
  intros Hv Hr Hk. destruct (verify_valid _ _ _ _ _ _ Hv Hr) as (i & p & c & [Hp (sup & Hs & Hi) _ _ _ _ _ _ _ _ _] & Hu & _).
  unfold proof_key in Hk. rewrite Hp, Hs in Hk. cbn [mbind res_bind] in Hk. unfold used_once, key_used in *. destruct (bv_durable bv).
  - rewrite Hi in Hk. destruct Hu as (claim & Hc & Hn & Hd). unfold build_action_consumption_claim, build_replay_key in Hc.
    cbn [mbind res_bind] in Hk, Hc. destruct (sha256_hex _) as [h|]; [|done]. cbn [mbind res_bind] in Hk, Hc. injection Hk as <-. by injection Hc as <-.
  - destruct Hu as (key & Hkey & Hn & Hd). rewrite Hkey in Hk. injection Hk as ->. rewrite Hd. set_solver.
Qed.

(** What a step of the code does to the two key records: the store moves along
    its ledger and the set only grows. *)
Definition keys_move s s' : Prop :=
  (forall k, rtc ledger_step (rs_status (bs_store s) k) (rs_status (bs_store s') k)) /\ bs_replay_keys s ⊆ bs_replay_keys s'.

#[global] Instance keys_move_preorder : PreOrder keys_move.
Proof.
  split; [by intros s; split|]. intros s1 s2 s3 [Ha Hb] [Hc Hd]. split; [|set_solver]. intros k. etransitivity; [apply Ha|apply Hc].
Qed.

Definition step_moves {A} (m : M exn (boundary_state R X) A) : Prop := forall s, keys_move s (m s).2.

Lemma step_moves_bind {A B} (m : M exn _ A) (f : A -> M exn _ B) : step_moves m -> (forall a, step_moves (f a)) -> step_moves (m ≫= f).
Proof.
  intros Hm Hf s. unfold mbind, M_bind. specialize (Hm s). destruct (m s) as [[a|e] s']; [|done]. etransitivity; [exact Hm|apply Hf].
Qed.
Lemma step_moves_pure {A} (r : py A) : step_moves (fun s => (r, s)).
Proof. by intros s. Qed.
Lemma step_moves_try {A} (m : M exn _ A) h : step_moves m -> (forall e, step_moves (h e)) -> step_moves (try_catch m h).
Proof. intros Hm Hh s. unfold try_catch. specialize (Hm s). destruct (m s) as [[a|e] s']; [done|]. etransitivity; [exact Hm|apply Hh]. Qed.
Lemma step_moves_store {A} (m : M exn R A) : (forall t k, rtc ledger_step (rs_status t k) (rs_status (m t).2 k)) -> step_moves (zoom store_lens m).
Proof. intros Hm s. unfold zoom. specialize (Hm (lget store_lens s)). destruct (m _). by split. Qed.
Lemma step_moves_ledger {A} (m : M exn X A) : step_moves (zoom ledger_lens m).
Proof. intros s. unfold zoom. destruct (m _). by split. Qed.

Lemma claim_single_use_moves bv d i p c : step_moves (_claim_single_use bv d i p c).
Proof.
  unfold _claim_single_use. destruct (bv_durable bv); (apply step_moves_bind; [apply step_moves_pure|intros x]).
  - apply step_moves_try; [|intros; apply step_moves_pure]. apply step_moves_bind; [apply step_moves_store; intros; apply rs_claim_moves|intros _].
    apply step_moves_bind; [apply step_moves_store; intros; apply rs_mark_moves|intros _]. apply step_moves_pure.
  - intros s. unfold mbind, M_bind, gets. case_bool_decide; [done|]. split; [done|]. cbn. set_solver.
Qed.

Lemma claim_boundary_effect_moves bv d rq : step_moves (claim_boundary_effect bv d rq).
Proof.
  unfold claim_boundary_effect. destruct (bv_effect_protector bv) as [p|]; [|apply step_moves_pure]. apply step_moves_try.
  - apply step_moves_bind; [apply step_moves_ledger|intros; apply step_moves_pure].
  - intros e. destruct (as_proof_error e); apply step_moves_pure.
Qed.

Lemma verify_boundary_moves bv d request s : keys_move s (verify_boundary bv d request s).2.
Proof.
  assert (step_moves (_verify bv d request)) as Hm.
  { unfold _verify. destruct (verify_checks bv d request) as [[[i p] c]|[r|e]]; [|apply step_moves_pure..].
    apply step_moves_bind; [apply claim_single_use_moves|intros [r|]; [apply step_moves_pure|]].
    apply step_moves_bind; [apply claim_boundary_effect_moves|intros [r|ref]; [apply step_moves_pure|]].
    apply step_moves_bind; intros; apply step_moves_pure. }
  unfold verify_boundary. specialize (Hm s). by destruct (_verify bv d request s) as [[r|e] s'].
Qed.

Lemma key_used_stays bv s s' k : keys_move s s' -> key_used bv s k -> key_used bv s' k.
Proof.
  unfold key_used. intros [Hs Hk]. destruct (bv_durable bv); [|set_solver]. intros Hc. apply ledger_consumed_final. by rewrite <- Hc.
Qed.

(** How many requests of a run were found valid and use the key [k]. *)
Fixpoint valid_uses bv (k : string) (run : list (boundary_draws * BoundaryVerificationRequest)) s : nat :=
  match run with
  | [] => 0
  | (d, request) :: run =>
      let '(r, s') := verify_boundary bv d request s in
      (if br_valid r && bool_decide (proof_key bv request = Ok k) then 1 else 0) + valid_uses bv k run s'
  end.

Lemma valid_uses_used bv k run s : key_used bv s k -> valid_uses bv k run s = 0.
Proof.
  revert s. induction run as [|[d request] run IH]; intros s Hu; [done|]. cbn [valid_uses].
  pose proof (verify_boundary_moves bv d request s) as Hm. destruct (verify_boundary bv d request s) as [r s'] eqn:Hv.
  rewrite (IH s') by (by eapply key_used_stays). destruct (br_valid r) eqn:Hr; [|done]. case_bool_decide as Hk; [|done].
  by destruct (verify_valid_key _ _ _ _ _ _ _ Hv Hr Hk).
Qed.

Lemma valid_uses_once bv k run s : valid_uses bv k run s <= 1.
Proof.
  revert s. induction run as [|[d request] run IH]; intros s; cbn [valid_uses]; [lia|].
  destruct (verify_boundary bv d request s) as [r s'] eqn:Hv. destruct (br_valid r) eqn:Hr; [|apply IH].
  case_bool_decide as Hk; [|apply IH]. destruct (verify_valid_key _ _ _ _ _ _ _ Hv Hr Hk) as [_ Hu].
  by rewrite valid_uses_used.
Qed.
End Facts.

Section ReceiptFacts.
Context `{Protocol} `{ProtocolAuthority} `{ProtocolEffects} `{Platform} `{Base64Padding}.

Lemma receipt_hash_keys request p i : NoDup (receipt_hash_input request p i).*1.
Proof. apply (bool_decide_unpack _). vm_compute. exact I. Qed.

(** The request fields a receipt hash determines. *)
Record same_boundary_request (a b : BoundaryVerificationRequest) (pa pb : PCCB) (ia ib : ActionIntent) : Prop := {
  sb_action_type : bq_action_type a = bq_action_type b; sb_action_hash : bq_action_hash a = bq_action_hash b; sb_target : bq_target a = bq_target b;
  sb_audience : bq_audience a = bq_audience b; sb_boundary_id : bq_boundary_id a = bq_boundary_id b;
  sb_proof : json_norm (JDict (PCCB_to_dict pa)) = json_norm (JDict (PCCB_to_dict pb));
  sb_intent : json_norm (JDict (ActionIntent_to_dict ia)) = json_norm (JDict (ActionIntent_to_dict ib))
}.

Lemma receipt_hash_pins a b pa pb ia ib :
  json_norm (JDict (receipt_hash_input a pa ia)) = json_norm (JDict (receipt_hash_input b pb ib)) -> same_boundary_request a b pa pb ia ib.
Proof.
  intros He. pose proof (fun k => json_norm_assoc _ _ k (receipt_hash_keys a pa ia) (receipt_hash_keys b pb ib) He) as Hk.
  pose proof (Hk "action_type") as Ht. pose proof (Hk "action_hash") as Hh. pose proof (Hk "target") as Hg. pose proof (Hk "audience") as Ha.
  pose proof (Hk "boundary_id") as Hb. pose proof (Hk "proof") as Hp. pose proof (Hk "intent") as Hi. clear Hk He.
  cbn -[json_norm PCCB_to_dict ActionIntent_to_dict] in *. cbn [json_norm] in Ht, Hh, Hg, Ha, Hb.
  constructor; congruence.
Qed.

Lemma request_hash_Ok request h : _receipt_request_hash request = Ok h ->
  exists p i, _decode_proof_token (bq_proof_token request) = Ok p /\ sha256_hex (JDict (receipt_hash_input request p i)) = Ok h /\
    match bq_intent request with Some sup => resolve_intent sup = Ok i | None => parse JNull = Ok i end.
Proof.
  unfold _receipt_request_hash. intros (i & Hi & Hr)%bind_Ok. apply bind_Ok in Hr as (p & Hp & Hr). exists p, i. split_and!; try done.
  by destruct (bq_intent request).
Qed.

(** What a receipt for an effect was made from. *)
Lemma construct_receipt_effect clock request result outcome evidence receipt ref :
  construct_receipt clock request result outcome evidence = Ok receipt -> br_effect_reference result = Some ref ->
  br_valid result = true /\ _receipt_request_hash request = Ok (br_verified_request_hash result) /\
  exists ev reported, evidence = Some (JDict ev) /\ evidence_matches ref evidence = Some ev /\
    validate_effect_outcome (dget ev "outcome") (dget ev "execution_occurred") (dget ev "evidence_hash") = Ok tt /\
    reported_outcome (dget ev "outcome") = Ok reported /\ (outcome = None \/ outcome = Some reported) /\
    assoc "outcome" receipt = Some (JStr reported) /\ assoc "execution_occurred" receipt = Some (dget ev "execution_occurred") /\
    assoc "extensions" receipt = Some (JDict [("effect", JDict ev)]).
Proof.
  unfold construct_receipt. intros Hc Hr. destruct (br_valid result); [|done]. cbn [negb] in Hc. cbv zeta in Hc. rewrite Hr in Hc.
  apply bind_Ok in Hc as ([] & Hh & Hc). destruct (str_truthy _); [|done]. cbn [negb] in Hh. apply bind_Ok in Hh as (h & Hh & He).
  destruct (String.eqb_spec h (br_verified_request_hash result)) as [->|]; [|done].
  apply bind_Ok in Hc as (ev & Hev & Hc). destruct (evidence_matches ref evidence) as [ev'|] eqn:Hm; [|done]. injection Hev as ->.
  apply bind_Ok in Hc as ([] & Hv & Hc). apply bind_Ok in Hc as (reported & Hrep & Hc).
  split_and!; [done|done|]. exists ev, reported. split_and!; try done.
  - unfold evidence_matches in Hm. destruct evidence as [[]|]; try done. destruct (_ && _); [|done]. by injection Hm as ->.
  - destruct outcome as [o|]; [|by left]. destruct (String.eqb_spec o reported) as [->|]; [by right|done].
  - destruct outcome as [o|]; [destruct (negb _); [done|]|]; by injection Hc as <-.
  - destruct outcome as [o|]; [destruct (negb _); [done|]|]; by injection Hc as <-.
  - destruct outcome as [o|]; [destruct (negb _); [done|]|]; by injection Hc as <-.
Qed.
End ReceiptFacts.

(** ** Properties *)

(** C7: the boundary fails closed and checks everything: it reports a request
    valid only when the token decodes to a proof that the configured verifier
    accepts for exactly the intent the request performs, for the route's declared
    action, target and audience and within capabilities the boundary trusts, when
    the proof's key was free and is now taken, and when the effect the proof names
    is owned and granted by the ledger; a request that is not authorised is
    refused and changes nothing. *)
Theorem boundary_valid_sound `{Protocol} `{ProtocolAuthority} `{ProtocolEffects} `{Platform} `{Base64Padding} {R X : Type} `{ReplayStore R}
    (bv : BoundaryVerifier X) (d : boundary_draws) (request : BoundaryVerificationRequest) (s s' : boundary_state R X) (r : BoundaryVerificationResult) :
  verify_boundary bv d request s = (r, s') ->
  (br_valid r = true -> exists intent pccb context, authorised bv d request intent pccb context /\ used_once bv intent pccb context s s' /\
     effect_taken bv (mkRequest intent pccb context) (bs_ledger s) (bs_ledger s') (br_effect_reference r) /\
     br_proof_id r = Some (pc_pccb_id pccb) /\ _receipt_request_hash request = Ok (br_verified_request_hash r)) /\
  ((forall intent pccb context, ~ (authorised bv d request intent pccb context)) -> br_valid r = false /\ s' = s).
Proof.
  intros Hv. split; [by eapply verify_valid|]. intros Hn. pose proof (verify_unauthorised bv d request s Hn) as Hu. by rewrite Hv in Hu.
Qed.

(** C8: Single use at the boundary: along any run of requests, whatever their
    encoding, clock and order, at most one request per proof key is reported
    valid; the store may be any that keeps the ledger's laws, one other workers
    change during the run included. *)
Theorem boundary_single_use `{Protocol} `{ProtocolAuthority} `{ProtocolEffects} `{Platform} `{Base64Padding} {R X : Type} `{ReplayStore R}
    (bv : BoundaryVerifier X) (k : string) (run : list (boundary_draws * BoundaryVerificationRequest)) (s : boundary_state R X) :
  valid_uses bv k run s <= 1.
Proof. apply valid_uses_once. Qed.

(** A receipt for an effect belongs to the verified request: when the boundary
    verified [request] and a receipt is constructed for [request'] from that
    result, both carry the same proof, intent, action, hash, target, audience and
    boundary (the hash not colliding on the two), and the receipt's outcome is the
    one the matching evidence reports, never the caller's claim against it. *)
Theorem boundary_receipt_bound `{Protocol} `{ProtocolAuthority} `{ProtocolEffects} `{Platform} `{Base64Padding} {R X : Type} `{ReplayStore R}
    (bv : BoundaryVerifier X) (d : boundary_draws) (request request' : BoundaryVerificationRequest) (s s' : boundary_state R X)
    (r : BoundaryVerificationResult) (ref : EffectReference) (clock : string) (outcome : option string) (evidence : option json) (receipt : dict) :
  verify_boundary bv d request s = (r, s') -> br_effect_reference r = Some ref -> construct_receipt clock request' r outcome evidence = Ok receipt ->
  (forall p i p' i', no_collision (JDict (receipt_hash_input request p i)) (JDict (receipt_hash_input request' p' i'))) ->
  (exists p i p' i', _decode_proof_token (bq_proof_token request) = Ok p /\ _decode_proof_token (bq_proof_token request') = Ok p' /\
     same_boundary_request request request' p p' i i') /\
  (exists ev reported, evidence = Some (JDict ev) /\ evidence_matches ref evidence = Some ev /\ reported_outcome (dget ev "outcome") = Ok reported /\
     (outcome = None \/ outcome = Some reported) /\ assoc "outcome" receipt = Some (JStr reported) /\
     assoc "extensions" receipt = Some (JDict [("effect", JDict ev)])).
Proof.
  intros Hv Hr Hc Hcol. destruct (construct_receipt_effect _ _ _ _ _ _ _ Hc Hr) as (Hval & Hh' & ev & reported & ? & ? & _ & ? & ? & ? & _ & ?).
  destruct (verify_valid _ _ _ _ _ _ Hv Hval) as (_ & _ & _ & _ & _ & _ & _ & Hh).
  apply request_hash_Ok in Hh as (p & i & Hp & Hs & _), Hh' as (p' & i' & Hp' & Hs' & _). split; [|by exists ev, reported].
  exists p, i, p', i'. split_and!; [done|done|]. apply receipt_hash_pins. by eapply sha256_hex_same.
Qed.

(** ** Samples: a refund whose proof names an effect. *)
Definition sample_effect_id : string := "effect_0123456789abcdef0123456789abcdef0123456789abcdef0123456789abcdef".
Definition boundary_effects : ProtocolEffects := {|
  EFFECT_PROFILE := "actenon.effect.v1"; effect_identity _ := Ok sample_effect_id;
  validate_effect_outcome o e h := match o, e, h with JStr _, JBool _, JStr _ => Ok tt | _, _, _ => Err (ValueError "effect outcome") end;
  capability_error_is_value_error := true
|}.

Definition sample_attempt : ActionIntent :=
  mkActionIntent "exec_0123456789abcdef" sample_now (sample_now + 600000000)%Z sample_tenant sample_agent sample_action sample_target
    (JStr "idem-1") JNull [] [] [] [].
Definition sample_reference : EffectReference :=
  mkEffectReference "actenon.effect.v1" sample_effect_id "reservation_0123456789abcdef0123456789abcdef" "exec_0123456789abcdef".
Definition boundary_pccb : PCCB :=
  Eval vm_compute in match @mint demo_protocol sample_authority sample_minter "pccb_1" "nonce-1" sample_attempt sample_decision sample_context JNull
    [("effect", JDict (EffectReference_to_dict sample_reference)); ("authority", JDict [("issuer", JStr "service:actenon"); ("revocable", JBool false)])] with
  | Ok p => p | Err _ => sample_pccb end.

Definition boundary_token : string := Eval vm_compute in match _canonicalize_json (JDict (PCCB_to_dict boundary_pccb)) with Ok t => t | Err _ => "" end.
(** A ledger that grants each reservation once. *)
Definition sample_ledger_claim (ref : EffectReference) (_ : ProtectedExecutionRequest) : M exn (list string) json := fun x =>
  if str_mem (ef_reservation_id ref) x then (Ok (JBool false), x) else (Ok (JBool true), ef_reservation_id ref :: x).
Definition sample_boundary : BoundaryVerifier (list string) :=
  mkBoundaryVerifier (Some (sample_verifier TRUSTED_DETAILED)) (Some (mkEffectProtector _ "refunds" sample_ledger_claim None)) ["payments.refund"] [] true.
Definition sample_boundary_request : BoundaryVerificationRequest :=
  mkBoundaryRequest boundary_token "refund" "" "service:refunds-api" "edge-1" "pay_42" (Some (inl sample_attempt)) (Some sample_now) [].
Definition sample_draws : boundary_draws := mkDraws "0a" "0123456789abcdef0123456789abcdef" sample_now "2023-12-26T12:00:00+00:00".
Definition sample_boundary_state : boundary_state store (list string) := mkBoundaryState sample_store ∅ [].
Definition sample_boundary_run := @verify_boundary demo_protocol sample_authority boundary_effects demo_platform true store (list string) database_store
  sample_boundary sample_draws sample_boundary_request sample_boundary_state.

Definition sample_boundary_evidence : json :=
  JDict (EffectReference_to_dict sample_reference ++ [("outcome", JStr "COMMITTED"); ("execution_occurred", JBool true); ("evidence_hash", JStr "aa")]).
Definition sample_boundary_receipt := @construct_receipt demo_protocol boundary_effects demo_platform true "2023-12-26T12:00:01+00:00"
  sample_boundary_request sample_boundary_run.1 None (Some sample_boundary_evidence).

Lemma boundary_valid_sound_witness : exists intent pccb context,
  br_valid sample_boundary_run.1 = true /\
  @authorised demo_protocol sample_authority demo_platform true (list string) sample_boundary sample_draws sample_boundary_request intent pccb context.
Proof.
  assert (br_valid sample_boundary_run.1 = true) as Hv by (vm_compute; reflexivity).
  destruct (proj1 (@boundary_valid_sound demo_protocol sample_authority boundary_effects demo_platform true store (list string) database_store
    sample_boundary sample_draws sample_boundary_request sample_boundary_state sample_boundary_run.2 sample_boundary_run.1 (surjective_pairing _)) Hv)
    as (intent & pccb & context & Ha & _).
  exists intent, pccb, context. split; [exact Hv|exact Ha].
Defined.

Lemma boundary_receipt_bound_witness : exists receipt reported,
  sample_boundary_receipt = Ok receipt /\ assoc "outcome" receipt = Some (JStr reported).
Proof.
  destruct sample_boundary_receipt as [receipt|e] eqn:Hr; [|vm_compute in Hr; discriminate Hr]. exists receipt.
  destruct (proj2 (@boundary_receipt_bound demo_protocol sample_authority boundary_effects demo_platform true store (list string) database_store
    sample_boundary sample_draws sample_boundary_request sample_boundary_request sample_boundary_state sample_boundary_run.2 sample_boundary_run.1
    sample_reference "2023-12-26T12:00:01+00:00" None (Some sample_boundary_evidence) receipt (surjective_pairing _)
    ltac:(vm_compute; reflexivity) Hr ltac:(by intros ? ? ? ? ? ?))) as (ev & reported & _ & _ & _ & _ & Ho & _).
  exists reported. split; [reflexivity|exact Ho].
Defined.
