(* ===== verification/Preflight.v ===== *)
(** * Preflight: [actenon/preflight/models.py], [evidence.py], [engine.py]

    Before a proof is minted or used, a policy pack may be asked about the action:
    each rule answers nothing or a result, and the engine turns the results into
    one decision.  A rule is a function of the intent and the evidence; its result
    is a record with the keys of the dict [_result] builds.  Evidence is a dict of
    JSON values.

    The theorems: a decision allows exactly when no rule blocked, reports the
    blocking result of the highest priority and every requirement that is unmet;
    approval artifacts count only when each is signed by a trusted key of its
    approver for this very action, and evidence without artifacts is taken as the
    caller gives it; evidence and decisions survive printing and reading. *)

From S2P Require Import Prelude Text Json Errors Timestamps Canonical Contracts Runtime Samples ProofService Receipts Merkle Base64 Transparency Countersignature TrustArtifacts Kernel.

(** [bool(x)] of a tuple or list *)
Definition list_truthy {A} (l : list A) : bool := match l with [] => false | _ => true end.

(** ** [models.py] *)
Definition PREFLIGHT_OUTCOMES : list string := ["allow"; "deny"; "approval_required"; "needs_evidence"].

Record EvidenceKey := mkEvidenceKey {
  ek_key : string; ek_value_type : string; ek_example : json; ek_description : string; ek_required : bool
}.

Definition EvidenceKey_to_dict (e : EvidenceKey) : dict :=
  [("key", JStr (ek_key e)); ("type", JStr (ek_value_type e)); ("example", ek_example e); ("description", JStr (ek_description e));
   ("required", JBool (ek_required e))].

Record Requirement := mkRequirement {
  rt_reason_code : string; rt_summary : string; rt_evidence_keys : list EvidenceKey; rt_required_approvals : list string;
  rt_required_evidence : list string; rt_outcome : string; rt_risk_level : string; rt_matched_rules : list string
}.

Definition Requirement_to_dict (r : Requirement) : dict :=
  [("reason_code", JStr (rt_reason_code r)); ("summary", JStr (rt_summary r));
   ("evidence_keys", JList (map (fun k => JDict (EvidenceKey_to_dict k)) (rt_evidence_keys r)));
   ("required_approvals", strings (rt_required_approvals r)); ("required_evidence", strings (rt_required_evidence r));
   ("outcome", JStr (rt_outcome r)); ("risk_level", JStr (rt_risk_level r)); ("matched_rules", strings (rt_matched_rules r))].

Record PreflightDecision := mkPreflightDecision {
  pf_decision_id : string; pf_outcome : string; pf_reason_code : string; pf_summary : string; pf_required_evidence : list string;
  pf_required_approvals : list string; pf_risk_level : string; pf_matched_rules : list string; pf_metadata : dict;
  pf_unmet_requirements : list Requirement
}.

Definition PreflightDecision_to_dict (d : PreflightDecision) : dict :=
  [("contract", contract_header "preflight_decision"); ("decision_id", JStr (pf_decision_id d)); ("outcome", JStr (pf_outcome d));
   ("reason_code", JStr (pf_reason_code d)); ("summary", JStr (pf_summary d)); ("required_evidence", strings (pf_required_evidence d));
   ("required_approvals", strings (pf_required_approvals d)); ("risk_level", JStr (pf_risk_level d));
   ("matched_rules", strings (pf_matched_rules d)); ("metadata", JDict (pf_metadata d));
   ("unmet_requirements", JList (map (fun r => JDict (Requirement_to_dict r)) (pf_unmet_requirements d)))].

Section Models.
Context `{PyText}.

(** [str(raw[k])], and [str(raw.get(k, default))] *)
Definition str_item (raw : dict) (k : string) : py string := v ← getitem raw k; Ok (py_str v).
Definition str_get (raw : dict) (k default : string) : string := py_str (dget_default raw k (JStr default)).
(** [tuple(str(item) for item in x)] *)
Definition text_tuple (x : json) : py (list string) := l ← py_iter x; Ok (map py_str l).
(** [tuple(f(dict(item)) for item in x)] *)
Definition dict_tuple {A} (f : dict -> py A) (x : json) : py (list A) := l ← py_iter x; res_mapM (fun item => d ← py_dict item; f d) l.

Definition EvidenceKey_from_dict (raw : dict) : py EvidenceKey :=
  key ← str_item raw "key";
  value_type ← str_item raw "type";
  Ok (mkEvidenceKey key value_type (dget raw "example") (str_get raw "description" "") (py_truthy (dget_default raw "required" (JBool true)))).

(** [outcome not in PREFLIGHT_OUTCOMES] *)
Definition preflight_outcome (j : json) (msg : string) : py string :=
  match j with JStr s => if str_mem s PREFLIGHT_OUTCOMES then Ok s else Err (ValueError msg) | _ => Err (ValueError msg) end.

Definition Requirement_from_dict (raw : dict) : py Requirement :=
  outcome ← preflight_outcome (dget_default raw "outcome" (JStr "needs_evidence")) "requirement outcome must be a valid Preflight outcome";
  reason_code ← str_item raw "reason_code";
  summary ← str_item raw "summary";
  evidence_keys ← dict_tuple EvidenceKey_from_dict (dget_default raw "evidence_keys" (JList []));
  required_approvals ← text_tuple (dget_default raw "required_approvals" (JList []));
  required_evidence ← text_tuple (dget_default raw "required_evidence" (JList []));
  matched_rules ← text_tuple (dget_default raw "matched_rules" (JList []));
  Ok (mkRequirement reason_code summary evidence_keys required_approvals required_evidence outcome (str_get raw "risk_level" "medium") matched_rules).

Definition PreflightDecision_from_dict (raw : dict) : py PreflightDecision :=
  if negb match dget raw "contract" with
          | JDict c => py_eqb (dget c "name") (JStr "preflight_decision") && py_eqb (dget c "version") (JStr "v1")
          | _ => false
          end
  then Err (ValueError "contract must declare preflight_decision v1")
  else
    outcome ← preflight_outcome (dget raw "outcome") "outcome must be one of allow, deny, approval_required, needs_evidence";
    decision_id ← str_item raw "decision_id";
    reason_code ← str_item raw "reason_code";
    summary ← str_item raw "summary";
    required_evidence ← text_tuple (dget_default raw "required_evidence" (JList []));
    required_approvals ← text_tuple (dget_default raw "required_approvals" (JList []));
    matched_rules ← text_tuple (dget_default raw "matched_rules" (JList []));
    metadata ← py_dict (dget_default raw "metadata" (JDict []));
    unmet_requirements ← dict_tuple Requirement_from_dict (dget_default raw "unmet_requirements" (JList []));
    Ok (mkPreflightDecision decision_id outcome reason_code summary required_evidence required_approvals (str_get raw "risk_level" "medium")
          matched_rules metadata unmet_requirements).
End Models.

(** ** [evidence.py] *)
Record PreflightEvidence := mkEvidence {
  ev_environment : json; ev_change_ticket : json; ev_backup_verified : json; ev_backup_snapshot : json;
  ev_approval_present : json; ev_approver_types : list string; ev_approval_artifacts : list dict; ev_approval_trusted_keys : list dict;
  ev_capability_classification : json; ev_row_count : json; ev_destination : json; ev_sensitive_data : json;
  ev_role : json; ev_sensitivity_classification : json; ev_destination_classification : json; ev_destination_allowlisted : json;
  ev_external_egress_approved : json; ev_source_residency : json; ev_destination_residency : json; ev_residency_allowed : json;
  ev_role_tier : json; ev_access_mode : json; ev_approver_ids : list string; ev_requester_is_approver : json;
  ev_amount_minor : json; ev_notional_minor : json; ev_new_payee : json; ev_destination_changed : json;
  ev_payee_verified : json; ev_destination_verified : json; ev_clinical_risk : json
}.

Section Evidence.
Context `{PyText}.

(** A lone text stands for a tuple of one. *)
Definition texts_of (x : json) : py (list string) := match x with JStr s => Ok [s] | _ => text_tuple x end.
Definition mappings_of (x : json) : py (list dict) := l ← py_iter x; res_mapM py_dict l.

Definition PreflightEvidence_to_dict (e : PreflightEvidence) : dict :=
  json_item "environment" (ev_environment e) ++ json_item "change_ticket" (ev_change_ticket e) ++ json_item "backup_verified" (ev_backup_verified e) ++
  json_item "backup_snapshot" (ev_backup_snapshot e) ++ json_item "approval_present" (ev_approval_present e) ++ json_item "capability_classification" (ev_capability_classification e) ++
  json_item "row_count" (ev_row_count e) ++ json_item "destination" (ev_destination e) ++ json_item "sensitive_data" (ev_sensitive_data e) ++
  json_item "role" (ev_role e) ++ json_item "sensitivity_classification" (ev_sensitivity_classification e) ++ json_item "destination_classification" (ev_destination_classification e) ++
  json_item "destination_allowlisted" (ev_destination_allowlisted e) ++ json_item "external_egress_approved" (ev_external_egress_approved e) ++ json_item "source_residency" (ev_source_residency e) ++
  json_item "destination_residency" (ev_destination_residency e) ++ json_item "residency_allowed" (ev_residency_allowed e) ++ json_item "role_tier" (ev_role_tier e) ++
  json_item "access_mode" (ev_access_mode e) ++ json_item "requester_is_approver" (ev_requester_is_approver e) ++ json_item "amount_minor" (ev_amount_minor e) ++
  json_item "notional_minor" (ev_notional_minor e) ++ json_item "new_payee" (ev_new_payee e) ++ json_item "destination_changed" (ev_destination_changed e) ++
  json_item "payee_verified" (ev_payee_verified e) ++ json_item "destination_verified" (ev_destination_verified e) ++ json_item "clinical_risk" (ev_clinical_risk e) ++
  opt_item (list_truthy (ev_approver_types e)) "approver_types" (strings (ev_approver_types e)) ++
  opt_item (list_truthy (ev_approval_artifacts e)) "approval_artifacts" (JList (map JDict (ev_approval_artifacts e))) ++
  opt_item (list_truthy (ev_approval_trusted_keys e)) "approval_trusted_keys" (JList (map JDict (ev_approval_trusted_keys e))) ++
  opt_item (list_truthy (ev_approver_ids e)) "approver_ids" (strings (ev_approver_ids e)).

Definition PreflightEvidence_from_mapping (raw : dict) : py PreflightEvidence :=
  approver_types ← texts_of (dget_default raw "approver_types" (JList []));
  approval_artifacts ← mappings_of (dget_default raw "approval_artifacts" (JList []));
  approval_trusted_keys ← mappings_of (dget_default raw "approval_trusted_keys" (JList []));
  approver_ids ← texts_of (dget_default raw "approver_ids" (JList []));
  Ok (mkEvidence
    (dget raw "environment") (dget raw "change_ticket") (dget raw "backup_verified") (dget raw "backup_snapshot")
    (dget raw "approval_present") approver_types approval_artifacts approval_trusted_keys (dget raw "capability_classification")
    (dget raw "row_count") (dget raw "destination") (dget raw "sensitive_data") (dget raw "role") (dget raw "sensitivity_classification")
    (dget raw "destination_classification") (dget raw "destination_allowlisted") (dget raw "external_egress_approved")
    (dget raw "source_residency")
    (dget raw "destination_residency") (dget raw "residency_allowed") (dget raw "role_tier") (dget raw "access_mode") approver_ids
    (dget raw "requester_is_approver") (dget raw "amount_minor") (dget raw "notional_minor") (dget raw "new_payee")
    (dget raw "destination_changed")
    (dget raw "payee_verified") (dget raw "destination_verified") (dget raw "clinical_risk")).
End Evidence.

(** ** [engine.py] *)

(** What a rule answers: the dict of [policy_packs._result]. *)
Record rule_result := mkRuleResult {
  rr_outcome : string; rr_reason_code : string; rr_summary : string; rr_risk_level : string; rr_matched_rules : list string;
  rr_required_evidence : list string; rr_required_approvals : list string; rr_evidence_keys : list EvidenceKey; rr_metadata : dict
}.

Definition PreflightRule : Type := ActionIntent -> dict -> py (option rule_result).

Record PolicyPack := mkPolicyPack {
  pp_pack_id : string; pp_display_name : string; pp_capabilities : list string; pp_rules : list PreflightRule;
  pp_is_template : bool; pp_disclaimer : option string
}.

Definition _RISK_PRIORITY (risk : string) : Z :=
  if String.eqb risk "low" then 1 else if String.eqb risk "high" then 3 else if String.eqb risk "critical" then 4 else 2.
Definition _OUTCOME_PRIORITY (outcome : string) : Z :=
  if String.eqb outcome "allow" then 1 else if String.eqb outcome "approval_required" then 3 else if String.eqb outcome "deny" then 4 else 2.

Definition _result_priority (indexed : nat * rule_result) : Z * Z * Z :=
  (_RISK_PRIORITY (rr_risk_level indexed.2), _OUTCOME_PRIORITY (rr_outcome indexed.2), (- Z.of_nat indexed.1)%Z).

(** [a < b] on tuples of three numbers *)
Definition triple_ltb (a b : Z * Z * Z) : bool :=
  let '(a1, a2, a3) := a in
  let '(b1, b2, b3) := b in
  ((a1 <? b1) || ((a1 =? b1) && ((a2 <? b2) || ((a2 =? b2) && (a3 <? b3)))))%Z.

(** [max(l, key=_result_priority)]: the first of the greatest *)
Fixpoint max_priority (best : nat * rule_result) (l : list (nat * rule_result)) : nat * rule_result :=
  match l with
  | [] => best
  | x :: l => max_priority (if triple_ltb (_result_priority best) (_result_priority x) then x else best) l
  end.

(** [enumerate(l)] *)
Fixpoint enumerate {A} (n : nat) (l : list A) : list (nat * A) := match l with [] => [] | a :: l => (n, a) :: enumerate (S n) l end.

Fixpoint unique_onto (values : list string) (l : list string) : list string :=
  match l with [] => values | v :: l => unique_onto (if str_mem v values then values else values ++ [v]) l end.
Definition _unique_strings (results : list rule_result) (key : rule_result -> list string) : list string :=
  fold_left (fun values r => unique_onto values (key r)) results [].

Definition _requirement_from_result (r : rule_result) : Requirement :=
  mkRequirement (rr_reason_code r) (rr_summary r) (rr_evidence_keys r) (rr_required_approvals r) (rr_required_evidence r) (rr_outcome r)
    (rr_risk_level r) (rr_matched_rules r).

Definition _party_key (raw : json) : option (string * string) :=
  match raw with
  | JDict d => match dget d "type", dget d "id" with JStr t, JStr i => Some (t, i) | _, _ => None end
  | _ => None
  end.

(** [key_sets], a dict keyed by pairs *)
Fixpoint key_set_of (party : string * string) (sets : list ((string * string) * dict)) : option dict :=
  match sets with
  | [] => None
  | (k, d) :: sets => if decide (party = k) then Some d else key_set_of party sets
  end.

Section Engine.
Context `{Protocol} `{PyText} `{Ed25519}.

Fixpoint collect_key_sets (raw : list json) (key_sets : list ((string * string) * dict)) : py (list ((string * string) * dict)) :=
  match raw with
  | [] => Ok key_sets
  | JDict key_set :: raw =>
      match _party_key (dget key_set "issuer") with
      | Some party =>
          match key_set_of party key_sets with
          | None => collect_key_sets raw (key_sets ++ [(party, key_set)])
          | Some _ => Err (ValueError "approval_trusted_keys must have unique, valid issuer identities")
          end
      | None => Err (ValueError "approval_trusted_keys must have unique, valid issuer identities")
      end
  | _ :: _ => Err (ValueError "approval_trusted_keys entries must be JSON objects")
  end.

(** [TrustArtifactVerificationError] is a [ValueError]. *)
Definition of_tv {A} (r : tv A) : py A :=
  match r with
  | Ok a => Ok a
  | Err (TransparencyVerificationError code message) => Err (ValueError (code +:+ ": " +:+ message))
  | Err (Raised e) => Err e
  end.

Definition verify_one_approval (intent : ActionIntent) (key_sets : list ((string * string) * dict)) (raw : json) : py VerifiedApprovalArtifact :=
  match raw with
  | JDict artifact =>
      match _party_key (dget artifact "approver") with
      | Some party =>
          match key_set_of party key_sets with
          | Some keys => of_tv (verify_approval_artifact raw (JDict keys) (Some (ExpectedIntent intent)))
          | None => Err (ValueError "no trusted approval key set matches the artifact approver")
          end
      | None => Err (ValueError "no trusted approval key set matches the artifact approver")
      end
  | _ => Err (ValueError "approval_artifacts entries must be JSON objects")
  end.

Definition _with_verified_approvals (intent : ActionIntent) (evidence : dict) : py dict :=
  let raw_artifacts := dget_default evidence "approval_artifacts" (JList []) in
  if negb (py_truthy raw_artifacts) then Ok evidence
  else
    match raw_artifacts with
    | JList artifacts =>
        match dget_default evidence "approval_trusted_keys" (JList []) with
        | JList ((_ :: _) as raw_key_sets) =>
            key_sets ← collect_key_sets raw_key_sets [];
            verified ← res_mapM (verify_one_approval intent key_sets) artifacts;
            Ok (assoc_merge evidence [("verified_approval_present", JBool true);
                  ("verified_approver_types", strings (unique_onto [] (map va_approval_type verified)));
                  ("verified_approver_ids", strings (unique_onto [] (map (fun v => party_id (va_approver v)) verified)));
                  ("verified_approval_ids", strings (map va_approval_id verified))])
        | _ => Err (ValueError "approval_trusted_keys must contain a public key set for each signed approval")
        end
    | _ => Err (ValueError "approval_artifacts must be an array of approval objects")
    end.

Definition _decision_id (intent : ActionIntent) (reason_code outcome : string) : py string :=
  digest ← sha256_hex (JDict [("intent_id", JStr (in_intent_id intent)); ("capability", JStr (act_capability (in_action intent)));
             ("target", JDict (TargetRef_to_dict (in_target intent))); ("outcome", JStr outcome); ("reason_code", JStr reason_code)]);
  Ok ("pfl_" +:+ py_prefix 24 digest).

Fixpoint run_rules (rules : list PreflightRule) (intent : ActionIntent) (evidence : dict) : py (list rule_result) :=
  match rules with
  | [] => Ok []
  | rule :: rules =>
      result ← rule intent evidence;
      results ← run_rules rules intent evidence;
      Ok match result with Some r => r :: results | None => results end
  end.

Definition allows (r : rule_result) : bool := String.eqb (rr_outcome r) "allow".

Definition decision_metadata (pack : PolicyPack) (intent : ActionIntent) (results : list rule_result) (requirements : list Requirement)
    (selected : rule_result) : dict :=
  let pack_metadata := [("pack_id", JStr (pp_pack_id pack)); ("display_name", JStr (pp_display_name pack))] ++
    (if pp_is_template pack then [("is_template", JBool true); ("disclaimer", match pp_disclaimer pack with Some s => JStr s | None => JNull end)] else []) in
  assoc_merge
    [("policy_pack", JDict pack_metadata); ("intent_id", JStr (in_intent_id intent)); ("capability", JStr (act_capability (in_action intent)));
     ("target", JDict (TargetRef_to_dict (in_target intent))); ("evaluated_rule_count", JInt (Z.of_nat (length (pp_rules pack))));
     ("matched_result_count", JInt (Z.of_nat (length results))); ("unmet_requirement_count", JInt (Z.of_nat (length requirements)))]
    (rr_metadata selected).

(** The decision on the results of the rules. *)
Definition decide_results (pack : PolicyPack) (intent : ActionIntent) (results : list rule_result) : py PreflightDecision :=
  let blockers := List.filter (fun r => negb (allows r)) results in
  let candidates := match blockers with [] => List.filter allows results | _ => blockers end in
  match results, enumerate 0 candidates with
  | [], _ => Err (OtherError "RuntimeError")
  | _, [] => Err (ValueError "max() iterable argument is empty")
  | _, first :: rest =>
      let selected := (max_priority first rest).2 in
      let requirements := map _requirement_from_result blockers in
      decision_id ← _decision_id intent (rr_reason_code selected) (rr_outcome selected);
      Ok (mkPreflightDecision decision_id (rr_outcome selected) (rr_reason_code selected) (rr_summary selected)
            (_unique_strings blockers rr_required_evidence) (_unique_strings blockers rr_required_approvals) (rr_risk_level selected)
            (_unique_strings (match blockers with [] => [selected] | _ => blockers end) rr_matched_rules)
            (decision_metadata pack intent results requirements selected) requirements)
  end.

Definition preflight_check (pack : PolicyPack) (intent : ActionIntent + json) (evidence_context : dict) : py PreflightDecision :=
  parsed_intent ← match intent with inl i => Ok i | inr payload => parse payload end;
  evidence ← _with_verified_approvals parsed_intent evidence_context;
  results ← run_rules (pp_rules pack) parsed_intent evidence;
  decide_results pack parsed_intent results.
End Engine.

(** ** Facts about the engine *)

(** The order [max] compares with: a total order on triples. *)
Lemma triple_ltb_trans a b c : triple_ltb b a = false -> triple_ltb c b = false -> triple_ltb c a = false.
Proof.
  destruct a as [[a1 a2] a3], b as [[b1 b2] b3], c as [[c1 c2] c3]. unfold triple_ltb.
  rewrite !orb_false_iff, !andb_false_iff, !orb_false_iff, !andb_false_iff, !Z.ltb_ge, !Z.eqb_neq. lia.
Qed.

Lemma triple_ltb_asym a b : triple_ltb a b = true -> triple_ltb b a = false.
Proof.
  destruct a as [[a1 a2] a3], b as [[b1 b2] b3]. unfold triple_ltb.
  rewrite !orb_true_iff, !andb_true_iff, !orb_true_iff, !andb_true_iff, !orb_false_iff, !andb_false_iff, !orb_false_iff, !andb_false_iff,
    !Z.ltb_ge, !Z.ltb_lt, !Z.eqb_eq, !Z.eqb_neq. lia.
Qed.

(** No element has a greater priority than the one [max] returns. *)
Lemma max_priority_spec best l :
  max_priority best l ∈ best :: l /\ forall x, x ∈ best :: l -> triple_ltb (_result_priority (max_priority best l)) (_result_priority x) = false.
Proof.
  assert (forall a, triple_ltb a a = false) as Hirr by (intros a; destruct (triple_ltb a a) eqn:He; [by apply triple_ltb_asym in He as He'; congruence|done]).
  revert best. induction l as [|y l IH]; intros best; cbn [max_priority].
  { split; [left|]. intros x [->|[]%elem_of_nil]%elem_of_cons. apply Hirr. }
  set (b := if triple_ltb (_result_priority best) (_result_priority y) then y else best). destruct (IH b) as [Hin Hmax].
  assert (triple_ltb (_result_priority b) (_result_priority best) = false /\ triple_ltb (_result_priority b) (_result_priority y) = false) as [Hb Hy].
  { unfold b. destruct (triple_ltb (_result_priority best) (_result_priority y)) eqn:He; [by split; [apply triple_ltb_asym|]|done]. }
  split; [unfold b in Hin |- *; destruct (triple_ltb _ _); set_solver|].
  assert (triple_ltb (_result_priority (max_priority b l)) (_result_priority b) = false) as Hbb by (apply Hmax; left).
  intros x [->|[->|Hx]%elem_of_cons]%elem_of_cons; [by eapply triple_ltb_trans..|]. apply Hmax. by right.
Qed.

Lemma enumerate_values {A} n (l : list A) : (enumerate n l).*2 = l.
Proof. revert n. induction l as [|a l IH]; intros n; [done|]. cbn. f_equal. apply IH. Qed.

Lemma unique_onto_elem v values l : v ∈ unique_onto values l <-> v ∈ values \/ v ∈ l.
Proof.
  revert values. induction l as [|x l IH]; intros values; cbn [unique_onto]; [set_solver|]. rewrite IH.
  destruct (str_mem x values) eqn:Hm; [apply str_mem_spec in Hm; set_solver|set_solver].
Qed.

Lemma unique_onto_nodup values l : NoDup values -> NoDup (unique_onto values l).
Proof.
  revert values. induction l as [|x l IH]; intros values Hn; [done|]. cbn [unique_onto]. apply IH.
  destruct (str_mem x values) eqn:Hm; [done|]. apply NoDup_app. split; [done|]. split; [|apply NoDup_singleton].
  intros y Hy Hyx. apply list_elem_of_singleton in Hyx as ->. apply str_mem_spec in Hy. congruence.
Qed.

Lemma unique_strings_elem results key v : v ∈ _unique_strings results key <-> exists r, r ∈ results /\ v ∈ key r.
Proof.
  unfold _unique_strings. assert (forall acc, v ∈ fold_left (fun values r => unique_onto values (key r)) results acc <-> v ∈ acc \/ exists r, r ∈ results /\ v ∈ key r) as Hf.
  { induction results as [|r results IH]; intros acc; cbn [fold_left]; [set_solver|]. rewrite IH, unique_onto_elem. set_solver. }
  rewrite Hf. set_solver.
Qed.

Section EngineFacts.
Context `{Protocol} `{PyText} `{Ed25519}.

(** The rules ran to the end; the results are the answers that are not [None]. *)
Lemma run_rules_Ok rules intent evidence results : run_rules rules intent evidence = Ok results ->
  exists answers, Forall2 (fun rule answer => rule intent evidence = Ok answer) rules answers /\ results = omap id answers.
Proof.
  revert results. induction rules as [|rule rules IH]; intros results Hr; cbn [run_rules] in Hr; [injection Hr as <-; by exists []|].
  apply bind_Ok in Hr as (a & Ha & Hr). apply bind_Ok in Hr as (rs & Hrs & [= <-]). apply IH in Hrs as (answers & Hall & ->).
  exists (a :: answers). split; [by constructor|]. by destruct a.
Qed.

Lemma blockers_nil results : List.filter (fun r => negb (allows r)) results = [] <-> Forall (fun r => rr_outcome r = "allow") results.
Proof.
  induction results as [|r results IH]; cbn [List.filter]; [done|]. rewrite Forall_cons, <- IH. unfold allows at 1.
  destruct (String.eqb_spec (rr_outcome r) "allow"); cbn [negb]; naive_solver.
Qed.

(** What a decision says about the results it was made from. *)
Record decision_of (results : list rule_result) (d : PreflightDecision) : Prop := {
  (** it allows exactly when every result allows *)
  do_allow : pf_outcome d = "allow" <-> Forall (fun r => rr_outcome r = "allow") results;
  (** it reports one of the results, a blocking one when there is one, of the highest priority *)
  do_selected : exists r, r ∈ results /\ pf_outcome d = rr_outcome r /\ pf_reason_code d = rr_reason_code r /\ pf_risk_level d = rr_risk_level r /\
    forall r', r' ∈ results -> rr_outcome r' <> "allow" ->
      (_RISK_PRIORITY (rr_risk_level r') < _RISK_PRIORITY (rr_risk_level r) \/
       _RISK_PRIORITY (rr_risk_level r') = _RISK_PRIORITY (rr_risk_level r) /\ _OUTCOME_PRIORITY (rr_outcome r') <= _OUTCOME_PRIORITY (rr_outcome r))%Z;
  (** every blocking result is an unmet requirement, in order *)
  do_requirements : pf_unmet_requirements d = map _requirement_from_result (List.filter (fun r => negb (allows r)) results);
  do_evidence : forall v, v ∈ pf_required_evidence d <-> exists r, r ∈ results /\ rr_outcome r <> "allow" /\ v ∈ rr_required_evidence r;
  do_approvals : forall v, v ∈ pf_required_approvals d <-> exists r, r ∈ results /\ rr_outcome r <> "allow" /\ v ∈ rr_required_approvals r
}.

Lemma elem_of_blockers r results : r ∈ List.filter (fun r => negb (allows r)) results <-> r ∈ results /\ rr_outcome r <> "allow".
Proof.
  rewrite !list_elem_of_In, filter_In. unfold allows. destruct (String.eqb_spec (rr_outcome r) "allow"); naive_solver.
Qed.

Lemma decide_results_Ok pack intent results d : decide_results pack intent results = Ok d -> decision_of results d.
Proof.
  unfold decide_results. cbv zeta. destruct results as [|r0 rs]; [done|]. generalize (r0 :: rs). clear r0 rs. intros results.
  set (blockers := List.filter (fun r => negb (allows r)) results).
  set (candidates := match blockers with [] => List.filter allows results | _ => blockers end). intros Hd.
  destruct (enumerate 0 candidates) as [|first rest] eqn:He; [done|]. apply bind_Ok in Hd as (i & _ & [= <-]).
  set (selected := (max_priority first rest).2). destruct (max_priority_spec first rest) as [Hin Hmax]. rewrite <- He in Hin, Hmax.
  assert (selected ∈ candidates) as Hsel by (rewrite <- (enumerate_values 0 candidates); apply list_elem_of_fmap; eauto).
  assert (forall x, x ∈ candidates -> exists n, (n, x) ∈ enumerate 0 candidates) as Hidx.
  { intros x Hx. rewrite <- (enumerate_values 0 candidates) in Hx. apply list_elem_of_fmap in Hx as ([n x'] & -> & Hx). eauto. }
  assert (blockers = [] -> rr_outcome selected = "allow") as Hnil.
  { intros Hb. unfold candidates in Hsel. rewrite Hb in Hsel. apply list_elem_of_In, filter_In in Hsel as [_ Ha]. by apply String.eqb_eq. }
  assert (blockers <> [] -> selected ∈ blockers) as Hblk by (unfold candidates in Hsel; by destruct blockers).
  constructor; cbn; try done.
  - rewrite <- blockers_nil. fold blockers. split; [|done]. intros Ha. destruct blockers as [|b bs] eqn:Hb; [done|].
    assert (selected ∈ b :: bs) as Hs by (by apply Hblk). rewrite <- Hb in Hs. apply elem_of_blockers in Hs as [_ ?]. done.
  - exists selected. split_and!; try done.
    + destruct blockers eqn:Hb; [unfold candidates in Hsel; by apply list_elem_of_In, filter_In in Hsel as [?%list_elem_of_In _]|].
      assert (selected ∈ blockers) as Hs by (rewrite Hb; by apply Hblk). by apply elem_of_blockers in Hs as [? _].
    + intros r' Hr' Ho. assert (r' ∈ blockers) as Hb by (by apply elem_of_blockers).
      assert (r' ∈ candidates) as (n & Hn)%Hidx by (unfold candidates; destruct blockers; [by apply elem_of_nil in Hb|done]).
      apply Hmax in Hn. fold selected in Hn. unfold triple_ltb, _result_priority in Hn. cbn [fst snd] in Hn.
      destruct (max_priority first rest) as [m sel]. cbn in selected. subst selected. cbn [fst snd] in Hn.
      rewrite orb_false_iff, andb_false_iff, orb_false_iff, !Z.ltb_ge, Z.eqb_neq in Hn. lia.
  - intros v. rewrite unique_strings_elem. unfold blockers. setoid_rewrite elem_of_blockers. naive_solver.
  - intros v. rewrite unique_strings_elem. unfold blockers. setoid_rewrite elem_of_blockers. naive_solver.
Qed.

(** *** Verified approvals *)
Lemma of_tv_Ok {A} (r : tv A) a : of_tv r = Ok a -> r = Ok a.
Proof. destruct r as [|[]]; cbn; congruence. Qed.

Lemma verify_one_approval_Ok intent key_sets raw v : verify_one_approval intent key_sets raw = Ok v ->
  exists artifact party keys, raw = JDict artifact /\ _party_key (dget artifact "approver") = Some party /\ key_set_of party key_sets = Some keys /\
    verify_approval_artifact (JDict artifact) (JDict keys) (Some (ExpectedIntent intent)) = Ok v.
Proof.
  unfold verify_one_approval. destruct raw as [| | | | | |artifact]; try done. destruct (_party_key _) as [party|] eqn:Hp; [|done].
  destruct (key_set_of party key_sets) as [keys|] eqn:Hk; [|done]. intros Hv%of_tv_Ok. by exists artifact, party, keys.
Qed.

(** A key set is used for the party that is its issuer. *)
Definition issued_by_key (kd : (string * string) * dict) : Prop := _party_key (dget kd.2 "issuer") = Some kd.1.

Lemma collect_key_sets_issuer raw sets sets' : collect_key_sets raw sets = Ok sets' -> Forall issued_by_key sets -> Forall issued_by_key sets'.
Proof.
  revert sets. induction raw as [|j raw IH]; intros sets Hc Hs; cbn [collect_key_sets] in Hc; [by injection Hc as <-|].
  destruct j as [| | | | | |d]; try done. destruct (_party_key (dget d "issuer")) as [p|] eqn:Hp; [|done].
  destruct (key_set_of p sets) eqn:Hk; [done|]. apply IH in Hc; [done|]. apply Forall_app. split; [done|]. by repeat constructor.
Qed.

Lemma key_set_of_issuer party sets keys : Forall issued_by_key sets -> key_set_of party sets = Some keys -> _party_key (dget keys "issuer") = Some party.
Proof.
  induction 1 as [|[k d] sets Hk Hs IH]; cbn [key_set_of]; [done|]. destruct (decide (party = k)) as [->|]; [|done]. by intros [= <-].
Qed.

(** The key sets in use are the ones the evidence trusts. *)
Lemma collect_key_sets_trusted raw sets sets' kd : collect_key_sets raw sets = Ok sets' -> kd ∈ sets' -> kd ∈ sets \/ JDict kd.2 ∈ raw.
Proof.
  revert sets. induction raw as [|j raw IH]; intros sets Hc Hin; cbn [collect_key_sets] in Hc; [injection Hc as <-; by left|].
  destruct j as [| | | | | |d]; try done. destruct (_party_key (dget d "issuer")) as [p|]; [|done].
  destruct (key_set_of p sets); [done|]. destruct (IH _ Hc Hin) as [[Hs| ->%list_elem_of_singleton]%elem_of_app|Hr]; [by left|right; by left|right; by right].
Qed.

Lemma key_set_of_elem party sets keys : key_set_of party sets = Some keys -> (party, keys) ∈ sets.
Proof.
  induction sets as [|[k d] sets IH]; cbn [key_set_of]; [done|]. destruct (decide (party = k)) as [->|]; [intros [= ->]; left|right; by apply IH].
Qed.

(** An approval artifact, verified for this action under a trusted key set of its
    own approver. *)
Definition approval_verified (intent : ActionIntent) (trusted : list json) (raw : json) (v : VerifiedApprovalArtifact) : Prop :=
  exists artifact party keys, raw = JDict artifact /\ _party_key (dget artifact "approver") = Some party /\
    JDict keys ∈ trusted /\ _party_key (dget keys "issuer") = Some party /\
    verify_approval_artifact (JDict artifact) (JDict keys) (Some (ExpectedIntent intent)) = Ok v.

Lemma with_verified_approvals_Ok intent evidence evidence' : _with_verified_approvals intent evidence = Ok evidence' ->
  (py_truthy (dget_default evidence "approval_artifacts" (JList [])) = false /\ evidence' = evidence) \/
  exists artifacts trusted verified, dget_default evidence "approval_artifacts" (JList []) = JList artifacts /\ artifacts <> [] /\
    dget_default evidence "approval_trusted_keys" (JList []) = JList trusted /\
    Forall2 (approval_verified intent trusted) artifacts verified /\
    evidence' = assoc_merge evidence [("verified_approval_present", JBool true);
      ("verified_approver_types", strings (unique_onto [] (map va_approval_type verified)));
      ("verified_approver_ids", strings (unique_onto [] (map (fun v => party_id (va_approver v)) verified)));
      ("verified_approval_ids", strings (map va_approval_id verified))].
Proof.
  unfold _with_verified_approvals. destruct (py_truthy _) eqn:Ht; cbn [negb]; [|intros [= <-]; by left].
  destruct (dget_default evidence "approval_artifacts" (JList [])) as [| | | | |artifacts|]; try done.
  destruct (dget_default evidence "approval_trusted_keys" (JList [])) as [| | | | |[|k ks]|]; try done.
  intros (sets & Hs & Hv)%bind_Ok. apply bind_Ok in Hv as (verified & Hv & [= <-]). right. exists artifacts, (k :: ks), verified.
  split_and!; [done|by destruct artifacts|done| |done]. apply res_mapM_Ok in Hv. eapply Forall2_impl; [exact Hv|].
  intros raw v (artifact & party & keys & -> & Hp & Hk & Hver)%verify_one_approval_Ok. exists artifact, party, keys. split_and!; try done.
  - apply key_set_of_elem in Hk. by destruct (collect_key_sets_trusted _ _ _ _ Hs Hk) as [?%elem_of_nil|?].
  - by eapply key_set_of_issuer; [eapply collect_key_sets_issuer, Forall_nil_2|].
Qed.
End EngineFacts.

(** ** Reading back what was printed *)
Section RoundTrips.
Context `{PyText}.

Lemma text_tuple_strings l : text_tuple (strings l) = Ok l.
Proof. unfold text_tuple, strings. cbn [py_iter mbind res_bind]. f_equal. induction l as [|s l IH]; [done|]. cbn. by rewrite IH. Qed.

Lemma dict_tuple_to {A} (f : dict -> py A) (to : A -> dict) (wf : A -> bool) l : (forall a, wf a = true -> f (to a) = Ok a) ->
  forallb wf l = true -> dict_tuple f (JList (map (fun a => JDict (to a)) l)) = Ok l.
Proof.
  intros Hf Hl. unfold dict_tuple. cbn [py_iter mbind res_bind].
  apply (res_mapM_roundtrip (fun item => d ← py_dict item; f d) (fun a => JDict (to a)) wf); [|done]. intros a Ha. by apply Hf.
Qed.

Lemma EvidenceKey_roundtrip k : EvidenceKey_from_dict (EvidenceKey_to_dict k) = Ok k.
Proof. by destruct k as [key ty ex de []]. Qed.

Definition Requirement_wf (r : Requirement) : bool := str_mem (rt_outcome r) PREFLIGHT_OUTCOMES.
Definition PreflightDecision_wf (d : PreflightDecision) : bool :=
  str_mem (pf_outcome d) PREFLIGHT_OUTCOMES && forallb Requirement_wf (pf_unmet_requirements d).

Lemma preflight_outcome_Ok s msg : str_mem s PREFLIGHT_OUTCOMES = true -> preflight_outcome (JStr s) msg = Ok s.
Proof. intros Hs. unfold preflight_outcome. by rewrite Hs. Qed.

Lemma forallb_true {A} (l : list A) : forallb (fun _ => true) l = true.
Proof. by induction l. Qed.

Lemma Requirement_roundtrip r : Requirement_wf r = true -> Requirement_from_dict (Requirement_to_dict r) = Ok r.
Proof.
  intros Hw. destruct r as [rc su ek ra re o rl mr]. unfold Requirement_from_dict, Requirement_to_dict, Requirement_wf, str_item, getitem, str_get, dget_default in *.
  cbn -[preflight_outcome text_tuple dict_tuple strings] in *. rewrite preflight_outcome_Ok by done. cbn [mbind res_bind].
  rewrite (dict_tuple_to EvidenceKey_from_dict EvidenceKey_to_dict (fun _ => true)) by (first [intros; apply EvidenceKey_roundtrip|apply forallb_true]).
  cbn [mbind res_bind]. by rewrite !text_tuple_strings.
Qed.

Lemma decision_roundtrip d : PreflightDecision_wf d = true -> PreflightDecision_from_dict (PreflightDecision_to_dict d) = Ok d.
Proof.
  intros [Ho Hr]%andb_true_iff. destruct d as [id o rc su re ra rl mr md ur].
  unfold PreflightDecision_from_dict, PreflightDecision_to_dict, str_item, getitem, str_get, dget_default in *.
  cbn -[preflight_outcome text_tuple dict_tuple strings Requirement_to_dict] in *. rewrite preflight_outcome_Ok by done. cbn [mbind res_bind].
  rewrite !text_tuple_strings. cbn [mbind res_bind].
  by rewrite (dict_tuple_to Requirement_from_dict Requirement_to_dict Requirement_wf) by (first [apply Requirement_roundtrip|done]).
Qed.

Lemma get_strings_item l k : texts_of (match (if list_truthy l then Some (strings l) else None) with Some v => v | None => JList k end) =
  if list_truthy l then Ok l else texts_of (JList k).
Proof. destruct l; [done|]. apply (text_tuple_strings (_ :: _)). Qed.

Lemma get_mappings_item l : mappings_of (match (if list_truthy l then Some (JList (map JDict l)) else None) with Some v => v | None => JList [] end) = Ok l.
Proof.
  assert (forall l, mappings_of (JList (map JDict l)) = Ok l) as Hm; [|by destruct l; [|apply (Hm (_ :: _))]].
  clear. intros l. unfold mappings_of. cbn [py_iter mbind res_bind]. induction l as [|d l IH]; [done|]. cbn [map res_mapM py_dict mbind res_bind]. by rewrite IH.
Qed.

Lemma evidence_roundtrip e : PreflightEvidence_from_mapping (PreflightEvidence_to_dict e) = Ok e.
Proof.
  unfold PreflightEvidence_from_mapping. eval_lookups.
  rewrite !get_strings_item, !get_mappings_item, !get_json_item.
  destruct e as [e1 e2 e3 e4 e5 [|t ts] aa at_ e9 e10 e11 e12 e13 e14 e15 e16 e17 e18 e19 e20 e21 e22 [|i is_] e24 e25 e26 e27 e28 e29 e30 e31]; done.
Qed.
End RoundTrips.

(** ** Properties *)

(** C10: the preflight engine is fail-closed and complete: when it decides, every
    rule of the pack has answered on the evidence with its approvals verified;
    the decision allows exactly when all the answers allow, it reports the
    blocking answer of the highest risk and then severity, and its unmet
    requirements, required evidence and required approvals are those of all the
    blocking answers.  A pack without an answer decides nothing. *)
Theorem preflight_decision_exact `{Protocol} `{PyText} `{Ed25519} (pack : PolicyPack) (intent : ActionIntent) (evidence : dict) (d : PreflightDecision) :
  preflight_check pack (inl intent) evidence = Ok d ->
  exists evidence' answers, _with_verified_approvals intent evidence = Ok evidence' /\
    Forall2 (fun rule answer => rule intent evidence' = Ok answer) (pp_rules pack) answers /\
    omap id answers <> [] /\ decision_of (omap id answers) d.
Proof.
  unfold preflight_check. cbn [mbind res_bind]. intros (ev & Hev & Hd)%bind_Ok. apply bind_Ok in Hd as (results & Hr & Hd).
  apply run_rules_Ok in Hr as (answers & Ha & ->). exists ev, answers. split_and!; try done.
  - intros Hn. by rewrite Hn in Hd.
  - by eapply decide_results_Ok.
Qed.

(** C11: approval artifacts count only when they verify: when the evidence carries
    any, the rules see evidence only if every one of them was verified for this very
    action under a key set that is listed in the evidence's own
    [approval_trusted_keys] and whose issuer is the artifact's approver, and then
    the verified types, approvers and approvals the rules see are exactly theirs,
    whatever the caller wrote in those fields.  Evidence without artifacts reaches
    the rules unchanged: the caller's own fields, the [verified_] ones included, are
    taken as they are. *)
Theorem verified_approvals_bound `{Protocol} `{PyText} `{Ed25519} (intent : ActionIntent) (evidence evidence' : dict) :
  _with_verified_approvals intent evidence = Ok evidence' ->
  (py_truthy (dget_default evidence "approval_artifacts" (JList [])) = false /\ evidence' = evidence) \/
  exists artifacts trusted verified, dget_default evidence "approval_artifacts" (JList []) = JList artifacts /\ artifacts <> [] /\
    dget_default evidence "approval_trusted_keys" (JList []) = JList trusted /\
    Forall2 (approval_verified intent trusted) artifacts verified /\
    evidence' = assoc_merge evidence [("verified_approval_present", JBool true);
      ("verified_approver_types", strings (unique_onto [] (map va_approval_type verified)));
      ("verified_approver_ids", strings (unique_onto [] (map (fun v => party_id (va_approver v)) verified)));
      ("verified_approval_ids", strings (map va_approval_id verified))].
Proof. apply with_verified_approvals_Ok. Qed.

(** Preflight artifacts survive printing and reading: evidence always, a
    decision whenever its outcome and those of its requirements are outcomes. *)
Theorem preflight_roundtrip `{PyText} (d : PreflightDecision) (e : PreflightEvidence) :
  PreflightDecision_wf d = true ->
  PreflightDecision_from_dict (PreflightDecision_to_dict d) = Ok d /\ PreflightEvidence_from_mapping (PreflightEvidence_to_dict e) = Ok e.
Proof. intros Hd. split; [by apply decision_roundtrip|apply evidence_roundtrip]. Qed.

(** ** Samples *)
Definition hex_protocol : Protocol := {|
  MAX_JSON_DEPTH := 64; CANONICALIZATION_PROFILE := "ACTENON-JCS-STRICT-1"; LEGACY_CANONICALIZATION_PROFILE := "RFC8785-JCS";
  ACCEPTED_CANONICALIZATION_PROFILES := ["ACTENON-JCS-STRICT-1"; "RFC8785-JCS"]; canonicalisation_error_is_value_error := true;
  sha256_hexdigest _ := String.concat "" (repeat "ab" 32)
|}.
Definition sample_approval_evidence : dict :=
  [("approval_artifacts", JList [JDict sample_approval]); ("approval_trusted_keys", JList [JDict (sample_trust_keys APPROVAL_KEY_USE)])].
Definition sample_rule_result (outcome risk : string) : rule_result :=
  mkRuleResult outcome ("SAMPLE_" +:+ outcome) "sample" risk ["sample.rule"] ["ticket"] [] [] [].
Definition sample_pack : PolicyPack :=
  mkPolicyPack "sample" "Sample" ["payments.refund"]
    [(fun _ _ => Ok None); (fun _ _ => Ok (Some (sample_rule_result "needs_evidence" "high"))); (fun _ _ => Ok (Some (sample_rule_result "allow" "low")))]
    false None.
Definition sample_preflight := @preflight_check hex_protocol demo_text demo_ed25519 sample_pack (inl sample_intent) [].

Lemma preflight_decision_exact_witness : exists d, sample_preflight = Ok d /\ pf_outcome d = "needs_evidence" /\
  exists results, results <> [] /\ decision_of results d.
Proof.
  destruct sample_preflight as [d|e] eqn:Hd; [|vm_compute in Hd; discriminate Hd]. exists d. split; [reflexivity|].
  split; [vm_compute in Hd; injection Hd as <-; reflexivity|].
  destruct (@preflight_decision_exact hex_protocol demo_text demo_ed25519 sample_pack sample_intent [] d Hd) as (ev & answers & _ & _ & Hn & Hr).
  exists (omap id answers). split; [exact Hn|exact Hr].
Defined.

Lemma verified_approvals_bound_witness : exists evidence' trusted verified,
  @_with_verified_approvals hex_protocol demo_text demo_ed25519 sample_intent sample_approval_evidence = Ok evidence' /\
  dget evidence' "verified_approver_types" = JList [JStr "manager"] /\
  trusted = [JDict (sample_trust_keys APPROVAL_KEY_USE)] /\
  Forall2 (@approval_verified hex_protocol demo_text demo_ed25519 sample_intent trusted) [JDict sample_approval] verified.
Proof.
  destruct (@_with_verified_approvals hex_protocol demo_text demo_ed25519 sample_intent sample_approval_evidence) as [evidence'|e] eqn:He;
    [|vm_compute in He; discriminate He].
  destruct (@verified_approvals_bound hex_protocol demo_text demo_ed25519 sample_intent sample_approval_evidence evidence' He)
    as [[Hf _]|(artifacts & trusted & verified & Ha & _ & Ht & Hv & _)]; [discriminate Hf|].
  change (JList [JDict sample_approval] = JList artifacts) in Ha.
  change (JList [JDict (sample_trust_keys APPROVAL_KEY_USE)] = JList trusted) in Ht.
  assert (artifacts = [JDict sample_approval]) as -> by congruence.
  assert (trusted = [JDict (sample_trust_keys APPROVAL_KEY_USE)]) as -> by congruence.
  exists evidence', [JDict (sample_trust_keys APPROVAL_KEY_USE)], verified. split; [reflexivity|].
  split; [vm_compute in He; injection He as <-; vm_compute; reflexivity|]. split; [reflexivity|exact Hv].
Defined.

Definition sample_preflight_decision : PreflightDecision :=
  mkPreflightDecision "pfl_1" "deny" "R" "s" [] ["security_admin"] "high" ["r"] [("environment", JStr "production")]
    [_requirement_from_result (sample_rule_result "deny" "high")].
Lemma preflight_roundtrip_witness :
  @PreflightDecision_from_dict demo_text (PreflightDecision_to_dict sample_preflight_decision) = Ok sample_preflight_decision.
Proof.
  refine (proj1 (@preflight_roundtrip demo_text sample_preflight_decision
    (mkEvidence (JStr "production") JNull JNull JNull JNull [] [] [] JNull JNull JNull JNull JNull JNull JNull JNull JNull JNull JNull JNull JNull JNull
       [] JNull JNull JNull JNull JNull JNull JNull JNull) _)).
  reflexivity.
Defined.
