(* ===== verification/PolicyPacks.v ===== *)
(** * The preflight policy packs: [actenon/preflight/policy_packs.py]

    The helpers that read evidence, parameters and context, the rules, and the
    five packs: destructive and data actions (the default), data privacy, access
    governance, payments, and the clinical template.  [str.lower] is
    [Receipts.str_lower], except in [_truthy_value], whose set of words it decides
    on ASCII letters.

    The theorems: each pack allows exactly the actions that
    meet its requirements, stated as a condition on the intent and the evidence. *)

From Stdlib Require Import Ascii.
From S2P Require Import Prelude Text Json Errors Timestamps Canonical Contracts Runtime Samples SecurityPosture ProofService Receipts Artifacts Merkle Base64 Transparency Countersignature TrustArtifacts Preflight.

Definition DESTRUCTIVE_AND_DATA_CAPABILITIES : list string :=
  ["database.delete"; "database.schema.apply"; "infrastructure.delete"; "backup.delete"; "volume.delete"; "migration.apply"; "deployment.execute";
   "iam.permission.grant"; "data.export"; "payment.release"].
Definition DATA_PRIVACY_CAPABILITIES : list string :=
  ["data.export"; "data.download"; "data.share"; "data.sync.external"; "report.generate.external"].
Definition ACCESS_GOVERNANCE_CAPABILITIES : list string :=
  ["iam.permission.grant"; "iam.role.assign"; "iam.role.membership.change"; "iam.api_key.create"; "iam.credential.rotate"; "workspace.share"].
Definition PAYMENTS_CAPABILITIES : list string :=
  ["payment.create"; "payment.release"; "payment.transfer"; "payment.refund"; "invoice.approve"; "payout.release"; "bank_details.update"].
Definition CLINICAL_TEMPLATE_CAPABILITIES : list string :=
  ["clinical.note.draft"; "clinical.note.publish"; "clinical.record.update"; "medication.order"; "treatment_plan.change"].

Definition FALSE_WORDS : list string := [""; "0"; "false"; "no"; "n"; "none"; "null"; "missing"; "absent"; "unavailable"].

Definition _truthy_value (value : json) : bool :=
  match value with
  | JStr s => negb (str_mem (normalized s) FALSE_WORDS)
  | _ => py_truthy value
  end.

Definition capability (intent : ActionIntent) : string := act_capability (in_action intent).

Section Helpers.
Context `{PyText}.
Implicit Types (intent : ActionIntent) (evidence : dict).

Definition _env intent evidence : string :=
  str_lower (py_str
    (py_or (dget evidence "environment") (py_or (dget (parameters intent) "environment")
      (py_or (dget (tgt_selectors (in_target intent)) "environment") (py_or (dget (in_context intent) "environment") (JStr "unknown")))))).

Definition _has_change_ticket intent evidence : bool :=
  _truthy_value (dget evidence "change_ticket") || _truthy_value (dget (parameters intent) "change_ticket") ||
  _truthy_value (dget (in_context intent) "change_ticket").

Definition _has_backup_evidence intent evidence : bool :=
  _truthy_value (dget evidence "backup_verified") || _truthy_value (dget evidence "backup_snapshot") ||
  _truthy_value (dget (parameters intent) "backup_verified") || _truthy_value (dget (in_context intent) "backup_verified").

Definition _requires_backup (cap : string) : bool :=
  str_mem cap ["database.delete"; "database.schema.apply"; "infrastructure.delete"; "backup.delete"; "volume.delete"; "migration.apply"].

Definition _approval_present intent evidence : bool :=
  _truthy_value (dget evidence "verified_approval_present") || _truthy_value (dget evidence "approval_present") ||
  _truthy_value (dget (parameters intent) "approval_present") || _truthy_value (dget (in_context intent) "approval_present").

(** [(x,)] of a text, [tuple(str(item) for item in x)] of a list, else [()] *)
Definition text_values (x : json) : list string := match x with JStr s => [s] | JList l => map py_str l | _ => [] end.

Definition _approver_types intent evidence : list string :=
  let verified := py_or (dget evidence "verified_approver_types") (JList []) in
  let raw := py_or (dget evidence "approver_types") (py_or (dget (parameters intent) "approver_types")
               (py_or (dget (in_context intent) "approver_types") (JList []))) in
  let verified_values := text_values verified in
  match raw with
  | JStr _ | JList _ => unique_onto [] (verified_values ++ text_values raw)
  | _ => verified_values
  end.

Definition _approval_satisfied intent evidence (required_approvals : list string) : bool :=
  if negb (_approval_present intent evidence) then false
  else match _approver_types intent evidence with
       | [] => true
       | provided => forallb (fun a => str_mem a provided) required_approvals
       end.

(** [int(x)], and [0] when that is a [TypeError] or a [ValueError] *)
Definition int_or_zero (x : json) : py Z :=
  match py_int x with
  | Ok z => Ok z
  | Err (TypeError _) | Err (ValueError _) => Ok 0%Z
  | Err e => Err e
  end.

Definition _row_count intent evidence : py Z :=
  int_or_zero (dget_default evidence "row_count" (dget_default (parameters intent) "row_count" (dget_default (parameters intent) "records" (JInt 0)))).

Definition _value intent evidence (key : string) (default : json) : json :=
  if has_key key evidence then dget evidence key
  else if has_key key (parameters intent) then dget (parameters intent) key
  else dget_default (in_context intent) key default.

Definition _string_value_or intent evidence (key default : string) : string := str_lower (py_strip (py_str (_value intent evidence key (JStr default)))).
Definition _string_value intent evidence (key : string) : string := _string_value_or intent evidence key "".

Definition _string_values intent evidence (key : string) : list string :=
  match _value intent evidence key (JList []) with
  | JStr s => if str_truthy (py_strip s) then [str_lower (py_strip s)] else []
  | JList l => map (fun item => str_lower (py_strip (py_str item))) (List.filter (fun item => str_truthy (py_strip (py_str item))) l)
  | _ => []
  end.

Fixpoint first_truthy (l : list string) : string := match l with [] => "" | s :: l => if str_truthy s then s else first_truthy l end.

Definition _sensitivity_classification intent evidence : string :=
  first_truthy (map (_string_value intent evidence) ["sensitivity_classification"; "data_classification"; "sensitivity"]).

Definition startswith (p s : string) : bool := match strip_prefix p s with Some _ => true | None => false end.
Definition EXTERNAL_WORDS : list string := ["external"; "third_party"; "vendor"].

Definition _is_external_destination intent evidence : bool :=
  let destination := _string_value intent evidence "destination" in
  let destination_classification := _string_value intent evidence "destination_classification" in
  existsb (fun p => startswith p destination) ["http://"; "https://"; "s3://"; "gs://"] || str_mem destination EXTERNAL_WORDS ||
  str_mem destination_classification EXTERNAL_WORDS.

(** ** Results *)
Definition _result (outcome reason_code summary risk_level matched_rule : string) (required_evidence required_approvals : list string)
    (evidence_keys : list EvidenceKey) (metadata : dict) : rule_result :=
  mkRuleResult outcome reason_code summary risk_level [matched_rule] required_evidence required_approvals evidence_keys metadata.

Definition _evidence_key (key value_type : string) (example : json) (description : string) : EvidenceKey :=
  mkEvidenceKey key value_type example description true.

Definition build_evidence_key := _evidence_key.
Definition build_preflight_rule_result := _result.

Definition _approval_evidence_keys (required_approvals : list string) : list EvidenceKey :=
  [_evidence_key "approval_present" "boolean" (JBool true) "Set true only after the required approval has been verified.";
   _evidence_key "approver_types" "array[string]" (strings required_approvals) "Approval roles present for this exact action.";
   _evidence_key "approval_artifacts" "array[approval_artifact.v1]" (JList []) "Preferred: signed approvals bound to this exact action.";
   _evidence_key "approval_trusted_keys" "array[key_discovery.v1]" (JList []) "Pinned public keys for the signed approval artifacts."].

Definition _domain_capability_rule (pack_id : string) (capabilities : list string) : PreflightRule := fun intent evidence =>
  if str_mem (capability intent) capabilities then Ok None
  else Ok (Some (_result "needs_evidence" "PREFLIGHT_CAPABILITY_NOT_COVERED" ("The action capability is not covered by the " +:+ pack_id +:+ " policy pack.")
         "medium" (pack_id +:+ ".capability_not_covered") ["policy_pack_selection"] []
         [_evidence_key "policy_pack_selection" "string" (JStr pack_id) "Select a policy pack that explicitly covers this action capability."]
         [("capability", JStr (capability intent))])).

Definition _requirements_satisfied_rule (pack_id summary : string) : PreflightRule := fun intent evidence =>
  Ok (Some (_result "allow" "PREFLIGHT_REQUIREMENTS_SATISFIED" summary "low" (pack_id +:+ ".requirements_satisfied") [] [] []
         [("capability", JStr (capability intent))])).

(** ** Destructive and data actions *)
Definition _unsupported_capability : PreflightRule := fun intent evidence =>
  if negb (str_mem (capability intent) DESTRUCTIVE_AND_DATA_CAPABILITIES) then
    let classification := str_lower (py_strip (py_str (dget_default evidence "capability_classification" (JStr "")))) in
    if String.eqb classification "non_consequential" then Ok None
    else Ok (Some (_result "needs_evidence" "PREFLIGHT_CAPABILITY_UNCLASSIFIED" "The action capability is not covered by the default preflight policy pack."
           "medium" "destructive_data.capability_unclassified" ["capability_classification"] []
           [_evidence_key "capability_classification" "string" (JStr "non_consequential")
              "Use non_consequential only after locally reviewing a capability outside the default policy pack."]
           [("capability", JStr (capability intent))]))
  else Ok None.

Definition env_metadata intent evidence : dict := [("environment", JStr (_env intent evidence)); ("capability", JStr (capability intent))].

Definition _missing_change_ticket : PreflightRule := fun intent evidence =>
  if str_mem (capability intent) DESTRUCTIVE_AND_DATA_CAPABILITIES && String.eqb (_env intent evidence) "production" && negb (_has_change_ticket intent evidence)
  then Ok (Some (_result "needs_evidence" "PREFLIGHT_CHANGE_TICKET_REQUIRED" "Production consequential action requires a change ticket before execution."
         "high" "destructive_data.change_ticket_required" ["change_ticket"] []
         [_evidence_key "change_ticket" "string" (JStr "CHG-2026-0042") "Verified change-ticket identifier bound to this action."]
         (env_metadata intent evidence)))
  else Ok None.

Definition _missing_backup_evidence : PreflightRule := fun intent evidence =>
  if String.eqb (_env intent evidence) "production" && _requires_backup (capability intent) && negb (_has_backup_evidence intent evidence)
  then Ok (Some (_result "needs_evidence" "PREFLIGHT_BACKUP_EVIDENCE_REQUIRED" "Production destructive action requires current backup evidence before execution."
         "high" "destructive_data.backup_evidence_required" ["backup_verified"] []
         [_evidence_key "backup_verified" "boolean" (JBool true) "True only after a current backup has been verified."]
         (env_metadata intent evidence)))
  else Ok None.

Definition PRODUCTION_DESTRUCTIVE : list string :=
  ["database.delete"; "infrastructure.delete"; "backup.delete"; "volume.delete"; "migration.apply"; "database.schema.apply"].
Definition DESTRUCTIVE_APPROVALS : list string := ["infrastructure_owner"; "security_admin"].

Definition _production_destructive_without_approval : PreflightRule := fun intent evidence =>
  if negb (String.eqb (_env intent evidence) "production") then Ok None
  else if str_mem (capability intent) PRODUCTION_DESTRUCTIVE then
    if String.eqb (capability intent) "backup.delete"
    then Ok (Some (_result "deny" "PREFLIGHT_PRODUCTION_BACKUP_DELETE_DENIED" "Production backup deletion is denied by the default preflight policy pack."
           "critical" "destructive_data.production_backup_delete_denied" [] [] [] (env_metadata intent evidence)))
    else if negb (_approval_satisfied intent evidence DESTRUCTIVE_APPROVALS)
    then Ok (Some (_result "approval_required" "PREFLIGHT_PRODUCTION_DESTRUCTIVE_APPROVAL_REQUIRED"
           "Production destructive action requires explicit approval before execution."
           "critical" "destructive_data.production_destructive_approval_required" [] DESTRUCTIVE_APPROVALS (_approval_evidence_keys DESTRUCTIVE_APPROVALS)
           (env_metadata intent evidence)))
    else Ok None
  else Ok None.

Definition EXPORT_APPROVALS : list string := ["data_owner"; "privacy_reviewer"].
Definition export_sensitive intent evidence : bool :=
  _truthy_value (dget_default evidence "sensitive_data" (dget (parameters intent) "sensitive_data")).

Definition _broad_data_export : PreflightRule := fun intent evidence =>
  if negb (String.eqb (capability intent) "data.export") then Ok None
  else
    row_count ← _row_count intent evidence;
    let sensitive := export_sensitive intent evidence in
    let external := _is_external_destination intent evidence in
    if ((10000 <=? row_count)%Z || sensitive || external) && negb (_approval_satisfied intent evidence EXPORT_APPROVALS)
    then Ok (Some (_result "approval_required" "PREFLIGHT_BROAD_DATA_EXPORT_APPROVAL_REQUIRED"
           "Broad or sensitive data export requires approval before execution." "high" "destructive_data.broad_data_export_approval_required" [] EXPORT_APPROVALS
           (_approval_evidence_keys EXPORT_APPROVALS)
           [("row_count", JInt row_count); ("sensitive_data", JBool sensitive); ("external_destination", JBool external)]))
    else Ok None.

Definition grant_role intent evidence : string :=
  str_lower (py_str (dget_default evidence "role" (dget_default (parameters intent) "role" (dget_default (parameters intent) "permission" (JStr ""))))).
Definition ADMIN_ROLES : list string := ["admin"; "administrator"; "owner"; "root"; "superuser"].
Definition admin_role (role : string) : bool := str_mem role ADMIN_ROLES || has_char "*" role.

Definition _admin_permission_grant : PreflightRule := fun intent evidence =>
  if negb (String.eqb (capability intent) "iam.permission.grant") then Ok None
  else
    let role := grant_role intent evidence in
    if admin_role role && negb (_approval_satisfied intent evidence ["security_admin"])
    then Ok (Some (_result "approval_required" "PREFLIGHT_ADMIN_PERMISSION_APPROVAL_REQUIRED"
           "Admin or wildcard permission grant requires approval before execution." "high" "destructive_data.admin_permission_approval_required" []
           ["security_admin"] (_approval_evidence_keys ["security_admin"]) [("role", JStr role)]))
    else Ok None.

Definition _sandbox_low_risk_allow : PreflightRule := fun intent evidence =>
  if str_mem (_env intent evidence) ["sandbox"; "dev"; "development"; "test"; "staging"]
  then Ok (Some (_result "allow" "PREFLIGHT_SANDBOX_LOW_RISK_ALLOWED"
         "Sandbox or non-production consequential action is allowed by the default preflight policy pack." "low"
         "destructive_data.sandbox_low_risk_allowed" [] [] [] (env_metadata intent evidence)))
  else Ok None.

Definition _default_decision : PreflightRule := fun intent evidence =>
  if String.eqb (_env intent evidence) "unknown"
  then Ok (Some (_result "needs_evidence" "PREFLIGHT_CONTEXT_REQUIRED" "Preflight needs an environment classification before this action can proceed."
         "medium" "destructive_data.context_required" ["environment"] []
         [_evidence_key "environment" "string" (JStr "production") "Deployment environment for the exact target action."]
         [("capability", JStr (capability intent))]))
  else Ok (Some (_result "allow" "PREFLIGHT_REQUIREMENTS_SATISFIED" "All requirements in the default Preflight policy pack are satisfied." "low"
         "destructive_data.requirements_satisfied" [] [] [] (env_metadata intent evidence))).

Definition build_destructive_actions_policy_pack : PolicyPack :=
  mkPolicyPack "destructive_data_v1" "Destructive infrastructure and data actions" DESTRUCTIVE_AND_DATA_CAPABILITIES
    [_unsupported_capability; _missing_change_ticket; _missing_backup_evidence; _production_destructive_without_approval; _broad_data_export;
     _admin_permission_grant; _sandbox_low_risk_allow; _default_decision] false None.
Definition DEFAULT_PREFLIGHT_POLICY_PACK : PolicyPack := build_destructive_actions_policy_pack.

(** ** Data privacy *)
Definition normalized_set (l : list string) : list string := map (fun v => str_lower (py_strip v)) (List.filter (fun v => str_truthy (py_strip v)) l).

Definition classification_required : PreflightRule := fun intent evidence =>
  if negb (str_mem (capability intent) DATA_PRIVACY_CAPABILITIES) then Ok None
  else if str_truthy (_sensitivity_classification intent evidence) || _truthy_value (_value intent evidence "sensitive_data" JNull) then Ok None
  else Ok (Some (_result "needs_evidence" "PREFLIGHT_DATA_CLASSIFICATION_REQUIRED" "Data movement requires a sensitivity classification before execution."
         "medium" "data_privacy.data_classification_required" ["sensitivity_classification"] []
         [_evidence_key "sensitivity_classification" "string" (JStr "internal")
            "Classification for the exact dataset, such as public, internal, confidential, restricted, pii, or phi."] [])).

Definition SENSITIVE_CLASSES : list string := ["confidential"; "restricted"; "sensitive"; "pii"; "phi"; "financial"].
Definition movement_sensitive intent evidence : bool :=
  str_mem (_sensitivity_classification intent evidence) SENSITIVE_CLASSES || _truthy_value (_value intent evidence "sensitive_data" JNull).

Definition broad_or_sensitive_export (broad_export_row_threshold : Z) : PreflightRule := fun intent evidence =>
  if negb (str_mem (capability intent) DATA_PRIVACY_CAPABILITIES) then Ok None
  else
    row_count ← _row_count intent evidence;
    let external := _is_external_destination intent evidence in
    if ((broad_export_row_threshold <=? row_count)%Z || movement_sensitive intent evidence || external) &&
       negb (_approval_satisfied intent evidence EXPORT_APPROVALS)
    then Ok (Some (_result "approval_required" "PREFLIGHT_BROAD_DATA_EXPORT_APPROVAL_REQUIRED"
           "Broad, sensitive, or external data movement requires data-owner and privacy approval." "high" "data_privacy.broad_export_approval_required" []
           EXPORT_APPROVALS (_approval_evidence_keys EXPORT_APPROVALS)
           [("row_count", JInt row_count); ("row_threshold", JInt broad_export_row_threshold);
            ("sensitivity_classification", JStr (_sensitivity_classification intent evidence)); ("external_destination", JBool external)]))
    else Ok None.

Definition external_destination_control (allowed_destinations : list string) : PreflightRule := fun intent evidence =>
  if negb (str_mem (capability intent) DATA_PRIVACY_CAPABILITIES) then Ok None
  else if negb (_is_external_destination intent evidence) then Ok None
  else
    let destination := _string_value intent evidence "destination" in
    if str_mem destination allowed_destinations || _truthy_value (_value intent evidence "destination_allowlisted" JNull) ||
       _truthy_value (_value intent evidence "external_egress_approved" JNull)
    then Ok None
    else Ok (Some (_result "needs_evidence" "PREFLIGHT_EXTERNAL_EGRESS_EVIDENCE_REQUIRED"
           "External data movement requires an allow-listed destination or verified egress exception." "high"
           "data_privacy.external_egress_evidence_required" ["destination_allowlisted"; "external_egress_approved"] []
           [_evidence_key "destination_allowlisted" "boolean" (JBool true) "True when the exact destination is on the deployment's reviewed allow-list.";
            _evidence_key "external_egress_approved" "boolean" (JBool true)
              "True only after a reviewed exception authorizes this exact external destination."]
           [("destination", JStr destination)])).

Definition pair_mem (p : string * string) (l : list (string * string)) : bool := bool_decide (p ∈ l).

Definition residency_control (allowed_residencies : list (string * string)) : PreflightRule := fun intent evidence =>
  if negb (str_mem (capability intent) DATA_PRIVACY_CAPABILITIES) then Ok None
  else
    let source := _string_value intent evidence "source_residency" in
    let destination := _string_value intent evidence "destination_residency" in
    if negb (str_truthy source) || negb (str_truthy destination) || String.eqb source destination then Ok None
    else if pair_mem (source, destination) allowed_residencies || _truthy_value (_value intent evidence "residency_allowed" JNull) then Ok None
    else Ok (Some (_result "needs_evidence" "PREFLIGHT_RESIDENCY_EVIDENCE_REQUIRED"
           "Cross-residency data movement requires verified residency authorization." "high" "data_privacy.residency_evidence_required"
           ["residency_allowed"] []
           [_evidence_key "residency_allowed" "boolean" (JBool true) "True only when policy permits this exact source-to-destination residency pair."]
           [("source_residency", JStr source); ("destination_residency", JStr destination)])).

Definition build_data_privacy_policy_pack (broad_export_row_threshold : Z) (allowed_external_destinations : list string)
    (allowed_residency_pairs : list (string * string)) : py PolicyPack :=
  if (broad_export_row_threshold <? 1)%Z then Err (ValueError "broad_export_row_threshold must be positive")
  else
    let allowed_destinations := normalized_set allowed_external_destinations in
    let allowed_residencies := map (fun p => (str_lower (py_strip p.1), str_lower (py_strip p.2)))
      (List.filter (fun p => str_truthy (py_strip p.1) && str_truthy (py_strip p.2)) allowed_residency_pairs) in
    Ok (mkPolicyPack "data_privacy_v1" "Data privacy and external egress" DATA_PRIVACY_CAPABILITIES
      [_domain_capability_rule "data_privacy_v1" DATA_PRIVACY_CAPABILITIES; classification_required;
       broad_or_sensitive_export broad_export_row_threshold; external_destination_control allowed_destinations;
       residency_control allowed_residencies;
       _requirements_satisfied_rule "data_privacy" "Data privacy requirements are satisfied for this action."] false None).

(** ** Access governance *)
Definition ACCESS_APPROVALS : list string := ["security_admin"; "resource_owner"].
Definition access_role intent evidence : string :=
  let role := _string_value intent evidence "role" in
  if str_truthy role then role else _string_value intent evidence "permission".

Definition privileged_or_standing_access (privileged : list string) : PreflightRule := fun intent evidence =>
  if negb (str_mem (capability intent) ACCESS_GOVERNANCE_CAPABILITIES) then Ok None
  else
    let role := access_role intent evidence in
    let role_tier := _string_value intent evidence "role_tier" in
    let access_mode := _string_value_or intent evidence "access_mode" "jit" in
    let wildcard := has_char "*" role in
    let privileged_role := str_mem role privileged || str_mem role_tier ["admin"; "privileged"; "critical"] in
    let standing_access := String.eqb access_mode "standing" in
    if (privileged_role || wildcard || standing_access) && negb (_approval_satisfied intent evidence ACCESS_APPROVALS)
    then Ok (Some (_result "approval_required" "PREFLIGHT_PRIVILEGED_ACCESS_APPROVAL_REQUIRED"
           "Privileged, wildcard, or standing access requires security and resource-owner approval." "high"
           "access_governance.privileged_access_approval_required" [] ACCESS_APPROVALS (_approval_evidence_keys ACCESS_APPROVALS)
           [("role", JStr role); ("role_tier", JStr role_tier); ("access_mode", JStr access_mode)]))
    else Ok None.

Definition separation_of_duties : PreflightRule := fun intent evidence =>
  if negb (str_mem (capability intent) ACCESS_GOVERNANCE_CAPABILITIES) then Ok None
  else if negb (_approval_present intent evidence) then Ok None
  else
    let approver_ids := _string_values intent evidence "approver_ids" in
    let requester_is_approver := _truthy_value (_value intent evidence "requester_is_approver" JNull) in
    if negb (str_mem (str_lower (party_id (in_requester intent))) approver_ids) && negb requester_is_approver then Ok None
    else Ok (Some (_result "deny" "PREFLIGHT_SEPARATION_OF_DUTIES_VIOLATION"
           "The requesting subject cannot satisfy its own privileged-access approval." "critical" "access_governance.separation_of_duties" [] []
           [_evidence_key "approver_ids" "array[string]" (strings ["security-reviewer-42"; "resource-owner-17"])
              "Verified approver identities for separation-of-duties evaluation."] [])).

Definition build_access_governance_policy_pack (privileged_roles : list string) : PolicyPack :=
  mkPolicyPack "access_governance_v1" "IAM and access governance" ACCESS_GOVERNANCE_CAPABILITIES
    [_domain_capability_rule "access_governance_v1" ACCESS_GOVERNANCE_CAPABILITIES; separation_of_duties;
     privileged_or_standing_access (normalized_set privileged_roles);
     _requirements_satisfied_rule "access_governance" "Access-governance requirements are satisfied for this action."] false None.

(** ** Payments *)
Definition payee_changed intent evidence : bool :=
  _truthy_value (_value intent evidence "new_payee" JNull) ||
  (String.eqb (capability intent) "bank_details.update" || _truthy_value (_value intent evidence "destination_changed" JNull)).

Definition payment_amount intent evidence : py Z :=
  int_or_zero (_value intent evidence "amount_minor" (_value intent evidence "notional_minor" (JInt 0))).

Definition payment_approval (approval_threshold_minor : Z) : PreflightRule := fun intent evidence =>
  if negb (str_mem (capability intent) PAYMENTS_CAPABILITIES) then Ok None
  else
    amount_minor ← payment_amount intent evidence;
    let new_payee := _truthy_value (_value intent evidence "new_payee" JNull) in
    let destination_changed := String.eqb (capability intent) "bank_details.update" || _truthy_value (_value intent evidence "destination_changed" JNull) in
    if ((approval_threshold_minor <=? amount_minor)%Z || payee_changed intent evidence) && negb (_approval_satisfied intent evidence ["finance_approver"])
    then Ok (Some (_result "approval_required" "PREFLIGHT_PAYMENT_APPROVAL_REQUIRED"
           "High-notional payment or changed payee destination requires finance approval." "high" "payments.payment_approval_required" []
           ["finance_approver"] (_approval_evidence_keys ["finance_approver"])
           [("amount_minor", JInt amount_minor); ("approval_threshold_minor", JInt approval_threshold_minor); ("new_payee", JBool new_payee);
            ("destination_changed", JBool destination_changed)]))
    else Ok None.

Definition payee_verification : PreflightRule := fun intent evidence =>
  if negb (str_mem (capability intent) PAYMENTS_CAPABILITIES) then Ok None
  else if negb (payee_changed intent evidence) then Ok None
  else if _truthy_value (_value intent evidence "payee_verified" JNull) && _truthy_value (_value intent evidence "destination_verified" JNull) then Ok None
  else Ok (Some (_result "needs_evidence" "PREFLIGHT_PAYEE_DESTINATION_VERIFICATION_REQUIRED"
         "New or changed payment destinations require verified payee and destination evidence." "high" "payments.payee_destination_verification_required"
         ["payee_verified"; "destination_verified"] []
         [_evidence_key "payee_verified" "boolean" (JBool true) "True after the payee identity has been verified for this action.";
          _evidence_key "destination_verified" "boolean" (JBool true) "True after the exact bank, wallet, or payout destination has been verified."] [])).

Definition build_payments_policy_pack (approval_threshold_minor : Z) : py PolicyPack :=
  if (approval_threshold_minor <? 1)%Z then Err (ValueError "approval_threshold_minor must be positive")
  else Ok (mkPolicyPack "payments_v1" "Payments and destination controls" PAYMENTS_CAPABILITIES
    [_domain_capability_rule "payments_v1" PAYMENTS_CAPABILITIES; payment_approval approval_threshold_minor; payee_verification;
     _requirements_satisfied_rule "payments" "Payment policy requirements are satisfied for this action."] false None).

(** ** The clinical template *)
Definition high_risk_clinical_action : PreflightRule := fun intent evidence =>
  if negb (str_mem (capability intent) CLINICAL_TEMPLATE_CAPABILITIES) then Ok None
  else
    let risk := _string_value intent evidence "clinical_risk" in
    let high_risk := str_mem (capability intent) ["medication.order"; "treatment_plan.change"; "clinical.note.publish"] || str_mem risk ["high"; "critical"] in
    if high_risk && negb (_approval_satisfied intent evidence ["licensed_clinician"])
    then Ok (Some (_result "approval_required" "PREFLIGHT_CLINICAL_REVIEW_REQUIRED"
           "This template requires licensed-clinician review for the selected clinical action." "high" "clinical_template.clinical_review_required" []
           ["licensed_clinician"] (_approval_evidence_keys ["licensed_clinician"]) [("clinical_risk", JStr risk)]))
    else Ok None.

Definition CLINICAL_DISCLAIMER : string :=
  "Illustrative template only. It is not certified clinical guidance, medical advice, or a substitute for local clinical governance.".

Definition build_clinical_policy_pack_template : PolicyPack :=
  mkPolicyPack "clinical_template_v1" "Clinical workflow TEMPLATE (not certified guidance)" CLINICAL_TEMPLATE_CAPABILITIES
    [_domain_capability_rule "clinical_template_v1" CLINICAL_TEMPLATE_CAPABILITIES; high_risk_clinical_action;
     _requirements_satisfied_rule "clinical_template" "The illustrative clinical-template requirements are satisfied."]
    true (Some CLINICAL_DISCLAIMER).
Definition build_clinical_policy_pack : PolicyPack := build_clinical_policy_pack_template.
End Helpers.

(** ** What each rule requires *)
Definition passes (a : option rule_result) : bool := match a with Some r => allows r | None => true end.

Lemma passes_all answers : Forall (fun r => rr_outcome r = "allow") (omap id answers) <-> Forall (fun a => passes a = true) answers.
Proof.
  induction answers as [|[r|] answers IH]; cbn; [done| |].
  - rewrite !Forall_cons, <- IH. unfold passes, allows. by rewrite String.eqb_eq.
  - rewrite Forall_cons, <- IH. naive_solver.
Qed.

Lemma eqb_true_iff s t : String.eqb s t = true <-> s = t.
Proof. apply String.eqb_eq. Qed.

Lemma eqb_false_iff s t : String.eqb s t = false <-> s <> t.
Proof. apply String.eqb_neq. Qed.

Lemma allows_result o c su r m re ra ek md : allows (_result o c su r m re ra ek md) = String.eqb o "allow".
Proof. done. Qed.

(** Case analysis on the conditions of a rule, with the facts they stand for. *)
Ltac rule_cases :=
  repeat match goal with
  | |- context [if ?c then _ else _] => destruct c eqn:?
  | H : context [if ?c then _ else _] |- _ => destruct c eqn:?
  end;
  repeat match goal with
  | H : _ && _ = true |- _ => apply andb_true_iff in H as [? ?]
  | H : _ && _ = false |- _ => apply andb_false_iff in H
  | H : _ || _ = true |- _ => apply orb_true_iff in H
  | H : _ || _ = false |- _ => apply orb_false_iff in H as [? ?]
  | H : negb _ = true |- _ => apply negb_true_iff in H
  | H : negb _ = false |- _ => apply negb_false_iff in H
  | H : context [_ && _ = false] |- _ => rewrite andb_false_iff in H
  | H : context [_ && _ = true] |- _ => rewrite andb_true_iff in H
  | H : context [_ || _ = true] |- _ => rewrite orb_true_iff in H
  | H : context [_ || _ = false] |- _ => rewrite orb_false_iff in H
  | H : context [negb _ = true] |- _ => rewrite negb_true_iff in H
  | H : context [negb _ = false] |- _ => rewrite negb_false_iff in H
  | H : context [String.eqb _ _ = true] |- _ => rewrite eqb_true_iff in H
  | H : context [String.eqb _ _ = false] |- _ => rewrite eqb_false_iff in H
  | H : context [str_mem _ _ = true] |- _ => rewrite str_mem_spec in H
  | H : context [str_mem _ _ = false] |- _ => rewrite str_mem_false in H
  | H : context [(_ <=? _)%Z = true] |- _ => rewrite Z.leb_le in H
  | H : context [(_ <=? _)%Z = false] |- _ => rewrite Z.leb_gt in H
  end.

Ltac rule_solve := solve [intuition congruence | naive_solver | intuition (try lia; congruence)].
Ltac rule_exact Ha :=
  rule_cases; injection Ha as <-; cbn [passes]; rewrite ?allows_result; cbn [String.eqb Ascii.eqb Bool.eqb]; rule_solve.

#[local] Arguments _requires_backup : simpl never.
#[local] Arguments admin_role : simpl never.
#[local] Arguments _env : simpl never.
#[local] Arguments _approval_satisfied : simpl never.

Section Packs.
Context `{PyText}.
Implicit Types (intent : ActionIntent) (evidence : dict) (a : option rule_result).

Definition approved intent evidence (l : list string) : Prop := _approval_satisfied intent evidence l = true.

Lemma unsupported_passes intent evidence a : _unsupported_capability intent evidence = Ok a -> passes a = true <->
  (capability intent ∈ DESTRUCTIVE_AND_DATA_CAPABILITIES \/
   str_lower (py_strip (py_str (dget_default evidence "capability_classification" (JStr "")))) = "non_consequential").
Proof. unfold _unsupported_capability. cbv zeta. intros Ha. rule_exact Ha. Qed.

Lemma change_ticket_passes intent evidence a : _missing_change_ticket intent evidence = Ok a -> passes a = true <->
  (capability intent ∈ DESTRUCTIVE_AND_DATA_CAPABILITIES -> _env intent evidence = "production" -> _has_change_ticket intent evidence = true).
Proof. unfold _missing_change_ticket. intros Ha. rule_exact Ha. Qed.

Lemma backup_passes intent evidence a : _missing_backup_evidence intent evidence = Ok a -> passes a = true <->
  (_env intent evidence = "production" -> _requires_backup (capability intent) = true -> _has_backup_evidence intent evidence = true).
Proof. unfold _missing_backup_evidence. intros Ha. rule_exact Ha. Qed.

Lemma production_passes intent evidence a : _production_destructive_without_approval intent evidence = Ok a -> passes a = true <->
  (_env intent evidence = "production" -> capability intent ∈ PRODUCTION_DESTRUCTIVE ->
   capability intent <> "backup.delete" /\ approved intent evidence DESTRUCTIVE_APPROVALS).
Proof.
  unfold _production_destructive_without_approval, approved. intros Ha. rule_exact Ha.
Qed.

Lemma broad_export_passes intent evidence a : _broad_data_export intent evidence = Ok a -> passes a = true <->
  (capability intent = "data.export" -> exists rows, _row_count intent evidence = Ok rows /\
     ((10000 <= rows)%Z \/ export_sensitive intent evidence = true \/ _is_external_destination intent evidence = true ->
      approved intent evidence EXPORT_APPROVALS)).
Proof.
  unfold _broad_data_export, approved. destruct (String.eqb_spec (capability intent) "data.export") as [Hc|Hc]; cbn [negb]; [|by intros [= <-]].
  intros (rows & Hr & Ha)%bind_Ok. cbv zeta in Ha. assert (forall P : Z -> Prop, (capability intent = "data.export" -> exists r, _row_count intent evidence = Ok r /\ P r) <-> P rows) as ->.
  { intros P. split; [intros (r & Hr' & Hp)%(fun f => f Hc); congruence|eauto]. }
  rule_exact Ha.
Qed.

Lemma admin_grant_passes intent evidence a : _admin_permission_grant intent evidence = Ok a -> passes a = true <->
  (capability intent = "iam.permission.grant" -> admin_role (grant_role intent evidence) = true -> approved intent evidence ["security_admin"]).
Proof.
  unfold _admin_permission_grant, approved. cbv zeta. generalize (admin_role (grant_role intent evidence)). intros b Ha.
  rule_exact Ha.
Qed.

Lemma sandbox_passes intent evidence a : _sandbox_low_risk_allow intent evidence = Ok a -> passes a = true.
Proof. unfold _sandbox_low_risk_allow. intros Ha. destruct (str_mem _ _); by injection Ha as <-. Qed.

Lemma default_passes intent evidence a : _default_decision intent evidence = Ok a ->
  (passes a = true <-> _env intent evidence <> "unknown") /\ a <> None.
Proof. unfold _default_decision. intros Ha. rule_exact Ha. Qed.

(** What the default pack requires. *)
Record destructive_allowed intent evidence : Prop := {
  da_classified : capability intent ∈ DESTRUCTIVE_AND_DATA_CAPABILITIES \/
    str_lower (py_strip (py_str (dget_default evidence "capability_classification" (JStr "")))) = "non_consequential";
  da_environment : _env intent evidence <> "unknown";
  da_ticket : capability intent ∈ DESTRUCTIVE_AND_DATA_CAPABILITIES -> _env intent evidence = "production" -> _has_change_ticket intent evidence = true;
  da_backup : _env intent evidence = "production" -> _requires_backup (capability intent) = true -> _has_backup_evidence intent evidence = true;
  da_production : _env intent evidence = "production" -> capability intent ∈ PRODUCTION_DESTRUCTIVE ->
    capability intent <> "backup.delete" /\ approved intent evidence DESTRUCTIVE_APPROVALS;
  da_export : capability intent = "data.export" -> exists rows, _row_count intent evidence = Ok rows /\
    ((10000 <= rows)%Z \/ export_sensitive intent evidence = true \/ _is_external_destination intent evidence = true -> approved intent evidence EXPORT_APPROVALS);
  da_grant : capability intent = "iam.permission.grant" -> admin_role (grant_role intent evidence) = true -> approved intent evidence ["security_admin"]
}.

Lemma capability_passes id caps intent evidence a : _domain_capability_rule id caps intent evidence = Ok a -> passes a = true <-> capability intent ∈ caps.
Proof.
  unfold _domain_capability_rule. intros Ha. rule_exact Ha.
Qed.

Lemma satisfied_passes id summary intent evidence a : _requirements_satisfied_rule id summary intent evidence = Ok a -> passes a = true /\ a <> None.
Proof. unfold _requirements_satisfied_rule. by intros [= <-]. Qed.

(** What the payments pack requires. *)
Record payments_allowed (threshold : Z) intent evidence : Prop := {
  pa_covered : capability intent ∈ PAYMENTS_CAPABILITIES;
  pa_approval : exists amount, payment_amount intent evidence = Ok amount /\
    ((threshold <= amount)%Z \/ payee_changed intent evidence = true -> approved intent evidence ["finance_approver"]);
  pa_payee : payee_changed intent evidence = true ->
    _truthy_value (_value intent evidence "payee_verified" JNull) = true /\ _truthy_value (_value intent evidence "destination_verified" JNull) = true
}.

#[local] Arguments payee_changed : simpl never.
#[local] Arguments _truthy_value : simpl never.

Lemma payment_approval_passes threshold intent evidence a : payment_approval threshold intent evidence = Ok a ->
  capability intent ∈ PAYMENTS_CAPABILITIES -> passes a = true <->
  exists amount, payment_amount intent evidence = Ok amount /\
    ((threshold <= amount)%Z \/ payee_changed intent evidence = true -> approved intent evidence ["finance_approver"]).
Proof.
  unfold payment_approval, approved. intros Ha Hc. apply str_mem_spec in Hc. rewrite Hc in Ha. cbn [negb] in Ha. apply bind_Ok in Ha as (amount & Hr & Ha).
  cbv zeta in Ha. rewrite Hr. assert (forall P : Z -> Prop, (exists r, @Ok exn Z amount = Ok r /\ P r) <-> P amount) as ->.
  { intros P. split; [by intros (r & [= <-] & Hp)|eauto]. }
  rule_exact Ha.
Qed.

Lemma payee_passes intent evidence a : payee_verification intent evidence = Ok a -> capability intent ∈ PAYMENTS_CAPABILITIES -> passes a = true <->
  (payee_changed intent evidence = true ->
   _truthy_value (_value intent evidence "payee_verified" JNull) = true /\ _truthy_value (_value intent evidence "destination_verified" JNull) = true).
Proof.
  unfold payee_verification. intros Ha Hc. apply str_mem_spec in Hc. rewrite Hc in Ha. cbn [negb] in Ha.
  rule_exact Ha.
Qed.

(** What the access-governance pack requires. *)
Definition privileged_access (privileged : list string) intent evidence : bool :=
  (str_mem (access_role intent evidence) privileged || str_mem (_string_value intent evidence "role_tier") ["admin"; "privileged"; "critical"]) ||
  has_char "*" (access_role intent evidence) || String.eqb (_string_value_or intent evidence "access_mode" "jit") "standing".

(** The requester is named among the approvers. *)
Definition self_approval intent evidence : bool :=
  str_mem (str_lower (party_id (in_requester intent))) (_string_values intent evidence "approver_ids") ||
  _truthy_value (_value intent evidence "requester_is_approver" JNull).

Record access_allowed (privileged : list string) intent evidence : Prop := {
  ac_covered : capability intent ∈ ACCESS_GOVERNANCE_CAPABILITIES;
  ac_separation : _approval_present intent evidence = true -> self_approval intent evidence = false;
  ac_approval : privileged_access privileged intent evidence = true -> approved intent evidence ACCESS_APPROVALS
}.

#[local] Arguments privileged_access : simpl never.
#[local] Arguments self_approval : simpl never.
#[local] Arguments _approval_present : simpl never.

Lemma separation_passes intent evidence a : separation_of_duties intent evidence = Ok a -> capability intent ∈ ACCESS_GOVERNANCE_CAPABILITIES ->
  passes a = true <-> (_approval_present intent evidence = true -> self_approval intent evidence = false).
Proof.
  unfold separation_of_duties. intros Ha Hc. apply str_mem_spec in Hc. rewrite Hc in Ha. cbn [negb] in Ha. cbv zeta in Ha.
  rewrite <- negb_orb in Ha. fold (self_approval intent evidence) in Ha.
  rule_exact Ha.
Qed.

Lemma privileged_passes privileged intent evidence a : privileged_or_standing_access privileged intent evidence = Ok a ->
  capability intent ∈ ACCESS_GOVERNANCE_CAPABILITIES ->
  passes a = true <-> (privileged_access privileged intent evidence = true -> approved intent evidence ACCESS_APPROVALS).
Proof.
  unfold privileged_or_standing_access, approved. intros Ha Hc. apply str_mem_spec in Hc. rewrite Hc in Ha. cbn [negb] in Ha. cbv zeta in Ha.
  fold (privileged_access privileged intent evidence) in Ha.
  rule_exact Ha.
Qed.

(** What the data-privacy pack requires. *)
Record movement_allowed (threshold : Z) (destinations : list string) (residencies : list (string * string)) intent evidence : Prop := {
  mv_covered : capability intent ∈ DATA_PRIVACY_CAPABILITIES;
  mv_classified : str_truthy (_sensitivity_classification intent evidence) = true \/ _truthy_value (_value intent evidence "sensitive_data" JNull) = true;
  mv_approval : exists rows, _row_count intent evidence = Ok rows /\
    ((threshold <= rows)%Z \/ movement_sensitive intent evidence = true \/ _is_external_destination intent evidence = true ->
     approved intent evidence EXPORT_APPROVALS);
  mv_egress : _is_external_destination intent evidence = true ->
    _string_value intent evidence "destination" ∈ destinations \/ _truthy_value (_value intent evidence "destination_allowlisted" JNull) = true \/
    _truthy_value (_value intent evidence "external_egress_approved" JNull) = true;
  mv_residency : let source := _string_value intent evidence "source_residency" in
    let destination := _string_value intent evidence "destination_residency" in
    source <> "" -> destination <> "" -> source <> destination ->
    (source, destination) ∈ residencies \/ _truthy_value (_value intent evidence "residency_allowed" JNull) = true
}.

#[local] Arguments movement_sensitive : simpl never.
#[local] Arguments _is_external_destination : simpl never.
#[local] Arguments str_truthy : simpl never.

Lemma classification_passes intent evidence a : classification_required intent evidence = Ok a -> capability intent ∈ DATA_PRIVACY_CAPABILITIES ->
  passes a = true <-> (str_truthy (_sensitivity_classification intent evidence) = true \/ _truthy_value (_value intent evidence "sensitive_data" JNull) = true).
Proof.
  unfold classification_required. intros Ha Hc. apply str_mem_spec in Hc. rewrite Hc in Ha. cbn [negb] in Ha.
  rule_exact Ha.
Qed.

Lemma movement_passes threshold intent evidence a : broad_or_sensitive_export threshold intent evidence = Ok a ->
  capability intent ∈ DATA_PRIVACY_CAPABILITIES -> passes a = true <->
  exists rows, _row_count intent evidence = Ok rows /\
    ((threshold <= rows)%Z \/ movement_sensitive intent evidence = true \/ _is_external_destination intent evidence = true ->
     approved intent evidence EXPORT_APPROVALS).
Proof.
  unfold broad_or_sensitive_export, approved. intros Ha Hc. apply str_mem_spec in Hc. rewrite Hc in Ha. cbn [negb] in Ha.
  apply bind_Ok in Ha as (rows & Hr & Ha). cbv zeta in Ha. rewrite Hr.
  assert (forall P : Z -> Prop, (exists r, @Ok exn Z rows = Ok r /\ P r) <-> P rows) as ->.
  { intros P. split; [by intros (r & [= <-] & Hp)|eauto]. }
  rule_exact Ha.
Qed.

Lemma egress_passes destinations intent evidence a : external_destination_control destinations intent evidence = Ok a ->
  capability intent ∈ DATA_PRIVACY_CAPABILITIES -> passes a = true <->
  (_is_external_destination intent evidence = true ->
   _string_value intent evidence "destination" ∈ destinations \/ _truthy_value (_value intent evidence "destination_allowlisted" JNull) = true \/
   _truthy_value (_value intent evidence "external_egress_approved" JNull) = true).
Proof.
  unfold external_destination_control. intros Ha Hc. apply str_mem_spec in Hc. rewrite Hc in Ha. cbn [negb] in Ha. cbv zeta in Ha.
  rule_exact Ha.
Qed.

Lemma str_truthy_false s : str_truthy s = false <-> s = "".
Proof. unfold str_truthy. rewrite negb_false_iff. apply String.eqb_eq. Qed.
Lemma str_truthy_true s : str_truthy s = true <-> s <> "".
Proof. unfold str_truthy. rewrite negb_true_iff. apply String.eqb_neq. Qed.

Lemma residency_passes residencies intent evidence a : residency_control residencies intent evidence = Ok a ->
  capability intent ∈ DATA_PRIVACY_CAPABILITIES -> passes a = true <->
  (let source := _string_value intent evidence "source_residency" in
   let destination := _string_value intent evidence "destination_residency" in
   source <> "" -> destination <> "" -> source <> destination ->
   (source, destination) ∈ residencies \/ _truthy_value (_value intent evidence "residency_allowed" JNull) = true).
Proof.
  unfold residency_control, pair_mem. intros Ha Hc. apply str_mem_spec in Hc. rewrite Hc in Ha. cbn [negb] in Ha. cbv zeta in *.
  rewrite <- !str_truthy_true.
  rule_cases; rewrite ?bool_decide_eq_true, ?bool_decide_eq_false in *; injection Ha as <-; cbn [passes]; rewrite ?allows_result; cbn [String.eqb Ascii.eqb Bool.eqb]; rule_solve.
Qed.

(** What the clinical template requires. *)
Record clinical_allowed intent evidence : Prop := {
  cn_covered : capability intent ∈ CLINICAL_TEMPLATE_CAPABILITIES;
  cn_review : capability intent ∈ ["medication.order"; "treatment_plan.change"; "clinical.note.publish"] \/
    _string_value intent evidence "clinical_risk" ∈ ["high"; "critical"] -> approved intent evidence ["licensed_clinician"]
}.

Lemma clinical_passes intent evidence a : high_risk_clinical_action intent evidence = Ok a -> capability intent ∈ CLINICAL_TEMPLATE_CAPABILITIES ->
  passes a = true <-> (capability intent ∈ ["medication.order"; "treatment_plan.change"; "clinical.note.publish"] \/
    _string_value intent evidence "clinical_risk" ∈ ["high"; "critical"] -> approved intent evidence ["licensed_clinician"]).
Proof.
  unfold high_risk_clinical_action, approved. intros Ha Hc. apply str_mem_spec in Hc. rewrite Hc in Ha. cbn [negb] in Ha. cbv zeta in Ha.
  rule_exact Ha.
Qed.
End Packs.

Section Decisions.
Context `{Protocol} `{PyText} `{Ed25519}.
Implicit Types (intent : ActionIntent) (evidence : dict).

(** A pack's decision allows exactly when every answer passes. *)
Lemma pack_decision pack intent evidence d : preflight_check pack (inl intent) evidence = Ok d ->
  exists evidence' answers, _with_verified_approvals intent evidence = Ok evidence' /\
    Forall2 (fun rule answer => rule intent evidence' = Ok answer) (pp_rules pack) answers /\
    (pf_outcome d = "allow" <-> Forall (fun a => passes a = true) answers).
Proof.
  unfold preflight_check. cbn [mbind res_bind]. intros (ev & Hev & Hd)%bind_Ok. apply bind_Ok in Hd as (results & Hr & Hd).
  apply run_rules_Ok in Hr as (answers & Ha & ->). exists ev, answers. split_and!; try done.
  apply decide_results_Ok in Hd as [Hal _ _ _ _]. by rewrite Hal, passes_all.
Qed.

(** The answers of a pack of known rules, one by one. *)
Ltac split_answers Ha :=
  cbn [pp_rules DEFAULT_PREFLIGHT_POLICY_PACK build_destructive_actions_policy_pack build_access_governance_policy_pack build_clinical_policy_pack
    build_clinical_policy_pack_template] in Ha;
  repeat match type of Ha with Forall2 _ (_ :: _) _ => apply Forall2_cons_inv_l in Ha as (? & ? & ? & Ha & ->) end;
  apply Forall2_nil_inv_l in Ha as ->; rewrite ?Forall_cons, ?Forall_nil.

(** Each answer's lemma, and the capability its rule needs. *)
Ltac rule_facts :=
  repeat match goal with
  | E : _unsupported_capability _ _ = _ |- _ => apply unsupported_passes in E
  | E : _missing_change_ticket _ _ = _ |- _ => apply change_ticket_passes in E
  | E : _missing_backup_evidence _ _ = _ |- _ => apply backup_passes in E
  | E : _production_destructive_without_approval _ _ = _ |- _ => apply production_passes in E
  | E : _broad_data_export _ _ = _ |- _ => apply broad_export_passes in E
  | E : _admin_permission_grant _ _ = _ |- _ => apply admin_grant_passes in E
  | E : _sandbox_low_risk_allow _ _ = _ |- _ => apply sandbox_passes in E
  | E : _default_decision _ _ = _ |- _ => apply default_passes in E as [E _]
  | E : _domain_capability_rule _ _ _ _ = _ |- _ => apply capability_passes in E
  | E : _requirements_satisfied_rule _ _ _ _ = _ |- _ => apply satisfied_passes in E as [E _]
  | E : payment_approval _ _ _ = _ |- _ => pose proof (payment_approval_passes _ _ _ _ E); clear E
  | E : payee_verification _ _ = _ |- _ => pose proof (payee_passes _ _ _ E); clear E
  | E : separation_of_duties _ _ = _ |- _ => pose proof (separation_passes _ _ _ E); clear E
  | E : privileged_or_standing_access _ _ _ = _ |- _ => pose proof (privileged_passes _ _ _ _ E); clear E
  | E : classification_required _ _ = _ |- _ => pose proof (classification_passes _ _ _ E); clear E
  | E : broad_or_sensitive_export _ _ _ = _ |- _ => pose proof (movement_passes _ _ _ _ E); clear E
  | E : external_destination_control _ _ _ = _ |- _ => pose proof (egress_passes _ _ _ _ E); clear E
  | E : residency_control _ _ _ = _ |- _ => pose proof (residency_passes _ _ _ _ E); clear E
  | E : high_risk_clinical_action _ _ = _ |- _ => pose proof (clinical_passes _ _ _ E); clear E
  end.

Ltac pack_exact Ha := split_answers Ha; rule_facts; split; [intros; destruct_and?; constructor; tauto|intros []; tauto].

(** The pack's decision on the evidence the rules saw meets [allowed] exactly. *)
Definition decides (pack : PolicyPack) (allowed : ActionIntent -> dict -> Prop) : Prop :=
  forall intent evidence d, preflight_check pack (inl intent) evidence = Ok d ->
    exists evidence', _with_verified_approvals intent evidence = Ok evidence' /\ (pf_outcome d = "allow" <-> allowed intent evidence').

Lemma decides_intro pack (allowed : ActionIntent -> dict -> Prop) :
  (forall intent evidence answers, Forall2 (fun rule answer => rule intent evidence = Ok answer) (pp_rules pack) answers ->
     Forall (fun a => passes a = true) answers <-> allowed intent evidence) -> decides pack allowed.
Proof. intros Hp intent evidence d (ev & answers & Hev & Ha & Hal)%pack_decision. exists ev. split; [done|]. rewrite Hal. by apply Hp. Qed.

Lemma destructive_decides : decides DEFAULT_PREFLIGHT_POLICY_PACK destructive_allowed.
Proof. apply decides_intro. intros intent evidence answers Ha. pack_exact Ha. Qed.

Lemma payments_decides threshold pack : build_payments_policy_pack threshold = Ok pack -> decides pack (payments_allowed threshold).
Proof.
  unfold build_payments_policy_pack. destruct (threshold <? 1)%Z; [done|]. intros [= <-]. apply decides_intro. intros intent evidence answers Ha. pack_exact Ha.
Qed.

Lemma access_decides roles : decides (build_access_governance_policy_pack roles) (access_allowed (normalized_set roles)).
Proof. apply decides_intro. intros intent evidence answers Ha. pack_exact Ha. Qed.

Definition residency_set (pairs : list (string * string)) : list (string * string) :=
  map (fun p => (str_lower (py_strip p.1), str_lower (py_strip p.2))) (List.filter (fun p => str_truthy (py_strip p.1) && str_truthy (py_strip p.2)) pairs).

Lemma privacy_decides threshold destinations pairs pack : build_data_privacy_policy_pack threshold destinations pairs = Ok pack ->
  decides pack (movement_allowed threshold (normalized_set destinations) (residency_set pairs)).
Proof.
  unfold build_data_privacy_policy_pack. destruct (threshold <? 1)%Z; [done|]. intros [= <-]. apply decides_intro. intros intent evidence answers Ha. pack_exact Ha.
Qed.

Lemma clinical_decides : decides build_clinical_policy_pack clinical_allowed.
Proof. apply decides_intro. intros intent evidence answers Ha. pack_exact Ha. Qed.

(** Each pack ends with a rule that always answers. *)
Lemma last_answers rules last intent evidence results :
  run_rules (rules ++ [last]) intent evidence = Ok results -> (forall a, last intent evidence = Ok a -> a <> None) -> results <> [].
Proof.
  intros (answers & Ha & ->)%run_rules_Ok Hl. apply Forall2_app_inv_l in Ha as (xs & ys & _ & Hy & ->).
  apply Forall2_cons_inv_l in Hy as (a & zs & Hz & _ & ->). apply Hl in Hz. destruct a as [r|]; [|done].
  rewrite omap_app. cbn. by destruct (omap id xs).
Qed.
End Decisions.

Arguments decides {_ _ _} _ _.

(** ** Properties *)

(** C12: the default policy pack, exactly: a decision of the pack allows an action if
    and only if, on the evidence with its approvals verified, the action is a known
    or reviewed one, its environment is known, a production action has its change
    ticket, its backup evidence and its approvals and does not delete backups, a
    broad, sensitive or external export is approved, and so is an administrative
    grant; and the pack never leaves an action undecided. *)
Theorem default_pack_exact `{Protocol} `{PyText} `{Ed25519} (intent : ActionIntent) (evidence : dict) (d : PreflightDecision) :
  preflight_check DEFAULT_PREFLIGHT_POLICY_PACK (inl intent) evidence = Ok d ->
  (exists evidence', _with_verified_approvals intent evidence = Ok evidence' /\ (pf_outcome d = "allow" <-> destructive_allowed intent evidence')) /\
  (forall evidence', run_rules (pp_rules DEFAULT_PREFLIGHT_POLICY_PACK) intent evidence' <> Ok []).
Proof.
  intros Hd. split; [by apply destructive_decides|]. intros ev Hr.
  apply (last_answers [_unsupported_capability; _missing_change_ticket; _missing_backup_evidence; _production_destructive_without_approval;
    _broad_data_export; _admin_permission_grant; _sandbox_low_risk_allow] _default_decision) in Hr; [done|].
  intros a Ha. by apply default_passes in Ha as [_ ?].
Qed.

(** C13: the payments, data-privacy and clinical packs, exactly: a decision of the
    pack allows an action if and only if the action is covered and meets the pack's
    requirements (thresholds, approvals, verified payees, classification,
    allow-listed destinations, residency, clinician review) on the evidence the
    rules see; the first two packs exist for every positive threshold and no other. *)
Theorem domain_packs_exact `{Protocol} `{PyText} `{Ed25519} (threshold : Z) (destinations : list string) (pairs : list (string * string)) :
  decides build_clinical_policy_pack clinical_allowed /\
  match build_payments_policy_pack threshold, build_data_privacy_policy_pack threshold destinations pairs with
  | Ok payments, Ok privacy => (1 <= threshold)%Z /\ decides payments (payments_allowed threshold) /\
      decides privacy (movement_allowed threshold (normalized_set destinations) (residency_set pairs))
  | Err _, Err _ => (threshold < 1)%Z
  | _, _ => False
  end.
Proof.
  split; [apply clinical_decides|].
  pose proof (payments_decides threshold) as Hp. pose proof (privacy_decides threshold destinations pairs) as Hq.
  unfold build_payments_policy_pack, build_data_privacy_policy_pack in *. destruct (Z.ltb_spec threshold 1); [done|]. split_and!; [done|by apply Hp|by apply Hq].
Qed.

(** What the access-governance pack does: a decision allows an action exactly when
    it meets [access_allowed], whose separation of duties looks at the approvers
    the caller names and not at the verified ones (below), which the guide to the
    packs says it does. *)
Theorem access_pack_decides `{Protocol} `{PyText} `{Ed25519} (roles : list string) :
  decides (build_access_governance_policy_pack roles) (access_allowed (normalized_set roles)).
Proof. apply access_decides. Qed.

(** ** Samples *)
Definition preflight_intent (cap : string) (params : dict) : ActionIntent :=
  mkActionIntent "intent_1" sample_now (sample_now + 600000000)%Z sample_tenant sample_agent (mkActionSpec cap cap params [] []) sample_target JNull JNull
    [] [] [] [].
Definition sample_grant : ActionIntent := preflight_intent "database.delete" [("change_ticket", JStr "CHG-1")].
Definition sample_grant_evidence : dict :=
  [("environment", JStr "production"); ("backup_verified", JBool true); ("approval_present", JBool true);
   ("approver_types", strings DESTRUCTIVE_APPROVALS)].

Lemma default_pack_exact_witness : exists d,
  @preflight_check hex_protocol demo_text demo_ed25519 (@DEFAULT_PREFLIGHT_POLICY_PACK demo_text) (inl sample_grant) sample_grant_evidence = Ok d /\ pf_outcome d = "allow" /\
  exists evidence', @destructive_allowed demo_text sample_grant evidence'.
Proof.
  eexists. split; [vm_compute; reflexivity|]. split; [reflexivity|].
  destruct (proj1 (@default_pack_exact hex_protocol demo_text demo_ed25519 sample_grant sample_grant_evidence _ ltac:(vm_compute; reflexivity)))
    as (ev & _ & [Hd _]).
  exists ev. apply Hd. reflexivity.
Defined.

(** *** Two gaps

    [separation_of_duties] reads [approver_ids] and [requester_is_approver], which
    the caller supplies, and not [verified_approver_ids], which the engine derives
    from signed artifacts: a requester who signs both approvals is allowed. *)
Definition self_signed (approval_type : string) : json :=
  JDict (assoc_set "approver" (JDict [("type", JStr "agent"); ("id", JStr "agent-7")]) (assoc_set "approval_type" (JStr approval_type) sample_approval)).
Definition self_signed_evidence : dict :=
  [("role", JStr "admin"); ("approval_artifacts", JList [self_signed "security_admin"; self_signed "resource_owner"]);
   ("approval_trusted_keys", JList [JDict (assoc_set "issuer" (JDict [("type", JStr "agent"); ("id", JStr "agent-7")]) (sample_trust_keys APPROVAL_KEY_USE))])].

Lemma self_signed_approval_accepted :
  let intent := preflight_intent "iam.role.assign" [] in
  party_id (in_requester intent) = "agent-7" /\
  (exists evidence', @_with_verified_approvals hex_protocol demo_text demo_ed25519 intent self_signed_evidence = Ok evidence' /\
     dget evidence' "verified_approver_ids" = strings ["agent-7"]) /\
  exists d, @preflight_check hex_protocol demo_text demo_ed25519 (@build_access_governance_policy_pack demo_text ADMIN_ROLES) (inl intent) self_signed_evidence = Ok d /\
    pf_outcome d = "allow".
Proof.
  cbv zeta. split; [done|]. split; eexists; (split; [vm_compute; reflexivity|vm_compute; reflexivity]).
Qed.

(** A classification of [None] is read as the text [none] and counts as one. *)
Lemma null_classification_accepted :
  @classification_required demo_text (preflight_intent "data.share" [("sensitivity_classification", JNull)]) [] = Ok None.
Proof. vm_compute. reflexivity. Qed.
