(* ===== verification/Bundle.v ===== *)
(** * Evidence bundles: [local_runtime.py]

    [export_local_runtime_bundle] writes a manifest over the files of a runtime:
    their hashes, the proof chains and the decision records with the digests of
    their artifacts; [verify_local_runtime_bundle] checks a bundle against its own
    manifest.  Both see a file system only through what they ask of it
    ([bundle_root], [runtime_tree]); unpacking an archive and settling SQLite files
    before they are hashed are outside the model.  Loading a file parses it with the
    strict loader, and an exception of a loader ends the verification.

    The theorems: a report is "ok" exactly when the declarative specification of a
    consistent bundle holds, and every path it vouched for is inside the bundle; two
    consistent bundles with one manifest hold the same bytes; an exported bundle,
    with its manifest loaded from its file, is "ok" exactly when the artifacts of
    its chains and records belong together. *)

From S2P Require Import Prelude AnchorLog Text Json Errors Timestamps Canonical JsonEq Contracts Runtime Samples ProofService Receipts Artifacts EvidenceQuery Kernel.

Definition LOCAL_RUNTIME_FORMAT : string := "actenon-local-runtime-v1".
Definition LOCAL_RUNTIME_BUNDLE_FORMAT : string := "actenon-local-runtime-bundle-v1".
Definition LOCAL_RUNTIME_BUNDLE_EXTENSION : string := ".actenon".
Definition BUNDLE_FILE_HASH_CANONICALIZATION : string := "sha-256-bytes".

(** What is at a resolved path. *)
Inductive node := Directory | File (bytes : string).

(** The root of a bundle: its resolved path, the resolution of a path under it
    ([None] when it raises) and what is there. *)
Record bundle_root := mkBundleRoot {
  br_root : list string;
  br_resolve : string -> option (list string);
  br_node : list string -> option node
}.

Section Verify.
Context `{Protocol} `{Platform} `{PyText}.

Definition _load_json (n : node) : py dict :=
  match n with
  | Directory => Err (OtherError "IsADirectoryError")
  | File bytes =>
      payload ← read_json bytes;
      match payload with JDict d => Ok d | _ => Err (ValueError "JSON file must contain an object") end
  end.

Definition _bundle_member (b : bundle_root) (relative : string) : option (list string) :=
  match br_resolve b relative with
  | Some target => if bool_decide (br_root b `prefix_of` target) then Some target else None
  | None => None
  end.

(** The four kinds of artifacts: how one is loaded, printed and identified. *)
Record artifact_kind (A : Type) := mkArtifactKind { ak_load : json -> py A; ak_to_dict : A -> dict; ak_field : string; ak_id : A -> string }.
Arguments ak_load {A} _ _.
Arguments ak_to_dict {A} _ _.
Arguments ak_field {A} _.
Arguments ak_id {A} _ _.

Definition intent_artifact : artifact_kind ActionIntent := mkArtifactKind _ parse ActionIntent_to_dict "intent_id" in_intent_id.
Definition pccb_artifact : artifact_kind PCCB := mkArtifactKind _ PCCB_from_dict PCCB_to_dict "pccb_id" pc_pccb_id.
Definition receipt_artifact (field : string) : artifact_kind Receipt := mkArtifactKind _ Receipt_from_dict Receipt_to_dict field rc_receipt_id.
Definition refusal_artifact : artifact_kind Refusal := mkArtifactKind _ Refusal_from_dict Refusal_to_dict "id" rf_refusal_id.

(** The artifact, or the errors. *)
Definition _verify_bundle_artifact {A} (b : bundle_root) (k : artifact_kind A) (expected_type : string) (payload : json) : py (A + list string) :=
  let fail s := Ok (inr ["bundle " +:+ expected_type +:+ s]) in
  match payload with
  | JDict p =>
      match dget p "path" with
      | JStr path_value =>
          match _bundle_member b path_value with
          | None => fail (" artifact path points outside the bundle: " +:+ path_value)
          | Some target =>
              match br_node b target with
              | None => fail (" artifact is missing: " +:+ path_value)
              | Some n =>
                  loaded ← _load_json n;
                  artifact ← ak_load k (JDict loaded);
                  if negb (py_eqb (dget p (ak_field k)) (JStr (ak_id k artifact))) then fail (" identifier mismatch for " +:+ path_value)
                  else
                    match dget p "digest" with
                    | JDict declared =>
                        actual ← build_artifact_digest (ak_to_dict k artifact);
                        if negb (py_eqb (JDict declared) (JDict (DigestSpec_to_dict actual))) then fail (" digest mismatch for " +:+ path_value)
                        else Ok (inl artifact)
                    | _ => fail " entry is missing a digest"
                    end
              end
          end
      | _ => fail " entry is missing a path"
      end
  | _ => fail " entry is missing or not an object"
  end.

(** [if bad: errors.append(msg)] *)
Definition error_if (bad : bool) (msg : string) : list string := if bad then [msg] else [].

Definition _bundle_verify_pccb_matches_intent (intent : ActionIntent) (pccb : PCCB) : py (list string) :=
  let about := " does not match Action Intent for " +:+ pc_pccb_id pccb in
  let errors :=
    error_if (not_none (pc_intent_id pccb) && negb (py_eqb (pc_intent_id pccb) (JStr (in_intent_id intent)))) ("PCCB intent_id" +:+ about) ++
    error_if (negb (py_eq_tenant (pc_tenant pccb) (in_tenant intent))) ("PCCB tenant" +:+ about) ++
    error_if (negb (py_eq_party (pc_subject pccb) (in_requester intent))) ("PCCB subject" +:+ about) ++
    error_if (negb (py_eq_action (pc_action pccb) (in_action intent))) ("PCCB action" +:+ about) ++
    error_if (negb (py_eq_target (pc_target pccb) (in_target intent))) ("PCCB target" +:+ about) in
  expected_action_hash ← sha256_hex (JDict (build_action_hash_input intent));
  Ok (errors ++ error_if (negb (String.eqb (ah_value (pc_action_hash pccb)) expected_action_hash))
                  ("PCCB action hash does not match the canonical Action Intent for " +:+ pc_pccb_id pccb)).

(** [correlation is None or correlation.pccb_id != pccb.pccb_id] *)
Definition other_pccb (correlation : option CorrelationRef) (pccb : PCCB) : bool :=
  match correlation with None => true | Some c => negb (py_eqb (cor_pccb_id c) (JStr (pc_pccb_id pccb))) end.

Definition _bundle_verify_receipt_links (receipt : Receipt) (intent : ActionIntent) (pccb : PCCB) : list string :=
  let about := " does not match Action Intent for " +:+ rc_receipt_id receipt in
  error_if (negb (String.eqb (rc_intent_id receipt) (in_intent_id intent))) ("Receipt intent_id" +:+ about) ++
  error_if (negb (py_eq_tenant (rc_tenant receipt) (in_tenant intent))) ("Receipt tenant" +:+ about) ++
  error_if (negb (py_eq_party (rc_subject receipt) (in_requester intent))) ("Receipt subject" +:+ about) ++
  error_if (negb (py_eq_action (rc_action receipt) (in_action intent))) ("Receipt action" +:+ about) ++
  error_if (negb (py_eq_target (rc_target receipt) (in_target intent))) ("Receipt target" +:+ about) ++
  error_if (other_pccb (rc_correlation receipt) pccb) ("Receipt correlation.pccb_id does not match PCCB for " +:+ rc_receipt_id receipt).

(** The supporting receipt names another refusal. *)
Definition other_refusal (receipt : option Receipt) (refusal : Refusal) : bool :=
  match receipt with
  | Some r => match rc_correlation r with
              | Some c => not_none (cor_refusal_id c) && negb (py_eqb (cor_refusal_id c) (JStr (rf_refusal_id refusal)))
              | None => false
              end
  | None => false
  end.

Definition _bundle_verify_refusal_links (refusal : Refusal) (intent : ActionIntent) (pccb : PCCB) (receipt : option Receipt) : list string :=
  error_if (negb (py_eqb (rf_intent_id refusal) (JStr (in_intent_id intent))))
    ("Refusal intent_id does not match Action Intent for " +:+ rf_refusal_id refusal) ++
  error_if (other_pccb (rf_correlation refusal) pccb) ("Refusal correlation.pccb_id does not match PCCB for " +:+ rf_refusal_id refusal) ++
  error_if (other_refusal receipt refusal) ("Supporting receipt refusal link does not match refusal for " +:+ rf_refusal_id refusal).

(** The supporting receipt of a refusal, when the chain has one, and its errors. *)
Definition supporting_receipt (b : bundle_root) (chain : dict) : py (option Receipt * list string) :=
  match dget chain "supporting_receipt" with
  | JDict _ =>
      r ← _verify_bundle_artifact b (receipt_artifact "receipt_id") "supporting_receipt" (dget chain "supporting_receipt");
      Ok match r with inl receipt => (Some receipt, []) | inr errors => (None, errors) end
  | _ => Ok (None, [])
  end.

Definition action_hash_errors (chain : dict) (pccb : PCCB) : list string :=
  let same := match dget_default chain "action_hash" (JDict []) with
              | JDict d => py_eqb (dget d "value") (JStr (ah_value (pc_action_hash pccb)))
              | _ => false
              end in
  error_if (negb same) ("Action hash mismatch in chain " +:+ py_str (dget_default chain "chain_id" (JStr "<unknown>"))).

(** The errors of the outcome, and whether the rest of the chain is looked at. *)
Definition outcome_errors (b : bundle_root) (chain outcome : dict) (intent : ActionIntent) (pccb : PCCB) : py (list string * bool) :=
  let outcome_type := dget outcome "type" in
  if is_str outcome_type "receipt" then
    r ← _verify_bundle_artifact b (receipt_artifact "id") "receipt" (JDict outcome);
    match r with
    | inr errors => Ok (errors, false)
    | inl receipt => errors ← _bundle_verify_pccb_matches_intent intent pccb; Ok (errors ++ _bundle_verify_receipt_links receipt intent pccb, true)
    end
  else if is_str outcome_type "refusal" then
    r ← _verify_bundle_artifact b refusal_artifact "refusal" (JDict outcome);
    match r with
    | inr errors => Ok (errors, false)
    | inl refusal =>
        '(receipt, errors) ← supporting_receipt b chain;
        Ok (errors ++ _bundle_verify_refusal_links refusal intent pccb receipt, true)
    end
  else Ok (["unsupported bundle chain outcome type: " +:+ py_repr outcome_type], false).

Definition _verify_bundle_chain (b : bundle_root) (chain : json) : py (list string) :=
  match chain with
  | JDict c =>
      intent ← _verify_bundle_artifact b intent_artifact "intent" (dget c "intent");
      match intent with
      | inr errors => Ok errors
      | inl intent =>
          pccb ← _verify_bundle_artifact b pccb_artifact "pccb" (dget c "pccb");
          match pccb with
          | inr errors => Ok errors
          | inl pccb =>
              match dget c "outcome" with
              | JDict outcome =>
                  '(errors, complete) ← outcome_errors b c outcome intent pccb;
                  Ok (if complete : bool then errors ++ action_hash_errors c pccb else errors)
              | _ => Ok ["bundle chain outcome is missing or not an object"]
              end
          end
      end
  | _ => Ok ["bundle chain entry is not an object"]
  end.

Definition _verify_bundle_decision_record (b : bundle_root) (record : json) : py (list string) :=
  match record with
  | JDict r =>
      intent ← _verify_bundle_artifact b intent_artifact "intent" (dget r "intent");
      match intent with
      | inr errors => Ok errors
      | inl intent =>
          receipt ← _verify_bundle_artifact b (receipt_artifact "receipt_id") "decision_receipt" (dget r "decision_receipt");
          match receipt with
          | inr errors => Ok errors
          | inl receipt =>
              Ok (error_if (negb (String.eqb (rc_intent_id receipt) (in_intent_id intent)))
                    ("Decision receipt intent_id does not match Action Intent in " +:+ py_str (dget_default r "directory" (JStr "<unknown>"))))
          end
      end
  | _ => Ok ["bundle decision record entry is not an object"]
  end.

Definition entry_errors (b : bundle_root) (entry : json) : list string :=
  match entry with
  | JStr relative =>
      match _bundle_member b relative with None => ["bundle manifest entry path points outside the bundle: " +:+ relative] | Some _ => [] end
  | _ => ["bundle manifest contains a non-string entry path"]
  end.

Definition file_errors (b : bundle_root) (item : string * json) : py (list string) :=
  let '(relative, digest_payload) := item in
  match _bundle_member b relative with
  | None => Ok ["Hashed file path points outside the bundle: " +:+ relative]
  | Some target =>
      match br_node b target with
      | Some (File bytes) =>
          match digest_payload with
          | JDict digest => Ok (error_if (negb (py_eqb (dget digest "value") (JStr (sha256_hexdigest bytes)))) ("File hash mismatch: " +:+ relative))
          | _ => Err (AttributeError "get")
          end
      | _ => Ok ["Missing hashed file: " +:+ relative]
      end
  end.

(** A loop that collects the errors of its items: the errors, and the number of
    items without any. *)
Definition collect {A} (check : A -> py (list string)) (items : list A) : py (list string * Z) :=
  results ← res_mapM check items;
  Ok (mjoin results, Z.of_nat (length (List.filter (fun errors => match errors with [] => true | _ => false end) results))).

Definition expect_array (manifest : dict) (k : string) : py (list json) :=
  match dget_default manifest k (JList []) with JList l => Ok l | _ => Err (ValueError ("bundle manifest " +:+ k +:+ " must be a list")) end.

Definition verify_manifest (b : bundle_root) (manifest : dict) (bundle_path bundle_kind : string) : py dict :=
  if negb (is_str (dget manifest "format") LOCAL_RUNTIME_BUNDLE_FORMAT)
  then Err (ValueError ("unsupported bundle format: " +:+ py_repr (dget manifest "format")))
  else
    file_hashes ← match dget_default manifest "file_hashes" (JDict []) with
                  | JDict d => Ok d
                  | _ => Err (ValueError "bundle manifest file_hashes must be an object")
                  end;
    entries ← expect_array manifest "entries";
    '(file_errs, verified_file_count) ← collect (file_errors b) (ksort file_hashes);
    evidence_chains ← expect_array manifest "evidence_chains";
    '(chain_errs, verified_chain_count) ← collect (_verify_bundle_chain b) evidence_chains;
    decision_records ← expect_array manifest "decision_records";
    '(record_errs, verified_decision_count) ← collect (_verify_bundle_decision_record b) decision_records;
    let errors :=
      mjoin (map (entry_errors b) entries) ++
      error_if (negb (dict_truthy file_hashes)) "Bundle manifest does not declare any file hashes." ++ file_errs ++ chain_errs ++
      error_if (Nat.eqb (length evidence_chains) 0 && Nat.eqb (length decision_records) 0)
        "Bundle manifest does not declare any proof chains or decision records." ++ record_errs in
    let count {A} (l : list A) := JInt (Z.of_nat (length l)) in
    Ok [("ok", JBool match errors with [] => true | _ => false end); ("bundle", JStr bundle_path); ("kind", JStr bundle_kind);
        ("format", dget manifest "format"); ("artifact_class", dget_default manifest "artifact_class" (JStr "portable_execution_evidence_bundle"));
        ("summary", JDict
          [("verified_file_count", JInt verified_file_count); ("declared_file_count", count file_hashes);
           ("verified_proof_chain_count", JInt verified_chain_count); ("declared_proof_chain_count", count evidence_chains);
           ("verified_decision_record_count", JInt verified_decision_count); ("declared_decision_record_count", count decision_records)]);
        ("integrity_model", dget_default manifest "integrity_model" (JDict [])); ("errors", JList (map JStr errors))].

Definition _verify_local_runtime_bundle_root (b : bundle_root) (bundle_path bundle_kind : string) : py dict :=
  match br_node b (br_root b ++ ["bundle_manifest.json"]) with
  | None => Err (ValueError "bundle_manifest.json is missing from the bundle")
  | Some n => manifest ← _load_json n; verify_manifest b manifest bundle_path bundle_kind
  end.

(** What is at the bundle's path: nothing, a directory, an archive with its
    extraction, or another file. *)
Inductive bundle_target := NoTarget | DirectoryTarget (b : bundle_root) | ArchiveTarget (extracted : bundle_root) | OtherTarget.

Definition verify_local_runtime_bundle (target : bundle_target) (path : string) : py dict :=
  match target with
  | NoTarget => Err (ValueError ("bundle path does not exist: " +:+ path))
  | DirectoryTarget b => _verify_local_runtime_bundle_root b path "directory"
  | ArchiveTarget b => _verify_local_runtime_bundle_root b path "archive"
  | OtherTarget => Err (ValueError "bundle path must be a directory, .zip archive, or .actenon archive")
  end.
End Verify.
Arguments ak_load {A} _ _.
Arguments ak_to_dict {A} _ _.
Arguments ak_field {A} _.
Arguments ak_id {A} _ _.

(** ** Export *)

(** A runtime directory: its path, what is at a path under it, and everything under
    a directory, as [sorted(path.rglob("*"))]; a path is its components. *)
Record runtime_tree := mkRuntimeTree { rt_root : string; rt_node : list string -> option node; rt_under : list string -> list (list string) }.

Definition as_posix (p : list string) : string := join "/" p.

Definition EPHEMERAL_SUFFIXES : list string := [".sqlite3-wal"; ".sqlite3-shm"; ".sqlite3-journal"; ".db-wal"; ".db-shm"; ".db-journal"].

Definition endswith (s suffix : string) : bool :=
  bool_decide (String.list_ascii_of_string suffix `suffix_of` String.list_ascii_of_string s).

Section ManifestBuilder.
Context `{Protocol} `{Platform} `{PyText}.
Variable t : runtime_tree.

Definition path_exists (p : list string) : bool := match rt_node t p with Some _ => true | None => false end.
Definition is_file (p : list string) : bool := match rt_node t p with Some (File _) => true | _ => false end.

Definition _is_ephemeral_sqlite_file (relative_path : string) : bool := existsb (endswith (str_lower relative_path)) EPHEMERAL_SUFFIXES.

Definition _bundle_entries : list string :=
  ["runtime_manifest.json"; "SUMMARY.txt"] ++
  (if path_exists ["service_manifest.json"] then ["service_manifest.json"] else []) ++
  List.filter (fun relative => path_exists [relative]) ["labs"; "artifacts"; "state"; "simulations"; "keys"].

(** The first occurrence of each path *)
Definition unseen (paths : list (list string)) : list (list string) :=
  fold_left (fun resolved p => if bool_decide (p ∈ resolved) then resolved else resolved ++ [p]) paths [].

Definition _bundle_file_entries (entries : list string) : list (list string) :=
  unseen (List.filter (fun p => negb (_is_ephemeral_sqlite_file (as_posix p)))
    (mjoin (map (fun relative => match rt_node t [relative] with
                                 | Some (File _) => [[relative]]
                                 | Some Directory => List.filter is_file (rt_under t [relative])
                                 | None => []
                                 end) entries))).

Definition _sha256_file_hex (p : list string) : py string :=
  match rt_node t p with Some (File bytes) => Ok (sha256_hexdigest bytes) | _ => Err (OtherError "OSError") end.

Definition file_hash (value : string) : json :=
  JDict [("algorithm", JStr "sha-256"); ("canonicalization", JStr BUNDLE_FILE_HASH_CANONICALIZATION); ("value", JStr value)].

Definition _bundle_file_hashes (entries : list string) : py dict :=
  hashes ← res_mapM (fun p => value ← _sha256_file_hex p; Ok (as_posix p, file_hash value)) (_bundle_file_entries entries);
  Ok (assoc_merge [] hashes).

(** The directories that hold an [action_intent.json]. *)
Definition _bundle_candidate_chain_dirs : list (list string) :=
  unseen (mjoin (map (fun root =>
    if path_exists root
    then map (fun p => take (length p - 1) p) (List.filter (fun p => bool_decide (last p = Some "action_intent.json")) (rt_under t root))
    else []) [["labs"]; ["artifacts"; "requests"]; ["simulations"]])).

Definition load_artifact {A} (k : artifact_kind A) (p : list string) : py A :=
  match rt_node t p with
  | Some n => loaded ← _load_json n; ak_load k (JDict loaded)
  | None => Err (OtherError "FileNotFoundError")
  end.

(** The fields that describe an artifact in the manifest. *)
Definition artifact_fields {A} (k : artifact_kind A) (p : list string) (artifact : A) (extra : dict) : py dict :=
  digest ← build_artifact_digest (ak_to_dict k artifact);
  Ok ([("path", JStr (as_posix p)); (ak_field k, JStr (ak_id k artifact))] ++ extra ++ [("digest", JDict (DigestSpec_to_dict digest))]).

(** The supporting receipt of a refusal: [receipt.json], else [decision_receipt.json]. *)
Definition exported_support (dir : list string) : py dict :=
  let entry name :=
    receipt ← load_artifact (receipt_artifact "receipt_id") (dir ++ [name]);
    fields ← artifact_fields (receipt_artifact "receipt_id") (dir ++ [name]) receipt [("outcome", JStr (rc_outcome receipt))];
    Ok [("supporting_receipt", JDict fields)] in
  if path_exists (dir ++ ["receipt.json"]) then entry "receipt.json"
  else if path_exists (dir ++ ["decision_receipt.json"]) then entry "decision_receipt.json"
  else Ok [].

(** The ["outcome"] of a chain and what goes with it. *)
Definition exported_outcome (dir : list string) : py (option (dict * dict)) :=
  let receipt_outcome name (wanted : Receipt -> bool) :=
    receipt ← load_artifact (receipt_artifact "id") (dir ++ [name]);
    if wanted receipt then
      fields ← artifact_fields (receipt_artifact "id") (dir ++ [name]) receipt [("outcome", JStr (rc_outcome receipt))];
      Ok (Some (("type", JStr "receipt") :: fields, []))
    else Ok None in
  if path_exists (dir ++ ["refusal.json"]) then
    refusal ← load_artifact refusal_artifact (dir ++ ["refusal.json"]);
    support ← exported_support dir;
    fields ← artifact_fields refusal_artifact (dir ++ ["refusal.json"]) refusal [("outcome", JStr (rf_reason_code refusal))];
    Ok (Some (("type", JStr "refusal") :: fields, support))
  else if path_exists (dir ++ ["execution_receipt.json"]) then receipt_outcome "execution_receipt.json" (fun _ => true)
  else if path_exists (dir ++ ["receipt.json"]) then receipt_outcome "receipt.json" (fun r => String.eqb (rc_outcome r) "executed")
  else Ok None.

Definition intent_record_entry (dir : list string) : py dict :=
  let p := dir ++ ["intent_record.json"] in
  if path_exists p then value ← _sha256_file_hex p; Ok [("intent_record", JDict [("path", JStr (as_posix p)); ("sha256", JStr value)])] else Ok [].

Definition exported_chain (dir : list string) : py (option json) :=
  let intent_path := dir ++ ["action_intent.json"] in
  let pccb_path := dir ++ ["pccb.json"] in
  if negb (path_exists intent_path) || negb (path_exists pccb_path) then Ok None
  else
    intent ← load_artifact intent_artifact intent_path;
    pccb ← load_artifact pccb_artifact pccb_path;
    found ← exported_outcome dir;
    match found with
    | None => Ok None
    | Some (outcome, support) =>
        intent_fields ← artifact_fields intent_artifact intent_path intent [];
        pccb_fields ← artifact_fields pccb_artifact pccb_path pccb [];
        record ← intent_record_entry dir;
        Ok (Some (JDict ([("chain_id", JStr ("pccb:" +:+ pc_pccb_id pccb)); ("directory", JStr (as_posix dir)); ("intent", JDict intent_fields);
                          ("pccb", JDict pccb_fields); ("outcome", JDict outcome);
                          ("action_hash", JDict (ActionHashSpec_to_dict (pc_action_hash pccb)))] ++ support ++ record)))
    end.

Definition exported_record (dir : list string) : py (option json) :=
  let intent_path := dir ++ ["action_intent.json"] in
  let receipt_path := dir ++ ["decision_receipt.json"] in
  if negb (path_exists intent_path) || path_exists (dir ++ ["pccb.json"]) || negb (path_exists receipt_path) then Ok None
  else
    intent ← load_artifact intent_artifact intent_path;
    receipt ← load_artifact (receipt_artifact "receipt_id") receipt_path;
    intent_fields ← artifact_fields intent_artifact intent_path intent [];
    receipt_fields ← artifact_fields (receipt_artifact "receipt_id") receipt_path receipt [("outcome", JStr (rc_outcome receipt))];
    record ← intent_record_entry dir;
    Ok (Some (JDict ([("directory", JStr (as_posix dir)); ("intent", JDict intent_fields); ("decision_receipt", JDict receipt_fields)] ++ record))).

(** The loops skip the directories without a chain or a record. *)
Definition kept (found : list (option json)) : list json := omap id found.
Definition _bundle_evidence_chains : py (list json) := found ← res_mapM exported_chain _bundle_candidate_chain_dirs; Ok (kept found).
Definition _bundle_decision_records : py (list json) := found ← res_mapM exported_record _bundle_candidate_chain_dirs; Ok (kept found).

Definition chain_outcome (chain : json) (k : string) : json :=
  match chain with JDict c => match dget c "outcome" with JDict o => dget o k | _ => JNull end | _ => JNull end.

Definition INTEGRITY_MODEL : json := JDict
  [("file_hashes", JBool true); ("canonical_artifact_digests", JBool true); ("attestation_of_origin", JBool false);
   ("notes", JList
     [JStr "This bundle is portable execution evidence with internal digest checks.";
      JStr "In v1 it is tamper-evident relative to the bundle manifest, not a cryptographic attestation of origin.";
      JStr "A malicious party that rewrites both artifacts and manifest can still produce a different internally consistent bundle."])].

Definition _build_bundle_manifest (now : datetime) : py dict :=
  let entries := _bundle_entries in
  file_hashes ← _bundle_file_hashes entries;
  evidence_chains ← _bundle_evidence_chains;
  decision_records ← _bundle_decision_records;
  let count {A} (l : list A) := JInt (Z.of_nat (length l)) in
  Ok [("format", JStr LOCAL_RUNTIME_BUNDLE_FORMAT); ("artifact_class", JStr "portable_execution_evidence_bundle");
      ("file_extension", JStr LOCAL_RUNTIME_BUNDLE_EXTENSION); ("exported_at", JStr (format_timestamp now));
      ("runtime_format", JStr LOCAL_RUNTIME_FORMAT); ("runtime_root", JStr (rt_root t)); ("entries", JList (map JStr entries));
      ("file_hashes", JDict file_hashes); ("evidence_chains", JList evidence_chains); ("decision_records", JList decision_records);
      ("summary", JDict
        [("entry_count", count entries); ("file_count", count file_hashes); ("proof_chain_count", count evidence_chains);
         ("executed_chain_count", count (List.filter (fun c => is_str (chain_outcome c "outcome") "executed") evidence_chains));
         ("refused_chain_count", count (List.filter (fun c => is_str (chain_outcome c "type") "refusal") evidence_chains));
         ("decision_record_count", count decision_records)]);
      ("integrity_model", INTEGRITY_MODEL)].
End ManifestBuilder.

(** ** The specification of a consistent bundle *)
Section Spec.
Context `{Protocol} `{Platform} `{PyText}.

(** A path of the manifest, inside the bundle, and what is there. *)
Definition carried (b : bundle_root) (relative : string) (n : node) : Prop :=
  exists target, br_resolve b relative = Some target /\ br_root b `prefix_of` target /\ br_node b target = Some n.

(** An entry of the manifest describes this artifact of the bundle. *)
Definition payload_describes {A} (b : bundle_root) (k : artifact_kind A) (payload : json) (artifact : A) : Prop :=
  exists p path n loaded declared digest, payload = JDict p /\ dget p "path" = JStr path /\ carried b path n /\
    _load_json n = Ok loaded /\ ak_load k (JDict loaded) = Ok artifact /\ dget p (ak_field k) = JStr (ak_id k artifact) /\
    dget p "digest" = JDict declared /\ build_artifact_digest (ak_to_dict k artifact) = Ok digest /\
    py_eqb (JDict declared) (JDict (DigestSpec_to_dict digest)) = true.

Definition names_proof (correlation : option CorrelationRef) (pccb : PCCB) : Prop :=
  exists c, correlation = Some c /\ cor_pccb_id c = JStr (pc_pccb_id pccb).

(** The proof is for this intent. *)
Record proof_of_intent (intent : ActionIntent) (pccb : PCCB) : Prop := mkProofOfIntent {
  poi_id : pc_intent_id pccb = JNull \/ pc_intent_id pccb = JStr (in_intent_id intent);
  poi_tenant : py_eq_tenant (pc_tenant pccb) (in_tenant intent) = true;
  poi_subject : py_eq_party (pc_subject pccb) (in_requester intent) = true;
  poi_action : py_eq_action (pc_action pccb) (in_action intent) = true;
  poi_target : py_eq_target (pc_target pccb) (in_target intent) = true;
  poi_hash : sha256_hex (JDict (build_action_hash_input intent)) = Ok (ah_value (pc_action_hash pccb))
}.

(** The receipt is of this intent and proof. *)
Record receipt_of (intent : ActionIntent) (pccb : PCCB) (receipt : Receipt) : Prop := mkReceiptOf {
  ro_id : rc_intent_id receipt = in_intent_id intent;
  ro_tenant : py_eq_tenant (rc_tenant receipt) (in_tenant intent) = true;
  ro_subject : py_eq_party (rc_subject receipt) (in_requester intent) = true;
  ro_action : py_eq_action (rc_action receipt) (in_action intent) = true;
  ro_target : py_eq_target (rc_target receipt) (in_target intent) = true;
  ro_proof : names_proof (rc_correlation receipt) pccb
}.

Definition refusal_of (intent : ActionIntent) (pccb : PCCB) (receipt : option Receipt) (refusal : Refusal) : Prop :=
  rf_intent_id refusal = JStr (in_intent_id intent) /\ names_proof (rf_correlation refusal) pccb /\
  (forall r c, receipt = Some r -> rc_correlation r = Some c -> cor_refusal_id c = JNull \/ cor_refusal_id c = JStr (rf_refusal_id refusal)).

(** A proof chain of the manifest. *)
Definition chain_consistent (b : bundle_root) (chain : json) : Prop :=
  exists c intent pccb outcome, chain = JDict c /\ payload_describes b intent_artifact (dget c "intent") intent /\ payload_describes b pccb_artifact (dget c "pccb") pccb /\
    dget c "outcome" = JDict outcome /\
    ((dget outcome "type" = JStr "receipt" /\ exists receipt, payload_describes b (receipt_artifact "id") (JDict outcome) receipt /\
        proof_of_intent intent pccb /\ receipt_of intent pccb receipt) \/
     (dget outcome "type" = JStr "refusal" /\ exists refusal receipt, payload_describes b refusal_artifact (JDict outcome) refusal /\
        match dget c "supporting_receipt" with
        | JDict _ => exists r, receipt = Some r /\ payload_describes b (receipt_artifact "receipt_id") (dget c "supporting_receipt") r
        | _ => receipt = None
        end /\ refusal_of intent pccb receipt refusal)) /\
    exists h, dget_default c "action_hash" (JDict []) = JDict h /\ dget h "value" = JStr (ah_value (pc_action_hash pccb)).

Definition record_consistent (b : bundle_root) (record : json) : Prop :=
  exists r intent receipt, record = JDict r /\ payload_describes b intent_artifact (dget r "intent") intent /\
    payload_describes b (receipt_artifact "receipt_id") (dget r "decision_receipt") receipt /\ rc_intent_id receipt = in_intent_id intent.

Definition file_consistent (b : bundle_root) (relative : string) (digest_payload : json) : Prop :=
  exists bytes digest, carried b relative (File bytes) /\ digest_payload = JDict digest /\ dget digest "value" = JStr (sha256_hexdigest bytes).

Definition entry_inside (b : bundle_root) (entry : json) : Prop :=
  exists relative target, entry = JStr relative /\ br_resolve b relative = Some target /\ br_root b `prefix_of` target.

Record bundle_consistent (b : bundle_root) (manifest : dict) : Prop := mkBundleConsistent {
  bc_format : dget manifest "format" = JStr LOCAL_RUNTIME_BUNDLE_FORMAT;
  bc_entries : exists entries, dget_default manifest "entries" (JList []) = JList entries /\ Forall (entry_inside b) entries;
  bc_files : exists hashes, dget_default manifest "file_hashes" (JDict []) = JDict hashes /\ hashes <> [] /\
               Forall (fun kv => file_consistent b kv.1 kv.2) hashes;
  bc_claims : exists chains records, dget_default manifest "evidence_chains" (JList []) = JList chains /\
                dget_default manifest "decision_records" (JList []) = JList records /\ (chains <> [] \/ records <> []) /\
                Forall (chain_consistent b) chains /\ Forall (record_consistent b) records
}.

(** ** Facts *)
Lemma member_carried b relative n : (exists target, _bundle_member b relative = Some target /\ br_node b target = Some n) <-> carried b relative n.
Proof.
  unfold _bundle_member, carried. split.
  - intros (t & Hm & Hn). destruct (br_resolve b relative) as [t'|]; [|done]. case_bool_decide; [|done]. injection Hm as ->. eauto.
  - intros (t & -> & Hp & Hn). exists t. by rewrite bool_decide_eq_true_2.
Qed.

Lemma member_inside b relative target : _bundle_member b relative = Some target <-> br_resolve b relative = Some target /\ br_root b `prefix_of` target.
Proof. unfold _bundle_member. destruct (br_resolve b relative); [|naive_solver]. case_bool_decide; naive_solver. Qed.

Lemma artifact_described {A} b (k : artifact_kind A) type payload a :
  _verify_bundle_artifact b k type payload = Ok (inl a) <-> payload_describes b k payload a.
Proof.
  unfold _verify_bundle_artifact, payload_describes. split.
  - intros Hv. destruct payload as [| | | | | |p]; try done. destruct (dget p "path") as [| | | |path| |] eqn:Hp; try done.
    destruct (_bundle_member b path) as [target|] eqn:Hm; [|done]. destruct (br_node b target) as [n|] eqn:Hn; [|done].
    apply bind_Ok in Hv as (loaded & Hl & Hv). apply bind_Ok in Hv as (artifact & Ha & Hv).
    destruct (py_eqb (dget p (ak_field k)) _) eqn:Hid; [|done]. cbn [negb] in Hv. apply py_eqb_str_r in Hid.
    destruct (dget p "digest") as [| | | | | |declared] eqn:Hd; try done. apply bind_Ok in Hv as (digest & Hdg & Hv).
    destruct (py_eqb (JDict declared) _) eqn:He; [|done]. injection Hv as <-.
    exists p, path, n, loaded, declared, digest. split_and!; try done. apply member_carried. eauto.
  - intros (p & path & n & loaded & declared & digest & -> & Hp & (target & Hm & Hn)%member_carried & Hl & Ha & Hid & Hd & Hdg & He).
    rewrite Hp, Hm, Hn, Hl. cbn [mbind res_bind]. rewrite Ha. cbn [mbind res_bind]. rewrite Hid, (proj2 (py_eqb_str_r _ _) eq_refl). cbn [negb].
    rewrite Hd, Hdg. cbn [mbind res_bind]. by rewrite He.
Qed.

Lemma error_if_nil c msg : error_if c msg = [] <-> c = false.
Proof. by destruct c. Qed.

Lemma other_pccb_false correlation pccb : other_pccb correlation pccb = false <-> names_proof correlation pccb.
Proof.
  unfold other_pccb, names_proof. destruct correlation as [c|]; [|naive_solver]. rewrite negb_false_iff, py_eqb_str_r. naive_solver.
Qed.

(** [x is not None and x != s] *)
Lemma named_other j s : not_none j && negb (py_eqb j (JStr s)) = false <-> j = JNull \/ j = JStr s.
Proof. rewrite andb_false_iff, negb_false_iff, py_eqb_str_r. destruct j; naive_solver. Qed.

Lemma pccb_matches intent pccb : _bundle_verify_pccb_matches_intent intent pccb = Ok [] <-> proof_of_intent intent pccb.
Proof.
  unfold _bundle_verify_pccb_matches_intent. cbv zeta. rewrite bind_Ok. split.
  - intros (h & Hh & [= Hn]). rewrite !app_nil, !error_if_nil, !negb_false_iff, named_other, String.eqb_eq in Hn. destruct_and!.
    constructor; congruence.
  - intros []. eexists. split; [eassumption|]. f_equal. by rewrite !app_nil, !error_if_nil, !negb_false_iff, named_other, String.eqb_refl.
Qed.

Lemma receipt_links receipt intent pccb : _bundle_verify_receipt_links receipt intent pccb = [] <-> receipt_of intent pccb receipt.
Proof.
  unfold _bundle_verify_receipt_links. cbv zeta. rewrite !app_nil, !error_if_nil, !negb_false_iff, String.eqb_eq, other_pccb_false.
  split; [intros; destruct_and!; by constructor|intros []; by split_and!].
Qed.

Lemma refusal_links refusal intent pccb receipt : _bundle_verify_refusal_links refusal intent pccb receipt = [] <-> refusal_of intent pccb receipt refusal.
Proof.
  unfold _bundle_verify_refusal_links, refusal_of. rewrite !app_nil, !error_if_nil, !negb_false_iff, py_eqb_str_r, other_pccb_false.
  unfold other_refusal. destruct receipt as [r|]; [|naive_solver]. destruct (rc_correlation r) as [c|] eqn:Hc; [rewrite named_other|naive_solver].
  split; intros (Hi & Hn & Hr); (split_and!; [done..|]); [intros r' c' [= <-] Hc'; by simplify_eq|by apply (Hr r c)].
Qed.

Lemma action_hash_nil chain pccb : action_hash_errors chain pccb = [] <->
  exists h, dget_default chain "action_hash" (JDict []) = JDict h /\ dget h "value" = JStr (ah_value (pc_action_hash pccb)).
Proof.
  unfold action_hash_errors. cbv zeta. rewrite error_if_nil, negb_false_iff.
  destruct (dget_default chain "action_hash" (JDict [])) as [| | | | | |h]; try (by naive_solver). rewrite py_eqb_str_r. naive_solver.
Qed.

(** An artifact that is not described has errors. *)
Lemma artifact_errors {A} b (k : artifact_kind A) type payload errors : _verify_bundle_artifact b k type payload = Ok (inr errors) -> errors <> [].
Proof.
  unfold _verify_bundle_artifact. destruct payload as [| | | | | |p]; try (by intros [= <-]). destruct (dget p "path") as [| | | |path| |]; try (by intros [= <-]).
  destruct (_bundle_member b path) as [t|]; [|by intros [= <-]]. destruct (br_node b t) as [n|]; [|by intros [= <-]].
  intros (loaded & _ & Hv)%bind_Ok. apply bind_Ok in Hv as (artifact & _ & Hv). destruct (negb _); [by injection Hv as <-|].
  destruct (dget p "digest"); try (by injection Hv as <-). apply bind_Ok in Hv as (digest & _ & Hv). destruct (negb _); [by injection Hv as <-|discriminate Hv].
Qed.

Lemma supporting_receipt_spec b c receipt : supporting_receipt b c = Ok (receipt, []) <->
  match dget c "supporting_receipt" with
  | JDict _ => exists r, receipt = Some r /\ payload_describes b (receipt_artifact "receipt_id") (dget c "supporting_receipt") r
  | _ => receipt = None
  end.
Proof.
  unfold supporting_receipt. destruct (dget c "supporting_receipt") as [| | | | | |d]; try (split; [by intros [= <-]|by intros ->]).
  setoid_rewrite <- (artifact_described b _ "supporting_receipt"). rewrite bind_Ok. split.
  - intros ([r|errors] & Hr & Hv); [injection Hv as <-; eauto|]. injection Hv as <- ->. by apply artifact_errors in Hr.
  - intros (r & -> & Hr). eauto.
Qed.

Lemma outcome_errors_spec b c outcome intent pccb : outcome_errors b c outcome intent pccb = Ok ([], true) <->
  (dget outcome "type" = JStr "receipt" /\ exists receipt, payload_describes b (receipt_artifact "id") (JDict outcome) receipt /\
     proof_of_intent intent pccb /\ receipt_of intent pccb receipt) \/
  (dget outcome "type" = JStr "refusal" /\ exists refusal receipt, payload_describes b refusal_artifact (JDict outcome) refusal /\
     match dget c "supporting_receipt" with
     | JDict _ => exists r, receipt = Some r /\ payload_describes b (receipt_artifact "receipt_id") (dget c "supporting_receipt") r
     | _ => receipt = None
     end /\ refusal_of intent pccb receipt refusal).
Proof.
  unfold outcome_errors. cbv zeta. setoid_rewrite <- supporting_receipt_spec. setoid_rewrite <- pccb_matches. setoid_rewrite <- receipt_links.
  setoid_rewrite <- refusal_links. destruct (is_str (dget outcome "type") "receipt") eqn:Ht.
  { apply is_str_true in Ht. rewrite Ht. rewrite bind_Ok. split.
    - intros ([receipt|errors] & Hr & Hv); [|by injection Hv as -> ?]. apply artifact_described in Hr. apply bind_Ok in Hv as (errors & He & [= Hn]).
      apply app_nil in Hn as [-> Hl]. left. split; [done|]. by exists receipt.
    - intros [(_ & receipt & Hr & He & Hl)|[? _]]; [|done]. exists (inl receipt). apply (artifact_described b _ "receipt") in Hr. split; [done|].
      rewrite He. cbn [mbind res_bind]. by rewrite Hl. }
  destruct (is_str (dget outcome "type") "refusal") eqn:Ht'.
  { apply is_str_true in Ht'. rewrite Ht'. rewrite bind_Ok. split.
    - intros ([refusal|errors] & Hr & Hv); [|by injection Hv as -> ?]. apply artifact_described in Hr. apply bind_Ok in Hv as ([receipt errors] & He & [= Hn]).
      apply app_nil in Hn as [-> Hl]. right. split; [done|]. by exists refusal, receipt.
    - intros [[? _]|(_ & refusal & receipt & Hr & He & Hl)]; [done|]. exists (inl refusal). apply (artifact_described b _ "refusal") in Hr. split; [done|].
      rewrite He. cbn [mbind res_bind]. by rewrite Hl. }
  split; [done|]. intros [[He _]|[He _]]; [apply (is_str_true _ "receipt") in He|apply (is_str_true _ "refusal") in He]; congruence.
Qed.

(** A chain without errors is consistent. *)
Lemma chain_verified_iff b chain : _verify_bundle_chain b chain = Ok [] <-> chain_consistent b chain.
Proof.
  unfold chain_consistent. setoid_rewrite <- outcome_errors_spec. setoid_rewrite <- action_hash_nil. split.
  - unfold _verify_bundle_chain. intros Hv. destruct chain as [| | | | | |c]; try done. apply bind_Ok in Hv as ([intent|errors] & Hi & Hv); [|injection Hv as ->; by apply artifact_errors in Hi].
    apply bind_Ok in Hv as ([pccb|errors] & Hp & Hv); [|injection Hv as ->; by apply artifact_errors in Hp].
    destruct (dget c "outcome") as [| | | | | |outcome] eqn:Ho; try done. apply bind_Ok in Hv as ([errors complete] & He & Hv).
    exists c, intent, pccb, outcome. apply artifact_described in Hi, Hp. destruct complete.
    + injection Hv as [-> Ha]%app_nil. by split_and!.
    + exfalso. injection Hv as ->. clear -He. unfold outcome_errors in He. cbv zeta in He. destruct (is_str _ "receipt").
      { apply bind_Ok in He as ([|errors] & Hr & He); [by apply bind_Ok in He as (? & _ & [=])|]. injection He as ->. by apply artifact_errors in Hr. }
      destruct (is_str _ "refusal"); [|done]. apply bind_Ok in He as ([|errors] & Hr & He); [by apply bind_Ok in He as ([] & _ & [=])|].
      injection He as ->. by apply artifact_errors in Hr.
  - intros (c & intent & pccb & outcome & -> & Hi & Hp & Ho & He & Ha). unfold _verify_bundle_chain.
    apply (artifact_described b _ "intent") in Hi. apply (artifact_described b _ "pccb") in Hp. rewrite Hi. cbn [mbind res_bind]. rewrite Hp. cbn [mbind res_bind].
    rewrite Ho, He. cbn [mbind res_bind]. by rewrite Ha.
Qed.

Lemma record_verified_iff b record : _verify_bundle_decision_record b record = Ok [] <-> record_consistent b record.
Proof.
  unfold record_consistent, _verify_bundle_decision_record. split.
  - intros Hv. destruct record as [| | | | | |r]; try done. apply bind_Ok in Hv as ([intent|errors] & Hi & Hv); [|injection Hv as ->; by apply artifact_errors in Hi].
    apply bind_Ok in Hv as ([receipt|errors] & Hr & Hv); [|injection Hv as ->; by apply artifact_errors in Hr]. injection Hv as Hv.
    apply error_if_nil, negb_false_iff, String.eqb_eq in Hv. apply artifact_described in Hi, Hr. exists r, intent, receipt. by split_and!.
  - intros (r & intent & receipt & -> & Hi & Hr & He). apply (artifact_described b _ "intent") in Hi. apply (artifact_described b _ "decision_receipt") in Hr.
    rewrite Hi. cbn [mbind res_bind]. rewrite Hr. cbn [mbind res_bind]. by rewrite He, String.eqb_refl.
Qed.

Lemma file_verified_iff b kv : file_errors b kv = Ok [] <-> file_consistent b kv.1 kv.2.
Proof.
  destruct kv as [relative payload]. unfold file_errors, file_consistent. cbn [fst snd]. split.
  - intros Hv. destruct (_bundle_member b relative) as [t|] eqn:Hm; [|done]. destruct (br_node b t) as [[|bytes]|] eqn:Hn; try done.
    destruct payload as [| | | | | |digest]; try done. injection Hv as Hv. apply error_if_nil, negb_false_iff, py_eqb_str_r in Hv.
    exists bytes, digest. split_and!; [|done|done]. apply member_carried. eauto.
  - intros (bytes & digest & (t & Hm & Hn)%member_carried & -> & Hd). rewrite Hm, Hn, Hd. by rewrite (proj2 (py_eqb_str_r _ _) eq_refl).
Qed.

Lemma entry_errors_nil b entry : entry_errors b entry = [] <-> entry_inside b entry.
Proof.
  unfold entry_errors, entry_inside. setoid_rewrite <- member_inside.
  destruct entry as [| | | |relative| |]; try (split; [done|by intros (? & ? & ? & _)]). destruct (_bundle_member b relative) eqn:Hm; [naive_solver|].
  split; [done|]. intros (r & t & [= <-] & Ht). congruence.
Qed.

Lemma mjoin_nil {A} (ls : list (list A)) : mjoin ls = [] <-> Forall (fun l => l = []) ls.
Proof. induction ls as [|l ls IH]; simpl; [done|]. by rewrite app_nil, Forall_cons, IH. Qed.

Lemma map_entries_nil b entries : mjoin (map (entry_errors b) entries) = [] <-> Forall (entry_inside b) entries.
Proof. rewrite mjoin_nil, Forall_map. apply Forall_iff. intros e. apply entry_errors_nil. Qed.

(** The loops: no error is collected exactly when every item passes. *)
Lemma collect_nil {A} (check : A -> py (list string)) items : (exists n, collect check items = Ok ([], n)) <-> Forall (fun a => check a = Ok []) items.
Proof.
  unfold collect. split.
  - intros (n & (results & Hr%res_mapM_Ok & [= Hj _])%bind_Ok). apply mjoin_nil in Hj. clear n. induction Hr as [|a r items results Ha _ IH]; [constructor|].
    apply Forall_cons in Hj as [-> Hj]. constructor; [done|by apply IH].
  - intros Hall. eexists. apply bind_Ok. exists (map (fun _ => []) items). split.
    + apply res_mapM_Ok. induction Hall; by constructor.
    + do 2 f_equal. apply mjoin_nil, Forall_map. by apply Forall_true.
Qed.

Lemma expect_array_Ok manifest k l : expect_array manifest k = Ok l <-> dget_default manifest k (JList []) = JList l.
Proof. unfold expect_array. destruct (dget_default manifest k (JList [])); naive_solver. Qed.

Lemma Forall_ksort (P : string * json -> Prop) (d : dict) : Forall P (ksort d) <-> Forall P d.
Proof. by rewrite (ksort_perm d). Qed.

Lemma manifest_verified_iff b manifest path kind :
  (exists report, verify_manifest b manifest path kind = Ok report /\ dget report "ok" = JBool true) <-> bundle_consistent b manifest.
Proof.
  split.
  - intros (report & Hv & Hok). unfold verify_manifest in Hv. destruct (is_str (dget manifest "format") _) eqn:Hf; [|done]. apply is_str_true in Hf.
    cbn [negb] in Hv. apply bind_Ok in Hv as (hashes & Hh & Hv). apply bind_Ok in Hv as (entries & He%expect_array_Ok & Hv).
    apply bind_Ok in Hv as ([fe fn] & Hfe & Hv). apply bind_Ok in Hv as (chains & Hc%expect_array_Ok & Hv). apply bind_Ok in Hv as ([ce cn] & Hce & Hv).
    apply bind_Ok in Hv as (records & Hr%expect_array_Ok & Hv). apply bind_Ok in Hv as ([re rn] & Hre & Hv). cbv zeta in Hv. injection Hv as <-.
    cbn [dget assoc String.eqb Ascii.eqb Bool.eqb] in Hok. destruct (mjoin _ ++ _) eqn:Herr; [clear Hok|done].
    rewrite !app_nil, !error_if_nil, map_entries_nil in Herr. destruct Herr as (Hent & Hne & -> & -> & Hany & ->).
    constructor; [done|by exists entries| |].
    + exists hashes. split; [by destruct (dget_default manifest "file_hashes" _); simplify_eq|]. split; [by intros ->|].
      apply Forall_ksort. eapply Forall_impl; [by apply collect_nil; eexists|]. intros kv. apply file_verified_iff.
    + exists chains, records. split_and!; [done|done| | |].
      * destruct chains; [|by left]. destruct records; [done|by right].
      * eapply Forall_impl; [by apply collect_nil; eexists|]. intros c. apply chain_verified_iff.
      * eapply Forall_impl; [by apply collect_nil; eexists|]. intros r. apply record_verified_iff.
  - intros [Hf (entries & He & Hent) (hashes & Hh & Hne & Hfiles) (chains & records & Hc & Hr & Hany & Hchains & Hrecords)].
    apply Forall_ksort in Hfiles. eapply Forall_impl in Hfiles; [|intros kv; apply file_verified_iff].
    eapply Forall_impl in Hchains; [|intros c; apply chain_verified_iff]. eapply Forall_impl in Hrecords; [|intros r; apply record_verified_iff].
    apply collect_nil in Hfiles as (fn & Hfiles). apply collect_nil in Hchains as (cn & Hchains). apply collect_nil in Hrecords as (rn & Hrecords).
    eexists. unfold verify_manifest. rewrite (proj2 (is_str_true _ _) Hf), Hh. cbn [negb mbind res_bind].
    rewrite (proj2 (expect_array_Ok _ _ _) He). cbn [mbind res_bind]. rewrite Hfiles. cbn [mbind res_bind].
    rewrite (proj2 (expect_array_Ok _ _ _) Hc). cbn [mbind res_bind]. rewrite Hchains. cbn [mbind res_bind].
    rewrite (proj2 (expect_array_Ok _ _ _) Hr). cbn [mbind res_bind]. rewrite Hrecords. cbn [mbind res_bind]. split; [reflexivity|].
    cbn [dget assoc String.eqb Ascii.eqb Bool.eqb]. rewrite (proj2 (map_entries_nil _ _) Hent). destruct hashes; [done|].
    destruct chains, records; try done. by destruct Hany.
Qed.

(** One path has one content. *)
Lemma carried_unique b relative n n' : carried b relative n -> carried b relative n' -> n = n'.
Proof. intros (t & Ht & _ & Hn) (t' & Ht' & _ & Hn'). congruence. Qed.
End Spec.

(** ** Properties *)

(** C18: Bundle verification is exact: a bundle is reported "ok" exactly when its
    manifest loads and describes it: every declared path stays inside the bundle,
    every declared file is there with the declared hash, and every chain and record
    is there with the declared digests and identifiers and links to its intent and
    proof; at least one file and one chain or record are declared. *)
Theorem bundle_verified_exact `{Protocol} `{Platform} `{PyText} (b : bundle_root) (path kind : string) :
  (exists report, _verify_local_runtime_bundle_root b path kind = Ok report /\ dget report "ok" = JBool true) <->
  exists n manifest, br_node b (br_root b ++ ["bundle_manifest.json"]) = Some n /\ _load_json n = Ok manifest /\ bundle_consistent b manifest.
Proof.
  setoid_rewrite <- (manifest_verified_iff b _ path kind). unfold _verify_local_runtime_bundle_root. split.
  - intros (report & Hv & Hok). destruct (br_node b _) as [n|]; [|done]. apply bind_Ok in Hv as (m & Hm & Hv). exists n, m. eauto 6.
  - intros (n & m & -> & Hm & report & Hv & Hok). exists report. by rewrite Hm.
Qed.

(** A verified bundle is tamper-evident relative to its manifest: two bundles
    that verify with the same manifest hold the same bytes under every declared
    path, unless two of those files collide under SHA-256. *)
Theorem bundle_tamper_evident `{Protocol} `{Platform} `{PyText} (b b' : bundle_root) (manifest hashes : dict) (relative : string) (digest : json) :
  bundle_consistent b manifest -> bundle_consistent b' manifest -> dget_default manifest "file_hashes" (JDict []) = JDict hashes -> (relative, digest) ∈ hashes ->
  exists bytes bytes', carried b relative (File bytes) /\ carried b' relative (File bytes') /\ sha256_hexdigest bytes = sha256_hexdigest bytes' /\
    ((forall x y, x ∈ [bytes; bytes'] -> y ∈ [bytes; bytes'] -> sha256_hexdigest x = sha256_hexdigest y -> x = y) -> bytes = bytes').
Proof.
  intros Hb Hb' Hh Hin. destruct (bc_files _ _ Hb) as (h & Hh1 & _ & Hf). destruct (bc_files _ _ Hb') as (h' & Hh2 & _ & Hf').
  assert (h = hashes) as -> by congruence. assert (h' = hashes) as -> by congruence.
  rewrite Forall_forall in Hf, Hf'. destruct (Hf _ Hin) as (bytes & d & Hc & Hd & Hv). destruct (Hf' _ Hin) as (bytes' & d' & Hc' & Hd' & Hv').
  cbn in *. simplify_eq. exists bytes, bytes'. assert (sha256_hexdigest bytes = sha256_hexdigest bytes') as He by congruence. split_and!; try done.
  intros Hinj. apply Hinj; [set_solver..|done].
Qed.

(** ** Exported bundles *)
Lemma kept_elem (f : list string -> py (option json)) dirs found c : res_mapM f dirs = Ok found -> c ∈ kept found -> exists dir, f dir = Ok (Some c).
Proof.
  intros Hm%res_mapM_Ok Hc. unfold kept in Hc. apply list_elem_of_omap in Hc as (o & Ho & [= ->]).
  apply list_elem_of_lookup in Ho as (i & Hi). eapply Forall2_lookup_r in Hm as (dir & _ & Hd); [|exact Hi]. eauto.
Qed.

Lemma unseen_elem paths p : p ∈ unseen paths <-> p ∈ paths.
Proof.
  unfold unseen. assert (forall acc, p ∈ fold_left (fun resolved p => if bool_decide (p ∈ resolved) then resolved else resolved ++ [p]) paths acc <-> p ∈ acc \/ p ∈ paths) as Hf.
  { induction paths as [|q paths IH]; intros acc; cbn [fold_left]; [set_solver|]. rewrite IH. case_bool_decide; set_solver. }
  rewrite Hf. set_solver.
Qed.

Lemma assoc_set_elem {A} (k : string) (v : A) d kv : kv ∈ assoc_set k v d -> kv = (k, v) \/ kv ∈ d.
Proof.
  induction d as [|[k' v'] d IH]; simpl; [set_solver|]. destruct (String.eqb_spec k k') as [->|]; [set_solver|].
  intros [->|Hin]%elem_of_cons; [set_solver|]. destruct (IH Hin); set_solver.
Qed.

Section Roundtrip.
Context `{Protocol} `{Platform} `{PyText}.
Variables (b : bundle_root) (t : runtime_tree).

(** The bundle holds the files of the runtime at their paths, and the exported
    entries are paths inside it. *)
Definition bundle_holds : Prop :=
  (forall p bytes, rt_node t p = Some (File bytes) -> carried b (as_posix p) (File bytes)) /\
  Forall (fun relative => entry_inside b (JStr relative)) (_bundle_entries t).

(** The artifacts a chain describes belong together. *)
Definition chain_linked (chain : json) : Prop :=
  forall c outcome intent pccb, chain = JDict c -> dget c "outcome" = JDict outcome ->
    payload_describes b intent_artifact (dget c "intent") intent -> payload_describes b pccb_artifact (dget c "pccb") pccb ->
    (forall receipt, dget outcome "type" = JStr "receipt" -> payload_describes b (receipt_artifact "id") (JDict outcome) receipt ->
       proof_of_intent intent pccb /\ receipt_of intent pccb receipt) /\
    (forall refusal support, dget outcome "type" = JStr "refusal" -> payload_describes b refusal_artifact (JDict outcome) refusal ->
       match dget c "supporting_receipt" with
       | JDict _ => exists r, support = Some r /\ payload_describes b (receipt_artifact "receipt_id") (dget c "supporting_receipt") r
       | _ => support = None
       end -> refusal_of intent pccb support refusal).

Definition record_linked (record : json) : Prop :=
  forall r intent receipt, record = JDict r -> payload_describes b intent_artifact (dget r "intent") intent ->
    payload_describes b (receipt_artifact "receipt_id") (dget r "decision_receipt") receipt -> rc_intent_id receipt = in_intent_id intent.

Hypothesis Hholds : bundle_holds.

Lemma digest_eq_refl (d : DigestSpec) : py_eqb (JDict (DigestSpec_to_dict d)) (JDict (DigestSpec_to_dict d)) = true.
Proof. unfold DigestSpec_to_dict. rewrite py_eqb_dict. cbn. by rewrite !String.eqb_refl. Qed.

(** What is described at export is described in the bundle. *)
Lemma fields_describe {A} (k : artifact_kind A) p a pre extra fields :
  load_artifact t k p = Ok a -> artifact_fields k p a extra = Ok fields ->
  (forall digest, let f := pre ++ ([("path", JStr (as_posix p)); (ak_field k, JStr (ak_id k a))] ++ extra ++ [("digest", JDict digest)]) in
     dget f "path" = JStr (as_posix p) /\ dget f (ak_field k) = JStr (ak_id k a) /\ dget f "digest" = JDict digest) ->
  payload_describes b k (JDict (pre ++ fields)) a.
Proof.
  intros Hl Hf Hk. unfold load_artifact in Hl. destruct (rt_node t p) as [n|] eqn:Hn; [|done]. apply bind_Ok in Hl as (loaded & Hn' & Hl).
  destruct n as [|bytes]; [done|]. apply bind_Ok in Hf as (digest & Hd & [= <-]). destruct (Hk (DigestSpec_to_dict digest)) as (Hp & Hi & Hg).
  unfold payload_describes. eexists _, _, (File bytes), loaded, _, digest. split; [reflexivity|]. split; [exact Hp|]. split; [by apply Hholds|].
  split; [done|]. split; [done|]. split; [exact Hi|]. split; [exact Hg|]. split; [done|]. apply digest_eq_refl.
Qed.

(** A chain's outcome: a described receipt, or a described refusal with its support. *)
Lemma exported_outcome_Ok dir outcome support : exported_outcome t dir = Ok (Some (outcome, support)) ->
  (dget outcome "type" = JStr "receipt" /\ exists receipt, payload_describes b (receipt_artifact "id") (JDict outcome) receipt) \/
  (dget outcome "type" = JStr "refusal" /\ (exists refusal, payload_describes b refusal_artifact (JDict outcome) refusal) /\
   (support = [] \/ exists f r, support = [("supporting_receipt", JDict f)] /\ payload_describes b (receipt_artifact "receipt_id") (JDict f) r)).
Proof.
  unfold exported_outcome. cbv zeta. destruct (path_exists t (dir ++ ["refusal.json"])).
  - intros (refusal & Hl & Ho)%bind_Ok. apply bind_Ok in Ho as (sup & Hs & Ho). apply bind_Ok in Ho as (fields & Hf & Ho). injection Ho as <- <-.
    right. split; [done|]. split; [exists refusal; eapply (fields_describe _ _ _ [("type", JStr "refusal")]); [done..|by intros]|].
    unfold exported_support in Hs. cbv zeta in Hs.
    assert (forall name, (receipt ← load_artifact t (receipt_artifact "receipt_id") (dir ++ [name]);
      fields ← artifact_fields (receipt_artifact "receipt_id") (dir ++ [name]) receipt [("outcome", JStr (rc_outcome receipt))];
      Ok [("supporting_receipt", JDict fields)])%stdpp = Ok sup ->
      exists f r, sup = [("supporting_receipt", JDict f)] /\ payload_describes b (receipt_artifact "receipt_id") (JDict f) r) as Hsup.
    { intros name (r & Hr & Hx)%bind_Ok. apply bind_Ok in Hx as (f & Hff & [= <-]). exists f, r. split; [done|]. eapply (fields_describe _ _ _ []); [done..|by intros]. }
    destruct (path_exists t _); [right; by eapply Hsup|]. destruct (path_exists t _); [right; by eapply Hsup|]. injection Hs as <-. by left.
  - assert (forall name wanted, (receipt ← load_artifact t (receipt_artifact "id") (dir ++ [name]);
      if (wanted receipt : bool) then
        fields ← artifact_fields (receipt_artifact "id") (dir ++ [name]) receipt [("outcome", JStr (rc_outcome receipt))];
        Ok (Some (("type", JStr "receipt") :: fields, []))
      else Ok None)%stdpp = Ok (Some (outcome, support)) ->
      dget outcome "type" = JStr "receipt" /\ exists receipt, payload_describes b (receipt_artifact "id") (JDict outcome) receipt) as Hrec.
    { intros name wanted (r & Hr & Hx)%bind_Ok. destruct (wanted r); [|done]. apply bind_Ok in Hx as (f & Hff & [= <- <-]). split; [done|]. exists r.
      eapply (fields_describe _ _ _ [("type", JStr "receipt")]); [done..|by intros]. }
    destruct (path_exists t _); [intros Ho; left; exact (Hrec "execution_receipt.json" (fun _ => true) Ho)|].
    destruct (path_exists t _); [intros Ho; left; exact (Hrec "receipt.json" (fun r => String.eqb (rc_outcome r) "executed") Ho)|done].
Qed.

Lemma exported_chain_consistent dir chain : exported_chain t dir = Ok (Some chain) -> chain_linked chain -> chain_consistent b chain.
Proof.
  unfold exported_chain. cbv zeta. destruct (negb _ || negb _); [done|]. intros (intent & Hi & He)%bind_Ok Hlink. apply bind_Ok in He as (pccb & Hp & He).
  apply bind_Ok in He as (found & Ho & He). destruct found as [[outcome support]|]; [|done]. apply bind_Ok in He as (fi & Hfi & He).
  apply bind_Ok in He as (fp & Hfp & He). apply bind_Ok in He as (record & Hr & [= <-]).
  assert (payload_describes b intent_artifact (JDict fi) intent) as Hdi by (eapply (fields_describe _ _ _ []); [done..|by intros]).
  assert (payload_describes b pccb_artifact (JDict fp) pccb) as Hdp by (eapply (fields_describe _ _ _ []); [done..|by intros]).
  apply exported_outcome_Ok in Ho. specialize (Hlink _ outcome intent pccb eq_refl eq_refl Hdi Hdp) as [Hlr Hlf].
  eexists _, intent, pccb, outcome. split; [reflexivity|]. split; [exact Hdi|]. split; [exact Hdp|]. split; [reflexivity|].
  split; [|by exists (ActionHashSpec_to_dict (pc_action_hash pccb))].
  destruct Ho as [(Ht & receipt & Hd)|(Ht & (refusal & Hd) & Hs)].
  - left. split; [done|]. exists receipt. split; [done|]. by apply Hlr.
  - right. split; [done|]. destruct Hs as [->|(f & r & -> & Hr')].
    + exists refusal, None. split; [done|]. match type of Hlf with context [dget ?c "supporting_receipt"] => assert (dget c "supporting_receipt" = JNull) as Hnone end.
      { unfold intent_record_entry in Hr. cbv zeta in Hr. destruct (path_exists t _); [by apply bind_Ok in Hr as (v & _ & [= <-])|by injection Hr as <-]. }
      split; [by rewrite Hnone|]. apply Hlf; [done..|]. by rewrite Hnone.
    + exists refusal, (Some r). split; [done|]. split; [by exists r|]. apply Hlf; [done..|]. by exists r.
Qed.

Lemma exported_record_consistent dir record : exported_record t dir = Ok (Some record) -> record_linked record -> record_consistent b record.
Proof.
  unfold exported_record. cbv zeta. destruct (_ || _ || _); [done|]. intros (intent & Hi & He)%bind_Ok Hlink. apply bind_Ok in He as (receipt & Hp & He).
  apply bind_Ok in He as (fi & Hfi & He). apply bind_Ok in He as (fp & Hfp & He). apply bind_Ok in He as (rec & Hr & [= <-]).
  assert (payload_describes b intent_artifact (JDict fi) intent) as Hdi by (eapply (fields_describe _ _ _ []); [done..|by intros]).
  assert (payload_describes b (receipt_artifact "receipt_id") (JDict fp) receipt) as Hdp by (eapply (fields_describe _ _ _ []); [done..|by intros]).
  eexists _, intent, receipt. split; [reflexivity|]. split; [exact Hdi|]. split; [exact Hdp|]. by eapply Hlink.
Qed.

Lemma file_hashes_consistent entries hashes : _bundle_file_hashes t entries = Ok hashes -> Forall (fun kv => file_consistent b kv.1 kv.2) hashes.
Proof.
  unfold _bundle_file_hashes. intros (items & Hm%res_mapM_Ok & [= <-])%bind_Ok.
  assert (Forall (fun kv => file_consistent b kv.1 kv.2) items) as Hall.
  { clear -Hm Hholds. induction Hm as [|p kv paths items Hp _ IH]; constructor; [|done]. apply bind_Ok in Hp as (v & Hv & [= <-]). unfold _sha256_file_hex in Hv.
    destruct (rt_node t p) as [[|bytes]|] eqn:Hn; try done. injection Hv as <-. exists bytes. eexists. split; [by apply Hholds|]. by split. }
  assert (forall acc, Forall (fun kv => file_consistent b kv.1 kv.2) acc ->
    Forall (fun kv => file_consistent b kv.1 kv.2) (assoc_merge acc items)) as Hfold.
  { clear Hm. induction Hall as [|kv items Hkv _ IH]; intros acc Hacc; [done|]. apply IH. apply Forall_forall. intros x [->|Hx]%assoc_set_elem; [by destruct kv|].
    rewrite Forall_forall in Hacc. by apply Hacc. }
  by apply Hfold.
Qed.
End Roundtrip.

(** A manifest entry describes one artifact, so a consistent chain is linked. *)
Lemma describes_unique `{Protocol} `{Platform} {A} b (k : artifact_kind A) payload a a' : payload_describes b k payload a -> payload_describes b k payload a' -> a = a'.
Proof. intros Ha%(artifact_described b k "") Ha'%(artifact_described b k ""). congruence. Qed.

Lemma chain_consistent_linked `{Protocol} `{Platform} b chain : chain_consistent b chain -> chain_linked b chain.
Proof.
  intros (c & i & p & o & -> & Hi & Hp & Ho & Hcase & _) c' o' i' p' [= <-] Ho' Hi' Hp'. rewrite Ho in Ho'. injection Ho' as <-.
  rewrite (describes_unique _ _ _ _ _ Hi' Hi), (describes_unique _ _ _ _ _ Hp' Hp). split.
  - intros receipt Ht Hr. destruct Hcase as [(_ & r & Hr' & Hlink)|[Ht' _]]; [|congruence]. by rewrite (describes_unique _ _ _ _ _ Hr Hr').
  - intros refusal support Ht Hr Hs. destruct Hcase as [[Ht' _]|(_ & rf & sup & Hr' & Hs' & Hlink)]; [congruence|].
    rewrite (describes_unique _ _ _ _ _ Hr Hr'). assert (support = sup) as ->; [|done].
    destruct (dget c "supporting_receipt"); try congruence. destruct Hs as (r & -> & Hs), Hs' as (r' & -> & Hs'). by rewrite (describes_unique _ _ _ _ _ Hs Hs').
Qed.

Lemma record_consistent_linked `{Protocol} `{Platform} b record : record_consistent b record -> record_linked b record.
Proof.
  intros (r & i & rc & -> & Hi & Hr & He) r' i' rc' [= <-] Hi' Hr'. by rewrite (describes_unique _ _ _ _ _ Hi' Hi), (describes_unique _ _ _ _ _ Hr' Hr).
Qed.

(** *** The order of keys

    The manifest is written with its keys sorted, so what is loaded is the manifest
    up to the order of the keys of its objects. *)
Definition reordered (a b : json) : Prop := json_wf a /\ json_wf b /\ json_norm a = json_norm b.

Lemma reordered_sym a b : reordered a b -> reordered b a.
Proof. intros (? & ? & ?). by repeat split. Qed.

Lemma reordered_refl a : json_wf a -> reordered a a.
Proof. by repeat split. Qed.

Lemma reordered_assoc d d' k : reordered (JDict d) (JDict d') ->
  match assoc k d, assoc k d' with Some v, Some v' => reordered v v' | None, None => True | _, _ => False end.
Proof.
  intros ([Hnd Hw]%json_wf_dict & [Hnd' Hw']%json_wf_dict & He). pose proof (json_norm_assoc d d' k Hnd Hnd' He) as Ha.
  rewrite Forall_forall in Hw, Hw'. destruct (assoc k d) as [v|] eqn:Hv, (assoc k d') as [v'|] eqn:Hv'; try done. simpl in Ha.
  apply assoc_Some_elem in Hv, Hv'. split; [apply (Hw _ Hv)|split; [apply (Hw' _ Hv')|congruence]].
Qed.

Lemma reordered_dget_default d d' k def : json_wf def -> reordered (JDict d) (JDict d') -> reordered (dget_default d k def) (dget_default d' k def).
Proof.
  intros Hd Hr. pose proof (reordered_assoc d d' k Hr) as Ha. unfold dget_default.
  by destruct (assoc k d), (assoc k d').
Qed.

Lemma reordered_dget d d' k : reordered (JDict d) (JDict d') -> reordered (dget d k) (dget d' k).
Proof. by apply (reordered_dget_default d d' k JNull). Qed.

Lemma reordered_str s x : reordered (JStr s) x -> x = JStr s.
Proof. intros (_ & _ & He). destruct x; simpl in He; congruence. Qed.

Lemma reordered_dict d x : reordered (JDict d) x -> exists d', x = JDict d'.
Proof. intros (_ & _ & He). destruct x; simpl in He; try congruence. eauto. Qed.

Lemma reordered_list l x : reordered (JList l) x -> exists l', x = JList l' /\ Forall2 reordered l l'.
Proof.
  intros (Hw & Hw' & He). destruct x as [| | | | |l'|]; simpl in He; try congruence. exists l'. split; [done|]. injection He as He.
  simpl in Hw, Hw'. rewrite Forall_map in Hw, Hw'. clear -Hw Hw' He. revert l' Hw' He.
  induction Hw as [|a l Ha Hw IH]; intros [|a' l'] Hw' He; try done. apply Forall_cons in Hw' as [Ha' Hw']. injection He as He Hl.
  constructor; [by repeat split|by apply IH].
Qed.

Lemma reordered_pairs d d' k v' : reordered (JDict d) (JDict d') -> (k, v') ∈ d' -> exists v, (k, v) ∈ d /\ reordered v v'.
Proof.
  intros Hr Hin. pose proof (reordered_assoc d d' k Hr) as Ha. destruct Hr as (_ & [Hnd' _]%json_wf_dict & _).
  rewrite (elem_assoc k v' d' Hnd' Hin) in Ha. destruct (assoc k d) as [v|] eqn:Hv; [|done]. exists v. split; [by apply assoc_Some_elem|done].
Qed.

Section KeyOrder.
Context `{Protocol} `{Platform} `{PyText}.
Variable b : bundle_root.

Lemma describes_reordered {A} (k : artifact_kind A) payload payload' a :
  reordered payload payload' -> payload_describes b k payload a -> payload_describes b k payload' a.
Proof.
  intros Hr (p & path & n & loaded & declared & digest & -> & Hp & Hc & Hl & Ha & Hid & Hd & Hdg & He).
  destruct (reordered_dict _ _ Hr) as (p' & ->). pose proof (reordered_dget p p' "digest" Hr) as Hdig. rewrite Hd in Hdig.
  destruct (reordered_dict _ _ Hdig) as (declared' & Hd'). rewrite Hd' in Hdig.
  exists p', path, n, loaded, declared', digest. split_and!; try done.
  - apply reordered_str. rewrite <- Hp. by apply reordered_dget.
  - apply reordered_str. rewrite <- Hid. by apply reordered_dget.
  - destruct Hdig as (Hw & Hw' & Hn). rewrite <- (py_eqb_norm_l _ Hw'), <- Hn, (py_eqb_norm_l _ Hw). done.
Qed.

Lemma chain_reordered chain chain' : reordered chain chain' -> chain_consistent b chain -> chain_consistent b chain'.
Proof.
  intros Hr (c & i & p & o & -> & Hi & Hp & Ho & Hcase & h & Hh & Hv). destruct (reordered_dict _ _ Hr) as (c' & ->).
  pose proof (fun k => reordered_dget c c' k Hr) as Hk. pose proof (Hk "outcome") as Hout. rewrite Ho in Hout.
  destruct (reordered_dict _ _ Hout) as (o' & Ho'). rewrite Ho' in Hout.
  assert (forall s, dget o "type" = JStr s -> dget o' "type" = JStr s) as Htype.
  { intros s Hs. apply reordered_str. rewrite <- Hs. by apply reordered_dget. }
  pose proof (reordered_dget_default c c' "action_hash" (JDict []) ltac:(by split; constructor) Hr) as Hah. rewrite Hh in Hah.
  destruct (reordered_dict _ _ Hah) as (h' & Hh'). rewrite Hh' in Hah.
  exists c', i, p, o'. split; [done|]. split; [by eapply describes_reordered|]. split; [by eapply describes_reordered|]. split; [done|].
  split; [|exists h'; split; [done|]; apply reordered_str; rewrite <- Hv; by apply reordered_dget].
  destruct Hcase as [(Ht & r & Hd & Hl)|(Ht & rf & sup & Hd & Hs & Hl)]; [left|right]; (split; [by apply Htype|]).
  - exists r. split; [by eapply describes_reordered|done].
  - exists rf, sup. split; [by eapply describes_reordered|]. split; [|done]. specialize (Hk "supporting_receipt").
    destruct (dget c "supporting_receipt") as [| | | | | |d]; [destruct Hk as (_ & _ & Hn); by destruct (dget c' "supporting_receipt")..|].
    destruct (reordered_dict _ _ Hk) as (d' & Hd'). rewrite Hd' in Hk |- *. destruct Hs as (r & -> & Hs). exists r. split; [done|]. by eapply describes_reordered.
Qed.

Lemma record_reordered record record' : reordered record record' -> record_consistent b record -> record_consistent b record'.
Proof.
  intros Hr (r & i & rc & -> & Hi & Hd & He). destruct (reordered_dict _ _ Hr) as (r' & ->).
  exists r', i, rc. split_and!; [done| | |done]; (eapply describes_reordered; [|eassumption]); by apply reordered_dget.
Qed.

Lemma Forall_reordered (P : json -> Prop) l l' : (forall a a', reordered a a' -> P a -> P a') -> Forall2 reordered l l' -> Forall P l -> Forall P l'.
Proof. intros Hp Hl. induction Hl as [|a a' l l' Ha _ IH]; intros Hf; [constructor|]. apply Forall_cons in Hf as [Hf Hfs]. constructor; [by eapply Hp|by apply IH]. Qed.

Lemma bundle_reordered m m' : reordered (JDict m) (JDict m') -> bundle_consistent b m -> bundle_consistent b m'.
Proof.
  intros Hr [Hf (entries & He & Hent) (hashes & Hh & Hne & Hfiles) (chains & records & Hc & Hrec & Hany & Hchains & Hrecords)].
  pose proof (reordered_dget_default m m' "entries" (JList []) ltac:(constructor) Hr) as Re. rewrite He in Re.
  pose proof (reordered_dget_default m m' "evidence_chains" (JList []) ltac:(constructor) Hr) as Rc. rewrite Hc in Rc.
  pose proof (reordered_dget_default m m' "decision_records" (JList []) ltac:(constructor) Hr) as Rr. rewrite Hrec in Rr.
  pose proof (reordered_dget_default m m' "file_hashes" (JDict []) ltac:(by split; constructor) Hr) as Rh. rewrite Hh in Rh.
  destruct (reordered_list _ _ Re) as (entries' & He' & Fe), (reordered_list _ _ Rc) as (chains' & Hc' & Fc),
    (reordered_list _ _ Rr) as (records' & Hr' & Fr), (reordered_dict _ _ Rh) as (hashes' & Hh'). rewrite Hh' in Rh.
  constructor.
  - apply reordered_str. rewrite <- Hf. by apply reordered_dget.
  - exists entries'. split; [done|]. eapply Forall_reordered; [|exact Fe|done]. intros a a' Ha (r & tg & -> & Ht). exists r, tg.
    split; [by apply reordered_str|done].
  - exists hashes'. split; [done|]. split.
    + intros ->. destruct hashes as [|[k v] hashes]; [done|]. pose proof (reordered_assoc _ _ k Rh) as Ha. simpl in Ha. by rewrite String.eqb_refl in Ha.
    + rewrite Forall_forall in Hfiles |- *. intros [k v'] Hin. destruct (reordered_pairs _ _ _ _ Rh Hin) as (v & Hv & Rv).
      destruct (Hfiles _ Hv) as (bytes & digest & Hcar & Hd & Hval). cbn in Hcar, Hd |- *. subst v. destruct (reordered_dict _ _ Rv) as (digest' & ->).
      exists bytes, digest'. split_and!; [done|done|]. apply reordered_str. rewrite <- Hval. by apply reordered_dget.
  - exists chains', records'. split_and!; [done|done| | |].
    + destruct Hany as [Hn|Hn]; [left|right]; intros ->; apply Hn; [by inversion Fc|by inversion Fr].
    + eapply Forall_reordered; [apply chain_reordered|exact Fc|done].
    + eapply Forall_reordered; [apply record_reordered|exact Fr|done].
Qed.
End KeyOrder.

Lemma exported_manifest_consistent `{Protocol} `{Platform} `{PyText} (b : bundle_root) (t : runtime_tree) (now : datetime) (manifest : dict) :
  _build_bundle_manifest t now = Ok manifest -> bundle_holds b t -> is_file t ["runtime_manifest.json"] = true ->
  _is_ephemeral_sqlite_file "runtime_manifest.json" = false ->
  (dget manifest "evidence_chains" <> JList [] \/ dget manifest "decision_records" <> JList []) ->
  (forall chains, dget manifest "evidence_chains" = JList chains -> Forall (chain_linked b) chains) ->
  (forall records, dget manifest "decision_records" = JList records -> Forall (record_linked b) records) ->
  bundle_consistent b manifest.
Proof.
  intros Hm Hholds Hfile Heph Hany Hchains Hrecords. unfold _build_bundle_manifest in Hm. cbv zeta in Hm.
  apply bind_Ok in Hm as (hashes & Hh & Hm). apply bind_Ok in Hm as (chains & Hc & Hm). apply bind_Ok in Hm as (records & Hr & [= <-]).
  specialize (Hchains chains eq_refl). specialize (Hrecords records eq_refl). constructor; [done| | |].
  - exists (map JStr (_bundle_entries t)). split; [done|]. rewrite Forall_map. apply Hholds.
  - exists hashes. split; [done|]. split; [|by eapply file_hashes_consistent].
    assert (["runtime_manifest.json"] ∈ _bundle_file_entries t (_bundle_entries t)) as Hin.
    { unfold _bundle_file_entries. apply unseen_elem. apply list_elem_of_In, filter_In. split; [|by rewrite (Heph : _is_ephemeral_sqlite_file (as_posix ["runtime_manifest.json"]) = false)].
      apply list_elem_of_In, list_elem_of_join. exists [["runtime_manifest.json"]]. split; [set_solver|]. apply list_elem_of_In, in_map_iff.
      exists "runtime_manifest.json". split; [|by left]. unfold is_file in Hfile. by destruct (rt_node t _) as [[]|]. }
    intros ->. unfold _bundle_file_hashes in Hh. apply bind_Ok in Hh as (items & Hi%res_mapM_Ok & [= Hz]).
    apply list_elem_of_lookup in Hin as (i & Hi'). eapply Forall2_lookup_l in Hi as ([k v] & Hl & _); [|exact Hi']. apply list_elem_of_lookup_2 in Hl.
    assert (forall (items : dict) acc, items <> [] \/ acc <> [] -> assoc_merge acc items <> []) as Hne.
    { clear. induction items as [|[k v] items IH]; intros acc Hor; [by destruct Hor|]. apply IH. right. destruct acc as [|[k' v'] acc]; [done|]. simpl. by destruct (String.eqb k k'). }
    eapply (Hne items []); [|done]. left. by intros ->; apply not_elem_of_nil in Hl.
  - exists chains, records. split_and!; [done|done| | |].
    + destruct Hany as [Hn|Hn]; [left|right]; by intros ->.
    + unfold _bundle_evidence_chains in Hc. apply bind_Ok in Hc as (found & Hf & [= <-]). rewrite Forall_forall in *. intros c Hin.
      destruct (kept_elem _ _ _ _ Hf Hin) as (dir & Hd). eapply exported_chain_consistent; [exact Hholds|exact Hd|by apply Hchains].
    + unfold _bundle_decision_records in Hr. apply bind_Ok in Hr as (found & Hf & [= <-]). rewrite Forall_forall in *. intros c Hin.
      destruct (kept_elem _ _ _ _ Hf Hin) as (dir & Hd). eapply exported_record_consistent; [exact Hholds|exact Hd|by apply Hrecords].
Qed.

Lemma built_lists `{Protocol} `{Platform} `{PyText} t now manifest : _build_bundle_manifest t now = Ok manifest ->
  exists chains records, dget manifest "evidence_chains" = JList chains /\ dget manifest "decision_records" = JList records.
Proof.
  unfold _build_bundle_manifest. cbv zeta. intros (hashes & _ & Hm)%bind_Ok. apply bind_Ok in Hm as (chains & _ & Hm).
  apply bind_Ok in Hm as (records & _ & [= <-]). by exists chains, records.
Qed.

(** The export wrote the manifest: the bundle's [bundle_manifest.json] loads to the
    object that was built, its keys in whatever order the writer put them. *)
Definition manifest_written `{Platform} (b : bundle_root) (manifest : dict) : Prop :=
  exists n loaded, br_node b (br_root b ++ ["bundle_manifest.json"]) = Some n /\ _load_json n = Ok loaded /\
    reordered (JDict manifest) (JDict loaded).

(** C19: an exported bundle verifies exactly when it should: a bundle that holds the
    files of a runtime, and whose [bundle_manifest.json] loads to the manifest built
    over that runtime, is reported "ok" if and only if the runtime had at least one
    chain or decision record and the artifacts of every chain and every record belong
    together (the proof to the intent, the outcome to both). *)
Theorem exported_bundle_verifies `{Protocol} `{Platform} `{PyText} (b : bundle_root) (t : runtime_tree) (now : datetime) (manifest : dict)
    (path kind : string) :
  _build_bundle_manifest t now = Ok manifest -> bundle_holds b t -> manifest_written b manifest ->
  is_file t ["runtime_manifest.json"] = true -> _is_ephemeral_sqlite_file "runtime_manifest.json" = false ->
  (exists report, _verify_local_runtime_bundle_root b path kind = Ok report /\ dget report "ok" = JBool true) <->
  exists chains records, dget manifest "evidence_chains" = JList chains /\ dget manifest "decision_records" = JList records /\
    (chains <> [] \/ records <> []) /\ Forall (chain_linked b) chains /\ Forall (record_linked b) records.
Proof.
  intros Hm Hholds (n & loaded & Hn & Hl & Hr) Hfile Heph. unfold _verify_local_runtime_bundle_root. rewrite Hn, Hl. cbn [mbind res_bind].
  rewrite manifest_verified_iff. split.
  - intros Hc%(bundle_reordered b loaded manifest (reordered_sym _ _ Hr)).
    destruct Hc as [_ _ _ (chains & records & Hc & Hrec & Hany & Hchains & Hrecords)].
    pose proof (built_lists t now manifest Hm) as (cs & rs & Hcs & Hrs).
    exists chains, records. unfold dget_default in Hc, Hrec. unfold dget in Hcs, Hrs |- *.
    destruct (assoc "evidence_chains" manifest); [|done]. destruct (assoc "decision_records" manifest); [|done]. split_and!; try done.
    + eapply Forall_impl; [exact Hchains|]. intros c. apply chain_consistent_linked.
    + eapply Forall_impl; [exact Hrecords|]. intros c. apply record_consistent_linked.
  - intros (chains & records & Hc & Hrec & Hany & Hchains & Hrecords). apply (bundle_reordered b manifest loaded Hr).
    eapply exported_manifest_consistent; try done.
    + rewrite Hc, Hrec. destruct Hany as [Hany|Hany]; [left|right]; intros [= Hx]; by apply Hany.
    + intros l Hl'. rewrite Hc in Hl'. by injection Hl' as <-.
    + intros l Hl'. rewrite Hrec in Hl'. by injection Hl' as <-.
Qed.

(** ** Samples: a runtime with one executed chain, and the bundle of its files. *)
Definition print (d : dict) : string := match _canonicalize_json (JDict d) with Ok s => s | Err _ => "" end.
Definition sample_files : list (list string * string) := Eval vm_compute in
  [(["runtime_manifest.json"], "{}"); (["labs"; "refund"; "action_intent.json"], print (ActionIntent_to_dict sample_intent));
   (["labs"; "refund"; "pccb.json"], print (PCCB_to_dict sample_pccb)); (["labs"; "refund"; "execution_receipt.json"], print (Receipt_to_dict first_receipt))].

Fixpoint node_at (files : list (list string * string)) (p : list string) : option node :=
  match files with
  | [] => None
  | (q, bytes) :: files => if bool_decide (p = q) then Some (File bytes) else if bool_decide (p `prefix_of` q) then Some Directory else node_at files p
  end.
Definition tree_of_files (files : list (list string * string)) : runtime_tree :=
  mkRuntimeTree "/runtime" (node_at files) (fun dir => List.filter (fun p => bool_decide (dir `prefix_of` p)) files.*1).
Definition sample_tree : runtime_tree := tree_of_files sample_files.

(** The bundle keeps each file under the text of its path. *)
Definition bundle_of (files : list (string * string)) : bundle_root :=
  mkBundleRoot ["bundle"] (fun relative => Some ["bundle"; relative]) (fun p => match p with [_; s] => File <$> assoc s files | _ => None end).
Definition exported (t : runtime_tree) : dict := match @_build_bundle_manifest demo_protocol demo_platform demo_text t sample_now with Ok m => m | Err _ => [] end.
Definition sample_manifest : dict := Eval vm_compute in exported sample_tree.
Lemma sample_manifest_Ok : @_build_bundle_manifest demo_protocol demo_platform demo_text sample_tree sample_now = Ok sample_manifest.
Proof. vm_compute. reflexivity. Qed.

(** The bundle of these files and of the written manifest. *)
Definition written_manifest : string := Eval vm_compute in print sample_manifest.
Definition sample_bundle : bundle_root :=
  bundle_of (map (fun f => (as_posix f.1, f.2)) sample_files ++ [("bundle_manifest.json", written_manifest)]).

Lemma sample_bundle_holds : bundle_holds sample_bundle sample_tree.
Proof.
  split.
  - intros p bytes Hn. assert (forall files, node_at files p = Some (File bytes) -> (p, bytes) ∈ files) as Hin.
    { clear. induction files as [|[q c] files IH]; [done|]. cbn [node_at]. case_bool_decide; [intros [= ->]; subst; by left|]. case_bool_decide; [done|]. intros Hn. right. auto. }
    apply Hin in Hn. clear Hin. unfold sample_files in Hn. repeat (apply elem_of_cons in Hn as [Hn|Hn]; [injection Hn as -> ->; eexists; split; [reflexivity|]; split; [by eexists|vm_compute; reflexivity]|]).
    by apply not_elem_of_nil in Hn.
  - apply Forall_forall. intros e _. exists e, ["bundle"; e]. split; [done|]. split; [done|by eexists].
Qed.

Lemma sample_manifest_consistent : @bundle_consistent demo_protocol demo_platform sample_bundle sample_manifest.
Proof.
  apply (manifest_verified_iff (H1 := demo_text) sample_bundle sample_manifest "/b" "directory").
  assert (match @verify_manifest demo_protocol demo_platform demo_text sample_bundle sample_manifest "/b" "directory" with
          | Ok r => is_true (dget r "ok") | Err _ => false end = true) as Hok by (vm_compute; reflexivity).
  destruct (verify_manifest sample_bundle sample_manifest "/b" "directory") as [r|]; [|discriminate Hok]. exists r. split; [reflexivity|].
  destruct (dget r "ok") as [|[]| | | | |]; try discriminate Hok. reflexivity.
Qed.

Definition loaded_manifest : dict := Eval vm_compute in match @_load_json demo_platform (File written_manifest) with Ok m => m | Err _ => [] end.

(** [json_wf], computed. *)
Fixpoint json_wfb (j : json) : bool :=
  match j with
  | JList l => forallb id (map json_wfb l)
  | JDict d => bool_decide (NoDup d.*1) && forallb id (map (fun kv => match kv with (_, v) => json_wfb v end) d)
  | _ => true
  end.
Lemma json_wfb_wf j : json_wfb j = true -> json_wf j.
Proof.
  induction j as [| | | | |l IH|d IH] using json_ind'; simpl; try done.
  - induction IH as [|x l Hx _ IHl]; simpl; [constructor|]. intros [Hb Hl]%andb_true_iff. constructor; [by apply Hx|by apply IHl].
  - intros [Hnd%bool_decide_eq_true Hb]%andb_true_iff. split; [done|]. clear Hnd. revert Hb.
    induction IH as [|[k x] d Hx _ IHd]; simpl; [constructor|]. intros [Hb Hl]%andb_true_iff. constructor; [by apply Hx|by apply IHd].
Qed.

Lemma sample_manifest_written : @manifest_written demo_platform sample_bundle sample_manifest.
Proof.
  exists (File written_manifest), loaded_manifest. split; [reflexivity|]. split; [vm_compute; reflexivity|].
  split; [apply json_wfb_wf; vm_compute; reflexivity|]. split; [apply json_wfb_wf; vm_compute; reflexivity|vm_compute; reflexivity].
Qed.

Lemma exported_bundle_verifies_witness : exists report,
  @_verify_local_runtime_bundle_root demo_protocol demo_platform demo_text sample_bundle "/b" "directory" = Ok report /\ dget report "ok" = JBool true.
Proof.
  destruct sample_manifest_consistent as [_ _ _ (chains & records & Hc & Hr & Hany & Hcs & Hrs)].
  assert (dget sample_manifest "evidence_chains" = JList chains) as Hc' by exact Hc. assert (dget sample_manifest "decision_records" = JList records) as Hr' by exact Hr.
  apply (@exported_bundle_verifies demo_protocol demo_platform demo_text sample_bundle sample_tree sample_now sample_manifest "/b" "directory"
    sample_manifest_Ok sample_bundle_holds sample_manifest_written); [vm_compute; reflexivity|vm_compute; reflexivity|].
  exists chains, records. split; [exact Hc'|]. split; [exact Hr'|]. split; [exact Hany|]. split.
  - eapply Forall_impl; [exact Hcs|]. intros c. apply chain_consistent_linked.
  - eapply Forall_impl; [exact Hrs|]. intros r. apply record_consistent_linked.
Defined.

Lemma bundle_tamper_evident_witness : exists bytes, carried sample_bundle "labs/refund/pccb.json" (File bytes).
Proof.
  destruct (bc_files _ _ sample_manifest_consistent) as (hashes & Hh & _ & _).
  assert (match dget_default sample_manifest "file_hashes" (JDict []) with JDict h => assoc "labs/refund/pccb.json" h | _ => None end <> None) as Hin by (vm_compute; discriminate).
  rewrite Hh in Hin. destruct (assoc "labs/refund/pccb.json" hashes) as [d|] eqn:Ha; [|done]. apply assoc_Some_elem in Ha.
  destruct (@bundle_tamper_evident demo_protocol demo_platform demo_text sample_bundle sample_bundle sample_manifest hashes "labs/refund/pccb.json" d
    sample_manifest_consistent sample_manifest_consistent Hh Ha) as (bytes & _ & Hc & _). exists bytes. exact Hc.
Defined.

(** The outcome a chain declares is not compared with its artifact: the manifest may
    say "executed" of a receipt that says "refused". *)
Definition refused_bundle : bundle_root :=
  bundle_of (map (fun f => (as_posix f.1, f.2)) (take 3 sample_files) ++
             [("labs/refund/execution_receipt.json", print (Receipt_to_dict (outcome_receipt "rc_1" "refused" sample_intent sample_pccb sample_now)))]).
Definition refused_tree : runtime_tree :=
  tree_of_files (take 3 sample_files ++
    [(["labs"; "refund"; "execution_receipt.json"], print (Receipt_to_dict (outcome_receipt "rc_1" "refused" sample_intent sample_pccb sample_now)))]).
(** The manifest with the word "refused" of its chains replaced. *)
Fixpoint say_executed (j : json) : json :=
  match j with
  | JStr s => JStr (if String.eqb s "refused" then "executed" else s)
  | JList l => JList (map say_executed l)
  | JDict d => JDict (map (fun kv => match kv with (k, v) => (k, say_executed v) end) d)
  | j => j
  end.
Definition relabelled_manifest : dict := match say_executed (JDict (exported refused_tree)) with JDict m => m | _ => [] end.

Lemma declared_outcome_unchecked :
  match dget relabelled_manifest "evidence_chains" with JList [c] => chain_outcome c "outcome" | _ => JNull end = JStr "executed" /\
  match @verify_manifest demo_protocol demo_platform demo_text refused_bundle relabelled_manifest "/b" "directory" with
  | Ok r => dget r "ok" | Err _ => JNull end = JBool true.
Proof. split; vm_compute; reflexivity. Qed.
