(* ===== verification/Gate.v ===== *)
(** * The gate: [actenon/gate.py]

    [ActenonGate] is the high-level API: it mints proofs (when it has a signer),
    asks its policy pack, and runs a side effect through the protected executor in
    a context made of its own declarations.  Fresh identifiers and the clock are
    arguments; a side effect is called with what its signature accepts.

    The theorems: [protect] calls the side effect at most once, behind everything
    the executor and the policy pack require, and within the capabilities the gate
    declares; its outcome says what happened; a proof the gate minted verifies
    where the gate later protects the same action; a gate that reports no
    downgrade has none; [build_action] builds what the intake reads back. *)

From Stdlib Require Import Ascii.
From S2P Require Import Prelude Text Json Errors Timestamps Canonical Base64 Contracts Runtime Samples ProofService SecurityPosture Replay ReplayStore Escrow Receipts Idempotency Credentials Effects Executor ExecutorFrames ExecutorProofs Policy Middleware Kernel LocalSigner Merkle Transparency Countersignature TrustArtifacts Preflight Endpoint.

Record GateOutcome := mkGateOutcome {
  go_receipt : option Receipt; go_refusal : option Refusal; go_payload : option dict; go_unmet_requirements : list Requirement
}.

Definition gate_ok (o : GateOutcome) : bool :=
  match go_refusal o, go_receipt o with None, Some r => String.eqb (rc_outcome r) "executed" | _, _ => false end.
Definition gate_outcome (o : GateOutcome) : string := if gate_ok o then "executed" else "refused".
Definition gate_reason_code (o : GateOutcome) : option string := rf_reason_code <$> go_refusal o.

Definition GateOutcome_to_dict (o : GateOutcome) : dict :=
  [("ok", JBool (gate_ok o)); ("outcome", JStr (gate_outcome o));
   ("reason_code", match gate_reason_code o with Some s => JStr s | None => JNull end);
   ("unmet_requirements", JList (map (fun r => JDict (Requirement_to_dict r)) (go_unmet_requirements o)));
   ("payload", match go_payload o with Some d => JDict d | None => JNull end)] ++
  match go_receipt o with Some r => [("receipt", JDict (Receipt_to_dict r))] | None => [] end ++
  match go_refusal o with Some r => [("refusal", JDict (Refusal_to_dict r))] | None => [] end.

(** The [secret] attribute of the signing material, when it has one. *)
Definition _uses_public_development_secret (secret : option string) : bool := bool_decide (secret = Some LOCAL_PROOF_SECRET).

(** The two halves of a ["type:id"] text, or the default type. *)
Definition split_reference (value msg : string) : py (string * string) :=
  match py_partition ":" value with
  | None => Ok ("service", value)
  | Some (kind, id) => if negb (str_truthy kind) || negb (str_truthy id) then Err (ValueError msg) else Ok (kind, id)
  end.

Definition _coerce_audience (value : AudienceRef + string) : py AudienceRef :=
  match value with
  | inl a => Ok a
  | inr s => '(kind, id) ← split_reference s "audience must be an AudienceRef or a non-empty 'type:id' string"; Ok (mkAudienceRef kind id JNull)
  end.

Definition _coerce_party (value : PartyRef + string) : py PartyRef :=
  match value with
  | inl p => Ok p
  | inr s => '(kind, id) ← split_reference s "issuer must be a PartyRef or a non-empty 'type:id' string"; Ok (mkPartyRef kind id JNull [])
  end.

(** ** The policy decision of a preflight decision *)
Definition policy_outcome (value : string) : py PolicyOutcome :=
  if String.eqb value "allow" then Ok Allow else if String.eqb value "deny" then Ok Deny
  else if String.eqb value "approval_required" then Ok ApprovalRequired else if String.eqb value "needs_evidence" then Ok NeedsEvidence
  else Err (KeyError value).

Definition GATE_RULE : string := "actenon.gate.preflight".

Definition evaluation_of_requirement (r : Requirement) : py RuleEvaluation :=
  outcome ← policy_outcome (rt_outcome r);
  Ok (mkRuleEvaluation (match rt_matched_rules r with rule :: _ => rule | [] => GATE_RULE end) outcome (rt_reason_code r) (rt_summary r)
        [("evidence_keys", JList (map (fun k => JDict (EvidenceKey_to_dict k)) (rt_evidence_keys r))); ("risk_level", JStr (rt_risk_level r))]
        (rt_required_evidence r) (rt_required_approvals r)).

Definition _policy_from_preflight (decision : PreflightDecision) : py PolicyDecision :=
  outcome ← policy_outcome (pf_outcome decision);
  evaluations ←
    match pf_unmet_requirements decision with
    | [] => Ok (map (fun rule_id => mkRuleEvaluation rule_id outcome (pf_reason_code decision) (pf_summary decision) []
                      (pf_required_evidence decision) (pf_required_approvals decision))
                 (match pf_matched_rules decision with [] => [GATE_RULE] | l => l end))
    | requirements => res_mapM evaluation_of_requirement requirements
    end;
  Ok (mkPolicyDecision outcome (pf_summary decision) evaluations
        (unique_onto [pf_reason_code decision] (map rt_reason_code (pf_unmet_requirements decision)))
        (pf_required_evidence decision) (pf_required_approvals decision)).

(** ** Side effects *)

(** What a side effect is called with. *)
Inductive call_args := NoArguments | IntentArgument (i : ActionIntent) | RequestArguments (r : ProtectedExecutionRequest) (c : BrokeredCredential).

(** A callable: the number of its positional parameters and whether it takes
    further ones ([None] when it cannot be inspected), and the call itself, acting
    on an environment [V]. *)
Record SideEffect (V : Type) := mkSideEffect { se_signature : option (nat * bool); se_call : call_args -> M exn V json }.
Arguments se_signature {V} _.
Arguments se_call {V} _ _.

Definition effect_arguments (signature : option (nat * bool)) (request : ProtectedExecutionRequest) (credential : BrokeredCredential) : call_args :=
  match signature with
  | None => NoArguments
  | Some (positional, accepts_varargs) =>
      if accepts_varargs || (2 <=? positional)%nat then RequestArguments request credential
      else if Nat.eqb positional 1 then IntentArgument (rq_intent request)
      else NoArguments
  end.

Definition effect_payload (result : json) : dict := match result with JNull => [] | JDict d => d | v => [("result", v)] end.

Definition _invoke_side_effect {V} (side_effect : SideEffect V) : @BrokeredHandler V := fun request credential =>
  result ← se_call side_effect (effect_arguments (se_signature side_effect) request credential);
  mret (Some (effect_payload result)).

(** ** [build_action] *)
Record action_args := mkActionArgs {
  aa_name : string; aa_capability : string; aa_parameters : dict; aa_target_type : string; aa_target_id : string; aa_tenant_id : string;
  aa_requester_type : string; aa_requester_id : string; aa_ttl_minutes : Z; aa_intent_id : option string; aa_issued_at : option datetime;
  aa_target_selectors : option dict; aa_context : option dict
}.

Definition opt_mapping (k : string) (d : option dict) : dict := match d with Some d => dict_item k d | None => [] end.

(** [fresh] is [uuid4().hex] and [clock] the time of the call. *)
Definition build_action (fresh : string) (clock : datetime) (a : action_args) : py dict :=
  let now := default clock (aa_issued_at a) in
  expires_at ← datetime_add now (aa_ttl_minutes a * 60 * US_PER_SECOND);
  Ok ([("contract", contract_header "action_intent");
       ("intent_id", JStr (match aa_intent_id a with Some s => if str_truthy s then s else "intent_" +:+ fresh | None => "intent_" +:+ fresh end));
       ("issued_at", JStr (isoformat now)); ("expires_at", JStr (isoformat expires_at));
       ("tenant", JDict [("tenant_id", JStr (aa_tenant_id a))]);
       ("requester", JDict [("type", JStr (aa_requester_type a)); ("id", JStr (aa_requester_id a))]);
       ("action", JDict [("name", JStr (aa_name a)); ("capability", JStr (aa_capability a)); ("parameters", JDict (aa_parameters a))]);
       ("target", JDict ([("resource_type", JStr (aa_target_type a)); ("resource_id", JStr (aa_target_id a))] ++
                         opt_mapping "selectors" (aa_target_selectors a)))] ++
      opt_mapping "context" (aa_context a)).

(** ** [ActenonGate] *)
Section Gate.
Context `{Protocol} `{ProtocolAuthority} `{ProtocolEffects} `{PyText} `{Ed25519}.
Context {R E B X W V : Type} `{ReplayStore R} `{CapabilityEscrow E}.

Record ActenonGate := mkGate {
  gt_audience : AudienceRef; gt_issuer : PartyRef; gt_minter : option PCCBMinter; gt_own_downgrades : list string;
  gt_declared_capabilities : option (list string); gt_declared_parameter_constraints : dict; gt_declared_resource_selectors : list dict;
  gt_policy_pack : option PolicyPack; gt_escrow : bool; gt_outcome_writer : OutcomeWriter W; gt_executor : @ProtectedExecutor B X W;
  gt_executor_downgrades : list string; gt_signer_secret : option string; gt_verifier_secret : option string
}.

(** The arguments of the constructor; the flags say whether a component whose
    state is in the world is passed. *)
Record gate_args := mkGateArgs {
  ga_verifier : SignatureVerifier; ga_verifier_secret : option string; ga_audience : AudienceRef + string; ga_issuer : PartyRef + string;
  ga_signer : option Signer; ga_signer_secret : option string; ga_policy_pack : option PolicyPack; ga_replay_protector : bool;
  ga_replay_protection : string; ga_replay_store_failure : string; ga_escrow : bool; ga_credential_broker : CredentialBroker B;
  ga_outcome_writer : OutcomeWriter W; ga_disclosure_mode : option VerifierDisclosureMode;
  ga_revocation_checker : option (PCCB -> DynamicContextInput -> py bool); ga_capabilities : option (list string);
  ga_effect_protector : option (EffectProtector X); ga_parameter_constraints : dict; ga_resource_selectors : list dict
}.

Definition ActenonGate_new (e : environment) (a : gate_args) : py ActenonGate :=
  audience ← _coerce_audience (ga_audience a);
  issuer ← _coerce_party (ga_issuer a);
  own_downgrades ← match ga_capabilities a with
                   | None => d ← permit_downgrade e DOWNGRADE_UNDECLARED_CAPABILITIES UNSAFE_ALLOW_UNDECLARED_CAPABILITIES_ENV; Ok [d]
                   | Some _ => Ok []
                   end;
  let env := getenv e ACTENON_ENV_ENV in
  proof_verifier ← PCCBVerifier_init env (mkPCCBVerifier (ga_verifier a) DEFAULT_CLOCK_SKEW_TOLERANCE
                     (default (default_disclosure_mode env) (ga_disclosure_mode a)) (ga_revocation_checker a) None None);
  posture ← ProtectedExecutor_post_init e (ga_replay_protection a) (ga_replay_store_failure a) (ga_replay_protector a);
  Ok (mkGate audience issuer ((fun s => mkPCCBMinter s issuer None) <$> ga_signer a) own_downgrades (ga_capabilities a)
        (ga_parameter_constraints a) (ga_resource_selectors a) (ga_policy_pack a) (ga_escrow a) (ga_outcome_writer a)
        (mkExecutor proof_verifier (ga_credential_broker a) (rp_protector posture) (ga_escrow a) (ga_outcome_writer a) (rp_fail_open posture) false
           (ga_effect_protector a))
        (rp_security_downgrades posture) (ga_signer_secret a) (ga_verifier_secret a)).

(** [downgrades.insert(0, d)] when [d] is not yet there *)
Definition insert_downgrade (secret : option string) (downgrades : list string) : list string :=
  if _uses_public_development_secret secret && negb (str_mem DOWNGRADE_PUBLIC_DEVELOPMENT_SECRET downgrades)
  then DOWNGRADE_PUBLIC_DEVELOPMENT_SECRET :: downgrades else downgrades.

Definition security_downgrades (g : ActenonGate) : list string :=
  let downgrades := gt_executor_downgrades g in
  let downgrades := downgrades ++ List.filter (fun d => negb (str_mem d downgrades)) (gt_own_downgrades g) in
  insert_downgrade (gt_verifier_secret g) (insert_downgrade (gt_signer_secret g) downgrades).

Variable g : ActenonGate.

Definition _coerce_action (action : ActionIntent + json) : py ActionIntent := match action with inl i => Ok i | inr payload => parse payload end.

Definition _coerce_evidence (evidence : option (PreflightEvidence + dict)) : dict :=
  match evidence with Some (inl e) => PreflightEvidence_to_dict e | Some (inr d) => d | None => [] end.

Definition minting_context (request_id : string) (now : datetime) (intent : ActionIntent) : DynamicContextInput :=
  let selectors := if dict_truthy (tgt_selectors (in_target intent)) then tgt_selectors (in_target intent)
                   else [("resource_id", JStr (tgt_resource_id (in_target intent)))] in
  mkContext request_id (gt_audience g) [act_capability (in_action intent)] now []
    (if dict_truthy (act_constraints (in_action intent)) then act_constraints (in_action intent) else act_parameters (in_action intent))
    [selectors] [] [] None.

Definition verification_context (request_id : string) (now : datetime) (intent : ActionIntent) (audience : AudienceRef) (evidence : dict) :
    DynamicContextInput :=
  mkContext request_id audience (default [act_capability (in_action intent)] (gt_declared_capabilities g)) now evidence
    (gt_declared_parameter_constraints g) (gt_declared_resource_selectors g) [] [] None.

Definition gate_escrow_lens : lens (world R E B X W V) E :=
  mkLens _ _ w_escrow (fun e w => mkExecWorld (w_replay w) e (w_broker w) (w_effects w) (w_idempotency w) (w_writer w) (w_env w) (w_calls w)).
Definition gate_writer_lens : lens (world R E B X W V) W :=
  mkLens _ _ w_writer (fun o w => mkExecWorld (w_replay w) (w_escrow w) (w_broker w) (w_effects w) (w_idempotency w) o (w_env w) (w_calls w)).

(** What one call draws: the factories' identifiers, and the clock. *)
Record gate_draws := mkGateDraws {
  gd_request_id : string; gd_now : datetime; gd_escrow_id : string; gd_pccb_id : string; gd_nonce : string; gd_artifacts : artifact_ids
}.
Variable d : gate_draws.

Definition MINT_DECISION : PolicyDecision :=
  mkPolicyDecision Allow "The configured issuer allowed proof minting for this exact action." [] ["GATE_PROOF_MINTED"] [] [].

Definition mint_proof (action : ActionIntent + json) (decision : string) (authority : option json) : M exn (world R E B X W V) PCCB :=
  match gt_minter g with
  | None => raise (OtherError "RuntimeError")
  | Some minter =>
      if negb (String.eqb decision "allow") then raise (ValueError "PCCB minting requires decision='allow'")
      else
        intent ← lift (_coerce_action action);
        let context := minting_context (gd_request_id d) (gd_now d) intent in
        let escrow_id := if gt_escrow g then JStr (gd_escrow_id d) else JNull in
        pccb ← lift (mint minter (gd_pccb_id d) (gd_nonce d) intent MINT_DECISION context escrow_id
                       (match authority with Some a => [("authority", a)] | None => [] end));
        _ ← (if gt_escrow g then
               _ ← zoom gate_escrow_lens (escrow_run (OpIssue (gd_escrow_id d) (pc_pccb_id pccb) (act_capability (in_action intent)) (pc_expires_at pccb)
                      [("intent_id", JStr (in_intent_id intent)); ("issuer", JDict (PartyRef_to_dict (gt_issuer g)))]));
               mret tt
             else mret tt);
        mret pccb
  end.

(** What a preflight callable answers: a plain value, or an object with an
    [allowed] attribute. *)
Inductive preflight_answer := AnswerValue (j : json) | AnswerObject (allowed : json).

Definition DENY_WORDS : list string := ["deny"; "denied"; "refuse"; "refused"; "block"; "blocked"].
Definition is_false (j : json) : bool := match j with JBool false => true | _ => false end.

Definition answer_denies (a : preflight_answer) : bool :=
  match a with
  | AnswerValue (JDict decision) =>
      let status := str_lower (py_str (dget_default decision "decision" (dget_default decision "status" (JStr "")))) in
      is_false (dget decision "allowed") || str_mem status DENY_WORDS
  | AnswerValue j => is_false j
  | AnswerObject allowed => is_false allowed
  end.

Definition mint_proof_after_preflight (preflight : option (ActionIntent + json -> py preflight_answer)) (action : ActionIntent + json) (decision : string)
    (authority : option json) : M exn (world R E B X W V) PCCB :=
  match preflight with
  | None => raise (ValueError "mint_proof_after_preflight requires a preflight policy callable")
  | Some check =>
      answer ← lift (check action);
      if answer_denies answer then raise (OtherError "PermissionError") else mint_proof action decision authority
  end.

Definition _refuse (intent : ActionIntent) (context : DynamicContextInput) (exc : RefusalException) (unmet_requirements : list Requirement) :
    M exn (world R E B X W V) GateOutcome :=
  refusal ← lift (create_from_exception (id_refusal (gd_artifacts d)) exc (cx_now context) (Some intent) (Some context) JNull JNull None);
  receipt ← lift (create_refused_receipt (id_refused (gd_artifacts d)) intent context refusal);
  _ ← zoom gate_writer_lens (ow_write_refusal (gt_outcome_writer g) refusal);
  _ ← zoom gate_writer_lens (ow_write_receipt (gt_outcome_writer g) receipt);
  mret (mkGateOutcome (Some receipt) (Some refusal) None unmet_requirements).

(** [except ValueError as exc]: the text of the exception *)
Definition value_error_text (e : exn) : option string :=
  match e with
  | ValueError msg => Some msg
  | CanonicalisationError msg => if canonicalisation_error_is_value_error then Some msg else None
  | _ => None
  end.

Definition MISSING_ESCROW : exn :=
  Refused (EscrowConfigurationError
    "Actenon escrow is enabled, but the proof is missing `pccb.escrow_reference.escrow_id`. Mint the proof with ActenonGate.mint_proof(...) on the same escrow-enabled gate so the PCCB and escrow record are created together."
    "pccb.escrow_reference.escrow_id" "ActenonGate.mint_proof(...)").

(** The policy decision of the gate's pack, and its unmet requirements. *)
Definition gate_policy (intent : ActionIntent) (evidence : dict) : py (option PolicyDecision * list Requirement) :=
  match gt_policy_pack g with
  | None => Ok (None, [])
  | Some pack =>
      preflight ← preflight_check pack (inl intent) evidence;
      policy_decision ← _policy_from_preflight preflight;
      Ok (Some policy_decision, pf_unmet_requirements preflight)
  end.

Definition protect (action : ActionIntent + json) (proof : option (PCCB + json)) (side_effect : SideEffect V) (audience : option (AudienceRef + string))
    (evidence : option (PreflightEvidence + dict)) (missing_proof_reason_code : string) : M exn (world R E B X W V) GateOutcome :=
  intent ← lift (_coerce_action action);
  let evidence_context := _coerce_evidence evidence in
  audience ← lift match audience with Some a => _coerce_audience a | None => Ok (gt_audience g) end;
  let context := verification_context (gd_request_id d) (gd_now d) intent audience evidence_context in
  '(policy_decision, unmet_requirements) ← lift (gate_policy intent evidence_context);
  match proof with
  | None =>
      _refuse intent context (ProofVerificationError missing_proof_reason_code "The protected action did not include a proof credential block." [])
        unmet_requirements
  | Some proof =>
      match match proof with inl p => Ok p | inr payload => PCCB_from_dict payload end with
      | Err e =>
          match value_error_text e with
          | Some text => _refuse intent context (ContractValidationError ("PCCB contract validation failed: " +:+ text) [] []) unmet_requirements
          | None => raise e
          end
      | Ok pccb =>
          if gt_escrow g && negb (not_none (pc_escrow_id pccb)) then raise MISSING_ESCROW
          else
            result ← execute (gt_executor g) (mkRequest intent pccb context) (_invoke_side_effect side_effect) policy_decision (gd_artifacts d);
            mret (mkGateOutcome (er_receipt result) (er_refusal result) (er_payload result) unmet_requirements)
      end
  end.

(** The decorated function: every call of it is a [protect]. *)
Definition protect_action (action : ActionIntent + json) (proof : option (PCCB + json)) (audience : option (AudienceRef + string))
    (evidence : option (PreflightEvidence + dict)) (body : M exn V json) : M exn (world R E B X W V) GateOutcome :=
  protect action proof (mkSideEffect V (Some (0, false)) (fun _ => body)) audience evidence "PCCB_REQUIRED".
End Gate.
Arguments ActenonGate : clear implicits.
Arguments gate_args : clear implicits.

(** ** [local_dev] *)
Section LocalDev.
Context `{Protocol} `{Hmac} `{Base64Padding} {B X W : Type}.

(** The same arguments, without the verifier, the signer and the declarations
    only the constructor takes. *)
Definition _local_dev_in_scope (a : gate_args B X W) : M exn environment (ActenonGate B X W) := fun e =>
  (signer ← build_local_proof_signer e None LOCAL_PROOF_KEY_ID;
   ActenonGate_new e (mkGateArgs (local_verifier signer) (Some (hs_secret signer)) (ga_audience a) (ga_issuer a) (Some (local_signer signer))
     (Some (hs_secret signer)) (ga_policy_pack a) (ga_replay_protector a) (ga_replay_protection a) (ga_replay_store_failure a) (ga_escrow a)
     (ga_credential_broker a) (ga_outcome_writer a) (ga_disclosure_mode a) (ga_revocation_checker a) (ga_capabilities a) None [] []), e).

Definition local_dev (a : gate_args B X W) : M exn environment (ActenonGate B X W) :=
  explicit_development_intent "ActenonGate.local_dev" (_local_dev_in_scope a).
End LocalDev.

(** ** Facts *)
Lemma policy_outcome_Ok s o : policy_outcome s = Ok o -> o = Allow -> s = "allow".
Proof.
  unfold policy_outcome. destruct (String.eqb_spec s "allow"); [done|]. destruct (String.eqb s "deny"); [congruence|].
  destruct (String.eqb s "approval_required"); [congruence|]. destruct (String.eqb s "needs_evidence"); congruence.
Qed.

(** The policy decision allows only what preflight allowed. *)
Lemma policy_from_preflight_allowed decision pd : _policy_from_preflight decision = Ok pd -> allowed pd = true -> pf_outcome decision = "allow".
Proof.
  unfold _policy_from_preflight. intros (o & Ho & Hd)%bind_Ok Ha. apply bind_Ok in Hd as (ev & _ & [= <-]).
  eapply policy_outcome_Ok; [exact Ho|]. unfold allowed in Ha. cbn in Ha. by destruct o.
Qed.

Section Facts.
Context `{Protocol} `{ProtocolAuthority} `{ProtocolEffects} `{PyText} `{Ed25519}.
Context {R E B X W V : Type} `{ReplayStore R} `{CapabilityEscrow E}.
Implicit Types (g : ActenonGate B X W) (w : world R E B X W V).

(** What the gate's pack said, when it has one. *)
Definition policy_cleared g (intent : ActionIntent) (evidence : dict) : Prop :=
  forall pack, gt_policy_pack g = Some pack -> exists decision, preflight_check pack (inl intent) evidence = Ok decision /\ pf_outcome decision = "allow".

Lemma gate_policy_cleared g intent evidence pd unmet : gate_policy g intent evidence = Ok (pd, unmet) ->
  (forall d, pd = Some d -> allowed d = true) -> policy_cleared g intent evidence.
Proof.
  unfold gate_policy, policy_cleared. intros Hp Ha pack Hpk. rewrite Hpk in Hp. apply bind_Ok in Hp as (decision & Hd & Hp).
  apply bind_Ok in Hp as (p & Hpol & [= <- <-]). exists decision. split; [done|]. eapply policy_from_preflight_allowed; [exact Hpol|]. by apply Ha.
Qed.

Lemma refuse_quiet g d intent context exc unmet w :
  w_calls (_refuse (V := V) g d intent context exc unmet w).2 = w_calls w /\ w_env (_refuse g d intent context exc unmet w).2 = w_env w.
Proof.
  unfold _refuse, mbind, M_bind, lift, zoom. destruct (create_from_exception _ _ _ _ _ _ _ _); [|done].
  destruct (create_refused_receipt _ _ _ _); [|done]. destruct (ow_write_refusal _ _ _) as [[]]; [|done]. by destruct (ow_write_receipt _ _ _) as [[]].
Qed.

(** How [protect] reaches the executor, or does not. *)
Inductive protect_path g d (action : ActionIntent + json) (proof : option (PCCB + json)) (se : SideEffect V) (audience : option (AudienceRef + string))
    (evidence : option (PreflightEvidence + dict)) w (r : py GateOutcome) w' : Prop :=
| path_stopped : w_calls w' = w_calls w -> w_env w' = w_env w ->
    (forall o, r = Ok o -> go_payload o = None /\ exists receipt refusal, go_receipt o = Some receipt /\ go_refusal o = Some refusal /\ rc_outcome receipt = "refused") ->
    protect_path g d action proof se audience evidence w r w'
| path_executed intent pccb aud pd unmet res :
    _coerce_action action = Ok intent ->
    match audience with Some a => _coerce_audience a | None => Ok (gt_audience g) end = Ok aud ->
    match proof with Some (inl p) => p = pccb | Some (inr payload) => PCCB_from_dict payload = Ok pccb | None => False end ->
    gate_policy g intent (_coerce_evidence evidence) = Ok (pd, unmet) ->
    (gt_escrow g = true -> pc_escrow_id pccb <> JNull) ->
    execute (gt_executor g) (mkRequest intent pccb (verification_context g (gd_request_id d) (gd_now d) intent aud (_coerce_evidence evidence)))
      (_invoke_side_effect se) pd (gd_artifacts d) w = (res, w') ->
    r = (res ← res; Ok (mkGateOutcome (er_receipt res) (er_refusal res) (er_payload res) unmet))%stdpp ->
    protect_path g d action proof se audience evidence w r w'.

Lemma refused_receipt_outcome rid intent context refusal r : create_refused_receipt rid intent context refusal = Ok r -> rc_outcome r = "refused".
Proof. unfold create_refused_receipt. intros ([summary details] & _ & Hr)%bind_Ok. cbv zeta in Hr. by injection Hr as <-. Qed.

Lemma refuse_Ok g d intent context exc unmet w o w' : _refuse (V := V) g d intent context exc unmet w = (Ok o, w') ->
  go_payload o = None /\ exists receipt refusal, go_receipt o = Some receipt /\ go_refusal o = Some refusal /\ rc_outcome receipt = "refused".
Proof.
  unfold _refuse. intros (refusal & w1 & _ & Hr)%M_bind_Ok. apply M_bind_Ok in Hr as (receipt & w2 & [= Hrec <-] & Hr).
  apply M_bind_Ok in Hr as ([] & w3 & _ & Hr). apply M_bind_Ok in Hr as ([] & w4 & _ & [= <- <-]). split; [done|].
  exists receipt, refusal. split_and!; try done. by eapply refused_receipt_outcome.
Qed.

Lemma protect_paths g d action proof se audience evidence code w r w' :
  protect g d action proof se audience evidence code w = (r, w') -> protect_path g d action proof se audience evidence w r w'.
Proof.
  unfold protect. unfold mbind at 1, M_bind at 1, lift at 1. destruct (_coerce_action action) as [intent|e] eqn:Hi; [|intros [= <- <-]; by apply path_stopped].
  cbv zeta. unfold mbind at 1, M_bind at 1, lift at 1. destruct (match audience with Some a => _ | None => _ end) as [aud|e] eqn:Ha; [|intros [= <- <-]; by apply path_stopped].
  unfold mbind at 1, M_bind at 1, lift at 1. destruct (gate_policy g intent (_coerce_evidence evidence)) as [[pd unmet]|e] eqn:Hp; [|intros [= <- <-]; by apply path_stopped].
  assert (forall exc, _refuse g d intent (verification_context g (gd_request_id d) (gd_now d) intent aud (_coerce_evidence evidence)) exc unmet w = (r, w') ->
    protect_path g d action proof se audience evidence w r w') as Hrefuse.
  { intros exc Hr. pose proof (refuse_quiet g d intent (verification_context g (gd_request_id d) (gd_now d) intent aud (_coerce_evidence evidence)) exc unmet w) as [Hc He].
    rewrite Hr in Hc, He. apply path_stopped; [done..|]. intros o ->. by eapply refuse_Ok. }
  destruct proof as [proof|]; [|apply Hrefuse].
  destruct (match proof with inl p => Ok p | inr payload => PCCB_from_dict payload end) as [pccb|e] eqn:Hpr.
  2: { destruct (value_error_text e); [apply Hrefuse|]. intros [= <- <-]. by apply path_stopped. }
  destruct (gt_escrow g && negb (not_none (pc_escrow_id pccb))) eqn:Hes; [intros [= <- <-]; by apply path_stopped|].
  unfold mbind at 1, M_bind at 1. destruct (execute _ _ _ _ _ w) as [res w1] eqn:Hx. intros Hend.
  assert (r = (res ← res; Ok (mkGateOutcome (er_receipt res) (er_refusal res) (er_payload res) unmet))%stdpp /\ w' = w1) as [Hr ->].
  { destruct res; by injection Hend as <- <-. }
  eapply path_executed; try done.
  - destruct proof; [by injection Hpr|done].
  - intros Hg Hn. by rewrite Hg, Hn in Hes.
Qed.

(** A new gate's executor keeps no idempotency store and shares the gate's escrow. *)
Lemma gate_new_executor e (a : gate_args B X W) g : ActenonGate_new e a = Ok g ->
  px_idempotency_store (gt_executor g) = false /\ px_escrow (gt_executor g) = gt_escrow g /\
  gt_declared_capabilities g = ga_capabilities a /\
  exists posture, ProtectedExecutor_post_init e (ga_replay_protection a) (ga_replay_store_failure a) (ga_replay_protector a) = Ok posture /\
    px_replay_protector (gt_executor g) = rp_protector posture /\ px_fail_open (gt_executor g) = rp_fail_open posture /\
    gt_executor_downgrades g = rp_security_downgrades posture /\ gt_signer_secret g = ga_signer_secret a /\ gt_verifier_secret g = ga_verifier_secret a /\
    (gt_own_downgrades g = [] -> ga_capabilities a <> None) /\
    (ga_capabilities a = None -> has_development_intent e \/ _truthy (getenv e UNSAFE_ALLOW_UNDECLARED_CAPABILITIES_ENV) = true).
Proof.
  unfold ActenonGate_new. intros (aud & _ & Hg)%bind_Ok. apply bind_Ok in Hg as (iss & _ & Hg). apply bind_Ok in Hg as (own & Hown & Hg).
  cbv zeta in Hg. apply bind_Ok in Hg as (v & _ & Hg). apply bind_Ok in Hg as (posture & Hp & [= <-]). cbn. split_and!; [done..|].
  exists posture. split_and!; [done..| |].
  - intros ->. destruct (ga_capabilities a); [done|]. by apply bind_Ok in Hown as (? & _ & ?).
  - intros Hn. rewrite Hn in Hown. apply bind_Ok in Hown as (dd & Hd & _). unfold permit_downgrade in Hd.
    rewrite <- development_intent_spec. destruct (development_intent e); [by left|right]. by destruct (_truthy _).
Qed.

Lemma security_downgrades_nil g : security_downgrades g = [] ->
  gt_executor_downgrades g = [] /\ gt_own_downgrades g = [] /\
  _uses_public_development_secret (gt_signer_secret g) = false /\ _uses_public_development_secret (gt_verifier_secret g) = false.
Proof.
  unfold security_downgrades. cbv zeta. set (l := gt_executor_downgrades g ++ _).
  assert (forall sec l0, insert_downgrade sec l0 = [] -> l0 = [] /\ _uses_public_development_secret sec = false) as Hins.
  { intros sec l0. unfold insert_downgrade. destruct (_uses_public_development_secret sec); cbn [andb]; [|done].
    destruct (str_mem _ l0) eqn:Hm; cbn [negb]; [|done]. by intros ->. }
  intros [Hl Hv]%Hins. apply Hins in Hl as [Hl Hs]. unfold l in Hl. apply app_eq_nil in Hl as [He Ho]. rewrite He in Ho. split_and!; try done.
  clear -Ho. induction (gt_own_downgrades g) as [|x xs IH]; [done|]. discriminate Ho.
Qed.

(** One call of the side effect, with everything that cleared it. *)
Definition mediated_call g (action : ActionIntent + json) (proof : option (PCCB + json)) (se : SideEffect V) (audience : option (AudienceRef + string))
    (evidence : option (PreflightEvidence + dict)) w w' : Prop :=
  exists request cred pd,
    w_calls w' = w_calls w ++ [request] /\ w_env w' = (_invoke_side_effect se request cred (w_env w)).2 /\
    cleared (gt_executor g) request pd w w' /\ policy_cleared g (rq_intent request) (_coerce_evidence evidence) /\
    _coerce_action action = Ok (rq_intent request) /\
    match proof with Some (inl p) => p = rq_pccb request | Some (inr payload) => PCCB_from_dict payload = Ok (rq_pccb request) | None => False end /\
    match audience with Some a => _coerce_audience a | None => Ok (gt_audience g) end = Ok (cx_audience (rq_context request)) /\
    (forall caps, gt_declared_capabilities g = Some caps -> cx_scope_capabilities (rq_context request) = caps) /\
    cx_parameter_constraints (rq_context request) = gt_declared_parameter_constraints g /\
    cx_resource_selectors (rq_context request) = gt_declared_resource_selectors g.

(** What one call of [protect] may have done to the world. *)
Definition mediated g (action : ActionIntent + json) (proof : option (PCCB + json)) (se : SideEffect V) (audience : option (AudienceRef + string))
    (evidence : option (PreflightEvidence + dict)) w w' : Prop :=
  (w_calls w' = w_calls w /\ w_env w' = w_env w) \/ mediated_call g action proof se audience evidence w w'.

Lemma protect_mediated g d action proof se audience evidence code w :
  mediated g action proof se audience evidence w (protect g d action proof se audience evidence code w).2.
Proof.
  unfold mediated. destruct (protect g d action proof se audience evidence code w) as [r w'] eqn:Hp.
  apply protect_paths in Hp as [Hc He _|intent pccb aud pd unmet res Ha Haud Hpr Hpol Hes Hx Hr]; [by left|].
  destruct (execute_calls _ _ _ _ _ _ _ _ Hx) as [?|(cred & Hc & Henv & Hcl)]; [by left|right].
  eexists _, cred, pd. split; [exact Hc|]. split; [exact Henv|]. split; [exact Hcl|]. split; [|split_and!; try done].
  - eapply gate_policy_cleared; [exact Hpol|]. apply Hcl.
  - cbn. by intros caps ->.
Qed.

(** An outcome without a refusal means the side effect was called. *)
Lemma protect_called (e : environment) (a : gate_args B X W) g d action proof (se : SideEffect V) audience evidence code w w' o :
  ActenonGate_new e a = Ok g -> protect g d action proof se audience evidence code w = (Ok o, w') -> go_refusal o = None ->
  mediated_call g action proof se audience evidence w w'.
Proof.
  intros Hg Hp Hn. apply gate_new_executor in Hg as (Hidem & _). pose proof (protect_mediated g d action proof se audience evidence code w) as Hm.
  rewrite Hp in Hm. destruct Hm as [[Hc _]|Hm]; [|exact Hm]. exfalso.
  apply protect_paths in Hp as [_ _ Hst|intent pccb aud pd unmet res Ha Haud Hpr Hpol Hes Hx Hr].
  - destruct (Hst o eq_refl) as (_ & receipt & refusal & _ & Hrf & _). congruence.
  - destruct res as [res|]; [|done]. injection Hr as ->. eapply execute_called; [exact Hx|exact Hn| |exact Hc].
    unfold uses_idempotency. by rewrite Hidem, andb_false_r.
Qed.

(** What the outcome of a call of [protect] says about the side effect. *)
Definition outcome_honest (se : SideEffect V) w (o : GateOutcome) : Prop :=
  if gate_ok o
  then exists request cred result h, se_call se (effect_arguments (se_signature se) request cred) (w_env w) = (Ok result, h) /\
         go_payload o = Some (effect_payload result)
  else go_payload o = None /\ exists receipt refusal, go_receipt o = Some receipt /\ go_refusal o = Some refusal /\ rc_outcome receipt = "refused".

Lemma protect_honest (e : environment) (a : gate_args B X W) g d action proof (se : SideEffect V) audience evidence code w w' o :
  ActenonGate_new e a = Ok g -> protect g d action proof se audience evidence code w = (Ok o, w') -> outcome_honest se w o.
Proof.
  intros Hg Hp. unfold outcome_honest. apply gate_new_executor in Hg as (Hidem & _).
  apply protect_paths in Hp as [_ _ Hst|intent pccb aud pd unmet res Ha Haud Hpr Hpol Hes Hx Hr].
  - destruct (Hst o eq_refl) as (Hpay & receipt & refusal & Hrc & Hrf & Ho). unfold gate_ok. rewrite Hrf. eauto 10.
  - destruct res as [res|]; [|done]. injection Hr as ->. apply execute_result in Hx as (receipt & Hrc & Hcase). unfold gate_ok. cbn. rewrite Hrc.
    destruct (er_refusal res) as [refusal|]; [destruct Hcase; by eauto 10|]. destruct Hcase as [-> [(prior & Hu & _)|(cred & h & Hh)]].
    + unfold uses_idempotency in Hu. rewrite Hidem, andb_false_r in Hu. done.
    + unfold _invoke_side_effect in Hh. apply M_bind_Ok in Hh as (result & h1 & Hcall & [= Hpay _]). cbn. eauto 10.
Qed.
End Facts.

(** ** Properties *)

(** C4: the gate mediates completely: whatever it is given, [protect] leaves the
    side effect uncalled and its environment as it was, or calls it once, on the
    presented action and proof, with the arguments its signature accepts, cleared
    by the executor (proof verified, effect owned, escrow consumed, replay key
    consumed), allowed by the gate's policy pack, for the audience and within the
    capabilities, constraints and resources the gate itself declares. *)
Theorem gate_mediates `{Protocol} `{ProtocolAuthority} `{ProtocolEffects} `{PyText} `{Ed25519} {R E B X W V : Type} `{ReplayStore R} `{CapabilityEscrow E}
    (g : ActenonGate B X W) (d : gate_draws) (action : ActionIntent + json) (proof : option (PCCB + json)) (se : SideEffect V)
    (audience : option (AudienceRef + string)) (evidence : option (PreflightEvidence + dict)) (code : string) (w : world R E B X W V) :
  mediated g action proof se audience evidence w (protect g d action proof se audience evidence code w).2.
Proof. apply protect_mediated. Qed.

(** The gate's outcome is honest: an outcome that is [ok] means the side effect
    was called on this environment, returned, and its result is the payload; any
    other outcome has a refusal, a "refused" receipt and no payload. *)
Theorem gate_outcome_honest `{Protocol} `{ProtocolAuthority} `{ProtocolEffects} `{PyText} `{Ed25519} {R E B X W V : Type} `{ReplayStore R}
    `{CapabilityEscrow E} (e : environment) (a : gate_args B X W) (g : ActenonGate B X W) (d : gate_draws) (action : ActionIntent + json)
    (proof : option (PCCB + json)) (se : SideEffect V) (audience : option (AudienceRef + string)) (evidence : option (PreflightEvidence + dict))
    (code : string) (w w' : world R E B X W V) (o : GateOutcome) :
  ActenonGate_new e a = Ok g -> protect g d action proof se audience evidence code w = (Ok o, w') -> outcome_honest se w o.
Proof. apply protect_honest. Qed.


Section MintFacts.
Context `{Protocol} `{ProtocolAuthority} `{ProtocolEffects} `{PyText} `{Ed25519}.
Context {R E B X W V : Type} `{ReplayStore R} `{CapabilityEscrow E}.

Lemma mint_proof_Ok (g : ActenonGate B X W) d action decision authority (w w' : world R E B X W V) pccb :
  mint_proof g d action decision authority w = (Ok pccb, w') ->
  exists minter intent, gt_minter g = Some minter /\ _coerce_action action = Ok intent /\ decision = "allow" /\
    mint minter (gd_pccb_id d) (gd_nonce d) intent MINT_DECISION (minting_context g (gd_request_id d) (gd_now d) intent)
      (if gt_escrow g then JStr (gd_escrow_id d) else JNull) (match authority with Some a => [("authority", a)] | None => [] end) = Ok pccb /\
    (gt_escrow g = true -> exists r, escrow_run (OpIssue (gd_escrow_id d) (pc_pccb_id pccb) (act_capability (in_action intent)) (pc_expires_at pccb)
       [("intent_id", JStr (in_intent_id intent)); ("issuer", JDict (PartyRef_to_dict (gt_issuer g)))]) (w_escrow w) = (Ok r, w_escrow w')).
Proof.
  unfold mint_proof. destruct (gt_minter g) as [minter|]; [|done]. destruct (String.eqb_spec decision "allow") as [->|]; [|done]. cbn [negb].
  intros (intent & w1 & [= Hi <-] & Hm)%M_bind_Ok. cbv zeta in Hm. apply M_bind_Ok in Hm as (p & w2 & [= Hp <-] & Hm).
  apply M_bind_Ok in Hm as ([] & w3 & He & [= -> ->]). exists minter, intent. split_and!; try done. intros Hg. rewrite Hg in He.
  apply M_bind_Ok in He as (r & w4 & (t & Hr & ->)%zoom_Ok & [= <-]). exists r. exact Hr.
Qed.
End MintFacts.

(** C22: a proof the gate mints is good at the gate: what [mint_proof] returns for an
    action is accepted by the gate's own verifier in the context [protect] builds
    for that action, from the moment it was minted until the intent expires, for a
    gate that declares the action's capability and no further restriction; and
    where the gate has an escrow, the escrow the proof names has been issued for
    exactly this proof and capability. *)
Theorem gate_mint_verifies `{Protocol} `{ProtocolAuthority} `{ProtocolEffects} `{PyText} `{Ed25519} {R E B X W V : Type} `{ReplayStore R} `{CapabilityEscrow E}
    (g : ActenonGate B X W) (d : gate_draws) (intent : ActionIntent) (w w' : world R E B X W V) (pccb : PCCB) (minter : PCCBMinter) (caps : list string)
    (request_id : string) (now : datetime) (evidence : dict) :
  let v := px_verifier (gt_executor g) in
  let cap := act_capability (in_action intent) in
  mint_proof g d (inl intent) "allow" None w = (Ok pccb, w') ->
  canonicalisation_error_is_value_error = true -> CANONICALIZATION_PROFILE ∈ ACCEPTED_CANONICALIZATION_PROFILES ->
  gt_minter g = Some minter -> signer_matches (mt_signer minter) v ->
  vf_clock_skew_tolerance v = 0%Z -> vf_revocation_checker v = None -> vf_boundary_id v = None ->
  capability_in_scope cap (sc_capabilities (pc_scope pccb)) = true ->
  gt_declared_capabilities g = Some caps -> capability_in_scope cap caps = true ->
  gt_declared_parameter_constraints g = [] -> gt_declared_resource_selectors g = [] ->
  datetime_ok now -> (gd_now d <= now <= in_expires_at intent)%Z ->
  verify v intent pccb (verification_context g request_id now intent (gt_audience g) evidence) = Ok tt /\
  (gt_escrow g = true -> pc_escrow_id pccb = JStr (gd_escrow_id d) /\
     exists r, escrow_run (OpIssue (gd_escrow_id d) (pc_pccb_id pccb) cap (pc_expires_at pccb)
       [("intent_id", JStr (in_intent_id intent)); ("issuer", JDict (PartyRef_to_dict (gt_issuer g)))]) (w_escrow w) = (Ok r, w_escrow w')).
Proof.
  cbv zeta. intros (minter' & i & Hmt' & [= <-] & _ & Hm & Hes)%mint_proof_Ok Hve Hprof Hmt Hsig Hsk Hrev Hbd Hcap Hdc Hcapc Hpc Hrs Hck Hnow. simplify_eq.
  split.
  - apply verify_Ok; [done|]. eapply mint_accepted_in; try done; cbn.
    + unfold clock_in_range. rewrite Hsk. cbn. by rewrite Z.add_0_r, Z.sub_0_r.
    + rewrite Hsk. lia.
    + rewrite Hsk. lia.
    + by rewrite Hbd.
    + by rewrite Hdc.
    + by rewrite Hpc.
    + by rewrite Hrev.
  - intros Hg. specialize (Hes Hg). split; [|done]. apply mint_Ok in Hm as (_ & ? & ? & ? & ? & _ & _ & _ & _ & ->). cbn. by rewrite Hg.
Qed.

(** *** [build_action] *)

(** The intent a set of arguments stands for. *)
Definition intended (fresh : string) (issued expires : datetime) (a : action_args) : ActionIntent :=
  mkActionIntent (match aa_intent_id a with Some s => if str_truthy s then s else "intent_" +:+ fresh | None => "intent_" +:+ fresh end) issued expires
    (mkTenantRef (aa_tenant_id a) []) (mkPartyRef (aa_requester_type a) (aa_requester_id a) JNull [])
    (mkActionSpec (aa_name a) (aa_capability a) (aa_parameters a) [] [])
    (mkTargetRef (aa_target_type a) (aa_target_id a) JNull (default [] (aa_target_selectors a))) JNull JNull (default [] (aa_context a)) [] [] [].

Definition action_args_wf (a : action_args) : bool :=
  forallb str_truthy [aa_name a; aa_capability a; aa_target_type a; aa_target_id a; aa_tenant_id a; aa_requester_type a; aa_requester_id a] &&
  dict_truthy (aa_parameters a).

Lemma parse_accepts payload i : ActionIntent_from_dict payload = Ok i -> (in_issued_at i < in_expires_at i)%Z -> act_parameters (in_action i) <> [] ->
  parse payload = Ok i.
Proof.
  intros Hi Ht Hp. unfold parse. rewrite Hi. unfold intake_violations.
  destruct (Z.leb_spec (in_expires_at i) (in_issued_at i)); [lia|]. by destruct (act_parameters (in_action i)).
Qed.

(** [build_action] builds what the intake reads back: for non-empty names and
    parameters and a positive lifetime, the payload parses to exactly the intent
    its arguments describe, issued now and expiring the given minutes later. *)
Theorem build_action_roundtrip (fresh : string) (clock : datetime) (a : action_args) (payload : dict) :
  action_args_wf a = true -> (0 < aa_ttl_minutes a)%Z -> datetime_ok (default clock (aa_issued_at a)) -> build_action fresh clock a = Ok payload ->
  parse (JDict payload) = Ok (intended fresh (default clock (aa_issued_at a)) (default clock (aa_issued_at a) + aa_ttl_minutes a * 60 * US_PER_SECOND) a).
Proof.
  intros [Hs Hp]%andb_true_iff Httl Hclock Hb. unfold build_action in Hb. cbv zeta in Hb. set (now := default clock (aa_issued_at a)) in *.
  apply bind_Ok in Hb as (expires & He & [= <-]). apply datetime_add_Ok in He as [-> Hex]. cbn [forallb] in Hs. split_andb.
  assert (str_truthy (match aa_intent_id a with Some s => if str_truthy s then s else "intent_" +:+ fresh | None => "intent_" +:+ fresh end) = true) as Hid.
  { destruct (aa_intent_id a) as [s|]; [destruct (str_truthy s) eqn:?; done|done]. }
  assert (exists kv params, aa_parameters a = kv :: params) as (kv & params & Hkv) by (destruct (aa_parameters a); [done|eauto]).
  assert (forall f, parse_timestamp (JStr (isoformat now)) f = Ok now) as Hp1 by (intros; by apply parse_isoformat).
  assert (forall f, parse_timestamp (JStr (isoformat (now + aa_ttl_minutes a * 60 * US_PER_SECOND))) f = Ok (now + aa_ttl_minutes a * 60 * US_PER_SECOND)%Z) as Hp2
    by (intros; by apply parse_isoformat).
  apply parse_accepts; [|unfold US_PER_SECOND in *; cbn; lia|cbn; by rewrite Hkv].
  generalize dependent (now + aa_ttl_minutes a * 60 * US_PER_SECOND)%Z. intros expires Hex Hp2. unfold intended.
  generalize dependent (match aa_intent_id a with Some s => if str_truthy s then s else "intent_" +:+ fresh | None => "intent_" +:+ fresh end).
  intros id Hid. unfold ActionIntent_from_dict. cbn [expect_mapping mbind res_bind]. rewrite (expect_contract_header _ "action_intent") by reflexivity.
  destruct (aa_target_selectors a) as [[|ts tss]|], (aa_context a) as [[|cx cxs]|]; unfold opt_mapping, opt_item, dict_truthy; cbn [app default];
    unfold TenantRef_from_dict, PartyRef_from_dict, ActionSpec_from_dict, TargetRef_from_dict, dget, dget_default;
    cbn [assoc String.eqb Ascii.eqb Bool.eqb py_iter res_mapM mbind res_bind expect_mapping py_dict];
    repeat (rewrite ?Hp1, ?Hp2, ?expect_string_Ok by assumption; progress cbn [mbind res_bind py_dict expect_mapping py_iter res_mapM]); reflexivity.
Qed.

(** ** Samples: a gate that mints a proof for a refund and then runs it. *)
Definition sample_gate_args : gate_args broker_state unit (list Receipt * list Refusal) :=
  mkGateArgs sample_signature_verifier None (inr "service:refunds-api") (inl sample_issuer) (Some sample_signer) None None true "default" "fail_closed" true
    (InMemoryCredentialBroker sample_broker) sample_writer None None (Some ["payments.refund"]) None [] [].
Definition sample_gate : ActenonGate broker_state unit (list Receipt * list Refusal) :=
  match ActenonGate_new production_env sample_gate_args with
  | Ok g => g
  | Err _ => mkGate sample_audience sample_issuer None [] None [] [] None false sample_writer sample_executor [] None None
  end.
Lemma sample_gate_Ok : ActenonGate_new production_env sample_gate_args = Ok sample_gate.
Proof.
  assert (is_ok (ActenonGate_new production_env sample_gate_args) = true) as Hok by (vm_compute; reflexivity).
  unfold sample_gate. destruct (ActenonGate_new production_env sample_gate_args); [reflexivity|discriminate Hok].
Qed.

Definition sample_gate_draws : gate_draws := mkGateDraws "req_gate_1" sample_now "esc_g" "pccb_g" "nonce-g" sample_ids.
Definition sample_gate_mint :=
  @mint_proof demo_protocol sample_authority _ _ _ _ _ nat memory_escrow sample_gate sample_gate_draws (inl sample_intent) "allow" None sample_world.
Definition gate_pccb : PCCB := match sample_gate_mint.1 with Ok p => p | Err _ => sample_pccb end.
Lemma sample_gate_mint_Ok : sample_gate_mint = (Ok gate_pccb, sample_gate_mint.2).
Proof.
  assert (is_ok sample_gate_mint.1 = true) as Hok by (vm_compute; reflexivity).
  unfold gate_pccb. destruct sample_gate_mint as [[p|e] w']; [reflexivity|discriminate Hok].
Qed.

Definition sample_side_effect : SideEffect nat := mkSideEffect nat (Some (1, false)) (fun _ n => (Ok (JStr "re_1"), S n)).
Definition sample_protect :=
  @protect demo_protocol sample_authority sample_effects demo_text demo_ed25519 _ _ _ _ _ _ database_store memory_escrow sample_gate sample_gate_draws
    (inl sample_intent) (Some (inl gate_pccb)) sample_side_effect None None "PCCB_REQUIRED" sample_gate_mint.2.

Lemma gate_outcome_honest_witness : exists o,
  sample_protect.1 = Ok o /\ gate_ok o = true /\ exists result, go_payload o = Some (effect_payload result).
Proof.
  assert (match sample_protect.1 with Ok o => gate_ok o | Err _ => false end = true) as Hok by (vm_compute; reflexivity).
  destruct sample_protect as [[o|e] w'] eqn:Hp; [|discriminate Hok]. cbn in Hok. exists o. split; [reflexivity|]. split; [exact Hok|].
  pose proof (@gate_outcome_honest demo_protocol sample_authority sample_effects demo_text demo_ed25519 _ _ _ _ _ _ database_store memory_escrow production_env
    sample_gate_args sample_gate sample_gate_draws (inl sample_intent) (Some (inl gate_pccb)) sample_side_effect None None "PCCB_REQUIRED"
    sample_gate_mint.2 w' o sample_gate_Ok Hp) as Hh.
  unfold outcome_honest in Hh. rewrite Hok in Hh. destruct Hh as (_ & _ & result & _ & _ & Hpay). exists result. exact Hpay.
Defined.


Definition sample_gate_minter : PCCBMinter := default sample_minter (gt_minter sample_gate).
Lemma sample_gate_minter_Ok : gt_minter sample_gate = Some sample_gate_minter.
Proof.
  assert (match gt_minter sample_gate with Some _ => true | None => false end = true) as Hok by (vm_compute; reflexivity).
  unfold sample_gate_minter. destruct (gt_minter sample_gate); [reflexivity|discriminate Hok].
Qed.

Lemma gate_mint_verifies_witness :
  @verify demo_protocol sample_authority (px_verifier (gt_executor sample_gate)) sample_intent gate_pccb
    (verification_context sample_gate "req_2" (sample_now + 1000000)%Z sample_intent (gt_audience sample_gate) []) = Ok tt.
Proof.
  refine (proj1 (@gate_mint_verifies demo_protocol sample_authority sample_effects demo_text demo_ed25519 _ _ _ _ _ _ database_store memory_escrow
    sample_gate sample_gate_draws sample_intent sample_world sample_gate_mint.2 gate_pccb sample_gate_minter ["payments.refund"] "req_2"
    (sample_now + 1000000)%Z [] sample_gate_mint_Ok eq_refl _ sample_gate_minter_Ok _ _ _ _ _ _ _ _ _ _ _)); try (vm_compute; reflexivity).
  - left.
  - exact (sample_signer_matches TRUSTED_DETAILED).
  - vm_compute. split; [discriminate|reflexivity].
  - vm_compute. split; discriminate.
Defined.

Definition sample_action_args : action_args :=
  mkActionArgs "refund" "payments.refund" [("amount", JInt 5)] "payment" "pay_1" "default" "agent" "agent" 10 None (Some sample_now) None None.
Lemma build_action_roundtrip_witness : exists payload,
  build_action "ab" sample_now sample_action_args = Ok payload /\
  parse (JDict payload) = Ok (intended "ab" sample_now (sample_now + 10 * 60 * US_PER_SECOND) sample_action_args).
Proof.
  eexists. split; [vm_compute; reflexivity|].
  refine (build_action_roundtrip "ab" sample_now sample_action_args _ _ _ _ _); [reflexivity|reflexivity|vm_compute; split; [discriminate|reflexivity]|vm_compute; reflexivity].
Defined.
