(* ===== verification/Adapters.v ===== *)
(** * Adapters: [actenon/adapters/]

    The protected edge ([edge.py]) and the framework adapters ([langchain.py],
    [mcp.py], [fastapi.py]) bring a request to [ActenonGate.protect]: the action is
    built from the domain arguments, the proof and the evidence come from the
    framework's own context, and the domain function is the side effect.  What the
    frameworks supply (a bound call, a request with its headers and body, a body
    model) is an argument; builders are pure functions that may raise; values do not
    change after they are read, so the copies the code makes are the values.
    [base.py] is the request an adapter outside the repository gets.

    The theorems: the edge runs its backend only on the request that was presented,
    field for field; every adapter calls its function at most once, behind the gate,
    on the arguments the action was built from; a FastAPI route is reached only
    after the side effect was executed. *)

From Stdlib Require Import Ascii.
From S2P Require Import Prelude AnchorLog Text Json Errors Timestamps Canonical Base64 Contracts Runtime Samples ProofService SecurityPosture Replay ReplayStore Escrow Receipts Artifacts Idempotency Credentials Effects Executor ExecutorFrames ExecutorProofs Policy Middleware Kernel LocalSigner Merkle Transparency Countersignature TrustArtifacts Preflight Endpoint ModeAware Gate.

(** ** [base.py] *)
Record ProviderAdapterContext := mkAdapterContext {
  pa_request_id : string; pa_intent_id : string; pa_pccb_id : string; pa_tenant_id : string; pa_subject_id : string; pa_audience : string;
  pa_executed_at : datetime
}.
Record ProviderAdapterRequest := mkAdapterRequest {
  pr_action : ActionSpec; pr_target : TargetRef; pr_context : ProviderAdapterContext; pr_pccb : PCCB; pr_metadata : dict
}.
Record ProviderAdapterResult := mkAdapterResult {
  ps_provider_reference : option string; ps_provider_state : string; ps_side_effect_reference : option string; ps_details : dict
}.

Definition from_execution_request (request : ProtectedExecutionRequest) (metadata : option dict) : ProviderAdapterRequest :=
  let intent := rq_intent request in
  let context := rq_context request in
  mkAdapterRequest (in_action intent) (in_target intent)
    (mkAdapterContext (cx_request_id context) (in_intent_id intent) (pc_pccb_id (rq_pccb request)) (tenant_id (in_tenant intent))
       (party_id (in_requester intent)) (aud_type (cx_audience context) +:+ ":" +:+ aud_id (cx_audience context)) (cx_now context))
    (rq_pccb request) (default [] metadata).

(** ** [_authorization.py] *)
Record AdapterAuthorization := mkAuthorization { az_proof : option (PCCB + json); az_evidence : option (PreflightEvidence + dict) }.

(** What the framework's context holds under the adapter's key: no mapping, or one
    with these ["proof"] and ["evidence"] entries. *)
Inductive raw_authorization := NotMapping | RawMapping (proof : option (PCCB + json)) (evidence : option (PreflightEvidence + json)).

Definition none_if_null {A} (x : option (A + json)) : option (A + json) := match x with Some (inr JNull) => None | x => x end.

Definition authorization_from_mapping (raw : raw_authorization) : AdapterAuthorization :=
  match raw with
  | NotMapping => mkAuthorization None None
  | RawMapping proof evidence =>
      mkAuthorization (none_if_null proof)
        match evidence with
        | Some (inl e) => Some (inl e)
        | Some (inr (JDict d)) => Some (inr d)
        | _ => None
        end
  end.

(** The entries of a JSON value. *)
Definition raw_of_json (j : option json) : raw_authorization :=
  match j with
  | Some (JDict d) => RawMapping (inr <$> assoc "proof" d) (inr <$> assoc "evidence" d)
  | _ => NotMapping
  end.

(** ** [fastapi.py]: headers *)
Definition ACTENON_PROOF_HEADER : string := "X-Actenon-Proof".
Definition ACTENON_EVIDENCE_HEADER : string := "X-Actenon-Evidence".

(** [base64.urlsafe_b64decode]: the decoder without validation.  Characters outside
    the alphabets are skipped, a complete pad sequence ends the input; [quad] counts
    the characters of the open group and [left] holds its spare bits. *)
Fixpoint a2b_lenient (quad : nat) (left : N) (pads : nat) (s : string) : option string :=
  match s with
  | "" => if Nat.eqb quad 0 then Some "" else None
  | String c r =>
      if Ascii.eqb c "=" then
        if (2 <=? quad)%nat then if (4 <=? quad + S pads)%nat then Some "" else a2b_lenient quad left (S pads) r
        else a2b_lenient quad left pads r
      else
        match base64_value c with
        | None => a2b_lenient quad left pads r
        | Some v =>
            match quad with
            | 0 => a2b_lenient 1 v 0 r
            | 1 => String (byte_of (4 * left + v / 16)) <$> a2b_lenient 2 (v mod 16) 0 r
            | 2 => String (byte_of (16 * left + v / 4)) <$> a2b_lenient 3 (v mod 4) 0 r
            | _ => String (byte_of (64 * left + v)) <$> a2b_lenient 0 0 0 r
            end
        end
  end.

(** ["=" * (-len(value) % 4)] *)
Definition padding_for (value : string) : string :=
  match (4 - String.length value mod 4) mod 4 with 0 => "" | 1 => "=" | 2 => "==" | _ => "===" end%nat.

(** A dict from its pairs, a repeated key keeping its place and taking the last value. *)
Definition dict_of_pairs (pairs : list (string * json)) : dict := assoc_merge [] pairs.

(** The value [json.loads] makes of a tree. *)
Fixpoint plain_tree (t : jtree) : json :=
  match t with
  | TScalar v => v
  | TArray l => JList (map plain_tree l)
  | TObject pairs => JDict (dict_of_pairs (map (fun kt => match kt with (k, t) => (k, plain_tree t) end) pairs))
  end.

Section Headers.
Context `{Platform}.

Definition HEADER_ENCODING (field_name : string) : exn := ValueError (field_name +:+ " must be base64url-encoded JSON").

Definition _decode_json_header (value field_name : string) : py dict :=
  payload ← (if negb (is_ascii value) then Err (HEADER_ENCODING field_name)
             else match a2b_lenient 0 0 0 (value +:+ padding_for value) with
                  | None => Err (HEADER_ENCODING field_name)
                  | Some decoded =>
                      if negb (platform_utf8_valid decoded) then Err (HEADER_ENCODING field_name)
                      else match platform_parse_text decoded with
                           | ParsedTree t => Ok (plain_tree t)
                           | ParseFailed => Err (HEADER_ENCODING field_name)
                           | ParseRecursionError => Err (OtherError "RecursionError")
                           end
                  end);
  match payload with JDict d => Ok d | _ => Err (ValueError (field_name +:+ " must decode to a JSON object")) end.

(** [json.dumps(payload, separators=(",", ":"), sort_keys=True)] is [compact_dumps]. *)
Definition encode_json_header `{CompactDumps} (value : PCCB + dict) : string :=
  b64url_encode (compact_dumps match value with inl p => PCCB_to_dict p | inr d => d end).
End Headers.

(** ** The gate behind the adapters *)
Section Adapters.
Context `{Protocol} `{ProtocolAuthority} `{ProtocolEffects} `{PyText} `{Ed25519} `{Platform}.
Context {R E B X W V : Type} `{ReplayStore R} `{CapabilityEscrow E}.

(** [lambda: f(...)] *)
Definition thunk (body : M exn V json) : SideEffect V := mkSideEffect V (Some (0, false)) (fun _ => body).

(** ** [edge.py] *)
Definition EdgeConfigurationError (msg : string) : exn := ValueError msg.

Record ProtectedEdge := mkProtectedEdge {
  pe_gate : ActenonGate B X W;
  pe_intent_builder : dict -> py (ActionIntent + json);
  pe_backend : ActionIntent -> BrokeredCredential -> M exn V json;
  pe_audience : option (AudienceRef + string)
}.

(** The constructor's checks on the callables: whether each is callable and whether it
    is a coroutine function. *)
Definition ProtectedEdge_new (builder_callable builder_async backend_callable backend_async : bool) (edge : ProtectedEdge) : py ProtectedEdge :=
  if negb builder_callable then Err (TypeError "intent_builder must be callable")
  else if negb backend_callable then Err (TypeError "backend must be callable")
  else if builder_async then Err (TypeError "ProtectedEdge currently requires a synchronous intent_builder")
  else if backend_async then Err (TypeError "ProtectedEdge currently requires a synchronous backend")
  else Ok edge.

(** [except (TypeError, ValueError, RecursionError)] around [canonicalize_json] *)
Definition edge_canonical (value : dict) (msg : string) : py string :=
  match canonicalize_json (JDict value) MAX_JSON_DEPTH with
  | Ok s => Ok s
  | Err e => if is_type_or_value_error e || bool_decide (e = OtherError "RecursionError") then Err (EdgeConfigurationError msg) else Err e
  end.

Definition edge_intent (built : ActionIntent + json) : py ActionIntent :=
  match ActionIntent_from_dict match built with inl i => JDict (ActionIntent_to_dict i) | inr payload => payload end with
  | Ok intent => Ok intent
  | Err e => if is_type_or_value_error e
             then Err (EdgeConfigurationError "intent_builder must return a valid ActionIntent or Action Intent mapping") else Err e
  end.

Definition intent_for (edge : ProtectedEdge) (requested_action : ActionIntent + json) : py ActionIntent :=
  request_snapshot ← match requested_action with
                     | inr (JDict d) => Ok d
                     | _ => Err (TypeError "requested_action must be a raw mapping, not an ActionIntent")
                     end;
  request_canonical ← edge_canonical request_snapshot "requested_action must be valid canonical JSON data";
  built ← pe_intent_builder edge request_snapshot;
  intent ← edge_intent built;
  bound_parameters ← edge_canonical (act_parameters (in_action intent)) "intent_builder produced action parameters that are not canonical JSON";
  if negb (String.eqb bound_parameters request_canonical)
  then Err (EdgeConfigurationError "intent_builder must bind the complete raw requested action exactly as ActionIntent.action.parameters")
  else Ok intent.

Definition edge_effect (edge : ProtectedEdge) : SideEffect V :=
  mkSideEffect V (Some (2, false)) (fun args =>
    match args with RequestArguments request credential => pe_backend edge (rq_intent request) credential | _ => raise OutOfModel end).

Definition edge_execute (edge : ProtectedEdge) (d : gate_draws) (requested_action : ActionIntent + json) (proof : option (PCCB + json))
    (evidence : option (PreflightEvidence + dict)) : M exn (world R E B X W V) GateOutcome :=
  intent ← lift (intent_for edge requested_action);
  protect (pe_gate edge) d (inl intent) proof (edge_effect edge) (pe_audience edge) evidence "NO_PROOF".

(** ** [langchain.py] and [mcp.py] *)

(** The parts the two tools share, over the arguments [A] a framework binds. *)
Record ProtectedTool (A : Type) := mkProtectedTool {
  pt_gate : ActenonGate B X W;
  pt_action_builder : A -> py (ActionIntent + json);
  pt_audience : option string;
  pt_evidence_builder : option (A -> py (option (PreflightEvidence + dict)))
}.

Definition tool_call {A} (tool : ProtectedTool A) (d : gate_draws) (authorization : AdapterAuthorization) (domain_args : A) (body : M exn V json) :
    M exn (world R E B X W V) GateOutcome :=
  evidence ← lift (match pt_evidence_builder A tool with Some f => f domain_args | None => Ok (az_evidence authorization) end);
  action ← lift (pt_action_builder A tool domain_args);
  protect (pt_gate A tool) d action (az_proof authorization) (thunk body) (inr <$> pt_audience A tool) evidence "PCCB_REQUIRED".

Definition ACTENON_CONFIG_KEY : string := "actenon".
Definition ACTENON_MCP_META_KEY : string := "actenon".

(** The value under ["configurable"] and the adapter's key. *)
Definition actenon_runnable_config (proof : option (PCCB + json)) (evidence : option (PreflightEvidence + json)) : raw_authorization :=
  RawMapping proof evidence.

(** A plain function: whether it is callable and a coroutine function, its name and
    documentation, and the call on keyword arguments. *)
Record DomainFunction := mkDomainFunction {
  df_callable : bool; df_coroutine : bool; df_name : string; df_doc : option string; df_call : dict -> M exn V json
}.

Definition truthy_or (a : option string) (b : option string) : option string :=
  match a with Some s => if str_truthy s then a else b | None => b end.

(** The checks of [protected_structured_tool]; the name and description of the tool. *)
Definition protected_structured_tool (f : DomainFunction) (name description : option string) : py (string * string) :=
  if negb (df_callable f) then Err (TypeError "domain_function must be callable")
  else if df_coroutine f then Err (TypeError "protected_structured_tool currently requires a synchronous domain function")
  else
    let tool_name := default (df_name f) (truthy_or name None) in
    match truthy_or description (df_doc f) with
    | Some text => if str_truthy text then Ok (tool_name, text) else Err (ValueError "LangChain tools require a description or function docstring")
    | None => Err (ValueError "LangChain tools require a description or function docstring")
    end.

(** [found] is the value of the run's configuration. *)
Definition langchain_call (tool : ProtectedTool dict) (f : DomainFunction) (d : gate_draws) (found : raw_authorization) (domain_args : dict) :
    M exn (world R E B X W V) dict :=
  outcome ← tool_call tool d (authorization_from_mapping found) domain_args (df_call f domain_args);
  mret (GateOutcome_to_dict outcome).

Definition mcp_authorization_meta (proof : option (PCCB + json)) (evidence : option (PreflightEvidence + json)) : dict :=
  [(ACTENON_MCP_META_KEY, JDict
     [("proof", match proof with Some (inl p) => JDict (PCCB_to_dict p) | Some (inr j) => j | None => JNull end);
      ("evidence", match evidence with Some (inl e) => JDict (PreflightEvidence_to_dict e) | Some (inr j) => j | None => JNull end)])].

(** An argument of an MCP tool: the injected context, with the [meta] of its request,
    or a value. *)
Inductive mcp_argument := McpContext (meta : option json) | McpValue (j : json).

Definition _context_meta (meta : option json) : dict := match meta with Some (JDict d) => d | _ => [] end.

(** The decorator: the function's parameters must include the context. *)
Definition protected_mcp_tool (f : DomainFunction) (parameters : list string) (context_parameter : string) : py unit :=
  if df_coroutine f then Err (TypeError "protected_mcp_tool currently requires a synchronous tool function")
  else if negb (str_mem context_parameter parameters)
  then Err (TypeError ("protected MCP tool must declare an injected '" +:+ context_parameter +:+ ": Context' parameter"))
  else Ok tt.

(** [arguments] are the bound arguments with the defaults applied; [body] is the
    function on the call's own arguments. *)
Definition mcp_call (tool : ProtectedTool (list (string * mcp_argument))) (context_parameter : string) (d : gate_draws)
    (arguments : list (string * mcp_argument)) (body : M exn V json) : M exn (world R E B X W V) dict :=
  match assoc context_parameter arguments with
  | Some (McpContext meta) =>
      let domain_args := List.filter (fun kv => negb (String.eqb kv.1 context_parameter)) arguments in
      let authorization := authorization_from_mapping (raw_of_json (assoc ACTENON_MCP_META_KEY (_context_meta meta))) in
      outcome ← tool_call tool d authorization domain_args body;
      mret (GateOutcome_to_dict outcome)
  | _ => raise (TypeError ("'" +:+ context_parameter +:+ "' must be an mcp.server.fastmcp.Context"))
  end.

(** ** [fastapi.py]: the dependency *)

(** A request: what [await request.json()] gives and the headers. *)
Record HttpRequest := mkHttpRequest { hr_json : py json; hr_header : string -> option string }.

(** [HTTPException(status_code, detail)] *)
Record HttpError := mkHttpError { he_status : Z; he_detail : json }.

Record FastapiDependency := mkFastapiDependency {
  fd_gate : ActenonGate B X W;
  fd_action_builder : dict -> py (ActionIntent + json);
  fd_side_effect : dict -> M exn V json;
  (** The validated fields, or the model's errors. *)
  fd_body_model : option (dict -> dict + json);
  fd_audience : option string;
  fd_evidence_builder : option (dict -> py (option (PreflightEvidence + dict)));
  fd_proof_header : string;
  fd_evidence_header : string
}.

Definition bad_request (error message : string) : HttpError := mkHttpError 400 (JDict [("error", JStr error); ("message", JStr message)]).

(** [str(exc)] for the exceptions the dependency reports *)
Definition exn_text (e : exn) : string :=
  match e with
  | ValueError msg | TypeError msg | CanonicalisationError msg => msg
  | KeyError k => str_repr k
  | Refused r => exc_message r
  | _ => ""
  end.

(** Steps that end the request with an HTTP error. *)
Definition http A : Type := py (A + HttpError).
Definition http_bind {A B'} (m : http A) (f : A -> http B') : http B' :=
  match m with Ok (inl a) => f a | Ok (inr e) => Ok (inr e) | Err e => Err e end.
Notation "x ⇐ m ; k" := (http_bind m (fun x => k)) (at level 100, m at level 90, right associativity).

Definition request_body (request : HttpRequest) : http dict :=
  match hr_json request with
  | Ok (JDict d) => Ok (inl d)
  | Ok _ => Ok (inr (bad_request "INVALID_JSON_BODY" "The protected endpoint body must be a JSON object."))
  | Err (ValueError msg) => Ok (inr (bad_request "INVALID_JSON_BODY" msg))
  | Err e => Err e
  end.

Definition validated_body (dep : FastapiDependency) (body : dict) : http dict :=
  match fd_body_model dep with
  | Some model => match model body with inl d => Ok (inl d) | inr errors => Ok (inr (mkHttpError 422 errors)) end
  | None => Ok (inl body)
  end.

(** A header that does not decode is an empty proof, which the gate refuses. *)
Definition header_proof (dep : FastapiDependency) (request : HttpRequest) : py (option (PCCB + json)) :=
  match hr_header request (fd_proof_header dep) with
  | Some raw =>
      if negb (str_truthy raw) then Ok None
      else match _decode_json_header raw (fd_proof_header dep) with
           | Ok d => Ok (Some (inr (JDict d)))
           | Err (ValueError _) => Ok (Some (inr (JDict [])))
           | Err e => Err e
           end
  | None => Ok None
  end.

Definition request_evidence (dep : FastapiDependency) (request : HttpRequest) (body : dict) : http (option (PreflightEvidence + dict)) :=
  match fd_evidence_builder dep with
  | Some f => e ← f body; Ok (inl e)
  | None =>
      match hr_header request (fd_evidence_header dep) with
      | Some raw =>
          if negb (str_truthy raw) then Ok (inl None)
          else match _decode_json_header raw (fd_evidence_header dep) with
               | Ok d => Ok (inl (Some (inr d)))
               | Err (ValueError msg) => Ok (inr (bad_request "INVALID_ACTENON_EVIDENCE" msg))
               | Err e => Err e
               end
      | None => Ok (inl None)
      end
  end.

(** [except (ContractValidationError, KeyError, TypeError, ValueError)] *)
Definition built_action (dep : FastapiDependency) (body : dict) : http (ActionIntent + json) :=
  match fd_action_builder dep body with
  | Ok action => Ok (inl action)
  | Err e =>
      if is_type_or_value_error e || match e with KeyError _ => true | Refused r => bool_decide (exc_cls r = ContractValidationErrorC) | _ => false end
      then Ok (inr (bad_request "INVALID_ACTION" (exn_text e))) else Err e
  end.

(** Everything the dependency reads before it asks the gate. *)
Definition read_request (dep : FastapiDependency) (request : HttpRequest) :
    http (dict * option (PCCB + json) * option (PreflightEvidence + dict) * (ActionIntent + json)) :=
  body ⇐ request_body request;
  body ⇐ validated_body dep body;
  proof ⇐ (p ← header_proof dep request; Ok (inl p));
  evidence ⇐ request_evidence dep request body;
  action ⇐ built_action dep body;
  Ok (inl (body, proof, evidence, action)).

Definition dependency (dep : FastapiDependency) (d : gate_draws) (request : HttpRequest) : M exn (world R E B X W V) (GateOutcome + HttpError) :=
  read ← lift (read_request dep request);
  match read with
  | inr e => mret (inr e)
  | inl (body, proof, evidence, action) =>
      outcome ← protect (fd_gate dep) d action proof (thunk (fd_side_effect dep body)) (inr <$> fd_audience dep) evidence "PCCB_REQUIRED";
      mret (if gate_ok outcome then inl outcome else inr (mkHttpError 403 (JDict (GateOutcome_to_dict outcome))))
  end.

(** The function's check of its side effect. *)
Definition fastapi_dependency (coroutine : bool) (dep : FastapiDependency) : py FastapiDependency :=
  if coroutine then Err (TypeError "fastapi_dependency currently requires a synchronous side_effect") else Ok dep.

(** [ActenonGate.fastapi_dependency] *)
Definition gate_fastapi_dependency (g : ActenonGate B X W) (coroutine : bool) (action_builder : dict -> py (ActionIntent + json))
    (side_effect : dict -> M exn V json) (body_model : option (dict -> dict + json)) (audience : option (AudienceRef + string))
    (evidence_builder : option (dict -> py (option (PreflightEvidence + dict)))) (proof_header evidence_header : string) : py FastapiDependency :=
  fastapi_dependency coroutine (mkFastapiDependency g action_builder side_effect body_model
    match audience with Some (inl a) => Some (aud_type a +:+ ":" +:+ aud_id a) | Some (inr s) => Some s | None => None end
    evidence_builder proof_header evidence_header).
End Adapters.

(** ** Facts *)
Section Facts.
Context `{Protocol} `{ProtocolAuthority} `{ProtocolEffects} `{PyText} `{Ed25519} `{Platform}.
Context {R E B X W V : Type} `{ReplayStore R} `{CapabilityEscrow E}.
Implicit Types (w : world R E B X W V).

Lemma edge_canonical_Ok (d : dict) msg s : edge_canonical d msg = Ok s -> _canonicalize_json (JDict d) = Ok s.
Proof.
  unfold edge_canonical. destruct (canonicalize_json (JDict d) MAX_JSON_DEPTH) as [t|e] eqn:Hc; [|by destruct (_ || _)].
  intros [= <-]. by apply canonicalize_json_Ok in Hc as [Hc _].
Qed.

(** The intent of the edge carries the whole request, up to the order of keys. *)
Lemma intent_for_binds (edge : ProtectedEdge (B := B) (X := X) (W := W) (V := V)) requested intent : intent_for edge requested = Ok intent ->
  exists raw, requested = inr (JDict raw) /\ json_norm (JDict (act_parameters (in_action intent))) = json_norm (JDict raw).
Proof.
  unfold intent_for. intros (raw & Hr & Hi)%bind_Ok. destruct requested as [|[]]; try done. injection Hr as ->. exists raw. split; [done|].
  apply bind_Ok in Hi as (s & Hs%edge_canonical_Ok & Hi). apply bind_Ok in Hi as (built & _ & Hi). apply bind_Ok in Hi as (i & _ & Hi).
  apply bind_Ok in Hi as (t & Ht%edge_canonical_Ok & Hi). destruct (String.eqb_spec t s) as [->|]; [|done]. injection Hi as <-.
  pose proof (decode_canon _ _ Hs) as H1'. pose proof (decode_canon _ _ Ht) as H2'. congruence.
Qed.

Lemma invoke_state (se : SideEffect V) request cred env :
  (_invoke_side_effect se request cred env).2 = (se_call se (effect_arguments (se_signature se) request cred) env).2.
Proof. unfold _invoke_side_effect. rewrite M_bind_run. by destruct (se_call _ _ env) as [[]]. Qed.

Lemma http_bind_error {A A'} (m : http A) (f : A -> http A') e :
  http_bind m f = Ok (inr e) -> m = Ok (inr e) \/ exists a, m = Ok (inl a) /\ f a = Ok (inr e).
Proof. destruct m as [[a|e']|x]; cbn; [eauto|by intros [= <-]; left|done]. Qed.

Lemma read_request_error (dep : FastapiDependency (B := B) (X := X) (W := W) (V := V)) request e :
  read_request dep request = Ok (inr e) -> he_status e ∈ [400; 403; 422]%Z.
Proof.
  assert (forall error msg, he_status (bad_request error msg) ∈ [400; 403; 422]%Z) as Hbad by (intros; cbn; set_solver).
  unfold read_request. intros [Hb|(body & _ & Hr)]%http_bind_error.
  { unfold request_body in Hb. destruct (hr_json request) as [[]|[]]; simplify_eq; apply Hbad. }
  apply http_bind_error in Hr as [Hb|(body' & _ & Hr)].
  { unfold validated_body in Hb. destruct (fd_body_model dep) as [model|]; [|done]. destruct (model body); [done|]. injection Hb as <-. cbn. set_solver. }
  apply http_bind_error in Hr as [Hb|(proof & _ & Hr)]; [by destruct (header_proof dep request)|].
  apply http_bind_error in Hr as [Hb|(evidence & _ & Hr)].
  { unfold request_evidence in Hb. destruct (fd_evidence_builder dep) as [f|]; [by destruct (f body')|].
    destruct (hr_header request _) as [raw|]; [|done]. destruct (negb _); [done|].
    destruct (_decode_json_header _ _) as [|[]]; simplify_eq; apply Hbad. }
  apply http_bind_error in Hr as [Hb|(action & _ & Hr)]; [|done].
  unfold built_action in Hb. destruct (fd_action_builder dep body'); [done|]. destruct (_ || _); [|done]. injection Hb as <-. apply Hbad.
Qed.

(** Discarding the value of a call leaves its effect. *)
Lemma after_mret {A A'} (m : M exn (world R E B X W V) A) (f : A -> A') w : ((m ≫= fun a => mret (f a)) w).2 = (m w).2.
Proof. rewrite M_bind_run. by destruct (m w) as [[]]. Qed.

(** What a tool did: nothing, or one mediated call of [body] on the action built from
    these arguments and the proof of this authorization. *)
Definition tool_mediated {A} (tool : ProtectedTool (B := B) (X := X) (W := W) A) (authorization : AdapterAuthorization) (domain_args : A)
    (body : M exn V json) w w' : Prop :=
  (w_calls w' = w_calls w /\ w_env w' = w_env w) \/
  exists action evidence, pt_action_builder A tool domain_args = Ok action /\
    mediated (pt_gate A tool) action (az_proof authorization) (thunk body) (inr <$> pt_audience A tool) evidence w w'.

Lemma tool_call_mediated {A} (tool : ProtectedTool A) d authorization domain_args body w :
  tool_mediated tool authorization domain_args body w (tool_call tool d authorization domain_args body w).2.
Proof.
  unfold tool_call, tool_mediated. rewrite M_bind_run. destruct (match pt_evidence_builder A tool with Some f => _ | None => _ end) as [ev|]; [|by left]. cbn [lift].
  rewrite M_bind_run. destruct (pt_action_builder A tool domain_args) as [action|] eqn:Ha; [|by left]. cbn [lift]. right. eauto using protect_mediated.
Qed.
End Facts.

(** ** Properties *)

(** The edge executes only the request that was presented: it leaves the
    backend uncalled, or calls it once, with the verified intent and the brokered
    credential, behind everything the gate requires; and the parameters of that
    intent are the raw request, entry for entry at every level, up to the order of
    keys. *)
Theorem edge_binds_request `{Protocol} `{ProtocolAuthority} `{ProtocolEffects} `{PyText} `{Ed25519} {R E B X W V : Type} `{ReplayStore R} `{CapabilityEscrow E}
    (edge : ProtectedEdge (B := B) (X := X) (W := W) (V := V)) (d : gate_draws) (requested : ActionIntent + json) (proof : option (PCCB + json))
    (evidence : option (PreflightEvidence + dict)) (w : world R E B X W V) :
  let w' := (edge_execute edge d requested proof evidence w).2 in
  (w_calls w' = w_calls w /\ w_env w' = w_env w) \/
  exists raw request cred pd,
    requested = inr (JDict raw) /\ json_norm (JDict (act_parameters (in_action (rq_intent request)))) = json_norm (JDict raw) /\
    w_calls w' = w_calls w ++ [request] /\ w_env w' = (pe_backend edge (rq_intent request) cred (w_env w)).2 /\
    cleared (gt_executor (pe_gate edge)) request pd w w' /\ policy_cleared (pe_gate edge) (rq_intent request) (_coerce_evidence evidence) /\
    match proof with Some (inl p) => p = rq_pccb request | Some (inr payload) => PCCB_from_dict payload = Ok (rq_pccb request) | None => False end.
Proof.
  cbv zeta. unfold edge_execute. rewrite M_bind_run. destruct (intent_for edge requested) as [intent|] eqn:Hi; [|by left]. cbn [lift].
  destruct (protect_mediated (pe_gate edge) d (inl intent) proof (edge_effect edge) (pe_audience edge) evidence "NO_PROOF" w)
    as [?|(request & cred & pd & Hc & Henv & Hcl & Hpol & Ha & Hpr & _)]; [by left|right].
  injection Ha as Ha. destruct (intent_for_binds _ _ _ Hi) as (raw & -> & Hn). exists raw, request, cred, pd.
  rewrite invoke_state in Henv. rewrite <- Ha in *. split_and!; try done. rewrite Henv. cbn. by rewrite <- Ha.
Qed.

(** The framework adapters are mediated: a LangChain tool, an MCP tool and a
    FastAPI dependency call their function at most once, on the very arguments the
    action was built from, with the proof of the framework's own context, and only
    as the gate's side effect. *)
Theorem adapters_mediated `{Protocol} `{ProtocolAuthority} `{ProtocolEffects} `{PyText} `{Ed25519} `{Platform} {R E B X W V : Type} `{ReplayStore R}
    `{CapabilityEscrow E} (d : gate_draws) (w : world R E B X W V) :
  (forall tool (f : DomainFunction (V := V)) found args,
     tool_mediated tool (authorization_from_mapping found) args (df_call f args) w (langchain_call (B := B) (X := X) (W := W) tool f d found args w).2) /\
  (forall tool parameter arguments body,
     let w' := (mcp_call (B := B) (X := X) (W := W) (V := V) tool parameter d arguments body w).2 in
     w' = w \/ exists meta, assoc parameter arguments = Some (McpContext meta) /\
       tool_mediated tool (authorization_from_mapping (raw_of_json (assoc ACTENON_MCP_META_KEY (_context_meta meta))))
         (List.filter (fun kv => negb (String.eqb kv.1 parameter)) arguments) body w w') /\
  (forall (dep : FastapiDependency (B := B) (X := X) (W := W) (V := V)) request,
     let w' := (dependency dep d request w).2 in
     w' = w \/ exists body proof evidence action, read_request dep request = Ok (inl (body, proof, evidence, action)) /\
       mediated (fd_gate dep) action proof (thunk (fd_side_effect dep body)) (inr <$> fd_audience dep) evidence w w').
Proof.
  split_and!.
  - intros tool f found args. unfold langchain_call. rewrite after_mret. apply tool_call_mediated.
  - intros tool parameter arguments body. unfold mcp_call. destruct (assoc parameter arguments) as [[meta|]|]; [|by left..].
    right. exists meta. split; [done|]. rewrite after_mret. apply tool_call_mediated.
  - intros dep request. unfold dependency. rewrite M_bind_run. destruct (read_request dep request) as [[[[[body proof] evidence] action]|e]|e]; [|by left..].
    right. exists body, proof, evidence, action. split; [done|]. cbn [lift]. rewrite after_mret. apply protect_mediated.
Qed.

(** A protected route is reached only after its side effect was executed: the
    dependency returns an outcome only when the gate called the side effect on the
    request's body and it returned, and that result is the outcome's payload; in
    every other answered case the client gets one of the four-hundred statuses. *)
Theorem fastapi_route_reached `{Protocol} `{ProtocolAuthority} `{ProtocolEffects} `{PyText} `{Ed25519} `{Platform} {R E B X W V : Type} `{ReplayStore R}
    `{CapabilityEscrow E} (e : environment) (a : gate_args B X W) (dep : FastapiDependency (B := B) (X := X) (W := W) (V := V)) (d : gate_draws)
    (request : HttpRequest) (w w' : world R E B X W V) (r : GateOutcome + HttpError) :
  ActenonGate_new e a = Ok (fd_gate dep) -> dependency dep d request w = (Ok r, w') ->
  match r with
  | inl outcome => gate_ok outcome = true /\ exists body proof evidence action result h,
      read_request dep request = Ok (inl (body, proof, evidence, action)) /\ fd_side_effect dep body (w_env w) = (Ok result, h) /\
      go_payload outcome = Some (effect_payload result)
  | inr error => he_status error ∈ [400; 403; 422]%Z
  end.
Proof.
  intros Hg. unfold dependency. intros (read & w1 & [= Hr <-] & Hd)%M_bind_Ok. destruct read as [[[[body proof] evidence] action]|error].
  - apply M_bind_Ok in Hd as (outcome & w2 & Hp & [= <- <-]). pose proof (protect_honest _ _ _ _ _ _ _ _ _ _ _ _ _ Hg Hp) as Hh.
    unfold outcome_honest in Hh. destruct (gate_ok outcome) eqn:Hok; [|cbn; set_solver]. split; [done|].
    destruct Hh as (rq & cred & result & h & Hcall & Hpay). by exists body, proof, evidence, action, result, h.
  - injection Hd as <- <-. by eapply read_request_error.
Qed.

(** ** The headers *)
Lemma padding_for_group a b c d s : padding_for (String a (String b (String c (String d s)))) = padding_for s.
Proof.
  unfold padding_for. cbn [String.length]. replace (S (S (S (S (String.length s)))))%nat with (String.length s + 1 * 4)%nat by lia.
  by rewrite Nat.Div0.mod_add.
Qed.

Lemma a2b_encode s : a2b_lenient 0 0 0 (b64url_encode s +:+ padding_for (b64url_encode s)) = Some s.
Proof.
  induction s as [|a|a b|a b c r IH] using string_ind3; [done|..]; cbn [b64url_encode]; cbv zeta;
    pose proof (N_ascii_bounded a) as Ha; try pose proof (N_ascii_bounded b) as Hb; try pose proof (N_ascii_bounded c) as Hc.
  1,2: cbn [padding_for String.length Nat.modulo Nat.divmod snd Nat.sub].
  3: rewrite padding_for_group.
  all: rewrite !string_app_cons, ?string_app_nil_l.
  all: cbn [a2b_lenient]; repeat (rewrite base64_char_data by (div_lia)); repeat (rewrite base64_char_value by (div_lia)); cbn [a2b_lenient].
  all: try (change (Ascii.eqb "=" "=") with true; cbn).
  3: rewrite IH; cbn [fmap option_fmap option_map].
  all: repeat f_equal; apply byte_of_id; div_lia.
Qed.

Lemma encode_is_ascii s : is_ascii (b64url_encode s) = true.
Proof.
  assert (forall n, (n < 64)%N -> (N_of_ascii (base64url_char n) <? 128)%N = true) as Hc.
  { apply N_lt_64_ind. intros k Hk. do 64 (destruct k as [|k]; [reflexivity|]). lia. }
  unfold is_ascii. induction s as [|a|a b|a b c r IH] using string_ind3; [done|..]; cbn [b64url_encode]; cbv zeta;
    pose proof (N_ascii_bounded a) as Ha; try pose proof (N_ascii_bounded b) as Hb; try pose proof (N_ascii_bounded c) as Hcc;
    cbn [String.list_ascii_of_string forallb]; rewrite ?Hc by (div_lia); done.
Qed.

(** A header carries its object: what [encode_json_header] writes decodes to the
    object the standard parser reads in the text it was printed as; so a printer
    the parser inverts gives the object back. *)
Theorem header_roundtrip `{Platform} `{CompactDumps} (value : PCCB + dict) (field_name : string) (t : jtree) (d : dict) :
  let payload := match value with inl p => PCCB_to_dict p | inr d => d end in
  platform_utf8_valid (compact_dumps payload) = true -> platform_parse_text (compact_dumps payload) = ParsedTree t -> plain_tree t = JDict d ->
  _decode_json_header (encode_json_header value) field_name = Ok d.
Proof.
  cbv zeta. intros Hu Hp Ht. unfold _decode_json_header, encode_json_header. rewrite encode_is_ascii, a2b_encode. cbn [negb].
  by rewrite Hu, Hp, Ht.
Qed.

(** ** Samples: a route whose request carries the gate's proof in its header. *)
Definition sample_header : string := match _canonicalize_json (JDict (PCCB_to_dict gate_pccb)) with Ok s => b64url_encode s | Err _ => "" end.
Definition sample_dependency : FastapiDependency (V := nat) :=
  mkFastapiDependency sample_gate (fun _ => Ok (inl sample_intent)) (fun body n => (Ok (JStr "re_1"), S n)) None None None
    ACTENON_PROOF_HEADER ACTENON_EVIDENCE_HEADER.
Definition sample_http_request : HttpRequest :=
  mkHttpRequest (Ok (JDict [("amount", JInt 5)])) (fun name => if String.eqb name ACTENON_PROOF_HEADER then Some sample_header else None).
Definition sample_route := @dependency demo_protocol sample_authority sample_effects demo_text demo_ed25519 demo_platform
  _ _ _ _ _ _ database_store memory_escrow sample_dependency sample_gate_draws sample_http_request sample_gate_mint.2.

Lemma fastapi_route_reached_witness : exists outcome, sample_route.1 = Ok (inl outcome) /\ gate_ok outcome = true.
Proof.
  assert (match sample_route.1 with Ok (inl o) => gate_ok o | _ => false end = true) as Hok by (vm_compute; reflexivity).
  destruct sample_route as [[[o|]|] w'] eqn:Hp; [|discriminate Hok..]. exists o. split; [reflexivity|].
  exact (proj1 (@fastapi_route_reached demo_protocol sample_authority sample_effects demo_text demo_ed25519 demo_platform _ _ _ _ _ _ database_store memory_escrow
    production_env sample_gate_args sample_dependency sample_gate_draws sample_http_request sample_gate_mint.2 w' (inl o) sample_gate_Ok Hp)).
Defined.

Definition flat_dumps : CompactDumps := fun d => match _canonicalize_json (JDict d) with Ok s => s | Err _ => "" end.
Definition sample_fields : dict := [("amount", JInt 5); ("currency", JStr "EUR")].

Lemma header_roundtrip_witness : @_decode_json_header demo_platform (@encode_json_header flat_dumps (inr sample_fields)) "X-Actenon-Evidence" = Ok sample_fields.
Proof. eapply (@header_roundtrip demo_platform flat_dumps (inr sample_fields)); vm_compute; reflexivity. Defined.
