(* ===== verification/McpServer.v ===== *)
(** * The MCP server: [actenon/mcp_server.py]

    A stdio server over the gate: [actenon_verify] checks a proof, [actenon_gate]
    decides an action, [actenon_receipt] reads the decision log and, in demo mode,
    [actenon_demo_grant] mints a proof.  The state of the server is the world of its
    gate and the hash-chained decision log.  A tool is a step on that state that
    returns its response or raises; the values FastMCP hands over are the arguments
    ([None] is [JNull], a proof or an intent given as text is [JStr]).  The texts of
    the parser's own errors are abbreviated, as in [Canonical].

    The theorems: a response that allows means the gate executed the very action of
    the tool's arguments and the log records its receipt; [actenon_verify] says
    "VALID" exactly for a proof the verifier accepts for those arguments; the log
    gains one entry for each answered decision and nothing else, and its last hash
    commits to every decision; a server does not start in a production-like
    environment. *)

From S2P Require Import Prelude AnchorLog Text Json Errors Timestamps Canonical Base64 Contracts Runtime Samples ProofService SecurityPosture Replay ReplayStore Escrow Receipts Artifacts Idempotency Credentials Effects Executor ExecutorFrames ExecutorProofs Policy Middleware Kernel LocalSigner ManagedSigners Merkle Transparency Countersignature TrustArtifacts Preflight Endpoint Boundary Gate Adapters.

Definition DEMO_BANNER : string := "DEMO MODE — ephemeral key, not for production.".
Definition DEFAULT_AUDIENCE : string := "mcp:actenon-demo".
Definition DECISION_LOG_ENTRY_CONTRACT : json := JDict [("name", JStr "mcp_decision_log_entry"); ("version", JStr "v1")].

Definition _refusal_response (reason_code reason : json) (extra : dict) : dict :=
  assoc_merge [("outcome", JStr "REFUSED"); ("allowed", JBool false); ("reason_code", reason_code); ("reason", reason)] extra.

(** The arguments the tools share. *)
Record tool_args := mkToolArgs { ta_action_name : string; ta_capability : string; ta_parameters : dict; ta_target_type : string; ta_target_id : string }.

(** What one call draws: for the gate, and for [build_action]. *)
Record tool_draws := mkToolDraws { td_gate : gate_draws; td_fresh : string; td_clock : datetime }.

(** ** [DecisionLog] *)
Section Log.
Context `{Protocol}.

Definition log_append (entries : list dict) (kind : string) (artifact : dict) : py dict :=
  let entry := [("contract", DECISION_LOG_ENTRY_CONTRACT); ("index", JInt (Z.of_nat (length entries))); ("kind", JStr kind);
                ("artifact", JDict artifact); ("previous_entry_hash", head_hash entries)] in
  value ← sha256_hex (JDict entry);
  Ok (entry ++ [("entry_hash", JDict [("algorithm", JStr "sha-256"); ("canonicalization", JStr CANONICALIZATION_PROFILE); ("value", JStr value)])]).

Definition entry_artifact (entry : dict) : dict := match dget entry "artifact" with JDict a => a | _ => [] end.

Definition log_find (entries : list dict) (artifact_id : string) : option dict :=
  List.find (fun entry => is_str (dget (entry_artifact entry) "receipt_id") artifact_id || is_str (dget (entry_artifact entry) "refusal_id") artifact_id) entries.

Definition chain_reference (entries : list dict) (entry : dict) : json :=
  JDict [("index", dget entry "index"); ("entry_hash", dget entry "entry_hash"); ("previous_entry_hash", dget entry "previous_entry_hash");
         ("chain_length", JInt (Z.of_nat (length entries)))].
End Log.

(** ** The tools *)
Section Server.
Context `{Protocol} `{ProtocolAuthority} `{ProtocolEffects} `{PyText} `{Ed25519} `{Platform}.
Context {R E B X W V : Type} `{ReplayStore R} `{CapabilityEscrow E}.

Record server_state := mkServerState { sv_world : world R E B X W V; sv_log : list dict }.
Definition server_world_lens : lens server_state (world R E B X W V) := mkLens _ _ sv_world (fun w s => mkServerState w (sv_log s)).

Definition strict_loads (text : string) : py json :=
  from_json_error (loads_no_duplicate_keys platform_parse_text platform_utf8_valid (RawStr text) DEFAULT_MAX_JSON_BYTES DEFAULT_MAX_JSON_DEPTH).

Definition _coerce_proof (proof : PCCB + json) : py (option PCCB) :=
  match proof with
  | inr JNull => Ok None
  | inl pccb => Ok (Some pccb)
  | inr (JStr text) => payload ← strict_loads text; p ← PCCB_from_dict payload; Ok (Some p)
  | inr payload => p ← PCCB_from_dict payload; Ok (Some p)
  end.

(** [except (TypeError, ValueError)]: the parameters do not match. *)
Definition same_parameters (parameters intended : dict) : py bool :=
  match (a ← canonicalize_bytes (JDict parameters) DEFAULT_MAX_CANONICAL_OUTPUT_BYTES;
         b ← canonicalize_bytes (JDict intended) DEFAULT_MAX_CANONICAL_OUTPUT_BYTES; Ok (String.eqb a b)) with
  | Ok same => Ok same
  | Err e => if is_type_or_value_error e then Ok false else Err e
  end.

Definition _argument_mismatch (intent : ActionIntent) (a : tool_args) : py (option (string * string)) :=
  if negb (String.eqb (act_name (in_action intent)) (ta_action_name a)) || negb (String.eqb (act_capability (in_action intent)) (ta_capability a))
  then Ok (Some ("ACTION_MISMATCH", "The tool's action_name/capability do not match the supplied intent."))
  else
    same ← same_parameters (ta_parameters a) (act_parameters (in_action intent));
    if negb same
    then Ok (Some ("ACTION_MISMATCH", "The tool's parameters do not exactly match the supplied intent (canonical comparison; floats are never accepted)."))
    else if negb (String.eqb (tgt_resource_type (in_target intent)) (ta_target_type a)) || negb (String.eqb (tgt_resource_id (in_target intent)) (ta_target_id a))
    then Ok (Some ("TARGET_MISMATCH", "The tool's target_type/target_id do not match the supplied intent."))
    else Ok None.

Definition _intent_refusal (e : exn) (extra : dict) : dict :=
  _refusal_response (JStr "INTENT_MALFORMED") (JStr ("The supplied intent is not a valid Action Intent: " +:+ exn_text e)) extra.

Definition _verifier_context (g : ActenonGate B X W) (d : gate_draws) (intent : ActionIntent) : DynamicContextInput :=
  let selectors := if dict_truthy (tgt_selectors (in_target intent)) then tgt_selectors (in_target intent)
                   else [("resource_id", JStr (tgt_resource_id (in_target intent)))] in
  let constraints := if dict_truthy (act_constraints (in_action intent)) then act_constraints (in_action intent) else act_parameters (in_action intent) in
  mkContext (gd_request_id d) (gt_audience g) [act_capability (in_action intent)] (gd_now d) [] constraints [selectors] [] [] None.

(** The gate and the verifier of [build_server]. *)
Record McpServer := mkMcpServer { ms_demo : bool; ms_gate : ActenonGate B X W; ms_verifier : PCCBVerifier }.

Definition build_server (env : option string) (demo : bool) (g : ActenonGate B X W) (signer : SignatureVerifier) : py McpServer :=
  verifier ← PCCBVerifier_init env (mkPCCBVerifier signer DEFAULT_CLOCK_SKEW_TOLERANCE (if demo then LOCAL_DEBUG else TRUSTED_DETAILED) None None None);
  Ok (mkMcpServer demo g verifier).

Variable s : McpServer.
Let g := ms_gate s.

Definition default_action_args (a : tool_args) : action_args :=
  mkActionArgs (ta_action_name a) (ta_capability a) (ta_parameters a) (ta_target_type a) (ta_target_id a) "default" "agent" "agent" 10 None None None None.

Definition _build_intent (d : tool_draws) (a : tool_args) (intent : json) : py dict :=
  match intent with
  | JNull => build_action (td_fresh d) (td_clock d) (default_action_args a)
  | _ =>
      payload ← match intent with JStr text => strict_loads text | j => Ok j end;
      match payload with JDict p => Ok p | _ => Err (ValueError "intent must be a JSON object") end
  end.

Definition parsed_intent (d : tool_draws) (a : tool_args) (intent : json) : py ActionIntent :=
  payload ← _build_intent d a intent; parse (JDict payload).

(** [except (RefusalException, ValueError, TypeError)] *)
Definition intent_error (e : exn) : bool := is_refusal_exception e || is_type_or_value_error e.
(** [except (ValueError, TypeError, KeyError, AttributeError)] *)
Definition proof_error (e : exn) : bool := is_type_or_value_error e || match e with KeyError _ | AttributeError _ => true | _ => false end.

Definition INVALID : dict := [("outcome", JStr "INVALID"); ("valid", JBool false)].

Definition proof_malformed (e : exn) (extra : dict) : dict :=
  _refusal_response (JStr "PROOF_MALFORMED") (JStr ("The supplied proof could not be parsed as a PCCB: " +:+ exn_text e)) extra.

Definition actenon_verify (d : tool_draws) (a : tool_args) (proof intent : json) : py dict :=
  match parsed_intent d a intent with
  | Err e => if intent_error e then Ok (_intent_refusal e [("valid", JBool false)]) else Err e
  | Ok i =>
      mismatch ← _argument_mismatch i a;
      match mismatch with
      | Some (code, reason) => Ok (_refusal_response (JStr code) (JStr reason) (INVALID ++ [("intent_id", JStr (in_intent_id i))]))
      | None =>
          match _coerce_proof (inr proof) with
          | Err e => if proof_error e then Ok (proof_malformed e INVALID) else Err e
          | Ok None =>
              Ok (_refusal_response (JStr "PCCB_REQUIRED")
                    (JStr "No proof was supplied. Actenon refuses by default: a consequential action needs a proof bound to that exact action.") INVALID)
          | Ok (Some pccb) =>
              match verify (ms_verifier s) i pccb (_verifier_context g (td_gate d) i) with
              | Err (Refused r) =>
                  Ok (_refusal_response (JStr (exc_refusal_code r)) (JStr (exc_message r)) (INVALID ++ [("intent_id", JStr (in_intent_id i))]))
              | Err e => Err e
              | Ok _ =>
                  Ok [("outcome", JStr "VALID"); ("valid", JBool true); ("reason_code", JNull);
                      ("reason", JStr "The proof is bound to this exact action, target, audience, and time window, and its signature verified.");
                      ("intent_id", JStr (in_intent_id i)); ("pccb_id", JStr (pc_pccb_id pccb))]
              end
          end
      end
  end.

(** The side effect of the server's gate: [lambda **kwargs: {...}]. *)
Definition simulated_effect : SideEffect V :=
  mkSideEffect V (Some (0, false)) (fun _ => mret (JDict
    [("simulated", JBool true);
     ("note", JStr "actenon-mcp does not perform your side effect; it decides whether your side effect is allowed to run.")])).

(** [log.append(kind=kind, artifact=artifact)] *)
Definition record_decision (kind : string) (artifact : dict) : M exn server_state dict := fun st =>
  match log_append (sv_log st) kind artifact with
  | Ok entry => (Ok entry, mkServerState (sv_world st) (sv_log st ++ [entry]))
  | Err e => (Err e, st)
  end.

Definition decide_action (d : tool_draws) (a : tool_args) (pccb : option PCCB) (i : ActionIntent) : M exn server_state GateOutcome :=
  mismatch ← lift (_argument_mismatch i a);
  zoom server_world_lens
    match mismatch with
    | Some (code, reason) => _refuse g (td_gate d) i (_verifier_context g (td_gate d) i) (ProofVerificationError code reason []) []
    | None => protect g (td_gate d) (inl i) (inl <$> pccb) simulated_effect None None "PCCB_REQUIRED"
    end.

Definition decision_response (outcome : GateOutcome) : M exn server_state dict :=
  match go_refusal outcome with
  | Some refusal =>
      let artifact := Refusal_to_dict refusal in
      entry ← record_decision "refusal" artifact;
      entries ← gets sv_log;
      mret (_refusal_response (dget artifact "reason_code") (dget artifact "message")
        [("refusal_id", dget artifact "refusal_id"); ("retryable", dget_default artifact "retryable" (JBool false)); ("intent_id", dget artifact "intent_id");
         ("chain", chain_reference entries entry);
         ("next_step", JStr "Obtain a proof scoped to this exact action from your authority broker, then call actenon_gate again.")])
  | None =>
      match go_receipt outcome with
      | None => raise (AttributeError "to_dict")
      | Some receipt =>
          let artifact := Receipt_to_dict receipt in
          entry ← record_decision "receipt" artifact;
          entries ← gets sv_log;
          mret [("outcome", JStr "ALLOW"); ("allowed", JBool true); ("reason_code", JNull);
                ("reason", JStr "The proof verified for this exact action, target, audience, scope, and time window, and single-use replay state was consumed.");
                ("receipt_id", dget artifact "receipt_id"); ("intent_id", dget artifact "intent_id"); ("chain", chain_reference entries entry)]
      end
  end.

Definition actenon_gate (d : tool_draws) (a : tool_args) (proof intent : json) : M exn server_state dict :=
  match parsed_intent d a intent with
  | Err e => if intent_error e then mret (_intent_refusal e []) else raise e
  | Ok i =>
      match _coerce_proof (inr proof) with
      | Err e => if proof_error e then mret (proof_malformed e []) else raise e
      | Ok pccb => outcome ← decide_action d a pccb i; decision_response outcome
      end
  end.

(** [a or b] of two values of a dict *)
Definition value_or (a b : json) : json := if py_truthy a then a else b.

Definition listed_entry (entry : dict) : json :=
  JDict [("index", dget entry "index"); ("kind", dget entry "kind");
         ("artifact_id", value_or (dget (entry_artifact entry) "receipt_id") (dget (entry_artifact entry) "refusal_id"));
         ("entry_hash", match dget entry "entry_hash" with JDict h => dget h "value" | _ => JNull end);
         ("previous_entry_hash", dget entry "previous_entry_hash")].

Definition actenon_receipt (artifact_id : option string) (entries : list dict) : dict :=
  let length := JInt (Z.of_nat (length entries)) in
  match artifact_id with
  | None =>
      [("outcome", JStr "OK"); ("reason_code", JNull); ("reason", JStr ("This server has recorded " +:+ py_str length +:+ " decision(s)."));
       ("chain_length", length); ("entries", JList (map listed_entry entries))]
  | Some id =>
      match log_find entries id with
      | None =>
          _refusal_response (JStr "ARTIFACT_NOT_FOUND")
            (JStr ("No decision with id " +:+ str_repr id +:+
                   " was recorded by this server. Receipts live for the lifetime of the process; a restarted demo server starts an empty chain."))
            [("outcome", JStr "NOT_FOUND")]
      | Some entry =>
          [("outcome", JStr "OK"); ("reason_code", JNull);
           ("reason", JStr ("Decision " +:+ id +:+ " is entry " +:+ py_str (dget entry "index") +:+ " in this server's hash-chained decision log."));
           ("kind", dget entry "kind"); ("artifact", dget entry "artifact"); ("chain", chain_reference entries entry)]
      end
  end.

Definition actenon_demo_grant (d : tool_draws) (a : tool_args) : M exn server_state dict :=
  payload ← lift (_build_intent d a JNull);
  pccb ← zoom server_world_lens (mint_proof g (td_gate d) (inr (JDict payload)) "allow" None);
  mret [("outcome", JStr "GRANTED"); ("intent", JDict payload); ("reason_code", JNull);
        ("reason", JStr (DEMO_BANNER +:+ " A scoped, single-use proof was issued for this exact action. It will not verify for any other action, target, parameter set, or audience. Pass BOTH `proof` and `intent` back to actenon_gate: the proof is bound to this exact intent, so a rebuilt lookalike intent is refused as INTENT_MISMATCH."));
        ("proof", JDict (PCCB_to_dict pccb)); ("pccb_id", JStr (pc_pccb_id pccb)); ("expires_at", JStr (isoformat (pc_expires_at pccb)))].

(** One request of a client.  The grant exists in demo mode only. *)
Inductive tool_request :=
| ToolVerify (d : tool_draws) (a : tool_args) (proof intent : json)
| ToolGate (d : tool_draws) (a : tool_args) (proof intent : json)
| ToolReceipt (artifact_id : option string)
| ToolGrant (d : tool_draws) (a : tool_args).

Definition serve (r : tool_request) : M exn server_state dict :=
  match r with
  | ToolVerify d a proof intent => lift (actenon_verify d a proof intent)
  | ToolGate d a proof intent => actenon_gate d a proof intent
  | ToolReceipt id => entries ← gets sv_log; mret (actenon_receipt id entries)
  | ToolGrant d a => if ms_demo s then actenon_demo_grant d a else raise (OtherError "ToolError")
  end.

(** A raised exception is an error response; the server goes on. *)
Definition serve_all (requests : list tool_request) (st : server_state) : server_state := fold_left (fun st r => (serve r st).2) requests st.

(** The decision a request takes, whatever is done with it: that of the gate tool,
    when its intent and its proof can be read and the gate answers. *)
Definition decision_of_outcome (outcome : GateOutcome) : option (string * dict) :=
  match go_refusal outcome with
  | Some refusal => Some ("refusal", Refusal_to_dict refusal)
  | None => match go_receipt outcome with Some receipt => Some ("receipt", Receipt_to_dict receipt) | None => None end
  end.
Definition decision_taken (r : tool_request) (st : server_state) : option (string * dict) :=
  match r with
  | ToolGate d a proof intent =>
      match parsed_intent d a intent, _coerce_proof (inr proof) with
      | Ok i, Ok pccb => match (decide_action d a pccb i st).1 with Ok outcome => decision_of_outcome outcome | Err _ => None end
      | _, _ => None
      end
  | _ => None
  end.

(** The decisions of the requests that are answered, in order. *)
Fixpoint decisions (requests : list tool_request) (st : server_state) : list (string * dict) :=
  match requests with
  | [] => []
  | r :: requests =>
      (if is_ok (serve r st).1 then option_list (decision_taken r st) else []) ++ decisions requests (serve r st).2
  end.
End Server.
Arguments McpServer : clear implicits.
Arguments server_state : clear implicits.

(** ** Start-up *)

(** [b.strip()] of a byte string *)
Definition byte_space (c : Ascii.ascii) : bool := let n := Ascii.N_of_ascii c in ((9 <=? n) && (n <=? 13) || (n =? 32))%N.
Fixpoint drop_byte_spaces (l : list Ascii.ascii) : list Ascii.ascii :=
  match l with c :: l' => if byte_space c then drop_byte_spaces l' else l | [] => [] end.
Definition bytes_strip (b : string) : string :=
  String.string_of_list_ascii (reverse (drop_byte_spaces (reverse (drop_byte_spaces (String.list_ascii_of_string b))))).

Definition SystemExit : exn := OtherError "SystemExit".

(** [except (ProductionSigningGuardError, InsecureDefaultRefusedError)], with the
    subclasses of the latter. *)
Definition guard_error (e : exn) : bool :=
  bool_decide (e ∈ [ProductionSigningGuardError; InsecureDefaultRefusedError; LocalHmacProductionGuardError; DevelopmentIntentConflictError]).

Section Startup.
Context `{Protocol} `{PyText} `{Hmac} `{Base64Padding} {B X W : Type}.
(** The broker and the writer a gate makes when it is given none. *)
Variables (broker : CredentialBroker B) (writer : OutcomeWriter W).

Definition server_gate_args (signer : HmacSha256Signer) (audience issuer : string) (capabilities : option (list string)) : gate_args B X W :=
  mkGateArgs (local_verifier signer) (Some (hs_secret signer)) (inr audience) (inr issuer) (Some (local_signer signer)) (Some (hs_secret signer))
    None false "default" "fail_closed" false broker writer None None capabilities None [] [].

(** [random] is [token_bytes(32)]. *)
Definition build_demo_gate (random audience : string) (e : environment) : py (ActenonGate B X W * HmacSha256Signer) :=
  signer ← build_local_proof_signer e (Some random) LOCAL_PROOF_KEY_ID;
  g ← ActenonGate_new e (server_gate_args signer audience "service:actenon-mcp-demo" None);
  Ok (g, signer).

(** [key_file] is what the file holds, when it exists. *)
Definition build_configured_gate (key_file : option string) (audience : string) (capabilities : list string) (e : environment) :
    py (ActenonGate B X W * HmacSha256Signer) :=
  match key_file with
  | None => Err SystemExit
  | Some bytes =>
      let secret := bytes_strip bytes in
      if negb (str_truthy secret) then Err SystemExit
      else
        _ ← validate_signing_backend_for_environment "development_local_hmac" e None;
        signer ← build_local_proof_signer e (Some secret) LOCAL_PROOF_KEY_ID;
        g ← ActenonGate_new e (server_gate_args signer audience "service:actenon-mcp" match capabilities with [] => None | l => Some l end);
        Ok (g, signer)
  end.

(** The parsed command line; [--key-file] with what is at the path. *)
Record mcp_args := mkMcpArgs { ma_demo : bool; ma_key_file : option (option string); ma_audience : string; ma_capability : list string }.

Definition exit_on_guard {A} (r : py A) : py A := match r with Ok a => Ok a | Err x => Err (if guard_error x then SystemExit else x) end.

(** [main], up to [server.run]. *)
Definition main (random : string) (args : mcp_args) : M exn environment (McpServer B X W) := fun e =>
  let start (made : py (ActenonGate B X W * HmacSha256Signer)) (e' : environment) :=
    (gs ← exit_on_guard made; build_server (getenv e' ACTENON_ENV_ENV) (ma_demo args) gs.1 (local_verifier gs.2), e') in
  if ma_demo args then
    if is_production_like_environment e then (Err SystemExit, e)
    else
      let '(made, e') := explicit_development_intent "actenon-mcp --demo" (fun e => (build_demo_gate random (ma_audience args) e, e)) e in
      start made e'
  else
    match ma_key_file args with
    | None => (Err SystemExit, e)
    | Some key_file => start (build_configured_gate key_file (ma_audience args) (ma_capability args) e) e
    end.
End Startup.

(** ** Facts *)
Section Facts.
Context `{Protocol} `{ProtocolAuthority} `{ProtocolEffects} `{PyText} `{Ed25519} `{Platform}.
Context {R E B X W V : Type} `{ReplayStore R} `{CapabilityEscrow E}.
Implicit Types (st : server_state R E B X W V).

(** The intent says what the arguments say. *)
Definition arguments_match (i : ActionIntent) (a : tool_args) : Prop :=
  act_name (in_action i) = ta_action_name a /\ act_capability (in_action i) = ta_capability a /\
  tgt_resource_type (in_target i) = ta_target_type a /\ tgt_resource_id (in_target i) = ta_target_id a /\
  same_canonical (JDict (ta_parameters a)) (JDict (act_parameters (in_action i))).

Lemma same_parameters_true a b : same_parameters a b = Ok true <-> same_canonical (JDict a) (JDict b).
Proof. exact (canonical_equal_true (JDict a) (JDict b)). Qed.

Lemma argument_mismatch_None i a : _argument_mismatch i a = Ok None <-> arguments_match i a.
Proof.
  unfold _argument_mismatch, arguments_match. rewrite <- same_parameters_true.
  destruct (String.eqb_spec (act_name (in_action i)) (ta_action_name a)); cbn [negb orb]; [|naive_solver].
  destruct (String.eqb_spec (act_capability (in_action i)) (ta_capability a)); cbn [negb orb]; [|naive_solver].
  destruct (same_parameters _ _) as [[]|]; cbn [mbind res_bind negb]; [|naive_solver..].
  destruct (String.eqb_spec (tgt_resource_type (in_target i)) (ta_target_type a)); cbn [negb orb]; [|naive_solver].
  destruct (String.eqb_spec (tgt_resource_id (in_target i)) (ta_target_id a)); cbn [negb orb]; naive_solver.
Qed.

(** *** The chain *)

(** The log a client can check: each entry has its position, the hash of the entry
    before it, and the hash of its own payload. *)
Inductive chained : list dict -> Prop :=
| chained_nil : chained []
| chained_snoc l e bytes : chained l -> NoDup e.*1 -> dget e "index" = JInt (Z.of_nat (length l)) -> dget e "previous_entry_hash" = head_hash l ->
    entry_bytes e = Some bytes -> dget e "entry_hash" = JDict (hash_spec (sha256_hexdigest bytes)) -> chained (l ++ [e]).

Lemma log_append_chained l kind artifact e : chained l -> log_append l kind artifact = Ok e -> chained (l ++ [e]).
Proof.
  intros Hl Ha. unfold log_append in Ha. cbv zeta in Ha. apply bind_Ok in Ha as (v & (bytes & Hb & ->)%sha256_hex_Ok & [= <-]).
  eapply chained_snoc; [exact Hl| |done..| |done].
  - apply (bool_decide_unpack _). vm_compute. exact I.
  - unfold entry_bytes. unfold _entry_hash_payload. cbn [List.filter app fst String.eqb Ascii.eqb Bool.eqb negb]. by rewrite Hb.
Qed.

Lemma chained_inv l e : chained (l ++ [e]) -> exists bytes, chained l /\ NoDup e.*1 /\ dget e "index" = JInt (Z.of_nat (length l)) /\
  dget e "previous_entry_hash" = head_hash l /\ entry_bytes e = Some bytes /\ head_hash (l ++ [e]) = JStr (sha256_hexdigest bytes).
Proof.
  intros Hc. inversion Hc as [Hn|l' e' bytes Hl Hnd Hi Hp Hb He Heq]; [by destruct l|].
  apply app_inj_tail in Heq as [-> ->]. exists bytes. split_and!; try done. unfold head_hash. rewrite last_snoc, He. done.
Qed.

Lemma payload_keys e : NoDup e.*1 -> NoDup (_entry_hash_payload e).*1.
Proof.
  unfold _entry_hash_payload. induction e as [|[k v] e IH]; [done|]. csimpl. intros [Hni Hnd]%NoDup_cons. destruct (negb _); [|by apply IH].
  csimpl. apply NoDup_cons. split; [|by apply IH]. contradict Hni. apply list_elem_of_fmap in Hni as ([k' v'] & -> & Hin). apply list_elem_of_fmap.
  exists (k', v'). split; [done|]. apply list_elem_of_In, filter_In in Hin as [Hin _]. by apply list_elem_of_In.
Qed.

(** Equal payloads have equal fields. *)
Lemma same_payload_dget e e' k : NoDup e.*1 -> NoDup e'.*1 -> same_payload e e' -> k <> "entry_hash" -> json_norm (dget e k) = json_norm (dget e' k).
Proof.
  intros Hn Hn' Hs Hk. rewrite <- (payload_dget e k Hk), <- (payload_dget e' k Hk). unfold dget.
  pose proof (json_norm_assoc _ _ k (payload_keys _ Hn) (payload_keys _ Hn') Hs) as Ha.
  destruct (assoc k (_entry_hash_payload e)), (assoc k (_entry_hash_payload e')); simpl in Ha; congruence.
Qed.

(** The last hash commits to the whole log. *)
Lemma chained_binds l1 l2 : chained l1 -> chained l2 -> AnchorLog.no_collision (l1 ++ l2) -> head_hash l1 = head_hash l2 -> Forall2 same_payload l1 l2.
Proof.
  revert l2. induction l1 as [|e l1 IH] using rev_ind; intros l2 Hc1 Hc2 Hnc Hh.
  - destruct l2 as [|e' l2 _] using rev_ind; [constructor|]. apply chained_inv in Hc2 as (? & _ & _ & _ & _ & _ & Hs). rewrite Hs in Hh. done.
  - apply chained_inv in Hc1 as (t & Hl1 & Hn & Hi & Hp & Hb & Hs). destruct l2 as [|e' l2 _] using rev_ind; [rewrite Hs in Hh; done|].
    apply chained_inv in Hc2 as (t' & Hl2 & Hn' & Hi' & Hp' & Hb' & Hs'). rewrite Hs, Hs' in Hh. injection Hh as Hh.
    assert (t = t') as <- by (apply (Hnc e e'); [set_solver..|done|done|done]).
    assert (same_payload e e') as Hsp by (by eapply same_bytes_same_payload).
    apply Forall2_app; [|by constructor]. apply IH; try done.
    + eapply AnchorLog.no_collision_sub; [|exact Hnc]. set_solver.
    + pose proof (same_payload_dget _ _ "previous_entry_hash" Hn Hn' Hsp ltac:(done)) as Hq. rewrite Hp, Hp' in Hq.
      assert (forall l, chained l -> json_norm (head_hash l) = head_hash l) as Hj.
      { intros l Hl. destruct l as [|x l _] using rev_ind; [done|]. by apply chained_inv in Hl as (? & _ & _ & _ & _ & _ & ->). }
      by rewrite !Hj in Hq.
Qed.

(** *** The tools *)
Lemma record_decision_run kind artifact st :
  record_decision kind artifact st =
    match log_append (sv_log st) kind artifact with
    | Ok entry => (Ok entry, mkServerState (sv_world st) (sv_log st ++ [entry]))
    | Err e => (Err e, st)
    end.
Proof. done. Qed.

(** An entry records a decision. *)
Definition records_decision (entry : dict) (decision : string * dict) : Prop :=
  dget entry "kind" = JStr decision.1 /\ dget entry "artifact" = JDict decision.2.

(** What a step does to the log: it appends the entry of the decision, or leaves the
    log alone because there is no decision, or because the entry cannot be hashed and
    the step raises. *)
Definition logs (l : list dict) (decision : option (string * dict)) (ok : bool) (l' : list dict) : Prop :=
  match decision with
  | None => l' = l
  | Some (kind, artifact) =>
      match log_append l kind artifact with
      | Ok entry => ok = true /\ l' = l ++ [entry]
      | Err _ => ok = false /\ l' = l
      end
  end.

Lemma log_append_records l kind artifact entry : log_append l kind artifact = Ok entry -> records_decision entry (kind, artifact).
Proof. unfold log_append. cbv zeta. by intros (value & _ & [= <-])%bind_Ok. Qed.

Lemma logs_extends l decision ok l' : logs l decision ok l' -> chained l ->
  chained l' /\ exists new, l' = l ++ new /\ Forall2 records_decision new (if ok then option_list decision else []).
Proof.
  unfold logs. destruct decision as [[kind artifact]|].
  - destruct (log_append l kind artifact) as [entry|] eqn:Ha; intros [-> ->] Hl.
    + split; [by eapply log_append_chained|]. exists [entry]. split; [done|]. repeat constructor; by apply log_append_records in Ha as [? ?].
    + split; [done|]. exists []. by rewrite app_nil_r.
  - intros -> Hl. split; [done|]. exists []. rewrite app_nil_r. split; [done|]. by destruct ok.
Qed.

Lemma decision_response_step outcome st :
  logs (sv_log st) (decision_of_outcome outcome) (is_ok (decision_response outcome st).1) (sv_log (decision_response outcome st).2).
Proof.
  assert (forall kind artifact (f : dict -> list dict -> dict),
    logs (sv_log st) (Some (kind, artifact)) (is_ok ((entry ← record_decision kind artifact; entries ← gets sv_log; mret (f entry entries)) st).1)
      (sv_log ((entry ← record_decision kind artifact; entries ← gets sv_log; mret (f entry entries)) st).2)) as Hr.
  { intros kind artifact f. rewrite M_bind_run, record_decision_run. unfold logs. by destruct (log_append (sv_log st) kind artifact). }
  unfold decision_response, decision_of_outcome. destruct (go_refusal outcome); [apply Hr|]. destruct (go_receipt outcome); [apply Hr|done].
Qed.

Lemma decide_action_log (s : McpServer B X W) d a pccb i st : sv_log (decide_action s d a pccb i st).2 = sv_log st.
Proof. unfold decide_action. rewrite M_bind_run. destruct (_argument_mismatch i a); [|done]. cbn [lift]. unfold zoom. by destruct (_ (lget _ st)). Qed.

Lemma serve_step (s : McpServer B X W) r st :
  logs (sv_log st) (decision_taken s r st) (is_ok (serve s r st).1) (sv_log (serve s r st).2).
Proof.
  destruct r as [d a proof intent|d a proof intent|id|d a]; [done| |done|].
  - cbn [serve decision_taken]. unfold actenon_gate. destruct (parsed_intent d a intent) as [i|e]; [|by destruct (intent_error e)].
    destruct (_coerce_proof (inr proof)) as [pccb|e]; [|by destruct (proof_error e)]. rewrite M_bind_run.
    pose proof (decide_action_log s d a pccb i st) as Hl. destruct (decide_action s d a pccb i st) as [[outcome|e] st1]; [|done].
    cbn in Hl |- *. rewrite <- Hl. apply decision_response_step.
  - cbn [serve decision_taken]. destruct (ms_demo s); [|done]. unfold actenon_demo_grant. rewrite M_bind_run. destruct (_build_intent d a JNull); [|done].
    cbn [lift]. rewrite M_bind_run. unfold zoom. by destruct (mint_proof _ _ _ _ _ _) as [[]].
Qed.

Lemma serve_all_logs (s : McpServer B X W) requests : forall st, chained (sv_log st) ->
  chained (sv_log (serve_all s requests st)) /\
  exists new, sv_log (serve_all s requests st) = sv_log st ++ new /\ Forall2 records_decision new (decisions s requests st).
Proof.
  induction requests as [|r requests IH]; intros st Hc.
  { split; [done|]. exists []. by rewrite app_nil_r. }
  destruct (logs_extends _ _ _ _ (serve_step s r st) Hc) as [Hc' (new & Hl & Hn)].
  destruct (IH (serve s r st).2 Hc') as [Hc'' (new' & Hl' & Hn')]. split; [exact Hc''|]. exists (new ++ new').
  change (serve_all s (r :: requests) st) with (serve_all s requests (serve s r st).2). rewrite Hl', Hl, app_assoc. split; [done|].
  cbn [decisions]. by apply Forall2_app.
Qed.

Lemma refusal_response_shape code reason (extra : dict) : "allowed" ∉ extra.*1 -> "reason_code" ∉ extra.*1 ->
  dget (_refusal_response code reason extra) "allowed" = JBool false /\ dget (_refusal_response code reason extra) "reason_code" = code.
Proof.
  intros Ha Hc. unfold _refusal_response, assoc_merge, dget.
  assert (forall k (base : dict), k ∉ extra.*1 -> assoc k (fold_left (fun d kv => assoc_set kv.1 kv.2 d) extra base) = assoc k base) as Hf.
  { clear. intros k. induction extra as [|[k' v] extra IH]; [done|]. intros base Hk. csimpl in *. apply not_elem_of_cons in Hk as [Hne Hk].
    cbn [fold_left]. rewrite IH by done. by apply assoc_set_ne. }
  rewrite !Hf by done. done.
Qed.

(** A response of the gate tool: it allows and its receipt is recorded, or it refuses
    with a code. *)
Lemma decision_response_Ok outcome st resp st' : decision_response outcome st = (Ok resp, st') -> sv_world st' = sv_world st /\
  if is_true (dget resp "allowed")
  then go_refusal outcome = None /\ exists receipt entry, go_receipt outcome = Some receipt /\ sv_log st' = sv_log st ++ [entry] /\
         dget entry "artifact" = JDict (Receipt_to_dict receipt) /\ dget resp "receipt_id" = JStr (rc_receipt_id receipt)
  else dget resp "allowed" = JBool false /\ exists code, dget resp "reason_code" = JStr code.
Proof.
  unfold decision_response. destruct (go_refusal outcome) as [refusal|].
  - intros (entry & st1 & Hr & Hd)%M_bind_Ok. rewrite record_decision_run in Hr. destruct (log_append _ _ _) as [en|]; [|done]. injection Hr as <- <-.
    apply M_bind_Ok in Hd as (entries & st2 & [= <- <-] & [= <- <-]). split; [done|].
    match goal with |- context [_refusal_response ?c ?r ?x] => edestruct (refusal_response_shape c r x) as [Hal Hco]; [by apply (bool_decide_unpack _)..|rewrite Hal, Hco] end.
    split; [done|]. exists (rf_reason_code refusal). by destruct refusal.
  - destruct (go_receipt outcome) as [receipt|]; [|done].
    intros (entry & st1 & Hr & Hd)%M_bind_Ok. rewrite record_decision_run in Hr. destruct (log_append _ _ _) as [en|] eqn:Ha; [|done]. injection Hr as <- <-.
    apply M_bind_Ok in Hd as (entries & st2 & [= <- <-] & [= <- <-]). split; [done|]. cbn [dget assoc String.eqb Ascii.eqb Bool.eqb is_true]. split; [done|].
    exists receipt, en. split_and!; try done.
    unfold log_append in Ha. cbv zeta in Ha. by apply bind_Ok in Ha as (v & _ & [= <-]).
Qed.
End Facts.

(** ** Properties *)

(** C5: the gate tool allows only what the gate executed: a response that allows
    means that the intent parsed and says exactly what the tool's arguments say, that
    the gate executed that intent with the presented proof, once and behind all its
    checks, for its own audience, and that the log records the executed receipt whose
    identifier is returned; any other response is a refusal with a code. *)
Theorem mcp_allow_sound `{Protocol} `{ProtocolAuthority} `{ProtocolEffects} `{PyText} `{Ed25519} `{Platform} {R E B X W V : Type} `{ReplayStore R}
    `{CapabilityEscrow E} (e : environment) (ga : gate_args B X W) (s : McpServer B X W) (d : tool_draws) (a : tool_args) (proof intent : json)
    (st st' : server_state R E B X W V) (resp : dict) :
  ActenonGate_new e ga = Ok (ms_gate s) -> actenon_gate s d a proof intent st = (Ok resp, st') ->
  if is_true (dget resp "allowed")
  then exists request pd entry receipt,
    parsed_intent d a intent = Ok (rq_intent request) /\ arguments_match (rq_intent request) a /\
    json_norm (JDict (act_parameters (in_action (rq_intent request)))) = json_norm (JDict (ta_parameters a)) /\
    _coerce_proof (inr proof) = Ok (Some (rq_pccb request)) /\ cx_audience (rq_context request) = gt_audience (ms_gate s) /\
    w_calls (sv_world st') = w_calls (sv_world st) ++ [request] /\ cleared (gt_executor (ms_gate s)) request pd (sv_world st) (sv_world st') /\
    sv_log st' = sv_log st ++ [entry] /\ dget entry "artifact" = JDict (Receipt_to_dict receipt) /\ rc_outcome receipt = "executed" /\
    dget resp "receipt_id" = JStr (rc_receipt_id receipt)
  else dget resp "allowed" = JBool false /\ exists code, dget resp "reason_code" = JStr code.
Proof.
  intros Hg. unfold actenon_gate. destruct (parsed_intent d a intent) as [i|x] eqn:Hi.
  2: { destruct (intent_error x); [|done]. intros [= <- <-]. cbn. eauto. }
  destruct (_coerce_proof (inr proof)) as [pccb|x] eqn:Hp.
  2: { destruct (proof_error x); [|done]. intros [= <- <-]. cbn. eauto. }
  intros (outcome & st1 & Hd & Hr)%M_bind_Ok. apply decision_response_Ok in Hr as [Hw Hr]. destruct (is_true (dget resp "allowed")); [|done].
  destruct Hr as (Hno & receipt & entry & Hrc & Hlog & Hart & Hid). unfold decide_action in Hd.
  apply M_bind_Ok in Hd as (mismatch & st2 & [= Hm <-] & Hd). apply zoom_Ok in Hd as (w1 & Hd & ->). cbn in Hw, Hlog.
  destruct mismatch as [[code reason]|]; [apply refuse_Ok in Hd as (_ & ? & ? & _ & Hrf & _); congruence|].
  apply argument_mismatch_None in Hm. pose proof (protect_honest _ _ _ _ _ _ _ _ _ _ _ _ _ Hg Hd) as Hh.
  destruct (protect_called _ _ _ _ _ _ _ _ _ _ _ _ _ Hg Hd Hno) as (request & cred & pd & Hc & _ & Hcl & _ & [= ->] & Hpr & [= Haud] & _).
  rewrite Hw. exists request, pd, entry, receipt. destruct pccb as [p|]; [|done]. cbn in Hpr. subst p. split_and!; try done.
  - symmetry. apply same_canonical_norm, Hm.
  - unfold outcome_honest, gate_ok in Hh. rewrite Hno, Hrc in Hh. destruct (String.eqb_spec (rc_outcome receipt) "executed"); [done|].
    destruct Hh as (_ & ? & ? & _ & ? & _). done.
Qed.

(** The verify tool is exact: it answers "VALID" exactly when the intent parses,
    says what the tool's arguments say, and the presented proof is accepted for it in
    the server's context; and it changes nothing. *)
Theorem mcp_verify_exact `{Protocol} `{ProtocolAuthority} `{PyText} `{Platform} {B X W : Type} (s : McpServer B X W) (d : tool_draws) (a : tool_args)
    (proof intent : json) : canonicalisation_error_is_value_error = true ->
  (exists resp, actenon_verify s d a proof intent = Ok resp /\ dget resp "valid" = JBool true) <->
  exists i pccb, parsed_intent d a intent = Ok i /\ arguments_match i a /\ _coerce_proof (inr proof) = Ok (Some pccb) /\
    proof_accepted (ms_verifier s) i pccb (_verifier_context (ms_gate s) (td_gate d) i).
Proof.
  intros Hve. unfold actenon_verify. split.
  - intros (resp & Hr & Hv). destruct (parsed_intent d a intent) as [i|x]; [|destruct (intent_error x); [injection Hr as <-|]; discriminate].
    apply bind_Ok in Hr as (mismatch & Hm & Hr). destruct mismatch as [[code reason]|]; [injection Hr as <-; discriminate Hv|].
    destruct (_coerce_proof (inr proof)) as [[pccb|]|x]; [|injection Hr as <-; discriminate Hv|destruct (proof_error x); [injection Hr as <-|]; discriminate].
    exists i, pccb. split_and!; [done|by apply argument_mismatch_None|done|]. apply verify_Ok; [done|].
    destruct (verify _ _ _ _) as [[]|[]]; try discriminate; [done|]. injection Hr as <-. discriminate Hv.
  - intros (i & pccb & -> & ->%argument_mismatch_None & -> & Hacc). apply verify_Ok in Hacc as ->; [|done]. eexists. by split.
Qed.

(** C17: the decision log records every decision, once, in order, and nothing else:
    after any requests it is the old log followed by exactly one entry for each
    decision of the gate tool that was answered, with that decision's kind and
    artifact (malformed intents and proofs, and the other tools, add nothing); a
    decision stays unrecorded only when its entry cannot be hashed, and then the call
    raises and answers nothing.  The log stays chained, and a chained log with the
    same last hash holds the same decisions, unless two entries collide. *)
Theorem mcp_log_append_only `{Protocol} `{ProtocolAuthority} `{ProtocolEffects} `{PyText} `{Ed25519} `{Platform} {R E B X W V : Type} `{ReplayStore R}
    `{CapabilityEscrow E} (s : McpServer B X W) (requests : list tool_request) (st : server_state R E B X W V) :
  let l := sv_log (serve_all s requests st) in
  chained (sv_log st) ->
  (exists new, l = sv_log st ++ new /\ Forall2 records_decision new (decisions s requests st)) /\
  (forall r (st' : server_state R E B X W V) kind artifact, decision_taken s r st' = Some (kind, artifact) -> is_ok (serve s r st').1 = false ->
     exists e, log_append (sv_log st') kind artifact = Err e) /\
  chained l /\
  (forall l', chained l' -> AnchorLog.no_collision (l ++ l') -> head_hash l = head_hash l' -> Forall2 same_payload l l').
Proof.
  cbv zeta. intros Hc. destruct (serve_all_logs s requests st Hc) as [Hl Hnew]. split; [exact Hnew|]. split.
  { intros r st' kind artifact Hd Hok. pose proof (serve_step s r st') as Hs. rewrite Hd, Hok in Hs. unfold logs in Hs.
    destruct (log_append (sv_log st') kind artifact) as [entry|e]; [by destruct Hs|by exists e]. }
  split; [exact Hl|]. intros l' Hl' Hn Hh. by apply chained_binds.
Qed.

Lemma local_signer_made e secret s : build_local_proof_signer e (Some secret) LOCAL_PROOF_KEY_ID = Ok s ->
  is_production_like_environment e = false /\ s = mkHmacSigner secret LOCAL_PROOF_KEY_ID "HS256".
Proof.
  unfold build_local_proof_signer, HmacSha256Signer_new, _guard_local_hmac_creation, _production_like_environment, is_production_like_environment,
    PRODUCTION_ENV_VALUES. fold _PRODUCTION_ENV_VALUES. change (existsb _ PRODUCTION_FLAG_ENVS) with (production_flag_set e).
  destruct (_ || _); unfold _resolve_local_hmac_secret; cbn [mbind res_bind]; [done|]. destruct (_guard_public_secret e secret); cbn [mbind res_bind]; [|done]. by intros [= <-].
Qed.

(** A server starts only where it may: [main] builds a server only outside a
    production-like environment, leaves the process as it was, and its gate and its
    verifier use one secret: in demo mode the random one of the process, with the
    environment undeclared or a development one; otherwise the stripped contents,
    not empty, of an existing key file, and the declared capabilities, which may be
    missing only in declared development or under the named unsafe override. *)
Theorem mcp_start_guarded `{Protocol} `{PyText} `{Hmac} `{Base64Padding} {B X W : Type} (broker : CredentialBroker B) (writer : OutcomeWriter W)
    (random : string) (args : mcp_args) (e e' : environment) (s : McpServer B X W) :
  main broker writer random args e = (Ok s, e') ->
  is_production_like_environment e = false /\ e' = e /\ ms_demo s = ma_demo args /\
  exists secret, gt_signer_secret (ms_gate s) = Some secret /\ gt_verifier_secret (ms_gate s) = Some secret /\
    vf_signer (ms_verifier s) = local_verifier (mkHmacSigner secret LOCAL_PROOF_KEY_ID "HS256") /\
    if ma_demo args
    then secret = random /\ (normalized_environment e = "" \/ normalized_environment e ∈ DEVELOPMENT_ENV_VALUES)
    else (exists bytes, ma_key_file args = Some (Some bytes) /\ secret = bytes_strip bytes) /\ secret <> "" /\
      gt_declared_capabilities (ms_gate s) = (if decide (ma_capability args = []) then None else Some (ma_capability args)) /\
      (ma_capability args = [] -> has_development_intent e \/ _truthy (getenv e UNSAFE_ALLOW_UNDECLARED_CAPABILITIES_ENV) = true).
Proof.
  assert (forall env demo (g : ActenonGate B X W) signer (m : McpServer B X W), build_server env demo g signer = Ok m -> m = mkMcpServer demo g (ms_verifier m) /\ vf_signer (ms_verifier m) = signer) as Hbuild.
  { intros env demo g signer m. unfold build_server, PCCBVerifier_init. destruct (_ <? _)%Z; [done|]. destruct (_ && _); [done|]. by intros [= <-]. }
  assert (forall {A} (r : py A) a, exit_on_guard r = Ok a -> r = Ok a) as Hexit by (by intros A [a|x] b [= ->]).
  unfold main. cbv zeta. destruct (ma_demo args).
  - destruct (is_production_like_environment e) eqn:Hprod; [done|]. unfold explicit_development_intent. cbv zeta.
    destruct (production_flag_set e) eqn:Hflag; [done|]. cbn [orb]. destruct (str_truthy (normalized_environment e) && _) eqn:Hdev; [done|].
    cbn [env_vars env_declared]. intros [= Hs <-]. apply bind_Ok in Hs as ([g signer] & Hm%Hexit & Hs). apply Hbuild in Hs as [Hs Hv].
    unfold build_demo_gate in Hm. apply bind_Ok in Hm as (sg & [_ ->]%local_signer_made & Hm). apply bind_Ok in Hm as (g' & Hg & [= -> <-]).
    apply gate_new_executor in Hg as (_ & _ & _ & posture & _ & _ & _ & _ & Hss & Hvs & _). rewrite Hs in *. cbn [ms_demo ms_gate ms_verifier hs_secret fst snd] in *.
    split_and!; try done; [by destruct e|]. exists random. split_and!; try done.
    unfold str_truthy in Hdev. destruct (String.eqb_spec (normalized_environment e) ""); [by left|right]. cbn [negb andb] in Hdev.
    apply str_mem_spec. by apply negb_false_iff.
  - destruct (ma_key_file args) as [key_file|]; [|done]. intros [= Hs <-]. apply bind_Ok in Hs as ([g signer] & Hm%Hexit & Hs). apply Hbuild in Hs as [Hs Hv].
    unfold build_configured_gate in Hm. destruct key_file as [bytes|]; [|done]. cbv zeta in Hm. destruct (str_truthy (bytes_strip bytes)) eqn:Hne; [|done].
    apply bind_Ok in Hm as (_ & _ & Hm). apply bind_Ok in Hm as (sg & [Hprod ->]%local_signer_made & Hm). apply bind_Ok in Hm as (g' & Hg & [= -> <-]).
    apply gate_new_executor in Hg as (_ & _ & Hcaps & posture & _ & _ & _ & _ & Hss & Hvs & _ & Hdev). rewrite Hs in *. cbn in *.
    split_and!; try done. exists (bytes_strip bytes). split_and!; try done; [by exists bytes|by intros Hz; rewrite Hz in Hne| |].
    + rewrite Hcaps. destruct (ma_capability args); by case_decide.
    + intros Hz. apply Hdev. by rewrite Hz.
Qed.

(** ** Samples: a server over the sample gate decides the refund whose proof was minted. *)
Definition sample_server : McpServer broker_state unit (list Receipt * list Refusal) :=
  mkMcpServer false sample_gate (sample_verifier TRUSTED_DETAILED).
Definition sample_tool_args : tool_args :=
  mkToolArgs (act_name (in_action sample_intent)) (act_capability (in_action sample_intent)) (act_parameters (in_action sample_intent))
    (tgt_resource_type (in_target sample_intent)) (tgt_resource_id (in_target sample_intent)).
Definition sample_tool_draws : tool_draws := mkToolDraws sample_gate_draws "ab" sample_now.
Definition sample_tool_intent : json := JDict (ActionIntent_to_dict sample_intent).
Definition sample_tool_proof : json := JDict (PCCB_to_dict gate_pccb).
Definition sample_server_state := mkServerState sample_gate_mint.2 [].
Definition sample_tool_decision := @actenon_gate demo_protocol sample_authority sample_effects demo_text demo_ed25519 demo_platform
  _ _ _ _ _ _ database_store memory_escrow sample_server sample_tool_draws sample_tool_args sample_tool_proof sample_tool_intent sample_server_state.

Lemma mcp_allow_sound_witness : exists resp receipt entry, sample_tool_decision.1 = Ok resp /\ is_true (dget resp "allowed") = true /\
  sv_log sample_tool_decision.2 = [entry] /\ dget entry "artifact" = JDict (Receipt_to_dict receipt) /\ rc_outcome receipt = "executed".
Proof.
  assert (match sample_tool_decision.1 with Ok resp => is_true (dget resp "allowed") | Err _ => false end = true) as Hok by (vm_compute; reflexivity).
  destruct sample_tool_decision as [[resp|e] st'] eqn:Hd; [|discriminate Hok]. cbn [fst] in Hok. exists resp.
  pose proof (@mcp_allow_sound demo_protocol sample_authority sample_effects demo_text demo_ed25519 demo_platform _ _ _ _ _ _ database_store memory_escrow
    production_env sample_gate_args sample_server sample_tool_draws sample_tool_args sample_tool_proof sample_tool_intent sample_server_state st' resp
    sample_gate_Ok Hd) as Hs.
  rewrite Hok in Hs. destruct Hs as (_ & _ & entry & receipt & _ & _ & _ & _ & _ & _ & _ & Hlog & Hart & Ho & _).
  exists receipt, entry. split; [reflexivity|]. split; [exact Hok|]. split; [exact Hlog|]. split; [exact Hart|exact Ho].
Defined.

Lemma mcp_verify_exact_witness : exists i pccb,
  @arguments_match demo_protocol i sample_tool_args /\ @_coerce_proof demo_platform (inr sample_tool_proof) = Ok (Some pccb).
Proof.
  destruct (proj1 (@mcp_verify_exact demo_protocol sample_authority demo_text demo_platform _ _ _ sample_server sample_tool_draws sample_tool_args
    sample_tool_proof sample_tool_intent eq_refl)) as (i & pccb & _ & Ha & Hp & _).
  - assert (match @actenon_verify demo_protocol sample_authority demo_text demo_platform _ _ _ sample_server sample_tool_draws sample_tool_args
              sample_tool_proof sample_tool_intent with Ok resp => is_true (dget resp "valid") | Err _ => false end = true) as Hok by (vm_compute; reflexivity).
    destruct (actenon_verify _ _ _ _ _) as [resp|]; [|discriminate Hok]. exists resp. split; [reflexivity|].
    destruct (dget resp "valid") as [|[]| | | | |]; try discriminate Hok. reflexivity.
  - exists i, pccb. split; [exact Ha|exact Hp].
Defined.

Definition sample_requests : list tool_request :=
  [ToolGate sample_tool_draws sample_tool_args JNull sample_tool_intent; ToolReceipt None;
   ToolGate sample_tool_draws sample_tool_args sample_tool_proof sample_tool_intent].
Definition sample_served := @serve_all demo_protocol sample_authority sample_effects demo_text demo_ed25519 demo_platform
  _ _ _ _ _ _ database_store memory_escrow sample_server sample_requests sample_server_state.

Lemma mcp_log_append_only_witness : exists refused executed,
  sv_log sample_served = [refused; executed] /\ dget refused "kind" = JStr "refusal" /\ dget executed "kind" = JStr "receipt" /\
  @chained demo_protocol (sv_log sample_served).
Proof.
  destruct (@mcp_log_append_only demo_protocol sample_authority sample_effects demo_text demo_ed25519 demo_platform _ _ _ _ _ _ database_store memory_escrow
    sample_server sample_requests sample_server_state chained_nil) as ((new & Hl & Hn) & _ & Hc & _).
  fold sample_served in Hl, Hc. change (sv_log sample_server_state ++ new) with new in Hl.
  assert ((@decisions demo_protocol sample_authority sample_effects demo_text demo_ed25519 demo_platform _ _ _ _ _ _ database_store memory_escrow
    sample_server sample_requests sample_server_state).*1 = ["refusal"; "receipt"]) as Hk by (vm_compute; reflexivity).
  destruct (decisions _ _ _) as [|[k1 a1] [|[k2 a2] [|]]]; try discriminate Hk.
  apply Forall2_cons_inv_r in Hn as (x & new1 & [Hx _] & Hn & Hnew). apply Forall2_cons_inv_r in Hn as (x' & new2 & [Hx' _] & Hn & Hnew1).
  apply Forall2_nil_inv_r in Hn. cbn in Hk. injection Hk as -> ->. exists x, x'. split; [rewrite Hl, Hnew, Hnew1, Hn; reflexivity|]. split; [exact Hx|]. split; [exact Hx'|exact Hc].
Defined.

Definition sample_main := @main demo_text demo_hmac demo_padding _ unit _ (InMemoryCredentialBroker sample_broker) sample_writer
  "0123456789abcdef" (mkMcpArgs true None DEFAULT_AUDIENCE []) (mkEnvironment [] None).
Lemma mcp_start_guarded_witness : exists s, sample_main = (Ok s, mkEnvironment [] None) /\ ms_demo s = true.
Proof.
  assert (is_ok sample_main.1 = true) as Hok by (vm_compute; reflexivity).
  destruct sample_main as [[s|] e'] eqn:Hm; [|discriminate Hok]. exists s.
  destruct (@mcp_start_guarded demo_protocol demo_text demo_hmac demo_padding _ unit _ (InMemoryCredentialBroker sample_broker) sample_writer
    "0123456789abcdef" (mkMcpArgs true None DEFAULT_AUDIENCE []) (mkEnvironment [] None) e' s Hm) as (_ & He & Hd & _).
  rewrite He. split; [reflexivity|exact Hd].
Defined.

(** The context of the verify tool takes the capability from the intent, the gate's
    takes it from its declaration: a proof for a capability the gate does not declare
    is "VALID" for the one and refused by the other. *)
Definition narrow_gate_args : gate_args broker_state unit (list Receipt * list Refusal) :=
  mkGateArgs sample_signature_verifier None (inr "service:refunds-api") (inl sample_issuer) (Some sample_signer) None None true "default" "fail_closed" true
    (InMemoryCredentialBroker sample_broker) sample_writer None None (Some ["payments.payout"]) None [] [].
Definition narrow_server : McpServer broker_state unit (list Receipt * list Refusal) :=
  mkMcpServer false (match ActenonGate_new production_env narrow_gate_args with Ok g => g | Err _ => sample_gate end) (sample_verifier TRUSTED_DETAILED).

Lemma verify_tool_wider_than_gate :
  match @actenon_verify demo_protocol sample_authority demo_text demo_platform _ _ _ narrow_server sample_tool_draws sample_tool_args
          sample_tool_proof sample_tool_intent with Ok resp => is_true (dget resp "valid") | Err _ => false end = true /\
  match (@actenon_gate demo_protocol sample_authority sample_effects demo_text demo_ed25519 demo_platform _ _ _ _ _ _ database_store memory_escrow
           narrow_server sample_tool_draws sample_tool_args sample_tool_proof sample_tool_intent sample_server_state).1 with
  | Ok resp => dget resp "reason_code" | Err _ => JNull end = JStr "SCOPE_CAPABILITY_MISMATCH".
Proof. split; vm_compute; reflexivity. Qed.
