(* ===== verification/DomainFlow.v ===== *)
(** * From request to decision: the builders, the intake and the policies together

    [DomainApi] builds a payload, [Kernel.parse] reads it and the engines of
    [DomainPolicy] decide on it.  The theorems follow one refund and one invoice
    payment through the three components: the built payload is read back as the
    request it was built from, and is allowed in every context that matches it. *)

From S2P Require Import Prelude Text Json Errors Timestamps Canonical Contracts Runtime Samples ProofService Policy Receipts Artifacts DomainApi DomainPolicy Kernel.

(** The intent a payload with these entries is read as. *)
Record reads_as (payload : dict) (i : ActionIntent) : Prop := {
  rd_contract : assoc "contract" payload = Some (contract_header "action_intent");
  rd_intent_id : dget payload "intent_id" = JStr (in_intent_id i);
  rd_issued_at : dget payload "issued_at" = JStr (format_timestamp (in_issued_at i));
  rd_expires_at : dget payload "expires_at" = JStr (format_timestamp (in_expires_at i));
  rd_tenant : dget payload "tenant" = JDict (TenantRef_to_dict (in_tenant i));
  rd_requester : dget payload "requester" = JDict (PartyRef_to_dict (in_requester i));
  rd_action : dget payload "action" = JDict (ActionSpec_to_dict (in_action i));
  rd_target : dget payload "target" = JDict (TargetRef_to_dict (in_target i));
  rd_key : dget payload "idempotency_key" = in_idempotency_key i;
  rd_justification : dget payload "justification" = in_justification i;
  rd_context : dget_default payload "context" (JDict []) = JDict (in_context i);
  rd_evidence : dget_default payload "evidence_refs" (JList []) = JList (map (fun e => JDict (EvidenceRef_to_dict e)) (in_evidence_refs i));
  rd_metadata : dget_default payload "metadata" (JDict []) = JDict (in_metadata i);
  rd_extensions : dget_default payload "extensions" (JDict []) = JDict (in_extensions i)
}.

Lemma reads_as_from_dict payload i : ActionIntent_wf i -> reads_as payload i -> ActionIntent_from_dict (JDict payload) = Ok i.
Proof.
  intros (H1 & H2 & Hw) []. unfold ActionIntent_from_dict. cbn [expect_mapping mbind res_bind].
  rewrite (expect_contract_header _ _ rd_contract0), rd_intent_id0, rd_issued_at0, rd_expires_at0, rd_tenant0, rd_requester0, rd_action0, rd_target0,
    rd_key0, rd_justification0, rd_context0, rd_evidence0, rd_metadata0, rd_extensions0.
  split_andb. cbn [mbind res_bind py_iter]. rewrite evidence_refs_roundtrip by assumption. cbn [mbind res_bind].
  read_back. unfold py_dict. cbn [mbind res_bind]. by destruct i.
Qed.

Lemma intake_accepts payload i : ActionIntent_wf i -> reads_as payload i -> (in_issued_at i < in_expires_at i)%Z ->
  act_parameters (in_action i) <> [] -> parse (JDict payload) = Ok i.
Proof.
  intros Hw Hr Ht Hp. unfold parse. rewrite (reads_as_from_dict _ i) by done. unfold intake_violations.
  destruct (Z.leb_spec (in_expires_at i) (in_issued_at i)); [lia|]. by destruct (act_parameters (in_action i)).
Qed.

(** Without the reduction [injection] does. *)
Lemma Ok_inj {E A} (a b : A) : @Ok E A a = Ok b -> a = b.
Proof. congruence. Qed.

Section Flow.
Context `{Protocol} `{PyText}.

(** ** Refunds *)
Definition refund_intent (r : refund_request) (refs : list EvidenceRef) : ActionIntent :=
  mkActionIntent (rr_intent_id r) (rr_issued_at r) (rr_issued_at r + rr_ttl_seconds r * US_PER_SECOND)%Z
    (mkTenantRef (rr_tenant_id r) []) (mkPartyRef "service" (rr_requester_id r) JNull [])
    (mkActionSpec "refund.create" "refund.execute" [("amount_minor", rr_amount_minor r); ("currency", rr_currency r)]
       [("exact_amount_minor", rr_amount_minor r); ("exact_currency", rr_currency r)]
       [("target_resource_type", JStr "payment"); ("single_use", JBool true)])
    (mkTargetRef "payment" (rr_payment_id r) JNull []) JNull (rr_justification r) (default [] (rr_context r)) refs
    (default [] (rr_metadata r)) [].

(** What the builder's caller owes the intake. *)
Record refund_request_wf (r : refund_request) (refs : list EvidenceRef) : Prop := {
  rw_ids : str_truthy (rr_intent_id r) && str_truthy (rr_tenant_id r) && str_truthy (rr_requester_id r) && str_truthy (rr_payment_id r) = true;
  rw_issued : datetime_ok (rr_issued_at r);
  rw_ttl : (0 < rr_ttl_seconds r)%Z;
  rw_expires : datetime_ok (rr_issued_at r + rr_ttl_seconds r * US_PER_SECOND);
  rw_refs : rr_evidence_refs r = map (fun e => JDict (EvidenceRef_to_dict e)) refs;
  rw_refs_wf : forallb EvidenceRef_wf refs = true
}.

(** A lookup in the optional tail of a payload. *)
Lemma dget_json_item (pre : dict) k v rest : assoc k pre = None -> assoc k rest = None -> dget (pre ++ json_item k v ++ rest) k = v.
Proof.
  intros Hp Hr. unfold dget. rewrite assoc_app, Hp, assoc_app, assoc_opt_item, String.eqb_refl, Hr. by destruct v.
Qed.

Lemma dget_list_item (pre : dict) k k' v l : assoc k pre = None -> k <> k' ->
  dget_default (pre ++ json_item k' v ++ list_item k l) k (JList []) = JList l.
Proof.
  intros Hp Hk. unfold dget_default. rewrite assoc_app, Hp, assoc_app, !assoc_opt_item, String.eqb_refl.
  apply String.eqb_neq in Hk as ->. by destruct l.
Qed.

Lemma built_refund_reads r refs payload : refund_request_wf r refs -> build_refund_action_intent_payload r = Ok payload ->
  reads_as payload (refund_intent r refs).
Proof.
  intros [] Hb. unfold build_refund_action_intent_payload in Hb.
  apply bind_Ok in Hb as (e & He & Hb). apply Ok_inj in Hb as <-. apply datetime_add_Ok in He as [-> _].
  constructor; try reflexivity.
  - unfold dget. by rewrite !assoc_app, !assoc_opt_item.
  - rewrite rw_refs0. apply dget_json_item; [done|]. by rewrite assoc_opt_item.
  - rewrite rw_refs0. by apply dget_list_item.
  - unfold dget_default. by rewrite !assoc_app, !assoc_opt_item.
Qed.

Lemma refund_intent_wf r refs : refund_request_wf r refs -> ActionIntent_wf (refund_intent r refs).
Proof.
  intros []. split_andb. split; [done|]. split; [done|]. simpl. unfold TenantRef_wf, PartyRef_wf, ActionSpec_wf, TargetRef_wf. simpl.
  rewrite !andb_true_iff. by split_and!.
Qed.

(** The refund fits the context it is submitted in. *)
Record refund_fits (store : option (string -> py (option Receipt))) (r : refund_request) (refs : list EvidenceRef)
    (context : DynamicContextInput) : Prop := {
  rf_window : (rr_issued_at r <= cx_now context < rr_issued_at r + rr_ttl_seconds r * US_PER_SECOND)%Z;
  rf_max_ttl : (0 < rr_ttl_seconds r <= default 900 (cx_max_ttl_seconds context))%Z /\
               (default 900 (cx_max_ttl_seconds context) <= TIMEDELTA_MAX_SECONDS)%Z;
  rf_scope : cx_scope_capabilities context = [] \/ "refund.execute" ∈ cx_scope_capabilities context;
  rf_evidence : evidence_verified store ["executed"] (Some "refund.execute") (refund_intent r refs);
  rf_amount : exists z, py_int_of (rr_amount_minor r) = Some z /\ (0 < z)%Z /\ within_balance context z;
  rf_currency : exists s, rr_currency r = JStr s /\ currency_code s /\ fact_matches context "payment_currency" (JStr s);
  rf_payment : py_truthy (dget (cx_facts context) "payment_id") = false \/ dget (cx_facts context) "payment_id" = JStr (rr_payment_id r);
  rf_tenant : rr_tenant_id r = "tenant_demo" /\ dget (cx_facts context) "risk_level" = JStr "normal"
}.

Lemma refund_fits_iff store r refs context : refund_request_wf r refs ->
  refund_authorised store (refund_intent r refs) context <-> refund_fits store r refs context.
Proof.
  intros []. split.
  - intros [[Hw Hm Ht Hs] He Ha (raw & z & Hr & Hz) (s & Hc & Hcc) Hg Hwf]. cbn in Hr. injection Hr as <-. cbn in Hc. injection Hc as Hc.
    constructor; try done.
    + cbn [refund_intent in_issued_at in_expires_at] in Ht. unfold US_PER_SECOND in *. lia.
    + by exists z.
    + by exists s.
  - intros [Hw [Ht Hm] Hs He (z & Hz) (s & Hc & Hcc) Hg Hwf]. constructor; try done.
    + constructor; try done; [lia|]. cbn [refund_intent in_issued_at in_expires_at]. unfold US_PER_SECOND in *. lia.
    + by exists (rr_amount_minor r), z.
    + exists s. cbn. by rewrite Hc.
Qed.

(** ** Invoice payments *)
Definition invoice_parameters (r : invoice_request) (ids : list string) (date hash proposer : string) : dict :=
  [("payer_entity_id", JStr (ir_payer_entity_id r)); ("supplier_id", JStr (ir_supplier_id r));
   ("bank_account_reference", JStr (ir_bank_account_reference r)); ("invoice_ids", strings ids); ("amount_minor", ir_amount_minor r);
   ("currency", JStr (ir_currency r)); ("payment_date", JStr date); ("payment_batch_id", JStr (ir_payment_batch_id r));
   ("batch_hash", JStr hash); ("proposer_id", JStr proposer)].

Definition invoice_constraints (r : invoice_request) (ids : list string) (date hash : string) : dict :=
  [("exact_payer_entity_id", JStr (ir_payer_entity_id r)); ("exact_supplier_id", JStr (ir_supplier_id r));
   ("exact_bank_account_reference", JStr (ir_bank_account_reference r)); ("exact_invoice_ids", strings ids);
   ("exact_amount_minor", ir_amount_minor r); ("exact_currency", JStr (ir_currency r)); ("exact_payment_date", JStr date);
   ("exact_payment_batch_id", JStr (ir_payment_batch_id r)); ("exact_batch_hash", JStr hash)].

Definition invoice_intent (r : invoice_request) (ids : list string) (date hash proposer key : string) (refs : list EvidenceRef) : ActionIntent :=
  mkActionIntent (ir_intent_id r) (ir_issued_at r) (ir_issued_at r + ir_ttl_seconds r * US_PER_SECOND)%Z
    (mkTenantRef (ir_tenant_id r) []) (mkPartyRef "service" (ir_requester_id r) JNull [])
    (mkActionSpec "invoice_payment.execute" "invoice_payment.execute" (invoice_parameters r ids date hash proposer)
       (invoice_constraints r ids date hash)
       [("target_resource_type", JStr "payment_batch"); ("single_use", JBool true)])
    (mkTargetRef "payment_batch" (ir_payment_batch_id r) JNull []) (JStr key) (ir_justification r) (default [] (ir_context r)) refs
    (default [] (ir_metadata r)) [].

Record invoice_request_wf (r : invoice_request) (refs : list EvidenceRef) : Prop := {
  iw_ids : str_truthy (ir_intent_id r) && str_truthy (ir_tenant_id r) && str_truthy (ir_requester_id r) &&
           str_truthy (ir_payment_batch_id r) = true;
  iw_date : forall y m d, ir_payment_date r = IsDate y m d -> ymd_ok y m d = true;
  iw_issued : datetime_ok (ir_issued_at r);
  iw_ttl : (0 < ir_ttl_seconds r)%Z;
  iw_expires : datetime_ok (ir_issued_at r + ir_ttl_seconds r * US_PER_SECOND);
  iw_refs : ir_evidence_refs r = map (fun e => JDict (EvidenceRef_to_dict e)) refs;
  iw_refs_wf : forallb EvidenceRef_wf refs = true
}.

(** The payment a request asks for, before and after the builder normalised it. *)
Definition request_payment (r : invoice_request) : payment :=
  mkPayment (JStr (ir_payer_entity_id r)) (JStr (ir_supplier_id r)) (JStr (ir_bank_account_reference r)) (ir_invoice_ids r)
    (ir_amount_minor r) (JStr (ir_currency r)) (ir_payment_date r) (JStr (ir_payment_batch_id r)).

Definition normal_payment (r : invoice_request) (ids : list string) (date : string) : payment :=
  mkPayment (JStr (ir_payer_entity_id r)) (JStr (ir_supplier_id r)) (JStr (ir_bank_account_reference r)) (strings ids)
    (ir_amount_minor r) (JStr (ir_currency r)) (NotDate (JStr date)) (JStr (ir_payment_batch_id r)).

(** Normalising twice changes nothing, so both have the same batch hash. *)
Lemma normal_payment_hash r refs ids date : invoice_request_wf r refs -> normalize_invoice_ids (ir_invoice_ids r) = Ok ids ->
  normalize_payment_date (ir_payment_date r) = Ok date ->
  compute_invoice_payment_batch_hash (normal_payment r ids date) = compute_invoice_payment_batch_hash (request_payment r).
Proof.
  intros Hw Hi Hd. unfold compute_invoice_payment_batch_hash, batch_hash_input.
  cbn [normal_payment request_payment pay_invoice_ids pay_payment_date pay_payer_entity_id pay_supplier_id pay_bank_account_reference
       pay_amount_minor pay_currency pay_payment_batch_id].
  rewrite Hi, Hd, (normalize_invoice_ids_idem ids) by (by eapply normalize_invoice_ids_normal).
  rewrite (normalize_payment_date_idem _ _ Hd) by apply (iw_date _ _ Hw). done.
Qed.

(** What the builder returned, taken apart. *)
Record built_invoice (r : invoice_request) (ids : list string) (date hash proposer : string) : Prop := {
  bi_ids : normalize_invoice_ids (ir_invoice_ids r) = Ok ids;
  bi_date : normalize_payment_date (ir_payment_date r) = Ok date;
  bi_hash : str_or (ir_batch_hash r) (compute_invoice_payment_batch_hash (request_payment r)) = Ok hash;
  bi_proposer : str_or (ir_proposer_id r) (Ok (ir_requester_id r)) = Ok proposer
}.

Lemma built_invoice_reads r refs payload : invoice_request_wf r refs -> build_invoice_payment_action_intent_payload r = Ok payload ->
  exists ids date hash proposer key, built_invoice r ids date hash proposer /\
    reads_as payload (invoice_intent r ids date hash proposer key refs).
Proof.
  intros Hw Hb. unfold build_invoice_payment_action_intent_payload in Hb. cbv zeta in Hb.
  apply bind_Ok in Hb as (ids & Hids & Hb). apply bind_Ok in Hb as (date & Hdate & Hb). apply bind_Ok in Hb as (hash & Hhash & Hb).
  apply bind_Ok in Hb as (proposer & Hprop & Hb). apply bind_Ok in Hb as (key & _ & Hb). apply bind_Ok in Hb as (e & He & Hb).
  apply Ok_inj in Hb as <-. apply datetime_add_Ok in He as [-> _].
  exists ids, date, hash, proposer, ("ipy_" +:+ key). split.
  - constructor; try done. by rewrite <- (normal_payment_hash r refs ids date Hw Hids Hdate).
  - constructor; try reflexivity.
    + rewrite (iw_refs _ _ Hw). apply dget_json_item; [done|]. by rewrite assoc_opt_item.
    + rewrite (iw_refs _ _ Hw). by apply dget_list_item.
    + unfold dget_default. by rewrite !assoc_app, !assoc_opt_item.
Qed.

Lemma invoice_intent_wf r refs ids date hash proposer key : invoice_request_wf r refs ->
  ActionIntent_wf (invoice_intent r ids date hash proposer key refs).
Proof.
  intros []. split_andb. split; [done|]. split; [done|]. simpl. unfold TenantRef_wf, PartyRef_wf, ActionSpec_wf, TargetRef_wf. simpl.
  rewrite !andb_true_iff. by split_and!.
Qed.

(** The invoice payment fits the context it is submitted in. *)
Record invoice_fits (store : option (string -> py (option Receipt))) (r : invoice_request) (intent : ActionIntent)
    (context : DynamicContextInput) : Prop := {
  if_window : (ir_issued_at r <= cx_now context < ir_issued_at r + ir_ttl_seconds r * US_PER_SECOND)%Z;
  if_max_ttl : (0 < ir_ttl_seconds r <= default 900 (cx_max_ttl_seconds context))%Z /\
               (default 900 (cx_max_ttl_seconds context) <= TIMEDELTA_MAX_SECONDS)%Z;
  if_scope : cx_scope_capabilities context = [] \/ "invoice_payment.execute" ∈ cx_scope_capabilities context;
  if_evidence : evidence_verified store ["executed"] (Some "invoice_payment.execute") intent;
  if_parties : str_truthy (ir_payer_entity_id r) && str_truthy (ir_supplier_id r) && str_truthy (ir_bank_account_reference r) = true;
  if_amount : (exists z, py_int_of (ir_amount_minor r) = Some z /\ (0 < z)%Z) /\ expects_amount context (ir_amount_minor r);
  if_currency : currency_code (ir_currency r) /\ fact_matches context "expected_currency" (JStr (ir_currency r));
  if_entity : fact_matches context "expected_payer_entity_id" (JStr (ir_payer_entity_id r));
  if_payee : fact_matches context "expected_supplier_id" (JStr (ir_supplier_id r));
  if_bank : fact_matches context "expected_bank_account_reference" (JStr (ir_bank_account_reference r));
  if_date : exists date, normalize_payment_date (ir_payment_date r) = Ok date /\ fact_matches context "expected_payment_date" (JStr date);
  if_hash : exists hash, compute_invoice_payment_batch_hash (request_payment r) = Ok hash /\
            ir_batch_hash r ∈ [None; Some ""; Some hash] /\ fact_matches context "expected_batch_hash" (JStr hash);
  if_proposer : ir_proposer_id r ∈ [None; Some ""; Some (ir_requester_id r)];
  if_invoices : exists ids, normalize_invoice_ids (ir_invoice_ids r) = Ok ids /\ expects_invoices context ids;
  if_not_duplicate : not_duplicate intent context;
  if_ready : payment_ready intent context
}.

Lemma str_or_Ok o (b s : string) : str_or o (Ok b) = Ok s -> s = b <-> o ∈ [None; Some ""; Some b].
Proof.
  rewrite !elem_of_cons, elem_of_nil. destruct o as [x|]; simpl; [|intros [= <-]; naive_solver].
  destruct (str_truthy x) eqn:Hx; intros [= <-]; [|destruct x; [naive_solver|done]].
  split; [intros ->; auto|]. intros [?|[[= ->]|[[= ->]|[]]]]; done.
Qed.

Lemma str_truthy_app_l a b : str_truthy b = true -> str_truthy (a +:+ b) = true.
Proof. by destruct a. Qed.

Lemma date_isoformat_truthy y m d : str_truthy (date_isoformat y m d) = true.
Proof. unfold date_isoformat. by apply str_truthy_app_l. Qed.

Lemma normalize_payment_date_truthy v s : normalize_payment_date v = Ok s -> str_truthy s = true.
Proof.
  destruct v; unfold normalize_payment_date; [intros [= <-]; apply date_isoformat_truthy|].
  intros ([[y m] d] & _ & [= <-])%bind_Ok. apply date_isoformat_truthy.
Qed.

Lemma batch_hash_truthy p h : compute_invoice_payment_batch_hash p = Ok h -> str_truthy h = true.
Proof. unfold compute_invoice_payment_batch_hash. intros (? & _ & Hh)%bind_Ok. apply bind_Ok in Hh as (? & _ & [= <-]). done. Qed.

Lemma str_or_truthy o b s : str_or o b = Ok s -> (forall s, b = Ok s -> str_truthy s = true) -> str_truthy s = true.
Proof. intros Ho Hb. destruct o as [x|]; simpl in Ho; [|auto]. destruct (str_truthy x) eqn:Hx; [congruence|auto]. Qed.

Lemma invoice_ids_of_intent r ids date hash proposer key refs : _invoice_ids (invoice_intent r ids date hash proposer key refs) = ids.
Proof. unfold _invoice_ids, strings. simpl. by rewrite map_map, map_id. Qed.

(** The parameters of a built intent are the request's. *)
Lemma built_params r ids date hash proposer key refs (p : payment_params (invoice_intent r ids date hash proposer key refs)) :
  pp_payer p = ir_payer_entity_id r /\ pp_supplier p = ir_supplier_id r /\ pp_bank p = ir_bank_account_reference r /\
  pp_currency p = ir_currency r /\ pp_date p = date /\ pp_batch p = ir_payment_batch_id r /\ pp_hash p = hash /\ pp_proposer p = proposer /\
  pp_amount p = ir_amount_minor r.
Proof.
  destruct p as [payer supplier bank cur dt batch hs prop amount [H1 ?] [H2 ?] [H3 ?] [H4 ?] [H5 ?] [H6 ?] [H7 ?] [H8 ?] H9].
  cbn [pp_payer pp_supplier pp_bank pp_currency pp_date pp_batch pp_hash pp_proposer pp_amount].
  unfold parameters in *. cbn in H1, H2, H3, H4, H5, H6, H7, H8, H9.
  injection H1 as <-. injection H2 as <-. injection H3 as <-. injection H4 as <-. injection H5 as <-. injection H6 as <-.
  injection H7 as <-. injection H8 as <-. injection H9 as <-. done.
Qed.

Lemma payment_of_built r ids date hash proposer key refs (p : payment_params (invoice_intent r ids date hash proposer key refs)) :
  payment_of _ p = normal_payment r ids date.
Proof.
  unfold payment_of. destruct (built_params _ _ _ _ _ _ _ p) as (-> & -> & -> & -> & -> & -> & _ & _ & ->).
  by rewrite invoice_ids_of_intent.
Qed.

(** The constraints of a built intent repeat its parameters. *)
Lemma py_eqb_strings_refl l : py_eqb (strings l) (strings l) = true.
Proof. unfold strings. simpl. induction l as [|x l IH]; simpl; [done|]. by rewrite String.eqb_refl. Qed.

Lemma py_eqb_str_refl s : py_eqb (JStr s) (JStr s) = true.
Proof. simpl. apply String.eqb_refl. Qed.

Lemma py_eqb_int_refl j z : py_int_of j = Some z -> py_eqb j j = true.
Proof. destruct j as [|b| | | | |]; simpl; try done; intros _; [apply Z.eqb_refl|apply Z.eqb_refl]. Qed.

Lemma built_constraints r ids date hash proposer key refs z (p : payment_params (invoice_intent r ids date hash proposer key refs)) :
  py_int_of (ir_amount_minor r) = Some z ->
  Forall (fun kv => py_eqb (dget (act_constraints (in_action (invoice_intent r ids date hash proposer key refs))) kv.1) kv.2 = true)
    (payment_bindings _ p).
Proof.
  intros Hz. unfold payment_bindings. destruct (built_params _ _ _ _ _ _ _ p) as (-> & -> & -> & -> & -> & -> & -> & _ & ->).
  rewrite invoice_ids_of_intent.
  repeat (apply Forall_cons_2; [first [apply py_eqb_str_refl | apply py_eqb_strings_refl | by eapply py_eqb_int_refl]|]). constructor.
Qed.

Lemma currency_code_truthy s : currency_code s -> str_truthy s = true.
Proof. intros [Hl _]. by destruct s. Qed.

(** The batch hash of the built intent. *)
Lemma built_hash_exact r refs ids date hash proposer : invoice_request_wf r refs -> built_invoice r ids date hash proposer ->
  compute_invoice_payment_batch_hash (normal_payment r ids date) = Ok hash <->
  exists h, compute_invoice_payment_batch_hash (request_payment r) = Ok h /\ ir_batch_hash r ∈ [None; Some ""; Some h] /\ h = hash.
Proof.
  intros Hw [Hi Hd Hh _]. rewrite (normal_payment_hash r refs ids date Hw Hi Hd). split.
  - intros Hc. exists hash. split; [done|]. split; [|done]. rewrite Hc in Hh. by apply (str_or_Ok (ir_batch_hash r) hash hash Hh).
  - by intros (h & Hc & _ & ->).
Qed.

Lemma invoice_fits_iff store r refs ids date hash proposer key context :
  invoice_request_wf r refs -> built_invoice r ids date hash proposer ->
  let intent := invoice_intent r ids date hash proposer key refs in
  invoice_payment_authorised store intent context <-> invoice_fits store r intent context.
Proof.
  intros Hw Hbuilt intent. pose proof Hbuilt as [Hids Hdate Hhash Hprop].
  pose proof (built_hash_exact _ _ _ _ _ _ Hw Hbuilt) as Hbh. split.
  - intros [[Hwin Hm Ht Hs] He Ha (p & [[(z & Hz) Hc Hni _ _ Hpr] Hcon Hf1 Hf2 Hf3 Ham Hf4 Hf5 Hh Hf6]) Hinv Hd Hr].
    pose proof (proj2 (pp_payer_param _ p)) as T1. pose proof (proj2 (pp_supplier_param _ p)) as T2. pose proof (proj2 (pp_bank_param _ p)) as T3.
    unfold intent in *. rewrite payment_of_built in Hh. rewrite invoice_ids_of_intent in Hinv.
    destruct (built_params _ _ _ _ _ _ _ p) as (E1 & E2 & E3 & E4 & E5 & E6 & E7 & E8 & E9).
    rewrite E1 in *. rewrite E2 in *. rewrite E3 in *. rewrite E4 in *. rewrite E5 in *. rewrite E7 in *. rewrite E8 in *. rewrite E9 in *.
    apply Hbh in Hh as (h & Hh & Hin & ->). clear E1 E2 E3 E4 E5 E6 E7 E8 E9 Hcon p.
    constructor; try done; eauto.
    + cbn [invoice_intent in_issued_at in_expires_at] in Ht. pose proof (iw_ttl _ _ Hw). unfold US_PER_SECOND in *. lia.
    + by rewrite T1, T2, T3.
    + by apply (str_or_Ok _ _ _ Hprop).
  - intros [Hwin [Ht Hm] Hs He Hpt [(z & Hz & Hpos) Ham] [Hc Hf4] Hf1 Hf2 Hf3 (date' & Hd' & Hf5) (h & Hh & Hin & Hf6) Hpr (ids' & Hi' & Hinv) Hd Hr].
    rewrite Hdate in Hd'. injection Hd' as <-. rewrite Hids in Hi'. injection Hi' as <-.
    apply (str_or_Ok _ _ _ Hprop) in Hpr. rewrite Hh in Hhash. apply (str_or_Ok _ _ _ Hhash) in Hin. subst h.
    apply andb_true_iff in Hpt as [Hpt T3]. apply andb_true_iff in Hpt as [T1 T2]. pose proof (iw_ids _ _ Hw) as Hws. split_andb.
    assert (str_truthy proposer = true) as Tp by (rewrite Hpr; done). subst intent.
    constructor; try done.
    + constructor; try done; [lia|]. cbn [invoice_intent in_issued_at in_expires_at]. unfold US_PER_SECOND in *. lia.
    + assert (payment_params (invoice_intent r ids date hash proposer key refs)) as p.
      { apply (mkPaymentParams (invoice_intent r ids date hash proposer key refs) (ir_payer_entity_id r) (ir_supplier_id r) (ir_bank_account_reference r) (ir_currency r) date
          (ir_payment_batch_id r) hash proposer (ir_amount_minor r)); try (split; [reflexivity|]); try done;
          [by apply currency_code_truthy|by eapply normalize_payment_date_truthy|by eapply batch_hash_truthy]. }
      exists p. pose proof (built_constraints _ _ _ _ _ _ _ _ p Hz) as Hcon. pose proof (payment_of_built _ _ _ _ _ _ _ p) as Hpay.
      pose proof (built_params _ _ _ _ _ _ _ p) as (E1 & E2 & E3 & E4 & E5 & E6 & E7 & E8 & E9).
      constructor; rewrite ?E1, ?E2, ?E3, ?E4, ?E5, ?E7, ?E9; try done.
      * constructor; rewrite ?E4, ?E5, ?E6, ?E8, ?E9; eauto.
        -- rewrite invoice_ids_of_intent. by eapply normalize_invoice_ids_normal.
        -- pose proof (normalize_payment_date_idem _ _ Hdate (iw_date _ _ Hw)) as Hn. unfold normalize_payment_date in Hn.
           apply bind_Ok in Hn as (ymd & Hn & _). by exists ymd.
      * rewrite Hpay. apply Hbh. exists hash. split; [done|]. split; [|done]. by apply (str_or_Ok _ _ _ Hhash).
    + by rewrite invoice_ids_of_intent.
Qed.
End Flow.

(** ** Properties *)

(** The payload the refund builder makes from a well-formed request is
    accepted by the intake as exactly that request, and the refund engine allows
    it exactly when the request fits the context. *)
Theorem built_refund_decided `{Protocol} `{PyText} (store : option (string -> py (option Receipt))) (r : refund_request)
    (refs : list EvidenceRef) (context : DynamicContextInput) :
  refund_request_wf r refs ->
  exists payload, build_refund_action_intent_payload r = Ok payload /\ parse (JDict payload) = Ok (refund_intent r refs) /\
    (engine_allows (build_refund_policy_engine store) (refund_intent r refs) context <-> refund_fits store r refs context).
Proof.
  intros Hw.
  assert (exists payload, build_refund_action_intent_payload r = Ok payload) as (payload & Hb).
  { unfold build_refund_action_intent_payload. rewrite (proj2 (datetime_add_Ok _ _ _) (conj eq_refl (rw_expires _ _ Hw))). by eexists. }
  exists payload. split; [done|]. split; [|by rewrite refund_engine_exact, refund_fits_iff].
  apply intake_accepts; [by apply refund_intent_wf|by apply built_refund_reads| |done].
  pose proof (rw_ttl _ _ Hw). cbn [refund_intent in_issued_at in_expires_at]. unfold US_PER_SECOND. lia.
Qed.

(** A payload the invoice-payment builder returns is accepted by the intake,
    and the engine allows the intent exactly when the request fits the context:
    the normal forms, the repeated constraints and the batch hash the policy
    insists on are those the builder writes. *)
Theorem built_invoice_decided `{Protocol} `{PyText} (store : option (string -> py (option Receipt))) (r : invoice_request)
    (refs : list EvidenceRef) (context : DynamicContextInput) (payload : dict) :
  invoice_request_wf r refs -> build_invoice_payment_action_intent_payload r = Ok payload ->
  exists intent, parse (JDict payload) = Ok intent /\
    (engine_allows (build_invoice_payment_policy_engine store) intent context <-> invoice_fits store r intent context).
Proof.
  intros Hw Hb. destruct (built_invoice_reads r refs payload Hw Hb) as (ids & date & hash & proposer & key & Hbuilt & Hr).
  exists (invoice_intent r ids date hash proposer key refs). split.
  - apply intake_accepts; [by apply invoice_intent_wf|done| |done].
    pose proof (iw_ttl _ _ Hw). cbn [invoice_intent in_issued_at in_expires_at]. unfold US_PER_SECOND. lia.
  - by rewrite invoice_engine_exact, invoice_fits_iff.
Qed.

(** ** Samples *)
Definition sample_refund : refund_request :=
  mkRefundRequest "intent_9" "tenant_demo" "svc-1" "pay_42" (JInt 1250) (JStr "EUR") sample_now 300 JNull None None [].
Definition sample_refund_context : DynamicContextInput :=
  mkContext "req_9" sample_audience ["refund.execute"] sample_now
    [("payment_id", JStr "pay_42"); ("remaining_refundable_minor", JInt 2000); ("payment_currency", JStr "EUR"); ("risk_level", JStr "normal")]
    [] [] [] [] None.

Lemma sample_refund_wf : refund_request_wf sample_refund [].
Proof. constructor; try reflexivity; vm_compute; split; congruence. Defined.

Lemma built_refund_decided_witness :
  exists payload, @build_refund_action_intent_payload sample_refund = Ok payload /\ parse (JDict payload) = Ok (refund_intent sample_refund []) /\
    (engine_allows (@build_refund_policy_engine demo_protocol demo_text None) (refund_intent sample_refund []) sample_refund_context <->
     @refund_fits demo_protocol demo_text None sample_refund [] sample_refund_context).
Proof. exact (@built_refund_decided demo_protocol demo_text None sample_refund [] sample_refund_context sample_refund_wf). Defined.

(** The sample refund is allowed. *)
Lemma sample_refund_allowed :
  engine_allows (@build_refund_policy_engine demo_protocol demo_text None) (refund_intent sample_refund []) sample_refund_context.
Proof. eexists. split; vm_compute; reflexivity. Qed.

Definition sample_invoice : invoice_request :=
  mkInvoiceRequest "intent_10" "tenant_demo" "svc-1" "entity-1" "supplier-7" "bank-3" (strings ["inv-2"; "inv-1"; "inv-2"]) (JInt 99900) "USD"
    (NotDate (JStr "2024-02-29")) "batch-5" sample_now None 300 JNull [] None None None.
Definition sample_invoice_context : DynamicContextInput :=
  mkContext "req_10" sample_audience [] sample_now [("expected_supplier_id", JStr "supplier-7"); ("expected_invoice_ids", strings ["inv-1"; "inv-2"])]
    [] [] [] [] None.
Definition sample_invoice_payload : dict :=
  Eval vm_compute in match @build_invoice_payment_action_intent_payload demo_protocol demo_text sample_invoice with Ok p => p | Err _ => [] end.

Lemma sample_invoice_wf : invoice_request_wf sample_invoice [].
Proof. constructor; try reflexivity; try done; vm_compute; split; congruence. Defined.

Lemma built_invoice_decided_witness :
  exists intent, parse (JDict sample_invoice_payload) = Ok intent /\
    (engine_allows (@build_invoice_payment_policy_engine demo_protocol demo_text None) intent sample_invoice_context <->
     @invoice_fits demo_protocol demo_text None sample_invoice intent sample_invoice_context).
Proof.
  apply (@built_invoice_decided demo_protocol demo_text None sample_invoice [] sample_invoice_context sample_invoice_payload sample_invoice_wf).
  vm_compute. reflexivity.
Defined.

(** The sample payment is allowed. *)
Lemma sample_invoice_allowed : exists intent, parse (JDict sample_invoice_payload) = Ok intent /\
  engine_allows (@build_invoice_payment_policy_engine demo_protocol demo_text None) intent sample_invoice_context.
Proof. eexists. split; [vm_compute; reflexivity|]. eexists. split; vm_compute; reflexivity. Qed.
