(* ===== verification/Scanner.v ===== *)
(** * The execution-gap scanner: the checking half of [scanner.py]

    The scanner has a static half, which searches source text with regular
    expressions, and a checking half, which drives a verifier or a whole local kernel
    with probes and reports what it observed.  This file models the checking half: the
    report with its status, grade, remediation steps and badges ([_build_report] and
    what it calls), the checks the static signals give, the artifact-pair scan over a
    [VerifierSDK], and the built-in replay harness over the kernel.  A finding of the
    static half is a record here; how it was found is not modelled.

    The theorems: on a pair the verifier accepts the artifact-pair scan reports exactly
    what its disclosure mode and its clock tolerance let it observe, and reports a gap
    whenever the verifier refuses the pair; a report with a missing check is never
    cleared, and grades never improve when a check gets worse; a static scan never
    clears a repository. *)

From Stdlib Require Import SpecFloat.
From S2P Require Import Prelude Text Json Errors Timestamps Canonical Base64 Contracts Runtime Samples ProofService SecurityPosture Policy Replay ReplayStore Escrow Receipts LocalSigner Idempotency Credentials Effects Executor ExecutorProofs Writers Middleware Kernel RemoteClients Endpoint DomainFlow.

(** ** Checks and findings *)
Inductive CheckStatus := present | missing | not_assessed.
Inductive OverallStatus := NO_OBVIOUS_EXECUTION_GAP_FOUND | EXECUTION_GAP_PRESENT | PARTIAL_SCAN_ONLY.
Inductive ScanGrade := GradeA | GradeB | GradeC | GradeD | GradeF.
Inductive FindingSeverity := info | low | medium | high | critical_candidate.
Inductive FindingConfidence := ConfidenceLow | ConfidenceMedium | ConfidenceHigh.
Inductive AgentControlContext := ContextYes | ContextNo | ContextUnknown.

#[global] Instance CheckStatus_eq_dec : EqDecision CheckStatus.
Proof. solve_decision. Defined.
#[global] Instance OverallStatus_eq_dec : EqDecision OverallStatus.
Proof. solve_decision. Defined.
#[global] Instance FindingSeverity_eq_dec : EqDecision FindingSeverity.
Proof. solve_decision. Defined.
#[global] Instance FindingConfidence_eq_dec : EqDecision FindingConfidence.
Proof. solve_decision. Defined.
#[global] Instance AgentControlContext_eq_dec : EqDecision AgentControlContext.
Proof. solve_decision. Defined.

(** The keys of [CHECK_SPECS]. *)
Inductive check_key :=
| proof_binding | replay_protection | audience_enforcement | expiry_enforcement | structured_refusals
| credential_broker | approval_or_evidence_policy | standing_credentials | mcp_tool_boundary.
#[global] Instance check_key_eq_dec : EqDecision check_key.
Proof. solve_decision. Defined.

Definition CHECK_SPECS (k : check_key) : string :=
  match k with
  | proof_binding => "Proof check before action"
  | replay_protection => "Reused proof cannot be replayed"
  | audience_enforcement => "Action intended for this system"
  | expiry_enforcement => "Expired proof rejected"
  | structured_refusals => "Blocked actions produce refusals"
  | credential_broker => "Credentials brokered after approval"
  | approval_or_evidence_policy => "High-impact actions require approval/evidence"
  | standing_credentials => "Standing credentials visible to agent runtime"
  | mcp_tool_boundary => "Tool execution boundary protected"
  end.

Record ScanCheck := mkScanCheck { sk_key : check_key; sk_label : string; sk_status : CheckStatus; sk_summary : string; sk_reason_code : option string }.

Definition check_status_text (s : CheckStatus) : string :=
  match s with present => "present" | missing => "missing" | not_assessed => "not_assessed" end.

Definition ScanCheck_to_dict (c : ScanCheck) : dict :=
  [("label", JStr (sk_label c)); ("status", JStr (check_status_text (sk_status c))); ("summary", JStr (sk_summary c))] ++
  match sk_reason_code c with Some r => [("reason_code", JStr r)] | None => [] end.

Definition _build_check (key : check_key) (status : CheckStatus) (summary : string) (reason_code : option string) : ScanCheck :=
  mkScanCheck key (CHECK_SPECS key) status summary reason_code.

Record ScanFinding := mkFinding {
  sf_finding_id : string; sf_category : string; sf_severity : FindingSeverity; sf_title : string; sf_summary : string;
  sf_path : option string; sf_line : option Z; sf_snippet : option string; sf_remediation : option string;
  sf_surface_id : option string; sf_primitive : option string; sf_agent_control_context : AgentControlContext;
  sf_side_effect_type : option string; sf_confidence : FindingConfidence; sf_evidence_lines : list Z; sf_rationale : option string;
  sf_recommended_actenon_control : option string; sf_caveat : option string; sf_context_classification : string; sf_path_type : string;
  sf_surface_name : option string; sf_credential_signal_kind : option string; sf_control_gaps : list string;
  sf_controls_present : list string; sf_function_name : option string; sf_generic_control : option string;
  sf_actenon_implementation : option string
}.

Record ScanReport := mkReport {
  rp_mode : string; rp_target : string; rp_overall_status : OverallStatus; rp_summary : string; rp_checks : list ScanCheck;
  rp_grade : ScanGrade; rp_remediation_steps : list string; rp_findings : list ScanFinding; rp_badge_markdown : string;
  rp_scanner_version : string; rp_registry_version : string; rp_metadata : option dict
}.

Definition SCANNER_VERSION : string := "2.1.0".
Definition NON_RUNTIME_CONTEXTS : list string :=
  ["TEST_OR_EXAMPLE"; "DOCS_OR_GENERATED"; "OFFLINE_MIGRATION"; "CONFIG"; "COMMENT_OR_DOC"; "ENUM_CONSTANT_OR_TYPE_CONTEXT"].

(** ** What a report says of its findings *)
Definition _severity_index (s : FindingSeverity) : nat :=
  match s with info => 0 | low => 1 | medium => 2 | high => 3 | critical_candidate => 4 end.

Definition _consequence_class (s : FindingSeverity) : string :=
  match s with
  | critical_candidate => "critical_impact_candidate"
  | high => "high_impact_candidate"
  | medium => "medium_impact_candidate"
  | low | info => "low_impact_candidate"
  end.

Definition _consequence_label (s : FindingSeverity) : string :=
  match s with
  | critical_candidate => "Critical-impact candidate, if reachable and ungated"
  | high => "High-impact candidate, if reachable and ungated"
  | medium => "Medium-impact candidate, if reachable and ungated"
  | low | info => "Low-impact candidate, if reachable and ungated"
  end.

Definition _is_runtime_source_finding (f : ScanFinding) : bool := negb (str_mem (sf_context_classification f) NON_RUNTIME_CONTEXTS).
Definition _runtime_source_findings (l : list ScanFinding) : list ScanFinding := List.filter _is_runtime_source_finding l.
Definition _non_runtime_findings (l : list ScanFinding) : list ScanFinding := List.filter (fun f => negb (_is_runtime_source_finding f)) l.
Definition _headline_findings (l : list ScanFinding) : list ScanFinding :=
  match _runtime_source_findings l with [] => l | runtime_findings => runtime_findings end.

(** [(_severity_index(finding.severity), 1 if finding.confidence == "high" else 0)], compared as a pair *)
Definition consequence_rank (f : ScanFinding) : nat * nat :=
  (_severity_index (sf_severity f), if bool_decide (sf_confidence f = ConfidenceHigh) then 1 else 0).
Definition rank_lt (a b : nat * nat) : bool := (a.1 <? b.1)%nat || ((a.1 =? b.1)%nat && (a.2 <? b.2)%nat).

(** [max] keeps the first of the greatest. *)
Definition _highest_finding_by_consequence (l : list ScanFinding) : option ScanFinding :=
  match l with
  | [] => None
  | f :: l => Some (fold_left (fun best g => if rank_lt (consequence_rank best) (consequence_rank g) then g else best) l f)
  end.

Definition report_candidates (include_context : bool) (l : list ScanFinding) : list ScanFinding :=
  if include_context then l else _runtime_source_findings l.
Definition _report_consequence_class (include_context : bool) (l : list ScanFinding) : string :=
  match _highest_finding_by_consequence (report_candidates include_context l) with
  | None => "none_detected" | Some highest => _consequence_class (sf_severity highest)
  end.
Definition _report_consequence_label (include_context : bool) (l : list ScanFinding) : string :=
  match _highest_finding_by_consequence (report_candidates include_context l) with
  | None => "No runtime-source candidate paths detected" | Some highest => _consequence_label (sf_severity highest)
  end.

Definition _finding_gating_status (f : ScanFinding) : string :=
  match sf_control_gaps f with
  | _ :: _ => "Not verified"
  | [] => match sf_controls_present f with
          | _ :: _ => "Static control signals visible; runtime enforcement not verified"
          | [] => "Not verified"
          end
  end.

Definition _report_gating_status (findings : list ScanFinding) (checks : list ScanCheck) : string :=
  let runtime_findings := _runtime_source_findings findings in
  if existsb (fun f => String.eqb (_finding_gating_status f) "Not verified") runtime_findings then "Not verified"
  else if existsb (fun c => bool_decide (sk_status c = missing)) checks then "Not verified"
  else match runtime_findings with
       | _ :: _ => "Static control signals visible; runtime enforcement not verified"
       | [] => "Not applicable"
       end.

Definition _runtime_proof_status (r : ScanReport) : string :=
  if str_mem (rp_mode r) ["repo"; "mcp"; "endpoint"] then "Not Verified"
  else if str_mem (rp_mode r) ["local"; "replay-harness"] && bool_decide (rp_overall_status r = NO_OBVIOUS_EXECUTION_GAP_FOUND) then "Verified"
  else if String.eqb (rp_mode r) "artifact-pair" then "Verified"
  else "Not Verified".

Definition _report_confidence (l : list ScanFinding) : string :=
  match _headline_findings l with
  | [] => "Low"
  | l => if existsb (fun f => bool_decide (sf_confidence f = ConfidenceHigh)) l then "High"
         else if existsb (fun f => bool_decide (sf_confidence f = ConfidenceMedium)) l then "Medium" else "Low"
  end.

(** [sorted({...})] *)
Definition _detected_categories (l : list ScanFinding) : list string := sorted_set (map sf_category (_headline_findings l)).

Definition render_badge_markdown (findings : list ScanFinding) : string :=
  match _runtime_source_findings findings, _non_runtime_findings findings with
  | _ :: _, _ => "![Actenon Scan: Review required](https://img.shields.io/badge/Actenon_Scan-review_required-yellow)"
  | [], _ :: _ => "![Actenon Scan: Context review](https://img.shields.io/badge/Actenon_Scan-context_review-blue)"
  | [], [] => "![Actenon Scan: No runtime candidates](https://img.shields.io/badge/Actenon_Scan-no_runtime_candidates-blue)"
  end.

Definition _badge_labels (r : ScanReport) : list string :=
  match _runtime_source_findings (rp_findings r), _non_runtime_findings (rp_findings r) with
  | _ :: _, _ =>
      ["Actenon Scan: Review required"; "Gating: " +:+ _report_gating_status (rp_findings r) (rp_checks r);
       "Action Surface: Review required"; "Consequence Map: " +:+ _report_consequence_label false (rp_findings r)]
  | [], _ :: _ => ["Actenon Scan: Context review"; "Gating: Not verified"; "Action Surface: Context findings"]
  | [], [] => ["Actenon Scan: No runtime candidates"; "Gating: Not applicable"]
  end.

(** ** The report *)
Definition has_check_status (status : CheckStatus) (checks : list ScanCheck) (key : check_key) : bool :=
  existsb (fun c => bool_decide (sk_status c = status) && bool_decide (sk_key c = key)) checks.

(** The steps of the six controls, in the order they are tried. *)
Definition control_steps : list (check_key * string) := [
  (proof_binding, "Add an Actenon proof gate at the protected endpoint and verify the exact ActionIntent/PCCB before side effects.");
  (credential_broker, "Remove standing agent credentials and broker short-lived execution authority inside the protected endpoint.");
  (structured_refusals, "Emit structured Receipt/Refusal artifacts for allowed and blocked consequential actions.");
  (replay_protection, "Add replay protection and single-use escrow for proof-bearing execution requests.");
  (approval_or_evidence_policy, "Add Preflight policy requiring approvals or evidence for production destructive actions, data exports, and privileged grants.");
  (standing_credentials, "Move production secrets out of agent runtime paths and into protected endpoint or vault-brokered execution.")].

(** [if finding.remediation and finding.remediation not in steps: steps.append(...)] *)
Definition add_remediation (steps : list string) (f : ScanFinding) : list string :=
  match sf_remediation f with
  | Some r => if str_truthy r && negb (str_mem r steps) then steps ++ [r] else steps
  | None => steps
  end.

Definition _build_remediation_steps (checks : list ScanCheck) (findings : list ScanFinding) : list string :=
  let steps := map snd (List.filter (fun step => has_check_status missing checks step.1) control_steps) in
  match fold_left add_remediation findings steps with
  | [] => ["Keep scanner reports private by default and re-run after changing protected endpoints or tool handlers."]
  | steps => steps
  end.

(** [{check.key: check.status for check in checks}.get(key)] *)
Definition statuses (checks : list ScanCheck) (key : check_key) : option CheckStatus :=
  fold_left (fun found c => if bool_decide (sk_key c = key) then Some (sk_status c) else found) checks None.

Definition agent_controlled_high (findings : list ScanFinding) : bool :=
  existsb (fun f =>
    bool_decide (sf_agent_control_context f = ContextYes) &&
    (bool_decide (sf_severity f = high) || bool_decide (sf_severity f = critical_candidate)) &&
    bool_decide (sf_confidence f = ConfidenceHigh) &&
    str_mem "missing proof gate" (sf_control_gaps f) && str_mem "missing credential broker" (sf_control_gaps f) &&
    str_mem "missing Receipt/Refusal emission" (sf_control_gaps f) && _is_runtime_source_finding f) findings.

Definition _grade_report (checks : list ScanCheck) (findings : list ScanFinding) (overall_status : OverallStatus) : ScanGrade :=
  let is_present key := bool_decide (statuses checks key = Some present) in
  let critical := existsb (fun f => bool_decide (sf_severity f = critical_candidate)) (_runtime_source_findings findings) in
  let well_controlled := is_present proof_binding && is_present structured_refusals && is_present credential_broker && is_present replay_protection in
  if well_controlled && is_present approval_or_evidence_policy then GradeA
  else if well_controlled then GradeB
  else if agent_controlled_high findings then GradeF
  else if critical || agent_controlled_high findings then GradeD
  else if bool_decide (overall_status = EXECUTION_GAP_PRESENT) then match findings with _ :: _ => GradeD | [] => GradeC end
  else if is_present proof_binding && is_present structured_refusals then
    if is_present credential_broker && is_present replay_protection then GradeA else GradeB
  else if is_present approval_or_evidence_policy then GradeC
  else GradeC.

Definition labels_of (status : CheckStatus) (checks : list ScanCheck) : list string :=
  map sk_label (List.filter (fun c => bool_decide (sk_status c = status)) checks).

Definition overall_of (checks : list ScanCheck) : OverallStatus * string :=
  match labels_of missing checks, labels_of not_assessed checks with
  | (_ :: _) as missing, _ => (EXECUTION_GAP_PRESENT, "One or more execution-edge checks were missing: " +:+ join ", " missing +:+ ".")
  | [], (_ :: _) as not_assessed =>
      (PARTIAL_SCAN_ONLY, "No missing checks were observed, but some checks were not assessed in this scan mode: " +:+ join ", " not_assessed +:+ ".")
  | [], [] => (NO_OBVIOUS_EXECUTION_GAP_FOUND, "All assessed execution-gap checks were observed on the scanned local target.")
  end.

(** [registry_version] is the version the packaged registry file carries. *)
Definition _build_report (registry_version mode target : string) (checks : list ScanCheck) (findings : list ScanFinding)
    (summary_override : option string) (metadata : option dict) : ScanReport :=
  let '(overall_status, summary) := overall_of checks in
  mkReport mode target overall_status (default summary summary_override) checks (_grade_report checks findings overall_status)
    (_build_remediation_steps checks findings) findings (render_badge_markdown findings) SCANNER_VERSION registry_version metadata.

(** ** The checks of a static scan *)
Record static_signals := mkSignals {
  has_consequential : bool; has_mcp : bool; has_proof : bool; has_receipts : bool; has_replay_escrow : bool; has_broker : bool;
  has_policy : bool; has_standing_credentials : bool; suppressed_credential_keywords : Z
}.

Definition _control_gaps (controls_present : list string) (agent_context : AgentControlContext) : list string :=
  let gap control text := if str_mem control controls_present then [] else [text] in
  gap "proof gate" "missing proof gate" ++ gap "credential broker" "missing credential broker" ++
  gap "preflight/policy" "missing Preflight/policy" ++ gap "approval/evidence" "missing evidence requirement" ++
  gap "receipt/refusal" "missing Receipt/Refusal emission" ++ gap "replay/idempotency" "missing replay/idempotency protection" ++
  (if bool_decide (agent_context = ContextYes) then gap "human override" "missing human override" else []).

Definition _confidence_from_context (capability_signal_only : bool) (context_classification : string) (agent_control_context : AgentControlContext) :
    FindingConfidence :=
  if str_mem context_classification ["DOCS_OR_GENERATED"; "TEST_OR_EXAMPLE"; "CONFIG"] then ConfidenceLow
  else if capability_signal_only then ConfidenceMedium
  else if bool_decide (agent_control_context = ContextYes) then ConfidenceHigh else ConfidenceMedium.

Definition _checks_from_static_signals (s : static_signals) : list ScanCheck :=
  let consequential_summary :=
    if has_consequential s then "Consequential action patterns were detected in scanned code paths."
    else "No obvious consequential action patterns were detected in scanned code paths." in
  let signal key (found : bool) yes no :=
    _build_check key (if found then present else if has_consequential s then missing else not_assessed)
      (if found then yes else consequential_summary +:+ no) None in
  [signal proof_binding (has_proof s) "A local Actenon proof-gate signal was found." " No visible Actenon proof gate was found.";
   _build_check audience_enforcement not_assessed
     "Static scan mode cannot prove runtime audience-enforcement behavior. Use artifact-pair or local harness mode for this check." None;
   _build_check expiry_enforcement not_assessed
     "Static scan mode cannot prove runtime proof-expiry behavior. Use artifact-pair or local harness mode for this check." None;
   signal credential_broker (has_broker s) "A credential-broker or protected-executor signal was found."
     " No visible credential-broker boundary was found.";
   signal structured_refusals (has_receipts s) "Receipt/Refusal emission signals were found." " No visible Receipt/Refusal emission was found.";
   signal replay_protection (has_replay_escrow s) "Replay or escrow protection signals were found."
     " No visible replay or escrow protection was found.";
   signal approval_or_evidence_policy (has_policy s) "Approval or evidence policy signals were found."
     " No visible approval/evidence policy was found.";
   _build_check standing_credentials (if has_standing_credentials s then missing else present)
     (if has_standing_credentials s then "Potential standing credential access was detected."
      else if (suppressed_credential_keywords s =? 0)%Z then "No strong runtime standing credential signals were detected in scanned files."
      else "No strong runtime standing credential signals were detected in scanned files. Suppressed "
           +:+ int_repr (suppressed_credential_keywords s) +:+ " offline-migration credential keyword(s).") None;
   _build_check mcp_tool_boundary
     (if has_mcp s && has_proof s then present else if has_mcp s && has_consequential s then missing else not_assessed)
     (if has_mcp s && has_proof s then "MCP/tool-handler proof-boundary signals were found."
      else if negb (has_mcp s) then "No MCP destructive tool boundary issue was detected."
      else "MCP/tool signals were found without a visible proof-boundary signal.") None].

(** ** Probing a verifier: [scan_artifact_pair] *)

(** [0.5] *)
Definition half : spec_float := S754_finite false 4503599627370496 (-53).

Definition _mutated_scalar (value : json) : json :=
  match value with
  | JBool b => JBool (negb b)
  | JInt z => JInt (z + 1)
  | JFloat f => JFloat (SFadd 53 1024 f half)
  | JStr s => JStr (s +:+ "-scanner-mutation")
  | _ => JStr "scanner-mutation"
  end.

Definition _mutate_intent (intent : ActionIntent) : py ActionIntent :=
  let payload := ActionIntent_to_dict intent in
  let action := ActionSpec_to_dict (in_action intent) in
  let target := TargetRef_to_dict (in_target intent) in
  match dget action "parameters" with
  | JDict ((_ :: _) as parameters) =>
      let first_key := hd "" (sorted_texts parameters.*1) in
      let parameters := assoc_set first_key (_mutated_scalar (dget parameters first_key)) parameters in
      parse (JDict (assoc_set "action" (JDict (assoc_set "parameters" (JDict parameters) action)) payload))
  | _ =>
      let resource_id := tgt_resource_id (in_target intent) +:+ "-scanner-mutation" in
      parse (JDict (assoc_set "target" (JDict (assoc_set "resource_id" (JStr resource_id) target)) payload))
  end.

Section Scan.
Context `{Protocol} `{ProtocolAuthority} `{ProtocolEffects} {X : Type}.

Definition _materialize_refusal (request_id : string) (occurred_at : datetime) (exc : RefusalException) (intent : option ActionIntent)
    (context : option DynamicContextInput) (pccb : option PCCB) : py Refusal :=
  create_from_exception ("rfsl_" +:+ request_id) exc occurred_at intent context
    (match pccb with Some p => JStr (pc_pccb_id p) | None => JNull end) (match pccb with Some p => pc_escrow_id p | None => JNull end) None.

(** [try: ... except RefusalException as exc: ...]: the refusal of an attempt *)
Definition attempt_refusal {A} (attempt : M exn X A) : M exn X (option RefusalException) :=
  try_catch (_ ← attempt; mret None) (fun e => match e with Refused exc => mret (Some exc) | _ => raise e end).

Section Pair.
Variable (registry_version : string) (intent : ActionIntent) (pccb : PCCB) (sdk : VerifierSDK X) (audience : AudienceRef)
  (verification_time : datetime) (request_id : string).

Definition pair_context (request_id : string) (audience : AudienceRef) (now : datetime) : DynamicContextInput :=
  sdk_build_context request_id audience now (sc_capabilities (pc_scope pccb)) (Some (sc_parameter_constraints (pc_scope pccb)))
    (sc_resource_selectors (pc_scope pccb)).

Definition pair_verify (intent : ActionIntent) (context : DynamicContextInput) : M exn X (option RefusalException) :=
  attempt_refusal (sdk_verify sdk (inl intent) (inl pccb) context).

Definition base_context : DynamicContextInput := pair_context request_id audience verification_time.

Definition BINDING_REFUSALS : list string := ["ACTION_MISMATCH"; "ACTION_HASH_MISMATCH"; "TARGET_MISMATCH"; "INTENT_MISMATCH"].

(** The proof-binding probe *)
Definition probe_binding : M exn X ScanCheck :=
  let check := _build_check proof_binding in
  baseline_error ← pair_verify intent base_context;
  match baseline_error with
  | Some exc =>
      mret (check missing ("Baseline verification failed before proof-binding probes could succeed: " +:+ exc_refusal_code exc +:+ ".")
              (Some (exc_refusal_code exc)))
  | None =>
      mutated_intent ← lift (_mutate_intent intent);
      refused ← pair_verify mutated_intent base_context;
      mret match refused with
           | Some exc =>
               if str_mem (exc_refusal_code exc) BINDING_REFUSALS
               then check present ("Baseline verification succeeded and a mutated action was refused with " +:+ exc_refusal_code exc +:+ ".")
                      (Some (exc_refusal_code exc))
               else check missing ("Mutated action was refused, but not with a proof-binding mismatch signal: " +:+ exc_refusal_code exc +:+ ".")
                      (Some (exc_refusal_code exc))
           | None => check missing "A mutated action still verified against the same PCCB in artifact-pair mode." None
           end
  end.

Definition wrong_audience_context : DynamicContextInput :=
  pair_context (request_id +:+ "_wrong_audience") (mkAudienceRef (aud_type audience) (aud_id audience +:+ "-scanner-wrong") JNull) verification_time.

Definition audience_check (refused : option RefusalException) : ScanCheck :=
  let check := _build_check audience_enforcement in
  match refused with
  | Some exc =>
      if String.eqb (exc_refusal_code exc) "AUDIENCE_MISMATCH"
      then check present "A wrong-audience verification attempt was refused with AUDIENCE_MISMATCH." (Some (exc_refusal_code exc))
      else check missing ("Wrong-audience verification failed, but not with AUDIENCE_MISMATCH: " +:+ exc_refusal_code exc +:+ ".")
             (Some (exc_refusal_code exc))
  | None => check missing "A wrong-audience verification attempt still succeeded in artifact-pair mode." None
  end.

(** The expiry probe, one second past the proof's expiry *)
Definition probe_expiry : M exn X ScanCheck :=
  let check := _build_check expiry_enforcement in
  expired_time ← lift (datetime_add (pc_expires_at pccb) US_PER_SECOND);
  refused ← pair_verify intent (pair_context (request_id +:+ "_expired") audience expired_time);
  mret match refused with
       | Some exc =>
           if String.eqb (exc_refusal_code exc) "PROOF_EXPIRED"
           then check present "An expired verification attempt was refused with PROOF_EXPIRED." (Some (exc_refusal_code exc))
           else check missing ("Expired verification failed, but not with PROOF_EXPIRED: " +:+ exc_refusal_code exc +:+ ".")
                  (Some (exc_refusal_code exc))
       | None => check missing "The verifier accepted proof after the PCCB expiry time." None
       end.

Definition refusal_check (refused : option RefusalException) : py ScanCheck :=
  let check := _build_check structured_refusals in
  match refused with
  | Some exc =>
      refusal ← _materialize_refusal (request_id +:+ "_wrong_audience") verification_time exc (Some intent) (Some wrong_audience_context) (Some pccb);
      Ok (if String.eqb (rf_category refusal) "proof" && String.eqb (rf_reason_code refusal) "AUDIENCE_MISMATCH"
          then check present "The scanner materialized a canonical Refusal artifact from a blocked verification attempt." (Some (rf_reason_code refusal))
          else check missing "Blocked verification did not yield the expected canonical Refusal shape." (Some (rf_reason_code refusal)))
  | None =>
      Ok (check missing "Structured refusal handling could not be demonstrated because the wrong-audience probe did not fail as expected." None)
  end.

Definition scan_artifact_pair : M exn X ScanReport :=
  binding ← probe_binding;
  let replay := _build_check replay_protection not_assessed
    "Artifact-pair mode uses the verifier path only and cannot observe protected-endpoint replay enforcement without an execution harness." None in
  wrong_audience_exc ← pair_verify intent wrong_audience_context;
  expiry ← probe_expiry;
  refusals ← lift (refusal_check wrong_audience_exc);
  mret (_build_report registry_version "artifact-pair"
          (in_intent_id intent +:+ " @ " +:+ aud_type audience +:+ ":" +:+ aud_id audience)
          [binding; replay; audience_check wrong_audience_exc; expiry; refusals] [] None None).
End Pair.
End Scan.

(** ** The mutated intent *)

(** The action with its first parameter changed. *)
Definition mutated_action (a : ActionSpec) : ActionSpec :=
  let first_key := hd "" (sorted_texts (act_parameters a).*1) in
  mkActionSpec (act_name a) (act_capability a) (assoc_set first_key (_mutated_scalar (dget (act_parameters a) first_key)) (act_parameters a))
    (act_constraints a) (act_scope a).

Definition mutated (i : ActionIntent) : ActionIntent :=
  mkActionIntent (in_intent_id i) (in_issued_at i) (in_expires_at i) (in_tenant i) (in_requester i) (mutated_action (in_action i)) (in_target i)
    (in_idempotency_key i) (in_justification i) (in_context i) (in_evidence_refs i) (in_metadata i) (in_extensions i).

Lemma parse_facts raw i : parse raw = Ok i ->
  ActionIntent_wf i /\ (in_issued_at i < in_expires_at i)%Z /\ act_parameters (in_action i) <> [].
Proof.
  unfold parse. destruct (ActionIntent_from_dict raw) as [i'|[]] eqn:Hr; try done. unfold intake_violations.
  destruct (Z.leb_spec (in_expires_at i') (in_issued_at i')) as [Hl|Hl]; [done|].
  destruct (act_parameters (in_action i')) as [|p ps] eqn:Hp; [done|]. cbn. intros [= <-].
  split_and!; [by eapply ActionIntent_from_wf|done|by rewrite Hp].
Qed.

Lemma assoc_set_nonempty {A} k (v : A) d : assoc_set k v d <> [].
Proof. destruct d as [|[k' v'] d]; simpl; [done|]. by destruct (String.eqb k k'). Qed.

Lemma mutate_intent_Ok raw i : parse raw = Ok i -> _mutate_intent i = Ok (mutated i).
Proof.
  intros (Hwf & Hw & Hp)%parse_facts. unfold _mutate_intent.
  change (dget (ActionSpec_to_dict (in_action i)) "parameters") with (JDict (act_parameters (in_action i))).
  destruct (act_parameters (in_action i)) as [|p ps] eqn:Hps; [done|]. rewrite <- Hps. cbv zeta.
  change (JDict (assoc_set "action" _ _)) with (JDict (ActionIntent_to_dict (mutated i))).
  unfold parse. rewrite ActionIntent_from_to by done. unfold intake_violations. cbn [in_expires_at in_issued_at mutated in_action mutated_action act_parameters].
  destruct (Z.leb_spec (in_expires_at i) (in_issued_at i)); [lia|].
  destruct (assoc_set _ _ _) as [|q qs] eqn:Hs; [by apply assoc_set_nonempty in Hs|]. done.
Qed.

Lemma string_app_neq s t : t <> "" -> s +:+ t <> s.
Proof. intros Ht He. apply (f_equal String.length) in He. rewrite string_length_app in He. destruct t; [done|]. simpl in He. lia. Qed.

Lemma mutated_scalar_differs v s : _canonicalize_json v = Ok s -> json_norm (_mutated_scalar v) <> json_norm v.
Proof.
  destruct v as [|b|z|f|t|l|d]; try discriminate; intros Hc; simpl.
  - by destruct b.
  - intros [=]. lia.
  - intros [= He]. by apply string_app_neq in He.
Qed.

Lemma assoc_set_keys {A} k (v : A) d : k ∈ d.*1 -> (assoc_set k v d).*1 = d.*1.
Proof.
  induction d as [|[k' v'] d IH]; csimpl; [by rewrite elem_of_nil|]. destruct (String.eqb_spec k k') as [->|Hn]; [done|].
  rewrite elem_of_cons. intros [?|Hk]; [done|]. csimpl. by rewrite IH.
Qed.

Lemma first_key_in (d : dict) : d <> [] -> hd "" (sorted_texts d.*1) ∈ d.*1.
Proof.
  intros Hd. assert (sorted_texts d.*1 ≡ₚ d.*1) as Hp.
  { unfold sorted_texts. rewrite ksort_perm. induction d.*1 as [|k ks IH]; [done|]. simpl. by f_equiv. }
  destruct (sorted_texts d.*1) as [|k ks] eqn:Hs.
  - apply Permutation_nil_l in Hp. by destruct d.
  - rewrite <- Hp. by left.
Qed.

Lemma action_keys a : NoDup (ActionSpec_to_dict a).*1.
Proof.
  unfold ActionSpec_to_dict, dict_item. destruct (dict_truthy (act_constraints a)), (dict_truthy (act_scope a));
    apply (bool_decide_unpack _); vm_compute; exact I.
Qed.

Lemma mutated_not_same `{Protocol} (a : ActionSpec) (b : json) : NoDup (act_parameters a).*1 -> act_parameters a <> [] ->
  same_canonical b (JDict (ActionSpec_to_dict a)) -> same_canonical b (JDict (ActionSpec_to_dict (mutated_action a))) -> False.
Proof.
  intros Hnd Hne Ha Hm. pose proof Ha as (s & _ & Hs). apply same_canonical_norm in Ha, Hm. rewrite Ha in Hm.
  pose proof (json_norm_assoc _ _ "parameters" (action_keys a) (action_keys (mutated_action a)) Hm) as Hp.
  pose proof (first_key_in _ Hne) as Hk. remember (hd "" (sorted_texts (act_parameters a).*1)) as k eqn:Hkd.
  change (Some (json_norm (JDict (act_parameters a))) = Some (json_norm (JDict (act_parameters (mutated_action a))))) in Hp.
  cbn [mutated_action act_parameters] in Hp. rewrite <- Hkd in Hp. apply (inj Some) in Hp.
  apply (json_norm_assoc _ _ k) in Hp; [|done|by rewrite assoc_set_keys].
  rewrite assoc_set_eq in Hp. apply list_elem_of_fmap in Hk as ([k' v] & -> & Hv). cbn [fst] in *.
  pose proof Hv as Hv'. apply (elem_assoc _ _ _ Hnd) in Hv'. unfold dget in Hp. rewrite Hv' in Hp. simpl in Hp.
  apply canonicalize_bytes_Ok in Hs as [Hs _].
  assert (("parameters", JDict (act_parameters a)) ∈ ActionSpec_to_dict a) as Hin by (unfold ActionSpec_to_dict; set_solver).
  destruct (canon_part _ _ _ _ Hin Hs) as (t & Ht & _). destruct (canon_part _ _ _ _ Hv Ht) as (u & Hu & _).
  apply (mutated_scalar_differs _ _ Hu). congruence.
Qed.

(** ** What a verifier that accepted the pair answers to the probes *)
Section Probes.
Context `{Protocol} `{ProtocolAuthority}.
Hypothesis Hve : canonicalisation_error_is_value_error = true.
Variable (v : PCCBVerifier) (pccb : PCCB).

Definition generic : bool := bool_decide (vf_disclosure_mode v = PUBLIC_GENERIC).

(** The refusal a failed check of [code] ends in. *)
Definition probe_refusal (code : string) : RefusalException :=
  let code := if generic then "PROOF_INVALID" else code in
  ProofVerificationError code (default "" (assoc code PUBLIC_PROOF_REFUSAL_MESSAGES)) [].

Definition probe_codes : list string := ["ACTION_MISMATCH"; "AUDIENCE_MISMATCH"; "PROOF_EXPIRED"].

Lemma fail_if_true code : code ∈ probe_codes -> fail_if v true code false = Err (Refused (probe_refusal code)).
Proof.
  intros Hc. unfold fail_if, _raise_post_auth_failure, probe_refusal, generic.
  destruct (bool_decide _); [reflexivity|]. unfold probe_codes in Hc. set_unfold in Hc. by destruct Hc as [->|[->|[->|[]]]].
Qed.

Lemma require_equal_fails a b code : code ∈ probe_codes -> ~ same_canonical (JDict a) (JDict b) ->
  require_equal v a b code = Err (Refused (probe_refusal code)).
Proof.
  intros Hc Hn. unfold require_equal. destruct (canonical_equal_total Hve (JDict a) (JDict b)) as [[] He]; rewrite He; cbn.
  - by apply canonical_equal_true in He.
  - by apply fail_if_true.
Qed.

Lemma after_ok {E B} (m : res E unit) (n : res E B) : m = Ok tt -> (_ ← m; n) = n.
Proof. by intros ->. Qed.

Lemma audience_keys a : NoDup (AudienceRef_to_dict a).*1.
Proof. unfold AudienceRef_to_dict, json_item. destruct (not_none (aud_uri a)); apply (bool_decide_unpack _); vm_compute; exact I. Qed.

Lemma probe_action raw i c : parse raw = Ok i -> NoDup (act_parameters (in_action i)).*1 -> verify v i pccb c = Ok tt ->
  verify v (mutated i) pccb c = Err (Refused (probe_refusal "ACTION_MISMATCH")).
Proof.
  intros (_ & _ & Hne)%parse_facts Hnd Hv. unfold verify in *. apply seq_Ok in Hv as [Hpre Hv]. rewrite after_ok by done.
  unfold post_auth in *. apply seq_Ok in Hv as [Ht [Hb _]%seq_Ok]. rewrite after_ok by done.
  unfold check_bindings in *.
  apply seq_Ok in Hb as [H1 [H2 [H3 [H4 [H5 [H6 [H7 [H8 [H9 Hb]%seq_Ok]%seq_Ok]%seq_Ok]%seq_Ok]%seq_Ok]%seq_Ok]%seq_Ok]%seq_Ok].
  cbn [in_target in_action in_intent_id in_tenant in_requester mutated mutated_action act_capability].
  rewrite H1, H2, H3, H4, H5, H6, H7, H8, H9. apply require_equal_Ok in Hb. rewrite require_equal_fails; [done|set_solver|].
  intros Hm. by eapply mutated_not_same.
Qed.

Lemma probe_audience i c c' : verify v i pccb c = Ok tt -> cx_now c' = cx_now c ->
  (exists suffix, suffix <> "" /\ aud_id (cx_audience c') = aud_id (cx_audience c) +:+ suffix) ->
  verify v i pccb c' = Err (Refused (probe_refusal "AUDIENCE_MISMATCH")).
Proof.
  intros Hv Hn (suffix & Hs & Hid). unfold verify in *. apply seq_Ok in Hv as [Hpre Hv]. rewrite after_ok by done.
  unfold post_auth in *. apply seq_Ok in Hv as [Ht [Hb _]%seq_Ok].
  rewrite after_ok by (unfold check_time in *; by rewrite Hn).
  unfold check_bindings in *. apply seq_Ok in Hb as [Ha%require_equal_Ok%same_canonical_norm _].
  rewrite (require_equal_fails _ _ "AUDIENCE_MISMATCH"); [done|set_solver|]. intros Hm%same_canonical_norm. rewrite Ha in Hm.
  pose proof (json_norm_assoc _ _ "id" (audience_keys _) (audience_keys _) Hm) as [= Hi].
  rewrite Hid in Hi. symmetry in Hi. by apply string_app_neq in Hi.
Qed.

(** A second past its expiry a proof is refused as expired, unless the tolerance
    covers that second. *)
Lemma probe_expired i c c' : verify v i pccb c = Ok tt -> cx_now c' = (pc_expires_at pccb + US_PER_SECOND)%Z ->
  (0 <= vf_clock_skew_tolerance v < US_PER_SECOND)%Z -> clock_in_range v c' ->
  verify v i pccb c' = Err (Refused (probe_refusal "PROOF_EXPIRED")).
Proof.
  clear Hve. intros Hv Hn Hs [Hl He]. unfold verify in *. apply seq_Ok in Hv as [Hpre Hv]. rewrite after_ok by done.
  unfold post_auth in *. apply seq_Ok in Hv as [Ht _]. apply check_time_Ok in Ht as (Hnb & Hex & _).
  unfold check_time. rewrite Hn in *.
  assert (datetime_add (pc_expires_at pccb + US_PER_SECOND) (vf_clock_skew_tolerance v) = Ok (pc_expires_at pccb + US_PER_SECOND + vf_clock_skew_tolerance v)%Z) as ->
    by (by apply datetime_add_Ok).
  assert (datetime_add (pc_expires_at pccb + US_PER_SECOND) (- vf_clock_skew_tolerance v) = Ok (pc_expires_at pccb + US_PER_SECOND - vf_clock_skew_tolerance v)%Z) as Hd
    by (apply datetime_add_Ok; split; [lia|exact He]).
  cbn [mbind res_bind]. rewrite Hd. rewrite (proj2 (Z.ltb_ge _ _)) by lia. cbn [fail_if mbind res_bind].
  rewrite (proj2 (Z.ltb_lt _ _)) by lia. rewrite fail_if_true by set_solver. done.
Qed.
End Probes.

(** ** Running the scan *)
Section Runs.
Context `{Protocol} `{ProtocolAuthority} `{ProtocolEffects} {X : Type}.

Lemma attempt_refusal_Ok {A} (m : M exn X A) a x x' : m x = (Ok a, x') -> attempt_refusal m x = (Ok None, x').
Proof. intros Hm. unfold attempt_refusal, try_catch, mbind, M_bind. by rewrite Hm. Qed.

Lemma attempt_refusal_Refused {A} (m : M exn X A) exc x x' : m x = (Err (Refused exc), x') -> attempt_refusal m x = (Ok (Some exc), x').
Proof. intros Hm. unfold attempt_refusal, try_catch, mbind, M_bind. by rewrite Hm. Qed.

Lemma attempt_refusal_inv {A} (m : M exn X A) r x x' : attempt_refusal m x = (Ok r, x') ->
  match r with None => exists a, m x = (Ok a, x') | Some exc => m x = (Err (Refused exc), x') end.
Proof.
  unfold attempt_refusal, try_catch, mbind, M_bind. destruct (m x) as [[a|[]] x1]; intros [= <- <-]; eauto.
Qed.

Lemma sdk_verify_verified (sdk : VerifierSDK X) i p c x v x' : sdk_verify sdk (inl i) (inl p) c x = (Ok v, x') ->
  verify (sdk_proof_verifier sdk) i p c = Ok tt.
Proof.
  unfold sdk_verify, mbind, M_bind, lift. destruct (verify _ _ _ _) as [[]|e]; done.
Qed.

Lemma sdk_verify_fails (sdk : VerifierSDK X) i p c x e : verify (sdk_proof_verifier sdk) i p c = Err e ->
  sdk_verify sdk (inl i) (inl p) c x = (Err e, x).
Proof. intros He. unfold sdk_verify, mbind, M_bind, lift. by rewrite He. Qed.

(** A probe of a refusing verifier leaves the state alone. *)
Lemma pair_verify_fails sdk p i c (x : X) exc : verify (sdk_proof_verifier sdk) i p c = Err (Refused exc) ->
  pair_verify p sdk i c x = (Ok (Some exc), x).
Proof. intros He. apply attempt_refusal_Refused. by apply sdk_verify_fails. Qed.
End Runs.

(** The checks of a report without their wording. *)
Definition outcome_of (c : ScanCheck) : check_key * CheckStatus * option string := (sk_key c, sk_status c, sk_reason_code c).

(** What a check of [code] shows when the verifier refuses the probe. *)
Definition probed (v : PCCBVerifier) (key : check_key) (code : string) : check_key * CheckStatus * option string :=
  if generic v then (key, missing, Some "PROOF_INVALID") else (key, present, Some code).

(** What the scan observes on a pair the verifier accepts: everything it assesses when
    the verifier names its reasons, and nothing when every refusal looks alike. *)
Definition observed (v : PCCBVerifier) : list (check_key * CheckStatus * option string) :=
  [probed v proof_binding "ACTION_MISMATCH"; (replay_protection, not_assessed, None); probed v audience_enforcement "AUDIENCE_MISMATCH";
   probed v expiry_enforcement "PROOF_EXPIRED"; probed v structured_refusals "AUDIENCE_MISMATCH"].

Section Observed.
Context `{Protocol} `{ProtocolAuthority} `{ProtocolEffects} {X : Type}.
Variable (intent : ActionIntent) (pccb : PCCB) (sdk : VerifierSDK X) (audience : AudienceRef) (now : datetime) (request_id : string).

#[local] Abbreviation v := (sdk_proof_verifier sdk).
#[local] Abbreviation base := (base_context pccb audience now request_id).

Lemma binding_observed (Hve : canonicalisation_error_is_value_error = true) raw x x' accepted : parse raw = Ok intent ->
  NoDup (act_parameters (in_action intent)).*1 -> sdk_verify sdk (inl intent) (inl pccb) base x = (Ok accepted, x') ->
  exists c, probe_binding intent pccb sdk audience now request_id x = (Ok c, x') /\ outcome_of c = probed v proof_binding "ACTION_MISMATCH".
Proof.
  intros Hp Hnd Hb. pose proof (sdk_verify_verified _ _ _ _ _ _ _ Hb) as Hv.
  unfold probe_binding. rewrite M_bind_run. unfold pair_verify at 1. rewrite (attempt_refusal_Ok _ _ _ _ Hb).
  rewrite M_bind_run, (mutate_intent_Ok _ _ Hp). unfold lift.
  rewrite M_bind_run, (pair_verify_fails _ _ _ _ _ _ (probe_action Hve v pccb raw intent base Hp Hnd Hv)).
  eexists. split; [reflexivity|]. unfold probed, probe_refusal. by destruct (generic v).
Qed.

Lemma audience_observed (Hve : canonicalisation_error_is_value_error = true) x : verify v intent pccb base = Ok tt ->
  exists exc c, pair_verify pccb sdk intent (wrong_audience_context pccb audience now request_id) x = (Ok (Some exc), x) /\
    outcome_of (audience_check (Some exc)) = probed v audience_enforcement "AUDIENCE_MISMATCH" /\
    refusal_check intent pccb audience now request_id (Some exc) = Ok c /\ outcome_of c = probed v structured_refusals "AUDIENCE_MISMATCH".
Proof.
  intros Hv. exists (probe_refusal v "AUDIENCE_MISMATCH").
  assert (verify v intent pccb (wrong_audience_context pccb audience now request_id) = Err (Refused (probe_refusal v "AUDIENCE_MISMATCH"))) as Hw.
  { apply (probe_audience Hve v pccb intent base); [done|done|]. by exists "-scanner-wrong". }
  destruct (create_from_exception_Ok ("rfsl_" +:+ (request_id +:+ "_wrong_audience")) (probe_refusal v "AUDIENCE_MISMATCH") now (Some intent)
    (Some (wrong_audience_context pccb audience now request_id)) (JStr (pc_pccb_id pccb)) (pc_escrow_id pccb) None) as (f & Hf & _ & Hc & Hr & _).
  eexists. split_and!; [by apply pair_verify_fails| | |].
  - unfold audience_check, probed, probe_refusal. by destruct (generic v).
  - unfold refusal_check, _materialize_refusal. rewrite Hf. reflexivity.
  - rewrite Hc, Hr. unfold probed, probe_refusal. by destruct (generic v).
Qed.

Lemma expiry_observed x : verify v intent pccb base = Ok tt -> (0 <= vf_clock_skew_tolerance v < US_PER_SECOND)%Z ->
  let expired := (pc_expires_at pccb + US_PER_SECOND)%Z in
  datetime_ok expired -> datetime_ok (expired + vf_clock_skew_tolerance v) -> datetime_ok (expired - vf_clock_skew_tolerance v) ->
  exists c, probe_expiry intent pccb sdk audience request_id x = (Ok c, x) /\ outcome_of c = probed v expiry_enforcement "PROOF_EXPIRED".
Proof.
  intros Hv Hs expired He1 He2 He3. unfold probe_expiry. rewrite M_bind_run.
  assert (datetime_add (pc_expires_at pccb) US_PER_SECOND = Ok expired) as -> by (by apply datetime_add_Ok). unfold lift.
  rewrite M_bind_run. erewrite pair_verify_fails.
  2: { apply (probe_expired v pccb intent base); [done|done|done|]. by split. }
  eexists. split; [reflexivity|]. unfold probed, probe_refusal. by destruct (generic v).
Qed.
End Observed.

(** C21: On a pair the verifier accepts, the artifact-pair scan always returns a report, its
    probes change nothing, and the report says exactly what the verifier's disclosure
    mode lets it observe: with named reasons every assessed check is present, the
    status is partial and the grade B; with generic refusals every assessed check
    counts as missing and the report claims a gap.  The intent is one the intake
    returned, with distinct parameter names; the clock tolerance of the verifier is
    not negative and below one second, which is how far past the expiry the scan
    probes (a verifier that tolerates more is reported to lack the expiry check, see
    [tolerance_reported_missing]); that instant plus or minus the tolerance is a
    representable date; and canonicalisation errors are value errors. *)
Theorem artifact_pair_exact `{Protocol} `{ProtocolAuthority} `{ProtocolEffects} {X : Type} (registry_version : string) (raw : json)
    (intent : ActionIntent) (pccb : PCCB) (sdk : VerifierSDK X) (audience : AudienceRef) (now : datetime) (request_id : string)
    (x x' : X) (accepted : VerifiedPortableRequest) :
  let v := sdk_proof_verifier sdk in
  let expired := (pc_expires_at pccb + US_PER_SECOND)%Z in
  canonicalisation_error_is_value_error = true ->
  parse raw = Ok intent -> NoDup (act_parameters (in_action intent)).*1 ->
  sdk_verify sdk (inl intent) (inl pccb) (base_context pccb audience now request_id) x = (Ok accepted, x') ->
  (0 <= vf_clock_skew_tolerance v < US_PER_SECOND)%Z ->
  datetime_ok expired -> datetime_ok (expired + vf_clock_skew_tolerance v) -> datetime_ok (expired - vf_clock_skew_tolerance v) ->
  exists report, scan_artifact_pair registry_version intent pccb sdk audience now request_id x = (Ok report, x') /\
    map outcome_of (rp_checks report) = observed v /\
    rp_overall_status report = (if generic v then EXECUTION_GAP_PRESENT else PARTIAL_SCAN_ONLY) /\
    rp_grade report = (if generic v then GradeC else GradeB).
Proof.
  intros v expired Hve Hp Hnd Hb Hskew He1 He2 He3. pose proof (sdk_verify_verified _ _ _ _ _ _ _ Hb) as Hv.
  destruct (binding_observed intent pccb sdk audience now request_id Hve raw x x' accepted Hp Hnd Hb) as (b & Hbr & Hbo).
  destruct (expiry_observed intent pccb sdk audience now request_id x' Hv Hskew He1 He2 He3) as (e & Her & Heo).
  destruct (audience_observed intent pccb sdk audience now request_id Hve x' Hv) as (exc & s & Har & Hao & Hsr & Hso).
  unfold scan_artifact_pair. rewrite M_bind_run, Hbr. rewrite M_bind_run, Har. rewrite M_bind_run, Her.
  rewrite M_bind_run. unfold lift. rewrite Hsr.
  eexists. split; [reflexivity|]. revert Hbo Heo Hao Hso.
  unfold observed, probed, _build_report. destruct b, e, s, (audience_check (Some exc)) as [? ? ? ? ?]. cbv [outcome_of sk_key sk_status sk_reason_code].
  fold v. destruct (generic v); intros [= -> -> ->] [= -> -> ->] [= -> -> ->] [= -> -> ->]; by split_and!.
Qed.

(** ** Reports *)
Lemma labels_nil status checks : labels_of status checks = [] <-> Forall (fun c => sk_status c <> status) checks.
Proof.
  induction checks as [|c l IH]; [by rewrite Forall_nil|]. rewrite Forall_cons. unfold labels_of in *. simpl.
  destruct (bool_decide_reflect (sk_status c = status)); simpl; naive_solver.
Qed.

Lemma labels_cons status checks : labels_of status checks <> [] <-> Exists (fun c => sk_status c = status) checks.
Proof.
  rewrite labels_nil. split; [|intros [c [Hc Hs]]%Exists_exists Hf; rewrite Forall_forall in Hf; by apply (Hf c)].
  intros Hn. apply not_Forall_Exists in Hn; [|intros ?; apply _]. apply Exists_impl with (1 := Hn). intros c. by apply dec_stable.
Qed.

Lemma overall_gap checks : (overall_of checks).1 = EXECUTION_GAP_PRESENT <-> Exists (fun c => sk_status c = missing) checks.
Proof. rewrite <- labels_cons. unfold overall_of. destruct (labels_of missing checks), (labels_of not_assessed checks); naive_solver. Qed.

Lemma overall_clear checks : (overall_of checks).1 = NO_OBVIOUS_EXECUTION_GAP_FOUND <-> Forall (fun c => sk_status c = present) checks.
Proof.
  transitivity (labels_of missing checks = [] /\ labels_of not_assessed checks = []).
  - unfold overall_of. destruct (labels_of missing checks), (labels_of not_assessed checks); naive_solver.
  - rewrite !labels_nil, !Forall_forall. split; [|intros Hp; split; intros c Hc; by rewrite (Hp c Hc)]. intros [Hm Hn] c Hc. specialize (Hm c Hc). specialize (Hn c Hc). by destruct (sk_status c).
Qed.

Lemma report_status rv mode target checks findings override metadata :
  rp_overall_status (_build_report rv mode target checks findings override metadata) = (overall_of checks).1.
Proof. unfold _build_report. by destruct (overall_of checks). Qed.

Lemma report_grade rv mode target checks findings override metadata :
  rp_grade (_build_report rv mode target checks findings override metadata) = _grade_report checks findings (overall_of checks).1.
Proof. unfold _build_report. by destruct (overall_of checks). Qed.

Lemma report_checks rv mode target checks findings override metadata :
  rp_checks (_build_report rv mode target checks findings override metadata) = checks.
Proof. unfold _build_report. by destruct (overall_of checks). Qed.

(** How much worse a grade or a status is than the best one. *)
Definition grade_rank (g : ScanGrade) : nat := match g with GradeA => 0 | GradeB => 1 | GradeC => 2 | GradeD => 3 | GradeF => 4 end.
Definition status_rank (s : CheckStatus) : nat := match s with present => 0 | not_assessed => 1 | missing => 2 end.

(** The same check with a result that is not better. *)
Definition not_better (c c' : ScanCheck) : Prop := sk_key c = sk_key c' /\ status_rank (sk_status c) <= status_rank (sk_status c').

Lemma statuses_not_better checks checks' key : Forall2 not_better checks checks' ->
  statuses checks' key = Some present -> statuses checks key = Some present.
Proof.
  intros Hf. unfold statuses.
  assert (forall o o' : option CheckStatus, (o' = Some present -> o = Some present) ->
    fold_left (fun found c => if bool_decide (sk_key c = key) then Some (sk_status c) else found) checks' o' = Some present ->
    fold_left (fun found c => if bool_decide (sk_key c = key) then Some (sk_status c) else found) checks o = Some present) as Hg; [|by apply Hg].
  induction Hf as [|c c' l l' [Hk Hs] Hf IH]; simpl; [done|]. intros o o' Ho. apply IH. rewrite <- Hk.
  case_bool_decide; [|done]. intros [= Hp]. rewrite Hp in Hs. destruct (sk_status c); simpl in Hs; [done|lia|lia].
Qed.

Lemma gap_not_better checks checks' : Forall2 not_better checks checks' ->
  (overall_of checks).1 = EXECUTION_GAP_PRESENT -> (overall_of checks').1 = EXECUTION_GAP_PRESENT.
Proof.
  rewrite !overall_gap. induction 1 as [|c c' l l' [_ Hs] Hf IH]; rewrite ?Exists_nil, ?Exists_cons; [done|].
  intros [Hc|Hl]; [left|by right; apply IH]. rewrite Hc in Hs. destruct (sk_status c'); simpl in Hs; [lia|done|lia].
Qed.

(** *** The grade, over the conditions it depends on *)
Definition is_present (checks : list ScanCheck) (key : check_key) : bool := bool_decide (statuses checks key = Some present).
Definition proof_and_refusals (checks : list ScanCheck) : bool := is_present checks proof_binding && is_present checks structured_refusals.
Definition well_controlled (checks : list ScanCheck) : bool :=
  proof_and_refusals checks && is_present checks credential_broker && is_present checks replay_protection.

Definition grade_of (well policy observed gap critical agent any : bool) : ScanGrade :=
  if well then if policy then GradeA else GradeB
  else if agent then GradeF
  else if critical then GradeD
  else if gap then if any then GradeD else GradeC
  else if observed then GradeB else GradeC.

Lemma grade_is checks findings status : _grade_report checks findings status =
  grade_of (well_controlled checks) (is_present checks approval_or_evidence_policy) (proof_and_refusals checks)
    (bool_decide (status = EXECUTION_GAP_PRESENT))
    (existsb (fun f => bool_decide (sf_severity f = critical_candidate)) (_runtime_source_findings findings)) (agent_controlled_high findings)
    (match findings with [] => false | _ => true end).
Proof.
  unfold _grade_report, well_controlled, proof_and_refusals, is_present. cbv zeta.
  destruct (existsb _ (_runtime_source_findings findings)), (agent_controlled_high findings), (bool_decide (status = _)), findings;
    destruct (bool_decide (statuses checks proof_binding = _)), (bool_decide (statuses checks structured_refusals = _)),
      (bool_decide (statuses checks credential_broker = _)), (bool_decide (statuses checks replay_protection = _)),
      (bool_decide (statuses checks approval_or_evidence_policy = _)); reflexivity.
Qed.

Lemma grade_of_A w p o g c a n : grade_of w p o g c a n = GradeA <-> w = true /\ p = true.
Proof. destruct w, p, a, c, g, n, o; simpl; naive_solver. Qed.

Lemma grade_of_mono (w w' p p' o o' g g' c a n : bool) : (w' = true -> w = true) -> (p' = true -> p = true) -> (o' = true -> o = true) ->
  (g = true -> g' = true) ->
  grade_rank (grade_of w p o g c a n) <= grade_rank (grade_of w' p' o' g' c a n).
Proof.
  intros Hw Hp Ho Hg. destruct w' eqn:Hw'; [rewrite Hw by done|destruct w].
  - destruct p' eqn:Hp'; [rewrite Hp by done|]; destruct p; simpl; lia.
  - destruct p, a, c, g', n, o'; simpl; lia.
  - destruct a, c; try (simpl; lia). destruct g; [rewrite Hg by done; done|]. destruct g', n, o' eqn:Ho'; try rewrite Ho by done; destruct o; simpl; lia.
Qed.

(** A report never looks better than its checks: it is cleared exactly when every check
    is present and names a gap exactly when one is missing; its grade is A exactly when
    the five controls are present; and when checks get worse the grade does not
    improve. *)
Theorem report_honest (rv mode target : string) (checks checks' : list ScanCheck) (findings : list ScanFinding) (override : option string)
    (metadata : option dict) :
  let report checks := _build_report rv mode target checks findings override metadata in
  (rp_overall_status (report checks) = NO_OBVIOUS_EXECUTION_GAP_FOUND <-> Forall (fun c => sk_status c = present) checks) /\
  (rp_overall_status (report checks) = EXECUTION_GAP_PRESENT <-> Exists (fun c => sk_status c = missing) checks) /\
  (rp_grade (report checks) = GradeA <->
     Forall (fun key => statuses checks key = Some present)
       [proof_binding; structured_refusals; credential_broker; replay_protection; approval_or_evidence_policy]) /\
  (Forall2 not_better checks checks' -> grade_rank (rp_grade (report checks)) <= grade_rank (rp_grade (report checks'))).
Proof.
  cbv beta zeta. rewrite !report_status, !report_grade. split_and!; [apply overall_clear|apply overall_gap| |].
  - rewrite grade_is, grade_of_A. unfold well_controlled, proof_and_refusals, is_present.
    rewrite !andb_true_iff, !bool_decide_eq_true, !Forall_cons, Forall_nil. naive_solver.
  - intros Hf. pose proof (fun key => statuses_not_better _ _ key Hf) as Hs. pose proof (gap_not_better _ _ Hf) as Hg.
    rewrite !grade_is. unfold well_controlled, proof_and_refusals, is_present. apply grade_of_mono;
      rewrite ?andb_true_iff, ?bool_decide_eq_true; naive_solver.
Qed.

(** A static scan never clears a repository: it names a gap exactly when standing
    credentials are visible or a consequential path lacks one of the five controls, and
    is partial otherwise. *)
Theorem static_scan_never_clears (rv mode target : string) (s : static_signals) (findings : list ScanFinding) (override : option string)
    (metadata : option dict) :
  rp_overall_status (_build_report rv mode target (_checks_from_static_signals s) findings override metadata) =
    if has_standing_credentials s ||
       (has_consequential s && negb (has_proof s && has_broker s && has_receipts s && has_replay_escrow s && has_policy s))
    then EXECUTION_GAP_PRESENT else PARTIAL_SCAN_ONLY.
Proof.
  rewrite report_status. unfold _checks_from_static_signals.
  destruct s as [[] [] [] [] [] [] [] [] n]; reflexivity.
Qed.

Section PairChecks.
Context `{Protocol} `{ProtocolAuthority} `{ProtocolEffects} {X : Type}.
Variable (intent : ActionIntent) (pccb : PCCB) (sdk : VerifierSDK X) (audience : AudienceRef) (now : datetime) (request_id : string).

Lemma expiry_key x c x' : probe_expiry intent pccb sdk audience request_id x = (Ok c, x') -> sk_key c = expiry_enforcement.
Proof.
  unfold probe_expiry. intros (t & x1 & _ & Hc)%M_bind_Ok. apply M_bind_Ok in Hc as ([exc|] & x2 & _ & [= <- _]); [|done].
  by destruct (String.eqb _ _).
Qed.

Lemma audience_key refused : sk_key (audience_check refused) = audience_enforcement.
Proof. destruct refused; [|done]. unfold audience_check. by destruct (String.eqb _ _). Qed.

Lemma refusal_key refused c : refusal_check intent pccb audience now request_id refused = Ok c -> sk_key c = structured_refusals.
Proof.
  destruct refused as [exc|]; [|by intros [= <-]]. intros (f & _ & [= <-])%bind_Ok. by destruct (_ && _).
Qed.

(** The binding check says what became of the pair and of the mutated intent. *)
Lemma binding_outcome x c x' : probe_binding intent pccb sdk audience now request_id x = (Ok c, x') ->
  let attempt i := sdk_verify sdk (inl i) (inl pccb) (base_context pccb audience now request_id) in
  sk_key c = proof_binding /\
  (forall exc x1, attempt intent x = (Err (Refused exc), x1) -> sk_status c = missing) /\
  (sk_status c = present -> exists accepted x1 i exc x2, attempt intent x = (Ok accepted, x1) /\ _mutate_intent intent = Ok i /\
     attempt i x1 = (Err (Refused exc), x2) /\ exc_refusal_code exc ∈ BINDING_REFUSALS).
Proof.
  unfold probe_binding, pair_verify. cbv zeta. intros ([exc|] & x1 & Hb%attempt_refusal_inv & Hc)%M_bind_Ok; [by injection Hc as <- _|].
  destruct Hb as [a Hb]. apply M_bind_Ok in Hc as (i & x2 & [= Hi <-] & Hc).
  apply M_bind_Ok in Hc as ([exc|] & x3 & Hm%attempt_refusal_inv & Hc); apply pair_equal_spec in Hc as [Hc%Ok_inj _]; rewrite Hb; rewrite <- Hc; [|done].
  destruct (str_mem _ BINDING_REFUSALS) eqn:Hin; [|done]. split_and!; [done|done|]. intros _.
  exists a, x1, i, exc, x3. split_and!; [done..|]. by apply str_mem_spec.
Qed.
End PairChecks.

(** An artifact-pair report vouches for the binding only on evidence: when the check is
    present the verifier accepted the pair and refused the mutated intent for a binding
    reason; a pair the verifier refuses is a gap; and the report never clears. *)
Theorem artifact_pair_sound `{Protocol} `{ProtocolAuthority} `{ProtocolEffects} {X : Type} (registry_version : string)
    (intent : ActionIntent) (pccb : PCCB) (sdk : VerifierSDK X) (audience : AudienceRef) (now : datetime) (request_id : string)
    (x x' : X) (report : ScanReport) :
  let attempt i := sdk_verify sdk (inl i) (inl pccb) (base_context pccb audience now request_id) in
  scan_artifact_pair registry_version intent pccb sdk audience now request_id x = (Ok report, x') ->
  rp_overall_status report <> NO_OBVIOUS_EXECUTION_GAP_FOUND /\
  (forall exc x1, attempt intent x = (Err (Refused exc), x1) -> rp_overall_status report = EXECUTION_GAP_PRESENT) /\
  (statuses (rp_checks report) proof_binding = Some present ->
     exists accepted x1 i exc x2, attempt intent x = (Ok accepted, x1) /\ _mutate_intent intent = Ok i /\
       attempt i x1 = (Err (Refused exc), x2) /\ exc_refusal_code exc ∈ BINDING_REFUSALS).
Proof.
  cbv beta zeta. unfold scan_artifact_pair. intros (b & x1 & Hb & Hr)%M_bind_Ok.
  apply M_bind_Ok in Hr as (w & x2 & _ & Hr). apply M_bind_Ok in Hr as (e & x3 & He & Hr).
  apply M_bind_Ok in Hr as (r & x4 & [= Hrc <-] & [= <- <-]). rewrite report_status, report_checks.
  assert (sk_key e = expiry_enforcement /\ sk_key r = structured_refusals) as [Hke Hkr].
  { split; [by apply expiry_key in He|by apply refusal_key in Hrc]. }
  destruct (binding_outcome _ _ _ _ _ _ _ _ _ Hb) as (Hk & Hm & Hp). split_and!.
  - rewrite overall_clear, !Forall_cons. naive_solver.
  - intros exc y Hx. apply overall_gap. left. by eapply Hm.
  - intros Hs. apply Hp. revert Hs. unfold statuses. cbn [fold_left sk_key sk_status _build_check]. rewrite Hk, Hke, Hkr, audience_key.
    simpl. by intros [= ?].
Qed.

(** ** The built-in harness: [scan_replay_harness] *)
Definition FIXED_BASE_TIME : datetime := of_clock (mkClock 2026 1 1 12 0 0 0).

Definition harness_payload : json := JDict [
  ("contract", JDict [("name", JStr "action_intent"); ("version", JStr "v1")]);
  ("intent_id", JStr "intent_execution_gap_scan_001");
  ("issued_at", JStr (format_timestamp FIXED_BASE_TIME));
  ("expires_at", JStr (format_timestamp (FIXED_BASE_TIME + 300 * US_PER_SECOND)));
  ("tenant", JDict [("tenant_id", JStr "tenant_alpha")]);
  ("requester", JDict [("type", JStr "service"); ("id", JStr "scanner_actor_123")]);
  ("action", JDict [("name", JStr "refund.create"); ("capability", JStr "refund.execute");
                    ("parameters", JDict [("amount_minor", JInt 1000); ("currency", JStr "USD")])]);
  ("target", JDict [("resource_type", JStr "payment"); ("resource_id", JStr "pay_001")])].

Definition harness_context : DynamicContextInput :=
  mkContext "req_execution_gap_scan_001" (mkAudienceRef "service" "protected-endpoint" JNull) ["refund.execute"] FIXED_BASE_TIME
    [("risk_level", JStr "normal")] [] [] [] [] None.

Definition harness_policy : PolicyEngine :=
  mkPolicyEngine [IntentChronologyHardRule; IntentTtlHardRule 900; CapabilityScopeHardRule]
    (mkLayer [("tenant_alpha", [TenantWorkflowRule
       (mkWorkflowRule "tenant_alpha.refund.allow" "allow" "The local scanner harness authorizes the protected refund path." "WORKFLOW_ALLOW"
          [] ["refund.execute"] [("risk_level", JStr "normal")] [] [])])] []).

Section Harness.
Context `{Protocol} `{ProtocolAuthority} `{ProtocolEffects} `{PyText} `{Hmac} `{Base64Padding} {R : Type} `{ReplayStore R}.
Variable (registry_version : string) (e : environment) (fresh_store : R).

#[local] Abbreviation writer := (@memory_writer unit).
#[local] Abbreviation kernel := (@ProtectedExecutionKernel writer unit).
#[local] Abbreviation state := (@kstate R Memory.records unit unit writer unit unit).

Definition _build_replay_harness : py kernel :=
  signer ← HmacSha256Signer_new e "execution-gap-scan-secret" "execution-gap-scan" "HS256";
  let outcome_writer := InMemoryOutcomeWriter (mkPublication None None 0%Z) in
  proof_verifier ← PCCBVerifier_init (getenv e "ACTENON_ENV")
    (mkPCCBVerifier (local_verifier signer) DEFAULT_CLOCK_SKEW_TOLERANCE LOCAL_DEBUG None None None);
  Ok (mkKernel (PolicyEngine_evaluate harness_policy)
        (mkPCCBMinter (local_signer signer) (mkPartyRef "service" "scanner_kernel" JNull []) None)
        (mkMiddleware proof_verifier outcome_writer) outcome_writer None None None false).

(** The state of a new harness: an empty database and no outcomes. *)
Definition harness_state : state :=
  (mkExecWorld fresh_store (∅ : Memory.records) tt tt [] (mkMemoryWriter [] [] None None tt) tt [], tt).

Definition harness_ids : kernel_ids :=
  mkKernelIds "esc_execution_gap_scan_001" "pccb_execution_gap_scan_001" "nonce-execution-gap-scan-0001" "rcpt_execution_gap_scan" "rfsl_execution_gap_scan".
Definition harness_artifact_ids : artifact_ids := mkIds "rcpt_execution_gap_scan" "rfsl_execution_gap_scan" "rcpt_execution_gap_scan".

Definition _submit_admission (k : kernel) : M exn state (ActionIntent * PCCB) :=
  admission ← submit_intent k harness_context harness_ids harness_payload;
  match ar_intent admission, ar_pccb admission with
  | Some intent, Some pccb => mret (intent, pccb)
  | _, _ => raise (ValueError "local scanner harness did not produce an executable protected request")
  end.

Definition _execute_request (k : kernel) (intent : ActionIntent) (pccb : PCCB) (context : DynamicContextInput) : M exn state ExecutionResult :=
  kernel_execute k (build_execution_request intent pccb context)
    (fun _ => mret (Some [("external_reference", JStr "scan_exec_001")])) harness_artifact_ids.

(** [with TemporaryDirectory() as tempdir: harness = ...; admission = ...; ...] *)
Definition with_harness {A} (body : kernel -> ActionIntent -> PCCB -> M exn state A) : py A :=
  k ← _build_replay_harness;
  (('(intent, pccb) ← _submit_admission k; body k intent pccb) harness_state).1.

Definition refused_with (result : ExecutionResult) (codes : list string) : option string :=
  match er_refusal result with
  | Some refusal => if str_mem (rf_reason_code refusal) codes then Some (rf_reason_code refusal) else None
  | None => None
  end.

(** A check that is present when the result carries an expected reason. *)
Definition harness_check (key : check_key) (reason : option string) (yes : string -> string) (no : string) : ScanCheck :=
  match reason with
  | Some code => _build_check key present (yes code) (Some code)
  | None => _build_check key missing no None
  end.

Definition wrong_endpoint_context (request_id : string) : DynamicContextInput :=
  mkContext request_id (mkAudienceRef "service" "wrong-protected-endpoint" JNull) (cx_scope_capabilities harness_context)
    (cx_now harness_context) (cx_facts harness_context) [] [] [] [] None.

Definition scan_replay_harness : py ScanReport :=
  binding ← with_harness (fun k intent pccb =>
    mutated_intent ← lift (_mutate_intent intent);
    result ← _execute_request k mutated_intent pccb harness_context;
    mret (harness_check proof_binding (refused_with result BINDING_REFUSALS)
            (fun code => "The protected endpoint refused a mutated execution attempt with " +:+ code +:+ ".")
            "The local protected-endpoint harness did not refuse a mutated execution attempt as a proof-binding failure."));
  replay ← with_harness (fun k intent pccb =>
    first ← _execute_request k intent pccb harness_context;
    duplicate ← _execute_request k intent pccb harness_context;
    mret (harness_check replay_protection
            (match er_refusal first with None => refused_with duplicate ["DUPLICATE_REPLAY"] | Some _ => None end)
            (fun _ => "The local protected-endpoint harness refused a duplicate execution attempt with DUPLICATE_REPLAY.")
            "The local protected-endpoint harness did not refuse a duplicate execution attempt as replay."));
  audience ← with_harness (fun k intent pccb =>
    result ← _execute_request k intent pccb (wrong_endpoint_context "req_execution_gap_scan_wrong_audience");
    mret (harness_check audience_enforcement (refused_with result ["AUDIENCE_MISMATCH"])
            (fun _ => "The local protected-endpoint harness refused a wrong-audience execution attempt with AUDIENCE_MISMATCH.")
            "The local protected-endpoint harness did not surface AUDIENCE_MISMATCH on a wrong-audience execution attempt."));
  expiry ← with_harness (fun k intent pccb =>
    now ← lift (datetime_add (pc_expires_at pccb) US_PER_SECOND);
    result ← _execute_request k intent pccb
      (mkContext "req_execution_gap_scan_expired" (cx_audience harness_context) (cx_scope_capabilities harness_context) now
         (cx_facts harness_context) [] [] [] [] None);
    mret (harness_check expiry_enforcement (refused_with result ["PROOF_EXPIRED"])
            (fun _ => "The local protected-endpoint harness refused an expired execution attempt with PROOF_EXPIRED.")
            "The local protected-endpoint harness did not surface PROOF_EXPIRED after the proof validity window."));
  refusals ← with_harness (fun k intent pccb =>
    result ← _execute_request k intent pccb (wrong_endpoint_context "req_execution_gap_scan_refusal_shape");
    mret (harness_check structured_refusals
            (match er_receipt result with Some _ => refused_with result ["AUDIENCE_MISMATCH"] | None => None end)
            (fun _ => "Blocked execution produced both a canonical Refusal artifact and a refused Receipt in the local harness.")
            "Blocked execution did not produce the expected canonical Refusal and refused Receipt pair in the local harness."));
  Ok (_build_report registry_version "replay-harness" "built-in replay-protected local harness"
        [binding; replay; audience; expiry; refusals] [] None None).

Definition scan_local : py ScanReport :=
  harness_report ← scan_replay_harness;
  let checks := rp_checks harness_report ++ [_build_check credential_broker not_assessed
    "Local harness mode exercises proof, replay, expiry, audience, and refusal behavior but does not inspect a deployment-specific credential broker." None] in
  Ok (_build_report registry_version "local" "built-in local scanner harness" checks (rp_findings harness_report)
        (Some ("The local scanner harness observed proof binding, replay protection, audience enforcement, expiry enforcement, "
               +:+ "and structured refusal behavior. Credential brokering must be assessed on a concrete endpoint or repo path.")) None).
End Harness.

(** ** Facts about the harness and the findings *)

(** In a production-like environment the harness does not run at all. *)
Lemma harness_guarded `{Protocol} `{ProtocolAuthority} `{PyText} `{Hmac} `{Base64Padding} {R : Type} `{ReplayStore R} rv e (fresh : R) :
  _production_like_environment e = true -> scan_replay_harness rv e fresh = Err LocalHmacProductionGuardError.
Proof.
  intros He. unfold scan_replay_harness, with_harness, _build_replay_harness, HmacSha256Signer_new, _guard_local_hmac_creation. by rewrite He.
Qed.

(** The summary of the local scan says that everything was observed, whatever its
    checks say. *)
Lemma local_summary_unconditional `{Protocol} `{ProtocolAuthority} `{PyText} `{Hmac} `{Base64Padding} {R : Type} `{ReplayStore R} rv e (fresh : R) r :
  scan_local rv e fresh = Ok r ->
  rp_summary r = "The local scanner harness observed proof binding, replay protection, audience enforcement, expiry enforcement, "
                 +:+ "and structured refusal behavior. Credential brokering must be assessed on a concrete endpoint or repo path.".
Proof. intros (h & _ & [= <-])%bind_Ok. unfold _build_report. by destruct (overall_of _). Qed.

(** An artifact-pair report is presented as verified even when the pair was refused. *)
Lemma refused_pair_shown_verified `{Protocol} `{ProtocolAuthority} `{ProtocolEffects} {X : Type} rv intent pccb (sdk : VerifierSDK X) audience now
    request_id x x' report :
  scan_artifact_pair rv intent pccb sdk audience now request_id x = (Ok report, x') -> _runtime_proof_status report = "Verified".
Proof.
  unfold scan_artifact_pair. intros (b & x1 & _ & Hr)%M_bind_Ok. apply M_bind_Ok in Hr as (w & x2 & _ & Hr).
  apply M_bind_Ok in Hr as (e & x3 & _ & Hr). apply M_bind_Ok in Hr as (r & x4 & _ & Hr).
  apply pair_equal_spec in Hr as [<-%Ok_inj _]. unfold _runtime_proof_status, _build_report. by destruct (overall_of _).
Qed.

(** The branch of [_mutate_intent] for an intent without parameters never returns: the
    intake refuses every such intent. *)
Lemma mutate_without_parameters i : ActionIntent_wf i -> act_parameters (in_action i) = [] -> exists exc, _mutate_intent i = Err (Refused exc).
Proof.
  intros Hwf Hp. unfold _mutate_intent.
  change (dget (ActionSpec_to_dict (in_action i)) "parameters") with (JDict (act_parameters (in_action i))). rewrite Hp. cbv zeta.
  set (t := mkTargetRef (tgt_resource_type (in_target i)) (tgt_resource_id (in_target i) +:+ "-scanner-mutation") (tgt_uri (in_target i)) (tgt_selectors (in_target i))).
  set (i' := mkActionIntent (in_intent_id i) (in_issued_at i) (in_expires_at i) (in_tenant i) (in_requester i) (in_action i) t
    (in_idempotency_key i) (in_justification i) (in_context i) (in_evidence_refs i) (in_metadata i) (in_extensions i)).
  change (JDict (assoc_set "target" _ _)) with (JDict (ActionIntent_to_dict i')).
  assert (ActionIntent_wf i') as Hwf'.
  { destruct Hwf as (Hi & He & Hw). split_and!; [done|done|]. split_andb. rewrite !andb_true_iff. split_and!; try done.
    unfold TargetRef_wf in *. split_andb. rewrite andb_true_iff. split; [done|]. by apply str_truthy_app_l. }
  unfold parse. rewrite ActionIntent_from_to by done. unfold intake_violations. cbn [in_action i']. rewrite Hp.
  destruct (_ <=? _)%Z; eexists; reflexivity.
Qed.

(** ** Samples *)
Definition pair_sdk (mode : VerifierDisclosureMode) (tolerance : Z) : VerifierSDK unit :=
  mkSDK (mkPCCBVerifier sample_signature_verifier tolerance mode None None None) None.

Definition sample_pair_scan (mode : VerifierDisclosureMode) (tolerance : Z) : py ScanReport * unit :=
  @scan_artifact_pair demo_protocol sample_authority sample_effects unit "1" sample_intent sample_pccb (pair_sdk mode tolerance)
    sample_audience sample_now "req_1" tt.

Lemma artifact_pair_exact_witness : exists report, sample_pair_scan TRUSTED_DETAILED 0 = (Ok report, tt) /\
  rp_overall_status report = PARTIAL_SCAN_ONLY /\ rp_grade report = GradeB.
Proof.
  destruct (@artifact_pair_exact demo_protocol sample_authority sample_effects unit "1" sample_payload sample_intent sample_pccb
    (pair_sdk TRUSTED_DETAILED 0) sample_audience sample_now "req_1" tt tt
    (mkPortable sample_intent sample_pccb (base_context sample_pccb sample_audience sample_now "req_1"))) as (r & Hr & _ & Hs & Hg).
  - reflexivity.
  - vm_compute. reflexivity.
  - apply (bool_decide_unpack _). vm_compute. exact I.
  - vm_compute. reflexivity.
  - vm_compute. split; [discriminate|reflexivity].
  - vm_compute. split; [discriminate|reflexivity].
  - vm_compute. split; [discriminate|reflexivity].
  - vm_compute. split; [discriminate|reflexivity].
  - exists r. split; [exact Hr|]. split; [exact Hs|exact Hg].
Defined.

Lemma artifact_pair_sound_witness : exists report x, sample_pair_scan TRUSTED_DETAILED 0 = (Ok report, x) /\
  statuses (rp_checks report) proof_binding = Some present /\ rp_overall_status report <> NO_OBVIOUS_EXECUTION_GAP_FOUND.
Proof.
  destruct (sample_pair_scan TRUSTED_DETAILED 0) as [[report|e] x] eqn:Hr; [|exfalso; vm_compute in Hr; discriminate Hr].
  exists report, x. split; [reflexivity|]. split; [vm_compute in Hr; injection Hr as <- _; reflexivity|].
  apply (@artifact_pair_sound demo_protocol sample_authority sample_effects unit "1" sample_intent sample_pccb (pair_sdk TRUSTED_DETAILED 0)
    sample_audience sample_now "req_1" tt x report Hr).
Defined.

(** A verifier that tolerates two seconds of clock skew, as it may, is reported to
    lack the expiry check. *)
Example tolerance_reported_missing :
  match (sample_pair_scan TRUSTED_DETAILED (2 * US_PER_SECOND)).1 with
  | Ok r => statuses (rp_checks r) expiry_enforcement | Err _ => None
  end = Some missing.
Proof. vm_compute. reflexivity. Qed.

(** The whole system of this library, run by its own scanner. *)
Definition development : environment := mkEnvironment [("ACTENON_ENV", "development")] None.
Example harness_clear :
  match @scan_replay_harness demo_protocol sample_authority demo_text demo_hmac demo_padding store database_store "1" development sample_store with
  | Ok r => (map outcome_of (rp_checks r), rp_overall_status r) | Err _ => ([], PARTIAL_SCAN_ONLY)
  end =
  ([(proof_binding, present, Some "ACTION_MISMATCH"); (replay_protection, present, Some "DUPLICATE_REPLAY");
    (audience_enforcement, present, Some "AUDIENCE_MISMATCH"); (expiry_enforcement, present, Some "PROOF_EXPIRED");
    (structured_refusals, present, Some "AUDIENCE_MISMATCH")], NO_OBVIOUS_EXECUTION_GAP_FOUND).
Proof. vm_compute. reflexivity. Qed.

(** A grade A beside a gap: the grade does not look at the standing credentials. *)
Example grade_A_with_gap :
  let report := _build_report "1" "repo" "/srv/app" (_checks_from_static_signals (mkSignals true false true true true true true true 0)) [] None None in
  rp_grade report = GradeA /\ rp_overall_status report = EXECUTION_GAP_PRESENT.
Proof. split; reflexivity. Qed.
