(* ===== verification/RuntimeServer.v ===== *)
(** * The local runtime service: [local_runtime_server.py]

    The issuer a developer runs on one machine: an HTTP service over the kernel of
    [Kernel], the refund and invoice policies of [DomainPolicy], the local signer and
    the file stores.  The file system is an interface ([FileSystem]); the paths are
    texts.  Modelled: the policy router, the context built from a request, key
    discovery, health, preflight, submission with the request's artifacts, the two
    HTTP verbs, the start-up information, and the key material of [local_runtime.py]
    that key discovery must not publish.

    The theorems: a proof leaves the service only for a supported action its
    domain policy authorises under the context of the request, and then its escrow is
    issued; symmetric key material is never served; the artifacts of a request are
    written to one directory of its own and are the ones the answer names. *)

From S2P Require Import Prelude Text Json Errors Timestamps Canonical Base64 Contracts Runtime Samples ProofService SecurityPosture Policy Replay ReplayStore Escrow Receipts Artifacts Attestation AnchorLog Transparency WellKnown LocalSigner IntentRecord InvoiceLedger DomainApi DomainPolicy Idempotency Credentials Effects Executor ExecutorFrames ExecutorProofs Writers Middleware Kernel RemoteClients Endpoint TrustArtifacts Preflight PolicyPacks Bundle Adapters DomainFlow.

(** ** Files *)

(** What the service uses of the file system: what is at a path, the entries of a
    directory, and [write_text] after [mkdir(parents=True)]. *)
Class FileSystem (F : Type) := {
  fs_node : string -> F -> option node;
  fs_entries : string -> F -> directory;
  fs_write : string -> string -> M exn F unit;
  fs_write_Ok p text f f' : fs_write p text f = (Ok tt, f') -> forall q, fs_node q f' = if String.eqb p q then Some (File text) else fs_node q f;
  fs_write_Err p text f e f' : fs_write p text f = (Err e, f') -> forall q, q <> p -> fs_node q f' = fs_node q f
}.

(** [str(base / name)] *)
Definition under (base name : string) : string := base +:+ "/" +:+ name.

(** ** Paths *)
Record LocalRuntimeServerPaths := mkServerPaths {
  sp_root : string; sp_artifacts_root : string; sp_requests_root : string; sp_outcomes_root : string; sp_state_root : string;
  sp_service_manifest_path : string; sp_replay_db_path : string; sp_escrow_db_path : string; sp_key_discovery_path : string
}.

Definition resolve_local_runtime_server_paths (root : string) : LocalRuntimeServerPaths :=
  let artifacts_root := under root "artifacts" in
  let state_root := under root "state" in
  mkServerPaths root artifacts_root (under artifacts_root "requests") (under artifacts_root "outcomes") state_root
    (under root "service_manifest.json") (under state_root "replay.sqlite3") (under state_root "escrow.sqlite3")
    (under (under root "keys") "actenon-keys.json").

(** [resolve_local_runtime_paths(runtime_dir).<lab>_root / "state" / "protected_endpoint_state.json"] *)
Definition lab_state_path (root lab : string) : string :=
  under (under (under (under root "labs") lab) "state") "protected_endpoint_state.json".

Definition LEGACY_WELL_KNOWN_KEYS_PATH : string := "/.well-known/actenon-keys.json".

Definition _runtime_issuer : PartyRef := mkPartyRef "service" "actenon_local_runtime" (JStr "Actenon Local Runtime") [].
Definition _runtime_supported_capabilities : list string := ["refund.execute"; "invoice_payment.execute"].

(** ** [LocalRuntimePolicyRouter] *)
Record LocalRuntimePolicyRouter := mkRouter { ro_refund_engine : PolicyEngine; ro_invoice_payment_engine : PolicyEngine }.

Definition unsupported_capability (capability : string) : PolicyDecision :=
  let summary := "The local runtime does not expose an issuer route for this capability." in
  mkPolicyDecision Deny summary
    [mkRuleEvaluation "runtime.unsupported_capability" Deny "UNSUPPORTED_CAPABILITY" summary [("capability", JStr capability)] [] []]
    ["UNSUPPORTED_CAPABILITY"] [] [].

Definition router_evaluate (r : LocalRuntimePolicyRouter) (intent : ActionIntent) (context : DynamicContextInput) : py PolicyDecision :=
  let capability := act_capability (in_action intent) in
  if String.eqb capability "refund.execute" then PolicyEngine_evaluate (ro_refund_engine r) intent context
  else if String.eqb capability "invoice_payment.execute" then PolicyEngine_evaluate (ro_invoice_payment_engine r) intent context
  else Ok (unsupported_capability capability).

(** ** Reading a request *)
Section Segments.
Context `{UnicodeData}.
Definition safe_char (char : string) : string := if char_isalnum char || str_mem char ["-"; "_"] then char else "_".
Definition _safe_segment (value : string) : string :=
  let cleaned := concat_chars (map safe_char (py_chars value)) in
  let s := py_prefix 96 cleaned in
  if str_truthy s then s else "request".
End Segments.

Definition _merge_mapping (base : dict) (override : option dict) : dict :=
  match override with None => base | Some d => assoc_merge base d end.

(** [raw.get(k) if isinstance(raw.get(k), Mapping) else None] *)
Definition mapping_at (raw : dict) (k : string) : option dict := match dget raw k with JDict d => Some d | _ => None end.

Definition contract_error {A} (msg : string) : py A := Err (Refused (ContractValidationError msg [] [])).

Definition runtime_parse_audience (raw : json) (default : AudienceRef) : py AudienceRef :=
  match raw with
  | JNull => Ok default
  | JStr s => Ok match py_partition (Ascii.ascii_of_N 58) s with
                 | Some (audience_type, audience_id) => mkAudienceRef audience_type audience_id JNull
                 | None => mkAudienceRef (aud_type default) s JNull
                 end
  | JDict _ => AudienceRef_from_dict "context.audience" raw
  | _ => contract_error "context.audience must be a string or audience object"
  end.

Definition _parse_context_now (now : datetime) (raw : json) : py datetime :=
  match raw with
  | JNull => Ok now
  | JStr _ => parse_timestamp raw "context.now"
  | _ => contract_error "context.now must be an RFC3339 string"
  end.

Definition all_mappings (l : list json) : option (list dict) := mapM (fun j => match j with JDict d => Some d | _ => None end) l.

Definition _parse_resource_selectors (raw : json) (default : list dict) : py (list dict) :=
  match raw with
  | JNull => Ok default
  | JList l => match all_mappings l with
               | Some selectors => Ok selectors
               | None => contract_error "context.resource_selectors must be a list of objects"
               end
  | _ => contract_error "context.resource_selectors must be a list of objects"
  end.

Section Requests.
Context `{Protocol} `{PyText}.

Definition _parse_string_tuple (raw : json) (default : list string) (field_name : string) : py (list string) :=
  match raw with
  | JNull => Ok default
  | JList l => Ok (map py_str l)
  | _ => contract_error (field_name +:+ " must be a list of strings")
  end.

(** ** The default context of an intent *)
Section Defaults.
Context `{Platform} {F : Type} `{FileSystem F}.
Variable (root : string) (f : F).

Definition _load_json_if_present (path : string) : py (option dict) :=
  match fs_node path f with
  | None => Ok None
  | Some n => d ← _load_json n; Ok (Some d)
  end.

(** [_load_json_if_present(path) or {}] *)
Definition lab_state (lab : string) : py json := state ← _load_json_if_present (lab_state_path root lab); Ok (JDict (default [] state)).

(** [d.get(key, {})] for a key of any type *)
Definition get_item_of (container : json) (key : json) : py json :=
  match container with
  | JDict d => match key with
               | JStr k => Ok (dget_default d k (JDict []))
               | JList _ | JDict _ => Err (TypeError "unhashable type")
               | _ => Ok (JDict [])
               end
  | _ => Err (AttributeError "get")
  end.

(** [str(intent.context.get("demo_scenario") or intent.metadata.get("scenario") or "")] *)
Definition demo_scenario (intent : ActionIntent) : string :=
  py_str (py_or (dget (in_context intent) "demo_scenario") (py_or (dget (in_metadata intent) "scenario") (JStr ""))).

(** [scenario or None] *)
Definition scenario_or_none (s : string) : json := if str_truthy s then JStr s else JNull.

Definition limit_of (value : json) (summary : string) (unit : dict) : json := JDict (("value", value) :: ("summary", JStr summary) :: unit).
Definition minor_units : dict := [("unit", JStr "minor_units")].

Definition _default_refund_facts (intent : ActionIntent) : py dict :=
  let payment_id := tgt_resource_id (in_target intent) in
  let params := parameters intent in
  state ← lab_state "local_proof";
  payments ← get_field state "payments" (JDict []);
  payment ← get_item_of payments (JStr payment_id);
  let scenario := demo_scenario intent in
  let risk_level := if String.eqb scenario "deny" then "blocked" else if String.eqb scenario "approval_required" then "approval"
                    else if String.eqb scenario "needs_evidence" then "review" else "normal" in
  payment_currency ← get_field payment "currency" (dget params "currency");
  remaining ← get_field payment "remaining_refundable_minor" (dget_default params "amount_minor" (JInt 0));
  Ok [("risk_level", JStr risk_level); ("scenario", scenario_or_none scenario); ("payment_id", JStr payment_id);
      ("payment_currency", payment_currency); ("remaining_refundable_minor", remaining);
      ("prohibited_actions", strings ["refund.currency_override"; "refund.target_override"]);
      ("abort_conditions", strings ["remaining_refundable_minor_below_requested_amount"; "payment_currency_mismatch"]);
      ("blast_radius_limits", JDict
        [("max_payment_targets", limit_of (JInt 1) "A single refund delegation may target only one payment resource." []);
         ("max_amount_minor", limit_of (dget params "amount_minor") "Do not exceed the delegated refund amount." minor_units)])].

(** One element of the generator that [sorted] consumes. *)
Definition paid_invoice (invoices : json) (invoice_id : json) : py (option string) :=
  invoice ← get_item_of invoices invoice_id;
  status ← get_field invoice "status" JNull;
  Ok match invoice_id with JStr s => if is_str status "paid" then Some s else None | _ => None end.

Definition expected_batch_hash (params : dict) (payment_batch_id : string) : py string :=
  payer ← getitem params "payer_entity_id";
  supplier ← getitem params "supplier_id";
  bank ← getitem params "bank_account_reference";
  invoice_ids ← (v ← getitem params "invoice_ids"; py_iter v);
  amount ← (v ← getitem params "amount_minor"; py_int v);
  currency ← getitem params "currency";
  payment_date ← getitem params "payment_date";
  compute_invoice_payment_batch_hash
    (mkPayment payer supplier bank (strings (map py_str invoice_ids)) (JInt amount) (JStr (py_str currency))
       (NotDate (JStr (py_str payment_date))) (JStr payment_batch_id)).

(** The approvals and evidence of the scenarios: chain required, chain provided,
    approver types, evidence types. *)
Definition scenario_requirements (scenario : string) : list string * list string * list string * list string :=
  if String.eqb scenario "approval_missing"
  then (["approver_manager"; "approver_controller"], ["approver_manager"], ["finance-controller"; "treasury-operator"], [])
  else if String.eqb scenario "evidence_missing" then ([], [], [], ["invoice_pdf"; "supplier_statement"])
  else ([], [], [], []).

Definition _default_invoice_payment_facts (intent : ActionIntent) : py dict :=
  let params := parameters intent in
  payment_batch_id ← (v ← getitem params "payment_batch_id"; Ok (py_str v));
  state ← lab_state "invoice_payment_local_proof";
  invoices ← get_field state "invoices" (JDict []);
  payment_batches ← get_field state "payment_batches" (JDict []);
  declared_ids ← py_iter (dget_default params "invoice_ids" (JList []));
  paid ← res_mapM (paid_invoice invoices) declared_ids;
  batch_record ← get_item_of payment_batches (JStr payment_batch_id);
  let scenario := demo_scenario intent in
  let '(approval_chain, provided_chain, approver_types, evidence_types) := scenario_requirements scenario in
  payer ← getitem params "payer_entity_id";
  supplier ← getitem params "supplier_id";
  bank ← getitem params "bank_account_reference";
  raw_ids ← getitem params "invoice_ids";
  invoice_ids ← py_iter raw_ids;
  amount ← getitem params "amount_minor";
  currency ← getitem params "currency";
  payment_date ← getitem params "payment_date";
  batch ← match batch_record with JDict d => Ok d | _ => Err (AttributeError "get") end;
  computed ← expected_batch_hash params payment_batch_id;
  let batch_hash := dget_default batch "batch_hash" (JStr computed) in
  let executions := dget batch "payment_execution_ids" in
  count ← py_length raw_ids;
  Ok [("risk_level", JStr "normal"); ("scenario", scenario_or_none scenario); ("expected_payer_entity_id", payer); ("expected_supplier_id", supplier);
      ("expected_bank_account_reference", bank); ("expected_invoice_ids", JList invoice_ids); ("expected_amount_minor", amount);
      ("expected_currency", currency); ("expected_payment_date", payment_date); ("expected_batch_hash", batch_hash);
      ("duplicate_invoice_ids", strings (sorted_texts (omap id paid))); ("duplicate_payment_detected", JBool (py_truthy executions));
      ("required_approval_chain", strings approval_chain); ("provided_approval_chain", strings provided_chain);
      ("required_approver_types", strings approver_types); ("required_evidence_types", strings evidence_types);
      ("prohibited_actions", strings ["invoice_payment.payee_override"; "invoice_payment.entity_override"]);
      ("abort_conditions", strings ["duplicate_invoice_detected"; "bank_account_mismatch"; "batch_hash_mismatch"]);
      ("blast_radius_limits", JDict
        [("max_invoice_count", limit_of (JInt count) "A delegated payment batch may cover only the declared invoice set." []);
         ("max_amount_minor", limit_of amount "Do not exceed the delegated payment amount." minor_units);
         ("max_batch_targets", limit_of (JInt 1) "A single delegated payment may target only one payment batch." [])])].

Definition _default_parameter_constraints (intent : ActionIntent) : py dict :=
  let params := parameters intent in
  let capability := act_capability (in_action intent) in
  if String.eqb capability "refund.execute"
  then Ok [("exact_amount_minor", dget params "amount_minor"); ("exact_currency", dget params "currency");
           ("target_resource_id", JStr (tgt_resource_id (in_target intent)))]
  else if String.eqb capability "invoice_payment.execute"
  then
    payer ← getitem params "payer_entity_id";
    supplier ← getitem params "supplier_id";
    bank ← getitem params "bank_account_reference";
    invoice_ids ← (v ← getitem params "invoice_ids"; py_iter v);
    amount ← getitem params "amount_minor";
    currency ← getitem params "currency";
    payment_date ← getitem params "payment_date";
    batch_id ← getitem params "payment_batch_id";
    batch_hash ← getitem params "batch_hash";
    Ok [("exact_payer_entity_id", payer); ("exact_supplier_id", supplier); ("exact_bank_account_reference", bank);
        ("exact_invoice_ids", JList invoice_ids); ("exact_amount_minor", amount); ("exact_currency", currency);
        ("exact_payment_date", payment_date); ("exact_payment_batch_id", batch_id); ("exact_batch_hash", batch_hash)]
  else Ok [].

Definition _default_resource_selectors (intent : ActionIntent) : list dict := [[("resource_id", JStr (tgt_resource_id (in_target intent)))]].

(** The random identifier and the clock of a request. *)
Variable (fresh : string) (now : datetime).

Definition service_audience (id : string) : AudienceRef := mkAudienceRef "service" id JNull.

Definition _default_context_for_intent (intent : ActionIntent) : py DynamicContextInput :=
  let capability := act_capability (in_action intent) in
  let context endpoint facts constraints :=
    mkContext ("req_" +:+ fresh) (service_audience endpoint) [capability] now facts constraints (_default_resource_selectors intent) [] [] (Some 900%Z) in
  if String.eqb capability "refund.execute"
  then facts ← _default_refund_facts intent; constraints ← _default_parameter_constraints intent; Ok (context "local-refund-endpoint" facts constraints)
  else if String.eqb capability "invoice_payment.execute"
  then facts ← _default_invoice_payment_facts intent; constraints ← _default_parameter_constraints intent;
       Ok (context "local-invoice-payment-endpoint" facts constraints)
  else constraints ← _default_parameter_constraints intent; Ok (context "local-runtime-endpoint" [] constraints).

(** [int(raw.get("max_ttl_seconds", default))] *)
Definition max_ttl_of (raw : dict) (def : option Z) : py Z :=
  py_int (dget_default raw "max_ttl_seconds" match def with Some z => JInt z | None => JNull end).

Definition _context_from_raw (intent : ActionIntent) (raw : option dict) : py DynamicContextInput :=
  def ← _default_context_for_intent intent;
  let raw := default [] raw in
  let request_id := py_str (dget_default raw "request_id" (JStr (cx_request_id def))) in
  audience ← runtime_parse_audience (dget raw "audience") (cx_audience def);
  scope_capabilities ← _parse_string_tuple (dget raw "scope_capabilities") (cx_scope_capabilities def) "context.scope_capabilities";
  instant ← (if not_none (dget raw "now") then _parse_context_now now (dget raw "now") else Ok (cx_now def));
  let facts := _merge_mapping (cx_facts def) (mapping_at raw "facts") in
  let parameter_constraints := _merge_mapping (cx_parameter_constraints def) (mapping_at raw "parameter_constraints") in
  resource_selectors ← _parse_resource_selectors (dget raw "resource_selectors") (cx_resource_selectors def);
  required_evidence_types ← _parse_string_tuple (dget raw "required_evidence_types") (cx_required_evidence_types def) "context.required_evidence_types";
  approver_types ← _parse_string_tuple (dget raw "approver_types") (cx_approver_types def) "context.approver_types";
  max_ttl_seconds ← max_ttl_of raw (cx_max_ttl_seconds def);
  Ok (mkContext request_id audience scope_capabilities instant facts parameter_constraints resource_selectors required_evidence_types
        approver_types (Some max_ttl_seconds)).

Definition _fallback_context (raw : option dict) : py DynamicContextInput :=
  let raw := default [] raw in
  let request_id := py_str (dget_default raw "request_id" (JStr ("req_" +:+ fresh))) in
  audience ← runtime_parse_audience (dget raw "audience") (service_audience "actenon-local-runtime");
  scope_capabilities ← _parse_string_tuple (dget raw "scope_capabilities") [] "context.scope_capabilities";
  instant ← (if not_none (dget raw "now") then _parse_context_now now (dget raw "now") else Ok now);
  facts ← py_dict (py_or (dget raw "facts") (JDict []));
  parameter_constraints ← py_dict (py_or (dget raw "parameter_constraints") (JDict []));
  resource_selectors ← _parse_resource_selectors (dget raw "resource_selectors") [];
  required_evidence_types ← _parse_string_tuple (dget raw "required_evidence_types") [] "context.required_evidence_types";
  approver_types ← _parse_string_tuple (dget raw "approver_types") [] "context.approver_types";
  max_ttl_seconds ← max_ttl_of raw (Some 900%Z);
  Ok (mkContext request_id audience scope_capabilities instant facts parameter_constraints resource_selectors required_evidence_types
        approver_types (Some max_ttl_seconds)).
End Defaults.
End Requests.

Definition _extract_request_payload (raw : dict) : py (dict * option dict) :=
  match dget raw "action_intent" with
  | JDict action_intent =>
      match dget raw "context" with
      | JNull => Ok (action_intent, None)
      | JDict context => Ok (action_intent, Some context)
      | _ => contract_error "context must be a JSON object when provided"
      end
  | _ => Ok (raw, None)
  end.

Definition evaluation_payload (e : RuleEvaluation) : json := JDict
  [("rule_id", JStr (re_rule_id e)); ("outcome", JStr (outcome_text (re_outcome e))); ("reason_code", JStr (re_reason_code e));
   ("summary", JStr (re_summary e)); ("details", JDict (re_details e)); ("required_evidence", strings (re_required_evidence e));
   ("approver_types", strings (re_approver_types e))].

Definition runtime_decision_payload (decision : option PolicyDecision) : json :=
  match decision with
  | None => JNull
  | Some d => JDict
      [("outcome", JStr (outcome_text (pd_outcome d))); ("summary", JStr (pd_summary d)); ("reason_codes", strings (pd_reason_codes d));
       ("required_evidence", strings (pd_required_evidence d)); ("approver_types", strings (pd_approver_types d));
       ("rule_evaluations", JList (map evaluation_payload (pd_rule_evaluations d)))]
  end.

(** ** [LocalProofRuntimeService] *)
Record LocalProofRuntimeService := mkRuntimeService { rs_paths : LocalRuntimeServerPaths; rs_signer : HmacSha256Signer }.

Section Service.
Context `{Protocol} `{ProtocolAuthority} `{ProtocolEffects} `{PyText} `{Platform} `{Ed25519} `{UnicodeData} `{Hmac} `{Base64Padding}.
Context {R E B X V F : Type} `{ReplayStore R} `{CapabilityEscrow E} `{FileSystem F}.

(** [json.dumps(..., indent=2, sort_keys=True)] *)
Variable dumps : dict -> string.

(** The constructor: the signer's guards and the verifier's, which may refuse the
    environment. *)
Definition LocalProofRuntimeService_new (e : environment) (root : string) : py LocalProofRuntimeService :=
  signer ← build_local_proof_signer e None LOCAL_PROOF_KEY_ID;
  _ ← PCCBVerifier_init (getenv e "ACTENON_ENV") (mkPCCBVerifier (local_verifier signer) DEFAULT_CLOCK_SKEW_TOLERANCE LOCAL_DEBUG None None None);
  Ok (mkRuntimeService (resolve_local_runtime_server_paths root) signer).

(** The state of the process: the kernel's, with the outcome writer over the files
    and no artifact store of its own. *)
Definition files_writer : Type := @file_writer unit F.
Definition service_world : Type := @kstate R E B X files_writer V unit.
#[local] Abbreviation service_m := (M exn service_world).

Definition files_of (s : service_world) : F := fw_files (w_writer s.1).
Definition files_lens : lens service_world F :=
  mkLens _ _ files_of (fun f s => lset k_writer_lens (lset fw_files_lens f (w_writer s.1)) s).

Variable service : LocalProofRuntimeService.

Definition outcome_writer : OutcomeWriter files_writer :=
  JsonArtifactOutcomeWriter (fun name text => fs_write (under (sp_outcomes_root (rs_paths service)) name) text) dumps (mkPublication None None 0%Z).

(** [JsonArtifactReceiptStore(outcomes_root).get_receipt], as the directory stands. *)
Definition receipt_store (f : F) : string -> py (option Receipt) :=
  JsonArtifactReceiptStore_get (fs_entries (under (sp_outcomes_root (rs_paths service)) "receipts") f).

Definition policy_router (f : F) : LocalRuntimePolicyRouter :=
  mkRouter (build_refund_policy_engine (Some (receipt_store f))) (build_invoice_payment_policy_engine (Some (receipt_store f))).

(** The kernel, with its policy over the receipts [f] holds. *)
Definition runtime_kernel (f : F) : @ProtectedExecutionKernel files_writer unit :=
  mkKernel (router_evaluate (policy_router f)) (mkPCCBMinter (local_signer (rs_signer service)) _runtime_issuer None)
    (mkMiddleware (mkPCCBVerifier (local_verifier (rs_signer service)) DEFAULT_CLOCK_SKEW_TOLERANCE LOCAL_DEBUG None None None) outcome_writer) outcome_writer None None None false.

(** *** Key discovery *)

(** The document, or why there is none. *)
Definition _load_valid_key_discovery_document (n : option node) : py (option dict * option string) :=
  match n with
  | None => Ok (None, None)
  | Some n =>
      let invalid why : py (option dict * option string) := Ok (None, Some why) in
      match match n with Directory => Err (OtherError "IsADirectoryError") | File bytes => read_json bytes end with
      | Err (ValueError _) => invalid "key-discovery publication file is not valid JSON"
      | Err e => Err e
      | Ok (JDict payload) =>
          if is_str (dget payload "format") "actenon-local-hmac-key-v1"
          then invalid "local HMAC key material must not be served as public key discovery"
          else match dget payload "contract" with
               | JDict contract =>
                   if negb (is_str (dget contract "name") "key_discovery") || negb (is_str (dget contract "version") "v1")
                   then invalid "key-discovery publication file must declare key_discovery v1"
                   else match dget payload "keys" with
                        | JList (_ :: _) => Ok (Some payload, None)
                        | _ => invalid "key-discovery publication file must include at least one published verification key"
                        end
               | _ => invalid "key-discovery publication file must declare a contract object"
               end
      | Ok _ => invalid "key-discovery publication file must be a JSON object"
      end
  end.

Definition published_document (f : F) : py (option dict * option string) :=
  _load_valid_key_discovery_document (fs_node (sp_key_discovery_path (rs_paths service)) f).

Definition key_discovery_status (f : F) : py (bool * string) :=
  found ← published_document f;
  let path := sp_key_discovery_path (rs_paths service) in
  Ok match found with
     | (Some _, _) => (true, "publishable key-discovery document is available from the local runtime keys directory.")
     | (None, Some error) => (false, error +:+ "; fix " +:+ path +:+ " before treating this runtime as publicly discoverable.")
     | (None, None) => (false, "default local single-node HS256 mode does not publish public verification material; place a publishable key_discovery document at "
                                 +:+ path +:+ " to serve one.")
     end.

Definition trust_mode : json := JDict
  [("type", JStr "single-node-local-proof"); ("algorithm", JStr "HS256"); ("key_id", JStr LOCAL_PROOF_KEY_ID); ("publishable", JBool false)].

Definition no_publication (reason_code summary : string) : dict :=
  [("ok", JBool false); ("available", JBool false); ("reason_code", JStr reason_code); ("summary", JStr summary);
   ("canonical_path", JStr WELL_KNOWN_KEYS_PATH); ("legacy_path", JStr LEGACY_WELL_KNOWN_KEYS_PATH);
   ("publication_path", JStr (sp_key_discovery_path (rs_paths service))); ("trust_mode", trust_mode)].

Definition key_discovery_response (f : F) : py (Z * dict) :=
  found ← published_document f;
  Ok match found with
     | (Some payload, _) => (200%Z, payload)
     | (None, Some error) => (409%Z, no_publication "KEY_DISCOVERY_INVALID" error)
     | (None, None) => (409%Z, no_publication "KEY_DISCOVERY_UNAVAILABLE"
                                 "Default local single-node HS256 mode does not publish public verification material.")
     end.

(** *** Health and start-up *)

(** What the health answer and the start-up information have in common. *)
Definition runtime_links (base_url : string) (key_available : bool) (key_summary : string) (trace_viewer_url : option string) (trace_viewer_status : string) : dict :=
  [("issuer_url", JStr base_url); ("intents_url", JStr (base_url +:+ "/v1/intents")); ("preflight_url", JStr (base_url +:+ "/v1/preflight"));
   ("health_url", JStr (base_url +:+ "/healthz")); ("issuer", JDict (PartyRef_to_dict _runtime_issuer));
   ("supported_capabilities", strings _runtime_supported_capabilities); ("key_discovery_url", JStr (base_url +:+ WELL_KNOWN_KEYS_PATH));
   ("key_discovery_alias_url", JStr (base_url +:+ LEGACY_WELL_KNOWN_KEYS_PATH)); ("key_discovery_available", JBool key_available);
   ("key_discovery_summary", JStr key_summary); ("key_discovery_document_path", JStr (sp_key_discovery_path (rs_paths service)));
   ("trace_viewer_url", Receipts.opt_json trace_viewer_url); ("trace_viewer_status", JStr trace_viewer_status);
   ("artifact_dir", JStr (sp_artifacts_root (rs_paths service))); ("replay_store_path", JStr (sp_replay_db_path (rs_paths service)));
   ("escrow_store_path", JStr (sp_escrow_db_path (rs_paths service))); ("next_step_example", JStr ("curl -s " +:+ base_url +:+ "/healthz"))].

Definition health_payload (f : F) (base_url : string) (trace_viewer_url : option string) : py dict :=
  '(key_available, key_summary) ← key_discovery_status f;
  let status := match trace_viewer_url with Some _ => "started" | None => "not started" end in
  Ok (("ok", JBool true) :: runtime_links base_url key_available key_summary trace_viewer_url status ++ [("trust_mode", trust_mode)]).

(** [startup_info.to_dict()] *)
Definition startup_info (f : F) (url : string) (trace_viewer_url : option string) (trace_viewer_status : string) : py dict :=
  '(key_available, key_summary) ← key_discovery_status f;
  Ok (("runtime_root", JStr (sp_root (rs_paths service))) :: runtime_links url key_available key_summary trace_viewer_url trace_viewer_status).

Definition service_manifest (info : dict) (generated_at : datetime) (trace_viewer_enabled : bool) : dict :=
  [("format", JStr "actenon-local-runtime-service-v1"); ("generated_at", JStr (format_timestamp generated_at)); ("runtime", JDict info);
   ("trace_viewer_enabled", JBool trace_viewer_enabled)].

(** The end of [start_local_runtime_services], once the servers run: [Err] is the
    trace viewer's [OSError]. *)
Definition finish_startup (url : string) (enable_trace_viewer : bool) (viewer : string + string) (generated_at : datetime) : M exn F dict :=
  let trace_viewer_url := if enable_trace_viewer then match viewer with inl u => Some u | inr _ => None end else None in
  let status := if enable_trace_viewer then match viewer with inl _ => "started" | inr exc => "not started (" +:+ exc +:+ ")" end
                else "disabled by configuration" in
  f ← gets id;
  info ← lift (startup_info f url trace_viewer_url status);
  _ ← fs_write (sp_service_manifest_path (rs_paths service))
        (dumps (service_manifest info generated_at match trace_viewer_url with Some _ => true | None => false end) +:+ newline);
  mret info.

(** *** Preflight *)

(** [except (ContractValidationError, ValueError, TypeError)] *)
Definition preflight_error (e : exn) : bool :=
  is_type_or_value_error e || match e with Refused r => bool_decide (exc_cls r = ContractValidationErrorC) | _ => false end.

Definition preflight_evidence (raw_request : dict) (raw_context : option dict) : py dict :=
  evidence ← py_dict (py_or (dget raw_request "evidence_context") (py_or (dget raw_request "evidence") (JDict [])));
  Ok match mapping_at (default [] raw_context) "facts" with Some facts => assoc_merge facts evidence | None => evidence end.

Definition preflight (raw_request : dict) : py (Z * dict) :=
  match ('(payload, raw_context) ← _extract_request_payload raw_request;
         evidence ← preflight_evidence raw_request raw_context;
         preflight_check DEFAULT_PREFLIGHT_POLICY_PACK (inr (JDict payload)) evidence) with
  | Ok decision => Ok (200%Z, [("ok", JBool true); ("request_id", JStr (py_str (dget_default raw_request "request_id" (JStr ""))));
                               ("decision", JDict (PreflightDecision_to_dict decision))])
  | Err e => if preflight_error e
             then Ok (400%Z, [("ok", JBool false); ("reason_code", JStr "PREFLIGHT_SCHEMA_INVALID"); ("summary", JStr (exn_text e))])
             else Err e
  end.

(** *** Submission *)

(** The draws of one submission: the random request identifier, the clock, and the
    identifiers of the kernel's factories. *)
Record submission_draws := mkDraws { sd_fresh : string; sd_now : datetime; sd_ids : kernel_ids }.

Definition is_contract_error (e : exn) : bool := match e with Refused r => bool_decide (exc_cls r = ContractValidationErrorC) | _ => false end.

(** The [try] block: the context, and the intent when it parsed. *)
Definition request_context (d : submission_draws) (payload : dict) (raw_context : option dict) (f : F) : py (option ActionIntent * DynamicContextInput) :=
  let fallback parsed := context ← _fallback_context (sd_fresh d) (sd_now d) raw_context; Ok (parsed, context) in
  match parse (JDict payload) with
  | Err e => if is_contract_error e then fallback None else Err e
  | Ok intent =>
      match _context_from_raw (sp_root (rs_paths service)) f (sd_fresh d) (sd_now d) intent raw_context with
      | Ok context => Ok (Some intent, context)
      | Err e => if is_contract_error e then fallback (Some intent) else Err e
      end
  end.

Definition context_payload (context : DynamicContextInput) : dict :=
  [("request_id", JStr (cx_request_id context)); ("audience", JDict (AudienceRef_to_dict (cx_audience context)));
   ("scope_capabilities", strings (cx_scope_capabilities context)); ("now", JStr (format_timestamp (cx_now context)));
   ("facts", JDict (cx_facts context)); ("parameter_constraints", JDict (cx_parameter_constraints context));
   ("resource_selectors", JList (map JDict (cx_resource_selectors context)));
   ("required_evidence_types", strings (cx_required_evidence_types context)); ("approver_types", strings (cx_approver_types context));
   ("max_ttl_seconds", match cx_max_ttl_seconds context with Some z => JInt z | None => JNull end)].

Definition request_dir (context : DynamicContextInput) (parsed : option ActionIntent) : string :=
  let intent_id := match parsed with Some i => in_intent_id i | None => "invalid_intent" end in
  under (sp_requests_root (rs_paths service)) (_safe_segment (cx_request_id context) +:+ "_" +:+ _safe_segment intent_id).

(** The record of a decided request, when there is one. *)
Definition request_record (context : DynamicContextInput) (parsed : option ActionIntent) (admission : AdmissionResult) : py (option IntentRecord) :=
  match parsed, ar_decision admission with
  | Some intent, Some decision =>
      record ← build_intent_record "local-runtime-issuer" intent context decision
        (mkRecordOptions None None (Receipts.opt_json (pc_pccb_id <$> ar_pccb admission)) (Receipts.opt_json (rc_receipt_id <$> ar_receipt admission))
           (Receipts.opt_json (rf_refusal_id <$> ar_refusal admission)) None None None None None);
      Ok (Some record)
  | _, _ => Ok None
  end.

(** [(request_dir / name).write_text(json.dumps(payload) + "\n")] *)
Definition write_artifact (dir name : string) (payload : dict) : M exn F unit := fs_write (under dir name) (dumps payload +:+ newline).
Definition write_if (dir name : string) (payload : option dict) : M exn F unit :=
  match payload with Some p => write_artifact dir name p | None => mret tt end.

Definition _write_request_artifacts (payload : dict) (context : DynamicContextInput) (admission : AdmissionResult) (parsed : option ActionIntent) : M exn F dict :=
  let dir := request_dir context parsed in
  let path_if (present : bool) (name : string) := if present then JStr (under dir name) else JNull in
  _ ← write_artifact dir (match parsed with Some _ => "action_intent.json" | None => "request_payload.json" end) payload;
  _ ← write_artifact dir "context.json" (context_payload context);
  _ ← write_if dir "pccb.json" (PCCB_to_dict <$> ar_pccb admission);
  record ← lift (request_record context parsed admission);
  _ ← write_if dir "intent_record.json" (IntentRecord_to_dict <$> record);
  _ ← write_if dir "receipt.json" (Receipt_to_dict <$> ar_receipt admission);
  _ ← write_if dir "refusal.json" (Refusal_to_dict <$> ar_refusal admission);
  mret [("request_dir", JStr dir); ("action_intent", path_if (bool_decide (is_Some parsed)) "action_intent.json");
        ("context", JStr (under dir "context.json")); ("intent_record", path_if (bool_decide (is_Some record)) "intent_record.json");
        ("pccb", path_if (bool_decide (is_Some (ar_pccb admission))) "pccb.json");
        ("receipt", path_if (bool_decide (is_Some (ar_receipt admission))) "receipt.json");
        ("refusal", path_if (bool_decide (is_Some (ar_refusal admission))) "refusal.json")].

Definition opt_dict {A} (to_dict : A -> dict) (x : option A) : json := match x with Some a => JDict (to_dict a) | None => JNull end.

Definition admission_response (context : DynamicContextInput) (admission : AdmissionResult) (artifact_paths : dict) : dict :=
  [("ok", JBool (bool_decide (ar_refusal admission = None))); ("request_id", JStr (cx_request_id context));
   ("issuer", JDict (PartyRef_to_dict _runtime_issuer)); ("supported_capabilities", strings _runtime_supported_capabilities);
   ("decision", runtime_decision_payload (ar_decision admission)); ("escrow_id", Receipts.opt_json (ar_escrow_id admission));
   ("pccb", opt_dict PCCB_to_dict (ar_pccb admission)); ("receipt", opt_dict Receipt_to_dict (ar_receipt admission));
   ("refusal", opt_dict Refusal_to_dict (ar_refusal admission)); ("artifacts", JDict artifact_paths)].

Definition runtime_submit_intent (d : submission_draws) (raw_request : dict) : service_m (Z * dict) :=
  '(payload, raw_context) ← lift (_extract_request_payload raw_request);
  f ← gets files_of;
  '(parsed, context) ← lift (request_context d payload raw_context f);
  admission ← submit_intent (runtime_kernel f) context (sd_ids d) (JDict payload);
  artifact_paths ← zoom files_lens (_write_request_artifacts payload context admission parsed);
  mret (match ar_intent admission with None => 400 | Some _ => 200 end, admission_response context admission artifact_paths)%Z.

(** *** The HTTP handler *)
Definition not_found : Z * dict := (404%Z, [("ok", JBool false); ("message", JStr "not found")]).

Definition do_GET (path base_url : string) (trace_viewer_url : option string) (f : F) : py (Z * dict) :=
  if String.eqb path "/healthz" then payload ← health_payload f base_url trace_viewer_url; Ok (200%Z, payload)
  else if str_mem path [WELL_KNOWN_KEYS_PATH; LEGACY_WELL_KNOWN_KEYS_PATH] then key_discovery_response f
  else Ok not_found.

Definition schema_invalid (summary : string) : Z * dict :=
  (400%Z, [("ok", JBool false); ("reason_code", JStr "SCHEMA_INVALID"); ("summary", JStr summary)]).

(** [body] is what was read, [content_length] the header's text: a length that is
    not a number ends the request outside the handler's [try]. *)
Definition do_POST (d : submission_draws) (path : string) (content_length : string) (body : string) : service_m (Z * dict) :=
  if negb (str_mem path ["/v1/intents"; "/v1/preflight"]) then mret not_found
  else
    _ ← lift (py_int (JStr content_length));
    match from_json_error (loads_no_duplicate_keys platform_parse_text platform_utf8_valid (RawBytes (if str_truthy body then body else "{}"))
                             DEFAULT_MAX_JSON_BYTES DEFAULT_MAX_JSON_DEPTH) with
    | Err (ValueError _) => mret (schema_invalid "Request body must be valid JSON.")
    | Err e => raise e
    | Ok (JDict payload) => if String.eqb path "/v1/preflight" then lift (preflight payload) else runtime_submit_intent d payload
    | Ok _ => mret (schema_invalid "Request body must be a JSON object.")
    end.
End Service.

(** ** [generate_local_hmac_key_material] of [local_runtime.py] *)
Definition LOCAL_HMAC_KEY_FORMAT : string := "actenon-local-hmac-key-v1".

Definition hmac_key_material (random : string) (generated_at : datetime) (key_id : string) : dict :=
  [("format", JStr LOCAL_HMAC_KEY_FORMAT); ("generated_at", JStr (format_timestamp generated_at)); ("mode", JStr "single-node-local-proof");
   ("algorithm", JStr "HS256"); ("key_id", JStr key_id); ("secret_encoding", JStr "base64url"); ("secret", JStr (b64url_encode random));
   ("publishable", JBool false); ("supports", strings ["proof_sign"; "proof_verify"]);
   ("notes", strings ["This file is for local single-node issuer and verifier use.";
      "It is not publishable through key discovery because symmetric secrets are not public verification material."])].

(** [token_bytes(n)] is [token_bytes]. *)
Definition generate_local_hmac_key_material {F} `{FileSystem F} (dumps : dict -> string) (token_bytes : Z -> string) (output_path key_id : string) (secret_bytes : Z)
    (now : datetime) : M exn F dict :=
  if (secret_bytes <? 16)%Z then raise (ValueError "secret_bytes must be at least 16")
  else
    let payload := hmac_key_material (token_bytes secret_bytes) now key_id in
    _ ← fs_write output_path (dumps payload +:+ newline);
    mret payload.

(** ** Facts *)
Section Facts.
Context `{Protocol} `{ProtocolAuthority} `{ProtocolEffects} `{PyText} `{Platform} `{Ed25519} `{UnicodeData} `{Hmac} `{Base64Padding}.
Context {R E B X V F : Type} `{ReplayStore R} `{CapabilityEscrow E} `{FileSystem F}.
Variable (dumps : dict -> string) (service : LocalProofRuntimeService).
#[local] Abbreviation service_world := (@service_world R E B X V F).

(** *** Admission *)

(** What a domain policy must have authorised. *)
Definition domain_authorised (f : F) (intent : ActionIntent) (context : DynamicContextInput) : Prop :=
  (act_capability (in_action intent) = "refund.execute" /\ refund_authorised (Some (receipt_store service f)) intent context) \/
  (act_capability (in_action intent) = "invoice_payment.execute" /\ invoice_payment_authorised (Some (receipt_store service f)) intent context).

Lemma router_allows f intent context :
  (exists d, router_evaluate (policy_router service f) intent context = Ok d /\ pd_outcome d = Allow) <-> domain_authorised f intent context.
Proof.
  unfold router_evaluate, domain_authorised. rewrite <- refund_engine_exact, <- invoice_engine_exact. unfold engine_allows. cbn [policy_router ro_refund_engine ro_invoice_payment_engine].
  destruct (String.eqb_spec (act_capability (in_action intent)) "refund.execute") as [->|Hr]; [naive_solver|].
  destruct (String.eqb_spec (act_capability (in_action intent)) "invoice_payment.execute") as [->|Hi]; [naive_solver|].
  split; [|naive_solver]. intros (d & [= <-] & Ho). done.
Qed.

(** The request's files are the only ones a submission writes outside the outcomes. *)
Definition REQUEST_FILES : list string :=
  ["action_intent.json"; "request_payload.json"; "context.json"; "pccb.json"; "intent_record.json"; "receipt.json"; "refusal.json"].

Lemma under_inj base a b : under base a = under base b -> a = b.
Proof. unfold under. intros Ha. apply (inj (String.append base)) in Ha. by injection Ha. Qed.

Lemma eqb_under base a b : String.eqb (under base a) (under base b) = String.eqb a b.
Proof. destruct (String.eqb_spec a b) as [->|Hn]; [apply String.eqb_refl|]. apply String.eqb_neq. intros Hu. by apply under_inj in Hu. Qed.

(** *** Segments *)
Lemma has_char_app c a b : has_char c (a +:+ b) = has_char c a || has_char c b.
Proof. induction a as [|x a IH]; [done|]. simpl. by rewrite IH, orb_assoc. Qed.

Lemma has_char_concat c l : has_char c (concat_chars l) = existsb (has_char c) l.
Proof. induction l as [|x l IH]; [done|]. simpl. by rewrite has_char_app, IH. Qed.

Lemma has_char_prefix c n s : has_char c s = false -> has_char c (py_prefix n s) = false.
Proof.
  intros Hs. rewrite <- (concat_py_chars s), has_char_concat in Hs. unfold py_prefix. rewrite has_char_concat.
  apply not_true_is_false. intros (x & Hx & Hc)%existsb_exists. apply not_true_iff_false in Hs. apply Hs, existsb_exists. exists x. split; [|done].
  rewrite <- (take_drop n (py_chars s)). apply in_or_app. by left.
Qed.

(** A text without separators, by evaluation. *)
Lemma no_path_chars s : forallb (fun c => negb (has_char c s)) PATH_CHARS = true -> forall c, c ∈ PATH_CHARS -> has_char c s = false.
Proof. rewrite forallb_forall. intros Hs c Hc%list_elem_of_In. by apply negb_true_iff, Hs. Qed.

(** Alphanumeric characters are not separators. *)
Definition separators_not_alnum : Prop := forall char c, char_isalnum char = true -> c ∈ PATH_CHARS -> has_char c char = false.

Lemma safe_char_has c char : separators_not_alnum -> c ∈ PATH_CHARS -> has_char c (safe_char char) = false.
Proof.
  intros Hs Hc. unfold safe_char. assert (forall x, x ∈ ["-"; "_"] -> has_char c x = false) as Hx.
  { intros x [->|[->|?%not_elem_of_nil]%elem_of_cons]%elem_of_cons; [by apply no_path_chars..|done]. }
  destruct (char_isalnum char) eqn:Ha; [by eapply Hs|]. cbn [orb]. destruct (str_mem char ["-"; "_"]) eqn:Hm; apply Hx; by apply str_mem_spec.
Qed.

Lemma safe_segment_has c value : separators_not_alnum -> c ∈ PATH_CHARS -> has_char c (_safe_segment value) = false.
Proof.
  intros Hs Hc. unfold _safe_segment. cbv zeta. destruct (str_truthy _).
  - apply has_char_prefix. rewrite has_char_concat. apply not_true_is_false. intros (x & Hx & Hh)%existsb_exists.
    apply in_map_iff in Hx as (y & <- & _). by rewrite safe_char_has in Hh.
  - by apply no_path_chars.
Qed.

Lemma safe_segment_length value : (py_len (_safe_segment value) <= 96)%Z.
Proof.
  unfold _safe_segment, py_len. cbv zeta. destruct (str_truthy _); [|vm_compute; discriminate].
  pose proof (py_prefix_length 96 (concat_chars (map safe_char (py_chars value)))). lia.
Qed.

Lemma request_segment a b : separators_not_alnum ->
  let segment := _safe_segment a +:+ "_" +:+ _safe_segment b in single_segment segment /\ (py_len segment <= 193)%Z.
Proof.
  intros Hs. cbv zeta. assert (has_char (Ascii.ascii_of_N 95) (_safe_segment a +:+ "_" +:+ _safe_segment b) = true) as Hu.
  { rewrite !has_char_app. simpl. by rewrite orb_true_r. }
  split.
  - unfold single_segment. split_and!; try (intros Heq; rewrite Heq in Hu; discriminate Hu).
    intros c Hc. rewrite !has_char_app, !safe_segment_has by done.
    by rewrite (no_path_chars "_").
  - unfold py_len. pose proof (safe_segment_length a) as Ha. pose proof (safe_segment_length b) as Hb. unfold py_len in Ha, Hb.
    pose proof (py_chars_app_length (_safe_segment a) ("_" +:+ _safe_segment b)). pose proof (py_chars_app_length "_" (_safe_segment b)).
    change (length (py_chars "_")) with 1 in *. lia.
Qed.

(** *** Files *)

(** What is at [q]. *)
Definition at_path (q : string) (s : service_world) : option node := fs_node q (files_of s).

Lemma write_elsewhere p text q f : q <> p -> fs_node q (fs_write p text f).2 = fs_node q f.
Proof.
  intros Hq. destruct (fs_write p text f) as [[[]|e] f'] eqn:Hw; simpl.
  - rewrite (fs_write_Ok _ _ _ _ Hw). by rewrite (proj2 (String.eqb_neq p q)) by done.
  - by eapply fs_write_Err.
Qed.

Lemma outcome_elsewhere q name text (publish : M exn unit unit) : (forall name, q <> under (sp_outcomes_root (rs_paths service)) name) ->
  forall w : files_writer, fs_node q (fw_files ((zoom fw_files_lens (fs_write (under (sp_outcomes_root (rs_paths service)) name) text) ≫= fun _ => zoom fw_graph_lens publish) w).2)
    = fs_node q (fw_files w).
Proof.
  intros Hq w. pose proof (write_elsewhere _ text q (fw_files w) (Hq name)) as Hw. unfold mbind, M_bind, zoom. simpl.
  destruct (fs_write _ text (fw_files w)) as [[a|e] f'] eqn:Hf; simpl in *; [|by rewrite ?Hf]. by destruct (publish _).
Qed.

Lemma leaves_writer q (write : M exn (@files_writer F) unit) :
  (forall w, fs_node q (fw_files (write w).2) = fs_node q (fw_files w)) -> leaves (at_path q) (zoom k_writer_lens write).
Proof. intros Hw s. specialize (Hw (w_writer s.1)). unfold zoom, at_path, files_of. cbn [lget k_writer_lens]. by destruct (write (w_writer s.1)). Qed.

(** A submission writes nothing but outcomes through the kernel. *)
Lemma submit_files f context ids payload q : (forall name, q <> under (sp_outcomes_root (rs_paths service)) name) ->
  leaves (at_path q) (submit_intent (runtime_kernel dumps service f) context ids payload).
Proof.
  intros Hq.
  assert (forall r, leaves (at_path q) (k_write_receipt (runtime_kernel dumps service f) r)) as Hr.
  { intros r. apply leaves_writer. intros w. by apply outcome_elsewhere. }
  assert (forall r, leaves (at_path q) (k_write_refusal (runtime_kernel dumps service f) r)) as Hf.
  { intros r. apply leaves_writer. intros w. by apply outcome_elsewhere. }
  unfold submit_intent, refuse_intake, admit_denied, admit_pending, admit_allowed, grant, refuse_unsealed.
  leaves_with ltac:(first [apply Hr|apply Hf]).
Qed.

Lemma leaves_write_if q dir name payload : q <> under dir name -> leaves (fs_node q) (write_if dumps dir name payload).
Proof. intros Hq f. destruct payload; [|done]. by apply write_elsewhere. Qed.

Lemma write_if_there dir name payload f f' : write_if dumps dir name (Some payload) f = (Ok tt, f') ->
  fs_node (under dir name) f' = Some (File (dumps payload +:+ newline)).
Proof. intros Hw. rewrite (fs_write_Ok _ _ _ _ Hw). by rewrite String.eqb_refl. Qed.

Lemma write_if_kept dir name name' payload f f' : write_if dumps dir name payload f = (Ok tt, f') -> name' <> name ->
  fs_node (under dir name') f' = fs_node (under dir name') f.
Proof.
  intros Hw Hn. assert (under dir name' <> under dir name) as Hu by (intros Hu; by apply under_inj in Hu).
  pose proof (leaves_write_if _ _ name payload Hu f) as Hk. by rewrite Hw in Hk.
Qed.

Lemma artifacts_elsewhere payload context admission parsed q :
  (forall name, name ∈ REQUEST_FILES -> q <> under (request_dir service context parsed) name) ->
  leaves (fs_node q) (_write_request_artifacts dumps service payload context admission parsed).
Proof.
  intros Hq. unfold _write_request_artifacts. cbv zeta.
  assert (forall name, name ∈ REQUEST_FILES -> forall p, leaves (fs_node q) (write_if dumps (request_dir service context parsed) name p)) as Hw
    by (intros name Hn p; by apply leaves_write_if, Hq).
  change (write_artifact dumps) with (fun dir name p => write_if dumps dir name (Some p)). cbv beta.
  leaves_with ltac:(apply Hw; apply str_mem_spec; by repeat case_match).
Qed.

(** A file of the request's directory holds this object, and the answer names it. *)
Definition on_disk (dir name key : string) (content : dict) (paths : dict) (f : F) : Prop :=
  dget paths key = JStr (under dir name) /\ fs_node (under dir name) f = Some (File (dumps content +:+ newline)).

(** An optional artifact: on disk and named, or not named. *)
Definition on_disk_if {A} (dir name key : string) (to_dict : A -> dict) (a : option A) (paths : dict) (f : F) : Prop :=
  match a with Some a => on_disk dir name key (to_dict a) paths f | None => dget paths key = JNull end.

(** Every artifact of a request is on disk, in its directory, at the path the answer names. *)
Record artifacts_written (dir : string) (payload : dict) (context : DynamicContextInput) (parsed : option ActionIntent)
    (admission : AdmissionResult) (paths : dict) (f : F) : Prop := {
  aw_dir : dget paths "request_dir" = JStr dir;
  aw_payload : match parsed with
               | Some _ => on_disk dir "action_intent.json" "action_intent" payload paths f
               | None => dget paths "action_intent" = JNull /\
                   fs_node (under dir "request_payload.json") f = Some (File (dumps payload +:+ newline))
               end;
  aw_context : on_disk dir "context.json" "context" (context_payload context) paths f;
  aw_record : exists record, request_record context parsed admission = Ok record /\
                on_disk_if dir "intent_record.json" "intent_record" IntentRecord_to_dict record paths f;
  aw_pccb : on_disk_if dir "pccb.json" "pccb" PCCB_to_dict (ar_pccb admission) paths f;
  aw_receipt : on_disk_if dir "receipt.json" "receipt" Receipt_to_dict (ar_receipt admission) paths f;
  aw_refusal : on_disk_if dir "refusal.json" "refusal" Refusal_to_dict (ar_refusal admission) paths f
}.

(** The file was written by one of the steps, and the later ones write others. *)
#[local] Ltac written := repeat (erewrite write_if_kept; [|eassumption|discriminate]); by eapply write_if_there.

Lemma write_request_artifacts_Ok payload context admission parsed f paths f' :
  _write_request_artifacts dumps service payload context admission parsed f = (Ok paths, f') ->
  artifacts_written (request_dir service context parsed) payload context parsed admission paths f'.
Proof.
  unfold _write_request_artifacts. cbv zeta. set (dir := request_dir service context parsed). change (write_artifact dumps dir) with (fun name p => write_if dumps dir name (Some p)).
  cbv beta. intros Hw. M_inv. repeat match goal with x : unit |- _ => destruct x end.
  split; [reflexivity|..].
  - destruct parsed; (split; [reflexivity|]); written.
  - split; [reflexivity|]. destruct parsed; written.
  - match goal with Hr : request_record _ _ _ = Ok ?r |- _ => exists r; split; [exact Hr|]; destruct r end; [split; [reflexivity|]; written|reflexivity].
  - destruct (ar_pccb admission); [split; [reflexivity|]; written|reflexivity].
  - destruct (ar_receipt admission); [split; [reflexivity|]; written|reflexivity].
  - destruct (ar_refusal admission); [split; [reflexivity|]; written|reflexivity].
Qed.

(** *** The steps of a submission *)
Lemma runtime_submit_Ok d raw (s s' : service_world) status response :
  runtime_submit_intent dumps service d raw s = (Ok (status, response), s') ->
  exists payload raw_context parsed context admission s1 paths f',
    _extract_request_payload raw = Ok (payload, raw_context) /\
    request_context service d payload raw_context (files_of s) = Ok (parsed, context) /\
    submit_intent (runtime_kernel dumps service (files_of s)) context (sd_ids d) (JDict payload) s = (Ok admission, s1) /\
    _write_request_artifacts dumps service payload context admission parsed (files_of s1) = (Ok paths, f') /\
    s' = lset files_lens f' s1 /\ status = match ar_intent admission with None => 400 | Some _ => 200 end%Z /\
    response = admission_response context admission paths.
Proof.
  unfold runtime_submit_intent. intros Hs. M_inv. repeat case_match. M_inv. repeat case_match. M_inv. naive_solver.
Qed.

(** Outside the outcome directory a submission writes to the directory of its own
    request, and when the request has none, to nothing. *)
Lemma submission_confined d raw (s : service_world) q :
  (forall name, q <> under (sp_outcomes_root (rs_paths service)) name) ->
  (forall payload raw_context parsed context name, _extract_request_payload raw = Ok (payload, raw_context) ->
     request_context service d payload raw_context (files_of s) = Ok (parsed, context) -> name ∈ REQUEST_FILES ->
     q <> under (request_dir service context parsed) name) ->
  at_path q (runtime_submit_intent dumps service d raw s).2 = at_path q s.
Proof.
  intros Ho Hd. unfold runtime_submit_intent, lift, gets, mret, M_ret. rewrite M_bind_run.
  destruct (_extract_request_payload raw) as [[payload raw_context]|e]; [|done]. rewrite M_bind_run, M_bind_run.
  destruct (request_context service d payload raw_context (files_of s)) as [[parsed context]|e] eqn:Hc; [|done].
  rewrite M_bind_run. pose proof (submit_files (files_of s) context (sd_ids d) (JDict payload) q Ho s) as Hs.
  destruct (submit_intent (runtime_kernel dumps service (files_of s)) context (sd_ids d) (JDict payload) s) as [[admission|e] s1]; [|done].
  rewrite <- Hs. cbn [snd]. rewrite M_bind_run. unfold zoom, at_path.
  pose proof (artifacts_elsewhere payload context admission parsed q (fun name Hn => Hd _ _ _ _ name eq_refl Hc Hn) (files_of s1)) as Hl.
  cbn [lget files_lens]. by destruct (_write_request_artifacts _ _ _ _ _ _ (files_of s1)) as [[]].
Qed.

(** The files of a submission whose context and intent, if it has them, are these. *)
Lemma submission_artifacts d raw (s : service_world) context parsed :
  (forall payload raw_context parsed' context', _extract_request_payload raw = Ok (payload, raw_context) ->
     request_context service d payload raw_context (files_of s) = Ok (parsed', context') -> parsed' = parsed /\ context' = context) ->
  let dir := request_dir service context parsed in
  let o := runtime_submit_intent dumps service d raw s in
  (forall q, (forall name, q <> under (sp_outcomes_root (rs_paths service)) name) -> (forall name, name ∈ REQUEST_FILES -> q <> under dir name) ->
     fs_node q (files_of o.2) = fs_node q (files_of s)) /\
  (forall status response, o.1 = Ok (status, response) ->
     exists payload raw_context parsed context admission paths,
       _extract_request_payload raw = Ok (payload, raw_context) /\
       request_context service d payload raw_context (files_of s) = Ok (parsed, context) /\
       dir = request_dir service context parsed /\ response = admission_response context admission paths /\
       artifacts_written dir payload context parsed admission paths (files_of o.2)).
Proof.
  intros Hdir. cbv zeta. split.
  - intros q Ho Hd. apply (submission_confined d raw s q Ho). intros payload raw_context parsed' context' name Hx Hc.
    destruct (Hdir _ _ _ _ Hx Hc) as [-> ->]. apply Hd.
  - intros status response Ho. destruct (runtime_submit_intent dumps service d raw s) as [r s'] eqn:Hs. simpl in Ho |- *. subst r.
    apply runtime_submit_Ok in Hs as (payload & raw_context & parsed' & context' & admission & s1 & paths & f' & Hx & Hc & Hk & Hw & -> & -> & ->).
    destruct (Hdir _ _ _ _ Hx Hc) as [-> ->]. exists payload, raw_context, parsed, context, admission, paths. split_and!; try done.
    by eapply write_request_artifacts_Ok.
Qed.

(** *** Key discovery *)

(** A document that may be served: not symmetric key material, of the contract
    [key_discovery] v1, with at least one key. *)
Definition publishable (payload : dict) : Prop :=
  dget payload "format" <> JStr LOCAL_HMAC_KEY_FORMAT /\
  (exists contract, dget payload "contract" = JDict contract /\ dget contract "name" = JStr "key_discovery" /\ dget contract "version" = JStr "v1") /\
  exists key keys, dget payload "keys" = JList (key :: keys).

Lemma valid_document_iff n payload error :
  _load_valid_key_discovery_document n = Ok (Some payload, error) <->
  error = None /\ exists bytes, n = Some (File bytes) /\ read_json bytes = Ok (JDict payload) /\ publishable payload.
Proof.
  unfold _load_valid_key_discovery_document, publishable, LOCAL_HMAC_KEY_FORMAT. split.
  - intros Hl. destruct n as [[|bytes]|]; [done| |done].
    destruct (read_json bytes) as [[| | | | | |p]|e] eqn:Hr; [done..| |by destruct e]. cbv zeta in Hl.
    destruct (is_str (dget p "format") "actenon-local-hmac-key-v1") eqn:Hf; [done|].
    destruct (dget p "contract") as [| | | | | |c] eqn:Hc; [done..|].
    destruct (is_str (dget c "name") "key_discovery") eqn:Hn; [apply is_str_true in Hn|done].
    destruct (is_str (dget c "version") "v1") eqn:Hv; [apply is_str_true in Hv|done].
    destruct (dget p "keys") as [| | | | |[|k ks]|] eqn:Hk; try done. injection Hl as <- <-. split; [done|]. exists bytes. split; [done|]. split; [done|].
    split; [by intros Heq; apply is_str_true in Heq; congruence|]. split; [by exists c|]. by exists k, ks.
  - intros (-> & bytes & -> & -> & Hf & (c & -> & Hn & Hv) & k & ks & ->). rewrite Hn, Hv. cbn [is_str negb orb]. rewrite !String.eqb_refl.
    destruct (is_str (dget payload "format") "actenon-local-hmac-key-v1") eqn:Heq; [by apply is_str_true in Heq|done].
Qed.

Lemma generated_material_format random now key_id : dget (hmac_key_material random now key_id) "format" = JStr LOCAL_HMAC_KEY_FORMAT.
Proof. reflexivity. Qed.

(** *** The default context of a refund *)
Lemma default_refund_facts_bare root f intent : fs_node (lab_state_path root "local_proof") f = None ->
  exists facts, _default_refund_facts root f intent = Ok facts /\
    dget facts "payment_id" = JStr (tgt_resource_id (in_target intent)) /\
    dget facts "payment_currency" = dget (parameters intent) "currency" /\
    dget facts "remaining_refundable_minor" = dget_default (parameters intent) "amount_minor" (JInt 0) /\
    (dget facts "risk_level" = JStr "normal" <-> demo_scenario intent ∉ ["deny"; "approval_required"; "needs_evidence"]).
Proof.
  intros Hn. unfold _default_refund_facts, lab_state, _load_json_if_present. rewrite Hn. cbn [mbind res_bind get_field get_item_of default].
  eexists. split; [reflexivity|]. split; [reflexivity|]. split; [reflexivity|]. split; [reflexivity|].
  unfold dget. cbn [assoc]. simpl (assoc _ _). rewrite <- str_mem_false. unfold str_mem. cbn [existsb].
  destruct (String.eqb (demo_scenario intent) "deny"); [cbn; naive_solver|].
  destruct (String.eqb (demo_scenario intent) "approval_required"); [cbn; naive_solver|].
  destruct (String.eqb (demo_scenario intent) "needs_evidence"); [cbn; naive_solver|]. cbn. naive_solver.
Qed.
End Facts.

(** ** Properties *)
Section Properties.
Context `{Protocol} `{ProtocolAuthority} `{ProtocolEffects} `{PyText} `{Platform} `{Ed25519} `{UnicodeData} `{Hmac} `{Base64Padding}.
Context {R E B X V F : Type} `{ReplayStore R} `{CapabilityEscrow E} `{FileSystem F}.
Variable (dumps : dict -> string) (service : LocalProofRuntimeService).
#[local] Abbreviation service_world := (@service_world R E B X V F).

(** C6: the runtime issues proofs for authorised actions only: whatever a submission
    answers, no replay, broker, effect or idempotency state moves; and either the
    answer carries no proof and no escrow was issued, or the submitted payload parses
    to an intent for one of the two supported capabilities, that capability's policy
    authorises it under the context of the request, the proof is the one minted for
    it, its escrow was issued, and the answer has status 200 and names both. *)
Theorem runtime_proof_authorised (d : submission_draws) (raw : dict) (s s' : service_world) (status : Z) (response : dict) :
  runtime_submit_intent dumps service d raw s = (Ok (status, response), s') ->
  bystanders s' = bystanders s /\
  ((dget response "pccb" = JNull /\ w_escrow s'.1 = w_escrow s.1) \/
   exists payload raw_context intent context pccb issued,
     _extract_request_payload raw = Ok (payload, raw_context) /\
     request_context service d payload raw_context (files_of s) = Ok (Some intent, context) /\
     domain_authorised service (files_of s) intent context /\
     admitted (runtime_kernel dumps service (files_of s)) context (sd_ids d) (JDict payload) intent pccb /\
     escrow_run (admission_issue (sd_ids d) intent pccb) (w_escrow s.1) = (Ok issued, w_escrow s'.1) /\
     status = 200%Z /\ dget response "pccb" = JDict (PCCB_to_dict pccb) /\ dget response "escrow_id" = JStr (kid_escrow (sd_ids d))).
Proof.
  intros (payload & raw_context & parsed & context & admission & s1 & paths & f' & Hx & Hc & Hs & Hw & -> & -> & ->)%runtime_submit_Ok.
  pose proof (submit_bystanders (runtime_kernel dumps service (files_of s)) context (sd_ids d) (JDict payload) s) as Hb. rewrite Hs in Hb.
  split; [exact Hb|].
  pose proof (submit_grants (runtime_kernel dumps service (files_of s)) context (sd_ids d) (JDict payload) s) as Hg. rewrite Hs in Hg.
  destruct Hg as [[He Hn]|(intent & pccb & issued & Ha & Hr & Hok)].
  - left. split; [|exact He]. unfold admission_response, dget. simpl. by rewrite (Hn _ eq_refl).
  - right. destruct (Hok _ eq_refl) as (Hi & Hp & Hid & x & ->). exists payload, raw_context, intent, context, pccb, x.
    split; [done|]. split.
    { rewrite Hc. unfold request_context in Hc. rewrite (adm_parsed _ _ _ _ _ _ Ha) in Hc. destruct (_context_from_raw _ _ _ _ _ _) as [c|e].
      - by injection Hc as <- _.
      - destruct (is_contract_error e); [|done]. destruct (_fallback_context _ _ _); simplify_eq/=; done. }
    split; [apply router_allows, (adm_allowed _ _ _ _ _ _ Ha)|]. split; [exact Ha|]. split; [exact Hr|].
    rewrite Hi. split; [done|]. unfold admission_response, dget. simpl. by rewrite Hp, Hid.
Qed.

(** C26: the artifacts of a request stay in one directory and are the ones the answer
    names: for every submission there is one directory of the requests root, its name a
    plain segment of at most 193 characters, such that, whether the submission returns
    or raises, every file that is neither below the outcome directory nor one of the
    seven request files of that directory is left alone; and when it returns, that
    directory is the one of the request's context and intent, and the submitted payload,
    the context, the intent record, the proof, the receipt and the refusal, those there
    are, are on disk in it, each at the path the answer gives.  Separators are not
    alphanumeric characters. *)
Theorem runtime_artifacts_confined (d : submission_draws) (raw : dict) (s : service_world) :
  separators_not_alnum ->
  let o := runtime_submit_intent dumps service d raw s in
  exists segment, single_segment segment /\ (py_len segment <= 193)%Z /\
    let dir := under (sp_requests_root (rs_paths service)) segment in
    (forall q, (forall name, q <> under (sp_outcomes_root (rs_paths service)) name) ->
       (forall name, name ∈ REQUEST_FILES -> q <> under dir name) ->
       fs_node q (files_of o.2) = fs_node q (files_of s)) /\
    (forall status response, o.1 = Ok (status, response) ->
       exists payload raw_context parsed context admission paths,
         _extract_request_payload raw = Ok (payload, raw_context) /\
         request_context service d payload raw_context (files_of s) = Ok (parsed, context) /\
         dir = request_dir service context parsed /\ response = admission_response context admission paths /\
         artifacts_written dumps dir payload context parsed admission paths (files_of o.2)).
Proof.
  intros Hsep. cbv zeta.
  assert (exists context parsed, forall payload raw_context parsed' context', _extract_request_payload raw = Ok (payload, raw_context) ->
    request_context service d payload raw_context (files_of s) = Ok (parsed', context') -> parsed' = parsed /\ context' = context) as (context & parsed & Hone).
  { set (none := mkContext "" (mkAudienceRef "" "" JNull) [] 0 [] [] [] [] [] None).
    destruct (_extract_request_payload raw) as [[payload raw_context]|e]; [|by exists none, None].
    destruct (request_context service d payload raw_context (files_of s)) as [[parsed context]|e] eqn:Hc.
    - exists context, parsed. intros ???? [= <- <-]. rewrite Hc. by intros [= <- <-].
    - exists none, None. intros ???? [= <- <-]. by rewrite Hc. }
  eexists. split; [apply request_segment; done|]. split; [apply request_segment; done|]. exact (submission_artifacts dumps service d raw s context parsed Hone).
Qed.

(** Key discovery publishes public keys only: it answers 200 exactly with the
    document on disk when that document is a [key_discovery] v1 document with a key
    and not symmetric key material, and 409 otherwise; so the secret that
    [generate_local_hmac_key_material] writes is not served, even from the
    publication path itself, where the loader reads back what was written up to the
    order of its fields. *)
Theorem key_discovery_public (f : F) :
  (forall payload, key_discovery_response service f = Ok (200%Z, payload) <->
     exists bytes, fs_node (sp_key_discovery_path (rs_paths service)) f = Some (File bytes) /\ read_json bytes = Ok (JDict payload) /\ publishable payload) /\
  (forall status payload, key_discovery_response service f = Ok (status, payload) -> status <> 200%Z ->
     status = 409%Z /\ exists code summary, payload = no_publication service code summary) /\
  (forall token_bytes key_id secret_bytes now material f',
     generate_local_hmac_key_material dumps token_bytes (sp_key_discovery_path (rs_paths service)) key_id secret_bytes now f = (Ok material, f') ->
     (exists read, read_json (dumps material +:+ newline) = Ok (JDict read) /\ forall k, dget read k = dget material k) ->
     key_discovery_response service f' =
       Ok (409%Z, no_publication service "KEY_DISCOVERY_INVALID" "local HMAC key material must not be served as public key discovery")).
Proof.
  unfold key_discovery_response, published_document. split; [|split].
  - intros payload. destruct (_load_valid_key_discovery_document _) as [[[p|] error]|e] eqn:Hl; cbn [mbind res_bind].
    + apply valid_document_iff in Hl as (_ & bytes & Hn & Hr & Hp). split; [intros [= <-]; eauto|].
      intros (bytes' & Hn' & Hr' & _). rewrite Hn in Hn'. injection Hn' as <-. rewrite Hr in Hr'. by injection Hr' as <-.
    + split; [by destruct error|]. intros (bytes & Hn & Hr & Hp). rewrite (proj2 (valid_document_iff _ payload None)) in Hl; naive_solver.
    + split; [done|]. intros (bytes & Hn & Hr & Hp). rewrite (proj2 (valid_document_iff _ payload None)) in Hl; naive_solver.
  - intros status payload ([[p|] error] & _ & Hr)%bind_Ok Hne; [by injection Hr as <- _|]. destruct error; injection Hr as <- <-; eauto.
  - intros token_bytes key_id n now material f' Hg (read & Hr & Hk). unfold generate_local_hmac_key_material in Hg. destruct (n <? 16)%Z; [done|]. M_inv.
    match goal with Hw : fs_write _ _ _ = (Ok ?u, _) |- _ => destruct u; rewrite (fs_write_Ok _ _ _ _ Hw) end. rewrite String.eqb_refl.
    cbn [_load_valid_key_discovery_document]. rewrite Hr. cbv zeta. rewrite Hk, generated_material_format. reflexivity.
Qed.

(** Without a payment ledger the runtime checks a refund against itself: for a refund
    submitted without a context, and no endpoint state on disk, the refund policy
    authorises exactly the well-formed refunds of the demo tenant in their window
    whose scenario is not one of the three demonstrations; the refundable balance, the
    currency and the payment are those the intent declares, so no amount is too
    large. *)
Theorem default_refund_decided (root : string) (f : F) (fresh : string) (now : datetime) (intent : ActionIntent)
    (store : option (string -> py (option Receipt))) :
  fs_node (lab_state_path root "local_proof") f = None -> act_capability (in_action intent) = "refund.execute" ->
  exists context, _context_from_raw root f fresh now intent None = Ok context /\
    cx_now context = now /\ cx_scope_capabilities context = ["refund.execute"] /\ cx_max_ttl_seconds context = Some 900%Z /\
    (refund_authorised store intent context <->
     well_timed intent context /\ evidence_verified store ["executed"] (Some "refund.execute") intent /\
     act_name (in_action intent) = "refund.create" /\ tgt_resource_type (in_target intent) = "payment" /\
     (exists raw z, assoc "amount_minor" (parameters intent) = Some raw /\ py_int_of raw = Some z /\ (0 < z)%Z) /\
     (exists currency, assoc "currency" (parameters intent) = Some (JStr currency) /\ currency_code currency) /\
     tenant_id (in_tenant intent) = "tenant_demo" /\ demo_scenario intent ∉ ["deny"; "approval_required"; "needs_evidence"]).
Proof.
  clear dumps service. intros Hn Hcap. destruct (default_refund_facts_bare root f intent Hn) as (facts & Hf & Hid & Hcur & Hrem & Hrisk).
  unfold _context_from_raw, _default_context_for_intent, _default_parameter_constraints. rewrite Hcap, Hf. cbn [mbind res_bind String.eqb Ascii.eqb Bool.eqb].
  eexists. split; [reflexivity|]. split; [reflexivity|]. split; [reflexivity|]. split; [reflexivity|].
  set (context := mkContext _ _ _ _ _ _ _ _ _ _).
  assert (cx_facts context = facts) as Hfacts by reflexivity. clearbody context. split.
  - intros [Ht He (Ha & _ & Hty) (raw & z & Hraw & Hz & Hpos & _) (c & Hc & Hcode & _) _ (Hten & Hr)]. rewrite Hfacts in Hr.
    split_and!; try done; [by exists raw, z|by exists c|by apply Hrisk].
  - intros (Ht & He & Ha & Hty & (raw & z & Hraw & Hz & Hpos) & (c & Hc & Hcode) & Hten & Hsc). split; try done.
    + exists raw, z. split_and!; try done. right. exists z. rewrite Hfacts, Hrem. unfold dget_default. rewrite Hraw. split; [by apply py_int_of_int|lia].
    + exists c. split_and!; try done. right. rewrite Hfacts, Hcur. unfold dget. rewrite Hc. apply py_eqb_str_refl.
    + right. by rewrite Hfacts.
    + split; [done|]. rewrite Hfacts. by apply Hrisk.
Qed.
End Properties.

(** ** Samples *)

(** A file system of texts. *)
Abbreviation text_files := (gmap string string).
Definition entry_of (dir : string) (kv : string * string) : option (string * file_entry) :=
  let n := String.length dir in
  if String.eqb (String.substring 0 (S n) kv.1) (dir +:+ "/")
  then Some (String.substring (S n) (String.length kv.1) kv.1, mkFile true (Some kv.2)) else None.

#[global, program] Instance memory_files : FileSystem text_files := {|
  fs_node p f := File <$> f !! p;
  fs_entries dir f := omap (entry_of dir) (map_to_list f);
  fs_write p text := modify (<[p := text]>)
|}.
Next Obligation.
  intros p text f f' [= <-] q. destruct (String.eqb_spec p q) as [->|Hn]; [by rewrite lookup_insert_eq|by rewrite lookup_insert_ne].
Qed.
Next Obligation. done. Qed.

Definition ascii_unicode : UnicodeData := fun char =>
  match char with
  | String a "" => let n := Ascii.N_of_ascii a in ((48 <=? n) && (n <=? 57) || (65 <=? n) && (n <=? 90) || (97 <=? n) && (n <=? 122))%N
  | _ => false
  end.

Lemma ascii_separators : @separators_not_alnum ascii_unicode.
Proof.
  intros [|a [|]] c Ha Hc; [done| |done]. apply not_true_is_false. simpl. rewrite orb_false_r. intros ->%Ascii.eqb_eq. revert Ha.
  revert Hc. unfold PATH_CHARS. intros [->|[->|[->|?%not_elem_of_nil]%elem_of_cons]%elem_of_cons]%elem_of_cons; [vm_compute; discriminate..|done].
Qed.

Definition demo_service : LocalProofRuntimeService := mkRuntimeService (resolve_local_runtime_server_paths "/rt") demo_hmac_signer.
Definition demo_draws (n : string) : submission_draws := mkDraws n (cx_now sample_refund_context) (mkKernelIds ("esc_" +:+ n) ("pccb_" +:+ n) ("nonce_" +:+ n) ("rcpt_" +:+ n) ("rfsl_" +:+ n)).
Definition demo_service_world : @service_world store Memory.records broker_state unit nat text_files :=
  (mkExecWorld sample_store ∅ (mkBrokerState 0 [] []) tt [] (mkFileWriter ∅ tt) 0 [], tt).
Definition demo_refund_payload : dict := Eval vm_compute in match build_refund_action_intent_payload sample_refund with Ok d => d | Err _ => [] end.
Definition demo_submission (context : dict) : dict := [("action_intent", JDict demo_refund_payload); ("context", JDict context)].

#[local] Abbreviation demo_world := (@service_world store Memory.records broker_state unit nat text_files).
#[local] Abbreviation demo_submit := (@runtime_submit_intent demo_protocol sample_authority demo_text demo_platform ascii_unicode demo_hmac demo_padding
  store Memory.records broker_state unit nat text_files memory_escrow memory_files print demo_service).

(** Two submissions with the request identifier of the caller: an allowed one, and
    one whose facts block it. *)
Definition allowed_submission : dict := demo_submission [("request_id", JStr "r/1")].
Definition blocked_submission : dict := demo_submission [("request_id", JStr "r/1"); ("facts", JDict [("risk_level", JStr "blocked")])].
Definition after_allowed : demo_world := (demo_submit (demo_draws "1") allowed_submission demo_service_world).2.
Definition after_blocked : demo_world := (demo_submit (demo_draws "2") blocked_submission after_allowed).2.

Definition answered (r : py (Z * dict)) (k : string) : json := match r with Ok (_, response) => dget response k | Err _ => JNull end.

Lemma runtime_proof_authorised_witness : exists status response,
  (demo_submit (demo_draws "1") allowed_submission demo_service_world).1 = Ok (status, response) /\ dget response "pccb" <> JNull /\ status = 200%Z.
Proof.
  destruct (demo_submit (demo_draws "1") allowed_submission demo_service_world) as [[[status response]|e] s'] eqn:Hs.
  2: { apply (f_equal (fun o => is_ok o.1)) in Hs. vm_compute in Hs. discriminate Hs. }
  assert (answered (Ok (status, response)) "pccb" <> JNull) as Hp.
  { apply (f_equal (fun o => negb (bool_decide (answered o.1 "pccb" = JNull)))) in Hs. intros Hn. cbn [fst] in Hs. rewrite Hn in Hs.
    vm_compute in Hs. discriminate Hs. }
  exists status, response. split; [reflexivity|]. split; [exact Hp|].
  destruct (@runtime_proof_authorised demo_protocol sample_authority demo_text demo_platform ascii_unicode demo_hmac demo_padding _ _ _ _ _ _ memory_escrow memory_files
    print demo_service (demo_draws "1") allowed_submission demo_service_world s' status response Hs) as (_ & [[Hn _]|Hx]); [by destruct Hp|].
  destruct Hx as (? & ? & ? & ? & ? & ? & _ & _ & _ & _ & _ & Hst & _). exact Hst.
Defined.

Lemma runtime_artifacts_confined_witness : fs_node "/rt/keys/actenon-keys.json" (files_of after_allowed) = None /\
  exists dir p, fs_node (under dir "pccb.json") (files_of after_allowed) = Some (File (print p +:+ newline)) /\
    exists c, fs_node (under dir "context.json") (files_of after_allowed) = Some (File (print c +:+ newline)).
Proof.
  destruct (@runtime_artifacts_confined demo_protocol sample_authority demo_text demo_platform ascii_unicode demo_hmac demo_padding _ _ _ _ _ _ memory_escrow memory_files
    print demo_service (demo_draws "1") allowed_submission demo_service_world ascii_separators) as (segment & _ & _ & Hq & Ha).
  split.
  - etransitivity; [apply (Hq "/rt/keys/actenon-keys.json")|reflexivity]; intros; unfold under; simpl; intros [=].
  - destruct (demo_submit (demo_draws "1") allowed_submission demo_service_world).1 as [[status response]|e] eqn:Hs; [|apply (f_equal is_ok) in Hs; vm_compute in Hs; discriminate Hs].
    destruct (Ha _ _ eq_refl) as (payload & raw_context & parsed & context & admission & paths & _ & _ & _ & Hr & Hw).
    pose proof (aw_pccb _ _ _ _ _ _ _ _ Hw) as Hpccb. pose proof (aw_context _ _ _ _ _ _ _ _ Hw) as Hctx. unfold on_disk_if in Hpccb.
    destruct (ar_pccb admission) as [p|] eqn:Hp.
    + eexists _, (PCCB_to_dict p). split; [exact (proj2 Hpccb)|]. eexists. exact (proj2 Hctx).
    + apply (f_equal (fun o => negb (bool_decide (answered o "pccb" = JNull)))) in Hs. rewrite Hr in Hs. cbn [answered admission_response] in Hs.
      unfold dget in Hs. cbn in Hs. rewrite Hp in Hs. vm_compute in Hs. discriminate Hs.
Defined.

Definition demo_material : dict := Eval vm_compute in hmac_key_material "0123456789abcdef" sample_now "k1".
Definition demo_key_files : text_files := {["/rt/keys/actenon-keys.json" := print demo_material +:+ newline]}.
Lemma demo_material_written :
  generate_local_hmac_key_material print (fun _ => "0123456789abcdef") (sp_key_discovery_path (rs_paths demo_service)) "k1" 16 sample_now (∅ : text_files) =
    (Ok demo_material, demo_key_files).
Proof. vm_compute. reflexivity. Qed.

(** A parser of canonical texts that ends with a line. *)
Definition line_platform : Platform := {|
  path_encodable _ := true;
  platform_utf8_valid _ := true;
  platform_parse_text s := @platform_parse_text demo_platform (String.substring 0 (String.length s - 1) s)
|}.
Lemma demo_material_read : exists read, @read_json line_platform (print demo_material +:+ newline) = Ok (JDict read) /\
  forall k, dget read k = dget demo_material k.
Proof.
  exists (ksort demo_material). split; [vm_compute; reflexivity|]. intros k. unfold dget.
  by rewrite (assoc_perm k (ksort demo_material) demo_material) by first [apply (bool_decide_unpack _); reflexivity|apply ksort_perm].
Qed.

Lemma key_discovery_public_witness : exists payload, @key_discovery_response line_platform _ memory_files demo_service demo_key_files = Ok (409%Z, payload).
Proof.
  eexists. exact (proj2 (proj2 (@key_discovery_public line_platform _ memory_files print demo_service ∅)) _ _ _ _ _ _ demo_material_written demo_material_read).
Defined.

Lemma default_refund_decided_witness :
  exists context, @_context_from_raw demo_protocol demo_text demo_platform _ memory_files "/rt" (∅ : text_files) "1" sample_now (refund_intent sample_refund []) None = Ok context /\
    @refund_authorised demo_protocol demo_text None (refund_intent sample_refund []) context.
Proof.
  destruct (@default_refund_decided demo_protocol demo_text demo_platform _ memory_files "/rt" (∅ : text_files) "1" sample_now (refund_intent sample_refund []) None (f_equal (fmap File) (lookup_empty _)) eq_refl)
    as (context & Hc & Hnow & Hscope & Httl & Hiff).
  exists context. split; [exact Hc|]. apply Hiff. split; [|split_and!; try reflexivity].
  - constructor; rewrite ?Hnow, ?Hscope, ?Httl; try (vm_compute; split; congruence); [vm_compute; congruence|right; apply str_mem_spec; reflexivity].
  - left. reflexivity.
  - exists (JInt 1250), 1250%Z. split_and!; reflexivity.
  - exists "EUR". split; [reflexivity|]. split; reflexivity.
  - apply str_mem_false. reflexivity.
Defined.

(** A malformed context is not refused: the fallback reads the same field the same
    way and raises the error again, out of the HTTP handler. *)
Lemma malformed_context_escapes : exists exc,
  (demo_submit (demo_draws "1") (demo_submission [("audience", JInt 5)]) demo_service_world).1 = Err (Refused exc) /\
  exc_message exc = "context.audience must be a string or audience object".
Proof. eexists. split; vm_compute; reflexivity. Qed.

(** A request identifier used again mixes two requests: the directory of the blocked
    submission still holds the proof of the allowed one. *)
Lemma stale_proof_beside_refusal :
  answered (demo_submit (demo_draws "2") blocked_submission after_allowed).1 "pccb" = JNull /\
  answered (demo_submit (demo_draws "2") blocked_submission after_allowed).1 "refusal" <> JNull /\
  (exists t, fs_node "/rt/artifacts/requests/r_1_intent_9/refusal.json" (files_of after_blocked) = Some (File t)) /\
  (exists t, fs_node "/rt/artifacts/requests/r_1_intent_9/pccb.json" (files_of after_blocked) = Some (File t)).
Proof.
  split; [vm_compute; reflexivity|]. split; [vm_compute; discriminate|].
  split; eexists; vm_compute; reflexivity.
Qed.
